(* ===== verification/_CoqProject ===== *)
-Q . S2P
Prelude.v
Fields.v
Float32.v
Bit.v
Array.v
EqpString.v
HashTable.v
HashChains.v
HashTableSpec.v
HashTableMap.v
ZoneId.v
Aligned.v
Crc.v
PacketTrilogy.v
NetClient.v
AckMgr.v
ProtocolTrilogy.v
ProtocolStandard.v
UdpSocket.v
SendQueue.v
RecvFrame.v
Reassembly.v
Delivery.v
AckQueue.v
UdpSocketSpec.v
StandardSpec.v
Text.v
Servers.v
Query.v
DbThread.v
DbThreadSpec.v
Login.v
LoginTrilogy.v
LoginServer.v
LoginRegistry.v
LoginPackets.v
LoginSteps.v
LoginSpec.v
EqTime.v
PlayerProfile.v
CharCreate.v
CharSelect.v
CharSelectTrilogy.v
CharSelectSteps.v
CharSelectTcp.v
CharSelectSpec.v
CharSelectLimits.v
CharSelectLayout.v
IpcBuffer.v
IpcBufferSpec.v
Log.v
LogSpec.v
IpcSteps.v
IpcStepsSpec.v
TimerPool.v
TimerPoolSpec.v
ItemPrototype.v
ItemTable.v
ItemTableSpec.v
Mob.v
Inventory.v
Skills.v
ZoneClient.v
Zone.v
ZoneSpec.v
Fills.v
Obfuscate.v
ProfilePacket.v
ProfileLayout.v
ZonePackets.v
ZoneCluster.v
ZoneLayout.v
ZoneLoading.v
ZoneEntering.v
ZoneLeaving.v
ClientSave.v
ClientSaveSpec.v
Master.v
MasterSpec.v
Pfs.v
