(* ===== verification/Prelude.v ===== *)
(** * EQP: a server for the EverQuest Trilogy client

    This library models the server's processes and proves what they promise.
    This header says how the program is put together, which file models which
    part of it, what the theorems show, which bounds they assume, and what is
    left out. Every other file opens with a comment on its own content.

    ** The program

    The server is a family of processes under src/, each started and watched by
    the master process and connected to it by packet buffers in shared memory.
    - The login server (login/) accepts clients over UDP, checks their
      credentials against the database, lists the game servers that are
      connected to it over TCP, and tells a game server which account is coming.
    - Character select (char_select/) waits for clients that the login server
      announced, shows, creates and deletes characters, and asks the master
      process to let a character into its zone.
    - The master process (master/) starts the others, decides which zone cluster
      runs which zone, admits characters into zones, and passes items to the
      clusters in shared memory.
    - A zone cluster (zone_cluster/) runs up to eight zones: it loads the
      characters it was told to expect, sends them their profile, spawns them,
      broadcasts what happens to the other players, and saves them.
    - The item generator (item_gen/) runs beforehand and writes the file of items.
    - The log writer (log/) gets the messages of all processes from a packet
      buffer and keeps a file per process and zone.
    - All of them use containers, timers, packet cursors and packet buffers
      (common/) and those that talk to clients a reliable-UDP protocol
      (non_master/net/).

    A datagram enters at udp_socket_recv, goes to the protocol handler of its
    address, whose ack manager reassembles fragments and restores their order,
    and ends in client_recv_packet_trilogy of login server, character select or
    zone cluster. In the other direction handlers schedule packets, which are
    cut into fragments and sent, and resent, until the client acks them.

    ** How code is modelled

    - Integers are [Z] with the wrap-around of their C type written out ([u8] to
      [u64], [i8] to [i64] of this file); floats are the 32-bit words that
      represent them; bytes and strings are lists of [Z].
    - Code that may fail returns an [outcome]: [Throw] is exception_throw with its
      error code, [Fault] what C leaves undefined (an access outside an
      allocation, a NULL or dangling pointer, a loop that does not end).
    - Code that changes objects is in the state monad [code S A] of this file,
      over a record of the component's state. Objects that are shared or freed
      live in stores from addresses, so that aliasing and use after free are
      visible: freeing takes the address out, and an access to it faults.
    - What comes from outside is an argument: the clock, random numbers, results
      of system calls, rows of the database, fresh and therefore uninitialised
      memory, and the functions of zlib and OpenSSL, of which the theorems that
      need it assume their documented behaviour by name. What goes outside
      (datagrams, queries, calls of scripts, packets between processes) is kept
      in logs, in order.

    ** Files

    Common code (src/common, src/non_master):
    - [Prelude] (this file), [Fields] (record update), [Text] (C strings and
      decimal numbers), [Float32] (IEEE single precision);
    - [Bit]: bit.c, bit.h;  [Array]: container/eqp_array.c;
      [EqpString]: container/eqp_string.c;  [HashTable]:
      container/eqp_hash_table.c, with the interface it needs of its keys (a
      class that [EqpString] has an instance of), [HashChains], [HashTableSpec] and
      [HashTableMap] on its chains and on the finite map they implement;
    - [ZoneId]: zone_id.c;  [EqTime]: time/eq_time.c;  [Aligned]: aligned.c and
      aligned.h, with [Fills] for buffers that are written in place;  [Crc]: crc.c;
    - [TimerPool], [TimerPoolSpec]: time/timer.c, time/timer_pool.c;
    - [IpcBuffer], [IpcBufferSpec]: sync/ipc_buffer.c and ipc_set.c, one call at a
      time;  [IpcSteps], [IpcStepsSpec]: the same code as atomic steps of
      interleaved processes;
    - [Query]: db/query.c over SQLite as an interface;  [DbThread],
      [DbThreadSpec]: db/db_thread.c, the thread that executes queries and
      transactions, as steps between its critical sections;
    - [Log], [LogSpec]: log/eqp_log.c, and the log writer src/log;
    - [ItemPrototype]: item/item_prototype.c;  [ItemTable], [ItemTableSpec]:
      item/item_share_mem.c and item_gen/item_gen.c;
    - [PlayerProfile]: player_profile.h.
    Network (src/non_master/net):
    - [PacketTrilogy]: packet_trilogy.c;  [NetClient], with [SendQueue]
      and [AckQueue]: network_client_trilogy.c and the sending half of
      ack_mgr_trilogy.c;  [AckMgr], with [Reassembly]: its receiving half;
      [ProtocolTrilogy], with [RecvFrame]: protocol_handler_trilogy.c;
      [Delivery]: the two sides of a connection together;
    - [ProtocolStandard], [StandardSpec]: protocol_handler_standard.c;
    - [UdpSocket], [UdpSocketSpec]: udp_socket.c, udp_client.c, protocol_handler.c.
    Login server (src/login): [Login], [LoginServer], [LoginTrilogy]
    model its state, its TCP connections and its protocol; [LoginSteps] is the
    process as steps of its main loop; [LoginSpec], [LoginRegistry] and
    [LoginPackets] prove. [Servers] is what it and character select have in common.
    Character select (src/char_select): [CharSelect], [CharSelectTcp],
    [CharSelectTrilogy], [CharCreate] model; [CharSelectSteps] is the process;
    [CharSelectSpec], [CharSelectLimits], [CharSelectLayout]
    prove.
    Zone cluster (src/zone_cluster): [Mob] with the prototypes of NPCs,
    [Inventory], [Skills] (mob/), [ZoneClient] (mob/client.c, the data), [Zone] (zone.c and the
    process's state), [ZoneCluster] (zone_cluster.c and the life of a client),
    [Obfuscate], [ProfilePacket], [ZonePackets] (mob/client_packet_trilogy_output.c),
    [ClientSave] (mob/client_save.c) model; [ZoneSpec], [ZoneEntering],
    [ZoneLoading], [ZoneLeaving], [ProfileLayout], [ZoneLayout], [ClientSaveSpec]
    prove.
    Master process (src/master): [Master] models, [MasterSpec] proves and
    joins it to the model of the zone cluster.
    Map generator (src/map_gen): [Pfs], the archives of the client's files (pfs.c).

    Definitions keep the names of the functions, structs and macros they
    translate; a helper that stands for a part of a function (the body of a loop,
    one case of a switch) is named after what it does.

    ** What is proved

    - Containers implement their abstract data: the array a list, the string a
      byte string, the hash tables (the containers' and that of the item file)
      finite maps; packet buffers are queues, also when writers and readers
      interleave; the timer pool runs what is due, once.
    - The protocol delivers: what one side schedules is what the other side's
      client is given, fragmented or not ([Delivery]), for payloads of the sizes
      that the code fragments rightly: those of 511 or 512 bytes, and near other
      multiples of 512, lose their last bytes. Each half is characterised byte for
      byte, with what happens outside of the expected histories.
    - A datagram reaches the one connection it is for, with the effect that the
      protocol's code has on it. The table of connections, a zone's lists, the login server's registry and
      the master's clusters keep their invariants under every operation.
    - References are counted right: in every reachable state of login server and
      character select, an object is in memory while someone holds it.
    - Only clients with a matching row, or an admitted auth, are let in.
    - A character that zones in is let into exactly one zone: the master admits
      it to one cluster, that cluster expects it, it is loaded in whatever order
      the database answers, and announced to the players around it and to no
      other. This holds of a name that the cluster does not expect already: the
      table of expected clients keeps the older client of a name, and the newer
      one is never let in.
    - A saved character is loaded as it was, but for the timestamp of its
      discipline, which is not saved, and for a skill that has the number of a
      trained language.
    - The check of a new character accepts the combinations of the source's
      matrix, for the thirteen races; other numbers pass as Iksars.
    - Packets follow the client's structs (that of a spawn where the mob's
      coordinates are in the range of 16-bit numbers), field by field; scrambling
      and binary fields can be undone; an archive of map files is read back.
    - The item generator ends, and every script's item is found by its id.
    - Every query that is scheduled is settled once, whatever the other threads
      do: its callback is called, unless SQLite reported an error, or a
      transaction failed, which ends the database thread; and a callback sees
      every row. What is logged is in its source's file, a line each.
    - Where a promise ends the development says so with a theorem of its own:
      timers and stubs that outlive their object, rings that go around, fields
      that overlap, a file without items, transactions that are run newest first,
      a failed one that ends the database thread.

    ** Bounds and fuel

    Loops over lists are structural. A walk over the chain of a hash table gets
    one unit of fuel more than there are slots, and running out is a [Fault],
    which the theorems exclude: well-formed chains visit no slot twice. The
    sub-packets of a combined datagram get the datagram's length as fuel; each
    takes at least a byte. Loops of send are bounded by the results of the
    operating system they are given. Sizes are the code's: 512 bytes to a
    fragment, 4096 to a packet between processes, 511 packets to a buffer. Bounds
    that theorems assume are those beyond which the code's 32-bit sizes wrap: the
    growable array has less than 2^32 bytes, also after it doubles, the hash tables
    stay below the size at which their slot array can be allocated,
    the item file has at most 2^23 items, source ids are those that
    common/sync/source_id.h reserves for zones.

    ** Not modelled

    - common/exception.c, the allocator, files and the console: longjmp is the
      [Throw] outcome, a failing malloc is not considered, and the console reads
      and prints lines of a terminal. The log calls of the other components are
      left out of their models; [Log] has what becomes of them.
    - common/sync/share_mem.c, eqp_semaphore.c, atomic_mutex.c and threads: thin
      wrappers of the operating system. The atomics of ipc_buffer.c are modelled.
    - SQLite itself, and opening and creating the database file. The models of the
      processes hand over queries and get their answers in any order, which is
      what [DbThread] promises.
    - The Lua bindings and all scripts. A script's calls into modelled code are
      arguments ([ItemTable], [CharCreate], [Master]).
    - zone_map, line_of_sight_map.c, and the rest of map_gen: geometry of maps in
      floating point, used by no modelled operation, and an offline converter of
      maps, of which the reader of archives is modelled.
    - network_client_standard.c and ack_mgr_standard.c, which are stubs.
    - Start-up and shutdown of the processes, and the commands of the console in
      master/console_interface.c, which run scripts. *)

From stdpp Require Export prelude list gmap.
From Stdlib Require Export ZArith Lia.
#[global] Open Scope Z_scope.

(** ** Machine words

    A C unsigned integer of width [w] is a [Z] in [0, 2^w); every arithmetic
    result is written [u32 (...)] and so on, which is the wrap-around of C.
    [sint w] is the two's complement reading of the same bits. *)
Definition wrap (w z : Z) : Z := z mod 2 ^ w.
Abbreviation u8 := (wrap 8).
Abbreviation u16 := (wrap 16).
Abbreviation u32 := (wrap 32).
Abbreviation u64 := (wrap 64).

Definition sint (w z : Z) : Z :=
  let m := wrap w z in if m <? 2 ^ (w - 1) then m else m - 2 ^ w.
Abbreviation i8 := (sint 8).
Abbreviation i16 := (sint 16).
Abbreviation i32 := (sint 32).
Abbreviation i64 := (sint 64).

Definition is_word (w z : Z) : Prop := 0 ≤ z < 2 ^ w.
Abbreviation is_byte := (is_word 8).

(** C truth values: the code writes [if (x & FLAG)] for [bits x FLAG]. *)
Definition bits (x flag : Z) : bool := negb (Z.land x flag =? 0).

(** ** Outcomes

    [Throw] is the code's [exception_throw] with its error code (the longjmp of
    common/exception.c); [Fault] stands for what C leaves undefined: an access
    outside an allocation, a NULL dereference, or a loop that does not end. *)
Inductive ErrorCode :=
  | Try | Finally | ErrorOutOfMemory | ErrorOutOfBounds | ErrorDoesNotExist
  | ErrorMismatch | ErrorNoData | ErrorDuplicate | ErrorFormatString
  | ErrorSpawnProcess | ErrorDatabase | ErrorSql | ErrorSyncPrimitive
  | ErrorShareMemInit | ErrorConsole | ErrorLua | ErrorIpc | ErrorThread
  | ErrorNetwork | ErrorCompression.

#[export] Instance ErrorCode_eq_dec : EqDecision ErrorCode.
Proof. solve_decision. Defined.

Inductive outcome (A : Type) :=
  | Ok (a : A)
  | Throw (e : ErrorCode)
  | Fault.
Arguments Ok {A} _.
Arguments Throw {A} _.
Arguments Fault {A}.

#[export] Instance outcome_ret : MRet outcome := λ A a, Ok a.
#[export] Instance outcome_bind : MBind outcome := λ A B f m,
  match m with Ok a => f a | Throw e => Throw e | Fault => Fault end.

(** A memory access that is undefined when it misses. *)
Definition deref {A} (o : option A) : outcome A :=
  match o with Some a => Ok a | None => Fault end.

(** ** Stateful code

    [code S A] runs against a state and keeps the state it had reached when an
    exception leaves it, as a longjmp does. *)
Definition code (S A : Type) : Type := S → outcome A * S.

#[export] Instance code_ret S : MRet (code S) := λ A a s, (Ok a, s).
#[export] Instance code_bind S : MBind (code S) := λ A B f m s,
  match m s with
  | (Ok a, s') => f a s'
  | (Throw e, s') => (Throw e, s')
  | (Fault, s') => (Fault, s')
  end.
Definition get {S} : code S S := λ s, (Ok s, s).
Definition gets {S A} (f : S → A) : code S A := λ s, (Ok (f s), s).
Definition modify {S} (f : S → S) : code S unit := λ s, (Ok tt, f s).
Definition lift {S A} (o : outcome A) : code S A := λ s, (o, s).
Definition throw {S A} (e : ErrorCode) : code S A := λ s, (Throw e, s).
Definition fault {S A} : code S A := λ s, (Fault, s).

(** What a set of the hash table (container/eqp_hash_table.c) does to the finite
    map it stands for: the value of a key that is present stays as it is.
    [HashTableMap] proves that the table does this; the models of the code that
    only uses tables have finite maps. *)
Definition set_absent {V} (m : gmap (list Z) V) (k : list Z) (v : V) : gmap (list Z) V :=
  match m !! k with Some _ => m | None => <[k:=v]> m end.

(** Running a list of actions one after the other: a C loop over a counter. *)
Fixpoint each {S A} (xs : list A) (body : A → code S unit) : code S unit :=
  match xs with
  | [] => mret tt
  | x :: xs => body x ;; each xs body
  end.

(** ** Generic lemmas *)
Lemma bind_ok {S A B} (m : code S A) (f : A → code S B) s a s' : m s = (Ok a, s') → (m ≫= f) s = f a s'.
Proof. unfold mbind, code_bind. by intros ->. Qed.

Lemma bind_modify {S A} (g : S → S) (f : unit → code S A) s : (modify g ≫= f) s = f tt (g s).
Proof. done. Qed.
Lemma bind_gets {S A B} (g : S → A) (f : A → code S B) s : (gets g ≫= f) s = f (g s) s.
Proof. done. Qed.
Lemma bind_lift {S A B} (o : outcome A) (f : A → code S B) a s : o = Ok a → (lift o ≫= f) s = f a s.
Proof. by intros ->. Qed.
Lemma bind_ret {S A B} (a : A) (f : A → code S B) s : (mret a ≫= f) s = f a s.
Proof. done. Qed.

Lemma bind_assoc {S A B C} (m : code S A) (f : A → code S B) (g : B → code S C) s : ((m ≫= f) ≫= g) s = (m ≫= λ x, f x ≫= g) s.
Proof. unfold mbind, code_bind. by destruct (m s) as [[a|e|] s']. Qed.
Lemma bind_ext {S A B} (m : code S A) (f g : A → code S B) s : (∀ a s', f a s' = g a s') → (m ≫= f) s = (m ≫= g) s.
Proof. intros H. unfold mbind, code_bind. by destruct (m s) as [[a|e|] s']. Qed.

(** A body that returns went through each of its parts. *)
Lemma bind_inv {S A B} (m : code S A) (f : A → code S B) s b s' : (m ≫= f) s = (Ok b, s') →
  ∃ a s1, m s = (Ok a, s1) ∧ f a s1 = (Ok b, s').
Proof. unfold mbind, code_bind. destruct (m s) as [[a|e|] s1]; [|done..]. intros H. by exists a, s1. Qed.
Lemma lift_inv {S A} (o : outcome A) (s : S) a s' : lift o s = (Ok a, s') → o = Ok a ∧ s' = s.
Proof. by intros [= -> ->]. Qed.

Lemma set_absent_new {V} (m : gmap (list Z) V) k v : m !! k = None → set_absent m k v = <[k:=v]> m.
Proof. unfold set_absent. by intros ->. Qed.
Lemma set_absent_old {V} (m : gmap (list Z) V) k v x : m !! k = Some x → set_absent m k v = m.
Proof. unfold set_absent. by intros ->. Qed.

Lemma set_absent_ne {V} (m : gmap (list Z) V) k v k' : k ≠ k' → set_absent m k v !! k' = m !! k'.
Proof. intros. unfold set_absent. destruct (m !! k); [done|by rewrite lookup_insert_ne]. Qed.

Lemma wrap_range w z : 0 ≤ w → 0 ≤ wrap w z < 2 ^ w.
Proof. intros. apply Z.mod_pos_bound. lia. Qed.

Lemma wrap_small w z : is_word w z → wrap w z = z.
Proof. apply Z.mod_small. Qed.

Lemma wrap_wrap w z : wrap w (wrap w z) = wrap w z.
Proof. unfold wrap. apply Zmod_mod. Qed.

Lemma wrap_land w z : 0 ≤ w → wrap w z = Z.land z (Z.ones w).
Proof. intros. symmetry. by apply Z.land_ones. Qed.

Lemma wrap_testbit w z i : 0 ≤ w → 0 ≤ i →
  Z.testbit (wrap w z) i = (i <? w) && Z.testbit z i.
Proof.
  intros. unfold wrap. destruct (Z.ltb_spec i w).
  - by rewrite Z.mod_pow2_bits_low by lia.
  - by rewrite Z.mod_pow2_bits_high by lia.
Qed.

(** Bits put above a number. *)
Lemma lor_shift lo hi k : 0 ≤ k → 0 ≤ lo < 2 ^ k → Z.lor lo (Z.shiftl hi k) = lo + hi * 2 ^ k.
Proof.
  intros Hk Hlo. assert (Hc : Z.land lo (Z.shiftl hi k) = 0).
  { apply Z.bits_inj'. intros i Hi. rewrite Z.land_spec, Z.shiftl_spec, Z.bits_0 by lia.
    destruct (Z.ltb_spec i k); [rewrite (Z.testbit_neg_r hi) by lia; apply andb_false_r|].
    rewrite <- (Z.mod_small lo (2 ^ k)), Z.mod_pow2_bits_high by lia. done. }
  by rewrite <- Z.lxor_lor, <- Z.add_nocarry_lxor, Z.shiftl_mul_pow2 by done.
Qed.

Lemma is_word_wrap w z : 0 ≤ w → is_word w (wrap w z).
Proof. apply wrap_range. Qed.

Lemma sint_small w z : 0 < w → 0 ≤ z < 2 ^ (w - 1) → sint w z = z.
Proof.
  intros ? Hz. unfold sint.
  assert (2 ^ (w - 1) < 2 ^ w) by (apply Z.pow_lt_mono_r; lia).
  rewrite wrap_small by (unfold is_word; lia).
  by destruct (Z.ltb_spec z (2 ^ (w - 1))); [|lia].
Qed.

Lemma sint_wrap w z : sint w (wrap w z) = sint w z.
Proof. unfold sint. by rewrite wrap_wrap. Qed.

Lemma list_insert_take_drop {A} (l : list A) i x : (i < length l)%nat →
  <[i:=x]> l = take i l ++ x :: drop (S i) l.
Proof. intros. by rewrite insert_take_drop. Qed.

Lemma alter_as_insert {A} (f : A → A) (l : list A) i x : l !! i = Some x → alter f i l = <[i:=f x]> l.
Proof.
  intros Hi. apply list_eq. intros j. destruct (decide (j = i)) as [->|].
  - rewrite list_lookup_alter_eq, Hi, list_lookup_insert_eq by (by eapply lookup_lt_Some). done.
  - by rewrite list_lookup_alter_ne, list_lookup_insert_ne by done.
Qed.

(** [run] unfolds the state monad one step at a time and nothing else. *)
Ltac run :=
  cbv beta iota delta [mbind code_bind outcome_bind mret code_ret outcome_ret
    get gets modify lift throw fault deref].

Create HintDb keeps.
(** ** Invariants of stateful code

    [keeps P f]: [f] leaves [P] true, however it ends. *)
Definition keeps {S A} (P : S → Prop) (f : code S A) : Prop := ∀ s, P s → P (snd (f s)).

Lemma keeps_bind {S A B} (P : S → Prop) (m : code S A) (f : A → code S B) :
  keeps P m → (∀ a, keeps P (f a)) → keeps P (m ≫= f).
Proof.
  intros Hm Hf s Hs. specialize (Hm s Hs). run. destruct (m s) as [[a|e|] s']; [|done..]. by apply Hf.
Qed.

Lemma keeps_modify {S} (P : S → Prop) (g : S → S) : (∀ s, P s → P (g s)) → keeps P (modify g).
Proof. intros H s. apply H. Qed.

Lemma keeps_lift {S A} (P : S → Prop) (o : outcome A) : keeps P (lift o).
Proof. by intros s. Qed.
Lemma keeps_throw {S A} (P : S → Prop) e : keeps P (@throw S A e).
Proof. by intros s. Qed.
Lemma keeps_fault {S A} (P : S → Prop) : keeps P (@fault S A).
Proof. by intros s. Qed.
Lemma keeps_ret {S A} (P : S → Prop) (a : A) : keeps P (mret a).
Proof. by intros s. Qed.
Lemma keeps_gets {S A} (P : S → Prop) (f : S → A) : keeps P (gets f).
Proof. by intros s. Qed.
Lemma keeps_get {S} (P : S → Prop) : keeps P get.
Proof. by intros s. Qed.
#[export] Hint Resolve keeps_modify keeps_lift keeps_throw keeps_fault keeps_ret keeps_gets keeps_get : keeps.

(** [keeps_steps] walks through a body; what it cannot close is left. *)
Ltac keeps_steps :=
  repeat match goal with
  | |- keeps _ (_ ≫= _) => apply keeps_bind; [|intros ?]
  | |- keeps _ (if ?b then _ else _) => destruct b
  | |- keeps _ (match ?x with _ => _ end) => destruct x
  | |- keeps _ _ => solve [eauto with keeps nocore]
  end.

Create HintDb hoare.
(** [hoare P f Q]: started where [P] holds, [f] that returns [a] leaves [Q a]. *)
Definition hoare {S A} (P : S → Prop) (f : code S A) (Q : A → S → Prop) : Prop :=
  ∀ s a s', P s → f s = (Ok a, s') → Q a s'.

Lemma hoare_bind {S A B} (P : S → Prop) (m : code S A) (f : A → code S B) (R : A → S → Prop) Q :
  hoare P m R → (∀ a, hoare (R a) (f a) Q) → hoare P (m ≫= f) Q.
Proof.
  intros Hm Hf s b s' Hs. run. destruct (m s) as [[a|e|] s1] eqn:He; [|done..]. intros Hb.
  eapply Hf; [|exact Hb]. by eapply Hm.
Qed.

Lemma hoare_post {S A} (P : S → Prop) (f : code S A) (Q Q' : A → S → Prop) :
  hoare P f Q → (∀ a s, Q a s → Q' a s) → hoare P f Q'.
Proof. intros Hf HQ s a s' Hs He. apply HQ. by eapply Hf. Qed.

Lemma hoare_pre {S A} (P P' : S → Prop) (f : code S A) (Q : A → S → Prop) :
  hoare P f Q → (∀ s, P' s → P s) → hoare P' f Q.
Proof. intros Hf HP s a s' Hs He. eapply Hf; [|exact He]. by apply HP. Qed.

Lemma hoare_modify {S} (P : S → Prop) (g : S → S) (Q : unit → S → Prop) :
  (∀ s, P s → Q tt (g s)) → hoare P (modify g) Q.
Proof. intros H s a s' Hs [= <- <-]. by apply H. Qed.

Lemma hoare_ret {S A} (Q : A → S → Prop) (a : A) : hoare (Q a) (mret a) Q.
Proof. by intros s x s' Hs [= <- <-]. Qed.
Lemma hoare_gets {S A} (P : S → Prop) (f : S → A) : hoare P (gets f) (λ a s, P s ∧ a = f s).
Proof. by intros s x s' Hs [= <- <-]. Qed.
Lemma hoare_lift {S A} (P : S → Prop) (o : outcome A) : hoare P (lift o) (λ a s, P s ∧ o = Ok a).
Proof. intros s x s' Hs H. by injection H as -> ->. Qed.
Lemma hoare_fault {S A} (P : S → Prop) (Q : A → S → Prop) : hoare P fault Q.
Proof. by intros s a s' _ H. Qed.

(** A body that keeps an invariant. *)
Lemma hoare_keeps {S A} (P : S → Prop) (f : code S A) : keeps P f → hoare P f (λ _, P).
Proof. intros Hf s a s' Hs He. specialize (Hf s Hs). by rewrite He in Hf. Qed.

Create HintDb eqp.
#[export] Hint Resolve is_word_wrap wrap_range wrap_small : eqp.

(** [word] closes range goals about wrapped words. *)
Ltac word :=
  unfold is_word in *;
  repeat match goal with
  | |- context [wrap ?w ?z] => pose_proof_once (wrap_range w z ltac:(lia))
  | H : context [wrap ?w ?z] |- _ => pose_proof_once (wrap_range w z ltac:(lia))
  end; lia
with pose_proof_once p :=
  let T := type of p in
  match goal with
  | H : T |- _ => fail 1
  | _ => pose proof p
  end.
