(* ===== verification/Fields.v ===== *)
(** Update of one field of a record: [r <| field := v |>].

    A record states how it is rebuilt from its fields ([Settable]); the setter
    of a field is found by putting the new value in that field's place. *)

From stdpp Require Import prelude.

Class Settable (R : Type) := rebuild : R → R.
Definition field_pure {R A} (a : A) : R → A := λ _, a.
Definition field_ap {R A B} (f : R → A → B) (g : R → A) : R → B := λ r, f r (g r).
Declare Scope fields_scope.
Delimit Scope fields_scope with fields.
Infix "<*>" := field_ap (at level 11, left associativity) : fields_scope.
Notation "'built' mk" := (field_pure mk) (at level 10) : fields_scope.

Class Setter {R T} (field : R → T) := set_field : (T → T) → R → R.
Arguments set_field {R T} field {_} _ _.

Ltac make_setter :=
  match goal with |- @Setter ?R ?T ?p =>
    let f := fresh "f" in unfold Setter; intro f;
    let i := constr:(ltac:(typeclasses eauto) : Settable R) in
    let e := eval red in i in
    match e with context c [p] => let e := context c [λ r : R, f (p r)] in exact e end
  end.
#[export] Hint Extern 1 (Setter _) => make_setter : typeclass_instances.

#[warnings="-postfix-notation-not-level-1"]
Notation "r <| field := v |>" := (set_field field (λ _, v) r) (at level 12, left associativity).

(** [fields_simpl] computes fields of updated records and nothing else. *)
Ltac fields_simpl := cbv beta iota delta [set_field field_ap field_pure].
