(* ===== verification/Float32.v ===== *)
(** IEEE single precision as C uses it: a float is the 32-bit word that
    represents it, products are rounded to nearest, conversions to integers
    truncate. The arithmetic is the Standard Library's specification of IEEE
    754. All NaNs are one value. *)

From S2P Require Import Prelude.
From Stdlib Require Import SpecFloat.

Definition f32_decode (w : Z) : spec_float :=
  let s := Z.testbit w 31 in
  let e := Z.shiftr w 23 mod 256 in
  let m := w mod 2 ^ 23 in
  if e =? 255 then if m =? 0 then S754_infinity s else S754_nan
  else if e =? 0 then match m with Zpos p => S754_finite s p (-149) | _ => S754_zero s end
  else match m + 2 ^ 23 with Zpos p => S754_finite s p (e - 150) | _ => S754_nan end.

Definition f32_bits (s : bool) (e m : Z) : Z := (if s then 2 ^ 31 else 0) + e * 2 ^ 23 + m.

Definition f32_encode (f : spec_float) : Z :=
  match f with
  | S754_nan => 0x7fc00000
  | S754_infinity s => f32_bits s 255 0
  | S754_zero s => f32_bits s 0 0
  | S754_finite s m e => if Zpos m <? 2 ^ 23 then f32_bits s 0 (Zpos m) else f32_bits s (e + 150) (Zpos m - 2 ^ 23)
  end.

Definition f32_mul (x y : Z) : Z := f32_encode (SFmul 24 128 (f32_decode x) (f32_decode y)).

(** The integer a float is converted to, if it has one. *)
Definition f32_trunc (x : Z) : option Z :=
  match f32_decode x with
  | S754_zero _ => Some 0
  | S754_finite s m e => Some (cond_Zopp s (if 0 <=? e then Zpos m * 2 ^ e else Zpos m / 2 ^ (- e)))
  | _ => None
  end.

(** (uint16_t)f: undefined when the integer does not fit. *)
Definition f32_to_uint16 (x : Z) : outcome Z :=
  n ← deref (f32_trunc x); if (0 <=? n) && (n <? 2 ^ 16) then Ok n else Fault.

(** ** Words and floats *)

Lemma f32_split w : is_word 32 w → w = f32_bits (Z.testbit w 31) (Z.shiftr w 23 mod 256) (w mod 2 ^ 23).
Proof.
  unfold is_word, f32_bits. intros Hw. rewrite Z.shiftr_div_pow2, Z.testbit_eqb by lia.
  pose proof (Z.div_mod w (2 ^ 23) ltac:(lia)) as H1.
  pose proof (Z.div_mod (w / 2 ^ 23) 256 ltac:(lia)) as H2. rewrite Z.div_div in H2 by lia.
  change (2 ^ 23 * 256) with (2 ^ 31) in H2.
  assert (0 ≤ w / 2 ^ 31 < 2) by (split; [apply Z.div_pos; lia|apply Z.div_lt_upper_bound; lia]).
  rewrite (Z.mod_small (w / 2 ^ 31) 2) by lia. destruct (Z.eqb_spec (w / 2 ^ 31) 1); lia.
Qed.

(** Every word that is not a NaN is the float it represents. *)
Lemma f32_encode_decode w : is_word 32 w → f32_decode w ≠ S754_nan → f32_encode (f32_decode w) = w.
Proof.
  intros Hw. pose proof (f32_split w Hw) as Hs. unfold f32_decode.
  pose proof (Z.mod_pos_bound w (2 ^ 23) ltac:(lia)) as Hm.
  pose proof (Z.mod_pos_bound (Z.shiftr w 23) 256 ltac:(lia)) as He.
  set (s := Z.testbit w 31) in *. set (e := Z.shiftr w 23 mod 256) in *. set (m := w mod 2 ^ 23) in *. clearbody s e m.
  destruct (Z.eqb_spec e 255) as [->|].
  { destruct (Z.eqb_spec m 0) as [->|]; [by rewrite Hs|done]. }
  destruct (Z.eqb_spec e 0) as [->|].
  { intros _. destruct m as [|p|p] eqn:Hp; [by rewrite Hs| |lia]. cbn [f32_encode]. rewrite (proj2 (Z.ltb_lt _ _)) by lia. by rewrite Hs. }
  intros _. destruct (m + 2 ^ 23) as [|p|p] eqn:Hp; [lia| |lia]. cbn [f32_encode].
  rewrite (proj2 (Z.ltb_ge _ _)) by lia. rewrite Hs. f_equal; lia.
Qed.

Definition f32_one : Z := 0x3f800000.
Definition f32_two : Z := 0x40000000.
Definition f32_ten : Z := 0x41200000.

Example f32_to_uint16_ten : f32_to_uint16 (f32_mul f32_ten f32_ten) = Ok 100.
Proof. vm_compute. reflexivity. Qed.
