(* ===== verification/Bit.v ===== *)
(** Bit utilities: common/bit.c and the macros of common/bit.h.

    Rounding up to a power of two, the growth policy of strings
    ([EqpString]), with the 32- and 64-bit wrap-around of the code. *)

From S2P Require Import Prelude.

(** ** Operations *)

(** One line [n |= n >> s]. *)
Definition smear (s n : Z) : Z := Z.lor n (Z.shiftr n s).

Definition bit_next_pow2_u32 (n : Z) : Z :=
  let n := u32 (n - 1) in
  let n := smear 1 n in
  let n := smear 2 n in
  let n := smear 4 n in
  let n := smear 8 n in
  let n := smear 16 n in
  u32 (n + 1).

Definition bit_next_pow2_i32 (n : Z) : Z := i32 (bit_next_pow2_u32 (u32 n)).

Definition bit_next_pow2_u64 (n : Z) : Z :=
  let n := u64 (n - 1) in
  let n := smear 1 n in
  let n := smear 2 n in
  let n := smear 4 n in
  let n := smear 8 n in
  let n := smear 16 n in
  let n := smear 32 n in
  u64 (n + 1).

Definition bit_next_pow2_i64 (n : Z) : Z := i64 (bit_next_pow2_u64 (u64 n)).

(** [bit_is_pow2(n)]: [(n) && (((n) & ((n) - 1)) == 0)], on a uint32_t. *)
Definition bit_is_pow2 (n : Z) : bool :=
  negb (n =? 0) && (Z.land n (u32 (n - 1)) =? 0).

(** The two rounding macros at type uint32_t, the only type they are used at. *)
Definition bit_pow2_greater_than (n : Z) : Z :=
  if bit_is_pow2 n then u32 (Z.shiftl n 1) else bit_next_pow2_u32 n.

Definition bit_pow2_greater_or_equal (n : Z) : Z :=
  if bit_is_pow2 n then n else bit_next_pow2_u32 n.

(** ** Lemmas: each smear doubles the distance over which a set bit spreads *)
Section smear.
Implicit Types x y s i : Z.

Definition spread (x s y : Z) : Prop :=
  ∀ i, 0 ≤ i → Z.testbit y i = true ↔ ∃ d, 0 ≤ d < s ∧ Z.testbit x (i + d) = true.

Lemma spread_init x : spread x 1 x.
Proof.
  intros i Hi. split.
  - intros Ht. exists 0. split; [lia|]. by rewrite Z.add_0_r.
  - intros (d & Hd & Ht). by replace (i + d) with i in Ht by lia.
Qed.

Lemma spread_smear x s s' y : 0 < s → s' = 2 * s → spread x s y → spread x s' (smear s y).
Proof.
  intros Hs -> Hy i Hi. unfold smear. rewrite Z.lor_spec, orb_true_iff.
  rewrite Z.shiftr_spec, (Hy i), (Hy (i + s)) by lia. split.
  - intros [(d & ? & Ht)|(d & ? & Ht)].
    + exists d. split; [lia|done].
    + exists (s + d). split; [lia|]. by rewrite Z.add_assoc.
  - intros (d & ? & Ht). destruct (decide (d < s)); [left; exists d; auto with lia|].
    right. exists (d - s). split; [lia|]. by replace (i + s + (d - s)) with (i + d) by lia.
Qed.

Lemma spread_full x s y : 0 < x < 2 ^ s → 0 ≤ s → 0 ≤ y →
  spread x s y → y = Z.ones (Z.log2 x + 1).
Proof.
  intros Hx Hs Hy Hsp. pose proof (Z.log2_nonneg x).
  assert (Z.log2 x < s) by (apply Z.log2_lt_pow2; lia).
  apply Z.bits_inj'. intros i Hi. apply eq_true_iff_eq.
  rewrite (Hsp i Hi), (Z.ones_spec_iff _ i) by lia. split.
  - intros (d & ? & Ht). split; [lia|].
    destruct (decide (i + d ≤ Z.log2 x)); [lia|].
    rewrite Z.bits_above_log2 in Ht by lia. done.
  - intros ?. exists (Z.log2 x - i). split; [lia|].
    replace (i + (Z.log2 x - i)) with (Z.log2 x) by lia. apply Z.bit_log2. lia.
Qed.

Lemma smear_nonneg s y : 0 ≤ y → 0 ≤ smear s y.
Proof. intros. unfold smear. apply Z.lor_nonneg. split; [done|]. by apply Z.shiftr_nonneg. Qed.
End smear.

#[local] Hint Resolve smear_nonneg : eqp.

Lemma smear32_ones x : 0 < x < 2 ^ 32 →
  smear 16 (smear 8 (smear 4 (smear 2 (smear 1 x)))) = Z.ones (Z.log2 x + 1).
Proof.
  intros. apply (spread_full x 32); [lia..|auto 10 with eqp lia|].
  repeat (eapply spread_smear; [lia|reflexivity|]). apply spread_init.
Qed.

Lemma smear64_ones x : 0 < x < 2 ^ 64 →
  smear 32 (smear 16 (smear 8 (smear 4 (smear 2 (smear 1 x))))) = Z.ones (Z.log2 x + 1).
Proof.
  intros. apply (spread_full x 64); [lia..|auto 10 with eqp lia|].
  repeat (eapply spread_smear; [lia|reflexivity|]). apply spread_init.
Qed.

(** The value both widths reach: all ones up to the top bit, plus one. *)
Lemma ones_succ x : 0 < x → Z.ones (Z.log2 x + 1) + 1 = 2 ^ Z.log2_up (x + 1).
Proof.
  intros. rewrite Z.ones_equiv. rewrite Z.log2_up_eqn by lia.
  replace (Z.pred (x + 1)) with x by lia. unfold Z.succ. lia.
Qed.

(** ** The 32-bit rounding *)

Lemma bit_next_pow2_u32_spec n : 1 ≤ n ≤ 2 ^ 31 →
  bit_next_pow2_u32 n = 2 ^ Z.log2_up n ∧
  n ≤ bit_next_pow2_u32 n ∧ (∀ k, 0 ≤ k → n ≤ 2 ^ k → bit_next_pow2_u32 n ≤ 2 ^ k).
Proof.
  intros Hn. assert (bit_next_pow2_u32 n = 2 ^ Z.log2_up n) as E.
  { unfold bit_next_pow2_u32. rewrite (wrap_small 32 (n - 1)) by (unfold is_word; lia).
    destruct (decide (n = 1)) as [->|]; [reflexivity|].
    rewrite smear32_ones, ones_succ by lia. replace (n - 1 + 1) with n by lia.
    apply wrap_small. split; [apply Z.pow_nonneg; lia|].
    apply Z.pow_lt_mono_r; [lia..|]. 
    assert (Z.log2_up n ≤ Z.log2_up (2 ^ 31)) by (apply Z.log2_up_le_mono; lia).
    rewrite Z.log2_up_pow2 in *; lia. }
  rewrite E. split_and!; [done| |].
  - destruct (decide (n = 1)) as [->|]; [done|]. apply Z.log2_log2_up_spec. lia.
  - intros k Hk Hle. apply Z.pow_le_mono_r; [lia|].
    rewrite <- (Z.log2_up_pow2 k) by lia. by apply Z.log2_up_le_mono.
Qed.

Lemma bit_next_pow2_u32_overflow n : n = 0 ∨ 2 ^ 31 < n < 2 ^ 32 → bit_next_pow2_u32 n = 0.
Proof.
  intros [->|Hn]; [reflexivity|]. unfold bit_next_pow2_u32.
  rewrite (wrap_small 32 (n - 1)) by (unfold is_word; lia).
  rewrite smear32_ones, ones_succ by lia. replace (n - 1 + 1) with n by lia.
  replace (Z.log2_up n) with 32; [reflexivity|]. symmetry.
  apply Z.log2_up_unique; lia.
Qed.

Lemma bit_is_pow2_pow2 k : 0 ≤ k < 32 → bit_is_pow2 (2 ^ k) = true.
Proof.
  intros. assert (0 < 2 ^ k) by (apply Z.pow_pos_nonneg; lia).
  assert (2 ^ k < 2 ^ 32) by (apply Z.pow_lt_mono_r; lia).
  unfold bit_is_pow2. rewrite wrap_small by (unfold is_word; lia).
  replace (2 ^ k - 1) with (Z.ones k) by (rewrite Z.ones_equiv; lia).
  rewrite Z.land_ones, Z_mod_same_full by lia.
  destruct (Z.eqb_spec (2 ^ k) 0); [lia|done].
Qed.

Lemma bit_is_pow2_log2 n : is_word 32 n → bit_is_pow2 n = true → n = 2 ^ Z.log2 n.
Proof.
  intros Hw H. unfold bit_is_pow2 in H. apply andb_true_iff in H as [H0 Hl].
  apply negb_true_iff, Z.eqb_neq in H0. apply Z.eqb_eq in Hl. unfold is_word in Hw.
  rewrite wrap_small in Hl by (unfold is_word; lia). pose proof (Z.log2_spec n ltac:(lia)) as [Hlo Hhi].
  destruct (decide (n = 2 ^ Z.log2 n)) as [|Hne]; [done|]. exfalso.
  assert (Hk : Z.log2 (n - 1) = Z.log2 n) by (apply Z.log2_unique; [apply Z.log2_nonneg|lia]).
  assert (Hb : Z.testbit (Z.land n (n - 1)) (Z.log2 n) = true); [|by rewrite Hl, Z.bits_0 in Hb].
  pose proof (Z.pow_pos_nonneg 2 (Z.log2 n) ltac:(lia) (Z.log2_nonneg n)).
  rewrite Z.land_spec, Z.bit_log2 by lia. rewrite <-Hk at 1. by rewrite Z.bit_log2 by lia.
Qed.

(** The capacity macro gives a power of two not below its argument and below its double. *)
Lemma bit_pow2_greater_or_equal_bounds n : 1 ≤ n < 2 ^ 31 →
  ∃ c, 0 ≤ c ∧ bit_pow2_greater_or_equal n = 2 ^ c ∧ n ≤ 2 ^ c < 2 * n.
Proof.
  intros Hn. unfold bit_pow2_greater_or_equal. destruct (bit_is_pow2 n) eqn:E.
  { exists (Z.log2 n). rewrite <-(bit_is_pow2_log2 n) by (done || unfold is_word; lia). pose proof (Z.log2_nonneg n). lia. }
  destruct (bit_next_pow2_u32_spec n) as (Heq & Hle & _); [lia|]. pose proof (Z.log2_up_nonneg n).
  exists (Z.log2_up n). rewrite <-Heq. split_and!; [done..|]. assert (n ≠ 1) by (by intros ->).
  pose proof (Z.log2_up_spec n ltac:(lia)) as [Hlo _]. rewrite Heq.
  replace (Z.log2_up n) with (Z.succ (Z.pred (Z.log2_up n))) by lia. rewrite Z.pow_succ_r; [lia|].
  assert (1 ≤ Z.log2_up n); [|lia]. apply (Z.log2_up_le_mono 2). lia.
Qed.

(** The growth macro gives a capacity strictly above its argument, at most
    twice as large; at zero it gives zero. *)
Lemma bit_pow2_greater_than_bounds n : 1 ≤ n < 2 ^ 31 →
  n < bit_pow2_greater_than n ≤ 2 * n.
Proof.
  intros Hn. unfold bit_pow2_greater_than. destruct (bit_is_pow2 n) eqn:E.
  { rewrite Z.shiftl_mul_pow2 by lia. rewrite wrap_small; unfold is_word; lia. }
  destruct (bit_next_pow2_u32_spec n) as (Heq & Hle & _); [lia|].
  pose proof (Z.log2_up_nonneg n). assert (n ≠ 1) by (by intros ->).
  pose proof (Z.log2_up_spec n ltac:(lia)) as [Hlo Hhi].
  assert (2 ^ Z.log2_up n = 2 * 2 ^ Z.pred (Z.log2_up n)).
  { rewrite <- Z.pow_succ_r; [f_equal; lia|].
    assert (1 ≤ Z.log2_up n); [|lia]. apply (Z.log2_up_le_mono 2). lia. }
  split; [|lia]. destruct (decide (n = 2 ^ Z.log2_up n)) as [Heq'|]; [|lia].
  rewrite Heq', bit_is_pow2_pow2 in E; [done|]. split; [done|].
  assert (Z.log2_up n ≤ Z.log2_up (2 ^ 31)) by (apply Z.log2_up_le_mono; lia).
  rewrite Z.log2_up_pow2 in *; lia.
Qed.

Lemma bit_pow2_greater_than_0 : bit_pow2_greater_than 0 = 0.
Proof. reflexivity. Qed.

(** ** Properties *)

(** for every 32-bit argument, [bit_next_pow2_u32] is the least power of
    two not below it, when there is one in 32 bits, and 0 otherwise (for 0 too). *)
Theorem bit_next_pow2_u32_least n : is_word 32 n →
  (1 ≤ n ≤ 2 ^ 31 →
     ∃ k, 0 ≤ k ≤ 31 ∧ bit_next_pow2_u32 n = 2 ^ k ∧ n ≤ 2 ^ k ∧ ∀ j, 0 ≤ j → n ≤ 2 ^ j → k ≤ j) ∧
  (n = 0 ∨ 2 ^ 31 < n → bit_next_pow2_u32 n = 0).
Proof.
  intros Hw. split.
  - intros Hn. destruct (bit_next_pow2_u32_spec n Hn) as (Heq & Hle & Hleast).
    exists (Z.log2_up n). rewrite Heq in *.
    pose proof (Z.log2_up_nonneg n).
    assert (Hk : ∀ j, 0 ≤ j → n ≤ 2 ^ j → Z.log2_up n ≤ j).
    { intros j Hj Hnj. apply (Z.pow_le_mono_r_iff 2); [lia..|]. by apply Hleast. }
    split_and!; try done. apply Hk; lia.
  - intros H. apply bit_next_pow2_u32_overflow. unfold is_word in Hw. lia.
Qed.

Lemma bit_next_pow2_u32_least_witness : ∃ k, 0 ≤ k ≤ 31 ∧ bit_next_pow2_u32 1000 = 2 ^ k ∧ 1000 ≤ 2 ^ k.
Proof.
  destruct (proj1 (bit_next_pow2_u32_least 1000 ltac:(unfold is_word; lia)) ltac:(lia))
    as (k & ? & ? & ? & _). by exists k.
Defined.
