(* ===== verification/Array.v ===== *)
(** The growable array: common/container/eqp_array.c.

    The storage is the bytes behind the header; a byte that malloc or realloc
    left uninitialised is [None]. Pointers into the array are offsets of bytes,
    computed as the code does, in 32 bits; so are the sizes it reallocates.
    The last part states what clients rely on: the array is a list of elements of
    one size, and [spec_op] is the list operation that each function is. *)

From S2P Require Import Prelude.

Definition MIN_CAPACITY : Z := 2.

Record Array := mkArray {
  count : Z;
  capacity : Z;
  elementSize : Z;
  data : list (option Z);
}.

Section array.
Implicit Types (ar : Array) (index n size : Z) (v : list Z) (l : list (list Z)).

(** The sum and product of the allocation are of type [size_t]. *)
Definition array_create_with_capacity (size cap : Z) : Array :=
  let cap := if cap <? MIN_CAPACITY then MIN_CAPACITY else cap in
  mkArray 0 cap (u32 size) (replicate (Z.to_nat (u64 (size * cap))) None).

Definition array_create (size : Z) : Array :=
  array_create_with_capacity size MIN_CAPACITY.

Definition array_count ar : Z := count ar.

Definition array_element_size ar : Z := elementSize ar.

(** [&array->data[index * size]]: the product wraps at 32 bits. *)
Definition element_at ar index : Z := u32 (index * elementSize ar).

(** memcpy from and into the data; outside the allocation it is undefined. *)
Definition load ar off : outcome (list (option Z)) :=
  if off + elementSize ar <=? Z.of_nat (length (data ar))
  then Ok (take (Z.to_nat (elementSize ar)) (drop (Z.to_nat off) (data ar)))
  else Fault.

Definition splice (off : nat) (bs cells : list (option Z)) : list (option Z) :=
  take off cells ++ bs ++ drop (off + length bs) cells.

Definition store ar off (bs : list (option Z)) : outcome Array :=
  if off + Z.of_nat (length bs) <=? Z.of_nat (length (data ar))
  then Ok (mkArray (count ar) (capacity ar) (elementSize ar) (splice (Z.to_nat off) bs (data ar)))
  else Fault.

(** The pointer returned, NULL as [None]. *)
Definition array_get ar index : option Z :=
  if index <? count ar then Some (element_at ar index) else None.

Definition array_back ar : option Z :=
  let c := count ar in
  if 0 <? c then Some (element_at ar (c - 1)) else None.

(** The copying accessors leave the destination alone when out of range. *)
Definition array_get_copy ar index (copyTo : list (option Z)) : outcome (list (option Z)) :=
  if index <? count ar then load ar (element_at ar index) else Ok copyTo.

Definition array_back_copy ar (copyTo : list (option Z)) : outcome (list (option Z)) :=
  let c := count ar in
  if 0 <? c then load ar (element_at ar (c - 1)) else Ok copyTo.

(** No bounds check in the code. [v] is [elementSize] bytes. *)
Definition array_set ar index v : outcome Array := store ar (element_at ar index) (Some <$> v).

Definition realloc_bytes (cells : list (option Z)) (len : Z) : list (option Z) :=
  take (Z.to_nat len) cells ++ replicate (Z.to_nat len - length cells) None.

(** [value] is NULL when the caller fills the element through the pointer. *)
Definition array_push_back ar (value : option (list Z)) : outcome (Z * Array) :=
  let index := count ar in
  let size := elementSize ar in
  let ar := mkArray (u32 (count ar + 1)) (capacity ar) size (data ar) in
  let ar :=
    if capacity ar <=? index then
      let cap := u32 (capacity ar * 2) in
      mkArray (count ar) cap size (realloc_bytes (data ar) (u32 (cap * size)))
    else ar in
  let ptr := element_at ar index in
  match value with
  | Some v => ar ← store ar ptr (Some <$> v); Ok (ptr, ar)
  | None => Ok (ptr, ar)
  end.

Definition with_count ar (c : Z) : Array :=
  mkArray c (capacity ar) (elementSize ar) (data ar).

Definition array_pop_back ar : Array :=
  if 0 <? count ar then with_count ar (count ar - 1) else ar.

(** Returns whether an element moved into [index]. A memcpy between elements
    that overlap, as they can when the products wrap, is undefined. *)
Definition array_swap_and_pop ar index : outcome (bool * Array) :=
  if (0 <? count ar) && (index <? count ar) then
    let back := count ar - 1 in
    let ar := with_count ar back in
    if negb (index =? back) then
      if Z.abs (element_at ar index - element_at ar back) <? elementSize ar then Fault else
      c ← load ar (element_at ar back);
      ar ← store ar (element_at ar index) c;
      Ok (true, ar)
    else Ok (false, ar)
  else Ok (false, ar).

Definition array_clear ar : Array := with_count ar 0.

Definition array_shift_left ar (numIndices : Z) : outcome Array :=
  let c := array_count ar in
  if c <=? numIndices then Ok (array_clear ar)
  else
    let c := c - numIndices in
    let from := Z.to_nat (element_at ar numIndices) in
    let len := Z.to_nat (u32 (c * elementSize ar)) in
    if (from + len <=? length (data ar))%nat then
      Ok (mkArray c (capacity ar) (elementSize ar)
            (splice 0 (take len (drop from (data ar))) (data ar)))
    else Fault.

Definition array_reserve ar (n : Z) : Array :=
  if n <=? capacity ar then ar
  else mkArray (count ar) n (elementSize ar) (realloc_bytes (data ar) (u32 (n * elementSize ar))).

Definition array_clear_from_index ar index : Array :=
  if index <? count ar then with_count ar index else ar.

(** ** Well-formedness and the list an array stands for *)
Record wf ar size : Prop := {
  wf_size : elementSize ar = size ∧ is_word 32 size;
  wf_min : MIN_CAPACITY ≤ capacity ar < 2 ^ 32;
  wf_count : 0 ≤ count ar ≤ capacity ar;
  wf_bytes : Z.of_nat (length (data ar)) = capacity ar * size;
  wf_offsets : count ar * size < 2 ^ 32;
}.

(** The elements lie one after the other at the start of the data. *)
Definition repr size ar l : Prop :=
  wf ar size ∧ count ar = Z.of_nat (length l) ∧
  Forall (λ v, Z.of_nat (length v) = size) l ∧
  take (Z.to_nat (count ar * size)) (data ar) = Some <$> concat l.

(** ** The list operations clients see *)
Definition swap_and_pop {A} (l : list A) (i : nat) : bool * list A :=
  match decide (i < length l)%nat, last l with
  | left _, Some x =>
      let l' := take (length l - 1) l in
      (negb (i =? length l - 1)%nat, <[i := x]> l')
  | _, _ => (false, l)
  end.

(** [PushNull v]: the caller stores [v] through the pointer it is given; [Get] and
    [Back]: the caller reads an element through it. *)
Inductive op :=
  | Push (v : list Z) | PushNull (v : list Z) | Pop | SwapPop (i : nat) | ShiftLeft (n : nat)
  | Reserve (n : nat) | Clear | ClearFrom (i : nat) | Set_ (i : nat) (v : list Z)
  | Get (i : nat) | Back | GetCopy (i : nat) (d : list Z) | BackCopy (d : list Z) | Count.

(** Elements are answered as the bytes read, pointers as offsets. *)
Inductive reply := RUnit | RNum (i : Z) | RMoved (b : bool) | RElem (x : option (list (option Z))).

Definition spec_op size (o : op) l : reply * list (list Z) :=
  match o with
  | Push v | PushNull v => (RNum (Z.of_nat (length l) * size), l ++ [v])
  | Pop => (RUnit, take (length l - 1) l)
  | SwapPop i => let '(b, l') := swap_and_pop l i in (RMoved b, l')
  | ShiftLeft n => (RUnit, drop n l)
  | Reserve _ => (RUnit, l)
  | Clear => (RUnit, [])
  | ClearFrom i => (RUnit, take i l)
  | Set_ i v => (RUnit, <[i := v]> l)
  | Get i => (RElem ((λ v, Some <$> v) <$> l !! i), l)
  | Back => (RElem ((λ v, Some <$> v) <$> last l), l)
  | GetCopy i d => (RElem (Some (Some <$> default d (l !! i))), l)
  | BackCopy d => (RElem (Some (Some <$> default d (last l))), l)
  | Count => (RNum (Z.of_nat (length l)), l)
  end.

Definition read_through ar (p : option Z) : outcome (reply * Array) :=
  match p with
  | None => Ok (RElem None, ar)
  | Some p => x ← load ar p; Ok (RElem (Some x), ar)
  end.

Definition run_op (o : op) ar : outcome (reply * Array) :=
  match o with
  | Push v => '(p, ar') ← array_push_back ar (Some v); Ok (RNum p, ar')
  | PushNull v => '(p, ar') ← array_push_back ar None; ar' ← store ar' p (Some <$> v); Ok (RNum p, ar')
  | Pop => Ok (RUnit, array_pop_back ar)
  | SwapPop i => '(b, ar') ← array_swap_and_pop ar (Z.of_nat i); Ok (RMoved b, ar')
  | ShiftLeft n => ar' ← array_shift_left ar (Z.of_nat n); Ok (RUnit, ar')
  | Reserve n => Ok (RUnit, array_reserve ar (Z.of_nat n))
  | Clear => Ok (RUnit, array_clear ar)
  | ClearFrom i => Ok (RUnit, array_clear_from_index ar (Z.of_nat i))
  | Set_ i v => ar' ← array_set ar (Z.of_nat i) v; Ok (RUnit, ar')
  | Get i => read_through ar (array_get ar (Z.of_nat i))
  | Back => read_through ar (array_back ar)
  | GetCopy i d => x ← array_get_copy ar (Z.of_nat i) (Some <$> d); Ok (RElem (Some x), ar)
  | BackCopy d => x ← array_back_copy ar (Some <$> d); Ok (RElem (Some x), ar)
  | Count => Ok (RNum (array_count ar), ar)
  end.

(** What a caller owes: values of the element's size, [array_set] within the
    elements, and totals in bytes (twice the elements for a push, which may
    double the storage) that fit the code's 32-bit products. *)
Definition op_ok size (o : op) l : Prop :=
  match o with
  | Push v | PushNull v =>
      Z.of_nat (length v) = size ∧ 2 * Z.of_nat (length l) * Z.max 1 size < 2 ^ 32
  | Set_ i v => (i < length l)%nat ∧ Z.of_nat (length v) = size
  | Reserve n => Z.of_nat n * Z.max 1 size < 2 ^ 32
  | _ => True
  end.

Fixpoint run_ops (os : list op) ar : outcome (list reply * Array) :=
  match os with
  | [] => Ok ([], ar)
  | o :: os => '(r, ar) ← run_op o ar; '(rs, ar) ← run_ops os ar; Ok (r :: rs, ar)
  end.

Fixpoint spec_ops size (os : list op) l : list reply * list (list Z) :=
  match os with
  | [] => ([], l)
  | o :: os => let '(r, l) := spec_op size o l in let '(rs, l) := spec_ops size os l in (r :: rs, l)
  end.

Fixpoint ops_ok size (os : list op) l : Prop :=
  match os with
  | [] => True
  | o :: os => op_ok size o l ∧ ops_ok size os (spec_op size o l).2
  end.
End array.
Arguments array_push_back : simpl never.
Arguments array_pop_back : simpl never.
Arguments array_swap_and_pop : simpl never.
Arguments array_shift_left : simpl never.
Arguments array_set : simpl never.
Arguments array_get_copy : simpl never.
Arguments array_back_copy : simpl never.

(** ** Lemmas on elements of one size, one after the other *)
Section array_facts.
Implicit Types (ar : Array) (v : list Z) (l : list (list Z)).

Lemma length_concat_sized size l : Forall (λ v, Z.of_nat (length v) = size) l →
  Z.of_nat (length (concat l)) = Z.of_nat (length l) * size.
Proof. induction 1; simpl; [done|]. rewrite length_app. lia. Qed.

Lemma splice_app (a b c bs : list (option Z)) : length b = length bs →
  splice (length a) bs (a ++ b ++ c) = a ++ bs ++ c.
Proof.
  intros E. unfold splice. rewrite take_app_length. do 2 f_equal. rewrite <- E, app_assoc.
  by rewrite drop_app_length' by (rewrite length_app; lia).
Qed.

Context (size : Z).
Notation sized := (Forall (λ v : list Z, Z.of_nat (length v) = size)).

(** What [repr] says of the data: the elements and a rest. *)
Record holds ar l (tail : list (option Z)) : Prop := {
  ho_size : elementSize ar = size ∧ is_word 32 size;
  ho_cap : 2 ≤ capacity ar < 2 ^ 32;
  ho_count : count ar = Z.of_nat (length l);
  ho_room : Z.of_nat (length l) ≤ capacity ar;
  ho_sized : sized l;
  ho_data : data ar = (Some <$> concat l) ++ tail;
  ho_total : Z.of_nat (length l) * size + Z.of_nat (length tail) = capacity ar * size;
  ho_fits : Z.of_nat (length l) * size < 2 ^ 32;
}.

Lemma repr_holds ar l : repr size ar l ↔ ∃ tail, holds ar l tail.
Proof.
  split.
  - intros ([Hs Hm Hc Hb Ho] & Hcnt & Hf & Ht). pose proof (length_concat_sized _ _ Hf) as Hlen.
    exists (drop (Z.to_nat (count ar * size)) (data ar)). split; try done; try lia.
    + by rewrite <- Ht, take_drop.
    + rewrite length_drop. destruct Hs as [_ Hs]. unfold is_word in Hs. nia.
  - intros [tail [Hs Hm Hc Hr Hf Hd Ht Ho]]. pose proof (length_concat_sized _ _ Hf) as Hlen.
    split; [split; try done; try lia|split; [done|split; [done|]]].
    + rewrite Hd, length_app, length_fmap. lia.
    + rewrite Hd, Hc. apply take_app_length'. rewrite length_fmap. lia.
Qed.

(** An element among the bytes. *)
Lemma holds_split ar l tail i v : holds ar l tail → l !! i = Some v → ∃ a b,
  data ar = a ++ (Some <$> v) ++ b ∧ element_at ar (Z.of_nat i) = Z.of_nat (length a) ∧
  Z.of_nat (length a) = Z.of_nat i * size ∧
  a = Some <$> concat (take i l) ∧ b = (Some <$> concat (drop (S i) l)) ++ tail.
Proof.
  intros H Hi. exists (Some <$> concat (take i l)), ((Some <$> concat (drop (S i) l)) ++ tail).
  destruct (ho_size _ _ _ H) as [Hs Hw]. pose proof (lookup_lt_Some _ _ _ Hi) as Hlt.
  assert (Hlen : Z.of_nat (length (Some <$> concat (take i l))) = Z.of_nat i * size).
  { rewrite length_fmap, (length_concat_sized size) by (by apply Forall_take, (ho_sized _ _ _ H)).
    rewrite length_take. f_equal. lia. }
  split; [|split; [|done]].
  - rewrite (ho_data _ _ _ H), <- (take_drop_middle l i v Hi) at 1.
    rewrite concat_app, fmap_app. simpl. by rewrite fmap_app, <- !app_assoc.
  - unfold element_at. rewrite Hs, Hlen. apply wrap_small. unfold is_word in *.
    pose proof (ho_fits _ _ _ H). nia.
Qed.

Lemma sized_lookup ar l tail i v : holds ar l tail → l !! i = Some v → Z.of_nat (length v) = size.
Proof. intros H. exact (Forall_lookup_1 _ _ _ _ (ho_sized _ _ _ H)). Qed.

Lemma load_holds ar l tail i v : holds ar l tail → l !! i = Some v →
  load ar (element_at ar (Z.of_nat i)) = Ok (Some <$> v).
Proof.
  intros H Hi. pose proof (sized_lookup _ _ _ _ _ H Hi) as Hv.
  destruct (holds_split _ _ _ _ _ H Hi) as (a & b & Hd & -> & _). unfold load.
  rewrite (proj1 (ho_size _ _ _ H)), Hd, !length_app, length_fmap.
  destruct (Z.leb_spec (Z.of_nat (length a) + size) (Z.of_nat (length a + (length v + length b)))); [|lia].
  rewrite Nat2Z.id, drop_app_length, <- Hv, Nat2Z.id. f_equal.
  apply take_app_length'. by rewrite length_fmap.
Qed.

Lemma store_holds ar l tail i v w : holds ar l tail → l !! i = Some v → Z.of_nat (length w) = size →
  ∃ ar', store ar (element_at ar (Z.of_nat i)) (Some <$> w) = Ok ar' ∧ holds ar' (<[i:=w]> l) tail.
Proof.
  intros H Hi Hw. pose proof (sized_lookup _ _ _ _ _ H Hi) as Hv. pose proof (lookup_lt_Some _ _ _ Hi).
  destruct (holds_split _ _ _ _ _ H Hi) as (a & b & Hd & -> & _ & Ha & Hb). unfold store.
  rewrite Hd, !length_app, !length_fmap, Nat2Z.id.
  destruct (Z.leb_spec (Z.of_nat (length a) + Z.of_nat (length w))
    (Z.of_nat (length a + (length v + length b)))); [|lia].
  eexists. split; [done|]. rewrite splice_app by (rewrite !length_fmap; lia).
  destruct H as [Hs Hm Hc Hr Hf _ Ht Ho]. split; simpl; rewrite ?length_insert; try done.
  - by apply Forall_insert.
  - rewrite insert_take_drop by done. rewrite concat_app, fmap_app. simpl.
    by rewrite fmap_app, Ha, Hb, <- !app_assoc.
Qed.

(** Shortening the count keeps a prefix. *)
Lemma take_repr ar l n : repr size ar l → (n ≤ length l)%nat →
  repr size (with_count ar (Z.of_nat n)) (take n l).
Proof.
  rewrite !repr_holds. intros [tail H] Hn. destruct H as [[Hs Hw] Hm Hc Hr Hf Hd Ht Ho].
  exists ((Some <$> concat (drop n l)) ++ tail).
  pose proof (length_concat_sized size (drop n l) ltac:(by apply Forall_drop)) as Hlen.
  rewrite length_drop in Hlen. unfold is_word in Hw.
  split; simpl; rewrite ?length_take, ?Nat.min_l by lia; try done; try nia.
  - by apply Forall_take.
  - by rewrite app_assoc, <- fmap_app, <- concat_app, take_drop.
  - rewrite length_app, length_fmap. nia.
Qed.

Lemma realloc_grow (cells : list (option Z)) len : Z.of_nat (length cells) ≤ len →
  realloc_bytes cells len = cells ++ replicate (Z.to_nat len - length cells) None.
Proof. intros. unfold realloc_bytes. by rewrite take_ge by lia. Qed.

Lemma array_create_repr cap : is_word 32 size → cap < 2 ^ 32 →
  repr size (array_create_with_capacity size cap) [].
Proof.
  unfold is_word. intros Hs Hcap. apply repr_holds. unfold array_create_with_capacity, MIN_CAPACITY.
  set (c := if cap <? 2 then 2 else cap). assert (2 ≤ c < 2 ^ 32) by (subst c; destruct (Z.ltb_spec cap 2); lia).
  exists (replicate (Z.to_nat (u64 (size * c))) None).
  rewrite !wrap_small by (unfold is_word; nia).
  split; simpl; rewrite ?length_replicate; try done; try lia.
Qed.

(** Growing the storage, by a push or a reservation. *)
Lemma grow_holds ar l tail cap : holds ar l tail → capacity ar ≤ cap → cap * Z.max 1 size < 2 ^ 32 →
  holds (mkArray (count ar) cap size (realloc_bytes (data ar) (u32 (cap * size)))) l
    (tail ++ replicate (Z.to_nat (cap * size) - length (data ar)) None).
Proof.
  intros [[Hs Hw] Hm Hc Hr Hf Hd Ht Ho] Hcap Hfit. unfold is_word in Hw.
  assert (Hlen : Z.of_nat (length (data ar)) = capacity ar * size).
  { rewrite Hd, length_app, length_fmap. pose proof (length_concat_sized _ _ Hf). lia. }
  assert (Hle : capacity ar * size ≤ cap * size) by (apply Z.mul_le_mono_nonneg_r; lia).
  assert (Hub : cap * size < 2 ^ 32 ∧ cap < 2 ^ 32) by nia.
  rewrite wrap_small by (unfold is_word; lia).
  split; cbn [count capacity elementSize data]; try done; try lia.
  - rewrite realloc_grow by lia. by rewrite Hd, <- app_assoc at 1.
  - rewrite length_app, length_replicate. lia.
Qed.

(** One more element where there is room for it. *)
Lemma append_holds ar l tail v : holds ar l tail → Z.of_nat (length l) < capacity ar →
  Z.of_nat (length v) = size → (Z.of_nat (length l) + 1) * size < 2 ^ 32 →
  ∃ ar', store (with_count ar (u32 (count ar + 1))) (Z.of_nat (length l) * size) (Some <$> v) = Ok ar'
    ∧ repr size ar' (l ++ [v]).
Proof.
  intros [[Hs Hw] Hm Hc Hr Hf Hd Ht Ho] Hroom Hv Hfit. unfold is_word in Hw.
  pose proof (length_concat_sized _ _ Hf) as Hlen.
  assert (Hsp : tail = take (length v) tail ++ drop (length v) tail) by (by rewrite take_drop).
  assert (Hlv : length (take (length v) tail) = length v) by (rewrite length_take; nia).
  unfold store. cbn [data with_count count capacity elementSize]. rewrite Hd, length_app, !length_fmap.
  destruct (Z.leb_spec (Z.of_nat (length l) * size + Z.of_nat (length v))
    (Z.of_nat (length (concat l) + length tail))); [|nia].
  eexists. split; [done|]. apply repr_holds. exists (drop (length v) tail).
  rewrite Hsp at 1. replace (Z.to_nat (Z.of_nat (length l) * size))
    with (length (Some <$> concat l)) by (rewrite length_fmap; lia).
  rewrite splice_app by (by rewrite length_fmap).
  split; cbn [count capacity elementSize data]; rewrite ?length_app; simpl; try done; try nia.
  - rewrite Hc, wrap_small by (unfold is_word; lia). lia.
  - apply Forall_app. auto.
  - by rewrite concat_app, fmap_app, <- app_assoc; simpl; rewrite app_nil_r.
  - rewrite length_drop. nia.
Qed.

Lemma push_null_holds ar l : repr size ar l → 2 * Z.of_nat (length l) * Z.max 1 size < 2 ^ 32 →
  ∃ ar1 tail, array_push_back ar None = Ok (Z.of_nat (length l) * size, with_count ar1 (u32 (count ar1 + 1))) ∧
    holds ar1 l tail ∧ Z.of_nat (length l) < capacity ar1 ∧ (Z.of_nat (length l) + 1) * size < 2 ^ 32.
Proof.
  rewrite repr_holds. intros [tail H] Hfit. pose proof H as [[Hs Hw] Hm Hc Hr Hf Hd Ht Ho].
  unfold is_word in Hw. unfold array_push_back, element_at. cbn [capacity count].
  assert ((Z.of_nat (length l) + 1) * size < 2 ^ 32) by nia.
  destruct (Z.leb_spec (capacity ar) (count ar)) as [Hfull|Hroom]; cbn [elementSize];
    rewrite Hs, (wrap_small 32 (count ar * size)) by (unfold is_word; nia).
  - rewrite (wrap_small 32 (capacity ar * 2)) by (unfold is_word; nia).
    exists (mkArray (count ar) (capacity ar * 2) size (realloc_bytes (data ar) (u32 (capacity ar * 2 * size)))).
    eexists. split; [by rewrite Hc|]. split; [apply (grow_holds ar l tail); [done|lia|nia]|]. simpl. lia.
  - exists ar, tail. rewrite Hc, <- Hs. split; [done|]. split; [done|]. rewrite Hs. lia.
Qed.

(** A value is copied through the pointer that the caller would get. *)
Lemma push_back_fills ar v : array_push_back ar (Some v) =
  '(p, ar') ← array_push_back ar None; ar'' ← store ar' p (Some <$> v); Ok (p, ar'').
Proof. done. Qed.

Lemma push_repr ar l v : repr size ar l → op_ok size (Push v) l →
  ∃ ar', run_op (Push v) ar = Ok (RNum (Z.of_nat (length l) * size), ar') ∧
    run_op (PushNull v) ar = Ok (RNum (Z.of_nat (length l) * size), ar') ∧ repr size ar' (l ++ [v]).
Proof.
  intros Hr [Hv Hfit]. destruct (push_null_holds _ _ Hr Hfit) as (ar1 & tail & Hp & H & Hroom & Hf).
  destruct (append_holds _ _ _ _ H Hroom Hv Hf) as (ar' & Hst & Hr'). exists ar'.
  cbn [run_op]. rewrite push_back_fills, Hp. cbn. rewrite Hst. by cbn.
Qed.

Lemma swap_and_pop_repr ar l i : repr size ar l →
  ∃ ar', array_swap_and_pop ar (Z.of_nat i) = Ok ((swap_and_pop l i).1, ar')
         ∧ repr size ar' (swap_and_pop l i).2.
Proof.
  intros Hr. pose proof (proj1 (repr_holds _ _) Hr) as [tail H]. pose proof (ho_count _ _ _ H) as Hc.
  unfold array_swap_and_pop, swap_and_pop. rewrite Hc.
  destruct (decide (i < length l)%nat) as [Hi|Hi].
  2: { destruct (Z.ltb_spec 0 (Z.of_nat (length l)));
       destruct (Z.ltb_spec (Z.of_nat i) (Z.of_nat (length l))); simpl; eauto; lia. }
  destruct (Z.ltb_spec 0 (Z.of_nat (length l))); [|lia].
  destruct (Z.ltb_spec (Z.of_nat i) (Z.of_nat (length l))); [|lia]. simpl.
  rewrite last_lookup. replace (pred (length l)) with (length l - 1)%nat by lia.
  destruct (lookup_lt_is_Some_2 l (length l - 1)) as [x Hx]; [lia|]. rewrite Hx.
  replace (Z.of_nat (length l) - 1) with (Z.of_nat (length l - 1)) by lia.
  pose proof (take_repr ar l (length l - 1) Hr ltac:(lia)) as Hr'.
  destruct (Z.eqb_spec (Z.of_nat i) (Z.of_nat (length l - 1))) as [E|E]; simpl.
  { assert (i = length l - 1)%nat as -> by lia. rewrite Nat.eqb_refl. simpl.
    eexists. split; [done|]. rewrite list_insert_ge by (rewrite length_take; lia). done. }
  destruct (Nat.eqb_spec i (length l - 1)); [lia|]. simpl.
  destruct (lookup_lt_is_Some_2 l i Hi) as [y Hy].
  pose proof (proj1 (repr_holds _ _) Hr') as [tail' H'].
  assert (Hy' : take (length l - 1) l !! i = Some y) by (rewrite lookup_take_lt by lia; done).
  change (element_at (with_count ar (Z.of_nat (length l - 1)))) with (element_at ar) in *.
  change (load (with_count ar (Z.of_nat (length l - 1)))) with (load ar).
  rewrite (load_holds _ _ _ _ _ H Hx).
  pose proof (store_holds _ _ _ _ _ x H' Hy' (sized_lookup _ _ _ _ _ H Hx)) as (ar' & Hst & Hh).
  change (element_at (with_count ar (Z.of_nat (length l - 1)))) with (element_at ar) in Hst.
  destruct (holds_split _ _ _ _ _ H Hx) as (a & b & _ & Ea & La & _).
  destruct (holds_split _ _ _ _ _ H Hy) as (a' & b' & _ & Ea' & La' & _).
  destruct (Z.ltb_spec (Z.abs (element_at ar (Z.of_nat i) - element_at ar (Z.of_nat (length l - 1))))
    (elementSize ar)) as [Hov|_].
  { rewrite Ea, Ea', La, La', (proj1 (ho_size _ _ _ H)) in Hov. nia. }
  cbn. rewrite Hst. cbn. eexists. split; [done|]. apply repr_holds. eauto.
Qed.

Lemma shift_left_repr ar l n : repr size ar l →
  ∃ ar', array_shift_left ar (Z.of_nat n) = Ok ar' ∧ repr size ar' (drop n l).
Proof.
  intros Hr. pose proof (proj1 (repr_holds _ _) Hr) as [tail H].
  pose proof H as [[Hs Hw] Hm Hc Hro Hf Hd Ht Ho]. unfold is_word in Hw.
  unfold array_shift_left, array_count. rewrite Hc.
  destruct (Z.leb_spec (Z.of_nat (length l)) (Z.of_nat n)).
  { rewrite drop_ge by lia. eexists. split; [done|]. apply (take_repr ar l 0) in Hr; [done|lia]. }
  pose proof (length_concat_sized size (take n l) ltac:(by apply Forall_take)) as Ln.
  pose proof (length_concat_sized size (drop n l) ltac:(by apply Forall_drop)) as Ld.
  rewrite length_take in Ln. rewrite length_drop in Ld.
  assert (Hcat : concat l = concat (take n l) ++ concat (drop n l)) by (by rewrite <- concat_app, take_drop).
  unfold element_at. rewrite Hs, !wrap_small by (unfold is_word; nia).
  replace (Z.to_nat (Z.of_nat n * size)) with (length (concat (take n l))) by nia.
  replace (Z.to_nat ((Z.of_nat (length l) - Z.of_nat n) * size)) with (length (concat (drop n l))) by nia.
  rewrite Hd, Hcat, fmap_app, <- app_assoc, !length_app, !length_fmap.
  destruct (Nat.leb_spec (length (concat (take n l)) + length (concat (drop n l)))
    (length (concat (take n l)) + (length (concat (drop n l)) + length tail))); [|lia].
  eexists. split; [done|]. apply repr_holds.
  rewrite drop_app_length', take_app_length' by (by rewrite length_fmap).
  match goal with |- ∃ tail, holds (mkArray _ _ _ (splice 0 ?bs ?cells)) _ tail =>
    exists (drop (length bs) cells) end.
  assert (Hsum : Z.of_nat (length l) * size = Z.of_nat n * size + (Z.of_nat (length l) - Z.of_nat n) * size) by ring.
  rewrite Nat2Z.inj_sub in Ld by lia. rewrite Nat.min_l in Ln by lia.
  split; cbn [count capacity elementSize data]; rewrite ?length_drop, ?Nat2Z.inj_sub by lia; try done; try lia.
  - by apply Forall_drop.
  - rewrite !length_app, !length_fmap. lia.
Qed.

Lemma reserve_repr ar l n : repr size ar l → Z.of_nat n * Z.max 1 size < 2 ^ 32 →
  repr size (array_reserve ar (Z.of_nat n)) l.
Proof.
  intros Hr Hn. unfold array_reserve. destruct (Z.leb_spec (Z.of_nat n) (capacity ar)); [done|].
  revert Hr. rewrite !repr_holds. intros [tail Hh]. rewrite (proj1 (ho_size _ _ _ Hh)).
  eexists. eapply grow_holds; [done|lia|done].
Qed.

Lemma clear_from_repr ar l i : repr size ar l →
  repr size (array_clear_from_index ar (Z.of_nat i)) (take i l).
Proof.
  intros Hr. pose proof (proj1 (repr_holds _ _) Hr) as [tail H].
  unfold array_clear_from_index. rewrite (ho_count _ _ _ H).
  destruct (Z.ltb_spec (Z.of_nat i) (Z.of_nat (length l))).
  - apply take_repr; [done|lia].
  - by rewrite take_ge by lia.
Qed.

(** Reading an element, by pointer or by copy. *)
Lemma get_repr ar l i d : repr size ar l →
  array_get_copy ar (Z.of_nat i) (Some <$> d) = Ok (Some <$> default d (l !! i)) ∧
  read_through ar (array_get ar (Z.of_nat i)) = Ok (RElem ((λ v, Some <$> v) <$> l !! i), ar).
Proof.
  rewrite repr_holds. intros [tail H]. unfold array_get_copy, array_get. rewrite (ho_count _ _ _ H).
  destruct (Z.ltb_spec (Z.of_nat i) (Z.of_nat (length l))).
  - destruct (lookup_lt_is_Some_2 l i) as [x Hx]; [lia|]. simpl.
    by rewrite (load_holds _ _ _ _ _ H Hx), Hx.
  - by rewrite lookup_ge_None_2 by lia.
Qed.

Lemma back_repr ar l d : repr size ar l →
  array_back_copy ar (Some <$> d) = Ok (Some <$> default d (last l)) ∧
  read_through ar (array_back ar) = Ok (RElem ((λ v, Some <$> v) <$> last l), ar).
Proof.
  intros Hr. pose proof (get_repr ar l (pred (length l)) d Hr) as Hg. revert Hg.
  revert Hr. rewrite repr_holds. intros [tail H].
  unfold array_get_copy, array_get, array_back_copy, array_back. rewrite (ho_count _ _ _ H), last_lookup.
  destruct (Z.ltb_spec 0 (Z.of_nat (length l))).
  - replace (Z.of_nat (length l) - 1) with (Z.of_nat (pred (length l))) by lia.
    destruct (Z.ltb_spec (Z.of_nat (pred (length l))) (Z.of_nat (length l))); [done|lia].
  - intros _. by rewrite lookup_ge_None_2 by lia.
Qed.

Lemma array_op_refines o ar l : repr size ar l → op_ok size o l →
  ∃ ar', run_op o ar = Ok ((spec_op size o l).1, ar') ∧ repr size ar' (spec_op size o l).2.
Proof.
  intros Hr Hok. pose proof (proj1 (repr_holds _ _) Hr) as [tail H]. pose proof (ho_count _ _ _ H) as Hc.
  destruct o as [v|v| |i|n|n| |i|i v|i| |i d|d|]; cbn [run_op spec_op fst snd].
  - destruct (push_repr ar l v Hr Hok) as (ar' & ? & ? & ?). eauto.
  - destruct (push_repr ar l v Hr Hok) as (ar' & ? & ? & ?). eauto.
  - eexists. split; [done|]. unfold array_pop_back. rewrite Hc.
    destruct (Z.ltb_spec 0 (Z.of_nat (length l))).
    + replace (Z.of_nat (length l) - 1) with (Z.of_nat (length l - 1)) by lia.
      apply take_repr; [done|lia].
    + by rewrite take_ge by lia.
  - destruct (swap_and_pop_repr ar l i Hr) as (ar' & -> & ?).
    destruct (swap_and_pop l i). simpl in *. eauto.
  - destruct (shift_left_repr ar l n Hr) as (ar' & -> & ?). simpl. eauto.
  - eauto using reserve_repr.
  - eexists. split; [done|]. apply (take_repr ar l 0 Hr). lia.
  - eauto using clear_from_repr.
  - destruct Hok as [Hi Hv]. destruct (lookup_lt_is_Some_2 l i Hi) as [x Hx].
    destruct (store_holds _ _ _ _ _ v H Hx Hv) as (ar' & Hs & ?). unfold array_set. rewrite Hs. cbn.
    eexists. split; [done|]. apply repr_holds. eauto.
  - rewrite (proj2 (get_repr ar l i [] Hr)). eauto.
  - rewrite (proj2 (back_repr ar l [] Hr)). eauto.
  - rewrite (proj1 (get_repr ar l i d Hr)). cbn. eauto.
  - rewrite (proj1 (back_repr ar l d Hr)). cbn. eauto.
  - unfold array_count. rewrite Hc. eauto.
Qed.

Lemma array_ops_refine os : ∀ ar l, repr size ar l → ops_ok size os l →
  ∃ ar', run_ops os ar = Ok ((spec_ops size os l).1, ar') ∧ repr size ar' (spec_ops size os l).2.
Proof.
  induction os as [|o os IH]; intros ar l Hr Hok; simpl; [eauto|].
  destruct Hok as [Ho Hos]. destruct (array_op_refines o ar l Hr Ho) as (ar1 & -> & Hr1). simpl.
  destruct (spec_op size o l) as [r l1]. simpl in *.
  destruct (IH ar1 l1 Hr1 Hos) as (ar2 & -> & Hr2). simpl.
  destruct (spec_ops size os l1). simpl in *. eauto.
Qed.
End array_facts.

(** ** Properties *)

(** C14: A fresh array refines the empty list, and any sequence of operations that
    keeps within the callers' obligations ends without a fault, gives the
    replies of the list operations and leaves an array that refines the list.
    The obligations bound the bytes: a push needs twice the bytes of the elements
    below 2^32, a reservation its own bytes. [wrapped_push_is_undefined] is a push
    beyond them. *)
Theorem array_refines_list (size cap : Z) (os : list op) :
  is_word 32 size → cap < 2 ^ 32 → ops_ok size os [] →
  ∃ ar, run_ops os (array_create_with_capacity size cap) = Ok ((spec_ops size os []).1, ar)
        ∧ repr size ar (spec_ops size os []).2.
Proof. intros. apply array_ops_refine; auto using array_create_repr. Qed.

Lemma array_refines_list_witness :
  let os := [Push [1; 0; 0; 0]; PushNull [2; 0; 0; 0]; Push [3; 0; 0; 0]; SwapPop 0; Push [4; 0; 0; 0];
             ShiftLeft 1; Get 0; Back; GetCopy 7 [9; 9; 9; 9]; Count] in
  ∃ ar, run_ops os (array_create_with_capacity 4 0) = Ok ((spec_ops 4 os []).1, ar)
        ∧ repr 4 ar (spec_ops 4 os []).2.
Proof. apply array_refines_list; [done|reflexivity|]. repeat split; simpl; lia. Defined.

(** Elements of 2^30 bytes: the third push doubles the capacity to 4, the product
    of the reallocation is 0, and the element is stored outside the allocation. *)
Theorem wrapped_push_is_undefined (bytes : list (option Z)) v :
  v ≠ [] → array_push_back (mkArray 2 2 (2 ^ 30) bytes) (Some v) = Fault.
Proof.
  intros Hv. unfold array_push_back, store, element_at. cbn [capacity count elementSize data].
  change (2 <=? 2) with true. cbv iota. cbn [elementSize data].
  change (u32 (u32 (2 * 2) * 2 ^ 30)) with 0. change (realloc_bytes bytes 0) with (replicate (0 - length bytes) (@None Z)).
  rewrite length_replicate. rewrite length_fmap.
  change (u32 (2 * 2 ^ 30)) with (2 ^ 31). destruct (Z.leb_spec (2 ^ 31 + Z.of_nat (length v)) (Z.of_nat (0 - length bytes))); [lia|done].
Qed.
