(* ===== verification/EqpString.v ===== *)
(** The reference-counted growable string: common/container/eqp_string.c.

    [data] is the allocation behind the header, one cell per byte, [None] when
    uninitialised; its length is what malloc was asked for, [capacity] or
    [capacity + 1]. C strings are the list of their bytes before the NUL. *)

From S2P Require Import Prelude Bit.

Definition MIN_CAPACITY : Z := 8.

Record EString := mkString {
  length_ : Z;
  capacity : Z;
  refCount : Z;
  data : list (option Z);
}.

Definition with_length (s : EString) (n : Z) : EString :=
  mkString n (capacity s) (refCount s) (data s).

(** realloc to [n] bytes: the old prefix survives, the rest is uninitialised. *)
Definition realloc_bytes (cells : list (option Z)) (n : Z) : list (option Z) :=
  take (Z.to_nat n) cells ++ replicate (Z.to_nat n - length cells) None.

(** memcpy of [bs] to offset [at_], within the allocation. *)
Definition put_bytes (cells : list (option Z)) (at_ : Z) (bs : list Z) : outcome (list (option Z)) :=
  let i := Z.to_nat at_ in
  if (i + length bs <=? length cells)%nat
  then Ok (take i cells ++ (Some <$> bs) ++ drop (i + length bs) cells)
  else Fault.

(** The [len] bytes a caller's pointer gives; reading past them is undefined. *)
Definition read_src (src : list Z) (len : Z) : outcome (list Z) :=
  if len <=? Z.of_nat (length src) then Ok (take (Z.to_nat len) src) else Fault.

(** ** Operations *)

Definition string_create : EString :=
  mkString 0 MIN_CAPACITY 1 (replicate (Z.to_nat MIN_CAPACITY) None).

Definition string_create_with_capacity (cap : Z) : EString :=
  let cap := if cap <? MIN_CAPACITY then MIN_CAPACITY else bit_pow2_greater_or_equal cap in
  mkString 0 cap 1 (replicate (Z.to_nat cap) None).

(** [str] is NULL only from [string_create_from_cstr], which then sets the
    reference count itself. *)
Definition string_realloc_next_pow2 (str : option EString) (len : Z) : EString :=
  let cap := bit_pow2_greater_than len in
  let old := match str with Some s => data s | None => [] end in
  let rc := match str with Some s => refCount s | None => 0 end in
  mkString len cap rc (realloc_bytes old (cap + 1)).

Definition string_realloc_and_fill (str : option EString) (src : list Z) (len : Z) : outcome EString :=
  let str := string_realloc_next_pow2 str len in
  bs ← read_src src len;
  cells ← put_bytes (data str) 0 bs;
  cells ← put_bytes cells len [0];
  Ok (mkString (length_ str) (capacity str) (refCount str) cells).

Definition string_create_from_cstr (src : list Z) (len : Z) : outcome EString :=
  str ← string_realloc_and_fill None src len;
  Ok (mkString (length_ str) (capacity str) 1 (data str)).

(** [file] is the content [fread] delivers. *)
Definition string_create_from_file (file : list Z) : outcome EString :=
  let len := u32 (Z.of_nat (length file)) in
  let str := string_create_with_capacity (u32 (len + 1)) in
  str ← (if 0 <? len then
           cells ← put_bytes (data str) 0 (take (Z.to_nat len) file);
           Ok (mkString len (capacity str) (refCount str) cells)
         else Ok str);
  cells ← put_bytes (data str) len [0];
  Ok (mkString (length_ str) (capacity str) (refCount str) cells).

Definition string_grab (s : EString) : EString :=
  mkString (length_ s) (capacity s) (refCount s + 1) (data s).

(** [None]: freed. *)
Definition string_drop (s : EString) : option EString :=
  let s := mkString (length_ s) (capacity s) (refCount s - 1) (data s) in
  if refCount s <=? 0 then None else Some s.

Definition string_clear (s : EString) : outcome EString :=
  cells ← put_bytes (data s) 0 [0];
  Ok (mkString 0 (capacity s) (refCount s) cells).

Definition string_set_from_cstr (base : EString) (src : option (list Z)) (len : Z) : outcome EString :=
  match src with
  | None => Ok (with_length base 0)
  | Some src =>
      if len =? 0 then Ok (with_length base 0)
      else if len <? capacity base then
        bs ← read_src src len;
        cells ← put_bytes (data base) 0 bs;
        cells ← put_bytes cells len [0];
        Ok (mkString len (capacity base) (refCount base) cells)
      else string_realloc_and_fill (Some base) src len
  end.

(** [text] is what the format and its arguments print; [None] when vsnprintf
    fails. vsnprintf stores at most [capacity - 1] bytes and the NUL. *)
Definition string_set_from_vformat (base : EString) (text : option (list Z)) : outcome EString :=
  match text with
  | None => Throw ErrorFormatString
  | Some text =>
      let len := Z.of_nat (length text) in
      let base :=
        if capacity base <=? len then
          let cap := bit_pow2_greater_than len in
          mkString (length_ base) cap (refCount base) (realloc_bytes (data base) (cap + 1))
        else base in
      cells ← (if 0 <? capacity base
               then put_bytes (data base) 0 (take (Z.to_nat (capacity base - 1)) text ++ [0])
               else Ok (data base));
      Ok (mkString len (capacity base) (refCount base) cells)
  end.

(** NULL for an empty string. *)
Definition string_get_data (s : EString) : option (list (option Z)) :=
  if length_ s =? 0 then None else Some (data s).

Definition string_get_length (s : EString) : Z := length_ s.

Definition string_get_capacity (s : EString) : Z := capacity s.

Definition string_add_char (base : EString) (c : Z) : outcome EString :=
  let index := length_ base in
  let base := with_length base (u32 (index + 1)) in
  let base :=
    if capacity base <=? length_ base
    then string_realloc_next_pow2 (Some base) (length_ base) else base in
  cells ← put_bytes (data base) index [u8 c];
  cells ← put_bytes cells (u32 (index + 1)) [0];
  Ok (mkString (length_ base) (capacity base) (refCount base) cells).

Definition string_add_cstr (base : EString) (cstr : list Z) (len : Z) : outcome EString :=
  let index := length_ base in
  let end_ := u32 (index + len) in
  let base :=
    if capacity base <=? end_ then string_realloc_next_pow2 (Some base) end_
    else with_length base end_ in
  bs ← read_src cstr len;
  cells ← put_bytes (data base) index bs;
  cells ← put_bytes cells end_ [0];
  Ok (mkString (length_ base) (capacity base) (refCount base) cells).

(** The initialised bytes a pointer into a string's allocation reads. *)
Definition read_cells (cells : list (option Z)) (n : Z) : outcome (list Z) :=
  deref (mapM id (take (Z.to_nat n) cells)).

Definition string_add_string (base src : EString) : outcome EString :=
  bs ← read_cells (data src) (length_ src);
  string_add_cstr base bs (length_ src).

(** strcmp of an allocation against a C string; only its sign is used. *)
Fixpoint strcmp (cells : list (option Z)) (cstr : list Z) : outcome Z :=
  match cells with
  | [] | None :: _ => Fault
  | Some x :: cells =>
      match cstr with
      | [] => Ok (if x =? 0 then 0 else 1)
      | y :: cstr =>
          if x =? y then strcmp cells cstr else Ok (if x <? y then -1 else 1)
      end
  end.

Definition string_compare_cstr (s : EString) (cstr : list Z) : outcome Z := strcmp (data s) cstr.

(** ** What a string holds

    [repr s bs]: the [length] bytes are [bs], they are followed by a NUL when
    there are any, and the capacity does not promise more than was allocated. *)
Record repr (s : EString) (bs : list Z) : Prop := {
  repr_len : length_ s = Z.of_nat (length bs);
  repr_cap : 0 ≤ capacity s ≤ Z.of_nat (length (data s));
  repr_room : (0 < length (data s))%nat;
  repr_bytes : ∃ tail, data s = (Some <$> bs) ++ tail ∧ (bs ≠ [] → head tail = Some (Some 0));
}.

Inductive op :=
  | SetCstr (src : list Z) | SetFormat (text : list Z) | Clear | AddChar (c : Z)
  | AddCstr (src : list Z) | Grab.

Definition run_op (o : op) (s : EString) : outcome EString :=
  match o with
  | SetCstr src => string_set_from_cstr s (Some src) (Z.of_nat (length src))
  | SetFormat text => string_set_from_vformat s (Some text)
  | Clear => string_clear s
  | AddChar c => string_add_char s c
  | AddCstr src => string_add_cstr s src (Z.of_nat (length src))
  | Grab => Ok (string_grab s)
  end.

Definition spec_op (o : op) (bs : list Z) : list Z :=
  match o with
  | SetCstr src => src
  | SetFormat text => text
  | Clear => []
  | AddChar c => bs ++ [u8 c]
  | AddCstr src => bs ++ src
  | Grab => bs
  end.

Fixpoint run_ops (os : list op) (s : EString) : outcome EString :=
  match os with [] => Ok s | o :: os => s ← run_op o s; run_ops os s end.

Definition spec_ops (os : list op) (bs : list Z) : list Z := fold_left (λ bs o, spec_op o bs) os bs.

(** Every string on the way is shorter than 2^31 bytes. *)
Fixpoint ops_ok (os : list op) (bs : list Z) : Prop :=
  match os with
  | [] => True
  | o :: os => Z.of_nat (length (spec_op o bs)) < 2 ^ 31 ∧ ops_ok os (spec_op o bs)
  end.

(** ** Lemmas *)

Lemma read_src_all src : read_src src (Z.of_nat (length src)) = Ok src.
Proof.
  unfold read_src. destruct (Z.leb_spec (Z.of_nat (length src)) (Z.of_nat (length src))); [|lia].
  by rewrite Nat2Z.id, firstn_all.
Qed.

Lemma put_bytes_app pre mid tail at_ bs : at_ = Z.of_nat (length pre) → length mid = length bs →
  put_bytes (pre ++ mid ++ tail) at_ bs = Ok (pre ++ (Some <$> bs) ++ tail).
Proof.
  intros -> Hm. unfold put_bytes. rewrite Nat2Z.id, !length_app.
  destruct (Nat.leb_spec (length pre + length bs) (length pre + (length mid + length tail))); [|lia].
  rewrite take_app_length. do 3 f_equal.
  rewrite app_assoc. apply drop_app_length'. rewrite length_app. lia.
Qed.

(** Writing [bs] and the NUL behind a prefix [pre]. *)
Lemma put_end cells pre bs i j : i = Z.of_nat (length pre) → j = Z.of_nat (length (pre ++ bs)) →
  take (length pre) cells = Some <$> pre →
  (length (pre ++ bs) < length cells)%nat →
  ∃ tail, (c ← put_bytes cells i bs; put_bytes c j [0]) = Ok ((Some <$> (pre ++ bs)) ++ Some 0 :: tail)
          ∧ length ((Some <$> (pre ++ bs)) ++ Some 0 :: tail) = length cells.
Proof.
  intros Hi -> Ht Hlt. rewrite length_app in Hlt.
  assert (∃ mid c tail, cells = (Some <$> pre) ++ mid ++ c :: tail ∧ length mid = length bs)
    as (mid & c & tail & -> & Hmid).
  { set (rest := drop (length pre) cells).
    assert (length rest = length cells - length pre)%nat by (unfold rest; rewrite length_drop; lia).
    destruct (drop (length bs) rest) as [|c tail] eqn:Hd.
    { apply (f_equal length) in Hd. rewrite length_drop in Hd. simpl in Hd. lia. }
    exists (take (length bs) rest), c, tail. split.
    { rewrite <- Hd, <- Ht. rewrite (take_drop (length bs) rest). unfold rest. by rewrite take_drop. }
    rewrite length_take. lia. }
  exists tail. rewrite put_bytes_app by (rewrite ?length_fmap; done). cbn [mbind outcome_bind].
  rewrite app_assoc, <- fmap_app.
  rewrite (put_bytes_app (Some <$> (pre ++ bs)) [c] tail); [|by rewrite length_fmap|done].
  split; [done|]. rewrite !length_app, !length_fmap, ?length_app. simpl. lia.
Qed.

Lemma realloc_bytes_length cells n : 0 ≤ n → Z.of_nat (length (realloc_bytes cells n)) = n.
Proof.
  intros. unfold realloc_bytes. rewrite length_app, length_take, length_replicate. lia.
Qed.

Lemma realloc_bytes_take cells n m : (m ≤ Z.to_nat n)%nat → (m ≤ length cells)%nat →
  take m (realloc_bytes cells n) = take m cells.
Proof.
  intros. unfold realloc_bytes. rewrite take_app_le by (rewrite length_take; lia).
  rewrite take_take. f_equal. lia.
Qed.

Lemma repr_prefix s bs : repr s bs → take (length bs) (data s) = Some <$> bs.
Proof.
  intros [_ _ _ (tail & -> & _)]. apply take_app_length'. by rewrite length_fmap.
Qed.

Lemma repr_fits s bs : repr s bs → (length bs < length (data s))%nat ∨ bs = [].
Proof.
  intros [_ _ _ (tail & Hd & Hn)]. destruct bs; [by right|left].
  destruct tail; [by specialize (Hn ltac:(done))|].
  rewrite Hd, length_app, length_fmap. simpl. lia.
Qed.

Lemma string_repr_intro len cap rc bs tail : len = Z.of_nat (length bs) →
  0 ≤ cap ≤ Z.of_nat (length ((Some <$> bs) ++ Some 0 :: tail)) →
  repr (mkString len cap rc ((Some <$> bs) ++ Some 0 :: tail)) bs.
Proof.
  intros -> Hc. split; simpl; [done|done|rewrite length_app; simpl; lia|]. eauto.
Qed.

Lemma growth_bounds n : 0 ≤ n < 2 ^ 31 →
  n ≤ bit_pow2_greater_than n ∧ 0 ≤ bit_pow2_greater_than n.
Proof.
  intros. destruct (decide (n = 0)) as [->|]; [rewrite bit_pow2_greater_than_0; lia|].
  pose proof (bit_pow2_greater_than_bounds n). lia.
Qed.

(** The common end of every growing operation: [pre] survives in [cells]. *)
Lemma fill_repr cells pre bs cap rc i j :
  i = Z.of_nat (length pre) → j = Z.of_nat (length (pre ++ bs)) →
  take (length pre) cells = Some <$> pre → 0 ≤ cap ≤ Z.of_nat (length cells) →
  (length (pre ++ bs) < length cells)%nat →
  ∃ s, (c ← put_bytes cells i bs; c ← put_bytes c j [0]; Ok (mkString j cap rc c)) = Ok s
       ∧ repr s (pre ++ bs).
Proof.
  intros Hi Hj Ht Hc Hl. destruct (put_end cells pre bs i j Hi Hj Ht Hl) as (tail & Hp & Hlen).
  destruct (put_bytes cells i bs) as [c| |]; [|done..]. simpl in *. rewrite Hp. simpl.
  eexists. split; [done|]. apply string_repr_intro; [done|]. by rewrite Hlen.
Qed.

Lemma string_create_repr : repr string_create [].
Proof. split; [done|split; by vm_compute|simpl; lia|]. by exists (replicate 8 None). Qed.

Lemma realloc_and_fill_repr os bs : Z.of_nat (length bs) < 2 ^ 31 →
  ∃ s', string_realloc_and_fill os bs (Z.of_nat (length bs)) = Ok s' ∧ repr s' bs.
Proof.
  intros Hl. destruct (growth_bounds (Z.of_nat (length bs))) as [Hg ?]; [lia|].
  unfold string_realloc_and_fill, string_realloc_next_pow2. rewrite read_src_all. cbn.
  apply (fill_repr _ [] bs); [done..| |];
    pose proof (realloc_bytes_length (match os with Some s => data s | None => [] end)
      (bit_pow2_greater_than (Z.of_nat (length bs)) + 1) ltac:(lia)); simpl; lia.
Qed.

Lemma create_from_cstr_repr bs : Z.of_nat (length bs) < 2 ^ 31 →
  ∃ s, string_create_from_cstr bs (Z.of_nat (length bs)) = Ok s ∧ repr s bs ∧ refCount s = 1.
Proof.
  intros Hl. unfold string_create_from_cstr.
  destruct (realloc_and_fill_repr None bs Hl) as (s & -> & [? ? ? ?]). simpl.
  eexists. split_and!; [done| |done]. by split.
Qed.

Lemma set_from_cstr_repr s bs src : repr s bs → Z.of_nat (length src) < 2 ^ 31 →
  ∃ s', string_set_from_cstr s (Some src) (Z.of_nat (length src)) = Ok s' ∧ repr s' src.
Proof.
  intros Hr Hl. unfold string_set_from_cstr. destruct src as [|c src].
  { eexists. split; [done|]. destruct Hr. split; simpl; [done..|]. by exists (data s). }
  destruct (Z.eqb_spec (Z.of_nat (length (c :: src))) 0); [simpl in *; lia|].
  destruct (Z.ltb_spec (Z.of_nat (length (c :: src))) (capacity s)).
  - rewrite read_src_all. cbn [mbind outcome_bind].
    apply (fill_repr _ [] (c :: src)); [done..|by destruct Hr|destruct Hr; simpl in *; lia].
  - by apply realloc_and_fill_repr.
Qed.

Lemma set_from_vformat_repr s bs text : repr s bs → Z.of_nat (length text) < 2 ^ 31 →
  ∃ s', string_set_from_vformat s (Some text) = Ok s' ∧ repr s' text.
Proof.
  intros [? Hc Hroom ?] Hl. unfold string_set_from_vformat.
  destruct (growth_bounds (Z.of_nat (length text))) as [Hg ?]; [lia|].
  set (base := if capacity s <=? Z.of_nat (length text) then _ else s).
  assert (0 ≤ capacity base ≤ Z.of_nat (length (data base)) ∧ (0 < length (data base))%nat ∧
          (Z.of_nat (length text) < capacity base ∨ capacity base = 0 ∧ text = [])) as (Hcap & Hr & Hfit).
  { unfold base. destruct (Z.leb_spec (capacity s) (Z.of_nat (length text))); simpl; [|lia].
    pose proof (realloc_bytes_length (data s) (bit_pow2_greater_than (Z.of_nat (length text)) + 1)
      ltac:(lia)). split_and!; [lia..|].
    destruct text; [by right|left].
    pose proof (bit_pow2_greater_than_bounds (Z.of_nat (length (z :: text)))). simpl in *. lia. }
  clearbody base. destruct Hfit as [Hfit|[Hz ->]].
  - destruct (Z.ltb_spec 0 (capacity base)); [|lia]. rewrite take_ge by lia.
    pose proof (put_bytes_app [] (take (length (text ++ [0])) (data base))
      (drop (length (text ++ [0])) (data base)) 0 (text ++ [0])) as Hp.
    rewrite !app_nil_l, take_drop in Hp.
    rewrite Hp; [|done|rewrite length_take, length_app; simpl; lia].
    cbn [mbind outcome_bind]. eexists. split; [done|].
    replace ((Some <$> text ++ [0]) ++ drop (length (text ++ [0])) (data base))
      with ((Some <$> text) ++ Some 0 :: drop (length (text ++ [0])) (data base))
      by (rewrite fmap_app, <- app_assoc; done).
    apply string_repr_intro; [done|]. rewrite length_app, length_fmap. simpl.
    rewrite length_drop, length_app. simpl. lia.
  - rewrite Hz. simpl. eexists. split; [done|]. split; simpl; [done|lia|done|by exists (data base)].
Qed.

Lemma add_cstr_repr s bs src : repr s bs → Z.of_nat (length (bs ++ src)) < 2 ^ 31 →
  ∃ s', string_add_cstr s src (Z.of_nat (length src)) = Ok s' ∧ repr s' (bs ++ src).
Proof.
  intros Hr Hl. unfold string_add_cstr. rewrite length_app in Hl.
  pose proof (repr_prefix _ _ Hr) as Hp. pose proof (repr_fits _ _ Hr) as Hf.
  destruct Hr as [Hlen Hc Hroom _]. rewrite Hlen.
  rewrite <- Nat2Z.inj_add. rewrite wrap_small by (unfold is_word; lia).
  rewrite read_src_all. cbn [mbind outcome_bind].
  destruct (growth_bounds (Z.of_nat (length bs + length src))) as [Hg ?]; [lia|].
  destruct (Z.leb_spec (capacity s) (Z.of_nat (length bs + length src))); cbn.
  - pose proof (realloc_bytes_length (data s)
      (bit_pow2_greater_than (Z.of_nat (length bs + length src)) + 1) ltac:(lia)).
    apply fill_repr; rewrite ?length_app; [lia..| |lia|lia].
    rewrite realloc_bytes_take; [done|lia|].
    destruct Hf as [?| ->]; simpl; lia.
  - apply fill_repr; rewrite ?length_app; [lia..|done|lia|lia].
Qed.

Lemma add_char_repr s bs c : repr s bs → Z.of_nat (length (bs ++ [u8 c])) < 2 ^ 31 →
  ∃ s', string_add_char s c = Ok s' ∧ repr s' (bs ++ [u8 c]).
Proof.
  intros Hr Hl. unfold string_add_char. rewrite length_app in Hl. simpl in Hl.
  pose proof (repr_prefix _ _ Hr) as Hp. pose proof (repr_fits _ _ Hr) as Hf.
  destruct Hr as [Hlen Hc Hroom _]. rewrite Hlen.
  rewrite (wrap_small 32) by (unfold is_word; lia).
  destruct (growth_bounds (Z.of_nat (length bs) + 1)) as [Hg ?]; [lia|]. cbn.
  destruct (Z.leb_spec (capacity s) (Z.of_nat (length bs) + 1)); cbn.
  - pose proof (realloc_bytes_length (data s)
      (bit_pow2_greater_than (Z.of_nat (length bs) + 1) + 1) ltac:(lia)).
    apply fill_repr; rewrite ?length_app; simpl; [lia..| |lia|lia].
    rewrite realloc_bytes_take; [done|lia|].
    destruct Hf as [?| ->]; simpl; lia.
  - apply fill_repr; rewrite ?length_app; simpl; [lia..|done|lia|lia].
Qed.

Lemma clear_repr s bs : repr s bs → ∃ s', string_clear s = Ok s' ∧ repr s' [].
Proof.
  intros [? Hc Hroom _]. unfold string_clear. destruct (data s) as [|c cells]; [simpl in *; lia|].
  rewrite (put_bytes_app [] [c] cells) by done. simpl. eexists. split; [done|].
  apply (string_repr_intro _ _ _ [] cells); [done|]. simpl in *. lia.
Qed.

Lemma string_op_refines o s bs : repr s bs → Z.of_nat (length (spec_op o bs)) < 2 ^ 31 →
  ∃ s', run_op o s = Ok s' ∧ repr s' (spec_op o bs).
Proof.
  intros Hr Hl. destruct o; cbn [run_op spec_op] in *;
    eauto using set_from_cstr_repr, set_from_vformat_repr, clear_repr, add_char_repr, add_cstr_repr.
  eexists. split; [done|]. destruct Hr. by split.
Qed.

Lemma string_ops_refine os : ∀ s bs, repr s bs → ops_ok os bs →
  ∃ s', run_ops os s = Ok s' ∧ repr s' (spec_ops os bs).
Proof.
  induction os as [|o os IH]; intros s bs Hr Hok; [eauto|].
  destruct Hok as [Ho Hos]. simpl.
  destruct (string_op_refines o s bs Hr Ho) as (s1 & -> & Hr1). simpl. eauto.
Qed.

(** strcmp decides equality of NUL-terminated texts. *)
Lemma strcmp_eq bs tail cstr : Forall (λ b, b ≠ 0) bs → Forall (λ b, b ≠ 0) cstr →
  ∃ r, strcmp ((Some <$> bs) ++ Some 0 :: tail) cstr = Ok r ∧ (r = 0 ↔ bs = cstr).
Proof.
  intros Hb. revert cstr. induction Hb as [|b bs Hb _ IH]; intros cstr Hc; cbn [fmap list_fmap app strcmp].
  - destruct cstr as [|y cstr]; [by eexists|]. apply Forall_cons in Hc as [Hy _].
    destruct (Z.eqb_spec 0 y); [congruence|].
    destruct (Z.ltb_spec 0 y); eexists; (split; [reflexivity|]); split; intros; congruence || lia.
  - destruct cstr as [|y cstr].
    { destruct (Z.eqb_spec b 0); [done|]. eexists. split; [reflexivity|]. split; intros; congruence || lia. }
    apply Forall_cons in Hc as [Hy Hc]. destruct (Z.eqb_spec b y) as [->|].
    + destruct (IH cstr Hc) as (r & -> & Hr). exists r. split; [done|]. rewrite Hr. split; congruence.
    + destruct (Z.ltb_spec b y); eexists; (split; [done|]); split; congruence.
Qed.

(** A string made from a C string holds its bytes and a terminator. *)
Lemma create_from_cstr_data bs : Z.of_nat (length bs) < 2 ^ 31 →
  ∃ s tail, string_create_from_cstr bs (Z.of_nat (length bs)) = Ok s ∧
    data s = (Some <$> bs) ++ Some 0 :: tail.
Proof.
  intros Hl. unfold string_create_from_cstr, string_realloc_and_fill.
  destruct (growth_bounds (Z.of_nat (length bs))) as [Hg ?]; [lia|].
  rewrite read_src_all. cbn.
  destruct (put_end (realloc_bytes [] (bit_pow2_greater_than (Z.of_nat (length bs)) + 1)) [] bs
    0 (Z.of_nat (length bs))) as (tail & Hp & _); [done..| |].
  { pose proof (realloc_bytes_length [] (bit_pow2_greater_than (Z.of_nat (length bs)) + 1)
      ltac:(lia)). simpl. lia. }
  destruct (put_bytes _ 0 bs) as [c| |]; [|done..]. simpl in Hp |- *. rewrite Hp. simpl. eauto.
Qed.

(** ** Properties *)

(** C17: Any sequence of setting, formatting, appending and clearing, on a fresh
    string and below 2^31 bytes, stays inside its allocations and leaves the
    text that the same operations give on a list of bytes. *)
Theorem string_refines_bytes os : ops_ok os [] →
  ∃ s, run_ops os string_create = Ok s ∧ repr s (spec_ops os [])
       ∧ string_get_length s = Z.of_nat (length (spec_ops os [])).
Proof.
  intros Hok. destruct (string_ops_refine os _ _ string_create_repr Hok) as (s & ? & Hr).
  exists s. split_and!; [done|done|]. by destruct Hr.
Qed.

Lemma string_refines_bytes_witness :
  let os := [SetCstr [104; 105]; AddChar 33; AddCstr [97; 98; 99; 100; 101; 102; 103; 104]] in
  ∃ s, run_ops os string_create = Ok s ∧ repr s (spec_ops os [])
       ∧ string_get_length s = Z.of_nat (length (spec_ops os [])).
Proof. apply string_refines_bytes. repeat split. Defined.

(** A string made from a C string compares equal to exactly that C string. *)
Theorem string_compare_after_create bs cstr :
  Z.of_nat (length bs) < 2 ^ 31 → Forall (λ b, b ≠ 0) bs → Forall (λ b, b ≠ 0) cstr →
  ∃ s r, string_create_from_cstr bs (Z.of_nat (length bs)) = Ok s
         ∧ string_compare_cstr s cstr = Ok r ∧ (r = 0 ↔ bs = cstr).
Proof.
  intros Hl Hb Hc. destruct (create_from_cstr_data bs Hl) as (s & tail & -> & Hd).
  exists s. unfold string_compare_cstr. rewrite Hd.
  destruct (strcmp_eq bs tail cstr Hb Hc) as (r & Hs & Hr). eauto.
Qed.

Lemma string_compare_after_create_witness :
  ∃ s r, string_create_from_cstr [65; 66] 2 = Ok s
         ∧ string_compare_cstr s [65; 67] = Ok r ∧ (r = 0 ↔ [65; 66] = [65; 67]).
Proof. apply (string_compare_after_create [65; 66] [65; 67]); [done|repeat constructor; lia..]. Defined.

(** [string_set_from_cstr] with an empty text only clears the length: the old
    bytes stay, and [string_compare_cstr] still finds the old text. *)
Theorem string_set_empty_keeps_old_text bs :
  Z.of_nat (length bs) < 2 ^ 31 → Forall (λ b, b ≠ 0) bs →
  ∃ s s', string_create_from_cstr bs (Z.of_nat (length bs)) = Ok s
    ∧ string_set_from_cstr s (Some []) 0 = Ok s'
    ∧ string_get_length s' = 0 ∧ string_get_data s' = None
    ∧ string_compare_cstr s' bs = Ok 0.
Proof.
  intros Hl Hb. destruct (create_from_cstr_data bs Hl) as (s & tail & -> & Hd).
  exists s. eexists. do 4 (split; [done|]).
  destruct (strcmp_eq bs tail bs Hb Hb) as (r & Hs & Hr).
  unfold string_compare_cstr. cbn [data with_length]. rewrite Hd, Hs. by rewrite (proj2 Hr eq_refl).
Qed.

Lemma string_set_empty_keeps_old_text_witness :
  ∃ s s', string_create_from_cstr [97; 98] 2 = Ok s
    ∧ string_set_from_cstr s (Some []) 0 = Ok s'
    ∧ string_get_length s' = 0 ∧ string_get_data s' = None
    ∧ string_compare_cstr s' [97; 98] = Ok 0.
Proof. apply (string_set_empty_keeps_old_text [97; 98]); [done|repeat constructor; lia]. Defined.
