(* ===== verification/HashTable.v ===== *)
(** The string-keyed hash table: common/container/eqp_hash_table.c.

    Collisions are chained inside the slot array through [next] (coalesced
    chaining with eviction): a key whose main position holds an entry of
    another chain evicts it to the free slot, otherwise the new entry goes to
    the free slot at the end of its own chain. Slots are numbered; a pointer to
    an entry is its slot. [Fault] covers an access outside the slot array, a
    comparison with a NULL key, a chain that does not end within [capacity]
    steps, and a slot array whose size in bytes does not fit the 32-bit size
    the code allocates. The table only creates key strings from C strings,
    compares them with C strings and destroys them; an interface names what it
    is promised of them. *)

From S2P Require Import Prelude Bit EqpString.

(** * What the table needs of its keys *)

(** A C string usable as a key: no NUL inside, and shorter than 2^31 bytes. *)
Definition valid_key (bs : list Z) : Prop :=
  Forall (λ b, b ≠ 0) bs ∧ Z.of_nat (length bs) < 2 ^ 31.

Class KeyString (K : Type) := {
  key_create : list Z → Z → outcome K;
  key_compare : K → list Z → outcome Z;
  key_holds : K → list Z → Prop;
}.

Class KeyStringLaws (K : Type) `{KeyString K} := {
  key_create_holds bs : valid_key bs →
    ∃ k, key_create bs (Z.of_nat (length bs)) = Ok k ∧ key_holds k bs;
  key_compare_holds k bs cs : key_holds k bs → valid_key cs →
    ∃ r, key_compare k cs = Ok r ∧ (r = 0 ↔ bs = cs);
}.

#[export] Instance EString_key : KeyString EString := {
  key_create := string_create_from_cstr;
  key_compare := string_compare_cstr;
  key_holds s bs := Forall (λ b, b ≠ 0) bs ∧ ∃ tail, data s = (Some <$> bs) ++ Some 0 :: tail;
}.

#[export] Instance EString_key_laws : KeyStringLaws EString.
Proof.
  split.
  - intros bs [Hb Hl]. simpl.
    destruct (create_from_cstr_data bs Hl) as (s & tail & -> & Hd). eauto.
  - intros k bs cs [Hb [tail Hd]] [Hc _]. simpl. unfold string_compare_cstr. rewrite Hd.
    by apply strcmp_eq.
Qed.

Definition DEFAULT_CAPACITY : Z := 2.
Definition NEXT_INVALID : Z := 2 ^ 32 - 1.
Definition FREE_INDEX_INVALID : Z := 2 ^ 32 - 1.
(** sizeof(HashTable_Entry), sizeof(HashTable). *)
Definition SIZEOF_ENTRY : Z := 16.
Definition SIZEOF_TABLE : Z := 16.

(** [initSize = sizeof(HashTable) + entSize * n] in 32 bits covers [n] slots. *)
Definition table_fits (entSize n : Z) : bool :=
  u32 (SIZEOF_TABLE + u32 (entSize * n)) =? SIZEOF_TABLE + entSize * n.

Record Entry (K V : Type) := mkEntry {
  key : option K;     (* NULL as None *)
  hash : Z;
  next : Z;
  value : option V;   (* None: the zeroed bytes of a slot never filled *)
}.
Arguments mkEntry {K V}.
Arguments key {K V}.
Arguments hash {K V}.
Arguments next {K V}.
Arguments value {K V}.

Record HashTable (K V : Type) := mkTable {
  capacity : Z;
  elemSize : Z;
  freeIndex : Z;
  entSize : Z;
  entries : list (Entry K V);
}.
Arguments mkTable {K V}.
Arguments capacity {K V}.
Arguments elemSize {K V}.
Arguments freeIndex {K V}.
Arguments entSize {K V}.
Arguments entries {K V}.

(** key[i]; the caller's length never reaches past the terminator. *)
Definition char_at (k : list Z) (i : Z) : Z := default 0 (k !! Z.to_nat i).

(** One step reads a char, which is signed. *)
Definition hash_step (h c : Z) : Z :=
  Z.lxor h (u32 (u32 (Z.shiftl h 5) + Z.shiftr h 2 + i8 c)).

Fixpoint calc_hash_loop (fuel : nat) (k : list Z) (step i h : Z) : Z :=
  match fuel with
  | O => h
  | S fuel =>
      if step <=? i then calc_hash_loop fuel k step (i - step) (hash_step h (char_at k (i - 1)))
      else h
  end.

(** [i] falls by [step >= 1] each round, so [length] rounds are enough. *)
Definition hash_table_calc_hash (k : list Z) (length_ : Z) : Z :=
  let step := Z.shiftr length_ 5 + 1 in
  calc_hash_loop (Z.to_nat length_) k step length_ (u32 length_).

Section operations.
Context {K V : Type} `{KeyString K}.
Implicit Types (e : Entry K V) (ents : list (Entry K V)) (t : HashTable K V).

Definition empty_entry : Entry K V := mkEntry None 0 NEXT_INVALID None.

Definition hash_table_create (elementSize : Z) : outcome (HashTable K V) :=
  let entSize := u32 (elementSize + SIZEOF_ENTRY) in
  let entSize := if negb (entSize mod 8 =? 0) then u32 (entSize + (8 - entSize mod 8)) else entSize in
  if table_fits entSize DEFAULT_CAPACITY then
    Ok (mkTable DEFAULT_CAPACITY (u32 elementSize) 0 entSize
          (replicate (Z.to_nat DEFAULT_CAPACITY) empty_entry))
  else Fault.

Definition ent_at ents (i : Z) : outcome (Entry K V) := deref (ents !! Z.to_nat i).

Definition set_ent ents (i : Z) e : list (Entry K V) := <[Z.to_nat i := e]> ents.

Definition set_next e (n : Z) : Entry K V := mkEntry (key e) (hash e) n (value e).

(** [free(tbl)] with every key destroyed: the keys that are released. *)
Definition hash_table_destroy t : list K := omap key (entries t).

(** The values the callback is applied to, in slot order. *)
Definition hash_table_for_each t : list (option V) :=
  value <$> filter (λ e, is_Some (key e)) (entries t).

(** [while (++freeIndex != capacity)], stopping at a free slot. *)
Fixpoint advance_loop (fuel : nat) ents (cap freeIndex : Z) : outcome Z :=
  match fuel with
  | O => Fault
  | S fuel =>
      let freeIndex := u32 (freeIndex + 1) in
      if freeIndex =? cap then Ok FREE_INDEX_INVALID
      else
        e ← ent_at ents freeIndex;
        match key e with
        | None => Ok freeIndex
        | Some _ => advance_loop fuel ents cap freeIndex
        end
  end.

Definition hash_table_advance_free_index t : outcome (HashTable K V) :=
  f ← advance_loop (S (length (entries t))) (entries t) (capacity t) (freeIndex t);
  Ok (mkTable (capacity t) (elemSize t) f (entSize t) (entries t)).

(** [next] is left as it is. *)
Definition hash_table_do_insert e (k : list Z) (len : Z) (v : V) (h : Z) : outcome (Entry K V) :=
  ks ← key_create k len;
  Ok (mkEntry (Some ks) h (next e) (Some v)).

Definition hash_table_entry_copy (newEnt oldEnt : Entry K V) : Entry K V :=
  mkEntry (key oldEnt) (hash oldEnt) (next newEnt) (value oldEnt).

(** [while (mainEnt->next != pos)] follow the chain: the slot before [pos]. *)
Fixpoint follow_to (fuel : nat) ents (i pos : Z) : outcome Z :=
  match fuel with
  | O => Fault
  | S fuel =>
      e ← ent_at ents i;
      if next e =? pos then Ok i else follow_to fuel ents (next e) pos
  end.

(** [while (newEnt->next != NEXT_INVALID)]: the last slot of a chain. *)
Fixpoint follow_to_end (fuel : nat) ents (i : Z) : outcome Z :=
  match fuel with
  | O => Fault
  | S fuel =>
      e ← ent_at ents i;
      if next e =? NEXT_INVALID then Ok i else follow_to_end fuel ents (next e)
  end.

(** [for (;;) ... data[++newFreeIndex] ... if (ent->key == NULL) break;] *)
Fixpoint next_free (fuel : nat) ents (f : Z) : outcome Z :=
  match fuel with
  | O => Fault
  | S fuel =>
      e ← ent_at ents (f + 1);
      match key e with
      | None => Ok (f + 1)
      | Some _ => next_free fuel ents (f + 1)
      end
  end.

(** One round of the loop of hash_table_realloc, for one old entry. *)
Definition realloc_step (mask : Z) (oldEnt : Entry K V)
    (st : list (Entry K V) * Z) : outcome (list (Entry K V) * Z) :=
  let '(ents, newFreeIndex) := st in
  let pos := Z.land (hash oldEnt) mask in
  let fuel := S (length ents) in
  newEnt ← ent_at ents pos;
  match key newEnt with
  | None =>
      let ents := set_ent ents pos (hash_table_entry_copy newEnt oldEnt) in
      if negb (pos =? newFreeIndex) then Ok (ents, newFreeIndex)
      else f ← next_free fuel ents newFreeIndex; Ok (ents, f)
  | Some _ =>
      let mainPos := Z.land (hash newEnt) mask in
      if negb (mainPos =? pos) then
        _ ← ent_at ents newFreeIndex;
        let ents := set_ent ents newFreeIndex newEnt in
        m ← follow_to fuel ents mainPos pos;
        mainEnt ← ent_at ents m;
        let ents := set_ent ents m (set_next mainEnt newFreeIndex) in
        newEnt ← ent_at ents pos;
        let ents := set_ent ents pos
          (set_next (hash_table_entry_copy newEnt oldEnt) FREE_INDEX_INVALID) in
        f ← next_free fuel ents newFreeIndex; Ok (ents, f)
      else
        m ← follow_to_end fuel ents pos;
        lastEnt ← ent_at ents m;
        let ents := set_ent ents m (set_next lastEnt newFreeIndex) in
        freeEnt ← ent_at ents newFreeIndex;
        let ents := set_ent ents newFreeIndex (hash_table_entry_copy freeEnt oldEnt) in
        f ← next_free fuel ents newFreeIndex; Ok (ents, f)
  end.

Fixpoint realloc_loop (mask : Z) (old : list (Entry K V)) (st : list (Entry K V) * Z)
    : outcome (list (Entry K V) * Z) :=
  match old with
  | [] => Ok st
  | e :: old => st ← realloc_step mask e st; realloc_loop mask old st
  end.

Definition hash_table_realloc (oldTbl : HashTable K V) : outcome (HashTable K V) :=
  let newCap := u32 (capacity oldTbl * 2) in
  if negb (table_fits (entSize oldTbl) newCap) then Fault else
  '(ents, f) ← realloc_loop (newCap - 1) (entries oldTbl)
                 (replicate (Z.to_nat newCap) empty_entry, 0);
  Ok (mkTable newCap (elemSize oldTbl) f (entSize oldTbl) ents).

(** [ent->hash == hash && string_compare_cstr(ent->key, key) == 0] *)
Definition ent_matches e (h : Z) (k : list Z) : outcome bool :=
  if hash e =? h then
    match key e with
    | None => Fault
    | Some ks => r ← key_compare ks k; Ok (r =? 0)
    end
  else Ok false.

(** Walk a chain: [(true, slot)] at the entry for [k], else [(false, last slot)]. *)
Fixpoint search (fuel : nat) ents (i h : Z) (k : list Z) : outcome (bool * Z) :=
  match fuel with
  | O => Fault
  | S fuel =>
      e ← ent_at ents i;
      b ← ent_matches e h k;
      if (b : bool) then Ok (true, i)
      else if negb (next e =? NEXT_INVALID) then search fuel ents (next e) h k
      else Ok (false, i)
  end.

Definition with_entries t ents : HashTable K V :=
  mkTable (capacity t) (elemSize t) (freeIndex t) (entSize t) ents.

Definition hash_table_do_set_once t (k : list Z) (len : Z) (v : V) (h : Z)
    (retry : HashTable K V → outcome (bool * HashTable K V)) : outcome (bool * HashTable K V) :=
  let free := freeIndex t in
  let capMinusOne := capacity t - 1 in
  let pos := Z.land h capMinusOne in
  let fuel := S (length (entries t)) in
  ent ← ent_at (entries t) pos;
  match key ent with
  | None =>
      t ← (if pos =? free then hash_table_advance_free_index t else Ok t);
      e ← hash_table_do_insert ent k len v h;
      Ok (true, with_entries t (set_ent (entries t) pos e))
  | Some _ =>
      if negb (free =? FREE_INDEX_INVALID) then
        let mainPos := Z.land (hash ent) capMinusOne in
        if negb (mainPos =? pos) then
          _ ← ent_at (entries t) free;
          let ents := set_ent (entries t) free ent in
          m ← follow_to fuel ents mainPos pos;
          mainEnt ← ent_at ents m;
          let ents := set_ent ents m (set_next mainEnt free) in
          t ← hash_table_advance_free_index (with_entries t ents);
          ent ← ent_at (entries t) pos;
          e ← hash_table_do_insert ent k len v h;
          Ok (true, with_entries t (set_ent (entries t) pos (set_next e FREE_INDEX_INVALID)))
        else
          '(found, m) ← search fuel (entries t) pos h k;
          if (found : bool) then Ok (false, t)
          else
            lastEnt ← ent_at (entries t) m;
            let ents := set_ent (entries t) m (set_next lastEnt free) in
            t ← hash_table_advance_free_index (with_entries t ents);
            freeEnt ← ent_at (entries t) free;
            e ← hash_table_do_insert freeEnt k len v h;
            Ok (true, with_entries t (set_ent (entries t) free e))
      else
        t ← hash_table_realloc t;
        retry t
  end.

(** The recursion after a realloc; [depth] bounds it. *)
Fixpoint hash_table_do_set (depth : nat) t (k : list Z) (len : Z) (v : V) (h : Z)
    : outcome (bool * HashTable K V) :=
  match depth with
  | O => Fault
  | S depth => hash_table_do_set_once t k len v h (λ t, hash_table_do_set depth t k len v h)
  end.

Definition hash_table_set_by_cstr t (k : list Z) (len : Z) (v : V) : outcome (bool * HashTable K V) :=
  let h := hash_table_calc_hash k len in
  hash_table_do_set 2 t k len v h.

(** The value the returned pointer points to; NULL as [None]. *)
Definition hash_table_get_by_cstr t (k : list Z) (len : Z) : outcome (option V) :=
  let h := hash_table_calc_hash k len in
  let capMinusOne := capacity t - 1 in
  let pos := Z.land h capMinusOne in
  ent ← ent_at (entries t) pos;
  match key ent with
  | None => Ok None
  | Some _ =>
      let mainPos := Z.land (hash ent) capMinusOne in
      if negb (mainPos =? pos) then Ok None
      else
        '(found, i) ← search (S (length (entries t))) (entries t) pos h k;
        if (found : bool) then e ← ent_at (entries t) i; Ok (value e) else Ok None
  end.

(** The walk of hash_table_remove_by_cstr, with the slot before. *)
Fixpoint search_prev (fuel : nat) ents (prev : option Z) (i h : Z) (k : list Z)
    : outcome (option (option Z * Z)) :=
  match fuel with
  | O => Fault
  | S fuel =>
      e ← ent_at ents i;
      b ← ent_matches e h k;
      if (b : bool) then Ok (Some (prev, i))
      else if negb (next e =? NEXT_INVALID) then search_prev fuel ents (Some i) (next e) h k
      else Ok None
  end.

Definition clear_entry e : Entry K V := mkEntry None (hash e) NEXT_INVALID (value e).

Definition hash_table_remove_by_cstr t (k : list Z) (len : Z) : outcome (HashTable K V) :=
  let h := hash_table_calc_hash k len in
  let capMinusOne := capacity t - 1 in
  let free := freeIndex t in
  let pos := Z.land h capMinusOne in
  ent ← ent_at (entries t) pos;
  match key ent with
  | None => Ok t
  | Some _ =>
      let mainPos := Z.land (hash ent) capMinusOne in
      if negb (mainPos =? pos) then Ok t
      else
        found ← search_prev (S (length (entries t))) (entries t) None pos h k;
        match found with
        | None => Ok t
        | Some (Some p, i) =>
            prev ← ent_at (entries t) p;
            ent ← ent_at (entries t) i;
            let cur := next prev in
            let ents := set_ent (entries t) p (set_next prev (next ent)) in
            let f := if cur <? free then cur else free in
            Ok (mkTable (capacity t) (elemSize t) f (entSize t) (set_ent ents i (clear_entry ent)))
        | Some (None, i) =>
            ent ← ent_at (entries t) i;
            let nxt := next ent in
            if negb (nxt =? NEXT_INVALID) then
              ent ← ent_at (entries t) nxt;
              let ents := set_ent (entries t) i ent in
              let f := if nxt <? free then nxt else free in
              Ok (mkTable (capacity t) (elemSize t) f (entSize t) (set_ent ents nxt (clear_entry ent)))
            else
              Ok (with_entries t (set_ent (entries t) i (clear_entry ent)))
        end
  end.
End operations.
