(* ===== verification/HashChains.v ===== *)
(** The chains of the hash table's slot array.

    A slot array is well formed for a mask when its live slots split into
    chains, one per main position, each starting at that position and linked
    through [next]. The lemmas say what each of the table's elementary moves
    (fill, evict, append, unlink) does to the chains. *)

From stdpp Require Import functions.
From S2P Require Import Prelude Bit EqpString HashTable.

Section chains.
Context {K V : Type} `{KeyString K}.
Implicit Types (e : Entry K V) (ents : list (Entry K V)) (ch : nat → list nat) (l : list nat).

Definition live e : Prop := is_Some (key e).
Definition main (mask : Z) e : nat := Z.to_nat (Z.land (hash e) mask).

(** Following [next] from [z] visits the slots [l] and stops at [w]. *)
Fixpoint path ents l (z w : Z) : Prop :=
  match l with
  | [] => z = w
  | i :: l => z = Z.of_nat i ∧ ∃ e, ents !! i = Some e ∧ path ents l (next e) w
  end.

Lemma path_app ents l1 l2 z w :
  path ents (l1 ++ l2) z w ↔ ∃ u, path ents l1 z u ∧ path ents l2 u w.
Proof.
  revert z. induction l1 as [|i l1 IH]; intros z; simpl.
  - split; [by exists z|]. by intros (u & -> & ?).
  - split.
    + intros (-> & e & He & (u & ? & ?)%IH). eauto 10.
    + intros (u & (-> & e & He & ?) & ?). split; [done|]. exists e. split; [done|].
      apply IH. eauto.
Qed.

Lemma path_frame ents ents' l z w :
  (∀ i, i ∈ l → ents' !! i = ents !! i) → path ents l z w → path ents' l z w.
Proof.
  revert z. induction l as [|i l IH]; intros z Hag; simpl; [done|].
  intros (-> & e & He & ?). split; [done|]. exists e. split.
  - rewrite Hag; [done|set_solver].
  - apply IH; [|done]. intros j ?. apply Hag. set_solver.
Qed.

Lemma path_insert ents l z w i e : i ∉ l → path ents l z w → path (<[i:=e]> ents) l z w.
Proof.
  intros Hi. apply path_frame. intros j Hj. rewrite list_lookup_insert_ne; [done|].
  intros ->. done.
Qed.

Record chains (mask : Z) ents ch : Prop := {
  ch_head p i l : ch p = i :: l → i = p;
  ch_path p : ∃ z, path ents (ch p) z NEXT_INVALID;
  ch_member p i : i ∈ ch p → ∃ e, ents !! i = Some e ∧ live e ∧ main mask e = p;
  ch_live i e : ents !! i = Some e → live e → i ∈ ch (main mask e);
  ch_nodup p : NoDup (ch p);
  ch_dead i e : ents !! i = Some e → key e = None → next e = NEXT_INVALID;
}.

Lemma live_dec e : live e ∨ key e = None.
Proof. unfold live. destruct (key e); eauto. Qed.

Lemma ent_at_nat ents i : ent_at ents (Z.of_nat i) = deref (ents !! i).
Proof. unfold ent_at. by rewrite Nat2Z.id. Qed.

Lemma set_ent_nat ents i e : set_ent ents (Z.of_nat i) e = <[i:=e]> ents.
Proof. unfold set_ent. by rewrite Nat2Z.id. Qed.

Section facts.
Context (mask : Z) ents ch (Hch : chains mask ents ch).

Lemma chain_of_live p e : ents !! p = Some e → live e → main mask e = p →
  ∃ l, ch p = p :: l.
Proof.
  intros He Hl Hm. pose proof (ch_live _ _ _ Hch _ _ He Hl) as Hin. rewrite Hm in Hin.
  destruct (ch p) as [|i l] eqn:Hc; [by apply not_elem_of_nil in Hin|].
  exists l. by rewrite (ch_head _ _ _ Hch _ _ _ Hc).
Qed.

Lemma chain_of_dead p e : ents !! p = Some e → key e = None → ch p = [].
Proof.
  intros He Hk. destruct (ch p) as [|i l] eqn:Hc; [done|].
  pose proof (ch_head _ _ _ Hch _ _ _ Hc) as ->.
  destruct (ch_member _ _ _ Hch p p) as (e' & He' & [? Hl] & _); [rewrite Hc; set_solver|].
  congruence.
Qed.

Lemma dead_not_in p f e : ents !! f = Some e → key e = None → f ∉ ch p.
Proof.
  intros He Hk Hin. destruct (ch_member _ _ _ Hch p f Hin) as (e' & He' & [? Hl] & _).
  congruence.
Qed.

(** A slot off its main position has a predecessor in its chain. *)
Lemma chain_split p e : ents !! p = Some e → live e → main mask e ≠ p →
  ∃ l1 a l2, ch (main mask e) = l1 ++ a :: p :: l2.
Proof.
  intros He Hl Hm. pose proof (ch_live _ _ _ Hch _ _ He Hl) as Hin.
  apply list_elem_of_split in Hin as (l1 & l2 & Hc).
  destruct l1 as [|a l1 _] using rev_ind.
  - simpl in Hc. by apply (ch_head _ _ _ Hch) in Hc.
  - exists l1, a, l2. by rewrite Hc, <-app_assoc.
Qed.

Lemma chain_length p : (length (ch p) ≤ length ents)%nat.
Proof.
  rewrite <-(length_seq (length ents) 0). apply submseteq_length, NoDup_submseteq.
  - apply (ch_nodup _ _ _ Hch).
  - intros i (e & He & _)%(ch_member _ _ _ Hch). apply elem_of_seq.
    apply lookup_lt_Some in He. lia.
Qed.

Lemma member_main p q i : i ∈ ch p → i ∈ ch q → p = q.
Proof.
  intros (e & He & _ & <-)%(ch_member _ _ _ Hch) (e' & He' & _ & <-)%(ch_member _ _ _ Hch).
  congruence.
Qed.
End facts.

(** ** The elementary moves *)

(** Case analysis on a lookup in an updated slot array. *)
Ltac slot_case H :=
  repeat apply list_lookup_insert_Some in H as [(<- & <- & _)|[? H]].

Lemma path_last l a ents z w :
  path ents (l ++ [a]) z w → ∃ e, ents !! a = Some e ∧ next e = w ∧ path ents l z (Z.of_nat a).
Proof. intros (u & ? & -> & e & ? & <-)%path_app. eauto. Qed.

(** Replacing the one chain [q] by [l]: what a move has to show. *)
Lemma chains_change mask ents ents' ch q l z :
  chains mask ents ch →
  (∀ p i, p ≠ q → i ∈ ch p → ents' !! i = ents !! i) →
  (∀ i l', l = i :: l' → i = q) →
  path ents' l z NEXT_INVALID →
  NoDup l →
  (∀ i, i ∈ l → ∃ e, ents' !! i = Some e ∧ live e ∧ main mask e = q) →
  (∀ i e, ents' !! i = Some e → live e →
     main mask e = q ∧ i ∈ l ∨ main mask e ≠ q ∧ ents !! i = Some e) →
  (∀ i e, ents' !! i = Some e → key e = None → next e = NEXT_INVALID) →
  chains mask ents' (<[q:=l]> ch).
Proof.
  intros Hch Hsame Hhead Hpath Hnd Hmem Hlive Hdead.
  split; [intros p.. |].
  - intros i l'. destruct (decide (p = q)) as [->|].
    + rewrite fn_lookup_insert. apply Hhead.
    + rewrite fn_lookup_insert_ne by done. apply (ch_head _ _ _ Hch).
  - destruct (decide (p = q)) as [->|].
    + rewrite fn_lookup_insert. eauto.
    + rewrite fn_lookup_insert_ne by done. destruct (ch_path _ _ _ Hch p) as [z' ?].
      exists z'. eapply path_frame; [|done]. eauto.
  - intros i. destruct (decide (p = q)) as [->|].
    + rewrite fn_lookup_insert. apply Hmem.
    + rewrite fn_lookup_insert_ne by done. intros Hi. erewrite Hsame by eauto.
      by apply (ch_member _ _ _ Hch).
  - intros e He Hl. destruct (Hlive _ _ He Hl) as [[-> ?]|[? ?]].
    + by rewrite fn_lookup_insert.
    + rewrite fn_lookup_insert_ne by done. by apply (ch_live _ _ _ Hch).
  - destruct (decide (p = q)) as [->|].
    + by rewrite fn_lookup_insert.
    + rewrite fn_lookup_insert_ne by done. apply (ch_nodup _ _ _ Hch).
  - done.
Qed.

(** Filling the dead main slot [p] starts the chain [p]. *)
Lemma chains_place mask ents ch p d x :
  chains mask ents ch → ents !! p = Some d → key d = None →
  live x → main mask x = p → next x = NEXT_INVALID →
  chains mask (<[p:=x]> ents) (<[p:=[p]]> ch).
Proof.
  intros Hch Hd Hk Hl Hm Hn. pose proof (chain_of_dead _ _ _ Hch _ _ Hd Hk) as Hnil.
  assert (p < length ents)%nat by (eapply lookup_lt_Some; eauto).
  eapply (chains_change mask ents _ ch p [p] (Z.of_nat p)); [done|..].
  - intros q i ? Hi. apply list_lookup_insert_ne. intros ->. by eapply dead_not_in.
  - congruence.
  - split; [done|]. exists x. by rewrite list_lookup_insert_eq.
  - apply NoDup_singleton.
  - intros i ->%list_elem_of_singleton. exists x. by rewrite list_lookup_insert_eq.
  - intros i e He Hle. slot_case He; [set_solver|].
    right. split; [|done]. intros Heq. pose proof (ch_live _ _ _ Hch _ _ He Hle) as Hin.
    rewrite Heq, Hnil in Hin. set_solver.
  - intros i e He Hke. slot_case He; [done|]. by eapply (ch_dead _ _ _ Hch).
Qed.

(** Overwriting a dead slot by another dead one changes no chain. *)
Lemma chains_place_dead mask ents ch p d x :
  chains mask ents ch → ents !! p = Some d → key d = None →
  key x = None → next x = NEXT_INVALID → chains mask (<[p:=x]> ents) ch.
Proof.
  intros Hch Hd Hk Hl Hn. split.
  - apply (ch_head _ _ _ Hch).
  - intros q. destruct (ch_path _ _ _ Hch q) as [z ?].
    exists z. apply path_insert; [|done]. by eapply dead_not_in.
  - intros q i Hi. rewrite list_lookup_insert_ne; [by apply (ch_member _ _ _ Hch)|].
    intros ->. by eapply dead_not_in.
  - intros i e He Hle. slot_case He; [by destruct Hle as [? ?]; congruence|].
    by apply (ch_live _ _ _ Hch).
  - apply (ch_nodup _ _ _ Hch).
  - intros i e He Hke. slot_case He; [done|]. by eapply (ch_dead _ _ _ Hch).
Qed.

(** The chain [p] split at an element: its path, its slots and their disjointness. *)
Lemma chain_at mask ents ch p l1 a l2 : chains mask ents ch → ch p = l1 ++ a :: l2 →
  ∃ z e, ents !! a = Some e ∧ live e ∧ main mask e = p ∧
    path ents l1 z (Z.of_nat a) ∧ path ents l2 (next e) NEXT_INVALID ∧ a ∉ l1 ∧ a ∉ l2.
Proof.
  intros Hch Hp. destruct (ch_path _ _ _ Hch p) as [z Hz].
  pose proof (ch_nodup _ _ _ Hch p) as Hnd. rewrite Hp in Hz, Hnd.
  apply path_app in Hz as (u & Hu & -> & e & He & ?).
  destruct (ch_member _ _ _ Hch p a) as (e' & He' & ? & ?); [rewrite Hp; set_solver|].
  apply NoDup_app in Hnd as (? & Hd & [? ?]%NoDup_cons).
  exists z, e. split_and!; try done; try congruence.
  intros ?. eapply Hd; [done|]. set_solver.
Qed.

(** Appending the dead slot [f], filled with [x], to the chain [p]. *)
Lemma chains_append mask ents ch p l m em f d x :
  chains mask ents ch → ch p = l ++ [m] → ents !! m = Some em →
  ents !! f = Some d → key d = None →
  live x → main mask x = p → next x = NEXT_INVALID →
  chains mask (<[f:=x]> (<[m:=set_next em (Z.of_nat f)]> ents)) (<[p:=(l ++ [m; f])]> ch).
Proof.
  intros Hch Hp Hm Hf Hd Hl Hx Hn.
  destruct (chain_at _ _ _ p l m [] Hch Hp) as (z & em' & Hm' & Hml & Hmm & Hpl & _ & Hnl & _).
  assert (em' = em) as -> by congruence.
  assert (Hfp : ∀ q', f ∉ ch q') by (intros; by eapply dead_not_in).
  assert (Hfl : f ∉ l) by (specialize (Hfp p); rewrite Hp in Hfp; set_solver).
  assert (Hfm : f ≠ m) by (intros ->; specialize (Hfp p); rewrite Hp in Hfp; set_solver).
  assert (f < length ents ∧ m < length ents)%nat as [??]
    by (split; eapply lookup_lt_Some; eauto).
  pose proof (ch_nodup _ _ _ Hch p) as Hnd. rewrite Hp in Hnd.
  eapply (chains_change mask ents _ ch p _ z); [done|..].
  - intros q i Hq Hi. rewrite !list_lookup_insert_ne; [done|..].
    + intros ->. apply Hq. eapply member_main; [done..|]. rewrite Hp. set_solver.
    + intros ->. by eapply Hfp.
  - intros i l' Hi. destruct l as [|j l]; simpl in *; simplify_eq;
      by apply (ch_head _ _ _ Hch) in Hp.
  - apply path_app. exists (Z.of_nat m). split; [by repeat apply path_insert|].
    split; [done|]. exists (set_next em (Z.of_nat f)).
    rewrite list_lookup_insert_ne, list_lookup_insert_eq by done. split; [done|].
    split; [done|]. exists x. rewrite list_lookup_insert_eq by (by rewrite length_insert). done.
  - replace (l ++ [m; f]) with ((l ++ [m]) ++ [f]) by (by rewrite <-app_assoc).
    apply NoDup_app. split; [done|].
    split; [set_solver|apply NoDup_singleton].
  - intros i Hi. destruct (decide (i = f)) as [->|].
    { exists x. by rewrite list_lookup_insert_eq by (by rewrite length_insert). }
    rewrite list_lookup_insert_ne by done. destruct (decide (i = m)) as [->|].
    { exists (set_next em (Z.of_nat f)). rewrite list_lookup_insert_eq by done. done. }
    rewrite list_lookup_insert_ne by done. apply (ch_member _ _ _ Hch). rewrite Hp. set_solver.
  - intros i e He Hle. slot_case He; [left; set_solver|left; set_solver|].
    destruct (decide (main mask e = p)) as [Heq|]; [|by right].
    left. split; [done|]. pose proof (ch_live _ _ _ Hch _ _ He Hle) as Hin.
    rewrite Heq, Hp in Hin. set_solver.
  - intros i e He Hke. slot_case He; [done| |by eapply (ch_dead _ _ _ Hch)].
    destruct Hml as [? ?]. simpl in Hke. congruence.
Qed.

(** Moving the slot [p] of the chain [q] to the dead slot [f]; [p] ends up dead. *)
Lemma chains_evict mask ents ch p e q l1 a ea l2 f d x :
  chains mask ents ch → ch q = l1 ++ a :: p :: l2 → ents !! p = Some e → ents !! a = Some ea →
  ents !! f = Some d → key d = None → key x = None → next x = NEXT_INVALID →
  chains mask (<[p:=x]> (<[a:=set_next ea (Z.of_nat f)]> (<[f:=e]> ents)))
    (<[q:=(l1 ++ a :: f :: l2)]> ch).
Proof.
  intros Hch Hq Hp Ha Hf Hd Hx Hn.
  destruct (chain_at _ _ _ q l1 a (p :: l2) Hch Hq)
    as (z & ea' & Ha' & Hal & Ham & Hpl & Hpa & Hn1 & Hn2).
  assert (ea' = ea) as -> by congruence.
  assert (Hq' : ch q = (l1 ++ [a]) ++ p :: l2) by (by rewrite <-app_assoc).
  destruct (chain_at _ _ _ q _ p l2 Hch Hq')
    as (z' & e' & Hp' & Hpl' & Hpm & _ & Hpath2 & Hn3 & Hn4).
  assert (e' = e) as -> by congruence.
  assert (Hfp : ∀ q', f ∉ ch q') by (intros; by eapply dead_not_in).
  assert (Hfq : f ∉ l1 ++ a :: p :: l2) by (rewrite <-Hq; apply Hfp).
  pose proof (ch_nodup _ _ _ Hch q) as Hnd. rewrite Hq in Hnd.
  assert (f < length ents ∧ a < length ents ∧ p < length ents)%nat as (?&?&?)
    by (split_and!; eapply lookup_lt_Some; eauto).
  assert (p ≠ a ∧ p ≠ f ∧ a ≠ f) as (?&?&?) by set_solver.
  eapply (chains_change mask ents _ ch q _ z); [done|..].
  - intros q' i Hqq Hi. rewrite !list_lookup_insert_ne; [done|..]; intros ->.
    + by eapply Hfp.
    + apply Hqq. eapply member_main; [done..|]. rewrite Hq. set_solver.
    + apply Hqq. eapply member_main; [done..|]. rewrite Hq. set_solver.
  - intros i l' Hi. destruct l1 as [|j l1]; simpl in *; simplify_eq;
      by apply (ch_head _ _ _ Hch) in Hq.
  - apply path_app. exists (Z.of_nat a). split; [repeat apply path_insert; set_solver|].
    split; [done|]. exists (set_next ea (Z.of_nat f)).
    rewrite list_lookup_insert_ne, list_lookup_insert_eq by (rewrite ?length_insert; done).
    split; [done|]. split; [done|]. exists e.
    rewrite !list_lookup_insert_ne, list_lookup_insert_eq by done.
    split; [done|]. repeat apply path_insert; set_solver.
  - apply NoDup_app in Hnd as (? & ? & (? & (? & ?)%NoDup_cons)%NoDup_cons).
    apply NoDup_app. split_and!; [done|set_solver|].
    apply NoDup_cons; split; [set_solver|]. apply NoDup_cons; split; [set_solver|done].
  - intros i Hi. assert (i ≠ p) by set_solver. rewrite list_lookup_insert_ne by done.
    destruct (decide (i = a)) as [->|].
    { eexists. rewrite list_lookup_insert_eq by (by rewrite length_insert). done. }
    rewrite list_lookup_insert_ne by done. destruct (decide (i = f)) as [->|].
    { exists e. by rewrite list_lookup_insert_eq. }
    rewrite list_lookup_insert_ne by done. apply (ch_member _ _ _ Hch). rewrite Hq. set_solver.
  - intros i e' He Hle. slot_case He; [by destruct Hle as [??]; congruence|left; set_solver..|].
    destruct (decide (main mask e' = q)) as [Heq|]; [|by right].
    left. split; [done|]. pose proof (ch_live _ _ _ Hch _ _ He Hle) as Hin.
    rewrite Heq, Hq in Hin. set_solver.
  - intros i e' He Hke. slot_case He; [done|..|by eapply (ch_dead _ _ _ Hch)].
    + destruct Hal as [? ?]. simpl in Hke. congruence.
    + destruct Hpl' as [? ?]. congruence.
Qed.

(** Unlinking a slot [b] that has a predecessor [a]. *)
Lemma chains_unlink mask ents ch q l1 a ea b eb l2 x :
  chains mask ents ch → ch q = l1 ++ a :: b :: l2 → ents !! a = Some ea → ents !! b = Some eb →
  key x = None → next x = NEXT_INVALID →
  chains mask (<[b:=x]> (<[a:=set_next ea (next eb)]> ents)) (<[q:=(l1 ++ a :: l2)]> ch).
Proof.
  intros Hch Hq Ha Hb Hk Hn.
  destruct (chain_at _ _ _ q l1 a (b :: l2) Hch Hq)
    as (z & ea' & Ha' & Hal & Ham & Hpl & (Hnb & eb' & Hb' & Hpath2) & Hn1 & Hn2).
  assert (ea' = ea ∧ eb' = eb) as [-> ->] by (split; congruence).
  pose proof (ch_nodup _ _ _ Hch q) as Hnd. rewrite Hq in Hnd.
  apply NoDup_app in Hnd as (Hnd1 & Hnd2 & ([Hna ?]%not_elem_of_cons & [Hnb2 ?]%NoDup_cons)%NoDup_cons).
  assert (a < length ents ∧ b < length ents)%nat as (?&?)
    by (split; eapply lookup_lt_Some; eauto).
  assert (b ∉ l1) by (intros ?; eapply Hnd2; [done|set_solver]).
  assert (Hqi : ∀ i, i = a ∨ i = b → i ∈ ch q) by (rewrite Hq; set_solver).
  eapply (chains_change mask ents _ ch q _ z); [done|..].
  - intros q' i Hqq Hi. rewrite !list_lookup_insert_ne; [done|..]; intros ->;
      apply Hqq; eapply member_main; eauto.
  - intros i l' Hi. destruct l1 as [|j l1]; simpl in *; simplify_eq;
      by apply (ch_head _ _ _ Hch) in Hq.
  - apply path_app. exists (Z.of_nat a). split; [by repeat apply path_insert|].
    split; [done|]. exists (set_next ea (next eb)).
    rewrite list_lookup_insert_ne, list_lookup_insert_eq by done.
    split; [done|]. by repeat apply path_insert.
  - apply NoDup_app. split_and!; [done| |by apply NoDup_cons].
    intros i ? ?. eapply Hnd2; [done|]. set_solver.
  - intros i Hi. assert (i ≠ b) by set_solver. rewrite list_lookup_insert_ne by done.
    destruct (decide (i = a)) as [->|].
    { exists (set_next ea (next eb)). by rewrite list_lookup_insert_eq. }
    rewrite list_lookup_insert_ne by done. apply (ch_member _ _ _ Hch). rewrite Hq. set_solver.
  - intros i e' He Hle. slot_case He; [by destruct Hle as [??]; congruence|left; set_solver|].
    destruct (decide (main mask e' = q)) as [Heq|]; [|by right].
    left. split; [done|]. pose proof (ch_live _ _ _ Hch _ _ He Hle) as Hin.
    rewrite Heq, Hq in Hin. set_solver.
  - intros i e' He Hke. slot_case He; [done|..|by eapply (ch_dead _ _ _ Hch)].
    destruct Hal as [? ?]. simpl in Hke. congruence.
Qed.

(** Removing the head of a longer chain: the second entry moves into its slot. *)
Lemma chains_behead mask ents ch q b eb l2 x :
  chains mask ents ch → ch q = q :: b :: l2 → ents !! b = Some eb →
  key x = None → next x = NEXT_INVALID →
  chains mask (<[b:=x]> (<[q:=eb]> ents)) (<[q:=(q :: l2)]> ch).
Proof.
  intros Hch Hq Hb Hk Hn.
  destruct (chain_at _ _ _ q [] q (b :: l2) Hch Hq)
    as (z & ea & Ha & Hal & Ham & _ & _ & _ & Hn2).
  destruct (chain_at _ _ _ q [q] b l2 Hch Hq)
    as (z' & eb' & Hb' & Hbl & Hbm & _ & Hpath2 & Hn3 & Hn4).
  assert (eb' = eb) as -> by congruence.
  pose proof (ch_nodup _ _ _ Hch q) as Hnd. rewrite Hq in Hnd.
  apply NoDup_cons in Hnd as [_ [_ Hnd]%NoDup_cons].
  assert (q < length ents ∧ b < length ents)%nat as (?&?)
    by (split; eapply lookup_lt_Some; eauto).
  assert (Hqb : q ≠ b) by set_solver. assert (q ∉ l2) by set_solver.
  assert (Hqi : ∀ i, i = q ∨ i = b → i ∈ ch q) by (rewrite Hq; set_solver).
  eapply (chains_change mask ents _ ch q _ (Z.of_nat q)); [done|..].
  - intros q' i Hqq Hi. rewrite !list_lookup_insert_ne; [done|..]; intros ->;
      apply Hqq; eapply member_main; eauto.
  - congruence.
  - split; [done|]. exists eb. rewrite list_lookup_insert_ne, list_lookup_insert_eq by done.
    split; [done|]. by repeat apply path_insert.
  - by apply NoDup_cons.
  - intros i Hi. assert (i ≠ b) by set_solver. rewrite list_lookup_insert_ne by done.
    destruct (decide (i = q)) as [->|].
    { exists eb. by rewrite list_lookup_insert_eq. }
    rewrite list_lookup_insert_ne by done. apply (ch_member _ _ _ Hch). rewrite Hq. set_solver.
  - intros i e' He Hle. slot_case He; [by destruct Hle as [??]; congruence|left; set_solver|].
    destruct (decide (main mask e' = q)) as [Heq|]; [|by right].
    left. split; [done|]. pose proof (ch_live _ _ _ Hch _ _ He Hle) as Hin.
    rewrite Heq, Hq in Hin. set_solver.
  - intros i e' He Hke. slot_case He; [done|..|by eapply (ch_dead _ _ _ Hch)].
    destruct Hbl as [? ?]. congruence.
Qed.

(** Removing the only entry of a chain. *)
Lemma chains_clear mask ents ch q x :
  chains mask ents ch → ch q = [q] → key x = None → next x = NEXT_INVALID →
  chains mask (<[q:=x]> ents) (<[q:=[]]> ch).
Proof.
  intros Hch Hq Hk Hn.
  eapply (chains_change mask ents _ ch q _ NEXT_INVALID); [done|..].
  - intros q' i Hqq Hi. rewrite !list_lookup_insert_ne; [done|..]. intros ->.
    apply Hqq. eapply member_main; [done..|]. rewrite Hq. set_solver.
  - done.
  - done.
  - apply NoDup_nil_2.
  - set_solver.
  - intros i e' He Hle. slot_case He; [by destruct Hle as [??]; congruence|].
    right. split; [|done]. intros Heq.
    pose proof (ch_live _ _ _ Hch _ _ He Hle) as Hin. rewrite Heq, Hq in Hin. set_solver.
  - intros i e' He Hke. slot_case He; [done|]. by eapply (ch_dead _ _ _ Hch).
Qed.
End chains.
