(* ===== verification/HashTableSpec.v ===== *)
(** The hash table implements a finite map from texts to values.

    [repr t m] relates a table to a [gmap]; each operation's theorem says what
    it returns and that it keeps the relation. The loops' fuel never runs out
    and no operation faults while the slot array can be allocated. *)

From stdpp Require Import functions.
From S2P Require Import Prelude Bit EqpString HashTable HashChains.

Section spec.
Context {K V : Type} `{KeyStringLaws K}.
Implicit Types (e : Entry K V) (ents : list (Entry K V)) (ch : nat → list nat)
  (t : HashTable K V) (l : list nat) (k : list Z) (v : V) (m : gmap (list Z) V).

(** ** Walking a chain *)
Lemma next_invalid_lt ents (i : nat) e : Z.of_nat (length ents) < NEXT_INVALID →
  ents !! i = Some e → Z.of_nat i ≠ NEXT_INVALID.
Proof. intros ? ?%lookup_lt_Some. lia. Qed.

Lemma follow_to_spec ents l a z p fuel :
  path ents (l ++ [a]) z (Z.of_nat p) → p ∉ l ++ [a] → (length l < fuel)%nat →
  follow_to fuel ents z (Z.of_nat p) = Ok (Z.of_nat a).
Proof.
  revert z fuel. induction l as [|i l IH]; intros z fuel; (destruct fuel as [|fuel]; [simpl; lia|]).
  - intros (-> & e & He & Hn) _ _. simpl. rewrite ent_at_nat, He. cbn.
    by rewrite (proj2 (Z.eqb_eq _ _) Hn).
  - intros (-> & e & He & Hn) Hp Hf. simpl. rewrite ent_at_nat, He. cbn.
    assert (∃ j, next e = Z.of_nat j ∧ j ∈ l ++ [a]) as (j & Hj & ?).
    { destruct (l ++ [a]) as [|j l'] eqn:Hl; [by destruct l|]. destruct Hn as [? _]. set_solver. }
    destruct (Z.eqb_spec (next e) (Z.of_nat p)) as [Hpj|_].
    + assert (j = p) as -> by lia. set_solver.
    + apply IH; [done|set_solver|simpl in Hf; lia].
Qed.

Lemma path_next ents l e w : Z.of_nat (length ents) < NEXT_INVALID →
  l ≠ [] → path ents l (next e) w → next e ≠ NEXT_INVALID.
Proof.
  intros Hlen Hl. destruct l as [|j l]; [done|]. intros (-> & e' & ? & _).
  by eapply next_invalid_lt.
Qed.

Lemma follow_to_end_spec ents l a z fuel : Z.of_nat (length ents) < NEXT_INVALID →
  path ents (l ++ [a]) z NEXT_INVALID → (length l < fuel)%nat →
  follow_to_end fuel ents z = Ok (Z.of_nat a).
Proof.
  intros Hlen. revert z fuel.
  induction l as [|i l IH]; intros z fuel; (destruct fuel as [|fuel]; [simpl; lia|]).
  - intros (-> & e & He & Hn) _. simpl. rewrite ent_at_nat, He. cbn.
    by rewrite (proj2 (Z.eqb_eq _ _) Hn).
  - intros (-> & e & He & Hn) Hf. simpl. rewrite ent_at_nat, He. cbn.
    destruct (Z.eqb_spec (next e) NEXT_INVALID) as [Hpj|_].
    + exfalso. revert Hpj. eapply path_next; [done| |done]. by destruct l.
    + apply IH; [done|simpl in Hf; lia].
Qed.

(** [e] is the entry of the key [k] with hash [h]. *)
Definition entry_of h k e : Prop := hash e = h ∧ ∃ ks, key e = Some ks ∧ key_holds ks k.

(** Every live entry's key holds some text. *)
Definition keyed ents : Prop :=
  ∀ i e, ents !! i = Some e → live e → ∃ ks bs, key e = Some ks ∧ key_holds ks bs ∧ valid_key bs.

Lemma key_holds_inj ks bs cs : key_holds ks bs → key_holds ks cs →
  valid_key bs → valid_key cs → bs = cs.
Proof.
  intros Hb Hc Vb Vc.
  destruct (key_compare_holds ks bs cs Hb Vc) as (r & Hr & Hrs).
  destruct (key_compare_holds ks cs cs Hc Vc) as (r' & Hr' & Hrs').
  apply Hrs. assert (r = r') as -> by congruence. by apply Hrs'.
Qed.

Lemma ent_matches_spec ents (i : nat) e h k : keyed ents → ents !! i = Some e → live e → valid_key k →
  ent_matches e h k = Ok true ∧ entry_of h k e ∨ ent_matches e h k = Ok false ∧ ¬ entry_of h k e.
Proof.
  intros Hks He Hl Hk. unfold ent_matches.
  destruct (Hks _ _ He Hl) as (ks & bs & Hkey & Hh & Vb). rewrite Hkey.
  destruct (Z.eqb_spec (hash e) h) as [Hhash|Hhash].
  - destruct (key_compare_holds ks bs k Hh Hk) as (r & Hr & Hrs). rewrite Hr. cbn.
    destruct (Z.eqb_spec r 0) as [Hr0|Hr0].
    + left. split; [done|]. split; [done|]. exists ks. by rewrite <-(proj1 Hrs Hr0).
    + right. split; [done|]. intros (_ & ks' & ? & ?). simplify_eq.
      apply Hr0, Hrs. by eapply key_holds_inj.
  - right. split; [done|]. by intros [? _].
Qed.

Lemma search_spec ents l z h k fuel : Z.of_nat (length ents) < NEXT_INVALID →
  keyed ents → (∀ i, i ∈ l → ∃ e, ents !! i = Some e ∧ live e) → valid_key k →
  path ents l z NEXT_INVALID → l ≠ [] → (length l ≤ fuel)%nat →
  (∃ l1 i e l2, l = l1 ++ i :: l2 ∧ ents !! i = Some e ∧ entry_of h k e ∧
     search fuel ents z h k = Ok (true, Z.of_nat i)) ∨
  (∃ l1 a, l = l1 ++ [a] ∧ (∀ i e, i ∈ l → ents !! i = Some e → ¬ entry_of h k e) ∧
     search fuel ents z h k = Ok (false, Z.of_nat a)).
Proof.
  intros Hlen Hks Hl Hk. revert z fuel.
  induction l as [|i l IH]; intros z fuel; [done|].
  intros (-> & e & He & Hn) _ Hf. destruct fuel as [|fuel]; [simpl in Hf; lia|].
  simpl. rewrite ent_at_nat, He. cbn [deref mbind outcome_bind].
  destruct (Hl i) as (e' & ? & Hle); [set_solver|]. simplify_eq.
  destruct (ent_matches_spec ents i e h k) as [[-> Hm]|[-> Hm]]; [done..| |]; cbn [mbind outcome_bind].
  { left. by exists [], i, e, l. }
  destruct l as [|j l].
  - right. exists [], i. simpl in Hn. rewrite (proj2 (Z.eqb_eq _ _) Hn). split_and!; [done| |done].
    intros ? ? ->%list_elem_of_singleton ?. by simplify_eq.
  - rewrite (proj2 (Z.eqb_neq _ _)) by (by eapply (path_next ents (j :: l))). simpl negb. cbv iota.
    destruct (IH ltac:(set_solver) (next e) fuel) as [(l1 & i' & e' & l2 & Hs & ? & ? & ->)
      |(l1 & a & Hs & Hno & ->)]; [done|done|simpl in *; lia|..].
    + left. exists (i :: l1), i', e', l2. by rewrite Hs.
    + right. exists (i :: l1), a. rewrite Hs. split_and!; [done| |done].
      intros i' e' Hi' ?. rewrite <-Hs in Hi'. apply list_elem_of_In in Hi' as [<-|Hi'].
      * by simplify_eq.
      * eapply Hno; [|done]. by apply list_elem_of_In.
Qed.

(** ** What the live slots hold *)
Definition payload e : option (K * Z * option V) := (λ ks, (ks, hash e, value e)) <$> key e.
Definition lives ents : list (K * Z * option V) := omap payload ents.

Lemma lives_app ents ents' : lives (ents ++ ents') = lives ents ++ lives ents'.
Proof. apply omap_app. Qed.

Lemma lives_cons e ents : lives (e :: ents) = option_list (payload e) ++ lives ents.
Proof. unfold lives. simpl. by destruct (payload e). Qed.

Lemma lives_insert ents i e x : ents !! i = Some e →
  option_list (payload e) ++ lives (<[i:=x]> ents) ≡ₚ option_list (payload x) ++ lives ents.
Proof.
  intros He. pose proof (lookup_lt_Some _ _ _ He).
  rewrite list_insert_take_drop by done.
  replace (lives ents) with (lives (take i ents ++ e :: drop (S i) ents))
    by (by rewrite (take_drop_middle _ _ _ He)).
  rewrite !lives_app, !lives_cons. solve_Permutation.
Qed.

Lemma elem_of_lives ents p : p ∈ lives ents ↔ ∃ i e, ents !! i = Some e ∧ payload e = Some p.
Proof.
  unfold lives. rewrite list_elem_of_omap. split.
  - intros (e & [i ?]%list_elem_of_lookup & ?). eauto.
  - intros (i & e & ? & ?). exists e. split; [|done]. apply list_elem_of_lookup. eauto.
Qed.

(** The stored triple of a key and its value. *)
Definition stored k v (p : K * Z * option V) : Prop :=
  key_holds p.1.1 k ∧ valid_key k ∧ p.1.2 = hash_table_calc_hash k (Z.of_nat (length k)) ∧
  p.2 = Some v.

Inductive stores : gmap (list Z) V → list (K * Z * option V) → Prop :=
  | stores_nil : stores ∅ []
  | stores_cons m ps k v p : m !! k = None → stored k v p → stores m ps →
      stores (<[k:=v]> m) (p :: ps).

Lemma stores_perm m ps qs : ps ≡ₚ qs → stores m ps → stores m qs.
Proof.
  intros Hp. revert m. induction Hp; intros m Hs; auto.
  - inversion Hs; subst. constructor; auto.
  - inversion Hs as [|m1 ps1 k1 v1 p1 Hk1 Hs1 Hm1]; subst.
    inversion Hm1 as [|m2 ps2 k2 v2 p2 Hk2 Hs2 Hm2]; subst.
    assert (k1 ≠ k2) by (intros ->; by rewrite lookup_insert_eq in Hk1).
    rewrite lookup_insert_ne in Hk1 by done.
    rewrite insert_insert_ne by done. constructor; [|done|by constructor].
    by rewrite lookup_insert_ne.
Qed.

Lemma stores_cons_inv m p ps : stores m (p :: ps) →
  ∃ k v, m !! k = Some v ∧ stored k v p ∧ stores (delete k m) ps.
Proof.
  inversion 1; subst. eexists _, _. split_and!; [by rewrite lookup_insert_eq|done|].
  by rewrite delete_insert_id.
Qed.

Lemma stored_inj k k' v v' p : stored k v p → key_holds p.1.1 k' → valid_key k' → k = k'.
Proof. intros (? & ? & _) ? ?. by eapply key_holds_inj. Qed.

Lemma stores_lookup m ps k v : stores m ps → m !! k = Some v → ∃ p, p ∈ ps ∧ stored k v p.
Proof.
  induction 1 as [|m ps k' v' p Hk Hp Hs IH]; [done|].
  destruct (decide (k = k')) as [->|].
  - rewrite lookup_insert_eq. intros [= ->]. exists p. split; [set_solver|done].
  - rewrite lookup_insert_ne by done. intros (p' & ? & ?)%IH. exists p'. split; [set_solver|done].
Qed.

Lemma stores_elem m ps p : stores m ps → p ∈ ps → ∃ k v, stored k v p ∧ m !! k = Some v.
Proof.
  induction 1 as [|m ps k' v' p' Hk Hp Hs IH]; [set_solver|].
  intros [->|Hin]%list_elem_of_In.
  - exists k', v'. split; [done|]. by rewrite lookup_insert_eq.
  - destruct IH as (k & v & ? & ?); [by apply list_elem_of_In|]. exists k, v. split; [done|].
    by rewrite lookup_insert_ne by congruence.
Qed.

Lemma stores_keyed m ents : stores m (lives ents) → keyed ents.
Proof.
  intros Hs i e He [ks Hks].
  destruct (stores_elem m (lives ents) (ks, hash e, value e)) as (k & v & (? & ? & _) & _); [done|..].
  - apply elem_of_lives. exists i, e. unfold payload. by rewrite Hks.
  - by exists ks, k.
Qed.

(** ** The free index *)
Record layout (cap : Z) ents (f : Z) : Prop := {
  l_pow : ∃ c, 1 ≤ c ∧ cap = 2 ^ c;
  l_len : Z.of_nat (length ents) = cap;
  l_max : cap < 2 ^ 28;
  l_chains : ∃ ch, chains (cap - 1) ents ch;
  l_free : f = FREE_INDEX_INVALID ∨
           ∃ i e, f = Z.of_nat i ∧ ents !! i = Some e ∧ key e = None;
  (** A dead slot the index has passed keeps the hash of a key at home there. *)
  l_below i e : ents !! i = Some e → key e = None → Z.of_nat i < f → main (cap - 1) e = i;
}.

Lemma layout_nowrap cap ents f : layout cap ents f → Z.of_nat (length ents) < NEXT_INVALID.
Proof. intros Hl. rewrite (l_len _ _ _ Hl). pose proof (l_max _ _ _ Hl). unfold NEXT_INVALID. lia. Qed.

(** The two arrays have the same dead slots, [f] aside. *)
Definition same_dead (f : nat) ents ents' : Prop :=
  ∀ i e, i ≠ f → key e = None → ents' !! i = Some e ↔ ents !! i = Some e.

Lemma same_dead_refl f ents : same_dead f ents ents.
Proof. by intros i e. Qed.

Lemma same_dead_insert f ents ents' i e x :
  same_dead f ents ents' → ents' !! i = Some e → i = f ∨ live e ∧ live x →
  same_dead f ents (<[i:=x]> ents').
Proof.
  intros Hs He Hix j d Hj Hd. rewrite <-(Hs j d Hj Hd).
  destruct (decide (i = j)) as [->|]; [|by rewrite list_lookup_insert_ne].
  destruct Hix as [->|[[? ?] [? ?]]]; [done|].
  rewrite list_lookup_insert_eq by (by eapply lookup_lt_Some). naive_solver congruence.
Qed.

Lemma advance_loop_spec ents cap f fuel :
  Z.of_nat (length ents) = cap → cap < 2 ^ 28 → (f < length ents)%nat →
  (length ents - f ≤ fuel)%nat →
  ∃ f', advance_loop fuel ents cap (Z.of_nat f) = Ok f' ∧ Z.of_nat f < f' ∧
    (f' = FREE_INDEX_INVALID ∨ ∃ i e, f' = Z.of_nat i ∧ ents !! i = Some e ∧ key e = None) ∧
    (∀ i e, ents !! i = Some e → key e = None → Z.of_nat i < f' → (i ≤ f)%nat).
Proof.
  intros Hlen Hcap. revert f. induction fuel as [|fuel IH]; intros f Hf Hfuel; [lia|].
  cbn [advance_loop]. rewrite wrap_small by (unfold is_word; lia).
  destruct (Z.eqb_spec (Z.of_nat f + 1) cap) as [Hend|Hend].
  - exists FREE_INDEX_INVALID. split_and!; [done|unfold FREE_INDEX_INVALID; lia|by left|].
    intros i e ?%lookup_lt_Some ? ?. lia.
  - replace (Z.of_nat f + 1) with (Z.of_nat (S f)) by lia. rewrite ent_at_nat.
    destruct (ents !! S f) as [e|] eqn:He; [|apply lookup_ge_None in He; lia].
    cbn [deref mbind outcome_bind]. destruct (key e) as [ks|] eqn:Hk.
    + destruct (IH (S f)) as (f' & -> & ? & ? & Hb); [by eapply lookup_lt_Some|lia|].
      exists f'. split_and!; [done|lia|done|]. intros i e' Hi Hke ?.
      assert (i ≤ S f)%nat by eauto. destruct (decide (i = S f)) as [->|]; [congruence|lia].
    + exists (Z.of_nat (S f)). split_and!; [done|lia|by eauto 10|]. intros. lia.
Qed.

(** Claiming the free slot [f] and moving the index past it keeps the layout. *)
Lemma layout_claim cap ents mid ents' f : layout cap ents (Z.of_nat f) →
  (f < length ents)%nat → length mid = length ents → length ents' = length ents →
  same_dead f ents mid → same_dead f ents ents' → (∀ e, ents' !! f = Some e → live e) →
  (∃ ch, chains (cap - 1) ents' ch) →
  ∃ f', advance_loop (S (length mid)) mid cap (Z.of_nat f) = Ok f' ∧ layout cap ents' f'.
Proof.
  intros Hl Hf Hm Hlen Sm Se Hlive Hch. pose proof (l_len _ _ _ Hl). pose proof (l_max _ _ _ Hl).
  destruct (advance_loop_spec mid cap f (S (length mid))) as (f' & -> & Hlt & Hfree & Hbelow);
    [lia..|]. exists f'. split; [done|]. split; [apply Hl|lia|done|done| |].
  - destruct Hfree as [->|(i & e & -> & Hi & Hk)]; [by left|right].
    assert (i ≠ f) by lia. exists i, e. split; [done|]. split; [|done].
    by apply Se, Sm.
  - intros i e Hi Hk Hlt'. destruct (decide (i = f)) as [->|Hne].
    { destruct (Hlive _ Hi). congruence. }
    apply Se in Hi; [|done..]. apply (l_below _ _ _ Hl i e Hi Hk).
    apply Sm in Hi; [|done..]. specialize (Hbelow i e Hi Hk Hlt'). lia.
Qed.

(** ** The moves, on the slots' contents *)
Lemma lives_fill ents i d x : ents !! i = Some d → key d = None →
  lives (<[i:=x]> ents) ≡ₚ option_list (payload x) ++ lives ents.
Proof.
  intros Hi Hd. pose proof (lives_insert ents i d x Hi) as Hp.
  unfold payload at 1 in Hp. by rewrite Hd in Hp.
Qed.

Lemma lives_relink ents i e n : ents !! i = Some e → lives (<[i:=set_next e n]> ents) ≡ₚ lives ents.
Proof.
  intros Hi. pose proof (lives_insert ents i e (set_next e n) Hi) as Hp.
  by apply Permutation_app_inv_l in Hp.
Qed.

Section moves.
Context (mask : Z) ents ch (Hch : chains mask ents ch)
  (Hlen : Z.of_nat (length ents) < NEXT_INVALID)
  (f : nat) (d : Entry K V) (Hf : ents !! f = Some d) (Hd : key d = None).

Lemma evict_move p e : ents !! p = Some e → live e → main mask e ≠ p →
  ∃ a ea, let ents1 := <[f:=e]> ents in let mid := <[a:=set_next ea (Z.of_nat f)]> ents1 in
    follow_to (S (length ents1)) ents1 (Z.of_nat (main mask e)) (Z.of_nat p) = Ok (Z.of_nat a) ∧
    ents1 !! a = Some ea ∧ mid !! p = Some e ∧ same_dead f ents mid ∧
    ∀ x, next x = NEXT_INVALID → (live x → main mask x = p) →
      (∃ ch', chains mask (<[p:=x]> mid) ch') ∧
      lives (<[p:=x]> mid) ≡ₚ option_list (payload x) ++ lives ents.
Proof.
  intros Hp Hl Hm. destruct (chain_split _ _ _ Hch p e Hp Hl Hm) as (l1 & a & l2 & Hq).
  destruct (chain_at _ _ _ _ _ _ _ Hch Hq) as (z & ea & Ha & Hal & Ham & Hpl & [Hpa Hpath] & Hn1 & Hn2).
  assert (Hfq : ∀ i q, i ∈ ch q → i ≠ f)
    by (intros i q Hi ->; exact (dead_not_in _ _ _ Hch q f d Hf Hd Hi)).
  assert (Hap : a ≠ f ∧ p ≠ f) by (split; apply (Hfq _ (main mask e)); rewrite Hq; set_solver).
  assert (p ≠ a) by set_solver.
  exists a, ea. cbv zeta.
  assert (Ha1 : <[f:=e]> ents !! a = Some ea) by (rewrite list_lookup_insert_ne; naive_solver).
  assert (Hmid : <[a:=set_next ea (Z.of_nat f)]> (<[f:=e]> ents) !! p = Some e)
    by (rewrite !list_lookup_insert_ne; naive_solver).
  split_and!; [| |done|..].
  - pose proof (chain_length _ _ _ Hch (main mask e)) as Hcl.
    pose proof (ch_nodup _ _ _ Hch (main mask e)) as Hnd. rewrite Hq in Hcl, Hnd.
    rewrite length_app in Hcl. simpl in Hcl. rewrite length_insert.
    assert (p ∉ l1 ++ [a]).
    { replace (l1 ++ a :: p :: l2) with ((l1 ++ [a]) ++ p :: l2) in Hnd by (by rewrite <-app_assoc).
      apply NoDup_app in Hnd as (_ & Hnd & _). intros Hin. apply (Hnd p Hin), list_elem_of_here. }
    apply (follow_to_spec _ l1); [|done|lia].
    assert (z = Z.of_nat (main mask e)) as <-.
    { destruct l1 as [|j l1]; simpl in *.
      - rewrite (ch_head _ _ _ Hch _ _ _ Hq) in Hpl. done.
      - rewrite <-(ch_head _ _ _ Hch _ _ _ Hq). tauto. }
    apply path_insert; [intros Hin; apply (Hfq f (main mask e)); [rewrite Hq; set_solver|done]|].
    apply path_app. exists (Z.of_nat a). split; [done|]. split; [done|]. by exists ea.
  - done.
  - eapply same_dead_insert; [|done|].
    + eapply same_dead_insert; [apply same_dead_refl|done|]. by left.
    + right. done.
  - intros x Hnx Hmx. split.
    + destruct (live_dec x) as [Hx|Hx].
      * pose (dx := clear_entry x). rewrite <-(list_insert_insert_eq _ p _ dx).
        assert (Hev : chains mask (<[p:=dx]> (<[a:=set_next ea (Z.of_nat f)]> (<[f:=e]> ents)))
          (<[main mask e:=(l1 ++ a :: f :: l2)]> ch)) by (by eapply chains_evict).
        eexists. eapply (chains_place _ _ _ p dx); [done| |done|done|by apply Hmx|done].
        apply list_lookup_insert_eq. rewrite !length_insert. by eapply lookup_lt_Some.
      * eexists. by eapply chains_evict.
    + apply (Permutation_app_inv_l (option_list (payload e))).
      rewrite (lives_insert _ _ _ x Hmid), lives_relink by done.
      rewrite (lives_fill _ _ _ e Hf Hd). solve_Permutation.
Qed.

Lemma append_move p e : ents !! p = Some e → live e → main mask e = p →
  ∃ l (m : nat) em, let mid := <[m:=set_next em (Z.of_nat f)]> ents in
    ch p = l ++ [m] ∧ path ents (l ++ [m]) (Z.of_nat p) NEXT_INVALID ∧
    ents !! m = Some em ∧ mid !! f = Some d ∧ same_dead f ents mid ∧
    ∀ x, next x = NEXT_INVALID → live x → main mask x = p →
      (∃ ch', chains mask (<[f:=x]> mid) ch') ∧
      lives (<[f:=x]> mid) ≡ₚ option_list (payload x) ++ lives ents.
Proof.
  intros Hp Hl Hm. destruct (chain_of_live _ _ _ Hch p e Hp Hl Hm) as [l0 Hq].
  destruct (exists_last (l := ch p)) as (l & m & Hlm); [by rewrite Hq|].
  destruct (chain_at _ _ _ p l m [] Hch Hlm) as (z & em & Hem & Hml & Hmm & Hpath & Hn & _).
  assert (m ≠ f).
  { intros ->. apply (dead_not_in _ _ _ Hch p f d Hf Hd). rewrite Hlm. set_solver. }
  assert (Hmid : <[m:=set_next em (Z.of_nat f)]> ents !! f = Some d)
    by (by rewrite list_lookup_insert_ne).
  exists l, m, em. cbv zeta. split_and!; try done.
  - destruct (ch_path _ _ _ Hch p) as [z' Hz']. rewrite <-Hlm. rewrite Hq in Hz' |- *.
    by destruct Hz' as [-> ?].
  - eapply same_dead_insert; [apply same_dead_refl|done|]. right. done.
  - intros x Hnx Hlx Hmx. split.
    + eexists. by eapply chains_append.
    + by rewrite (lives_fill _ _ _ x Hmid Hd), lives_relink.
Qed.
End moves.

(** ** hash_table_do_set *)
Definition hash_of k : Z := hash_table_calc_hash k (Z.of_nat (length k)).

(** The slot array is laid out well and was allocated in full. *)
Record table_ok t : Prop := {
  ok_layout : layout (capacity t) (entries t) (freeIndex t);
  ok_entSize : SIZEOF_ENTRY ≤ entSize t;
  ok_alloc : SIZEOF_TABLE + entSize t * capacity t < 2 ^ 32;
}.

(** Same shape: what no operation but realloc changes. *)
Definition same_shape t t' : Prop :=
  capacity t' = capacity t ∧ elemSize t' = elemSize t ∧ entSize t' = entSize t.

Lemma slot_of cap ents f h : layout cap ents f →
  ∃ p, Z.land h (cap - 1) = Z.of_nat p ∧ p = Z.to_nat (Z.land h (cap - 1)) ∧
    (p < length ents)%nat.
Proof.
  intros Hl. destruct (l_pow _ _ _ Hl) as (c & ? & Hc). pose proof (l_len _ _ _ Hl).
  exists (Z.to_nat (Z.land h (cap - 1))).
  replace (cap - 1) with (Z.ones c) by (rewrite Z.ones_equiv; lia).
  rewrite Z.land_ones by lia. pose proof (Z.mod_pos_bound h (2 ^ c) ltac:(lia)). lia.
Qed.

Lemma entry_of_stored m ents i e k : stores m (lives ents) → valid_key k →
  ents !! i = Some e → entry_of (hash_of k) k e → ∃ v, m !! k = Some v ∧ value e = Some v.
Proof.
  intros Hs Hk He (Hh & ks & Hks & Hholds).
  destruct (stores_elem m (lives ents) (ks, hash e, value e)) as (k' & v & Hst & Hm); [done|..].
  - apply elem_of_lives. exists i, e. unfold payload. by rewrite Hks.
  - assert (k' = k) as -> by (by eapply stored_inj). exists v. split; [done|]. by destruct Hst as (?&?&?&?).
Qed.

Lemma absent_in_chain mask ents ch m k : chains mask ents ch → stores m (lives ents) →
  (∀ i e, i ∈ ch (Z.to_nat (Z.land (hash_of k) mask)) → ents !! i = Some e → ¬ entry_of (hash_of k) k e) →
  m !! k = None.
Proof.
  intros Hch Hs Hno. destruct (m !! k) as [v|] eqn:Hm; [exfalso|done].
  destruct (stores_lookup _ _ _ _ Hs Hm) as ([[ks h] ov] & Hin & Hst).
  destruct Hst as (Hks & Hv & Hh & Hov). simpl in *.
  apply elem_of_lives in Hin as (i & e & He & Hp). unfold payload in Hp.
  destruct (key e) as [ks'|] eqn:Hke; [|done]. injection Hp as -> Hhe _.
  assert (Hheq : hash e = hash_of k) by (rewrite Hhe; exact Hh).
  eapply Hno; [|done|].
  - rewrite <-Hheq. apply (ch_live _ _ _ Hch); [done|]. by exists ks.
  - split; [done|]. by exists ks.
Qed.

Lemma do_insert_spec e k v : valid_key k → ∃ ks,
  hash_table_do_insert e k (Z.of_nat (length k)) v (hash_of k) =
    Ok (mkEntry (Some ks) (hash_of k) (next e) (Some v)) ∧
  stored k v (ks, hash_of k, Some v).
Proof.
  intros Hk. destruct (key_create_holds k Hk) as (ks & Hc & Hh). exists ks.
  unfold hash_table_do_insert. by rewrite Hc.
Qed.

(** The table after a set that found no entry: [x] was put in the array. *)
Lemma set_done m t f' ents' k v ks n : table_ok t → layout (capacity t) ents' f' →
  stores m (lives (entries t)) → m !! k = None → stored k v (ks, hash_of k, Some v) →
  lives ents' ≡ₚ option_list (payload (mkEntry (Some ks) (hash_of k) n (Some v))) ++ lives (entries t) →
  let t' := mkTable (capacity t) (elemSize t) f' (entSize t) ents' in
  table_ok t' ∧ same_shape t t' ∧ stores (<[k:=v]> m) (lives (entries t')).
Proof.
  intros Ht Hl Hs Hm Hst Hp t'. split; [|split].
  - split; [done|apply Ht|apply Ht].
  - done.
  - eapply stores_perm; [symmetry; exact Hp|]. by constructor.
Qed.

(** One round, when it does not have to grow the table. *)
Definition set_result m t k v (r : outcome (bool * HashTable K V)) : Prop :=
  ∃ t', r = Ok (bool_decide (m !! k = None), t') ∧ table_ok t' ∧ same_shape t t' ∧
    stores (set_absent m k v) (lives (entries t')).

Lemma set_result_new m t k v ks n f' ents' r : table_ok t → layout (capacity t) ents' f' →
  stores m (lives (entries t)) → m !! k = None → stored k v (ks, hash_of k, Some v) →
  lives ents' ≡ₚ option_list (payload (mkEntry (Some ks) (hash_of k) n (Some v))) ++ lives (entries t) →
  r = Ok (true, mkTable (capacity t) (elemSize t) f' (entSize t) ents') → set_result m t k v r.
Proof.
  intros Ht Hl Hs Hm Hst Hp ->.
  destruct (set_done m t f' ents' k v ks n Ht Hl Hs Hm Hst Hp) as (? & ? & ?).
  eexists. unfold set_absent. rewrite Hm. split_and!; done.
Qed.

Lemma free_slot cap ents f : layout cap ents f → f ≠ FREE_INDEX_INVALID →
  ∃ i e, f = Z.of_nat i ∧ ents !! i = Some e ∧ key e = None ∧ (i < length ents)%nat.
Proof.
  intros Hl Hf. destruct (l_free _ _ _ Hl) as [|(i & e & ? & He & ?)]; [done|].
  exists i, e. split_and!; [done..|]. by eapply lookup_lt_Some.
Qed.

(** The main slot is empty: the new entry goes there. *)
Lemma set_place t m k v retry p e : table_ok t → stores m (lives (entries t)) → valid_key k →
  Z.land (hash_of k) (capacity t - 1) = Z.of_nat p → entries t !! p = Some e → key e = None →
  set_result m t k v (hash_table_do_set_once t k (Z.of_nat (length k)) v (hash_of k) retry).
Proof.
  intros Ht Hs Hk Hpos He Hke. pose proof (ok_layout _ Ht) as Hl.
  destruct (l_chains _ _ _ Hl) as [ch Hch].
  assert (Hmp : ∀ x : Entry K V, hash x = hash_of k → main (capacity t - 1) x = p)
    by (intros x Hx; unfold main; rewrite Hx, Hpos; lia).
  assert (Hm : m !! k = None).
  { eapply absent_in_chain; [done..|]. rewrite Hpos, Nat2Z.id.
    rewrite (chain_of_dead _ _ _ Hch p e) by done. set_solver. }
  destruct (do_insert_spec e k v Hk) as (ks & Hins & Hst).
  set (x := mkEntry (Some ks) (hash_of k) (next e) (Some v)).
  assert (Hx : ∃ ch', chains (capacity t - 1) (<[p:=x]> (entries t)) ch').
  { eexists. eapply chains_place; [done..| | |]; [by exists ks|by apply Hmp|].
    exact (ch_dead _ _ _ Hch p e He Hke). }
  assert (p < length (entries t))%nat by (by eapply lookup_lt_Some).
  unfold hash_table_do_set_once. rewrite Hpos, ent_at_nat, He. cbn [deref mbind outcome_bind].
  rewrite Hke. destruct (Z.eqb_spec (Z.of_nat p) (freeIndex t)) as [Hf|Hf].
  - unfold hash_table_advance_free_index. rewrite <-Hf in *.
    destruct (layout_claim (capacity t) (entries t) (entries t) (<[p:=x]> (entries t)) p)
      as (f' & Hadv & Hl'); [done|done|done|by rewrite length_insert|apply same_dead_refl| | |done|].
    { eapply same_dead_insert; [apply same_dead_refl|done|by left]. }
    { intros y. rewrite list_lookup_insert_eq by done. intros [= <-]. by exists ks. }
    rewrite Hadv. cbn [mbind outcome_bind]. rewrite Hins. cbn [mbind outcome_bind].
    eapply (set_result_new _ _ _ _ ks (next e)); [done|exact Hl'|done..| |].
    + by apply lives_fill with (d := e).
    + unfold with_entries. simpl. by rewrite set_ent_nat.
  - cbn [mbind outcome_bind]. rewrite Hins. cbn [mbind outcome_bind].
    eapply (set_result_new _ _ _ _ ks (next e)); [done| |done..| |].
    2: by apply lives_fill with (d := e).
    2: unfold with_entries; simpl; by rewrite set_ent_nat.
    split; [apply (l_pow _ _ _ Hl)|rewrite length_insert; apply (l_len _ _ _ Hl)|apply (l_max _ _ _ Hl)|done| |].
    + destruct (l_free _ _ _ Hl) as [?|(i & d & Hi & ? & ?)]; [by left|right].
      exists i, d. rewrite list_lookup_insert_ne; [done|]. intros ->. by rewrite Hi in Hf.
    + intros i d Hi Hd Hlt. apply list_lookup_insert_Some in Hi as [(<- & <- & _)|[? Hi]]; [done|].
      by apply (l_below _ _ _ Hl).
Qed.

(** Another chain's entry sits in the main slot: it is moved to the free slot. *)
Lemma set_evict t m k v retry p e : table_ok t → stores m (lives (entries t)) → valid_key k →
  Z.land (hash_of k) (capacity t - 1) = Z.of_nat p → entries t !! p = Some e → live e →
  main (capacity t - 1) e ≠ p → freeIndex t ≠ FREE_INDEX_INVALID →
  set_result m t k v (hash_table_do_set_once t k (Z.of_nat (length k)) v (hash_of k) retry).
Proof.
  intros Ht Hs Hk Hpos He Hle Hmain Hfree. pose proof (ok_layout _ Ht) as Hl.
  destruct (l_chains _ _ _ Hl) as [ch Hch].
  destruct (free_slot _ _ _ Hl Hfree) as (f & d & Hf & Hd & Hkd & Hflt).
  destruct (slot_of _ _ _ (hash e) Hl) as (q & Hq & Hqm & _).
  assert (Hqe : q = main (capacity t - 1) e) by done.
  assert (Hm : m !! k = None).
  { eapply absent_in_chain; [done..|]. rewrite Hpos, Nat2Z.id.
    intros i e' Hi. pose proof Hi as Hin.
    destruct (ch p) as [|j l] eqn:Hc; [by apply not_elem_of_nil in Hin|].
    pose proof (ch_head _ _ _ Hch _ _ _ Hc) as ->.
    destruct (ch_member _ _ _ Hch p p) as (? & ? & _ & ?); [rewrite Hc; apply list_elem_of_here|].
    by simplify_eq. }
  destruct (do_insert_spec e k v Hk) as (ks & Hins & Hst).
  set (x := mkEntry (Some ks) (hash_of k) FREE_INDEX_INVALID (Some v)).
  destruct (evict_move _ _ _ Hch (layout_nowrap _ _ _ Hl) f d Hd Hkd p e He Hle Hmain)
    as (a & ea & Hfol & Ha & Hmid & Hsd & Hx). cbv zeta in *.
  destruct (Hx x) as [Hch' Hlives]; [done|intros _; unfold main; simpl; lia|].
  assert (Hpf : p ≠ f) by (intros ->; destruct Hle as [? ?]; simplify_eq; congruence).
  set (mid := <[a:=set_next ea (Z.of_nat f)]> (<[f:=e]> (entries t))) in *.
  assert (Hmlen : length mid = length (entries t)) by (unfold mid; by rewrite !length_insert).
  rewrite Hf in *.
  destruct (layout_claim (capacity t) (entries t) mid (<[p:=x]> mid) f)
    as (f' & Hadv & Hl'); [done|done|done|by rewrite length_insert|done| | |done|].
  { eapply same_dead_insert; [done..|]. right. split; [done|by exists ks]. }
  { intros y Hy. rewrite list_lookup_insert_ne in Hy by done. unfold mid in Hy.
    destruct (decide (a = f)) as [->|].
    - rewrite list_lookup_insert_eq in Hy by (by rewrite length_insert). simplify_eq.
      rewrite list_lookup_insert_eq in Ha by done. by simplify_eq.
    - rewrite list_lookup_insert_ne, list_lookup_insert_eq in Hy by done. by simplify_eq. }
  unfold hash_table_do_set_once. rewrite Hpos, Hf, !ent_at_nat, He. cbn [deref mbind outcome_bind].
  destruct Hle as [kse Hkse]. rewrite Hkse.
  rewrite (proj2 (Z.eqb_neq _ _) Hfree). simpl negb. cbv iota. rewrite Hq.
  rewrite (proj2 (Z.eqb_neq (Z.of_nat q) (Z.of_nat p))) by lia. simpl negb. cbv iota.
  rewrite Hd. cbn [deref mbind outcome_bind]. rewrite set_ent_nat.
  rewrite length_insert in Hfol. rewrite Hqe, Hfol. cbn [mbind outcome_bind].
  rewrite ent_at_nat, Ha. cbn [deref mbind outcome_bind]. rewrite set_ent_nat. fold mid.
  unfold hash_table_advance_free_index. simpl capacity. simpl entries. simpl freeIndex.
  rewrite Hf, Hadv. cbn [mbind outcome_bind entries].
  rewrite ent_at_nat, Hmid. cbn [deref mbind outcome_bind].
  rewrite Hins. cbn [mbind outcome_bind].
  eapply (set_result_new _ _ _ _ ks FREE_INDEX_INVALID); [done|exact Hl'|done..|].
  unfold with_entries. simpl. by rewrite set_ent_nat.
Qed.

(** The main slot holds an entry of the key's own chain. *)
Lemma set_chain t m k v retry p e : table_ok t → stores m (lives (entries t)) → valid_key k →
  Z.land (hash_of k) (capacity t - 1) = Z.of_nat p → entries t !! p = Some e → live e →
  main (capacity t - 1) e = p → freeIndex t ≠ FREE_INDEX_INVALID →
  set_result m t k v (hash_table_do_set_once t k (Z.of_nat (length k)) v (hash_of k) retry).
Proof.
  intros Ht Hs Hk Hpos He Hle Hmain Hfree. pose proof (ok_layout _ Ht) as Hl.
  destruct (l_chains _ _ _ Hl) as [ch Hch].
  destruct (free_slot _ _ _ Hl Hfree) as (f & d & Hf & Hd & Hkd & Hflt).
  destruct (slot_of _ _ _ (hash e) Hl) as (q & Hq & Hqm & _).
  assert (Hqe : q = main (capacity t - 1) e) by done.
  destruct (append_move _ _ _ Hch (layout_nowrap _ _ _ Hl) f d Hd Hkd p e He Hle Hmain)
    as (l & a & ea & Hc & Hpath & Ha & Hmid & Hsd & Hx). cbv zeta in *.
  unfold hash_table_do_set_once. rewrite Hpos, ent_at_nat, He. cbn [deref mbind outcome_bind].
  pose proof Hle as [kse Hkse]. rewrite Hkse.
  rewrite (proj2 (Z.eqb_neq _ _) Hfree). simpl negb. cbv iota. rewrite Hq.
  rewrite (proj2 (Z.eqb_eq (Z.of_nat q) (Z.of_nat p))) by lia. simpl negb. cbv iota.
  pose proof (chain_length _ _ _ Hch p) as Hcl. rewrite Hc in Hcl.
  destruct (search_spec (entries t) (l ++ [a]) (Z.of_nat p) (hash_of k) k (S (length (entries t))))
    as [(l1 & i & e' & l2 & _ & Hi & Hof & ->)|(l1 & a' & Hl1 & Hno & ->)];
    [by eapply layout_nowrap|by eapply stores_keyed| |done|done|by destruct l|lia|..].
  { intros i Hi. rewrite <-Hc in Hi. apply (ch_member _ _ _ Hch) in Hi as (?&?&?&_). eauto. }
  - cbn [mbind outcome_bind].
    destruct (entry_of_stored m (entries t) i e' k) as (v' & Hm & _); [done..|].
    exists t. unfold set_absent. rewrite Hm. by split_and!.
  - apply app_inj_tail in Hl1 as [<- <-].
    assert (Hm : m !! k = None).
    { eapply absent_in_chain; [done..|]. by rewrite Hpos, Nat2Z.id, Hc. }
    destruct (do_insert_spec d k v Hk) as (ks & Hins & Hst).
    set (x := mkEntry (Some ks) (hash_of k) (next d) (Some v)).
    destruct (Hx x) as [Hch' Hlives]; [exact (ch_dead _ _ _ Hch _ _ Hd Hkd)|by exists ks| |].
    { unfold main; simpl; lia. }
    rewrite Hf in *.
    set (mid := <[a:=set_next ea (Z.of_nat f)]> (entries t)) in *.
    assert (Hmlen : length mid = length (entries t)) by (unfold mid; by rewrite !length_insert).
    destruct (layout_claim (capacity t) (entries t) mid (<[f:=x]> mid) f)
      as (f' & Hadv & Hl'); [done|done|done|by rewrite length_insert|done| | |done|].
    { eapply same_dead_insert; [done..|]. by left. }
    { intros y. rewrite list_lookup_insert_eq by lia. intros [= <-]. by exists ks. }
    cbn [mbind outcome_bind]. rewrite !ent_at_nat, Ha. cbn [deref mbind outcome_bind].
    rewrite set_ent_nat. fold mid.
    unfold hash_table_advance_free_index. simpl capacity. simpl entries. simpl freeIndex.
    rewrite Hf, Hadv. cbn [mbind outcome_bind entries].
    rewrite ent_at_nat, Hmid. cbn [deref mbind outcome_bind].
    rewrite Hins. cbn [mbind outcome_bind].
    eapply (set_result_new _ _ _ _ ks (next d)); [done|exact Hl'|done..|].
    unfold with_entries. simpl. by rewrite set_ent_nat.
Qed.

Lemma do_set_once_spec t m k v retry : table_ok t → stores m (lives (entries t)) → valid_key k →
  set_result m t k v (hash_table_do_set_once t k (Z.of_nat (length k)) v (hash_of k) retry) ∨
  freeIndex t = FREE_INDEX_INVALID ∧
  hash_table_do_set_once t k (Z.of_nat (length k)) v (hash_of k) retry =
    (t' ← hash_table_realloc t; retry t').
Proof.
  intros Ht Hs Hk. pose proof (ok_layout _ Ht) as Hl.
  destruct (slot_of _ _ _ (hash_of k) Hl) as (p & Hp & _ & Hlt).
  destruct (lookup_lt_is_Some_2 _ _ Hlt) as [e He].
  destruct (live_dec e) as [Hle|Hke]; [|left; by eapply set_place].
  destruct (decide (freeIndex t = FREE_INDEX_INVALID)) as [Hf|Hf].
  - right. split; [done|]. unfold hash_table_do_set_once.
    rewrite Hp, ent_at_nat, He. cbn [deref mbind outcome_bind].
    destruct Hle as [? ->]. by rewrite Hf.
  - left. destruct (decide (main (capacity t - 1) e = p)); [by eapply set_chain|by eapply set_evict].
Qed.

(** ** Growing the table *)
Definition dead_at ents (i : nat) : bool :=
  match ents !! i with Some e => bool_decide (key e = None) | None => false end.

(** The dead slots below [j]. *)
Fixpoint deads ents (j : nat) : nat :=
  match j with O => 0 | S j => deads ents j + Nat.b2n (dead_at ents j) end.

Lemma deads_ext ents ents' j :
  (∀ i, (i < j)%nat → dead_at ents i = dead_at ents' i) → deads ents j = deads ents' j.
Proof.
  induction j as [|j IH]; intros Heq; simpl; [done|].
  rewrite IH, Heq; [done|lia|]. intros i Hi. apply Heq. lia.
Qed.

Lemma dead_at_insert_ne ents p x i : p ≠ i → dead_at (<[p:=x]> ents) i = dead_at ents i.
Proof. intros. unfold dead_at. by rewrite list_lookup_insert_ne. Qed.

Lemma dead_at_lookup ents i e : ents !! i = Some e → dead_at ents i = bool_decide (key e = None).
Proof. intros He. unfold dead_at. by rewrite He. Qed.

Lemma deads_insert ents p x j :
  (deads (<[p:=x]> ents) j ≤ deads ents j + if (p <? j)%nat then Nat.b2n (bool_decide (key x = None)) else 0)%nat.
Proof.
  induction j as [|j IH]; simpl; [done|]. destruct (decide (p = j)) as [->|].
  - rewrite (Nat.ltb_irrefl j) in IH. rewrite (proj2 (Nat.ltb_lt j (S j))) by lia.
    assert (Nat.b2n (dead_at (<[j:=x]> ents) j) ≤ Nat.b2n (bool_decide (key x = None)))%nat; [|lia].
    unfold dead_at. destruct (<[j:=x]> ents !! j) as [y|] eqn:Hy; [|simpl; lia].
    apply list_lookup_insert_Some in Hy as [(_ & <- & _)|[? _]]; [lia|done].
  - rewrite dead_at_insert_ne by done.
    destruct (Nat.ltb_spec p j), (Nat.ltb_spec p (S j)); lia.
Qed.

Lemma same_dead_at f ents ents' i : same_dead f ents ents' → length ents' = length ents → i ≠ f →
  dead_at ents' i = dead_at ents i.
Proof.
  intros Hs Hlen Hi. unfold dead_at.
  destruct (ents !! i) as [e|] eqn:He, (ents' !! i) as [e'|] eqn:He'.
  - destruct (decide (key e = None)) as [Hk|Hk].
    + assert (ents' !! i = Some e) by (by apply Hs). by simplify_eq.
    + rewrite (bool_decide_eq_false_2 (key e = None)) by done.
      apply bool_decide_eq_false. intros Hk'. apply Hk.
      assert (ents !! i = Some e') by (by apply Hs). by simplify_eq.
  - apply lookup_lt_Some in He. apply lookup_ge_None in He'. lia.
  - apply lookup_lt_Some in He'. apply lookup_ge_None in He. lia.
  - done.
Qed.

Lemma deads_lives ents : (deads ents (length ents) + length (lives ents) = length ents)%nat.
Proof.
  induction ents as [|e ents IH] using rev_ind; [done|].
  rewrite lives_app, !length_app. simpl length at 1 3. rewrite Nat.add_1_r.
  simpl deads. replace (deads (ents ++ [e]) (length ents)) with (deads ents (length ents)).
  - rewrite (dead_at_lookup _ _ e) by (by rewrite list_lookup_middle).
    rewrite lives_cons, length_app. unfold payload. simpl.
    destruct (key e); simpl; lia.
  - apply deads_ext. intros i Hi. unfold dead_at. by rewrite lookup_app_l.
Qed.

Lemma next_free_spec ents f fuel : (length ents - f ≤ fuel)%nat →
  (∃ j d, (f < j)%nat ∧ ents !! j = Some d ∧ key d = None) →
  ∃ f' d, next_free fuel ents (Z.of_nat f) = Ok (Z.of_nat f') ∧ (f < f')%nat ∧
    ents !! f' = Some d ∧ key d = None ∧
    ∀ i, (f < i < f')%nat → dead_at ents i = false.
Proof.
  revert f. induction fuel as [|fuel IH]; intros f Hfuel (j & d & Hj & Hd & Hkd).
  { apply lookup_lt_Some in Hd. lia. }
  cbn [next_free]. replace (Z.of_nat f + 1) with (Z.of_nat (S f)) by lia. rewrite ent_at_nat.
  destruct (ents !! S f) as [e|] eqn:He.
  2: { apply lookup_ge_None in He. apply lookup_lt_Some in Hd. lia. }
  cbn [deref mbind outcome_bind]. destruct (key e) as [ks|] eqn:Hk.
  - destruct (IH (S f)) as (f' & d' & -> & ? & ? & ? & Hb); [lia| |].
    { exists j, d. split; [|done]. destruct (decide (j = S f)) as [->|]; [congruence|lia]. }
    exists f', d'. split_and!; [done|lia|done|done|]. intros i Hi.
    destruct (decide (i = S f)) as [->|]; [|apply Hb; lia].
    rewrite (dead_at_lookup _ _ e) by done. by rewrite Hk.
  - exists (S f), e. split_and!; [done|lia|done|done|]. lia.
Qed.
End spec.
