(* ===== verification/HashTableMap.v ===== *)
(** Growing the hash table, and its public operations as those of a finite map. *)

From stdpp Require Import functions.
From S2P Require Import Prelude Bit EqpString HashTable HashChains HashTableSpec.

Section map.
Context {K V : Type} `{KeyStringLaws K}.
Implicit Types (e : Entry K V) (ents : list (Entry K V)) (ch : nat → list nat)
  (t : HashTable K V) (k : list Z) (v : V) (m : gmap (list Z) V).

(** ** hash_table_realloc *)
Section realloc.
(** The old slots [old], of a table of capacity [n] with no free index left. *)
Context (n : nat) (mask : Z) (old : list (Entry K V)).
Context (Hn : length old = n) (Hsmall : Z.of_nat (2 * n) < NEXT_INVALID).
Context (Hmask : ∀ e : Entry K V, (main mask e < 2 * n)%nat) (Hmask0 : 0 ≤ mask).
(** No live entry shares a main position with a dead slot's stale hash. *)
Context (Hhome : ∀ e e', e ∈ old → e' ∈ old → key e = None → live e' →
  main mask e ≠ main mask e').

(** The new slots [ents] once the old slots [done] are copied. *)
Record grown (done_ : list (Entry K V)) ents (f : nat) : Prop := {
  g_len : length ents = (2 * n)%nat;
  g_chains : ∃ ch, chains mask ents ch;
  g_free : ∃ d, ents !! f = Some d ∧ key d = None;
  g_count : (deads ents f + length (lives ents) ≤ length done_)%nat;
  g_lives : lives ents ≡ₚ lives done_;
  g_below i e : ents !! i = Some e → key e = None → (i < f)%nat → main mask e = i;
}.

Definition weight e : nat := Nat.b2n (bool_decide (key e = None)).

Lemma length_payload e : (weight e + length (option_list (payload e)) = 1)%nat.
Proof. unfold weight, payload. by destruct (key e). Qed.

(** Once slot [f] is used, the scan for the next free slot succeeds. *)
Lemma grown_advance done_ ents f e :
  (S (length done_) ≤ n)%nat → length ents = (2 * n)%nat → (f < length ents)%nat →
  (∃ ch, chains mask ents ch) →
  (deads ents (S f) + length (lives ents) ≤ S (length done_))%nat →
  lives ents ≡ₚ lives (done_ ++ [e]) →
  (∀ i d, ents !! i = Some d → key d = None → (i ≤ f)%nat → main mask d = i) →
  ∃ f', next_free (S (length ents)) ents (Z.of_nat f) = Ok (Z.of_nat f') ∧
    grown (done_ ++ [e]) ents f'.
Proof.
  intros Hdone Hlen Hf Hch Hcount Hlives Hbelow.
  destruct (decide (Exists (λ j, (f < j)%nat ∧ dead_at ents j = true) (seq 0 (length ents))))
    as [(j & _ & Hfj & Hdj)%Exists_exists|Hno].
  - destruct (next_free_spec ents f (S (length ents))) as (f' & d & Heq & Hlt & Hd & Hkd & Hb);
      [lia| |].
    { unfold dead_at in Hdj. destruct (ents !! j) as [d|] eqn:Hd; [|done].
      exists j, d. split_and!; [done..|]. by apply bool_decide_eq_true in Hdj. }
    exists f'. split; [done|]. split; [done|done|by exists d| |done|].
    + rewrite length_app. simpl. rewrite Nat.add_1_r.
      assert (deads ents f' = deads ents (S f)) as ->; [|done].
      clear Heq Hd. induction Hlt as [|f' Hlt IH]; [done|].
      simpl. simpl in IH. rewrite <-IH by (intros; apply Hb; lia).
      rewrite (Hb f') by lia. simpl. lia.
    + intros i d' Hi Hkd' Hlt'. destruct (decide (i ≤ f)%nat); [by eapply Hbelow|].
      assert (Hdi : dead_at ents i = false) by (apply Hb; lia).
      rewrite (dead_at_lookup _ _ _ Hi), Hkd' in Hdi. done.
  - exfalso. pose proof (deads_lives ents) as Htot.
    assert (deads ents (length ents) = deads ents (S f)) as Heq; [|lia].
    assert (∀ j, (S f ≤ j ≤ length ents)%nat → deads ents j = deads ents (S f)) as Hall; [|apply Hall; lia].
    intros j. induction j as [|j IH]; intros Hj; [lia|].
    destruct (decide (j = f)) as [->|]; [done|]. simpl deads at 1. rewrite IH by lia.
    destruct (dead_at ents j) eqn:Hdj; [|simpl; lia].
    exfalso. apply Hno, Exists_exists. exists j. split; [|split; [lia|done]].
    apply elem_of_seq. lia.
Qed.

Lemma main_pos e : Z.land (hash e) mask = Z.of_nat (main mask e).
Proof. unfold main. rewrite Z2Nat.id; [done|]. apply Z.land_nonneg. by right. Qed.

Lemma lives_snoc done_ e : lives (done_ ++ [e]) ≡ₚ option_list (payload e) ++ lives done_.
Proof. rewrite lives_app, lives_cons. simpl. rewrite app_nil_r. solve_Permutation. Qed.

Lemma payload_copy e a n' : payload (set_next (hash_table_entry_copy a e) n') = payload e.
Proof. done. Qed.

Context (done_ rest : list (Entry K V)) (e : Entry K V) (Hold : old = done_ ++ e :: rest).

(** The new slots are as in [grown], up to the slot [f]. *)
Lemma grown_lives ents ents' : lives ents ≡ₚ lives done_ →
  lives ents' ≡ₚ option_list (payload e) ++ lives ents → lives ents' ≡ₚ lives (done_ ++ [e]).
Proof. intros H1 ->. by rewrite lives_snoc, H1. Qed.

Lemma done_lt : (S (length done_) ≤ n)%nat.
Proof. rewrite <-Hn, Hold, length_app. simpl. lia. Qed.

Lemma step_place ents f d : grown done_ ents f → ents !! main mask e = Some d → key d = None →
  ∃ ents' f', realloc_step mask e (ents, Z.of_nat f) = Ok (ents', Z.of_nat f') ∧
    grown (done_ ++ [e]) ents' f'.
Proof.
  intros Hg Hd Hkd. destruct (g_chains _ _ _ Hg) as [ch Hch].
  set (p := main mask e) in *. set (x := hash_table_entry_copy d e).
  assert (Hnx : next x = NEXT_INVALID) by exact (ch_dead _ _ _ Hch p d Hd Hkd).
  assert (Hlive : lives (<[p:=x]> ents) ≡ₚ option_list (payload e) ++ lives ents)
    by exact (lives_fill ents p d x Hd Hkd).
  assert (Hch' : ∃ ch, chains mask (<[p:=x]> ents) ch).
  { destruct (live_dec x); eexists; [by eapply chains_place|by eapply chains_place_dead]. }
  pose proof (g_count _ _ _ Hg) as Hcount. pose proof (length_payload e) as Hw.
  pose proof (Permutation_length Hlive) as Hll. rewrite length_app in Hll.
  assert (Hdl : ∀ j, (deads (<[p:=x]> ents) j ≤ deads ents j + if (p <? j)%nat then weight e else 0)%nat)
    by exact (deads_insert ents p x).
  assert (Hplt : (p < length ents)%nat) by (by eapply lookup_lt_Some).
  assert (Hbelow : ∀ i y, <[p:=x]> ents !! i = Some y → key y = None → (i < f)%nat ∨ i = p → main mask y = i).
  { intros i y Hi Hky Hif. apply list_lookup_insert_Some in Hi as [(<- & <- & _)|[? Hi]]; [done|].
    destruct Hif as [?|?]; [|done]. by eapply (g_below _ _ _ Hg). }
  unfold realloc_step. cbv zeta. rewrite main_pos. fold p. rewrite (ent_at_nat ents p), Hd.
  cbn [deref mbind outcome_bind]. rewrite Hkd, set_ent_nat. fold x.
  destruct (Z.eqb_spec (Z.of_nat p) (Z.of_nat f)) as [Hpf|Hpf]; simpl negb; cbv iota.
  - assert (p = f) as Hpf' by lia.
    destruct (grown_advance done_ (<[p:=x]> ents) f e) as (f' & Hf' & Hg').
    + apply done_lt.
    + rewrite length_insert. apply Hg.
    + rewrite length_insert. lia.
    + done.
    + specialize (Hdl f). rewrite Hpf', Nat.ltb_irrefl in Hdl. simpl.
      rewrite (dead_at_lookup _ _ x) by (rewrite <-Hpf'; by apply list_lookup_insert_eq).
      rewrite Hpf' in *. unfold weight in Hw. change (key x) with (key e). lia.
    + by eapply grown_lives; [apply Hg|].
    + intros i y Hi Hky Hif. apply Hbelow; [done..|lia].
    + rewrite length_insert in Hf'. rewrite Hf'. eauto.
  - exists (<[p:=x]> ents), f. split; [done|].
    destruct (g_free _ _ _ Hg) as (df & Hdf & ?).
    split; [rewrite length_insert; apply Hg|done| | | |].
    + exists df. rewrite list_lookup_insert_ne by lia. done.
    + rewrite length_app. simpl. specialize (Hdl f).
      destruct (p <? f)%nat; lia.
    + by eapply grown_lives; [apply Hg|].
    + intros i y Hi Hky Hif. apply Hbelow; [done..|lia].
Qed.

(** What both moving steps end with: slot [f] used, [ents'] holding [e] too. *)
Lemma step_done ents mid i x f d ents' : grown done_ ents f → ents !! f = Some d →
  same_dead f ents mid → length mid = length ents → ents' = <[i:=x]> mid →
  (i = f ∧ live x) ∨ (i ≠ f ∧ dead_at mid f = false ∧ main mask x = i ∧ key x = key e) →
  (∃ ch, chains mask ents' ch) → lives ents' ≡ₚ option_list (payload e) ++ lives ents →
  ∃ f', next_free (S (length ents)) ents' (Z.of_nat f) = Ok (Z.of_nat f') ∧
    grown (done_ ++ [e]) ents' f'.
Proof.
  intros Hg Hf Hsd Hlen -> Hi Hch Hlive.
  pose proof (g_count _ _ _ Hg) as Hcount. pose proof (length_payload e) as Hw.
  pose proof (Permutation_length Hlive) as Hll. rewrite length_app in Hll.
  assert (Hflt : (f < length ents)%nat) by (by eapply lookup_lt_Some).
  assert (Hdm : deads mid f = deads ents f)
    by (apply deads_ext; intros j Hj; eapply same_dead_at; [done..|lia]).
  replace (length ents) with (length (<[i:=x]> mid)) by (by rewrite length_insert).
  apply grown_advance; [apply done_lt|rewrite length_insert, Hlen; apply Hg|rewrite length_insert; lia|done| | |].
  - simpl. destruct Hi as [[-> [kx Hx]]|(Hif & Hmf & _ & Hkx)].
    + pose proof (deads_insert mid f x f) as Hdi. rewrite Nat.ltb_irrefl in Hdi.
      rewrite (dead_at_lookup _ _ x) by (apply list_lookup_insert_eq; lia).
      simpl in Hdi. rewrite Hx. simpl. lia.
    + pose proof (deads_insert mid i x f) as Hdi. rewrite dead_at_insert_ne, Hmf by done.
      unfold weight in Hw. rewrite Hkx in Hdi. simpl. destruct (i <? f)%nat; lia.
  - by eapply grown_lives; [apply Hg|].
  - intros j y Hj Hky Hjf. apply list_lookup_insert_Some in Hj as [(<- & <- & _)|[? Hj]].
    + destruct Hi as [[_ [? ?]]|(_ & _ & ? & _)]; [congruence|done].
    + destruct (decide (j = f)) as [->|].
      * destruct Hi as [[-> _]|(_ & Hmf & _)]; [done|].
        rewrite (dead_at_lookup _ _ _ Hj), Hky in Hmf. done.
      * apply (g_below _ _ _ Hg); [|done|lia]. by apply Hsd.
Qed.

Lemma grown_nowrap ents f : grown done_ ents f → Z.of_nat (length ents) < NEXT_INVALID.
Proof. intros Hg. by rewrite (g_len _ _ _ Hg). Qed.

Lemma step_evict ents f ne : grown done_ ents f → ents !! main mask e = Some ne → live ne →
  main mask ne ≠ main mask e →
  ∃ ents' f', realloc_step mask e (ents, Z.of_nat f) = Ok (ents', Z.of_nat f') ∧
    grown (done_ ++ [e]) ents' f'.
Proof.
  intros Hg Hne Hl Hmain. destruct (g_chains _ _ _ Hg) as [ch Hch].
  destruct (g_free _ _ _ Hg) as (d & Hd & Hkd).
  assert (Hflt : (f < length ents)%nat) by (by eapply lookup_lt_Some).
  set (p := main mask e) in *.
  assert (Hpf : p ≠ f) by (intros Hpf; destruct Hl; simplify_eq; congruence).
  destruct (evict_move _ _ _ Hch (grown_nowrap _ _ Hg) f d Hd Hkd p ne Hne Hl Hmain)
    as (a & ea & Hfol & Ha & Hmid & Hsd & Hx). cbv zeta in *.
  set (mid := <[a:=set_next ea (Z.of_nat f)]> (<[f:=ne]> ents)) in *.
  assert (Hmf : dead_at mid f = false).
  { unfold dead_at, mid. destruct Hl as [ks Hks]. destruct (decide (a = f)) as [->|].
    - rewrite list_lookup_insert_eq in Ha by done. simplify_eq.
      rewrite list_lookup_insert_eq by (by rewrite length_insert). simpl. by rewrite Hks.
    - rewrite list_lookup_insert_ne, list_lookup_insert_eq by done. by rewrite Hks. }
  set (x := set_next (hash_table_entry_copy ne e) FREE_INDEX_INVALID).
  destruct (Hx x) as [Hch' Hlives]; [done|done|].
  destruct (step_done ents mid p x f d (<[p:=x]> mid)) as (f' & Hnf & Hg'); try done.
  { unfold mid. by rewrite !length_insert. }
  { right. done. }
  exists (<[p:=x]> mid), f'. split; [|done].
  unfold realloc_step. cbv zeta. rewrite !main_pos. fold p. rewrite (ent_at_nat ents p), Hne.
  cbn [deref mbind outcome_bind]. destruct Hl as [ks Hks]. rewrite Hks, main_pos.
  rewrite (proj2 (Z.eqb_neq (Z.of_nat (main mask ne)) (Z.of_nat p))) by lia. simpl negb. cbv iota.
  rewrite (ent_at_nat ents f), Hd. cbn [deref mbind outcome_bind]. rewrite set_ent_nat.
  rewrite length_insert in Hfol. rewrite Hfol. cbn [mbind outcome_bind].
  rewrite ent_at_nat, Ha. cbn [deref mbind outcome_bind]. rewrite set_ent_nat. fold mid.
  rewrite ent_at_nat, Hmid. cbn [deref mbind outcome_bind]. rewrite set_ent_nat. fold x.
  by rewrite Hnf.
Qed.

Lemma step_append ents f ne : grown done_ ents f → ents !! main mask e = Some ne → live ne →
  main mask ne = main mask e →
  ∃ ents' f', realloc_step mask e (ents, Z.of_nat f) = Ok (ents', Z.of_nat f') ∧
    grown (done_ ++ [e]) ents' f'.
Proof.
  intros Hg Hne Hl Hmain. destruct (g_chains _ _ _ Hg) as [ch Hch].
  destruct (g_free _ _ _ Hg) as (d & Hd & Hkd).
  assert (Hflt : (f < length ents)%nat) by (by eapply lookup_lt_Some).
  assert (Hle : live e).
  { destruct (live_dec e) as [|Hke]; [done|exfalso].
    assert (Hin : ∃ p, p ∈ lives ents ∧ payload ne = Some p).
    { destruct Hl as [ks Hks]. eexists. unfold payload. rewrite Hks. split; [|done].
      apply elem_of_lives. eexists _, ne. unfold payload. by rewrite Hks. }
    destruct Hin as (pl & Hin & Hpl). rewrite (g_lives _ _ _ Hg) in Hin.
    apply elem_of_lives in Hin as (j & e' & He' & Hp').
    apply (Hhome e e'); rewrite ?Hold; [set_solver| |done| |].
    - apply elem_of_app. left. by eapply list_elem_of_lookup_2.
    - unfold payload in Hp'. unfold live. by destruct (key e').
    - rewrite <-Hmain. unfold main. f_equal. f_equal.
      unfold payload in *. destruct (key ne), (key e'); simplify_eq/=. done. }
  destruct (append_move _ _ _ Hch (grown_nowrap _ _ Hg) f d Hd Hkd _ ne Hne Hl Hmain)
    as (l & a & ea & Hc & Hpath & Ha & Hmid & Hsd & Hx). cbv zeta in *.
  set (mid := <[a:=set_next ea (Z.of_nat f)]> ents) in *.
  set (x := hash_table_entry_copy d e).
  destruct (Hx x) as [Hch' Hlives]; [exact (ch_dead _ _ _ Hch _ _ Hd Hkd)|done|done|].
  destruct (step_done ents mid f x f d (<[f:=x]> mid)) as (f' & Hnf & Hg'); try done.
  { unfold mid. by rewrite !length_insert. }
  { by left. }
  pose proof (chain_length _ _ _ Hch (main mask e)) as Hcl. rewrite Hc, length_app in Hcl.
  exists (<[f:=x]> mid), f'. split; [|done].
  unfold realloc_step. cbv zeta. rewrite !main_pos. rewrite (ent_at_nat ents (main mask e)), Hne.
  cbn [deref mbind outcome_bind]. destruct Hl as [ks Hks]. rewrite Hks, main_pos.
  rewrite (proj2 (Z.eqb_eq (Z.of_nat (main mask ne)) (Z.of_nat (main mask e)))) by lia.
  simpl negb. cbv iota.
  rewrite (follow_to_end_spec _ l a) by (done || lia || by eapply grown_nowrap).
  cbn [mbind outcome_bind]. rewrite ent_at_nat, Ha. cbn [deref mbind outcome_bind].
  rewrite set_ent_nat. fold mid. rewrite ent_at_nat, Hmid. cbn [deref mbind outcome_bind].
  rewrite set_ent_nat. fold x. by rewrite Hnf.
Qed.

Lemma realloc_step_spec ents f : grown done_ ents f →
  ∃ ents' f', realloc_step mask e (ents, Z.of_nat f) = Ok (ents', Z.of_nat f') ∧
    grown (done_ ++ [e]) ents' f'.
Proof.
  intros Hg. destruct (lookup_lt_is_Some_2 ents (main mask e)) as [ne Hne].
  { rewrite (g_len _ _ _ Hg). apply Hmask. }
  destruct (live_dec ne); [|by eapply step_place].
  destruct (decide (main mask ne = main mask e)); [by eapply step_append|by eapply step_evict].
Qed.
End realloc.

Lemma realloc_loop_spec n mask old todo done_ ents f :
  length old = n → Z.of_nat (2 * n) < NEXT_INVALID → (∀ e, (main mask e < 2 * n)%nat) → 0 ≤ mask →
  (∀ e e', e ∈ old → e' ∈ old → key e = None → live e' → main mask e ≠ main mask e') →
  old = done_ ++ todo → grown n mask done_ ents f →
  ∃ ents' f', realloc_loop mask todo (ents, Z.of_nat f) = Ok (ents', Z.of_nat f') ∧
    grown n mask old ents' f'.
Proof.
  intros Hn Hs Hm Hm0 Hh. revert done_ ents f.
  induction todo as [|e todo IH]; intros done_ ents f Hold Hg.
  - exists ents, f. rewrite Hold, app_nil_r. done.
  - destruct (realloc_step_spec n mask old Hn Hs Hm Hm0 Hh done_ todo e Hold ents f Hg)
      as (ents1 & f1 & Hstep & Hg1).
    cbn [realloc_loop]. rewrite Hstep. cbn [mbind outcome_bind].
    apply (IH (done_ ++ [e])); [|done]. by rewrite <-app_assoc.
Qed.

Lemma empty_slots i c e : replicate c empty_entry !! i = Some e → e = empty_entry.
Proof. by intros [-> _]%lookup_replicate. Qed.

Lemma empty_chains mask c : chains mask (replicate c (@empty_entry K V)) (λ _, []).
Proof.
  split; try done.
  - by exists NEXT_INVALID.
  - set_solver.
  - intros i e ->%empty_slots [? ?]. done.
  - intros p. apply NoDup_nil_2.
  - by intros i e ->%empty_slots.
Qed.

Lemma lives_empty c : lives (replicate c (@empty_entry K V)) = [].
Proof. by induction c. Qed.

Lemma empty_grown n mask : (0 < n)%nat → grown n mask [] (replicate (2 * n) (@empty_entry K V)) 0.
Proof.
  intros. split.
  - by rewrite length_replicate.
  - eexists. apply empty_chains.
  - exists empty_entry. split; [|done]. apply lookup_replicate. split; [done|lia].
  - by rewrite lives_empty.
  - by rewrite lives_empty.
  - lia.
Qed.

(** Taking the low bits of a hash first with the larger mask changes nothing. *)
Lemma main_halve c e e' : 0 ≤ c →
  main (2 ^ (c + 1) - 1) e = main (2 ^ (c + 1) - 1) e' → main (2 ^ c - 1) e = main (2 ^ c - 1) e'.
Proof.
  intros Hc. unfold main. rewrite !Z.sub_1_r, <-!Z.ones_equiv. intros Heq.
  assert (Hland : ∀ h, Z.land h (Z.ones c) = Z.land (Z.land h (Z.ones (c + 1))) (Z.ones c)).
  { intros h. rewrite <-Z.land_assoc. f_equal.
    rewrite (Z.land_comm (Z.ones (c + 1))), Z.land_ones by lia.
    symmetry. apply Z.mod_small. rewrite !Z.ones_equiv.
    assert (2 ^ c < 2 ^ (c + 1)) by (apply Z.pow_lt_mono_r; lia).
    pose proof (Z.pow_pos_nonneg 2 c). lia. }
  rewrite (Hland (hash e)), (Hland (hash e')).
  assert (∀ h, 0 ≤ Z.land h (Z.ones (c + 1))) as Hpos.
  { intros h. apply Z.land_nonneg. right. rewrite Z.ones_equiv.
    pose proof (Z.pow_pos_nonneg 2 (c + 1)). lia. }
  pose proof (Hpos (hash e)). pose proof (Hpos (hash e')).
  replace (Z.land (hash e) (Z.ones (c + 1))) with (Z.land (hash e') (Z.ones (c + 1))) by lia.
  done.
Qed.

(** Room for the table to double. *)
Definition room t : Prop := SIZEOF_TABLE + entSize t * (2 * capacity t) < 2 ^ 32.

Lemma fits_true a b : 0 ≤ a → 0 ≤ b → SIZEOF_TABLE + a * b < 2 ^ 32 → table_fits a b = true.
Proof.
  unfold table_fits, SIZEOF_TABLE. intros. assert (0 ≤ a * b) by lia.
  rewrite (wrap_small _ (a * b)) by (unfold is_word; lia).
  rewrite wrap_small by (unfold is_word; lia). apply Z.eqb_refl.
Qed.

Lemma realloc_spec t : table_ok t → freeIndex t = FREE_INDEX_INVALID → room t →
  ∃ t', hash_table_realloc t = Ok t' ∧ table_ok t' ∧ freeIndex t' ≠ FREE_INDEX_INVALID ∧
    capacity t' = 2 * capacity t ∧ elemSize t' = elemSize t ∧ entSize t' = entSize t ∧
    lives (entries t') ≡ₚ lives (entries t).
Proof.
  intros Ht Hf Hroom. pose proof (ok_layout _ Ht) as Hl. pose proof (ok_entSize _ Ht).
  destruct (l_pow _ _ _ Hl) as (c & Hc & Hcap). pose proof (l_len _ _ _ Hl) as Hlen.
  pose proof (l_max _ _ _ Hl). destruct (l_chains _ _ _ Hl) as [ch Hch].
  pose proof (Z.pow_pos_nonneg 2 c ltac:(lia) ltac:(lia)).
  unfold room, SIZEOF_ENTRY, SIZEOF_TABLE in *.
  assert (capacity t < 2 ^ 27) by lia.
  set (n := length (entries t)) in *.
  assert (Hnewcap : u32 (capacity t * 2) = Z.of_nat (2 * n))
    by (rewrite wrap_small; unfold is_word; lia).
  assert (Hcap' : Z.of_nat (2 * n) = 2 ^ (c + 1)) by (rewrite Z.pow_add_r by lia; lia).
  assert (Hland : ∀ h, 0 ≤ Z.land h (Z.of_nat (2 * n) - 1) < Z.of_nat (2 * n)).
  { intros h. rewrite Hcap', Z.sub_1_r, <-Z.ones_equiv, Z.land_ones by lia.
    apply Z.mod_pos_bound. lia. }
  destruct (realloc_loop_spec n (Z.of_nat (2 * n) - 1) (entries t) (entries t) []
    (replicate (2 * n) empty_entry) 0) as (ents' & f' & Hloop & Hg).
  - done.
  - unfold NEXT_INVALID. lia.
  - intros e. unfold main. pose proof (Hland (hash e)). lia.
  - lia.
  - intros e e' (i & Hi)%list_elem_of_lookup (j & Hj)%list_elem_of_lookup Hk Hle Heq.
    rewrite Hcap' in Heq. apply main_halve in Heq; [|lia].
    rewrite <-Hcap in Heq.
    rewrite (l_below _ _ _ Hl i e Hi Hk) in Heq.
    2: { apply lookup_lt_Some in Hi. rewrite Hf. unfold FREE_INDEX_INVALID. lia. }
    pose proof (ch_live _ _ _ Hch j e' Hj Hle) as Hin. rewrite <-Heq in Hin.
    rewrite (chain_of_dead _ _ _ Hch i e Hi Hk) in Hin. by apply not_elem_of_nil in Hin.
  - done.
  - apply empty_grown. lia.
  - unfold hash_table_realloc. cbv zeta. rewrite Hnewcap, fits_true by (unfold SIZEOF_TABLE; lia).
    simpl negb. cbv iota. rewrite Nat2Z.id. change 0 with (Z.of_nat 0) at 1. rewrite Hloop.
    cbn [mbind outcome_bind]. eexists. split; [done|].
    destruct (g_free _ _ _ _ _ Hg) as (d & Hd & Hkd).
    pose proof (lookup_lt_Some _ _ _ Hd) as Hlt. rewrite (g_len _ _ _ _ _ Hg) in Hlt.
    split_and!; try done; cbn [capacity freeIndex entries elemSize entSize].
    + split; cbn [capacity freeIndex entries elemSize entSize]; [|done|unfold SIZEOF_TABLE; lia].
      split.
      * exists (c + 1). split; [lia|done].
      * by rewrite (g_len _ _ _ _ _ Hg).
      * lia.
      * apply Hg.
      * right. by exists f', d.
      * intros i e Hi Hk Hif. apply (g_below _ _ _ _ _ Hg i e Hi Hk). lia.
    + unfold FREE_INDEX_INVALID. lia.
    + lia.
    + apply Hg.
Qed.

(** ** The public operations *)
Definition repr t m : Prop := table_ok t ∧ stores m (lives (entries t)).

Lemma create_refines elementSize : 0 ≤ elementSize →
  SIZEOF_TABLE + 2 * (elementSize + SIZEOF_ENTRY + 8) < 2 ^ 32 →
  ∃ t, hash_table_create elementSize = Ok t ∧ repr t ∅.
Proof.
  intros Hs Hfit. unfold hash_table_create. unfold SIZEOF_TABLE, SIZEOF_ENTRY in *.
  rewrite (wrap_small _ (elementSize + 16)) by (unfold is_word; lia).
  set (es := if negb ((elementSize + 16) mod 8 =? 0) then _ else _).
  assert (elementSize + 16 ≤ es ≤ elementSize + 16 + 8) as Hes.
  { unfold es. pose proof (Z.mod_pos_bound (elementSize + 16) 8 ltac:(lia)).
    destruct (negb _); [|lia]. rewrite wrap_small by (unfold is_word; lia). lia. }
  cbv zeta. clearbody es.
  rewrite fits_true by (unfold DEFAULT_CAPACITY, SIZEOF_TABLE; lia).
  eexists. split; [done|]. split.
  - split; cbn [capacity entries freeIndex entSize]; [split| |].
    + by exists 1.
    + done.
    + done.
    + eexists. apply empty_chains.
    + right. exists 0%nat, empty_entry. done.
    + intros. lia.
    + unfold SIZEOF_ENTRY. lia.
    + unfold SIZEOF_TABLE, DEFAULT_CAPACITY. lia.
  - cbn [entries]. rewrite lives_empty. constructor.
Qed.

Lemma set_refines t m k v : repr t m → valid_key k → room t →
  ∃ t', hash_table_set_by_cstr t k (Z.of_nat (length k)) v = Ok (bool_decide (m !! k = None), t') ∧
    repr t' (set_absent m k v).
Proof.
  intros [Ht Hs] Hk Hroom. unfold hash_table_set_by_cstr. cbv zeta.
  change (hash_table_calc_hash k (Z.of_nat (length k))) with (hash_of k).
  set (again := λ t, hash_table_do_set 1 t k (Z.of_nat (length k)) v (hash_of k)).
  change (hash_table_do_set 2 _ _ _ _ _)
    with (hash_table_do_set_once t k (Z.of_nat (length k)) v (hash_of k) again).
  destruct (do_set_once_spec t m k v again Ht Hs Hk) as [(t' & -> & ? & _ & ?)|[Hf ->]].
  { exists t'. by split. }
  destruct (realloc_spec t Ht Hf Hroom) as (t1 & -> & Ht1 & Hf1 & _ & _ & _ & Hl1).
  cbn [mbind outcome_bind].
  change (again t1) with (hash_table_do_set_once t1 k (Z.of_nat (length k)) v (hash_of k)
    (λ t, hash_table_do_set 0 t k (Z.of_nat (length k)) v (hash_of k))).
  assert (Hs1 : stores m (lives (entries t1))) by (eapply stores_perm; [symmetry|]; done).
  destruct (do_set_once_spec t1 m k v (λ t, hash_table_do_set 0 t k (Z.of_nat (length k)) v (hash_of k)) Ht1 Hs1 Hk)
    as [(t' & -> & ? & _ & ?)|[? _]]; [|done].
  exists t'. by split.
Qed.

(** A main slot that is empty or another chain's holds no entry of the key. *)
Lemma chain_not_home t m ch k p e : chains (capacity t - 1) (entries t) ch →
  stores m (lives (entries t)) →
  Z.land (hash_of k) (capacity t - 1) = Z.of_nat p → entries t !! p = Some e →
  key e = None ∨ main (capacity t - 1) e ≠ p → m !! k = None.
Proof.
  intros Hch Hs Hp He Hor. eapply absent_in_chain; [done..|]. rewrite Hp, Nat2Z.id.
  intros i e' Hi. exfalso. destruct (ch p) as [|j l] eqn:Hc; [by apply not_elem_of_nil in Hi|].
  pose proof (ch_head _ _ _ Hch _ _ _ Hc) as ->.
  destruct (ch_member _ _ _ Hch p p) as (e2 & He2 & [? Hl] & ?);
    [rewrite Hc; apply list_elem_of_here|].
  destruct Hor; simplify_eq; congruence.
Qed.

Lemma get_refines t m k : repr t m → valid_key k →
  hash_table_get_by_cstr t k (Z.of_nat (length k)) = Ok (m !! k).
Proof.
  intros [Ht Hs] Hk. pose proof (ok_layout _ Ht) as Hl. destruct (l_chains _ _ _ Hl) as [ch Hch].
  destruct (slot_of _ _ _ (hash_of k) Hl) as (p & Hp & _ & Hlt).
  destruct (lookup_lt_is_Some_2 _ _ Hlt) as [e He].
  unfold hash_table_get_by_cstr. cbv zeta.
  change (hash_table_calc_hash k (Z.of_nat (length k))) with (hash_of k).
  rewrite Hp, ent_at_nat, He. cbn [deref mbind outcome_bind].
  destruct (key e) as [ks|] eqn:Hke; [|by rewrite (chain_not_home t m ch k p e) by eauto].
  destruct (slot_of _ _ _ (hash e) Hl) as (q & Hq & Hqm & _). rewrite Hq.
  destruct (Z.eqb_spec (Z.of_nat q) (Z.of_nat p)) as [Hqp|Hqp]; simpl negb; cbv iota.
  2: { rewrite (chain_not_home t m ch k p e); try done. right. unfold main. lia. }
  destruct (chain_of_live _ _ _ Hch p e He) as [l Hc]; [by exists ks|unfold main; lia|].
  destruct (ch_path _ _ _ Hch p) as [z Hz]. rewrite Hc in Hz. pose proof Hz as [-> _].
  pose proof (chain_length _ _ _ Hch p) as Hcl. rewrite Hc in Hcl.
  destruct (search_spec (entries t) (p :: l) (Z.of_nat p) (hash_of k) k (S (length (entries t))))
    as [(l1 & i & e' & l2 & _ & Hi & Hof & ->)|(l1 & a' & Hl1 & Hno & ->)];
    [by eapply layout_nowrap|by eapply stores_keyed| |done|done|done|lia|..]; cbn [mbind outcome_bind].
  - intros i Hi. rewrite <-Hc in Hi. apply (ch_member _ _ _ Hch) in Hi as (?&?&?&_). eauto.
  - rewrite ent_at_nat, Hi. cbn [deref mbind outcome_bind].
    destruct (entry_of_stored m (entries t) i e' k) as (v' & -> & ->); done.
  - f_equal. symmetry. eapply absent_in_chain; [done..|]. by rewrite Hp, Nat2Z.id, Hc.
Qed.

Lemma omap_filter_values ents :
  value <$> filter (λ e, is_Some (key e)) ents = (λ p : K * Z * option V, p.2) <$> lives ents.
Proof.
  induction ents as [|e ents IH]; [done|]. rewrite lives_cons. unfold payload.
  destruct (key e) as [ks|] eqn:Hk.
  - rewrite filter_cons_True by (rewrite Hk; eauto). rewrite !fmap_cons, IH. done.
  - rewrite filter_cons_False by (rewrite Hk; by intros [? ?]). done.
Qed.

Lemma stores_values m ps : stores m ps →
  (λ p : K * Z * option V, p.2) <$> ps ≡ₚ Some <$> (map_to_list m).*2.
Proof.
  induction 1 as [|m ps k v p Hk Hp Hs IH]; [by rewrite map_to_list_empty|].
  rewrite map_to_list_insert by done. simpl. rewrite IH. by destruct Hp as (_ & _ & _ & ->).
Qed.

(** *** Removal *)
Lemma search_prev_spec ents l prev z h k fuel : Z.of_nat (length ents) < NEXT_INVALID →
  keyed ents → (∀ i, i ∈ l → ∃ e, ents !! i = Some e ∧ live e) → valid_key k →
  path ents l z NEXT_INVALID → l ≠ [] → (length l ≤ fuel)%nat →
  (∃ l1 i e l2, l = l1 ++ i :: l2 ∧ ents !! i = Some e ∧ entry_of h k e ∧
     search_prev fuel ents prev z h k =
       Ok (Some (match last l1 with Some a => Some (Z.of_nat a) | None => prev end, Z.of_nat i))) ∨
  ((∀ i e, i ∈ l → ents !! i = Some e → ¬ entry_of h k e) ∧
     search_prev fuel ents prev z h k = Ok None).
Proof.
  intros Hlen Hks Hl Hk. revert prev z fuel.
  induction l as [|i l IH]; intros prev z fuel; [done|].
  intros (-> & e & He & Hn) _ Hf. destruct fuel as [|fuel]; [simpl in Hf; lia|].
  simpl. rewrite ent_at_nat, He. cbn [deref mbind outcome_bind].
  destruct (Hl i) as (e' & ? & Hle); [apply list_elem_of_here|]. simplify_eq.
  destruct (ent_matches_spec ents i e h k) as [[-> Hm]|[-> Hm]]; [done..| |]; cbn [mbind outcome_bind].
  { left. by exists [], i, e, l. }
  destruct l as [|j l].
  - right. simpl in Hn. rewrite (proj2 (Z.eqb_eq _ _) Hn). split; [|done].
    intros ? ? ->%list_elem_of_singleton ?. by simplify_eq.
  - rewrite (proj2 (Z.eqb_neq _ _)) by (by eapply (path_next ents (j :: l))). simpl negb. cbv iota.
    destruct (IH ltac:(set_solver) (Some (Z.of_nat i)) (next e) fuel)
      as [(l1 & i' & e' & l2 & Hs & ? & ? & ->)|(Hno & ->)]; [done|done|simpl in *; lia|..].
    + left. exists (i :: l1), i', e', l2. rewrite Hs. split_and!; [done..|].
      destruct l1 as [|a l1]; [done|]. rewrite last_cons_cons.
      destruct (last (a :: l1)) eqn:Hlast; [done|]. by apply last_None in Hlast.
    + right. split; [|done]. intros i' e' [->|Hi']%list_elem_of_In ?; [by simplify_eq|].
      eapply Hno; [|done]. by apply list_elem_of_In.
Qed.

(** A slot [b] given back; the free index is lowered to it when it is smaller. *)
Lemma layout_release cap ents ents' b e x f f' : layout cap ents f →
  same_dead b ents ents' → length ents' = length ents → (∃ ch, chains (cap - 1) ents' ch) →
  ents !! b = Some e → live e → ents' !! b = Some x → key x = None →
  f' = (if Z.of_nat b <? f then Z.of_nat b else f) ∨ f' = f ∧ main (cap - 1) x = b →
  layout cap ents' f'.
Proof.
  intros Hl Hsd Hlen Hch He [ke Hle] Hx Hk Hf'.
  assert (Hfree : f = FREE_INDEX_INVALID ∨ ∃ i e, f = Z.of_nat i ∧ ents' !! i = Some e ∧ key e = None).
  { destruct (l_free _ _ _ Hl) as [|(i & d & -> & Hi & Hd)]; [by left|right].
    exists i, d. split; [done|]. split; [|done]. apply Hsd; [|done..].
    intros ->. congruence. }
  split; [apply (l_pow _ _ _ Hl)|rewrite Hlen; apply (l_len _ _ _ Hl)|apply (l_max _ _ _ Hl)|done| |].
  - destruct Hf' as [->|[-> _]]; [|done]. destruct (Z.ltb_spec (Z.of_nat b) f); [|done].
    right. by exists b, x.
  - intros i y Hi Hy Hlt. destruct (decide (i = b)) as [->|Hib].
    + simplify_eq. destruct Hf' as [->|[_ ?]]; [|done].
      destruct (Z.ltb_spec (Z.of_nat b) f); lia.
    + apply (l_below _ _ _ Hl); [by apply Hsd|done|].
      destruct Hf' as [->|[-> _]]; [|done]. destruct (Z.ltb_spec (Z.of_nat b) f); lia.
Qed.

(** What a removal has to show. *)
Lemma remove_done t m k ents' f' e : repr t m → layout (capacity t) ents' f' → valid_key k →
  entry_of (hash_of k) k e → option_list (payload e) ++ lives ents' ≡ₚ lives (entries t) →
  repr (mkTable (capacity t) (elemSize t) f' (entSize t) ents') (delete k m).
Proof.
  intros [Ht Hs] Hl Hk (_ & ks & Hks & Hh) Hp. split.
  - split; [done|apply Ht|apply Ht].
  - cbn [entries]. unfold payload in Hp. rewrite Hks in Hp. simpl in Hp.
    eapply stores_perm in Hs; [|symmetry; exact Hp].
    apply stores_cons_inv in Hs as (k' & v & _ & Hst & Hs').
    by rewrite (stored_inj k' k _ v _ Hst Hh Hk) in Hs'.
Qed.

Lemma live_of_entry h k e : entry_of h k e → live e.
Proof. intros (_ & ks & ? & _). by exists ks. Qed.

(** The three ways an entry leaves its chain. *)
Lemma remove_inner t m k ch q l1 a ea b eb l2 : repr t m → valid_key k →
  chains (capacity t - 1) (entries t) ch → ch q = l1 ++ a :: b :: l2 →
  entries t !! a = Some ea → entries t !! b = Some eb → entry_of (hash_of k) k eb →
  repr (mkTable (capacity t) (elemSize t) (if Z.of_nat b <? freeIndex t then Z.of_nat b else freeIndex t)
    (entSize t) (<[b:=clear_entry eb]> (<[a:=set_next ea (next eb)]> (entries t)))) (delete k m).
Proof.
  intros Hr Hk Hch Hq Ha Hb Hof. pose proof (live_of_entry _ _ _ Hof) as Hlb.
  destruct (chain_at _ _ _ q l1 a (b :: l2) Hch Hq) as (_ & ea' & Ha' & Hal & _ & _ & _ & _ & Hab).
  assert (ea' = ea) as -> by congruence. assert (a ≠ b) by set_solver.
  assert (Hb' : <[a:=set_next ea (next eb)]> (entries t) !! b = Some eb)
    by (by rewrite list_lookup_insert_ne).
  assert (b < length (entries t))%nat by (by eapply lookup_lt_Some).
  eapply remove_done; [done| |done|done|].
  - eapply (layout_release _ (entries t) _ b eb (clear_entry eb)); try done.
    + apply Hr.
    + eapply same_dead_insert; [|done|by left].
      eapply same_dead_insert; [apply same_dead_refl|done|by right].
    + by rewrite !length_insert.
    + eexists. by eapply chains_unlink.
    + apply list_lookup_insert_eq. by rewrite length_insert.
    + by left.
  - rewrite (lives_insert _ _ _ (clear_entry eb) Hb'). simpl. by rewrite lives_relink.
Qed.

Lemma remove_head t m k ch q e b eb l2 : repr t m → valid_key k →
  chains (capacity t - 1) (entries t) ch → ch q = q :: b :: l2 →
  entries t !! q = Some e → entries t !! b = Some eb → entry_of (hash_of k) k e →
  repr (mkTable (capacity t) (elemSize t) (if Z.of_nat b <? freeIndex t then Z.of_nat b else freeIndex t)
    (entSize t) (<[b:=clear_entry eb]> (<[q:=eb]> (entries t)))) (delete k m).
Proof.
  intros Hr Hk Hch Hq Ha Hb Hof. pose proof (live_of_entry _ _ _ Hof) as Hle.
  destruct (chain_at _ _ _ q [q] b l2 Hch Hq) as (_ & eb' & Hb2 & Hlb & _ & _ & _ & Hqb & _).
  assert (eb' = eb) as -> by congruence. assert (q ≠ b) by set_solver.
  assert (Hb' : <[q:=eb]> (entries t) !! b = Some eb) by (by rewrite list_lookup_insert_ne).
  assert (b < length (entries t))%nat by (by eapply lookup_lt_Some).
  eapply remove_done; [done| |done|done|].
  - eapply (layout_release _ (entries t) _ b eb (clear_entry eb)); try done.
    + apply Hr.
    + eapply same_dead_insert; [|done|by left].
      eapply same_dead_insert; [apply same_dead_refl|done|by right].
    + by rewrite !length_insert.
    + eexists. by eapply chains_behead.
    + apply list_lookup_insert_eq. by rewrite length_insert.
    + by left.
  - apply (Permutation_app_inv_l (option_list (payload eb))).
    rewrite <-(lives_insert _ _ _ eb Ha).
    pose proof (lives_insert _ _ _ (clear_entry eb) Hb') as Hp. simpl in Hp. rewrite <-Hp.
    solve_Permutation.
Qed.

Lemma remove_only t m k ch q e : repr t m → valid_key k →
  chains (capacity t - 1) (entries t) ch → ch q = [q] → entries t !! q = Some e →
  main (capacity t - 1) e = q → entry_of (hash_of k) k e →
  repr (with_entries t (<[q:=clear_entry e]> (entries t))) (delete k m).
Proof.
  intros Hr Hk Hch Hq He Hmain Hof. pose proof (live_of_entry _ _ _ Hof) as Hle.
  eapply remove_done; [done| |done|done|].
  - eapply (layout_release _ (entries t) _ q e (clear_entry e)); try done.
    + apply Hr.
    + eapply same_dead_insert; [apply same_dead_refl|done|by left].
    + by rewrite !length_insert.
    + eexists. by eapply chains_clear.
    + apply list_lookup_insert_eq. by eapply lookup_lt_Some.
    + by right.
  - by rewrite (lives_insert _ _ _ (clear_entry e) He).
Qed.

Lemma remove_refines t m k : repr t m → valid_key k →
  ∃ t', hash_table_remove_by_cstr t k (Z.of_nat (length k)) = Ok t' ∧ repr t' (delete k m).
Proof.
  intros [Ht Hs] Hk. pose proof (ok_layout _ Ht) as Hl. destruct (l_chains _ _ _ Hl) as [ch Hch].
  destruct (slot_of _ _ _ (hash_of k) Hl) as (p & Hp & _ & Hlt).
  destruct (lookup_lt_is_Some_2 _ _ Hlt) as [e He].
  assert (Habsent : m !! k = None → ∃ t', Ok t = Ok t' ∧ repr t' (delete k m))
    by (intros; exists t; split; [done|]; rewrite delete_id; done).
  unfold hash_table_remove_by_cstr. cbv zeta.
  change (hash_table_calc_hash k (Z.of_nat (length k))) with (hash_of k).
  rewrite Hp, ent_at_nat, He. cbn [deref mbind outcome_bind].
  destruct (key e) as [ks|] eqn:Hke; [|apply Habsent; eapply chain_not_home; eauto].
  destruct (slot_of _ _ _ (hash e) Hl) as (q & Hq & Hqm & _). rewrite Hq.
  destruct (Z.eqb_spec (Z.of_nat q) (Z.of_nat p)) as [Hqp|Hqp]; simpl negb; cbv iota.
  2: { apply Habsent. eapply chain_not_home; [done..|]. right. unfold main. lia. }
  destruct (chain_of_live _ _ _ Hch p e He) as [l Hc]; [by exists ks|unfold main; lia|].
  destruct (ch_path _ _ _ Hch p) as [z Hz]. rewrite Hc in Hz. pose proof Hz as [-> _].
  pose proof (chain_length _ _ _ Hch p) as Hcl. rewrite Hc in Hcl.
  destruct (search_prev_spec (entries t) (p :: l) None (Z.of_nat p) (hash_of k) k (S (length (entries t))))
    as [(l1 & i & ei & l2 & Hsplit & Hi & Hof & ->)|(Hno & ->)];
    [by eapply layout_nowrap|by eapply stores_keyed| |done|done|done|lia|..]; cbn [mbind outcome_bind].
  - intros i Hi. rewrite <-Hc in Hi. apply (ch_member _ _ _ Hch) in Hi as (?&?&?&_). eauto.
  - destruct l1 as [|a l1 _] using rev_ind.
    + injection Hsplit as <- <-. assert (ei = e) as -> by congruence.
      simpl. rewrite ent_at_nat, He. cbn [deref mbind outcome_bind].
      destruct l as [|b l].
      * destruct Hz as (_ & e0 & He0 & Hn). assert (e0 = e) as -> by congruence.
        simpl in Hn. rewrite Hn, Z.eqb_refl.
        rewrite set_ent_nat. simpl. eexists. split; [done|].
        eapply remove_only; try done. unfold main. lia.
      * destruct Hz as (_ & e0 & He0 & Hn). assert (e0 = e) as -> by congruence.
        rewrite (proj2 (Z.eqb_neq _ _)) by (eapply (path_next _ (b :: l)); [by eapply layout_nowrap|done|exact Hn]).
        destruct Hn as (-> & eb & Hb & _). simpl negb. cbv iota.
        rewrite ent_at_nat, Hb. cbn [deref mbind outcome_bind]. rewrite !set_ent_nat.
        eexists. split; [done|]. by eapply remove_head.
    + rewrite last_snoc. rewrite <-app_assoc in Hsplit. rewrite <-Hc in Hsplit. simpl in Hsplit.
      destruct (chain_at _ _ _ p l1 a (i :: l2) Hch Hsplit)
        as (_ & ea & Ha & _ & _ & _ & [Hna _] & _).
      rewrite !ent_at_nat, Ha, Hi. cbn [deref mbind outcome_bind].
      rewrite !set_ent_nat, Hna. eexists. split; [done|]. by eapply remove_inner.
  - apply Habsent. eapply absent_in_chain; [done..|]. by rewrite Hp, Nat2Z.id, Hc.
Qed.

(** ** Histories of operations *)
Inductive op :=
  | OpSet (k : list Z) (v : V)
  | OpGet (k : list Z)
  | OpRemove (k : list Z).

(** What a caller sees: whether a set inserted, or the value found. *)
Inductive result :=
  | RInserted (b : bool)
  | RValue (v : option V)
  | RNone.

Definition run_op (o : op) t : outcome (result * HashTable K V) :=
  match o with
  | OpSet k v =>
      '(b, t) ← hash_table_set_by_cstr t k (Z.of_nat (length k)) v; Ok (RInserted b, t)
  | OpGet k => r ← hash_table_get_by_cstr t k (Z.of_nat (length k)); Ok (RValue r, t)
  | OpRemove k => t ← hash_table_remove_by_cstr t k (Z.of_nat (length k)); Ok (RNone, t)
  end.

Fixpoint run_ops (os : list op) t : outcome (list result * HashTable K V) :=
  match os with
  | [] => Ok ([], t)
  | o :: os => '(r, t) ← run_op o t; '(rs, t) ← run_ops os t; Ok (r :: rs, t)
  end.

(** The same history on a finite map; a key that is present keeps its value. *)
Definition spec_op (o : op) m : result * gmap (list Z) V :=
  match o with
  | OpSet k v => (RInserted (bool_decide (m !! k = None)), set_absent m k v)
  | OpGet k => (RValue (m !! k), m)
  | OpRemove k => (RNone, delete k m)
  end.

Fixpoint spec_ops (os : list op) m : list result * gmap (list Z) V :=
  match os with
  | [] => ([], m)
  | o :: os => let '(r, m) := spec_op o m in let '(rs, m) := spec_ops os m in (r :: rs, m)
  end.

Definition op_key (o : op) : list Z :=
  match o with OpSet k _ | OpGet k | OpRemove k => k end.

(** Every table on the way could still be doubled. *)
Fixpoint roomy (os : list op) t : Prop :=
  match os with
  | [] => True
  | o :: os => room t ∧ match run_op o t with Ok (_, t) => roomy os t | _ => True end
  end.

Lemma table_op_refines o t m : repr t m → valid_key (op_key o) → room t →
  ∃ t', run_op o t = Ok ((spec_op o m).1, t') ∧ repr t' (spec_op o m).2.
Proof.
  intros Hr Hk Hroom. destruct o as [k v|k|k]; simpl in *.
  - destruct (set_refines t m k v) as (t' & -> & ?); [done..|]. by exists t'.
  - rewrite (get_refines t m k) by done. by exists t.
  - destruct (remove_refines t m k) as (t' & -> & ?); [done..|]. by exists t'.
Qed.

Lemma table_ops_refine os t m : repr t m → Forall (valid_key ∘ op_key) os → roomy os t →
  ∃ t', run_ops os t = Ok ((spec_ops os m).1, t') ∧ repr t' (spec_ops os m).2.
Proof.
  revert t m. induction os as [|o os IH]; intros t m Hr Hks Hroom; [by exists t|].
  apply Forall_cons in Hks as [Hk Hks]. destruct Hroom as [Hroom Hrest].
  destruct (table_op_refines o t m) as (t1 & Hrun & Hr1); [done..|].
  rewrite Hrun in Hrest. destruct (IH t1 _ Hr1 Hks Hrest) as (t' & Hruns & Hr').
  exists t'. cbn [run_ops spec_ops]. rewrite Hrun. cbn [mbind outcome_bind]. rewrite Hruns.
  destruct (spec_op o m) as [r m1]. simpl in *. by destruct (spec_ops os m1).
Qed.
End map.

Arguments op V : clear implicits.
Arguments result V : clear implicits.

(** ** The table of EQP: keys are its own strings *)

(** C2: from hash_table_create on, every history of sets, gets and removals
    answers exactly as the same history on a finite map does, and never walks
    off a chain or the slot array, as long as the table has room to double. *)
Theorem hash_table_refines_map {V : Type} (elementSize : Z) (os : list (op V)) :
  0 ≤ elementSize →
  SIZEOF_TABLE + 2 * (elementSize + SIZEOF_ENTRY + 8) < 2 ^ 32 →
  Forall (valid_key ∘ op_key) os →
  (∀ t : HashTable EString V, hash_table_create elementSize = Ok t → roomy os t) →
  ∃ t t' : HashTable EString V, hash_table_create elementSize = Ok t ∧
    run_ops os t = Ok ((spec_ops os ∅).1, t') ∧ repr t' (spec_ops os ∅).2.
Proof.
  intros H1 H2 Hk Hroom. destruct (create_refines (K := EString) (V := V) elementSize H1 H2) as (t & Hc & Hr).
  destruct (table_ops_refine os t ∅ Hr Hk (Hroom t Hc)) as (t' & ? & ?). by exists t, t'.
Qed.

Lemma hash_table_refines_map_witness :
  ∃ t' : HashTable EString Z,
    (t ← hash_table_create 4; run_ops
       [OpSet [97] 1; OpSet [98] 2; OpSet [99; 100] 3; OpSet [97] 9; OpRemove [98];
        OpGet [97]; OpGet [98]] t) =
    Ok ([RInserted true; RInserted true; RInserted true; RInserted false; RNone;
         RValue (Some 1); RValue None], t').
Proof.
  destruct (hash_table_refines_map (V := Z) 4
    [OpSet [97] 1; OpSet [98] 2; OpSet [99; 100] 3; OpSet [97] 9; OpRemove [98];
     OpGet [97]; OpGet [98]]) as (t & t' & Hc & Hrun & _).
  - lia.
  - by vm_compute.
  - repeat constructor; simpl; lia.
  - intros t [= <-]. repeat split; by vm_compute.
  - exists t'. rewrite Hc. exact Hrun.
Defined.

(** hash_table_for_each applies the callback to every stored value once. *)
Theorem hash_table_for_each_visits {V : Type} (t : HashTable EString V) (m : gmap (list Z) V) :
  repr t m → hash_table_for_each t ≡ₚ Some <$> (map_to_list m).*2.
Proof.
  intros [_ Hs]. unfold hash_table_for_each. rewrite omap_filter_values. by apply stores_values.
Qed.

Lemma hash_table_for_each_visits_witness :
  ∃ t : HashTable EString Z, repr t ∅ ∧ hash_table_for_each t = [].
Proof.
  destruct (create_refines (K := EString) (V := Z) 4) as (t & Hc & Hr); [lia|by vm_compute|].
  exists t. split; [done|]. pose proof (hash_table_for_each_visits t ∅ Hr) as Hp.
  rewrite map_to_list_empty in Hp. by apply Permutation_nil_r in Hp.
Defined.
