(* ===== verification/ZoneId.v ===== *)
(** Zone ids and names: common/zone_id.c.

    The short names are put into the program's own hash table, one [add] after
    the other; the two switches are lists of cases searched in order. *)

From stdpp Require Import strings.
From Stdlib Require Import Ascii.
From S2P Require Import Prelude Bit EqpString HashTable HashChains HashTableSpec HashTableMap.
Open Scope string_scope.
Open Scope list_scope.
Open Scope Z_scope.

(** The bytes of a string literal, without the terminator. *)
Fixpoint cstr (s : string) : list Z :=
  match s with
  | EmptyString => []
  | String c s => Z.of_nat (nat_of_ascii c) :: cstr s
  end.

(** The calls [add(id, name)] of zone_short_name_map_create, lines 11-131. *)
Definition adds_1 : list (Z * string) := [
  (1, "qeynos");
  (2, "qeynos2");
  (3, "qrg");
  (4, "qeytoqrg");
  (5, "highpass");
  (6, "highkeep");
  (8, "freportn");
  (9, "freportw");
  (10, "freporte");
  (11, "runnyeye");
  (12, "qey2hh1");
  (13, "northkarana");
  (14, "southkarana");
  (15, "eastkarana");
  (16, "beholder");
  (17, "blackburrow");
  (18, "paw");
  (19, "rivervale");
  (20, "kithicor");
  (21, "commons");
  (22, "ecommons");
  (23, "erudnint");
  (24, "erudnext");
  (25, "nektulos");
  (25, "nektulos");
  (26, "cshome");
  (27, "lavastorm");
  (28, "nektropos");
  (29, "halas");
  (30, "everfrost");
  (31, "soldunga");
  (32, "soldungb");
  (33, "misty");
  (34, "nro");
  (35, "sro");
  (36, "befallen");
  (37, "oasis");
  (38, "tox");
  (39, "hole");
  (40, "neriaka");
  (41, "neriakb");
  (42, "neriakc");
  (43, "neriakd");
  (44, "najena");
  (45, "qcat");
  (46, "innothule");
  (47, "feerrott");
  (48, "cazicthule");
  (49, "oggok");
  (50, "rathemtn");
  (51, "lakerathe");
  (52, "grobb");
  (53, "aviak");
  (54, "gfaydark");
  (55, "akanon");
  (56, "steamfont");
  (57, "lfaydark");
  (58, "crushbone");
  (59, "mistmoore");
  (60, "kaladima");
  (61, "felwithea");
  (62, "felwitheb");
  (63, "unrest");
  (64, "kedge");
  (65, "guktop");
  (66, "gukbottom");
  (67, "kaladimb");
  (68, "butcher");
  (69, "oot");
  (70, "cauldron");
  (71, "airplane");
  (72, "fearplane");
  (73, "permafrost");
  (74, "kerraridge");
  (75, "paineel");
  (76, "hateplane");
  (77, "arena");
  (78, "fieldofbone");
  (79, "warslikswood");
  (80, "soltemple");
  (81, "droga");
  (82, "cabwest");
  (83, "swampofnohope");
  (84, "firiona");
  (85, "lakeofillomen");
  (86, "dreadlands");
  (87, "burningwood");
  (88, "kaesora");
  (89, "sebilis");
  (90, "citymist");
  (91, "skyfire");
  (92, "frontiermtns");
  (93, "overthere");
  (94, "emeraldjungle");
  (95, "trakanon");
  (96, "timorous");
  (97, "kurn");
  (98, "erudsxing");
  (100, "stonebrunt");
  (101, "warrens");
  (102, "karnor");
  (103, "chardok");
  (104, "dalnir");
  (105, "charasis");
  (106, "cabeast");
  (107, "nurga");
  (108, "veeshan");
  (109, "veksar");
  (110, "iceclad");
  (111, "frozenshadow");
  (112, "velketor");
  (113, "kael");
  (114, "skyshrine");
  (115, "thurgadina");
  (116, "eastwastes");
  (117, "cobaltscar");
  (118, "greatdivide");
  (119, "wakening");
  (120, "westwastes");
  (121, "crystal");
  (123, "necropolis")].

(** The calls [add(id, name)] of zone_short_name_map_create, lines 132-252. *)
Definition adds_2 : list (Z * string) := [
  (124, "templeveeshan");
  (125, "sirens");
  (126, "mischiefplane");
  (127, "growthplane");
  (128, "sleeper");
  (129, "thurgadinb");
  (130, "erudsxing2");
  (150, "shadowhaven");
  (151, "bazaar");
  (151, "bazaar");
  (152, "nexus");
  (153, "echo");
  (154, "acrylia");
  (155, "sharvahl");
  (156, "paludal");
  (157, "fungusgrove");
  (158, "vexthal");
  (159, "sseru");
  (160, "katta");
  (161, "netherbian");
  (162, "ssratemple");
  (163, "griegsend");
  (164, "thedeep");
  (165, "shadeweaver");
  (166, "hollowshade");
  (167, "grimling");
  (168, "mseru");
  (169, "letalis");
  (170, "twilight");
  (171, "thegrey");
  (172, "tenebrous");
  (173, "maiden");
  (174, "dawnshroud");
  (175, "scarlet");
  (176, "umbral");
  (179, "akheva");
  (180, "arena2");
  (181, "jaggedpine");
  (182, "nedaria");
  (183, "tutorial");
  (184, "load");
  (185, "load2");
  (186, "hateplaneb");
  (187, "shadowrest");
  (188, "tutoriala");
  (189, "tutorialb");
  (190, "clz");
  (200, "codecay");
  (201, "pojustice");
  (202, "poknowledge");
  (203, "potranquility");
  (204, "ponightmare");
  (205, "podisease");
  (206, "poinnovation");
  (207, "potorment");
  (208, "povalor");
  (209, "bothunder");
  (210, "postorms");
  (211, "hohonora");
  (212, "solrotower");
  (213, "powar");
  (214, "potactics");
  (215, "poair");
  (216, "powater");
  (217, "pofire");
  (218, "poeartha");
  (219, "potimea");
  (220, "hohonorb");
  (221, "nightmareb");
  (222, "poearthb");
  (223, "potimeb");
  (224, "gunthak");
  (225, "dulak");
  (226, "torgiran");
  (227, "nadox");
  (228, "hatesfury");
  (229, "guka");
  (230, "ruja");
  (231, "taka");
  (232, "mira");
  (233, "mmca");
  (234, "gukb");
  (235, "rujb");
  (236, "takb");
  (237, "mirb");
  (238, "mmcb");
  (239, "gukc");
  (240, "rujc");
  (241, "takc");
  (242, "mirc");
  (243, "mmcc");
  (244, "gukd");
  (245, "rujd");
  (246, "takd");
  (247, "mird");
  (248, "mmcd");
  (249, "guke");
  (250, "ruje");
  (251, "take");
  (252, "mire");
  (253, "mmce");
  (254, "gukf");
  (255, "rujf");
  (256, "takf");
  (257, "mirf");
  (258, "mmcf");
  (259, "gukg");
  (260, "rujg");
  (261, "takg");
  (262, "mirg");
  (263, "mmcg");
  (264, "gukh");
  (265, "rujh");
  (266, "takh");
  (267, "mirh");
  (268, "mmch");
  (269, "ruji");
  (270, "taki");
  (271, "miri");
  (272, "mmci");
  (273, "rujj")].

(** The calls [add(id, name)] of zone_short_name_map_create, lines 253-373. *)
Definition adds_3 : list (Z * string) := [
  (274, "takj");
  (275, "mirj");
  (276, "mmcj");
  (277, "chardokb");
  (278, "soldungc");
  (279, "abysmal");
  (280, "natimbi");
  (281, "qinimi");
  (282, "riwwi");
  (283, "barindu");
  (284, "ferubi");
  (285, "snpool");
  (286, "snlair");
  (287, "snplant");
  (288, "sncrematory");
  (289, "tipt");
  (290, "vxed");
  (291, "yxtta");
  (292, "uqua");
  (293, "kodtaz");
  (294, "ikkinz");
  (295, "qvic");
  (296, "inktuta");
  (297, "txevu");
  (298, "tacvi");
  (299, "qvicb");
  (300, "wallofslaughter");
  (301, "bloodfields");
  (302, "draniksscar");
  (303, "causeway");
  (304, "chambersa");
  (305, "chambersb");
  (306, "chambersc");
  (307, "chambersd");
  (308, "chamberse");
  (309, "chambersf");
  (316, "provinggrounds");
  (317, "anguish");
  (318, "dranikhollowsa");
  (319, "dranikhollowsb");
  (320, "dranikhollowsc");
  (328, "dranikcatacombsa");
  (329, "dranikcatacombsb");
  (330, "dranikcatacombsc");
  (331, "draniksewersa");
  (332, "draniksewersb");
  (333, "draniksewersc");
  (334, "riftseekers");
  (335, "harbingers");
  (336, "dranik");
  (337, "broodlands");
  (338, "stillmoona");
  (339, "stillmoonb");
  (340, "thundercrest");
  (341, "delvea");
  (342, "delveb");
  (343, "thenest");
  (344, "guildlobby");
  (345, "guildhall");
  (346, "barter");
  (347, "illsalin");
  (348, "illsalina");
  (349, "illsalinb");
  (350, "illsalinc");
  (351, "dreadspire");
  (354, "drachnidhive");
  (355, "drachnidhivea");
  (356, "drachnidhiveb");
  (357, "drachnidhivec");
  (358, "westkorlach");
  (359, "westkorlacha");
  (360, "westkorlachb");
  (361, "westkorlachc");
  (362, "eastkorlach");
  (363, "eastkorlacha");
  (364, "shadowspine");
  (365, "corathus");
  (366, "corathusa");
  (367, "corathusb");
  (368, "nektulosa");
  (369, "arcstone");
  (370, "relic");
  (371, "skylance");
  (372, "devastation");
  (373, "devastationa");
  (374, "rage");
  (375, "ragea");
  (376, "takishruins");
  (377, "takishruinsa");
  (378, "elddar");
  (379, "elddara");
  (380, "theater");
  (381, "theatera");
  (382, "freeporteast");
  (383, "freeportwest");
  (384, "freeportsewers");
  (385, "freeportacademy");
  (386, "freeporttemple");
  (387, "freeportmilitia");
  (388, "freeportarena");
  (389, "freeportcityhall");
  (390, "freeporttheater");
  (391, "freeporthall");
  (392, "northro");
  (393, "southro");
  (394, "crescent");
  (395, "moors");
  (396, "stonehive");
  (397, "mesa");
  (398, "roost");
  (399, "steppes");
  (400, "icefall");
  (401, "valdeholm");
  (402, "frostcrypt");
  (403, "sunderock");
  (404, "vergalid");
  (405, "direwind");
  (406, "ashengate");
  (407, "highpasshold");
  (408, "commonlands");
  (409, "oceanoftears")].

(** The calls [add(id, name)] of zone_short_name_map_create, lines 374-493. *)
Definition adds_4 : list (Z * string) := [
  (410, "kithforest");
  (411, "befallenb");
  (412, "highpasskeep");
  (413, "innothuleb");
  (414, "toxxulia");
  (415, "mistythicket");
  (416, "kattacastrum");
  (417, "thalassius");
  (418, "atiiki");
  (419, "zhisza");
  (420, "silyssar");
  (421, "solteris");
  (422, "barren");
  (423, "buriedsea");
  (424, "jardelshook");
  (425, "monkeyrock");
  (426, "suncrest");
  (427, "deadbone");
  (428, "blacksail");
  (429, "maidensgrave");
  (430, "redfeather");
  (431, "shipmvp");
  (432, "shipmvu");
  (433, "shippvu");
  (434, "shipuvu");
  (435, "shipmvm");
  (436, "mechanotus");
  (437, "mansion");
  (438, "steamfactory");
  (439, "shipworkshop");
  (440, "gyrospireb");
  (441, "gyrospirez");
  (442, "dragonscale");
  (443, "lopingplains");
  (444, "hillsofshade");
  (445, "bloodmoon");
  (446, "crystallos");
  (447, "guardian");
  (448, "steamfontmts");
  (449, "cryptofshade");
  (451, "dragonscaleb");
  (452, "oldfieldofbone");
  (453, "oldkaesoraa");
  (454, "oldkaesorab");
  (455, "oldkurn");
  (456, "oldkithicor");
  (457, "oldcommons");
  (458, "oldhighpass");
  (459, "thevoida");
  (460, "thevoidb");
  (461, "thevoidc");
  (462, "thevoidd");
  (463, "thevoide");
  (464, "thevoidf");
  (465, "thevoidg");
  (466, "oceangreenhills");
  (467, "oceangreenvillage");
  (468, "oldblackburrow");
  (469, "bertoxtemple");
  (470, "discord");
  (471, "discordtower");
  (472, "oldbloodfield");
  (473, "precipiceofwar");
  (474, "olddranik");
  (475, "toskirakk");
  (476, "korascian");
  (477, "rathechamber");
  (480, "brellsrest");
  (481, "fungalforest");
  (482, "underquarry");
  (483, "coolingchamber");
  (484, "shiningcity");
  (485, "arthicrex");
  (486, "foundation");
  (487, "lichencreep");
  (488, "pellucid");
  (489, "stonesnake");
  (490, "brellstemple");
  (491, "convorteum");
  (492, "brellsarena");
  (493, "weddingchapel");
  (494, "weddingchapeldark");
  (495, "dragoncrypt");
  (700, "feerrott2");
  (701, "thulehouse1");
  (702, "thulehouse2");
  (703, "housegarden");
  (704, "thulelibrary");
  (705, "well");
  (706, "fallen");
  (707, "morellcastle");
  (708, "somnium");
  (709, "alkabormare");
  (710, "miragulmare");
  (711, "thuledream");
  (712, "neighborhood");
  (724, "argath");
  (725, "arelis");
  (726, "sarithcity");
  (727, "rubak");
  (728, "beastdomain");
  (729, "resplendent");
  (730, "pillarsalra");
  (731, "windsong");
  (732, "cityofbronze");
  (733, "sepulcher");
  (734, "eastsepulcher");
  (735, "westsepulcher");
  (752, "shardslanding");
  (753, "xorbb");
  (754, "kaelshard");
  (755, "eastwastesshard");
  (756, "crystalshard");
  (757, "breedinggrounds");
  (758, "eviltree");
  (759, "grelleth");
  (760, "chapterhouse");
  (996, "arttest");
  (998, "fhalls");
  (999, "apprentice")].

(** The cases of zone_short_name_by_id, lines 513-633. *)
Definition short_cases_1 : list (Z * string) := [
  (1, "qeynos");
  (2, "qeynos2");
  (3, "qrg");
  (4, "qeytoqrg");
  (5, "highpass");
  (6, "highkeep");
  (8, "freportn");
  (9, "freportw");
  (10, "freporte");
  (11, "runnyeye");
  (12, "qey2hh1");
  (13, "northkarana");
  (14, "southkarana");
  (15, "eastkarana");
  (16, "beholder");
  (17, "blackburrow");
  (18, "paw");
  (19, "rivervale");
  (20, "kithicor");
  (21, "commons");
  (22, "ecommons");
  (23, "erudnint");
  (24, "erudnext");
  (25, "nektulos");
  (26, "cshome");
  (27, "lavastorm");
  (28, "nektropos");
  (29, "halas");
  (30, "everfrost");
  (31, "soldunga");
  (32, "soldungb");
  (33, "misty");
  (34, "nro");
  (35, "sro");
  (36, "befallen");
  (37, "oasis");
  (38, "tox");
  (39, "hole");
  (40, "neriaka");
  (41, "neriakb");
  (42, "neriakc");
  (43, "neriakd");
  (44, "najena");
  (45, "qcat");
  (46, "innothule");
  (47, "feerrott");
  (48, "cazicthule");
  (49, "oggok");
  (50, "rathemtn");
  (51, "lakerathe");
  (52, "grobb");
  (53, "aviak");
  (54, "gfaydark");
  (55, "akanon");
  (56, "steamfont");
  (57, "lfaydark");
  (58, "crushbone");
  (59, "mistmoore");
  (60, "kaladima");
  (61, "felwithea");
  (62, "felwitheb");
  (63, "unrest");
  (64, "kedge");
  (65, "guktop");
  (66, "gukbottom");
  (67, "kaladimb");
  (68, "butcher");
  (69, "oot");
  (70, "cauldron");
  (71, "airplane");
  (72, "fearplane");
  (73, "permafrost");
  (74, "kerraridge");
  (75, "paineel");
  (76, "hateplane");
  (77, "arena");
  (78, "fieldofbone");
  (79, "warslikswood");
  (80, "soltemple");
  (81, "droga");
  (82, "cabwest");
  (83, "swampofnohope");
  (84, "firiona");
  (85, "lakeofillomen");
  (86, "dreadlands");
  (87, "burningwood");
  (88, "kaesora");
  (89, "sebilis");
  (90, "citymist");
  (91, "skyfire");
  (92, "frontiermtns");
  (93, "overthere");
  (94, "emeraldjungle");
  (95, "trakanon");
  (96, "timorous");
  (97, "kurn");
  (98, "erudsxing");
  (100, "stonebrunt");
  (101, "warrens");
  (102, "karnor");
  (103, "chardok");
  (104, "dalnir");
  (105, "charasis");
  (106, "cabeast");
  (107, "nurga");
  (108, "veeshan");
  (109, "veksar");
  (110, "iceclad");
  (111, "frozenshadow");
  (112, "velketor");
  (113, "kael");
  (114, "skyshrine");
  (115, "thurgadina");
  (116, "eastwastes");
  (117, "cobaltscar");
  (118, "greatdivide");
  (119, "wakening");
  (120, "westwastes");
  (121, "crystal");
  (123, "necropolis");
  (124, "templeveeshan")].

(** The cases of zone_short_name_by_id, lines 634-754. *)
Definition short_cases_2 : list (Z * string) := [
  (125, "sirens");
  (126, "mischiefplane");
  (127, "growthplane");
  (128, "sleeper");
  (129, "thurgadinb");
  (130, "erudsxing2");
  (150, "shadowhaven");
  (151, "bazaar");
  (152, "nexus");
  (153, "echo");
  (154, "acrylia");
  (155, "sharvahl");
  (156, "paludal");
  (157, "fungusgrove");
  (158, "vexthal");
  (159, "sseru");
  (160, "katta");
  (161, "netherbian");
  (162, "ssratemple");
  (163, "griegsend");
  (164, "thedeep");
  (165, "shadeweaver");
  (166, "hollowshade");
  (167, "grimling");
  (168, "mseru");
  (169, "letalis");
  (170, "twilight");
  (171, "thegrey");
  (172, "tenebrous");
  (173, "maiden");
  (174, "dawnshroud");
  (175, "scarlet");
  (176, "umbral");
  (179, "akheva");
  (180, "arena2");
  (181, "jaggedpine");
  (182, "nedaria");
  (183, "tutorial");
  (184, "load");
  (185, "load2");
  (186, "hateplaneb");
  (187, "shadowrest");
  (188, "tutoriala");
  (189, "tutorialb");
  (190, "clz");
  (200, "codecay");
  (201, "pojustice");
  (202, "poknowledge");
  (203, "potranquility");
  (204, "ponightmare");
  (205, "podisease");
  (206, "poinnovation");
  (207, "potorment");
  (208, "povalor");
  (209, "bothunder");
  (210, "postorms");
  (211, "hohonora");
  (212, "solrotower");
  (213, "powar");
  (214, "potactics");
  (215, "poair");
  (216, "powater");
  (217, "pofire");
  (218, "poeartha");
  (219, "potimea");
  (220, "hohonorb");
  (221, "nightmareb");
  (222, "poearthb");
  (223, "potimeb");
  (224, "gunthak");
  (225, "dulak");
  (226, "torgiran");
  (227, "nadox");
  (228, "hatesfury");
  (229, "guka");
  (230, "ruja");
  (231, "taka");
  (232, "mira");
  (233, "mmca");
  (234, "gukb");
  (235, "rujb");
  (236, "takb");
  (237, "mirb");
  (238, "mmcb");
  (239, "gukc");
  (240, "rujc");
  (241, "takc");
  (242, "mirc");
  (243, "mmcc");
  (244, "gukd");
  (245, "rujd");
  (246, "takd");
  (247, "mird");
  (248, "mmcd");
  (249, "guke");
  (250, "ruje");
  (251, "take");
  (252, "mire");
  (253, "mmce");
  (254, "gukf");
  (255, "rujf");
  (256, "takf");
  (257, "mirf");
  (258, "mmcf");
  (259, "gukg");
  (260, "rujg");
  (261, "takg");
  (262, "mirg");
  (263, "mmcg");
  (264, "gukh");
  (265, "rujh");
  (266, "takh");
  (267, "mirh");
  (268, "mmch");
  (269, "ruji");
  (270, "taki");
  (271, "miri");
  (272, "mmci");
  (273, "rujj");
  (274, "takj");
  (275, "mirj")].

(** The cases of zone_short_name_by_id, lines 755-875. *)
Definition short_cases_3 : list (Z * string) := [
  (276, "mmcj");
  (277, "chardokb");
  (278, "soldungc");
  (279, "abysmal");
  (280, "natimbi");
  (281, "qinimi");
  (282, "riwwi");
  (283, "barindu");
  (284, "ferubi");
  (285, "snpool");
  (286, "snlair");
  (287, "snplant");
  (288, "sncrematory");
  (289, "tipt");
  (290, "vxed");
  (291, "yxtta");
  (292, "uqua");
  (293, "kodtaz");
  (294, "ikkinz");
  (295, "qvic");
  (296, "inktuta");
  (297, "txevu");
  (298, "tacvi");
  (299, "qvicb");
  (300, "wallofslaughter");
  (301, "bloodfields");
  (302, "draniksscar");
  (303, "causeway");
  (304, "chambersa");
  (305, "chambersb");
  (306, "chambersc");
  (307, "chambersd");
  (308, "chamberse");
  (309, "chambersf");
  (316, "provinggrounds");
  (317, "anguish");
  (318, "dranikhollowsa");
  (319, "dranikhollowsb");
  (320, "dranikhollowsc");
  (328, "dranikcatacombsa");
  (329, "dranikcatacombsb");
  (330, "dranikcatacombsc");
  (331, "draniksewersa");
  (332, "draniksewersb");
  (333, "draniksewersc");
  (334, "riftseekers");
  (335, "harbingers");
  (336, "dranik");
  (337, "broodlands");
  (338, "stillmoona");
  (339, "stillmoonb");
  (340, "thundercrest");
  (341, "delvea");
  (342, "delveb");
  (343, "thenest");
  (344, "guildlobby");
  (345, "guildhall");
  (346, "barter");
  (347, "illsalin");
  (348, "illsalina");
  (349, "illsalinb");
  (350, "illsalinc");
  (351, "dreadspire");
  (354, "drachnidhive");
  (355, "drachnidhivea");
  (356, "drachnidhiveb");
  (357, "drachnidhivec");
  (358, "westkorlach");
  (359, "westkorlacha");
  (360, "westkorlachb");
  (361, "westkorlachc");
  (362, "eastkorlach");
  (363, "eastkorlacha");
  (364, "shadowspine");
  (365, "corathus");
  (366, "corathusa");
  (367, "corathusb");
  (368, "nektulosa");
  (369, "arcstone");
  (370, "relic");
  (371, "skylance");
  (372, "devastation");
  (373, "devastationa");
  (374, "rage");
  (375, "ragea");
  (376, "takishruins");
  (377, "takishruinsa");
  (378, "elddar");
  (379, "elddara");
  (380, "theater");
  (381, "theatera");
  (382, "freeporteast");
  (383, "freeportwest");
  (384, "freeportsewers");
  (385, "freeportacademy");
  (386, "freeporttemple");
  (387, "freeportmilitia");
  (388, "freeportarena");
  (389, "freeportcityhall");
  (390, "freeporttheater");
  (391, "freeporthall");
  (392, "northro");
  (393, "southro");
  (394, "crescent");
  (395, "moors");
  (396, "stonehive");
  (397, "mesa");
  (398, "roost");
  (399, "steppes");
  (400, "icefall");
  (401, "valdeholm");
  (402, "frostcrypt");
  (403, "sunderock");
  (404, "vergalid");
  (405, "direwind");
  (406, "ashengate");
  (407, "highpasshold");
  (408, "commonlands");
  (409, "oceanoftears");
  (410, "kithforest");
  (411, "befallenb")].

(** The cases of zone_short_name_by_id, lines 876-993. *)
Definition short_cases_4 : list (Z * string) := [
  (412, "highpasskeep");
  (413, "innothuleb");
  (414, "toxxulia");
  (415, "mistythicket");
  (416, "kattacastrum");
  (417, "thalassius");
  (418, "atiiki");
  (419, "zhisza");
  (420, "silyssar");
  (421, "solteris");
  (422, "barren");
  (423, "buriedsea");
  (424, "jardelshook");
  (425, "monkeyrock");
  (426, "suncrest");
  (427, "deadbone");
  (428, "blacksail");
  (429, "maidensgrave");
  (430, "redfeather");
  (431, "shipmvp");
  (432, "shipmvu");
  (433, "shippvu");
  (434, "shipuvu");
  (435, "shipmvm");
  (436, "mechanotus");
  (437, "mansion");
  (438, "steamfactory");
  (439, "shipworkshop");
  (440, "gyrospireb");
  (441, "gyrospirez");
  (442, "dragonscale");
  (443, "lopingplains");
  (444, "hillsofshade");
  (445, "bloodmoon");
  (446, "crystallos");
  (447, "guardian");
  (448, "steamfontmts");
  (449, "cryptofshade");
  (451, "dragonscaleb");
  (452, "oldfieldofbone");
  (453, "oldkaesoraa");
  (454, "oldkaesorab");
  (455, "oldkurn");
  (456, "oldkithicor");
  (457, "oldcommons");
  (458, "oldhighpass");
  (459, "thevoida");
  (460, "thevoidb");
  (461, "thevoidc");
  (462, "thevoidd");
  (463, "thevoide");
  (464, "thevoidf");
  (465, "thevoidg");
  (466, "oceangreenhills");
  (467, "oceangreenvillage");
  (468, "oldblackburrow");
  (469, "bertoxtemple");
  (470, "discord");
  (471, "discordtower");
  (472, "oldbloodfield");
  (473, "precipiceofwar");
  (474, "olddranik");
  (475, "toskirakk");
  (476, "korascian");
  (477, "rathechamber");
  (480, "brellsrest");
  (481, "fungalforest");
  (482, "underquarry");
  (483, "coolingchamber");
  (484, "shiningcity");
  (485, "arthicrex");
  (486, "foundation");
  (487, "lichencreep");
  (488, "pellucid");
  (489, "stonesnake");
  (490, "brellstemple");
  (491, "convorteum");
  (492, "brellsarena");
  (493, "weddingchapel");
  (494, "weddingchapeldark");
  (495, "dragoncrypt");
  (700, "feerrott2");
  (701, "thulehouse1");
  (702, "thulehouse2");
  (703, "housegarden");
  (704, "thulelibrary");
  (705, "well");
  (706, "fallen");
  (707, "morellcastle");
  (708, "somnium");
  (709, "alkabormare");
  (710, "miragulmare");
  (711, "thuledream");
  (712, "neighborhood");
  (724, "argath");
  (725, "arelis");
  (726, "sarithcity");
  (727, "rubak");
  (728, "beastdomain");
  (729, "resplendent");
  (730, "pillarsalra");
  (731, "windsong");
  (732, "cityofbronze");
  (733, "sepulcher");
  (734, "eastsepulcher");
  (735, "westsepulcher");
  (752, "shardslanding");
  (753, "xorbb");
  (754, "kaelshard");
  (755, "eastwastesshard");
  (756, "crystalshard");
  (757, "breedinggrounds");
  (758, "eviltree");
  (759, "grelleth");
  (760, "chapterhouse");
  (996, "arttest");
  (998, "fhalls");
  (999, "apprentice")].

(** The cases of zone_long_name_by_id, lines 1006-1126. *)
Definition long_cases_1 : list (Z * string) := [
  (1, "South Qeynos");
  (2, "North Qeynos");
  (3, "The Surefall Glade");
  (4, "The Qeynos Hills");
  (5, "Highpass Hold");
  (6, "High Keep");
  (8, "North Freeport");
  (9, "West Freeport");
  (10, "East Freeport");
  (11, "The Liberated Citadel of Runnyeye");
  (12, "The Western Plains of Karana");
  (13, "The Northern Plains of Karana");
  (14, "The Southern Plains of Karana");
  (15, "Eastern Plains of Karana");
  (16, "Gorge of King Xorbb");
  (17, "Blackburrow");
  (18, "The Lair of the Splitpaw");
  (19, "Rivervale");
  (20, "Kithicor Forest");
  (21, "West Commonlands");
  (22, "East Commonlands");
  (23, "The Erudin Palace");
  (24, "Erudin");
  (25, "The Nektulos Forest");
  (26, "Sunset Home");
  (27, "The Lavastorm Mountains");
  (28, "Nektropos");
  (29, "Halas");
  (30, "Everfrost Peaks");
  (31, "Solusek's Eye");
  (32, "Nagafen's Lair");
  (33, "Misty Thicket");
  (34, "Northern Desert of Ro");
  (35, "Southern Desert of Ro");
  (36, "Befallen");
  (37, "Oasis of Marr");
  (38, "Toxxulia Forest");
  (39, "The Hole");
  (40, "Neriak - Foreign Quarter");
  (41, "Neriak - Commons");
  (42, "Neriak - 3rd Gate");
  (43, "Neriak Palace");
  (44, "Najena");
  (45, "The Qeynos Aqueduct System");
  (46, "Innothule Swamp");
  (47, "The Feerrott");
  (48, "Accursed Temple of CazicThule");
  (49, "Oggok");
  (50, "The Rathe Mountains");
  (51, "Lake Rathetear");
  (52, "Grobb");
  (53, "Aviak Village");
  (54, "The Greater Faydark");
  (55, "Ak'Anon");
  (56, "Steamfont Mountains");
  (57, "The Lesser Faydark");
  (58, "Crushbone");
  (59, "The Castle of Mistmoore");
  (60, "South Kaladim");
  (61, "Northern Felwithe");
  (62, "Southern Felwithe");
  (63, "The Estate of Unrest");
  (64, "Kedge Keep");
  (65, "The City of Guk");
  (66, "The Ruins of Old Guk");
  (67, "North Kaladim");
  (68, "Butcherblock Mountains");
  (69, "Ocean of Tears");
  (70, "Dagnor's Cauldron");
  (71, "The Plane of Sky");
  (72, "The Plane of Fear");
  (73, "The Permafrost Caverns");
  (74, "Kerra Isle");
  (75, "Paineel");
  (76, "Plane of Hate");
  (77, "The Arena");
  (78, "The Field of Bone");
  (79, "The Warsliks Woods");
  (80, "The Temple of Solusek Ro");
  (81, "The Temple of Droga");
  (82, "Cabilis West");
  (83, "The Swamp of No Hope");
  (84, "Firiona Vie");
  (85, "Lake of Ill Omen");
  (86, "The Dreadlands");
  (87, "The Burning Wood");
  (88, "Kaesora");
  (89, "The Ruins of Sebilis");
  (90, "The City of Mist");
  (91, "The Skyfire Mountains");
  (92, "Frontier Mountains");
  (93, "The Overthere");
  (94, "The Emerald Jungle");
  (95, "Trakanon's Teeth");
  (96, "Timorous Deep");
  (97, "Kurn's Tower");
  (98, "Erud's Crossing");
  (100, "The Stonebrunt Mountains");
  (101, "The Warrens");
  (102, "Karnor's Castle");
  (103, "Chardok");
  (104, "The Crypt of Dalnir");
  (105, "The Howling Stones");
  (106, "Cabilis East");
  (107, "The Mines of Nurga");
  (108, "Veeshan's Peak");
  (109, "Veksar");
  (110, "The Iceclad Ocean");
  (111, "The Tower of Frozen Shadow");
  (112, "Velketor's Labyrinth");
  (113, "Kael Drakkel");
  (114, "Skyshrine");
  (115, "The City of Thurgadin");
  (116, "Eastern Wastes");
  (117, "Cobaltscar");
  (118, "The Great Divide");
  (119, "The Wakening Land");
  (120, "The Western Wastes");
  (121, "The Crystal Caverns");
  (123, "Dragon Necropolis");
  (124, "The Temple of Veeshan")].

(** The cases of zone_long_name_by_id, lines 1127-1247. *)
Definition long_cases_2 : list (Z * string) := [
  (125, "Siren's Grotto");
  (126, "The Plane of Mischief");
  (127, "The Plane of Growth");
  (128, "The Sleeper's Tomb");
  (129, "Icewell Keep");
  (130, "Marauders Mire");
  (150, "Shadow Haven");
  (151, "The Bazaar");
  (152, "Nexus");
  (153, "The Echo Caverns");
  (154, "The Acrylia Caverns");
  (155, "The City of Shar Vahl");
  (156, "The Paludal Caverns");
  (157, "The Fungus Grove");
  (158, "Vex Thal");
  (159, "Sanctus Seru");
  (160, "Katta Castellum");
  (161, "Netherbian Lair");
  (162, "Ssraeshza Temple");
  (163, "Grieg's End");
  (164, "The Deep");
  (165, "Shadeweaver's Thicket");
  (166, "Hollowshade Moor");
  (167, "Grimling Forest");
  (168, "Marus Seru");
  (169, "Mons Letalis");
  (170, "The Twilight Sea");
  (171, "The Grey");
  (172, "The Tenebrous Mountains");
  (173, "The Maiden's Eye");
  (174, "The Dawnshroud Peaks");
  (175, "The Scarlet Desert");
  (176, "The Umbral Plains");
  (179, "The Akheva Ruins");
  (180, "The Arena Two");
  (181, "The Jaggedpine Forest");
  (182, "Nedaria's Landing");
  (183, "EverQuest Tutorial");
  (184, "Loading Zone");
  (185, "New Loading Zone");
  (186, "The Plane of Hate");
  (187, "Shadowrest");
  (188, "The Mines of Gloomingdeep");
  (189, "The Mines of Gloomingdeep");
  (190, "Loading");
  (200, "The Crypt of Decay");
  (201, "The Plane of Justice");
  (202, "The Plane of Knowledge");
  (203, "The Plane of Tranquility");
  (204, "The Plane of Nightmares");
  (205, "The Plane of Disease");
  (206, "The Plane of Innovation");
  (207, "Torment, the Plane of Pain");
  (208, "The Plane of Valor");
  (209, "Bastion of Thunder");
  (210, "The Plane of Storms");
  (211, "The Halls of Honor");
  (212, "The Tower of Solusek Ro");
  (213, "Plane of War");
  (214, "Drunder, the Fortress of Zek");
  (215, "The Plane of Air");
  (216, "The Plane of Water");
  (217, "The Plane of Fire");
  (218, "The Plane of Earth");
  (219, "The Plane of Time A");
  (220, "The Temple of Marr");
  (221, "The Lair of Terris Thule");
  (222, "The Plane of Earth");
  (223, "The Plane of Time B");
  (224, "The Gulf of Gunthak");
  (225, "Dulak's Harbor");
  (226, "The Torgiran Mines");
  (227, "The Crypt of Nadox");
  (228, "Hate's Fury");
  (229, "Deepest Guk: Cauldron of Lost Souls");
  (230, "The Rujarkian Hills: Bloodied Quarries");
  (231, "Takish-Hiz: Sunken Library");
  (232, "Miragul's Menagerie: Silent Gallery");
  (233, "Mistmoore's Catacombs: Forlorn Caverns");
  (234, "The Drowning Crypt");
  (235, "The Rujarkian Hills: Halls of War");
  (236, "Takish-Hiz: Shifting Tower");
  (237, "Miragul's Menagerie: Frozen Nightmare");
  (238, "Mistmoore's Catacombs: Dreary Grotto");
  (239, "Deepest Guk: Ancient Aqueducts");
  (240, "The Rujarkian Hills: Wind Bridges");
  (241, "Takish-Hiz: Fading Temple");
  (242, "The Spider Den");
  (243, "Mistmoore's Catacombs: Struggles within the Progeny");
  (244, "The Mushroom Grove");
  (245, "The Rujarkian Hills: Prison Break");
  (246, "Takish-Hiz: Royal Observatory");
  (247, "Miragul's Menagerie: Hushed Banquet");
  (248, "Mistmoore's Catacombs: Chambers of Eternal Affliction");
  (249, "Deepest Guk: The Curse Reborn");
  (250, "The Rujarkian Hills: Drudge Hollows");
  (251, "Takish-Hiz: River of Recollection");
  (252, "The Frosted Halls");
  (253, "Mistmoore's Catacombs: Sepulcher of the Damned");
  (254, "Deepest Guk: Chapel of the Witnesses");
  (255, "The Rujarkian Hills: Fortified Lair of the Taskmasters");
  (256, "Takish-Hiz: Sandfall Corridors");
  (257, "The Forgotten Wastes");
  (258, "Mistmoore's Catacombs: Scion Lair of Fury");
  (259, "The Root Garden");
  (260, "The Rujarkian Hills: Hidden Vale of Deceit");
  (261, "Takish-Hiz: Balancing Chamber");
  (262, "Miragul's Menagerie: Heart of the Menagerie");
  (263, "Mistmoore's Catacombs: Cesspits of Putrescence");
  (264, "Deepest Guk: Accursed Sanctuary");
  (265, "The Rujarkian Hills: Blazing Forge");
  (266, "Takish-Hiz: Sweeping Tides");
  (267, "The Morbid Laboratory");
  (268, "Mistmoore's Catacombs: Aisles of Blood");
  (269, "The Rujarkian Hills: Arena of Chance");
  (270, "Takish-Hiz: Antiquated Palace");
  (271, "The Theater of Imprisoned Horror");
  (272, "Mistmoore's Catacombs: Halls of Sanguinary Rites");
  (273, "The Rujarkian Hills: Barracks of War");
  (274, "Takish-Hiz: Prismatic Corridors");
  (275, "Miragul's Menagerie: Grand Library")].

(** The cases of zone_long_name_by_id, lines 1248-1368. *)
Definition long_cases_3 : list (Z * string) := [
  (276, "Mistmoore's Catacombs: Infernal Sanctuary");
  (277, "Chardok: The Halls of Betrayal");
  (278, "The Caverns of Exile");
  (279, "The Abysmal Sea");
  (280, "Natimbi, the Broken Shores");
  (281, "Qinimi, Court of Nihilia");
  (282, "Riwwi, Coliseum of Games");
  (283, "Barindu, Hanging Gardens");
  (284, "Ferubi, Forgotten Temple of Taelosia");
  (285, "Sewers of Nihilia, Pool of Sludg");
  (286, "Sewers of Nihilia, Lair of Trapp");
  (287, "Sewers of Nihilia, Purifying Pla");
  (288, "Sewers of Nihilia, Emanating Cre");
  (289, "Tipt, Treacherous Crags");
  (290, "Vxed, the Crumbling Caverns");
  (291, "Yxtta, Pulpit of Exiles");
  (292, "Uqua, the Ocean God Chantry");
  (293, "Kod'Taz, Broken Trial Grounds");
  (294, "Ikkinz, Chambers of Transcendence");
  (295, "Qvic, Prayer Grounds of Calling");
  (296, "Inktu'Ta, the Unmasked Chapel");
  (297, "Txevu, Lair of the Elite");
  (298, "Tacvi, The Broken Temple");
  (299, "Qvic, the Hidden Vault");
  (300, "Wall of Slaughter");
  (301, "The Bloodfields");
  (302, "Dranik's Scar");
  (303, "Nobles' Causeway");
  (304, "Muramite Proving Grounds A");
  (305, "Muramite Proving Grounds B");
  (306, "Muramite Proving Grounds C");
  (307, "Muramite Proving Grounds D");
  (308, "Muramite Proving Grounds E");
  (309, "Muramite Proving Grounds F");
  (316, "Muramite Proving Grounds G");
  (317, "Anguish, the Fallen Palace");
  (318, "Dranik's Hollows A");
  (319, "Dranik's Hollows B");
  (320, "Dranik's Hollows C");
  (328, "Catacombs of Dranik A");
  (329, "Catacombs of Dranik B");
  (330, "Catacombs of Dranik C");
  (331, "Sewers of Dranik A");
  (332, "Sewers of Dranik B");
  (333, "Sewers of Dranik C");
  (334, "Riftseekers' Sanctum");
  (335, "Harbinger's Spire");
  (336, "The Ruined City of Dranik");
  (337, "The Broodlands");
  (338, "Stillmoon Temple");
  (339, "The Ascent");
  (340, "Thundercrest Isles");
  (341, "Lavaspinner's Lair");
  (342, "Tirranun's Delve");
  (343, "The Nest");
  (344, "Guild Lobby");
  (345, "Guild Hall");
  (346, "The Barter Hall");
  (347, "Ruins of Illsalin");
  (348, "Illsalin Marketplace");
  (349, "Temple of Korlach");
  (350, "The Nargil Pits");
  (351, "Dreadspire Keep");
  (354, "The Hive");
  (355, "The Hatchery");
  (356, "The Cocoons");
  (357, "Queen Sendaii`s Lair");
  (358, "Stoneroot Falls");
  (359, "Prince's Manor");
  (360, "Caverns of the Lost");
  (361, "Lair of the Korlach");
  (362, "The Undershore");
  (363, "Snarlstone Dens");
  (364, "Shadow Spine");
  (365, "Corathus Creep");
  (366, "Sporali Caverns");
  (367, "The Corathus Mines");
  (368, "Shadowed Grove");
  (369, "Arcstone, Isle of Spirits");
  (370, "Relic, the Artifact City");
  (371, "Skylance");
  (372, "The Devastation");
  (373, "The Seething Wall");
  (374, "Sverag, Stronghold of Rage");
  (375, "Razorthorn, Tower of Sullon Zek");
  (376, "Ruins of Takish-Hiz");
  (377, "The Root of Ro");
  (378, "The Elddar Forest");
  (379, "Tunare's Shrine");
  (380, "Theater of Blood");
  (381, "Deathknell, Tower of Dissonance");
  (382, "East Freeport");
  (383, "West Freeport");
  (384, "Freeport Sewers");
  (385, "Academy of Arcane Sciences");
  (386, "Temple of Marr");
  (387, "Freeport Militia House: My Precious");
  (388, "Arena");
  (389, "City Hall");
  (390, "Theater of the Tranquil");
  (391, "Hall of Truth: Bounty");
  (392, "North Desert of Ro");
  (393, "South Desert of Ro");
  (394, "Crescent Reach");
  (395, "Blightfire Moors");
  (396, "Stone Hive");
  (397, "Goru`kar Mesa");
  (398, "Blackfeather Roost");
  (399, "The Steppes");
  (400, "Icefall Glacier");
  (401, "Valdeholm");
  (402, "Frostcrypt, Throne of the Shade King");
  (403, "Sunderock Springs");
  (404, "Vergalid Mines");
  (405, "Direwind Cliffs");
  (406, "Ashengate, Reliquary of the Scale");
  (407, "Highpass Hold");
  (408, "The Commonlands");
  (409, "The Ocean of Tears");
  (410, "Kithicor Forest");
  (411, "Befallen")].

(** The cases of zone_long_name_by_id, lines 1369-1486. *)
Definition long_cases_4 : list (Z * string) := [
  (412, "HighKeep");
  (413, "The Innothule Swamp");
  (414, "Toxxulia Forest");
  (415, "The Misty Thicket");
  (416, "Katta Castrum");
  (417, "Thalassius, the Coral Keep");
  (418, "Jewel of Atiiki");
  (419, "Zhisza, the Shissar Sanctuary");
  (420, "Silyssar, New Chelsith");
  (421, "Solteris, the Throne of Ro");
  (422, "Barren Coast");
  (423, "The Buried Sea");
  (424, "Jardel's Hook");
  (425, "Monkey Rock");
  (426, "Suncrest Isle");
  (427, "Deadbone Reef");
  (428, "Blacksail Folly");
  (429, "Maiden's Grave");
  (430, "Redfeather Isle");
  (431, "The Open Sea");
  (432, "The Open Sea");
  (433, "The Open Sea");
  (434, "The Open Sea");
  (435, "The Open Sea");
  (436, "Fortress Mechanotus");
  (437, "Meldrath's Majestic Mansion");
  (438, "The Steam Factory");
  (439, "S.H.I.P. Workshop");
  (440, "Gyrospire Beza");
  (441, "Gyrospire Zeka");
  (442, "Dragonscale Hills");
  (443, "Loping Plains");
  (444, "Hills of Shade");
  (445, "Bloodmoon Keep");
  (446, "Crystallos, Lair of the Awakened");
  (447, "The Mechamatic Guardian");
  (448, "The Steamfont Mountains");
  (449, "Crypt of Shade");
  (451, "Deepscar's Den");
  (452, "Field of Scale");
  (453, "Kaesora Library");
  (454, "Kaesora Hatchery");
  (455, "Kurn's Tower");
  (456, "Bloody Kithicor");
  (457, "Old Commonlands");
  (458, "Highpass Hold");
  (459, "The Void A");
  (460, "The Void B");
  (461, "The Void C");
  (462, "The Void D");
  (463, "The Void E");
  (464, "The Void F");
  (465, "The Void G");
  (466, "Oceangreen Hills");
  (467, "Oceangreen Village");
  (468, "BlackBurrow");
  (469, "Temple of Bertoxxulous");
  (470, "Korafax, Home of the Riders");
  (471, "Citadel of the Worldslayer");
  (472, "Old Bloodfields");
  (473, "The Precipice of War");
  (474, "City of Dranik");
  (475, "Toskirakk");
  (476, "Korascian Warrens");
  (477, "Rathe Council Chamber");
  (480, "Brell's Rest");
  (481, "Fungal Forest");
  (482, "The Underquarry");
  (483, "The Cooling Chamber");
  (484, "Kernagir, the Shining City");
  (485, "Arthicrex");
  (486, "The Foundation");
  (487, "Lichen Creep");
  (488, "Pellucid Grotto");
  (489, "Volska's Husk");
  (490, "Brell's Temple");
  (491, "The Convorteum");
  (492, "Brell's Arena");
  (493, "Wedding Chapel");
  (494, "Wedding Chapel");
  (495, "Lair of the Risen");
  (700, "The Feerrott");
  (701, "House of Thule");
  (702, "House of Thule, Upper Floors");
  (703, "The Grounds");
  (704, "The Library");
  (705, "The Well");
  (706, "Erudin Burning");
  (707, "Morell's Castle");
  (708, "Sanctum Somnium");
  (709, "Al'Kabor's Nightmare");
  (710, "Miragul's Nightmare");
  (711, "Fear Itself");
  (712, "Sunrise Hills");
  (724, "Argath, Bastion of Illdaera");
  (725, "Valley of Lunanyn");
  (726, "Sarith, City of Tides");
  (727, "Rubak Oseka, Temple of the Sea");
  (728, "Beasts' Domain");
  (729, "The Resplendent Temple");
  (730, "Pillars of Alra");
  (731, "Windsong Sanctuary");
  (732, "Erillion, City of Bronze");
  (733, "Sepulcher of Order");
  (734, "Sepulcher East");
  (735, "Sepulcher West");
  (752, "Shard's Landing");
  (753, "Valley of King Xorbb");
  (754, "Kael Drakkel: The King's Madness");
  (755, "East Wastes: Zeixshi-Kar's Awakening");
  (756, "The Crystal Caverns: Fragment of Fear");
  (757, "The Breeding Grounds");
  (758, "Evantil, the Vile Oak");
  (759, "Grelleth's Palace, the Chateau of Filth");
  (760, "Chapterhouse of the Fallen");
  (996, "Art Testing Domain");
  (998, "The Forgotten Halls");
  (999, "Designer Apprentice")].

(** [add(id, name)], the macro: [zoneId = id] and
    [hash_table_set_by_cstr(basic, &map, name, sizeof(name) - 1, &zoneId)]. *)
Definition add (map : HashTable EString Z) (id : Z) (name : string)
    : outcome (HashTable EString Z) :=
  '(_, map) ← hash_table_set_by_cstr map (cstr name) (Z.of_nat (length (cstr name))) id;
  Ok map.

Fixpoint add_names (names : list (Z * string)) (map : HashTable EString Z)
    : outcome (HashTable EString Z) :=
  match names with
  | [] => Ok map
  | (id, name) :: names => map ← add map id name; add_names names map
  end.

Definition zone_short_name_map_create : outcome (HashTable EString Z) :=
  map ← hash_table_create 4;
  add_names (adds_1 ++ adds_2 ++ adds_3 ++ adds_4) map.

Definition zone_id_by_short_name (map : HashTable EString Z) (shortName : list Z) (len : Z)
    : outcome Z :=
  zoneId ← hash_table_get_by_cstr map shortName len;
  Ok (default 0 zoneId).

(** [switch (id)]: the first matching case, else the default. *)
Definition switch (cases : list (Z * string)) (default_ : string) (id : Z) : string :=
  match list_find (λ c, c.1 = id) cases with
  | Some (_, c) => c.2
  | None => default_
  end.

Definition short_cases : list (Z * string) := short_cases_1 ++ short_cases_2 ++ short_cases_3 ++ short_cases_4.
Definition long_cases : list (Z * string) := long_cases_1 ++ long_cases_2 ++ long_cases_3 ++ long_cases_4.

(** [default:] falls through to the first case. *)
Definition zone_short_name_by_id (id : Z) : string := switch short_cases "qeynos" id.
Definition zone_long_name_by_id (id : Z) : string := switch long_cases "South Qeynos" id.

(** ** The calls [add] are a history of sets *)
Definition add_ops (names : list (Z * string)) : list (op Z) :=
  (λ c, OpSet (cstr c.2) c.1) <$> names.

Lemma add_names_run names map rs map' :
  run_ops (add_ops names) map = Ok (rs, map') → add_names names map = Ok map'.
Proof.
  revert map rs. induction names as [|[id name] names IH]; intros map rs.
  - by intros [= _ ->].
  - cbn [add_ops fmap list_fmap run_ops run_op add_names mbind outcome_bind fst snd]. unfold add.
    destruct (hash_table_set_by_cstr _ _ _ _) as [[b map1]|err|]; cbn [mbind outcome_bind]; [|done..].
    destruct (run_ops _ map1) as [[rs1 map2]|err|] eqn:Hrun; cbn [mbind outcome_bind]; [|done..].
    intros [= _ <-]. by eapply IH.
Qed.

Lemma spec_add_other names m k : k ∉ (cstr ∘ snd <$> names) →
  (spec_ops (add_ops names) m).2 !! k = m !! k.
Proof.
  revert m. induction names as [|[id name] names IH]; intros m Hk; [done|].
  rewrite fmap_cons in Hk. apply not_elem_of_cons in Hk as [Hne Hk]. simpl in Hne.
  specialize (IH (set_absent m (cstr name) id) Hk).
  change (add_ops ((id, name) :: names)) with (OpSet (cstr name) id :: add_ops names).
  cbn [spec_ops spec_op].
  destruct (spec_ops (add_ops names) _) as [rs m'] eqn:Hs. simpl in *. rewrite IH.
  unfold set_absent. destruct (m !! cstr name); [done|]. by rewrite lookup_insert_ne.
Qed.

(** [roomy] and [valid_key], decided. *)
Definition room_b (t : HashTable EString Z) : bool :=
  SIZEOF_TABLE + entSize t * (2 * capacity t) <? 2 ^ 32.

Fixpoint roomy_b (os : list (op Z)) (t : HashTable EString Z) : bool :=
  match os with
  | [] => true
  | o :: os => room_b t && match run_op o t with Ok (_, t) => roomy_b os t | _ => true end
  end.

Lemma roomy_b_sound os t : roomy_b os t = true → roomy os t.
Proof.
  revert t. induction os as [|o os IH]; intros t; [done|]. simpl.
  intros [Hr Hs]%andb_true_iff. split; [by apply Z.ltb_lt|].
  destruct (run_op o t) as [[r t']|err|]; [by apply IH|done..].
Qed.

Lemma cstr_valid_b s : forallb (λ b, negb (b =? 0)) (cstr s) = true →
  (length (cstr s) <? 1000)%nat = true → valid_key (cstr s).
Proof.
  intros Hb Hl. split.
  - apply Forall_forall. intros b Hin. apply forallb_forall with (x := b) in Hb.
    + apply negb_true_iff, Z.eqb_neq in Hb. done.
    + by apply list_elem_of_In.
  - apply Nat.ltb_lt in Hl. lia.
Qed.

Definition all_adds : list (Z * string) := adds_1 ++ adds_2 ++ adds_3 ++ adds_4.

Lemma all_adds_valid : Forall (valid_key ∘ op_key (V := Z)) (add_ops all_adds).
Proof.
  apply Forall_fmap, Forall_forall. intros c Hc. simpl. apply cstr_valid_b.
  - assert (Hall : forallb (λ c : Z * string, forallb (λ b, negb (b =? 0)) (cstr c.2)) all_adds = true)
      by (by vm_compute).
    apply forallb_forall with (x := c) in Hall; [done|]. by apply list_elem_of_In.
  - assert (Hall : forallb (λ c : Z * string, (length (cstr c.2) <? 1000)%nat) all_adds = true)
      by (by vm_compute).
    apply forallb_forall with (x := c) in Hall; [done|]. by apply list_elem_of_In.
Qed.

Lemma create_runs :
  match hash_table_create 4 with Ok t => roomy_b (add_ops all_adds) t | _ => false end = true.
Proof. by vm_compute. Qed.

Lemma zone_map_repr : ∃ map, zone_short_name_map_create = Ok map ∧
  repr map (spec_ops (add_ops all_adds) ∅).2.
Proof.
  destruct (create_refines (K := EString) (V := Z) 4) as (t & Hc & Hr); [done|by vm_compute|].
  pose proof create_runs as Hruns. rewrite Hc in Hruns. apply roomy_b_sound in Hruns.
  destruct (table_ops_refine _ t ∅ Hr all_adds_valid Hruns) as (map & Hmap & Hr').
  exists map. split; [|done]. unfold zone_short_name_map_create. rewrite Hc.
  cbn [mbind outcome_bind]. by eapply add_names_run.
Qed.

(** Looking every zone's short name up gives the zone's id back. *)
Definition by_own_name (map : HashTable EString Z) (id : Z) : outcome Z :=
  let name := cstr (zone_short_name_by_id id) in
  zone_id_by_short_name map name (Z.of_nat (length name)).

Definition round_trip (map : HashTable EString Z) (id : Z) : bool :=
  match by_own_name map id with Ok id' => id' =? id | _ => false end.

Lemma round_trip_sound map id : round_trip map id = true → by_own_name map id = Ok id.
Proof.
  unfold round_trip. destruct (by_own_name map id) as [id'|err|]; [|done..].
  by intros ->%Z.eqb_eq.
Qed.

Definition round_trips (map : HashTable EString Z) : bool :=
  forallb (round_trip map) short_cases.*1.

Lemma map_round_trips :
  match zone_short_name_map_create with Ok map => round_trips map | _ => false end = true.
Proof. by vm_compute. Qed.

Lemma adds_are_cases : forallb (λ c : Z * string,
  bool_decide (c.1 ∈ short_cases.*1) && String.eqb (zone_short_name_by_id c.1) c.2) all_adds = true.
Proof. by vm_compute. Qed.

(** the map of zone short names that the program builds when it starts is
    the inverse of zone_short_name_by_id: looking up the short name of any zone
    gives its id, and every other text gives 0. *)
Theorem zone_id_by_short_name_inverse :
  ∃ map, zone_short_name_map_create = Ok map ∧
    (∀ id, id ∈ short_cases.*1 → let name := cstr (zone_short_name_by_id id) in
       zone_id_by_short_name map name (Z.of_nat (length name)) = Ok id) ∧
    (∀ name, valid_key name → (∀ id, id ∈ short_cases.*1 → name ≠ cstr (zone_short_name_by_id id)) →
       zone_id_by_short_name map name (Z.of_nat (length name)) = Ok 0).
Proof.
  destruct zone_map_repr as (map & Hc & Hr). exists map. split_and!; [done| |].
  - intros id Hin. pose proof map_round_trips as Hrt. rewrite Hc in Hrt.
    apply (round_trip_sound map id). unfold round_trips in Hrt. rewrite forallb_forall in Hrt.
    apply Hrt. by apply list_elem_of_In.
  - intros name Hv Hno. unfold zone_id_by_short_name. rewrite (get_refines _ _ _ Hr Hv).
    rewrite spec_add_other; [done|].
    intros (c & -> & Hin)%list_elem_of_fmap. pose proof adds_are_cases as Hall.
    apply forallb_forall with (x := c) in Hall; [|by apply list_elem_of_In].
    apply andb_true_iff in Hall as [Hid%bool_decide_eq_true Hs%String.eqb_eq].
    apply (Hno c.1 Hid). by rewrite Hs.
Qed.

(** the two name tables know the same zones, each once, and any other id
    is named as the first zone. *)
Theorem zone_name_tables_agree :
  short_cases.*1 = long_cases.*1 ∧ NoDup short_cases.*1 ∧
  (∀ id, id ∉ short_cases.*1 →
    zone_short_name_by_id id = zone_short_name_by_id 1 ∧
    zone_long_name_by_id id = zone_long_name_by_id 1).
Proof.
  assert (Heq : short_cases.*1 = long_cases.*1) by (by vm_compute).
  split_and!; [done| |].
  - apply (bool_decide_unpack (NoDup short_cases.*1)). by vm_compute.
  - intros id Hid. unfold zone_short_name_by_id, zone_long_name_by_id, switch.
    assert (∀ cases : list (Z * string), id ∉ cases.*1 → list_find (λ c, c.1 = id) cases = None) as Hnone.
    { intros cases Hc. apply list_find_None, Forall_forall. intros c Hin <-.
      apply Hc, list_elem_of_fmap. by exists c. }
    rewrite !Hnone by congruence. by vm_compute.
Qed.
