(* ===== verification/Aligned.v ===== *)
(** The bounds-checked cursor over a byte buffer: common/aligned.c.

    Every packet is read and written through it. The state is the cursor, the
    length it checks against and the bytes from [buffer] on; [Fault] is an
    access outside those bytes. A float is the 32-bit word that represents it. *)

From S2P Require Import Prelude.

Record Aligned := mkAligned {
  cursor : Z;
  length_ : Z;
  buffer : list Z;
}.

Definition with_cursor (a : Aligned) (c : Z) : Aligned := mkAligned c (length_ a) (buffer a).
Definition with_buffer (a : Aligned) (b : list Z) : Aligned := mkAligned (cursor a) (length_ a) b.

(** ** Operations *)
Definition aligned_init (ptr : list Z) (len : Z) : Aligned := mkAligned 0 len ptr.

Definition aligned_init_cursor (ptr : list Z) (len cursor_ : Z) : Aligned := mkAligned cursor_ len ptr.

Definition aligned_init_copy (src : Aligned) : Aligned := src.

Definition aligned_reinit (a : Aligned) (ptr : list Z) (len : Z) : Aligned := mkAligned 0 len ptr.

Definition aligned_reinit_cursor (a : Aligned) (ptr : list Z) (len cursor_ : Z) : Aligned :=
  mkAligned cursor_ len ptr.

(** The macros of aligned.h on the fields. *)
Definition aligned_size (a : Aligned) : Z := length_ a.
Definition aligned_remaining (a : Aligned) : Z := u32 (length_ a - cursor a).
Definition aligned_position (a : Aligned) : Z := cursor a.
Definition aligned_reduce_size (by_ : Z) : code Aligned unit :=
  modify (λ a, mkAligned (cursor a) (u32 (length_ a - by_)) (buffer a)).
Definition aligned_reset : code Aligned unit := modify (λ a, with_cursor a 0).
Definition aligned_reset_to (offset : Z) : code Aligned unit := modify (λ a, with_cursor a offset).

(** The cursor has moved already when the check fails. *)
Definition aligned_advance (len : Z) : code Aligned Z :=
  c ← gets cursor;
  modify (λ a, with_cursor a (u32 (c + len))) ;;
  a ← get;
  if length_ a <? cursor a then throw ErrorOutOfBounds else mret c.

(** The subtraction is done in int. *)
Definition aligned_reverse (len : Z) : code Aligned Z :=
  c ← gets cursor;
  let cursor_ := i32 (i32 c - i32 len) in
  if cursor_ <? 0 then throw ErrorOutOfBounds
  else modify (λ a, with_cursor a (u32 cursor_)) ;; mret c.

Definition aligned_check (len : Z) : code Aligned unit :=
  a ← get;
  if length_ a <? u32 (cursor a + len) then throw ErrorOutOfBounds else mret tt.

(** [buffer[i]] and [buffer[i] = v]. *)
Definition byte_at (i : Z) : code Aligned Z := λ a,
  if i <? 0 then (Fault, a) else (deref (buffer a !! Z.to_nat i), a).

Definition put_byte (i v : Z) : code Aligned unit := λ a,
  if (i <? 0) || (Z.of_nat (length (buffer a)) <=? i) then (Fault, a)
  else (Ok tt, with_buffer a (<[Z.to_nat i := u8 v]> (buffer a))).

(** The loop [while (a->cursor < length)]; each round moves the cursor. *)
Fixpoint advance_null_loop (fuel : nat) (len : Z) : code Aligned Z :=
  match fuel with
  | O => mret (-1)
  | S fuel =>
      a ← get;
      if cursor a <? length_ a then
        c ← byte_at (cursor a);
        modify (λ a, with_cursor a (u32 (cursor a + 1))) ;;
        if c =? 0 then mret len else advance_null_loop fuel (len + 1)
      else mret (-1)
  end.

Definition aligned_advance_null_terminator : code Aligned Z :=
  a ← get;
  advance_null_loop (Z.to_nat (length_ a - cursor a)) 0.

(** *** Read *)
Definition aligned_read_uint8 : code Aligned Z := c ← aligned_advance 1; byte_at c.

Definition aligned_read_uint16 : code Aligned Z :=
  c ← aligned_advance 2;
  b0 ← byte_at (c + 0); b1 ← byte_at (c + 1);
  mret (u16 (Z.lor (u16 (Z.shiftl b0 0)) (Z.shiftl b1 8))).

Definition aligned_read_uint32 : code Aligned Z :=
  c ← aligned_advance 4;
  b0 ← byte_at (c + 0); b1 ← byte_at (c + 1); b2 ← byte_at (c + 2); b3 ← byte_at (c + 3);
  mret (u32 (Z.lor (Z.lor (Z.lor (Z.shiftl b0 0) (Z.shiftl b1 8)) (Z.shiftl b2 16)) (Z.shiftl b3 24))).

Definition aligned_read_uint64 : code Aligned Z :=
  c ← aligned_advance 8;
  b0 ← byte_at (c + 0); b1 ← byte_at (c + 1); b2 ← byte_at (c + 2); b3 ← byte_at (c + 3);
  b4 ← byte_at (c + 4); b5 ← byte_at (c + 5); b6 ← byte_at (c + 6); b7 ← byte_at (c + 7);
  mret (Z.lor (Z.lor (Z.lor (Z.lor (Z.lor (Z.lor (Z.lor (Z.shiftl b0 0) (Z.shiftl b1 8))
    (Z.shiftl b2 16)) (Z.shiftl b3 24)) (Z.shiftl b4 32)) (Z.shiftl b5 40)) (Z.shiftl b6 48))
    (Z.shiftl b7 56)).

Definition aligned_read_float : code Aligned Z := aligned_read_uint32.

(** The bytes copied to [ptr]. *)
Fixpoint read_bytes (n : nat) (c : Z) : code Aligned (list Z) :=
  match n with
  | O => mret []
  | S n => b ← byte_at c; bs ← read_bytes n (c + 1); mret (b :: bs)
  end.

Definition aligned_read_buffer (len : Z) : code Aligned (list Z) :=
  c ← aligned_advance len; read_bytes (Z.to_nat len) c.

Definition aligned_peek_uint8 : code Aligned Z :=
  aligned_check 1 ;; c ← gets cursor; byte_at c.

(** Casts of the signed readers. *)
Definition aligned_read_int8 : code Aligned Z := v ← aligned_read_uint8; mret (i8 v).
Definition aligned_read_int16 : code Aligned Z := v ← aligned_read_uint16; mret (i16 v).
Definition aligned_read_int32 : code Aligned Z := v ← aligned_read_uint32; mret (i32 v).
Definition aligned_read_int64 : code Aligned Z := v ← aligned_read_uint64; mret (i64 v).

(** *** Write *)
Fixpoint put_bytes (c : Z) (bs : list Z) : code Aligned unit :=
  match bs with
  | [] => mret tt
  | b :: bs => put_byte c b ;; put_bytes (c + 1) bs
  end.

Definition aligned_write_memset (val len : Z) : code Aligned unit :=
  c ← aligned_advance len; put_bytes c (replicate (Z.to_nat len) val).

Definition aligned_write_uint8 (v : Z) : code Aligned unit :=
  c ← aligned_advance 1; put_byte c v.

Definition aligned_write_uint16 (v : Z) : code Aligned unit :=
  c ← aligned_advance 2;
  put_byte (c + 0) (Z.shiftr (Z.land v 0x00ff) 0) ;;
  put_byte (c + 1) (Z.shiftr (Z.land v 0xff00) 8).

Definition aligned_write_uint32 (v : Z) : code Aligned unit :=
  c ← aligned_advance 4;
  put_byte (c + 0) (Z.shiftr (Z.land v 0x000000ff) 0) ;;
  put_byte (c + 1) (Z.shiftr (Z.land v 0x0000ff00) 8) ;;
  put_byte (c + 2) (Z.shiftr (Z.land v 0x00ff0000) 16) ;;
  put_byte (c + 3) (Z.shiftr (Z.land v 0xff000000) 24).

Definition aligned_write_uint64 (v : Z) : code Aligned unit :=
  c ← aligned_advance 8;
  put_byte (c + 0) (Z.shiftr (Z.land v 0x00000000000000ff) 0) ;;
  put_byte (c + 1) (Z.shiftr (Z.land v 0x000000000000ff00) 8) ;;
  put_byte (c + 2) (Z.shiftr (Z.land v 0x0000000000ff0000) 16) ;;
  put_byte (c + 3) (Z.shiftr (Z.land v 0x00000000ff000000) 24) ;;
  put_byte (c + 4) (Z.shiftr (Z.land v 0x000000ff00000000) 32) ;;
  put_byte (c + 5) (Z.shiftr (Z.land v 0x0000ff0000000000) 40) ;;
  put_byte (c + 6) (Z.shiftr (Z.land v 0x00ff000000000000) 48) ;;
  put_byte (c + 7) (Z.shiftr (Z.land v 0xff00000000000000) 56).

Definition aligned_write_float (v : Z) : code Aligned unit := aligned_write_uint32 v.

(** [src[i]] for [i < len]; reading past [data] is a fault. *)
Definition aligned_write_buffer (data : list Z) (len : Z) : code Aligned unit :=
  c ← aligned_advance len;
  if Z.of_nat (length data) <? len then fault
  else put_bytes c (take (Z.to_nat len) data).

(** [rand] stands for what random_bytes produces. *)
Definition aligned_write_random (rand : list Z) (bytes : Z) : code Aligned unit :=
  c ← aligned_advance (u32 bytes); put_bytes c (take (Z.to_nat bytes) rand).

(** memset over the whole buffer, and at the cursor, which stays. *)
Definition aligned_write_zero_all : code Aligned unit :=
  a ← get; put_bytes 0 (replicate (Z.to_nat (length_ a)) 0).
Definition aligned_write_memset_no_advance (v bytes : Z) : code Aligned unit :=
  a ← get; put_bytes (cursor a) (replicate (Z.to_nat bytes) v).

Definition aligned_write_zeroes (count : Z) : code Aligned unit :=
  c ← aligned_advance count; put_bytes c (replicate (Z.to_nat count) 0).

(** vsnprintf writes at most [n - 1] bytes of [text] and a terminator, and
    nothing at all when [n] is 0; the cursor moves over [n] bytes regardless. *)
Definition aligned_write_snprintf_full_advance (n : Z) (text : list Z) : code Aligned unit :=
  c ← aligned_advance n;
  if n =? 0 then mret tt else put_bytes c (take (Z.to_nat (n - 1)) text ++ [0]).

Definition aligned_write_int8 (v : Z) : code Aligned unit := aligned_write_uint8 (u8 v).
Definition aligned_write_bool (v : bool) : code Aligned unit := aligned_write_uint8 (if v then 1 else 0).
Definition aligned_write_int16 (v : Z) : code Aligned unit := aligned_write_uint16 (u16 v).
Definition aligned_write_int32 (v : Z) : code Aligned unit := aligned_write_uint32 (u32 v).
Definition aligned_write_int64 (v : Z) : code Aligned unit := aligned_write_uint64 (u64 v).

Definition aligned_write_reverse_uint8 (v : Z) : code Aligned unit :=
  c ← aligned_reverse 1; put_byte (u32 (c - 1)) v.

Definition aligned_write_reverse_uint16 (v : Z) : code Aligned unit :=
  c ← aligned_reverse 2;
  put_byte (u32 (c - 2)) (Z.shiftr (Z.land v 0x00ff) 0) ;;
  put_byte (u32 (c - 1)) (Z.shiftr (Z.land v 0xff00) 8).

(** ** What a write leaves in the buffer *)

(** The bytes of [pat] over [buf] from [c] on; [None] leaves the old byte. *)
Definition overlay (c : Z) (pat : list (option Z)) (buf : list Z) : list Z :=
  take (Z.to_nat c) buf ++
  zip_with (λ p old, default old p) pat (drop (Z.to_nat c) buf) ++
  drop (Z.to_nat c + length pat) buf.

(** A cursor within its length, a length within the memory. *)
Definition wf (a : Aligned) : Prop :=
  0 ≤ cursor a ≤ length_ a ∧ length_ a ≤ Z.of_nat (length (buffer a)) ∧ length_ a < 2 ^ 32.

(** [w] writes [pat] at the cursor and moves past it, or throws when [pat] does
    not fit: the contract of every writer. *)
Definition emits (w : code Aligned unit) (pat : list (option Z)) : Prop :=
  ∀ a, wf a →
    (cursor a + Z.of_nat (length pat) ≤ length_ a →
       w a = (Ok tt, mkAligned (cursor a + Z.of_nat (length pat)) (length_ a)
                       (overlay (cursor a) pat (buffer a)))) ∧
    (length_ a < cursor a + Z.of_nat (length pat) < 2 ^ 32 →
       ∃ a', w a = (Throw ErrorOutOfBounds, a')).

(** [r] reads the bytes [bs] at the cursor as [x]. *)
Definition parses {A} (r : code Aligned A) (bs : list Z) (x : A) : Prop :=
  ∀ a, wf a → cursor a + Z.of_nat (length bs) ≤ length_ a →
    take (length bs) (drop (Z.to_nat (cursor a)) (buffer a)) = bs →
    r a = (Ok x, with_cursor a (cursor a + Z.of_nat (length bs))).

Lemma overlay_length c pat buf : 0 ≤ c → c + Z.of_nat (length pat) ≤ Z.of_nat (length buf) →
  length (overlay c pat buf) = length buf.
Proof.
  intros. unfold overlay. rewrite !length_app, length_zip_with, length_take, !length_drop. lia.
Qed.

Lemma overlay_lookup c pat buf i : 0 ≤ c → c + Z.of_nat (length pat) ≤ Z.of_nat (length buf) →
  overlay c pat buf !! i =
    if decide (Z.to_nat c ≤ i < Z.to_nat c + length pat)%nat
    then (λ old, default old (mjoin (pat !! (i - Z.to_nat c)%nat))) <$> buf !! i
    else buf !! i.
Proof.
  intros Hc Hl. unfold overlay. set (n := Z.to_nat c) in *. assert (n + length pat ≤ length buf)%nat by lia.
  assert (length (zip_with (λ p old, default old p) pat (drop n buf)) = length pat) as Hz
    by (rewrite length_zip_with, length_drop; lia).
  destruct (decide _) as [[Hlo Hhi]|Hout].
  - rewrite lookup_app_r by (rewrite length_take; lia). rewrite length_take, Nat.min_l by lia.
    rewrite lookup_app_l by lia. rewrite lookup_zip_with, lookup_drop.
    replace (n + (i - n))%nat with i by lia.
    destruct (lookup_lt_is_Some_2 pat (i - n)%nat) as [p Hp]; [lia|]. rewrite Hp.
    by destruct (buf !! i).
  - destruct (decide (i < n)%nat).
    + rewrite lookup_app_l by (rewrite length_take; lia). by rewrite lookup_take_lt.
    + rewrite lookup_app_r by (rewrite length_take; lia). rewrite length_take, Nat.min_l by lia.
      rewrite lookup_app_r by lia. rewrite Hz, lookup_drop. f_equal. lia.
Qed.

Lemma overlay_nil c buf : 0 ≤ c → overlay c [] buf = buf.
Proof. intros. unfold overlay. simpl. rewrite Nat.add_0_r. apply take_drop. Qed.

Lemma overlay_app c p1 p2 buf : 0 ≤ c →
  c + Z.of_nat (length p1) + Z.of_nat (length p2) ≤ Z.of_nat (length buf) →
  overlay (c + Z.of_nat (length p1)) p2 (overlay c p1 buf) = overlay c (p1 ++ p2) buf.
Proof.
  intros Hc Hl. apply list_eq. intros i.
  rewrite overlay_lookup by (rewrite ?overlay_length; lia).
  rewrite !overlay_lookup by (rewrite ?length_app; lia). rewrite length_app.
  replace (Z.to_nat (c + Z.of_nat (length p1))) with (Z.to_nat c + length p1)%nat by lia.
  repeat case_decide; try lia; try done.
  - rewrite lookup_app_r by lia. by replace (i - Z.to_nat c - length p1)%nat with (i - (Z.to_nat c + length p1))%nat by lia.
  - by rewrite lookup_app_l by lia.
Qed.

(** ** The contract composes *)
Lemma emits_nil : emits (mret tt) [].
Proof.
  intros a (? & ? & ?). simpl. split; [|lia]. intros _. rewrite overlay_nil by lia.
  rewrite Z.add_0_r. by destruct a.
Qed.

Lemma emits_seq w1 w2 p1 p2 : emits w1 p1 → emits w2 p2 → emits (w1 ;; w2) (p1 ++ p2).
Proof.
  intros H1 H2 a Hw. destruct (H1 a Hw) as [Hok1 Hthrow1]. destruct Hw as (? & ? & ?).
  rewrite length_app, Nat2Z.inj_add.
  set (n1 := Z.of_nat (length p1)) in *. set (n2 := Z.of_nat (length p2)) in *.
  unfold mbind, code_bind. destruct (decide (cursor a + n1 ≤ length_ a)) as [Hfit|Hno].
  - rewrite (Hok1 Hfit).
    destruct (H2 (mkAligned (cursor a + n1) (length_ a) (overlay (cursor a) p1 (buffer a)))) as [Hok2 Ht2].
    { split_and!; simpl; [lia|lia| |done]. rewrite overlay_length by lia. done. }
    simpl in *. split; intros.
    + rewrite Hok2 by lia. unfold n1 at 2. rewrite overlay_app by lia. by rewrite Z.add_assoc.
    + apply Ht2. lia.
  - split; [lia|]. intros. destruct Hthrow1 as [a' ->]; [lia|]. by exists a'.
Qed.

Lemma emits_app w1 w2 p1 p2 pat : pat = p1 ++ p2 → emits w1 p1 → emits w2 p2 → emits (w1 ;; w2) pat.
Proof. intros ->. apply emits_seq. Qed.

Lemma parses_bind {A B} (r : code Aligned A) (f : A → code Aligned B) bs1 bs2 x y :
  parses r bs1 x → parses (f x) bs2 y → parses (x ← r; f x) (bs1 ++ bs2) y.
Proof.
  intros H1 H2 a Hw Hlen Hbs. rewrite length_app in *.
  assert (Hb1 : take (length bs1) (drop (Z.to_nat (cursor a)) (buffer a)) = bs1).
  { apply (f_equal (take (length bs1))) in Hbs. rewrite take_take, take_app_length in Hbs.
    by rewrite Nat.min_l in Hbs by lia. }
  assert (Hb2 : take (length bs2) (drop (Z.to_nat (cursor a) + length bs1) (buffer a)) = bs2).
  { apply (f_equal (drop (length bs1))) in Hbs. rewrite drop_app_length, skipn_firstn_comm, drop_drop in Hbs.
    by replace (length bs1 + length bs2 - length bs1)%nat with (length bs2) in Hbs by lia. }
  unfold mbind, code_bind. rewrite H1; [|done|lia|done]. destruct Hw as (? & ? & ?).
  rewrite (H2 (with_cursor a (cursor a + Z.of_nat (length bs1)))); simpl; [|split_and!; simpl; lia|lia|].
  - unfold with_cursor. simpl. f_equal. f_equal. lia.
  - rewrite <-Hb2 at 2. f_equal. f_equal. lia.
Qed.

(** ** The cursor moves *)
Lemma advance_ok a n : wf a → 0 ≤ n → cursor a + n ≤ length_ a →
  aligned_advance n a = (Ok (cursor a), with_cursor a (cursor a + n)).
Proof.
  intros (? & ? & ?) ? ?. unfold aligned_advance. run. cbn [cursor length_ with_cursor].
  rewrite wrap_small by (unfold is_word; lia).
  by rewrite (proj2 (Z.ltb_ge _ _)) by lia.
Qed.

Lemma advance_throws a n : wf a → length_ a < cursor a + n < 2 ^ 32 →
  aligned_advance n a = (Throw ErrorOutOfBounds, with_cursor a (cursor a + n)).
Proof.
  intros (? & ? & ?) ?. unfold aligned_advance. run. cbn [cursor length_ with_cursor].
  rewrite wrap_small by (unfold is_word; lia).
  by rewrite (proj2 (Z.ltb_lt _ _)) by lia.
Qed.

Lemma put_bytes_ok bs a c : 0 ≤ c → c + Z.of_nat (length bs) ≤ Z.of_nat (length (buffer a)) →
  put_bytes c bs a = (Ok tt, with_buffer a (overlay c (Some ∘ u8 <$> bs) (buffer a))).
Proof.
  revert a c. induction bs as [|b bs IH]; intros a c Hc Hl; cbn [put_bytes].
  - rewrite overlay_nil by done. by destruct a.
  - cbn [length] in Hl. unfold mbind, code_bind, put_byte.
    rewrite (proj2 (Z.ltb_ge c 0)), (proj2 (Z.leb_gt _ _)) by lia. cbn [orb].
    rewrite IH by (simpl; rewrite ?length_insert; lia). f_equal. unfold with_buffer. simpl. f_equal.
    replace (<[Z.to_nat c:=u8 b]> (buffer a)) with (overlay c [Some (u8 b)] (buffer a)).
    + etrans; [apply (overlay_app c [Some (u8 b)]); [lia|]|done]. simpl. rewrite length_fmap. lia.
    + apply list_eq. intros i. rewrite overlay_lookup by (simpl; lia). simpl.
      destruct (decide (i = Z.to_nat c)) as [->|Hi].
      * rewrite decide_True by lia. rewrite Nat.sub_diag. simpl.
        rewrite list_lookup_insert_eq by lia.
        destruct (lookup_lt_is_Some_2 (buffer a) (Z.to_nat c)) as [x ->]; [lia|done].
      * rewrite decide_False by lia. by rewrite list_lookup_insert_ne.
Qed.

(** A writer that advances over its bytes and stores them meets the contract. *)
Lemma emits_put n bs w : n = Z.of_nat (length bs) →
  (∀ a, w a = (c ← aligned_advance n; put_bytes c bs) a) → emits w (Some ∘ u8 <$> bs).
Proof.
  intros -> Hw a Ha. rewrite !length_fmap, Hw. unfold mbind, code_bind. split; intros.
  - rewrite advance_ok by (done || lia). destruct Ha as (? & ? & ?).
    rewrite put_bytes_ok by (simpl; lia). done.
  - rewrite advance_throws by done. eauto.
Qed.

Lemma read_bytes_ok a n c bs : 0 ≤ c → length bs = n → take n (drop (Z.to_nat c) (buffer a)) = bs →
  read_bytes n c a = (Ok bs, a).
Proof.
  revert c bs. induction n as [|n IH]; intros c bs Hc Hl Hbs; destruct bs as [|b bs]; try done.
  cbn [read_bytes]. unfold mbind, code_bind, byte_at. rewrite (proj2 (Z.ltb_ge c 0)) by lia.
  destruct (drop (Z.to_nat c) (buffer a)) as [|b' rest] eqn:Hd; [done|].
  injection Hbs as -> Hbs. simpl in Hl.
  assert (buffer a !! Z.to_nat c = Some b) as ->.
  { rewrite <-(Nat.add_0_r (Z.to_nat c)), <-lookup_drop, Hd. done. }
  simpl. rewrite (IH (c + 1) bs); [done|lia|lia|].
  replace (Z.to_nat (c + 1)) with (Z.to_nat c + 1)%nat by lia. by rewrite <-drop_drop, Hd.
Qed.

(** ** Every writer meets the contract *)

(** The bytes of a word, low byte first. *)
Fixpoint le_bytes (n : nat) (v : Z) : list Z :=
  match n with O => [] | S n => u8 v :: le_bytes n (Z.shiftr v 8) end.

Lemma le_bytes_length n v : length (le_bytes n v) = n.
Proof. revert v. induction n; intros; simpl; auto. Qed.

Lemma le_bytes_value n v : 0 ≤ v → foldr (λ b v, b + 256 * v) 0 (le_bytes n v) = v mod 2 ^ (8 * Z.of_nat n).
Proof.
  revert v. induction n as [|n IH]; intros v Hv; [symmetry; apply Z.mod_1_r|]. cbn [le_bytes foldr].
  rewrite IH by (apply Z.shiftr_nonneg; done). rewrite Z.shiftr_div_pow2 by done. unfold wrap.
  replace (8 * Z.of_nat (S n)) with (8 + 8 * Z.of_nat n) by lia. rewrite Z.pow_add_r by lia. change (2 ^ 8) with 256.
  pose proof (Z.pow_pos_nonneg 2 (8 * Z.of_nat n) ltac:(lia) ltac:(lia)) as Hp. by rewrite Z.rem_mul_r by lia.
Qed.
Lemma le_bytes_word n v : is_word (8 * Z.of_nat n) v → foldr (λ b v, b + 256 * v) 0 (le_bytes n v) = v.
Proof. intros [H0 H1]. rewrite le_bytes_value by done. by apply Z.mod_small. Qed.

(** Masking a byte out in place and shifting it down. *)
Lemma mask_byte v k m : 0 ≤ k → m = Z.shiftl 255 k → u8 (Z.shiftr (Z.land v m) k) = u8 (Z.shiftr v k).
Proof.
  intros Hk ->. apply Z.bits_inj'. intros i Hi. rewrite !wrap_testbit by lia.
  destruct (Z.ltb_spec i 8) as [Hlt|]; [|done]. cbn [andb].
  rewrite !Z.shiftr_spec, Z.land_spec, Z.shiftl_spec by lia.
  replace (i + k - k) with i by lia. change 255 with (Z.ones 8).
  rewrite Z.ones_spec_low by lia. apply andb_true_r.
Qed.

Lemma emits_uint8 v : emits (aligned_write_uint8 v) [Some (u8 v)].
Proof.
  apply (emits_put 1 [v]); [done|]. intros a. unfold aligned_write_uint8. run.
  destruct (aligned_advance 1 a) as [[c|err|] a']; [|done..]. cbn [put_bytes]. run.
  by destruct (put_byte c v a') as [[[]|err|] ?].
Qed.

Lemma put_bytes_cons c b bs a : put_bytes c (b :: bs) a = (put_byte c b ;; put_bytes (c + 1) bs) a.
Proof. done. Qed.

Lemma put_bytes_one c b a : put_bytes c [b] a = put_byte c b a.
Proof. cbn [put_bytes]. run. by destruct (put_byte c b a) as [[[]|err|] ?]. Qed.

(** [put_run] matches a run of [put_byte]s with [put_bytes]. *)
Ltac put_run :=
  intros a; run;
  match goal with |- context [aligned_advance ?n a] =>
    destruct (aligned_advance n a) as [[c|err|] a0]; [|reflexivity..] end;
  rewrite Z.add_0_r;
  repeat first
    [ rewrite put_bytes_one
    | rewrite put_bytes_cons; run;
      match goal with |- context [put_byte ?p ?b ?st] =>
        destruct (put_byte p b st) as [[[]|err|] ?]; [|reflexivity..] end;
      rewrite <-?Z.add_assoc;
      repeat match goal with |- context [Zpos ?p + 1] =>
        let q := eval compute in (Zpos p + 1) in change (Zpos p + 1) with q end ];
  try reflexivity.

Lemma emits_uint16 v : emits (aligned_write_uint16 v) (Some <$> le_bytes 2 v).
Proof.
  replace (Some <$> le_bytes 2 v) with
    (Some ∘ u8 <$> [Z.shiftr (Z.land v 0x00ff) 0; Z.shiftr (Z.land v 0xff00) 8]).
  - apply (emits_put 2); [done|]. unfold aligned_write_uint16. put_run.
  - cbn [fmap list_fmap compose le_bytes]. rewrite !mask_byte by done. by rewrite Z.shiftr_0_r.
Qed.

Lemma emits_uint32 v : emits (aligned_write_uint32 v) (Some <$> le_bytes 4 v).
Proof.
  replace (Some <$> le_bytes 4 v) with
    (Some ∘ u8 <$> [Z.shiftr (Z.land v 0x000000ff) 0; Z.shiftr (Z.land v 0x0000ff00) 8;
                    Z.shiftr (Z.land v 0x00ff0000) 16; Z.shiftr (Z.land v 0xff000000) 24]).
  - apply (emits_put 4); [done|]. unfold aligned_write_uint32. put_run.
  - cbn [fmap list_fmap compose le_bytes]. rewrite !mask_byte by done.
    by rewrite Z.shiftr_0_r, !Z.shiftr_shiftr by lia.
Qed.

Lemma emits_uint64 v : emits (aligned_write_uint64 v) (Some <$> le_bytes 8 v).
Proof.
  replace (Some <$> le_bytes 8 v) with
    (Some ∘ u8 <$> [Z.shiftr (Z.land v 0x00000000000000ff) 0; Z.shiftr (Z.land v 0x000000000000ff00) 8;
      Z.shiftr (Z.land v 0x0000000000ff0000) 16; Z.shiftr (Z.land v 0x00000000ff000000) 24;
      Z.shiftr (Z.land v 0x000000ff00000000) 32; Z.shiftr (Z.land v 0x0000ff0000000000) 40;
      Z.shiftr (Z.land v 0x00ff000000000000) 48; Z.shiftr (Z.land v 0xff00000000000000) 56]).
  - apply (emits_put 8); [done|]. unfold aligned_write_uint64. put_run.
  - cbn [fmap list_fmap compose le_bytes]. rewrite !mask_byte by done.
    by rewrite Z.shiftr_0_r, !Z.shiftr_shiftr by lia.
Qed.

Lemma emits_memset val len : 0 ≤ len →
  emits (aligned_write_memset val len) (replicate (Z.to_nat len) (Some (u8 val))).
Proof.
  intros. replace (replicate (Z.to_nat len) (Some (u8 val)))
    with (Some ∘ u8 <$> replicate (Z.to_nat len) val) by (by rewrite fmap_replicate).
  apply (emits_put len); [rewrite length_replicate; lia|done].
Qed.

Lemma emits_zeroes len : 0 ≤ len →
  emits (aligned_write_zeroes len) (replicate (Z.to_nat len) (Some 0)).
Proof. apply (emits_memset 0). Qed.

Lemma emits_buffer data len : 0 ≤ len ≤ Z.of_nat (length data) →
  emits (aligned_write_buffer data len) (Some ∘ u8 <$> take (Z.to_nat len) data).
Proof.
  intros. apply (emits_put len); [rewrite length_take; lia|].
  intros a. unfold aligned_write_buffer. by rewrite (proj2 (Z.ltb_ge _ _)) by lia.
Qed.

Lemma emits_ext w w' pat : (∀ a, w a = w' a) → emits w pat → emits w' pat.
Proof. intros He Hw a Ha. rewrite <- He. by apply Hw. Qed.

Lemma emits_eq_pattern w p q : p = q → emits w p → emits w q.
Proof. by intros ->. Qed.

Lemma overlay_nones n c buf : 0 ≤ c → c + Z.of_nat n ≤ Z.of_nat (length buf) → overlay c (replicate n None) buf = buf.
Proof.
  intros Hc Hn. apply list_eq. intros i. rewrite overlay_lookup by (rewrite ?length_replicate; lia). rewrite length_replicate.
  case_decide; [|done]. rewrite lookup_replicate_2 by lia. simpl. by destruct (buf !! i).
Qed.

(** Moving over bytes leaves them. *)
Lemma emits_advance n w pat : 0 ≤ n → emits w pat → emits (aligned_advance n ;; w) (replicate (Z.to_nat n) None ++ pat).
Proof.
  intros Hn Hw. apply (emits_ext ((aligned_advance n ;; mret tt) ;; w)).
  { intros a. run. by destruct (aligned_advance n a) as [[c|e|] a']. }
  apply emits_seq; [|done]. intros a Ha. rewrite length_replicate, Z2Nat.id by done. run. split; intros.
  - rewrite advance_ok by done. rewrite overlay_nones by (destruct Ha as (? & ? & ?); lia). done.
  - rewrite advance_throws by done. by eexists.
Qed.

Lemma emits_random rand bytes : 0 ≤ bytes < 2 ^ 32 → bytes = Z.of_nat (length rand) →
  emits (aligned_write_random rand bytes) (Some ∘ u8 <$> rand).
Proof.
  intros Hb ->. apply (emits_put (Z.of_nat (length rand))); [done|].
  intros a. unfold aligned_write_random. rewrite wrap_small by done.
  by rewrite Nat2Z.id, firstn_all.
Qed.

(** vsnprintf: the bytes after the terminator stay as they were. *)
Lemma emits_snprintf n text : 0 < n →
  emits (aligned_write_snprintf_full_advance n text)
    ((Some ∘ u8 <$> take (Z.to_nat (n - 1)) text ++ [0]) ++
     replicate (Z.to_nat n - S (length (take (Z.to_nat (n - 1)) text))) None).
Proof.
  intros Hn. set (bs := take (Z.to_nat (n - 1)) text ++ [0]).
  set (rest := (Z.to_nat n - S (length (take (Z.to_nat (n - 1)) text)))%nat).
  assert (length bs = S (length (take (Z.to_nat (n - 1)) text))) as Hbs
    by (unfold bs; rewrite length_app; simpl; lia).
  assert (length bs + rest = Z.to_nat n)%nat as Hsum
    by (unfold rest; rewrite Hbs, length_take; lia).
  intros a Ha. rewrite length_app, length_fmap, length_replicate, Hsum, Z2Nat.id by lia.
  unfold aligned_write_snprintf_full_advance. run. rewrite (proj2 (Z.eqb_neq n 0)) by lia. split; intros.
  - rewrite advance_ok by (done || lia). destruct Ha as (? & ? & ?).
    rewrite put_bytes_ok by (fold bs; simpl; lia). unfold with_buffer, with_cursor. simpl. fold bs. do 2 f_equal.
    apply list_eq. intros i. rewrite !overlay_lookup
      by (rewrite ?length_app, ?length_replicate, ?length_fmap; lia).
    rewrite length_app, length_replicate, length_fmap. fold bs. repeat case_decide; try lia; try done.
    + by rewrite lookup_app_l by (rewrite length_fmap; lia).
    + rewrite lookup_app_r by (rewrite length_fmap; lia).
      rewrite lookup_replicate_2 by (rewrite length_fmap; lia). simpl. by destruct (buffer a !! i).
  - rewrite advance_throws by done. eauto.
Qed.

(** ** Every reader reads back what the writer of its type wrote *)

Lemma neg_bit v i : i < 0 → Z.testbit v i = false.
Proof. apply Z.testbit_neg_r. Qed.

Lemma le_decode_2 v : u16 (Z.lor (u16 (Z.shiftl (u8 v) 0)) (Z.shiftl (u8 (Z.shiftr v 8)) 8)) = u16 v.
Proof.
  apply Z.bits_inj'. intros i Hi. rewrite !wrap_testbit, Z.lor_spec, wrap_testbit by lia.
  rewrite !Z.shiftl_spec by lia. destruct (Z.ltb_spec i 16); [|done]. cbn [andb].
  rewrite Z.sub_0_r, wrap_testbit by lia.
  destruct (Z.ltb_spec i 8); cbn [andb].
  - rewrite (neg_bit _ (i - 8)) by lia. apply orb_false_r.
  - rewrite wrap_testbit, Z.shiftr_spec by lia. rewrite (proj2 (Z.ltb_lt (i - 8) 8)) by lia.
    cbn [andb orb]. f_equal. lia.
Qed.

(** One byte of a decoded word: bit [i] of byte [k / 8] put back at [k]. *)
Lemma byte_back v k i : 0 ≤ i → 0 ≤ k →
  Z.testbit (Z.shiftl (u8 (Z.shiftr v k)) k) i = (k <=? i) && (i <? k + 8) && Z.testbit v i.
Proof.
  intros. rewrite Z.shiftl_spec by lia. destruct (Z.leb_spec k i); cbn [andb].
  - rewrite wrap_testbit, Z.shiftr_spec by lia. replace (i - k + k) with i by lia.
    destruct (Z.ltb_spec (i - k) 8), (Z.ltb_spec i (k + 8)); done || lia.
  - by rewrite neg_bit by lia.
Qed.

Lemma le_decode_4 v :
  u32 (Z.lor (Z.lor (Z.lor (Z.shiftl (u8 v) 0) (Z.shiftl (u8 (Z.shiftr v 8)) 8))
    (Z.shiftl (u8 (Z.shiftr v 16)) 16)) (Z.shiftl (u8 (Z.shiftr v 24)) 24)) = u32 v.
Proof.
  rewrite <-(Z.shiftr_0_r v) at 1. apply Z.bits_inj'. intros i Hi.
  rewrite !wrap_testbit, !Z.lor_spec, !byte_back by lia.
  destruct (Z.ltb_spec i 32); [|done]. cbn [andb].
  destruct (Z.leb_spec 0 i), (Z.leb_spec 8 i), (Z.leb_spec 16 i), (Z.leb_spec 24 i),
    (Z.ltb_spec i (0 + 8)), (Z.ltb_spec i (8 + 8)), (Z.ltb_spec i (16 + 8)), (Z.ltb_spec i (24 + 8));
    try lia; cbn [andb orb]; by rewrite ?orb_false_r.
Qed.

(** Two windows of bits, one above the other. *)
Lemma window_join a b c i (t : bool) : a ≤ b → b ≤ c →
  (a <=? i) && (i <? b) && t || (b <=? i) && (i <? c) && t = (a <=? i) && (i <? c) && t.
Proof.
  intros. destruct (Z.leb_spec a i), (Z.ltb_spec i b), (Z.leb_spec b i), (Z.ltb_spec i c);
    try lia; cbn [andb orb]; by rewrite ?orb_false_r.
Qed.

Lemma le_decode_8 v :
  Z.lor (Z.lor (Z.lor (Z.lor (Z.lor (Z.lor (Z.lor (Z.shiftl (u8 v) 0)
    (Z.shiftl (u8 (Z.shiftr v 8)) 8)) (Z.shiftl (u8 (Z.shiftr v 16)) 16))
    (Z.shiftl (u8 (Z.shiftr v 24)) 24)) (Z.shiftl (u8 (Z.shiftr v 32)) 32))
    (Z.shiftl (u8 (Z.shiftr v 40)) 40)) (Z.shiftl (u8 (Z.shiftr v 48)) 48))
    (Z.shiftl (u8 (Z.shiftr v 56)) 56) = u64 v.
Proof.
  rewrite <-(Z.shiftr_0_r v) at 1. apply Z.bits_inj'. intros i Hi.
  rewrite !Z.lor_spec, !byte_back, wrap_testbit by lia.
  cbn [Z.add Pos.add Pos.succ Pos.add_carry]. rewrite !window_join by lia.
  by rewrite (proj2 (Z.leb_le 0 i)) by lia.
Qed.

(** [byte_at] at an offset of a known window. *)
Lemma byte_in_window a c bs k b : 0 ≤ c → 0 ≤ k →
  take (length bs) (drop (Z.to_nat c) (buffer a)) = bs → bs !! Z.to_nat k = Some b →
  byte_at (c + k) a = (Ok b, a).
Proof.
  intros Hc Hk Hbs Hb. unfold byte_at. rewrite (proj2 (Z.ltb_ge (c + k) 0)) by lia.
  rewrite Z2Nat.inj_add, <-lookup_drop by lia.
  rewrite <-Hbs in Hb. rewrite lookup_take_lt in Hb.
  - by rewrite Hb.
  - apply lookup_lt_Some in Hb. rewrite length_take in Hb. lia.
Qed.

(** Reading [n] bytes: the cursor has moved when the bytes are looked at. *)
Lemma parses_intro {A} (r : code Aligned A) (f : Z → code Aligned A) bs x :
  r = (c ← aligned_advance (Z.of_nat (length bs)); f c) →
  (∀ a c, 0 ≤ c → take (length bs) (drop (Z.to_nat c) (buffer a)) = bs → f c a = (Ok x, a)) →
  parses r bs x.
Proof.
  intros -> Hf a Ha Hlen Hbs. unfold mbind, code_bind. rewrite advance_ok by (done || lia).
  apply Hf; [|done]. by destruct Ha as ((? & ?) & _).
Qed.


Lemma parses_uint8 v : parses aligned_read_uint8 [u8 v] (u8 v).
Proof.
  eapply (parses_intro _ byte_at); [done|]. intros a c Hc Hbs.
  rewrite <-(Z.add_0_r c). by apply (byte_in_window a c [u8 v] 0).
Qed.

Lemma parses_uint16 v : parses aligned_read_uint16 (le_bytes 2 v) (u16 v).
Proof.
  eapply parses_intro; [done|]. intros a c Hc Hbs. cbv beta. run.
  rewrite (byte_in_window a c _ 0 _ Hc ltac:(lia) Hbs eq_refl).
  rewrite (byte_in_window a c _ 1 _ Hc ltac:(lia) Hbs eq_refl).
  by rewrite le_decode_2.
Qed.

Lemma parses_uint32 v : parses aligned_read_uint32 (le_bytes 4 v) (u32 v).
Proof.
  eapply parses_intro; [done|]. intros a c Hc Hbs. cbv beta. run.
  rewrite (byte_in_window a c _ 0 _ Hc ltac:(lia) Hbs eq_refl).
  rewrite (byte_in_window a c _ 1 _ Hc ltac:(lia) Hbs eq_refl).
  rewrite (byte_in_window a c _ 2 _ Hc ltac:(lia) Hbs eq_refl).
  rewrite (byte_in_window a c _ 3 _ Hc ltac:(lia) Hbs eq_refl).
  rewrite <-(le_decode_4 v). by rewrite !Z.shiftr_shiftr by lia.
Qed.

Lemma parses_uint64 v : parses aligned_read_uint64 (le_bytes 8 v) (u64 v).
Proof.
  eapply parses_intro; [done|]. intros a c Hc Hbs. cbv beta. run.
  rewrite (byte_in_window a c _ 0 _ Hc ltac:(lia) Hbs eq_refl).
  rewrite (byte_in_window a c _ 1 _ Hc ltac:(lia) Hbs eq_refl).
  rewrite (byte_in_window a c _ 2 _ Hc ltac:(lia) Hbs eq_refl).
  rewrite (byte_in_window a c _ 3 _ Hc ltac:(lia) Hbs eq_refl).
  rewrite (byte_in_window a c _ 4 _ Hc ltac:(lia) Hbs eq_refl).
  rewrite (byte_in_window a c _ 5 _ Hc ltac:(lia) Hbs eq_refl).
  rewrite (byte_in_window a c _ 6 _ Hc ltac:(lia) Hbs eq_refl).
  rewrite (byte_in_window a c _ 7 _ Hc ltac:(lia) Hbs eq_refl).
  rewrite <-(le_decode_8 v). by rewrite !Z.shiftr_shiftr by lia.
Qed.

Lemma parses_buffer bs : parses (aligned_read_buffer (Z.of_nat (length bs))) bs bs.
Proof.
  eapply parses_intro; [done|]. intros a c Hc Hbs. cbv beta. rewrite Nat2Z.id.
  by apply read_bytes_ok.
Qed.

(** ** Packets as lists of fields *)
Inductive field :=
  | F8 (v : Z)
  | F16 (v : Z)
  | F32 (v : Z)
  | F64 (v : Z)
  | FBytes (bs : list Z).

Definition field_ok (f : field) : Prop :=
  match f with
  | F8 v => is_word 8 v
  | F16 v => is_word 16 v
  | F32 v => is_word 32 v
  | F64 v => is_word 64 v
  | FBytes bs => Forall (is_word 8) bs
  end.

Definition field_bytes (f : field) : list Z :=
  match f with
  | F8 v => [u8 v]
  | F16 v => le_bytes 2 v
  | F32 v => le_bytes 4 v
  | F64 v => le_bytes 8 v
  | FBytes bs => bs
  end.

Definition write_field (f : field) : code Aligned unit :=
  match f with
  | F8 v => aligned_write_uint8 v
  | F16 v => aligned_write_uint16 v
  | F32 v => aligned_write_uint32 v
  | F64 v => aligned_write_uint64 v
  | FBytes bs => aligned_write_buffer bs (Z.of_nat (length bs))
  end.

(** Reading a field of the same type and size. *)
Definition read_field (f : field) : code Aligned field :=
  match f with
  | F8 _ => v ← aligned_read_uint8; mret (F8 v)
  | F16 _ => v ← aligned_read_uint16; mret (F16 v)
  | F32 _ => v ← aligned_read_uint32; mret (F32 v)
  | F64 _ => v ← aligned_read_uint64; mret (F64 v)
  | FBytes bs => bs ← aligned_read_buffer (Z.of_nat (length bs)); mret (FBytes bs)
  end.

Fixpoint read_fields (fs : list field) : code Aligned (list field) :=
  match fs with
  | [] => mret []
  | f :: fs => x ← read_field f; xs ← read_fields fs; mret (x :: xs)
  end.

Definition fields_bytes (fs : list field) : list Z := concat (field_bytes <$> fs).

Lemma emits_field f : field_ok f → emits (write_field f) (Some <$> field_bytes f).
Proof.
  intros Hf. destruct f as [v|v|v|v|bs]; simpl.
  - apply emits_uint8.
  - apply emits_uint16.
  - apply emits_uint32.
  - apply emits_uint64.
  - replace (Some <$> bs) with (Some ∘ u8 <$> take (Z.to_nat (Z.of_nat (length bs))) bs).
    + apply emits_buffer. lia.
    + rewrite Nat2Z.id, firstn_all. apply list_fmap_ext. intros i b Hb. simpl. f_equal.
      apply wrap_small. by eapply Forall_lookup_1.
Qed.

Lemma emits_fields fs : Forall field_ok fs → emits (each fs write_field) (Some <$> fields_bytes fs).
Proof.
  induction fs as [|f fs IH]; intros Hfs; [apply emits_nil|]. apply Forall_cons in Hfs as [? ?].
  cbn [each]. eapply emits_app; [|by apply emits_field|by apply IH].
  unfold fields_bytes. simpl. apply fmap_app.
Qed.

Lemma parses_mret {A} (x : A) : parses (mret x) [] x.
Proof. intros a Ha _ _. simpl. rewrite Z.add_0_r. by destruct a. Qed.

Lemma parses_map {A B} (r : code Aligned A) (g : A → B) bs x :
  parses r bs x → parses (v ← r; mret (g v)) bs (g x).
Proof.
  intros Hr. rewrite <-(app_nil_r bs). eapply parses_bind; [done|apply parses_mret].
Qed.

Lemma parses_field f : field_ok f → parses (read_field f) (field_bytes f) f.
Proof.
  intros Hf. destruct f as [v|v|v|v|bs]; simpl in *.
  - pose proof (parses_map _ F8 _ _ (parses_uint8 v)) as Hp. by rewrite (wrap_small 8 v Hf) in Hp |- *.
  - pose proof (parses_map _ F16 _ _ (parses_uint16 v)) as Hp. by rewrite (wrap_small 16 v Hf) in Hp.
  - pose proof (parses_map _ F32 _ _ (parses_uint32 v)) as Hp. by rewrite (wrap_small 32 v Hf) in Hp.
  - pose proof (parses_map _ F64 _ _ (parses_uint64 v)) as Hp. by rewrite (wrap_small 64 v Hf) in Hp.
  - apply (parses_map _ FBytes), parses_buffer.
Qed.

Lemma parses_fields fs : Forall field_ok fs → parses (read_fields fs) (fields_bytes fs) fs.
Proof.
  induction fs as [|f fs IH]; intros Hfs; [apply parses_mret|]. apply Forall_cons in Hfs as [? ?].
  unfold fields_bytes. cbn [read_fields fmap list_fmap concat].
  eapply parses_bind; [by apply parses_field|].
  by apply (parses_map _ (cons f)), IH.
Qed.

(** Written bytes are found again at the cursor they were written from. *)
Lemma overlay_window c bs buf : 0 ≤ c → c + Z.of_nat (length bs) ≤ Z.of_nat (length buf) →
  take (length bs) (drop (Z.to_nat c) (overlay c (Some <$> bs) buf)) = bs.
Proof.
  intros. apply list_eq. intros i. destruct (decide (i < length bs)%nat) as [Hi|Hi].
  - rewrite lookup_take_lt, lookup_drop, overlay_lookup by (rewrite ?length_fmap; lia).
    rewrite length_fmap, decide_True by lia.
    replace (Z.to_nat c + i - Z.to_nat c)%nat with i by lia.
    destruct (lookup_lt_is_Some_2 buf (Z.to_nat c + i)%nat) as [x ->]; [lia|].
    destruct (lookup_lt_is_Some_2 bs i Hi) as [b Hb]. simpl. by rewrite list_lookup_fmap, Hb.
  - rewrite lookup_take_ge, lookup_ge_None_2 by lia. done.
Qed.

(** ** Properties *)

(** Writing any fields that fit and reading the same types back from where the
    writing started gives the same values; the length never changes and the
    bytes around the fields are not touched. *)
Theorem aligned_fields_roundtrip fs a : Forall field_ok fs → wf a →
  cursor a + Z.of_nat (length (fields_bytes fs)) ≤ length_ a →
  ∃ a', each fs write_field a = (Ok tt, a') ∧
    cursor a' = cursor a + Z.of_nat (length (fields_bytes fs)) ∧ length_ a' = length_ a ∧
    read_fields fs (with_cursor a' (cursor a)) = (Ok fs, a') ∧
    (∀ i, (i < Z.to_nat (cursor a))%nat ∨ (Z.to_nat (cursor a') ≤ i)%nat → buffer a' !! i = buffer a !! i).
Proof.
  intros Hfs Ha Hfit. destruct (emits_fields fs Hfs a Ha) as [Hok _]. rewrite length_fmap in Hok.
  eexists. split; [by apply Hok|]. destruct Ha as (? & ? & ?). split_and!; [done..| |].
  - rewrite (parses_fields fs Hfs); unfold with_cursor; simpl; try done.
    + split_and!; simpl; [lia..| |done]. rewrite overlay_length by (rewrite ?length_fmap; lia). done.
    + apply overlay_window; lia.
  - simpl. intros i Hi. rewrite overlay_lookup by (rewrite ?length_fmap; lia).
    rewrite length_fmap, decide_False; [done|lia].
Qed.

Lemma aligned_fields_roundtrip_witness :
  ∃ a', each [F16 513; FBytes [7; 8]; F32 65536] write_field (aligned_init (replicate 10 255) 10) = (Ok tt, a')
    ∧ read_fields [F16 0; FBytes [0; 0]; F32 0] (with_cursor a' 0) = (Ok [F16 513; FBytes [7; 8]; F32 65536], a').
Proof.
  destruct (aligned_fields_roundtrip [F16 513; FBytes [7; 8]; F32 65536] (aligned_init (replicate 10 255) 10))
    as (a' & Hw & _ & _ & Hr & _).
  - repeat constructor; simpl; lia.
  - split_and!; simpl; lia.
  - simpl. lia.
  - exists a'. split; [exact Hw|exact Hr].
Defined.

(** Fields that do not fit make the writer throw [ErrorOutOfBounds], never
    touch memory past the length. *)
Theorem aligned_fields_overflow fs a : Forall field_ok fs → wf a →
  length_ a < cursor a + Z.of_nat (length (fields_bytes fs)) < 2 ^ 32 →
  ∃ a', each fs write_field a = (Throw ErrorOutOfBounds, a').
Proof.
  intros Hfs Ha Hover. destruct (emits_fields fs Hfs a Ha) as [_ Hthrow].
  rewrite length_fmap in Hthrow. by apply Hthrow.
Qed.

Lemma aligned_fields_overflow_witness :
  ∃ a', each [F16 1; F32 2] write_field (aligned_init (replicate 10 0) 5) = (Throw ErrorOutOfBounds, a').
Proof.
  apply aligned_fields_overflow; [repeat constructor; simpl; lia|split_and!; simpl; lia|simpl; lia].
Defined.

(** The check is done after a 32-bit addition: a length that wraps the cursor
    around is accepted and moves the cursor backwards. *)
Theorem aligned_advance_wraps a len : wf a → is_word 32 len → 2 ^ 32 ≤ cursor a + len →
  aligned_advance len a = (Ok (cursor a), with_cursor a (cursor a + len - 2 ^ 32)) ∧
  aligned_check len a = (Ok tt, a).
Proof.
  intros (? & ? & ?) [? ?] ?. unfold aligned_advance, aligned_check. run. cbn [cursor length_ with_cursor].
  assert (u32 (cursor a + len) = cursor a + len - 2 ^ 32) as ->.
  { unfold wrap. symmetry. apply (Z.mod_unique _ _ 1); [left|]; lia. }
  by rewrite (proj2 (Z.ltb_ge _ _)) by lia.
Qed.

Lemma aligned_advance_wraps_witness :
  aligned_advance (2 ^ 32 - 1) (mkAligned 4 8 (replicate 8 0)) =
    (Ok 4, mkAligned 3 8 (replicate 8 0)).
Proof.
  apply (aligned_advance_wraps (mkAligned 4 8 (replicate 8 0)) (2 ^ 32 - 1));
    [split_and!; simpl; lia|unfold is_word; lia|simpl; lia].
Defined.
