(* ===== verification/Crc.v ===== *)
(** CRC-32 of packets: non_master/crc.c.

    Every Trilogy packet carries the CRC of its bytes, and a packet whose CRC
    does not match is dropped. The table-driven code is shown equal to the
    bit-at-a-time definition of the CRC with the polynomial 0xEDB88320. *)

From S2P Require Import Prelude.

Definition crc_table : list Z := [
  0x00000000; 0x77073096; 0xEE0E612C; 0x990951BA; 0x076DC419; 0x706AF48F; 0xE963A535; 0x9E6495A3;
  0x0EDB8832; 0x79DCB8A4; 0xE0D5E91E; 0x97D2D988; 0x09B64C2B; 0x7EB17CBD; 0xE7B82D07; 0x90BF1D91;
  0x1DB71064; 0x6AB020F2; 0xF3B97148; 0x84BE41DE; 0x1ADAD47D; 0x6DDDE4EB; 0xF4D4B551; 0x83D385C7;
  0x136C9856; 0x646BA8C0; 0xFD62F97A; 0x8A65C9EC; 0x14015C4F; 0x63066CD9; 0xFA0F3D63; 0x8D080DF5;
  0x3B6E20C8; 0x4C69105E; 0xD56041E4; 0xA2677172; 0x3C03E4D1; 0x4B04D447; 0xD20D85FD; 0xA50AB56B;
  0x35B5A8FA; 0x42B2986C; 0xDBBBC9D6; 0xACBCF940; 0x32D86CE3; 0x45DF5C75; 0xDCD60DCF; 0xABD13D59;
  0x26D930AC; 0x51DE003A; 0xC8D75180; 0xBFD06116; 0x21B4F4B5; 0x56B3C423; 0xCFBA9599; 0xB8BDA50F;
  0x2802B89E; 0x5F058808; 0xC60CD9B2; 0xB10BE924; 0x2F6F7C87; 0x58684C11; 0xC1611DAB; 0xB6662D3D;
  0x76DC4190; 0x01DB7106; 0x98D220BC; 0xEFD5102A; 0x71B18589; 0x06B6B51F; 0x9FBFE4A5; 0xE8B8D433;
  0x7807C9A2; 0x0F00F934; 0x9609A88E; 0xE10E9818; 0x7F6A0DBB; 0x086D3D2D; 0x91646C97; 0xE6635C01;
  0x6B6B51F4; 0x1C6C6162; 0x856530D8; 0xF262004E; 0x6C0695ED; 0x1B01A57B; 0x8208F4C1; 0xF50FC457;
  0x65B0D9C6; 0x12B7E950; 0x8BBEB8EA; 0xFCB9887C; 0x62DD1DDF; 0x15DA2D49; 0x8CD37CF3; 0xFBD44C65;
  0x4DB26158; 0x3AB551CE; 0xA3BC0074; 0xD4BB30E2; 0x4ADFA541; 0x3DD895D7; 0xA4D1C46D; 0xD3D6F4FB;
  0x4369E96A; 0x346ED9FC; 0xAD678846; 0xDA60B8D0; 0x44042D73; 0x33031DE5; 0xAA0A4C5F; 0xDD0D7CC9;
  0x5005713C; 0x270241AA; 0xBE0B1010; 0xC90C2086; 0x5768B525; 0x206F85B3; 0xB966D409; 0xCE61E49F;
  0x5EDEF90E; 0x29D9C998; 0xB0D09822; 0xC7D7A8B4; 0x59B33D17; 0x2EB40D81; 0xB7BD5C3B; 0xC0BA6CAD;
  0xEDB88320; 0x9ABFB3B6; 0x03B6E20C; 0x74B1D29A; 0xEAD54739; 0x9DD277AF; 0x04DB2615; 0x73DC1683;
  0xE3630B12; 0x94643B84; 0x0D6D6A3E; 0x7A6A5AA8; 0xE40ECF0B; 0x9309FF9D; 0x0A00AE27; 0x7D079EB1;
  0xF00F9344; 0x8708A3D2; 0x1E01F268; 0x6906C2FE; 0xF762575D; 0x806567CB; 0x196C3671; 0x6E6B06E7;
  0xFED41B76; 0x89D32BE0; 0x10DA7A5A; 0x67DD4ACC; 0xF9B9DF6F; 0x8EBEEFF9; 0x17B7BE43; 0x60B08ED5;
  0xD6D6A3E8; 0xA1D1937E; 0x38D8C2C4; 0x4FDFF252; 0xD1BB67F1; 0xA6BC5767; 0x3FB506DD; 0x48B2364B;
  0xD80D2BDA; 0xAF0A1B4C; 0x36034AF6; 0x41047A60; 0xDF60EFC3; 0xA867DF55; 0x316E8EEF; 0x4669BE79;
  0xCB61B38C; 0xBC66831A; 0x256FD2A0; 0x5268E236; 0xCC0C7795; 0xBB0B4703; 0x220216B9; 0x5505262F;
  0xC5BA3BBE; 0xB2BD0B28; 0x2BB45A92; 0x5CB36A04; 0xC2D7FFA7; 0xB5D0CF31; 0x2CD99E8B; 0x5BDEAE1D;
  0x9B64C2B0; 0xEC63F226; 0x756AA39C; 0x026D930A; 0x9C0906A9; 0xEB0E363F; 0x72076785; 0x05005713;
  0x95BF4A82; 0xE2B87A14; 0x7BB12BAE; 0x0CB61B38; 0x92D28E9B; 0xE5D5BE0D; 0x7CDCEFB7; 0x0BDBDF21;
  0x86D3D2D4; 0xF1D4E242; 0x68DDB3F8; 0x1FDA836E; 0x81BE16CD; 0xF6B9265B; 0x6FB077E1; 0x18B74777;
  0x88085AE6; 0xFF0F6A70; 0x66063BCA; 0x11010B5C; 0x8F659EFF; 0xF862AE69; 0x616BFFD3; 0x166CCF45;
  0xA00AE278; 0xD70DD2EE; 0x4E048354; 0x3903B3C2; 0xA7672661; 0xD06016F7; 0x4969474D; 0x3E6E77DB;
  0xAED16A4A; 0xD9D65ADC; 0x40DF0B66; 0x37D83BF0; 0xA9BCAE53; 0xDEBB9EC5; 0x47B2CF7F; 0x30B5FFE9;
  0xBDBDF21C; 0xCABAC28A; 0x53B39330; 0x24B4A3A6; 0xBAD03605; 0xCDD70693; 0x54DE5729; 0x23D967BF;
  0xB3667A2E; 0xC4614AB8; 0x5D681B02; 0x2A6F2B94; 0xB40BBE37; 0xC30C8EA1; 0x5A05DF1B; 0x2D02EF8D].

(** One round: [crc = (crc >> 8) ^ crc_table[data[i] ^ (crc & 0xff)]]. *)
Definition crc_step (crc b : Z) : Z :=
  Z.lxor (Z.shiftr crc 8) (default 0 (crc_table !! Z.to_nat (Z.lxor b (Z.land crc 0xff)))).

Definition crc_update (data : list Z) (crc : Z) : Z := foldl crc_step crc data.

(** [~x] on a uint32_t. *)
Definition not32 (x : Z) : Z := u32 (Z.lnot x).

(** htons and htonl on a little-endian host. *)
Definition toNetworkUint16 (x : Z) : Z :=
  Z.lor (Z.shiftl (Z.land x 0xff) 8) (Z.land (Z.shiftr x 8) 0xff).
Definition toNetworkUint32 (x : Z) : Z :=
  Z.lor (Z.lor (Z.shiftl (Z.land x 0xff) 24) (Z.shiftl (Z.land (Z.shiftr x 8) 0xff) 16))
    (Z.lor (Z.shiftl (Z.land (Z.shiftr x 16) 0xff) 8) (Z.land (Z.shiftr x 24) 0xff)).

(** The bytes of [key] in memory, low byte first. *)
Definition key_bytes (key : Z) : list Z :=
  [Z.land key 0xff; Z.land (Z.shiftr key 8) 0xff; Z.land (Z.shiftr key 16) 0xff;
   Z.land (Z.shiftr key 24) 0xff].

Definition crc_calc16 (data : list Z) (key : Z) : Z :=
  if key =? 0 then 0
  else
    let crc := crc_update (key_bytes key) 0xffffffff in
    let crc := crc_update data crc in
    Z.land (not32 crc) 0xffff.

Definition crc_calc16_network (data : list Z) (key : Z) : Z := toNetworkUint16 (crc_calc16 data key).

Definition crc_calc32 (data : list Z) : Z := not32 (crc_update data 0xffffffff).

Definition crc_calc32_network (data : list Z) : Z := toNetworkUint32 (crc_calc32 data).

(** ** The reference: one bit at a time *)
Definition POLY : Z := 0xEDB88320.

Definition bit_step (x : Z) : Z :=
  Z.lxor (Z.shiftr x 1) (if Z.odd x then POLY else 0).

Definition byte_step (x : Z) : Z := Nat.iter 8 bit_step x.

Definition crc_ref (data : list Z) (crc : Z) : Z :=
  foldl (λ crc b, byte_step (Z.lxor crc b)) crc data.

(** ** Lemmas *)
Lemma bit_step_lxor x y : bit_step (Z.lxor x y) = Z.lxor (bit_step x) (bit_step y).
Proof.
  unfold bit_step. rewrite Z.shiftr_lxor. rewrite <-!Z.bit0_odd, Z.lxor_spec, !Z.bit0_odd.
  apply Z.bits_inj'. intros i Hi. rewrite !Z.lxor_spec.
  destruct (Z.odd x), (Z.odd y); cbn [xorb]; rewrite ?Z.bits_0;
    destruct (Z.testbit (Z.shiftr x 1) i), (Z.testbit (Z.shiftr y 1) i), (Z.testbit POLY i); done.
Qed.

Lemma iter_step_lxor n x y :
  Nat.iter n bit_step (Z.lxor x y) = Z.lxor (Nat.iter n bit_step x) (Nat.iter n bit_step y).
Proof. induction n as [|n IH]; simpl; [done|]. by rewrite IH, bit_step_lxor. Qed.

(** Steps over zero bits only shift. *)
Lemma iter_step_shift n h : Nat.iter n bit_step (Z.shiftl h (Z.of_nat n)) = h.
Proof.
  revert h. induction n as [|n IH]; intros h; [apply Z.shiftl_0_r|].
  rewrite Nat.iter_succ_r. unfold bit_step at 2.
  rewrite <-Z.bit0_odd, Z.shiftl_spec_low by lia. rewrite Z.lxor_0_r.
  rewrite Z.shiftr_shiftl_l by lia. replace (Z.of_nat (S n) - 1) with (Z.of_nat n) by lia. apply IH.
Qed.

Lemma split_byte x : x = Z.lxor (Z.shiftl (Z.shiftr x 8) 8) (Z.land x 0xff).
Proof.
  apply Z.bits_inj'. intros i Hi. change 0xff with (Z.ones 8).
  rewrite Z.lxor_spec, Z.shiftl_spec, Z.land_spec by lia.
  destruct (Z.ltb_spec i 8).
  - rewrite (Z.testbit_neg_r _ (i - 8)), Z.ones_spec_low by lia. by rewrite andb_true_r, xorb_false_l.
  - rewrite Z.shiftr_spec, Z.ones_spec_high by lia. rewrite andb_false_r, xorb_false_r. f_equal. lia.
Qed.

Lemma byte_step_split x : byte_step x = Z.lxor (Z.shiftr x 8) (byte_step (Z.land x 0xff)).
Proof.
  unfold byte_step. rewrite (split_byte x) at 1. rewrite iter_step_lxor.
  by rewrite (iter_step_shift 8).
Qed.

Lemma crc_table_ref : crc_table = (λ i, byte_step (Z.of_nat i)) <$> seq 0 256.
Proof. by vm_compute. Qed.

Lemma crc_table_entry i : 0 ≤ i < 256 → default 0 (crc_table !! Z.to_nat i) = byte_step i.
Proof.
  intros. rewrite crc_table_ref, list_lookup_fmap, lookup_seq_lt by lia. simpl. f_equal. lia.
Qed.

Lemma low_byte_lxor crc b : is_byte b → Z.land (Z.lxor crc b) 0xff = Z.lxor b (Z.land crc 0xff).
Proof.
  intros Hb. change 0xff with (Z.ones 8). rewrite (Z.lxor_comm b).
  rewrite <-(wrap_small 8 b Hb) at 2. rewrite wrap_land by lia.
  apply Z.bits_inj'. intros i Hi. rewrite Z.land_spec, !Z.lxor_spec, !Z.land_spec.
  by destruct (Z.testbit crc i), (Z.testbit b i), (Z.testbit (Z.ones 8) i).
Qed.

Lemma land_ff_range x : 0 ≤ Z.land x 0xff < 256.
Proof. change 0xff with (Z.ones 8). rewrite Z.land_ones by lia. apply Z.mod_pos_bound. lia. Qed.

Lemma crc_step_ref crc b : is_byte b → crc_step crc b = byte_step (Z.lxor crc b).
Proof.
  intros Hb. unfold crc_step. rewrite byte_step_split, (low_byte_lxor crc b Hb).
  rewrite crc_table_entry by (rewrite <-(low_byte_lxor crc b Hb); apply land_ff_range).
  f_equal. rewrite Z.shiftr_lxor. rewrite (Z.shiftr_div_pow2 b) by lia.
  rewrite Z.div_small by done. by rewrite Z.lxor_0_r.
Qed.

Lemma crc_update_ref_eq data crc : Forall is_byte data → crc_update data crc = crc_ref data crc.
Proof.
  intros Hd. revert crc. induction Hd as [|b data Hb Hd IH]; intros crc; [done|].
  unfold crc_update, crc_ref in *. simpl. rewrite crc_step_ref by done. apply IH.
Qed.

(** Bit 31 of a step's result tells the bit that was shifted out. *)
Lemma bit_step_inj x y : is_word 32 x → is_word 32 y → bit_step x = bit_step y → x = y.
Proof.
  assert (Htop : ∀ x, is_word 32 x → Z.testbit (bit_step x) 31 = Z.odd x).
  { intros z Hz. unfold bit_step. rewrite Z.lxor_spec, Z.shiftr_spec by lia.
    rewrite <-(wrap_small 32 z Hz), wrap_testbit by lia. rewrite (wrap_small 32 z Hz).
    by destruct (Z.odd z). }
  intros Hx Hy Heq. pose proof (f_equal (λ v, Z.testbit v 31) Heq) as Hodd.
  cbv beta in Hodd. rewrite !Htop in Hodd by done.
  unfold bit_step in Heq. rewrite Hodd in Heq.
  assert (Z.shiftr x 1 = Z.shiftr y 1) as Hs.
  { apply (f_equal (λ v, Z.lxor v (if Z.odd y then POLY else 0))) in Heq.
    by rewrite !Z.lxor_assoc, !Z.lxor_nilpotent, !Z.lxor_0_r in Heq. }
  rewrite (Zdiv2_odd_eqn x), (Zdiv2_odd_eqn y), !Z.div2_spec. by rewrite Hs, Hodd.
Qed.

Lemma lxor_word x y w : 0 ≤ w → is_word w x → is_word w y → is_word w (Z.lxor x y).
Proof.
  intros Hw Hx Hy. rewrite <-(wrap_small w x Hx), <-(wrap_small w y Hy).
  replace (Z.lxor (wrap w x) (wrap w y)) with (wrap w (Z.lxor x y)); [by apply is_word_wrap|].
  apply Z.bits_inj'. intros i Hi. rewrite Z.lxor_spec, !wrap_testbit, Z.lxor_spec by lia.
  by destruct (i <? w), (Z.testbit x i), (Z.testbit y i).
Qed.

Lemma bit_step_word x : is_word 32 x → is_word 32 (bit_step x).
Proof.
  intros Hx. apply lxor_word; [lia| |by destruct (Z.odd x)].
  destruct Hx. unfold is_word. rewrite Z.shiftr_div_pow2 by lia. split; [apply Z.div_pos; lia|].
  apply Z.div_lt_upper_bound; lia.
Qed.

Lemma iter_step_word n x : is_word 32 x → is_word 32 (Nat.iter n bit_step x).
Proof. intros. induction n; simpl; auto using bit_step_word. Qed.

Lemma byte_step_inj x y : is_word 32 x → is_word 32 y → byte_step x = byte_step y → x = y.
Proof.
  unfold byte_step. generalize 8%nat. intros n Hx Hy. induction n as [|n IH]; simpl; [done|].
  intros Heq. apply IH. apply bit_step_inj; auto using iter_step_word.
Qed.

Lemma byte_word b : is_byte b → is_word 32 b.
Proof. unfold is_word. lia. Qed.

Lemma crc_ref_word data crc : Forall is_byte data → is_word 32 crc → is_word 32 (crc_ref data crc).
Proof.
  intros Hd. revert crc. induction Hd as [|b data Hb Hd IH]; intros crc Hc; [done|].
  apply (IH (byte_step (Z.lxor crc b))). apply iter_step_word.
  apply lxor_word; [lia|done|by apply byte_word].
Qed.

Lemma lxor_cancel_r x y z : Z.lxor x z = Z.lxor y z → x = y.
Proof.
  intros Heq. apply (f_equal (λ v, Z.lxor v z)) in Heq.
  by rewrite !Z.lxor_assoc, !Z.lxor_nilpotent, !Z.lxor_0_r in Heq.
Qed.

Lemma crc_ref_inj data x y : Forall is_byte data → is_word 32 x → is_word 32 y →
  crc_ref data x = crc_ref data y → x = y.
Proof.
  intros Hd. revert x y. induction Hd as [|b data Hb Hd IH]; intros x y Hx Hy Heq; [done|].
  assert (∀ z, is_word 32 z → is_word 32 (Z.lxor z b)) as Hw
    by (intros; apply lxor_word; auto using byte_word; lia).
  apply (IH (byte_step (Z.lxor x b)) (byte_step (Z.lxor y b))) in Heq;
    [|by apply iter_step_word, Hw..].
  apply byte_step_inj in Heq; auto. by eapply lxor_cancel_r.
Qed.

Lemma not32_inj x y : is_word 32 x → is_word 32 y → not32 x = not32 y → x = y.
Proof.
  intros Hx Hy Heq. rewrite <-(wrap_small 32 x Hx), <-(wrap_small 32 y Hy).
  apply Z.bits_inj'. intros i Hi. pose proof (f_equal (λ v, Z.testbit v i) Heq) as Hb.
  unfold not32 in Hb. simpl in Hb. rewrite !wrap_testbit, !Z.lnot_spec in Hb by lia.
  rewrite !wrap_testbit by lia.
  destruct (i <? 32), (Z.testbit x i), (Z.testbit y i); done.
Qed.

(** ** Properties *)

(** C38: The table-driven CRC is the bit-at-a-time CRC-32 with the reflected
    polynomial 0xEDB88320, for any data and starting value. *)
Theorem crc_calc32_is_crc32 data : Forall is_byte data →
  crc_calc32 data = not32 (crc_ref data 0xffffffff) ∧
  ∀ crc, crc_update data crc = crc_ref data crc.
Proof.
  intros Hd. split; intros; [unfold crc_calc32; f_equal|]; by apply crc_update_ref_eq.
Qed.

(** The check value of the CRC-32 standard, for the text "123456789". *)
Lemma crc_calc32_is_crc32_witness :
  crc_calc32 [49; 50; 51; 52; 53; 54; 55; 56; 57] = 0xCBF43926 ∧
  not32 (crc_ref [49; 50; 51; 52; 53; 54; 55; 56; 57] 0xffffffff) = 0xCBF43926.
Proof.
  rewrite <-(proj1 (crc_calc32_is_crc32 [49; 50; 51; 52; 53; 54; 55; 56; 57]
    ltac:(repeat constructor; unfold is_word; lia))).
  split; by vm_compute.
Defined.

(** A packet in which one byte was altered never passes the CRC check. *)
Theorem crc_detects_altered_byte before b b' after_ :
  Forall is_byte (before ++ b :: after_) → is_byte b' → b ≠ b' →
  crc_calc32 (before ++ b :: after_) ≠ crc_calc32 (before ++ b' :: after_).
Proof.
  intros Hd Hb' Hne Heq. pose proof Hd as [Hbef [Hb Haft]%Forall_cons]%Forall_app.
  assert (Hd' : Forall is_byte (before ++ b' :: after_)) by (apply Forall_app; split; [done|by constructor]).
  unfold crc_calc32 in Heq. rewrite !crc_update_ref_eq in Heq by done.
  assert (H1 : is_word 32 0xffffffff) by (unfold is_word; lia).
  apply not32_inj in Heq; [|by apply crc_ref_word..].
  unfold crc_ref in Heq. rewrite !foldl_app in Heq. simpl in Heq.
  change (foldl (λ crc b, byte_step (Z.lxor crc b)) 4294967295 before) with (crc_ref before 0xffffffff) in Heq.
  set (s := crc_ref before 0xffffffff) in *.
  assert (Hs : is_word 32 s) by by apply crc_ref_word.
  assert (∀ z, is_byte z → is_word 32 (Z.lxor s z)) as Hw
    by (intros; apply lxor_word; auto using byte_word; lia).
  apply crc_ref_inj in Heq; [|done|by apply iter_step_word, Hw..].
  apply byte_step_inj in Heq; auto. apply Hne.
  rewrite !(Z.lxor_comm s) in Heq. by eapply lxor_cancel_r.
Qed.

Lemma crc_detects_altered_byte_witness : crc_calc32 ([1; 2] ++ 3 :: [4]) ≠ crc_calc32 ([1; 2] ++ 7 :: [4]).
Proof.
  apply (crc_detects_altered_byte [1; 2] 3 7 [4]); [repeat constructor; unfold is_word; lia|unfold is_word; lia|done].
Defined.
