(* ===== verification/PacketTrilogy.v ===== *)
(** Outgoing packets and their fragments: non_master/net/packet_trilogy.c.

    A packet keeps room for the protocol header in front of its data, once per
    fragment. [fragmentize] moves the data of every fragment but the first
    towards the end of the allocation, in place and backwards, so that each
    fragment gets its own header and CRC room. *)

From S2P Require Import Prelude.

Definition CRC_SIZE : Z := 4.
Definition HEADER_SIZE : Z := 18.
Definition DATA_OFFSET : Z := HEADER_SIZE.
Definition DATA_SPACE : Z := 512.
(** sizeof(PacketTrilogy), without the data. *)
Definition SIZEOF_PACKET : Z := 12.

Record PacketTrilogy := mkPacket {
  opcode : Z;
  fragCount : Z;
  dataLength : Z;
  refCount : Z;
  data : list Z;   (* what malloc returned after the struct *)
}.

Definition with_data (p : PacketTrilogy) (d : list Z) : PacketTrilogy :=
  mkPacket (opcode p) (fragCount p) (dataLength p) (refCount p) d.

(** ** Operations *)

(** The allocation's size and the number of fragments after the first. *)
Definition packet_trilogy_calc_length_and_frag_count (length_ : Z) : Z * Z :=
  if length_ <=? DATA_SPACE then
    (u32 (SIZEOF_PACKET + HEADER_SIZE + length_ + CRC_SIZE), 0)
  else
    let count := length_ / DATA_SPACE in
    let rem := length_ mod DATA_SPACE in
    let count := if negb (rem =? 0) then u32 (count + 1) else count in
    (u32 (SIZEOF_PACKET + HEADER_SIZE * count + length_ + CRC_SIZE * count), u16 (count - 1)).

(** [mem] is the memory malloc returns for the data; its content is arbitrary. *)
Definition packet_trilogy_create (opcode_ length_ : Z) (mem : list Z) : PacketTrilogy :=
  let '(allocLength, fragCount) := packet_trilogy_calc_length_and_frag_count length_ in
  mkPacket opcode_ fragCount length_ 0 (take (Z.to_nat (allocLength - SIZEOF_PACKET)) mem).

Definition packet_trilogy_grab (p : PacketTrilogy) : PacketTrilogy :=
  mkPacket (opcode p) (fragCount p) (dataLength p) (i32 (refCount p + 1)) (data p).

(** [None] once the last reference is dropped: the packet is freed. *)
Definition packet_trilogy_drop (p : PacketTrilogy) : option PacketTrilogy :=
  if refCount p <=? 1 then None
  else Some (mkPacket (opcode p) (fragCount p) (dataLength p) (i32 (refCount p - 1)) (data p)).

Definition packet_trilogy_length (p : PacketTrilogy) : Z := dataLength p.
Definition packet_trilogy_frag_count (p : PacketTrilogy) : Z := fragCount p.
Definition packet_trilogy_length_raw (p : PacketTrilogy) : Z :=
  u32 (dataLength p + (DATA_OFFSET + CRC_SIZE) * (fragCount p + 1)).

(** [for (j = 0; j < n; j++) data[dst--] = data[src--];] *)
Fixpoint copy_back (n : nat) (d : list Z) (dst src : Z) : outcome (list Z * Z * Z) :=
  match n with
  | O => Ok (d, dst, src)
  | S n =>
      v ← deref (d !! Z.to_nat src);
      _ ← deref (d !! Z.to_nat dst);
      copy_back n (<[Z.to_nat dst := v]> d) (u32 (dst - 1)) (u32 (src - 1))
  end.

(** The loop over the [n] fragments after the first, the last one first. *)
Fixpoint frag_loop (n : nat) (d : list Z) (dst src len : Z) : outcome (list Z) :=
  match n with
  | O => Ok d
  | S n =>
      '(d, dst, src) ← copy_back (Z.to_nat len) d dst src;
      frag_loop n d (u32 (dst - (DATA_OFFSET + CRC_SIZE))) src DATA_SPACE
  end.

Definition packet_trilogy_fragmentize (p : PacketTrilogy) : outcome PacketTrilogy :=
  let n := fragCount p in
  if n =? 0 then Ok p
  else
    let src := u32 (dataLength p + DATA_OFFSET - 1) in
    let dst := u32 (packet_trilogy_length_raw p - CRC_SIZE - 1) in
    (* the opcode counts towards the first fragment *)
    let len := u32 (dataLength p + 2) mod DATA_SPACE in
    let len := if len =? 0 then DATA_SPACE else len in
    d ← frag_loop (Z.to_nat n) (data p) dst src len;
    Ok (with_data p d).

(** ** The backwards copy *)
Lemma copy_back_spec n d dst src : 0 ≤ src → src < dst → dst < Z.of_nat (length d) → dst < 2 ^ 32 →
  Z.of_nat n ≤ src + 1 →
  ∃ d', copy_back n d dst src = Ok (d', u32 (dst - Z.of_nat n), u32 (src - Z.of_nat n)) ∧
    length d' = length d ∧
    ∀ i, d' !! i = if decide (dst - Z.of_nat n < Z.of_nat i ≤ dst)
                   then d !! (i - Z.to_nat (dst - src))%nat else d !! i.
Proof.
  revert d dst src. induction n as [|n IH]; intros d dst src Hs Hlt Hd Hw Hn.
  - exists d. cbn [copy_back]. rewrite !Z.sub_0_r, !wrap_small by (unfold is_word; lia).
    split_and!; [done|done|]. intros i. by rewrite decide_False by lia.
  - cbn [copy_back].
    destruct (lookup_lt_is_Some_2 d (Z.to_nat src)) as [v Hv]; [lia|].
    destruct (lookup_lt_is_Some_2 d (Z.to_nat dst)) as [w Hdst]; [lia|].
    rewrite Hv, Hdst. cbn [deref mbind outcome_bind].
    destruct (decide (src = 0)) as [->|Hne].
    + assert (n = 0%nat) as -> by lia. cbn [copy_back].
      exists (<[Z.to_nat dst:=v]> d). rewrite length_insert. split_and!; [done|done|].
      intros i. case_decide as Hi.
      * replace i with (Z.to_nat dst) by lia. rewrite list_lookup_insert_eq by lia.
        rewrite <-Hv. f_equal. lia.
      * by rewrite list_lookup_insert_ne by lia.
    + rewrite (wrap_small _ (dst - 1)), (wrap_small _ (src - 1)) by (unfold is_word; lia).
      destruct (IH (<[Z.to_nat dst:=v]> d) (dst - 1) (src - 1)) as (d' & -> & Hlen & Hall);
        [lia|lia|rewrite length_insert; lia|lia|lia|].
      rewrite length_insert in Hlen. exists d'. split_and!; [|done|].
      { replace (dst - Z.of_nat (S n)) with (dst - 1 - Z.of_nat n) by lia.
        by replace (src - Z.of_nat (S n)) with (src - 1 - Z.of_nat n) by lia. }
      intros i. rewrite Hall. repeat case_decide; try lia.
      * rewrite list_lookup_insert_ne by lia. f_equal. lia.
      * replace i with (Z.to_nat dst) by lia. rewrite list_lookup_insert_eq by lia.
        rewrite <-Hv. f_equal. lia.
      * by rewrite list_lookup_insert_ne by lia.
Qed.

(** ** The loop over fragments *)

(** Bytes moved before piece [j], and where the piece ends before and after. *)
Definition moved (len : Z) (j : nat) : Z :=
  match j with O => 0 | S j => len + DATA_SPACE * Z.of_nat j end.

Lemma frag_loop_spec n d dst src len : 0 < len ≤ DATA_SPACE →
  moved len n ≤ src + 1 → src + 22 * Z.of_nat n = dst → dst < Z.of_nat (length d) → dst < 2 ^ 32 →
  ∃ d', frag_loop n d dst src len = Ok d' ∧ length d' = length d ∧
    (∀ i, Z.of_nat i ≤ src - moved len n ∨ dst < Z.of_nat i → d' !! i = d !! i) ∧
    (∀ (j : nat) t, (j < n)%nat → 0 ≤ t < (match j with O => len | _ => DATA_SPACE end) →
       d' !! Z.to_nat (dst - moved len j - 22 * Z.of_nat j - t) = d !! Z.to_nat (src - moved len j - t)).
Proof.
  revert d dst src len. induction n as [|n IH]; intros d dst src len Hlen Hm Hgap Hd Hw.
  { exists d. split_and!; try done. lia. }
  assert (Hmn : moved len (S n) = len + DATA_SPACE * Z.of_nat n) by done.
  unfold DATA_SPACE in *. cbn [frag_loop].
  destruct (copy_back_spec (Z.to_nat len) d dst src) as (d1 & -> & Hl1 & Hall1); [lia..|].
  cbn [mbind outcome_bind]. rewrite Z2Nat.id in * by lia.
  destruct n as [|n].
  - cbn [frag_loop]. exists d1. split_and!; [done|done| |].
    + intros i Hi. rewrite Hall1, decide_False; [done|]. simpl in *. lia.
    + intros j t Hj Ht. assert (j = 0%nat) as -> by lia. simpl in *.
      rewrite Hall1, decide_True by lia. f_equal. lia.
  - rewrite (wrap_small _ (dst - len)), (wrap_small _ (src - len)) by (unfold is_word; lia).
    unfold DATA_OFFSET, HEADER_SIZE, CRC_SIZE.
    rewrite (wrap_small _ (dst - len - _)) by (unfold is_word; lia).
    assert (Hmove : moved 512 (S n) = 512 + 512 * Z.of_nat n) by done.
    destruct (IH d1 (dst - len - (18 + 4)) (src - len) 512) as (d2 & Hloop & Hl2 & Hkeep & Hpiece);
      [lia..|]. unfold DATA_SPACE. rewrite Hloop. exists d2. split_and!; [done|congruence| |].
    + intros i Hi. rewrite Hkeep by lia. rewrite Hall1, decide_False; [done|]. lia.
    + intros j t Hj Ht. destruct j as [|j].
      * rewrite Hkeep by (simpl; lia). rewrite Hall1, decide_True by (simpl; lia). f_equal. simpl. lia.
      * assert (Hmj : moved len (S j) = len + moved 512 j)
          by (destruct j; unfold moved, DATA_SPACE; lia).
        specialize (Hpiece j t ltac:(lia) ltac:(destruct j; lia)).
        assert (Hmle : 0 ≤ moved 512 j)
          by (destruct j; unfold moved, DATA_SPACE; lia).
        replace (dst - moved len (S j) - 22 * Z.of_nat (S j) - t)
          with (dst - len - (18 + 4) - moved 512 j - 22 * Z.of_nat j - t) by lia.
        rewrite Hpiece, Hall1, decide_False by lia. f_equal. lia.
Qed.

(** ** Where the sender looks for the fragments *)

(** Offset and size of fragment [k] in the raw buffer: the first fragment's
    data shares its 512 bytes with the opcode. *)
Definition frag_offset (k : nat) : Z :=
  match k with O => 18 | S k => 18 + 510 + 22 + 534 * Z.of_nat k end.

Definition frag_start (k : nat) : Z :=
  match k with O => 0 | S k => 510 + 512 * Z.of_nat k end.

(** What fragment [k] should carry of the payload [p]. *)
Definition frag_payload (p : list Z) (k : nat) : list Z :=
  take (if k is O then 510 else 512) (drop (Z.to_nat (frag_start k)) p).

Definition window (d : list Z) (off len : Z) : list Z := take (Z.to_nat len) (drop (Z.to_nat off) d).

Lemma concat_frags (p : list Z) n : Z.of_nat (length p) ≤ frag_start (S n) →
  concat (frag_payload p <$> seq 0 (S n)) = p.
Proof.
  assert (Hgen : ∀ n k, Z.of_nat (length p) ≤ frag_start (k + n) →
    concat (frag_payload p <$> seq k n) = drop (Z.to_nat (frag_start k)) p).
  { clear n. intros n. induction n as [|n IH]; intros k Hk.
    - rewrite Nat.add_0_r in Hk. simpl. rewrite drop_ge; [done|lia].
    - simpl. rewrite IH by (replace (S k + n)%nat with (k + S n)%nat by lia; done).
      unfold frag_payload. rewrite <-(take_drop (if k is O then 510%nat else 512%nat)
        (drop (Z.to_nat (frag_start k)) p)) at 2. f_equal. rewrite drop_drop. f_equal.
      destruct k; simpl; lia. }
  intros Hn. by rewrite Hgen.
Qed.

Lemma window_lookup d off len i : 0 ≤ off → Z.of_nat i < len →
  window d off len !! i = d !! Z.to_nat (off + Z.of_nat i).
Proof. intros. unfold window. rewrite lookup_take_lt, lookup_drop by lia. f_equal. lia. Qed.

Lemma window_length d off len : 0 ≤ off → 0 ≤ len → off + len ≤ Z.of_nat (length d) →
  Z.of_nat (length (window d off len)) = len.
Proof. intros. unfold window. rewrite length_take, length_drop. lia. Qed.

(** [packet_trilogy_create] for a payload of more than one fragment. *)
Lemma create_frag_count l : DATA_SPACE < l < 2 ^ 25 → l mod 512 ≠ 0 →
  (packet_trilogy_calc_length_and_frag_count l).2 = l / 512 ∧
  (packet_trilogy_calc_length_and_frag_count l).1 = SIZEOF_PACKET + l + 22 * (l / 512 + 1).
Proof.
  intros Hl Hr. unfold packet_trilogy_calc_length_and_frag_count, DATA_SPACE, SIZEOF_PACKET, HEADER_SIZE, CRC_SIZE in *.
  rewrite (proj2 (Z.leb_gt _ _)) by lia. rewrite (proj2 (Z.eqb_neq _ _)) by done. simpl negb. cbv iota.
  assert (0 < l / 512 < 2 ^ 16) by (split; [apply Z.div_str_pos|apply Z.div_lt_upper_bound]; lia).
  rewrite (wrap_small _ (l / 512 + 1)) by (unfold is_word; lia). cbn [fst snd]. split.
  - rewrite wrap_small by (unfold is_word; lia). lia.
  - rewrite wrap_small by (unfold is_word; lia). lia.
Qed.

(** A packet made for the payload [p], its data filled in. *)
Record made_for (pk : PacketTrilogy) (p : list Z) : Prop := {
  m_len : dataLength pk = Z.of_nat (length p);
  m_frags : fragCount pk = (packet_trilogy_calc_length_and_frag_count (Z.of_nat (length p))).2;
  m_alloc : Z.of_nat (length (data pk)) =
    (packet_trilogy_calc_length_and_frag_count (Z.of_nat (length p))).1 - SIZEOF_PACKET;
  m_data : window (data pk) DATA_OFFSET (Z.of_nat (length p)) = p;
}.

Lemma fragmentize_pieces pk p : made_for pk p → DATA_SPACE < Z.of_nat (length p) < 2 ^ 25 →
  1 ≤ Z.of_nat (length p) mod 512 ≤ 510 →
  ∃ pk', packet_trilogy_fragmentize pk = Ok pk' ∧ length (data pk') = length (data pk) ∧
    dataLength pk' = dataLength pk ∧ fragCount pk' = fragCount pk ∧ opcode pk' = opcode pk ∧
    ∀ (k : nat) t, Z.of_nat k ≤ fragCount pk → 0 ≤ t < (if k is O then 510 else 512) →
      frag_start k + t < Z.of_nat (length p) →
      data pk' !! Z.to_nat (frag_offset k + t) = p !! Z.to_nat (frag_start k + t).
Proof.
  intros [Hdl Hfc Hal Hd] Hl Hr. destruct (create_frag_count _ Hl ltac:(lia)) as [Hc Ha].
  rewrite Hc in Hfc. rewrite Ha in Hal. set (L := Z.of_nat (length p)) in *.
  pose proof (Z.div_mod L 512 ltac:(lia)) as Hdm. set (q := L / 512) in *. set (r := L mod 512) in *.
  unfold DATA_SPACE, SIZEOF_PACKET in *. assert (1 ≤ q) by (unfold q; apply Z.div_le_lower_bound; lia).
  assert (Hp : ∀ i, 0 ≤ i < L → data pk !! Z.to_nat (18 + i) = p !! Z.to_nat i).
  { intros i Hi. rewrite <-Hd. rewrite window_lookup by (unfold DATA_OFFSET, HEADER_SIZE; lia).
    unfold DATA_OFFSET, HEADER_SIZE. f_equal. lia. }
  assert (Hmod : (L + 2) mod 512 = (r + 2) mod 512)
    by (unfold r; rewrite Z.add_mod_idemp_l; lia).
  assert (Hlen : (if (u32 (dataLength pk + 2) mod 512 =? 0) then 512 else u32 (dataLength pk + 2) mod 512) = r + 2).
  { rewrite Hdl, wrap_small, Hmod by (unfold is_word; lia).
    destruct (decide (r = 510)) as [->|]; [done|]. rewrite Z.mod_small by lia.
    by rewrite (proj2 (Z.eqb_neq _ _)) by lia. }
  assert (Hmoved : ∀ j : nat, (1 ≤ j)%nat → moved (r + 2) j = r + 2 + 512 * (Z.of_nat j - 1))
    by (intros [|j] ?; unfold moved, DATA_SPACE; lia).
  destruct (frag_loop_spec (Z.to_nat q) (data pk) (L + 22 * (q + 1) - 4 - 1) (L + 18 - 1) (r + 2))
    as (d' & Hloop & Hlen' & Hkeep & Hpiece); [unfold DATA_SPACE; lia|rewrite Hmoved; lia|lia..|].
  exists (with_data pk d'). split_and!; [|done..|].
  - unfold packet_trilogy_fragmentize. rewrite (proj2 (Z.eqb_neq (fragCount pk) 0)) by lia.
    unfold packet_trilogy_length_raw, DATA_SPACE, DATA_OFFSET, HEADER_SIZE, CRC_SIZE. cbv zeta.
    rewrite Hlen, Hdl, Hfc.
    rewrite (wrap_small _ (L + 18 - 1)), (wrap_small _ (L + (18 + 4) * (q + 1))), (wrap_small _ (_ - 4 - 1))
      by (unfold is_word; lia).
    replace (L + (18 + 4) * (q + 1) - 4 - 1) with (L + 22 * (q + 1) - 4 - 1) by lia. by rewrite Hloop.
  - intros k t Hk Ht Hin. cbn [data with_data]. destruct k as [|k].
    + unfold frag_offset, frag_start in *. rewrite Hkeep by (left; rewrite Hmoved; lia).
      rewrite Hp by lia. done.
    + set (j := (Z.to_nat q - S k)%nat).
      assert (Hlenj : ∃ u, 0 ≤ u < (match j with O => r + 2 | _ => DATA_SPACE end) ∧
        frag_offset (S k) + t = L + 22 * (q + 1) - 4 - 1 - moved (r + 2) j - 22 * Z.of_nat j - u ∧
        18 + (frag_start (S k) + t) = L + 18 - 1 - moved (r + 2) j - u).
      { unfold frag_offset, frag_start, DATA_SPACE in *. destruct (decide (j = 0%nat)) as [Hj|Hj].
        - exists (r + 2 - 1 - t). rewrite Hj. unfold moved. lia.
        - exists (512 - 1 - t). rewrite Hmoved by lia. destruct j eqn:Hje; lia. }
      destruct Hlenj as (u & Hu & Hoff & Hst). rewrite Hoff.
      rewrite Hpiece by (unfold j; lia || done). rewrite <-Hst. apply Hp. unfold frag_start in *. lia.
Qed.

(** ** Properties *)

(** Fragmenting a packet, of any payload whose size is not 511 or 0 modulo 512,
    puts every fragment at the offset the sender cuts it from, and the
    fragments put together are the payload. *)
Theorem fragmentize_lays_out_payload pk p :
  made_for pk p → DATA_SPACE < Z.of_nat (length p) < 2 ^ 25 →
  1 ≤ Z.of_nat (length p) mod 512 ≤ 510 →
  ∃ pk', packet_trilogy_fragmentize pk = Ok pk' ∧
    concat ((λ k, window (data pk') (frag_offset k) (Z.of_nat (length (frag_payload p k))))
              <$> seq 0 (S (Z.to_nat (fragCount pk)))) = p.
Proof.
  intros Hm Hl Hr. destruct (fragmentize_pieces pk p Hm Hl Hr) as (pk' & Hf & Hlen & _ & _ & _ & Hpiece).
  exists pk'. split; [done|]. destruct Hm as [Hdl Hfc Hal Hd].
  destruct (create_frag_count _ Hl ltac:(lia)) as [Hc Ha]. rewrite Hc in Hfc. rewrite Ha in Hal.
  pose proof (Z.div_mod (Z.of_nat (length p)) 512 ltac:(lia)) as Hdm.
  unfold DATA_SPACE in Hl. assert (1 ≤ Z.of_nat (length p) / 512) by (apply Z.div_le_lower_bound; lia).
  etrans; [|apply (concat_frags p (Z.to_nat (fragCount pk)))].
  2: { unfold frag_start. rewrite Hfc, Z2Nat.id by lia. lia. }
  f_equal. apply list_fmap_ext. intros i k [Hk Hi]%lookup_seq. simpl in Hk. subst k.
  assert (Hfl : length (frag_payload p i) = Nat.min (if i is O then 510 else 512) (length p - Z.to_nat (frag_start i)))
    by (unfold frag_payload; by rewrite length_take, length_drop).
  apply list_eq. intros t. destruct (decide (t < length (frag_payload p i))%nat) as [Ht|Ht].
  - rewrite window_lookup by (unfold frag_offset; destruct i; lia).
    rewrite Hpiece; [|lia|destruct i; lia|unfold frag_start in *; destruct i; lia].
    unfold frag_payload. rewrite lookup_take_lt, lookup_drop by (destruct i; lia).
    f_equal. unfold frag_start. destruct i; lia.
  - rewrite !lookup_ge_None_2; [done|lia|]. unfold window. rewrite length_take. lia.
Qed.

(** A packet created for [p] whose data area was filled with [p]. *)
Definition filled (opcode_ : Z) (p mem : list Z) : PacketTrilogy :=
  let pk := packet_trilogy_create opcode_ (Z.of_nat (length p)) mem in
  with_data pk (take 18 (data pk) ++ p ++ drop (18 + length p) (data pk)).

Lemma fragmentize_lays_out_payload_witness :
  let p := Z.of_nat <$> seq 0 1200 in
  let pk := filled 9 p (replicate 2000 0) in
  ∃ pk', packet_trilogy_fragmentize pk = Ok pk' ∧ window (data pk') (frag_offset 1) 3 = [510; 511; 512] ∧
    concat ((λ k, window (data pk') (frag_offset k) (Z.of_nat (length (frag_payload p k)))) <$> seq 0 3) = p.
Proof.
  intros p pk. destruct (fragmentize_lays_out_payload pk p) as (pk' & Hf & Hc).
  - split; by vm_compute.
  - split; by vm_compute.
  - by split; vm_compute.
  - exists pk'. split; [exact Hf|]. split; [|exact Hc].
    assert (packet_trilogy_fragmentize pk = Ok pk' → window (data pk') (frag_offset 1) 3 = [510; 511; 512]) as Hw.
    { destruct (packet_trilogy_fragmentize pk) as [x| |] eqn:E; [|done..]. intros [= <-].
      assert (match packet_trilogy_fragmentize pk with Ok x => window (data x) (frag_offset 1) 3 | _ => [] end
        = [510; 511; 512]) as Hx by (by vm_compute). by rewrite E in Hx. }
    by apply Hw.
Defined.
