(* ===== verification/NetClient.v ===== *)
(** The sending side of a Trilogy connection:
    non_master/net/network_client_trilogy.c, the scheduling half of
    ack_mgr_trilogy.c, ack_common.c and network_client.c.

    Scheduled packets wait in [outputPackets] until the client acks them.
    Datagrams handed to sendto are collected in [sent], oldest first. Time is
    an argument: [now] is clock_milliseconds when send_queued starts, [stamp]
    while it sends. A wrapper owns its packet here; packets shared between
    connections have their headers rewritten before every send. *)

From S2P Require Import Prelude Aligned Crc PacketTrilogy.

(** PacketTrilogyHeaderBits. *)
Definition HasAckRequest : Z := 0x0002.
Definition IsClosing : Z := 0x0004.
Definition IsFragment : Z := 0x0008.
Definition HasAckCounter : Z := 0x0010.
Definition IsFirstPacket : Z := 0x0020.
Definition IsClosing2 : Z := 0x0040.
Definition IsSequenceEnd : Z := 0x0080.
Definition HasAckResponse : Z := 0x0400.
Definition UnknownBit11 : Z := 0x0800.
Definition UnknownBit12 : Z := 0x1000.
Definition UnknownBit13 : Z := 0x2000.
Definition UnknownBit14 : Z := 0x4000.
Definition UnknownBit15 : Z := 0x8000.

Definition RESEND_MILLISECONDS : Z := 250.
Definition ACK_WINDOW_HALF_SIZE : Z := 1024.

Inductive AckRelativity := AckPresent | AckFuture | AckPast.

(** The comparisons are made in int: [expected - 1024] may be negative. *)
Definition ack_compare (got expected : Z) : AckRelativity :=
  if got =? expected then AckPresent
  else if ((expected <? got) && (got <? expected + ACK_WINDOW_HALF_SIZE))
          || (got <? expected - ACK_WINDOW_HALF_SIZE) then AckFuture
  else AckPast.

Record OutputPacket := mkOutput {
  header : Z;
  ackRequest : Z;
  fragGroup : Z;
  o_fragCount : Z;
  ackCounterAlwaysOne : Z;
  ackCounterRequest : Z;
  ackTimestamp : Z;
  packet : option PacketTrilogy;
}.

Record NetClient := mkClient {
  outputPackets : list OutputPacket;
  nextAckResponse : Z;
  nextAckRequestExpected : Z;
  nextAckRequestCheck : Z;
  nextSeqToSend : Z;
  lastAckReceived : Z;
  sendFromIndex : Z;
  packetsSent : Z;
  ignoreAllPackets : bool;   (* the flag of the UdpClient *)
  sent : list (list Z);
}.

Definition set_output (c : NetClient) (o : list OutputPacket) (from : Z) : NetClient :=
  mkClient o (nextAckResponse c) (nextAckRequestExpected c) (nextAckRequestCheck c)
    (nextSeqToSend c) (lastAckReceived c) from (packetsSent c) (ignoreAllPackets c) (sent c).

Definition set_acks (c : NetClient) (response expected check : Z) : NetClient :=
  mkClient (outputPackets c) response expected check
    (nextSeqToSend c) (lastAckReceived c) (sendFromIndex c) (packetsSent c) (ignoreAllPackets c) (sent c).

Definition network_client_trilogy_init : NetClient := mkClient [] 0 0 0 0 0 0 0 false [].

(** ** network_client_send and the small senders *)
Definition network_client_send (dg : list Z) : code NetClient unit :=
  modify (λ c, mkClient (outputPackets c) (nextAckResponse c) (nextAckRequestExpected c)
    (nextAckRequestCheck c) (nextSeqToSend c) (lastAckReceived c) (sendFromIndex c)
    (u64 (packetsSent c + 1)) (ignoreAllPackets c) (sent c ++ [dg])).

(** [client->nextSeqToSend++]: the old value. *)
Definition next_seq : code NetClient Z := λ c,
  (Ok (nextSeqToSend c),
   mkClient (outputPackets c) (nextAckResponse c) (nextAckRequestExpected c) (nextAckRequestCheck c)
     (u16 (nextSeqToSend c + 1)) (lastAckReceived c) (sendFromIndex c) (packetsSent c)
     (ignoreAllPackets c) (sent c)).

(** Running code on a buffer inside client code; after an exception the client
    is as it was before. *)
Definition on_buffer {A} (a : Aligned) (m : code Aligned A) : code NetClient (A * Aligned) := λ c,
  match m a with
  | (Ok x, a') => (Ok (x, a'), c)
  | (Throw e, _) => (Throw e, c)
  | (Fault, _) => (Fault, c)
  end.

(** The [len] bytes at [pos] of the buffer. *)
Definition bytes_at (pos len : Z) : code Aligned (list Z) := λ a,
  if (pos + len <=? Z.of_nat (length (buffer a))) && (0 <=? pos) then (Ok (window (buffer a) pos len), a)
  else (Fault, a).

Definition network_client_trilogy_send_pure_ack (ackResponse : Z) : code NetClient unit :=
  seq ← next_seq;
  '(_, a) ← on_buffer (aligned_init (replicate 10 0) 10) (
    aligned_write_uint16 HasAckResponse ;;
    aligned_write_uint16 (toNetworkUint16 seq) ;;
    aligned_write_uint16 ackResponse ;;
    data ← bytes_at 0 6;
    aligned_write_uint32 (crc_calc32_network data));
  network_client_send (buffer a).

(** The struct is written field by field; the host is little-endian. *)
Definition network_client_trilogy_send_disconnect : code NetClient unit :=
  seq ← next_seq;
  let dis := le_bytes 2 (Z.lor IsClosing IsClosing2) ++ le_bytes 2 (toNetworkUint16 seq) in
  network_client_send (dis ++ le_bytes 4 (crc_calc32_network dis)) ;;
  modify (λ c, mkClient (outputPackets c) (nextAckResponse c) (nextAckRequestExpected c)
    (nextAckRequestCheck c) (nextSeqToSend c) (lastAckReceived c) (sendFromIndex c)
    (packetsSent c) true (sent c)).

Definition network_client_trilogy_send_keep_alive_ack : code NetClient unit :=
  c ← get; network_client_trilogy_send_pure_ack (toNetworkUint16 (nextAckRequestCheck c)).

(** ** One fragment *)

(** [header |= PacketTrilogyHasAckResponse] where there is a response. *)
Definition frame_header (header ackResponse : Z) : Z :=
  if negb (ackResponse =? 0) then Z.lor header HasAckResponse else header.

(** The header, written backwards from the data; [seq] is the sequence number
    taken from the client. *)
Definition write_header (w : OutputPacket) (opcode ackResponse fragIndex seq : Z) : code Aligned unit :=
  (if (fragIndex =? 0) && negb (opcode =? 0) then aligned_write_reverse_uint16 opcode else mret tt) ;;
  (if bits (header w) HasAckRequest then
     aligned_write_reverse_uint8 (u8 (ackCounterRequest w + fragIndex)) ;;
     aligned_write_reverse_uint8 (ackCounterAlwaysOne w)
   else mret tt) ;;
  (if bits (header w) IsFragment then
     aligned_write_reverse_uint16 (toNetworkUint16 (o_fragCount w)) ;;
     aligned_write_reverse_uint16 (toNetworkUint16 (u16 fragIndex)) ;;
     aligned_write_reverse_uint16 (toNetworkUint16 (fragGroup w))
   else mret tt) ;;
  (if bits (header w) HasAckRequest then
     aligned_write_reverse_uint16 (toNetworkUint16 (u16 (ackRequest w + fragIndex)))
   else mret tt) ;;
  (if negb (ackResponse =? 0) then aligned_write_reverse_uint16 ackResponse else mret tt) ;;
  aligned_write_reverse_uint16 (toNetworkUint16 seq) ;;
  aligned_write_reverse_uint16 (frame_header (header w) ackResponse).

(** Returns the datagram. *)
Definition send_fragment (w : OutputPacket) (dataLength opcode ackResponse fragIndex seq : Z)
    : code Aligned (list Z) :=
  orig ← gets cursor;
  write_header w opcode ackResponse fragIndex seq ;;
  pos ← gets cursor;
  let dataLength := u32 (dataLength + u32 (orig - pos)) in
  _ ← aligned_advance dataLength;
  data ← bytes_at pos dataLength;
  aligned_write_uint32 (crc_calc32_network data) ;;
  bytes_at pos (u32 (dataLength + 4)).

Definition network_client_trilogy_send_fragment (w : OutputPacket) (a : Aligned)
    (dataLength opcode ackResponse fragIndex : Z) : code NetClient Aligned :=
  seq ← next_seq;
  '(dg, a) ← on_buffer a (send_fragment w dataLength opcode ackResponse fragIndex seq);
  network_client_send dg ;;
  mret a.

(** ** send_queued *)

(** [while (ack_compare(ackReceived, ack) != AckPast && fragIndex < fragCount)]:
    skip the fragments the client has acked. *)
Fixpoint skip_acked (fuel : nat) (ackReceived ack fragIndex fragCount : Z) (a : Aligned)
    : outcome (Z * Aligned) :=
  match fuel with
  | O => Ok (fragIndex, a)
  | S fuel =>
      let past := match ack_compare ackReceived ack with AckPast => true | _ => false end in
      if negb past && (fragIndex <? fragCount) then
        match aligned_advance (DATA_OFFSET + DATA_SPACE - 2 + 4) a with
        | (Ok _, a) =>
            if 0 <? fragIndex then
              match aligned_advance 2 a with
              | (Ok _, a) => skip_acked fuel ackReceived (u16 (ack + 1)) (u16 (fragIndex + 1)) fragCount a
              | (Throw e, _) => Throw e
              | (Fault, _) => Fault
              end
            else skip_acked fuel ackReceived (u16 (ack + 1)) (u16 (fragIndex + 1)) fragCount a
        | (Throw e, _) => Throw e
        | (Fault, _) => Fault
        end
      else Ok (fragIndex, a)
  end.

(** [outputPackets[i] = w]. *)
Definition put_output (i : nat) (w : OutputPacket) : code NetClient unit :=
  modify (λ c, set_output c (<[i := w]> (outputPackets c)) (sendFromIndex c)).

Definition set_sent (w : OutputPacket) (stamp : Z) (pk : PacketTrilogy) : OutputPacket :=
  mkOutput (header w) (ackRequest w) (fragGroup w) (o_fragCount w) (ackCounterAlwaysOne w)
    (ackCounterRequest w) stamp (Some pk).

(** [for (; fragIndex < fragCount; fragIndex++)] for the wrapper [i] with the
    packet [pk]; at most [fuel] rounds. Gives the ack response still to send. *)
Fixpoint send_frags (fuel i : nat) (w : OutputPacket) (pk : PacketTrilogy) (a : Aligned)
    (dataLength ackResponse fragIndex stamp : Z) : code NetClient Z :=
  match fuel with
  | O => mret ackResponse
  | S fuel =>
      if fragIndex <? o_fragCount w then
        let space := if fragIndex =? 0 then DATA_SPACE - 2 else DATA_SPACE in
        '(_, a) ← on_buffer a (aligned_advance DATA_OFFSET);
        a ← network_client_trilogy_send_fragment w a
              (if space <? dataLength then space else dataLength) (opcode pk) ackResponse fragIndex;
        put_output i (set_sent w stamp (with_data pk (buffer a))) ;;
        send_frags fuel i w pk a (u32 (dataLength - space)) 0 (u16 (fragIndex + 1)) stamp
      else mret ackResponse
  end.

(** One round of the loop over [outputPackets]. *)
Definition send_wrapper (i : nat) (w : OutputPacket) (resend : bool)
    (ackReceived ackResponse now stamp : Z) : code NetClient Z :=
  match packet w with
  | None => fault
  | Some pk =>
      let a := aligned_init (data pk) (packet_trilogy_length_raw pk) in
      if resend && (u64 (now - ackTimestamp w) <? RESEND_MILLISECONDS) then mret ackResponse
      else
        '(fragIndex, a) ←
          (if resend && (1 <? o_fragCount w) then
             lift (skip_acked (Z.to_nat (o_fragCount w)) ackReceived (ackRequest w) 0 (o_fragCount w) a)
           else mret (0, a));
        send_frags (Z.to_nat (o_fragCount w)) i w pk a (packet_trilogy_length pk) ackResponse
          fragIndex stamp
  end.

Fixpoint send_loop (ws : list OutputPacket) (i : nat) (sendFromIndex ackReceived ackResponse now stamp : Z)
    : code NetClient Z :=
  match ws with
  | [] => mret ackResponse
  | w :: ws =>
      ackResponse ← send_wrapper i w (Z.of_nat i <? sendFromIndex) ackReceived ackResponse now stamp;
      send_loop ws (S i) sendFromIndex ackReceived ackResponse now stamp
  end.

Definition network_client_trilogy_send_queued (now stamp : Z) : code NetClient unit :=
  c ← get;
  ackResponse ← send_loop (outputPackets c) 0 (sendFromIndex c) (lastAckReceived c)
    (toNetworkUint16 (nextAckResponse c)) now stamp;
  (if negb (ackResponse =? 0) then network_client_trilogy_send_pure_ack ackResponse else mret tt) ;;
  modify (λ c', set_output (set_acks c' 0 (nextAckRequestExpected c') (nextAckRequestCheck c'))
                  (outputPackets c') (Z.of_nat (length (outputPackets c)))).

(** ** Acks from the client *)

(** The wrappers that the ack frees: [for (i = 0; i < n; i++)] up to the break. *)
Fixpoint count_acked (ws : list OutputPacket) (ack : Z) : nat :=
  match ws with
  | [] => 0
  | w :: ws =>
      if ack <? u16 (ackRequest w + (o_fragCount w - 1)) then 0 else S (count_acked ws ack)
  end.

(** [ack] arrives in network order. The freed packets leave with the shift. *)
Definition network_client_trilogy_recv_ack_response (ack : Z) : code NetClient unit := λ c,
  let ack := toNetworkUint16 ack in
  let c := mkClient (outputPackets c) (nextAckResponse c) (nextAckRequestExpected c)
    (nextAckRequestCheck c) (nextSeqToSend c) ack (sendFromIndex c) (packetsSent c)
    (ignoreAllPackets c) (sent c) in
  let n := sendFromIndex c in
  if Z.of_nat (length (outputPackets c)) <? n then (Fault, c)
  else
    let i := count_acked (take (Z.to_nat n) (outputPackets c)) ack in
    if (0 <? i)%nat then (Ok tt, set_output c (drop i (outputPackets c)) 0) else (Ok tt, c).

Definition network_client_trilogy_recv_ack_request (ack : Z) (isFirstPacket : bool) : code NetClient unit :=
  modify (λ c,
    if isFirstPacket then set_acks c ack ack ack
    else if ack =? nextAckRequestCheck c + 1 then set_acks c ack (nextAckRequestExpected c) ack
    else c).

Definition network_client_trilogy_schedule_packet (w : OutputPacket) : code NetClient unit :=
  modify (λ c, set_output c
    (outputPackets c ++ [mkOutput (header w) (ackRequest w) (fragGroup w) (o_fragCount w)
       (ackCounterAlwaysOne w) (ackCounterRequest w) (ackTimestamp w)
       (packet_trilogy_grab <$> packet w)]) (sendFromIndex c)).

(** Drops every queued packet; gives the packets that others still hold. *)
Definition network_client_trilogy_deinit : code NetClient (list PacketTrilogy) := λ c,
  (Ok (omap (λ w, packet w ≫= packet_trilogy_drop) (outputPackets c)), set_output c [] (sendFromIndex c)).
