(* ===== verification/AckMgr.v ===== *)
(** Ordering and reassembly of incoming packets, and scheduling of outgoing
    ones: non_master/net/ack_mgr_trilogy.c.

    Packets that arrive early wait in [inputPackets], the slot [i] for the ack
    request [i] after the next expected one. Packets handed to
    client_recv_packet_trilogy are collected in [delivered] as the opcode and
    the unread bytes, oldest first. The copy a slot owns is malloc'd memory:
    reading it or freeing it once it is [Freed] is a fault. *)

From S2P Require Import Prelude Aligned Crc PacketTrilogy NetClient.

Inductive memory :=
  | Null
  | Alive (bytes : list Z)
  | Freed.

Record InputPacket := mkInput {
  in_ackRequest : Z;
  in_fragCount : Z;
  in_opcode : Z;
  in_length : Z;
  in_data : memory;
}.

Record AckMgr := mkAckMgr {
  client : NetClient;
  nextAckToRequest : Z;
  nextFragGroup : Z;
  counterAlwaysOne : Z;
  counterRequest : Z;
  inputPackets : list InputPacket;
  delivered : list (Z * list Z);
}.

Definition with_client (m : AckMgr) (c : NetClient) : AckMgr :=
  mkAckMgr c (nextAckToRequest m) (nextFragGroup m) (counterAlwaysOne m) (counterRequest m)
    (inputPackets m) (delivered m).

Definition with_inputs (m : AckMgr) (ins : list InputPacket) : AckMgr :=
  mkAckMgr (client m) (nextAckToRequest m) (nextFragGroup m) (counterAlwaysOne m) (counterRequest m)
    ins (delivered m).

(** Client code run inside the ack manager. *)
Definition on_client {A} (f : code NetClient A) : code AckMgr A := λ m,
  let '(r, c) := f (client m) in (r, with_client m c).

Definition ack_mgr_trilogy_init : AckMgr := mkAckMgr network_client_trilogy_init 0 0 1 0 [] [].

Definition set_next_ack_request_expected (ack : Z) : code AckMgr unit :=
  on_client (modify (λ c, set_acks c (nextAckResponse c) ack (nextAckRequestCheck c))).

(** The call of the client's handler: it is given the bytes still unread. *)
Definition client_recv_packet_trilogy (opcode : Z) (bytes : list Z) : code AckMgr unit :=
  modify (λ m, mkAckMgr (client m) (nextAckToRequest m) (nextFragGroup m) (counterAlwaysOne m)
    (counterRequest m) (inputPackets m) (delivered m ++ [(opcode, bytes)])).

Definition remaining_bytes (a : Aligned) : list Z :=
  window (buffer a) (cursor a) (aligned_remaining a).

(** ** Completion of buffered packets *)
Definition read_memory (d : memory) : outcome (list Z) :=
  match d with Null => Ok [] | Alive bs => Ok bs | Freed => Fault end.

(** free(packet->data); free(NULL) does nothing. *)
Definition free_data (i : nat) : code AckMgr unit := λ m,
  match inputPackets m !! i with
  | Some p =>
      match in_data p with
      | Freed => (Fault, m)
      | Null => (Ok tt, m)
      | Alive _ => (Ok tt, with_inputs m (<[i := mkInput (in_ackRequest p) (in_fragCount p)
                     (in_opcode p) (in_length p) Freed]> (inputPackets m)))
      end
  | None => (Fault, m)
  end.

Definition input_at (i : nat) : code AckMgr InputPacket := λ m, (deref (inputPackets m !! i), m).

Definition ack_mgr_trilogy_complete_input_packet (i : nat) : code AckMgr Z :=
  p ← input_at i;
  bytes ← lift (read_memory (in_data p));
  client_recv_packet_trilogy (in_opcode p) bytes ;;
  free_data i ;;
  mret (u16 (in_ackRequest p + 1)).

(** [for (; i <= n; i++)]: the fragments' bytes in order, each freed. *)
Fixpoint gather (count i : nat) : code AckMgr (list Z) :=
  match count with
  | O => mret []
  | S count =>
      p ← input_at i;
      bytes ← lift (read_memory (in_data p));
      free_data i ;;
      rest ← gather count (S i);
      mret (bytes ++ rest)
  end.

Definition ack_mgr_trilogy_complete_input_fragments (first count : nat) : code AckMgr Z :=
  p ← input_at first;
  bytes ← gather count first;
  client_recv_packet_trilogy (in_opcode p) bytes ;;
  last ← input_at (first + count - 1);
  mret (u16 (in_ackRequest last + 1)).

(** [while (i < n)]: returns how many packets were completed and the next ack. *)
Fixpoint complete_loop (fuel : nat) (n i : nat) (diff frags : nat) (nextAck : Z)
    : code AckMgr (nat * Z) :=
  match fuel with
  | O => mret (diff, nextAck)
  | S fuel =>
      p ← input_at i;
      if in_ackRequest p =? 0 then mret (diff, nextAck)
      else if in_fragCount p =? 0 then
        nextAck ← ack_mgr_trilogy_complete_input_packet i;
        complete_loop fuel n (S i) (S diff) frags nextAck
      else if Z.of_nat n <? in_fragCount p then mret (diff, nextAck)
      else
        let frags := S frags in
        if Z.of_nat frags =? in_fragCount p then
          nextAck ← ack_mgr_trilogy_complete_input_fragments (i - (frags - 1)) frags;
          complete_loop fuel n (S i) (diff + frags) 0 nextAck
        else complete_loop fuel n (S i) diff frags nextAck
  end.

(** ** ack_mgr_trilogy_recv_packet *)
Definition zero_input : InputPacket := mkInput 0 0 0 0 Null.

(** Copies the packet's unread bytes into a new slot. *)
Definition input_of (a : Aligned) (opcode ackRequest fragCount : Z) : InputPacket :=
  let length_ := aligned_remaining a in
  mkInput ackRequest fragCount opcode length_
    (if 0 <? length_ then Alive (remaining_bytes a) else Null).

(** [ackRequest - nextAck], computed in int and stored in a uint32_t. *)
Definition slot_index (ackRequest nextAck : Z) : Z := u32 (ackRequest - nextAck).

(** [while (diff >= n) array_push_back(...)]. *)
Definition expand (ins : list InputPacket) (diff : Z) : list InputPacket :=
  ins ++ replicate (Z.to_nat (diff + 1 - Z.of_nat (length ins))) zero_input.

Definition ack_mgr_trilogy_recv_packet (a : Aligned) (opcode ackRequest fragCount : Z)
    : code AckMgr unit :=
  nextAck ← gets (λ m, nextAckRequestExpected (client m));
  if (ackRequest =? nextAck) && (fragCount =? 0) then
    set_next_ack_request_expected (u16 (nextAck + 1)) ;;
    client_recv_packet_trilogy opcode (remaining_bytes a)
  else
    match ack_compare ackRequest nextAck with
    | AckPast => mret tt
    | _ =>
        let diff := slot_index ackRequest nextAck in
        modify (λ m, with_inputs m (expand (inputPackets m) diff)) ;;
        p ← input_at (Z.to_nat diff);
        if negb (in_ackRequest p =? 0) then mret tt
        else
          modify (λ m, with_inputs m
            (<[Z.to_nat diff := input_of a opcode ackRequest fragCount]> (inputPackets m))) ;;
          n ← gets (λ m, length (inputPackets m));
          '(diff, nextAck) ← complete_loop n n 0 0 0 nextAck;
          if (0 <? diff)%nat then
            modify (λ m, with_inputs m (drop diff (inputPackets m))) ;;
            set_next_ack_request_expected nextAck
          else mret tt
    end.

(** ** ack_mgr_trilogy_schedule_packet *)
Definition ack_mgr_trilogy_schedule_packet (pk : PacketTrilogy) (noAckRequest : bool) : code AckMgr unit :=
  m ← get;
  let fragCount := packet_trilogy_frag_count pk in
  let noAckRequest := noAckRequest && (fragCount =? 0) in
  let fragCount := u16 (fragCount + 1) in
  let start := if nextAckToRequest m =? 0 then 1 else nextAckToRequest m in
  let header := if noAckRequest then 0 else Z.lor HasAckRequest HasAckCounter in
  let multi := 1 <? fragCount in
  let w := mkOutput (if multi then Z.lor header IsFragment else header)
             (if noAckRequest then 0 else start)
             (if multi then nextFragGroup m else 0) fragCount
             (if noAckRequest then 0 else counterAlwaysOne m)
             (if noAckRequest then 0 else counterRequest m) 0 (Some pk) in
  modify (λ m, mkAckMgr (client m)
    (if noAckRequest then nextAckToRequest m else u16 (start + fragCount))
    (if multi then u16 (nextFragGroup m + 1) else nextFragGroup m)
    (counterAlwaysOne m)
    (if noAckRequest then counterRequest m else u8 (counterRequest m + 1))
    (inputPackets m) (delivered m)) ;;
  on_client (network_client_trilogy_schedule_packet w).

Definition ack_mgr_trilogy_deinit : code AckMgr (list PacketTrilogy) :=
  alive ← on_client network_client_trilogy_deinit;
  n ← gets (λ m, length (inputPackets m));
  each (seq 0 n) free_data ;;
  modify (λ m, with_inputs m []) ;;
  mret alive.
