(* ===== verification/ProtocolTrilogy.v ===== *)
(** The receiving side of a Trilogy connection:
    non_master/net/protocol_handler_trilogy.c, and the choice of the protocol
    in protocol_handler.c.

    The state is the ack manager with what the socket and the client object
    are told: that the connection is dead, that the client left. While a
    datagram is read, its cursor is part of the state: acks take effect as soon
    as they are read, even if the rest of the header turns out too short. *)

From S2P Require Import Prelude Aligned Crc PacketTrilogy NetClient AckMgr.

Record Handler := mkHandler {
  ackMgr : AckMgr;
  packetsReceived : Z;
  isDead : bool;
  disconnected : bool;
}.

Definition MIN_PACKET_LENGTH : Z := 10.

Definition protocol_handler_trilogy_init : Handler := mkHandler ack_mgr_trilogy_init 0 false false.

Definition on_mgr {A} (f : code AckMgr A) : code Handler A := λ h,
  let '(r, m) := f (ackMgr h) in
  (r, mkHandler m (packetsReceived h) (isDead h) (disconnected h)).

(** Reading the datagram, and code on the handler, inside the receive loop. *)
Definition rd {A} (f : code Aligned A) : code (Handler * Aligned) A := λ '(h, a),
  let '(r, a) := f a in (r, (h, a)).
Definition on_handler {A} (f : code Handler A) : code (Handler * Aligned) A := λ '(h, a),
  let '(r, h) := f h in (r, (h, a)).

Definition increment_packets_received : code Handler unit :=
  modify (λ h, mkHandler (ackMgr h) (u64 (packetsReceived h + 1)) (isDead h) (disconnected h)).
Definition flag_connection_as_dead : code Handler unit :=
  modify (λ h, mkHandler (ackMgr h) (packetsReceived h) true (disconnected h)).
Definition client_on_disconnect : code Handler unit :=
  modify (λ h, mkHandler (ackMgr h) (packetsReceived h) (isDead h) true).
Definition send_pure_ack (ack : Z) : code Handler unit :=
  on_mgr (on_client (network_client_trilogy_send_pure_ack ack)).

(** [if (header & flag) aligned_advance(a, n)]. *)
Definition skip_if (header flag n : Z) : code Aligned unit :=
  if bits header flag then _ ← aligned_advance n; mret tt else mret tt.

(** The weird things we don't care about. *)
Definition skip_unknown (header : Z) : code Aligned unit :=
  skip_if header UnknownBit11 2 ;;
  skip_if header UnknownBit12 1 ;;
  skip_if header UnknownBit13 2 ;;
  skip_if header UnknownBit14 4 ;;
  skip_if header UnknownBit15 8.

(** fragIndex and fragCount; [None] when the fragment header is cut short. *)
Definition read_fragment_info (header : Z) : code Aligned (option (Z * Z)) :=
  if bits header IsFragment then
    rem ← gets aligned_remaining;
    if rem <? 6 then mret None
    else
      _ ← aligned_advance 2;
      i ← aligned_read_uint16;
      n ← aligned_read_uint16;
      mret (Some (toNetworkUint16 i, toNetworkUint16 n))
  else mret (Some (0, 0)).

(** From the ack request on. *)
Definition recv_rest (header : Z) : code (Handler * Aligned) unit :=
  rd (skip_unknown header) ;;
  ackRequest ←
    (if bits header HasAckRequest then
       v ← rd aligned_read_uint16;
       let ackRequest := toNetworkUint16 v in
       on_handler (on_mgr (on_client (network_client_trilogy_recv_ack_request ackRequest
         (bits header IsFirstPacket)))) ;;
       mret ackRequest
     else mret 0);
  frag ← rd (read_fragment_info header);
  match frag with
  | None => mret tt
  | Some (fragIndex, fragCount) =>
      rd (skip_if header HasAckCounter (if bits header HasAckRequest then 2 else 1)) ;;
      rem ← rd (gets aligned_remaining);
      opcode ← rd (if (fragIndex =? 0) && (2 <=? rem) then aligned_read_uint16 else mret 0);
      if bits header (Z.lor IsClosing IsClosing2) then
        on_handler (send_pure_ack (toNetworkUint16 ackRequest)) ;;
        on_handler flag_connection_as_dead ;;
        on_handler client_on_disconnect
      else
        a ← rd get;
        if negb (ackRequest =? 0) then
          on_handler (on_mgr (ack_mgr_trilogy_recv_packet a opcode ackRequest fragCount))
        else if negb (opcode =? 0) then
          on_handler (on_mgr (client_recv_packet_trilogy opcode (remaining_bytes a)))
        else mret tt
  end.

(** Past the CRC check. *)
Definition recv_checked : code (Handler * Aligned) unit :=
  header ← rd aligned_read_uint16;
  _ ← rd aligned_read_uint16;
  if bits header HasAckResponse then
    ackResponse ← rd aligned_read_uint16;
    on_handler (on_mgr (on_client (network_client_trilogy_recv_ack_response ackResponse))) ;;
    rem ← rd (gets aligned_remaining);
    if rem =? 0 then mret tt else recv_rest header
  else recv_rest header.

Definition recv_datagram (data : list Z) (len : Z) : code (Handler * Aligned) unit :=
  let len := len - 4 in
  _ ← rd (aligned_advance (u32 len));
  crc ← rd aligned_read_uint32;
  if negb (crc_calc32_network (take (Z.to_nat len) data) =? crc) then mret tt
  else
    on_handler increment_packets_received ;;
    rd aligned_reset ;;
    rd (aligned_reduce_size 4) ;;
    recv_checked.

Definition protocol_handler_trilogy_recv (data : list Z) (len : Z) : code Handler unit := λ h,
  if len <? MIN_PACKET_LENGTH then (Ok tt, h)
  else
    let '(r, (h, _)) := recv_datagram data len (h, aligned_init data len) in (r, h).

(** Which protocol a new connection speaks: 1 for Trilogy, 0 for the standard
    one. [len] is an int that is passed on as a uint32_t. *)
Definition check_first_packet (data : list Z) (len : Z) : code Aligned Z :=
  _ ← aligned_read_uint16;
  let len := len - 4 in
  _ ← aligned_advance (u32 (len - 2));
  if Z.of_nat (length data) <? u32 len then fault
  else
    crc ← aligned_read_uint32;
    mret (if crc_calc32_network (take (Z.to_nat len) data) =? crc then 1 else 0).

Definition protocol_handler_check_first_packet (data : list Z) (len : Z) : outcome Z :=
  fst (check_first_packet data len (aligned_init data (u32 len))).

(** ** Properties *)

(** A datagram of one to three bytes from a new address makes the check of the
    first packet throw; nothing between it and main() catches the exception. *)
Theorem check_first_packet_short_throws data len :
  1 ≤ len ≤ 3 → 1024 ≤ Z.of_nat (length data) < 2 ^ 31 →
  protocol_handler_check_first_packet data len = Throw ErrorOutOfBounds.
Proof.
  intros Hl Hd. unfold protocol_handler_check_first_packet, check_first_packet.
  assert (Hu : u32 len = len) by (apply wrap_small; unfold is_word; lia). rewrite Hu.
  assert (Hw : wf (aligned_init data len)) by (split_and!; simpl; lia). unfold mbind at 1, code_bind at 1.
  unfold aligned_read_uint16 at 1. run. destruct (decide (len = 1)) as [->|].
  - by rewrite advance_throws by (done || (simpl; lia)).
  - rewrite advance_ok by (done || (simpl; lia)). cbn [cursor aligned_init with_cursor].
    assert (Hb : ∀ i, 0 ≤ i < 2 → byte_at i (with_cursor (aligned_init data len) 2) =
      (Ok (default 0 (data !! Z.to_nat i)), with_cursor (aligned_init data len) 2)).
    { intros i Hi. unfold byte_at. rewrite (proj2 (Z.ltb_ge i 0)) by lia. simpl.
      destruct (lookup_lt_is_Some_2 data (Z.to_nat i)) as [x Hx]; [lia|]. by rewrite Hx. }
    rewrite !Hb by lia. cbv beta iota zeta.
    unfold aligned_advance at 1. run. cbn [cursor with_cursor aligned_init length_].
    assert (u32 (2 + u32 (len - 4 - 2)) = 2 ^ 32 + len - 4) as ->.
    { unfold wrap. rewrite Z.add_mod_idemp_r by lia. symmetry.
      apply (Z.mod_unique _ _ (-1)); [left|]; lia. }
    by rewrite (proj2 (Z.ltb_lt _ _)) by lia.
Qed.

Lemma check_first_packet_short_throws_witness :
  protocol_handler_check_first_packet (replicate (Z.to_nat 1024) 0) 3 = Throw ErrorOutOfBounds.
Proof.
  apply check_first_packet_short_throws; [lia|]. rewrite length_replicate. lia.
Defined.
