(* ===== verification/ProtocolStandard.v ===== *)
(** The receiving side of the standard (later) protocol, as far as the program
    has it: non_master/net/protocol_handler_standard.c.

    [random] is what random_uint32 returns, [now] the clock. Datagrams handed
    to sendto are collected in [s_sent]. *)

From S2P Require Import Prelude Aligned Crc.

Definition MAX_LENGTH : Z := 512.

(** ProtocolOpcode. *)
Definition ProtocolOp_SessionRequest : Z := 1.
Definition ProtocolOp_SessionResponse : Z := 2.
Definition ProtocolOp_Combined : Z := 3.
Definition ProtocolOp_SessionDisconnect : Z := 5.

Definition ProtocolValidation_None : Z := 0.
Definition ProtocolValidation_Crc : Z := 2.
Definition ProtocolFormat_None : Z := 0.
Definition ProtocolFormat_Compressed : Z := 1.

(** Sizes of the packed structs. *)
Definition SIZEOF_SessionRequest : Z := 12.
Definition SIZEOF_SessionResponse : Z := 21.
Definition SIZEOF_SessionDisconnect : Z := 6.

Record Standard := mkStandard {
  crcKey : Z;
  sessionId : Z;
  startTimeMilliseconds : Z;
  protocolValidation : Z;
  protocolFormat : Z;
  s_packetsReceived : Z;
  s_sent : list (list Z);
  s_isDead : bool;          (* told to the socket *)
  s_disconnected : bool;    (* told to the client object *)
}.

Definition protocol_handler_standard_init : Standard :=
  mkStandard 0 0 0 ProtocolValidation_None ProtocolFormat_None 0 [] false false.

(** Reading the datagram, and code on the handler. *)
Definition rd {A} (f : code Aligned A) : code (Standard * Aligned) A := λ '(h, a),
  let '(r, a) := f a in (r, (h, a)).
Definition upd (f : Standard → Standard) : code (Standard * Aligned) unit := λ '(h, a), (Ok tt, (f h, a)).

(** Code that writes a packet of [n] bytes on the stack, whose old content is
    [stack], and sends it. *)
Definition send_struct (stack : list Z) (n : Z) (w : code Aligned unit) : code (Standard * Aligned) unit := λ '(h, a),
  match w (aligned_init stack n) with
  | (Ok _, b) => (Ok tt, (mkStandard (crcKey h) (sessionId h) (startTimeMilliseconds h) (protocolValidation h)
      (protocolFormat h) (s_packetsReceived h) (s_sent h ++ [take (Z.to_nat n) (buffer b)]) (s_isDead h)
      (s_disconnected h), a))
  | (Throw e, _) => (Throw e, (h, a))
  | (Fault, _) => (Fault, (h, a))
  end.

Definition session_response (h : Standard) : code Aligned unit :=
  aligned_write_uint16 (toNetworkUint16 ProtocolOp_SessionResponse) ;;
  aligned_write_uint32 (sessionId h) ;;
  aligned_write_uint32 (toNetworkUint32 (crcKey h)) ;;
  aligned_write_uint8 (protocolValidation h) ;;
  aligned_write_uint8 (protocolFormat h) ;;
  aligned_write_uint8 0 ;;
  aligned_write_uint32 (toNetworkUint32 MAX_LENGTH) ;;
  aligned_write_uint32 0.

Definition protocol_handler_standard_handle_session_request (random now : Z) (stack : list Z)
    : code (Standard * Aligned) unit :=
  rem ← rd (gets aligned_remaining);
  if rem <? SIZEOF_SessionRequest then mret tt
  else
    _ ← rd (aligned_advance 4);
    sid ← rd aligned_read_uint32;
    upd (λ h, mkStandard (Z.lor random 1) sid now (protocolValidation h) (protocolFormat h)
                (s_packetsReceived h) (s_sent h) (s_isDead h) (s_disconnected h)) ;;
    '(h, _) ← get;
    send_struct stack SIZEOF_SessionResponse (session_response h).

Definition protocol_handler_standard_disconnect (stack : list Z) : code (Standard * Aligned) unit :=
  '(h, _) ← get;
  send_struct stack SIZEOF_SessionDisconnect
    (aligned_write_uint16 (toNetworkUint16 ProtocolOp_SessionDisconnect) ;;
     aligned_write_uint32 (sessionId h)) ;;
  upd (λ h, mkStandard (crcKey h) (sessionId h) (startTimeMilliseconds h) (protocolValidation h)
              (protocolFormat h) (s_packetsReceived h) (s_sent h) true true).

Definition protocol_handler_standard_validate_crc (key : Z) : code Aligned bool :=
  if key =? 0 then mret true
  else
    a ← get;
    let len := u32 (aligned_remaining a - 2) in
    (* on a copy of the reader *)
    match (_ ← aligned_advance len; aligned_read_uint16) (aligned_init_copy a) with
    | (Ok v, _) =>
        let check := toNetworkUint16 v in
        if check =? 0 then mret true
        else if Z.of_nat (length (buffer a)) <? cursor a + len then fault
        else mret (check =? crc_calc16 (take (Z.to_nat len) (drop (Z.to_nat (cursor a)) (buffer a))) key)
    | (Throw e, _) => throw e
    | (Fault, _) => fault
    end.

(** Returns true: decompression is not implemented. *)
Definition protocol_handler_standard_decompress_packet : bool := true.

Definition protocol_handler_standard_validate_and_decompress_packet (isFromCombined : bool)
    : code (Standard * Aligned) bool :=
  '(h, _) ← get;
  ok ←
    (if negb isFromCombined && (protocolValidation h =? ProtocolValidation_Crc) then
       v ← rd (protocol_handler_standard_validate_crc (crcKey h));
       if (v : bool) then rd (aligned_reduce_size 2) ;; mret true else mret false
     else mret true);
  if negb ok then mret false
  else if protocolFormat h =? ProtocolFormat_Compressed then
    flag ← rd aligned_peek_uint8;
    if flag =? 0x5a then mret protocol_handler_standard_decompress_packet
    else if flag =? 0xa5 then _ ← rd (aligned_advance 1); mret true
    else mret true
  else mret true.

(** Running [f] on another reader with the same handler. *)
Definition with_reader (r : Aligned) (f : code (Standard * Aligned) unit) : code (Standard * Aligned) unit := λ '(h, a),
  let '(x, (h, _)) := f (h, r) in (x, (h, a)).

Section Receive.
Context (random now : Z) (stack : list Z).

(** The sub-packets of a combined packet: [while (aligned_remaining(a))], each
    one handled by [handle]; every round reads at least one byte. *)
Fixpoint handle_combined (fuel : nat) (handle : code (Standard * Aligned) unit) : code (Standard * Aligned) unit :=
  rem ← rd (gets aligned_remaining);
  if rem =? 0 then mret tt
  else
    match fuel with
    | O => fault
    | S fuel =>
        size ← rd aligned_read_uint8;
        a ← rd get;
        if aligned_remaining a <? size then mret tt
        else
          with_reader (aligned_init (drop (Z.to_nat (cursor a)) (buffer a)) size) handle ;;
          _ ← rd (aligned_advance size);
          handle_combined fuel handle
    end.

(** [depth] bounds how deep combined packets are nested; each level is shorter. *)
Fixpoint protocol_handler_standard_handle_recv (depth : nat) (isFromCombined : bool)
    : code (Standard * Aligned) unit :=
  match depth with
  | O => fault
  | S depth =>
      v ← rd aligned_read_uint16;
      let protocolOpcode := toNetworkUint16 v in
      if 0xff <? protocolOpcode then mret tt
      else if protocolOpcode =? ProtocolOp_SessionRequest then
        protocol_handler_standard_handle_session_request random now stack
      else if protocolOpcode =? ProtocolOp_SessionDisconnect then
        protocol_handler_standard_disconnect stack
      else
        ok ← protocol_handler_standard_validate_and_decompress_packet isFromCombined;
        if negb ok then mret tt
        else if protocolOpcode =? ProtocolOp_Combined then
          rem ← rd (gets aligned_remaining);
          handle_combined (Z.to_nat rem) (protocol_handler_standard_handle_recv depth true)
        else mret tt
  end.

Definition protocol_handler_standard_recv (data : list Z) (len : Z) : code Standard unit := λ h,
  let h := mkStandard (crcKey h) (sessionId h) (startTimeMilliseconds h) (protocolValidation h) (protocolFormat h)
             (u64 (s_packetsReceived h + 1)) (s_sent h) (s_isDead h) (s_disconnected h) in
  let '(x, (h, _)) := protocol_handler_standard_handle_recv (S (Z.to_nat len)) false (h, aligned_init data len) in
  (x, h).
End Receive.
