(* ===== verification/UdpSocket.v ===== *)
(** The table of connections of a UDP socket: non_master/net/udp_socket.c,
    udp_client.c, and the shared part of protocol_handler.c.

    Handlers are memory: a store from addresses to handlers; the table and the
    program's client object each hold a reference. The union of the two
    protocols is a record with both; what reading the wrong member gives is
    written where the code does it. recvfrom, the clock, random_uint32 and the
    program's client_on_disconnect are arguments. *)

From S2P Require Import Prelude Aligned Crc PacketTrilogy NetClient AckMgr ProtocolTrilogy ProtocolStandard.

Definition LINKDEAD_TIMEOUT_MILLISECONDS : Z := 15000.

Record ProtocolHandler := mkProto {
  isTrilogy : Z;
  p_refCount : Z;
  udpClientIndex : Z;
  trilogy : Handler;
  standard : Standard;
}.

Record UdpClient := mkUdp {
  ip : Z;
  port : Z;
  u_isDead : bool;
  u_ignoreAllPackets : bool;
  u_handler : nat;
  lastRecvTime : Z;
}.

Record UdpSocket := mkSocket {
  clients : list UdpClient;
  handlers : gmap nat ProtocolHandler;
  next : nat;   (* the address malloc returns next *)
}.

Definition udp_socket_create : UdpSocket := mkSocket [] ∅ 0.

Definition with_clients (s : UdpSocket) (l : list UdpClient) : UdpSocket := mkSocket l (handlers s) (next s).
Definition with_handlers (s : UdpSocket) (m : gmap nat ProtocolHandler) : UdpSocket := mkSocket (clients s) m (next s).

(** ** Handlers *)
Definition protocol_handler_create : code UdpSocket nat := λ s,
  (Ok (next s), mkSocket (clients s)
    (<[next s := mkProto (-1) 1 0 protocol_handler_trilogy_init protocol_handler_standard_init]> (handlers s))
    (S (next s))).

Definition handler_at (id : nat) : code UdpSocket ProtocolHandler := λ s, (deref (handlers s !! id), s).
Definition put_handler (id : nat) (h : ProtocolHandler) : code UdpSocket unit :=
  modify (λ s, with_handlers s (<[id := h]> (handlers s))).

Definition protocol_handler_grab (id : nat) : code UdpSocket unit :=
  h ← handler_at id;
  put_handler id (mkProto (isTrilogy h) (p_refCount h + 1) (udpClientIndex h) (trilogy h) (standard h)).

(** The last reference takes the protocol's state down and frees the handler. *)
Definition protocol_handler_drop (id : nat) : code UdpSocket unit :=
  h ← handler_at id;
  if 1 <? p_refCount h then
    put_handler id (mkProto (isTrilogy h) (p_refCount h - 1) (udpClientIndex h) (trilogy h) (standard h))
  else
    (if isTrilogy h =? 1 then lift (fst (ack_mgr_trilogy_deinit (ackMgr (trilogy h)))) ;; mret tt else mret tt) ;;
    modify (λ s, with_handlers s (delete id (handlers s))).

Definition protocol_handler_update_index (id : nat) (index : Z) : code UdpSocket unit :=
  h ← handler_at id;
  put_handler id (mkProto (isTrilogy h) (p_refCount h) index (trilogy h) (standard h)).

(** ** Flags by index *)
Definition flag_client (index : Z) (f : UdpClient → UdpClient) : code UdpSocket unit :=
  modify (λ s, with_clients s (alter f (Z.to_nat index) (clients s))).

Definition flag_dead (c : UdpClient) : UdpClient :=
  mkUdp (ip c) (port c) true (u_ignoreAllPackets c) (u_handler c) (lastRecvTime c).
Definition flag_ignore (c : UdpClient) : UdpClient :=
  mkUdp (ip c) (port c) (u_isDead c) true (u_handler c) (lastRecvTime c).
Definition set_recv_time (now : Z) (c : UdpClient) : UdpClient :=
  mkUdp (ip c) (port c) (u_isDead c) (u_ignoreAllPackets c) (u_handler c) now.

Definition udp_socket_flag_client_as_dead_by_index (index : Z) : code UdpSocket unit := flag_client index flag_dead.
Definition udp_socket_flag_client_to_ignore_all_packets (index : Z) : code UdpSocket unit := flag_client index flag_ignore.

Definition protocol_handler_send_disconnect (id : nat) : code UdpSocket unit :=
  h ← handler_at id;
  let m := ackMgr (trilogy h) in
  let '(r, c) := network_client_trilogy_send_disconnect (client m) in
  put_handler id (mkProto (isTrilogy h) (p_refCount h) (udpClientIndex h)
    (mkHandler (with_client m c) (packetsReceived (trilogy h)) (isDead (trilogy h)) (disconnected (trilogy h))) (standard h)) ;;
  lift r ;;
  udp_socket_flag_client_to_ignore_all_packets (udpClientIndex h).

Section Socket.
(** [client_on_disconnect(clientObject, isLinkdead)]: the object of a handler,
    or the NULL that a standard handler has. *)
Context (on_disconnect : option nat → bool → code UdpSocket unit).

(** ** Receiving *)

(** What the protocol code told the socket and the object while it ran. *)
Definition after_recv (object : option nat) (index : Z) (dead gone : bool) : code UdpSocket unit :=
  (if dead then udp_socket_flag_client_as_dead_by_index index else mret tt) ;;
  (if gone then on_disconnect object false else mret tt).

Definition protocol_handler_recv (random now : Z) (stack : list Z) (id : nat) (data : list Z) (len : Z)
    : code UdpSocket unit :=
  h ← handler_at id;
  if isTrilogy h =? 0 then
    let '(r, st) := protocol_handler_standard_recv random now stack data len (standard h) in
    put_handler id (mkProto (isTrilogy h) (p_refCount h) (udpClientIndex h) (trilogy h) st) ;;
    after_recv None (udpClientIndex h) (s_isDead st) (s_disconnected st) ;;
    lift r
  else
    let '(r, t) := protocol_handler_trilogy_recv data len (trilogy h) in
    put_handler id (mkProto (isTrilogy h) (p_refCount h) (udpClientIndex h) t (standard h)) ;;
    after_recv (Some id) (udpClientIndex h) (isDead t) (disconnected t) ;;
    lift r.

(** A Trilogy handler gets a client object, which takes a reference. *)
Definition socket_check_first_packet (id : nat) (data : list Z) (len index : Z) : code UdpSocket unit :=
  which ← lift (protocol_handler_check_first_packet data len);
  h ← handler_at id;
  if which =? 1 then
    put_handler id (mkProto 1 (p_refCount h) index protocol_handler_trilogy_init (standard h)) ;;
    protocol_handler_grab id
  else put_handler id (mkProto 0 (p_refCount h) index (trilogy h) protocol_handler_standard_init).

(** The index of the first live client with this address. *)
Fixpoint find_client (l : list UdpClient) (i : nat) (ip_ port_ : Z) : option nat :=
  match l with
  | [] => None
  | c :: l =>
      if negb (u_isDead c) && (ip c =? ip_) && (port c =? port_) then Some i
      else find_client l (S i) ip_ port_
  end.

Definition client_at (i : nat) : code UdpSocket UdpClient := λ s, (deref (clients s !! i), s).

(** One round of the loop of [udp_socket_recv]: [len] bytes from [ip_:port_]
    at the start of the receive buffer [buffer]. *)
Definition udp_socket_recv (random now : Z) (stack buffer : list Z) (ip_ port_ len : Z) : code UdpSocket unit :=
  s ← get;
  i ←
    match find_client (clients s) 0 ip_ port_ with
    | Some i => mret i
    | None =>
        let n := length (clients s) in
        id ← protocol_handler_create;
        modify (λ s, with_clients s (clients s ++ [mkUdp ip_ port_ false false id 0])) ;;
        socket_check_first_packet id buffer len (Z.of_nat n) ;;
        mret n
    end;
  modify (λ s, with_clients s (alter (set_recv_time now) i (clients s))) ;;
  c ← client_at i;
  if negb (u_ignoreAllPackets c) then protocol_handler_recv random now stack (u_handler c) buffer len else mret tt.

(** ** Dead and silent clients *)

(** The last client moved to position [i], and whether one moved. *)
Definition swap_pop (l : list UdpClient) (i : nat) : bool * list UdpClient :=
  match last l with
  | Some c => (negb (i =? length l - 1)%nat, <[i := c]> (take (length l - 1) l))
  | None => (false, l)
  end.

Definition udp_socket_handle_dead_client (i : nat) : code UdpSocket unit :=
  c ← client_at i;
  protocol_handler_drop (u_handler c) ;;
  s ← get;
  let '(moved, l) := swap_pop (clients s) i in
  modify (λ s, with_clients s l) ;;
  if (moved : bool) then
    c ← client_at i;
    protocol_handler_update_index (u_handler c) (Z.of_nat i)
  else mret tt.

Fixpoint timeouts_loop (fuel : nat) (now : Z) (i n : nat) : code UdpSocket unit :=
  match fuel with
  | O => mret tt
  | S fuel =>
      if (i <? n)%nat then
        c ← client_at i;
        if u_isDead c then
          udp_socket_handle_dead_client i ;;
          timeouts_loop fuel now i (n - 1)
        else if u64 (lastRecvTime c + LINKDEAD_TIMEOUT_MILLISECONDS) <? now then
          h ← handler_at (u_handler c);
          (if isTrilogy h =? 0 then mret tt else on_disconnect (Some (u_handler c)) true) ;;
          udp_socket_handle_dead_client i ;;
          timeouts_loop fuel now i (n - 1)
        else timeouts_loop fuel now (S i) n
      else mret tt
  end.

Definition udp_socket_check_timeouts (now : Z) : code UdpSocket unit :=
  s ← get; timeouts_loop (length (clients s)) now 0 (length (clients s)).
End Socket.

(** ** Sending *)

(** A standard handler is used as a Trilogy one: where that one has
    [outputPackets], it has [clientObject], which is NULL. *)
Definition protocol_handler_send_queued (now stamp : Z) (id : nat) : code UdpSocket unit :=
  h ← handler_at id;
  if isTrilogy h =? 0 then fault
  else
    let m := ackMgr (trilogy h) in
    let '(r, c) := network_client_trilogy_send_queued now stamp (client m) in
    put_handler id (mkProto (isTrilogy h) (p_refCount h) (udpClientIndex h)
      (mkHandler (with_client m c) (packetsReceived (trilogy h)) (isDead (trilogy h)) (disconnected (trilogy h))) (standard h)) ;;
    lift r.

Definition udp_socket_send (now stamp : Z) : code UdpSocket unit :=
  s ← get;
  each (clients s) (λ c, if u_isDead c then mret tt else protocol_handler_send_queued now stamp (u_handler c)).
