(* ===== verification/SendQueue.v ===== *)
(** Sending what is queued: every scheduled packet leaves as the frames of its
    fragments, in order, with consecutive sequence numbers, and the pending ack
    response rides on the first datagram. First the datagrams themselves: [frame]
    is that of one fragment as the protocol documents it, and the code that
    writes the header backwards in front of the data produces exactly that. *)

From S2P Require Import Prelude Aligned Crc PacketTrilogy NetClient.

(** * The datagrams of one packet *)

(** ** Writing backwards *)

(** [w] writes [bs] in front of the cursor and moves to their start. *)
Definition emits_back (w : code Aligned unit) (bs : list Z) : Prop :=
  ∀ a, Z.of_nat (length bs) ≤ cursor a ≤ Z.of_nat (length (buffer a)) → cursor a < 2 ^ 31 →
    w a = (Ok tt, mkAligned (cursor a - Z.of_nat (length bs)) (length_ a)
                    (overlay (cursor a - Z.of_nat (length bs)) (Some <$> bs) (buffer a))).

Lemma reverse_ok a n : 0 ≤ n ≤ cursor a → cursor a < 2 ^ 31 →
  aligned_reverse n a = (Ok (cursor a), with_cursor a (cursor a - n)).
Proof.
  intros ? ?. unfold aligned_reverse. run.
  rewrite (sint_small 32 (cursor a)), (sint_small 32 n), (sint_small 32 (_ - _)) by lia.
  rewrite (proj2 (Z.ltb_ge _ _)) by lia. by rewrite wrap_small by (unfold is_word; lia).
Qed.

Lemma put_byte_ok c b a : 0 ≤ c < Z.of_nat (length (buffer a)) →
  put_byte c b a = (Ok tt, with_buffer a (overlay c [Some (u8 b)] (buffer a))).
Proof.
  intros. rewrite <-put_bytes_one. by rewrite put_bytes_ok by (simpl; lia).
Qed.

Lemma emits_back_uint8 v : emits_back (aligned_write_reverse_uint8 v) [u8 v].
Proof.
  intros a Hc Hw. simpl in Hc. unfold aligned_write_reverse_uint8, mbind, code_bind.
  rewrite reverse_ok by lia. rewrite wrap_small by (unfold is_word; lia).
  by rewrite put_byte_ok by (simpl; lia).
Qed.

Lemma emits_back_uint16 v : emits_back (aligned_write_reverse_uint16 v) (le_bytes 2 v).
Proof.
  intros a Hc Hw. rewrite le_bytes_length in *. unfold aligned_write_reverse_uint16, mbind, code_bind.
  rewrite reverse_ok by lia. rewrite !wrap_small by (unfold is_word; lia).
  rewrite put_byte_ok by (simpl; lia). rewrite put_byte_ok by (simpl; rewrite ?overlay_length by (simpl; lia); lia).
  rewrite !mask_byte by done. rewrite Z.shiftr_0_r. unfold with_buffer, with_cursor. simpl. do 2 f_equal.
  replace (cursor a - 1) with (cursor a - 2 + Z.of_nat (length [Some (u8 v)])) by (simpl; lia).
  rewrite overlay_app by (simpl; lia). done.
Qed.

Lemma emits_back_nil : emits_back (mret tt) [].
Proof.
  intros a Hc Hw. simpl in *. rewrite overlay_nil by lia. rewrite Z.sub_0_r. by destruct a.
Qed.

(** Written later means in front. *)
Lemma overlay_disjoint c1 p1 c2 p2 buf : 0 ≤ c2 → c2 + Z.of_nat (length p2) = c1 →
  c1 + Z.of_nat (length p1) ≤ Z.of_nat (length buf) →
  overlay c2 p2 (overlay c1 p1 buf) = overlay c2 (p2 ++ p1) buf.
Proof.
  intros Hc Heq Hl. apply list_eq. intros i.
  rewrite overlay_lookup by (rewrite ?overlay_length; lia).
  rewrite !overlay_lookup by (rewrite ?length_app; lia). rewrite length_app.
  repeat case_decide; try lia; try done.
  - by rewrite lookup_app_l by lia.
  - rewrite lookup_app_r by lia.
    by replace (i - Z.to_nat c2 - length p2)%nat with (i - Z.to_nat c1)%nat by lia.
Qed.

Lemma emits_back_seq w1 w2 b1 b2 : emits_back w1 b1 → emits_back w2 b2 →
  emits_back (w1 ;; w2) (b2 ++ b1).
Proof.
  intros H1 H2 a Hc Hw. rewrite length_app in *. unfold mbind, code_bind. rewrite H1 by lia.
  rewrite H2; cbn [cursor length_ buffer]; [|rewrite overlay_length by (rewrite ?length_fmap; lia); lia|lia].
  f_equal. f_equal; [lia|]. rewrite overlay_disjoint by (rewrite ?length_fmap; lia).
  rewrite fmap_app. f_equal. lia.
Qed.

(** ** The layout of a datagram *)

(** A 16-bit field in network order. *)
Definition be2 (x : Z) : list Z := le_bytes 2 (toNetworkUint16 x).
Definition be4 (x : Z) : list Z := le_bytes 4 (toNetworkUint32 x).

(** header, sequence, ackResponse, ackRequest, fragGroup, fragIndex,
    fragsInGroup, counterHigh, counterLow, opcode: each one only where the
    header's bits say so. (The comment in packet_trilogy.h has fragIndex before
    fragGroup.) [ackResponse] is in network order already. *)
Definition frame_fields (w : OutputPacket) (opcode ackResponse fragIndex seq : Z) : list Z :=
  le_bytes 2 (frame_header (header w) ackResponse) ++ be2 seq ++
  (if negb (ackResponse =? 0) then le_bytes 2 ackResponse else []) ++
  (if bits (header w) HasAckRequest then be2 (u16 (ackRequest w + fragIndex)) else []) ++
  (if bits (header w) IsFragment then be2 (fragGroup w) ++ be2 (u16 fragIndex) ++ be2 (o_fragCount w) else []) ++
  (if bits (header w) HasAckRequest then [u8 (ackCounterAlwaysOne w); u8 (ackCounterRequest w + fragIndex)] else []) ++
  (if (fragIndex =? 0) && negb (opcode =? 0) then le_bytes 2 opcode else []).

Definition frame (w : OutputPacket) (opcode ackResponse fragIndex seq : Z) (payload : list Z) : list Z :=
  let body := frame_fields w opcode ackResponse fragIndex seq ++ payload in
  body ++ be4 (crc_calc32 body).

Lemma le_bytes_2 v : length (le_bytes 2 v) = 2%nat.
Proof. done. Qed.

Lemma frame_fields_length w op r i s : (length (frame_fields w op r i s) ≤ 18)%nat.
Proof.
  unfold frame_fields, be2. rewrite !length_app. rewrite !le_bytes_length.
  destruct (negb (r =? 0)), (bits (header w) HasAckRequest), (bits (header w) IsFragment),
    ((i =? 0) && negb (op =? 0)); rewrite ?length_app, ?le_bytes_length; simpl; lia.
Qed.

Lemma emits_back_if (b : bool) w bs : (b = true → emits_back w bs) →
  emits_back (if b then w else mret tt) (if b then bs else []).
Proof. destruct b; auto using emits_back_nil. Qed.

Lemma emits_back_eq w bs bs' : bs = bs' → emits_back w bs → emits_back w bs'.
Proof. by intros ->. Qed.

Lemma emits_back_header w op r i s : emits_back (write_header w op r i s) (frame_fields w op r i s).
Proof.
  unfold write_header, frame_fields, be2.
  eapply emits_back_eq; [|repeat (apply emits_back_seq); try (apply emits_back_if; intros _);
    repeat apply emits_back_seq; first [apply emits_back_uint16|apply emits_back_uint8]].
  rewrite !wrap_wrap. by rewrite <-!app_assoc.
Qed.

(** ** One fragment sent *)
Lemma window_overlay c bs buf : 0 ≤ c → c + Z.of_nat (length bs) ≤ Z.of_nat (length buf) →
  window (overlay c (Some <$> bs) buf) c (Z.of_nat (length bs)) = bs.
Proof. intros. unfold window. rewrite Nat2Z.id. by apply overlay_window. Qed.

(** Two adjacent windows. *)
Lemma window_app b c l1 l2 : 0 ≤ c → 0 ≤ l1 → 0 ≤ l2 →
  window b c (l1 + l2) = window b c l1 ++ window b (c + l1) l2.
Proof.
  intros. unfold window. rewrite !Z2Nat.inj_add by lia. rewrite <-drop_drop.
  set (x := drop (Z.to_nat c) b). rewrite <-(take_drop (Z.to_nat l1) (take (Z.to_nat l1 + Z.to_nat l2) x)).
  rewrite take_take, skipn_firstn_comm. f_equal; f_equal; lia.
Qed.

Lemma window_frame b b' c l : 0 ≤ c →
  (∀ i, c ≤ Z.of_nat i < c + l → b' !! i = b !! i) → window b' c l = window b c l.
Proof.
  intros Hc Hag. apply list_eq. intros i. destruct (decide (Z.of_nat i < l)) as [Hi|Hi].
  - rewrite !window_lookup by lia. apply Hag. lia.
  - unfold window. rewrite !lookup_take_ge by lia. done.
Qed.

(** [b'] is [b] changed inside [lo, hi) only. *)
Definition changed_in (lo hi : Z) (b b' : list Z) : Prop :=
  length b' = length b ∧ ∀ i, Z.of_nat i < lo ∨ hi ≤ Z.of_nat i → b' !! i = b !! i.

Lemma changed_overlay c bs b lo hi : 0 ≤ c → c + Z.of_nat (length bs) ≤ Z.of_nat (length b) →
  lo ≤ c → c + Z.of_nat (length bs) ≤ hi → changed_in lo hi b (overlay c (Some <$> bs) b).
Proof.
  intros. split; [apply overlay_length; rewrite ?length_fmap; lia|].
  intros i Hi. rewrite overlay_lookup by (rewrite ?length_fmap; lia).
  rewrite length_fmap, decide_False; [done|lia].
Qed.

Lemma changed_trans lo hi b1 b2 b3 : changed_in lo hi b1 b2 → changed_in lo hi b2 b3 → changed_in lo hi b1 b3.
Proof. intros [? H1] [? H2]. split; [congruence|]. intros i Hi. by rewrite H2, H1. Qed.

Lemma be4_crc data : be4 (crc_calc32 data) = le_bytes 4 (crc_calc32_network data).
Proof. done. Qed.

Lemma send_fragment_ok w a op r k seq payload :
  18 ≤ cursor a → cursor a + Z.of_nat (length payload) + 4 ≤ length_ a →
  length_ a ≤ Z.of_nat (length (buffer a)) → length_ a < 2 ^ 31 →
  window (buffer a) (cursor a) (Z.of_nat (length payload)) = payload →
  ∃ b', send_fragment w (Z.of_nat (length payload)) op r k seq a =
      (Ok (frame w op r k seq payload),
       mkAligned (cursor a + Z.of_nat (length payload) + 4) (length_ a) b') ∧
    changed_in (cursor a - 18) (cursor a + Z.of_nat (length payload) + 4) (buffer a) b'.
Proof.
  intros Hc Hfit Hbuf Hw Hpay. set (n := Z.of_nat (length payload)) in *.
  set (fs := frame_fields w op r k seq). pose proof (frame_fields_length w op r k seq) as Hfl. fold fs in Hfl.
  set (h := Z.of_nat (length fs)) in *. set (b1 := overlay (cursor a - h) (Some <$> fs) (buffer a)).
  assert (Hb1 : changed_in (cursor a - 18) (cursor a) (buffer a) b1)
    by (apply changed_overlay; lia). destruct Hb1 as [Hl1 Hag1].
  set (body := fs ++ payload).
  assert (Hbody : window b1 (cursor a - h) (n + h) = body).
  { rewrite Z.add_comm, window_app by lia. unfold body. f_equal.
    - apply window_overlay; lia.
    - replace (cursor a - h + h) with (cursor a) by lia. etrans; [|exact Hpay].
      apply window_frame; [lia|]. intros i Hi. apply Hag1. lia. }
  assert (Hlb : Z.of_nat (length body) = h + n) by (unfold body; rewrite length_app; lia).
  set (crc := crc_calc32_network body).
  set (b2 := overlay (cursor a + n) (Some <$> le_bytes 4 crc) b1).
  assert (Hb2 : changed_in (cursor a - 18) (cursor a + n + 4) b1 b2)
    by (apply changed_overlay; rewrite ?le_bytes_length; lia).
  exists b2. split.
  - unfold send_fragment. run. rewrite (emits_back_header w op r k seq) by (fold fs h; lia).
    fold fs. cbn [cursor length_ buffer]. fold h b1.
    rewrite (wrap_small _ (cursor a - (cursor a - h))), (wrap_small _ (n + _)) by (unfold is_word; lia).
    replace (n + (cursor a - (cursor a - h))) with (n + h) by lia.
    rewrite advance_ok; [|split_and!; simpl; lia|lia|simpl; lia]. cbn [cursor length_ buffer with_cursor].
    assert (Hbytes : ∀ l b c, 0 ≤ l → (cursor a - h) + l ≤ Z.of_nat (length b) →
      bytes_at (cursor a - h) l (mkAligned c (length_ a) b) =
      (Ok (window b (cursor a - h) l), mkAligned c (length_ a) b)).
    { intros l b c Hl Hle. unfold bytes_at. cbn [buffer].
      by rewrite (proj2 (Z.leb_le _ _)), (proj2 (Z.leb_le 0 _)) by lia. }
    unfold with_cursor. cbn [length_ buffer]. rewrite Hbytes by lia. rewrite Hbody. fold crc.
    destruct (emits_uint32 crc (mkAligned (cursor a - h + (n + h)) (length_ a) b1)) as [Hw4 _];
      [split_and!; simpl; lia|].
    rewrite Hw4 by (simpl; lia). cbn [cursor length_ buffer]. rewrite length_fmap, le_bytes_length.
    replace (cursor a - h + (n + h)) with (cursor a + n) by lia. fold b2.
    rewrite (wrap_small _ (n + h + 4)) by (unfold is_word; lia).
    destruct Hb2 as [Hl2 Hag2]. rewrite Hbytes by lia. f_equal. f_equal.
    unfold frame. fold fs body. rewrite be4_crc. fold crc.
    rewrite (window_app b2 _ (n + h) 4) by lia. f_equal.
    + rewrite <-Hbody. apply window_frame; [lia|]. intros i Hi. unfold b2.
      rewrite overlay_lookup by (rewrite ?length_fmap, ?le_bytes_length; lia).
      rewrite length_fmap, le_bytes_length, decide_False; [done|lia].
    + replace (cursor a - h + (n + h)) with (cursor a + n) by lia.
      apply (window_overlay _ (le_bytes 4 crc)); rewrite ?le_bytes_length; lia.
  - eapply changed_trans; [|exact Hb2]. split; [done|]. intros i Hi. apply Hag1. lia.
Qed.

(** A packet whose fragments hold [p] where the sender cuts them out. *)
Record laid_out (pk : PacketTrilogy) (p : list Z) : Prop := {
  lo_length : dataLength pk = Z.of_nat (length p);
  lo_count : 0 ≤ fragCount pk;
  lo_alloc : Z.of_nat (length p) + 22 * (fragCount pk + 1) ≤ Z.of_nat (length (data pk));
  lo_small : Z.of_nat (length p) + 22 * (fragCount pk + 1) < 2 ^ 31;
  lo_full : frag_start (Z.to_nat (fragCount pk)) ≤ Z.of_nat (length p) ≤ frag_start (S (Z.to_nat (fragCount pk)));
  lo_frags (k : nat) : Z.of_nat k ≤ fragCount pk →
    window (data pk) (frag_offset k) (Z.of_nat (length (frag_payload p k))) = frag_payload p k;
}.

Lemma frag_offset_start k : frag_offset k = 18 + frag_start k + 22 * Z.of_nat k.
Proof. destruct k; unfold frag_offset, frag_start; lia. Qed.

Lemma frag_start_S k : frag_start (S k) = frag_start k + (if k is O then 510 else 512).
Proof. destruct k; unfold frag_start; lia. Qed.

Lemma frag_start_mono j k : (j ≤ k)%nat → frag_start j ≤ frag_start k.
Proof. induction 1; [done|]. rewrite frag_start_S. destruct m; lia. Qed.

Lemma frag_payload_length p k :
  length (frag_payload p k) = Nat.min (if k is O then 510 else 512) (length p - Z.to_nat (frag_start k)).
Proof. unfold frag_payload. by rewrite length_take, length_drop. Qed.

(** What the sender computes as the fragment's size. *)
Lemma frag_size p k : frag_start k ≤ Z.of_nat (length p) →
  (if (if k is O then 510 else 512) <? Z.of_nat (length p) - frag_start k
   then (if k is O then 510 else 512) else Z.of_nat (length p) - frag_start k) =
  Z.of_nat (length (frag_payload p k)).
Proof.
  intros Hk. rewrite frag_payload_length.
  assert (0 ≤ frag_start k) by (destruct k; unfold frag_start; lia).
  destruct k; case_match eqn:Hlt; rewrite ?Z.ltb_lt, ?Z.ltb_ge in Hlt; lia.
Qed.

(** The datagrams of fragments [k], ..., [k + n - 1]. *)
Fixpoint frames (w : OutputPacket) (op r : Z) (k : nat) (seq : Z) (n : nat) (p : list Z) : list (list Z) :=
  match n with
  | O => []
  | S n => frame w op r (Z.of_nat k) seq (frag_payload p k) :: frames w op 0 (S k) (u16 (seq + 1)) n p
  end.

(** [c'] is [c] after sending the datagrams [dgs]. *)
Record sent_more (c c' : NetClient) (dgs : list (list Z)) : Prop := {
  sm_sent : sent c' = sent c ++ dgs;
  sm_seq : nextSeqToSend c' = u16 (nextSeqToSend c + Z.of_nat (length dgs));
  sm_queue : length (outputPackets c') = length (outputPackets c);
  sm_expected : nextAckRequestExpected c' = nextAckRequestExpected c;
  sm_check : nextAckRequestCheck c' = nextAckRequestCheck c;
}.

Lemma sent_more_refl c : is_word 16 (nextSeqToSend c) → sent_more c c [].
Proof.
  split; try done; simpl.
  - by rewrite app_nil_r.
  - rewrite Z.add_0_r. by rewrite wrap_small.
Qed.

Lemma sent_more_trans c1 c2 c3 d1 d2 : sent_more c1 c2 d1 → sent_more c2 c3 d2 → sent_more c1 c3 (d1 ++ d2).
Proof.
  intros H1 H2. split.
  - by rewrite (sm_sent _ _ _ H2), (sm_sent _ _ _ H1), app_assoc.
  - rewrite (sm_seq _ _ _ H2), (sm_seq _ _ _ H1), length_app. unfold wrap.
    rewrite Z.add_mod_idemp_l by lia. f_equal. lia.
  - by rewrite (sm_queue _ _ _ H2), (sm_queue _ _ _ H1).
  - by rewrite (sm_expected _ _ _ H2), (sm_expected _ _ _ H1).
  - by rewrite (sm_check _ _ _ H2), (sm_check _ _ _ H1).
Qed.

(** One fragment through [network_client_trilogy_send_fragment]. *)
Lemma client_send_fragment_ok w a op r k payload c :
  18 ≤ cursor a → cursor a + Z.of_nat (length payload) + 4 ≤ length_ a →
  length_ a ≤ Z.of_nat (length (buffer a)) → length_ a < 2 ^ 31 →
  window (buffer a) (cursor a) (Z.of_nat (length payload)) = payload →
  ∃ b' c', network_client_trilogy_send_fragment w a (Z.of_nat (length payload)) op r k c =
      (Ok (mkAligned (cursor a + Z.of_nat (length payload) + 4) (length_ a) b'), c') ∧
    changed_in (cursor a - 18) (cursor a + Z.of_nat (length payload) + 4) (buffer a) b' ∧
    sent_more c c' [frame w op r k (nextSeqToSend c) payload].
Proof.
  intros Hc Hfit Hbuf Hw Hpay.
  destruct (send_fragment_ok w a op r k (nextSeqToSend c) payload Hc Hfit Hbuf Hw Hpay) as (b' & Hs & Hch).
  unfold network_client_trilogy_send_fragment, next_seq, on_buffer, network_client_send. run.
  rewrite Hs. exists b'. eexists. split; [done|]. split; [done|]. done.
Qed.

Lemma send_frags_ok n i w pk p a r (k : nat) stamp c :
  laid_out pk p → o_fragCount w = fragCount pk + 1 → Z.of_nat k + Z.of_nat n = fragCount pk + 1 →
  fragCount pk < 2 ^ 16 - 1 →
  cursor a = frag_offset k - 18 → length_ a = Z.of_nat (length p) + 22 * (fragCount pk + 1) →
  length_ a ≤ Z.of_nat (length (buffer a)) → is_word 16 (nextSeqToSend c) →
  (∀ j : nat, (k ≤ j)%nat → Z.of_nat j ≤ fragCount pk →
     window (buffer a) (frag_offset j) (Z.of_nat (length (frag_payload p j))) = frag_payload p j) →
  ∃ c', send_frags n i w pk a (u32 (Z.of_nat (length p) - frag_start k)) r (Z.of_nat k) stamp c =
      (Ok (if n is O then r else 0), c') ∧
    sent_more c c' (frames w (opcode pk) r k (nextSeqToSend c) n p).
Proof.
  intros Hlo Hfc. pose proof (lo_full _ _ Hlo) as [Hfull1 Hfull2]. pose proof (lo_small _ _ Hlo) as Hsmall.
  revert a r k c. induction n as [|n IH]; intros a r k c Hk H16 Hcur Hlen Hbuf Hseq Hwin.
  { exists c. split; [done|]. by apply sent_more_refl. }
  assert (Hks : frag_start k ≤ Z.of_nat (length p)).
  { etrans; [|exact Hfull1]. apply frag_start_mono. lia. }
  assert (Hk0 : 0 ≤ frag_start k) by (destruct k; unfold frag_start; lia).
  rewrite (wrap_small _ (_ - frag_start k)) by (unfold is_word; lia).
  cbn [send_frags]. rewrite (proj2 (Z.ltb_lt (Z.of_nat k) (o_fragCount w))) by lia.
  assert (Hspace : (if Z.of_nat k =? 0 then DATA_SPACE - 2 else DATA_SPACE) = if k is O then 510 else 512)
    by (destruct k; done). rewrite Hspace, frag_size by done.
  set (pl := frag_payload p k) in *. pose proof (frag_payload_length p k) as Hpl. fold pl in Hpl.
  rewrite frag_offset_start in Hcur.
  assert (Hend : frag_start k + Z.of_nat (length pl) ≤ Z.of_nat (length p)) by lia.
  unfold mbind at 1, code_bind at 1, on_buffer at 1.
  rewrite advance_ok; [|split_and!; lia|done|unfold DATA_OFFSET, HEADER_SIZE; lia].
  unfold DATA_OFFSET, HEADER_SIZE.
  destruct (client_send_fragment_ok w (with_cursor a (cursor a + 18)) (opcode pk) r (Z.of_nat k) pl c)
    as (b' & c1 & Hsend & [Hbl Hbag] & Hmore); cbn [cursor length_ buffer with_cursor] in *; [lia..| |].
  { replace (cursor a + 18) with (frag_offset k) by (rewrite frag_offset_start; lia). apply Hwin; lia. }
  cbv beta iota. unfold mbind at 1, code_bind at 1. rewrite Hsend.
  set (a' := mkAligned _ _ b').
  unfold mbind at 1, code_bind at 1, put_output at 1, modify at 1.
  set (c2 := set_output c1 _ _).
  assert (Hmore2 : sent_more c c2 [frame w (opcode pk) r (Z.of_nat k) (nextSeqToSend c) pl]).
  { destruct Hmore. split; try done. simpl. by rewrite length_insert. }
  assert (Hnext : Z.of_nat (length p) - frag_start k - (if k is O then 510 else 512) =
    Z.of_nat (length p) - frag_start (S k)) by (rewrite frag_start_S; lia). rewrite Hnext.
  rewrite (wrap_small _ (Z.of_nat k + 1)) by (unfold is_word; lia).
  replace (Z.of_nat k + 1) with (Z.of_nat (S k)) by lia.
  destruct n as [|n].
  - cbn [send_frags]. exists c2. split; [done|]. exact Hmore2.
  - assert (Hlast : Z.of_nat k < fragCount pk) by lia.
    assert (Hplfull : Z.of_nat (length pl) = if k is O then 510 else 512).
    { rewrite Hpl. assert (frag_start (S k) ≤ Z.of_nat (length p)).
      { etrans; [|exact Hfull1]. apply frag_start_mono. lia. }
      rewrite frag_start_S in *. destruct k; lia. }
    assert (Hcur' : cursor a + 18 + Z.of_nat (length pl) + 4 = frag_offset (S k) - 18).
    { rewrite frag_offset_start, frag_start_S, Hplfull. lia. }
    destruct (IH a' 0 (S k) c2) as (c3 & Hrest & Hmore3); try done.
    + lia.
    + simpl. lia.
    + unfold c2. cbn [nextSeqToSend set_output]. rewrite (sm_seq _ _ _ Hmore). apply is_word_wrap. lia.
    + intros j Hj Hjf. cbn [buffer a']. etrans; [|apply (Hwin j); lia]. apply window_frame.
      { destruct j; unfold frag_offset; lia. }
      intros x Hx. apply Hbag. right. rewrite Hcur'.
      assert (frag_start (S k) ≤ frag_start j) by (apply frag_start_mono; lia).
      rewrite !frag_offset_start in *. lia.
    + exists c3. split; [exact Hrest|].
      replace (frames w (opcode pk) r k (nextSeqToSend c) (S (S n)) p) with
        ([frame w (opcode pk) r (Z.of_nat k) (nextSeqToSend c) pl] ++
         frames w (opcode pk) 0 (S k) (nextSeqToSend c2) (S n) p).
      * by eapply sent_more_trans.
      * rewrite (sm_seq _ _ _ Hmore2). done.
Qed.

(** ** The whole queue *)

(** A scheduled wrapper with the packet and the payload it carries. *)
Record queued (w : OutputPacket) (pk : PacketTrilogy) (p : list Z) : Prop := {
  q_packet : packet w = Some pk;
  q_laid_out : laid_out pk p;
  q_count : o_fragCount w = fragCount pk + 1;
  q_small : fragCount pk < 2 ^ 16 - 1;
}.

Fixpoint queue_frames (qs : list (OutputPacket * PacketTrilogy * list Z)) (r seq : Z) : list (list Z) :=
  match qs with
  | [] => []
  | (w, pk, p) :: qs =>
      let n := Z.to_nat (o_fragCount w) in
      frames w (opcode pk) r 0 seq n p ++ queue_frames qs 0 (u16 (seq + Z.of_nat n))
  end.

Lemma frames_length w op r k seq n p : length (frames w op r k seq n p) = n.
Proof. revert r k seq. induction n as [|n IH]; intros; simpl; auto. Qed.

Lemma send_wrapper_ok i w pk p r ackReceived now stamp c : queued w pk p →
  is_word 16 (nextSeqToSend c) →
  ∃ c', send_wrapper i w false ackReceived r now stamp c = (Ok 0, c') ∧
    sent_more c c' (frames w (opcode pk) r 0 (nextSeqToSend c) (Z.to_nat (o_fragCount w)) p).
Proof.
  intros [Hp Hlo Hfc H16] Hseq. unfold send_wrapper. rewrite Hp. cbn [andb]. unfold mbind at 1, code_bind at 1.
  cbv beta iota zeta delta [mret code_ret]. unfold packet_trilogy_length. rewrite (lo_length _ _ Hlo).
  pose proof (lo_count _ _ Hlo). pose proof (lo_small _ _ Hlo). pose proof (lo_alloc _ _ Hlo).
  assert (Hraw : packet_trilogy_length_raw pk = Z.of_nat (length p) + 22 * (fragCount pk + 1)).
  { unfold packet_trilogy_length_raw, DATA_OFFSET, HEADER_SIZE, CRC_SIZE. rewrite (lo_length _ _ Hlo).
    rewrite wrap_small by (unfold is_word; lia). lia. }
  destruct (send_frags_ok (Z.to_nat (o_fragCount w)) i w pk p
    (aligned_init (data pk) (packet_trilogy_length_raw pk)) r 0 stamp c) as (c' & Hs & Hm); try done.
  - lia.
  - rewrite Hraw. simpl. lia.
  - intros j _ Hj. by apply (lo_frags _ _ Hlo).
  - exists c'. split; [|done]. unfold frag_start in Hs. rewrite Z.sub_0_r in Hs.
    rewrite (wrap_small _ (Z.of_nat (length p))) in Hs by (unfold is_word; lia).
    change (Z.of_nat 0) with 0 in Hs. rewrite Hs. destruct (Z.to_nat (o_fragCount w)) eqn:Hn; [lia|done].
Qed.

Lemma send_loop_ok qs i ackReceived r now stamp c :
  Forall (λ q, queued q.1.1 q.1.2 q.2) qs → is_word 16 (nextSeqToSend c) →
  ∃ c', send_loop ((λ q, q.1.1) <$> qs) i 0 ackReceived r now stamp c =
      (Ok (if qs is [] then r else 0), c') ∧
    sent_more c c' (queue_frames qs r (nextSeqToSend c)).
Proof.
  intros Hqs. revert i r c. induction Hqs as [|[[w pk] p] qs Hq Hqs IH]; intros i r c Hseq.
  { exists c. split; [done|]. by apply sent_more_refl. }
  cbn [fmap list_fmap fst snd send_loop] in *.
  rewrite (proj2 (Z.ltb_ge (Z.of_nat i) 0)) by lia.
  destruct (send_wrapper_ok i w pk p r ackReceived now stamp c Hq Hseq) as (c1 & Hs & Hm).
  unfold mbind at 1, code_bind at 1. rewrite Hs.
  destruct (IH (S i) 0 c1) as (c2 & Hrest & Hm2).
  { rewrite (sm_seq _ _ _ Hm). apply is_word_wrap. lia. }
  exists c2. split.
  - rewrite Hrest. by destruct qs.
  - cbn [queue_frames]. rewrite (sm_seq _ _ _ Hm), frames_length in Hm2. by eapply sent_more_trans.
Qed.

Definition pure_ack_frame (seq ackResponse : Z) : list Z :=
  let body := le_bytes 2 HasAckResponse ++ be2 seq ++ le_bytes 2 ackResponse in
  body ++ be4 (crc_calc32 body).

(** A writer at a known cursor. *)
Lemma emits_at w bs c l b : emits w (Some <$> bs) → 0 ≤ c → c + Z.of_nat (length bs) ≤ l →
  l ≤ Z.of_nat (length b) → l < 2 ^ 32 →
  w (mkAligned c l b) = (Ok tt, mkAligned (c + Z.of_nat (length bs)) l (overlay c (Some <$> bs) b)).
Proof.
  intros Hw ? ? ? ?. destruct (Hw (mkAligned c l b)) as [Hok _]; [split_and!; simpl; lia|].
  rewrite length_fmap in Hok. by apply Hok.
Qed.

Lemma seq_assoc3 {S A} (w1 w2 w3 : code S unit) (k : code S A) s :
  (w1 ;; w2 ;; w3 ;; k) s = ((w1 ;; w2 ;; w3) ;; k) s.
Proof.
  unfold mbind, code_bind. destruct (w1 s) as [[[]|e|] s1]; try done.
  by destruct (w2 s1) as [[[]|e|] s2].
Qed.

Lemma pure_ack_buffer seq r :
  (aligned_write_uint16 HasAckResponse ;;
   aligned_write_uint16 (toNetworkUint16 seq) ;;
   aligned_write_uint16 r ;;
   data ← bytes_at 0 6;
   aligned_write_uint32 (crc_calc32_network data)) (aligned_init (replicate 10 0) 10) =
  (Ok tt, mkAligned 10 10 (pure_ack_frame seq r)).
Proof.
  set (body := le_bytes 2 HasAckResponse ++ be2 seq ++ le_bytes 2 r).
  set (b0 := replicate 10 0). set (b1 := overlay 0 (Some <$> body) b0).
  assert (Hl0 : length b0 = 10%nat) by done. assert (Hl : length body = 6%nat) by done.
  assert (Hl1 : length b1 = 10%nat) by (unfold b1; rewrite overlay_length; rewrite ?length_fmap; lia).
  assert (Hwin : window b1 0 6 = body) by (apply (window_overlay 0 body); lia).
  clearbody b0. rewrite seq_assoc3. unfold mbind at 1, code_bind at 1. unfold aligned_init.
  rewrite (emits_at _ body); [|unfold body; rewrite !fmap_app; repeat apply emits_seq; apply emits_uint16|lia..].
  rewrite Hl. change (0 + Z.of_nat 6) with 6. fold b1. unfold mbind, code_bind.
  unfold bytes_at. cbn [buffer]. rewrite Hl1. change ((0 + 6 <=? Z.of_nat 10) && (0 <=? 0)) with true.
  cbv iota. rewrite Hwin. set (crc := crc_calc32_network body).
  rewrite (emits_at _ _ _ _ _ (emits_uint32 crc)) by (rewrite ?le_bytes_length; lia).
  rewrite le_bytes_length. do 2 f_equal. unfold pure_ack_frame. fold body. rewrite be4_crc. fold crc.
  set (b2 := overlay 6 _ b1).
  assert (Hl2 : length b2 = 10%nat) by (unfold b2; rewrite overlay_length; rewrite ?length_fmap, ?le_bytes_length; lia).
  transitivity (window b2 0 (6 + 4)).
  { unfold window. rewrite drop_0, firstn_all2; [done|]. lia. }
  rewrite window_app by lia. apply (f_equal2 app).
  - rewrite <-Hwin. apply window_frame; [lia|]. intros i Hi. unfold b2.
    rewrite overlay_lookup by (rewrite ?length_fmap, ?le_bytes_length; lia).
    rewrite length_fmap, le_bytes_length, decide_False; [done|lia].
  - apply (window_overlay 6 (le_bytes 4 crc)); rewrite ?le_bytes_length; lia.
Qed.

Lemma send_pure_ack_ok c r : network_client_trilogy_send_pure_ack r c =
  (Ok tt, mkClient (outputPackets c) (nextAckResponse c) (nextAckRequestExpected c) (nextAckRequestCheck c)
    (u16 (nextSeqToSend c + 1)) (lastAckReceived c) (sendFromIndex c) (u64 (packetsSent c + 1))
    (ignoreAllPackets c) (sent c ++ [pure_ack_frame (nextSeqToSend c) r])).
Proof.
  unfold network_client_trilogy_send_pure_ack, mbind at 1, code_bind at 1. unfold next_seq at 1.
  unfold mbind at 1, code_bind at 1. unfold on_buffer at 1. by rewrite pure_ack_buffer.
Qed.

(** ** Which packets are laid out *)

(** Payload sizes for which the fragments have room for every byte. *)
Definition fits_fragments (l : Z) : Prop := l ≤ 510 ∨ DATA_SPACE < l ∧ 1 ≤ l mod 512 ≤ 510.

Lemma window_short d off l l' : 0 ≤ l ≤ l' → window d off l = take (Z.to_nat l) (window d off l').
Proof. intros. unfold window. rewrite take_take. f_equal. lia. Qed.

Lemma fragmentize_laid_out pk p : made_for pk p → Z.of_nat (length p) < 2 ^ 25 - 512 →
  fits_fragments (Z.of_nat (length p)) →
  ∃ pk', packet_trilogy_fragmentize pk = Ok pk' ∧ laid_out pk' p ∧ opcode pk' = opcode pk ∧
    fragCount pk' < 2 ^ 16 - 1.
Proof.
  intros Hm Hl [Hsmall|[Hbig Hr]]; pose proof Hm as [Hdl Hfc Hal Hd].
  - assert (Hcalc : packet_trilogy_calc_length_and_frag_count (Z.of_nat (length p)) =
      (34 + Z.of_nat (length p), 0)).
    { unfold packet_trilogy_calc_length_and_frag_count, DATA_SPACE, SIZEOF_PACKET, HEADER_SIZE, CRC_SIZE.
      rewrite (proj2 (Z.leb_le _ _)) by lia. rewrite wrap_small by (unfold is_word; lia). f_equal. lia. }
    rewrite Hcalc in *. cbn [fst snd] in *. unfold SIZEOF_PACKET, DATA_OFFSET, HEADER_SIZE in *.
    exists pk. unfold packet_trilogy_fragmentize. rewrite Hfc. split_and!; try done.
    assert (Hp0 : frag_payload p 0 = p) by (unfold frag_payload, frag_start; rewrite drop_0, firstn_all2; [done|lia]).
    split; rewrite ?Hfc; try lia; [unfold frag_start; simpl; lia|].
    intros k Hk. assert (k = 0%nat) as -> by lia. rewrite Hp0. exact Hd.
  - assert (Hrange : DATA_SPACE < Z.of_nat (length p) < 2 ^ 25) by lia.
    destruct (fragmentize_pieces pk p Hm Hrange Hr) as (pk' & Hf & Hlen & Hdl' & Hfc' & Hop & Hpiece).
    destruct (create_frag_count _ Hrange ltac:(lia)) as [Hc Ha]. rewrite Hc in Hfc. rewrite Ha in Hal.
    pose proof (Z.div_mod (Z.of_nat (length p)) 512 ltac:(lia)) as Hdm.
    unfold DATA_SPACE, SIZEOF_PACKET in *.
    assert (1 ≤ Z.of_nat (length p) / 512) by (apply Z.div_le_lower_bound; lia).
    assert (Z.of_nat (length p) / 512 < 2 ^ 16 - 1) by (apply Z.div_lt_upper_bound; lia).
    exists pk'. split_and!; [done| |done|lia]. rewrite Hfc in *.
    split; rewrite ?Hfc'; try lia.
    + rewrite <-(Z2Nat.id (Z.of_nat (length p) / 512)) in Hdm by lia.
      destruct (Z.to_nat (Z.of_nat (length p) / 512)) as [|n] eqn:En; unfold frag_start; lia.
    + intros k Hk. apply list_eq. intros i.
      destruct (decide (i < length (frag_payload p k))%nat) as [Hi|Hi].
      * rewrite window_lookup by (unfold frag_offset; destruct k; lia).
        pose proof (frag_payload_length p k) as Hfl.
        assert (0 ≤ frag_start k) by (unfold frag_start; destruct k; lia).
        rewrite Hpiece; [|lia|destruct k; lia|destruct k; lia].
        unfold frag_payload. rewrite lookup_take_lt, lookup_drop by (destruct k; lia). f_equal. lia.
      * rewrite !lookup_ge_None_2; [done|lia|]. unfold window. rewrite length_take. lia.
Qed.

Lemma send_queued_ok qs now stamp c :
  outputPackets c = (λ q, q.1.1) <$> qs → sendFromIndex c = 0 → is_word 16 (nextSeqToSend c) →
  Forall (λ q, queued q.1.1 q.1.2 q.2) qs →
  let r := toNetworkUint16 (nextAckResponse c) in
  ∃ c', network_client_trilogy_send_queued now stamp c = (Ok tt, c') ∧
    sent c' = sent c ++ queue_frames qs r (nextSeqToSend c) ++
      (if qs is [] then if r =? 0 then [] else [pure_ack_frame (nextSeqToSend c) r] else []) ∧
    nextAckResponse c' = 0 ∧ sendFromIndex c' = Z.of_nat (length qs).
Proof.
  intros Hq Hfrom Hseq Hqs r.
  destruct (send_loop_ok qs 0 (lastAckReceived c) r now stamp c Hqs Hseq) as (c1 & Hloop & Hm).
  unfold network_client_trilogy_send_queued. run. rewrite Hfrom, Hq. fold r. rewrite Hloop.
  destruct qs as [|q qs].
  - destruct (Z.eqb_spec r 0) as [Hr|Hr]; cbn [negb].
    + eexists. split; [done|]. cbn [sent set_output set_acks]. rewrite (sm_sent _ _ _ Hm). done.
    + rewrite send_pure_ack_ok. eexists. split; [done|]. cbn [sent set_output set_acks outputPackets].
      rewrite (sm_sent _ _ _ Hm), (sm_seq _ _ _ Hm). simpl. rewrite app_nil_r, Z.add_0_r.
      by rewrite (wrap_small _ _ Hseq).
  - eexists. split; [done|]. cbn [sent set_output set_acks nextAckResponse sendFromIndex].
    rewrite (sm_sent _ _ _ Hm), app_nil_r, length_fmap. done.
Qed.

(** ** Properties *)

(** C9: When none of the queued packets has been sent yet, send_queued sends every
    fragment of every packet once, in order and with consecutive sequence
    numbers; the pending ack response rides on the first datagram, or is sent
    alone when nothing is queued, and is cleared. *)
Theorem send_queued_sends_all qs now stamp c :
  outputPackets c = (λ q, q.1.1) <$> qs → sendFromIndex c = 0 → is_word 16 (nextSeqToSend c) →
  Forall (λ q, queued q.1.1 q.1.2 q.2) qs →
  let r := toNetworkUint16 (nextAckResponse c) in
  ∃ c', network_client_trilogy_send_queued now stamp c = (Ok tt, c') ∧
    sent c' = sent c ++ queue_frames qs r (nextSeqToSend c) ++
      (if qs is [] then if r =? 0 then [] else [pure_ack_frame (nextSeqToSend c) r] else []) ∧
    nextAckResponse c' = 0 ∧ sendFromIndex c' = Z.of_nat (length qs).
Proof. apply send_queued_ok. Qed.

Lemma send_queued_sends_all_witness :
  let pk := filled 9 [1; 2; 3] (replicate 100 0) in
  let w := mkOutput (Z.lor HasAckRequest HasAckCounter) 1 0 1 1 0 0 (Some pk) in
  let c := mkClient [w] 77 0 0 5 0 0 0 false [] in
  ∃ c', network_client_trilogy_send_queued 1000 1000 c = (Ok tt, c') ∧
    sent c' = [frame w 9 (toNetworkUint16 77) 0 5 [1; 2; 3]].
Proof.
  intros pk w c. destruct (send_queued_sends_all [(w, pk, [1; 2; 3])] 1000 1000 c) as (c' & Hs & Hsent & _).
  - reflexivity.
  - reflexivity.
  - unfold is_word. simpl. lia.
  - apply Forall_singleton. simpl. split; [done| |done|done].
    destruct (fragmentize_laid_out pk [1; 2; 3]) as (pk' & Hf & Hlo & _).
    + split; by vm_compute.
    + simpl. lia.
    + left. simpl. lia.
    + assert (packet_trilogy_fragmentize pk = Ok pk) as Hsame by done. rewrite Hsame in Hf. by injection Hf as <-.
  - exists c'. split; [exact Hs|]. rewrite Hsent. reflexivity.
Defined.

(** A packet of 511 or 512 bytes is not fragmented, although only 510 bytes of
    data go out with the opcode: the connection sends one datagram with the
    first 510 bytes and never the last one or two. *)
Theorem send_cuts_off_last_bytes w pk p now stamp c :
  made_for pk p → 511 ≤ Z.of_nat (length p) ≤ 512 → packet w = Some pk →
  o_fragCount w = packet_trilogy_frag_count pk + 1 →
  outputPackets c = [w] → sendFromIndex c = 0 → is_word 16 (nextSeqToSend c) →
  let r := toNetworkUint16 (nextAckResponse c) in
  packet_trilogy_fragmentize pk = Ok pk ∧
  ∃ c', network_client_trilogy_send_queued now stamp c = (Ok tt, c') ∧
    sent c' = sent c ++ [frame w (opcode pk) r 0 (nextSeqToSend c) (take 510 p)].
Proof.
  intros Hm Hl Hpk Hn Hout Hfrom Hseq r. pose proof Hm as [Hdl Hfc Hal Hd].
  assert (Hcalc : packet_trilogy_calc_length_and_frag_count (Z.of_nat (length p)) =
    (34 + Z.of_nat (length p), 0)).
  { unfold packet_trilogy_calc_length_and_frag_count, DATA_SPACE, SIZEOF_PACKET, HEADER_SIZE, CRC_SIZE.
    rewrite (proj2 (Z.leb_le _ _)) by lia. rewrite wrap_small by (unfold is_word; lia). f_equal. lia. }
  rewrite Hcalc in *. cbn [fst snd] in *. unfold SIZEOF_PACKET, DATA_OFFSET, HEADER_SIZE in *.
  split; [unfold packet_trilogy_fragmentize; by rewrite Hfc|].
  assert (Hraw : packet_trilogy_length_raw pk = Z.of_nat (length p) + 22).
  { unfold packet_trilogy_length_raw, DATA_OFFSET, HEADER_SIZE, CRC_SIZE. rewrite Hdl, Hfc.
    rewrite wrap_small by (unfold is_word; lia). lia. }
  assert (Hpl : Z.of_nat (length (take 510 p)) = 510) by (rewrite length_take; lia).
  destruct (client_send_fragment_ok w (with_cursor (aligned_init (data pk) (packet_trilogy_length_raw pk)) 18)
    (opcode pk) r 0 (take 510 p) c) as (b' & c1 & Hs & _ & Hmore); cbn [cursor length_ buffer with_cursor aligned_init];
    rewrite ?Hpl, ?Hraw; [lia..| |].
  { rewrite <-Hd at 1. unfold window. rewrite take_take. f_equal. lia. }
  rewrite Hpl in Hs. unfold network_client_trilogy_send_queued. run. rewrite Hfrom, Hout. fold r.
  cbn [send_loop]. unfold send_wrapper. rewrite Hpk, Hn. unfold packet_trilogy_frag_count. rewrite Hfc.
  change (Z.to_nat (0 + 1)) with 1%nat. change (Z.of_nat 0 <? 0) with false. cbn [andb].
  unfold packet_trilogy_length. rewrite Hdl. cbn [send_frags]. rewrite Hn. unfold packet_trilogy_frag_count. rewrite Hfc. run.
  change (0 <? 0 + 1) with true. cbn [Z.eqb]. change (DATA_SPACE - 2) with 510.
  rewrite (proj2 (Z.ltb_lt 510 _)) by lia. unfold on_buffer. run.
  rewrite advance_ok; [|unfold wf; rewrite Hraw; simpl; lia|done|rewrite Hraw; simpl; unfold DATA_OFFSET, HEADER_SIZE; lia].
  cbn [cursor aligned_init]. change (0 + DATA_OFFSET) with 18. rewrite Hs. unfold put_output. run. cbn [Z.eqb negb].
  eexists. split; [done|]. cbn [sent set_output set_acks]. apply (sm_sent _ _ _ Hmore).
Qed.

Lemma send_cuts_off_last_bytes_witness :
  let p := replicate 511 7 ++ [8] in
  let pk := filled 9 p (replicate 1000 0) in
  let w := mkOutput (Z.lor HasAckRequest HasAckCounter) 1 0 1 1 0 0 (Some pk) in
  let c := mkClient [w] 0 0 0 5 0 0 0 false [] in
  ∃ c', network_client_trilogy_send_queued 1000 1000 c = (Ok tt, c') ∧
    sent c' = [frame w 9 0 0 5 (replicate 510 7)].
Proof.
  intros p pk w c. destruct (send_cuts_off_last_bytes w pk p 1000 1000 c) as [_ (c' & Hs & Hsent)].
  - split; by vm_compute.
  - by split; vm_compute.
  - reflexivity.
  - reflexivity.
  - reflexivity.
  - reflexivity.
  - unfold is_word. simpl. lia.
  - exists c'. split; [exact Hs|]. rewrite Hsent. reflexivity.
Defined.
