(* ===== verification/RecvFrame.v ===== *)
(** Receiving what the protocol documents: a datagram laid out as [frame]
    passes the CRC check, its acks take effect in order, and exactly its
    payload reaches the ack manager. *)

From S2P Require Import Prelude Aligned Crc PacketTrilogy NetClient AckMgr ProtocolTrilogy SendQueue.

(** ** A reader with a known rest *)

(** The bytes from the cursor to the end are [bs]. *)
Definition reading (a : Aligned) (bs : list Z) : Prop :=
  wf a ∧ Z.of_nat (length bs) = length_ a - cursor a ∧
  window (buffer a) (cursor a) (Z.of_nat (length bs)) = bs.

Lemma reading_init bs rest : Z.of_nat (length bs) < 2 ^ 32 →
  reading (aligned_init (bs ++ rest) (Z.of_nat (length bs))) bs.
Proof.
  intros Hl. split_and!; simpl; try lia.
  - unfold wf. simpl. rewrite length_app. lia.
  - unfold window. by rewrite Nat2Z.id, drop_0, take_app_length.
Qed.

Lemma reading_remaining a bs : reading a bs → aligned_remaining a = Z.of_nat (length bs).
Proof.
  intros ((? & ? & ?) & Hl & _). unfold aligned_remaining. rewrite <-Hl.
  apply wrap_small. unfold is_word. lia.
Qed.

Lemma reading_bytes a bs : reading a bs → remaining_bytes a = bs.
Proof. intros Hr. unfold remaining_bytes. rewrite (reading_remaining a bs Hr). apply Hr. Qed.

Lemma reading_split a b1 b2 : reading a (b1 ++ b2) →
  window (buffer a) (cursor a) (Z.of_nat (length b1)) = b1 ∧
  window (buffer a) (cursor a + Z.of_nat (length b1)) (Z.of_nat (length b2)) = b2.
Proof.
  intros ((? & ? & ?) & Hl & Hw). rewrite length_app, Nat2Z.inj_add in *.
  rewrite window_app in Hw by lia. apply app_inj_1 in Hw; [done|].
  pose proof (window_length (buffer a) (cursor a) (Z.of_nat (length b1))). lia.
Qed.

Lemma reading_drop a b1 b2 : reading a (b1 ++ b2) →
  reading (with_cursor a (cursor a + Z.of_nat (length b1))) b2.
Proof.
  intros Hr. pose proof (reading_split _ _ _ Hr) as [_ Hw]. destruct Hr as ((? & ? & ?) & Hl & _).
  rewrite length_app, Nat2Z.inj_add in *. split_and!; [unfold wf; simpl; lia|simpl; lia|done].
Qed.

Lemma reading_parse {A} (r : code Aligned A) b1 b2 x a : parses r b1 x → reading a (b1 ++ b2) →
  ∃ a', r a = (Ok x, a') ∧ reading a' b2.
Proof.
  intros Hp Hr. eexists. split; [|by apply (reading_drop a b1)].
  pose proof (reading_split _ _ _ Hr) as [Hw _]. destruct Hr as ((? & ? & ?) & Hl & _).
  rewrite length_app, Nat2Z.inj_add in *. apply Hp; [unfold wf; lia|lia|].
  unfold window in Hw. by rewrite Nat2Z.id in Hw.
Qed.

Lemma reading_advance n b1 b2 a : n = Z.of_nat (length b1) → reading a (b1 ++ b2) →
  ∃ c a', aligned_advance n a = (Ok c, a') ∧ reading a' b2.
Proof.
  intros -> Hr. pose proof Hr as ((? & ? & ?) & Hl & Hw). rewrite length_app, Nat2Z.inj_add in *.
  eexists _, _. split; [|by apply (reading_drop a b1)]. apply advance_ok; unfold wf; lia.
Qed.

(** The bits of a swapped 16-bit value. *)
Lemma toNetworkUint16_testbit x i : 0 ≤ i →
  Z.testbit (toNetworkUint16 x) i =
    (if i <? 8 then Z.testbit x (i + 8) else (i <? 16) && Z.testbit x (i - 8)).
Proof.
  intros Hi. unfold toNetworkUint16. change 0xff with (Z.ones 8).
  rewrite Z.lor_spec, Z.shiftl_spec, !Z.land_spec, Z.shiftr_spec by lia.
  rewrite (Z.testbit_ones_nonneg 8 i) by lia. destruct (Z.ltb_spec i 8).
  - rewrite (Z.testbit_neg_r _ (i - 8)) by lia. by rewrite andb_true_r.
  - rewrite andb_false_r, orb_false_r, Z.testbit_ones_nonneg by lia.
    rewrite andb_comm. f_equal. destruct (Z.ltb_spec (i - 8) 8), (Z.ltb_spec i 16); lia || done.
Qed.

Lemma toNetworkUint16_involutive x : toNetworkUint16 (u16 (toNetworkUint16 x)) = u16 x.
Proof.
  apply Z.bits_inj'. intros i Hi. rewrite toNetworkUint16_testbit, wrap_testbit by lia.
  destruct (Z.ltb_spec i 8).
  - rewrite wrap_testbit, toNetworkUint16_testbit by lia.
    rewrite (proj2 (Z.ltb_lt (i + 8) 16)), (proj2 (Z.ltb_ge (i + 8) 8)), (proj2 (Z.ltb_lt i 16)) by lia.
    cbn [andb]. f_equal. lia.
  - destruct (Z.ltb_spec i 16); [|by rewrite (wrap_testbit 16 x), (proj2 (Z.ltb_ge i 16)) by lia].
    rewrite !wrap_testbit, toNetworkUint16_testbit by lia.
    rewrite (proj2 (Z.ltb_lt (i - 8) 16)), (proj2 (Z.ltb_lt (i - 8) 8)), (proj2 (Z.ltb_lt i 16)) by lia.
    cbn [andb]. f_equal. lia.
Qed.

Lemma toNetworkUint16_word x : is_word 16 (toNetworkUint16 x).
Proof.
  assert (Heq : toNetworkUint16 x = u16 (toNetworkUint16 x)); [|rewrite Heq; apply is_word_wrap; lia].
  apply Z.bits_inj'. intros i Hi. rewrite wrap_testbit by lia. destruct (Z.ltb_spec i 16); [done|].
  rewrite toNetworkUint16_testbit by lia. by rewrite !(proj2 (Z.ltb_ge i _)) by lia.
Qed.

Lemma toNetworkUint32_word x : is_word 32 (toNetworkUint32 x).
Proof.
  unfold toNetworkUint32. change 0xff with (Z.ones 8). rewrite <-!wrap_land by lia.
  pose proof (wrap_range 8 x). pose proof (wrap_range 8 (Z.shiftr x 8)).
  pose proof (wrap_range 8 (Z.shiftr x 16)). pose proof (wrap_range 8 (Z.shiftr x 24)).
  assert (Hlor : ∀ a b, is_word 32 a → is_word 32 b → is_word 32 (Z.lor a b)).
  { intros a b Ha Hb. split; [apply Z.lor_nonneg; split; [apply Ha|apply Hb]|].
    destruct (decide (Z.lor a b = 0)) as [->|]; [done|]. apply Z.log2_lt_pow2; [|].
    - assert (0 ≤ Z.lor a b) by (apply Z.lor_nonneg; split; [apply Ha|apply Hb]). lia.
    - rewrite Z.log2_lor by (apply Ha || apply Hb). apply Z.max_lub_lt.
      + destruct (decide (a = 0)) as [->|]; [done|]. apply Z.log2_lt_pow2; [|apply Ha]. destruct Ha; lia.
      + destruct (decide (b = 0)) as [->|]; [done|]. apply Z.log2_lt_pow2; [|apply Hb]. destruct Hb; lia. }
  repeat apply Hlor; rewrite ?Z.shiftl_mul_pow2 by lia; unfold is_word; lia.
Qed.

Lemma parses_be2 x : ∀ a b, reading a (be2 x ++ b) →
  ∃ a', aligned_read_uint16 a = (Ok (u16 (toNetworkUint16 x)), a') ∧ reading a' b.
Proof. intros a b. apply reading_parse, parses_uint16. Qed.

(** ** The header *)

(** The headers that schedule_packet gives packets to be acked. *)
Definition acked_header (hd : Z) : Prop :=
  hd = Z.lor HasAckRequest HasAckCounter ∨ hd = Z.lor (Z.lor HasAckRequest HasAckCounter) IsFragment.

(** The flags of the header as sent, [r] being the piggybacked ack response. *)
Record header_flags (hd r : Z) : Prop := {
  hf_word : u16 (frame_header hd r) = frame_header hd r;
  hf_response : bits (frame_header hd r) HasAckResponse = negb (r =? 0);
  hf_request : bits (frame_header hd r) HasAckRequest = true;
  hf_request' : bits hd HasAckRequest = true;
  hf_counter : bits (frame_header hd r) HasAckCounter = true;
  hf_fragment : bits (frame_header hd r) IsFragment = bits hd IsFragment;
  hf_first : bits (frame_header hd r) IsFirstPacket = false;
  hf_closing : bits (frame_header hd r) (Z.lor IsClosing IsClosing2) = false;
  hf_unknown : Forall (λ f, bits (frame_header hd r) f = false)
    [UnknownBit11; UnknownBit12; UnknownBit13; UnknownBit14; UnknownBit15];
}.

Lemma acked_header_flags hd r : acked_header hd → header_flags hd r.
Proof.
  intros [->| ->]; unfold frame_header; (destruct (negb (r =? 0)) eqn:Hr; split);
    rewrite ?Hr; unfold frame_header; rewrite ?Hr; try reflexivity; repeat constructor.
Qed.

Lemma skip_unknown_ok hd a :
  Forall (λ f, bits hd f = false) [UnknownBit11; UnknownBit12; UnknownBit13; UnknownBit14; UnknownBit15] →
  skip_unknown hd a = (Ok tt, a).
Proof.
  rewrite !Forall_cons. intros (H1 & H2 & H3 & H4 & H5 & _). unfold skip_unknown, skip_if.
  by rewrite H1, H2, H3, H4, H5.
Qed.

(** The fields of the fragment header, when there is one. *)
Definition frag_bytes (w : OutputPacket) (k : Z) : list Z :=
  if bits (header w) IsFragment then be2 (fragGroup w) ++ be2 (u16 k) ++ be2 (o_fragCount w) else [].

Lemma read_fragment_info_ok w r k a b : acked_header (header w) → reading a (frag_bytes w k ++ b) →
  (bits (header w) IsFragment = false → k = 0) → is_word 16 k → is_word 16 (o_fragCount w) →
  ∃ a', read_fragment_info (frame_header (header w) r) a =
      (Ok (Some (k, if bits (header w) IsFragment then o_fragCount w else 0)), a') ∧ reading a' b.
Proof.
  intros Hh Hr Hk Hk16 Hn16. unfold read_fragment_info, frag_bytes in *.
  rewrite (hf_fragment _ _ (acked_header_flags _ r Hh)). destruct (bits (header w) IsFragment).
  - run. rewrite <-!app_assoc in Hr. rewrite (reading_remaining _ _ Hr).
    rewrite !length_app. unfold be2 at 1 2 3. rewrite !le_bytes_length.
    rewrite (proj2 (Z.ltb_ge _ _)) by lia. destruct (reading_advance 2 (be2 (fragGroup w)) _ _ eq_refl Hr) as (c & a1 & -> & Hr1).
    destruct (parses_be2 _ _ _ Hr1) as (a2 & -> & Hr2). destruct (parses_be2 _ _ _ Hr2) as (a3 & -> & Hr3).
    exists a3. split; [|done]. by rewrite !toNetworkUint16_involutive, !wrap_small by (done || word).
  - exists a. by rewrite (Hk eq_refl).
Qed.

(** ** The fields after the acks *)

(** What [ack_mgr_trilogy_recv_packet] does depends on the unread bytes only. *)
Lemma recv_packet_reading a p op ack n : reading a p → Z.of_nat (length p) < 2 ^ 32 →
  ack_mgr_trilogy_recv_packet a op ack n =
  ack_mgr_trilogy_recv_packet (aligned_init p (Z.of_nat (length p))) op ack n.
Proof.
  intros Hr Hl. assert (Hi : reading (aligned_init p (Z.of_nat (length p))) p).
  { pose proof (reading_init p [] Hl) as Hi. by rewrite app_nil_r in Hi. }
  unfold ack_mgr_trilogy_recv_packet, input_of.
  by rewrite (reading_remaining _ _ Hr), (reading_remaining _ _ Hi), (reading_bytes _ _ Hr), (reading_bytes _ _ Hi).
Qed.

(** What the receiver is to do with the frame. *)
Definition dispatch (w : OutputPacket) (op r k : Z) (payload : list Z) : code Handler unit :=
  increment_packets_received ;;
  (if negb (r =? 0) then on_mgr (on_client (network_client_trilogy_recv_ack_response r)) else mret tt) ;;
  on_mgr (on_client (network_client_trilogy_recv_ack_request (u16 (ackRequest w + k)) false)) ;;
  on_mgr (ack_mgr_trilogy_recv_packet (aligned_init payload (Z.of_nat (length payload)))
    (if k =? 0 then op else 0) (u16 (ackRequest w + k))
    (if bits (header w) IsFragment then o_fragCount w else 0)).

(** The well-formed frames: the packet of [w] has an opcode, its acks are not 0. *)
Record frame_ok (w : OutputPacket) (op r k : Z) (payload : list Z) : Prop := {
  fo_header : acked_header (header w);
  fo_opcode : is_word 16 op ∧ op ≠ 0;
  fo_response : is_word 16 r;
  fo_index : is_word 16 k;
  fo_count : is_word 16 (o_fragCount w);
  fo_single : bits (header w) IsFragment = false → k = 0;
  fo_ack : u16 (ackRequest w + k) ≠ 0;
  fo_payload : Z.of_nat (length payload) < 2 ^ 16;
}.

Lemma read_opcode_ok k op payload a : is_word 16 op →
  reading a ((if k =? 0 then le_bytes 2 op else []) ++ payload) →
  ∃ a', (if (k =? 0) && (2 <=? aligned_remaining a) then aligned_read_uint16 else mret 0) a =
      (Ok (if k =? 0 then op else 0), a') ∧ reading a' payload.
Proof.
  intros Hop Hr. destruct (k =? 0); [|by exists a]. cbn [andb].
  rewrite (reading_remaining _ _ Hr), length_app, le_bytes_length, (proj2 (Z.leb_le _ _)) by lia.
  destruct (reading_parse _ _ _ _ _ (parses_uint16 op) Hr) as (a' & -> & Hr').
  exists a'. by rewrite (wrap_small _ _ Hop).
Qed.

(** The part of the datagram from the ack request on. *)
Definition rest_bytes (w : OutputPacket) (op k : Z) (payload : list Z) : list Z :=
  be2 (u16 (ackRequest w + k)) ++ frag_bytes w k ++
  [u8 (ackCounterAlwaysOne w); u8 (ackCounterRequest w + k)] ++
  (if k =? 0 then le_bytes 2 op else []) ++ payload.

Lemma recv_rest_ok w op r k payload h a : frame_ok w op r k payload →
  reading a (rest_bytes w op k payload) →
  ∃ a', recv_rest (frame_header (header w) r) (h, a) =
    let '(x, h) := (on_mgr (on_client (network_client_trilogy_recv_ack_request (u16 (ackRequest w + k)) false)) ;;
       on_mgr (ack_mgr_trilogy_recv_packet (aligned_init payload (Z.of_nat (length payload)))
         (if k =? 0 then op else 0) (u16 (ackRequest w + k))
         (if bits (header w) IsFragment then o_fragCount w else 0))) h in (x, (h, a')).
Proof.
  intros [Hh [Hop Hop0] Hr16 Hk Hn Hs Hack Hp] Hr. pose proof (acked_header_flags _ r Hh) as Hf.
  unfold recv_rest, rd. run. rewrite skip_unknown_ok by apply Hf.
  rewrite (hf_request _ _ Hf), (hf_closing _ _ Hf), (hf_first _ _ Hf).
  destruct (parses_be2 _ _ _ Hr) as (a1 & -> & Hr1).
  rewrite toNetworkUint16_involutive, wrap_wrap. unfold on_handler at 1, on_mgr at 1, on_client at 1.
  unfold network_client_trilogy_recv_ack_request at 1. run.
  destruct (read_fragment_info_ok w r k a1 _ Hh Hr1 Hs Hk Hn) as (a2 & -> & Hr2).
  unfold skip_if. rewrite (hf_counter _ _ Hf). run.
  destruct (reading_advance 2 [_; _] _ _ eq_refl Hr2) as (c & a3 & -> & Hr3).
  destruct (read_opcode_ok k op payload a3 Hop Hr3) as (a4 & Hread & Hr4).
  unfold mret, code_ret in Hread. rewrite Hread. clear Hread.
  rewrite (proj2 (Z.eqb_neq _ _) Hack). cbn [negb]. exists a4.
  rewrite (recv_packet_reading _ _ _ _ _ Hr4) by lia. unfold on_handler, on_mgr, on_client,
    network_client_trilogy_recv_ack_request. run. cbn [ackMgr packetsReceived isDead disconnected].
  by destruct (ack_mgr_trilogy_recv_packet _ _ _ _ _) as [[[]| |] m].
Qed.

(** ** The CRC check *)
Lemma recv_datagram_ok body junk h : Z.of_nat (length body) + 4 < 2 ^ 31 →
  recv_datagram (body ++ be4 (crc_calc32 body) ++ junk) (Z.of_nat (length body) + 4)
    (h, aligned_init (body ++ be4 (crc_calc32 body) ++ junk) (Z.of_nat (length body) + 4)) =
  (on_handler increment_packets_received ;; recv_checked)
    (h, aligned_init (body ++ be4 (crc_calc32 body) ++ junk) (Z.of_nat (length body))).
Proof.
  intros Hl. rewrite be4_crc. assert (Hword : u32 (crc_calc32_network body) = crc_calc32_network body)
    by apply wrap_small, toNetworkUint32_word.
  set (data := body ++ le_bytes 4 _ ++ junk). assert (Hd : length data = (length body + 4 + length junk)%nat).
  { unfold data. rewrite !length_app, le_bytes_length. lia. }
  unfold recv_datagram, rd. run. replace (Z.of_nat (length body) + 4 - 4) with (Z.of_nat (length body)) by lia.
  rewrite (wrap_small _ (Z.of_nat _)) by (unfold is_word; lia). unfold aligned_init.
  rewrite advance_ok; [|unfold wf; simpl; lia|lia|simpl; lia]. cbn [cursor length_ buffer with_cursor].
  rewrite (parses_uint32 (crc_calc32_network body)); [|unfold wf; simpl; lia|rewrite le_bytes_length; simpl; lia|].
  2: { cbn [buffer cursor with_cursor]. change (0 + Z.of_nat (length body)) with (Z.of_nat (length body)).
    unfold data. by rewrite Nat2Z.id, drop_app_length, take_app_length. }
  rewrite Hword. assert (Htake : take (Z.to_nat (Z.of_nat (length body))) data = body).
  { unfold data. by rewrite Nat2Z.id, take_app_length. }
  rewrite Htake, Z.eqb_refl. cbn [negb]. unfold on_handler, increment_packets_received, aligned_reset, aligned_reduce_size.
  run. cbn [cursor length_ buffer with_cursor]. by rewrite Z.add_simpl_r, (wrap_small 32) by (unfold is_word; lia).
Qed.

Lemma recv_frame_ok w op r k seq payload junk h :
  frame_ok w op r k payload →
  let dg := frame w op r k seq payload in
  protocol_handler_trilogy_recv (dg ++ junk) (Z.of_nat (length dg)) h = dispatch w op r k payload h.
Proof.
  intros Hok dg. pose proof Hok as [Hh [Hop Hop0] Hr16 Hk Hn Hs Hack Hp].
  pose proof (acked_header_flags _ r Hh) as Hf.
  set (body := frame_fields w op r k seq ++ payload).
  assert (Hdg : dg = body ++ be4 (crc_calc32 body)) by done. clearbody dg. subst dg.
  assert (Hfields : body = le_bytes 2 (frame_header (header w) r) ++ be2 seq ++
    (if negb (r =? 0) then le_bytes 2 r else []) ++ rest_bytes w op k payload).
  { unfold body, frame_fields, rest_bytes, frag_bytes. rewrite (hf_request' _ _ Hf).
    rewrite (proj2 (Z.eqb_neq _ _) Hop0), andb_true_r. by rewrite <-!app_assoc. }
  assert (Hdrop : ∀ (m : outcome unit * Handler) (a : Aligned),
    (let '(x, (h, _)) := (let '(x, h) := m in (x, (h, a))) in (x, h)) = m) by (by intros []).
  assert (Hlen : 8 ≤ Z.of_nat (length body) < 2 ^ 16 + 18).
  { split.
    - rewrite Hfields. unfold rest_bytes, be2. rewrite !length_app, !le_bytes_length. simpl length. lia.
    - pose proof (frame_fields_length w op r k seq). unfold body. rewrite length_app. lia. }
  rewrite length_app. change (length (be4 _)) with 4%nat. rewrite <-app_assoc, Nat2Z.inj_add.
  unfold protocol_handler_trilogy_recv, MIN_PACKET_LENGTH.
  rewrite (proj2 (Z.ltb_ge _ _)) by lia. rewrite recv_datagram_ok by lia.
  assert (Hr : reading (aligned_init (body ++ be4 (crc_calc32 body) ++ junk) (Z.of_nat (length body))) body)
    by (apply reading_init; lia).
  revert Hr. generalize (aligned_init (body ++ be4 (crc_calc32 body) ++ junk) (Z.of_nat (length body))). intros a Hr.
  rewrite Hfields in Hr. unfold dispatch, recv_checked, rd, on_handler, increment_packets_received. run.
  destruct (reading_parse _ _ _ _ _ (parses_uint16 _) Hr) as (a1 & -> & Hr1).
  destruct (parses_be2 _ _ _ Hr1) as (a2 & -> & Hr2).
  rewrite (hf_word _ _ Hf), (hf_response _ _ Hf). destruct (negb (r =? 0)).
  - destruct (reading_parse _ _ _ _ _ (parses_uint16 _) Hr2) as (a3 & -> & Hr3). rewrite (wrap_small _ _ Hr16).
    destruct (on_mgr (on_client (network_client_trilogy_recv_ack_response r)) _) as [[[]| |] h1]; try done.
    rewrite (reading_remaining _ _ Hr3). unfold rest_bytes at 1. rewrite length_app. unfold be2 at 1.
    rewrite le_bytes_length, (proj2 (Z.eqb_neq _ _)) by lia.
    destruct (recv_rest_ok w op r k payload h1 a3 Hok Hr3) as (a4 & ->). run. apply Hdrop.
  - match goal with |- context [recv_rest _ (?h', a2)] =>
      destruct (recv_rest_ok w op r k payload h' a2 Hok Hr2) as (a4 & ->) end. run. apply Hdrop.
Qed.

(** ** Properties *)

(** C12: A datagram laid out as the sender writes it ([frame]: fragGroup before
    fragIndex, which the comment in packet_trilogy.h has the other way round)
    passes the CRC check; the piggybacked ack response takes effect first, then
    the ack request, then the payload with its opcode, ack number and fragment
    count goes to the ack manager, byte for byte; whatever follows it in the
    receive buffer is not looked at. *)
Theorem recv_frame_dispatches w op r k seq payload junk h :
  frame_ok w op r k payload →
  let dg := frame w op r k seq payload in
  protocol_handler_trilogy_recv (dg ++ junk) (Z.of_nat (length dg)) h = dispatch w op r k payload h.
Proof. apply recv_frame_ok. Qed.

(** A frame of one fragment, read by a new handler. *)
Lemma recv_frame_dispatches_witness :
  let w := mkOutput (Z.lor HasAckRequest HasAckCounter) 1 0 1 1 0 0 None in
  let dg := frame w 7 0 0 0 [1; 2; 3] in
  protocol_handler_trilogy_recv (dg ++ [9; 9]) (Z.of_nat (length dg)) protocol_handler_trilogy_init =
    dispatch w 7 0 0 [1; 2; 3] protocol_handler_trilogy_init.
Proof.
  intros w dg. apply recv_frame_dispatches. split; try (unfold is_word; simpl; lia).
  - by left.
  - by vm_compute.
Defined.
