(* ===== verification/Reassembly.v ===== *)
(** Packets that arrive in order are delivered in order, once: a fragment group
    is reassembled into one payload. And what the fast path for the expected
    packet does to packets that were buffered before it. *)

From S2P Require Import Prelude Aligned Crc PacketTrilogy NetClient AckMgr ProtocolTrilogy SendQueue RecvFrame.

(** A packet's payload arriving from the protocol handler. *)
Definition arrive (p : list Z) (op ack n : Z) : code AckMgr unit :=
  ack_mgr_trilogy_recv_packet (aligned_init p (Z.of_nat (length p))) op ack n.

(** [m] after delivering [msgs] and expecting [ack] next, nothing buffered. *)
Definition caught_up (m : AckMgr) (msgs : list (Z * list Z)) (ack : Z) : AckMgr :=
  mkAckMgr (set_acks (client m) (nextAckResponse (client m)) ack (nextAckRequestCheck (client m)))
    (nextAckToRequest m) (nextFragGroup m) (counterAlwaysOne m) (counterRequest m) []
    (delivered m ++ msgs).

Lemma reading_payload p : Z.of_nat (length p) < 2 ^ 32 → reading (aligned_init p (Z.of_nat (length p))) p.
Proof. intros Hl. pose proof (reading_init p [] Hl) as Hi. by rewrite app_nil_r in Hi. Qed.

(** ** A packet in one piece *)
Lemma arrive_expected p op ack m : Z.of_nat (length p) < 2 ^ 32 →
  nextAckRequestExpected (client m) = ack → inputPackets m = [] →
  arrive p op ack 0 m = (Ok tt, caught_up m [(op, p)] (u16 (ack + 1))).
Proof.
  intros Hl He Hi. unfold arrive, ack_mgr_trilogy_recv_packet. run. rewrite He, Z.eqb_refl. cbn [andb].
  unfold set_next_ack_request_expected, on_client, client_recv_packet_trilogy. run.
  rewrite (reading_bytes _ _ (reading_payload p Hl)). unfold caught_up, with_client. simpl. by rewrite Hi.
Qed.

(** ** Fragments *)

(** The slot that holds fragment [j] of a group. *)
Definition slot (op ack n : Z) (j : nat) (p : list Z) : InputPacket :=
  mkInput (ack + Z.of_nat j) n (if j is O then op else 0) (Z.of_nat (length p))
    (if 0 <? Z.of_nat (length p) then Alive p else Null).

Definition slots (op ack n : Z) (ps : list (list Z)) : list InputPacket := imap (slot op ack n) ps.

Lemma slots_lookup op ack n ps j : slots op ack n ps !! j = slot op ack n j <$> ps !! j.
Proof. apply list_lookup_imap. Qed.

Lemma slots_length op ack n ps : length (slots op ack n ps) = length ps.
Proof. apply length_imap. Qed.

Lemma slots_snoc op ack n ps p : slots op ack n (ps ++ [p]) = slots op ack n ps ++ [slot op ack n (length ps) p].
Proof. unfold slots. rewrite imap_app. simpl. by rewrite Nat.add_0_r. Qed.

Lemma slot_read op ack n j p : read_memory (in_data (slot op ack n j p)) = Ok p.
Proof. unfold slot. simpl. destruct p; [done|]. simpl length. by rewrite (proj2 (Z.ltb_lt _ _)) by lia. Qed.

Lemma input_at_ok i p m : inputPackets m !! i = Some p → input_at i m = (Ok p, m).
Proof. intros Hi. unfold input_at. by rewrite Hi. Qed.

Lemma slot_at op ack n ps j p m : inputPackets m = slots op ack n ps → ps !! j = Some p →
  input_at j m = (Ok (slot op ack n j p), m).
Proof. intros Hins Hp. apply input_at_ok. by rewrite Hins, slots_lookup, Hp. Qed.

(** Freeing what was just read never fails and keeps the ack numbers. *)
Lemma free_data_ok i m p b : inputPackets m !! i = Some p → read_memory (in_data p) = Ok b →
  ∃ ins, free_data i m = (Ok tt, with_inputs m ins) ∧ length ins = length (inputPackets m) ∧
    (∀ j, in_ackRequest <$> ins !! j = in_ackRequest <$> inputPackets m !! j) ∧
    (∀ j, j ≠ i → ins !! j = inputPackets m !! j).
Proof.
  intros Hi Hr. unfold free_data. rewrite Hi. destruct (in_data p) eqn:Hd; [| |done].
  - exists (inputPackets m). split_and!; try done. by destruct m.
  - eexists. split; [done|]. rewrite length_insert. split_and!; [done| |].
    + intros j. destruct (decide (j = i)) as [->|]; [|by rewrite list_lookup_insert_ne].
      rewrite list_lookup_insert_eq by (by eapply lookup_lt_Some). by rewrite Hi.
    + intros j Hj. by rewrite list_lookup_insert_ne.
Qed.

Lemma gather_ok ps i m :
  (∀ j b, ps !! j = Some b → ∃ q, inputPackets m !! (i + j)%nat = Some q ∧ read_memory (in_data q) = Ok b) →
  ∃ ins, gather (length ps) i m = (Ok (concat ps), with_inputs m ins) ∧
    length ins = length (inputPackets m) ∧
    (∀ j, in_ackRequest <$> ins !! j = in_ackRequest <$> inputPackets m !! j).
Proof.
  revert i m. induction ps as [|b ps IH]; intros i m Hps.
  { exists (inputPackets m). split_and!; try done. by destruct m. }
  destruct (Hps 0%nat b eq_refl) as (q & Hq & Hb). rewrite Nat.add_0_r in Hq.
  cbn [length gather]. unfold input_at. run. rewrite Hq, Hb.
  destruct (free_data_ok i m q b Hq Hb) as (ins & -> & Hl & Hacks & Hne).
  destruct (IH (S i) (with_inputs m ins)) as (ins' & -> & Hl' & Hacks').
  - intros j c Hj. destruct (Hps (S j) c Hj) as (q' & Hq' & Hc). exists q'. split; [|done]. simpl.
    rewrite Hne by lia. by rewrite <-Hq', Nat.add_succ_r.
  - exists ins'. split_and!; [done| |].
    + by rewrite Hl', <-Hl.
    + intros j. by rewrite Hacks', <-Hacks.
Qed.

(** The whole group in the first [length ps] slots. *)
Lemma complete_loop_group ps op ack n d i next m :
  inputPackets m = slots op ack n ps → n = Z.of_nat (length ps) → (i + d = length ps)%nat → (0 < d)%nat →
  0 < ack → ack + n < 2 ^ 16 →
  ∃ ins, complete_loop d (length ps) i 0 i next m =
      (Ok (length ps, ack + n), with_inputs (mkAckMgr (client m) (nextAckToRequest m) (nextFragGroup m)
         (counterAlwaysOne m) (counterRequest m) (inputPackets m) (delivered m ++ [(op, concat ps)])) ins) ∧
    length ins = length ps.
Proof.
  intros Hins Hn. revert i. induction d as [|d IH]; intros i Hid Hd Hack H16; [lia|].
  destruct (lookup_lt_is_Some_2 ps i) as [p Hp]; [lia|].
  cbn [complete_loop]. run. rewrite (slot_at _ _ _ _ _ _ _ Hins Hp). cbn [slot in_ackRequest in_fragCount].
  rewrite (proj2 (Z.eqb_neq (ack + Z.of_nat i) 0)), (proj2 (Z.eqb_neq n 0)), (proj2 (Z.ltb_ge _ n)) by lia.
  destruct (decide (d = 0)%nat) as [->|Hd0].
  - rewrite (proj2 (Z.eqb_eq _ n)) by lia. replace (i - (S i - 1))%nat with 0%nat by lia.
    unfold ack_mgr_trilogy_complete_input_fragments. run.
    destruct (lookup_lt_is_Some_2 ps 0) as [p0 Hp0]; [lia|]. rewrite (slot_at _ _ _ _ _ _ _ Hins Hp0).
    assert (S i = length ps) as -> by lia.
    destruct (gather_ok ps 0 m) as (ins & -> & Hl & Hacks).
    { intros j b Hj. exists (slot op ack n j b). change (0 + j)%nat with j. rewrite Hins, slots_lookup, Hj. split; [done|]. apply slot_read. }
    specialize (Hacks (0 + length ps - 1)%nat). rewrite Hins, slots_lookup in Hacks.
    destruct (lookup_lt_is_Some_2 ps (0 + length ps - 1)) as [pl Hpl]; [lia|]. rewrite Hpl in Hacks.
    destruct (ins !! (0 + length ps - 1)%nat) as [ql|] eqn:Hql; [|done]. simpl in Hacks. injection Hacks as Hacks.
    exists ins. split; [|by rewrite Hl, Hins, slots_length]. unfold client_recv_packet_trilogy. run.
    rewrite (input_at_ok _ ql) by done. cbn [complete_loop]. run. rewrite Hacks.
    rewrite (wrap_small 16) by (unfold is_word; lia). do 3 f_equal. lia.
  - rewrite (proj2 (Z.eqb_neq _ n)) by lia. apply IH; lia.
Qed.

Lemma ack_compare_window ack i : 0 ≤ i < 1024 →
  match ack_compare (ack + i) ack with AckPast => false | _ => true end = true.
Proof.
  intros Hi. unfold ack_compare, ACK_WINDOW_HALF_SIZE. destruct (Z.eqb_spec (ack + i) ack); [done|].
  by rewrite (proj2 (Z.ltb_lt _ _)), (proj2 (Z.ltb_lt (ack + i) _)) by lia.
Qed.

(** Only a part of the group. *)
Lemma complete_loop_partial ps op ack n next m :
  inputPackets m = slots op ack n ps → (0 < length ps)%nat → Z.of_nat (length ps) < n → 0 < ack →
  complete_loop (length ps) (length ps) 0 0 0 next m = (Ok (0%nat, next), m).
Proof.
  intros Hins Hpos Hlt Hack. destruct (length ps) as [|l] eqn:Hl; [lia|]. cbn [complete_loop]. run.
  destruct (lookup_lt_is_Some_2 ps 0) as [p Hp]; [lia|]. rewrite (slot_at _ _ _ _ _ _ _ Hins Hp).
  cbn [slot in_ackRequest in_fragCount].
  by rewrite (proj2 (Z.eqb_neq (ack + _) 0)), (proj2 (Z.eqb_neq n 0)), (proj2 (Z.ltb_lt _ n)) by lia.
Qed.

(** What follows the buffering of a fragment. *)
Lemma complete_ok ps op ack n m :
  inputPackets m = slots op ack n ps → (0 < length ps)%nat → Z.of_nat (length ps) ≤ n → 0 < ack → ack + n < 2 ^ 16 →
  ('(diff, nextAck) ← complete_loop (length ps) (length ps) 0 0 0 ack;
   if (0 <? diff)%nat then
     modify (λ m, with_inputs m (drop diff (inputPackets m))) ;;
     set_next_ack_request_expected nextAck
   else mret tt) m =
  (Ok tt, if Z.of_nat (length ps) =? n then caught_up m [(op, concat ps)] (ack + n) else m).
Proof.
  intros Hins Hpos Hle Hack H16. run. destruct (Z.eqb_spec (Z.of_nat (length ps)) n) as [Hn|Hn].
  - destruct (complete_loop_group ps op ack n (length ps) 0 ack m Hins) as (ins & -> & Hl); [lia..|].
    rewrite (proj2 (Nat.ltb_lt 0 _)) by lia. unfold set_next_ack_request_expected, on_client. run.
    cbn [client inputPackets with_inputs with_client]. rewrite drop_ge by lia. done.
  - by rewrite (complete_loop_partial ps op ack n ack m Hins) by lia.
Qed.

Lemma expand_next op ack n ps : expand (slots op ack n ps) (Z.of_nat (length ps)) = slots op ack n ps ++ [zero_input].
Proof.
  unfold expand. rewrite slots_length.
  by replace (Z.to_nat (Z.of_nat (length ps) + 1 - Z.of_nat (length ps))) with 1%nat by lia.
Qed.

Lemma input_of_reading p op ack n : Z.of_nat (length p) < 2 ^ 32 →
  input_of (aligned_init p (Z.of_nat (length p))) op ack n =
  mkInput ack n op (Z.of_nat (length p)) (if 0 <? Z.of_nat (length p) then Alive p else Null).
Proof.
  intros Hl. pose proof (reading_payload p Hl) as Hr. unfold input_of.
  by rewrite (reading_remaining _ _ Hr), (reading_bytes _ _ Hr).
Qed.

Lemma insert_last {A} (l : list A) x y : <[length l := y]> (l ++ [x]) = l ++ [y].
Proof. rewrite <-(Nat.add_0_r (length l)). by rewrite insert_app_r. Qed.

(** Fragment [j] of [n], the ones before it being buffered. *)
Lemma arrive_fragment p ps op ack n m :
  nextAckRequestExpected (client m) = ack → inputPackets m = slots op ack n ps →
  Z.of_nat (length ps) < n → n ≤ 1024 → 0 < ack → ack + n < 2 ^ 16 → Z.of_nat (length p) < 2 ^ 32 →
  arrive p (if ps is [] then op else 0) (ack + Z.of_nat (length ps)) n m =
    if Z.of_nat (length ps) + 1 =? n then (Ok tt, caught_up m [(op, concat (ps ++ [p]))] (ack + n))
    else (Ok tt, with_inputs m (slots op ack n (ps ++ [p]))).
Proof.
  intros He Hins Hlt Hn Hack H16 Hl. set (j := length ps). unfold arrive, ack_mgr_trilogy_recv_packet. run.
  rewrite He. rewrite (proj2 (Z.eqb_neq n 0)), andb_false_r by lia.
  pose proof (ack_compare_window ack (Z.of_nat j) ltac:(lia)) as Hcmp.
  assert (Hidx : slot_index (ack + Z.of_nat j) ack = Z.of_nat j).
  { unfold slot_index. rewrite Z.add_simpl_l. apply wrap_small. unfold is_word. lia. }
  destruct (ack_compare _ _); [clear Hcmp|clear Hcmp|done].
  all: rewrite Hidx, Hins, Nat2Z.id, input_of_reading by done; unfold j; rewrite expand_next.
  all: rewrite (input_at_ok _ zero_input) by
    (simpl; rewrite lookup_app_r by (rewrite slots_length; lia); by rewrite slots_length, Nat.sub_diag).
  all: cbn [in_ackRequest zero_input Z.eqb negb inputPackets with_inputs].
  all: rewrite <-(slots_length op ack n ps), insert_last, slots_length.
  all: assert (Hslot : slots op ack n ps ++ [mkInput (ack + Z.of_nat (length ps)) n (if ps is [] then op else 0)
    (Z.of_nat (length p)) (if 0 <? Z.of_nat (length p) then Alive p else Null)] = slots op ack n (ps ++ [p]))
    by (rewrite slots_snoc; unfold slot; by destruct ps).
  all: rewrite Hslot, slots_length.
  all: set (m2 := with_inputs (with_inputs m (slots op ack n ps ++ [zero_input])) (slots op ack n (ps ++ [p]))).
  all: etrans; [apply (complete_ok (ps ++ [p]) op ack n m2 eq_refl); rewrite ?length_app; simpl; lia|].
  all: rewrite length_app, Nat2Z.inj_add; change (Z.of_nat (length [p])) with 1; by destruct (Z.of_nat (length ps) + 1 =? n).
Qed.

(** A whole group, fragment by fragment. *)
Fixpoint arrive_group (ps : list (list Z)) (j : nat) (op ack n : Z) : code AckMgr unit :=
  match ps with
  | [] => mret tt
  | p :: ps => arrive p (if j is O then op else 0) (ack + Z.of_nat j) n ;; arrive_group ps (S j) op ack n
  end.

Lemma arrive_group_ok ps before op ack n m :
  nextAckRequestExpected (client m) = ack → inputPackets m = slots op ack n before →
  Z.of_nat (length (before ++ ps)) = n → ps ≠ [] → n ≤ 1024 → 0 < ack → ack + n < 2 ^ 16 →
  Forall (λ p, Z.of_nat (length p) < 2 ^ 32) ps →
  arrive_group ps (length before) op ack n m = (Ok tt, caught_up m [(op, concat (before ++ ps))] (ack + n)).
Proof.
  revert before m. induction ps as [|p ps IH]; intros before m He Hins Hn Hne Hmax Hack H16 Hsz; [done|].
  apply Forall_cons in Hsz as [Hp Hps]. rewrite length_app in Hn. cbn [length] in Hn.
  cbn [arrive_group]. run.
  replace (if length before is O then op else 0) with (if before is [] then op else 0) by (by destruct before).
  rewrite (arrive_fragment p before) by (done || lia). destruct ps as [|p' ps].
  - rewrite (proj2 (Z.eqb_eq _ n)) by (simpl in Hn; lia). done.
  - rewrite (proj2 (Z.eqb_neq _ n)) by (simpl in Hn; lia).
    replace (S (length before)) with (length (before ++ [p])) by (rewrite length_app; simpl; lia).
    rewrite (IH (before ++ [p])); try done.
    + unfold caught_up. rewrite <-app_assoc. done.
    + rewrite !length_app in *. simpl in *. lia.
Qed.

(** ** A stream of arrivals *)

(** A packet that comes whole, its fragments in order, or a packet sent again
    whose ack number lies [back] before the expected one. *)
Inductive arrival :=
  | Whole (op : Z) (ps : list (list Z))
  | Again (op back n : Z) (p : list Z).

Definition arrival_run (x : arrival) (ack : Z) : code AckMgr unit :=
  match x with
  | Whole op [p] => arrive p op ack 0
  | Whole op ps => arrive_group ps 0 op ack (Z.of_nat (length ps))
  | Again op back n p => arrive p op (ack - back) n
  end.

Definition arrival_acks (x : arrival) : Z :=
  match x with Whole _ ps => Z.of_nat (length ps) | Again _ _ _ _ => 0 end.

Definition arrival_message (x : arrival) : list (Z * list Z) :=
  match x with Whole op ps => [(op, concat ps)] | Again _ _ _ _ => [] end.

Definition arrival_ok (x : arrival) : Prop :=
  match x with
  | Whole op ps => ps ≠ [] ∧ Z.of_nat (length ps) ≤ 1024 ∧ Forall (λ p, Z.of_nat (length p) < 2 ^ 32) ps
  | Again op back n p => 1 ≤ back ≤ 1024
  end.

Fixpoint arrivals_run (xs : list arrival) (ack : Z) : code AckMgr unit :=
  match xs with
  | [] => mret tt
  | x :: xs => arrival_run x ack ;; arrivals_run xs (ack + arrival_acks x)
  end.

Definition arrivals_acks (xs : list arrival) : Z := foldr Z.add 0 (arrival_acks <$> xs).

Lemma arrivals_acks_nonneg xs : 0 ≤ arrivals_acks xs.
Proof.
  unfold arrivals_acks. induction xs as [|y xs IH]; [done|]. cbn [fmap list_fmap foldr].
  assert (0 ≤ arrival_acks y) by (destruct y; simpl; lia). lia.
Qed.

Lemma caught_up_trans m l1 l2 a1 a2 : caught_up (caught_up m l1 a1) l2 a2 = caught_up m (l1 ++ l2) a2.
Proof. unfold caught_up. simpl. by rewrite app_assoc. Qed.

Lemma caught_up_refl m : inputPackets m = [] → caught_up m [] (nextAckRequestExpected (client m)) = m.
Proof. intros Hi. unfold caught_up. rewrite app_nil_r, <-Hi. by destruct m as [[]]. Qed.

Lemma arrive_past p op got n m : ack_compare got (nextAckRequestExpected (client m)) = AckPast →
  arrive p op got n m = (Ok tt, m).
Proof.
  intros Hc. unfold arrive, ack_mgr_trilogy_recv_packet. run. rewrite Hc.
  destruct (Z.eqb_spec got (nextAckRequestExpected (client m))) as [->|]; [|done].
  unfold ack_compare in Hc. by rewrite Z.eqb_refl in Hc.
Qed.

Lemma ack_compare_back ack back : 1 ≤ back ≤ 1024 → ack_compare (ack - back) ack = AckPast.
Proof.
  intros. unfold ack_compare, ACK_WINDOW_HALF_SIZE. rewrite (proj2 (Z.eqb_neq _ _)) by lia.
  by rewrite (proj2 (Z.ltb_ge ack _)), (proj2 (Z.ltb_ge _ (ack - 1024))) by lia.
Qed.

Lemma arrival_run_ok x ack m : arrival_ok x → nextAckRequestExpected (client m) = ack → inputPackets m = [] →
  0 < ack → ack + arrival_acks x < 2 ^ 16 →
  arrival_run x ack m = (Ok tt, caught_up m (arrival_message x) (ack + arrival_acks x)).
Proof.
  intros Hok He Hi Hack H16. destruct x as [op ps|op back n p]; cbn [arrival_run arrival_message arrival_acks] in *.
  - destruct Hok as (Hne & Hmax & Hsz). destruct ps as [|p [|p' ps]]; [done| |].
    + apply Forall_cons in Hsz as [Hp _]. rewrite arrive_expected by done. cbn [length concat] in *.
      by rewrite app_nil_r, wrap_small by (unfold is_word; lia).
    + by apply (arrive_group_ok _ [] op ack _ m).
  - rewrite arrive_past by (rewrite He; by apply ack_compare_back). by rewrite Z.add_0_r, <-He, caught_up_refl.
Qed.

(** ** Properties *)



(** A packet buffered ahead of the expected one stays in its slot when the
    expected packet is taken by the fast path, although the slots are counted
    from the next expected packet: after the packets 6 (early), 5, 6 (sent
    again) and the fragments 7 and 8 of one group, packet 6 has been delivered
    twice, and its slot of freed memory makes the next fragment a use after
    free and the end of the connection a double free. *)
Theorem fast_path_leaves_stale_slots :
  let early := arrive [60] 2 6 0 ;; arrive [50] 1 5 0 ;; arrive [60] 2 6 0 ;; arrive [70] 3 7 2 in
  let m := caught_up ack_mgr_trilogy_init [] 5 in
  delivered (early m).2 = [(1, [50]); (2, [60]); (2, [60])] ∧
  fst ((early ;; arrive [80] 0 8 2) m) = Fault ∧
  fst ((early ;; ack_mgr_trilogy_deinit) m) = Fault.
Proof. by split_and!; vm_compute. Qed.
