(* ===== verification/Delivery.v ===== *)
(** From one side of a connection to the other: what is scheduled on one side
    is what the other side's client is given. *)

From S2P Require Import Prelude Aligned Crc PacketTrilogy NetClient AckMgr ProtocolTrilogy.
From S2P Require Import SendQueue RecvFrame Reassembly.

(** ** Scheduling *)

(** [w] is the wrapper of the payload [p], numbered from [a] on. *)
Record carries (w : OutputPacket) (pk : PacketTrilogy) (p : list Z) (a : Z) : Prop := {
  ca_queued : queued w pk p;
  ca_header : acked_header (header w);
  ca_single : bits (header w) IsFragment = (1 <? o_fragCount w);
  ca_ack : ackRequest w = a;
}.

Fixpoint numbered (a : Z) (qs : list (OutputPacket * PacketTrilogy * list Z)) : Prop :=
  match qs with
  | [] => True
  | (w, pk, p) :: qs => carries w pk p a ∧ numbered (a + o_fragCount w) qs
  end.

(** The ack numbers that the packets [pks] take. *)
Definition numbers (pks : list PacketTrilogy) : Z := foldr Z.add 0 ((λ pk, fragCount pk + 1) <$> pks).

Lemma laid_out_grab pk p : laid_out pk p → laid_out (packet_trilogy_grab pk) p.
Proof. by intros []. Qed.


(** One packet scheduled. *)
Lemma schedule_ok pk p m : laid_out pk p → fragCount pk < 2 ^ 16 - 1 →
  let a := if nextAckToRequest m =? 0 then 1 else nextAckToRequest m in
  is_word 16 a → a + fragCount pk + 1 < 2 ^ 16 →
  ∃ w m', ack_mgr_trilogy_schedule_packet pk false m = (Ok tt, m') ∧
    carries w (packet_trilogy_grab pk) p a ∧
    client m' = set_output (client m) (outputPackets (client m) ++ [w]) (sendFromIndex (client m)) ∧
    nextAckToRequest m' = a + fragCount pk + 1.
Proof.
  intros Hlo Hfc a Ha Hmax. pose proof (lo_count _ _ Hlo).
  unfold ack_mgr_trilogy_schedule_packet, packet_trilogy_frag_count, on_client, network_client_trilogy_schedule_packet.
  run. fold a. cbn [andb]. rewrite (wrap_small 16 (fragCount pk + 1)) by (unfold is_word; lia).
  eexists _, _. split; [done|]. split; [|split; [done|]].
  - split; cbn [header ackRequest o_fragCount]; try done.
    + split; cbn [packet o_fragCount fragCount packet_trilogy_grab fmap option_fmap option_map]; try done.
      by apply laid_out_grab.
    + by destruct (1 <? fragCount pk + 1); [right|left].
    + by destruct (1 <? fragCount pk + 1).
  - cbn [nextAckToRequest with_client]. rewrite wrap_small by (unfold is_word in *; lia). lia.
Qed.

Definition schedule_all (pks : list PacketTrilogy) : code AckMgr unit :=
  each pks (λ pk, ack_mgr_trilogy_schedule_packet pk false).

(** Fragmented packets with the payloads they were made for. *)
Definition prepared (x : PacketTrilogy * list Z) : Prop :=
  laid_out x.1 x.2 ∧ fragCount x.1 < 2 ^ 16 - 1 ∧ is_word 16 (opcode x.1) ∧ opcode x.1 ≠ 0.

Lemma numbers_nonneg xs : Forall prepared xs → 0 ≤ numbers xs.*1.
Proof.
  unfold numbers. induction 1 as [|[pk p] xs [Hlo _] Hxs IH]; [done|]. cbn [fmap list_fmap foldr fst].
  pose proof (lo_count _ _ Hlo). simpl in *. lia.
Qed.

Lemma schedule_all_ok xs m a : Forall prepared xs →
  (if nextAckToRequest m =? 0 then 1 else nextAckToRequest m) = a →
  is_word 16 a → a + numbers xs.*1 < 2 ^ 16 →
  ∃ qs m', schedule_all xs.*1 m = (Ok tt, m') ∧ numbered a qs ∧
    (λ q, (opcode q.1.2, fragCount q.1.2, q.2)) <$> qs = (λ x, (opcode x.1, fragCount x.1, x.2)) <$> xs ∧
    client m' = set_output (client m) (outputPackets (client m) ++ ((λ q, q.1.1) <$> qs)) (sendFromIndex (client m)).
Proof.
  intros Hxs. revert m a. induction Hxs as [|[pk p] xs Hx Hxs IH]; intros m a Ha Hword Hmax.
  { exists [], m. split_and!; try done. simpl. rewrite app_nil_r. by destruct m as [[]]. }
  pose proof (numbers_nonneg xs Hxs). destruct Hx as (Hlo & Hfc & _). pose proof (lo_count _ _ Hlo).
  unfold numbers in *. cbn [fmap list_fmap foldr fst snd] in *.
  destruct (schedule_ok pk p m Hlo Hfc) as (w & m1 & Hs & Hw & Hc & Hn); rewrite ?Ha; [done|lia|].
  rewrite Ha in *. destruct (IH m1 (a + fragCount pk + 1)) as (qs & m2 & Hall & Hnum & Hq & Hc2).
  { rewrite Hn. by rewrite (proj2 (Z.eqb_neq _ 0)) by (unfold is_word in *; lia). }
  { unfold is_word in *. lia. }
  { lia. }
  exists ((w, packet_trilogy_grab pk, p) :: qs), m2. split_and!.
  - unfold schedule_all in *. cbn [each]. run. by rewrite Hs.
  - split; [done|]. destruct Hw as [[_ _ Hcount _] _ _ _]. rewrite Hcount.
    cbn [fragCount packet_trilogy_grab]. by rewrite Z.add_assoc.
  - cbn [fmap list_fmap fst snd]. by rewrite Hq.
  - rewrite Hc2, Hc. cbn [fmap list_fmap fst snd outputPackets set_output sendFromIndex].
    by rewrite <-app_assoc.
Qed.

(** ** Receiving *)
Definition acks_ok (c : NetClient) : Prop := 0 ≤ sendFromIndex c ≤ Z.of_nat (length (outputPackets c)).

Lemma count_acked_le ws ack : (count_acked ws ack ≤ length ws)%nat.
Proof. induction ws as [|w ws IH]; simpl; [lia|]. case_match; simpl; lia. Qed.

Lemma recv_ack_response_ok r c : acks_ok c →
  ∃ c', network_client_trilogy_recv_ack_response r c = (Ok tt, c') ∧ acks_ok c' ∧
    nextAckRequestExpected c' = nextAckRequestExpected c.
Proof.
  intros [Hlo Hhi]. unfold network_client_trilogy_recv_ack_response. cbn [sendFromIndex outputPackets].
  rewrite (proj2 (Z.ltb_ge _ _)) by lia.
  pose proof (count_acked_le (take (Z.to_nat (sendFromIndex c)) (outputPackets c)) (toNetworkUint16 r)) as Hle.
  rewrite length_take in Hle. case_match; eexists; (split; [done|]); (split; [|done]); split;
    cbn [sendFromIndex outputPackets set_output]; rewrite ?length_drop; lia.
Qed.

Lemma recv_ack_request_ok a c : acks_ok c →
  ∃ c', network_client_trilogy_recv_ack_request a false c = (Ok tt, c') ∧ acks_ok c' ∧
    nextAckRequestExpected c' = nextAckRequestExpected c.
Proof.
  intros Hok. unfold network_client_trilogy_recv_ack_request. run. eexists. split; [done|].
  by case_match.
Qed.

(** What a handler has delivered and waits for. *)
Record awaits (h : Handler) (ins : list InputPacket) (ack : Z) (out : list (Z * list Z)) : Prop := {
  aw_ins : inputPackets (ackMgr h) = ins;
  aw_ack : nextAckRequestExpected (client (ackMgr h)) = ack;
  aw_out : delivered (ackMgr h) = out;
  aw_acks : acks_ok (client (ackMgr h));
  aw_dead : isDead h = false;
}.

Lemma dispatch_ok w op r k payload h ins ack out : awaits h ins ack out → bits (header w) IsFragment = (1 <? o_fragCount w) →
  ∃ m, inputPackets m = ins ∧ nextAckRequestExpected (client m) = ack ∧ delivered m = out ∧ acks_ok (client m) ∧
    dispatch w op r k payload h =
    let '(x, m) := arrive payload (if k =? 0 then op else 0) (u16 (ackRequest w + k))
                     (if 1 <? o_fragCount w then o_fragCount w else 0) m in
    (x, mkHandler m (u64 (packetsReceived h + 1)) (isDead h) (disconnected h)).
Proof.
  intros [Hins Hack Hout Hok Hdead] Hfrag. unfold dispatch, on_mgr, on_client, increment_packets_received. run.
  rewrite Hfrag. destruct (negb (r =? 0)); cbn [ackMgr packetsReceived isDead disconnected].
  - destruct (recv_ack_response_ok r _ Hok) as (c1 & -> & Hok1 & He1). cbn [ackMgr client with_client].
    destruct (recv_ack_request_ok (u16 (ackRequest w + k)) _ Hok1) as (c2 & -> & Hok2 & He2).
    eexists (with_client (ackMgr h) c2). split_and!; [..|reflexivity]; simpl; congruence || done.
  - destruct (recv_ack_request_ok (u16 (ackRequest w + k)) _ Hok) as (c2 & -> & Hok2 & He2).
    eexists (with_client (ackMgr h) c2). split_and!; [..|reflexivity]; simpl; congruence || done.
Qed.

(** Every datagram into the handler, with what lies behind it in the buffer. *)
Definition recv_all (dgs : list (list Z)) (junk : list Z) : code Handler unit :=
  each dgs (λ dg, protocol_handler_trilogy_recv (dg ++ junk) (Z.of_nat (length dg))).

Lemma recv_all_app d1 d2 junk h h' : recv_all d1 junk h = (Ok tt, h') →
  recv_all (d1 ++ d2) junk h = recv_all d2 junk h'.
Proof.
  unfold recv_all. revert h. induction d1 as [|dg d1 IH]; intros h; cbn [each app].
  - run. by intros [= ->].
  - run. destruct (protocol_handler_trilogy_recv _ _ h) as [[[]| |] h1]; [|done..]. apply IH.
Qed.


(** The packet [w] numbered from [a], small enough to be received. *)
Record receivable (w : OutputPacket) (pk : PacketTrilogy) (p : list Z) (a : Z) : Prop := {
  rv_carries : carries w pk p a;
  rv_opcode : is_word 16 (opcode pk) ∧ opcode pk ≠ 0;
  rv_ack : 0 < a ∧ a + fragCount pk + 1 < 2 ^ 16;
  rv_count : fragCount pk < 1024;
}.

(** The slots once the first [k] fragments are there. *)
Definition buffered (pk : PacketTrilogy) (p : list Z) (a : Z) (k : nat) : list InputPacket :=
  slots (opcode pk) a (fragCount pk + 1) (frag_payload p <$> seq 0 k).

Lemma frag_payload_small p k : Z.of_nat (length (frag_payload p k)) < 2 ^ 10.
Proof. rewrite frag_payload_length. destruct k; lia. Qed.

Lemma frame_of_ok w pk p a r (k : nat) : receivable w pk p a → is_word 16 r → Z.of_nat k ≤ fragCount pk →
  frame_ok w (opcode pk) r (Z.of_nat k) (frag_payload p k).
Proof.
  intros [[[_ Hlo Hcount _] Hh Hs Hack] Hop [Ha Hmax] Hfc] Hr Hk. pose proof (lo_count _ _ Hlo).
  split; rewrite ?Hcount; try done; try (unfold is_word; lia).
  - rewrite Hs, Hcount. intros Hn%Z.ltb_ge. lia.
  - rewrite Hack, wrap_small by (unfold is_word; lia). lia.
  - pose proof (frag_payload_small p k). lia.
Qed.

Lemma payload_whole pk p k : laid_out pk p → Z.of_nat k = fragCount pk →
  concat ((frag_payload p <$> seq 0 k) ++ [frag_payload p k]) = p.
Proof.
  intros Hlo Hk. pose proof (lo_full _ _ Hlo) as [_ Hfull].
  rewrite <-Hk, Nat2Z.id in Hfull. etrans; [|exact (concat_frags p k Hfull)].
  by rewrite seq_S, fmap_app.
Qed.

Lemma recv_fragment_ok w pk p a r (k : nat) sq junk h out :
  receivable w pk p a → is_word 16 r → Z.of_nat k ≤ fragCount pk →
  awaits h (buffered pk p a k) a out →
  let dg := frame w (opcode pk) r (Z.of_nat k) sq (frag_payload p k) in
  ∃ h', protocol_handler_trilogy_recv (dg ++ junk) (Z.of_nat (length dg)) h = (Ok tt, h') ∧
    if Z.of_nat k =? fragCount pk then awaits h' [] (a + fragCount pk + 1) (out ++ [(opcode pk, p)])
    else awaits h' (buffered pk p a (S k)) a out.
Proof.
  intros Hrv Hr Hk Haw dg. unfold dg. rewrite (recv_frame_ok w (opcode pk) r (Z.of_nat k) sq) by by eapply frame_of_ok.
  destruct Hrv as [[[_ Hlo Hcount _] Hh Hs Hack] Hop [Ha Hmax] Hfc]. pose proof (lo_count _ _ Hlo).
  destruct (dispatch_ok w (opcode pk) r (Z.of_nat k) (frag_payload p k) h _ _ _ Haw Hs)
    as (m & Hins & He & Hout & Hok & ->).
  pose proof (frag_payload_small p k). rewrite Hack, (wrap_small _ (a + _)), Hcount by (unfold is_word; lia).
  destruct (Z.ltb_spec 1 (fragCount pk + 1)).
  - assert (Hbl : length (frag_payload p <$> seq 0 k) = k) by (by rewrite length_fmap, length_seq).
    pose proof (arrive_fragment (frag_payload p k) (frag_payload p <$> seq 0 k) (opcode pk) a (fragCount pk + 1) m He Hins)
      as Harr. rewrite Hbl in Harr.
    replace (if frag_payload p <$> seq 0 k is [] then opcode pk else 0)
      with (if Z.of_nat k =? 0 then opcode pk else 0) in Harr by (by destruct k).
    rewrite Harr by lia. clear Harr.
    destruct (Z.eqb_spec (Z.of_nat k + 1) (fragCount pk + 1)), (Z.eqb_spec (Z.of_nat k) (fragCount pk)); try lia.
    + eexists. split; [done|]. rewrite (payload_whole pk) by done.
      split; simpl; [done|lia|by rewrite Hout|done|apply Haw].
    + eexists. split; [done|]. unfold buffered. rewrite seq_S, fmap_app.
      split; simpl; done || apply Haw.
  - assert (k = 0%nat) as -> by lia. assert (Hfc0 : fragCount pk = 0) by lia. rewrite Hfc0 in *.
    cbn [Z.of_nat Z.eqb]. rewrite Z.add_0_r. rewrite arrive_expected by (done || lia).
    eexists. split; [done|]. pose proof (payload_whole pk p 0 Hlo ltac:(lia)) as Hp. simpl in Hp. rewrite app_nil_r in Hp.
    split; simpl; [done| |by rewrite Hp, Hout|done|apply Haw]. rewrite wrap_small by (unfold is_word; lia). lia.
Qed.

Lemma recv_frames_ok d w pk p a r (k : nat) sq junk h out :
  receivable w pk p a → is_word 16 r → Z.of_nat k + Z.of_nat (S d) = fragCount pk + 1 →
  awaits h (buffered pk p a k) a out →
  ∃ h', recv_all (frames w (opcode pk) r k sq (S d) p) junk h = (Ok tt, h') ∧
    awaits h' [] (a + fragCount pk + 1) (out ++ [(opcode pk, p)]).
Proof.
  intros Hrv. revert r k sq h. induction d as [|d IH]; intros r k sq h Hr Hk Haw.
  - destruct (recv_fragment_ok w pk p a r k sq junk h out Hrv Hr ltac:(lia) Haw) as (h' & Hrecv & Hout).
    rewrite (proj2 (Z.eqb_eq _ _)) in Hout by lia. exists h'. split; [|done].
    cbn [frames]. unfold recv_all. cbn [each]. run. by rewrite Hrecv.
  - destruct (recv_fragment_ok w pk p a r k sq junk h out Hrv Hr ltac:(lia) Haw) as (h1 & Hrecv & Hout).
    rewrite (proj2 (Z.eqb_neq _ _)) in Hout by lia.
    destruct (IH 0 (S k) (u16 (sq + 1)) h1) as (h' & Hrest & Haw'); [done|lia|done|].
    exists h'. split; [|done]. cbn [frames] in *. unfold recv_all in *. cbn [each] in *. run. rewrite Hrecv. exact Hrest.
Qed.

Lemma recv_queue_ok qs a r sq junk h out :
  numbered a qs → Forall (λ q, is_word 16 (opcode q.1.2) ∧ opcode q.1.2 ≠ 0 ∧ fragCount q.1.2 < 1024) qs →
  0 < a → a + numbers ((λ q, q.1.2) <$> qs) < 2 ^ 16 → is_word 16 r → awaits h [] a out →
  ∃ h', recv_all (queue_frames qs r sq) junk h = (Ok tt, h') ∧
    awaits h' [] (a + numbers ((λ q, q.1.2) <$> qs)) (out ++ ((λ q, (opcode q.1.2, q.2)) <$> qs)).
Proof.
  revert a r sq h out. induction qs as [|[[w pk] p] qs IH]; intros a r sq h out Hnum Hqs Ha Hmax Hr Haw.
  { exists h. split; [done|]. unfold numbers. cbn [fmap list_fmap foldr]. by rewrite Z.add_0_r, app_nil_r. }
  destruct Hnum as [Hw Hnum]. apply Forall_cons in Hqs as [(Hop & Hop0 & Hfc) Hqs]. unfold numbers in *.
  cbn [fmap list_fmap foldr fst snd queue_frames] in *.
  assert (Hnn : 0 ≤ foldr Z.add 0 ((λ pk, fragCount pk + 1) <$> ((λ q, q.1.2) <$> qs))).
  { clear -Hnum. revert Hnum. generalize (a + o_fragCount w). induction qs as [|[[w' pk'] p'] qs IH]; intros b Hnum; [done|].
    destruct Hnum as [[[_ Hlo _ _] _ _ _] Hnum]. pose proof (lo_count _ _ Hlo). specialize (IH _ Hnum).
    cbn [fmap list_fmap foldr fst snd]. lia. }
  pose proof Hw as [[_ Hlo Hcount _] _ _ _]. pose proof (lo_count _ _ Hlo).
  assert (Hrv : receivable w pk p a) by (split; try done; lia).
  rewrite Hcount in *. destruct (Z.to_nat (fragCount pk + 1)) as [|d] eqn:Hd; [lia|].
  destruct (recv_frames_ok d w pk p a r 0 sq junk h out Hrv Hr ltac:(lia) Haw) as (h1 & Hrecv & Haw1).
  rewrite (recv_all_app _ _ _ _ _ Hrecv).
  destruct (IH (a + fragCount pk + 1) 0 (u16 (sq + Z.of_nat (S d))) h1 (out ++ [(opcode pk, p)])) as (h2 & Hrest & Haw2); try done.
  - by rewrite <-Z.add_assoc.
  - lia.
  - lia.
  - exists h2. split; [done|]. rewrite <-app_assoc in Haw2. by rewrite !Z.add_assoc.
Qed.

(** ** Properties *)

(** A packet ready to be scheduled with the payload [x.2]: made for it and
    fragmented, of at most 1022 fragments. *)
Definition ready (x : PacketTrilogy * list Z) : Prop :=
  ∃ pk, made_for pk x.2 ∧ packet_trilogy_fragmentize pk = Ok x.1 ∧
    Z.of_nat (length x.2) ≤ 2 ^ 19 - 1024 ∧ is_word 16 (opcode pk) ∧ opcode pk ≠ 0.

(** Payloads that the code does not cut: those of 511 and 512 bytes, and of a
    multiple of 512 or one byte less than one, lose their last bytes
    ([SendQueue.send_cuts_off_last_bytes]). *)
Definition sized (x : PacketTrilogy * list Z) : Prop := fits_fragments (Z.of_nat (length x.2)).

Lemma ready_prepared x : ready x → sized x → prepared x ∧ fragCount x.1 < 1024.
Proof.
  destruct x as [pk' p]. unfold sized. intros (pk & Hm & Hf & Hl & Hop & Hop0) Hfits. simpl in *.
  destruct (fragmentize_laid_out pk p Hm) as (pk2 & Hf2 & Hlo & Hopc & Hfc); [lia|done|].
  assert (pk2 = pk') as -> by congruence. split; [split_and!; simpl; try done; by rewrite Hopc|].
  pose proof (lo_full _ _ Hlo) as [Hfull _]. pose proof (lo_count _ _ Hlo).
  destruct (Z.to_nat (fragCount pk')) as [|n] eqn:Hn; unfold frag_start in Hfull; lia.
Qed.


(** A packet with an opcode filled with [p] and fragmented. *)
Definition sealed (op : Z) (p mem : list Z) : PacketTrilogy :=
  match packet_trilogy_fragmentize (filled op p mem) with Ok pk => pk | _ => filled op p mem end.

