(* ===== verification/AckQueue.v ===== *)
(** Acknowledged packets leave the queue of outgoing packets, the others stay
    in order. Then what the ack code does outside of the expected histories. *)

From S2P Require Import Prelude Aligned Crc PacketTrilogy NetClient AckMgr ProtocolTrilogy.
From S2P Require Import SendQueue RecvFrame Reassembly Delivery.

(** The ack number of the last fragment. *)
Definition last_ack (w : OutputPacket) : Z := ackRequest w + o_fragCount w - 1.

(** Wrappers numbered from [a] on without gaps. *)
Fixpoint consecutive (a : Z) (ws : list OutputPacket) : Prop :=
  match ws with
  | [] => True
  | w :: ws => ackRequest w = a ∧ 1 ≤ o_fragCount w ∧ consecutive (a + o_fragCount w) ws
  end.

Definition total (ws : list OutputPacket) : Z := foldr Z.add 0 (o_fragCount <$> ws).

Lemma consecutive_from a ws w : consecutive a ws → w ∈ ws → a ≤ last_ack w.
Proof.
  revert a. induction ws as [|v ws IH]; intros a Hc Hw; [by apply elem_of_nil in Hw|].
  destruct Hc as (Ha & Hn & Hc). apply elem_of_cons in Hw as [->|Hw]; [unfold last_ack; lia|].
  specialize (IH _ Hc Hw). lia.
Qed.

Lemma total_nonneg a ws : consecutive a ws → 0 ≤ total ws.
Proof.
  unfold total. revert a. induction ws as [|w ws IH]; intros a Hc; [done|].
  destruct Hc as (_ & Hn & Hc). specialize (IH _ Hc). cbn [fmap list_fmap foldr]. lia.
Qed.

Lemma filter_all {A} (P : A → Prop) `{∀ x, Decision (P x)} (l : list A) : (∀ x, x ∈ l → P x) → filter P l = l.
Proof.
  induction l as [|x l IH]; intros Hall; [done|]. rewrite filter_cons_True by (apply Hall; left).
  f_equal. apply IH. intros y Hy. apply Hall. by right.
Qed.

Lemma drop_count_acked a ws ack : consecutive a ws → 0 ≤ a → a + total ws ≤ 2 ^ 16 →
  drop (count_acked ws ack) ws = filter (λ w, ack < last_ack w) ws.
Proof.
  revert a. induction ws as [|w ws IH]; intros a Hc Ha Hmax; [done|].
  pose proof Hc as (Hw & Hn & Hc'). pose proof (total_nonneg _ _ Hc'). unfold total in *.
  cbn [fmap list_fmap foldr] in Hmax. cbn [count_acked]. rewrite wrap_small by (unfold is_word; lia).
  replace (ackRequest w + (o_fragCount w - 1)) with (last_ack w) by (unfold last_ack; lia).
  destruct (Z.ltb_spec ack (last_ack w)) as [Hlt|Hge].
  - cbn [drop]. symmetry. rewrite filter_cons_True by done. f_equal.
    apply filter_all. intros v Hv. pose proof (consecutive_from _ _ _ Hc' Hv). unfold last_ack in *. lia.
  - rewrite filter_cons_False by lia. cbn [drop]. apply (IH _ Hc'); lia.
Qed.

(** ** Properties *)


Definition acked_wrapper (ack n : Z) : OutputPacket := mkOutput (Z.lor HasAckRequest HasAckCounter) ack 0 n 1 0 0 None.


(** An ack number more than 1024 below the expected one is taken for a future
    one that has wrapped around, but the slot is computed without wrapping to
    16 bits: the buffer of early packets is asked to grow to about 2^32 slots. *)
Theorem old_ack_grows_the_buffer p op ack n m :
  0 < ack < nextAckRequestExpected (client m) - 1024 → is_word 16 (nextAckRequestExpected (client m)) →
  inputPackets m = [] →
  Z.of_nat (length (inputPackets (arrive p op ack n m).2)) =
    2 ^ 32 - (nextAckRequestExpected (client m) - ack) + 1.
Proof.
  intros Hack Hword Hi. set (e := nextAckRequestExpected (client m)) in *. unfold is_word in Hword.
  unfold arrive, ack_mgr_trilogy_recv_packet. run. fold e. rewrite (proj2 (Z.eqb_neq ack e)) by lia. cbn [andb].
  assert (Hcmp : ack_compare ack e = AckFuture).
  { unfold ack_compare, ACK_WINDOW_HALF_SIZE. rewrite (proj2 (Z.eqb_neq ack e)) by lia.
    by rewrite (proj2 (Z.ltb_ge e ack)), (proj2 (Z.ltb_lt ack (e - 1024))) by lia. }
  assert (Hidx : slot_index ack e = 2 ^ 32 - (e - ack)).
  { unfold slot_index, wrap. symmetry. apply (Z.mod_unique _ _ (-1)); lia. }
  rewrite Hcmp, Hidx, Hi. set (N := 2 ^ 32 - (e - ack)).
  assert (HN : 2 ^ 31 < N) by (unfold N; lia). clearbody N. unfold expand. cbn [app length].
  replace (Z.to_nat (N + 1 - Z.of_nat 0)) with (S (Z.to_nat N)) by lia.
  rewrite (input_at_ok _ zero_input) by (cbn [inputPackets with_inputs]; apply lookup_replicate_2; lia).
  cbn [in_ackRequest zero_input Z.eqb negb inputPackets with_inputs]. set (ins := <[Z.to_nat N := _]> _).
  assert (Hlen : length ins = S (Z.to_nat N)) by (unfold ins; by rewrite length_insert, length_replicate).
  assert (H0 : ins !! 0%nat = Some zero_input).
  { unfold ins. rewrite list_lookup_insert_ne by lia. apply lookup_replicate_2. lia. }
  rewrite Hlen. cbn [complete_loop]. run. rewrite (input_at_ok _ zero_input) by done.
  cbn [in_ackRequest zero_input Z.eqb]. change (0 <? 0)%nat with false. cbn [snd inputPackets with_inputs].
  rewrite Hlen. lia.
Qed.

Lemma old_ack_grows_the_buffer_witness :
  Z.of_nat (length (inputPackets (arrive [1] 7 1 0 (caught_up ack_mgr_trilogy_init [] 2000)).2)) = 2 ^ 32 - 1998.
Proof.
  rewrite old_ack_grows_the_buffer; [reflexivity|simpl; lia|unfold is_word; simpl; lia|reflexivity].
Defined.

(** One packet of three fragments, sent. *)
Definition three_fragments : NetClient :=
  let pk := sealed 9 (replicate 1200 7) (replicate 1300 0) in
  let '(_, m) := (schedule_all [pk] ;; on_client (network_client_trilogy_send_queued 1000 1000)) ack_mgr_trilogy_init in
  client m.

(** When the client has acked the first of three fragments, the resend 250
    milliseconds later skips it in the buffer but not in the remaining length,
    cuts the last fragment too long, and throws; nothing of the queue behind
    it is sent. *)
Theorem resend_after_partial_ack_throws :
  let '(r, c) := network_client_trilogy_recv_ack_response (toNetworkUint16 1) three_fragments in
  length (sent three_fragments) = 3%nat ∧ r = Ok tt ∧
  fst (network_client_trilogy_send_queued 1250 1250 c) = Throw ErrorOutOfBounds.
Proof. vm_compute. split_and!; reflexivity. Qed.

(** After an ack response has freed a packet, everything left counts as never
    sent: it goes out again at once, without waiting for the 250 milliseconds. *)
Theorem ack_response_resends_at_once :
  let pk1 := sealed 7 [1] (replicate 100 0) in
  let pk2 := sealed 8 [2] (replicate 100 0) in
  let '(_, m) := (schedule_all [pk1; pk2] ;; on_client (network_client_trilogy_send_queued 1000 1000)) ack_mgr_trilogy_init in
  let '(_, c1) := network_client_trilogy_recv_ack_response (toNetworkUint16 1) (client m) in
  let '(_, c2) := network_client_trilogy_send_queued 1001 1001 c1 in
  length (sent (client m)) = 2%nat ∧ length (sent c2) = 3%nat ∧ length (outputPackets c2) = 1%nat.
Proof. vm_compute. split_and!; reflexivity. Qed.
