(* ===== verification/UdpSocketSpec.v ===== *)
(** The table of connections stays coherent: every client's handler knows its
    position, no address has two live clients, and the references are counted
    right. And what a connection of the standard protocol does to the sender. *)

From S2P Require Import Prelude Aligned Crc PacketTrilogy NetClient AckMgr ProtocolTrilogy ProtocolStandard UdpSocket.

(** client_on_disconnect of the login server and char select: the client object
    loses a reference, and with its last one it drops its reference to the
    handler. Whether it is the last one depends on the process; [last] says so for
    the object of each handler, and the theorems hold for every [last]. (A zone
    cluster's client goes on as a linkdead player: [ZoneLeaving].) *)
Definition object_disconnect (last : nat → bool) (object : option nat) (isLinkdead : bool) : code UdpSocket unit :=
  match object with Some id => if last id then protocol_handler_drop id else mret tt | None => mret tt end.

Definition live_clients (l : list UdpClient) : list (Z * Z) :=
  (λ c, (ip c, port c)) <$> filter (λ c, u_isDead c = false) l.

Record table_ok (s : UdpSocket) : Prop := {
  t_index (i : nat) c : clients s !! i = Some c →
    ∃ h, handlers s !! u_handler c = Some h ∧ udpClientIndex h = Z.of_nat i ∧ 1 ≤ p_refCount h ∧
      (u_isDead c = false → isTrilogy h ≠ 0 → isTrilogy h = 1 ∧ 2 ≤ p_refCount h) ∧
      (u_isDead c = false → isDead (trilogy h) = false ∧ disconnected (trilogy h) = false);
  t_once : NoDup (u_handler <$> clients s);
  t_fresh id : is_Some (handlers s !! id) → (id < next s)%nat;
  t_addr : NoDup (live_clients (clients s));
}.

(** ** The flags a Trilogy datagram leaves *)

(** Either nothing was told to the socket and the object, or both things. *)
Definition told (h h' : Handler) : Prop :=
  (isDead h' = isDead h ∧ disconnected h' = disconnected h) ∨ (isDead h' = true ∧ disconnected h' = true).

Lemma told_refl h : told h h.
Proof. by left. Qed.

Lemma told_trans h1 h2 h3 : told h1 h2 → told h2 h3 → told h1 h3.
Proof. unfold told. intuition congruence. Qed.

Definition tells {A} (m : code (Handler * Aligned) A) : Prop := ∀ h a, told h (m (h, a)).2.1.

Lemma tells_bind {A B} (m : code (Handler * Aligned) A) (f : A → code (Handler * Aligned) B) :
  tells m → (∀ x, tells (f x)) → tells (x ← m; f x).
Proof.
  intros Hm Hf h a. unfold mbind, code_bind. specialize (Hm h a). destruct (m (h, a)) as [[x|e|] [h' a']]; try done.
  eapply told_trans; [exact Hm|apply Hf].
Qed.

Lemma tells_ret {A} (x : A) : tells (mret x : code (Handler * Aligned) A).
Proof. intros h a. apply told_refl. Qed.

Lemma tells_rd {A} (f : code Aligned A) : tells (ProtocolTrilogy.rd f).
Proof. intros h a. unfold ProtocolTrilogy.rd. destruct (f a). apply told_refl. Qed.

Lemma tells_mgr {A} (f : code AckMgr A) : tells (on_handler (on_mgr f)).
Proof. intros h a. unfold on_handler, on_mgr. destruct (f (ackMgr h)). by left. Qed.

Lemma tells_closing : tells (on_handler flag_connection_as_dead ;; on_handler client_on_disconnect).
Proof. intros h a. by right. Qed.

Lemma tells_count : tells (on_handler increment_packets_received).
Proof. intros h a. by left. Qed.

Lemma tells_if {A} (b : bool) (m1 m2 : code (Handler * Aligned) A) : tells m1 → tells m2 → tells (if b then m1 else m2).
Proof. by destruct b. Qed.

Create HintDb tells.
#[local] Hint Resolve tells_bind tells_ret tells_rd tells_mgr tells_closing tells_count tells_if : tells.

Lemma tells_rest header : tells (recv_rest header).
Proof.
  unfold recv_rest. apply tells_bind; [auto with tells|intros []].
  apply tells_bind; [apply tells_if; auto with tells|intros ackRequest].
  apply tells_bind; [apply tells_rd|]. intros v. destruct v as [[fragIndex fragCount]|]; [|apply tells_ret].
  apply tells_bind; [auto with tells|intros []]. apply tells_bind; [auto with tells|intros rem].
  apply tells_bind; [auto with tells|intros opcode]. apply tells_if.
  - apply tells_bind; [apply tells_mgr|intros []; apply tells_closing].
  - apply tells_bind; [apply tells_rd|intros a]. apply tells_if; [apply tells_mgr|]. apply tells_if; auto with tells.
Qed.

Lemma trilogy_recv_tells data len h : told h (protocol_handler_trilogy_recv data len h).2.
Proof.
  unfold protocol_handler_trilogy_recv. destruct (len <? MIN_PACKET_LENGTH); [apply told_refl|].
  assert (Ht : tells (recv_datagram data len)).
  { unfold recv_datagram. apply tells_bind; [auto with tells|intros c]. apply tells_bind; [auto with tells|intros crc].
    apply tells_if; [auto with tells|]. do 3 (apply tells_bind; [auto with tells|intros []]).
    unfold recv_checked. apply tells_bind; [auto with tells|intros header]. apply tells_bind; [auto with tells|intros ?].
    apply tells_if; [|apply tells_rest]. apply tells_bind; [auto with tells|intros ackResponse].
    apply tells_bind; [auto with tells|intros []]. apply tells_bind; [auto with tells|intros rem].
    apply tells_if; [auto with tells|apply tells_rest]. }
  specialize (Ht h (aligned_init data len)). by destruct (recv_datagram data len _) as [r [h' a']].
Qed.

(** ** Steps of the table *)

(** The clauses about one client and its handler. *)
Definition entry_ok (i : nat) (c : UdpClient) (h : ProtocolHandler) : Prop :=
  udpClientIndex h = Z.of_nat i ∧ 1 ≤ p_refCount h ∧
  (u_isDead c = false → isTrilogy h ≠ 0 → isTrilogy h = 1 ∧ 2 ≤ p_refCount h) ∧
  (u_isDead c = false → isDead (trilogy h) = false ∧ disconnected (trilogy h) = false).

Lemma table_entry s i c : table_ok s → clients s !! i = Some c →
  ∃ h, handlers s !! u_handler c = Some h ∧ entry_ok i c h.
Proof. intros Ht Hi. destruct (t_index _ Ht _ _ Hi) as (h & Hh & He). by exists h. Qed.

(** Replacing the handler of client [i]. *)
Lemma table_put s i c h' : table_ok s → clients s !! i = Some c → entry_ok i c h' →
  table_ok (with_handlers s (<[u_handler c := h']> (handlers s))).
Proof.
  intros Ht Hi He. pose proof Ht as [Hidx Honce Hfresh Haddr]. split; [|done| |done].
  - intros j d Hj. cbn [clients handlers with_handlers] in *. destruct (decide (u_handler d = u_handler c)) as [Heq|Hne].
    + assert (j = i) as ->.
      { apply (NoDup_lookup (u_handler <$> clients s) j i (u_handler c) Honce);
          rewrite list_lookup_fmap, ?Hj, ?Hi; simpl; congruence. }
      rewrite Hi in Hj. injection Hj as <-. exists h'. by rewrite lookup_insert_eq.
    + rewrite lookup_insert_ne by done. by apply Hidx.
  - intros id. cbn [handlers next with_handlers]. intros Hid. apply Hfresh.
    destruct (decide (id = u_handler c)) as [->|Hne]; [|by rewrite lookup_insert_ne in Hid].
    destruct (Hidx _ _ Hi) as (h & -> & _). done.
Qed.

Lemma live_clients_alter f l i : (∀ c, ip (f c) = ip c ∧ port (f c) = port c ∧ (u_isDead c = true → u_isDead (f c) = true)) →
  sublist (live_clients (alter f i l)) (live_clients l).
Proof.
  intros Hf. unfold live_clients. revert i. induction l as [|c l IH]; intros i; [done|].
  destruct i as [|i]; cbn [alter list_alter].
  - destruct (Hf c) as (Hip & Hport & Hdead). rewrite !filter_cons. destruct (u_isDead c) eqn:Hc.
    + rewrite (decide_False (P := u_isDead (f c) = false)) by (rewrite Hdead; done). rewrite decide_False by done. done.
    + rewrite (decide_True (P := false = false)) by done. case_decide; cbn; [by rewrite Hip, Hport|by constructor].
  - rewrite !filter_cons. case_decide; cbn; [by constructor|apply IH].
Qed.

(** Changing a client in place, without bringing it back to life. *)
Lemma table_alter f s i : table_ok s →
  (∀ c, ip (f c) = ip c ∧ port (f c) = port c ∧ u_handler (f c) = u_handler c ∧ (u_isDead c = true → u_isDead (f c) = true)) →
  table_ok (with_clients s (alter f i (clients s))).
Proof.
  intros [Hidx Honce Hfresh Haddr] Hf. split; cbn [clients handlers next with_clients]; try done.
  - intros j d Hj. destruct (decide (j = i)) as [->|Hne].
    + rewrite list_lookup_alter_eq in Hj. destruct (clients s !! i) as [c|] eqn:Hc; [|done]. injection Hj as <-.
      destruct (Hf c) as (_ & _ & Hh & Hdead). rewrite Hh. destruct (Hidx _ _ Hc) as (h & Hhd & Hi & Hr & H1 & H2).
      exists h. split_and!; try done; intros Hd; (apply H1 || apply H2);
        (destruct (u_isDead c) eqn:Hcd; [rewrite Hdead in Hd by done; done|done]).
    + rewrite list_lookup_alter_ne in Hj by done. by apply Hidx.
  - assert (Heq : u_handler <$> alter f i (clients s) = u_handler <$> clients s); [|by rewrite Heq].
    apply list_eq. intros j. rewrite !list_lookup_fmap. destruct (decide (j = i)) as [->|Hne].
    + rewrite list_lookup_alter_eq. destruct (clients s !! i) as [c|]; [|done]. simpl. f_equal. apply Hf.
    + by rewrite list_lookup_alter_ne.
  - eapply sublist_NoDup; [exact Haddr|]. apply live_clients_alter. intros c. split_and!; apply Hf.
Qed.

(** ** The first packet *)
Lemma byte_at_some i a : 0 ≤ i < Z.of_nat (length (buffer a)) → ∃ v, byte_at i a = (Ok v, a).
Proof.
  intros Hi. unfold byte_at. rewrite (proj2 (Z.ltb_ge i 0)) by lia.
  destruct (lookup_lt_is_Some_2 (buffer a) (Z.to_nat i)) as [v ->]; [lia|]. by exists v.
Qed.

Lemma read_uint16_some a : wf a → cursor a + 2 ≤ length_ a →
  ∃ v, aligned_read_uint16 a = (Ok v, with_cursor a (cursor a + 2)).
Proof.
  intros Ha Hc. unfold aligned_read_uint16. unfold mbind at 1, code_bind at 1. rewrite advance_ok by (done || lia).
  destruct Ha as (? & ? & ?). run.
  destruct (byte_at_some (cursor a + 0) (with_cursor a (cursor a + 2))) as [v0 ->]; [simpl; lia|].
  destruct (byte_at_some (cursor a + 1) (with_cursor a (cursor a + 2))) as [v1 ->]; [simpl; lia|]. eauto.
Qed.

Lemma read_uint32_some a : wf a → cursor a + 4 ≤ length_ a →
  ∃ v, aligned_read_uint32 a = (Ok v, with_cursor a (cursor a + 4)).
Proof.
  intros Ha Hc. unfold aligned_read_uint32. unfold mbind at 1, code_bind at 1. rewrite advance_ok by (done || lia).
  destruct Ha as (? & ? & ?). run.
  destruct (byte_at_some (cursor a + 0) (with_cursor a (cursor a + 4))) as [v0 ->]; [simpl; lia|].
  destruct (byte_at_some (cursor a + 1) (with_cursor a (cursor a + 4))) as [v1 ->]; [simpl; lia|].
  destruct (byte_at_some (cursor a + 2) (with_cursor a (cursor a + 4))) as [v2 ->]; [simpl; lia|].
  destruct (byte_at_some (cursor a + 3) (with_cursor a (cursor a + 4))) as [v3 ->]; [simpl; lia|]. eauto.
Qed.

(** From four bytes on the check decides, also where the distance to the CRC
    is negative and wraps. *)
Lemma check_first_packet_decides data len : 4 ≤ len ≤ Z.of_nat (length data) → Z.of_nat (length data) < 2 ^ 31 →
  ∃ which, protocol_handler_check_first_packet data len = Ok which ∧ (which = 0 ∨ which = 1).
Proof.
  intros Hl Hd. unfold protocol_handler_check_first_packet, check_first_packet.
  rewrite (wrap_small 32 len) by (unfold is_word; lia).
  destruct (read_uint16_some (aligned_init data len)) as [v Hv]; [split_and!; simpl; lia|simpl; lia|].
  unfold mbind at 1, code_bind at 1. rewrite Hv. unfold mbind at 1, code_bind at 1.
  assert (Ha : aligned_advance (u32 (len - 4 - 2)) (with_cursor (aligned_init data len) (cursor (aligned_init data len) + 2))
    = (Ok 2, with_cursor (aligned_init data len) (len - 4))).
  { unfold aligned_advance. run. cbn [cursor aligned_init with_cursor length_].
    assert (u32 (0 + 2 + u32 (len - 4 - 2)) = len - 4) as ->.
    { unfold wrap. rewrite Z.add_mod_idemp_r by lia. rewrite Z.mod_small; lia. }
    by rewrite (proj2 (Z.ltb_ge _ _)) by lia. }
  rewrite Ha, (wrap_small 32) by (unfold is_word; lia). rewrite (proj2 (Z.ltb_ge _ _)) by lia.
  destruct (read_uint32_some (with_cursor (aligned_init data len) (len - 4))) as [w Hw];
    [split_and!; simpl; lia|simpl; lia|].
  unfold mbind, code_bind. rewrite Hw. run. simpl. case_match; eauto.
Qed.

(** ** One datagram *)

(** The step kept the table coherent and touched only client [i]. *)
Record touched (i : nat) (s s' : UdpSocket) : Prop := {
  t_kept : table_ok s';
  t_others j c : j ≠ i → clients s !! j = Some c →
    clients s' !! j = Some c ∧ handlers s' !! u_handler c = handlers s !! u_handler c;
  t_mine c : clients s !! i = Some c →
    ∃ c', clients s' !! i = Some c' ∧ ip c' = ip c ∧ port c' = port c ∧ lastRecvTime c' = lastRecvTime c ∧ u_handler c' = u_handler c;
}.

Lemma handler_once s i j c d : table_ok s → clients s !! i = Some c → clients s !! j = Some d →
  u_handler c = u_handler d → i = j.
Proof.
  intros Ht Hi Hj Heq. apply (NoDup_lookup (u_handler <$> clients s) i j (u_handler c));
    [apply Ht|by rewrite list_lookup_fmap, Hi|by rewrite list_lookup_fmap, Hj; simpl; rewrite Heq].
Qed.

Lemma touched_put s i c h' : table_ok s → clients s !! i = Some c → entry_ok i c h' →
  touched i s (with_handlers s (<[u_handler c := h']> (handlers s))).
Proof.
  intros Ht Hi He. split; [by apply table_put with i| |].
  - intros j d Hne Hj. split; [done|]. cbn [handlers with_handlers]. apply lookup_insert_ne.
    intros Heq. destruct Hne. by apply (handler_once s j i d c).
  - intros c' Hc'. exists c'. done.
Qed.

Lemma touched_alter f s i : table_ok s →
  (∀ c, ip (f c) = ip c ∧ port (f c) = port c ∧ u_handler (f c) = u_handler c ∧ (u_isDead c = true → u_isDead (f c) = true)) →
  (∀ c, lastRecvTime (f c) = lastRecvTime c) →
  touched i s (with_clients s (alter f i (clients s))).
Proof.
  intros Ht Hf Hr. split; [by apply table_alter| |].
  - intros j c Hne Hj. split; [|done]. cbn [clients with_clients]. by rewrite list_lookup_alter_ne.
  - intros c Hc. exists (f c). cbn [clients with_clients]. rewrite list_lookup_alter_eq, Hc. destruct (Hf c) as (? & ? & ? & _). done.
Qed.

Lemma touched_trans i s1 s2 s3 : touched i s1 s2 → touched i s2 s3 → touched i s1 s3.
Proof.
  intros [H1 O1 M1] [H2 O2 M2]. split; [done| |].
  - intros j c Hne Hj. destruct (O1 j c Hne Hj) as [Hc Hh]. destruct (O2 j c Hne Hc) as [Hc2 Hh2].
    split; [done|]. by rewrite Hh2.
  - intros c Hc. destruct (M1 c Hc) as (c2 & Hc2 & ? & ? & ? & ?). destruct (M2 c2 Hc2) as (c3 & Hc3 & ? & ? & ? & ?).
    exists c3. split_and!; congruence.
Qed.

Lemma flag_dead_keeps c : ip (flag_dead c) = ip c ∧ port (flag_dead c) = port c ∧
  u_handler (flag_dead c) = u_handler c ∧ (u_isDead c = true → u_isDead (flag_dead c) = true).
Proof. done. Qed.

(** What the protocol of a handler does with a datagram: the outcome, and the
    handler's new state. *)
Definition reception (random now : Z) (stack data : list Z) (len : Z) (h : ProtocolHandler) : outcome unit * ProtocolHandler :=
  if isTrilogy h =? 0 then
    let '(r, st) := protocol_handler_standard_recv random now stack data len (standard h) in
    (r, mkProto (isTrilogy h) (p_refCount h) (udpClientIndex h) (trilogy h) st)
  else
    let '(r, t) := protocol_handler_trilogy_recv data len (trilogy h) in
    (r, mkProto (isTrilogy h) (p_refCount h) (udpClientIndex h) t (standard h)).

(** The protocol closed the connection. *)
Definition closed (h : ProtocolHandler) : bool := if isTrilogy h =? 0 then s_isDead (standard h) else isDead (trilogy h).

Definition same_protocol (h h' : ProtocolHandler) : Prop :=
  isTrilogy h = isTrilogy h' ∧ trilogy h = trilogy h' ∧ standard h = standard h'.

Definition flagged (i : nat) (s : UdpSocket) : UdpSocket := with_clients s (alter flag_dead i (clients s)).

(** Client [i] with a new handler state, and flagged if it is [dead]. *)
Definition marked (dead : bool) (i : nat) (c : UdpClient) (h : ProtocolHandler) (s : UdpSocket) : UdpSocket :=
  with_handlers (if dead then flagged i s else s) (<[u_handler c := h]> (handlers s)).

Lemma marked_ok (dead : bool) i c h s : table_ok s → clients s !! i = Some c → entry_ok i (if dead then flag_dead c else c) h →
  touched i s (marked dead i c h s) ∧ clients (marked dead i c h s) !! i = Some (if dead then flag_dead c else c) ∧
  handlers (marked dead i c h s) !! u_handler c = Some h.
Proof.
  intros Ht Hi He. unfold marked. cbn [handlers with_handlers]. rewrite lookup_insert_eq. destruct dead; cbn [clients with_handlers].
  - pose proof (touched_alter flag_dead s i Ht flag_dead_keeps (λ _, eq_refl)) as Ha.
    assert (Hi' : clients (flagged i s) !! i = Some (flag_dead c)) by (cbn [flagged clients with_clients]; by rewrite list_lookup_alter_eq, Hi).
    split; [|done]. eapply touched_trans; [exact Ha|]. exact (touched_put (flagged i s) i (flag_dead c) h (t_kept _ _ _ Ha) Hi' He).
  - split; [|done]. by apply touched_put.
Qed.

Section Objects.
Context (last : nat → bool).

(** A live client's handler gets a datagram. *)
Lemma recv_outcome random now stack s i c h data len : table_ok s → clients s !! i = Some c → u_isDead c = false →
  handlers s !! u_handler c = Some h →
  ∃ h', protocol_handler_recv (object_disconnect last) random now stack (u_handler c) data len s =
      ((reception random now stack data len h).1, marked (closed (reception random now stack data len h).2) i c h' s) ∧
    same_protocol h' (reception random now stack data len h).2 ∧
    entry_ok i (if closed (reception random now stack data len h).2 then flag_dead c else c) h'.
Proof.
  intros Ht Hi Hlive Hh. destruct (table_entry s i c Ht Hi) as (h0 & Hh0 & Hidx & Href & Htri & Hfl).
  rewrite Hh in Hh0. injection Hh0 as <-.
  unfold protocol_handler_recv, reception, closed, handler_at. run. rewrite Hh. destruct (isTrilogy h =? 0) eqn:Hz.
  - destruct (protocol_handler_standard_recv random now stack data len (standard h)) as [r st].
    cbn [fst snd isTrilogy standard trilogy]. rewrite Hz. cbn [standard].
    unfold put_handler, after_recv, udp_socket_flag_client_as_dead_by_index, flag_client. run. cbn [object_disconnect].
    rewrite Hidx, Nat2Z.id. set (h' := mkProto _ _ _ _ _). exists h'. split; [|split; [done|]].
    + by destruct (s_isDead st), (s_disconnected st).
    + apply Z.eqb_eq in Hz. subst h'. destruct (s_isDead st); split_and!; simpl; try done; intros _; congruence.
  - apply Z.eqb_neq in Hz. destruct (Htri Hlive Hz) as [H1 H2]. destruct (Hfl Hlive) as [Hd1 Hd2].
    pose proof (trilogy_recv_tells data len (trilogy h)) as Htold.
    destruct (protocol_handler_trilogy_recv data len (trilogy h)) as [r t]. simpl in Htold.
    cbn [fst snd isTrilogy standard trilogy]. rewrite (proj2 (Z.eqb_neq _ _) Hz). cbn [trilogy].
    unfold put_handler, after_recv, udp_socket_flag_client_as_dead_by_index, flag_client. run.
    rewrite Hidx, Nat2Z.id. set (h' := mkProto _ _ _ _ _).
    destruct Htold as [[Ht1 Ht2]|[Ht1 Ht2]].
    + rewrite Ht1, Ht2, Hd1, Hd2. run. exists h'. split; [done|split; [done|]]. subst h'. split_and!; simpl; try done. split; congruence.
    + rewrite Ht1, Ht2. run. cbn [object_disconnect]. destruct (last (u_handler c)).
      * unfold protocol_handler_drop, handler_at. run.
        cbn [handlers with_handlers with_clients]. rewrite lookup_insert_eq. unfold put_handler, modify.
        rewrite (proj2 (Z.ltb_lt 1 (p_refCount h'))) by (subst h'; simpl; lia).
        unfold with_handlers, with_clients. cbn [clients handlers next]. rewrite insert_insert_eq. eexists. split; [done|].
        split; [done|]. subst h'. split_and!; simpl; try done; lia.
      * exists h'. split; [done|split; [done|]]. subst h'. split_and!; simpl; try done; lia.
Qed.
End Objects.

(** ** Finding or making the client *)
Lemma find_client_spec l n ip_ port_ :
  match find_client l n ip_ port_ with
  | Some i => ∃ k c, i = (n + k)%nat ∧ l !! k = Some c ∧ u_isDead c = false ∧ ip c = ip_ ∧ port c = port_
  | None => (ip_, port_) ∉ live_clients l
  end.
Proof.
  revert n. induction l as [|c l IH]; intros n; cbn [find_client].
  - apply not_elem_of_nil.
  - destruct (u_isDead c) eqn:Hd; cbn [negb andb].
    + specialize (IH (S n)). destruct (find_client l (S n) ip_ port_) as [i|].
      * destruct IH as (k & d & -> & ? & ? & ? & ?). exists (S k), d. split_and!; auto; lia.
      * unfold live_clients in *. rewrite filter_cons, decide_False by congruence. done.
    + destruct (ip c =? ip_) eqn:Hip, (port c =? port_) eqn:Hport; cbn [andb];
        [exists 0%nat, c; split_and!; auto; lia| | |];
        (specialize (IH (S n)); destruct (find_client l (S n) ip_ port_) as [i|];
         [destruct IH as (k & d & -> & ? & ? & ? & ?); exists (S k), d; split_and!; auto; lia|];
         unfold live_clients in *; rewrite filter_cons, decide_True by done; cbn; rewrite not_elem_of_cons; split; [|done];
         intros [= -> ->]; lia).
Qed.

(** A client appended to the table with a handler of its own. *)
Lemma table_push s c h : table_ok s → u_handler c = next s → u_isDead c = false →
  (ip c, port c) ∉ live_clients (clients s) → entry_ok (length (clients s)) c h →
  table_ok (mkSocket (clients s ++ [c]) (<[next s := h]> (handlers s)) (S (next s))).
Proof.
  intros [Hidx Honce Hfresh Haddr] Hc Hlive Hnew He.
  assert (Hold : ∀ j d, clients s !! j = Some d → (u_handler d < next s)%nat).
  { intros j d Hj. apply Hfresh. destruct (Hidx j d Hj) as (x & -> & _). done. }
  split; cbn [clients handlers next].
  - intros j d Hj. apply lookup_snoc_Some in Hj as [[_ Hj]|[-> <-]].
    + rewrite lookup_insert_ne by (specialize (Hold _ _ Hj); lia). by apply Hidx.
    + exists h. rewrite Hc, lookup_insert_eq. done.
  - rewrite fmap_app. apply NoDup_app. split_and!; [done| |apply NoDup_singleton].
    intros id Hid. rewrite list_elem_of_fmap in Hid. destruct Hid as (d & -> & Hd).
    apply list_elem_of_lookup in Hd as [j Hj]. cbn. rewrite list_elem_of_singleton, Hc. specialize (Hold _ _ Hj). lia.
  - intros id Hid. destruct (decide (id = next s)) as [->|]; [lia|].
    rewrite lookup_insert_ne in Hid by done. specialize (Hfresh _ Hid). lia.
  - unfold live_clients in *. rewrite filter_app, fmap_app, filter_cons, decide_True, filter_nil by done.
    apply NoDup_app. split_and!; [done| |apply NoDup_singleton].
    intros x Hx. cbn. rewrite list_elem_of_singleton. by intros ->.
Qed.

(** The handler of a new client at position [n]. *)
Definition first_handler (which : Z) (n : nat) : ProtocolHandler :=
  if which =? 1 then mkProto 1 2 (Z.of_nat n) protocol_handler_trilogy_init protocol_handler_standard_init
  else mkProto 0 1 (Z.of_nat n) protocol_handler_trilogy_init protocol_handler_standard_init.

Lemma first_packet_ok s id c data len n : 4 ≤ len ≤ Z.of_nat (length data) → Z.of_nat (length data) < 2 ^ 31 →
  handlers s !! id = Some (mkProto (-1) 1 0 protocol_handler_trilogy_init protocol_handler_standard_init) →
  ∃ which, protocol_handler_check_first_packet data len = Ok which ∧ entry_ok n c (first_handler which n) ∧
    socket_check_first_packet id data len (Z.of_nat n) s = (Ok tt, with_handlers s (<[id := first_handler which n]> (handlers s))).
Proof.
  intros Hl Hd Hh. destruct (check_first_packet_decides data len Hl Hd) as (which & Hw & Hcase). exists which. split; [done|].
  unfold socket_check_first_packet, protocol_handler_grab, handler_at, put_handler. run. rewrite Hw, Hh.
  destruct Hcase as [-> | ->]; cbn [Z.eqb Pos.eqb].
  - split; [|reflexivity]. split_and!; simpl; try done; lia.
  - cbn [handlers with_handlers]. rewrite lookup_insert_eq. cbn [handlers with_handlers].
    split; [|unfold with_handlers; cbn [handlers clients next]; rewrite insert_insert_eq; reflexivity].
    split_and!; simpl; try done; lia.
Qed.

Definition new_client (s : UdpSocket) (ip_ port_ : Z) : UdpClient := mkUdp ip_ port_ false false (next s) 0.

(** The client and the handler that a datagram is for: those that live at the
    address, or new ones, of the protocol that the datagram shows. *)
Inductive addressed (s : UdpSocket) (ip_ port_ : Z) (buffer : list Z) (len : Z) : nat → UdpClient → ProtocolHandler → Prop :=
  | addressed_known i c h : clients s !! i = Some c → u_isDead c = false → ip c = ip_ → port c = port_ →
      handlers s !! u_handler c = Some h → addressed s ip_ port_ buffer len i c h
  | addressed_new which : (ip_, port_) ∉ live_clients (clients s) → protocol_handler_check_first_packet buffer len = Ok which →
      addressed s ip_ port_ buffer len (length (clients s)) (new_client s ip_ port_) (first_handler which (length (clients s))).

(** The client a datagram is for, found or made; nobody else is changed. *)
Lemma client_for_ok ip_ port_ buffer len s : table_ok s →
  4 ≤ len ≤ Z.of_nat (length buffer) → Z.of_nat (length buffer) < 2 ^ 31 →
  ∃ i c h s', (match find_client (clients s) 0 ip_ port_ with
    | Some i => mret i
    | None =>
        id ← protocol_handler_create;
        modify (λ s, with_clients s (clients s ++ [mkUdp ip_ port_ false false id 0])) ;;
        socket_check_first_packet id buffer len (Z.of_nat (length (clients s))) ;;
        mret (length (clients s))
    end : code UdpSocket nat) s = (Ok i, s') ∧ table_ok s' ∧ addressed s ip_ port_ buffer len i c h ∧
    clients s' !! i = Some c ∧ handlers s' !! u_handler c = Some h ∧ u_isDead c = false ∧ ip c = ip_ ∧ port c = port_ ∧
    (∀ j d, clients s !! j = Some d → u_isDead d = true ∨ ip d ≠ ip_ ∨ port d ≠ port_ →
      j ≠ i ∧ clients s' !! j = Some d ∧ handlers s' !! u_handler d = handlers s !! u_handler d).
Proof.
  intros Ht Hl Hd. pose proof (find_client_spec (clients s) 0 ip_ port_) as Hf.
  destruct (find_client (clients s) 0 ip_ port_) as [i|].
  - destruct Hf as (k & c & -> & Hk & ? & ? & ?). destruct (table_entry s k c Ht Hk) as (h & Hh & _). exists k, c, h, s.
    split_and!; try done; [by constructor|]. intros j d Hj Hd'. split; [|done]. intros ->. rewrite Hk in Hj. injection Hj as ->.
    destruct Hd' as [|[|]]; congruence.
  - set (c := new_client s ip_ port_). unfold protocol_handler_create. run. unfold with_clients. cbn [clients handlers next].
    match goal with |- context [socket_check_first_packet _ _ _ _ ?t] => set (s1 := t) end.
    destruct (first_packet_ok s1 (next s) c buffer len (length (clients s)) Hl Hd (lookup_insert_eq _ _ _)) as (which & Hw & He & Hrun).
    rewrite Hrun. subst s1. unfold with_handlers. cbn [clients handlers next]. rewrite insert_insert_eq.
    eexists _, c, _, _. split_and!; [reflexivity|by apply table_push|by constructor|..]; try done; cbn [clients handlers].
    + by rewrite lookup_app_r, Nat.sub_diag by done.
    + apply lookup_insert_eq.
    + intros j d Hj _. pose proof (lookup_lt_Some _ _ _ Hj). split; [lia|]. split; [by rewrite lookup_app_l|].
      apply lookup_insert_ne. destruct (table_entry s j d Ht Hj) as (x & Hx & _).
      pose proof (t_fresh s Ht (u_handler d) (mk_is_Some _ _ Hx)). lia.
Qed.

Section Reception.
Context (last : nat → bool).

(** The state a reception leaves, when its outcome is defined. *)
Definition received_by (s s' : UdpSocket) (now ip_ port_ : Z) (i : nat) (c : UdpClient) (h1 : ProtocolHandler) : Prop :=
  table_ok s' ∧
  (∃ c' h', clients s' !! i = Some c' ∧ ip c' = ip_ ∧ port c' = port_ ∧ lastRecvTime c' = now ∧ u_handler c' = u_handler c ∧
    u_isDead c' = negb (u_ignoreAllPackets c) && closed h1 ∧ handlers s' !! u_handler c = Some h' ∧ same_protocol h' h1) ∧
  (∀ j d, clients s !! j = Some d → u_isDead d = true ∨ ip d ≠ ip_ ∨ port d ≠ port_ →
    clients s' !! j = Some d ∧ handlers s' !! u_handler d = handlers s !! u_handler d).

Lemma socket_recv_ok random now stack buffer ip_ port_ len s :
  table_ok s → 4 ≤ len ≤ Z.of_nat (length buffer) → Z.of_nat (length buffer) < 2 ^ 31 →
  ∃ i c h, addressed s ip_ port_ buffer len i c h ∧
    let e := udp_socket_recv (object_disconnect last) random now stack buffer ip_ port_ len s in
    let r := if u_ignoreAllPackets c then (Ok tt, h) else reception random now stack buffer len h in
    e.1 = r.1 ∧ received_by s e.2 now ip_ port_ i c r.2.
Proof.
  intros Ht Hl Hd. destruct (client_for_ok ip_ port_ buffer len s Ht Hl Hd) as
    (i & c & h & s1 & Hrun & Ht1 & Had & Hi & Hh & Hlive & Hip & Hport & Hothers). exists i, c, h. split; [done|].
  set (s2 := with_clients s1 (alter (set_recv_time now) i (clients s1))).
  assert (Hi2 : clients s2 !! i = Some (set_recv_time now c)).
  { cbn [clients with_clients s2]. by rewrite list_lookup_alter_eq, Hi. }
  assert (Ht2 : table_ok s2) by by apply table_alter.
  assert (Hrecv : udp_socket_recv (object_disconnect last) random now stack buffer ip_ port_ len s =
    (if negb (u_ignoreAllPackets c) then protocol_handler_recv (object_disconnect last) random now stack
       (u_handler c) buffer len else mret tt) s2).
  { unfold udp_socket_recv. unfold mbind at 1, code_bind at 1. unfold get at 1.
    unfold mbind at 1, code_bind at 1. rewrite Hrun. unfold client_at. run. fold s2. by rewrite Hi2. }
  cbv zeta. rewrite Hrecv. clear Hrecv.
  assert (Hold : ∀ j d, clients s !! j = Some d → u_isDead d = true ∨ ip d ≠ ip_ ∨ port d ≠ port_ →
    j ≠ i ∧ clients s2 !! j = Some d ∧ handlers s2 !! u_handler d = handlers s !! u_handler d).
  { intros j d Hj Hne. destruct (Hothers j d Hj Hne) as (? & ? & ?). split_and!; [done| |done].
    cbn [clients with_clients s2]. by rewrite list_lookup_alter_ne. }
  destruct (u_ignoreAllPackets c) eqn:Hig; cbn [negb andb].
  - split; [done|]. split; [done|split; [|intros j d Hj Hne; by apply (Hold j d)]].
    exists (set_recv_time now c), h. rewrite Hig. unfold same_protocol. by split_and!.
  - destruct (recv_outcome last random now stack s2 i (set_recv_time now c) h buffer len Ht2 Hi2 Hlive Hh) as (h' & Hr & Hsame & He).
    cbn [u_handler set_recv_time] in Hr. rewrite Hr. split; [done|]. cbn [snd].
    unfold received_by. set (dead := closed _) in *.
    destruct (marked_ok dead i (set_recv_time now c) h' s2 Ht2 Hi2 He) as ([Hk Ho _] & Hc' & Hh').
    split; [exact Hk|split].
    + eexists _, h'. split; [exact Hc'|]. rewrite Hig. destruct dead; by split_and!.
    + intros j d Hj Hne. destruct (Hold j d Hj Hne) as (Hji & Hj2 & <-). exact (Ho j d Hji Hj2).
Qed.
End Reception.

(** ** Removing clients *)

(** Handlers can be taken down: no queued packet is freed twice (compare
    [Reassembly.fast_path_leaves_stale_slots]). *)
Definition can_deinit (s : UdpSocket) : Prop := ∀ id h, handlers s !! id = Some h → isTrilogy h = 1 →
  ∃ x, fst (ack_mgr_trilogy_deinit (ackMgr (trilogy h))) = Ok x.

(** Handlers lose references or change position, nothing else. *)
Definition shrinks (s s' : UdpSocket) : Prop := ∀ id h', handlers s' !! id = Some h' →
  ∃ h, handlers s !! id = Some h ∧ isTrilogy h' = isTrilogy h ∧ trilogy h' = trilogy h.

Lemma shrinks_can_deinit s s' : shrinks s s' → can_deinit s → can_deinit s'.
Proof. intros Hs Hc id h' Hh' H1. destruct (Hs id h' Hh') as (h & Hh & He & ->). apply (Hc id h Hh). congruence. Qed.

Lemma swap_pop_spec (l : list UdpClient) i c : l !! i = Some c →
  ∃ d l', swap_pop l i = (negb (i =? length l - 1)%nat, l') ∧ c :: l' ≡ₚ l ∧ length l' = (length l - 1)%nat ∧
    (l !! (length l - 1)%nat = Some d ∧ (i ≠ (length l - 1)%nat → l' !! i = Some d)) ∧
    (∀ j, j ≠ i → (j < length l - 1)%nat → l' !! j = l !! j).
Proof.
  intros Hi. pose proof (lookup_lt_Some _ _ _ Hi) as Hlt. unfold swap_pop.
  destruct (last l) as [d|] eqn:Hlast; [|by apply last_None in Hlast as ->].
  apply last_Some in Hlast as [l0 ->]. rewrite length_app. simpl length.
  replace (length l0 + 1 - 1)%nat with (length l0) by lia. rewrite take_app_length.
  rewrite length_app in Hlt. simpl in Hlt. exists d. destruct (decide (i = length l0)) as [->|Hne].
  - rewrite Nat.eqb_refl. rewrite lookup_app_r, Nat.sub_diag in Hi by done. injection Hi as ->.
    rewrite list_insert_ge by done. exists l0. split_and!; try done; [apply Permutation_cons_append| |].
    + by rewrite lookup_app_r, Nat.sub_diag by done.
    + intros j _ Hj. by rewrite lookup_app_l.
  - rewrite (proj2 (Nat.eqb_neq _ _)) by done. rewrite lookup_app_l in Hi by lia.
    exists (<[i:=d]> l0). split_and!; [done| |by rewrite length_insert| | |].
    + rewrite list_insert_take_drop by lia. rewrite <-(take_drop_middle l0 i c Hi) at 3.
      rewrite <-Permutation_cons_append, <-!Permutation_middle. apply perm_swap.
    + by rewrite lookup_app_r, Nat.sub_diag by done.
    + intros _. apply list_lookup_insert_eq. lia.
    + intros j Hj Hjl. by rewrite list_lookup_insert_ne, lookup_app_l by done.
Qed.

Lemma table_remove s c l' m : table_ok s → c :: l' ≡ₚ clients s →
  (∀ j d, l' !! j = Some d → ∃ h, m !! u_handler d = Some h ∧ entry_ok j d h) →
  (∀ id, is_Some (m !! id) → is_Some (handlers s !! id)) →
  table_ok (mkSocket l' m (next s)).
Proof.
  intros [Hidx Honce Hfresh Haddr] Hp Hm Hs. split; cbn [clients handlers next].
  - intros j d Hj. destruct (Hm j d Hj) as (h & Hh & He). by exists h.
  - rewrite <-Hp in Honce. by apply NoDup_cons in Honce as [_ ?].
  - intros id Hid. by apply Hfresh, Hs.
  - unfold live_clients in *. rewrite <-Hp, filter_cons in Haddr. case_decide; [|done].
    by apply NoDup_cons in Haddr as [_ ?].
Qed.

Lemma drop_ok s id h : handlers s !! id = Some h → can_deinit s →
  ∃ m, protocol_handler_drop id s = (Ok tt, with_handlers s m) ∧
    (∀ id', id' ≠ id → m !! id' = handlers s !! id') ∧ shrinks s (with_handlers s m).
Proof.
  intros Hh Hc. unfold protocol_handler_drop, handler_at, put_handler. run. rewrite Hh.
  destruct (1 <? p_refCount h).
  - eexists. split_and!; [reflexivity|intros; by apply lookup_insert_ne|].
    intros id' h'. cbn [handlers with_handlers]. destruct (decide (id' = id)) as [->|].
    + rewrite lookup_insert_eq. intros [= <-]. by exists h.
    + rewrite lookup_insert_ne by done. by exists h'.
  - exists (delete id (handlers s)). split_and!; [|intros; by apply lookup_delete_ne|].
    + destruct (isTrilogy h =? 1) eqn:H1; [|done]. destruct (Hc id h Hh ltac:(lia)) as [x ->]. done.
    + intros id' h'. cbn [handlers with_handlers]. intros [_ ?]%lookup_delete_Some. by exists h'.
Qed.

Lemma flagged_lookup s i j : j ≠ i → clients (flagged i s) !! j = clients s !! j.
Proof. intros. by apply list_lookup_alter_ne. Qed.

Lemma flagged_perm s i c l : clients s !! i = Some c → c :: l ≡ₚ clients s → flag_dead c :: l ≡ₚ clients (flagged i s).
Proof.
  intros Hi Hp. pose proof (lookup_lt_Some _ _ _ Hi) as Hlt. cbn [clients with_clients flagged].
  assert (Ha : alter flag_dead i (clients s) = take i (clients s) ++ flag_dead c :: drop (S i) (clients s)).
  { rewrite <-(take_drop_middle _ _ _ Hi) at 1. rewrite alter_app_r_alt by (rewrite length_take; lia).
    by rewrite length_take, Nat.min_l, Nat.sub_diag by lia. }
  rewrite Ha. rewrite <-(take_drop_middle _ _ _ Hi), <-Permutation_middle in Hp. rewrite <-Permutation_middle.
  by apply perm_skip, (Permutation_cons_inv (a := c)).
Qed.

Lemma handle_dead_ok s i c : table_ok (flagged i s) → can_deinit s → clients s !! i = Some c →
  ∃ s', udp_socket_handle_dead_client i s = (Ok tt, s') ∧ table_ok s' ∧ shrinks s s' ∧ c :: clients s' ≡ₚ clients s ∧
    take i (clients s') = take i (clients s) ∧ S (length (clients s')) = length (clients s).
Proof.
  intros Ht Hc Hi. pose proof (lookup_lt_Some _ _ _ Hi) as Hlt.
  destruct (swap_pop_spec (clients s) i c Hi) as (d & l' & Hsp & Hp & Hl & [Hd Hdi] & Hrest).
  assert (Hci : clients (flagged i s) !! i = Some (flag_dead c)).
  { cbn [clients with_clients flagged]. by rewrite list_lookup_alter_eq, Hi. }
  destruct (table_entry _ _ _ Ht Hci) as (h & Hh & _).
  destruct (drop_ok s (u_handler c) h Hh Hc) as (m & Hdrop & Hm & Hsh).
  assert (Hother : ∀ j e, j ≠ i → clients s !! j = Some e → ∃ x, m !! u_handler e = Some x ∧ entry_ok j e x).
  { intros j e Hne Hj. rewrite <-(flagged_lookup s i j Hne) in Hj.
    destruct (table_entry _ _ _ Ht Hj) as (x & Hx & He). exists x. split; [|done].
    rewrite Hm; [done|]. intros Heq. destruct Hne. by apply (handler_once _ _ _ _ _ Ht Hj Hci). }
  assert (Hpre : take i l' = take i (clients s)).
  { apply list_eq. intros j. destruct (decide (j < i)%nat); [|by rewrite !lookup_take_ge by lia].
    rewrite !lookup_take_lt by done. apply Hrest; lia. }
  unfold udp_socket_handle_dead_client, client_at. run. rewrite Hi, Hdrop. cbn [clients with_handlers]. rewrite Hsp.
  destruct (Nat.eqb_spec i (length (clients s) - 1)%nat) as [Hlast|Hlast]; cbn [negb].
  - eexists. split; [reflexivity|]. cbn [clients with_clients with_handlers]. split_and!; try done; [|lia].
    apply (table_remove _ (flag_dead c) l' m Ht); [by apply flagged_perm| |].
    + intros j e Hj. pose proof (lookup_lt_Some _ _ _ Hj). rewrite Hrest in Hj by lia. apply (Hother j e); [lia|done].
    + intros id [x Hx]. destruct (Hsh id x Hx) as (y & Hy & _). by exists y.
  - cbn [clients with_clients with_handlers]. rewrite (Hdi Hlast).
    destruct (Hother (length (clients s) - 1)%nat d ltac:(lia) Hd) as (x & Hx & He).
    unfold protocol_handler_update_index, handler_at, put_handler. run. cbn [handlers with_clients with_handlers].
    rewrite Hx. eexists. split; [reflexivity|]. cbn [clients with_clients with_handlers]. split_and!; try done; [| |lia].
    + apply (table_remove _ (flag_dead c) l' _ Ht); [by apply flagged_perm| |].
      * intros j e Hj. cbn [handlers with_clients with_handlers].
        pose proof (lookup_lt_Some _ _ _ Hj). destruct (decide (j = i)) as [->|Hne].
        -- rewrite (Hdi Hlast) in Hj. injection Hj as <-. rewrite lookup_insert_eq. eexists. split; [done|]. by destruct He.
        -- rewrite Hrest in Hj by lia. rewrite lookup_insert_ne; [by apply Hother|]. intros Heq.
           rewrite <-(flagged_lookup s i j) in Hj by done. rewrite <-(flagged_lookup s i) in Hd by lia.
           pose proof (handler_once _ _ _ _ _ Ht Hd Hj Heq). lia.
      * intros id [y Hy]. cbn [handlers with_clients with_handlers] in Hy. apply lookup_insert_Some in Hy as [[<- _]|[_ Hy]].
        -- destruct (Hsh _ x Hx) as (z & Hz & _). by exists z.
        -- destruct (Hsh _ y Hy) as (z & Hz & _). by exists z.
    + intros id y. cbn [handlers with_clients with_handlers]. intros [[<- <-]|[_ Hy]]%lookup_insert_Some.
      * apply (Hsh _ x Hx).
      * apply (Hsh _ y Hy).
Qed.

(** ** Timeouts *)
Definition silent (now : Z) (c : UdpClient) : bool := u64 (lastRecvTime c + LINKDEAD_TIMEOUT_MILLISECONDS) <? now.
Definition kept (now : Z) (c : UdpClient) : Prop := u_isDead c = false ∧ silent now c = false.
#[export] Instance kept_dec now c : Decision (kept now c).
Proof. unfold kept. apply _. Defined.

Lemma flagged_ok i s : table_ok s → table_ok (flagged i s).
Proof. intros. by apply table_alter. Qed.

Section Objects.
Context (last : nat → bool).

(** A silent client's object may drop its reference before the table does. *)
Lemma disconnect_ok s i c : table_ok s → can_deinit s → clients s !! i = Some c → u_isDead c = false →
  ∃ h m, handlers s !! u_handler c = Some h ∧
    (if isTrilogy h =? 0 then mret tt else object_disconnect last (Some (u_handler c)) true) s = (Ok tt, with_handlers s m) ∧
    table_ok (flagged i (with_handlers s m)) ∧ shrinks s (with_handlers s m).
Proof.
  intros Ht Hc Hi Hlive. destruct (table_entry s i c Ht Hi) as (h & Hh & Hidx & Href & Htri & Hfl).
  destruct (isTrilogy h =? 0) eqn:Hz.
  - exists h, (handlers s). split_and!; [done|by rewrite Hz; destruct s|by apply (flagged_ok i s)|].
    intros id h' Hh'. by exists h'.
  - destruct (Htri Hlive ltac:(lia)) as [H1 H2]. cbn [object_disconnect]. destruct (last (u_handler c)).
    2: { exists h, (handlers s). split_and!; [done|by rewrite Hz; destruct s|by apply (flagged_ok i s)|].
      intros id h' Hh'. by exists h'. }
    set (h' := mkProto (isTrilogy h) (p_refCount h - 1) (udpClientIndex h) (trilogy h) (standard h)).
    exists h, (<[u_handler c := h']> (handlers s)). split_and!; [done| | |].
    + rewrite Hz. unfold protocol_handler_drop, handler_at, put_handler. run. rewrite Hh.
      by rewrite (proj2 (Z.ltb_lt 1 (p_refCount h))) by lia.
    + pose proof (table_put (flagged i s) i (flag_dead c) h' (flagged_ok i s Ht)) as Hp.
      apply Hp; [by cbn [clients with_clients flagged]; rewrite list_lookup_alter_eq, Hi|].
      split_and!; simpl; try done; lia.
    + intros id x. cbn [handlers with_handlers]. intros [[<- <-]|[_ Hx]]%lookup_insert_Some; [by exists h|by exists x].
Qed.

Lemma removed_rest (P : UdpClient → Prop) `{!∀ x, Decision (P x)} (l l' : list UdpClient) i c :
  l !! i = Some c → ¬ P c → c :: l' ≡ₚ l → take i l' = take i l →
  take i l' ++ filter P (drop i l') ≡ₚ take i l ++ filter P (drop i l).
Proof.
  intros Hi HP Hp Htk. rewrite Htk. apply Permutation_app_head.
  rewrite (drop_S _ _ _ Hi), filter_cons, decide_False by done.
  assert (Hp' : c :: take i l ++ drop i l' ≡ₚ take i l ++ c :: drop (S i) l).
  { by rewrite take_drop_middle, <-Htk, take_drop by done. }
  rewrite <-Permutation_middle in Hp'.
  apply Permutation_cons_inv, Permutation_app_inv_l in Hp'. by rewrite Hp'.
Qed.

Lemma timeouts_loop_ok now fuel s i : table_ok s → can_deinit s → (length (clients s) ≤ fuel + i)%nat →
  ∃ s', timeouts_loop (object_disconnect last) fuel now i (length (clients s)) s = (Ok tt, s') ∧ table_ok s' ∧
    clients s' ≡ₚ take i (clients s) ++ filter (kept now) (drop i (clients s)).
Proof.
  revert s i. induction fuel as [|fuel IH]; intros s i Ht Hc Hf; cbn [timeouts_loop].
  - exists s. rewrite take_ge, drop_ge, filter_nil, app_nil_r by lia. done.
  - destruct (Nat.ltb_spec i (length (clients s))) as [Hlt|Hge].
    2:{ exists s. rewrite take_ge, drop_ge, filter_nil, app_nil_r by lia. done. }
    destruct (lookup_lt_is_Some_2 _ _ Hlt) as [c Hi]. unfold client_at. run. rewrite Hi.
    assert (Hgone : ∀ s1, clients s1 = clients s → table_ok (flagged i s1) → can_deinit s1 → ¬ kept now c →
      ∃ s', (udp_socket_handle_dead_client i ;; timeouts_loop (object_disconnect last) fuel now i (length (clients s) - 1)) s1
        = (Ok tt, s') ∧ table_ok s' ∧ clients s' ≡ₚ take i (clients s) ++ filter (kept now) (drop i (clients s))).
    { intros s1 Hs1 Ht1 Hc1 Hk. rewrite <-Hs1 in *.
      destruct (handle_dead_ok s1 i c Ht1 Hc1 Hi) as (s2 & Hrun & Ht2 & Hsh & Hp & Htk & Hl). run. rewrite Hrun.
      destruct (IH s2 i Ht2 (shrinks_can_deinit _ _ Hsh Hc1)) as (s3 & Hrun3 & Ht3 & Hp3); [lia|].
      replace (length (clients s1) - 1)%nat with (length (clients s2)) by lia.
      exists s3. split_and!; [done..|]. rewrite Hp3. by apply (removed_rest _ _ _ _ c). }
    destruct (u_isDead c) eqn:Hd.
    + apply Hgone; [done|by apply flagged_ok|done|]. unfold kept. by rewrite Hd; intros [? _].
    + destruct (u64 _ <? now) eqn:Hsil.
      * destruct (disconnect_ok s i c Ht Hc Hi Hd) as (h & m & Hh & Hrun & Ht1 & Hsh).
        unfold handler_at. run. rewrite Hh. revert Hrun. run. intros ->.
        apply (Hgone (with_handlers s m)); [done..|by apply (shrinks_can_deinit s)|].
        unfold kept, silent. by rewrite Hsil; intros [_ ?].
      * destruct (IH s (S i) Ht Hc) as (s' & Hrun & Ht' & Hp); [lia|]. exists s'. split_and!; [done..|].
        rewrite Hp, (drop_S _ _ _ Hi), filter_cons, decide_True by done.
        by rewrite (take_S_r _ _ _ Hi), <-app_assoc.
Qed.

End Objects.

(** ** Properties *)

(** C23: A datagram of at least four bytes is for the client that lives at its
    address, or for a new one of the protocol that the datagram shows. What
    comes of it is what that client's protocol makes of it, no more and no less:
    the call ends as the protocol's code ends, and unless that is undefined the
    table is coherent, the client has a fresh receive time and its handler the
    protocol's new state, the client is flagged as dead if the protocol closed the
    connection, and no other client or handler is touched. (A client that
    ignores its packets only gets its receive time.) The objects of the clients
    are those of login server and character select. *)
Theorem datagram_touches_one_client last random now stack buffer ip_ port_ len s :
  table_ok s → 4 ≤ len ≤ Z.of_nat (length buffer) → Z.of_nat (length buffer) < 2 ^ 31 →
  ∃ i c h, addressed s ip_ port_ buffer len i c h ∧
    let e := udp_socket_recv (object_disconnect last) random now stack buffer ip_ port_ len s in
    let r := if u_ignoreAllPackets c then (Ok tt, h) else reception random now stack buffer len h in
    e.1 = r.1 ∧ (r.1 ≠ Fault → received_by s e.2 now ip_ port_ i c r.2).
Proof.
  intros Ht Hl Hd. destruct (socket_recv_ok last random now stack buffer ip_ port_ len s Ht Hl Hd) as (i & c & h & Ha & He & Hr).
  exists i, c, h. by split_and!.
Qed.

Lemma empty_table_ok : table_ok udp_socket_create.
Proof.
  split; cbn; [done|apply NoDup_nil_2| |apply NoDup_nil_2].
  intros id [h Hh]. by rewrite lookup_empty in Hh.
Qed.

Lemma datagram_touches_one_client_witness :
  let e := udp_socket_recv (object_disconnect (λ _, true)) 0 7 [] [1; 2; 3; 4; 5; 6] 1 2 5 udp_socket_create in
  e.1 = Ok tt ∧ table_ok e.2.
Proof.
  destruct (datagram_touches_one_client (λ _, true) 0 7 [] [1; 2; 3; 4; 5; 6] 1 2 5 udp_socket_create empty_table_ok) as (i & c & h & _ & He & Hr);
    [simpl; lia..|].
  assert (Hok : (udp_socket_recv (object_disconnect (λ _, true)) 0 7 [] [1; 2; 3; 4; 5; 6] 1 2 5 udp_socket_create).1 = Ok tt)
    by (vm_compute; reflexivity).
  split; [exact Hok|]. apply Hr. rewrite <- He, Hok. discriminate.
Defined.



(** A connection whose first datagram does not end in the right CRC is taken for
    one of the standard protocol; the next pass that sends queued packets handles
    it as a Trilogy connection and dereferences a null pointer. *)
Theorem standard_client_crashes_send :
  fst (udp_socket_send 0 0
    (udp_socket_recv (object_disconnect (λ _, true)) 0 0 [] [1; 2; 3; 4; 5; 6] 1 2 6 udp_socket_create).2) = Fault.
Proof. by vm_compute. Qed.
