(* ===== verification/StandardSpec.v ===== *)
(** What the standard protocol's receiver does with a datagram: it never leaves
    the datagram's memory and always comes to an end, it answers session
    requests, and it throws on an empty sub-packet. *)

From S2P Require Import Prelude Aligned Crc PacketTrilogy NetClient AckMgr ProtocolTrilogy.
From S2P Require Import SendQueue RecvFrame Reassembly ProtocolStandard.

(** ** Code that stays within its reader *)

(** The reader after code that started from [a]. *)
Definition onward (a a' : Aligned) : Prop :=
  wf a' ∧ length_ a' = length_ a ∧ buffer a' = buffer a ∧ cursor a ≤ cursor a'.

Definition sane (h : Standard) (a : Aligned) : Prop :=
  wf a ∧ length_ a < 2 ^ 31 ∧ protocolValidation h = ProtocolValidation_None.

(** From [h] and [a] the code throws, or ends with a reader further on. *)
Definition stays {A} (h : Standard) (a : Aligned) (m : outcome A * (Standard * Aligned)) : Prop :=
  match m with
  | (Ok _, (h', a')) => onward a a' ∧ protocolValidation h' = ProtocolValidation_None
  | (Throw _, _) => True
  | (Fault, _) => False
  end.

Lemma onward_refl a : wf a → onward a a.
Proof. intros Ha. split_and!; done || apply Ha. Qed.

Lemma onward_trans a b c : onward a b → onward b c → onward a c.
Proof. intros (? & H1 & H2 & ?) (? & H3 & H4 & ?). split_and!; [done|congruence|congruence|lia]. Qed.

Lemma stays_bind {A B} (m : code (Standard * Aligned) A) (f : A → code (Standard * Aligned) B) h a :
  stays h a (m (h, a)) →
  (∀ x h' a', m (h, a) = (Ok x, (h', a')) → onward a a' → sane h' a' → stays h' a' (f x (h', a'))) →
  length_ a < 2 ^ 31 → stays h a ((x ← m; f x) (h, a)).
Proof.
  intros Hm Hf Hl. unfold mbind, code_bind. destruct (m (h, a)) as [[x|e|] [h' a']] eqn:E; try done.
  destruct Hm as [Hon Hv]. pose proof Hon as (Hwf & Hlen & _).
  assert (Hsane : sane h' a') by (split_and!; [done|by rewrite Hlen|done]).
  specialize (Hf x h' a' eq_refl Hon Hsane). unfold stays in *.
  destruct (f x (h', a')) as [[y|e|] [h2 a2]]; try done. destruct Hf as [Hon2 Hv2].
  split; [by eapply onward_trans|done].
Qed.

Lemma stays_ret {A} (x : A) h a : sane h a → stays h a ((mret x : code (Standard * Aligned) A) (h, a)).
Proof. intros (Hw & Hl & Hv). split; [by apply onward_refl|done]. Qed.

Lemma stays_get h a : sane h a → stays h a (get (h, a)).
Proof. intros (Hw & Hl & Hv). split; [by apply onward_refl|done]. Qed.

Lemma stays_upd f h a : sane h a → protocolValidation (f h) = protocolValidation h → stays h a (upd f (h, a)).
Proof. intros (Hw & Hl & Hv) Hf. unfold upd. cbn. split; [by apply onward_refl|]. congruence. Qed.

Lemma stays_gets {A} (f : Aligned → A) h a : sane h a → stays h a (ProtocolStandard.rd (gets f) (h, a)).
Proof. intros (Hw & Hl & Hv). split; [by apply onward_refl|done]. Qed.

Lemma stays_advance n h a : sane h a → 0 ≤ n < 2 ^ 31 →
  stays h a (ProtocolStandard.rd (aligned_advance n) (h, a)).
Proof.
  intros (Hw & Hl & Hv) Hn. pose proof Hw as (? & ? & ?). unfold ProtocolStandard.rd.
  destruct (decide (cursor a + n ≤ length_ a)) as [Hfit|Hno].
  - rewrite advance_ok by (done || lia). cbn. split; [|done]. unfold onward, wf. simpl. split_and!; done || lia.
  - rewrite advance_throws by (done || lia). done.
Qed.

(** Reading [n] bytes of the buffer and putting them together. *)
Lemma byte_at_ok i a : 0 ≤ i < Z.of_nat (length (buffer a)) → ∃ b, byte_at i a = (Ok b, a).
Proof.
  intros Hi. unfold byte_at. rewrite (proj2 (Z.ltb_ge i 0)) by lia.
  destruct (lookup_lt_is_Some_2 (buffer a) (Z.to_nat i)) as [b Hb]; [lia|]. exists b. by rewrite Hb.
Qed.

Lemma stays_read {A} (r : code Aligned A) n f h a : r = (c ← aligned_advance n; f c) → 0 ≤ n < 2 ^ 31 →
  (∀ c a, 0 ≤ c → c + n ≤ Z.of_nat (length (buffer a)) → ∃ x, f c a = (Ok x, a)) → sane h a →
  stays h a (ProtocolStandard.rd r (h, a)).
Proof.
  intros -> Hn Hf (Hw & Hl & Hv). pose proof Hw as (? & ? & ?). unfold ProtocolStandard.rd, mbind, code_bind.
  destruct (decide (cursor a + n ≤ length_ a)) as [Hfit|Hno].
  - rewrite advance_ok by (done || lia). destruct (Hf (cursor a) (with_cursor a (cursor a + n))) as [x ->]; [lia|simpl; lia|].
    cbn. split; [|done]. unfold onward, wf. simpl. split_and!; done || lia.
  - rewrite advance_throws by (done || lia). done.
Qed.

Ltac read_bytes :=
  let b := fresh "b" in intros ? b ? ?; run;
  repeat match goal with |- context [byte_at ?i b] =>
    let Hb := fresh in destruct (byte_at_ok i b ltac:(lia)) as [? Hb]; rewrite Hb; clear Hb end;
  by eexists.

Lemma stays_uint8 h a : sane h a → stays h a (ProtocolStandard.rd aligned_read_uint8 (h, a)).
Proof. apply (stays_read _ 1 byte_at); [done|lia|read_bytes]. Qed.

Lemma stays_uint16 h a : sane h a → stays h a (ProtocolStandard.rd aligned_read_uint16 (h, a)).
Proof. eapply (stays_read _ 2); [done|lia|read_bytes]. Qed.

Lemma stays_uint32 h a : sane h a → stays h a (ProtocolStandard.rd aligned_read_uint32 (h, a)).
Proof. eapply (stays_read _ 4); [done|lia|read_bytes]. Qed.

Lemma stays_peek h a : sane h a → stays h a (ProtocolStandard.rd aligned_peek_uint8 (h, a)).
Proof.
  intros (Hw & Hl & Hv). pose proof Hw as (? & ? & ?). unfold ProtocolStandard.rd, aligned_peek_uint8, aligned_check. run.
  rewrite wrap_small by (unfold is_word; lia). destruct (Z.ltb_spec (length_ a) (cursor a + 1)); [done|].
  destruct (byte_at_ok (cursor a) a) as [b ->]; [lia|]. cbn. split; [by apply onward_refl|done].
Qed.

(** A packet of fixed size that fits the bytes on the stack. *)
Lemma send_struct_ok stack n w pat h a : emits w (Some <$> pat) → n = Z.of_nat (length pat) → n < 2 ^ 32 →
  n ≤ Z.of_nat (length stack) →
  send_struct stack n w (h, a) =
    (Ok tt, (mkStandard (crcKey h) (sessionId h) (startTimeMilliseconds h) (protocolValidation h)
      (protocolFormat h) (s_packetsReceived h) (s_sent h ++ [pat]) (s_isDead h) (s_disconnected h), a)).
Proof.
  intros Hw -> Hsmall Hstack. unfold send_struct, aligned_init.
  rewrite (emits_at _ _ _ _ _ Hw) by lia. cbn [buffer]. do 5 f_equal.
  rewrite Nat2Z.id. pose proof (overlay_window 0 pat stack ltac:(lia) ltac:(lia)) as Hwin.
  change (Z.to_nat 0) with 0%nat in Hwin. by rewrite drop_0 in Hwin.
Qed.

Definition response_bytes (key sid validation format : Z) : list Z :=
  be2 ProtocolOp_SessionResponse ++ le_bytes 4 sid ++ be4 key ++ [u8 validation] ++ [u8 format] ++ [0] ++
  be4 MAX_LENGTH ++ le_bytes 4 0.

Lemma emits_session_response h : emits (session_response h)
  (Some <$> response_bytes (crcKey h) (sessionId h) (protocolValidation h) (protocolFormat h)).
Proof.
  unfold session_response, response_bytes. rewrite !fmap_app.
  repeat (apply emits_seq; [first [apply emits_uint16|apply emits_uint32|apply emits_uint8]|]). apply emits_uint32.
Qed.

Definition disconnect_bytes (sid : Z) : list Z := be2 ProtocolOp_SessionDisconnect ++ le_bytes 4 sid.

Lemma emits_disconnect sid : emits (aligned_write_uint16 (toNetworkUint16 ProtocolOp_SessionDisconnect) ;;
     aligned_write_uint32 sid) (Some <$> disconnect_bytes sid).
Proof. unfold disconnect_bytes. rewrite fmap_app. apply emits_seq; [apply emits_uint16|apply emits_uint32]. Qed.

(** ** The receiver stays within the datagram *)

Lemma stays_rd_ret {A} (x : A) h a : sane h a →
  stays h a (ProtocolStandard.rd (mret x : code Aligned A) (h, a)).
Proof. intros (Hw & Hl & Hv). split; [by apply onward_refl|done]. Qed.

Lemma stays_send stack n w pat h a : emits w (Some <$> pat) → n = Z.of_nat (length pat) → n < 2 ^ 32 →
  n ≤ Z.of_nat (length stack) → sane h a → stays h a (send_struct stack n w (h, a)).
Proof.
  intros Hw Hn Hs Hst (Hwf & Hl & Hv). rewrite (send_struct_ok _ _ _ pat) by done.
  split; [by apply onward_refl|done].
Qed.

Section Safety.
Context (random now : Z) (stack : list Z) (Hstack : SIZEOF_SessionResponse ≤ Z.of_nat (length stack)).

Lemma stays_session_request h a : sane h a →
  stays h a (protocol_handler_standard_handle_session_request random now stack (h, a)).
Proof.
  intros Hs. unfold protocol_handler_standard_handle_session_request.
  apply stays_bind; [by apply stays_gets| |apply Hs]. intros rem h1 a1 _ _ Hs1.
  destruct (rem <? SIZEOF_SessionRequest); [by apply stays_ret|].
  apply stays_bind; [apply stays_advance; [done|lia]| |apply Hs1]. intros ? h2 a2 _ _ Hs2.
  apply stays_bind; [by apply stays_uint32| |apply Hs2]. intros sid h3 a3 _ _ Hs3.
  apply stays_bind; [by apply stays_upd| |apply Hs3]. intros ? h4 a4 _ _ Hs4.
  apply stays_bind; [by apply stays_get| |apply Hs4]. intros [h5' a5'] h5 a5 _ _ Hs5.
  eapply stays_send; [apply emits_session_response|done|done|done|done].
Qed.

Lemma stays_disconnect h a : sane h a → stays h a (protocol_handler_standard_disconnect stack (h, a)).
Proof.
  intros Hs. unfold protocol_handler_standard_disconnect.
  apply stays_bind; [by apply stays_get| |apply Hs]. intros [h' a'] h1 a1 _ _ Hs1.
  apply stays_bind; [|intros ? h2 a2 _ _ Hs2; by apply stays_upd|apply Hs1].
  eapply stays_send; [apply emits_disconnect|done|done| |done].
  unfold SIZEOF_SessionDisconnect, SIZEOF_SessionResponse in *. lia.
Qed.

Lemma stays_validate b h a : sane h a →
  stays h a (protocol_handler_standard_validate_and_decompress_packet b (h, a)).
Proof.
  intros Hs. unfold protocol_handler_standard_validate_and_decompress_packet.
  apply stays_bind; [by apply stays_get| |apply Hs]. intros [h' a'] h1 a1 Hget _ Hs1. injection Hget as <- <- <- <-.
  replace (protocolValidation h =? ProtocolValidation_Crc) with false by (destruct Hs as (_ & _ & ->); done).
  rewrite andb_false_r. apply stays_bind; [by apply stays_ret| |apply Hs1]. intros ok h2 a2 _ _ Hs2.
  destruct ok; cbn [negb]; [|by apply stays_ret]. destruct (_ =? ProtocolFormat_Compressed); [|by apply stays_ret].
  apply stays_bind; [by apply stays_peek| |apply Hs2]. intros flag h3 a3 _ _ Hs3.
  destruct (flag =? 0x5a); [by apply stays_ret|]. destruct (flag =? 0xa5); [|by apply stays_ret].
  apply stays_bind; [apply stays_advance; [done|lia]|intros; by apply stays_ret|apply Hs3].
Qed.

(** The handler of a sub-packet is safe on readers with fewer than [n] bytes left. *)
Definition safe_below (n : Z) (handle : code (Standard * Aligned) unit) : Prop :=
  ∀ h a, sane h a → Forall is_byte (buffer a) → length_ a - cursor a < n → stays h a (handle (h, a)).

Lemma aligned_remaining_sane h a : sane h a → aligned_remaining a = length_ a - cursor a.
Proof. intros ((? & ? & ?) & ? & ?). unfold aligned_remaining. apply wrap_small. unfold is_word. lia. Qed.

Lemma sub_reader_wf a size : wf a → 0 ≤ size ≤ length_ a - cursor a → length_ a < 2 ^ 31 →
  wf (aligned_init (drop (Z.to_nat (cursor a)) (buffer a)) size).
Proof. intros (? & ? & ?) ? ?. unfold wf, aligned_init. cbn. rewrite length_drop. lia. Qed.

Lemma uint8_read h a v h' a' : sane h a →
  ProtocolStandard.rd aligned_read_uint8 (h, a) = (Ok v, (h', a')) → Forall is_byte (buffer a) →
  0 ≤ v < 256 ∧ cursor a' = cursor a + 1.
Proof.
  unfold ProtocolStandard.rd, aligned_read_uint8. run. intros (Hw & Hl & Hv). pose proof Hw as (? & ? & ?).
  destruct (decide (cursor a + 1 ≤ length_ a)) as [Hfit|Hno]; [|by rewrite advance_throws by (done || lia)].
  rewrite advance_ok by (done || lia). unfold byte_at. cbn [buffer with_cursor]. destruct (cursor a <? 0); [done|].
  destruct (buffer a !! Z.to_nat (cursor a)) as [b|] eqn:Hb; [|done].
  cbn. intros [= <- <- <-] Hall. split; [|done]. by apply (Forall_lookup_1 _ _ _ _ Hall Hb).
Qed.

Lemma stays_with_reader h a r f : sane h a → stays h r (f (h, r)) → stays h a (with_reader r f (h, a)).
Proof.
  intros (Hw & Hl & Hv) Hf. unfold with_reader, stays in *. destruct (f (h, r)) as [[x|e|] [h' r']]; try done.
  destruct Hf as [_ Hv']. split; [by apply onward_refl|done].
Qed.

Lemma stays_combined fuel n handle h a : safe_below n handle → sane h a → length_ a - cursor a ≤ n →
  length_ a - cursor a ≤ Z.of_nat fuel → Forall is_byte (buffer a) → stays h a (handle_combined fuel handle (h, a)).
Proof.
  intros Hsafe. revert h a. induction fuel as [|fuel IH]; intros h a Hs Hn Hfuel Hbytes;
    (cbn [handle_combined]; apply stays_bind; [by apply stays_gets| |apply Hs]; intros rem h1 a1 Hrem Hon1 Hs1);
    injection Hrem as <- <- <-; rewrite (aligned_remaining_sane _ _ Hs1).
  { destruct (Z.eqb_spec (length_ a - cursor a) 0); [by apply stays_ret|]. destruct Hs as ((? & ? & ?) & _). lia. }
  destruct (_ =? 0); [by apply stays_ret|].
  apply stays_bind; [by apply stays_uint8| |apply Hs1]. intros size h2 a2 Hsize Hon2 Hs2.
  assert (Hbuf : buffer a2 = buffer a) by apply Hon2.
  destruct (uint8_read h a _ _ _ Hs1 Hsize Hbytes) as [Hsz Hcur].
  apply stays_bind; [apply (stays_gets (λ a, a)); done| |apply Hs2]. intros b h3 a3 Hget _ Hs3.
  injection Hget as <- <- <-. rewrite (aligned_remaining_sane h2 a2 Hs2).
  destruct (Z.ltb_spec (length_ a2 - cursor a2) size); [by apply stays_ret|].
  assert (Hlen : length_ a2 = length_ a) by apply Hon2.
  assert (Hsub : wf (aligned_init (drop (Z.to_nat (cursor a2)) (buffer a2)) size))
    by (apply sub_reader_wf; [apply Hs2|lia|apply Hs2]).
  apply stays_bind; [| |apply Hs2].
  - apply stays_with_reader; [done|]. apply Hsafe.
    + split_and!; [done|cbn; lia|apply Hs2].
    + cbn. rewrite Hbuf. by apply Forall_drop.
    + cbn. lia.
  - intros ? h4 a4 _ Hon4 Hs4. apply stays_bind; [apply stays_advance; [done|lia]| |apply Hs4].
    intros ? h5 a5 _ Hon5 Hs5. apply IH; [done| | |].
    + destruct Hon4 as (_ & Hl4 & _ & Hc4), Hon5 as (_ & Hl5 & _ & Hc5). lia.
    + destruct Hon4 as (_ & Hl4 & _ & Hc4), Hon5 as (_ & Hl5 & _ & Hc5). lia.
    + destruct Hon4 as (_ & _ & Hb4 & _), Hon5 as (_ & _ & Hb5 & _). by rewrite Hb5, Hb4, Hbuf.
Qed.

Lemma stays_handle_recv depth b : safe_below (Z.of_nat depth)
  (protocol_handler_standard_handle_recv random now stack depth b).
Proof.
  revert b. induction depth as [|depth IH]; intros b h a Hs Hbytes Hd.
  { destruct Hs as ((? & ? & ?) & _). lia. }
  cbn [protocol_handler_standard_handle_recv].
  apply stays_bind; [by apply stays_uint16| |apply Hs]. intros v h1 a1 _ Hon1 Hs1.
  destruct (0xff <? toNetworkUint16 v); [by apply stays_ret|].
  destruct (toNetworkUint16 v =? ProtocolOp_SessionRequest); [by apply stays_session_request|].
  destruct (toNetworkUint16 v =? ProtocolOp_SessionDisconnect); [by apply stays_disconnect|].
  apply stays_bind; [by apply stays_validate| |apply Hs1]. intros ok h2 a2 _ Hon2 Hs2.
  destruct (negb ok); [by apply stays_ret|]. destruct (toNetworkUint16 v =? ProtocolOp_Combined); [|by apply stays_ret].
  apply stays_bind; [by apply stays_gets| |apply Hs2]. intros rem h3 a3 Hrem _ Hs3. injection Hrem as <- <- <-.
  destruct Hon1 as (_ & Hl1 & Hb1 & Hc1), Hon2 as (_ & Hl2 & Hb2 & Hc2).
  rewrite (aligned_remaining_sane _ _ Hs2).
  apply (stays_combined _ (Z.of_nat depth)); [apply IH|done|lia|lia|]. by rewrite Hb2, Hb1.
Qed.
End Safety.

(** ** Properties *)

(** C39: Whatever bytes a datagram holds, the receiver of the standard protocol comes
    to an end within it: it never reads outside the datagram, not even in
    nested combined packets, and it ends normally or with an exception. *)
Theorem standard_recv_stays_in_datagram random now stack data len h :
  SIZEOF_SessionResponse ≤ Z.of_nat (length stack) → Forall is_byte data →
  0 ≤ len ≤ Z.of_nat (length data) → len < 2 ^ 31 → protocolValidation h = ProtocolValidation_None →
  fst (protocol_handler_standard_recv random now stack data len h) ≠ Fault.
Proof.
  intros Hstack Hbytes Hlen Hsmall Hv. unfold protocol_handler_standard_recv.
  set (h1 := mkStandard _ _ _ _ _ _ _ _ _).
  pose proof (stays_handle_recv random now stack Hstack (S (Z.to_nat len)) false h1 (aligned_init data len)) as Hs.
  destruct (protocol_handler_standard_handle_recv _ _ _ _ _ _) as [[x|e|] [h' a']]; try done.
  exfalso. apply Hs; [|done|cbn [length_ cursor aligned_init]; lia].
  split_and!; [unfold wf; cbn [length_ cursor buffer aligned_init]; lia|done|done].
Qed.

Lemma standard_recv_stays_in_datagram_witness :
  fst (protocol_handler_standard_recv 5 100 (replicate 21 0) [0; 3; 4; 0; 3; 1; 7] 7 protocol_handler_standard_init) ≠ Fault.
Proof.
  apply standard_recv_stays_in_datagram; [by vm_compute| |by vm_compute|lia|reflexivity].
  repeat (apply Forall_cons; split; [unfold is_word; lia|]). constructor.
Defined.

(** A session request is answered with a session response that repeats its
    session id and carries a new crc key, which is never 0. *)
Theorem session_request_answered random now stack unknown sid rest h :
  SIZEOF_SessionResponse ≤ Z.of_nat (length stack) → is_word 32 sid → 4 ≤ Z.of_nat (length rest) < 2 ^ 16 →
  length unknown = 4%nat →
  let data := be2 ProtocolOp_SessionRequest ++ unknown ++ le_bytes 4 sid ++ rest in
  ∃ h', protocol_handler_standard_recv random now stack data (Z.of_nat (length data)) h = (Ok tt, h') ∧
    crcKey h' = Z.lor random 1 ∧ sessionId h' = sid ∧ startTimeMilliseconds h' = now ∧
    s_sent h' = s_sent h ++ [response_bytes (Z.lor random 1) sid (protocolValidation h) (protocolFormat h)].
Proof.
  intros Hstack Hsid Hrest Hunk data. assert (Hlen : length data = (10 + length rest)%nat).
  { unfold data, be2. rewrite !length_app, !le_bytes_length. lia. }
  assert (Hr : reading (aligned_init data (Z.of_nat (length data))) data) by (apply reading_payload; lia).
  unfold protocol_handler_standard_recv. cbn [protocol_handler_standard_handle_recv].
  revert Hr. generalize (aligned_init data (Z.of_nat (length data))). intros a Hr. unfold data in Hr.
  unfold ProtocolStandard.rd. run. destruct (parses_be2 _ _ _ Hr) as (a1 & -> & Hr1). rewrite toNetworkUint16_involutive.
  change (0xff <? u16 ProtocolOp_SessionRequest) with false.
  change (u16 ProtocolOp_SessionRequest =? ProtocolOp_SessionRequest) with true. cbv iota.
  unfold protocol_handler_standard_handle_session_request, ProtocolStandard.rd, upd. run.
  rewrite (reading_remaining _ _ Hr1). rewrite !length_app, le_bytes_length, Hunk. unfold SIZEOF_SessionRequest.
  rewrite (proj2 (Z.ltb_ge _ _)) by lia.
  destruct (reading_advance 4 unknown _ a1 ltac:(by rewrite Hunk) Hr1) as (c & a2 & -> & Hr2).
  destruct (reading_parse _ _ _ _ _ (parses_uint32 sid) Hr2) as (a3 & -> & _).
  rewrite (send_struct_ok _ _ _ _ _ _ (emits_session_response _)) by done.
  eexists. split; [done|]. cbn. by rewrite (wrap_small _ _ Hsid).
Qed.

Lemma session_request_answered_witness :
  let data := be2 ProtocolOp_SessionRequest ++ [0; 0; 0; 2] ++ le_bytes 4 77 ++ [0; 0; 2; 0] in
  ∃ h', protocol_handler_standard_recv 6 100 (replicate 21 0) data 14 protocol_handler_standard_init = (Ok tt, h') ∧
    s_sent h' = [response_bytes 7 77 0 0].
Proof.
  intros data. destruct (session_request_answered 6 100 (replicate 21 0) [0; 0; 0; 2] 77 [0; 0; 2; 0]
    protocol_handler_standard_init) as (h' & Hr & _ & _ & _ & Hs).
  - by vm_compute.
  - unfold is_word. lia.
  - simpl. lia.
  - reflexivity.
  - exists h'. split; [exact Hr|exact Hs].
Defined.

(** An empty packet inside a combined packet has no room for its opcode: the
    exception leaves the receiver, whatever the handler's state. *)
Theorem combined_empty_packet_throws random now stack rest h :
  protocolValidation h = ProtocolValidation_None → protocolFormat h = ProtocolFormat_None →
  Z.of_nat (length rest) < 2 ^ 16 →
  let data := be2 ProtocolOp_Combined ++ [0] ++ rest in
  fst (protocol_handler_standard_recv random now stack data (Z.of_nat (length data)) h) = Throw ErrorOutOfBounds.
Proof.
  intros Hv Hfmt Hrest data. assert (Hlen : length data = (3 + length rest)%nat).
  { unfold data, be2. rewrite !length_app, !le_bytes_length. simpl. lia. }
  assert (Hr : reading (aligned_init data (Z.of_nat (length data))) data) by (apply reading_payload; lia).
  unfold protocol_handler_standard_recv. revert Hr. generalize (aligned_init data (Z.of_nat (length data))).
  intros a Hr. rewrite Nat2Z.id, Hlen. unfold data in Hr.
  change (3 + length rest)%nat with (S (2 + length rest)). cbn [protocol_handler_standard_handle_recv].
  unfold ProtocolStandard.rd. run. destruct (parses_be2 _ _ _ Hr) as (a1 & -> & Hr1). rewrite toNetworkUint16_involutive.
  change (0xff <? u16 ProtocolOp_Combined) with false. change (u16 ProtocolOp_Combined) with ProtocolOp_Combined.
  cbn [ProtocolOp_Combined ProtocolOp_SessionRequest ProtocolOp_SessionDisconnect Z.eqb Pos.eqb].
  unfold protocol_handler_standard_validate_and_decompress_packet. run. cbn [protocolValidation protocolFormat].
  rewrite Hv, Hfmt. cbn [negb andb Z.eqb ProtocolValidation_None ProtocolValidation_Crc ProtocolFormat_None ProtocolFormat_Compressed].
  rewrite (reading_remaining _ _ Hr1). change (length ([0] ++ rest)) with (S (length rest)).
  rewrite Nat2Z.id. cbn [handle_combined]. unfold ProtocolStandard.rd. run. rewrite (reading_remaining _ _ Hr1).
  rewrite (proj2 (Z.eqb_neq _ _)) by (simpl; lia).
  destruct (reading_parse _ _ _ _ _ (parses_uint8 0) Hr1) as (a2 & -> & Hr2). change (u8 0) with 0.
  rewrite (proj2 (Z.ltb_ge (aligned_remaining a2) 0)) by (rewrite (reading_remaining _ _ Hr2); lia).
  unfold with_reader, aligned_read_uint16. run. rewrite advance_throws; [done|unfold wf; cbn; lia|cbn; lia].
Qed.

Lemma combined_empty_packet_throws_witness :
  fst (protocol_handler_standard_recv 6 100 (replicate 21 0) [0; 3; 0] 3 protocol_handler_standard_init) =
    Throw ErrorOutOfBounds.
Proof.
  apply (combined_empty_packet_throws 6 100 (replicate 21 0) [] protocol_handler_standard_init);
    [reflexivity|reflexivity|simpl; lia].
Defined.
