(* ===== verification/Text.v ===== *)
(** Text as C has it: literals, decimal numbers and dotted addresses, and the
    functions of string.h on bytes. *)

From S2P Require Import Prelude.
From stdpp Require Export strings.
From Stdlib Require Import Ascii.
#[global] Open Scope Z_scope.

(** The bytes of a string literal, without its terminator. *)
Definition text (s : String.string) : list Z := (λ c, Z.of_N (N_of_ascii c)) <$> String.list_ascii_of_string s.

(** strlen: a read past the allocation is undefined. *)
Fixpoint strlen (bytes : list Z) : outcome Z :=
  match bytes with
  | [] => Fault
  | b :: bytes => if b =? 0 then Ok 0 else n ← strlen bytes; Ok (n + 1)
  end.

(** The string in a field: up to its terminator. *)
Definition field_string (bytes : list Z) : outcome (list Z) := n ← strlen bytes; Ok (take (Z.to_nat n) bytes).

(** snprintf(field, size, "%s", s) into a field that holds [old]. *)
Definition snprintf_field (size : nat) (s old : list Z) : list Z :=
  let t := take (size - 1) s in t ++ [0] ++ drop (length t + 1) old.

(** printf's %u. *)
Fixpoint digits (fuel : nat) (n : Z) : list Z :=
  match fuel with
  | O => []
  | S fuel => if n <? 10 then [48 + n] else digits fuel (n / 10) ++ [48 + n mod 10]
  end.
Definition decimal (n : Z) : list Z := digits 20 n.

(** %u.%u.%u.%u of an address in network order. *)
Definition dotted (ip : Z) : list Z :=
  decimal (Z.land (Z.shiftr ip 0) 0xff) ++ [46] ++ decimal (Z.land (Z.shiftr ip 8) 0xff) ++ [46] ++
  decimal (Z.land (Z.shiftr ip 16) 0xff) ++ [46] ++ decimal (Z.land (Z.shiftr ip 24) 0xff).

(** The number a text of digits stands for. *)
Definition value (ds : list Z) : Z := fold_left (λ n d, 10 * n + (d - 48)) ds 0.

Lemma digits_ok fuel n : 0 ≤ n < 10 ^ Z.of_nat fuel →
  value (digits fuel n) = n ∧ Forall (λ d, 48 ≤ d ≤ 57) (digits fuel n).
Proof.
  revert n. induction fuel as [|fuel IH]; intros n Hn; cbn [digits]; [change (10 ^ Z.of_nat 0) with 1 in Hn; split; [unfold value; simpl; lia|constructor]|].
  rewrite Nat2Z.inj_succ, Z.pow_succ_r in Hn by lia. destruct (Z.ltb_spec n 10).
  - split; [unfold value; simpl; lia|]. apply Forall_singleton. lia.
  - destruct (IH (n / 10)) as [Hv Hd]; [split; [apply Z.div_pos; lia|apply Z.div_lt_upper_bound; lia]|].
    pose proof (Z.mod_pos_bound n 10). split.
    + unfold value in *. rewrite fold_left_app, Hv. cbn [fold_left]. pose proof (Z.div_mod n 10 ltac:(lia)). lia.
    + apply Forall_app. split; [done|]. apply Forall_singleton. lia.
Qed.

Lemma decimal_ok n : 0 ≤ n < 10 ^ 20 → value (decimal n) = n ∧ Forall (λ d, 48 ≤ d ≤ 57) (decimal n).
Proof. intros. by apply (digits_ok 20). Qed.

Lemma digits_length fuel n k : 0 ≤ n → n < 10 ^ Z.of_nat (S k) → (length (digits fuel n) ≤ S k)%nat.
Proof.
  revert n k. induction fuel as [|fuel IH]; intros n k Hn Hk; cbn [digits]; [simpl; lia|].
  destruct (Z.ltb_spec n 10); [simpl; lia|]. rewrite length_app. simpl. destruct k as [|k]; [simpl in Hk; lia|].
  rewrite Nat2Z.inj_succ, Z.pow_succ_r in Hk by lia.
  assert (length (digits fuel (n / 10)) ≤ S k)%nat; [|lia].
  apply IH; [apply Z.div_pos; lia|apply Z.div_lt_upper_bound; lia].
Qed.

Lemma decimal_length n k : 0 ≤ n → n < 10 ^ Z.of_nat (S k) → (length (decimal n) ≤ S k)%nat.
Proof. apply digits_length. Qed.

(** Taking a C string apart. *)
Lemma strlen_ok bs rest : Forall (λ b, b ≠ 0) bs → strlen (bs ++ 0 :: rest) = Ok (Z.of_nat (length bs)).
Proof.
  induction 1 as [|b bs Hb Hbs IH]; [done|]. cbn [strlen app]. rewrite (proj2 (Z.eqb_neq b 0)) by done.
  rewrite IH. run. f_equal. simpl length. lia.
Qed.

Lemma strlen_take bytes n : strlen bytes = Ok n → 0 ≤ n ∧ Forall (λ b, b ≠ 0) (take (Z.to_nat n) bytes).
Proof.
  revert n. induction bytes as [|b bytes IH]; intros n; cbn [strlen]; [done|].
  destruct (Z.eqb_spec b 0); [by intros [= <-]|]. destruct (strlen bytes) as [m|e|] eqn:Hm; run; [|done..].
  intros [= <-]. destruct (IH m eq_refl) as [? ?]. split; [lia|].
  replace (Z.to_nat (m + 1)) with (S (Z.to_nat m)) by lia. simpl. by constructor.
Qed.

Lemma strlen_lt bytes n : strlen bytes = Ok n → n < Z.of_nat (length bytes).
Proof.
  revert n. induction bytes as [|b bytes IH]; cbn [strlen length]; [done|]. intros k.
  destruct (b =? 0); [intros [= <-]; lia|]. destruct (strlen bytes) as [m|e|]; run; [|done..].
  intros [= <-]. specialize (IH m eq_refl). lia.
Qed.

(** Memory that ends in a zero byte holds a string. *)
Lemma strlen_last bytes : last bytes = Some 0 → ∃ n, strlen bytes = Ok n.
Proof.
  induction bytes as [|b bytes IH]; [done|]. cbn [strlen]. destruct (Z.eqb_spec b 0); [by eexists|].
  destruct bytes as [|c bytes]; [by intros [= ->]|]. intros H. destruct (IH H) as [k ->]. by eexists.
Qed.

(** strcmp of two NUL-terminated texts in memory; only the sign is used. *)
Fixpoint strcmp (a b : list Z) : outcome Z :=
  match a, b with
  | x :: a, y :: b =>
      if x =? y then (if x =? 0 then Ok 0 else strcmp a b) else Ok (if x <? y then -1 else 1)
  | _, _ => Fault
  end.

Lemma strcmp_ok a b ra rb : Forall (λ x, x ≠ 0) a → Forall (λ x, x ≠ 0) b →
  ∃ r, strcmp (a ++ 0 :: ra) (b ++ 0 :: rb) = Ok r ∧ (r = 0 ↔ a = b).
Proof.
  intros Ha. revert b. induction Ha as [|x a Hx Ha IH]; intros b Hb; destruct Hb as [|y b Hy Hb]; cbn [app strcmp].
  - by exists 0.
  - rewrite (proj2 (Z.eqb_neq 0 y)) by done. eexists. split; [done|]. split; [|done]. by destruct (0 <? y).
  - rewrite (proj2 (Z.eqb_neq x 0)) by done. eexists. split; [done|]. split; [|done]. by destruct (x <? 0).
  - destruct (Z.eqb_spec x y) as [->|Hne].
    + rewrite (proj2 (Z.eqb_neq y 0)) by done. destruct (IH b Hb) as (r & -> & Hr). exists r. split; [done|].
      rewrite Hr. split; [by intros ->|by intros [= ->]].
    + eexists. split; [done|]. split; [by destruct (x <? y)|by intros [= -> ->]].
Qed.

Lemma decimal_no_nul n : 0 ≤ n < 10 ^ 20 → Forall (λ x, x ≠ 0) (decimal n).
Proof. intros Hn. eapply Forall_impl; [apply decimal_ok, Hn|]. cbn. lia. Qed.

Lemma dotted_length ip : (length (dotted ip) ≤ 15)%nat.
Proof.
  assert (H : ∀ n, (length (decimal (Z.land n 0xff)) ≤ 3)%nat).
  { intros n. apply (decimal_length _ 2); change 0xff with (Z.ones 8); rewrite Z.land_ones by lia;
      pose proof (Z.mod_pos_bound n (2 ^ 8)); lia. }
  pose proof (H (Z.shiftr ip 0)). pose proof (H (Z.shiftr ip 8)). pose proof (H (Z.shiftr ip 16)). pose proof (H (Z.shiftr ip 24)).
  unfold dotted. rewrite !length_app. cbn [length]. lia.
Qed.

Lemma dotted_no_nul ip : Forall (λ x, x ≠ 0) (dotted ip).
Proof.
  assert (H : ∀ n, 0 ≤ Z.land n 0xff < 10 ^ 20).
  { intros n. change 0xff with (Z.ones 8). rewrite Z.land_ones by lia. pose proof (Z.mod_pos_bound n (2 ^ 8)). lia. }
  unfold dotted. rewrite !Forall_app, !Forall_singleton. split_and!; try lia; apply decimal_no_nul, H.
Qed.
