(* ===== verification/Servers.v ===== *)
(** What the login server and character select share: the results of the
    operating system's recv and send, taking an element out of an array, local
    addresses, and filling the data of a packet for a client. *)

From S2P Require Import Prelude Aligned Text.

Inductive recv_result := Received (bytes : list Z) | NothingYet | RecvError | RemoteClosed.
Inductive send_result := Sent (len : Z) | Again | Refused | SendError.

(** ** Taking an element out of an array *)

(** array_swap_and_pop: the last element moved to position [i]. *)
Definition swap_out {A} (i : nat) (l : list A) : list A :=
  match last l with
  | Some x => if (i <? length l)%nat then <[i := x]> (take (length l - 1) l) else l
  | None => l
  end.

Lemma swap_out_perm {A} i (l : list A) x : l !! i = Some x → x :: swap_out i l ≡ₚ l.
Proof.
  intros Hi. pose proof (lookup_lt_Some _ _ _ Hi) as Hlt. unfold swap_out.
  destruct l as [|y l _] using rev_ind; [done|]. rewrite last_snoc. rewrite length_app in *. simpl in *.
  rewrite (proj2 (Nat.ltb_lt _ _)) by done. rewrite Nat.add_sub, take_app_length.
  destruct (decide (i = length l)) as [->|Hne].
  - rewrite list_lookup_middle in Hi by done. injection Hi as ->.
    rewrite list_insert_ge by lia. by rewrite Permutation_cons_append.
  - rewrite lookup_app_l in Hi by lia. rewrite list_insert_take_drop by lia.
    rewrite <- Permutation_cons_append, <- Permutation_middle.
    rewrite Permutation_swap. apply Permutation_skip.
    rewrite <- (take_drop_middle l i x Hi) at 3. by rewrite Permutation_middle.
Qed.

Lemma swap_out_length {A} i (l : list A) : (i < length l)%nat → length (swap_out i l) = (length l - 1)%nat.
Proof.
  intros Hi. destruct (lookup_lt_is_Some_2 l i Hi) as [x Hx].
  pose proof (Permutation_length (swap_out_perm i l x Hx)) as H. simpl in H. lia.
Qed.

(** Where the elements are afterwards: the last one is at [i]. *)
Lemma swap_out_lookup {A} i j (l : list A) : (i < length l)%nat → j ≠ i → (j < length l)%nat →
  swap_out i l !! (if decide (j = (length l - 1)%nat) then i else j) = l !! j.
Proof.
  intros Hi Hne Hj. unfold swap_out. destruct l as [|y l _] using rev_ind; [done|].
  rewrite last_snoc. rewrite length_app in *. simpl in *. rewrite (proj2 (Nat.ltb_lt _ _)) by done.
  rewrite !Nat.add_sub, take_app_length. case_decide as Hd.
  - subst j. rewrite list_lookup_insert_eq by lia. by rewrite list_lookup_middle.
  - rewrite list_lookup_insert_ne by done. by rewrite lookup_app_l by lia.
Qed.

(** The element taken out may have been written before. *)
Lemma swap_out_insert {A} i (l : list A) x : (i < length l)%nat → swap_out i (<[i:=x]> l) ≡ₚ delete i l.
Proof.
  intros Hi. apply (Permutation_cons_inv (a := x)).
  rewrite swap_out_perm by (by rewrite list_lookup_insert_eq by done).
  rewrite list_insert_take_drop by done. rewrite delete_take_drop. by rewrite Permutation_middle.
Qed.

(** What is in front of [i] stays, and the rest is the elements after [i]. *)
Lemma swap_out_take {A} i (l : list A) : take i (swap_out i l) = take i l.
Proof.
  unfold swap_out. destruct (last l); [|done]. destruct (Nat.ltb_spec i (length l)); [|done].
  rewrite take_insert, decide_False by lia. rewrite take_take. f_equal. lia.
Qed.

Lemma swap_out_drop {A} i (l : list A) : (i < length l)%nat → drop i (swap_out i l) ≡ₚ drop (S i) l.
Proof.
  intros Hi. destruct (lookup_lt_is_Some_2 l i Hi) as [x Hx]. apply (Permutation_app_inv_l (take i l)), (Permutation_cons_inv (a := x)).
  rewrite <- (swap_out_take i l) at 1. rewrite take_drop, swap_out_perm by done.
  rewrite Permutation_middle. by rewrite take_drop_middle.
Qed.

(** ** Addresses *)
Definition make_ip (a b c d : Z) : Z :=
  Z.lor (Z.lor (Z.lor (Z.land (Z.shiftl a 0) 0xff) (Z.land (Z.shiftl b 8) 0xff00))
    (Z.land (Z.shiftl c 16) 0xff0000)) (Z.land (Z.shiftl d 24) 0xff000000).

(** ** Packets *)

(** Bytes written from the start: what follows them stays. *)
Lemma overlay_bytes bs buf : (length bs ≤ length buf)%nat → overlay 0 (Some <$> bs) buf = bs ++ drop (length bs) buf.
Proof.
  intros H. unfold overlay. simpl. rewrite length_fmap, drop_0. f_equal.
  revert buf H. induction bs as [|b bs IH]; intros [|? ?] H; simpl in *; try done; [lia|]. f_equal. apply IH. lia.
Qed.

Lemma overlay_full bs buf : length bs = length buf → overlay 0 (Some <$> bs) buf = bs.
Proof. intros H. rewrite overlay_bytes by lia. by rewrite H, drop_all, app_nil_r. Qed.

(** A text in a field of [n] bytes: its start, a terminator, and what the
    field held. *)
Definition field_pattern (n : Z) (bs : list Z) : list (option Z) :=
  let t := take (Z.to_nat (n - 1)) bs in (Some ∘ u8 <$> t ++ [0]) ++ replicate (Z.to_nat n - S (length t)) None.

Lemma field_pattern_length n bs : 0 < n → Z.of_nat (length (field_pattern n bs)) = n.
Proof. intros Hn. unfold field_pattern. rewrite length_app, length_fmap, length_app, length_replicate, length_take. simpl. lia. Qed.

Lemma emits_text_field n bs : 0 < n → emits (aligned_write_snprintf_full_advance n bs) (field_pattern n bs).
Proof. apply emits_snprintf. Qed.

(** A text and its terminator. *)
Definition c_string (bs : list Z) : list Z := (u8 <$> bs) ++ [0].

Lemma emits_c_string bs : emits (aligned_write_buffer (bs ++ [0]) (Z.of_nat (length bs) + 1)) (Some <$> c_string bs).
Proof.
  unfold c_string. replace (Some <$> (u8 <$> bs) ++ [0]) with (Some ∘ u8 <$> take (Z.to_nat (Z.of_nat (length bs) + 1)) (bs ++ [0])).
  - apply emits_buffer. rewrite length_app. simpl. lia.
  - rewrite take_ge by (rewrite length_app; simpl; lia). rewrite !fmap_app, <- list_fmap_compose. done.
Qed.

Lemma c_string_length bs : length (c_string bs) = S (length bs).
Proof. unfold c_string. rewrite length_app, length_fmap. simpl. lia. Qed.


Section Fill.
(** [junk n] is what a fresh allocation of [n] bytes holds. *)
Context (junk : Z → list Z).

(** packet_trilogy_create, and [w] writing its data. *)
Definition fill_packet (length_ : Z) (w : code Aligned unit) : outcome (list Z) :=
  match w (aligned_init (junk length_) length_) with
  | (Ok _, a) => Ok (buffer a)
  | (Throw e, _) => Throw e
  | (Fault, _) => Fault
  end.

Lemma fill_packet_ok (Hjunk : ∀ n, length (junk n) = Z.to_nat n) n w pat :
  emits w pat → Z.of_nat (length pat) ≤ n → n < 2 ^ 32 → fill_packet n w = Ok (overlay 0 pat (junk n)).
Proof.
  intros Hw Hn H32. unfold fill_packet, aligned_init. destruct (Hw (mkAligned 0 n (junk n))) as [Hok _].
  { split_and!; simpl; [lia|lia|rewrite Hjunk; lia|lia]. }
  by rewrite Hok by (simpl; lia).
Qed.

Lemma fill_packet_full (Hjunk : ∀ n, length (junk n) = Z.to_nat n) n w bs :
  emits w (Some <$> bs) → Z.of_nat (length bs) = n → n < 2 ^ 32 → fill_packet n w = Ok bs.
Proof.
  intros Hw Hn H32. rewrite (fill_packet_ok Hjunk n w (Some <$> bs)) by (rewrite ?length_fmap; done || lia).
  by rewrite overlay_full by (rewrite Hjunk; lia).
Qed.
End Fill.

(** Reading from a received packet inside a handler. *)
Definition reading {S A} (r : code Aligned A) (a : Aligned) : code S (A * Aligned) := λ s,
  match r a with
  | (Ok x, a') => (Ok (x, a'), s)
  | (Throw e, _) => (Throw e, s)
  | (Fault, _) => (Fault, s)
  end.

(** The C string at the reader's position. *)
Definition string_at (a : Aligned) : outcome (list Z) :=
  n ← strlen (drop (Z.to_nat (cursor a)) (buffer a)); Ok (take (Z.to_nat n) (drop (Z.to_nat (cursor a)) (buffer a))).

Lemma keeps_reading {S A} (P : S → Prop) (r : code Aligned A) a : keeps P (reading r a).
Proof. intros s Hs. unfold reading. by destruct (r a) as [[x|e|] a']. Qed.
#[export] Hint Resolve keeps_reading : keeps.

Lemma reading_inv {S A} (r : code Aligned A) a (s : S) x s' : reading r a s = (Ok x, s') → r a = (Ok x.1, x.2) ∧ s' = s.
Proof. unfold reading. destruct (r a) as [[y|e|] a']; [|done..]. by intros [= <- <-]. Qed.
