(* ===== verification/Query.v ===== *)
(** Queries: common/db/query.c and query.h, with db_prepare of database.c.

    A query is prepared by one thread and executed by another, before its
    callback reads its rows. SQLite is a parameter: a connection, statements
    that are stepped, and the columns of the row a statement stands on. The
    constants are those of its interface. A statement may be NULL, which SQLite
    calls a misuse. Two fields of a query share their memory: its state is the
    low half of the last insert id. Its time stamp is for the log only. *)

From S2P Require Import Prelude Fields.

(** ** What SQLite offers *)
Definition SQLITE_OK : Z := 0.
Definition SQLITE_BUSY : Z := 5.
Definition SQLITE_MISUSE : Z := 21.
Definition SQLITE_ROW : Z := 100.
Definition SQLITE_DONE : Z := 101.
Definition SQLITE_NULL : Z := 5.

Inductive bound_value := BoundInt (v : Z) | BoundInt64 (v : Z) | BoundDouble (v : Z) | BoundText (bs : list Z) | BoundBlob (bs : list Z).

Class Sqlite := {
  connection : Type;
  statement : Type;
  sqlite3_prepare_v2 : list Z → connection → Z * option statement * connection;
  sqlite3_step : statement → connection → Z * statement * connection;
  sqlite3_reset : statement → statement;
  sqlite3_bind : Z → bound_value → statement → Z * statement;
  sqlite3_column_int64 : statement → Z → Z;
  sqlite3_column_double : statement → Z → Z;
  sqlite3_column_bytes : statement → Z → list Z;
  sqlite3_column_type : statement → Z → Z;
  sqlite3_last_insert_rowid : connection → Z;
  sqlite3_changes : connection → Z;
}.

Section Queries.
Context `{Sqlite}.

(** ** Queries *)
Definition QUERY_HAS_RESULTS : Z := -1.
Definition QUERY_NOT_YET_RUN : Z := -2.

Record Query := mkQuery {
  q_stmt : option statement;
  q_database : bool;            (* whether it is set *)
  q_union : Z;                  (* state and lastInsertId *)
  q_userdata : Z;
  q_callback : option nat;
  q_queryId : Z;
  q_affectedRows : Z;
}.
#[export] Instance Query_settable : Settable Query :=
  (built mkQuery <*> q_stmt <*> q_database <*> q_union <*> q_userdata <*> q_callback <*> q_queryId <*> q_affectedRows)%fields.

(** A query and the connection it is run on. *)
Abbreviation querying := (code (Query * connection)).
Definition the_query {A} (f : Query → A) : querying A := gets (λ s : Query * connection, f s.1).
Definition upd_query (f : Query → Query) : querying unit := modify (λ s : Query * connection, (f s.1, s.2)).

Definition query_get_state (q : Query) : Z := i32 (q_union q).
Definition query_get_last_insert_id (q : Query) : Z := i64 (q_union q).
Definition query_set_state (st : Z) (q : Query) : Query := q <| q_union := q_union q - u32 (q_union q) + u32 st |>.
Definition query_has_callback (q : Query) : bool := match q_callback q with Some _ => true | None => false end.

Definition query_init : Query := query_set_state QUERY_NOT_YET_RUN (mkQuery None false 0 0 None 0 0).
Definition query_deinit (q : Query) : Query := q <| q_stmt := None |>.
Definition query_set_db_and_stmt (stmt : option statement) (queryId : Z) (q : Query) : Query :=
  q <| q_stmt := stmt |> <| q_database := true |> <| q_queryId := queryId |>.
Definition query_update_last_insert_id (conn : connection) (q : Query) : Query :=
  q <| q_union := u64 (sqlite3_last_insert_rowid conn) |> <| q_affectedRows := sqlite3_changes conn |>.

(** Errors and the log are written through the query's database. *)
Definition sql_error {A} : querying A := db ← the_query q_database; if db : bool then throw ErrorSql else fault.
Definition sql_log : querying unit := db ← the_query q_database; if db : bool then mret tt else fault.

Definition step_query : querying Z := λ s,
  let '(q, conn) := s in
  match q_stmt q with
  | Some stmt => let '(rc, stmt, conn) := sqlite3_step stmt conn in (Ok rc, (q <| q_stmt := Some stmt |>, conn))
  | None => (Ok SQLITE_MISUSE, s)
  end.

Definition query_execute_background : querying bool :=
  rc ← step_query;
  if rc =? SQLITE_BUSY then mret false
  else
    (if rc =? SQLITE_ROW then upd_query (query_set_state QUERY_HAS_RESULTS)
     else if rc =? SQLITE_DONE then modify (λ s : Query * connection, (query_update_last_insert_id s.2 s.1, s.2))
     else sql_error) ;;
    sql_log ;;
    mret true.

(** The loops end when the database is no longer busy. *)
Fixpoint query_execute_synchronus (fuel : nat) : querying unit :=
  match fuel with
  | O => fault
  | S fuel => done ← query_execute_background; if done : bool then mret tt else query_execute_synchronus fuel
  end.

Definition query_reset (q : Query) : Query := q <| q_stmt := sqlite3_reset <$> q_stmt q |>.
Definition query_execute_synchronus_insert_update (fuel : nat) : querying unit := query_execute_synchronus fuel ;; upd_query query_reset.

Fixpoint step_until_answered (fuel : nat) : querying Z :=
  match fuel with
  | O => fault
  | S fuel => rc ← step_query; if rc =? SQLITE_BUSY then step_until_answered fuel else mret rc
  end.

Definition query_select (fuel : nat) : querying bool :=
  state ← the_query query_get_state;
  if state =? QUERY_HAS_RESULTS then upd_query (query_set_state SQLITE_OK) ;; mret true
  else
    rc ← step_until_answered fuel;
    if rc =? SQLITE_ROW then mret true
    else if rc =? SQLITE_DONE then upd_query query_reset ;; mret false
    else sql_error.

(** [while (query_select(query))] of a callback that keeps what each row's
    statement is. *)
Fixpoint query_rows (rounds fuel : nat) : querying (list (option statement)) :=
  match rounds with
  | O => fault
  | S rounds =>
      more ← query_select fuel;
      if more : bool then row ← the_query q_stmt; rows ← query_rows rounds fuel; mret (row :: rows) else mret []
  end.

(** ** Values and columns *)
Definition query_bind (col : Z) (v : bound_value) : querying unit :=
  stmt ← the_query q_stmt;
  match stmt with
  | Some stmt =>
      let '(rc, stmt) := sqlite3_bind col v stmt in
      upd_query (λ q, q <| q_stmt := Some stmt |>) ;;
      if (rc =? SQLITE_OK) then mret tt else sql_error
  | None => sql_error
  end.
Definition query_bind_int (col v : Z) : querying unit := query_bind col (BoundInt (i32 v)).
Definition query_bind_int64 (col v : Z) : querying unit := query_bind col (BoundInt64 (i64 v)).
Definition query_bind_double (col v : Z) : querying unit := query_bind col (BoundDouble v).
Definition query_bind_string (col : Z) (bs : list Z) : querying unit := query_bind col (BoundText bs).
Definition query_bind_blob (col : Z) (bs : list Z) : querying unit := query_bind col (BoundBlob bs).

(** Columns are counted from one here, and from zero by SQLite. A NULL statement
    has no row: its columns are zero, empty and NULL. *)
Definition column {A} (none : A) (f : statement → Z → A) (col : Z) (q : Query) : A :=
  match q_stmt q with Some stmt => f stmt (col - 1) | None => none end.
Definition query_get_int64 (col : Z) (q : Query) : Z := column 0 sqlite3_column_int64 col q.
Definition query_get_int (col : Z) (q : Query) : Z := i32 (query_get_int64 col q).
Definition query_get_double (col : Z) (q : Query) : Z := column 0 sqlite3_column_double col q.
Definition query_is_null (col : Z) (q : Query) : bool := column SQLITE_NULL sqlite3_column_type col q =? SQLITE_NULL.
Definition query_get_string (col : Z) (q : Query) : option (list Z) :=
  if query_is_null col q then None else Some (column [] sqlite3_column_bytes col q).
Definition query_get_blob (col : Z) (q : Query) : option (list Z) := query_get_string col q.

(** ** Preparing *)
Record Database := mkDatabase { db_sqlite : connection; db_nextQueryId : Z }.

Definition db_prepare (sql : list Z) (callback : option nat) (q : Query) : code Database Query := λ db,
  let q := match callback with Some _ => q <| q_callback := callback |> | None => q end in
  let '(rc, stmt, conn) := sqlite3_prepare_v2 sql (db_sqlite db) in
  if rc =? SQLITE_OK then
    (Ok (query_set_db_and_stmt stmt (db_nextQueryId db) q), mkDatabase conn (u32 (db_nextQueryId db + 1)))
  else (Throw ErrorSql, mkDatabase conn (db_nextQueryId db)).

(** ** Reading all rows *)
(** Stepping [stmt] goes through the rows and ends; SQLite may be busy before
    any of them. A row is the statement that stands on it. *)
Inductive yields : statement → connection → list statement → statement → connection → Prop :=
  | yields_busy s c s1 c1 l s2 c2 : sqlite3_step s c = (SQLITE_BUSY, s1, c1) → yields s1 c1 l s2 c2 → yields s c l s2 c2
  | yields_row s c s1 c1 l s2 c2 : sqlite3_step s c = (SQLITE_ROW, s1, c1) → yields s1 c1 l s2 c2 → yields s c (s1 :: l) s2 c2
  | yields_done s c s1 c1 : sqlite3_step s c = (SQLITE_DONE, s1, c1) → yields s c [] s1 c1.

Definition on_stmt (s : statement) (q : Query) : Query := q <| q_stmt := Some s |>.

Lemma step_on s q c rc s1 c1 : sqlite3_step s c = (rc, s1, c1) → step_query (on_stmt s q, c) = (Ok rc, (on_stmt s1 q, c1)).
Proof. intros Hs. unfold step_query. cbn. by rewrite Hs. Qed.

Lemma query_get_set_state st q : i32 st = st → query_get_state (query_set_state st q) = st.
Proof.
  intros Hst. unfold query_get_state, query_set_state. cbn [q_union set_field field_ap field_pure]. fields_simpl. cbn.
  transitivity (i32 st); [|done]. unfold sint. f_equal; unfold wrap; rewrite Zplus_mod, Zminus_mod, Zmod_mod, Z.sub_diag, Zmod_0_l, Z.add_0_l, !Zmod_mod; done.
Qed.

Lemma sint_of_u64 z : i32 (u64 z) = i32 z.
Proof.
  assert (E : u32 (u64 z) = u32 z) by (unfold wrap; apply Z.mod_mod_divide; by exists (2 ^ 32)).
  unfold sint. by rewrite E.
Qed.

(** What is left of the loop once its statement is to be stepped. *)
Definition rest_of_rows (f0 rounds fuel : nat) : querying (list (option statement)) :=
  rc ← step_until_answered f0;
  more ← (if rc =? SQLITE_ROW then mret true else if rc =? SQLITE_DONE then upd_query query_reset ;; mret false else sql_error);
  if more : bool then row ← the_query q_stmt; rows ← query_rows rounds fuel; mret (row :: rows) else mret [].

Lemma rows_unfold rounds fuel q c : query_get_state q ≠ QUERY_HAS_RESULTS →
  query_rows (S rounds) fuel (q, c) = rest_of_rows fuel rounds fuel (q, c).
Proof.
  intros Hst. cbn [query_rows]. unfold query_select, rest_of_rows, the_query, gets, mbind, code_bind. cbn [fst].
  rewrite (proj2 (Z.eqb_neq _ _) Hst). by destruct (step_until_answered fuel (q, c)) as [[rc|e|] s'].
Qed.

Lemma rest_ok s c l s2 c2 : yields s c l s2 c2 → ∀ q, query_get_state q ≠ QUERY_HAS_RESULTS →
  ∃ n, ∀ f0 rounds fuel, (n ≤ f0)%nat → (n ≤ rounds)%nat → (n ≤ fuel)%nat →
    rest_of_rows f0 rounds fuel (on_stmt s q, c) = (Ok (Some <$> l), (query_reset (on_stmt s2 q), c2)).
Proof.
  induction 1 as [s c s1 c1 l s2 c2 Hs _ IH|s c s1 c1 l s2 c2 Hs _ IH|s c s1 c1 Hs]; intros q Hq.
  - destruct (IH q Hq) as [n Hn]. exists (S n). intros [|f0] rounds fuel H0 H1 H2; [lia|].
    rewrite <- (Hn f0 rounds fuel) by lia. unfold rest_of_rows. cbn [step_until_answered]. rewrite bind_assoc. by rewrite (bind_ok _ _ _ _ _ (step_on _ _ _ _ _ _ Hs)).
  - destruct (IH q Hq) as [n Hn]. exists (S n). intros [|f0] [|rounds] fuel H0 H1 H2; [lia..|].
    unfold rest_of_rows. cbn [step_until_answered]. rewrite bind_assoc, (bind_ok _ _ _ _ _ (step_on _ _ _ _ _ _ Hs)). change (SQLITE_ROW =? SQLITE_BUSY) with false. cbv iota. rewrite bind_ret.
    change (SQLITE_ROW =? SQLITE_ROW) with true. cbv iota. rewrite bind_ret. cbv iota.
    rewrite (bind_ok (the_query q_stmt) _ (on_stmt s1 q, c1) (Some s1) (on_stmt s1 q, c1) eq_refl).
    rewrite (bind_ok _ _ _ (Some <$> l) (query_reset (on_stmt s2 q), c2)); [done|]. rewrite rows_unfold by done. by apply Hn; lia.
  - exists 1%nat. intros [|f0] rounds fuel H0 _ _; [lia|].
    unfold rest_of_rows. cbn [step_until_answered]. by rewrite bind_assoc, (bind_ok _ _ _ _ _ (step_on _ _ _ _ _ _ Hs)).
Qed.

Lemma rows_stepped s c l s2 c2 : yields s c l s2 c2 → ∀ q, query_get_state q ≠ QUERY_HAS_RESULTS →
  ∃ n, ∀ rounds fuel, (n ≤ rounds)%nat → (n ≤ fuel)%nat →
    query_rows rounds fuel (on_stmt s q, c) = (Ok (Some <$> l), (query_reset (on_stmt s2 q), c2)).
Proof.
  intros Hl q Hq. destruct (rest_ok _ _ _ _ _ Hl q Hq) as [n Hn]. exists (S n). intros [|r] f Hr Hf; [lia|]. rewrite rows_unfold by done. apply Hn; lia.
Qed.

Lemma select_fetched fuel s q c : query_get_state q = QUERY_HAS_RESULTS →
  query_select fuel (on_stmt s q, c) = (Ok true, (on_stmt s (query_set_state SQLITE_OK q), c)).
Proof. intros Hq. unfold query_select, the_query, gets, mbind, code_bind. cbn [fst]. change (query_get_state (on_stmt s q)) with (query_get_state q). by rewrite Hq. Qed.

Lemma background_ok s c rc s1 c1 q : sqlite3_step s c = (rc, s1, c1) → q_database q = true →
  query_execute_background (on_stmt s q, c) =
    if rc =? SQLITE_BUSY then (Ok false, (on_stmt s1 q, c1))
    else if rc =? SQLITE_ROW then (Ok true, (on_stmt s1 (query_set_state QUERY_HAS_RESULTS q), c1))
    else if rc =? SQLITE_DONE then (Ok true, (on_stmt s1 (query_update_last_insert_id c1 q), c1))
    else (Throw ErrorSql, (on_stmt s1 q, c1)).
Proof.
  intros Hs Hdb. unfold query_execute_background. rewrite (bind_ok _ _ _ _ _ (step_on _ _ _ _ _ _ Hs)).
  repeat case_match; try done; unfold sql_log, sql_error, the_query, mbind, code_bind, upd_query, modify, gets; cbn; by rewrite ?Hdb.
Qed.

Lemma synchronus_ok s c l s2 c2 : yields s c l s2 c2 → ∀ q, q_database q = true →
  ∃ n s1 c1 q1, (∀ k, (n ≤ k)%nat → query_execute_synchronus k (on_stmt s q, c) = (Ok tt, (on_stmt s1 q1, c1))) ∧
    match l with
    | [] => s1 = s2 ∧ c1 = c2 ∧ q1 = query_update_last_insert_id c2 q
    | row :: l => s1 = row ∧ q1 = query_set_state QUERY_HAS_RESULTS q ∧ yields s1 c1 l s2 c2
    end.
Proof.
  induction 1 as [s c s1 c1 l s2 c2 Hs _ IH|s c s1 c1 l s2 c2 Hs Hl _|s c s1 c1 Hs]; intros q Hdb.
  - destruct (IH q Hdb) as (n & s3 & c3 & q3 & Hn & Hm). exists (S n), s3, c3, q3. split; [|done]. intros [|k] Hk; [lia|].
    cbn [query_execute_synchronus]. rewrite (bind_ok _ _ _ _ _ (background_ok _ _ _ _ _ _ Hs Hdb)). apply Hn. lia.
  - exists 1%nat, s1, c1, (query_set_state QUERY_HAS_RESULTS q). split; [|done]. intros [|k] Hk; [lia|].
    cbn [query_execute_synchronus]. by rewrite (bind_ok _ _ _ _ _ (background_ok _ _ _ _ _ _ Hs Hdb)).
  - exists 1%nat, s1, c1, (query_update_last_insert_id c1 q). split; [|done]. intros [|k] Hk; [lia|].
    cbn [query_execute_synchronus]. by rewrite (bind_ok _ _ _ _ _ (background_ok _ _ _ _ _ _ Hs Hdb)).
Qed.

(** C24: A callback sees every row of its query once, in order, although the
    first one was already fetched when the query was executed, and its loop
    ends. A query without rows is stepped a second time: its callback sees none
    unless the connection's last insert id looks like a fetched row. *)
Theorem query_reads_every_row (s : statement) (q : Query) (c : connection) (l : list statement) (s2 : statement) (c2 : connection)
    (Hdb : q_database q = true) (Hl : yields s c l s2 c2)
    (Hempty : l = [] → i32 (sqlite3_last_insert_rowid c2) ≠ QUERY_HAS_RESULTS ∧ ∃ s3 c3, yields s2 c2 [] s3 c3) :
  ∃ n, ∀ k, (n ≤ k)%nat → ∃ end_, (query_execute_synchronus k ;; query_rows k k) (on_stmt s q, c) = (Ok (Some <$> l), end_).
Proof.
  destruct (synchronus_ok _ _ _ _ _ Hl q Hdb) as (n & s1 & c1 & q1 & Hn & Hm). destruct l as [|row l].
  - destruct Hm as (-> & -> & ->). destruct (Hempty eq_refl) as [Hid (s3 & c3 & H3)].
    destruct (rows_stepped _ _ _ _ _ H3 (query_update_last_insert_id c2 q)) as [n' Hn'].
    { change (i32 (u64 (sqlite3_last_insert_rowid c2)) ≠ QUERY_HAS_RESULTS). by rewrite sint_of_u64. }
    exists (n + n')%nat. intros k Hk. eexists. rewrite (bind_ok _ _ _ _ _ (Hn k ltac:(lia))). apply Hn'; lia.
  - destruct Hm as (-> & -> & Hrest). set (q0 := query_set_state SQLITE_OK (query_set_state QUERY_HAS_RESULTS q)).
    destruct (rows_stepped _ _ _ _ _ Hrest q0) as [n' Hn']. { subst q0. by rewrite query_get_set_state. }
    exists (S (n + n'))%nat. intros [|k] Hk; [lia|]. eexists. rewrite (bind_ok _ _ _ _ _ (Hn (S k) ltac:(lia))). cbn [query_rows].
    rewrite (bind_ok _ _ _ _ _ (select_fetched (S k) row _ c1 (query_get_set_state QUERY_HAS_RESULTS q eq_refl))). cbv iota.
    rewrite (bind_ok (the_query q_stmt) _ (on_stmt row q0, c1) (Some row) (on_stmt row q0, c1) eq_refl).
    by rewrite (bind_ok _ _ _ _ _ (Hn' k (S k) ltac:(lia) ltac:(lia))).
Qed.

(** A query without rows leaves the connection's last insert id where its
    state was: when the low half of that id is all ones, its callback is given a
    row that does not exist. *)
Theorem insert_id_reads_as_row (s : statement) (q : Query) (c : connection) (s2 s3 : statement) (c2 c3 : connection)
    (Hdb : q_database q = true) (Hl : yields s c [] s2 c2) (Hid : i32 (sqlite3_last_insert_rowid c2) = QUERY_HAS_RESULTS)
    (H3 : yields s2 c2 [] s3 c3) :
  ∃ n, ∀ k, (n ≤ k)%nat → ∃ end_, (query_execute_synchronus k ;; query_rows k k) (on_stmt s q, c) = (Ok [Some s2], end_).
Proof.
  destruct (synchronus_ok _ _ _ _ _ Hl q Hdb) as (n & s1 & c1 & q1 & Hn & -> & -> & ->).
  set (q0 := query_set_state SQLITE_OK (query_update_last_insert_id c2 q)).
  destruct (rows_stepped _ _ _ _ _ H3 q0) as [n' Hn']. { subst q0. by rewrite query_get_set_state. }
  exists (S (n + n'))%nat. intros [|k] Hk; [lia|]. eexists. rewrite (bind_ok _ _ _ _ _ (Hn (S k) ltac:(lia))). cbn [query_rows].
  assert (Hst : query_get_state (query_update_last_insert_id c2 q) = QUERY_HAS_RESULTS).
  { change (i32 (u64 (sqlite3_last_insert_rowid c2)) = QUERY_HAS_RESULTS). by rewrite sint_of_u64. }
  rewrite (bind_ok _ _ _ _ _ (select_fetched (S k) s2 _ c2 Hst)). cbv iota.
  rewrite (bind_ok (the_query q_stmt) _ (on_stmt s2 q0, c2) (Some s2) (on_stmt s2 q0, c2) eq_refl).
  by rewrite (bind_ok _ _ _ _ _ (Hn' k (S k) ltac:(lia) ltac:(lia))).
Qed.
End Queries.

(** ** An instance

    A connection that is busy a number of times, and statements over a list of
    rows. *)
Record TableStatement := mkTableStatement { ts_current : list Z; ts_left : list (list Z); ts_all : list (list Z) }.
Definition table_step (s : TableStatement) (c : Z * nat) : Z * TableStatement * (Z * nat) :=
  match c.2, ts_left s with
  | S busy, _ => (SQLITE_BUSY, s, (c.1, busy))
  | O, [] => (SQLITE_DONE, mkTableStatement [] (ts_all s) (ts_all s), c)
  | O, row :: rows => (SQLITE_ROW, mkTableStatement row rows (ts_all s), c)
  end.
Definition table_sqlite : Sqlite := {|
  connection := Z * nat;
  statement := TableStatement;
  sqlite3_prepare_v2 sql c := (SQLITE_OK, Some (mkTableStatement [] [] []), c);
  sqlite3_step := table_step;
  sqlite3_reset s := mkTableStatement [] (ts_all s) (ts_all s);
  sqlite3_bind col v s := (SQLITE_OK, s);
  sqlite3_column_int64 s i := nth (Z.to_nat i) (ts_current s) 0;
  sqlite3_column_double s i := nth (Z.to_nat i) (ts_current s) 0;
  sqlite3_column_bytes s i := [];
  sqlite3_column_type s i := 1;
  sqlite3_last_insert_rowid c := c.1;
  sqlite3_changes c := 0;
|}.

Definition table_statement (rows : list (list Z)) : @statement table_sqlite := mkTableStatement [] rows rows.
Definition prepared : @Query table_sqlite := query_set_db_and_stmt None 1 query_init.

Lemma query_reads_every_row_witness : ∃ l,
  (∃ n, ∀ k, (n ≤ k)%nat → ∃ end_, (query_execute_synchronus k ;; query_rows k k) (on_stmt (H := table_sqlite) (table_statement [[7]; [8]]) prepared, (5, 2%nat)) = (Ok (Some <$> l), end_)) ∧
  (λ s : TableStatement, ts_current s) <$> l = [[7]; [8]].
Proof.
  eexists. split.
  - eapply (@query_reads_every_row table_sqlite); [reflexivity| |].
    + eapply yields_busy; [reflexivity|]. eapply yields_busy; [reflexivity|]. eapply yields_row; [reflexivity|].
      eapply yields_row; [reflexivity|]. eapply yields_done; reflexivity.
    + discriminate.
  - reflexivity.
Defined.

Lemma insert_id_reads_as_row_witness : ∃ s2 n, ∀ k, (n ≤ k)%nat →
  ∃ end_, (query_execute_synchronus k ;; query_rows k k) (on_stmt (H := table_sqlite) (table_statement []) prepared, (2 ^ 32 - 1, 0%nat)) = (Ok [Some s2], end_).
Proof.
  eexists. eapply (@insert_id_reads_as_row table_sqlite); [reflexivity|eapply yields_done; reflexivity|vm_compute; reflexivity|eapply yields_done; reflexivity].
Defined.
