(* ===== verification/DbThread.v ===== *)
(** The database thread: common/db/db_thread.c, with the scheduling of
    database.c, transaction.h and the thread signals of common/eqp_thread.c.

    The threads of a process hand queries over under two mutexes. Here every
    critical section is one step, and so is what the database thread does
    between two of them; the other threads may do anything of theirs in between.
    The database thread is a program counter; SQLite and the transactions'
    callbacks are parameters. What became of every query is kept in logs: its
    id, its callback and its userdata. *)

From S2P Require Import Prelude Fields Text Servers Query.

Section DbThread.
Context `{Sqlite} (transaction_code : nat → Z → code Database unit).

Record Transaction := mkTransaction {
  t_userdata : Z;
  t_callback : option nat;
  t_queryCallback : option nat;
}.

(** [dt_semaphore] is the thread's, [dt_shouldContinue] that its mutex is locked. *)
Record DbThread := mkDbThread {
  dt_inQueue : list Query;
  dt_inTransactionQueue : list Transaction;
  dt_outQueue : list Query;
  dt_executeQueue : list Query;
  dt_semaphore : nat;
  dt_shouldContinue : bool;
}.

(** Where the thread is in db_thread_main_loop and the functions it calls. *)
Inductive db_pc :=
  | Waiting                            (* thread_wait *)
  | Transactions                       (* the head of the loop of db_thread_run_transactions *)
  | Transact (trans : Transaction)     (* its body, unlocked *)
  | Committed (query : Query)          (* locks the outQueue for a finished transaction *)
  | Reading                            (* db_thread_read_newly_scheduled *)
  | Executing (i n : nat)              (* the loop of db_thread_execute_queries *)
  | Executed (i n : nat)               (* its query was executed *)
  | Deciding                           (* whether to wait *)
  | Stopped
  | Died.                              (* by an exception *)

Definition ticket : Type := Z * option nat * Z.
Definition ticket_of (q : Query) : ticket := (q_queryId q, q_callback q, q_userdata q).

(** A process: the thread, the connection, where the thread is, how many
    triggers are still due, and the logs. *)
Record World := mkWorld {
  w_thread : DbThread;
  w_database : Database;
  w_pc : db_pc;
  w_due : nat;
  w_scheduled : list ticket;       (* by db_schedule, and the commits that have a callback *)
  w_called : list ticket;          (* their callbacks were called *)
  w_silent : list ticket;          (* executed, without a callback *)
  w_failed : list ticket;          (* threw an exception *)
  w_transactions : list Transaction;   (* that were committed, in order *)
}.
#[export] Instance DbThread_settable : Settable DbThread :=
  (built mkDbThread <*> dt_inQueue <*> dt_inTransactionQueue <*> dt_outQueue <*> dt_executeQueue <*> dt_semaphore <*> dt_shouldContinue)%fields.
#[export] Instance World_settable : Settable World :=
  (built mkWorld <*> w_thread <*> w_database <*> w_pc <*> w_due <*> w_scheduled <*> w_called <*> w_silent <*> w_failed <*> w_transactions)%fields.

Definition upd_thread (f : DbThread → DbThread) : code World unit := modify (λ w, w <| w_thread := f (w_thread w) |>).

(** ** Transactions *)

(** A statement without parameters, prepared and run; [fuel] bounds how often
    the database is busy. *)
Definition run_synchronus (fuel : nat) (q : Query) : code Database Query := λ db,
  let '(r, (q, conn)) := query_execute_synchronus fuel (q, db_sqlite db) in
  (_ ← r; Ok q, mkDatabase conn (db_nextQueryId db)).
Definition run_statement (fuel : nat) (sql : list Z) (callback : option nat) (q : Query) : code Database Query :=
  q ← db_prepare sql callback q;
  run_synchronus fuel q.

(** The finished transaction's query; an exception unwinds to the thread's start. *)
Definition run_transaction (fuel : nat) (trans : Transaction) : code Database Query :=
  run_statement fuel (text "BEGIN") None query_init ;;
  match t_callback trans with Some f => transaction_code f (t_userdata trans) | None => mret tt end ;;
  run_statement fuel (text "COMMIT") (t_queryCallback trans) (query_init <| q_userdata := t_userdata trans |>).

(** ** The thread's steps *)
Definition take_transaction : code World db_pc :=
  trans ← gets (λ w, last (dt_inTransactionQueue (w_thread w)));
  match trans with
  | Some trans => upd_thread (λ t, t <| dt_inTransactionQueue := removelast (dt_inTransactionQueue t) |>) ;; mret (Transact trans)
  | None => mret Reading
  end.

Definition transact (fuel : nat) (trans : Transaction) : code World db_pc := λ w,
  let '(r, db) := run_transaction fuel trans (w_database w) in
  let w := w <| w_database := db |> in
  match r with
  | Ok query =>
      let w := w <| w_transactions := w_transactions w ++ [trans] |> in
      match t_queryCallback trans with
      | Some _ => (Ok (Committed query), w <| w_scheduled := w_scheduled w ++ [ticket_of query] |>)
      | None => (Ok Transactions, w)
      end
  | Throw _ => (Ok Died, w)
  | Fault => (Fault, w)
  end.

Definition push_out (query : Query) : code World unit := upd_thread (λ t, t <| dt_outQueue := dt_outQueue t ++ [query] |>).

Definition db_thread_run_transactions (fuel : nat) (pc : db_pc) : code World db_pc :=
  match pc with
  | Transactions => take_transaction
  | Transact trans => transact fuel trans
  | Committed query => push_out query ;; mret Transactions
  | _ => mret pc
  end.

Definition db_thread_read_newly_scheduled : code World db_pc :=
  upd_thread (λ t, t <| dt_executeQueue := dt_executeQueue t ++ dt_inQueue t |> <| dt_inQueue := [] |>) ;;
  n ← gets (λ w, length (dt_executeQueue (w_thread w)));
  mret (Executing 0 n).

(** A query is executed where it is in the queue. *)
Definition execute_query (query : Query) (i n : nat) : code World db_pc := λ w,
  let db := w_database w in
  let '(r, (query, conn)) := query_execute_background (query, db_sqlite db) in
  let w := w <| w_database := mkDatabase conn (db_nextQueryId db) |> in
  let t := w_thread w in
  match r with
  | Ok true => (Ok (Executed i n), w <| w_thread := t <| dt_executeQueue := <[i := query]> (dt_executeQueue t) |> |>)
  | Ok false => (Ok (Executing (S i) n), w <| w_thread := t <| dt_executeQueue := <[i := query]> (dt_executeQueue t) |> |>)
  | Throw _ => (Ok (Executing i (n - 1)),
      w <| w_thread := t <| dt_executeQueue := swap_out i (dt_executeQueue t) |> |> <| w_failed := w_failed w ++ [ticket_of query] |>)
  | Fault => (Fault, w)
  end.

Definition query_at (i : nat) : code World Query := queue ← gets (λ w, dt_executeQueue (w_thread w)); lift (deref (queue !! i)).

Definition next_query (i n : nat) : code World db_pc :=
  if (i <? n)%nat then query ← query_at i; execute_query query i n else mret Deciding.

Definition hand_over (i n : nat) : code World db_pc :=
  query ← query_at i;
  (if query_has_callback query then push_out query
   else modify (λ w, w <| w_silent := w_silent w ++ [ticket_of query] |>)) ;;
  upd_thread (λ t, t <| dt_executeQueue := swap_out i (dt_executeQueue t) |>) ;;
  mret (Executing i (n - 1)).

Definition db_thread_execute_queries (pc : db_pc) : code World db_pc :=
  match pc with
  | Executing i n => next_query i n
  | Executed i n => hand_over i n
  | _ => mret pc
  end.

(** One step of db_thread_main_loop. Taking the mutex leaves it locked, but the
    thread ends then; a thread that waits with nothing in its semaphore stays. *)
Definition db_thread_main_loop (fuel : nat) (pc : db_pc) : code World db_pc :=
  match pc with
  | Waiting =>
      k ← gets (λ w, dt_semaphore (w_thread w));
      match k with
      | O => mret Waiting
      | S k => upd_thread (λ t, t <| dt_semaphore := k |>) ;; mret Transactions
      end
  | Transactions | Transact _ | Committed _ => db_thread_run_transactions fuel pc
  | Reading => db_thread_read_newly_scheduled
  | Executing _ _ | Executed _ _ => db_thread_execute_queries pc
  | Deciding =>
      w ← get;
      match dt_executeQueue (w_thread w) with
      | [] => mret (if dt_shouldContinue (w_thread w) then Waiting else Stopped)
      | _ => mret Transactions
      end
  | Stopped => mret Stopped
  | Died => mret Died
  end.

Definition db_step (fuel : nat) : code World unit :=
  w ← get;
  pc ← db_thread_main_loop fuel (w_pc w);
  modify (λ w, w <| w_pc := pc |>).

(** ** The other threads' steps *)

(** The trigger follows in a step of its own. *)
Definition db_thread_schedule_query (query : Query) : code World unit :=
  upd_thread (λ t, t <| dt_inQueue := dt_inQueue t ++ [query] |>) ;;
  modify (λ w, w <| w_due := S (w_due w) |> <| w_scheduled := w_scheduled w ++ [ticket_of query] |>).
Definition db_thread_schedule_transaction (trans : Transaction) : code World unit :=
  upd_thread (λ t, t <| dt_inTransactionQueue := dt_inTransactionQueue t ++ [trans] |>) ;;
  modify (λ w, w <| w_due := S (w_due w) |>).
Definition db_schedule_transaction (userdata : Z) (callback queryCallback : option nat) : code World unit :=
  db_thread_schedule_transaction (mkTransaction userdata callback queryCallback).
Definition thread_trigger : code World unit :=
  modify (λ w, w <| w_due := Nat.pred (w_due w) |> <| w_thread := w_thread w <| dt_semaphore := (dt_semaphore (w_thread w) + (match w_due w with S _ => 1 | O => 0 end))%nat |> |>).
Definition thread_send_stop_signal : code World unit :=
  upd_thread (λ t, t <| dt_shouldContinue := false |>) ;;
  modify (λ w, w <| w_due := S (w_due w) |>).

(** One round of db_thread_execute_query_callbacks; what the callback itself
    schedules or reads are further steps. *)
Definition execute_query_callback : code World bool :=
  query ← gets (λ w, last (dt_outQueue (w_thread w)));
  match query with
  | Some query =>
      upd_thread (λ t, t <| dt_outQueue := removelast (dt_outQueue t) |>) ;;
      modify (λ w, w <| w_called := w_called w ++ [ticket_of query] |>) ;;
      mret true
  | None => mret false
  end.
Fixpoint db_thread_execute_query_callbacks (fuel : nat) : code World unit :=
  match fuel with
  | O => fault
  | S fuel => more ← execute_query_callback; if more : bool then db_thread_execute_query_callbacks fuel else mret tt
  end.

(** ** All of them, in any order *)
Inductive db_event :=
  | DbThreadRuns (fuel : nat)
  | Schedules (query : Query)
  | SchedulesTransaction (trans : Transaction)
  | Triggers
  | SendsStop
  | CallsBack
  | UsesDatabase (db : Database).

Definition db_event_code (e : db_event) : code World unit :=
  match e with
  | DbThreadRuns fuel => db_step fuel
  | Schedules query => db_thread_schedule_query query
  | SchedulesTransaction trans => db_thread_schedule_transaction trans
  | Triggers => thread_trigger
  | SendsStop => thread_send_stop_signal
  | CallsBack => _ ← execute_query_callback; mret tt
  | UsesDatabase db => modify (λ w, w <| w_database := db |>)
  end.

(** db_thread_init and thread_start_and_detach. *)
Definition started (db : Database) : World := mkWorld (mkDbThread [] [] [] [] 0 true) db Waiting 0 [] [] [] [] [].

Inductive db_reachable : World → Prop :=
  | db_starts db : db_reachable (started db)
  | db_steps w e w' : db_reachable w → db_event_code e w = (Ok tt, w') → db_reachable w'.
End DbThread.
