(* ===== verification/DbThreadSpec.v ===== *)
(** What the database thread promises to the processes: a query's callback is
    called at most once, and every query that is pending gets its answer; and
    where the promise ends: the order of transactions, transactions that fail,
    and queries that are scheduled before the thread is stopped. *)

From S2P Require Import Prelude Fields Text Servers Query DbThread.

Section Spec.
Context `{Sqlite} (transaction_code : nat → Z → code Database unit).
Abbreviation db_step := (db_step transaction_code).
Abbreviation db_event_code := (db_event_code transaction_code).
Abbreviation db_reachable := (db_reachable transaction_code).

(** ** Every query has its place *)
Definition in_hand (pc : db_pc) : list ticket := match pc with Committed q => [ticket_of q] | _ => [] end.
Definition queued (t : DbThread) : list Query := dt_inQueue t ++ dt_executeQueue t ++ dt_outQueue t.
Definition settled (w : World) : list ticket := w_called w ++ w_silent w ++ w_failed w.

(** The thread's position in its queue. *)
Definition pc_ok (w : World) : Prop :=
  match w_pc w with
  | Executing i n => (i ≤ n)%nat ∧ n = length (dt_executeQueue (w_thread w))
  | Executed i n => (i < n)%nat ∧ n = length (dt_executeQueue (w_thread w))
  | Waiting | Stopped => dt_executeQueue (w_thread w) = []
  | Committed q => query_has_callback q = true
  | _ => True
  end.

(** Past the place where a queue is emptied, what is in it has its trigger. *)
Definition signalled (w : World) : Prop := (0 < dt_semaphore (w_thread w) + w_due w)%nat.
Definition awake (w : World) : Prop :=
  match w_pc w with
  | Executing _ _ | Executed _ _ | Deciding | Waiting =>
      (dt_inQueue (w_thread w) ≠ [] → signalled w) ∧ (dt_inTransactionQueue (w_thread w) ≠ [] → signalled w)
  | Reading => dt_inTransactionQueue (w_thread w) ≠ [] → signalled w
  | _ => True
  end.

Record sound (w : World) : Prop := {
  so_accounted : w_scheduled w ≡ₚ (ticket_of <$> queued (w_thread w)) ++ in_hand (w_pc w) ++ settled w;
  so_out : Forall (λ q, query_has_callback q = true) (dt_outQueue (w_thread w));
  so_called : Forall (λ t, t.1.2 ≠ None) (w_called w);
  so_silent : Forall (λ t, t.1.2 = None) (w_silent w);
  so_pc : pc_ok w;
  so_awake : awake w;
}.

Lemma background_ticket q c r q' c' : query_execute_background (q, c) = (r, (q', c')) → ticket_of q' = ticket_of q ∧ q_database q' = q_database q.
Proof.
  unfold query_execute_background, step_query, sql_log, sql_error, upd_query, the_query, mbind, code_bind, gets, modify, fault, throw, mret, code_ret.
  destruct (q_stmt q) as [s|]; [destruct (sqlite3_step s c) as [[rc s1] c1]|]; cbn; repeat case_match; intros ?; simplify_eq; done.
Qed.

Lemma prepare_ok sql f q db q' db' : db_prepare sql f q db = (Ok q', db') →
  q_callback q' = (if f is Some _ then f else q_callback q) ∧ q_userdata q' = q_userdata q ∧ q_database q' = true.
Proof.
  unfold db_prepare. destruct (sqlite3_prepare_v2 sql (db_sqlite db)) as [[rc stmt] conn].
  case_match; intros Heq; simplify_eq. by destruct f.
Qed.

Lemma synchronus_ticket fuel q c r q' c' : query_execute_synchronus fuel (q, c) = (r, (q', c')) → ticket_of q' = ticket_of q.
Proof.
  revert q c. induction fuel as [|fuel IH]; intros q c; cbn [query_execute_synchronus]; [by intros [= _ <- _]|].
  unfold mbind, code_bind. destruct (query_execute_background (q, c)) as [r1 [q1 c1]] eqn:Hb. destruct (background_ticket _ _ _ _ _ Hb) as [<- _].
  destruct r1 as [[]|e|]; [by intros [= _ <- _]|apply IH|by intros [= _ <- _]..].
Qed.

Lemma run_synchronus_ok fuel q db q' c : query_execute_synchronus fuel (q, db_sqlite db) = (Ok tt, (q', c)) →
  run_synchronus fuel q db = (Ok q', mkDatabase c (db_nextQueryId db)).
Proof. intros Hr. unfold run_synchronus. by rewrite Hr. Qed.

Lemma run_transaction_callback fuel trans db q db' f : run_transaction transaction_code fuel trans db = (Ok q, db') →
  t_queryCallback trans = Some f → query_has_callback q = true.
Proof.
  intros Hr Hf. unfold run_transaction, run_statement in Hr. apply bind_inv in Hr as (q0 & db0 & _ & Hr). apply bind_inv in Hr as ([] & db1 & _ & Hr).
  apply bind_inv in Hr as (q1 & db2 & Hp & Hr). apply prepare_ok in Hp as (Hp & _). rewrite Hf in Hp.
  unfold run_synchronus in Hr. destruct (query_execute_synchronus fuel (q1, db_sqlite db2)) as [r [q2 c2]] eqn:Hs. apply synchronus_ticket in Hs.
  destruct r as [[]|e|]; cbn in Hr; simplify_eq. unfold query_has_callback. match goal with E : q_callback q = _ |- _ => by rewrite E, Hp end.
Qed.

Lemma started_sound db : sound (started db).
Proof. split; try done. Qed.

Lemma last_split {A} (l : list A) x : last l = Some x → l = removelast l ++ [x].
Proof. intros Hl. destruct l as [|y l] using rev_ind; [done|]. rewrite last_snoc in Hl. injection Hl as ->. by rewrite removelast_last. Qed.

(** The tickets of an execution queue whose element [i] goes elsewhere. *)
Lemma tickets_out (l : list Query) i q : l !! i = Some q → ticket_of <$> l ≡ₚ ticket_of q :: (ticket_of <$> swap_out i l).
Proof. intros Hi. by rewrite <- (swap_out_perm i l q Hi) at 1. Qed.
Lemma tickets_same (l : list Query) i q q' : l !! i = Some q → ticket_of q' = ticket_of q → ticket_of <$> <[i := q']> l = ticket_of <$> l.
Proof. intros Hi Hq. rewrite list_fmap_insert, Hq. apply list_insert_id. by rewrite list_lookup_fmap, Hi. Qed.

Ltac open_world w := destruct w as [[inq tq outq exq sem cont] db pc due sch cal sil fai trs].
Ltac parts := split; unfold pc_ok, awake, signalled; cbn; try done.
Ltac tickets := unfold queued, settled; cbn; rewrite ?fmap_app; cbn; solve_Permutation.

Lemma step_sound fuel w w' : sound w → db_step fuel w = (Ok tt, w') → sound w'.
Proof.
  intros [H1 H2 H3 H4 H5 H6]. open_world w. unfold pc_ok, awake, signalled in *. cbn in *.
  unfold DbThread.db_step, db_thread_main_loop, db_thread_run_transactions, db_thread_execute_queries, upd_thread. destruct pc as [| |trans|q| |i n|i n| | |]; run; cbn.
  - destruct sem as [|sem]; cbn; intros Heq; simplify_eq; parts.
  - unfold take_transaction, upd_thread. run; cbn. destruct (last tq) as [trans|] eqn:Hl; cbn; intros Heq; simplify_eq; parts.
    by apply last_None in Hl as ->.
  - unfold transact. run; cbn. destruct (run_transaction transaction_code fuel trans db) as [[q|e|] db'] eqn:Hr; cbn; [|intros Heq; simplify_eq; parts..].
    destruct (t_queryCallback trans) as [f|] eqn:Hf; cbn; intros Heq; simplify_eq; parts.
    + etrans; [by apply Permutation_app_tail|]. tickets.
    + by eapply run_transaction_callback.
  - unfold push_out, upd_thread. run; cbn. intros Heq; simplify_eq. parts.
    + etrans; [apply H1|]. tickets.
    + by apply Forall_app_2; [|constructor].
  - unfold db_thread_read_newly_scheduled, upd_thread. run; cbn. intros Heq; simplify_eq. parts.
    + etrans; [apply H1|]. tickets.
    + split; [lia|done].
  - unfold next_query. destruct H5 as [Hi ->]. destruct (Nat.ltb_spec i (length exq)) as [Hlt|_]; run; cbn.
    2: { intros Heq; simplify_eq; parts. }
    unfold query_at, execute_query. run; cbn. destruct (exq !! i) as [q|] eqn:Hq; cbn; [|done].
    destruct (query_execute_background (q, db_sqlite db)) as [r [q' c']] eqn:Hb. destruct (background_ticket _ _ _ _ _ Hb) as [Ht _].
    pose proof (tickets_same exq i q q' Hq Ht) as Hsame. pose proof (tickets_out exq i q Hq) as Hout. rewrite <- Ht in Hout.
    pose proof (swap_out_length i exq Hlt) as Hlen.
    destruct r as [[]|e|]; cbn; intros Heq; simplify_eq; parts; rewrite ?length_insert, ?Hlen; try lia; try done.
    + etrans; [apply H1|]. unfold queued, settled. cbn. rewrite !fmap_app, Hsame. done.
    + etrans; [apply H1|]. unfold queued, settled. cbn. rewrite !fmap_app, Hsame. done.
    + etrans; [apply H1|]. unfold queued, settled. cbn. rewrite !fmap_app, Hout. solve_Permutation.
  - destruct H5 as [Hi ->]. unfold hand_over, query_at, push_out, upd_thread. run; cbn.
    destruct (lookup_lt_is_Some_2 exq i Hi) as [q Hq]. rewrite Hq. pose proof (tickets_out exq i q Hq) as Hout. pose proof (swap_out_length i exq Hi) as Hlen.
    cbn. destruct (query_has_callback q) eqn:Hc; cbn; intros Heq; simplify_eq; parts; rewrite ?Hlen; try lia; try done.
    + etrans; [apply H1|]. unfold queued, settled. cbn. rewrite !fmap_app, Hout. cbn. solve_Permutation.
    + by apply Forall_app_2; [|constructor].
    + etrans; [apply H1|]. unfold queued, settled. cbn. rewrite !fmap_app, Hout. cbn. solve_Permutation.
    + apply Forall_app_2; [done|constructor; [|constructor]]. unfold query_has_callback in Hc. cbn. by destruct (q_callback q).
  - destruct exq as [|q exq]; cbn; intros Heq; simplify_eq; parts; by destruct cont.
  - intros Heq; simplify_eq; parts.
  - intros Heq; simplify_eq; parts.
Qed.

Lemma event_sound e w w' : sound w → db_event_code e w = (Ok tt, w') → sound w'.
Proof.
  intros Hs. destruct e as [fuel|q|trans| | | |db0]; cbn [DbThread.db_event_code]; [by apply step_sound|destruct Hs as [H1 H2 H3 H4 H5 H6]; open_world w..];
    unfold pc_ok, awake, signalled in *; cbn in *.
  - unfold db_thread_schedule_query, upd_thread. run; cbn. intros Heq; simplify_eq; parts.
    + etrans; [by apply Permutation_app_tail|]. tickets.
    + destruct pc; try done; try split; intros _; lia.
  - unfold db_thread_schedule_transaction, upd_thread. run; cbn. intros Heq; simplify_eq; parts. destruct pc; try done; try split; intros _; lia.
  - unfold thread_trigger. run; cbn. intros Heq; simplify_eq; parts.
    destruct due as [|due]; cbn; [by rewrite Nat.add_0_r|]. replace (sem + 1 + due)%nat with (sem + S due)%nat by lia. done.
  - unfold thread_send_stop_signal, upd_thread. run; cbn. intros Heq; simplify_eq; parts. destruct pc; try done; try split; intros _; lia.
  - unfold execute_query_callback, upd_thread. run; cbn. destruct (last outq) as [q|] eqn:Hl; cbn; intros Heq; simplify_eq; parts.
    + etrans; [apply H1|]. rewrite (last_split _ _ Hl) at 1. tickets.
    + rewrite (last_split _ _ Hl) in H2. by apply Forall_app in H2 as [H2 _].
    + apply Forall_app_2; [done|]. rewrite (last_split _ _ Hl) in H2. apply Forall_app in H2 as [_ H2]. inversion_clear H2 as [|? ? Hq _].
      constructor; [|constructor]. cbn. unfold query_has_callback in Hq. by destruct (q_callback q).
  - run; cbn. intros Heq; simplify_eq; parts.
Qed.

Lemma db_reachable_sound w : db_reachable w → sound w.
Proof. induction 1; [apply started_sound|by eapply event_sound]. Qed.

(** ** What a step of the thread leaves as it is *)
Definition prepared (w : World) : Prop := Forall (λ q, q_database q = true) (dt_inQueue (w_thread w) ++ dt_executeQueue (w_thread w)).
Definition transacting (pc : db_pc) : list Transaction := match pc with Transact trans => [trans] | _ => [] end.
(** The transactions that were committed or are to be. *)
Definition wanted (w : World) : list Transaction := dt_inTransactionQueue (w_thread w) ++ transacting (w_pc w) ++ w_transactions w.

Record follows (w w' : World) : Prop := {
  fo_prepared : prepared w → prepared w';
  fo_continue : dt_shouldContinue (w_thread w') = dt_shouldContinue (w_thread w);
  fo_due : w_due w' = w_due w;
  fo_scheduled : w_scheduled w `prefix_of` w_scheduled w';
  fo_wanted : w_pc w' ≠ Died → wanted w' ≡ₚ wanted w;
}.

Lemma follows_refl w : follows w w.
Proof. by split. Qed.
Lemma follows_trans w w1 w2 : (w_pc w2 ≠ Died → w_pc w1 ≠ Died) → follows w w1 → follows w1 w2 → follows w w2.
Proof.
  intros Hpc [A1 A2 A3 A4 A5] [B1 B2 B3 B4 B5]. split; [auto|congruence..|by etrans|]. intros Hd. etrans; [by apply B5|]. by apply A5, Hpc.
Qed.

Lemma forall_swap_out {A} (P : A → Prop) i l : Forall P l → Forall P (swap_out i l).
Proof.
  intros Hl. destruct (l !! i) as [x|] eqn:Hi.
  - rewrite <- (swap_out_perm i l x Hi) in Hl. by inversion Hl.
  - unfold swap_out. destruct (last l); [|done]. apply lookup_ge_None in Hi. by rewrite (proj2 (Nat.ltb_ge _ _)).
Qed.

Ltac kept := split; unfold prepared, wanted; cbn; try done.

Lemma step_follows fuel w w' : db_step fuel w = (Ok tt, w') → follows w w'.
Proof.
  open_world w. unfold DbThread.db_step, db_thread_main_loop, db_thread_run_transactions, db_thread_execute_queries, upd_thread. destruct pc as [| |trans|q| |i n|i n| | |]; run; cbn.
  - destruct sem as [|sem]; cbn; intros Heq; simplify_eq; kept.
  - unfold take_transaction, upd_thread. run; cbn. destruct (last tq) as [trans|] eqn:Hl; cbn; intros Heq; simplify_eq; kept.
    intros _. unfold wanted. cbn. rewrite (last_split _ _ Hl) at 2. by rewrite <- app_assoc.
  - unfold transact. run; cbn. destruct (run_transaction transaction_code fuel trans db) as [[q|e|] db'] eqn:Hr; cbn; [|intros Heq; simplify_eq; kept..].
    destruct (t_queryCallback trans) as [f|] eqn:Hf; cbn; intros Heq; simplify_eq; kept; cbn; [by eexists|..];
      intros _; unfold wanted; cbn; solve_Permutation.
  - unfold push_out, upd_thread. run; cbn. intros Heq; simplify_eq. kept.
  - unfold db_thread_read_newly_scheduled, upd_thread. run; cbn. intros Heq; simplify_eq. kept.
    unfold prepared. cbn. intros Hp. by rewrite (Permutation_app_comm exq inq).
  - unfold next_query. destruct (i <? n)%nat; run; cbn; [|intros Heq; simplify_eq; kept].
    unfold query_at, execute_query. run; cbn. destruct (exq !! i) as [q|] eqn:Hq; cbn; [|done].
    destruct (query_execute_background (q, db_sqlite db)) as [r [q' c']] eqn:Hb. destruct (background_ticket _ _ _ _ _ Hb) as [_ Ht].
    destruct r as [[]|e|]; cbn; intros Heq; simplify_eq; kept; rewrite !Forall_app; intros [Hin He]; kept.
    1,2: apply Forall_insert; [done|]; rewrite Ht; exact (Forall_lookup_1 _ _ _ _ He Hq).
    by apply forall_swap_out.
  - unfold hand_over, query_at, push_out, upd_thread. run; cbn. destruct (exq !! i) as [q|] eqn:Hq; cbn; [|done].
    destruct (query_has_callback q) eqn:Hc; cbn; intros Heq; simplify_eq; kept; rewrite !Forall_app;
      intros [Hin He]; kept; by apply forall_swap_out.
  - destruct exq as [|q exq]; cbn; intros Heq; simplify_eq; kept; by destruct cont.
  - intros Heq; simplify_eq; kept.
  - intros Heq; simplify_eq; kept.
Qed.

(** ** The thread catches up *)
Definition goes (w w' : World) : Prop := ∃ fuels, each fuels db_step w = (Ok tt, w').

Lemma goes_refl w : goes w w.
Proof. by exists []. Qed.
Lemma goes_step fuel w w1 w' : db_step fuel w = (Ok tt, w1) → goes w1 w' → goes w w'.
Proof. intros Hs [fuels Hg]. exists (fuel :: fuels). cbn [each]. by rewrite (bind_ok _ _ _ _ _ Hs). Qed.
Lemma goes_trans w w1 w2 : goes w w1 → goes w1 w2 → goes w w2.
Proof.
  intros [fuels Hg] H2. revert w Hg. induction fuels as [|fuel fuels IH]; intros w Hg; [by injection Hg as ->|].
  cbn [each] in Hg. apply bind_inv in Hg as ([] & w3 & Hs & Hg). eapply goes_step; [done|]. by apply IH.
Qed.
Lemma goes_ind (P : World → Prop) w w' : (∀ fuel w w', P w → db_step fuel w = (Ok tt, w') → P w') → goes w w' → P w → P w'.
Proof.
  intros HP [fuels Hg]. revert w Hg. induction fuels as [|fuel fuels IH]; intros w Hg Hw; [by injection Hg as <-|].
  cbn [each] in Hg. apply bind_inv in Hg as ([] & w3 & Hs & Hg). eauto.
Qed.

Section Live.
Context (busy : connection → nat).
(** The database is not busy for ever ([busy] counts how often it still will be),
    and the code of a transaction comes back, with an exception or without. *)
Hypothesis busy_ends : ∀ s c rc s' c', sqlite3_step s c = (rc, s', c') → (busy c' ≤ busy c)%nat ∧ (rc = SQLITE_BUSY → (busy c' < busy c)%nat).
Hypothesis prepare_busy : ∀ sql c rc stmt c', sqlite3_prepare_v2 sql c = (rc, stmt, c') → (busy c' ≤ busy c)%nat.
Hypothesis code_returns : ∀ f userdata db r db', transaction_code f userdata db = (r, db') →
  r ≠ Fault ∧ (busy (db_sqlite db') ≤ busy (db_sqlite db))%nat.

Lemma background_busy q c r q' c' : q_database q = true → query_execute_background (q, c) = (r, (q', c')) →
  r ≠ Fault ∧ (busy c' ≤ busy c)%nat ∧ (r = Ok false → (busy c' < busy c)%nat).
Proof.
  intros Hdb. destruct (q_stmt q) as [s|] eqn:Hst.
  - assert (Hq : q = on_stmt s q) by (destruct q; cbn in Hst; by subst). rewrite Hq.
    destruct (sqlite3_step s c) as [[rc s1] c1] eqn:Hs. rewrite (background_ok _ _ _ _ _ _ Hs Hdb). apply busy_ends in Hs as [Hle Hlt].
    repeat case_match; intros ?; simplify_eq; split_and!; try done. intros _. apply Hlt. by apply Z.eqb_eq.
  - unfold query_execute_background, step_query, sql_error, the_query. run. rewrite Hst. cbn. rewrite Hdb. intros ?; simplify_eq. split_and!; done.
Qed.
(** A transaction returns or throws: each of its statements is repeated while the
    database is busy, and no longer. *)
Lemma synchronus_returns fuel : ∀ q c r q' c', q_database q = true → (busy c < fuel)%nat →
  query_execute_synchronus fuel (q, c) = (r, (q', c')) → r ≠ Fault ∧ (busy c' ≤ busy c)%nat.
Proof.
  induction fuel as [|fuel IH]; intros q c r q' c' Hq Hf; [lia|]. cbn [query_execute_synchronus]. unfold mbind, code_bind.
  destruct (query_execute_background (q, c)) as [r1 [q1 c1]] eqn:Hb. destruct (background_busy _ _ _ _ _ Hq Hb) as (Hr & Hle & Hlt).
  destruct r1 as [[]|e|]; [by intros [= <- _ <-]| |by intros [= <- _ <-]|done].
  intros He. apply IH in He as [? ?]; [split; [done|lia]| |specialize (Hlt eq_refl); lia].
  destruct (background_ticket _ _ _ _ _ Hb) as [_ Hd]. by rewrite Hd.
Qed.

(** [f] comes back and leaves the database no busier. *)
Definition returns {A} (fuel : nat) (f : code Database A) : Prop := ∀ db r db', (busy (db_sqlite db) < fuel)%nat → f db = (r, db') →
  r ≠ Fault ∧ (busy (db_sqlite db') ≤ busy (db_sqlite db))%nat.

Lemma returns_bind {A B} fuel (m : code Database A) (f : A → code Database B) :
  returns fuel m → (∀ a, returns fuel (f a)) → returns fuel (m ≫= f).
Proof.
  intros Hm Hf db r db' Hb. unfold mbind, code_bind. destruct (m db) as [r1 db1] eqn:He. destruct (Hm _ _ _ Hb He) as [Hr Hle].
  destruct r1 as [a|e|]; [|by intros [= <- <-]|done]. intros He2. destruct (Hf a db1 r db' ltac:(lia) He2) as [? ?]. split; [done|lia].
Qed.

Lemma statement_returns fuel sql f q : returns fuel (run_statement fuel sql f q).
Proof.
  intros db r db' Hb. unfold run_statement, mbind, code_bind. destruct (db_prepare sql f q db) as [r1 db1] eqn:Hp.
  assert (H1 : r1 ≠ Fault ∧ (busy (db_sqlite db1) ≤ busy (db_sqlite db))%nat).
  { revert Hp. unfold db_prepare. destruct (sqlite3_prepare_v2 sql (db_sqlite db)) as [[rc stmt] conn] eqn:Hs. apply prepare_busy in Hs.
    destruct (rc =? SQLITE_OK); by intros [= <- <-]. }
  destruct H1 as [H1 Hle]. destruct r1 as [q1|e|]; [|by intros [= <- <-]|done].
  apply prepare_ok in Hp as (_ & _ & Hdb). unfold run_synchronus.
  destruct (query_execute_synchronus fuel (q1, db_sqlite db1)) as [r2 [q2 c2]] eqn:Hs.
  apply synchronus_returns in Hs as [Hr2 Hle2]; [|done|lia]. intros [= <- <-]. cbn. split; [by destruct r2|lia].
Qed.

Lemma transaction_returns trans db : ∃ r db', run_transaction transaction_code (S (busy (db_sqlite db))) trans db = (r, db') ∧
  r ≠ Fault ∧ (busy (db_sqlite db') ≤ busy (db_sqlite db))%nat.
Proof.
  set (fuel := S (busy (db_sqlite db))). assert (Hret : returns fuel (run_transaction transaction_code fuel trans)).
  { unfold run_transaction. apply returns_bind; [apply statement_returns|]. intros _. apply returns_bind; [|intros _; apply statement_returns].
    destruct (t_callback trans) as [f|]; [|by intros db0 r db' _ [= <- <-]]. intros db0 r db' _. apply code_returns. }
  destruct (run_transaction transaction_code fuel trans db) as [r db'] eqn:He. exists r, db'. split; [done|].
  apply (Hret db r db'); [unfold fuel; lia|done].
Qed.

Record live (w : World) : Prop := {
  lv_sound : sound w;
  lv_prepared : prepared w;
  lv_continue : dt_shouldContinue (w_thread w) = true;
  lv_due : w_due w = 0%nat;
}.
Lemma live_step fuel w w' : live w → db_step fuel w = (Ok tt, w') → live w'.
Proof.
  intros [H1 H2 H3 H4] Hs. destruct (step_follows _ _ _ Hs) as [F1 F2 F3 _ _]. split; [by eapply step_sound|auto|congruence..].
Qed.

Definition busy_of (w : World) : nat := busy (db_sqlite (w_database w)).
Definition semaphore_of (w : World) : nat := dt_semaphore (w_thread w).
Definition backlog (w : World) : nat := length (dt_inTransactionQueue (w_thread w)).

(** From [w] on, some transaction throws, and the thread with it, which ends in [w']. *)
Definition dies (w w' : World) : Prop := ∃ w1 trans fuel e db', goes w w1 ∧ w_pc w1 = Transact trans ∧
  run_transaction transaction_code fuel trans (w_database w1) = (Throw e, db') ∧ db_step fuel w1 = (Ok tt, w') ∧ w_pc w' = Died.

Lemma dies_later w w1 w' : goes w w1 → dies w1 w' → dies w w'.
Proof. intros Hg (w2 & trans & fuel & e & db' & Hg2 & Hrest). exists w2, trans, fuel, e, db'. split; [by eapply goes_trans|done]. Qed.

(** Where the thread goes next. *)
Definition next (w w1 : World) : Prop :=
  match w_pc w with
  | Waiting => semaphore_of w = 0%nat ∨ semaphore_of w = S (semaphore_of w1) ∧ w_pc w1 = Transactions
  | pc => semaphore_of w1 = semaphore_of w ∧
      match pc with
      | Transactions => w_pc w1 = Reading ∨ (∃ trans, w_pc w1 = Transact trans) ∧ backlog w = S (backlog w1)
      | Transact _ => backlog w1 = backlog w ∧ (w_pc w1 = Transactions ∨ ∃ q, w_pc w1 = Committed q)
      | Committed _ => backlog w1 = backlog w ∧ w_pc w1 = Transactions
      | Reading => ∃ n, w_pc w1 = Executing 0 n
      | Executing i n =>
          i = n ∧ w_pc w1 = Deciding ∧ dt_executeQueue (w_thread w1) = dt_executeQueue (w_thread w) ∨
          (i < n)%nat ∧ (w_pc w1 = Executed i n ∨ w_pc w1 = Executing i (n - 1) ∨ w_pc w1 = Executing (S i) n ∧ (busy_of w1 < busy_of w)%nat)
      | Executed i n => (i < n)%nat ∧ w_pc w1 = Executing i (n - 1)
      | Deciding =>
          dt_executeQueue (w_thread w) = [] ∧ w_pc w1 = Waiting ∨ dt_executeQueue (w_thread w) ≠ [] ∧ w_pc w1 = Transactions
      | _ => True
      end
  end.

Lemma throws_or_not w : (∃ w', dies w w') ∨ ∀ trans, w_pc w = Transact trans →
  ∃ fuel q db', run_transaction transaction_code fuel trans (w_database w) = (Ok q, db') ∧ (busy (db_sqlite db') ≤ busy_of w)%nat.
Proof.
  destruct (w_pc w) as [| |trans| | | | | | |] eqn:Hpc; try (by right).
  destruct (transaction_returns trans (w_database w)) as (r & db' & Hr & Hf & Hb). destruct r as [q|e|]; [| |done].
  - right. intros trans' [= <-]. by eexists _, q, db'.
  - left. eexists. exists w, trans, (S (busy (db_sqlite (w_database w)))), e, db'. split_and!; [apply goes_refl|done|done|..].
    + unfold DbThread.db_step, db_thread_main_loop, db_thread_run_transactions, transact. rewrite (bind_ok get _ w w w eq_refl), Hpc.
      rewrite (bind_ok _ _ w Died (w <| w_database := db' |>)) by (by rewrite Hr). reflexivity.
    + done.
Qed.

Ltac goes_on n := exists n; eexists; split; [reflexivity|]; unfold busy_of, semaphore_of, backlog; cbn; split; [lia|].

Lemma progress w : live w → w_pc w ≠ Stopped → w_pc w ≠ Died →
  (∃ w', dies w w') ∨ ∃ fuel w1, db_step fuel w = (Ok tt, w1) ∧ (busy_of w1 ≤ busy_of w)%nat ∧ next w w1.
Proof.
  intros [[_ _ _ _ Hpc _] Hp Hc _] Hns Hnd. destruct (throws_or_not w) as [Hdie|Hok]; [by left|right]. open_world w. unfold pc_ok, prepared in *. cbn in *. subst cont.
  unfold DbThread.db_step, db_thread_main_loop, db_thread_run_transactions, db_thread_execute_queries, upd_thread, next. destruct pc as [| |trans|q| |i n|i n| | |]; run; cbn; try done.
  - destruct sem as [|sem]; goes_on 0%nat; auto.
  - unfold take_transaction, upd_thread. run; cbn. destruct (last tq) as [trans|] eqn:Hl; goes_on 0%nat; split; try done; auto.
    right. split; [by eexists|]. rewrite (last_split _ _ Hl) at 1. rewrite length_app. cbn. lia.
  - destruct (Hok trans eq_refl) as (fuel & q & db' & Hr & Hb). unfold busy_of in Hb. cbn in Hb, Hr. exists fuel. unfold transact. run; cbn. rewrite Hr.
    destruct (t_queryCallback trans) as [f|] eqn:Hf; eexists; (split; [reflexivity|]); unfold busy_of, semaphore_of, backlog; cbn;
      (split; [lia|]); split_and!; try done; auto. right. by eexists.
  - unfold push_out, upd_thread. run; cbn. by goes_on 0%nat.
  - unfold db_thread_read_newly_scheduled, upd_thread. run; cbn. goes_on 0%nat. split; [done|]. by eexists.
  - destruct Hpc as [Hi ->]. unfold next_query. destruct (Nat.ltb_spec i (length exq)) as [Hlt|Hge]; run; cbn.
    2: { goes_on 0%nat. split; [done|]. left. split_and!; [lia|done..]. }
    unfold query_at, execute_query. run; cbn. destruct (lookup_lt_is_Some_2 exq i Hlt) as [q Hq]. rewrite Hq. cbn.
    assert (Hdb : q_database q = true). { apply Forall_app in Hp as [_ Hp]. exact (Forall_lookup_1 _ _ _ _ Hp Hq). }
    destruct (query_execute_background (q, db_sqlite db)) as [r [q' c']] eqn:Hb. destruct (background_busy _ _ _ _ _ Hdb Hb) as (Hr & Hle & Hbusy).
    destruct r as [[]|e|]; [| | |done]; goes_on 0%nat; (split; [done|]); right; (split; [done|]); auto 6.
  - destruct Hpc as [Hi ->]. unfold hand_over, query_at, push_out, upd_thread. run; cbn.
    destruct (lookup_lt_is_Some_2 exq i Hi) as [q Hq]. rewrite Hq. cbn. destruct (query_has_callback q); goes_on 0%nat; done.
  - destruct exq as [|q exq]; goes_on 0%nat; split; auto.
Qed.

(** From [w] the thread gets to a place [P] without using its semaphore, or a
    transaction throws. *)
Definition gets_to (P : World → Prop) (w : World) : Prop :=
  (∃ w', dies w w') ∨ ∃ w', goes w w' ∧ live w' ∧ semaphore_of w' = semaphore_of w ∧ (busy_of w' ≤ busy_of w)%nat ∧ P w'.

Lemma gets_to_here (P : World → Prop) w : live w → P w → gets_to P w.
Proof. intros Hw HP. right. exists w. split_and!; try done. apply goes_refl. Qed.
Lemma gets_to_later (P : World → Prop) fuel w w1 : live w1 → db_step fuel w = (Ok tt, w1) → semaphore_of w1 = semaphore_of w → (busy_of w1 ≤ busy_of w)%nat →
  gets_to P w1 → gets_to P w.
Proof.
  intros Hw1 Hs Hsem Hb [[w' Hd]|(w' & Hg & Hw' & Hsem' & Hb' & HP)]; [left|right]; exists w'.
  - eapply dies_later; [|done]. eapply goes_step; [done|apply goes_refl].
  - split_and!; [by eapply goes_step|done|congruence|lia|done].
Qed.
Lemma gets_to_then (P Q : World → Prop) w : gets_to P w → (∀ w', live w' → (busy_of w' ≤ busy_of w)%nat → P w' → gets_to Q w') → gets_to Q w.
Proof.
  intros [Hd|(w1 & Hg & Hw1 & Hs & Hb & HP)] HQ; [by left|].
  destruct (HQ w1 Hw1 Hb HP) as [[w2 Hd]|(w2 & Hg2 & Hw2 & Hs2 & Hb2 & HQ2)]; [left; exists w2; by eapply dies_later|].
  right. exists w2. split_and!; [by eapply goes_trans|done|congruence|lia|done].
Qed.

(** The next step, and what is left to show after it; where a transaction throws,
    the goal allows for it. *)
Ltac step_on w Hpc w1 :=
  match goal with Hw : live w |- _ =>
  let fuel := fresh "fuel" in let Hs := fresh "Hs" in let Hb := fresh "Hb" in let Hn := fresh "Hn" in
  destruct (progress w Hw ltac:(by rewrite Hpc) ltac:(by rewrite Hpc)) as [Hdie|(fuel & w1 & Hs & Hb & Hn)]; [by left|];
  unfold next in Hn; rewrite Hpc in Hn; pose proof (live_step _ _ _ Hw Hs) end.

(** All pending queries are executed, or some were busy. *)
Lemma execution_ends m : ∀ w i n, live w → w_pc w = Executing i n → (n - i ≤ m)%nat →
  gets_to (λ w', w_pc w' = Deciding ∧ (dt_executeQueue (w_thread w') = [] ∨ (0 < i)%nat ∨ (busy_of w' < busy_of w)%nat)) w.
Proof.
  induction m as [|m IH]; intros w i n Hw Hpc Hm; step_on w Hpc w1; destruct Hn as [Hsem Hn];
    destruct Hn as [(-> & Hpc1 & He)|[Hlt Hn]]; try lia;
    [eapply gets_to_later; [done..|]; apply gets_to_here; [done|]; split; [done|];
     pose proof (so_pc _ (lv_sound _ Hw)) as Hok; unfold pc_ok in Hok; rewrite Hpc in Hok; destruct Hok as [_ Hlen];
     destruct n as [|n]; [left; rewrite He; by apply nil_length_inv|right; left; lia]..|].
  destruct Hn as [Hpc1|[Hpc1|[Hpc1 Hlt1]]].
  - eapply gets_to_later; [done..|]. step_on w1 Hpc1 w2. destruct Hn as (Hsem2 & _ & Hpc2). eapply gets_to_later; [done..|].
    eapply gets_to_then; [by apply (IH w2 i (n - 1)%nat); [|done|lia]|]. intros w3 Hw3 Hb3 [Hd He]. apply gets_to_here; [done|]. split; [done|].
    destruct He as [|[|]]; auto. right; right. lia.
  - eapply gets_to_later; [done..|]. eapply gets_to_then; [by apply (IH w1 i (n - 1)%nat); [|done|lia]|]. intros w3 Hw3 Hb3 [Hd He].
    apply gets_to_here; [done|]. split; [done|]. destruct He as [|[|]]; auto. right; right. lia.
  - eapply gets_to_later; [done..|]. eapply gets_to_then; [by apply (IH w1 (S i) n); [|done|lia]|]. intros w3 Hw3 Hb3 [Hd He].
    apply gets_to_here; [done|]. split; [done|]. right; right. lia.
Qed.

Lemma transactions_end m : ∀ w, live w → w_pc w = Transactions → (backlog w ≤ m)%nat → gets_to (λ w', w_pc w' = Reading) w.
Proof.
  induction m as [|m IH]; intros w Hw Hpc Hm; step_on w Hpc w1; destruct Hn as [Hsem [Hpc1|[[trans Hpc1] Hl]]]; try lia;
    [by eapply gets_to_later; [done..|]; apply gets_to_here..|].
  eapply gets_to_later; [done..|]. step_on w1 Hpc1 w2. destruct Hn as (Hsem2 & Hl2 & Hpc2). eapply gets_to_later; [done..|].
  destruct Hpc2 as [Hpc2|[q Hpc2]]; [by apply IH; [|done|lia]|].
  step_on w2 Hpc2 w3. destruct Hn as (Hsem3 & Hl3 & Hpc3). eapply gets_to_later; [done..|]. by apply IH; [|done|lia].
Qed.
Lemma round_ends b : ∀ w, live w → w_pc w = Transactions → (busy_of w ≤ b)%nat → gets_to (λ w', w_pc w' = Waiting) w.
Proof.
  induction b as [|b IH]; intros w Hw Hpc Hb; (eapply gets_to_then; [by eapply transactions_end|]); intros w1 Hw1 Hb1 Hpc1;
    step_on w1 Hpc1 w2; destruct Hn as [Hsem [n Hpc2]]; (eapply gets_to_later; [done..|]);
    (eapply gets_to_then; [by eapply execution_ends|]); intros w3 Hw3 Hb3 [Hpc3 He]; step_on w3 Hpc3 w4;
    destruct Hn as [Hsem3 [[_ Hpc4]|[Hne Hpc4]]]; (eapply gets_to_later; [done..|]);
    try (by apply gets_to_here); (destruct He as [He|[He|He]]; [done|lia|]); [lia|].
  apply IH; [done..|lia].
Qed.

Lemma deciding_ends w : live w → w_pc w = Deciding → gets_to (λ w', w_pc w' = Waiting) w.
Proof.
  intros Hw Hpc. step_on w Hpc w1. destruct Hn as [Hsem [[_ Hpc1]|[_ Hpc1]]]; (eapply gets_to_later; [done..|]); [by apply gets_to_here|by eapply round_ends].
Qed.
Lemma executing_ends w i n : live w → w_pc w = Executing i n → gets_to (λ w', w_pc w' = Waiting) w.
Proof. intros Hw Hpc. eapply gets_to_then; [by eapply execution_ends|]. intros w1 Hw1 _ [Hpc1 _]. by apply deciding_ends. Qed.

Lemma gets_to_waiting w : live w → w_pc w ≠ Stopped → w_pc w ≠ Died → gets_to (λ w', w_pc w' = Waiting) w.
Proof.
  intros Hw Hns Hnd. destruct (w_pc w) as [| |trans|q| |i n|i n| | |] eqn:Hpc; [|..|done|done].
  - by apply gets_to_here.
  - by eapply round_ends.
  - step_on w Hpc w1. destruct Hn as (Hsem & _ & [Hpc1|[q Hpc1]]); (eapply gets_to_later; [done..|]); [by eapply round_ends|].
    step_on w1 Hpc1 w2. destruct Hn as (Hsem2 & _ & Hpc2). eapply gets_to_later; [done..|]. by eapply round_ends.
  - step_on w Hpc w1. destruct Hn as (Hsem & _ & Hpc1). eapply gets_to_later; [done..|]. by eapply round_ends.
  - step_on w Hpc w1. destruct Hn as [Hsem [n Hpc1]]. eapply gets_to_later; [done..|]. by eapply executing_ends.
  - by eapply executing_ends.
  - step_on w Hpc w1. destruct Hn as (Hsem & _ & Hpc1). eapply gets_to_later; [done..|]. by eapply executing_ends.
  - by apply deciding_ends.
Qed.

Lemma semaphore_empties k : ∀ w, live w → w_pc w = Waiting → semaphore_of w = k →
  (∃ w', dies w w') ∨ ∃ w', goes w w' ∧ live w' ∧ w_pc w' = Waiting ∧ semaphore_of w' = 0%nat.
Proof.
  induction k as [|k IH]; intros w Hw Hpc Hk; [right; exists w; split_and!; try done; apply goes_refl|].
  step_on w Hpc w1. destruct Hn as [Hn|[Hn Hpc1]]; [lia|].
  assert (Hg1 : goes w w1) by (eapply goes_step; [done|apply goes_refl]).
  destruct (round_ends _ w1 ltac:(done) Hpc1 (le_n _)) as [[w2 Hd]|(w2 & Hg & Hw2 & Hsem & _ & Hpc2)];
    [left; exists w2; by eapply dies_later|].
  destruct (IH w2 Hw2 Hpc2 ltac:(lia)) as [[w3 Hd]|(w3 & Hg3 & Hw3 & Hpc3 & Hsem3)];
    [left; exists w3; eapply dies_later; [|done]; by eapply goes_trans|].
  right. exists w3. split_and!; [|done..]. eapply goes_step; [done|]. by eapply goes_trans.
Qed.

Lemma quiet w : live w → w_pc w = Waiting → semaphore_of w = 0%nat →
  dt_inQueue (w_thread w) = [] ∧ dt_inTransactionQueue (w_thread w) = [] ∧ dt_executeQueue (w_thread w) = [].
Proof.
  intros [[_ _ _ _ Hok Hawake] _ _ Hdue] Hpc Hsem. unfold pc_ok, awake, signalled, semaphore_of in *. rewrite Hpc in Hok, Hawake. rewrite Hsem, Hdue in Hawake.
  destruct Hawake as [H1 H2]. split_and!; [..|done].
  - destruct (dt_inQueue (w_thread w)); [done|]. specialize (H1 ltac:(done)). lia.
  - destruct (dt_inTransactionQueue (w_thread w)); [done|]. specialize (H2 ltac:(done)). lia.
Qed.

Definition answered (w : World) : World :=
  w <| w_called := w_called w ++ (ticket_of <$> reverse (dt_outQueue (w_thread w))) |> <| w_thread := w_thread w <| dt_outQueue := [] |> |>.

#[local] Arguments reverse : simpl never.
Lemma callbacks_unfold fuel w : db_thread_execute_query_callbacks (S fuel) w =
  match last (dt_outQueue (w_thread w)) with
  | Some q => db_thread_execute_query_callbacks fuel (w <| w_thread := w_thread w <| dt_outQueue := removelast (dt_outQueue (w_thread w)) |> |>
      <| w_called := w_called w ++ [ticket_of q] |>)
  | None => (Ok tt, w)
  end.
Proof. cbn [db_thread_execute_query_callbacks]. unfold execute_query_callback, upd_thread. run. by destruct (last (dt_outQueue (w_thread w))). Qed.

Lemma callbacks_ok l : ∀ w, dt_outQueue (w_thread w) = l → db_thread_execute_query_callbacks (S (length l)) w = (Ok tt, answered w).
Proof.
  induction l as [|q l IH] using rev_ind; intros w Hl; rewrite callbacks_unfold, Hl.
  - open_world w. cbn in Hl. subst outq. unfold answered. cbn. by rewrite app_nil_r.
  - rewrite last_snoc, removelast_last, length_app, Nat.add_1_r, IH by done. open_world w. cbn in Hl. subst outq.
    unfold answered. cbn. rewrite reverse_snoc. cbn. by rewrite <- app_assoc.
Qed.

Lemma died_stays fuel w w' : db_step fuel w = (Ok tt, w') → w_pc w = Died → w' = w.
Proof. intros Hs Hpc. open_world w. cbn in Hpc. subst pc. cbn in Hs. by injection Hs as <-. Qed.

Lemma goes_follows w w' : goes w w' → follows w w'.
Proof.
  intros Hg. eapply (goes_ind (follows w)); [|exact Hg|apply follows_refl]. intros fuel w1 w2 Hw1 Hs. eapply follows_trans; [|done|by eapply step_follows].
  intros Hd Hd1. pose proof (died_stays _ _ _ Hs Hd1). by subst w2.
Qed.

Lemma goes_on_to_rest w : live w → w_pc w ≠ Stopped → w_pc w ≠ Died →
  (∃ w', dies w w') ∨ ∃ w', goes w w' ∧ live w' ∧ w_pc w' = Waiting ∧ semaphore_of w' = 0%nat.
Proof.
  intros Hl Hs Hd. destruct (gets_to_waiting w Hl Hs Hd) as [?|(w0 & Hg0 & Hl0 & _ & _ & Hpc0)]; [by left|].
  destruct (semaphore_empties _ w0 Hl0 Hpc0 eq_refl) as [[w' Hdie]|(w1 & Hg1 & Hrest)]; [left; exists w'; by eapply dies_later|].
  right. exists w1. split; [by eapply goes_trans|done].
Qed.

Lemma dies_wanted w w' : dies w w' → ∃ fuels w1 fuel trans e db' w2, each fuels db_step w = (Ok tt, w1) ∧ w_pc w1 = Transact trans ∧
  trans ∈ wanted w ∧ run_transaction transaction_code fuel trans (w_database w1) = (Throw e, db') ∧ db_step fuel w1 = (Ok tt, w2) ∧ w_pc w2 = Died.
Proof.
  intros (w1 & trans & fuel & e & db' & Hg & Hpc & Hr & Hst & Hdied). pose proof (fo_wanted _ _ (goes_follows _ _ Hg)) as Hwant.
  rewrite Hpc in Hwant. specialize (Hwant ltac:(done)). destruct Hg as [fuels Hg]. exists fuels, w1, fuel, trans, e, db', w'.
  split_and!; try done. rewrite <- Hwant. unfold wanted. rewrite Hpc. set_solver.
Qed.

End Live.

(** C11: Whatever the threads do, in any order, a query is in one place: in one
    of the queues, in the database thread's hands, or settled. No callback is
    called twice, only callbacks of queries that were scheduled are called, and
    those without one are not handed back. *)
Theorem queries_are_settled_once (w : World) (Hw : db_reachable w) :
  w_scheduled w ≡ₚ (ticket_of <$> queued (w_thread w)) ++ in_hand (w_pc w) ++ w_called w ++ w_silent w ++ w_failed w ∧
  (NoDup (w_scheduled w) → NoDup (w_called w)) ∧ (∀ t, t ∈ w_called w → t ∈ w_scheduled w ∧ t.1.2 ≠ None) ∧
  Forall (λ q, query_has_callback q = true) (dt_outQueue (w_thread w)).
Proof.
  destruct (db_reachable_sound w Hw) as [H1 H2 H3 _ _ _]. unfold settled in H1. split_and!; try done.
  - rewrite H1, !NoDup_app. tauto.
  - intros t Ht. split; [rewrite H1; set_solver|]. rewrite Forall_forall in H3. by apply H3.
Qed.

(** ** Where the promise ends *)
Definition ended (w : World) : Prop := w_pc w = Stopped ∨ w_pc w = Died.

Lemma ended_keeps e w w' : ended w → db_event_code e w = (Ok tt, w') →
  ended w' ∧ dt_inQueue (w_thread w) `prefix_of` dt_inQueue (w_thread w') ∧
  dt_inTransactionQueue (w_thread w) `prefix_of` dt_inTransactionQueue (w_thread w') ∧ w_transactions w' = w_transactions w.
Proof.
  unfold ended. intros He. open_world w. destruct e as [fuel|q|trans| | | |db0]; cbn [DbThread.db_event_code]; cbn in He.
  - unfold DbThread.db_step. destruct He as [-> | ->]; run; cbn; intros Heq; simplify_eq; cbn; auto.
  - unfold db_thread_schedule_query, upd_thread. run; cbn. intros Heq; simplify_eq; cbn. split_and!; try done. by eexists.
  - unfold db_thread_schedule_transaction, upd_thread. run; cbn. intros Heq; simplify_eq; cbn. split_and!; try done. by eexists.
  - unfold thread_trigger. run; cbn. by intros Heq; simplify_eq.
  - unfold thread_send_stop_signal, upd_thread. run; cbn. by intros Heq; simplify_eq.
  - unfold execute_query_callback, upd_thread. run; cbn. by destruct (last outq); cbn; intros Heq; simplify_eq.
  - run; cbn. by intros Heq; simplify_eq.
Qed.

Lemma ended_for_good events : ∀ w w', ended w → each events db_event_code w = (Ok tt, w') →
  ended w' ∧ dt_inQueue (w_thread w) `prefix_of` dt_inQueue (w_thread w') ∧
  dt_inTransactionQueue (w_thread w) `prefix_of` dt_inTransactionQueue (w_thread w') ∧ w_transactions w' = w_transactions w.
Proof.
  induction events as [|e events IH]; intros w w' Hw He; [by injection He as <-|]. cbn [each] in He. apply bind_inv in He as ([] & w1 & He1 & He).
  destruct (ended_keeps _ _ _ Hw He1) as (Hw1 & A1 & A2 & A3). destruct (IH _ _ Hw1 He) as (Hw' & B1 & B2 & B3). split_and!; [done|by etrans..|congruence].
Qed.

Lemma reachable_by events : ∀ w w', db_reachable w → each events db_event_code w = (Ok tt, w') → db_reachable w'.
Proof.
  induction events as [|e events IH]; intros w w' Hw He; [by injection He as <-|]. cbn [each] in He. apply bind_inv in He as ([] & w1 & He1 & He).
  eapply IH; [|done]. by eapply db_steps.
Qed.

(** An exception in one transaction ends the database thread: whatever
    happens afterwards, everything that waits in its queues, and all that is
    scheduled later, stays there. *)
Theorem failed_transaction_ends_thread (fuel : nat) (trans : Transaction) (e : ErrorCode) (db' : Database) (w : World)
    (Hpc : w_pc w = Transact trans) (Hr : run_transaction transaction_code fuel trans (w_database w) = (Throw e, db')) :
  ∃ w1, db_step fuel w = (Ok tt, w1) ∧ ∀ events w2, each events db_event_code w1 = (Ok tt, w2) →
    w_pc w2 ∈ [Stopped; Died] ∧ dt_inQueue (w_thread w) `prefix_of` dt_inQueue (w_thread w2) ∧
    dt_inTransactionQueue (w_thread w) `prefix_of` dt_inTransactionQueue (w_thread w2) ∧ w_transactions w2 = w_transactions w.
Proof.
  open_world w. cbn in *. subst pc. unfold DbThread.db_step, db_thread_main_loop, db_thread_run_transactions, transact. run; cbn. rewrite Hr. eexists. split; [reflexivity|].
  intros events w2 He. apply ended_for_good in He as (Hw2 & H1 & H2 & H3); [|by right]. split_and!; try done. destruct Hw2 as [-> | ->]; set_solver.
Qed.

(** The thread does not finish what is pending before it stops: when the
    stop signal finds it behind its look at the queues, what was scheduled
    meanwhile, a transaction that saves a character too, is never run. *)
Theorem stop_loses_pending_work (w : World) (Hpc : w_pc w = Deciding) (Hex : dt_executeQueue (w_thread w) = [])
    (Hc : dt_shouldContinue (w_thread w) = false) :
  ∃ w1, db_step 0 w = (Ok tt, w1) ∧ ∀ events w2, each events db_event_code w1 = (Ok tt, w2) →
    dt_inQueue (w_thread w) `prefix_of` dt_inQueue (w_thread w2) ∧
    dt_inTransactionQueue (w_thread w) `prefix_of` dt_inTransactionQueue (w_thread w2) ∧ w_transactions w2 = w_transactions w.
Proof.
  open_world w. cbn in *. subst. eexists. split; [reflexivity|].
  intros events w2 He. apply ended_for_good in He as (Hw2 & H1 & H2 & H3); [done|by left].
Qed.

Lemma transact_ok fuel trans q db1 w : w_pc w = Transact trans → run_transaction transaction_code fuel trans (w_database w) = (Ok q, db1) →
  t_queryCallback trans = None →
  db_step fuel w = (Ok tt, w <| w_database := db1 |> <| w_transactions := w_transactions w ++ [trans] |> <| w_pc := Transactions |>).
Proof.
  intros Hpc Hr Hf. open_world w. cbn in *. subst pc. unfold DbThread.db_step, db_thread_main_loop, db_thread_run_transactions, transact. run; cbn. by rewrite Hr, Hf.
Qed.

(** C32: Transactions are run newest first: when two of them are pending, the
    database is left as the older one leaves it after the newer one. *)
Theorem older_transaction_is_run_last (w : World) (old new : Transaction) (q1 q2 : Query) (db1 db2 : Database) (fuel : nat)
    (Hpc : w_pc w = Transactions) (Hq : dt_inTransactionQueue (w_thread w) = [old; new])
    (Hcb : t_queryCallback old = None ∧ t_queryCallback new = None)
    (H1 : run_transaction transaction_code fuel new (w_database w) = (Ok q1, db1))
    (H2 : run_transaction transaction_code fuel old db1 = (Ok q2, db2)) :
  ∃ w', each (replicate 4 fuel) db_step w = (Ok tt, w') ∧ w_database w' = db2 ∧ w_transactions w' = w_transactions w ++ [new; old] ∧
    dt_inTransactionQueue (w_thread w') = [].
Proof.
  destruct Hcb as [Ho Hn]. open_world w. cbn in *. subst.
  eexists. split.
  - cbn [replicate each].
    erewrite bind_ok by reflexivity. erewrite bind_ok by (eapply transact_ok; [reflexivity|exact H1|exact Hn]). cbn.
    erewrite bind_ok by reflexivity. erewrite bind_ok by (eapply transact_ok; [reflexivity|exact H2|exact Ho]). reflexivity.
  - cbn. split_and!; [done|by rewrite <- app_assoc|done].
Qed.
End Spec.

(** ** Instances

    The connection of [table_sqlite], and transactions that leave their userdata
    as its number. *)
Abbreviation table_code := (λ (_ : nat) (userdata : Z), λ db : @Database table_sqlite,
  (@Ok unit tt, @mkDatabase table_sqlite (userdata, (db_sqlite db).2) (db_nextQueryId db))).
Definition table_database : @Database table_sqlite := @mkDatabase table_sqlite (0, 1%nat) 1.
Definition table_query (id : Z) (callback : option nat) : @Query table_sqlite :=
  query_set_db_and_stmt (Some (table_statement [[7]])) id (query_init <| q_callback := callback |>).
Definition after (events : list db_event) : @World table_sqlite := snd (each events (@db_event_code table_sqlite table_code) (started table_database)).

Lemma table_busy_ends (s : @statement table_sqlite) (c : @connection table_sqlite) rc s' c' : sqlite3_step s c = (rc, s', c') →
  (c'.2 ≤ c.2)%nat ∧ (rc = SQLITE_BUSY → (c'.2 < c.2)%nat).
Proof.
  destruct c as [v busy]. cbn. unfold table_step. cbn. destruct busy as [|busy]; [destruct (ts_left s)|]; intros Heq; simplify_eq; cbn; split; try lia; done.
Qed.

Lemma table_prepare_busy (sql : list Z) (c : @connection table_sqlite) rc stmt c' :
  sqlite3_prepare_v2 sql c = (rc, stmt, c') → (snd c' ≤ snd c)%nat.
Proof. by intros [= _ _ <-]. Qed.
Lemma table_code_returns (f : nat) (userdata : Z) (db : @Database table_sqlite) r db' : table_code f userdata db = (r, db') →
  r ≠ Fault ∧ (snd (db_sqlite db') ≤ snd (db_sqlite db))%nat.
Proof. by intros [= <- <-]. Qed.

Lemma after_reachable events : fst (each events (@db_event_code table_sqlite table_code) (started table_database)) = Ok tt →
  @db_reachable table_sqlite table_code (after events).
Proof.
  unfold after. destruct (each events _ _) as [o w] eqn:He. cbn. intros ->. eapply reachable_by; [apply db_starts|exact He].
Qed.

(** A query and a transaction that the thread does not know of yet. *)
Definition pending_world : @World table_sqlite :=
  after [Schedules (table_query 7 (Some 3%nat)); Triggers; SchedulesTransaction (mkTransaction 5 (Some 0%nat) None); Triggers].


(** The thread has executed its query, and the callback was called. *)
Definition settled_events : list (@db_event table_sqlite) :=
  [Schedules (table_query 7 (Some 3%nat)); Schedules (table_query 8 None); Triggers; Triggers] ++ replicate 14 (DbThreadRuns 1) ++ [CallsBack].

Lemma queries_are_settled_once_witness :
  w_called (after settled_events) = [(7, Some 3%nat, 0)] ∧
  let w := after settled_events in
  w_scheduled w ≡ₚ (ticket_of <$> queued (w_thread w)) ++ in_hand (w_pc w) ++ w_called w ++ w_silent w ++ w_failed w ∧
  (NoDup (w_scheduled w) → NoDup (w_called w)) ∧ (∀ t, t ∈ w_called w → t ∈ w_scheduled w ∧ t.1.2 ≠ None) ∧
  Forall (λ q, query_has_callback q = true) (dt_outQueue (w_thread w)).
Proof. split; [vm_compute; reflexivity|]. apply (queries_are_settled_once table_code). apply after_reachable. vm_compute. reflexivity. Defined.

(** The character was saved with 1 first, then with 2. *)
Definition two_saves : @World table_sqlite :=
  after [SchedulesTransaction (mkTransaction 1 (Some 0%nat) None); Triggers; SchedulesTransaction (mkTransaction 2 (Some 0%nat) None); Triggers; DbThreadRuns 0].

Lemma older_transaction_is_run_last_witness : ∃ w db,
  each (replicate 4 2%nat) (db_step table_code) two_saves = (Ok tt, w) ∧ w_database w = db ∧ fst (db_sqlite db) = 1.
Proof.
  destruct (run_transaction table_code 2 (mkTransaction 2 (Some 0%nat) None) (w_database two_saves)) as [[q1|e|] db1] eqn:H1; [|discriminate H1..].
  destruct (run_transaction table_code 2 (mkTransaction 1 (Some 0%nat) None) db1) as [[q2|e|] db2] eqn:H2;
    [|vm_compute in H1; injection H1 as _ <-; discriminate H2..].
  destruct (older_transaction_is_run_last table_code two_saves (mkTransaction 1 (Some 0%nat) None) (mkTransaction 2 (Some 0%nat) None) q1 q2 db1 db2 2
    eq_refl eq_refl (conj eq_refl eq_refl) H1 H2) as (w & Hw & Hdb & _).
  exists w, db2. split; [exact Hw|split; [exact Hdb|]]. vm_compute in H1. injection H1 as _ <-. vm_compute in H2. injection H2 as _ <-. reflexivity.
Defined.

(** A transaction whose code throws, and a query scheduled with it. *)
Abbreviation failing_code := (λ (_ : nat) (_ : Z), λ db : @Database table_sqlite, (@Throw unit ErrorSql, db)).
Definition failing_world : @World table_sqlite :=
  snd (each [Schedules (table_query 7 (Some 3%nat)); Triggers; SchedulesTransaction (mkTransaction 1 (Some 0%nat) None); Triggers; DbThreadRuns 0; DbThreadRuns 0]
    (@db_event_code table_sqlite failing_code) (started table_database)).

Lemma failed_transaction_ends_thread_witness : ∃ w1, db_step failing_code 2 failing_world = (Ok tt, w1) ∧
  ∀ events w2, each events (db_event_code failing_code) w1 = (Ok tt, w2) →
    w_pc w2 ∈ [Stopped; Died] ∧ [table_query 7 (Some 3%nat)] `prefix_of` dt_inQueue (w_thread w2) ∧
    dt_inTransactionQueue (w_thread failing_world) `prefix_of` dt_inTransactionQueue (w_thread w2) ∧ w_transactions w2 = w_transactions failing_world.
Proof.
  destruct (run_transaction failing_code 2 (mkTransaction 1 (Some 0%nat) None) (w_database failing_world)) as [[q|e|] db1] eqn:H1; [discriminate H1| |discriminate H1].
  exact (failed_transaction_ends_thread failing_code 2 (mkTransaction 1 (Some 0%nat) None) e db1 failing_world eq_refl H1).
Defined.

(** A save that is scheduled while the thread executes a query, just before the
    process stops. *)
Definition stopping_world : @World table_sqlite :=
  after ([Schedules (table_query 7 None); Triggers] ++ replicate 8 (DbThreadRuns 1) ++
    [SchedulesTransaction (mkTransaction 1 (Some 0%nat) None); Triggers; SendsStop; Triggers] ++ replicate 3 (DbThreadRuns 1)).

Lemma stop_loses_pending_work_witness : ∃ w1, db_step table_code 0 stopping_world = (Ok tt, w1) ∧
  ∀ events w2, each events (db_event_code table_code) w1 = (Ok tt, w2) →
    dt_inQueue (w_thread stopping_world) `prefix_of` dt_inQueue (w_thread w2) ∧
    [mkTransaction 1 (Some 0%nat) None] `prefix_of` dt_inTransactionQueue (w_thread w2) ∧ w_transactions w2 = [].
Proof. exact (stop_loses_pending_work table_code stopping_world eq_refl eq_refl eq_refl). Defined.
