(* ===== verification/Login.v ===== *)
(** The login server's state: the list of game servers and the list of logged in
    clients (login/server_list.c, client_list.c), and the clients themselves
    (login_client.c); then sending to the game servers, and closing their
    connections (tcp_client.c, tcp_server.c), where a [TcpClient*] is an index
    into the array of connections and every call of send takes the next result
    of the operating system from [netOut].

    Clients are memory: a store from addresses to [LoginClient]s. Strings are
    their bytes. What the operating system returns for recv and send, the
    results of random_uint32, and the content of fresh allocations are
    arguments; what is sent, scheduled for the client's protocol handler or
    asked of the database is kept in logs. *)

From S2P Require Import Prelude Aligned Text Servers.

Definition ServerStatus_Up : Z := 0.
Definition ServerStatus_Down : Z := 1.
Definition ServerStatus_Locked : Z := 2.
Definition ServerRank_Standard : Z := 0.

Record ServerListing := mkServer {
  sv_status : Z;
  sv_rank : Z;
  sv_playerCount : Z;
  sv_nameLength : Z;
  sv_remoteAddressLength : Z;
  sv_longName : option (list Z);
  sv_shortName : list Z;
  sv_remoteIpAddress : list Z;
  sv_localIpAddress : list Z;
  sv_isLocal : bool;
}.

Record TcpClient := mkTcp {
  socketFd : Z;
  tc_buffered : Z;      (* int16_t *)
  tc_readLength : Z;    (* int16_t *)
  loginServerIndex : Z;
  tc_address : Z;
  tc_recvBuf : nat;     (* address of EQP_TCP_CLIENT_BUFFER_SIZE bytes *)
  tc_isLocal : bool;
}.

Record LoginClient := mkClient {
  lc_state : Z;
  lc_handler : nat;
  lc_refCount : Z;
  lc_accountName : option (list Z);
  lc_accountId : Z;
  lc_passwordTemp : list Z;
  lc_passwordLength : Z;
  lc_sessionKey : list Z;
  lc_isLocal : bool;
  lc_ip : Z;                             (* of its protocol handler *)
  lc_scheduled : list (Z * list Z);      (* packets for its protocol handler *)
}.

(** Queries handed to the database thread, with the client whose reference
    they carry. *)
Inductive Query :=
  | SelectLogin (client : nat) (username : list Z)
  | InsertLogin (client : nat) (username password salt : list Z).

Record Login := mkLogin {
  servers : list ServerListing;
  tcpClients : list TcpClient;
  recvBufs : gmap nat (list Z);
  nextBuf : nat;
  clientList : list (Z * nat);
  loginClients : gmap nat LoginClient;
  netIn : list recv_result;
  netOut : list send_result;
  sentBytes : list (Z * list Z);
  randoms : list Z;
  queries : list Query;
  handlerDrops : list nat;
}.

Definition set_servers (l : list ServerListing) (s : Login) : Login :=
  mkLogin l (tcpClients s) (recvBufs s) (nextBuf s) (clientList s) (loginClients s) (netIn s) (netOut s) (sentBytes s) (randoms s) (queries s) (handlerDrops s).
Definition set_tcp (l : list TcpClient) (s : Login) : Login :=
  mkLogin (servers s) l (recvBufs s) (nextBuf s) (clientList s) (loginClients s) (netIn s) (netOut s) (sentBytes s) (randoms s) (queries s) (handlerDrops s).
Definition set_bufs (m : gmap nat (list Z)) (n : nat) (s : Login) : Login :=
  mkLogin (servers s) (tcpClients s) m n (clientList s) (loginClients s) (netIn s) (netOut s) (sentBytes s) (randoms s) (queries s) (handlerDrops s).
Definition set_clientList (l : list (Z * nat)) (s : Login) : Login :=
  mkLogin (servers s) (tcpClients s) (recvBufs s) (nextBuf s) l (loginClients s) (netIn s) (netOut s) (sentBytes s) (randoms s) (queries s) (handlerDrops s).
Definition set_loginClients (m : gmap nat LoginClient) (s : Login) : Login :=
  mkLogin (servers s) (tcpClients s) (recvBufs s) (nextBuf s) (clientList s) m (netIn s) (netOut s) (sentBytes s) (randoms s) (queries s) (handlerDrops s).
Definition set_net (i : list recv_result) (o : list send_result) (b : list (Z * list Z)) (s : Login) : Login :=
  mkLogin (servers s) (tcpClients s) (recvBufs s) (nextBuf s) (clientList s) (loginClients s) i o b (randoms s) (queries s) (handlerDrops s).
Definition set_randoms (l : list Z) (s : Login) : Login :=
  mkLogin (servers s) (tcpClients s) (recvBufs s) (nextBuf s) (clientList s) (loginClients s) (netIn s) (netOut s) (sentBytes s) l (queries s) (handlerDrops s).
Definition set_queries (q : list Query) (s : Login) : Login :=
  mkLogin (servers s) (tcpClients s) (recvBufs s) (nextBuf s) (clientList s) (loginClients s) (netIn s) (netOut s) (sentBytes s) (randoms s) q (handlerDrops s).
Definition add_handler_drop (h : nat) (s : Login) : Login :=
  mkLogin (servers s) (tcpClients s) (recvBufs s) (nextBuf s) (clientList s) (loginClients s) (netIn s) (netOut s) (sentBytes s) (randoms s) (queries s) (handlerDrops s ++ [h]).

(** ** Servers *)
Definition server_list_add (server : ServerListing) : code Login Z :=
  let server := mkServer (sv_status server) (sv_rank server) (sv_playerCount server)
    (match sv_longName server with Some n => Z.of_nat (length n) + 1 | None => 0 end)
    (Z.of_nat (length (sv_remoteIpAddress server)) + 1)
    (sv_longName server) (sv_shortName server) (sv_remoteIpAddress server) (sv_localIpAddress server) (sv_isLocal server) in
  modify (λ s, set_servers (servers s ++ [server]) s) ;;
  gets (λ s, Z.of_nat (length (servers s)) - 1).

Definition server_list_remove_by_index (index : Z) : code Login unit :=
  modify (λ s, if (0 <=? index) && (index <? Z.of_nat (length (servers s)))
               then set_servers (swap_out (Z.to_nat index) (servers s)) s else s).

Definition server_list_update_by_index (index playerCount status : Z) : code Login unit :=
  modify (λ s, if (0 <=? index) && (index <? Z.of_nat (length (servers s)))
    then set_servers (alter (λ v, mkServer status (sv_rank v) playerCount (sv_nameLength v) (sv_remoteAddressLength v)
      (sv_longName v) (sv_shortName v) (sv_remoteIpAddress v) (sv_localIpAddress v) (sv_isLocal v)) (Z.to_nat index) (servers s)) s
    else s).

(** ** Clients by account id *)
Definition client_at (id : nat) : code Login LoginClient := λ s, (deref (loginClients s !! id), s).
Definition put_client (id : nat) (c : LoginClient) : code Login unit :=
  modify (λ s, set_loginClients (<[id := c]> (loginClients s)) s).

Definition client_list_add (id : nat) : code Login unit :=
  c ← client_at id;
  modify (λ s, set_clientList (clientList s ++ [(lc_accountId c, id)]) s).

(** The loop of client_list_remove from position [i]; every entry with this
    account id goes. *)
Fixpoint remove_account (fuel i : nat) (accountId : Z) (l : list (Z * nat)) : list (Z * nat) :=
  match fuel with
  | O => l
  | S fuel =>
      match l !! i with
      | None => l
      | Some (id, _) =>
          if id =? accountId then remove_account fuel i accountId (swap_out i l)
          else remove_account fuel (S i) accountId l
      end
  end.

Definition client_list_remove (id : nat) : code Login unit :=
  c ← client_at id;
  modify (λ s, set_clientList (remove_account (length (clientList s)) 0 (lc_accountId c) (clientList s)) s).

Definition client_list_get (accountId : Z) : code Login (option nat) :=
  gets (λ s, snd <$> find (λ e, fst e =? accountId) (clientList s)).

(** ** Life of a client *)
Definition upd_client (id : nat) (f : LoginClient → LoginClient) : code Login unit :=
  c ← client_at id; put_client id (f c).

Definition set_refCount (n : Z) (c : LoginClient) : LoginClient :=
  mkClient (lc_state c) (lc_handler c) n (lc_accountName c) (lc_accountId c) (lc_passwordTemp c) (lc_passwordLength c)
    (lc_sessionKey c) (lc_isLocal c) (lc_ip c) (lc_scheduled c).
Definition set_state (st : Z) (c : LoginClient) : LoginClient :=
  mkClient st (lc_handler c) (lc_refCount c) (lc_accountName c) (lc_accountId c) (lc_passwordTemp c) (lc_passwordLength c)
    (lc_sessionKey c) (lc_isLocal c) (lc_ip c) (lc_scheduled c).
Definition set_account_id (n : Z) (c : LoginClient) : LoginClient :=
  mkClient (lc_state c) (lc_handler c) (lc_refCount c) (lc_accountName c) n (lc_passwordTemp c) (lc_passwordLength c)
    (lc_sessionKey c) (lc_isLocal c) (lc_ip c) (lc_scheduled c).
Definition set_account_name (name : list Z) (c : LoginClient) : LoginClient :=
  mkClient (lc_state c) (lc_handler c) (lc_refCount c) (Some name) (lc_accountId c) (lc_passwordTemp c) (lc_passwordLength c)
    (lc_sessionKey c) (lc_isLocal c) (lc_ip c) (lc_scheduled c).
Definition set_password (bytes : list Z) (n : Z) (c : LoginClient) : LoginClient :=
  mkClient (lc_state c) (lc_handler c) (lc_refCount c) (lc_accountName c) (lc_accountId c) bytes n
    (lc_sessionKey c) (lc_isLocal c) (lc_ip c) (lc_scheduled c).
Definition set_session_key (key : list Z) (c : LoginClient) : LoginClient :=
  mkClient (lc_state c) (lc_handler c) (lc_refCount c) (lc_accountName c) (lc_accountId c) (lc_passwordTemp c) (lc_passwordLength c)
    key (lc_isLocal c) (lc_ip c) (lc_scheduled c).
Definition add_scheduled (opcode : Z) (payload : list Z) (c : LoginClient) : LoginClient :=
  mkClient (lc_state c) (lc_handler c) (lc_refCount c) (lc_accountName c) (lc_accountId c) (lc_passwordTemp c) (lc_passwordLength c)
    (lc_sessionKey c) (lc_isLocal c) (lc_ip c) (lc_scheduled c ++ [(opcode, payload)]).

Definition login_client_grab (id : nat) : code Login unit := upd_client id (λ c, set_refCount (lc_refCount c + 1) c).

Definition login_client_drop (id : nat) : code Login unit :=
  c ← client_at id;
  if 1 <? lc_refCount c then put_client id (set_refCount (lc_refCount c - 1) c)
  else
    put_client id (set_refCount (lc_refCount c - 1) c) ;;
    client_list_remove id ;;
    modify (add_handler_drop (lc_handler c)) ;;
    modify (λ s, set_loginClients (delete id (loginClients s)) s).

(** [client] is NULL for a connection of the standard protocol. *)
Definition client_on_disconnect (client : option nat) (isLinkdead : bool) : code Login unit :=
  match client with Some id => login_client_drop id | None => mret tt end.

Definition PASSWORD_TEMP_SIZE : Z := 32.
Definition login_client_set_password_temp (id : nat) (password : list Z) (length_ : Z) : code Login unit :=
  let n := if PASSWORD_TEMP_SIZE <=? u32 length_ then PASSWORD_TEMP_SIZE - 1 else length_ in
  upd_client id (λ c, set_password (take (Z.to_nat n) password ++ [0] ++ drop (Z.to_nat n + 1) (lc_passwordTemp c)) n c).

Definition login_client_clear_password_temp (id : nat) : code Login unit :=
  upd_client id (λ c, set_password (replicate (Z.to_nat PASSWORD_TEMP_SIZE) 0) (lc_passwordLength c) c).

Definition SESSION_KEY_SIZE : Z := 16.
Definition session_keys : list Z :=
  text "ABCDEFGHIJKLMNOPQRSTUVWXYZ0123456789".

Definition random_uint32 : code Login Z := λ s,
  match randoms s with r :: rs => (Ok r, set_randoms rs s) | [] => (Fault, s) end.

Fixpoint random_key (n : nat) : code Login (list Z) :=
  match n with
  | O => mret []
  | S n =>
      r ← random_uint32;
      k ← lift (deref (session_keys !! Z.to_nat (r mod Z.of_nat (length session_keys))));
      ks ← random_key n;
      mret (k :: ks)
  end.

Definition login_client_generate_session_key (id : nat) : code Login unit :=
  key ← random_key (Z.to_nat (SESSION_KEY_SIZE - 1));
  upd_client id (set_session_key (key ++ [0])).

(** ** Addresses *)
Definition login_is_ip_address_local (ip : Z) : bool :=
  (ip =? make_ip 127 0 0 1) ||
  (Z.land ip 0x0000ffff =? make_ip 192 168 0 0) ||
  (Z.land ip 0x000000ff =? make_ip 10 0 0 0) ||
  (Z.land ip 0x0000f0ff =? make_ip 172 16 0 0).

(** A new connection's client, at address [id]; its handler's [clientObject]
    holds the one reference. The fields not set hold [junk]. *)
Definition login_client_create (id handler : nat) (ip state : Z) (junk_password junk_key : list Z) : code Login unit :=
  put_client id (mkClient state handler 1 None 0 junk_password 0 junk_key (login_is_ip_address_local ip) ip []).

(** * Connections to game servers *)

Definition TcpOp_KeepAlive : Z := 0x0001.
Definition TcpOp_ClientLoginRequest : Z := 0xab00.
Definition SIZEOF_TcpPacketHeader : Z := 4.
Definition SIZEOF_ClientLoginRequestSend : Z := 20.
Definition INVALID_SOCKET : Z := -1.

Definition tcp_at (i : nat) : code Login TcpClient := λ s, (deref (tcpClients s !! i), s).
Definition upd_tcp (i : nat) (f : TcpClient → TcpClient) : code Login unit :=
  c ← tcp_at i; modify (λ s, set_tcp (<[i := f c]> (tcpClients s)) s).

Definition set_server_index (n : Z) (c : TcpClient) : TcpClient :=
  mkTcp (socketFd c) (tc_buffered c) (tc_readLength c) n (tc_address c) (tc_recvBuf c) (tc_isLocal c).
Definition set_buffered (n : Z) (c : TcpClient) : TcpClient :=
  mkTcp (socketFd c) (i16 n) (tc_readLength c) (loginServerIndex c) (tc_address c) (tc_recvBuf c) (tc_isLocal c).
Definition set_read_length (n : Z) (c : TcpClient) : TcpClient :=
  mkTcp (socketFd c) (tc_buffered c) (i16 n) (loginServerIndex c) (tc_address c) (tc_recvBuf c) (tc_isLocal c).

Definition tcp_client_has_login_server (c : TcpClient) : bool := negb (loginServerIndex c =? -1).

(** The allocation of a connection's buffer holds [junk]. *)
Definition tcp_client_init (junk : list Z) (fd addr : Z) : code Login TcpClient :=
  s ← get;
  modify (set_bufs (<[nextBuf s := junk]> (recvBufs s)) (S (nextBuf s))) ;;
  mret (mkTcp fd 0 SIZEOF_TcpPacketHeader (-1) addr (nextBuf s) (login_is_ip_address_local addr)).

(** One accepted connection of [tcp_server_accept_new_connections]. *)
Definition tcp_server_accept (junk : list Z) (fd addr : Z) : code Login unit :=
  client ← tcp_client_init junk fd addr;
  modify (λ s, set_tcp (tcpClients s ++ [client]) s).

Definition tcp_client_deinit (i : nat) : code Login unit :=
  c ← tcp_at i;
  modify (λ s, set_bufs (delete (tc_recvBuf c) (recvBufs s)) (nextBuf s) s) ;;
  upd_tcp i (λ c, mkTcp INVALID_SOCKET (tc_buffered c) (tc_readLength c) (loginServerIndex c) (tc_address c) (tc_recvBuf c) (tc_isLocal c)).

(** The first connection that still names the server that was moved. *)
Fixpoint retarget (from to : Z) (l : list TcpClient) : list TcpClient :=
  match l with
  | [] => []
  | c :: l => if loginServerIndex c =? from then set_server_index to c :: l else c :: retarget from to l
  end.

Definition tcp_server_handle_closed_client (index : nat) : code Login unit :=
  cli ← tcp_at index;
  (if tcp_client_has_login_server cli then
     server_list_remove_by_index (loginServerIndex cli) ;;
     prevBack ← gets (λ s, Z.of_nat (length (servers s)));
     if 0 <? prevBack then modify (λ s, set_tcp (retarget prevBack (loginServerIndex cli) (tcpClients s)) s)
     else mret tt
   else mret tt) ;;
  tcp_client_deinit index ;;
  modify (λ s, set_tcp (swap_out index (tcpClients s)) s).

Definition tcp_server_close_client (index : nat) : code Login unit := tcp_server_handle_closed_client index.

(** send() of the bytes at [data + sent]; before the start of [data] this reads
    memory that is not the packet's. *)
Fixpoint send_loop (results : list send_result) (i : nat) (fd : Z) (data : list Z) (sent : Z) : code Login unit :=
  match results with
  | [] => fault
  | r :: results =>
      modify (λ s, set_net (netIn s) results (sentBytes s) s) ;;
      if sent <? 0 then fault
      else
        match r with
        | Sent len =>
            modify (λ s, set_net (netIn s) (netOut s) (sentBytes s ++ [(fd, take (Z.to_nat len) (drop (Z.to_nat sent) data))]) s) ;;
            let sent := sent + len in
            if sent =? Z.of_nat (length data) then mret tt else send_loop results i fd data sent
        | Again =>
            let sent := sent + (-1) in
            if sent =? Z.of_nat (length data) then mret tt else send_loop results i fd data sent
        | Refused => tcp_server_close_client i
        | SendError => mret tt
        end
  end.

Definition tcp_client_send (i : nat) (data : list Z) : code Login unit :=
  c ← tcp_at i;
  results ← gets netOut;
  send_loop results i (socketFd c) data 0.

Definition tcp_client_keep_alive (i : nat) : code Login unit :=
  tcp_client_send i (le_bytes 2 TcpOp_KeepAlive ++ le_bytes 2 SIZEOF_TcpPacketHeader).

Definition tcp_client_send_client_login_request (i : nat) (accountId : Z) : code Login unit :=
  c ← tcp_at i;
  if negb (tcp_client_has_login_server c) then mret tt
  else tcp_client_send i (le_bytes 2 TcpOp_ClientLoginRequest ++ le_bytes 2 SIZEOF_ClientLoginRequestSend ++
         le_bytes 4 accountId ++ le_bytes 4 0 ++ le_bytes 4 0 ++ le_bytes 4 0).

(** The connection of a server, by its index in the server list. *)
Fixpoint tcp_index_of (serverIndex : Z) (l : list TcpClient) (i : nat) : option nat :=
  match l with
  | [] => None
  | c :: l => if loginServerIndex c =? serverIndex then Some i else tcp_index_of serverIndex l (S i)
  end.

Definition tcp_server_send_client_login_request (serverIndex accountId : Z) : code Login unit :=
  s ← get;
  match tcp_index_of serverIndex (tcpClients s) 0 with
  | Some i => tcp_client_send_client_login_request i accountId
  | None => mret tt
  end.

(** [ipAddress] is the rest of a received packet's memory. *)
Fixpoint request_by_ip (l : list ServerListing) (i : Z) (ipAddress : list Z) (accountId : Z) : code Login unit :=
  match l with
  | [] => mret tt
  | sv :: l =>
      r ← lift (strcmp (sv_remoteIpAddress sv ++ [0]) ipAddress);
      if r =? 0 then tcp_server_send_client_login_request i accountId
      else
        r ← lift (strcmp (sv_localIpAddress sv ++ [0]) ipAddress);
        if r =? 0 then tcp_server_send_client_login_request i accountId
        else request_by_ip l (i + 1) ipAddress accountId
  end.

Definition server_list_send_client_login_request_by_ip_address (ipAddress : list Z) (accountId : Z) : code Login unit :=
  s ← get; request_by_ip (servers s) 0 ipAddress accountId.
