(* ===== verification/LoginTrilogy.v ===== *)
(** The login protocol: login/login_client.c and login_client_trilogy.c.

    A client is asked for its version, sends its credentials, is checked
    against the database, and then sees the server list. The decryption and
    the hash of OpenSSL, and the content of fresh packets, are arguments. *)

From S2P Require Import Prelude Aligned Text Servers Login.

Definition TrilogyOp_Credentials : Z := 0x0001.
Definition TrilogyOp_Error : Z := 0x0002.
Definition TrilogyOp_Session : Z := 0x0004.
Definition TrilogyOp_ServerList : Z := 0x0046.
Definition TrilogyOp_SessionKey : Z := 0x0047.
Definition TrilogyOp_ServerStatusRequest : Z := 0x0048.
Definition TrilogyOp_ServerStatusAccept : Z := 0x004a.
Definition TrilogyOp_Banner : Z := 0x0052.
Definition TrilogyOp_Version : Z := 0x0059.

Definition BrandNew : Z := 0.
Definition VersionSent : Z := 1.
Definition ProcessingCredentials : Z := 2.
Definition AcceptedCredentials : Z := 3.

Definition LOGIN_VERSION : list Z := text "8-09-2001 14:25".
Definition BANNER_MESSAGE : list Z := text "Welcome to EQP!".
Definition ERR_CREDENTIALS : list Z := text "Error: Invalid username/password".
Definition SERVER_LIST_COUNT_MAX : Z := 255.
Definition SERVER_DOWN : Z := -1.
Definition SERVER_LOCKED : Z := -2.

Definition LOGIN_RESPONSE_ACCEPTED : Z := 1.
Definition LOGIN_RESPONSE_SUSPENDED : Z := -1.
Definition LOGIN_RESPONSE_BANNED : Z := -2.
Definition LOGIN_RESPONSE_WORLD_FULL : Z := -3.

(** Sizes of the packed structs and their fields. *)
Definition SIZEOF_Credentials : Z := 40.
Definition SIZEOF_username : Z := 20.
Definition SIZEOF_Session : Z := 21.
Definition SIZEOF_sessionId : Z := 10.
Definition SIZEOF_ServerListHeader : Z := 4.
Definition SIZEOF_ServerFooter : Z := 5.
Definition SIZEOF_ServerListFooter : Z := 26.

Definition CRYPTO_BUFFER_SIZE : Z := 2048.
Definition HASH_SIZE : Z := 20.
Definition SALT_LENGTH : Z := 16.

Section Trilogy.
(** [junk n] is what a fresh allocation of [n] bytes holds; [decrypt] and
    [hash] fill the crypto buffer. *)
Context (junk : Z → list Z) (decrypt : list Z → list Z) (hash : list Z → list Z → list Z).

(** packet_trilogy_create, [w] writing its data, and scheduling it. *)
Definition schedule_packet (id : nat) (opcode length_ : Z) (w : code Aligned unit) : code Login unit :=
  match w (aligned_init (junk length_) length_) with
  | (Ok _, a) => upd_client id (add_scheduled opcode (buffer a))
  | (Throw e, _) => throw e
  | (Fault, _) => fault
  end.

Definition login_trilogy_err_msg (id : nat) (msg : list Z) : code Login unit :=
  let len := Z.of_nat (length msg) + 1 in
  schedule_packet id TrilogyOp_Error len (aligned_write_buffer (msg ++ [0]) len).

(** In any state. *)
Definition login_trilogy_handle_op_version (id : nat) : code Login unit :=
  let len := Z.of_nat (length LOGIN_VERSION) + 1 in
  schedule_packet id TrilogyOp_Version len (aligned_write_buffer (LOGIN_VERSION ++ [0]) len) ;;
  upd_client id (set_state VersionSent).

Definition login_client_check_credentials (id : nat) (username : list Z) (nameLength : Z) (password : list Z) (passLength : Z)
    : code Login unit :=
  login_client_grab id ;;
  upd_client id (set_account_name (take (Z.to_nat nameLength) username)) ;;
  login_client_set_password_temp id password passLength ;;
  modify (λ s, set_queries (queries s ++ [SelectLogin id (take (Z.to_nat nameLength) username)]) s).

(** [a] is the reader of the packet. *)
Definition login_trilogy_handle_op_credentials (id : nat) (a : Aligned) : code Login unit :=
  c ← client_at id;
  if negb (lc_state c =? VersionSent) || (aligned_remaining a <? SIZEOF_Credentials) then mret tt
  else
    upd_client id (set_state ProcessingCredentials) ;;
    let cred := decrypt (take (Z.to_nat SIZEOF_Credentials) (drop (Z.to_nat (cursor a)) (buffer a))) ++
                replicate (Z.to_nat (CRYPTO_BUFFER_SIZE - SIZEOF_Credentials)) 0 in
    let password := drop (Z.to_nat SIZEOF_username) cred in
    nameLength ← lift (strlen cred);
    passLength ← lift (strlen password);
    if (SIZEOF_username - 1 <? nameLength) || (SIZEOF_username - 1 <? passLength) then
      login_trilogy_err_msg id ERR_CREDENTIALS
    else login_client_check_credentials id cred nameLength password passLength.

Definition login_client_trilogy_handle_credentials_result (id : nat) (accountId : Z) : code Login unit :=
  if accountId =? 0 then login_trilogy_err_msg id ERR_CREDENTIALS
  else
    schedule_packet id TrilogyOp_Session SIZEOF_Session
      (aligned_write_snprintf_full_advance SIZEOF_sessionId (text "LS#" ++ decimal accountId) ;;
       aligned_write_buffer (text "unused" ++ [0]) 7 ;;
       aligned_write_uint32 4) ;;
    upd_client id (set_state AcceptedCredentials).

(** The rows of the query: account id, hash and salt. [success] is 0 while no
    row was seen, 1 after a match, -1 after a mismatch. *)
Fixpoint check_rows (id : nat) (rows : list (Z * list Z * list Z)) (success : Z) : code Login Z :=
  match rows with
  | [] => mret success
  | (accountId, h, salt) :: rows =>
      c ← client_at id;
      success ←
        (if bool_decide (take (length h) (hash (take (Z.to_nat (lc_passwordLength c)) (lc_passwordTemp c)) salt) = h) then
           login_client_trilogy_handle_credentials_result id (u32 accountId) ;;
           upd_client id (set_account_id (u32 accountId)) ;;
           client_list_add id ;;
           mret 1
         else mret (-1));
      check_rows id rows success
  end.

(** An unknown name becomes a new account. *)
Definition login_client_auto_create_account (salt : list Z) (id : nat) : code Login unit :=
  c ← client_at id;
  username ← lift (deref (lc_accountName c));
  let h := take (Z.to_nat HASH_SIZE) (hash (take (Z.to_nat (lc_passwordLength c)) (lc_passwordTemp c)) salt) in
  login_client_clear_password_temp id ;;
  modify (λ s, set_queries (queries s ++ [InsertLogin id username h salt]) s).

Definition login_client_credentials_callback (salt : list Z) (id : nat) (rows : list (Z * list Z * list Z)) : code Login unit :=
  success ← check_rows id rows 0;
  if success =? 0 then login_client_auto_create_account salt id
  else
    login_client_clear_password_temp id ;;
    (if negb (success =? 1) then login_client_trilogy_handle_credentials_result id 0 else mret tt) ;;
    login_client_drop id.

Definition login_client_auto_create_account_callback (id : nat) (lastInsertId : Z) : code Login unit :=
  let accountId := u32 lastInsertId in
  upd_client id (set_account_id accountId) ;;
  client_list_add id ;;
  login_client_trilogy_handle_credentials_result id accountId ;;
  login_client_drop id.

Definition login_trilogy_handle_op_banner (id : nat) : code Login unit :=
  c ← client_at id;
  if negb (lc_state c =? AcceptedCredentials) then mret tt
  else
    let len := Z.of_nat (length BANNER_MESSAGE) + 1 in
    schedule_packet id TrilogyOp_Banner (4 + len)
      (aligned_write_uint32 1 ;; aligned_write_buffer (BANNER_MESSAGE ++ [0]) len).

(** Whether the server is announced with its local address. *)
Definition announce_local (isLocal : bool) (address : list Z) (sv : ServerListing) : outcome bool :=
  if isLocal && sv_isLocal sv then Ok true
  else r ← strcmp (sv_remoteIpAddress sv ++ [0]) (address ++ [0]); Ok (negb (r =? 0)).

(** The first loop: the length of the entries of at most [room] servers, and
    how many there are. *)
Fixpoint entries_length (isLocal : bool) (address : list Z) (l : list ServerListing) (length_ n : Z) : outcome (Z * Z) :=
  match l with
  | [] => Ok (length_, n)
  | sv :: l =>
      match sv_longName sv with
      | None => entries_length isLocal address l length_ n
      | Some _ =>
          local ← announce_local isLocal address sv;
          let length_ := length_ +
            (if (local : bool) then Z.of_nat (length (sv_localIpAddress sv)) + 1 else sv_remoteAddressLength sv) +
            sv_nameLength sv + SIZEOF_ServerFooter in
          let n := n + 1 in
          if n =? SERVER_LIST_COUNT_MAX then Ok (length_, n) else entries_length isLocal address l length_ n
      end
  end.

Definition player_count (sv : ServerListing) : Z :=
  if sv_status sv =? ServerStatus_Down then SERVER_DOWN
  else if sv_status sv =? ServerStatus_Locked then SERVER_LOCKED
  else sv_playerCount sv.

(** aligned_write_string_null_terminated *)
Definition write_string (bytes : list Z) : code Aligned unit :=
  aligned_write_buffer (bytes ++ [0]) (Z.of_nat (length bytes) + 1).

Fixpoint write_entries (isLocal : bool) (address : list Z) (l : list ServerListing) (n : Z) : code Aligned unit :=
  match l with
  | [] => mret tt
  | sv :: l =>
      match sv_longName sv with
      | None => write_entries isLocal address l n
      | Some name =>
          write_string name ;;
          local ← lift (announce_local isLocal address sv);
          write_string (if (local : bool) then sv_localIpAddress sv else sv_remoteIpAddress sv) ;;
          aligned_write_bool (negb (sv_rank sv =? ServerRank_Standard)) ;;
          aligned_write_int32 (player_count sv) ;;
          let n := n + 1 in
          if n =? SERVER_LIST_COUNT_MAX then mret tt else write_entries isLocal address l n
      end
  end.

Definition login_trilogy_handle_op_server_list (id : nat) : code Login unit :=
  c ← client_at id;
  if negb (lc_state c =? AcceptedCredentials) then mret tt
  else
    list ← gets servers;
    let isLocal := lc_isLocal c in
    let address := dotted (lc_ip c) in
    '(length_, n) ← lift (entries_length isLocal address list (SIZEOF_ServerListHeader + SIZEOF_ServerListFooter) 0);
    schedule_packet id TrilogyOp_ServerList length_
      (aligned_write_uint8 (u8 n) ;;
       aligned_write_zeroes 2 ;;
       aligned_write_uint8 0xff ;;
       write_entries isLocal address list 0 ;;
       aligned_write_uint8 0 ;;
       aligned_write_zeroes 8 ;;
       aligned_write_uint8 1 ;;
       aligned_write_uint8 1 ;;
       aligned_write_zeroes 12).

Definition login_trilogy_handle_op_server_status_request (id : nat) (a : Aligned) : code Login unit :=
  c ← client_at id;
  if negb (lc_state c =? AcceptedCredentials) then mret tt
  else server_list_send_client_login_request_by_ip_address (drop (Z.to_nat (cursor a)) (buffer a)) (lc_accountId c).

Definition login_client_trilogy_handle_login_response (id : nat) (response : Z) : code Login unit :=
  c ← client_at id;
  if negb (lc_state c =? AcceptedCredentials) then mret tt
  else if response =? LOGIN_RESPONSE_ACCEPTED then schedule_packet id TrilogyOp_ServerStatusAccept 0 (mret tt)
  else if response =? LOGIN_RESPONSE_SUSPENDED then
    login_trilogy_err_msg id (text "Error: Your account has been suspended from the selected server")
  else if response =? LOGIN_RESPONSE_BANNED then
    login_trilogy_err_msg id (text "Error: Your account has been banned from the selected server")
  else if response =? LOGIN_RESPONSE_WORLD_FULL then
    login_trilogy_err_msg id (text "Error: The selected server is currently full")
  else login_trilogy_err_msg id (text "Error: Your login request was denied").

Definition login_trilogy_handle_op_session_key (id : nat) : code Login unit :=
  c ← client_at id;
  if negb (lc_state c =? AcceptedCredentials) then mret tt
  else
    schedule_packet id TrilogyOp_SessionKey (SESSION_KEY_SIZE + 1)
      (aligned_write_uint8 0 ;;
       aligned_write_buffer (lc_sessionKey c) (SESSION_KEY_SIZE - 1) ;;
       aligned_write_uint8 0).

Definition client_recv_packet_trilogy (id : nat) (opcode : Z) (a : Aligned) : code Login unit :=
  if opcode =? TrilogyOp_Version then login_trilogy_handle_op_version id
  else if opcode =? TrilogyOp_Credentials then login_trilogy_handle_op_credentials id a
  else if opcode =? TrilogyOp_Banner then login_trilogy_handle_op_banner id
  else if opcode =? TrilogyOp_ServerList then login_trilogy_handle_op_server_list id
  else if opcode =? TrilogyOp_ServerStatusRequest then login_trilogy_handle_op_server_status_request id a
  else if opcode =? TrilogyOp_SessionKey then login_trilogy_handle_op_session_key id
  else mret tt.
End Trilogy.
