(* ===== verification/LoginServer.v ===== *)
(** What the login server receives from game servers: login/tcp_client.c
    (packets) and tcp_server.c (the stream). Every call of recv takes the next
    result of the operating system from [netIn]; without one there is nothing
    to read yet. *)

From S2P Require Import Prelude Aligned Text Servers Login LoginTrilogy.

Definition TcpOp_LoginServerStatus : Z := 0x1001.
Definition TcpOp_ClientLoginAuth : Z := 0x1002.
Definition TcpOp_NewLoginServer : Z := 0x1008.
Definition TcpOp_ClientLoginResponse : Z := 0xab01.
Definition SERVER_UP : Z := 0.
Definition TCP_CLIENT_BUFFER_SIZE : Z := 1024.

(** Sizes of the packed structs and their fields. *)
Definition SIZEOF_longName : Z := 201.
Definition SIZEOF_shortName : Z := 50.
Definition SIZEOF_remoteAddress : Z := 125.
Definition SIZEOF_localAddress : Z := 125.
Definition SIZEOF_NewLoginServer : Z := 653.
Definition SIZEOF_LoginServerStatus : Z := 12.
Definition SIZEOF_ClientLoginResponse : Z := 17.
Definition SIZEOF_ClientLoginAuth : Z := 76.
Definition SIZEOF_accountName : Z := 30.
Definition SIZEOF_sessionKey : Z := 30.

(** strlen looks for the terminator in the whole buffer, not in the field. *)
Definition tcp_client_string_from_fixed_field (fieldLength : Z) : code Aligned (list Z) :=
  a ← get;
  let str := drop (Z.to_nat (cursor a)) (buffer a) in
  len ← lift (strlen str);
  let len := if fieldLength <=? len then fieldLength - 1 else len in
  _ ← aligned_advance fieldLength;
  mret (take (Z.to_nat len) str).

(** The listing a server asks for; [ip] and [isLocal] are its connection's. *)
Definition parse_new_login_server (ip : Z) (isLocal : bool) : code Aligned ServerListing :=
  longName ← tcp_client_string_from_fixed_field SIZEOF_longName;
  shortName ← tcp_client_string_from_fixed_field SIZEOF_shortName;
  first ← aligned_peek_uint8;
  remote ← (if negb (first =? 0) then tcp_client_string_from_fixed_field SIZEOF_remoteAddress
            else _ ← aligned_advance SIZEOF_remoteAddress; mret (dotted ip));
  local ← tcp_client_string_from_fixed_field SIZEOF_localAddress;
  mret (mkServer ServerStatus_Locked ServerRank_Standard 0 0 0 (Some longName) shortName remote local isLocal).

Section Server.
Context (junk : Z → list Z).

(** Reading the packet [a] without changing the server's state. *)
Definition reading {A} (f : code Aligned A) (a : Aligned) : code Login A := lift (fst (f a)).

Definition tcp_client_handle_op_new_login_server (i : nat) (a : Aligned) : code Login unit :=
  c ← tcp_at i;
  if tcp_client_has_login_server c || (aligned_remaining a <? SIZEOF_NewLoginServer) then mret tt
  else
    server ← reading (parse_new_login_server (tc_address c) (tc_isLocal c)) a;
    index ← server_list_add server;
    upd_tcp i (set_server_index index).

Definition tcp_client_handle_op_login_server_status (i : nat) (a : Aligned) : code Login unit :=
  c ← tcp_at i;
  if negb (tcp_client_has_login_server c) || (aligned_remaining a <? SIZEOF_LoginServerStatus) then mret tt
  else
    '(status, playerCount) ← reading (status ← aligned_read_int32; playerCount ← aligned_read_int32;
                                      _ ← aligned_read_int32; mret (status, playerCount)) a;
    let status := if status =? SERVER_UP then ServerStatus_Up
                  else if status =? SERVER_LOCKED then ServerStatus_Locked else ServerStatus_Down in
    server_list_update_by_index (loginServerIndex c) playerCount status ;;
    tcp_client_keep_alive i.

Definition client_auth (c : LoginClient) (name : list Z) : code Aligned unit :=
  aligned_write_uint16 TcpOp_ClientLoginAuth ;;
  aligned_write_uint16 SIZEOF_ClientLoginAuth ;;
  aligned_write_uint32 (lc_accountId c) ;;
  aligned_write_snprintf_full_advance SIZEOF_accountName name ;;
  aligned_write_snprintf_full_advance SIZEOF_sessionKey (take (Z.to_nat (SESSION_KEY_SIZE - 1)) (lc_sessionKey c)) ;;
  aligned_write_uint8 0 ;;
  aligned_write_int16 0 ;;
  aligned_write_uint32 (lc_ip c) ;;
  aligned_write_uint8 (if lc_isLocal c then 1 else 0).

Definition tcp_client_send_client_auth (i : nat) (client : nat) : code Login unit :=
  login_client_generate_session_key client ;;
  c ← client_at client;
  name ← lift (deref (lc_accountName c));
  match client_auth c name (aligned_init (junk SIZEOF_ClientLoginAuth) SIZEOF_ClientLoginAuth) with
  | (Ok _, a) => tcp_client_send i (take (Z.to_nat SIZEOF_ClientLoginAuth) (buffer a))
  | (Throw e, _) => throw e
  | (Fault, _) => fault
  end.

Definition tcp_client_handle_op_client_login_response (i : nat) (a : Aligned) : code Login unit :=
  c ← tcp_at i;
  if negb (tcp_client_has_login_server c) || (aligned_remaining a <? SIZEOF_ClientLoginResponse) then mret tt
  else
    '(accountId, response) ← reading (accountId ← aligned_read_uint32; _ ← aligned_advance 4;
                                      response ← aligned_read_int8; mret (accountId, response)) a;
    client ← client_list_get accountId;
    match client with
    | None => mret tt
    | Some client =>
        (if response =? LOGIN_RESPONSE_ACCEPTED then tcp_client_send_client_auth i client else mret tt) ;;
        login_client_trilogy_handle_login_response junk client response
    end.

Definition tcp_client_handle_packet (i : nat) : code Login unit :=
  c ← tcp_at i;
  s ← get;
  recvBuf ← lift (deref (recvBufs s !! tc_recvBuf c));
  match (opcode ← aligned_read_uint16; _ ← aligned_advance 2; mret opcode)
      (aligned_init recvBuf (u32 (tc_readLength c))) with
  | (Ok opcode, a) =>
      if opcode =? TcpOp_NewLoginServer then tcp_client_handle_op_new_login_server i a
      else if opcode =? TcpOp_LoginServerStatus then tcp_client_handle_op_login_server_status i a
      else if opcode =? TcpOp_ClientLoginResponse then tcp_client_handle_op_client_login_response i a
      else mret tt
  | (Throw e, _) => throw e
  | (Fault, _) => fault
  end.

(** ** The stream *)

(** recv of at most [size] bytes into [recvBuf + at_]: no byte fits when [size]
    is 0, and a negative size is taken as a huge one. What goes past the
    buffer's end is undefined. *)
Definition recv_into (recvBuf : nat) (at_ size : Z) : code Login recv_result :=
  if size =? 0 then mret RemoteClosed
  else
    s ← get;
    match netIn s with
    | [] => mret NothingYet
    | r :: rs =>
        modify (set_net rs (netOut s) (sentBytes s)) ;;
        match r with
        | Received bytes =>
            let bytes := if 0 <? size then take (Z.to_nat size) bytes else bytes in
            old ← lift (deref (recvBufs s !! recvBuf));
            if (at_ <? 0) || (TCP_CLIENT_BUFFER_SIZE <? at_ + Z.of_nat (length bytes)) then fault
            else
              modify (set_bufs (<[recvBuf := take (Z.to_nat at_) old ++ bytes ++
                drop (Z.to_nat at_ + length bytes) old]> (recvBufs s)) (nextBuf s)) ;;
              mret (Received bytes)
        | r => mret r
        end
    end.

(** Writing a field through the pointer [cli]; the slot may have been popped. *)
Definition touch_tcp (i : nat) (f : TcpClient → TcpClient) : code Login unit :=
  modify (λ s, set_tcp (alter f i (tcpClients s)) s).

(** The part of the loop from the label redo on, and whether the client was
    closed; [fd], [recvBuf] and the two counts are local variables. *)
Fixpoint redo (fuel : nat) (i recvBuf : nat) (buffered readLength : Z) : code Login bool :=
  match fuel with
  | O => fault
  | S fuel =>
      r ← recv_into recvBuf buffered (readLength - buffered);
      match r with
      | NothingYet | RecvError => mret false
      | RemoteClosed => tcp_server_handle_closed_client i ;; mret true
      | Received bytes =>
          let buffered := buffered + Z.of_nat (length bytes) in
          if buffered =? readLength then
            if buffered =? SIZEOF_TcpPacketHeader then
              s ← get;
              buf ← lift (deref (recvBufs s !! recvBuf));
              let readLength := default 0 (buf !! 2%nat) + 256 * default 0 (buf !! 3%nat) in
              touch_tcp i (set_read_length readLength) ;;
              redo fuel i recvBuf buffered readLength
            else
              tcp_client_handle_packet i ;;
              touch_tcp i (set_buffered 0) ;;
              touch_tcp i (set_read_length SIZEOF_TcpPacketHeader) ;;
              redo fuel i recvBuf 0 SIZEOF_TcpPacketHeader
          else touch_tcp i (set_buffered buffered) ;; mret false
      end
  end.

Fixpoint recv_loop (fuel : nat) (i n : nat) : code Login unit :=
  match fuel with
  | O => mret tt
  | S fuel =>
      if (i <? n)%nat then
        c ← tcp_at i;
        s ← get;
        closed ← redo (S (length (netIn s))) i (tc_recvBuf c) (tc_buffered c) (tc_readLength c);
        if (closed : bool) then recv_loop fuel i (n - 1) else recv_loop fuel (S i) n
      else mret tt
  end.

Definition tcp_server_recv : code Login unit :=
  s ← get; recv_loop (length (tcpClients s)) 0 (length (tcpClients s)).
End Server.
