(* ===== verification/LoginRegistry.v ===== *)
(** The login server's connections and its list of servers belong together:
    every connection that announced a server names that server's place in the
    list, through every reordering of the two arrays. Then the byte streams
    (tcp_server.c: tcp_server_recv, tcp_client.c: tcp_client_send): a packet that
    comes with its header is handled, and where a stream loses its place. *)

From S2P Require Import Prelude Aligned Text Servers Login LoginTrilogy LoginServer.

(** ** Connections and the listings they name *)
Definition listing (l : list ServerListing) (c : TcpClient) : option ServerListing :=
  if tcp_client_has_login_server c then l !! Z.to_nat (loginServerIndex c) else None.

(** A connection, whatever its index is, with the listing it names. *)
Definition entry (l : list ServerListing) (c : TcpClient) : TcpClient * option ServerListing :=
  (set_server_index 0 c, listing l c).

Definition connections (s : Login) : list (TcpClient * option ServerListing) := entry (servers s) <$> tcpClients s.

Definition indexes (l : list TcpClient) : list Z := filter (λ k, k ≠ -1) (loginServerIndex <$> l).

(** Each listing has exactly one connection. *)
Definition coherent (s : Login) : Prop := indexes (tcpClients s) ≡ₚ seqZ 0 (Z.of_nat (length (servers s))).

#[export] Instance indexes_perm : Proper ((≡ₚ) ==> (≡ₚ)) indexes.
Proof. intros l l' H. unfold indexes. by rewrite H. Qed.

Lemma elem_of_indexes l k : k ∈ indexes l ↔ k ≠ -1 ∧ ∃ c, c ∈ l ∧ loginServerIndex c = k.
Proof. unfold indexes. rewrite list_elem_of_filter, list_elem_of_fmap. naive_solver. Qed.

Lemma indexes_cons c l :
  indexes (c :: l) = (if tcp_client_has_login_server c then [loginServerIndex c] else []) ++ indexes l.
Proof.
  unfold indexes, tcp_client_has_login_server. simpl. rewrite filter_cons.
  destruct (Z.eqb_spec (loginServerIndex c) (-1)); case_decide; done.
Qed.

Lemma coherent_range s c : coherent s → c ∈ tcpClients s → tcp_client_has_login_server c = true →
  0 ≤ loginServerIndex c < Z.of_nat (length (servers s)).
Proof.
  intros Hs Hc Hh. assert (loginServerIndex c ∈ indexes (tcpClients s)) as H.
  { apply elem_of_indexes. split; [|eauto]. unfold tcp_client_has_login_server in Hh. lia. }
  unfold coherent in Hs. rewrite Hs, elem_of_seqZ in H. lia.
Qed.

Lemma coherent_no_dup s : coherent s → NoDup (indexes (tcpClients s)).
Proof. unfold coherent. intros ->. apply NoDup_seqZ. Qed.

(** Moving the back server's index to [k]. *)
Definition moved (from to j : Z) : Z := if j =? from then to else j.
Definition move (from to : Z) (c : TcpClient) : TcpClient := set_server_index (moved from to (loginServerIndex c)) c.

Lemma move_id from to c : loginServerIndex c ≠ from → move from to c = c.
Proof. intros H. unfold move, moved. rewrite (proj2 (Z.eqb_neq _ _) H). by destruct c. Qed.

Lemma retarget_moves from to l : from ≠ -1 → NoDup (indexes l) → retarget from to l = move from to <$> l.
Proof.
  intros Hf. induction l as [|c l IH]; [done|]. rewrite indexes_cons. intros Hd. simpl.
  destruct (Z.eqb_spec (loginServerIndex c) from) as [He|Hne].
  - f_equal; [unfold move, moved; by rewrite He, Z.eqb_refl|]. rewrite <- (list_fmap_id l) at 1.
    apply list_fmap_ext. intros j c' Hc'. symmetry. apply move_id. intros He'.
    unfold tcp_client_has_login_server in Hd. rewrite He in Hd. rewrite (proj2 (Z.eqb_neq _ _) Hf) in Hd.
    apply NoDup_cons in Hd as [Hd _]. apply Hd, elem_of_indexes. split; [done|]. exists c'.
    split; [by eapply list_elem_of_lookup_2|done].
  - rewrite move_id by done. f_equal. apply IH. by apply NoDup_app in Hd as (_ & _ & ?).
Qed.

Lemma indexes_move from to l : from ≠ -1 → to ≠ -1 → indexes (move from to <$> l) = moved from to <$> indexes l.
Proof.
  intros Hf Ht. induction l as [|c l IH]; [done|]. rewrite fmap_cons, !indexes_cons, IH, fmap_app. f_equal.
  unfold tcp_client_has_login_server, move, moved. simpl.
  destruct (Z.eqb_spec (loginServerIndex c) from) as [He|?].
  { rewrite (proj2 (Z.eqb_neq _ _) Ht), He, (proj2 (Z.eqb_neq _ _) Hf). simpl. by rewrite Z.eqb_refl. }
  destruct (Z.eqb_spec (loginServerIndex c) (-1)); [done|]. simpl. by rewrite (proj2 (Z.eqb_neq _ _)) by done.
Qed.

(** The indexes that stay after [k] is taken out and the back moved there. *)
Lemma moved_indexes k n F : k :: F ≡ₚ seqZ 0 n → moved (n - 1) k <$> F ≡ₚ seqZ 0 (n - 1).
Proof.
  intros HF. assert (HkF : k ∉ F ∧ NoDup F) by (apply NoDup_cons; rewrite HF; apply NoDup_seqZ).
  assert (Hin : ∀ z, z = k ∨ z ∈ F ↔ 0 ≤ z < 0 + n) by (intros z; by rewrite <- elem_of_seqZ, <- HF, elem_of_cons).
  destruct HkF as [HkF HdF]. pose proof (proj1 (Hin k) (or_introl eq_refl)).
  apply NoDup_Permutation; [|apply NoDup_seqZ|].
  - apply NoDup_fmap_2_strong; [|done]. intros x y Hx Hy. unfold moved.
    destruct (Z.eqb_spec x (n - 1)) as [->|], (Z.eqb_spec y (n - 1)) as [->|]; [done|by intros ->|by intros ->|done].
  - intros z. rewrite list_elem_of_fmap, elem_of_seqZ. unfold moved. split.
    + intros (j & -> & Hj). pose proof (proj1 (Hin j) (or_intror Hj)).
      destruct (Z.eqb_spec j (n - 1)) as [->|]; [|lia]. assert (k ≠ n - 1) by (by intros ->). lia.
    + intros Hz. destruct (decide (z = k)) as [->|Hzk].
      * exists (n - 1). rewrite Z.eqb_refl. split; [done|]. destruct (proj2 (Hin (n - 1))) as [?|?]; [lia|lia|done].
      * exists z. destruct (Z.eqb_spec z (n - 1)); [lia|]. split; [done|]. destruct (proj2 (Hin z)) as [?|?]; [lia|done|done].
Qed.

(** ** Closing a connection *)
Definition without_listing (s : Login) (c : TcpClient) : list ServerListing :=
  if tcp_client_has_login_server c then swap_out (Z.to_nat (loginServerIndex c)) (servers s) else servers s.

Definition retargeted (s : Login) (c : TcpClient) : list TcpClient :=
  if tcp_client_has_login_server c then move (Z.of_nat (length (servers s)) - 1) (loginServerIndex c) <$> tcpClients s
  else tcpClients s.

Definition closed (c : TcpClient) : TcpClient :=
  mkTcp INVALID_SOCKET (tc_buffered c) (tc_readLength c) (loginServerIndex c) (tc_address c) (tc_recvBuf c) (tc_isLocal c).

Lemma retargeted_lookup s i c : coherent s → tcpClients s !! i = Some c →
  ∃ c', retargeted s c !! i = Some c' ∧ tc_recvBuf c' = tc_recvBuf c.
Proof.
  intros Hs Hi. unfold retargeted. destruct (tcp_client_has_login_server c); [|by exists c].
  rewrite list_lookup_fmap, Hi. simpl. by eexists.
Qed.

(** What the function does, in one piece. *)
Lemma close_eq s i c : coherent s → tcpClients s !! i = Some c →
  ∃ c', tcp_server_handle_closed_client i s =
    (Ok tt, set_tcp (swap_out i (<[i := c']> (retargeted s c)))
              (set_bufs (delete (tc_recvBuf c) (recvBufs s)) (nextBuf s) (set_servers (without_listing s c) s))).
Proof.
  intros Hs Hi. destruct (retargeted_lookup s i c Hs Hi) as (c' & Hc' & Hb). exists (closed c').
  unfold tcp_server_handle_closed_client, tcp_client_deinit, upd_tcp, tcp_at, server_list_remove_by_index, without_listing, retargeted in *.
  run. rewrite Hi. run. destruct (tcp_client_has_login_server c) eqn:Hh; cycle 1.
  { run. rewrite Hi. run. simpl. rewrite Hi. run. simpl. rewrite Hi in Hc'. injection Hc' as <-. by destruct s. }
  pose proof (coherent_range s c Hs ltac:(by eapply list_elem_of_lookup_2) Hh) as Hr.
  pose proof (coherent_no_dup s Hs) as HN.
  run. rewrite (proj2 (Z.leb_le 0 (loginServerIndex c))) by lia.
  rewrite (proj2 (Z.ltb_lt (loginServerIndex c) _)) by lia. simpl.
  assert (Hl : Z.of_nat (length (swap_out (Z.to_nat (loginServerIndex c)) (servers s))) = Z.of_nat (length (servers s)) - 1)
    by (rewrite swap_out_length; lia).
  rewrite Hl. rewrite list_lookup_fmap, Hi in Hc'. injection Hc' as <-.
  destruct (Z.ltb_spec 0 (Z.of_nat (length (servers s)) - 1)); run; simpl.
  - rewrite retarget_moves by (try done; lia). rewrite !list_lookup_fmap, Hi. simpl. by destruct s.
  - assert (He : move (Z.of_nat (length (servers s)) - 1) (loginServerIndex c) <$> tcpClients s = tcpClients s).
    { rewrite <- (list_fmap_id (tcpClients s)) at 2. apply list_fmap_ext. intros j d Hd. unfold move, moved.
      destruct (Z.eqb_spec (loginServerIndex d) (Z.of_nat (length (servers s)) - 1)) as [Hd'|]; [|by destruct d].
      replace (loginServerIndex c) with (loginServerIndex d) by lia. by destruct d. }
    rewrite He, Hi. simpl.
    apply (f_equal (lookup i)) in He. rewrite list_lookup_fmap, Hi in He. injection He as He. rewrite He. by destruct s.
Qed.

Lemma delete_fmap {A B} (f : A → B) i (l : list A) : delete i (f <$> l) = f <$> delete i l.
Proof. by rewrite !delete_take_drop, fmap_app, fmap_take, fmap_drop. Qed.

(** The others, as they are stored afterwards, up to their order. *)
Lemma others_perm s i c c' : tcpClients s !! i = Some c →
  swap_out i (<[i := c']> (retargeted s c)) ≡ₚ
  (if tcp_client_has_login_server c then move (Z.of_nat (length (servers s)) - 1) (loginServerIndex c) else id)
    <$> delete i (tcpClients s).
Proof.
  intros Hi. pose proof (lookup_lt_Some _ _ _ Hi).
  unfold retargeted. destruct (tcp_client_has_login_server c).
  - rewrite swap_out_insert by (by rewrite length_fmap). by rewrite delete_fmap.
  - rewrite swap_out_insert by done. by rewrite list_fmap_id.
Qed.

Lemma entry_move s c d : coherent s → tcp_client_has_login_server c = true → c ∈ tcpClients s →
  (tcp_client_has_login_server d = true → 0 ≤ loginServerIndex d < Z.of_nat (length (servers s))) →
  loginServerIndex d ≠ loginServerIndex c →
  entry (without_listing s c) (move (Z.of_nat (length (servers s)) - 1) (loginServerIndex c) d) = entry (servers s) d.
Proof.
  intros Hs Hh Hc Hd Hne. pose proof (coherent_range s c Hs Hc Hh) as Hr. unfold entry. f_equal.
  unfold without_listing, listing in *. rewrite Hh. unfold tcp_client_has_login_server, move, moved in *. simpl.
  destruct (Z.eqb_spec (loginServerIndex d) (-1)) as [->|Hd1].
  { by rewrite (proj2 (Z.eqb_neq (-1) _)) by lia. }
  specialize (Hd eq_refl). simpl.
  rewrite <- (swap_out_lookup (Z.to_nat (loginServerIndex c)) (Z.to_nat (loginServerIndex d))) by lia.
  destruct (Z.eqb_spec (loginServerIndex d) (Z.of_nat (length (servers s)) - 1)).
  - rewrite decide_True by lia. by rewrite (proj2 (Z.eqb_neq _ (-1))) by lia.
  - rewrite decide_False by lia. by rewrite (proj2 (Z.eqb_neq _ (-1))) by lia.
Qed.

Lemma close_ok s i c : coherent s → tcpClients s !! i = Some c →
  ∃ s', tcp_server_handle_closed_client i s = (Ok tt, s') ∧ coherent s' ∧
    entry (servers s) c :: connections s' ≡ₚ connections s ∧
    option_list (listing (servers s) c) ++ servers s' ≡ₚ servers s ∧
    recvBufs s' = delete (tc_recvBuf c) (recvBufs s).
Proof.
  intros Hs Hi. destruct (close_eq s i c Hs Hi) as (c' & ->). eexists. split; [done|].
  pose proof (others_perm s i c c' Hi) as Ho. pose proof (delete_Permutation _ _ _ Hi) as Hp.
  assert (Hc : c ∈ tcpClients s) by (by eapply list_elem_of_lookup_2). revert Ho Hp.
  generalize (delete i (tcpClients s)) as rest. intros rest Ho Hp.
  unfold coherent, connections. simpl. rewrite Ho, Hp, fmap_cons. unfold listing, without_listing.
  destruct (tcp_client_has_login_server c) eqn:Hh; cycle 1.
  { rewrite list_fmap_id. split_and!; [|done..]. unfold coherent in Hs. by rewrite Hp, indexes_cons, Hh in Hs. }
  pose proof (coherent_range s c Hs Hc Hh) as Hr.
  assert (HF : loginServerIndex c :: indexes (rest) ≡ₚ seqZ 0 (Z.of_nat (length (servers s)))).
  { unfold coherent in Hs. by rewrite Hp, indexes_cons, Hh in Hs. }
  split_and!.
  - rewrite indexes_move, swap_out_length by lia. rewrite Nat2Z.inj_sub by lia. by apply moved_indexes.
  - apply Permutation_skip. rewrite <- list_fmap_compose. apply reflexive_eq, list_fmap_ext. intros j d Hd.
    assert (Hd' : d ∈ rest) by (by eapply list_elem_of_lookup_2). simpl.
    rewrite <- (entry_move s c d Hs Hh Hc); [unfold without_listing; by rewrite Hh| |].
    + intros Hhd. apply coherent_range; [done| |done]. rewrite Hp. by right.
    + intros He. assert (HN : NoDup (loginServerIndex c :: indexes (rest))) by (rewrite HF; apply NoDup_seqZ).
      apply NoDup_cons in HN as [HN _]. apply HN, elem_of_indexes. split; [lia|eauto].
  - destruct (lookup_lt_is_Some_2 (servers s) (Z.to_nat (loginServerIndex c))) as [v Hv]; [lia|].
    rewrite Hv. simpl. by apply swap_out_perm.
  - done.
Qed.

(** ** Every operation of the server side keeps the arrays coherent

    They also leave alone what the login of a client depends on: everything of
    the clients but the session key and the scheduled packets, the queries, and
    the list of logged in clients. *)
Definition core (c : LoginClient) :=
  (lc_state c, lc_handler c, lc_refCount c, lc_accountName c, lc_accountId c, (lc_passwordTemp c, lc_passwordLength c)).

Definition quiet (s s' : Login) : Prop :=
  core <$> loginClients s' = core <$> loginClients s ∧ queries s' = queries s ∧ clientList s' = clientList s ∧
  handlerDrops s' = handlerDrops s.

Lemma quiet_refl s : quiet s s.
Proof. by split_and!. Qed.

Lemma quiet_trans s1 s2 s3 : quiet s1 s2 → quiet s2 s3 → quiet s1 s3.
Proof. intros (? & ? & ? & ?) (? & ? & ? & ?). unfold quiet. split_and!; congruence. Qed.

(** A server announces itself: its listing is new, and only its connection
    names another listing than before. *)
Lemma announce_ok s i c sv : coherent s → tcpClients s !! i = Some c → tcp_client_has_login_server c = false →
  let sv' := mkServer (sv_status sv) (sv_rank sv) (sv_playerCount sv)
    (match sv_longName sv with Some n => Z.of_nat (length n) + 1 | None => 0 end)
    (Z.of_nat (length (sv_remoteIpAddress sv)) + 1)
    (sv_longName sv) (sv_shortName sv) (sv_remoteIpAddress sv) (sv_localIpAddress sv) (sv_isLocal sv) in
  ∃ s', (index ← server_list_add sv; upd_tcp i (set_server_index index)) s = (Ok tt, s') ∧ coherent s' ∧ quiet s s' ∧
    servers s' = servers s ++ [sv'] ∧
    connections s' = <[i := (set_server_index 0 c, Some sv')]> (connections s).
Proof.
  intros Hs Hi Hh sv'. unfold server_list_add, upd_tcp, tcp_at. run. simpl. rewrite Hi. simpl. eexists.
  split; [done|]. split; [|split; [by split_and!|split; [done|]]].
  - unfold coherent in *. simpl. rewrite length_app in *. simpl.
    rewrite list_insert_take_drop by (by eapply lookup_lt_Some).
    rewrite <- (take_drop_middle _ _ _ Hi) in Hs. rewrite <- Permutation_middle, indexes_cons in Hs |- *.
    rewrite Hh in Hs. simpl in Hs. rewrite Hs. unfold tcp_client_has_login_server. simpl.
    rewrite (proj2 (Z.eqb_neq _ _)) by lia. simpl.
    replace (Z.of_nat (length (servers s) + 1) - 1) with (0 + Z.of_nat (length (servers s))) by lia.
    rewrite Nat2Z.inj_add, seqZ_app by lia. rewrite (Permutation_app_comm (seqZ 0 _)). done.
  - unfold connections. simpl. rewrite list_fmap_insert. apply list_eq. intros j.
    pose proof (lookup_lt_Some _ _ _ Hi). destruct (decide (j = i)) as [->|Hne].
    + rewrite !list_lookup_insert_eq by (by rewrite length_fmap). f_equal. unfold entry, listing, tcp_client_has_login_server.
      simpl. rewrite length_app. simpl. rewrite (proj2 (Z.eqb_neq _ _)) by lia. simpl.
      replace (Z.to_nat _) with (length (servers s)) by lia. by rewrite list_lookup_middle.
    + rewrite !list_lookup_insert_ne by done. rewrite !list_lookup_fmap.
      destruct (tcpClients s !! j) as [d|] eqn:Hj; [|done]. simpl. f_equal. unfold entry, listing.
      destruct (tcp_client_has_login_server d) eqn:Hd; [|done]. f_equal.
      pose proof (coherent_range s d Hs ltac:(by eapply list_elem_of_lookup_2) Hd). by rewrite lookup_app_l by lia.
Qed.

(** A listing as the server list holds it: its texts come from fixed fields and
    its lengths are those of its texts. *)
Definition valid_text (bound : Z) (bs : list Z) : Prop := Z.of_nat (length bs) < bound ∧ Forall (λ b, b ≠ 0) bs.

Definition valid_listing (sv : ServerListing) : Prop :=
  match sv_longName sv with
  | Some name => valid_text SIZEOF_longName name ∧ sv_nameLength sv = Z.of_nat (length name) + 1
  | None => sv_nameLength sv = 0
  end ∧
  valid_text SIZEOF_remoteAddress (sv_remoteIpAddress sv) ∧
  sv_remoteAddressLength sv = Z.of_nat (length (sv_remoteIpAddress sv)) + 1 ∧
  valid_text SIZEOF_localAddress (sv_localIpAddress sv).

Lemma fixed_field_ok n a bs a' : tcp_client_string_from_fixed_field n a = (Ok bs, a') → 0 < n → valid_text n bs.
Proof.
  unfold tcp_client_string_from_fixed_field. run. intros H Hn.
  destruct (strlen (drop (Z.to_nat (cursor a)) (buffer a))) as [len|e|] eqn:Hs; [|done..].
  destruct (strlen_take _ _ Hs) as [H0 Hl].
  destruct (aligned_advance n a) as [[?|e|] ?]; [|done..]. injection H as <- <-. split.
  - rewrite length_take. destruct (Z.leb_spec n len); lia.
  - destruct (Z.leb_spec n len); [|done].
    replace (Z.to_nat (n - 1)) with (Z.to_nat (n - 1) `min` Z.to_nat len)%nat by lia. rewrite <- take_take. by apply Forall_take.
Qed.

(** What a server announces, and what server_list_add makes of it. *)
Lemma parse_ok ip isLocal a sv a' : parse_new_login_server ip isLocal a = (Ok sv, a') →
  ∃ name, sv_longName sv = Some name ∧ valid_text SIZEOF_longName name ∧
    valid_text SIZEOF_remoteAddress (sv_remoteIpAddress sv) ∧ valid_text SIZEOF_localAddress (sv_localIpAddress sv).
Proof.
  unfold parse_new_login_server. unfold mbind, code_bind. intros H.
  destruct (tcp_client_string_from_fixed_field SIZEOF_longName a) as [[name|e|] a1] eqn:E1; [|done..].
  destruct (tcp_client_string_from_fixed_field SIZEOF_shortName a1) as [[short|e|] a2] eqn:E2; [|done..].
  destruct (aligned_peek_uint8 a2) as [[first|e|] a3]; [|done..].
  match type of H with (let (_, _) := ?x in _) = _ => destruct x as [[remote|e|] a4] eqn:E4 end; [|done..].
  destruct (tcp_client_string_from_fixed_field SIZEOF_localAddress a4) as [[local|e|] a5] eqn:E5; [|done..].
  injection H as <- <-. exists name. simpl. split; [done|]. split; [by eapply fixed_field_ok|].
  split; [|by eapply fixed_field_ok]. destruct (negb (first =? 0)); [by eapply fixed_field_ok|].
  destruct (aligned_advance SIZEOF_remoteAddress a3) as [[?|e|] ?]; [|done..]. injection E4 as <- <-.
  split; [pose proof (dotted_length ip); unfold SIZEOF_remoteAddress; lia|apply dotted_no_nul].
Qed.

(** Coherent, listing what servers announced, and as [s0] for the clients' logins. *)
Definition kept (s0 s : Login) : Prop := coherent s ∧ Forall valid_listing (servers s) ∧ quiet s0 s.

Section Kept.
Context (s0 : Login).

Lemma kept_same s s' : loginServerIndex <$> tcpClients s' = loginServerIndex <$> tcpClients s →
  servers s' = servers s → quiet s s' → kept s0 s → kept s0 s'.
Proof.
  intros Hi Hl Hq (Hc & Hv & Hs). split; [|split; [by rewrite Hl|by eapply quiet_trans]]. unfold coherent, indexes.
  by rewrite Hi, Hl.
Qed.

Lemma keeps_close i : keeps (kept s0) (tcp_server_handle_closed_client i).
Proof.
  intros s (Hs & Hv & Hq). destruct (tcpClients s !! i) as [c|] eqn:Hi.
  - destruct (close_ok s i c Hs Hi) as (s' & He & Hs' & _ & Hp & _). split; [by rewrite He|].
    split; [rewrite He; simpl; rewrite <- Hp in Hv; by apply Forall_app in Hv as [_ ?]|].
    destruct (close_eq s i c Hs Hi) as (c' & ->). eapply quiet_trans; [exact Hq|by split_and!].
  - unfold tcp_server_handle_closed_client, tcp_at. run. by rewrite Hi.
Qed.

Lemma keeps_upd_tcp i f : (∀ c, loginServerIndex (f c) = loginServerIndex c) → keeps (kept s0) (upd_tcp i f).
Proof.
  intros Hf s Hs. unfold upd_tcp, tcp_at. run. destruct (tcpClients s !! i) as [c|] eqn:Hi; simpl; [|done].
  apply (kept_same s); [|done..]. simpl. rewrite list_fmap_insert, Hf, list_insert_id; [done|].
  by rewrite list_lookup_fmap, Hi.
Qed.

Lemma keeps_touch_tcp i f : (∀ c, loginServerIndex (f c) = loginServerIndex c) → keeps (kept s0) (touch_tcp i f).
Proof.
  intros Hf s Hs. unfold touch_tcp. run. apply (kept_same s); [|done..]. simpl.
  apply list_eq. intros j. rewrite !list_lookup_fmap. destruct (decide (j = i)) as [->|].
  - rewrite list_lookup_alter_eq. destruct (tcpClients s !! i); simpl; [by rewrite Hf|done].
  - by rewrite list_lookup_alter_ne.
Qed.

Lemma keeps_tcp_at i : keeps (kept s0) (tcp_at i).
Proof. by intros s. Qed.
Lemma keeps_client_at id : keeps (kept s0) (client_at id).
Proof. by intros s. Qed.

(** [unaffected]: a change of other parts of the state. *)
Ltac unaffected := intros ? ?; by eapply kept_same.
#[local] Hint Extern 1 (keeps (kept s0) (modify _)) => apply keeps_modify; unaffected : keeps.
#[local] Hint Extern 1 (keeps (kept s0) (touch_tcp _ _)) => by apply keeps_touch_tcp : keeps.
#[local] Hint Resolve keeps_close keeps_tcp_at keeps_client_at : keeps.

Lemma keeps_upd_client id f : (∀ c, core (f c) = core c) → keeps (kept s0) (upd_client id f).
Proof.
  intros Hf s Hs. unfold upd_client, client_at, put_client. run. destruct (loginClients s !! id) as [c|] eqn:Hc; simpl; [|done].
  apply (kept_same s); [done..| |exact Hs]. split_and!; [|done..]. simpl. rewrite fmap_insert, Hf. apply insert_id.
  by rewrite lookup_fmap, Hc.
Qed.
#[local] Hint Extern 1 (keeps (kept s0) (upd_client _ _)) => by apply keeps_upd_client : keeps.
Lemma keeps_random_uint32 : keeps (kept s0) random_uint32.
Proof. intros s Hs. unfold random_uint32. destruct (randoms s); [done|]. by eapply kept_same. Qed.
#[local] Hint Resolve keeps_random_uint32 : keeps.
Lemma keeps_random_key n : keeps (kept s0) (random_key n).
Proof. induction n; simpl; keeps_steps. Qed.
#[local] Hint Resolve keeps_random_key : keeps.

Lemma keeps_send_loop results i fd data sent : keeps (kept s0) (send_loop results i fd data sent).
Proof. revert sent. induction results as [|r results IH]; intros sent; simpl; unfold tcp_server_close_client; keeps_steps. Qed.
#[local] Hint Resolve keeps_send_loop : keeps.
Lemma keeps_tcp_client_send i data : keeps (kept s0) (tcp_client_send i data).
Proof. unfold tcp_client_send. keeps_steps. Qed.
#[local] Hint Resolve keeps_tcp_client_send : keeps.

Lemma keeps_schedule_packet junk id opcode len w : keeps (kept s0) (schedule_packet junk id opcode len w).
Proof. unfold schedule_packet. keeps_steps. Qed.
#[local] Hint Resolve keeps_schedule_packet : keeps.
Lemma keeps_login_response junk id response : keeps (kept s0) (login_client_trilogy_handle_login_response junk id response).
Proof. unfold login_client_trilogy_handle_login_response, login_trilogy_err_msg. keeps_steps. Qed.
#[local] Hint Resolve keeps_login_response : keeps.

Lemma keeps_update_by_index index playerCount status : keeps (kept s0) (server_list_update_by_index index playerCount status).
Proof.
  apply keeps_modify. intros s (Hs & Hv & Hq). case_match; [|done]. split_and!; [|simpl|].
  - unfold coherent. simpl. by rewrite length_alter.
  - apply Forall_alter; [done|]. intros sv _ Hsv. exact Hsv.
  - eapply quiet_trans; [exact Hq|by split_and!].
Qed.
#[local] Hint Resolve keeps_update_by_index : keeps.

Lemma keeps_accept junk fd addr : keeps (kept s0) (tcp_server_accept junk fd addr).
Proof.
  intros s (Hs & Hv & Hq). split; [|split; [done|eapply quiet_trans; [exact Hq|by split_and!]]].
  unfold tcp_server_accept, tcp_client_init. run. unfold coherent, indexes in *. simpl.
  by rewrite fmap_app, filter_app, app_nil_r.
Qed.

Lemma keeps_new_login_server i a : keeps (kept s0) (tcp_client_handle_op_new_login_server i a).
Proof.
  intros s (Hs & Hv & Hq). unfold tcp_client_handle_op_new_login_server, tcp_at, reading. run.
  destruct (tcpClients s !! i) as [c|] eqn:Hi; simpl; [|done].
  destruct (tcp_client_has_login_server c) eqn:Hh; simpl; [done|]. case_match; simpl; [done|].
  destruct (parse_new_login_server (tc_address c) (tc_isLocal c) a) as [[sv|e|] a'] eqn:Hp; simpl; [|done..].
  destruct (parse_ok _ _ _ _ _ Hp) as (name & Hn & Hok).
  destruct (announce_ok s i c sv Hs Hi Hh) as (s' & He & ? & ? & Hsv & _).
  change (kept s0 (snd ((index ← server_list_add sv; upd_tcp i (set_server_index index)) s))). rewrite He.
  split; [done|]. split; [|by eapply quiet_trans]. simpl. rewrite Hsv. apply Forall_app. split; [done|].
  apply Forall_singleton. unfold valid_listing. simpl. rewrite Hn. naive_solver.
Qed.
#[local] Hint Resolve keeps_new_login_server : keeps.

Section Reception.
Context (junk : Z → list Z).

Lemma keeps_generate_session_key id : keeps (kept s0) (login_client_generate_session_key id).
Proof. unfold login_client_generate_session_key. keeps_steps. Qed.
#[local] Hint Resolve keeps_generate_session_key : keeps.

Lemma keeps_status i a : keeps (kept s0) (tcp_client_handle_op_login_server_status i a).
Proof. unfold tcp_client_handle_op_login_server_status, reading, tcp_client_keep_alive. keeps_steps. Qed.
#[local] Hint Resolve keeps_status : keeps.

Lemma keeps_response i a : keeps (kept s0) (tcp_client_handle_op_client_login_response junk i a).
Proof.
  unfold tcp_client_handle_op_client_login_response, reading, client_list_get, tcp_client_send_client_auth. keeps_steps.
Qed.
#[local] Hint Resolve keeps_response : keeps.

Lemma keeps_handle_packet i : keeps (kept s0) (tcp_client_handle_packet junk i).
Proof. unfold tcp_client_handle_packet. keeps_steps. Qed.
#[local] Hint Resolve keeps_handle_packet : keeps.

Lemma keeps_recv_into recvBuf at_ size : keeps (kept s0) (recv_into recvBuf at_ size).
Proof. unfold recv_into. keeps_steps. Qed.
#[local] Hint Resolve keeps_recv_into : keeps.

Lemma keeps_redo fuel i recvBuf buffered readLength : keeps (kept s0) (redo junk fuel i recvBuf buffered readLength).
Proof. revert buffered readLength. induction fuel as [|fuel IH]; intros; simpl; keeps_steps. Qed.
#[local] Hint Resolve keeps_redo : keeps.

Lemma keeps_recv_loop fuel i n : keeps (kept s0) (recv_loop junk fuel i n).
Proof. revert i n. induction fuel as [|fuel IH]; intros; simpl; keeps_steps. Qed.

Lemma keeps_tcp_server_recv : keeps (kept s0) (tcp_server_recv junk).
Proof. apply keeps_bind; [apply keeps_get|]. intros s. apply keeps_recv_loop. Qed.
End Reception.

Lemma keeps_request_by_ip l i ipAddress accountId : keeps (kept s0) (request_by_ip l i ipAddress accountId).
Proof.
  revert i. induction l as [|sv l IH]; intros i; simpl; [apply keeps_ret|].
  unfold tcp_server_send_client_login_request, tcp_client_send_client_login_request. keeps_steps.
Qed.

End Kept.

(** Closing the connection of a game server takes its listing out of the
    server list, and no other: every other connection is still there and still
    names the listing it announced, although both arrays move their last
    element into the gap. Only the closed connection's buffer is freed. *)
Theorem closed_connection_keeps_the_others (s : Login) (i : nat) (c : TcpClient)
    (Hs : coherent s) (Hi : tcpClients s !! i = Some c) :
  ∃ s', tcp_server_handle_closed_client i s = (Ok tt, s') ∧ coherent s' ∧
    entry (servers s) c :: connections s' ≡ₚ connections s ∧
    option_list (listing (servers s) c) ++ servers s' ≡ₚ servers s ∧
    recvBufs s' = delete (tc_recvBuf c) (recvBufs s).
Proof. by apply close_ok. Qed.

Definition sample_server (name : String.string) : ServerListing :=
  mkServer ServerStatus_Up ServerRank_Standard 0 5 8 (Some (text name)) (text name) (text "1.2.3.4") (text "10.0.0.1") false.
Definition sample_connection (k : nat) (index : Z) : TcpClient := mkTcp (Z.of_nat k + 4) 0 4 index 0x04030201 k false.
Definition sample_login : Login :=
  mkLogin [sample_server "a"; sample_server "b"; sample_server "c"]
    [sample_connection 0 2; sample_connection 1 (-1); sample_connection 2 0; sample_connection 3 1]
    (list_to_map ((λ k, (k, replicate 1024 0)) <$> seq 0 4)) 4 [] ∅ [] [] [] [] [] [].

Example closed_connection_keeps_the_others_witness :
  ∃ s', tcp_server_handle_closed_client 2 sample_login = (Ok tt, s') ∧ coherent s' ∧
    entry (servers sample_login) (sample_connection 2 0) :: connections s' ≡ₚ connections sample_login ∧
    option_list (listing (servers sample_login) (sample_connection 2 0)) ++ servers s' ≡ₚ servers sample_login ∧
    recvBufs s' = delete 2%nat (recvBufs sample_login).
Proof.
  apply (closed_connection_keeps_the_others sample_login 2 (sample_connection 2 0)); [|reflexivity].
  change ([2; 0; 1] ≡ₚ [0; 1; 2]). apply perm_trans with [0; 2; 1]; repeat constructor.
Defined.

(** * The byte streams *)

(** Connection [i] between two packets. *)
Definition at_boundary (s : Login) (i : nat) (c : TcpClient) (buf : list Z) : Prop :=
  tcpClients s !! i = Some c ∧ recvBufs s !! tc_recvBuf c = Some buf ∧ Z.of_nat (length buf) = TCP_CLIENT_BUFFER_SIZE ∧
  tc_buffered c = 0 ∧ tc_readLength c = SIZEOF_TcpPacketHeader.

(** A packet header. *)
Definition header (opcode len : Z) : list Z := le_bytes 2 opcode ++ le_bytes 2 len.

Lemma header_length opcode len : length (header opcode len) = 4%nat.
Proof. done. Qed.

Lemma header_reads opcode len buf : 0 ≤ len < 2 ^ 16 →
  default 0 ((header opcode len ++ buf) !! 2%nat) + 256 * default 0 ((header opcode len ++ buf) !! 3%nat) = len.
Proof.
  intros Hl. unfold header. cbn [le_bytes app lookup list_lookup default].
  unfold wrap. rewrite Z.shiftr_div_pow2 by lia. change (2 ^ 8) with 256.
  rewrite (Z.mod_small (len / 256) 256) by (split; [apply Z.div_pos; lia|apply Z.div_lt_upper_bound; lia]).
  pose proof (Z.div_mod len 256 ltac:(lia)). unfold id. lia.
Qed.

(** Bytes that fit are put where they belong. *)
Lemma recv_into_ok k at_ size bytes rest old s : netIn s = Received bytes :: rest → recvBufs s !! k = Some old →
  0 < size → Z.of_nat (length bytes) ≤ size → 0 ≤ at_ → at_ + Z.of_nat (length bytes) ≤ TCP_CLIENT_BUFFER_SIZE →
  recv_into k at_ size s = (Ok (Received bytes),
    set_bufs (<[k := take (Z.to_nat at_) old ++ bytes ++ drop (Z.to_nat at_ + length bytes) old]> (recvBufs s)) (nextBuf s)
      (set_net rest (netOut s) (sentBytes s) s)).
Proof.
  intros Hn Hk Hs Hl Ha Hb. unfold recv_into. rewrite (proj2 (Z.eqb_neq size 0)) by lia. run. rewrite Hn.
  rewrite (proj2 (Z.ltb_lt 0 size)), take_ge by lia. simpl. rewrite Hk.
  by rewrite (proj2 (Z.ltb_ge at_ 0)), (proj2 (Z.ltb_ge TCP_CLIENT_BUFFER_SIZE _)) by lia.
Qed.

Lemma recv_into_nothing k at_ size rest s : netIn s = NothingYet :: rest → size ≠ 0 →
  recv_into k at_ size s = (Ok NothingYet, set_net rest (netOut s) (sentBytes s) s).
Proof. intros Hn Hs. unfold recv_into. rewrite (proj2 (Z.eqb_neq size 0)) by lia. run. by rewrite Hn. Qed.

(** After the header: the length it announces is kept in the connection. *)
Definition after_header (s : Login) (i : nat) (c : TcpClient) (buf : list Z) (opcode len : Z) (rest : list recv_result) : Login :=
  set_tcp (alter (set_read_length len) i (tcpClients s))
    (set_bufs (<[tc_recvBuf c := header opcode len ++ drop 4 buf]> (recvBufs s)) (nextBuf s)
      (set_net rest (netOut s) (sentBytes s) s)).

Lemma redo_header junk fuel s i c buf opcode len rest : at_boundary s i c buf → 0 ≤ len < 2 ^ 16 →
  netIn s = Received (header opcode len) :: rest →
  redo junk (S fuel) i (tc_recvBuf c) (tc_buffered c) (tc_readLength c) s =
    redo junk fuel i (tc_recvBuf c) 4 len (after_header s i c buf opcode len rest).
Proof.
  intros (Hi & Hb & Hlb & H0 & H4) Hl Hn. cbn [redo]. rewrite H0, H4.
  erewrite bind_ok by (apply recv_into_ok; [done|done|done|done|done|done]).
  cbv beta iota zeta. rewrite header_length. change (0 + Z.of_nat 4 =? SIZEOF_TcpPacketHeader) with true.
  cbv iota. rewrite (bind_ok get _ _ _ _ eq_refl). cbn [recvBufs set_bufs].
  erewrite bind_ok by (rewrite lookup_insert_eq; reflexivity). cbv beta.
  change (take (Z.to_nat 0) buf ++ header opcode len ++ drop (Z.to_nat 0 + 4) buf)
    with (header opcode len ++ drop 4 buf).
  rewrite header_reads by done. by rewrite (bind_ok (touch_tcp i (set_read_length len)) _ _ _ _ eq_refl).
Qed.

(** The body of the packet arrives as the last bytes expected. *)
Definition after_packet (s : Login) (i : nat) (c : TcpClient) (buf : list Z) (opcode len : Z) (body : list Z) (rest : list recv_result) : Login :=
  set_tcp (alter (set_read_length len) i (tcpClients s))
    (set_bufs (<[tc_recvBuf c := header opcode len ++ body ++ drop (Z.to_nat len) buf]> (recvBufs s)) (nextBuf s)
      (set_net rest (netOut s) (sentBytes s) s)).

Lemma redo_body junk fuel s i c buf opcode len body rest : Z.of_nat (length buf) = TCP_CLIENT_BUFFER_SIZE →
  4 < len ≤ TCP_CLIENT_BUFFER_SIZE → Z.of_nat (length body) = len - 4 →
  redo junk (S fuel) i (tc_recvBuf c) 4 len (after_header s i c buf opcode len (Received body :: rest)) =
    (tcp_client_handle_packet junk i ;; touch_tcp i (set_buffered 0) ;; touch_tcp i (set_read_length SIZEOF_TcpPacketHeader) ;;
     redo junk fuel i (tc_recvBuf c) 0 SIZEOF_TcpPacketHeader) (after_packet s i c buf opcode len body rest).
Proof.
  intros Hlb Hl Hbody. cbn [redo].
  erewrite bind_ok by (apply recv_into_ok; [done|apply lookup_insert_eq|lia..]).
  cbv beta iota zeta. rewrite (proj2 (Z.eqb_eq _ _)) by lia. rewrite (proj2 (Z.eqb_neq _ _)) by (unfold SIZEOF_TcpPacketHeader; lia).
  assert (Hbuf : take (Z.to_nat 4) (header opcode len ++ drop 4 buf) ++ body ++
      drop (Z.to_nat 4 + length body) (header opcode len ++ drop 4 buf) = header opcode len ++ body ++ drop (Z.to_nat len) buf).
  { change (Z.to_nat 4) with (length (header opcode len)). rewrite take_app_length, drop_app_add, drop_drop.
    by replace (4 + length body)%nat with (Z.to_nat len) by lia. }
  unfold after_header, after_packet. cbn [recvBufs set_tcp set_bufs set_net]. rewrite Hbuf. unfold set_bufs at 1. cbn -[header].
  by rewrite insert_insert_eq.
Qed.

(** A packet of 5 to 1024 bytes that is there as a whole when its header is
    read is handled once: its handler finds exactly the packet's bytes in the
    connection's buffer and its length in the connection, and afterwards the
    stream is read from the next header on. *)
Theorem whole_packet_is_handled (junk : Z → list Z) (fuel : nat) (s : Login) (i : nat) (c : TcpClient) (buf body : list Z)
    (opcode len : Z) (rest : list recv_result)
    (Hat : at_boundary s i c buf) (Hlen : 4 < len ≤ TCP_CLIENT_BUFFER_SIZE) (Hbody : Z.of_nat (length body) = len - 4)
    (Hin : netIn s = Received (header opcode len) :: Received body :: rest) :
  redo junk (S (S fuel)) i (tc_recvBuf c) (tc_buffered c) (tc_readLength c) s =
    (tcp_client_handle_packet junk i ;; touch_tcp i (set_buffered 0) ;; touch_tcp i (set_read_length SIZEOF_TcpPacketHeader) ;;
     redo junk fuel i (tc_recvBuf c) 0 SIZEOF_TcpPacketHeader)
      (after_packet s i c buf opcode len body rest).
Proof.
  rewrite (redo_header junk (S fuel) s i c buf opcode len (Received body :: rest)); [|done|unfold TCP_CLIENT_BUFFER_SIZE in *; lia|done].
  apply redo_body; [apply Hat|done..].
Qed.

Definition blank (n : Z) : list Z := replicate (Z.to_nat n) 0.

(** A connection between two packets, of the sample server. *)
Definition streaming (ins : list recv_result) : Login := set_net ins [] [] sample_login.

Lemma streaming_at_boundary ins : at_boundary (streaming ins) 1 (sample_connection 1 (-1)) (replicate 1024 0).
Proof. split_and!; [reflexivity|vm_compute; reflexivity|reflexivity..]. Qed.

Example whole_packet_is_handled_witness :
  redo blank 2 1 1 0 4 (streaming [Received (header 0x7777 6); Received [1; 2]]) =
    (tcp_client_handle_packet blank 1 ;; touch_tcp 1 (set_buffered 0) ;; touch_tcp 1 (set_read_length SIZEOF_TcpPacketHeader) ;;
     redo blank 0 1 1 0 SIZEOF_TcpPacketHeader)
      (after_packet (streaming [Received (header 0x7777 6); Received [1; 2]]) 1 (sample_connection 1 (-1)) (replicate 1024 0) 0x7777 6 [1; 2] []).
Proof.
  apply (whole_packet_is_handled blank 0 _ 1 (sample_connection 1 (-1)) (replicate 1024 0) [1; 2] 0x7777 6 []);
    [apply streaming_at_boundary|unfold TCP_CLIENT_BUFFER_SIZE; lia|reflexivity|reflexivity].
Defined.

Lemma touched i f s c : tcpClients s !! i = Some c → alter f i (tcpClients s) !! i = Some (f c).
Proof. intros Hc. by rewrite list_lookup_alter_eq, Hc. Qed.

(** A packet whose header arrives before the rest loses the stream's
    place: when nothing follows the header at once, the announced length is
    kept but the four bytes read are not counted. The rest of the packet is
    then stored as its beginning, the packet is not handled, and the next four
    bytes of the stream are taken as its end. *)
Theorem split_packet_is_lost (junk : Z → list Z) (s : Login) (i : nat) (c : TcpClient) (buf body : list Z)
    (opcode len : Z) (rest : list recv_result)
    (Hat : at_boundary s i c buf) (Hlen : 4 < len ≤ TCP_CLIENT_BUFFER_SIZE) (Hbody : Z.of_nat (length body) = len - 4)
    (Hin : netIn s = Received (header opcode len) :: NothingYet :: Received body :: rest) :
  ∃ s1 c1 s2 c2, redo junk 2 i (tc_recvBuf c) (tc_buffered c) (tc_readLength c) s = (Ok false, s1) ∧
    tcpClients s1 !! i = Some c1 ∧
    redo junk 1 i (tc_recvBuf c1) (tc_buffered c1) (tc_readLength c1) s1 = (Ok false, s2) ∧
    tcpClients s2 !! i = Some c2 ∧ tc_buffered c2 = len - 4 ∧ tc_readLength c2 = len ∧
    (∃ old, recvBufs s2 !! tc_recvBuf c2 = Some (body ++ old)) ∧ netIn s2 = rest ∧ servers s2 = servers s ∧ sentBytes s2 = sentBytes s.
Proof.
  assert (Hl : i16 len = len) by (unfold TCP_CLIENT_BUFFER_SIZE in *; apply sint_small; lia).
  pose proof Hat as (Hi & Hb & Hlb & H0 & H4). unfold TCP_CLIENT_BUFFER_SIZE in *.
  set (s1 := set_net (Received body :: rest) (netOut s) (sentBytes s) (after_header s i c buf opcode len (NothingYet :: Received body :: rest))).
  set (c1 := set_read_length len c).
  set (s2 := set_tcp (alter (set_buffered (len - 4)) i (tcpClients s1))
    (set_bufs (<[tc_recvBuf c := body ++ drop (length body) (header opcode len ++ drop 4 buf)]> (recvBufs s1)) (nextBuf s)
      (set_net rest (netOut s) (sentBytes s) s1))).
  assert (Hc1 : tcpClients s1 !! i = Some c1) by (by apply touched).
  exists s1, c1, s2, (set_buffered (len - 4) c1). split; [|split; [done|split; [|split; [by apply touched|]]]].
  - rewrite (redo_header junk 1 s i c buf opcode len (NothingYet :: Received body :: rest)); [|done|lia|done].
    cbn [redo]. erewrite bind_ok by (apply recv_into_nothing; [done|lia]). done.
  - simpl tc_recvBuf. simpl tc_buffered. simpl tc_readLength. rewrite H0, Hl. cbn [redo].
    erewrite bind_ok by (apply recv_into_ok; [done|apply lookup_insert_eq|unfold TCP_CLIENT_BUFFER_SIZE; lia..]).
    cbv beta iota zeta. rewrite (proj2 (Z.eqb_neq _ _)) by lia. rewrite Z.add_0_l, Hbody. done.
  - split_and!; simpl; try done; [apply sint_small; lia|]. eexists. apply lookup_insert_eq.
Qed.

Example split_packet_is_lost_witness :
  ∃ s1 c1 s2 c2, redo blank 2 1 1 0 4 (streaming [Received (header 0x7777 6); NothingYet; Received [1; 2]]) = (Ok false, s1) ∧
    tcpClients s1 !! 1%nat = Some c1 ∧
    redo blank 1 1 (tc_recvBuf c1) (tc_buffered c1) (tc_readLength c1) s1 = (Ok false, s2) ∧
    tcpClients s2 !! 1%nat = Some c2 ∧ tc_buffered c2 = 2 ∧ tc_readLength c2 = 6 ∧
    (∃ old, recvBufs s2 !! tc_recvBuf c2 = Some ([1; 2] ++ old)) ∧ netIn s2 = [] ∧ servers s2 = servers sample_login ∧ sentBytes s2 = [].
Proof.
  apply (split_packet_is_lost blank (streaming [Received (header 0x7777 6); NothingYet; Received [1; 2]]) 1 (sample_connection 1 (-1)) (replicate 1024 0) [1; 2] 0x7777 6 []);
    [apply streaming_at_boundary|unfold TCP_CLIENT_BUFFER_SIZE; lia|reflexivity|reflexivity].
Defined.

(** ** Sending *)

(** When send would block, the count of bytes sent goes back by one. A
    packet of which the first [k] bytes went out is then continued with its
    [k]-th byte again, so the receiver gets one byte too many; before any byte
    went out, the byte in front of the packet is read. *)
Theorem blocked_send_repeats_byte (s : Login) (i : nat) (c : TcpClient) (data : list Z) (k : nat) (rest : list send_result)
    (Hc : tcpClients s !! i = Some c) (Hk : (k < length data)%nat)
    (Hout : netOut s = (if (k =? 0)%nat then [] else [Sent (Z.of_nat k)]) ++ Again :: Sent (Z.of_nat (length data - (k - 1))) :: rest) :
  if (k =? 0)%nat then fst (tcp_client_send i data s) = Fault
  else fst (tcp_client_send i data s) = Ok tt ∧
       sentBytes (snd (tcp_client_send i data s)) =
         sentBytes s ++ [(socketFd c, take k data); (socketFd c, drop (k - 1) data)].
Proof.
  unfold tcp_client_send, tcp_at. run. rewrite Hc, Hout. destruct (Nat.eqb_spec k 0) as [->|Hne].
  - cbn [app send_loop]. run. rewrite (proj2 (Z.eqb_neq _ _)) by lia. done.
  - cbn [app send_loop]. run. rewrite (proj2 (Z.eqb_neq _ _)) by lia. rewrite (proj2 (Z.ltb_ge (0 + Z.of_nat k) 0)) by lia.
    rewrite (proj2 (Z.eqb_neq _ _)) by lia. rewrite (proj2 (Z.ltb_ge (0 + Z.of_nat k + -1) 0)) by lia.
    rewrite (proj2 (Z.eqb_eq _ _)) by lia. split; [done|]. simpl. rewrite <- app_assoc. simpl.
    replace (Z.to_nat (0 + Z.of_nat k + -1)) with (k - 1)%nat by lia.
    rewrite !Nat2Z.id, (take_ge (drop (k - 1) data)) by (rewrite length_drop; lia). done.
Qed.

Example blocked_send_repeats_byte_witness :
  fst (tcp_client_send 0 [1; 2; 3] (set_net [] [Sent 2; Again; Sent 2] [] sample_login)) = Ok tt ∧
  sentBytes (snd (tcp_client_send 0 [1; 2; 3] (set_net [] [Sent 2; Again; Sent 2] [] sample_login))) =
    [] ++ [(4, [1; 2]); (4, [2; 3])].
Proof.
  apply (blocked_send_repeats_byte (set_net [] [Sent 2; Again; Sent 2] [] sample_login) 0 (sample_connection 0 2) [1; 2; 3] 2 []);
    [reflexivity|simpl; lia|reflexivity].
Defined.
