(* ===== verification/LoginPackets.v ===== *)
(** What the login server sends to its clients: every packet of the login
    protocol is filled to its end with the documented fields. *)

From S2P Require Import Prelude Aligned Text Servers Login LoginTrilogy LoginServer LoginRegistry.

Definition put_to (s : Login) (id : nat) (c : LoginClient) : Login := set_loginClients (<[id := c]> (loginClients s)) s.

Lemma upd_client_ok id c f s : loginClients s !! id = Some c → upd_client id f s = (Ok tt, put_to s id (f c)).
Proof. intros Hc. unfold upd_client, client_at, put_client. run. by rewrite Hc. Qed.

Lemma put_to_lookup s id c : loginClients (put_to s id c) !! id = Some c.
Proof. apply lookup_insert_eq. Qed.

Lemma put_to_twice s id c d : put_to (put_to s id c) id d = put_to s id d.
Proof. unfold put_to, set_loginClients. simpl. by rewrite insert_insert_eq. Qed.

(** The guard of the handlers for clients that logged in. *)
Lemma when_accepted id c (f : LoginClient → code Login unit) s :
  loginClients s !! id = Some c → lc_state c = AcceptedCredentials →
  (c ← client_at id; if negb (lc_state c =? AcceptedCredentials) then mret tt else f c) s = f c s.
Proof. intros Hc Hst. unfold client_at. run. by rewrite Hc, Hst. Qed.

Section Packets.
Context (junk : Z → list Z) (Hjunk : ∀ n, length (junk n) = Z.to_nat n).

Lemma schedule_packet_ok id c opcode n w pat s : loginClients s !! id = Some c → emits w pat →
  Z.of_nat (length pat) ≤ n → n < 2 ^ 32 →
  schedule_packet junk id opcode n w s = (Ok tt, put_to s id (add_scheduled opcode (overlay 0 pat (junk n)) c)).
Proof.
  intros Hc Hw Hn H32. unfold schedule_packet, aligned_init. destruct (Hw (mkAligned 0 n (junk n))) as [Hok _].
  { split_and!; simpl; [lia|lia|rewrite Hjunk; lia|lia]. }
  rewrite Hok by (simpl; lia). simpl. by apply upd_client_ok.
Qed.

(** The three kinds of text packets. *)
Lemma err_msg_ok id c msg s : loginClients s !! id = Some c → Z.of_nat (length msg) < 2 ^ 31 →
  login_trilogy_err_msg junk id msg s = (Ok tt, put_to s id (add_scheduled TrilogyOp_Error (c_string msg) c)).
Proof.
  intros Hc Hl. unfold login_trilogy_err_msg. erewrite schedule_packet_ok; [|done|apply emits_c_string| |lia].
  - rewrite overlay_full; [done|]. rewrite c_string_length, Hjunk. lia.
  - rewrite length_fmap, c_string_length. lia.
Qed.

Lemma version_ok id c s : loginClients s !! id = Some c →
  login_trilogy_handle_op_version junk id s =
    (Ok tt, put_to s id (set_state VersionSent (add_scheduled TrilogyOp_Version (c_string LOGIN_VERSION) c))).
Proof.
  intros Hc. unfold login_trilogy_handle_op_version. unfold mbind, code_bind.
  erewrite schedule_packet_ok; [|done|apply emits_c_string|by rewrite length_fmap, c_string_length|done].
  rewrite overlay_full by (rewrite c_string_length, Hjunk; lia).
  erewrite upd_client_ok by apply put_to_lookup. by rewrite put_to_twice.
Qed.

(** The session id, its terminator, and what is left of the field. *)
Definition session_pattern (accountId : Z) : list (option Z) :=
  let id := take 9 (text "LS#" ++ decimal accountId) in
  (Some <$> c_string id) ++ replicate (9 - length id) None ++ (Some <$> c_string (text "unused")) ++ (Some <$> le_bytes 4 4).

Lemma session_pattern_length accountId : length (session_pattern accountId) = 21%nat.
Proof.
  unfold session_pattern. rewrite !length_app, !length_fmap, length_replicate, !c_string_length, le_bytes_length, length_take.
  change (length (text "unused")) with 6%nat. lia.
Qed.

Definition credentials_accepted (accountId : Z) (c : LoginClient) : LoginClient :=
  set_state AcceptedCredentials (add_scheduled TrilogyOp_Session (overlay 0 (session_pattern accountId) (junk SIZEOF_Session)) c).

Definition credentials_refused (c : LoginClient) : LoginClient := add_scheduled TrilogyOp_Error (c_string ERR_CREDENTIALS) c.

Lemma credentials_result_ok id c accountId s : loginClients s !! id = Some c →
  login_client_trilogy_handle_credentials_result junk id accountId s =
    (Ok tt, put_to s id (if accountId =? 0 then credentials_refused c else credentials_accepted accountId c)).
Proof.
  intros Hc. unfold login_client_trilogy_handle_credentials_result. destruct (accountId =? 0).
  { by apply err_msg_ok. }
  unfold mbind at 1, code_bind at 1. erewrite (schedule_packet_ok _ _ _ _ _ (session_pattern accountId)); [|done| | |done].
  - erewrite upd_client_ok by apply put_to_lookup. by rewrite put_to_twice.
  - unfold session_pattern. rewrite app_assoc. apply emits_seq; [|apply emits_seq; [apply (emits_c_string (text "unused"))|apply emits_uint32]].
    pose proof (emits_snprintf SIZEOF_sessionId (text "LS#" ++ decimal accountId) ltac:(done)) as He.
    change (Z.to_nat (SIZEOF_sessionId - 1)) with 9%nat in He. change (Z.to_nat SIZEOF_sessionId) with 10%nat in He.
    unfold c_string. rewrite fmap_app, <- list_fmap_compose. rewrite fmap_app in He. exact He.
  - by rewrite session_pattern_length.
Qed.

(** ** The server list *)

(** The address a client at [address] is told: the local one when both are
    local to the login server, or when the addresses DIFFER. *)
Definition shown_address (isLocal : bool) (address : list Z) (sv : ServerListing) : list Z :=
  if isLocal && sv_isLocal sv || negb (bool_decide (sv_remoteIpAddress sv = address)) then sv_localIpAddress sv
  else sv_remoteIpAddress sv.

Definition listing_bytes (isLocal : bool) (address : list Z) (sv : ServerListing) : list Z :=
  c_string (default [] (sv_longName sv)) ++ c_string (shown_address isLocal address sv) ++
  [if sv_rank sv =? ServerRank_Standard then 0 else 1] ++ le_bytes 4 (u32 (player_count sv)).

(** Servers with a name, at most 255 of them. *)
Definition listed (l : list ServerListing) : list ServerListing := take 255 (filter (λ sv, is_Some (sv_longName sv)) l).

(** What is written: admin is one byte of the footer's four. *)
Definition server_list_bytes (isLocal : bool) (address : list Z) (l : list ServerListing) : list Z :=
  [Z.of_nat (length (listed l)); 0; 0; 0xff] ++ concat (listing_bytes isLocal address <$> listed l) ++
  [0] ++ replicate 8 0 ++ [1; 1] ++ replicate 12 0.

Lemma announce_local_ok isLocal address sv : valid_listing sv → Forall (λ b, b ≠ 0) address →
  announce_local isLocal address sv =
    Ok (isLocal && sv_isLocal sv || negb (bool_decide (sv_remoteIpAddress sv = address))).
Proof.
  intros (_ & [_ Hv] & _) Ha. unfold announce_local. destruct (isLocal && sv_isLocal sv); [done|].
  destruct (strcmp_ok _ _ [] [] Hv Ha) as (r & -> & Hr). run. f_equal. simpl. f_equal.
  destruct (Z.eqb_spec r 0) as [H|H]; symmetry; [apply bool_decide_eq_true_2|apply bool_decide_eq_false_2]; naive_solver.
Qed.

Lemma listing_bytes_length isLocal address sv :
  Z.of_nat (length (listing_bytes isLocal address sv)) =
    Z.of_nat (length (default [] (sv_longName sv))) + 1 + (Z.of_nat (length (shown_address isLocal address sv)) + 1) + 5.
Proof. unfold listing_bytes. rewrite !length_app, !c_string_length, le_bytes_length. simpl. lia. Qed.

(** The loops from [n] entries on. *)
Definition listed_from (n : Z) (l : list ServerListing) : list ServerListing :=
  take (255 - Z.to_nat n) (filter (λ sv, is_Some (sv_longName sv)) l).

Lemma entries_length_ok isLocal address l len n : Forall valid_listing l → Forall (λ b, b ≠ 0) address → 0 ≤ n < 255 →
  entries_length isLocal address l len n =
    Ok (len + Z.of_nat (length (concat (listing_bytes isLocal address <$> listed_from n l))),
        n + Z.of_nat (length (listed_from n l))).
Proof.
  intros Hl Ha. revert len n. induction Hl as [|sv l Hsv Hl IH]; intros len n Hn; cbn [entries_length].
  { unfold listed_from. rewrite filter_nil, take_nil. simpl. f_equal. f_equal; lia. }
  unfold listed_from. rewrite filter_cons. destruct (sv_longName sv) as [name|] eqn:Hname.
  2: { rewrite decide_False by (by intros [? ?]). by apply IH. }
  rewrite decide_True by done. rewrite announce_local_ok by done. run.
  destruct Hsv as (Hn1 & _ & Hr & _). rewrite Hname in Hn1. destruct Hn1 as [_ Hn1].
  match goal with |- context [len + ?a + ?b + SIZEOF_ServerFooter] =>
    replace (len + a + b + SIZEOF_ServerFooter) with (len + Z.of_nat (length (listing_bytes isLocal address sv))) end.
  2: { rewrite listing_bytes_length, Hname, Hn1. unfold shown_address, SIZEOF_ServerFooter. simpl. case_match; lia. }
  replace (255 - Z.to_nat n)%nat with (S (255 - Z.to_nat (n + 1))) by lia. cbn [take fmap list_fmap concat length].
  destruct (Z.eqb_spec (n + 1) SERVER_LIST_COUNT_MAX) as [He|He]; unfold SERVER_LIST_COUNT_MAX in He.
  - replace (255 - Z.to_nat (n + 1))%nat with 0%nat by lia. simpl. rewrite app_nil_r. done.
  - rewrite IH by lia. unfold listed_from. rewrite length_app. f_equal. f_equal; lia.
Qed.

Lemma emits_string bs : emits (write_string bs) (Some <$> c_string bs).
Proof. apply emits_c_string. Qed.

Lemma emits_lift {A} (x : A) (o : outcome A) (f : A → code Aligned unit) pat : o = Ok x → emits (f x) pat → emits (y ← lift o; f y) pat.
Proof. intros -> Hf. exact Hf. Qed.

Lemma emits_entry isLocal address sv name : sv_longName sv = Some name → valid_listing sv → Forall (λ b, b ≠ 0) address →
  ∀ (w : code Aligned unit) pat, emits w pat →
  emits (write_string name ;;
         local ← lift (announce_local isLocal address sv);
         write_string (if (local : bool) then sv_localIpAddress sv else sv_remoteIpAddress sv) ;;
         aligned_write_bool (negb (sv_rank sv =? ServerRank_Standard)) ;;
         aligned_write_int32 (player_count sv) ;; w)
    ((Some <$> listing_bytes isLocal address sv) ++ pat).
Proof.
  intros Hn Hsv Ha w pat Hw. unfold listing_bytes. rewrite !fmap_app, <- !app_assoc, Hn. apply emits_seq; [apply emits_string|].
  eapply emits_lift; [by apply announce_local_ok|]. apply emits_seq; [apply emits_string|].
  apply emits_seq; [|apply emits_seq; [apply emits_uint32|done]].
  destruct (sv_rank sv =? ServerRank_Standard); apply emits_uint8.
Qed.

Lemma write_entries_ok isLocal address l n : Forall valid_listing l → Forall (λ b, b ≠ 0) address → 0 ≤ n < 255 →
  emits (write_entries isLocal address l n) (Some <$> concat (listing_bytes isLocal address <$> listed_from n l)).
Proof.
  intros Hl Ha. revert n. induction Hl as [|sv l Hsv Hl IH]; intros n Hn; cbn [write_entries].
  { unfold listed_from. rewrite filter_nil, take_nil. apply emits_nil. }
  unfold listed_from. rewrite filter_cons. destruct (sv_longName sv) as [name|] eqn:Hname.
  2: { rewrite decide_False by (by intros [? ?]). by apply IH. }
  rewrite decide_True by done.
  replace (255 - Z.to_nat n)%nat with (S (255 - Z.to_nat (n + 1))) by lia. cbn [take fmap list_fmap concat].
  rewrite fmap_app. apply emits_entry; [done..|].
  destruct (Z.eqb_spec (n + 1) SERVER_LIST_COUNT_MAX) as [He|He]; unfold SERVER_LIST_COUNT_MAX in He.
  - replace (255 - Z.to_nat (n + 1))%nat with 0%nat by lia. apply emits_nil.
  - apply IH. lia.
Qed.

Lemma listed_valid l : Forall valid_listing l → Forall valid_listing (listed l).
Proof. intros H. apply Forall_take. rewrite Forall_forall in *. intros x Hx.
  apply list_elem_of_filter in Hx as [_ Hx]. by apply H. Qed.

(** A listing takes at most 331 bytes of the packet. *)
Lemma entries_bounded isLocal address l : Forall valid_listing l →
  Z.of_nat (length (concat (listing_bytes isLocal address <$> l))) ≤ 331 * Z.of_nat (length l).
Proof.
  induction 1 as [|sv l Hsv Hl IH]; cbn [fmap list_fmap concat length]; [done|].
  rewrite length_app, Nat2Z.inj_add, listing_bytes_length. destruct Hsv as (Hn & [Hr _] & _ & [Hlo _]).
  assert (Z.of_nat (length (shown_address isLocal address sv)) ≤ 124)
    by (unfold shown_address, SIZEOF_remoteAddress, SIZEOF_localAddress in *; destruct (_ || _); lia).
  assert (Z.of_nat (length (default [] (sv_longName sv))) ≤ 200); [|lia].
  destruct (sv_longName sv) as [name|]; simpl; [|done]. destruct Hn as [[? _] _]. unfold SIZEOF_longName in *. lia.
Qed.

Lemma server_list_bytes_length isLocal address l : length (server_list_bytes isLocal address l) =
  (27 + length (concat (listing_bytes isLocal address <$> listed l)))%nat.
Proof. unfold server_list_bytes. rewrite !length_app, !length_replicate. cbn [length]. lia. Qed.

Lemma server_list_ok id c s : loginClients s !! id = Some c → lc_state c = AcceptedCredentials → Forall valid_listing (servers s) →
  let bytes := server_list_bytes (lc_isLocal c) (dotted (lc_ip c)) (servers s) in
  login_trilogy_handle_op_server_list junk id s =
    (Ok tt, put_to s id (add_scheduled TrilogyOp_ServerList
                           (bytes ++ drop (length bytes) (junk (Z.of_nat (length bytes) + 3))) c)).
Proof.
  intros Hc Hst Hv bytes. unfold login_trilogy_handle_op_server_list.
  rewrite (when_accepted id c) by done.
  rewrite (bind_ok _ _ s (servers s) s) by done. cbv beta zeta.
  pose proof (dotted_no_nul (lc_ip c)) as Ha. rewrite entries_length_ok by (done || lia).
  change (listed_from 0 (servers s)) with (listed (servers s)). rewrite (bind_ok _ _ s _ s) by done. cbv beta iota.
  pose proof (server_list_bytes_length (lc_isLocal c) (dotted (lc_ip c)) (servers s)) as Hl. fold bytes in Hl.
  assert (Hn : (length (listed (servers s)) ≤ 255)%nat) by (unfold listed; rewrite length_take; lia).
  pose proof (entries_bounded (lc_isLocal c) (dotted (lc_ip c)) _ (listed_valid _ Hv)) as Hb.
  unfold SIZEOF_ServerListHeader, SIZEOF_ServerListFooter.
  match goal with |- context [schedule_packet _ _ _ ?n _] => replace n with (Z.of_nat (length bytes) + 3) by lia end.
  rewrite <- overlay_bytes by (rewrite Hjunk; lia). eapply schedule_packet_ok; [done| |rewrite length_fmap; lia|lia].
  rewrite Z.add_0_l. unfold bytes, server_list_bytes.
  pose proof (write_entries_ok (lc_isLocal c) (dotted (lc_ip c)) (servers s) 0 Hv Ha ltac:(lia)) as He.
  change (listed_from 0 (servers s)) with (listed (servers s)) in He. revert He.
  generalize (concat (listing_bytes (lc_isLocal c) (dotted (lc_ip c)) <$> listed (servers s))). intros entries He.
  replace (Some <$> _) with ([Some (u8 (u8 (Z.of_nat (length (listed (servers s))))))] ++ [Some 0; Some 0] ++ [Some 0xff] ++
    (Some <$> entries) ++ [Some 0] ++ replicate 8 (Some 0) ++ [Some 1] ++ [Some 1] ++ replicate 12 (Some 0)).
  { repeat apply emits_seq; first [exact He|apply emits_uint8|by apply emits_zeroes]. }
  rewrite wrap_wrap, (wrap_small 8) by (unfold is_word; lia). by rewrite !fmap_app.
Qed.

(** ** The other answers *)
Lemma banner_ok id c s : loginClients s !! id = Some c → lc_state c = AcceptedCredentials →
  login_trilogy_handle_op_banner junk id s =
    (Ok tt, put_to s id (add_scheduled TrilogyOp_Banner (le_bytes 4 1 ++ c_string BANNER_MESSAGE) c)).
Proof.
  intros Hc Hst. unfold login_trilogy_handle_op_banner. rewrite (when_accepted id c) by done.
  erewrite schedule_packet_ok; [|done| | |done].
  - rewrite overlay_full; [done|]. rewrite Hjunk. reflexivity.
  - rewrite fmap_app. apply emits_seq; [apply emits_uint32|apply emits_c_string].
  - rewrite length_fmap. done.
Qed.

Lemma session_key_ok id c s : loginClients s !! id = Some c → lc_state c = AcceptedCredentials →
  length (lc_sessionKey c) = Z.to_nat SESSION_KEY_SIZE →
  login_trilogy_handle_op_session_key junk id s =
    (Ok tt, put_to s id (add_scheduled TrilogyOp_SessionKey (0 :: (u8 <$> take 15 (lc_sessionKey c)) ++ [0]) c)).
Proof.
  intros Hc Hst Hk. unfold login_trilogy_handle_op_session_key. rewrite (when_accepted id c) by done.
  erewrite (schedule_packet_ok _ _ _ _ _ (Some <$> 0 :: (u8 <$> take 15 (lc_sessionKey c)) ++ [0])); [|done| | |done].
  - rewrite overlay_full; [done|]. rewrite Hjunk. cbn [length]. rewrite length_app, length_fmap, length_take, Hk. reflexivity.
  - rewrite fmap_cons, fmap_app, <- list_fmap_compose. apply (emits_seq _ _ [Some 0]); [apply emits_uint8|].
    apply emits_seq; [|apply emits_uint8]. apply emits_buffer. rewrite Hk. done.
  - rewrite length_fmap. cbn [length]. rewrite length_app, length_fmap, length_take, Hk. done.
Qed.
End Packets.

(** A client that logged in and asks for the server list gets a packet of
    exactly the computed length: the count, one entry per named server in the
    list's order, at most 255 of them, and the footer. Whatever the list
    holds, no write runs out of the packet. The packet ends in three bytes of
    the allocation that no write covers. *)
Theorem server_list_shows_servers (junk : Z → list Z) (Hjunk : ∀ n, length (junk n) = Z.to_nat n) (id : nat) (c : LoginClient)
    (s : Login) (Hc : loginClients s !! id = Some c) (Hst : lc_state c = AcceptedCredentials)
    (Hv : Forall valid_listing (servers s)) :
  let bytes := server_list_bytes (lc_isLocal c) (dotted (lc_ip c)) (servers s) in
  login_trilogy_handle_op_server_list junk id s =
    (Ok tt, put_to s id (add_scheduled TrilogyOp_ServerList
                           (bytes ++ drop (length bytes) (junk (Z.of_nat (length bytes) + 3))) c)).
Proof. by apply server_list_ok. Qed.

(** A client at 9.8.7.6, logged in, and one server at 1.2.3.4 behind a router. *)
Definition sample_client : LoginClient :=
  mkClient AcceptedCredentials 1 1 (Some (text "me")) 5 (replicate 32 0) 0 (replicate 16 65) false 0x06070809 [].
Definition sample_listing : ServerListing :=
  mkServer ServerStatus_Up ServerRank_Standard 3 4 8 (Some (text "EQP")) (text "EQP") (text "1.2.3.4") (text "10.0.0.1") false.
Definition sample_state : Login := set_loginClients {[7%nat := sample_client]} (set_servers [sample_listing] sample_login).

Lemma sample_listing_valid : Forall valid_listing (servers sample_state).
Proof.
  apply Forall_singleton. vm_compute. repeat (constructor || discriminate).
Qed.

Example server_list_shows_servers_witness :
  login_trilogy_handle_op_server_list (λ n, replicate (Z.to_nat n) 0xaa) 7 sample_state =
    (Ok tt, put_to sample_state 7 (add_scheduled TrilogyOp_ServerList
      ([1; 0; 0; 0xff] ++ text "EQP" ++ [0] ++ text "10.0.0.1" ++ [0] ++ [0] ++ [3; 0; 0; 0] ++
       [0; 0; 0; 0; 0; 0; 0; 0; 0] ++ [1; 1] ++ replicate 12 0 ++ [0xaa; 0xaa; 0xaa]) sample_client)).
Proof.
  exact (server_list_shows_servers _ (λ n, length_replicate _ _) 7 sample_client sample_state eq_refl eq_refl sample_listing_valid).
Defined.

(** A client that is not local to the login server, and not at the
    server's own address, is told the server's LOCAL address, which it cannot
    reach: string_compare_cstr is true for addresses that differ. *)
Theorem remote_client_told_local_address (junk : Z → list Z) (Hjunk : ∀ n, length (junk n) = Z.to_nat n) (id : nat)
    (c : LoginClient) (s : Login) (sv : ServerListing) (name : list Z)
    (Hc : loginClients s !! id = Some c) (Hst : lc_state c = AcceptedCredentials)
    (Hs : servers s = [sv]) (Hv : valid_listing sv) (Hn : sv_longName sv = Some name)
    (Hremote : lc_isLocal c = false) (Hdiffer : sv_remoteIpAddress sv ≠ dotted (lc_ip c)) :
  ∃ rest, fst (login_trilogy_handle_op_server_list junk id s) = Ok tt ∧
    lc_scheduled <$> loginClients (snd (login_trilogy_handle_op_server_list junk id s)) !! id =
      Some (lc_scheduled c ++ [(TrilogyOp_ServerList,
        [1; 0; 0; 0xff] ++ c_string name ++ c_string (sv_localIpAddress sv) ++ rest)]).
Proof.
  pose proof (server_list_ok junk Hjunk id c s Hc Hst) as He. rewrite Hs in He.
  rewrite He by (by apply Forall_singleton). simpl. rewrite lookup_insert_eq. simpl.
  unfold server_list_bytes, listed. rewrite filter_cons, filter_nil, Hn, decide_True by done. cbn [take fmap list_fmap concat length].
  unfold listing_bytes at 1, shown_address. rewrite Hn, Hremote, bool_decide_eq_false_2 by done. cbn [andb orb negb default].
  eexists. split; [done|]. by rewrite app_nil_r, <- !app_assoc.
Qed.

Example remote_client_told_local_address_witness :
  ∃ rest, fst (login_trilogy_handle_op_server_list (λ n, replicate (Z.to_nat n) 0) 7 sample_state) = Ok tt ∧
    lc_scheduled <$> loginClients (snd (login_trilogy_handle_op_server_list (λ n, replicate (Z.to_nat n) 0) 7 sample_state)) !! 7%nat =
      Some ([] ++ [(TrilogyOp_ServerList, [1; 0; 0; 0xff] ++ c_string (text "EQP") ++ c_string (text "10.0.0.1") ++ rest)]).
Proof.
  apply (remote_client_told_local_address _ (λ n, length_replicate _ _) 7 sample_client sample_state sample_listing (text "EQP"));
    [reflexivity..|exact (proj1 (Forall_singleton _ _) sample_listing_valid)|reflexivity|reflexivity|by vm_compute].
Defined.
