(* ===== verification/LoginSteps.v ===== *)
(** The login server as a whole: clients connect, send packets and disconnect,
    the database answers, game servers connect and send, in any order
    (eqp_login.c: login_main_loop). In every state reached, a client's
    reference count is the number of its holders, so a query's callback always
    finds its client in memory. *)

From S2P Require Import Prelude Aligned Text Servers Login LoginTrilogy LoginServer LoginRegistry LoginPackets.

(** [live] are the clients whose connection still holds them. *)
Record World := mkWorld { live : gset nat; login : Login }.

Inductive event :=
  | Connects (id : nat)
  | Receives (id : nat) (opcode : Z) (a : Aligned)
  | Disconnects (id : nat)
  | Answered (q : Query) (rows : list (Z * list Z * list Z)) (rowId : Z)
  | ServerSide
  | Environment.

Definition client_of (q : Query) : nat :=
  match q with SelectLogin id _ => id | InsertLogin id _ _ _ => id end.

(** Other results of the operating system and of random_uint32. *)
Definition with_environment (ins : list recv_result) (outs : list send_result) (rs : list Z) (s : Login) : Login :=
  set_net ins outs (sentBytes s) (set_randoms rs s).

Definition login_init : Login := mkLogin [] [] ∅ 0 [] ∅ [] [] [] [] [] [].

Section Steps.
Context (junk : Z → list Z) (decrypt : list Z → list Z) (hash : list Z → list Z → list Z).

Definition run_callback (salt : list Z) (q : Query) (rows : list (Z * list Z * list Z)) (rowId : Z) : code Login unit :=
  match q with
  | SelectLogin id _ => login_client_credentials_callback junk hash salt id rows
  | InsertLogin id _ _ _ => login_client_auto_create_account_callback junk id rowId
  end.

(** One call of the main loop's parts that returns. A new client's memory is
    free before. *)
Inductive login_step : World → event → World → Prop :=
  | step_connects w id handler ip junk_password junk_key s' :
      loginClients (login w) !! id = None →
      login_client_create id handler ip BrandNew junk_password junk_key (login w) = (Ok tt, s') →
      login_step w (Connects id) (mkWorld ({[id]} ∪ live w) s')
  | step_receives w id opcode a s' :
      id ∈ live w →
      client_recv_packet_trilogy junk decrypt id opcode a (login w) = (Ok tt, s') →
      login_step w (Receives id opcode a) (mkWorld (live w) s')
  | step_disconnects w id isLinkdead s' :
      id ∈ live w →
      client_on_disconnect (Some id) isLinkdead (login w) = (Ok tt, s') →
      login_step w (Disconnects id) (mkWorld (live w ∖ {[id]}) s')
  | step_answered w salt before q after rows rowId s' :
      queries (login w) = before ++ q :: after →
      run_callback salt q rows rowId (set_queries (before ++ after) (login w)) = (Ok tt, s') →
      login_step w (Answered q rows rowId) (mkWorld (live w) s')
  | step_accepts w fd addr s' :
      tcp_server_accept (junk TCP_CLIENT_BUFFER_SIZE) fd addr (login w) = (Ok tt, s') →
      login_step w ServerSide (mkWorld (live w) s')
  | step_server_receives w s' :
      tcp_server_recv junk (login w) = (Ok tt, s') →
      login_step w ServerSide (mkWorld (live w) s')
  | step_environment w ins outs rs :
      login_step w Environment (mkWorld (live w) (with_environment ins outs rs (login w))).

Inductive login_reachable : World → Prop :=
  | reach_init : login_reachable (mkWorld ∅ login_init)
  | reach_step w e w' : login_reachable w → login_step w e w' → login_reachable w'.

(** ** Reference counts *)
Definition pending (id : nat) (qs : list Query) : nat := length (filter (λ q, client_of q = id) qs).
Definition holders (L : gset nat) (qs : list Query) (id : nat) : nat :=
  (if decide (id ∈ L) then 1 else 0) + pending id qs.

Definition counted (n : nat → nat) (M : gmap nat LoginClient) : Prop := ∀ id,
  match M !! id with
  | Some c => lc_refCount c = Z.of_nat (n id) ∧ (0 < n id)%nat
  | None => n id = 0%nat
  end.

(** A pending query's client has the name the query is about. *)
Definition named (qs : list Query) (M : gmap nat LoginClient) : Prop :=
  ∀ q c, q ∈ qs → M !! client_of q = Some c → is_Some (lc_accountName c).

Definition sound (w : World) : Prop :=
  coherent (login w) ∧ Forall valid_listing (servers (login w)) ∧
  counted (holders (live w) (queries (login w))) (loginClients (login w)) ∧
  named (queries (login w)) (loginClients (login w)).

Lemma counted_ext n n' M : (∀ id, n' id = n id) → counted n M → counted n' M.
Proof. intros He H id. specialize (H id). by rewrite He. Qed.

Lemma counted_put n M id c c' : counted n M → M !! id = Some c → lc_refCount c' = lc_refCount c → counted n (<[id := c']> M).
Proof.
  intros H Hc Hr j. specialize (H j). destruct (decide (j = id)) as [->|].
  - rewrite lookup_insert_eq, Hr. by rewrite Hc in H.
  - by rewrite lookup_insert_ne.
Qed.

(** One holder more, one holder less. *)
Lemma counted_grab n M id c c' : counted n M → M !! id = Some c → lc_refCount c' = lc_refCount c + 1 →
  counted (λ j, (if decide (j = id) then 1 else 0) + n j)%nat (<[id := c']> M).
Proof.
  intros H Hc Hr j. specialize (H j). destruct (decide (j = id)) as [->|].
  - rewrite lookup_insert_eq, Hr. rewrite Hc in H. lia.
  - by rewrite lookup_insert_ne.
Qed.

Definition after_drop (id : nat) (c : LoginClient) (M : gmap nat LoginClient) : gmap nat LoginClient :=
  if 1 <? lc_refCount c then <[id := set_refCount (lc_refCount c - 1) c]> M else delete id M.

Lemma counted_drop n M id c : counted n M → M !! id = Some c →
  counted (λ j, if decide (j = id) then n j - 1 else n j)%nat (after_drop id c M).
Proof.
  intros H Hc j. specialize (H j). unfold after_drop. destruct (Z.ltb_spec 1 (lc_refCount c)), (decide (j = id)) as [->|].
  - rewrite lookup_insert_eq. simpl. rewrite Hc in H. lia.
  - by rewrite lookup_insert_ne.
  - rewrite lookup_delete_eq. rewrite Hc in H. lia.
  - by rewrite lookup_delete_ne.
Qed.

Lemma named_put qs M id c c' : named qs M → M !! id = Some c → (is_Some (lc_accountName c) → is_Some (lc_accountName c')) →
  named qs (<[id := c']> M).
Proof.
  intros H Hc Hn q d Hq. destruct (decide (client_of q = id)) as [<-|].
  - rewrite lookup_insert_eq. intros [= <-]. by eapply Hn, H.
  - rewrite lookup_insert_ne by done. by apply H.
Qed.

Lemma named_drop qs M id c : named qs M → M !! id = Some c → named qs (after_drop id c M).
Proof.
  intros H Hc. unfold after_drop. case_match; [by eapply named_put|].
  intros q d Hq. rewrite lookup_delete_Some. intros [_ Hd]. by eapply H.
Qed.

Lemma named_sub qs qs' M : (∀ q, q ∈ qs' → q ∈ qs) → named qs M → named qs' M.
Proof. intros Hs H q c Hq. by apply H, Hs. Qed.

Lemma pending_app id qs qs' : pending id (qs ++ qs') = (pending id qs + pending id qs')%nat.
Proof. unfold pending. by rewrite filter_app, length_app. Qed.

Lemma pending_cons id q qs : pending id (q :: qs) = ((if decide (id = client_of q) then 1 else 0) + pending id qs)%nat.
Proof. unfold pending. rewrite filter_cons. repeat case_decide; subst; simpl; done. Qed.

Lemma pending_pos q qs : q ∈ qs → (0 < pending (client_of q) qs)%nat.
Proof.
  intros H. unfold pending. assert (Hq : q ∈ filter (λ q', client_of q' = client_of q) qs) by (by apply list_elem_of_filter).
  destruct (filter _ qs); [by apply elem_of_nil in Hq|simpl; lia].
Qed.

(** The client of whoever is live or pending is in memory. *)
Lemma counted_live L qs M id : counted (holders L qs) M → id ∈ L → ∃ c, M !! id = Some c.
Proof.
  intros H Hid. specialize (H id). destruct (M !! id); [by eexists|]. unfold holders in H.
  rewrite decide_True in H by done. lia.
Qed.

Lemma counted_pending L qs M q : counted (holders L qs) M → q ∈ qs → ∃ c, M !! client_of q = Some c.
Proof.
  intros H Hq. specialize (H (client_of q)). destruct (M !! client_of q); [by eexists|]. unfold holders in H.
  pose proof (pending_pos q qs Hq). lia.
Qed.

(** ** What the handlers change *)

(** Only client [id] changes, by [R], and neither its holders nor whether it
    has a name. *)
Definition change (R : LoginClient → LoginClient → Prop) (id : nat) (s s' : Login) : Prop :=
  ∃ c c', loginClients s !! id = Some c ∧ loginClients s' = <[id := c']> (loginClients s) ∧
    lc_refCount c' = lc_refCount c ∧ (is_Some (lc_accountName c) → is_Some (lc_accountName c')) ∧ R c c' ∧
    queries s' = queries s ∧ servers s' = servers s ∧ tcpClients s' = tcpClients s.

Definition anyhow (c c' : LoginClient) : Prop := True.
Abbreviation only := (change anyhow).

Lemma change_trans (R1 R2 R : LoginClient → LoginClient → Prop) id s1 s2 s3 :
  change R1 id s1 s2 → change R2 id s2 s3 → (∀ c1 c2 c3, R1 c1 c2 → R2 c2 c3 → R c1 c3) → change R id s1 s3.
Proof.
  intros (c1 & c2 & H1 & HM2 & Hr & Hn & HR & Hq & Hs & Ht) (d & c3 & Hd & HM3 & Hr' & Hn' & HR' & Hq' & Hs' & Ht') HRR.
  rewrite HM2, lookup_insert_eq in Hd. injection Hd as <-. exists c1, c3. rewrite HM3, HM2, insert_insert_eq.
  split_and!; try done; try congruence; naive_solver.
Qed.

Lemma change_impl (R R' : LoginClient → LoginClient → Prop) id s s' :
  (∀ c c', R c c' → R' c c') → change R id s s' → change R' id s s'.
Proof. intros H (c & c' & ? & ? & ? & ? & ? & ?). exists c, c'. naive_solver. Qed.

Lemma change_put (R : LoginClient → LoginClient → Prop) id s c c' : loginClients s !! id = Some c → lc_refCount c' = lc_refCount c →
  (is_Some (lc_accountName c) → is_Some (lc_accountName c')) → R c c' → change R id s (put_to s id c').
Proof. intros. exists c, c'. by split_and!. Qed.

Lemma only_put id s c c' : loginClients s !! id = Some c → lc_refCount c' = lc_refCount c →
  (is_Some (lc_accountName c) → is_Some (lc_accountName c')) → only id s (put_to s id c').
Proof. intros. by apply (change_put _ _ _ c). Qed.

Lemma change_found R id s s' : change R id s s' → ∃ c', loginClients s' !! id = Some c'.
Proof. intros (c & c' & _ & -> & _). exists c'. apply lookup_insert_eq. Qed.

Lemma change_refl (R : LoginClient → LoginClient → Prop) id c s : loginClients s !! id = Some c → R c c → change R id s s.
Proof. intros Hc HR. exists c, c. split_and!; try done. by rewrite insert_id. Qed.

Lemma change_same_server R id s s' : change R id s s' → coherent s ∧ Forall valid_listing (servers s) →
  coherent s' ∧ Forall valid_listing (servers s').
Proof. intros (c & c' & _ & _ & _ & _ & _ & _ & Hs & Ht). unfold coherent. by rewrite Hs, Ht. Qed.

Lemma client_list_add_ok id c s : loginClients s !! id = Some c →
  client_list_add id s = (Ok tt, set_clientList (clientList s ++ [(lc_accountId c, id)]) s).
Proof. intros Hc. unfold client_list_add, client_at. run. by rewrite Hc. Qed.

Lemma client_list_remove_ok id c s : loginClients s !! id = Some c →
  client_list_remove id s = (Ok tt, set_clientList (remove_account (length (clientList s)) 0 (lc_accountId c) (clientList s)) s).
Proof. intros Hc. unfold client_list_remove, client_at. run. by rewrite Hc. Qed.

(** Dropping a reference frees the client with the last one. *)
Lemma login_client_drop_ok id c s : loginClients s !! id = Some c →
  ∃ s', login_client_drop id s = (Ok tt, s') ∧ loginClients s' = after_drop id c (loginClients s) ∧
    queries s' = queries s ∧ servers s' = servers s ∧ tcpClients s' = tcpClients s ∧
    clientList s' = (if 1 <? lc_refCount c then clientList s
                     else remove_account (length (clientList s)) 0 (lc_accountId c) (clientList s)).
Proof.
  intros Hc. unfold login_client_drop. rewrite (bind_ok _ _ s c s) by (unfold client_at; by rewrite Hc). unfold after_drop.
  destruct (1 <? lc_refCount c); [by eexists|].
  set (c' := set_refCount (lc_refCount c - 1) c).
  rewrite (bind_ok _ _ s tt (put_to s id c')) by done.
  erewrite bind_ok by (apply client_list_remove_ok, put_to_lookup). run. eexists. split; [done|]. simpl.
  by rewrite delete_insert_eq.
Qed.

Lemma sound_drop w id c s' L qs : coherent (login w) ∧ Forall valid_listing (servers (login w)) →
  loginClients (login w) !! id = Some c → login_client_drop id (login w) = (Ok tt, s') →
  queries (login w) = qs → named qs (loginClients (login w)) →
  counted (λ j, (if decide (j = id) then 1 else 0) + holders L qs j)%nat (loginClients (login w)) →
  sound (mkWorld L s').
Proof.
  intros [Hco Hv] Hc Hd Hq Hn Hcnt. destruct (login_client_drop_ok id c (login w) Hc) as (s'' & He & HM & Hqs & Hsv & Ht & _).
  rewrite Hd in He. injection He as <-. unfold sound. simpl. rewrite Hqs, Hq, HM, Hsv. unfold coherent. rewrite Hsv, Ht.
  split_and!; [done|done| |by apply named_drop].
  eapply counted_ext; [|by apply counted_drop]. intros j. simpl. case_decide; lia.
Qed.

(** ** Callbacks *)
Context (Hjunk : ∀ n, length (junk n) = Z.to_nat n).

(** *** How a client gets accepted

    A row of the answer that matches the client's password, or the row that
    was inserted for it. *)
Definition matches (c : LoginClient) (row : Z * list Z * list Z) : Prop :=
  let '(_, h, salt) := row in
  take (length h) (hash (take (Z.to_nat (lc_passwordLength c)) (lc_passwordTemp c)) salt) = h.

Definition granted (q : Query) (rows : list (Z * list Z * list Z)) (rowId : Z) (c : LoginClient) (accountId : Z) : Prop :=
  match q with
  | SelectLogin _ _ => ∃ row, row ∈ rows ∧ matches c row ∧ accountId = u32 row.1.1
  | InsertLogin _ _ _ _ => accountId = u32 rowId
  end.

Definition same_login (c c' : LoginClient) : Prop := lc_state c' = lc_state c ∧ lc_accountId c' = lc_accountId c.
Definition same_password (c c' : LoginClient) : Prop :=
  lc_passwordTemp c' = lc_passwordTemp c ∧ lc_passwordLength c' = lc_passwordLength c.

Definition allowed (q : Query) (rows : list (Z * list Z * list Z)) (rowId : Z) (c c' : LoginClient) : Prop :=
  same_login c c' ∨ granted q rows rowId c (lc_accountId c').

Lemma same_login_trans c1 c2 c3 : same_login c1 c2 → same_login c2 c3 → same_login c1 c3.
Proof. intros [? ?] [? ?]. split; congruence. Qed.

Lemma allowed_same q rows rowId c1 c2 c3 : allowed q rows rowId c1 c2 → same_login c2 c3 → allowed q rows rowId c1 c3.
Proof.
  intros [H|H] Hs; [left; by eapply same_login_trans|right]. destruct Hs as [_ Hs]. by rewrite Hs.
Qed.

Lemma change_clientList R id s s' l : change R id s s' → change R id s (set_clientList l s').
Proof. done. Qed.

Lemma refused_ok id c s : loginClients s !! id = Some c →
  ∃ s', login_client_trilogy_handle_credentials_result junk id 0 s = (Ok tt, s') ∧ change same_login id s s'.
Proof.
  intros Hc. erewrite credentials_result_ok by done. eexists. split; [done|]. by apply (change_put _ _ _ c).
Qed.

(** A matching row: accepted, with its account id, and listed. *)
Lemma match_ok id c accountId s : loginClients s !! id = Some c →
  ∃ s', (login_client_trilogy_handle_credentials_result junk id accountId ;;
         upd_client id (set_account_id accountId) ;; client_list_add id ;; mret 1) s = (Ok 1, s') ∧
    change (λ c c', same_password c c' ∧ lc_accountId c' = accountId) id s s'.
Proof.
  intros Hc. rewrite (bind_ok _ _ _ _ _ (credentials_result_ok junk Hjunk id c accountId s Hc)).
  erewrite bind_ok by apply upd_client_ok, put_to_lookup. rewrite put_to_twice.
  erewrite bind_ok by apply client_list_add_ok, put_to_lookup. eexists. split; [done|].
  apply change_clientList, (change_put _ _ _ c); [done|by destruct (_ =? _)..].
Qed.

Lemma check_rows_ok id name rows n c s : loginClients s !! id = Some c →
  ∃ n' s', check_rows junk hash id rows n s = (Ok n', s') ∧
    change (λ c c', same_password c c' ∧ allowed (SelectLogin id name) rows 0 c c') id s s'.
Proof.
  revert n c s. induction rows as [|row rows IH]; intros n c s Hc; cbn [check_rows].
  { exists n, s. split; [done|]. apply (change_refl _ _ c); [done|]. split; [by split|by left]. }
  assert (Hmono : ∀ c c', allowed (SelectLogin id name) rows 0 c c' → allowed (SelectLogin id name) (row :: rows) 0 c c').
  { intros d d' [H|(row' & Hin & Hrow)]; [by left|right]. exists row'. split; [by right|done]. }
  destruct row as [[accountId h] salt].
  rewrite (bind_ok _ _ s c s) by (unfold client_at; by rewrite Hc). case_bool_decide as Hm.
  - destruct (match_ok id c (u32 accountId) s Hc) as (s1 & He & Ho). rewrite (bind_ok _ _ _ _ _ He).
    destruct (change_found _ id s s1 Ho) as [c1 Hc1]. destruct (IH 1 c1 s1 Hc1) as (n' & s' & -> & Ho'). exists n', s'.
    split; [done|]. destruct Ho as (d & d1 & Hd & HM & Hr & Hn & [Hp Hacc] & Hrest). rewrite Hc in Hd. injection Hd as <-.
    rewrite HM, lookup_insert_eq in Hc1. injection Hc1 as <-.
    eapply (change_trans (λ x x', x = c ∧ x' = d1)); [by exists c, d1|exact Ho'|].
    intros x1 x2 x3 [-> ->] [Hp' Hal]. split; [destruct Hp, Hp'; split; congruence|]. right.
    destruct Hal as [[_ Ha]|(row' & Hin & Hm' & Ha)].
    + exists (accountId, h, salt). split; [by left|]. split; [done|]. by rewrite Ha.
    + exists row'. split; [by right|]. split; [|done]. unfold matches in *. destruct row' as [[? ?] ?], Hp as [Hp1 Hp2].
      by rewrite Hp1, Hp2 in Hm'.
  - rewrite (bind_ok _ _ s (-1) s) by done. destruct (IH (-1) c s Hc) as (n' & s' & He & Ho). exists n', s'. split; [done|].
    eapply change_impl; [|exact Ho]. intros d d' [? ?]. split; [done|by apply Hmono].
Qed.

Lemma credentials_callback_ok salt id uname rows c s : loginClients s !! id = Some c → is_Some (lc_accountName c) →
  ∃ s', change (allowed (SelectLogin id uname) rows 0) id s s' ∧
    (login_client_credentials_callback junk hash salt id rows s = login_client_drop id s' ∨
     ∃ name h, login_client_credentials_callback junk hash salt id rows s =
       (Ok tt, set_queries (queries s' ++ [InsertLogin id name h salt]) s')).
Proof.
  intros Hc Hname. unfold login_client_credentials_callback.
  destruct (check_rows_ok id uname rows 0 c s Hc) as (n & s1 & He & Ho). rewrite (bind_ok _ _ _ _ _ He).
  pose proof Ho as (c0 & c1 & Hc0 & HM & Hr & Hn & _). assert (Hc1 : loginClients s1 !! id = Some c1) by (rewrite HM; apply lookup_insert_eq).
  rewrite Hc in Hc0. injection Hc0 as <-. destruct (Hn Hname) as [name Hname1].
  assert (Hthen : ∀ s2, change same_login id s1 s2 → change (allowed (SelectLogin id uname) rows 0) id s s2).
  { intros s2 Hs2. eapply change_trans; [exact Ho|exact Hs2|]. intros d1 d2 d3 [_ ?] ?. by eapply allowed_same. }
  destruct (n =? 0).
  - unfold login_client_auto_create_account. rewrite (bind_ok _ _ s1 c1 s1) by (unfold client_at; by rewrite Hc1).
    rewrite (bind_ok _ _ s1 name s1) by (by rewrite Hname1). unfold login_client_clear_password_temp.
    erewrite bind_ok by (by apply upd_client_ok). eexists. split; [|right; do 2 eexists; done].
    apply Hthen. by apply (change_put _ _ _ c1).
  - unfold login_client_clear_password_temp. erewrite bind_ok by (by apply upd_client_ok).
    set (s2 := put_to s1 id _). assert (Ho2 : change same_login id s1 s2) by (by apply (change_put _ _ _ c1)).
    destruct (negb (n =? 1)).
    + destruct (change_found _ id s1 s2 Ho2) as [c2 Hc2]. destruct (refused_ok id c2 s2 Hc2) as (s3 & He3 & Ho3).
      rewrite (bind_ok _ _ _ _ _ He3). exists s3. split; [|by left]. apply Hthen.
      eapply change_trans; [exact Ho2|exact Ho3|]. apply same_login_trans.
    + rewrite (bind_ok _ _ s2 tt s2) by done. exists s2. split; [by apply Hthen|by left].
Qed.

Lemma auto_create_callback_ok id name h salt rows rowId c s : loginClients s !! id = Some c →
  ∃ s', change (allowed (InsertLogin id name h salt) rows rowId) id s s' ∧
    login_client_auto_create_account_callback junk id rowId s = login_client_drop id s'.
Proof.
  intros Hc. unfold login_client_auto_create_account_callback. erewrite bind_ok by (by apply upd_client_ok).
  erewrite bind_ok by apply client_list_add_ok, put_to_lookup.
  erewrite bind_ok by (apply (credentials_result_ok junk Hjunk), put_to_lookup). eexists. split; [|done].
  exists c. eexists. split_and!; [done| |..]; simpl; rewrite ?insert_insert_eq; try done; [by destruct (_ =? _)..|].
  right. simpl. by destruct (_ =? _).
Qed.

(** The callback of a query whose client has a name returns; it drops the
    client or hands its reference on. *)
Lemma run_callback_ok salt q rows rowId c s : loginClients s !! client_of q = Some c → is_Some (lc_accountName c) →
  ∃ s', change (allowed q rows rowId) (client_of q) s s' ∧
    (run_callback salt q rows rowId s = login_client_drop (client_of q) s' ∨
     ∃ q', client_of q' = client_of q ∧ run_callback salt q rows rowId s = (Ok tt, set_queries (queries s' ++ [q']) s')).
Proof.
  intros Hc Hn. destruct q as [id name|id name h salt']; simpl in *.
  - destruct (credentials_callback_ok salt id name rows c s Hc Hn) as (s' & Ho & [He|(nm & h & He)]); exists s'; split; try done;
      [by left|right]. by exists (InsertLogin id nm h salt).
  - destruct (auto_create_callback_ok id name h salt' rows rowId c s Hc) as (s' & Ho & He). exists s'. split; [done|by left].
Qed.

(** ** Every step keeps the counts right *)
Lemma core_lookup (M M' : gmap nat LoginClient) id c' : core <$> M' = core <$> M → M' !! id = Some c' → ∃ c, M !! id = Some c ∧ core c' = core c.
Proof.
  intros He Hc'. apply (f_equal (lookup id)) in He. rewrite !lookup_fmap, Hc' in He.
  destruct (M !! id) as [c|]; [|done]. exists c. by apply (inj Some) in He.
Qed.

Lemma counted_quiet n M M' : core <$> M' = core <$> M → counted n M → counted n M'.
Proof.
  intros He H id. specialize (H id). destruct (M' !! id) as [c'|] eqn:Hc'.
  - destruct (core_lookup M M' id c' He Hc') as (c & Hc & Hcc). rewrite Hc in H. by injection Hcc as _ _ -> _.
  - destruct (M !! id) as [c|] eqn:Hc; [|done]. destruct (core_lookup M' M id c) as (? & ? & _); [done..|congruence].
Qed.

Lemma named_quiet qs M M' : core <$> M' = core <$> M → named qs M → named qs M'.
Proof.
  intros He H q c' Hq Hc'. destruct (core_lookup M M' _ c' He Hc') as (c & Hc & Hcc). injection Hcc as _ _ _ -> _. by eapply H.
Qed.

Lemma sound_kept w s' : sound w → kept (login w) s' → sound (mkWorld (live w) s').
Proof.
  intros (Hc & Hv & Hn & Hnm) (Hc' & Hv' & HM & Hq & _). unfold sound. simpl. rewrite Hq.
  split_and!; [done..|by eapply counted_quiet|by eapply named_quiet].
Qed.

Lemma sound_only w id s' : sound w → only id (login w) s' → sound (mkWorld (live w) s').
Proof.
  intros (Hc & Hv & Hn & Hnm) Ho. destruct (change_same_server _ _ _ _ Ho (conj Hc Hv)) as [Hc' Hv'].
  destruct Ho as (c & c' & Hlook & HM & Hr & Hname & _ & Hq & _). unfold sound. simpl. rewrite Hq, HM.
  split_and!; [done..|by eapply counted_put|by eapply named_put].
Qed.

Lemma keeps_self s {A} (f : code Login A) a s' : keeps (kept s) f → f s = (Ok a, s') →
  coherent s → Forall valid_listing (servers s) → kept s s'.
Proof. intros Hf He Hc Hv. specialize (Hf s (conj Hc (conj Hv (quiet_refl s)))). by rewrite He in Hf. Qed.

(** A query is handed to the database with one more reference. *)
Lemma sound_query w id c c' q s' : sound w → loginClients (login w) !! id = Some c → client_of q = id →
  lc_refCount c' = lc_refCount c + 1 → is_Some (lc_accountName c') →
  s' = set_queries (queries (login w) ++ [q]) (put_to (login w) id c') → sound (mkWorld (live w) s').
Proof.
  intros (Hc & Hv & Hn & Hnm) Hlook Hq Hr Hname ->. unfold sound. simpl. split_and!; [done..| |].
  - eapply counted_ext; [|by eapply (counted_grab _ _ id c c')]. intros j. unfold holders. rewrite pending_app, pending_cons.
    unfold pending at 2. rewrite filter_nil. simpl. repeat case_decide; subst; try done; lia.
  - intros q' d. rewrite elem_of_app, list_elem_of_singleton. intros Hq'. destruct (decide (client_of q' = id)) as [->|Hne].
    + rewrite lookup_insert_eq. by intros [= <-].
    + rewrite lookup_insert_ne by done. destruct Hq' as [Hq'| ->]; [by apply Hnm|done].
Qed.

(** Decrypted credentials always have their terminators: the buffer is longer. *)
Lemma strlen_zeros bs n : (0 < n)%nat → ∃ len, strlen (bs ++ replicate n 0) = Ok len.
Proof.
  intros Hn. induction bs as [|b bs [len IH]]; cbn [app strlen]; [destruct n; [lia|by eexists]|].
  destruct (b =? 0); [by eexists|]. rewrite IH. by eexists.
Qed.

Lemma strlen_drop_zeros k bs n : (k < n)%nat → ∃ len, strlen (drop k (bs ++ replicate n 0)) = Ok len.
Proof. intros Hn. rewrite drop_app, drop_replicate. apply strlen_zeros. lia. Qed.

Lemma check_credentials_ok id c username nameLength password passLength s : loginClients s !! id = Some c →
  ∃ c' q, login_client_check_credentials id username nameLength password passLength s =
      (Ok tt, set_queries (queries s ++ [q]) (put_to s id c')) ∧
    lc_refCount c' = lc_refCount c + 1 ∧ is_Some (lc_accountName c') ∧ client_of q = id ∧ lc_state c' = lc_state c ∧
    lc_accountId c' = lc_accountId c.
Proof.
  intros Hc. unfold login_client_check_credentials, login_client_grab, login_client_set_password_temp.
  erewrite bind_ok by (by apply upd_client_ok). erewrite bind_ok by apply upd_client_ok, put_to_lookup. rewrite put_to_twice.
  erewrite bind_ok by apply upd_client_ok, put_to_lookup. rewrite put_to_twice. run. do 2 eexists. by split_and!.
Qed.

Lemma credentials_ok w id c a : sound w → loginClients (login w) !! id = Some c →
  ∃ s', login_trilogy_handle_op_credentials junk decrypt id a (login w) = (Ok tt, s') ∧ sound (mkWorld (live w) s') ∧
    (s' = login w ∨ ∃ c', loginClients s' = <[id := c']> (loginClients (login w)) ∧ lc_state c' ≠ AcceptedCredentials).
Proof.
  intros Hw Hc. unfold login_trilogy_handle_op_credentials.
  rewrite (bind_ok _ _ (login w) c (login w)) by (unfold client_at; by rewrite Hc).
  destruct (_ || _). { eexists. split; [done|]. split; [by destruct w|by left]. }
  erewrite bind_ok by (by apply upd_client_ok).
  set (cred := decrypt _). set (s1 := put_to _ _ _). cbv zeta.
  replace (Z.to_nat (CRYPTO_BUFFER_SIZE - SIZEOF_Credentials)) with 2008%nat by done.
  destruct (strlen_zeros cred 2008) as [nl Hnl]; [lia|].
  destruct (strlen_drop_zeros (Z.to_nat SIZEOF_username) cred 2008) as [pl Hpl]; [unfold SIZEOF_username; lia|].
  rewrite (bind_ok _ _ s1 nl s1) by (unfold lift; by rewrite Hnl).
  rewrite (bind_ok _ _ s1 pl s1) by (unfold lift; by rewrite Hpl).
  destruct (_ || _).
  - erewrite err_msg_ok by (done || apply put_to_lookup). unfold s1. rewrite put_to_twice. eexists. split; [done|]. split.
    + apply (sound_only w id); [done|by apply (only_put _ _ c)].
    + right. by eexists.
  - destruct (check_credentials_ok id (set_state ProcessingCredentials c) (cred ++ replicate 2008 0) nl
      (drop (Z.to_nat SIZEOF_username) (cred ++ replicate 2008 0)) pl s1) as (c' & q & -> & Hr & Hn & Hq & Hst & _); [apply put_to_lookup|].
    unfold s1. rewrite put_to_twice. eexists. split; [done|]. split; [by eapply (sound_query w id c c' q)|].
    right. eexists. split; [done|]. by rewrite Hst.
Qed.

Section Quiet_handlers.
Context (s0 : Login).
#[local] Hint Resolve keeps_client_at keeps_schedule_packet keeps_request_by_ip : keeps.

Lemma keeps_banner id : keeps (kept s0) (login_trilogy_handle_op_banner junk id).
Proof. unfold login_trilogy_handle_op_banner. keeps_steps. Qed.
Lemma keeps_server_list id : keeps (kept s0) (login_trilogy_handle_op_server_list junk id).
Proof. unfold login_trilogy_handle_op_server_list. keeps_steps. Qed.
Lemma keeps_session_key id : keeps (kept s0) (login_trilogy_handle_op_session_key junk id).
Proof. unfold login_trilogy_handle_op_session_key. keeps_steps. Qed.
Lemma keeps_status_request id a : keeps (kept s0) (login_trilogy_handle_op_server_status_request id a).
Proof.
  unfold login_trilogy_handle_op_server_status_request, server_list_send_client_login_request_by_ip_address. keeps_steps.
Qed.

(** Every packet but these two leaves the clients' logins alone. *)
Lemma keeps_other_packets id opcode a : opcode ≠ TrilogyOp_Version → opcode ≠ TrilogyOp_Credentials →
  keeps (kept s0) (client_recv_packet_trilogy junk decrypt id opcode a).
Proof.
  intros H1 H2. unfold client_recv_packet_trilogy. rewrite !(proj2 (Z.eqb_neq _ _)) by done.
  repeat case_match; auto using keeps_banner, keeps_server_list, keeps_session_key, keeps_status_request, keeps_ret.
Qed.
End Quiet_handlers.

Lemma sound_receives w id opcode a s' : sound w → id ∈ live w →
  client_recv_packet_trilogy junk decrypt id opcode a (login w) = (Ok tt, s') → sound (mkWorld (live w) s').
Proof.
  intros Hw Hid. pose proof Hw as (Hc & Hv & Hn & Hnm). destruct (counted_live _ _ _ _ Hn Hid) as [c Hlook].
  destruct (decide (opcode = TrilogyOp_Version)) as [->|H1].
  { change (client_recv_packet_trilogy junk decrypt id TrilogyOp_Version a) with (login_trilogy_handle_op_version junk id).
    rewrite (version_ok junk Hjunk id c) by done. intros [= <-]. apply (sound_only w id); [done|by apply (only_put _ _ c)]. }
  destruct (decide (opcode = TrilogyOp_Credentials)) as [->|H2].
  { change (client_recv_packet_trilogy junk decrypt id TrilogyOp_Credentials a) with (login_trilogy_handle_op_credentials junk decrypt id a).
    destruct (credentials_ok w id c a Hw Hlook) as (s1 & -> & H & _). by intros [= <-]. }
  intros He. apply sound_kept; [done|]. eapply keeps_self; [by apply keeps_other_packets|done..].
Qed.

Lemma holders_remove L qs id j : id ∈ L →
  holders L qs j = ((if decide (j = id) then 1 else 0) + holders (L ∖ {[id]}) qs j)%nat.
Proof.
  intros Hid. unfold holders. destruct (decide (j = id)) as [->|].
  - rewrite decide_True by done. rewrite decide_False by set_solver. lia.
  - destruct (decide (j ∈ L)); [rewrite decide_True by set_solver|rewrite decide_False by set_solver]; lia.
Qed.

Lemma holders_middle L before q after j :
  holders L (before ++ q :: after) j = ((if decide (j = client_of q) then 1 else 0) + holders L (before ++ after) j)%nat.
Proof. unfold holders. rewrite !pending_app, pending_cons. lia. Qed.

Lemma sound_answered w salt before q after rows rowId s' : sound w → queries (login w) = before ++ q :: after →
  run_callback salt q rows rowId (set_queries (before ++ after) (login w)) = (Ok tt, s') → sound (mkWorld (live w) s').
Proof.
  intros (Hc & Hv & Hn & Hnm) Hq. rewrite Hq in Hn, Hnm. set (s := set_queries (before ++ after) (login w)).
  assert (Hin : q ∈ before ++ q :: after) by set_solver.
  destruct (counted_pending _ _ _ _ Hn Hin) as [c Hlook].
  destruct (run_callback_ok salt q rows rowId c s Hlook (Hnm q c Hin Hlook)) as (s1 & Ho & [He|(q' & Hq' & He)]); rewrite He.
  - intros Hd. destruct (change_found _ _ _ _ Ho) as [c1 Hc1].
    destruct (change_same_server _ _ _ _ Ho (conj Hc Hv)) as [Hc' Hv'].
    destruct Ho as (c0 & c1' & Hc0 & HM & Hr & Hname & _ & Hqs & _).
    apply (sound_drop (mkWorld (live w) s1) (client_of q) c1 s' (live w) (before ++ after)); simpl; try done.
    + rewrite HM. eapply named_put; [|done|done]. eapply named_sub; [|done]. set_solver.
    + rewrite HM. eapply counted_put; [|done|done]. eapply counted_ext; [|done]. intros j. simpl. by rewrite holders_middle.
  - intros [= <-]. destruct (change_same_server _ _ _ _ Ho (conj Hc Hv)) as [Hc' Hv'].
    destruct Ho as (c0 & c1 & Hc0 & HM & Hr & Hname & _ & Hqs & _). unfold sound. simpl. rewrite Hqs, HM. split_and!; [done..| |].
    + eapply counted_put; [|done|done]. eapply counted_ext; [|done]. intros j.
      rewrite !holders_middle, app_nil_r. by rewrite Hq'.
    + eapply named_put; [|done|done]. intros q2 d Hq2 Hd. destruct (decide (client_of q2 = client_of q)) as [Heq|Hne].
      * rewrite Heq in Hd. by eapply (Hnm q).
      * apply (Hnm q2); [|done]. set_solver.
Qed.

(** A new client at free memory is held by its connection alone. *)
Lemma sound_connects w id handler ip jp jk s' : sound w → loginClients (login w) !! id = None →
  login_client_create id handler ip BrandNew jp jk (login w) = (Ok tt, s') → sound (mkWorld ({[id]} ∪ live w) s').
Proof.
  intros (Hc & Hv & Hn & Hnm) Hnone [= <-]. unfold sound. simpl. pose proof (Hn id) as H0. rewrite Hnone in H0.
  unfold holders in H0. destruct (decide (id ∈ live w)) as [?|Hid]; [lia|]. simpl in H0. split_and!; [done..| |].
  - intros j. specialize (Hn j). destruct (decide (j = id)) as [->|].
    + rewrite lookup_insert_eq. simpl. unfold holders. rewrite decide_True by set_solver. lia.
    + rewrite lookup_insert_ne by done. unfold holders in *.
      destruct (decide (j ∈ live w)); [rewrite decide_True by set_solver|rewrite decide_False by set_solver]; done.
  - intros q d Hq. destruct (decide (client_of q = id)) as [Heq|]; [|rewrite lookup_insert_ne by done; by apply Hnm].
    pose proof (pending_pos q _ Hq). rewrite Heq in *. lia.
Qed.

Lemma sound_disconnects w id s' : sound w → id ∈ live w →
  login_client_drop id (login w) = (Ok tt, s') → sound (mkWorld (live w ∖ {[id]}) s').
Proof.
  intros (Hc & Hv & Hn & Hnm) Hid Hd. destruct (counted_live _ _ _ _ Hn Hid) as [c Hlook].
  eapply (sound_drop w); [done|done|done|done|done|]. eapply counted_ext; [|exact Hn]. intros j. by rewrite <- holders_remove.
Qed.

Lemma sound_step w e w' : sound w → login_step w e w' → sound w'.
Proof.
  intros Hw Hstep. destruct Hstep.
  - by eapply sound_connects.
  - by eapply sound_receives.
  - by eapply sound_disconnects.
  - by eapply sound_answered.
  - destruct Hw as (Hc & Hv & Hn & Hnm). apply sound_kept; [by split_and!|].
    eapply keeps_self; [apply (keeps_accept (login w))|done..].
  - destruct Hw as (Hc & Hv & Hn & Hnm). apply sound_kept; [by split_and!|].
    eapply keeps_self; [apply (keeps_tcp_server_recv (login w))|done..].
  - done.
Qed.

Lemma reachable_sound w : login_reachable w → sound w.
Proof.
  induction 1 as [|w e w' _ IH Hs]; [|by eapply sound_step].
  split_and!; simpl; [constructor|constructor|intros id; by rewrite lookup_empty|by intros q c ?%elem_of_nil].
Qed.

(** ** Nobody else is accepted *)
Lemma quiet_state s s' id c' : quiet s s' → loginClients s' !! id = Some c' →
  ∃ c, loginClients s !! id = Some c ∧ same_login c c'.
Proof.
  intros [HM _] Hc'. destruct (core_lookup _ _ id c' HM Hc') as (c & Hc & Hcc). exists c. split; [done|].
  injection Hcc as ? _ _ _ ? _ _. by split.
Qed.

Lemma put_state (M : gmap nat LoginClient) id c c' j d' : M !! id = Some c → <[id := c']> M !! j = Some d' → same_login c c' ∨ lc_state c' ≠ AcceptedCredentials →
  lc_state d' = AcceptedCredentials → ∃ d, M !! j = Some d ∧ same_login d d'.
Proof.
  intros Hc Hj Hs Hd. destruct (decide (j = id)) as [->|]; [rewrite lookup_insert_eq in Hj|rewrite lookup_insert_ne in Hj by done].
  - injection Hj as <-. exists c. split; [done|]. by destruct Hs.
  - exists d'. by split.
Qed.

Lemma drop_state M id c j d' : M !! id = Some c → after_drop id c M !! j = Some d' → ∃ d, M !! j = Some d ∧ same_login d d'.
Proof.
  intros Hc. unfold after_drop. case_match.
  - destruct (decide (j = id)) as [->|]; [rewrite lookup_insert_eq|rewrite lookup_insert_ne by done].
    + intros [= <-]. by exists c.
    + intros Hd. by exists d'.
  - rewrite lookup_delete_Some. intros [_ Hd]. by exists d'.
Qed.

Lemma kept_state w id c' s' {A} (f : code Login A) a : sound w → keeps (kept (login w)) f → f (login w) = (Ok a, s') →
  loginClients s' !! id = Some c' → ∃ c, loginClients (login w) !! id = Some c ∧ same_login c c'.
Proof.
  intros (Hc & Hv & _) Hf He. eapply quiet_state. destruct (keeps_self _ f a s' Hf He Hc Hv) as (_ & _ & Hq). exact Hq.
Qed.

Lemma receives_state w id opcode a s' j c' : sound w → id ∈ live w →
  client_recv_packet_trilogy junk decrypt id opcode a (login w) = (Ok tt, s') →
  loginClients s' !! j = Some c' → lc_state c' = AcceptedCredentials →
  ∃ c, loginClients (login w) !! j = Some c ∧ same_login c c'.
Proof.
  intros Hw Hid. pose proof Hw as (_ & _ & Hn & _). destruct (counted_live _ _ _ _ Hn Hid) as [c Hlook].
  destruct (decide (opcode = TrilogyOp_Version)) as [->|H1].
  { change (client_recv_packet_trilogy junk decrypt id TrilogyOp_Version a) with (login_trilogy_handle_op_version junk id).
    rewrite (version_ok junk Hjunk id c) by done. intros [= <-] Hj Hd. eapply put_state; [exact Hlook|exact Hj| |done]. by right. }
  destruct (decide (opcode = TrilogyOp_Credentials)) as [->|H2].
  2: { intros He Hj _. eapply kept_state; [exact Hw|by apply keeps_other_packets|exact He|exact Hj]. }
  change (client_recv_packet_trilogy junk decrypt id TrilogyOp_Credentials a) with (login_trilogy_handle_op_credentials junk decrypt id a).
  intros He Hj Hd. destruct (credentials_ok w id c a Hw Hlook) as (s1 & He1 & _ & Hs). rewrite He1 in He. injection He as ->.
  destruct Hs as [->|(c1 & HM & Hs)]; [by exists c'|]. rewrite HM in Hj. eapply put_state; [exact Hlook|exact Hj| |done]. by right.
Qed.

Lemma answered_state w salt before q after rows rowId s' j c' : sound w → queries (login w) = before ++ q :: after →
  run_callback salt q rows rowId (set_queries (before ++ after) (login w)) = (Ok tt, s') →
  loginClients s' !! j = Some c' → ∃ c, loginClients (login w) !! j = Some c ∧
    (same_login c c' ∨ client_of q = j ∧ granted q rows rowId c (lc_accountId c')).
Proof.
  intros (Hc & Hv & Hn & Hnm) Hq. rewrite Hq in Hn, Hnm. set (s := set_queries (before ++ after) (login w)).
  assert (Hin : q ∈ before ++ q :: after) by set_solver.
  destruct (counted_pending _ _ _ _ Hn Hin) as [c Hlook].
  destruct (run_callback_ok salt q rows rowId c s Hlook (Hnm q c Hin Hlook)) as (s1 & Ho & Hrun).
  assert (Hs1 : ∀ d, loginClients s1 !! j = Some d → ∃ c, loginClients (login w) !! j = Some c ∧
    (same_login c d ∨ client_of q = j ∧ granted q rows rowId c (lc_accountId d))).
  { destruct Ho as (c0 & c1 & Hc0 & HM & _ & _ & Hal & _). intros d. rewrite HM.
    destruct (decide (j = client_of q)) as [->|]; [rewrite lookup_insert_eq|rewrite lookup_insert_ne by done].
    - intros [= <-]. exists c0. split; [done|]. destruct Hal; [by left|by right].
    - intros Hd. exists d. split; [done|]. by left. }
  destruct Hrun as [He|(q' & Hq' & He)]; rewrite He.
  - intros Hd Hj. destruct (change_found _ _ _ _ Ho) as [c1 Hc1].
    destruct (login_client_drop_ok (client_of q) c1 s1 Hc1) as (s2 & He2 & HM2 & _). rewrite Hd in He2. injection He2 as <-.
    rewrite HM2 in Hj. destruct (drop_state _ _ _ _ _ Hc1 Hj) as (d & Hd1 & Hs). destruct (Hs1 d Hd1) as (d0 & Hd0 & Hal).
    exists d0. split; [done|]. destruct Hal as [Hal|[Hal Hg]]; [left; by eapply same_login_trans|right].
    split; [done|]. destruct Hs as [_ ->]. done.
  - intros [= <-]. apply Hs1.
Qed.

(** A client that is accepted after a step was accepted for the same account
    before it, or the step is the answer that says so. *)
Lemma step_state w e w' j c' : sound w → login_step w e w' → loginClients (login w') !! j = Some c' →
  lc_state c' = AcceptedCredentials → ∃ c, loginClients (login w) !! j = Some c ∧
    (same_login c c' ∨ ∃ q rows rowId, e = Answered q rows rowId ∧ client_of q = j ∧ granted q rows rowId c (lc_accountId c')).
Proof.
  intros Hw Hstep Hj Hd.
  assert (Hleft : (∃ c, loginClients (login w) !! j = Some c ∧ same_login c c') → ∃ c, loginClients (login w) !! j = Some c ∧
    (same_login c c' ∨ ∃ q rows rowId, e = Answered q rows rowId ∧ client_of q = j ∧ granted q rows rowId c (lc_accountId c'))).
  { intros (c & Hc & Hs). exists c. split; [done|by left]. }
  destruct Hstep as [w id handler ip jp jk s' Hnone He|w id opcode a s' Hid He|w id link s' Hid He
    |w salt before q after rows rowId s' Hq He|w fd addr s' He|w s' He|w ins outs rs].
  - apply Hleft. injection He as <-. simpl in Hj. destruct (decide (j = id)) as [->|].
    + rewrite lookup_insert_eq in Hj. by injection Hj as <-.
    + rewrite lookup_insert_ne in Hj by done. by exists c'.
  - apply Hleft. by eapply receives_state.
  - apply Hleft. pose proof Hw as (_ & _ & Hn & _). destruct (counted_live _ _ _ _ Hn Hid) as [c Hc].
    destruct (login_client_drop_ok id c (login w) Hc) as (s2 & He2 & HM2 & _). simpl in He. rewrite He in He2. injection He2 as <-.
    simpl in Hj. rewrite HM2 in Hj. by eapply drop_state.
  - destruct (answered_state w salt before q after rows rowId s' j c' Hw Hq He Hj) as (c & Hc & [Hs|[? Hg]]).
    + apply Hleft. by exists c.
    + exists c. split; [done|]. right. by exists q, rows, rowId.
  - apply Hleft. eapply kept_state; [exact Hw|apply keeps_accept|exact He|exact Hj].
  - apply Hleft. eapply kept_state; [exact Hw|apply keeps_tcp_server_recv|exact He|exact Hj].
  - apply Hleft. by exists c'.
Qed.
End Steps.
