(* ===== verification/LoginSpec.v ===== *)
(** What the login server promises: its clients' memory, who gets accepted, and
    where a second login of the same client goes wrong. *)

From S2P Require Import Prelude Aligned Text Servers Login LoginTrilogy LoginServer LoginRegistry LoginPackets LoginSteps.

(** A sample run: an identity for the decryption, concatenation for the hash. *)
Definition zeros (n : Z) : list Z := replicate (Z.to_nat n) 0.
Definition no_cipher (bytes : list Z) : list Z := bytes.
Definition sample_hash (password salt : list Z) : list Z := password ++ salt.
Definition field (n : nat) (bs : list Z) : list Z := bs ++ replicate (n - length bs) 0.
Definition credentials (name password : String.string) : Aligned :=
  aligned_init (field 20 (text name) ++ field 20 (text password)) SIZEOF_Credentials.
Definition no_payload : Aligned := aligned_init [] 0.

Definition connect (w : World) : World :=
  mkWorld ({[7%nat]} ∪ live w) (snd (login_client_create 7 1 0x06070809 BrandNew (zeros 32) (zeros 16) (login w))).
Definition receive (opcode : Z) (a : Aligned) (w : World) : World :=
  mkWorld (live w) (snd (client_recv_packet_trilogy zeros no_cipher 7 opcode a (login w))).
Definition answer (rows : list (Z * list Z * list Z)) (rowId : Z) (w : World) : World :=
  match queries (login w) with
  | [] => w
  | q :: qs => mkWorld (live w) (snd (run_callback zeros sample_hash (text "salt") q rows rowId (set_queries qs (login w))))
  end.
Definition disconnect (w : World) : World := mkWorld (live w ∖ {[7%nat]}) (snd (client_on_disconnect (Some 7%nat) false (login w))).

(** Asked for a version, and the answer of account 5 for "me" and "pw". *)
Definition connected : World := connect (mkWorld ∅ login_init).
Definition versioned : World := receive TrilogyOp_Version no_payload connected.
Definition asked : World := receive TrilogyOp_Credentials (credentials "me" "pw") versioned.
Definition row_5 : Z * list Z * list Z := (5, text "pwsalt", text "salt").
Definition accepted : World := answer [row_5] 0 asked.

Abbreviation sample_step := (login_step zeros no_cipher sample_hash).
Abbreviation sample_reachable := (login_reachable zeros no_cipher sample_hash).

Lemma connect_step w : loginClients (login w) !! 7%nat = None → sample_step w (Connects 7) (connect w).
Proof. intros H. by apply (step_connects _ _ _ w 7 1 0x06070809 (zeros 32) (zeros 16)). Qed.

Lemma receive_step opcode a w : 7%nat ∈ live w →
  fst (client_recv_packet_trilogy zeros no_cipher 7 opcode a (login w)) = Ok tt →
  sample_step w (Receives 7 opcode a) (receive opcode a w).
Proof. intros Hl H. apply step_receives; [done|]. rewrite <- H. apply surjective_pairing. Qed.

Lemma disconnect_step w : 7%nat ∈ live w → fst (client_on_disconnect (Some 7%nat) false (login w)) = Ok tt →
  sample_step w (Disconnects 7) (disconnect w).
Proof. intros Hl H. apply (step_disconnects _ _ _ w 7 false); [done|]. rewrite <- H. apply surjective_pairing. Qed.

Lemma answer_step w q qs rows rowId : queries (login w) = q :: qs →
  fst (run_callback zeros sample_hash (text "salt") q rows rowId (set_queries qs (login w))) = Ok tt →
  sample_step w (Answered q rows rowId) (answer rows rowId w).
Proof.
  intros Hq H. unfold answer. rewrite Hq. apply (step_answered _ _ _ w (text "salt") [] q qs); [done|].
  rewrite <- H. apply surjective_pairing.
Qed.

(** [sample_run] checks the guards of a step of the sample run by evaluation. *)
Ltac sample_run :=
  match goal with
  | |- _ ∈ _ => apply (bool_decide_eq_true_1 _); vm_compute; reflexivity
  | |- _ => vm_compute; reflexivity
  end.

(** One more step of the run. *)
Tactic Notation "step" "by" uconstr(lem) := eapply reach_step; [|apply lem; sample_run].

Lemma asked_reachable : sample_reachable asked.
Proof.
  unfold asked, versioned, connected. step by receive_step. step by receive_step. step by connect_step. apply reach_init.
Qed.

(** C26: A client's memory is freed exactly when its last holder lets go of it.
    However connections, packets, answers of the database and game servers
    come in, every connected client and the client of every pending query is
    in memory, and its reference count is the number of these holders; a
    client without holders is not in memory. The servers' connections and the
    list of servers agree all along. *)
Theorem clients_live_while_held (junk : Z → list Z) (Hjunk : ∀ n, length (junk n) = Z.to_nat n)
    (decrypt : list Z → list Z) (hash : list Z → list Z → list Z) (w : World) (Hw : login_reachable junk decrypt hash w) :
  (∀ id, match loginClients (login w) !! id with
         | Some c => lc_refCount c = Z.of_nat (holders (live w) (queries (login w)) id) ∧
                     (0 < holders (live w) (queries (login w)) id)%nat
         | None => holders (live w) (queries (login w)) id = 0%nat
         end) ∧
  coherent (login w) ∧ Forall valid_listing (servers (login w)).
Proof. destruct (reachable_sound _ _ _ Hjunk w Hw) as (? & ? & ? & _). by split_and!. Qed.

Example clients_live_while_held_witness :
  (∀ id, match loginClients (login asked) !! id with
         | Some c => lc_refCount c = Z.of_nat (holders (live asked) (queries (login asked)) id) ∧
                     (0 < holders (live asked) (queries (login asked)) id)%nat
         | None => holders (live asked) (queries (login asked)) id = 0%nat
         end) ∧
  coherent (login asked) ∧ Forall valid_listing (servers (login asked)).
Proof. apply (clients_live_while_held zeros (λ n, length_replicate _ _) no_cipher sample_hash asked asked_reachable). Defined.

(** Whenever the database answers a pending query, its callback finds its
    client in memory and returns without an exception, also when the client's
    connection is long gone. *)
Theorem callbacks_find_their_client (junk : Z → list Z) (Hjunk : ∀ n, length (junk n) = Z.to_nat n)
    (decrypt : list Z → list Z) (hash : list Z → list Z → list Z) (w : World) (Hw : login_reachable junk decrypt hash w)
    (salt : list Z) (before after : list Query) (q : Query) (rows : list (Z * list Z * list Z)) (rowId : Z)
    (Hq : queries (login w) = before ++ q :: after) :
  ∃ s', run_callback junk hash salt q rows rowId (set_queries (before ++ after) (login w)) = (Ok tt, s').
Proof.
  destruct (reachable_sound _ _ _ Hjunk w Hw) as (_ & _ & Hn & Hnm). rewrite Hq in Hn, Hnm.
  assert (Hin : q ∈ before ++ q :: after) by set_solver. destruct (counted_pending _ _ _ _ Hn Hin) as [c Hc].
  destruct (run_callback_ok junk hash Hjunk salt q rows rowId c (set_queries (before ++ after) (login w)) Hc (Hnm q c Hin Hc))
    as (s1 & Ho & [->|(q' & _ & ->)]); [|by eexists].
  destruct (change_found _ _ _ _ Ho) as [c1 Hc1]. destruct (login_client_drop_ok _ c1 s1 Hc1) as (s' & -> & _). by eexists.
Qed.

Example callbacks_find_their_client_witness :
  ∃ s', run_callback zeros sample_hash (text "salt") (SelectLogin 7 (text "me")) [row_5] 0 (set_queries ([] ++ []) (login (disconnect asked)))
    = (Ok tt, s').
Proof.
  apply (callbacks_find_their_client zeros (λ n, length_replicate _ _) no_cipher sample_hash (disconnect asked)); [|vm_compute; reflexivity].
  apply (reach_step _ _ _ asked (Disconnects 7)); [apply asked_reachable|apply disconnect_step; sample_run].
Defined.

(** C27: Only the database's answer accepts a client. A client that is accepted
    after a step was accepted before it, for the same account, or the step is
    the answer to its own query: a row whose hash is that of the password it
    sent and whose id is its account, or the row inserted for its new account. *)
Theorem accepted_by_matching_row (junk : Z → list Z) (Hjunk : ∀ n, length (junk n) = Z.to_nat n)
    (decrypt : list Z → list Z) (hash : list Z → list Z → list Z) (w w' : World) (e : event) (id : nat) (c' : LoginClient)
    (Hw : login_reachable junk decrypt hash w) (Hstep : login_step junk decrypt hash w e w')
    (Hc' : loginClients (login w') !! id = Some c') (Hst : lc_state c' = AcceptedCredentials) :
  ∃ c, loginClients (login w) !! id = Some c ∧
    (lc_state c = AcceptedCredentials ∧ lc_accountId c = lc_accountId c' ∨
     ∃ q rows rowId, e = Answered q rows rowId ∧ client_of q = id ∧
       match q with
       | SelectLogin _ _ => ∃ accountId h salt, (accountId, h, salt) ∈ rows ∧ lc_accountId c' = u32 accountId ∧
           take (length h) (hash (take (Z.to_nat (lc_passwordLength c)) (lc_passwordTemp c)) salt) = h
       | InsertLogin _ _ _ _ => lc_accountId c' = u32 rowId
       end).
Proof.
  destruct (step_state _ _ _ Hjunk w e w' id c' (reachable_sound _ _ _ Hjunk w Hw) Hstep Hc' Hst) as (c & Hc & Hor).
  exists c. split; [done|]. destruct Hor as [[Hs Ha]|(q & rows & rowId & -> & Hq & Hg)].
  - left. by rewrite <- Hs, <- Ha.
  - right. exists q, rows, rowId. split; [done|]. split; [done|]. destruct q; [|done].
    destruct Hg as ([[a h] salt] & Hin & Hm & Ha). by exists a, h, salt.
Qed.

Example accepted_by_matching_row_witness :
  ∃ c, loginClients (login asked) !! 7%nat = Some c ∧
    (lc_state c = AcceptedCredentials ∧ lc_accountId c = 5 ∨
     ∃ q rows rowId, Answered (SelectLogin 7 (text "me")) [row_5] 0 = Answered q rows rowId ∧ client_of q = 7%nat ∧
       match q with
       | SelectLogin _ _ => ∃ accountId h salt, (accountId, h, salt) ∈ rows ∧ 5 = u32 accountId ∧
           take (length h) (sample_hash (take (Z.to_nat (lc_passwordLength c)) (lc_passwordTemp c)) salt) = h
       | InsertLogin _ _ _ _ => 5 = u32 rowId
       end).
Proof.
  destruct (loginClients (login accepted) !! 7%nat) as [c'|] eqn:Hc'; [|by vm_compute in Hc'].
  assert (Ha : lc_accountId c' = 5) by (vm_compute in Hc'; by injection Hc' as <-). rewrite <- Ha.
  apply (accepted_by_matching_row zeros (λ n, length_replicate _ _) no_cipher sample_hash asked accepted _ 7 c' asked_reachable).
  - apply (answer_step asked (SelectLogin 7 (text "me")) []); sample_run.
  - exact Hc'.
  - vm_compute in Hc'. by injection Hc' as <-.
Defined.

(** ** A client that logs in twice *)

(** The version packet is answered in every state, so a client may send other
    credentials while its first query is pending. *)
Definition asked_twice : World :=
  receive TrilogyOp_Credentials (credentials "victim" "pw") (receive TrilogyOp_Version no_payload asked).
Definition refused_second : World := answer [(9, text "secretsalt", text "salt")] 0 (answer [row_5] 0 asked_twice).

Lemma asked_twice_reachable : sample_reachable asked_twice.
Proof.
  unfold asked_twice. step by receive_step. step by receive_step. apply asked_reachable.
Qed.

(** A client can be accepted under somebody else's name. It sends its own
    credentials, the version packet, and another account's name, before the
    database answered: its own row is found to match, the other one not, and it
    stays accepted for its own account id with the other account's name, which
    is what game servers are sent with its session key. *)
Theorem second_login_mixes_names :
  sample_reachable refused_second ∧
  ∃ c, loginClients (login refused_second) !! 7%nat = Some c ∧ lc_state c = AcceptedCredentials ∧
    lc_accountId c = 5 ∧ lc_accountName c = Some (text "victim") ∧
    client_list_get 5 (login refused_second) = (Ok (Some 7%nat), login refused_second).
Proof.
  split.
  - unfold refused_second. step by (answer_step _ (SelectLogin 7 (text "victim")) []).
    step by (answer_step _ (SelectLogin 7 (text "me")) [SelectLogin 7 (text "victim")]). apply asked_twice_reachable.
  - eexists. split; [vm_compute; reflexivity|]. by split_and!.
Qed.

(** Accepted for account 5, then for account 6, then gone. *)
Definition gone : World :=
  disconnect (answer [(6, text "xsalt", text "salt")] 0
    (receive TrilogyOp_Credentials (credentials "other" "x") (receive TrilogyOp_Version no_payload accepted))).

Lemma gone_reachable : sample_reachable gone.
Proof.
  unfold gone, accepted. step by disconnect_step. step by (answer_step _ (SelectLogin 7 (text "other")) []).
  step by receive_step. step by receive_step. step by (answer_step _ (SelectLogin 7 (text "me")) []). apply asked_reachable.
Qed.

(** A client that logged in twice is freed with its first account still in
    the list of logged in clients: only the entries of the last account id are
    removed. A game server's answer for the first account then uses the freed
    client. *)
Theorem second_login_leaves_freed_client (response : Z) :
  sample_reachable gone ∧ loginClients (login gone) !! 7%nat = None ∧
  client_list_get 5 (login gone) = (Ok (Some 7%nat), login gone) ∧
  fst (login_client_trilogy_handle_login_response zeros 7 response (login gone)) = Fault.
Proof. split; [exact gone_reachable|]. by split_and!; vm_compute. Qed.
