(* ===== verification/EqTime.v ===== *)
(** The game's calendar: common/time/eq_time.c. A game minute takes three
    seconds; a year has 365 days. The clock's reading is an argument. *)

From S2P Require Import Prelude.

Definition SECONDS_PER_EQ_MINUTE : Z := 3.
Definition DAYS_PER_YEAR : Z := 365.
Definition MINUTES_PER_HOUR : Z := 60.
Definition MINUTES_PER_DAY : Z := MINUTES_PER_HOUR * 24.
Definition MINUTES_PER_YEAR : Z := MINUTES_PER_DAY * DAYS_PER_YEAR.

Record EQ_Time := mkTime { hour : Z; minute : Z; day : Z; month : Z; year : Z }.

Definition daysInMonth : list Z := [31; 28; 31; 30; 31; 30; 31; 31; 30; 31; 30; 31].

(** The loop over the months: the month, if one is found, and the day in it. *)
Fixpoint find_month (l : list Z) (i day : Z) : option Z * Z :=
  match l with
  | [] => (None, day)
  | inMonth :: l => if day <=? inMonth then (Some (i + 1), day) else find_month l (i + 1) (u32 (day - inMonth))
  end.

(** A month that is not set is not a value. *)
Definition eq_time_calc (clock_unix_seconds baseUnixSeconds : Z) : outcome EQ_Time :=
  let eq := u64 (clock_unix_seconds - baseUnixSeconds) / SECONDS_PER_EQ_MINUTE in
  let year := u16 (eq / MINUTES_PER_YEAR) in
  let eq := eq mod MINUTES_PER_YEAR in
  let '(month, day) := find_month daysInMonth 0 (u32 (eq / MINUTES_PER_DAY + 1)) in
  month ← deref month;
  let eq := eq mod MINUTES_PER_DAY in
  Ok (mkTime (u8 (eq / MINUTES_PER_HOUR)) (u8 (eq mod MINUTES_PER_HOUR)) (u8 day) (u8 month) year).

(** ** The calendar counts every minute once *)

Definition total (l : list Z) : Z := foldr Z.add 0 l.

Lemma find_month_ok l i d : Forall (λ n, 0 < n) l → 0 < d ≤ total l → d < 2 ^ 32 →
  ∃ k n, l !! k = Some n ∧ 0 < d - total (take k l) ≤ n ∧
    find_month l i d = (Some (i + Z.of_nat k + 1), d - total (take k l)).
Proof.
  intros Hl. revert i d. induction Hl as [|n l Hn Hl IH]; intros i d Hd H32; cbn [total foldr] in Hd; [lia|].
  fold (total l) in Hd. cbn [find_month]. destruct (Z.leb_spec d n).
  - exists 0%nat, n. cbn. split; [done|]. split; [lia|]. f_equal; [f_equal; lia|lia].
  - rewrite wrap_small by (unfold is_word; lia). destruct (IH (i + 1) (d - n)) as (k & m & Hk & Hr & ->); [lia..|].
    exists (S k), m. cbn [take total foldr]. fold (total (take k l)). split; [done|]. split; [lia|].
    f_equal; [f_equal; lia|lia].
Qed.

Lemma day_in_year m : 0 ≤ m → 0 ≤ m mod MINUTES_PER_YEAR / MINUTES_PER_DAY < 365.
Proof.
  intros Hm. unfold MINUTES_PER_YEAR, MINUTES_PER_DAY, MINUTES_PER_HOUR, DAYS_PER_YEAR.
  pose proof (Z.mod_pos_bound m (60 * 24 * 365) ltac:(lia)). split; [apply Z.div_pos; lia|apply Z.div_lt_upper_bound; lia].
Qed.

(** There is always a date. *)
Lemma eq_time_total now base : ∃ t, eq_time_calc now base = Ok t.
Proof.
  unfold eq_time_calc. set (m := u64 (now - base) / SECONDS_PER_EQ_MINUTE).
  assert (Hm : 0 ≤ m) by (apply Z.div_pos; [apply wrap_range; lia|done]). pose proof (day_in_year m Hm) as Hd. clearbody m.
  destruct (find_month_ok daysInMonth 0 (m mod MINUTES_PER_YEAR / MINUTES_PER_DAY + 1)) as (k & n & _ & _ & He);
    [repeat constructor|change (total daysInMonth) with 365; lia|lia|].
  rewrite (wrap_small 32) by (unfold is_word; lia). rewrite He. by eexists.
Qed.

(** The game's time is a calendar: for every elapsed time below 65536
    game years the result is a date of a 365 day year with an hour below 24
    and a minute below 60, and the date and time give the elapsed minutes back. *)
Theorem eq_time_roundtrip (now base : Z) (Hnow : base ≤ now) (Hlimit : now - base < 65536 * MINUTES_PER_YEAR * SECONDS_PER_EQ_MINUTE) :
  ∃ t inMonth, eq_time_calc now base = Ok t ∧ 0 ≤ hour t < 24 ∧ 0 ≤ minute t < 60 ∧ 1 ≤ month t ≤ 12 ∧
    daysInMonth !! Z.to_nat (month t - 1) = Some inMonth ∧ 1 ≤ day t ≤ inMonth ∧
    ((year t * 365 + total (take (Z.to_nat (month t - 1)) daysInMonth) + (day t - 1)) * 24 + hour t) * 60 + minute t =
      (now - base) / SECONDS_PER_EQ_MINUTE.
Proof.
  unfold eq_time_calc. change (65536 * MINUTES_PER_YEAR * SECONDS_PER_EQ_MINUTE) with 103337164800 in Hlimit.
  rewrite (wrap_small 64) by (unfold is_word; lia). set (m := (now - base) / SECONDS_PER_EQ_MINUTE).
  assert (Hm : 0 ≤ m < 65536 * MINUTES_PER_YEAR).
  { unfold m, SECONDS_PER_EQ_MINUTE. change (65536 * MINUTES_PER_YEAR) with 34445721600.
    split; [apply Z.div_pos; lia|apply Z.div_lt_upper_bound; lia]. }
  destruct Hm as [Hm0 Hm1]. pose proof (day_in_year m Hm0) as Hd. clearbody m.
  destruct (find_month_ok daysInMonth 0 (m mod MINUTES_PER_YEAR / MINUTES_PER_DAY + 1)) as (k & n & Hk & Hr & He);
    [repeat constructor|change (total daysInMonth) with 365; lia|lia|].
  rewrite (wrap_small 32) by (unfold is_word; lia). rewrite He. run.
  assert (Hk12 : (k < 12)%nat) by (by apply lookup_lt_Some in Hk).
  assert (Hn : n ≤ 31).
  { revert Hk. apply (Forall_lookup_1 (λ x, x ≤ 31) daysInMonth). repeat constructor; lia. }
  pose proof (Z.mod_pos_bound (m mod MINUTES_PER_YEAR) MINUTES_PER_DAY ltac:(done)) as Hday.
  pose proof (Z.mod_pos_bound (m mod MINUTES_PER_YEAR mod MINUTES_PER_DAY) MINUTES_PER_HOUR ltac:(done)) as Hmin.
  assert (Hh : 0 ≤ m mod MINUTES_PER_YEAR mod MINUTES_PER_DAY / MINUTES_PER_HOUR < 24).
  { unfold MINUTES_PER_DAY, MINUTES_PER_HOUR in *. split; [apply Z.div_pos; lia|apply Z.div_lt_upper_bound; lia]. }
  assert (Hy : 0 ≤ m / MINUTES_PER_YEAR < 65536) by (split; [apply Z.div_pos; done|apply Z.div_lt_upper_bound; [done|lia]]).
  unfold MINUTES_PER_HOUR in *. do 2 eexists. split; [done|]. cbn [hour minute day month year].
  rewrite !(wrap_small 8), (wrap_small 16) by (unfold is_word; lia).
  replace (Z.to_nat (0 + Z.of_nat k + 1 - 1)) with k by lia.
  split; [lia|]. split; [lia|]. split; [lia|]. split; [exact Hk|]. split; [lia|].
  pose proof (Z.div_mod m MINUTES_PER_YEAR ltac:(done)).
  pose proof (Z.div_mod (m mod MINUTES_PER_YEAR) MINUTES_PER_DAY ltac:(done)).
  pose proof (Z.div_mod (m mod MINUTES_PER_YEAR mod MINUTES_PER_DAY) 60 ltac:(done)).
  change MINUTES_PER_YEAR with 525600 in *. change MINUTES_PER_DAY with 1440 in *. lia.
Qed.

Example eq_time_roundtrip_witness :
  ∃ t inMonth, eq_time_calc 1000000000 900000000 = Ok t ∧ 0 ≤ hour t < 24 ∧ 0 ≤ minute t < 60 ∧ 1 ≤ month t ≤ 12 ∧
    daysInMonth !! Z.to_nat (month t - 1) = Some inMonth ∧ 1 ≤ day t ≤ inMonth ∧
    ((year t * 365 + total (take (Z.to_nat (month t - 1)) daysInMonth) + (day t - 1)) * 24 + hour t) * 60 + minute t =
      (1000000000 - 900000000) / SECONDS_PER_EQ_MINUTE.
Proof. apply (eq_time_roundtrip 1000000000 900000000); [lia|vm_compute; reflexivity]. Defined.
