(* ===== verification/PlayerProfile.v ===== *)
(** The fields of a player profile, with their sizes: common/player_profile.h.
    The structs are packed. *)

From S2P Require Import Prelude Text.

(** TRILOGY_PP_FIELDS. *)
Definition profile_fields : list (string * Z) := [
  ("name", 30); ("surname", 20); ("gender", 2); ("race", 2); ("class", 2); ("level", 4); ("experience", 4);
  ("trainingPoints", 2); ("currentMana", 2); ("face", 1); ("unknownA", 47); ("currentHp", 2); ("unknownB", 1);
  ("STR", 1); ("STA", 1); ("CHA", 1); ("DEX", 1); ("INT", 1); ("AGI", 1); ("WIS", 1); ("languages", 24); ("unknownC", 14);
  ("mainInventoryItemIds", 60); ("mainInventoryInternalUnused", 120); ("mainInventoryItemProperties", 300);
  ("buffs", 150); ("baggedItemIds", 180); ("baggedItemProperties", 900); ("spellbook", 512); ("memmedSpellIds", 16);
  ("unknownD", 2); ("y", 4); ("x", 4); ("z", 4); ("heading", 4); ("zoneShortName", 32); ("unknownEDefault100", 4);
  ("coins", 16); ("coinsBank", 16); ("coinsCursor", 16); ("skills", 74); ("unknownF", 162); ("autoSplit", 4);
  ("pvpEnabled", 4); ("unknownG", 12); ("isGM", 4); ("unknownH", 20); ("disciplinesReady", 4); ("unknownI", 20);
  ("hunger", 4); ("thirst", 4); ("unknownJ", 24); ("bindZoneShortName", 100); ("bankInventoryItemProperties", 80);
  ("bankBaggedItemProperties", 800); ("unknownK", 4); ("unknownL", 4); ("bindLocY", 20); ("bindLocX", 20); ("bindLocZ", 20);
  ("bindLocHeading", 20); ("bankInventoryInternalUnused", 32); ("unknownM", 12); ("unixTimeA", 4); ("unknownN", 8);
  ("unknownODefault1", 4); ("unknownP", 8); ("bankInventoryItemIds", 16); ("bankBaggedItemIds", 160); ("deity", 2);
  ("guildId", 2); ("unixTimeB", 4); ("unknownQ", 4); ("unknownRDefault7f7f", 2); ("fatiguePercent", 1); ("unknownS", 1);
  ("unknownTDefault1", 1); ("anon", 2); ("guildRank", 1); ("drunkeness", 1); ("showEqLoadScreen", 1); ("unknownU", 2);
  ("spellGemRefreshMilliseconds", 32); ("unknownV", 4); ("harmtouchRefreshMilliseconds", 4); ("groupMember", 240);
  ("unknownW", 3644)]%string.

Definition sizes (l : list (string * Z)) : Z := foldr Z.add 0 (snd <$> l).
Definition SIZEOF_CharCreation : Z := sizes profile_fields.

(** sizeof_field, of some fields. *)
Definition size_of (names : list string) : Z := sizes (filter (λ f, f.1 ∈ names) profile_fields).

(** The fields before one of them. *)
Fixpoint offset_in (l : list (string * Z)) (name : string) : Z :=
  match l with
  | [] => 0
  | (n, size) :: l => if bool_decide (n = name) then 0 else size + offset_in l name
  end.
Definition offset_of (name : string) : Z := offset_in profile_fields name.

Definition SIZEOF_PlayerProfile : Z := 4 + sizes profile_fields.
Definition SIZEOF_PPItem : Z := 10.
