(* ===== verification/CharCreate.v ===== *)
(** A new character: the parameters under construction
    (char_select/char_create_lua.c), the check of a client's choices, and the
    packet they are read from (char_select_client_trilogy.c). Floats are the
    words that represent them. Scripts change the parameters through the
    functions of char_create_lua.c. *)

From S2P Require Import Prelude Text EqpString HashTable HashTableMap ZoneId Aligned PlayerProfile.
#[global] Open Scope Z_scope.

Record CharCreatePoint := mkPoint { p_zoneId : Z; p_x : Z; p_y : Z; p_z : Z; p_heading : Z }.
Record CharCreateItem := mkItem { ci_slotId : Z; ci_itemId : Z; ci_stackAmount : Z; ci_charges : Z }.

Record CharCreateLua := mkCharCreate {
  charId : Z;
  cc_accountId : Z;
  cc_name : list Z;
  face : Z;
  currentHp : Z;
  race : Z;
  class : Z;
  gender : Z;
  deity : Z;
  stats : list Z;               (* STR STA CHA DEX INT AGI WIS *)
  startingZone : CharCreatePoint;
  bindPoints : list CharCreatePoint;
  startingItems : list CharCreateItem;
}.

Definition no_point : CharCreatePoint := mkPoint 0 0 0 0 0.

Definition char_create_lua_create : CharCreateLua :=
  mkCharCreate 0 0 (replicate 32 0) 0 0 0 0 0 0 (replicate 7 0) no_point (replicate 5 no_point) [].

Definition char_create_lua_has_bind_points_or_items (ccl : CharCreateLua) : bool :=
  existsb (λ p, negb (p_zoneId p =? 0)) (bindPoints ccl) || negb (length (startingItems ccl) =? 0)%nat.

Definition char_create_lua_set_character_id (id : Z) (c : CharCreateLua) : CharCreateLua :=
  mkCharCreate id (cc_accountId c) (cc_name c) (face c) (currentHp c) (race c) (class c) (gender c) (deity c) (stats c)
    (startingZone c) (bindPoints c) (startingItems c).
Definition char_create_lua_set_race (v : Z) (c : CharCreateLua) : CharCreateLua :=
  mkCharCreate (charId c) (cc_accountId c) (cc_name c) (face c) (currentHp c) (u16 v) (class c) (gender c) (deity c) (stats c)
    (startingZone c) (bindPoints c) (startingItems c).
Definition char_create_lua_set_class (v : Z) (c : CharCreateLua) : CharCreateLua :=
  mkCharCreate (charId c) (cc_accountId c) (cc_name c) (face c) (currentHp c) (race c) (u8 v) (gender c) (deity c) (stats c)
    (startingZone c) (bindPoints c) (startingItems c).
Definition char_create_lua_set_gender (v : Z) (c : CharCreateLua) : CharCreateLua :=
  mkCharCreate (charId c) (cc_accountId c) (cc_name c) (face c) (currentHp c) (race c) (class c) (u8 v) (deity c) (stats c)
    (startingZone c) (bindPoints c) (startingItems c).
(** char_create_lua_set_str and its like. *)
Definition char_create_lua_set_stat (i : nat) (v : Z) (c : CharCreateLua) : CharCreateLua :=
  mkCharCreate (charId c) (cc_accountId c) (cc_name c) (face c) (currentHp c) (race c) (class c) (gender c) (deity c)
    (<[i := u8 v]> (stats c)) (startingZone c) (bindPoints c) (startingItems c).
Definition char_create_lua_set_starting_zone (zoneId x y z heading : Z) (c : CharCreateLua) : CharCreateLua :=
  mkCharCreate (charId c) (cc_accountId c) (cc_name c) (face c) (currentHp c) (race c) (class c) (gender c) (deity c)
    (stats c) (mkPoint zoneId x y z heading) (bindPoints c) (startingItems c).
Definition char_create_lua_set_bind_point (zoneId x y z heading index : Z) (c : CharCreateLua) : CharCreateLua :=
  if 5 <=? index then c
  else mkCharCreate (charId c) (cc_accountId c) (cc_name c) (face c) (currentHp c) (race c) (class c) (gender c) (deity c)
    (stats c) (startingZone c) (<[Z.to_nat index := mkPoint zoneId x y z heading]> (bindPoints c)) (startingItems c).

(** One item per slot: a later one replaces an earlier one. *)
Fixpoint put_item (item : CharCreateItem) (l : list CharCreateItem) : list CharCreateItem :=
  match l with
  | [] => [item]
  | i :: l => if ci_slotId i =? ci_slotId item then item :: l else i :: put_item item l
  end.
Definition char_create_lua_add_starting_item (slotId itemId stackAmount charges : Z) (c : CharCreateLua) : CharCreateLua :=
  mkCharCreate (charId c) (cc_accountId c) (cc_name c) (face c) (currentHp c) (race c) (class c) (gender c) (deity c)
    (stats c) (startingZone c) (bindPoints c) (put_item (mkItem slotId itemId stackAmount charges) (startingItems c)).

(** ** The check *)
Definition classesByRace : list Z :=
  [0x3dff; 0x0301; 0x3c16; 0x01a9; 0x3806; 0x3d13; 0x01ad; 0x0107; 0x0211; 0x0211; 0x012f; 0x3d17; 0x0651].

Definition baseStatsByRace : list (list Z) := [
  [75; 75; 75; 75; 75; 75; 75];
  [103; 95; 55; 70; 60; 82; 70];
  [60; 70; 70; 70; 107; 70; 83];
  [65; 65; 75; 80; 75; 95; 80];
  [55; 65; 80; 70; 92; 85; 95];
  [60; 65; 60; 75; 99; 90; 83];
  [70; 70; 75; 85; 75; 90; 60];
  [90; 90; 45; 90; 60; 70; 83];
  [108; 109; 40; 75; 52; 83; 60];
  [130; 122; 37; 70; 60; 70; 67];
  [70; 75; 50; 90; 67; 95; 80];
  [60; 70; 60; 85; 98; 85; 67];
  [70; 70; 55; 85; 75; 90; 80]].

Definition statBonusesByClass : list (list Z) := [
  [10; 10; 0; 0; 0; 5; 0];
  [5; 5; 0; 0; 0; 0; 10];
  [10; 5; 10; 0; 0; 0; 5];
  [5; 10; 0; 0; 0; 10; 5];
  [10; 5; 5; 0; 10; 0; 0];
  [0; 10; 0; 0; 0; 0; 10];
  [5; 5; 0; 10; 0; 10; 0];
  [5; 0; 10; 10; 0; 0; 0];
  [0; 0; 0; 10; 0; 10; 0];
  [0; 5; 5; 0; 0; 0; 10];
  [0; 0; 0; 10; 10; 0; 0];
  [0; 10; 0; 0; 10; 0; 0];
  [0; 10; 0; 0; 10; 0; 0];
  [0; 0; 10; 0; 10; 0; 0]].

Definition spendableStatPointsByClass : list Z := [25; 30; 20; 20; 20; 30; 20; 25; 30; 30; 30; 30; 30; 30].

Definition entry (l : list Z) (i : Z) : Z := default 0 (l !! Z.to_nat i).
Definition row (l : list (list Z)) (i : Z) : list Z := default [] (l !! Z.to_nat i).

(** The loop over the seven stats: false, or the two sums. *)
Fixpoint sum_stats (maxSpendableOneStat : Z) (values base bonus : list Z) (total totalExpected : Z) : option (Z * Z) :=
  match values, base, bonus with
  | statValue :: values, b :: base, s :: bonus =>
      let statTotal := b + s in
      if u32 (statTotal + maxSpendableOneStat) <? statValue then None
      else sum_stats maxSpendableOneStat values base bonus (u32 (total + statValue)) (u32 (totalExpected + statTotal))
  | _, _, _ => Some (total, totalExpected)
  end.

Definition cs_client_trilogy_char_creation_params_are_valid (ccl : CharCreateLua) : bool :=
  let class := u32 (class ccl - 1) in
  let race := u32 (race ccl - 1) in
  let race := if 12 <? race then 12 else race in
  if (14 <=? class) || (Z.land (entry classesByRace race) (Z.shiftl 1 class) =? 0) then false
  else
    let totalExpected := entry spendableStatPointsByClass class in
    let maxSpendableOneStat := if 25 <? totalExpected then 25 else totalExpected in
    match sum_stats maxSpendableOneStat (stats ccl) (row baseStatsByRace race) (row statBonusesByClass class) 0 totalExpected with
    | None => false
    | Some (total, totalExpected) => negb (totalExpected <? total)
    end.

(** ** The packet *)
Section Create.
Context (zoneIdsByShortName : HashTable EString Z).

(** The name is looked for up to its terminator, wherever that is. *)
Definition char_select_get_zone_id (shortName : list Z) : outcome Z :=
  n ← strlen shortName; zone_id_by_short_name zoneIdsByShortName (take (Z.to_nat n) shortName) n.

(** The memory from the cursor on. *)
Definition aligned_current : code Aligned (list Z) := gets (λ a, drop (Z.to_nat (cursor a)) (buffer a)).

(** snprintf of a C string into a field that was zeroed. *)
Definition char_create_lua_set_name (memory : list Z) (c : CharCreateLua) : outcome CharCreateLua :=
  n ← strlen memory;
  let text := take (Z.to_nat (Z.min n 31)) memory in
  Ok (mkCharCreate (charId c) (cc_accountId c) (text ++ replicate (32 - length text) 0) (face c) (currentHp c) (race c) (class c)
    (gender c) (deity c) (stats c) (startingZone c) (bindPoints c) (startingItems c)).

Fixpoint read_floats (n : nat) : code Aligned (list Z) :=
  match n with
  | O => mret []
  | S n => f ← aligned_read_float; fs ← read_floats n; mret (f :: fs)
  end.

Fixpoint read_zone_ids (n : nat) : code Aligned (list Z) :=
  match n with
  | O => mret []
  | S n =>
      s ← aligned_current; id ← lift (char_select_get_zone_id s);
      _ ← aligned_advance 20; ids ← read_zone_ids n; mret (id :: ids)
  end.

Definition skip (names : list string) : code Aligned unit := _ ← aligned_advance (u32 (size_of names)); mret tt.

(** Reading the packet, from the name to the deity. *)
Definition read_char_creation (accountId : Z) : code Aligned CharCreateLua :=
  memory ← aligned_current;
  c ← lift (char_create_lua_set_name memory char_create_lua_create);
  skip ["name"; "surname"]%string ;;
  gender ← aligned_read_uint16;
  race ← aligned_read_uint16;
  class ← aligned_read_uint16;
  skip ["level"; "experience"; "trainingPoints"; "currentMana"]%string ;;
  face ← aligned_read_uint8;
  skip ["unknownA"]%string ;;
  hp ← aligned_read_int16;
  skip ["unknownB"]%string ;;
  str ← aligned_read_uint8; sta ← aligned_read_uint8; cha ← aligned_read_uint8; dex ← aligned_read_uint8;
  int ← aligned_read_uint8; agi ← aligned_read_uint8; wis ← aligned_read_uint8;
  skip ["languages"; "unknownC"; "mainInventoryItemIds"; "mainInventoryInternalUnused"; "mainInventoryItemProperties"; "buffs";
        "baggedItemIds"; "baggedItemProperties"; "spellbook"; "memmedSpellIds"; "unknownD"]%string ;;
  y ← aligned_read_float; x ← aligned_read_float; z ← aligned_read_float; heading ← aligned_read_float;
  s ← aligned_current; zoneId ← lift (char_select_get_zone_id s);
  skip ["zoneShortName"]%string ;;
  skip ["unknownEDefault100"; "coins"; "coinsBank"; "coinsCursor"; "skills"; "unknownF"; "autoSplit"; "pvpEnabled"; "unknownG";
        "isGM"; "unknownH"; "disciplinesReady"; "unknownI"; "hunger"; "thirst"; "unknownJ"]%string ;;
  bindZones ← read_zone_ids 5;
  skip ["bankInventoryItemProperties"; "bankBaggedItemProperties"; "unknownK"; "unknownL"]%string ;;
  bindY ← read_floats 5; bindX ← read_floats 5; bindZ ← read_floats 5;
  skip ["bankInventoryInternalUnused"; "unknownM"; "unixTimeA"; "unknownN"; "unknownODefault1"; "unknownP";
        "bankInventoryItemIds"; "bankBaggedItemIds"]%string ;;
  deity ← aligned_read_uint16;
  mret (mkCharCreate 0 accountId (cc_name c) face (u8 hp) race (u8 class) (u8 gender) deity [str; sta; cha; dex; int; agi; wis]
    (mkPoint zoneId x y z heading)
    (zip_with (λ id p, mkPoint id p.1.1 p.1.2 p.2 0) bindZones (zip (zip bindX bindY) bindZ)) []).
End Create.

(** ** What the check accepts *)

(** The matrix of the source's comment: classes by rows, races by columns. *)
Definition matrix : list (list bool) :=
  let T := true in let F := false in [
  [T; T; F; T; F; T; T; T; T; T; T; T; T];
  [T; F; T; F; T; T; F; T; F; F; T; T; F];
  [T; F; T; F; T; F; T; T; F; F; T; T; F];
  [T; F; F; T; F; F; T; F; F; F; T; F; F];
  [T; F; T; F; F; T; F; F; T; T; F; T; T];
  [T; F; F; T; F; F; T; F; F; F; T; F; F];
  [T; F; F; F; F; F; F; F; F; F; F; F; T];
  [T; F; F; T; F; F; T; F; F; F; F; F; F];
  [T; T; F; T; F; T; T; T; F; F; T; T; F];
  [F; T; F; F; F; F; F; F; T; T; F; F; T];
  [T; F; T; F; F; T; F; F; F; F; F; T; T];
  [T; F; T; F; T; T; F; F; F; F; F; T; F];
  [T; F; T; F; T; T; F; F; F; F; F; T; F];
  [T; F; T; F; T; T; F; F; F; F; F; T; F]].

Definition allowed_class (class race : Z) : bool :=
  default false (default [] (matrix !! Z.to_nat class) !! Z.to_nat race).

(** The numbers of the races (common/enums.h) are 1 to 12 in the order of the
    columns, and 124. *)
Definition Race_Iksar : Z := 124.
Definition race_column (race : Z) : option Z :=
  if (1 <=? race) && (race <=? 12) then Some (race - 1)
  else if race =? Race_Iksar then Some 12 else None.

(** The column that the code looks at. *)
Definition race_index (race : Z) : Z := if (1 <=? race) && (race <=? 13) then race - 1 else 12.

(** The largest value of each stat, without the points to spend. *)
Definition stat_totals (race class : Z) : list Z := zip_with Z.add (row baseStatsByRace race) (row statBonusesByClass class).
Definition sum (l : list Z) : Z := foldr Z.add 0 l.

Lemma seq_cases (P : Z → bool) (n : nat) : forallb P (Z.of_nat <$> seq 0 n) = true → ∀ z, 0 ≤ z < Z.of_nat n → P z = true.
Proof.
  intros H z Hz. apply (proj1 (forallb_forall _ _) H). apply list_elem_of_In, list_elem_of_fmap. exists (Z.to_nat z).
  split; [lia|]. apply elem_of_seq. lia.
Qed.

Definition for_all_pairs (P : Z → Z → bool) : bool :=
  forallb (λ c, forallb (P c) (Z.of_nat <$> seq 0 13)) (Z.of_nat <$> seq 0 14).

Lemma pair_cases P : for_all_pairs P = true → ∀ class race, 0 ≤ class < 14 → 0 ≤ race < 13 → P class race = true.
Proof.
  intros H class race Hc Hr. apply (seq_cases (P class) 13); [|done].
  by apply (seq_cases (λ c, forallb (P c) (Z.of_nat <$> seq 0 13)) 14).
Qed.

Definition matrix_bit (class race : Z) : bool :=
  bool_decide ((Z.land (entry classesByRace race) (Z.shiftl 1 class) =? 0) = negb (allowed_class class race)).

Lemma matrix_bits class race : 0 ≤ class < 14 → 0 ≤ race < 13 →
  (Z.land (entry classesByRace race) (Z.shiftl 1 class) =? 0) = negb (allowed_class class race).
Proof.
  intros Hc Hr. apply (bool_decide_eq_true_1 _). apply (pair_cases matrix_bit); [vm_compute; reflexivity|done..].
Qed.

Definition table_rows (class race : Z) : bool :=
  (length (stat_totals race class) =? 7)%nat && forallb (λ t, (0 <=? t) && (t <=? 150)) (stat_totals race class) &&
  (length (row baseStatsByRace race) =? 7)%nat && (length (row statBonusesByClass class) =? 7)%nat &&
  (20 <=? entry spendableStatPointsByClass class) && (entry spendableStatPointsByClass class <=? 30).

Lemma totals_bounds class race : 0 ≤ class < 14 → 0 ≤ race < 13 →
  length (stat_totals race class) = 7%nat ∧ Forall (λ t, 0 ≤ t ≤ 150) (stat_totals race class) ∧
  length (row baseStatsByRace race) = 7%nat ∧ length (row statBonusesByClass class) = 7%nat ∧
  20 ≤ entry spendableStatPointsByClass class ≤ 30.
Proof.
  intros Hc Hr. assert (H : table_rows class race = true) by (apply (pair_cases table_rows); [vm_compute; reflexivity|done..]).
  unfold table_rows in H. rewrite !andb_true_iff, !Nat.eqb_eq, !Z.leb_le in H.
  destruct H as [[[[[? Hf] ?] ?] ?] ?]. split_and!; try done. apply Forall_forall. intros t Ht%list_elem_of_In.
  pose proof (proj1 (forallb_forall _ _) Hf t Ht) as Hb. cbv beta in Hb. lia.
Qed.

(** The loop computes both sums, or finds a stat above its maximum. *)
Lemma sum_stats_ok m values base bonus total expected : 0 ≤ m ≤ 25 → length base = length values → length bonus = length values →
  Forall is_byte values → Forall (λ t, 0 ≤ t ≤ 150) (zip_with Z.add base bonus) →
  0 ≤ total → 0 ≤ expected → total + 256 * Z.of_nat (length values) < 2 ^ 32 → expected + 256 * Z.of_nat (length values) < 2 ^ 32 →
  sum_stats m values base bonus total expected =
    if decide (Forall2 (λ v t, v ≤ t + m) values (zip_with Z.add base bonus))
    then Some (total + sum values, expected + sum (zip_with Z.add base bonus)) else None.
Proof.
  intros Hm. revert base bonus total expected. induction values as [|v values IH]; intros base bonus total expected Hb Hs Hv Ht H0 H0' H1 H2.
  { destruct base, bonus; try done. simpl. f_equal. f_equal; lia. }
  destruct base as [|b base], bonus as [|s bonus]; try done. simpl in Ht.
  apply Forall_cons in Hv as [Hv0 Hv]. apply Forall_cons in Ht as [Ht0 Ht]. simpl length in *. unfold is_word in Hv0.
  cbn [sum_stats zip_with sum foldr]. rewrite (wrap_small 32 (b + s + m)) by (unfold is_word; lia).
  destruct (Z.ltb_spec (b + s + m) v).
  { rewrite decide_False; [done|]. rewrite Forall2_cons. lia. }
  rewrite !wrap_small by (unfold is_word; lia). rewrite IH by (done || lia).
  repeat case_decide; try (rewrite Forall2_cons in *; naive_solver lia).
  f_equal. f_equal; unfold sum; lia.
Qed.

Definition points (class : Z) : Z := entry spendableStatPointsByClass (class - 1).

Lemma valid_iff ccl : is_byte (class ccl) → is_word 16 (race ccl) → length (stats ccl) = 7%nat → Forall is_byte (stats ccl) →
  let totals := stat_totals (race_index (race ccl)) (class ccl - 1) in
  cs_client_trilogy_char_creation_params_are_valid ccl = true ↔
    1 ≤ class ccl ≤ 14 ∧ allowed_class (class ccl - 1) (race_index (race ccl)) = true ∧
    Forall2 (λ v t, v ≤ t + Z.min 25 (points (class ccl))) (stats ccl) totals ∧
    sum (stats ccl) ≤ sum totals + points (class ccl).
Proof.
  intros Hc Hr Hl Hs totals. unfold cs_client_trilogy_char_creation_params_are_valid, is_word in *.
  assert (Hrace : (if 12 <? u32 (race ccl - 1) then 12 else u32 (race ccl - 1)) = race_index (race ccl)).
  { unfold race_index. destruct (decide (race ccl = 0)) as [->|]; [reflexivity|].
    rewrite wrap_small by (unfold is_word; lia).
    destruct (Z.ltb_spec 12 (race ccl - 1)), (Z.leb_spec 1 (race ccl)), (Z.leb_spec (race ccl) 13); simpl; lia. }
  rewrite Hrace. assert (Hri : 0 ≤ race_index (race ccl) < 13).
  { unfold race_index. destruct (Z.leb_spec 1 (race ccl)), (Z.leb_spec (race ccl) 13); simpl; lia. }
  destruct (decide (1 ≤ class ccl ≤ 14)) as [Hcl|Hcl].
  2: { assert (14 ≤ u32 (class ccl - 1)).
       { destruct (decide (class ccl = 0)) as [->|]; [by vm_compute|rewrite wrap_small by (unfold is_word; lia); lia]. }
       rewrite (proj2 (Z.leb_le _ _)) by done. split; [done|lia]. }
  rewrite (wrap_small 32 (class ccl - 1)) by (unfold is_word; lia).
  rewrite (proj2 (Z.leb_gt _ _)), matrix_bits by lia. fold (points (class ccl)).
  destruct (totals_bounds (class ccl - 1) (race_index (race ccl))) as (Ht7 & Ht & Hb7 & Hs7 & Hp); [lia..|].
  fold (points (class ccl)) in Hp. fold totals in Ht7, Ht.
  replace (if 25 <? points (class ccl) then 25 else points (class ccl)) with (Z.min 25 (points (class ccl)))
    by (destruct (Z.ltb_spec 25 (points (class ccl))); lia).
  rewrite sum_stats_ok by (rewrite ?Hl; first [lia|done]).
  change (zip_with Z.add _ _) with totals.
  destruct (allowed_class (class ccl - 1) (race_index (race ccl))); simpl; [|naive_solver].
  case_decide as Hd.
  - rewrite negb_true_iff, Z.ltb_ge. split; [intros H; split_and!; try done; lia|intros (_ & _ & _ & H); lia].
  - naive_solver.
Qed.

(** A number that is no race's is read as the Iksar's. *)
Lemma race_index_column race :
  (∀ c, race_column race = Some c → race_index race = c) ∧
  (race_column race = None → is_word 16 race → race_index race = race_index Race_Iksar).
Proof.
  unfold race_column, race_index. change ((1 <=? Race_Iksar) && (Race_Iksar <=? 13)) with false. cbv iota.
  destruct (Z.leb_spec 1 race), (Z.leb_spec race 12), (Z.leb_spec race 13), (Z.eqb_spec race Race_Iksar); cbn;
    unfold Race_Iksar in *; (split; [intros c [= <-]; lia|intros; try done; lia]).
Qed.

(** C30: Of a character of one of the thirteen races (their numbers are those of
    common/enums.h), the check accepts exactly the allowed combinations of the
    source's matrix, with no stat above its race's and class's value plus the
    points that may go into one stat, and no more points in all than the class
    may spend. No sum wraps around. A number that is no race's is not refused:
    such a character is judged as if it were an Iksar. *)
Theorem char_creation_valid_iff (ccl : CharCreateLua) (Hc : is_byte (class ccl)) (Hr : is_word 16 (race ccl))
    (Hl : length (stats ccl) = 7%nat) (Hs : Forall is_byte (stats ccl)) :
  match race_column (race ccl) with
  | Some r =>
      let totals := stat_totals r (class ccl - 1) in
      cs_client_trilogy_char_creation_params_are_valid ccl = true ↔
        1 ≤ class ccl ≤ 14 ∧ allowed_class (class ccl - 1) r = true ∧
        Forall2 (λ v t, v ≤ t + Z.min 25 (points (class ccl))) (stats ccl) totals ∧
        sum (stats ccl) ≤ sum totals + points (class ccl)
  | None =>
      cs_client_trilogy_char_creation_params_are_valid ccl =
      cs_client_trilogy_char_creation_params_are_valid (char_create_lua_set_race Race_Iksar ccl)
  end.
Proof.
  destruct (race_index_column (race ccl)) as [Hsome Hnone]. pose proof (valid_iff ccl Hc Hr Hl Hs) as H.
  destruct (race_column (race ccl)) as [r|]; [by rewrite (Hsome r) in H|].
  apply eq_true_iff_eq. rewrite H, (valid_iff (char_create_lua_set_race Race_Iksar ccl)) by done.
  by rewrite (Hnone eq_refl Hr).
Qed.

(** A human warrior with all 25 points in STR. *)
Definition sample_character : CharCreateLua :=
  char_create_lua_set_race 1 (char_create_lua_set_class 1
    (fold_left (λ c '(i, v), char_create_lua_set_stat i v c) (zip (seq 0 7) [110; 85; 75; 75; 75; 80; 75]) char_create_lua_create)).

(** Accepted as a human and, with the same stats, refused as an Erudite. *)
Example char_creation_valid_iff_witness :
  cs_client_trilogy_char_creation_params_are_valid sample_character = true ∧
  cs_client_trilogy_char_creation_params_are_valid (char_create_lua_set_race 3 sample_character) = false.
Proof.
  assert (Hs : Forall is_byte (stats sample_character)).
  { repeat (apply Forall_cons; split; [split; vm_compute; [discriminate|reflexivity]|]). apply Forall_nil. done. }
  assert (Hw : ∀ z, (0 <=? z) && (z <? 2 ^ 8) = true → is_byte z ∧ is_word 16 z) by (unfold is_word; lia).
  split.
  - apply (char_creation_valid_iff sample_character (proj1 (Hw 1 eq_refl)) (proj2 (Hw 1 eq_refl)) eq_refl Hs).
    split; [split; vm_compute; discriminate|]. split; [reflexivity|]. split; [|vm_compute; discriminate].
    repeat (apply Forall2_cons; split; [vm_compute; discriminate|]). apply Forall2_nil. done.
  - apply not_true_iff_false. intros H.
    apply (char_creation_valid_iff (char_create_lua_set_race 3 sample_character)
      (proj1 (Hw 1 eq_refl)) (proj2 (Hw 3 eq_refl)) eq_refl Hs) in H.
    destruct H as (_ & H & _). vm_compute in H. discriminate.
Defined.

(** A character of no known race passes as an Iksar. *)
Lemma unknown_race_passes ccl race : 13 < race < 2 ^ 16 →
  cs_client_trilogy_char_creation_params_are_valid (char_create_lua_set_race race ccl) =
  cs_client_trilogy_char_creation_params_are_valid (char_create_lua_set_race 13 ccl).
Proof.
  intros Hr. unfold cs_client_trilogy_char_creation_params_are_valid. simpl.
  rewrite (wrap_small 16 race), (wrap_small 32 (race - 1)) by (unfold is_word; lia).
  rewrite (proj2 (Z.ltb_lt 12 (race - 1))) by lia. done.
Qed.

(** ** Where the packet's fields are read *)

(** A packet in memory that ends in a zero byte. *)
Definition packet_memory (a : Aligned) : Prop :=
  wf a ∧ length_ a < Z.of_nat (length (buffer a)) < 2 ^ 31 ∧ last (buffer a) = Some 0.

(** [r] reads [n] bytes of such a packet. *)
Definition moves {A} (r : code Aligned A) (n : Z) : Prop := ∀ a, packet_memory a → cursor a + n ≤ length_ a →
  ∃ x, r a = (Ok x, with_cursor a (cursor a + n)).

Definition word_at (i : Z) (a : Aligned) : Z :=
  default 0 (buffer a !! Z.to_nat i) + 256 * default 0 (buffer a !! Z.to_nat (i + 1)).

(** [r] reads [n] bytes, and its result's deity is the word [off] bytes on. *)
Definition lands (r : code Aligned CharCreateLua) (n off : Z) : Prop := ∀ a, packet_memory a → Forall is_byte (buffer a) →
  cursor a + n ≤ length_ a → ∃ c, r a = (Ok c, with_cursor a (cursor a + n)) ∧ deity c = word_at (cursor a + off) a.

Lemma memory_moved a n : packet_memory a → 0 ≤ n → cursor a + n ≤ length_ a → packet_memory (with_cursor a (cursor a + n)).
Proof. intros ((? & ? & ?) & ? & ?) ? ?. unfold packet_memory, wf. split_and!; simpl; try done; lia. Qed.

Lemma with_cursor_add a n m : with_cursor (with_cursor a (cursor a + n)) (cursor a + n + m) = with_cursor a (cursor a + (n + m)).
Proof. unfold with_cursor. simpl. f_equal. lia. Qed.

Lemma moves_bind {A B} (r : code Aligned A) (f : A → code Aligned B) n m : 0 ≤ n → 0 ≤ m →
  moves r n → (∀ x, moves (f x) m) → moves (r ≫= f) (n + m).
Proof.
  intros Hn Hm Hr Hf a Ha Hl. destruct (Hr a Ha) as (x & Hx); [lia|].
  rewrite (bind_ok _ _ _ _ _ Hx). destruct (Hf x (with_cursor a (cursor a + n))) as (y & Hy); [apply memory_moved; [done|lia..]|simpl; lia|].
  exists y. rewrite Hy. simpl. by rewrite with_cursor_add.
Qed.

Lemma lands_bind {A} (r : code Aligned A) (f : A → code Aligned CharCreateLua) n m off : 0 ≤ n → 0 ≤ m →
  moves r n → (∀ x, lands (f x) m off) → lands (r ≫= f) (n + m) (n + off).
Proof.
  intros Hn Hm Hr Hf a Ha Hb Hl. destruct (Hr a Ha) as (x & Hx); [lia|].
  rewrite (bind_ok _ _ _ _ _ Hx). destruct (Hf x (with_cursor a (cursor a + n))) as (y & Hy & Hd);
    [apply memory_moved; [done|lia..]|done|simpl; lia|].
  exists y. rewrite Hy. simpl. rewrite with_cursor_add. split; [done|]. rewrite Hd. unfold word_at. simpl.
  by rewrite <- Z.add_assoc.
Qed.

Lemma moves_ret {A} (x : A) : moves (mret x) 0.
Proof. intros a _ _. exists x. rewrite Z.add_0_r. by destruct a. Qed.

Lemma moves_eq {A} (r : code Aligned A) n m : n = m → moves r n → moves r m.
Proof. by intros ->. Qed.

Lemma moves_advance n : 0 ≤ n → moves (aligned_advance n) n.
Proof. intros Hn a Ha Hl. exists (cursor a). apply advance_ok; [apply Ha|done..]. Qed.

Lemma moves_current : moves aligned_current 0.
Proof. intros a _ _. eexists. rewrite Z.add_0_r. by destruct a. Qed.

(** The bytes the readers of integers take. *)
Lemma byte_there a i : packet_memory a → 0 ≤ i < length_ a → byte_at i a = (Ok (default 0 (buffer a !! Z.to_nat i)), a).
Proof.
  intros ((? & ? & ?) & ? & ?) Hi. unfold byte_at. rewrite (proj2 (Z.ltb_ge i 0)) by lia.
  destruct (lookup_lt_is_Some_2 (buffer a) (Z.to_nat i)) as [b ->]; [lia|done].
Qed.

Lemma moves_uint8 : moves aligned_read_uint8 1.
Proof.
  intros a Ha Hl. unfold aligned_read_uint8. rewrite (bind_ok _ _ _ _ _ (advance_ok a 1 (proj1 Ha) ltac:(lia) Hl)).
  pose proof Ha as ((? & ? & ?) & _). eexists. apply byte_there; [by apply memory_moved|simpl; lia].
Qed.

Lemma moves_uint16 : moves aligned_read_uint16 2.
Proof.
  intros a Ha Hl. unfold aligned_read_uint16. rewrite (bind_ok _ _ _ _ _ (advance_ok a 2 (proj1 Ha) ltac:(lia) Hl)).
  pose proof Ha as ((? & ? & ?) & _). assert (Hm : packet_memory (with_cursor a (cursor a + 2))) by (by apply memory_moved).
  do 2 (erewrite bind_ok by (apply byte_there; [done|simpl; lia])). by eexists.
Qed.

Lemma moves_uint32 : moves aligned_read_uint32 4.
Proof.
  intros a Ha Hl. unfold aligned_read_uint32. rewrite (bind_ok _ _ _ _ _ (advance_ok a 4 (proj1 Ha) ltac:(lia) Hl)).
  pose proof Ha as ((? & ? & ?) & _). assert (Hm : packet_memory (with_cursor a (cursor a + 4))) by (by apply memory_moved).
  do 4 (erewrite bind_ok by (apply byte_there; [done|simpl; lia])). by eexists.
Qed.

Lemma moves_int16 : moves aligned_read_int16 2.
Proof. apply (moves_eq _ (2 + 0)); [done|]. apply moves_bind; [done..|apply moves_uint16|intros x; apply moves_ret]. Qed.

Lemma moves_floats n : moves (read_floats n) (4 * Z.of_nat n).
Proof.
  induction n as [|n IH]; [apply moves_ret|]. cbn [read_floats].
  apply (moves_eq _ (4 + (4 * Z.of_nat n + 0))); [lia|].
  apply moves_bind; [lia..|apply moves_uint32|intros x]. apply moves_bind; [lia..|apply IH|intros y; apply moves_ret].
Qed.

Lemma last_drop {A} k (l : list A) : (k < length l)%nat → last (drop k l) = last l.
Proof.
  revert k. induction l as [|x l IH]; intros [|k] Hk; simpl in *; try done; try lia. rewrite IH by lia.
  destruct l; [simpl in Hk; lia|done].
Qed.

Lemma moves_skip names n : size_of names = n → 0 ≤ n < 2 ^ 32 → moves (skip names) n.
Proof.
  intros Hs Hn. unfold skip. rewrite Hs, wrap_small by done. apply (moves_eq _ (n + 0)); [lia|].
  apply moves_bind; [lia..|apply moves_advance; lia|intros x; apply moves_ret].
Qed.

(** The two bytes of a word. *)
Lemma word_of_bytes lo hi : is_byte lo → is_byte hi → u16 (Z.lor (u16 (Z.shiftl lo 0)) (Z.shiftl hi 8)) = lo + 256 * hi.
Proof.
  unfold is_word. intros Hlo Hhi. rewrite Z.shiftl_0_r, (wrap_small 16 lo) by (unfold is_word; lia).
  rewrite lor_shift, wrap_small by (unfold is_word; lia). lia.
Qed.

(** The deity is the last field read. *)
Lemma lands_deity (f : Z → CharCreateLua) : (∀ d, deity (f d) = d) → lands (d ← aligned_read_uint16; mret (f d)) 2 0.
Proof.
  intros Hf a Ha Hb Hl. pose proof Ha as ((? & ? & ?) & _).
  assert (Hm : packet_memory (with_cursor a (cursor a + 2))) by (by apply memory_moved).
  assert (Hbyte : ∀ i, is_byte (default 0 (buffer a !! i))).
  { intros i. destruct (buffer a !! i) as [b|] eqn:Hi; [|done]. by apply (Forall_lookup_1 _ _ _ _ Hb Hi). }
  exists (f (word_at (cursor a) a)). split; [|by rewrite Hf, Z.add_0_r].
  rewrite (bind_ok _ _ a (word_at (cursor a) a) (with_cursor a (cursor a + 2))); [done|].
  unfold aligned_read_uint16. rewrite (bind_ok _ _ _ _ _ (advance_ok a 2 (proj1 Ha) ltac:(lia) Hl)).
  do 2 (erewrite bind_ok by (apply byte_there; [done|simpl; lia])).
  rewrite word_of_bytes by apply Hbyte. unfold word_at. simpl. by rewrite Z.add_0_r.
Qed.

Section Read.
Context (map : HashTable EString Z) (Hmap : zone_short_name_map_create = Ok map).

Lemma memory_string a : packet_memory a → cursor a ≤ length_ a →
  ∃ n, strlen (drop (Z.to_nat (cursor a)) (buffer a)) = Ok n.
Proof. intros ((? & ? & ?) & ? & Hl) ?. apply strlen_last. rewrite last_drop by lia. done. Qed.

Lemma zone_id_there a : packet_memory a → cursor a ≤ length_ a →
  ∃ id, char_select_get_zone_id map (drop (Z.to_nat (cursor a)) (buffer a)) = Ok id.
Proof.
  intros Ha Hc. destruct (memory_string a Ha Hc) as [n Hn]. unfold char_select_get_zone_id. rewrite Hn. run.
  destruct (strlen_take _ _ Hn) as [H0 Hf]. pose proof (strlen_lt _ _ Hn) as Hlt. rewrite length_drop in Hlt.
  destruct zone_map_repr as (map' & Hm & Hr). rewrite Hmap in Hm. injection Hm as <-.
  set (name := take (Z.to_nat n) _). assert (Hlen : n = Z.of_nat (length name)).
  { unfold name. rewrite length_take, length_drop. lia. }
  rewrite Hlen. unfold zone_id_by_short_name. destruct Ha as (_ & ? & _).
  rewrite (get_refines _ _ _ Hr); [by eexists|]. split; [done|]. lia.
Qed.

Lemma moves_zone_id {A} (f : Z → code Aligned A) n : (∀ id, moves (f id) n) → 0 ≤ n →
  moves (s ← aligned_current; id ← lift (char_select_get_zone_id map s); f id) n.
Proof.
  intros Hf Hn a Ha Hl. rewrite (bind_ok aligned_current _ a _ a eq_refl). destruct (zone_id_there a Ha) as [id Hid]; [lia|].
  rewrite (bind_ok _ _ a id a) by (unfold lift; by rewrite Hid). by apply Hf.
Qed.

Lemma lands_zone_id (f : Z → code Aligned CharCreateLua) n off : (∀ id, lands (f id) n off) → 0 ≤ n →
  lands (s ← aligned_current; id ← lift (char_select_get_zone_id map s); f id) n off.
Proof.
  intros Hf Hn a Ha Hb Hl. rewrite (bind_ok aligned_current _ a _ a eq_refl). destruct (zone_id_there a Ha) as [id Hid]; [lia|].
  rewrite (bind_ok _ _ a id a) by (unfold lift; by rewrite Hid). by apply Hf.
Qed.

Lemma lands_name (f : CharCreateLua → code Aligned CharCreateLua) n off : (∀ c, lands (f c) n off) → 0 ≤ n →
  lands (memory ← aligned_current; c ← lift (char_create_lua_set_name memory char_create_lua_create); f c) n off.
Proof.
  intros Hf Hn a Ha Hb Hl. rewrite (bind_ok aligned_current _ a _ a eq_refl). destruct (memory_string a Ha) as [k Hk]; [lia|].
  unfold char_create_lua_set_name. rewrite Hk. erewrite (bind_ok (lift _)) by reflexivity. by apply Hf.
Qed.

Lemma moves_zone_ids n : moves (read_zone_ids map n) (20 * Z.of_nat n).
Proof.
  induction n as [|n IH]; [apply moves_ret|]. cbn [read_zone_ids]. apply moves_zone_id; [|lia]. intros id.
  apply (moves_eq _ (20 + (20 * Z.of_nat n + 0))); [lia|].
  apply moves_bind; [lia..|by apply moves_advance|intros x]. apply moves_bind; [lia..|apply IH|intros y; apply moves_ret].
Qed.

Lemma lands_eq (r : code Aligned CharCreateLua) n off n' off' : lands r n off → n = n' → off = off' → lands r n' off'.
Proof. by intros ? -> ->. Qed.

(** One reader or skip after the other. *)
Ltac moves_one :=
  first [apply moves_uint8 | apply moves_uint16 | apply moves_uint32 | apply moves_int16 | apply moves_floats
        | apply moves_zone_ids | eapply moves_skip; [vm_compute; reflexivity | lia]].
Ltac lands_one :=
  first [apply lands_deity; reflexivity
        | eapply lands_zone_id; [intros ?|]
        | eapply lands_bind; [| |moves_one|intros ?]; [lia| |]].

Lemma deity_lands accountId :
  lands (read_char_creation map accountId) (offset_of "deity" - 20 + 2) (offset_of "deity" - 20).
Proof.
  eapply lands_eq; [unfold read_char_creation; eapply lands_name; [intros c; repeat lands_one|]|..].
  all: try (vm_compute; reflexivity). all: lia.
Qed.

End Read.

(** The handler of a character creation packet takes the deity from 20
    bytes before its field: it never moves past the bind points' headings,
    whose loop is commented out, so the word it stores is the id of the
    seventy-first item in the bank's bags, and the client's choice is not
    read. *)
Theorem deity_is_a_bagged_item (accountId : Z) (a : Aligned) (Hm : packet_memory a) (Hb : Forall is_byte (buffer a))
    (Hl : cursor a + SIZEOF_CharCreation ≤ length_ a) : ∃ map c a',
  zone_short_name_map_create = Ok map ∧ read_char_creation map accountId a = (Ok c, a') ∧
  deity c = word_at (cursor a + (offset_of "bankBaggedItemIds" + 2 * 70)) a ∧
  cursor a' = cursor a + offset_of "deity" + 2 - size_of ["bindLocHeading"%string].
Proof.
  destruct zone_map_repr as (map & Hmap & _). destruct (deity_lands map Hmap accountId a Hm Hb) as (c & Hc & Hd).
  { etrans; [|exact Hl]. apply Z.add_le_mono_l, Z.leb_le. vm_compute; reflexivity. }
  exists map, c. eexists. split; [exact Hmap|]. split; [exact Hc|]. split; [rewrite Hd; do 2 f_equal; vm_compute; reflexivity|].
  cbn [cursor with_cursor]. change (size_of ["bindLocHeading"%string]) with 20. lia.
Qed.

(** An empty packet. *)
Definition blank_packet : Aligned := mkAligned 0 SIZEOF_CharCreation (replicate 8101 0).

Example deity_is_a_bagged_item_witness : ∃ map c a',
  zone_short_name_map_create = Ok map ∧ read_char_creation map 7 blank_packet = (Ok c, a') ∧
  deity c = word_at (cursor blank_packet + (offset_of "bankBaggedItemIds" + 2 * 70)) blank_packet ∧
  cursor a' = cursor blank_packet + offset_of "deity" + 2 - size_of ["bindLocHeading"%string].
Proof.
  apply (deity_is_a_bagged_item 7 blank_packet); [|by apply Forall_replicate|vm_compute; discriminate].
  unfold packet_memory, wf. split_and!; try (vm_compute; (reflexivity || discriminate)).
Defined.

Example creation_packet_size : SIZEOF_CharCreation = 8100.
Proof. vm_compute; reflexivity. Qed.
