(* ===== verification/CharSelect.v ===== *)
(** Character select's state: the clients (char_select/char_select_client.c)
    and the lists that wait for the login servers' auths and for the zone
    servers' answers (eqp_char_select.c).

    Clients are memory: a store from addresses to [CharSelectClient]s. Strings
    are their bytes. The clock is a field; what is sent to the master process,
    scheduled for a client's protocol handler or asked of the database is kept
    in logs, a query together with the objects its callback is given. *)

From S2P Require Import Prelude Text Servers PlayerProfile CharCreate.

Record CharSelectAuth := mkAuth {
  au_accountId : Z;
  au_isLocal : bool;
  au_timestamp : Z;
  au_accountStatus : Z;
  au_isLocked : bool;
  au_accountName : list Z;      (* 32 bytes *)
  au_sessionKey : list Z;       (* 32 bytes *)
}.

Record CharSelectClient := mkCs {
  cs_handler : nat;
  cs_ip : Z;                                  (* of its protocol handler *)
  cs_refCount : Z;
  cs_auth : CharSelectAuth;
  weaponMaterialsTrilogy : list (list Z);     (* 10 of 2 *)
  isNameApproved : bool;
  cs_scheduled : list (Z * list Z);           (* packets for its protocol handler *)
}.

(** Server_ClientZoning, with its strings up to their terminators. *)
Record ClientZoning := mkZoning {
  z_accountId : Z;
  z_ipAddress : Z;
  z_isLocal : bool;
  z_accountName : list Z;
  z_characterName : list Z;
}.

Inductive Query :=
  | SelectAccountId (client : nat) (id : Z) (name : list Z)
  | InsertAccountId (client : nat) (id : Z) (name : list Z)
  | InsertAccount (accountId : Z)
  | SelectCharacters (client : nat) (accountId : Z)
  | SelectName (client : nat) (name : list Z)
  | DeleteCharacter (client : nat) (accountId : Z) (name : list Z)
  | InsertCharacter (client : nat) (ccl : CharCreateLua)
  | InsertBelongings (client : nat) (ccl : CharCreateLua)
  | SelectStatus (auth : CharSelectAuth).

Record CharSelect := mkCharSelect {
  unclaimedAuths : list CharSelectAuth;
  unauthedClients : list nat;
  clientsAttemptingToZoneIn : list (Z * nat);
  zoneInTimers : list nat;                    (* the client each one is for *)
  csClients : gmap nat CharSelectClient;
  queries : list Query;
  toMaster : list ClientZoning;
  handlerDrops : list nat;
  now : Z;
}.

Definition set_unclaimed (l : list CharSelectAuth) (s : CharSelect) : CharSelect :=
  mkCharSelect l (unauthedClients s) (clientsAttemptingToZoneIn s) (zoneInTimers s) (csClients s) (queries s) (toMaster s) (handlerDrops s) (now s).
Definition set_unauthed (l : list nat) (s : CharSelect) : CharSelect :=
  mkCharSelect (unclaimedAuths s) l (clientsAttemptingToZoneIn s) (zoneInTimers s) (csClients s) (queries s) (toMaster s) (handlerDrops s) (now s).
Definition set_zoning (l : list (Z * nat)) (s : CharSelect) : CharSelect :=
  mkCharSelect (unclaimedAuths s) (unauthedClients s) l (zoneInTimers s) (csClients s) (queries s) (toMaster s) (handlerDrops s) (now s).
Definition set_timers (l : list nat) (s : CharSelect) : CharSelect :=
  mkCharSelect (unclaimedAuths s) (unauthedClients s) (clientsAttemptingToZoneIn s) l (csClients s) (queries s) (toMaster s) (handlerDrops s) (now s).
Definition set_csClients (m : gmap nat CharSelectClient) (s : CharSelect) : CharSelect :=
  mkCharSelect (unclaimedAuths s) (unauthedClients s) (clientsAttemptingToZoneIn s) (zoneInTimers s) m (queries s) (toMaster s) (handlerDrops s) (now s).
Definition set_queries (q : list Query) (s : CharSelect) : CharSelect :=
  mkCharSelect (unclaimedAuths s) (unauthedClients s) (clientsAttemptingToZoneIn s) (zoneInTimers s) (csClients s) q (toMaster s) (handlerDrops s) (now s).
Definition set_toMaster (l : list ClientZoning) (s : CharSelect) : CharSelect :=
  mkCharSelect (unclaimedAuths s) (unauthedClients s) (clientsAttemptingToZoneIn s) (zoneInTimers s) (csClients s) (queries s) l (handlerDrops s) (now s).
Definition add_handler_drop (h : nat) (s : CharSelect) : CharSelect :=
  mkCharSelect (unclaimedAuths s) (unauthedClients s) (clientsAttemptingToZoneIn s) (zoneInTimers s) (csClients s) (queries s) (toMaster s) (handlerDrops s ++ [h]) (now s).
Definition set_now (t : Z) (s : CharSelect) : CharSelect :=
  mkCharSelect (unclaimedAuths s) (unauthedClients s) (clientsAttemptingToZoneIn s) (zoneInTimers s) (csClients s) (queries s) (toMaster s) (handlerDrops s) t.

Definition char_select_init : CharSelect := mkCharSelect [] [] [] [] ∅ [] [] [] 0.

(** ** Clients in memory *)
Definition client_at (id : nat) : code CharSelect CharSelectClient := λ s, (deref (csClients s !! id), s).
Definition put_client (id : nat) (c : CharSelectClient) : code CharSelect unit :=
  modify (λ s, set_csClients (<[id := c]> (csClients s)) s).
Definition upd_client (id : nat) (f : CharSelectClient → CharSelectClient) : code CharSelect unit :=
  c ← client_at id; put_client id (f c).

Definition set_refCount (n : Z) (c : CharSelectClient) : CharSelectClient :=
  mkCs (cs_handler c) (cs_ip c) n (cs_auth c) (weaponMaterialsTrilogy c) (isNameApproved c) (cs_scheduled c).
Definition set_auth (a : CharSelectAuth) (c : CharSelectClient) : CharSelectClient :=
  mkCs (cs_handler c) (cs_ip c) (cs_refCount c) a (weaponMaterialsTrilogy c) (isNameApproved c) (cs_scheduled c).
Definition set_weapons (l : list (list Z)) (c : CharSelectClient) : CharSelectClient :=
  mkCs (cs_handler c) (cs_ip c) (cs_refCount c) (cs_auth c) l (isNameApproved c) (cs_scheduled c).
Definition char_select_client_set_name_approved (b : bool) (c : CharSelectClient) : CharSelectClient :=
  mkCs (cs_handler c) (cs_ip c) (cs_refCount c) (cs_auth c) (weaponMaterialsTrilogy c) b (cs_scheduled c).
Definition add_scheduled (opcode : Z) (payload : list Z) (c : CharSelectClient) : CharSelectClient :=
  mkCs (cs_handler c) (cs_ip c) (cs_refCount c) (cs_auth c) (weaponMaterialsTrilogy c) (isNameApproved c)
    (cs_scheduled c ++ [(opcode, payload)]).

Definition set_account_id (n : Z) (a : CharSelectAuth) : CharSelectAuth :=
  mkAuth n (au_isLocal a) (au_timestamp a) (au_accountStatus a) (au_isLocked a) (au_accountName a) (au_sessionKey a).
Definition set_local (b : bool) (a : CharSelectAuth) : CharSelectAuth :=
  mkAuth (au_accountId a) b (au_timestamp a) (au_accountStatus a) (au_isLocked a) (au_accountName a) (au_sessionKey a).
Definition set_timestamp (t : Z) (a : CharSelectAuth) : CharSelectAuth :=
  mkAuth (au_accountId a) (au_isLocal a) t (au_accountStatus a) (au_isLocked a) (au_accountName a) (au_sessionKey a).
Definition set_account_status (n : Z) (a : CharSelectAuth) : CharSelectAuth :=
  mkAuth (au_accountId a) (au_isLocal a) (au_timestamp a) n (au_isLocked a) (au_accountName a) (au_sessionKey a).
Definition set_session_key (key : list Z) (a : CharSelectAuth) : CharSelectAuth :=
  mkAuth (au_accountId a) (au_isLocal a) (au_timestamp a) (au_accountStatus a) (au_isLocked a) (au_accountName a) key.

Definition char_select_client_is_authed (c : CharSelectClient) : bool := negb (au_timestamp (cs_auth c) =? 0).
Definition char_select_client_account_id (c : CharSelectClient) : Z := au_accountId (cs_auth c).

Definition no_auth : CharSelectAuth := mkAuth 0 false 0 0 false (replicate 32 0) (replicate 32 0).

(** A new connection's client, at address [id]; its handler's [clientObject]
    holds the one reference. *)
Definition char_select_client_create (id handler : nat) (ip : Z) : code CharSelect unit :=
  put_client id (mkCs handler ip 1 no_auth (replicate 10 (replicate 2 0)) false []).

Definition char_select_client_grab (id : nat) : code CharSelect unit := upd_client id (λ c, set_refCount (cs_refCount c + 1) c).

(** The first entry only. *)
Definition char_select_remove_client_from_unauthed_list (id : nat) : code CharSelect unit :=
  modify (λ s, match list_find (λ i, i = id) (unauthedClients s) with
               | Some (i, _) => set_unauthed (swap_out i (unauthedClients s)) s
               | None => s
               end).

Definition char_select_client_drop (id : nat) : code CharSelect unit :=
  c ← client_at id;
  if 1 <? cs_refCount c then put_client id (set_refCount (cs_refCount c - 1) c)
  else
    put_client id (set_refCount (cs_refCount c - 1) c) ;;
    char_select_remove_client_from_unauthed_list id ;;
    modify (add_handler_drop (cs_handler c)) ;;
    modify (λ s, set_csClients (delete id (csClients s)) s).

(** [client] is NULL for a connection of the standard protocol. *)
Definition client_on_disconnect (client : option nat) (isLinkdead : bool) : code CharSelect unit :=
  match client with Some id => char_select_client_drop id | None => mret tt end.

Definition char_select_is_ip_address_local (ip : Z) : bool :=
  (ip =? make_ip 127 0 0 1) ||
  (Z.land ip 0x0000ffff =? make_ip 192 168 0 0) ||
  (Z.land ip 0x000000ff =? make_ip 10 0 0 0) ||
  (Z.land ip 0x0000f0ff =? make_ip 172 16 0 0).

Definition db_schedule (q : Query) : code CharSelect unit := modify (λ s, set_queries (queries s ++ [q]) s).

(** ** The queries a client starts *)
Definition char_select_client_query_account_id (id : nat) : code CharSelect unit :=
  char_select_client_grab id ;;
  c ← client_at id;
  name ← lift (field_string (au_accountName (cs_auth c)));
  db_schedule (SelectAccountId id (au_accountId (cs_auth c)) name).

Definition char_select_client_query_character_name_taken (id : nat) (name : list Z) : code CharSelect unit :=
  char_select_client_grab id ;;
  db_schedule (SelectName id name).

Definition char_select_client_delete_character_by_name (id : nat) (name : list Z) : code CharSelect unit :=
  char_select_client_grab id ;;
  c ← client_at id;
  db_schedule (DeleteCharacter id (char_select_client_account_id c) name).
