(* ===== verification/CharSelectTrilogy.v ===== *)
(** The character select protocol: char_select/char_select_client_trilogy.c,
    with the auths and the zoning requests of eqp_char_select.c it calls.

    The content of fresh allocations, the scripts that change a new character
    and the database's answers are arguments. At the end, what the handlers do
    on their main paths: the packets they send and the fields they set. *)

From S2P Require Import Prelude EqpString HashTable ZoneId Aligned Text Servers EqTime PlayerProfile CharCreate CharSelect.

Definition TrilogyOp_LoginInfo : Z := 0x1858.
Definition TrilogyOp_LoginApproved : Z := 0x1007.
Definition TrilogyOp_Enter : Z := 0x8001.
Definition TrilogyOp_ExpansionInfo : Z := 0x21d8.
Definition TrilogyOp_CharacterInfo : Z := 0x2047.
Definition TrilogyOp_GuildList : Z := 0x2192.
Definition TrilogyOp_NameApproval : Z := 0x208b.
Definition TrilogyOp_CreateCharacter : Z := 0x2049.
Definition TrilogyOp_DeleteCharacter : Z := 0x205a.
Definition TrilogyOp_WearChange : Z := 0x2092.
Definition TrilogyOp_ZoneUnavailable : Z := 0x8005.
Definition TrilogyOp_MessageOfTheDay : Z := 0x21dd.
Definition TrilogyOp_TimeOfDay : Z := 0x20f2.
Definition TrilogyOp_ZoneAddress : Z := 0x8004.

Definition WEARCHANGE_OP_SWITCH_CHAR : Z := 0x7fff.
Definition EQP_CHAR_SELECT_MAX_GUILDS : nat := 512.
Definition EQP_CHAR_SELECT_UNCLAIMED_AUTHS_TIMEOUT : Z := 30000.

(** Sizes of the packed structs and their fields. *)
Definition SIZEOF_GuildEntry : Z := 56.
Definition SIZEOF_GuildList : Z := 4 + Z.of_nat EQP_CHAR_SELECT_MAX_GUILDS * SIZEOF_GuildEntry.
Definition SIZEOF_NameApproval : Z := 40.
Definition SIZEOF_WearChange : Z := 16.
Definition SIZEOF_ZoneUnavailable : Z := 20.
Definition SIZEOF_ZoneAddress_ip : Z := 75.
Definition SIZEOF_ZoneAddress_shortName : Z := 53.
Definition SIZEOF_ZoneAddress : Z := 130.
Definition SIZEOF_TimeOfDay : Z := 6.

(** strtol with base 10, of a C string: white space, a sign, digits; out of
    range it gives the largest or smallest long. *)
Definition is_space (b : Z) : bool := (b =? 32) || ((9 <=? b) && (b <=? 13)).
Definition is_digit (b : Z) : bool := (48 <=? b) && (b <=? 57).
Fixpoint skip_spaces (s : list Z) : list Z :=
  match s with b :: s' => if is_space b then skip_spaces s' else s | [] => [] end.
Fixpoint leading_digits (s : list Z) : list Z :=
  match s with b :: s' => if is_digit b then b :: leading_digits s' else [] | [] => [] end.
Definition strtol (s : list Z) : Z :=
  let s := skip_spaces s in
  let n := match s with
           | 43 :: s => value (leading_digits s)
           | 45 :: s => - value (leading_digits s)
           | _ => value (leading_digits s)
           end in
  Z.max (- 2 ^ 63) (Z.min (2 ^ 63 - 1) n).

(** A row of the characters query. *)
Record CharacterRow := mkRow {
  r_name : list Z;
  r_level : Z; r_class : Z; r_race : Z; r_zone : Z; r_gender : Z; r_face : Z;
  r_materials : list Z;      (* material0 to material8 *)
  r_tints : list Z;          (* tint0 to tint6 *)
}.

(** CSTrilogy_CharSelectInfo; every field is an array of ten. *)
Record CharSelectInfo := mkInfo {
  i_names : list (list Z);
  i_levels : list Z;
  i_classes : list Z;
  i_races : list Z;
  i_zoneShortNames : list (list Z);
  i_genders : list Z;
  i_faces : list Z;
  i_materials : list (list Z);
  i_materialTints : list (list Z);
  i_weirdA : list (list Z);
  i_weirdB : list (list Z);
}.

(** Its bytes; unknownA, unknownB and unknownC are never set. *)
Definition info_bytes (i : CharSelectInfo) : list Z :=
  concat (i_names i) ++ i_levels i ++ i_classes i ++ concat (le_bytes 2 <$> i_races i) ++ concat (i_zoneShortNames i) ++
  i_genders i ++ i_faces i ++ concat (i_materials i) ++ replicate 2 0 ++ concat ((λ l, concat (le_bytes 4 <$> l)) <$> i_materialTints i) ++
  replicate 20 0 ++ concat (i_weirdA i) ++ concat (i_weirdB i) ++ replicate 148 0.

(** memset, and the loop over weirdA and weirdB. *)
Definition blank_info : CharSelectInfo :=
  mkInfo (replicate 10 (replicate 30 0)) (replicate 10 0) (replicate 10 0) (replicate 10 0) (replicate 10 (replicate 20 0))
    (replicate 10 0) (replicate 10 0) (replicate 10 (replicate 9 0)) (replicate 10 (replicate 9 0))
    ((λ i, replicate 4 (Z.of_nat i)) <$> seq 0 10) ((λ i, replicate 4 (Z.of_nat i)) <$> seq 0 10).

Definition set_name (i : nat) (s : list Z) (f : CharSelectInfo) : CharSelectInfo :=
  mkInfo (alter (snprintf_field 30 s) i (i_names f)) (i_levels f) (i_classes f) (i_races f) (i_zoneShortNames f) (i_genders f)
    (i_faces f) (i_materials f) (i_materialTints f) (i_weirdA f) (i_weirdB f).
Definition set_zone (i : nat) (s : list Z) (f : CharSelectInfo) : CharSelectInfo :=
  mkInfo (i_names f) (i_levels f) (i_classes f) (i_races f) (alter (snprintf_field 20 s) i (i_zoneShortNames f)) (i_genders f)
    (i_faces f) (i_materials f) (i_materialTints f) (i_weirdA f) (i_weirdB f).
Definition set_numbers (i : nat) (level class race gender face : Z) (f : CharSelectInfo) : CharSelectInfo :=
  mkInfo (i_names f) (<[i := level]> (i_levels f)) (<[i := class]> (i_classes f)) (<[i := race]> (i_races f)) (i_zoneShortNames f)
    (<[i := gender]> (i_genders f)) (<[i := face]> (i_faces f)) (i_materials f) (i_materialTints f) (i_weirdA f) (i_weirdB f).
Definition set_looks (i : nat) (materials tints : list Z) (f : CharSelectInfo) : CharSelectInfo :=
  mkInfo (i_names f) (i_levels f) (i_classes f) (i_races f) (i_zoneShortNames f) (i_genders f) (i_faces f)
    (alter (λ old, materials ++ drop (length materials) old) i (i_materials f))
    (alter (λ old, tints ++ drop (length tints) old) i (i_materialTints f)) (i_weirdA f) (i_weirdB f).

(** "Handle empty spaces". *)
Fixpoint empty_slots (n i : nat) (f : CharSelectInfo) : CharSelectInfo :=
  match n with
  | O => f
  | S n => empty_slots n (S i) (set_zone i (text "qeynos") (set_name i (text "<none>") f))
  end.

Section Trilogy.
Context (junk : Z → list Z) (script : CharCreateLua → CharCreateLua) (zoneIdsByShortName : HashTable EString Z).

Definition cs_trilogy_schedule_packet (id : nat) (opcode length_ : Z) (w : code Aligned unit) : code CharSelect unit :=
  data ← lift (fill_packet junk length_ w);
  upd_client id (add_scheduled opcode data).

Definition cs_trilogy_echo_zero_length (id : nat) (opcode : Z) : code CharSelect unit :=
  cs_trilogy_schedule_packet id opcode 0 (mret tt).

(** ** Auths *)
Definition cs_client_trilogy_on_auth (id : nat) : code CharSelect unit :=
  cs_trilogy_schedule_packet id TrilogyOp_LoginApproved 1 (aligned_write_uint8 0) ;;
  cs_trilogy_schedule_packet id TrilogyOp_Enter 1 (aligned_write_uint8 0) ;;
  cs_trilogy_schedule_packet id TrilogyOp_ExpansionInfo 4 (aligned_write_uint32 (Z.lor 1 2)) ;;
  char_select_client_query_account_id id.

Definition char_select_client_set_auth (id : nat) (auth : CharSelectAuth) : code CharSelect unit :=
  upd_client id (λ c, set_auth (set_local (char_select_is_ip_address_local (cs_ip c)) auth) c) ;;
  cs_client_trilogy_on_auth id.

(** The loop of char_select_handle_client_auth from position [i]: the client
    that waits for this auth. *)
Fixpoint find_unauthed (l : list nat) (i : nat) (accountId : Z) (sessionKey : list Z) : code CharSelect (option (nat * nat)) :=
  match l with
  | [] => mret None
  | id :: l =>
      c ← client_at id;
      if char_select_client_account_id c =? accountId then
        r ← lift (strcmp (au_sessionKey (cs_auth c)) sessionKey);
        if r =? 0 then mret (Some (i, id)) else find_unauthed l (S i) accountId sessionKey
      else find_unauthed l (S i) accountId sessionKey
  end.

Definition char_select_handle_client_auth (auth : CharSelectAuth) : code CharSelect unit :=
  clients ← gets unauthedClients;
  found ← find_unauthed clients 0 (au_accountId auth) (au_sessionKey auth);
  match found with
  | Some (i, id) =>
      char_select_client_set_auth id auth ;;
      modify (λ s, set_unauthed (swap_out i (unauthedClients s)) s)
  | None =>
      time ← gets now;
      modify (λ s, set_unclaimed (unclaimedAuths s ++ [set_timestamp time auth]) s)
  end.

Fixpoint find_unclaimed (l : list CharSelectAuth) (i : nat) (accountId : Z) (sessionKey : list Z)
    : outcome (option (nat * CharSelectAuth)) :=
  match l with
  | [] => Ok None
  | auth :: l =>
      if au_accountId auth =? accountId then
        r ← strcmp (au_sessionKey auth) sessionKey;
        if r =? 0 then Ok (Some (i, auth)) else find_unclaimed l (S i) accountId sessionKey
      else find_unclaimed l (S i) accountId sessionKey
  end.

Definition char_select_handle_unauthed_client (id : nat) : code CharSelect unit :=
  c ← client_at id;
  auths ← gets unclaimedAuths;
  found ← lift (find_unclaimed auths 0 (char_select_client_account_id c) (au_sessionKey (cs_auth c)));
  match found with
  | Some (i, auth) =>
      char_select_client_set_auth id auth ;;
      modify (λ s, set_unclaimed (swap_out i (unclaimedAuths s)) s)
  | None => modify (λ s, set_unauthed (unauthedClients s ++ [id]) s)
  end.

(** The loop of the timer's callback from position [i]. *)
Fixpoint expire (fuel i : nat) (time : Z) (l : list CharSelectAuth) : list CharSelectAuth :=
  match fuel with
  | O => l
  | S fuel =>
      match l !! i with
      | None => l
      | Some auth =>
          if EQP_CHAR_SELECT_UNCLAIMED_AUTHS_TIMEOUT <=? u64 (time - au_timestamp auth) then expire fuel i time (swap_out i l)
          else expire fuel (S i) time l
      end
  end.

Definition char_select_unclaimed_auths_timer_callback : code CharSelect unit :=
  modify (λ s, set_unclaimed (expire (length (unclaimedAuths s)) 0 (now s) (unclaimedAuths s)) s).

Definition cs_trilogy_handle_op_login_info (id : nat) (a : Aligned) : code CharSelect unit :=
  if aligned_remaining a =? 0 then mret tt
  else
    let account := drop (Z.to_nat (cursor a)) (buffer a) in
    '(_, a) ← reading aligned_advance_null_terminator a;
    if aligned_remaining a =? 0 then mret tt
    else
      n ← lift (strlen account);
      if n <? 4 then mret tt
      else
        upd_client id (λ c, set_auth (set_account_id (u32 (strtol (take (Z.to_nat n - 3) (drop 3 account)))) (cs_auth c)) c) ;;
        key ← lift (string_at a);
        upd_client id (λ c, set_auth (set_session_key (snprintf_field 32 key (au_sessionKey (cs_auth c))) (cs_auth c)) c) ;;
        char_select_handle_unauthed_client id.

(** ** Characters *)
Definition cs_client_trilogy_on_account_id (id : nat) (accountId : Z) : code CharSelect unit :=
  char_select_client_grab id ;;
  db_schedule (SelectCharacters id accountId).

(** One row into slot [i]; the arrays have ten slots. *)
Definition read_row (id i : nat) (row : CharacterRow) (f : CharSelectInfo) : code CharSelect CharSelectInfo :=
  if (10 <=? i)%nat then fault
  else
    upd_client id (λ c, set_weapons (<[i := u8 <$> drop 7 (r_materials row)]> (weaponMaterialsTrilogy c)) c) ;;
    mret (set_looks i (u8 <$> take 7 (r_materials row)) (u32 <$> r_tints row)
      (set_numbers i (u8 (r_level row)) (u8 (r_class row)) (u16 (r_race row)) (u8 (r_gender row)) (u8 (r_face row))
        (set_zone i (text (zone_short_name_by_id (r_zone row))) (set_name i (r_name row) f)))).

Fixpoint read_rows (id i : nat) (rows : list CharacterRow) (f : CharSelectInfo) : code CharSelect (nat * CharSelectInfo) :=
  match rows with
  | [] => mret (i, f)
  | row :: rows => f ← read_row id i row f; read_rows id (S i) rows f
  end.

Definition cs_client_trilogy_characters_callback (id : nat) (rows : list CharacterRow) : code CharSelect unit :=
  '(i, f) ← read_rows id 0 rows blank_info;
  upd_client id (add_scheduled TrilogyOp_CharacterInfo (info_bytes (empty_slots (10 - i) i f))) ;;
  char_select_client_drop id.

Definition char_select_client_insert_account_id_callback (id : nat) (accountId : Z) : code CharSelect unit :=
  upd_client id (λ c, set_auth (set_account_id (u32 accountId) (cs_auth c)) c) ;;
  cs_client_trilogy_on_account_id id (u32 accountId) ;;
  char_select_client_drop id ;;
  db_schedule (InsertAccount accountId).

(** The first row counts. *)
Definition char_select_client_query_account_id_callback (id : nat) (rows : list Z) : code CharSelect unit :=
  match rows with
  | row :: _ =>
      upd_client id (λ c, set_auth (set_account_id (u32 row) (cs_auth c)) c) ;;
      cs_client_trilogy_on_account_id id (u32 row) ;;
      char_select_client_drop id
  | [] =>
      c ← client_at id;
      name ← lift (field_string (au_accountName (cs_auth c)));
      db_schedule (InsertAccountId id (au_accountId (cs_auth c)) name)
  end.

Definition char_select_client_delete_character_callback (id : nat) (affectedRows : Z) : code CharSelect unit :=
  (if affectedRows =? 0 then mret tt
   else c ← client_at id; cs_client_trilogy_on_account_id id (char_select_client_account_id c)) ;;
  char_select_client_drop id.

(** *** New characters *)
Definition cs_trilogy_handle_op_name_approval (id : nat) (a : Aligned) : code CharSelect unit :=
  c ← client_at id;
  if negb (char_select_client_is_authed c) || (aligned_remaining a <? SIZEOF_NameApproval) then mret tt
  else
    name ← lift (string_at a);
    char_select_client_query_character_name_taken id name.

Definition cs_client_trilogy_on_character_name_checked (id : nat) (taken : bool) : code CharSelect unit :=
  let available := negb taken in
  (if available then upd_client id (char_select_client_set_name_approved true) else mret tt) ;;
  cs_trilogy_schedule_packet id TrilogyOp_NameApproval 1 (aligned_write_uint8 (if available then 1 else 0)).

Definition char_select_client_query_character_name_callback (id : nat) (rows : nat) : code CharSelect unit :=
  cs_client_trilogy_on_character_name_checked id (negb (rows =? 0)%nat) ;;
  char_select_client_drop id.

Definition cs_client_trilogy_send_char_create_failure (id : nat) : code CharSelect unit :=
  upd_client id (char_select_client_set_name_approved false) ;;
  cs_trilogy_schedule_packet id TrilogyOp_NameApproval 1 (aligned_write_uint8 0).

Definition cs_trilogy_handle_op_create_character (id : nat) (a : Aligned) : code CharSelect unit :=
  c ← client_at id;
  if negb (char_select_client_is_authed c) || negb (isNameApproved c) || (aligned_remaining a <? SIZEOF_CharCreation) then mret tt
  else
    '(ccl, _) ← reading (read_char_creation zoneIdsByShortName (char_select_client_account_id c)) a;
    if negb (cs_client_trilogy_char_creation_params_are_valid ccl) then cs_client_trilogy_send_char_create_failure id
    else
      char_select_client_grab id ;;
      db_schedule (InsertCharacter id (script ccl)).

(** What the transaction inserts: bind points by number, and items. *)
Definition cs_client_trilogy_transaction (ccl : CharCreateLua) : list (Z * CharCreatePoint) * list CharCreateItem :=
  (filter (λ b, p_zoneId b.2 ≠ 0) (zip (Z.of_nat <$> seq 0 5) (bindPoints ccl)), startingItems ccl).

Definition cs_client_trilogy_transaction_finished (id : nat) : code CharSelect unit :=
  c ← client_at id;
  cs_client_trilogy_on_account_id id (char_select_client_account_id c) ;;
  char_select_client_drop id.

Definition cs_client_trilogy_create_character_callback (id : nat) (ccl : CharCreateLua) (affectedRows rowId : Z) : code CharSelect unit :=
  if affectedRows =? 0 then
    cs_client_trilogy_send_char_create_failure id ;;
    char_select_client_drop id
  else if char_create_lua_has_bind_points_or_items ccl then
    db_schedule (InsertBelongings id (char_create_lua_set_character_id rowId ccl))
  else
    c ← client_at id;
    cs_client_trilogy_on_account_id id (char_select_client_account_id c) ;;
    char_select_client_drop id.

Definition cs_trilogy_handle_op_delete_character (id : nat) (a : Aligned) : code CharSelect unit :=
  c ← client_at id;
  if negb (char_select_client_is_authed c) || (aligned_remaining a <? 2) then mret tt
  else
    name ← lift (string_at a);
    char_select_client_delete_character_by_name id name.

(** ** Other packets *)
Fixpoint write_guilds (n : nat) : code Aligned unit :=
  match n with
  | O => mret tt
  | S n =>
      aligned_write_uint32 0xffffffff ;;
      aligned_advance 32 ;;
      aligned_write_uint32 0xffffffff ;;
      aligned_advance 8 ;;
      aligned_write_uint32 0xffffffff ;;
      aligned_advance 4 ;;
      write_guilds n
  end.

Definition cs_trilogy_handle_op_guild_list (id : nat) : code CharSelect unit :=
  c ← client_at id;
  if negb (char_select_client_is_authed c) then mret tt
  else
    cs_trilogy_schedule_packet id TrilogyOp_GuildList SIZEOF_GuildList
      (aligned_write_zero_all ;; aligned_advance 4 ;; write_guilds EQP_CHAR_SELECT_MAX_GUILDS).

Definition char_select_client_weapon_material (c : CharSelectClient) (index slot : Z) : outcome Z :=
  weapons ← deref (weaponMaterialsTrilogy c !! Z.to_nat index); deref (weapons !! Z.to_nat (slot - 7)).

(** The fields of the request that are used: slot, material, operation, flag. *)
Definition read_wear_change : code Aligned (Z * Z * Z * Z) :=
  _ ← aligned_advance 4;
  slot ← aligned_read_uint8; index ← aligned_read_uint8; op ← aligned_read_uint16;
  _ ← aligned_advance 5;
  flag ← aligned_read_uint8;
  mret (slot, index, op, flag).

Definition cs_trilogy_handle_op_wear_change (id : nat) (a : Aligned) : code CharSelect unit :=
  c ← client_at id;
  if negb (char_select_client_is_authed c) || (aligned_remaining a <? SIZEOF_WearChange) then mret tt
  else
    '(slot, index, op, flag, _) ← reading read_wear_change a;
    if negb (op =? WEARCHANGE_OP_SWITCH_CHAR) && negb (flag =? 0xb1) then
      if (10 <=? index) || (negb (slot =? 7) && negb (slot =? 8)) then mret tt
      else
        material ← lift (char_select_client_weapon_material c index slot);
        cs_trilogy_schedule_packet id TrilogyOp_WearChange SIZEOF_WearChange
          (aligned_write_uint32 0 ;; aligned_write_uint8 slot ;; aligned_write_uint8 material ;; aligned_write_zeroes 10)
    else mret tt.

(** ** Zoning in *)
Definition char_select_send_client_zone_in_request (id : nat) (charName : list Z) : code CharSelect unit :=
  c ← client_at id;
  name ← lift (field_string (au_accountName (cs_auth c)));
  let accountId := char_select_client_account_id c in
  modify (λ s, set_toMaster (toMaster s ++ [mkZoning accountId (cs_ip c) (au_isLocal (cs_auth c)) (take 63 name) (take 31 charName)]) s) ;;
  modify (λ s, set_zoning (clientsAttemptingToZoneIn s ++ [(accountId, id)]) s) ;;
  char_select_client_grab id ;;
  modify (λ s, set_timers (zoneInTimers s ++ [id]) s).

Definition cs_trilogy_handle_op_enter (id : nat) (a : Aligned) : code CharSelect unit :=
  c ← client_at id;
  if negb (char_select_client_is_authed c) || (aligned_remaining a <? 2) then mret tt
  else
    charName ← lift (string_at a);
    char_select_send_client_zone_in_request id charName.

Definition cs_client_trilogy_on_zone_in_failure (id : nat) (zoneShortName : list Z) : code CharSelect unit :=
  cs_trilogy_schedule_packet id TrilogyOp_ZoneUnavailable SIZEOF_ZoneUnavailable
    (aligned_write_snprintf_full_advance SIZEOF_ZoneUnavailable zoneShortName).

(** Little endian numbers in the memory of a struct. *)
Definition number_at (n : nat) (offset : nat) (data : list Z) : Z :=
  foldr (λ b v, b + 256 * v) 0 (take n (drop offset data)).

(** Server_ZoneAddress. *)
Definition OFFSETOF_ipAddress : nat := 4.
Definition OFFSETOF_port : nat := 132.
Definition OFFSETOF_shortName : nat := 134.
Definition OFFSETOF_eqTimeBase : nat := 168.
Definition OFFSETOF_motdLength : nat := 176.
Definition OFFSETOF_motd : nat := 180.
Definition SIZEOF_Server_ZoneAddress : Z := 184.
Definition SIZEOF_ClientZoningReject : Z := 36.

(** toNetworkUint16 *)
Definition swap16 (v : Z) : Z := Z.lor (Z.shiftr v 8) (u16 (Z.shiftl v 8)).

(** [seconds] is the clock's reading. *)
Definition cs_client_trilogy_on_zone_in_success (seconds : Z) (id : nat) (zoneAddr : list Z) : code CharSelect unit :=
  let length_ := number_at 4 OFFSETOF_motdLength zoneAddr in
  cs_trilogy_schedule_packet id TrilogyOp_MessageOfTheDay (u32 (length_ + 1))
    (aligned_write_buffer (drop OFFSETOF_motd zoneAddr) length_ ;; aligned_write_uint8 0) ;;
  t ← lift (eq_time_calc seconds (number_at 8 OFFSETOF_eqTimeBase zoneAddr));
  cs_trilogy_schedule_packet id TrilogyOp_TimeOfDay SIZEOF_TimeOfDay
    (aligned_write_uint8 (hour t) ;; aligned_write_uint8 (minute t) ;; aligned_write_uint8 (day t) ;;
     aligned_write_uint8 (month t) ;; aligned_write_uint16 (year t)) ;;
  ip ← lift (field_string (drop OFFSETOF_ipAddress zoneAddr));
  shortName ← lift (field_string (drop OFFSETOF_shortName zoneAddr));
  cs_trilogy_schedule_packet id TrilogyOp_ZoneAddress SIZEOF_ZoneAddress
    (aligned_write_snprintf_full_advance SIZEOF_ZoneAddress_ip ip ;;
     aligned_write_snprintf_full_advance SIZEOF_ZoneAddress_shortName shortName ;;
     aligned_write_uint16 (swap16 (number_at 2 OFFSETOF_port zoneAddr))).

(** The first client that waits with this account id. *)
Definition attempt_of (accountId : Z) (s : CharSelect) : option (nat * nat) :=
  match list_find (λ r, r.1 = accountId) (clientsAttemptingToZoneIn s) with
  | Some (i, (_, id)) => Some (i, id)
  | None => None
  end.

Definition char_select_handle_op_client_zoning (seconds : Z) (data : list Z) : code CharSelect unit :=
  let len := Z.of_nat (length data) in
  if len <? SIZEOF_Server_ZoneAddress then mret tt
  else if len <? Z.of_nat OFFSETOF_motd + number_at 4 OFFSETOF_motdLength data then mret tt
  else
    attempt ← gets (attempt_of (number_at 4 0 data));
    match attempt with
    | Some (i, id) =>
        cs_client_trilogy_on_zone_in_success seconds id data ;;
        modify (λ s, set_zoning (swap_out i (clientsAttemptingToZoneIn s)) s)
    | None => mret tt
    end.

Definition char_select_handle_op_client_zoning_rejected (data : list Z) : code CharSelect unit :=
  if Z.of_nat (length data) <? SIZEOF_ClientZoningReject then mret tt
  else
    attempt ← gets (attempt_of (number_at 4 0 data));
    match attempt with
    | Some (i, id) =>
        shortName ← lift (field_string (drop 4 data));
        cs_client_trilogy_on_zone_in_failure id shortName ;;
        modify (λ s, set_zoning (swap_out i (clientsAttemptingToZoneIn s)) s)
    | None => mret tt
    end.

(** The timer is the one at position [t]; it is destroyed at the end. *)
Definition char_select_client_zone_in_timeout_callback (t : nat) (id : nat) : code CharSelect unit :=
  attempts ← gets clientsAttemptingToZoneIn;
  match list_find (λ r, r.2 = id) attempts with
  | Some (i, _) =>
      modify (λ s, set_zoning (swap_out i (clientsAttemptingToZoneIn s)) s) ;;
      cs_client_trilogy_on_zone_in_failure id (text "qeynos")
  | None => mret tt
  end ;;
  char_select_client_drop id ;;
  modify (λ s, set_timers (delete t (zoneInTimers s)) s).

Definition client_recv_packet_trilogy (id : nat) (opcode : Z) (a : Aligned) : code CharSelect unit :=
  if opcode =? TrilogyOp_LoginInfo then cs_trilogy_handle_op_login_info id a
  else if opcode =? TrilogyOp_GuildList then cs_trilogy_handle_op_guild_list id
  else if opcode =? TrilogyOp_NameApproval then cs_trilogy_handle_op_name_approval id a
  else if opcode =? TrilogyOp_CreateCharacter then cs_trilogy_handle_op_create_character id a
  else if opcode =? TrilogyOp_DeleteCharacter then cs_trilogy_handle_op_delete_character id a
  else if opcode =? TrilogyOp_WearChange then cs_trilogy_handle_op_wear_change id a
  else if opcode =? TrilogyOp_Enter then cs_trilogy_handle_op_enter id a
  else if bool_decide (opcode ∈ [0x2023; 0x80a9; 0xab00; 0xac00; 0xad00]) then cs_trilogy_echo_zero_length id opcode
  else mret tt.

(** ** Admission *)

(** A row of the status query: status and the end of a suspension. *)
Definition tcp_client_account_status_callback (auth : CharSelectAuth) (rows : list (Z * Z)) : code CharSelect unit :=
  let '(status, suspendedUntil) := default (0, 0) (last rows) in
  let auth := set_account_status (i32 status) auth in
  time ← gets now;
  if (u64 suspendedUntil <? time) && (0 <=? i32 status) && (au_isLocal auth || negb (au_isLocked auth) || (50 <=? i32 status)) then
    char_select_handle_client_auth auth
  else mret tt.
End Trilogy.

(** * What the handlers do on their main paths *)

Definition put_to (s : CharSelect) (id : nat) (c : CharSelectClient) : CharSelect := set_csClients (<[id := c]> (csClients s)) s.

Lemma client_at_ok id c s : csClients s !! id = Some c → client_at id s = (Ok c, s).
Proof. intros Hc. unfold client_at. by rewrite Hc. Qed.

Lemma upd_cs_client_ok id c f s : csClients s !! id = Some c → upd_client id f s = (Ok tt, put_to s id (f c)).
Proof. intros Hc. unfold upd_client. rewrite (bind_ok _ _ _ _ _ (client_at_ok id c s Hc)). done. Qed.

Lemma put_cs_lookup s id c : csClients (put_to s id c) !! id = Some c.
Proof. apply lookup_insert_eq. Qed.

Lemma put_cs_twice s id c d : put_to (put_to s id c) id d = put_to s id d.
Proof. unfold put_to, set_csClients. simpl. by rewrite insert_insert_eq. Qed.

Lemma put_cs_same s id c : csClients s !! id = Some c → put_to s id c = s.
Proof. intros Hc. unfold put_to, set_csClients. rewrite insert_id by done. by destruct s. Qed.

Section Packets.
Context (junk : Z → list Z) (Hjunk : ∀ n, length (junk n) = Z.to_nat n).

Lemma packet_schedule_ok id c opcode n w pat s : csClients s !! id = Some c → emits w pat → Z.of_nat (length pat) ≤ n → n < 2 ^ 32 →
  cs_trilogy_schedule_packet junk id opcode n w s = (Ok tt, put_to s id (add_scheduled opcode (overlay 0 pat (junk n)) c)).
Proof.
  intros Hc Hw Hn H32. unfold cs_trilogy_schedule_packet. rewrite (fill_packet_ok junk Hjunk n w pat) by done.
  rewrite (bind_ok (lift _) _ s _ s eq_refl). by apply upd_cs_client_ok.
Qed.

(** A packet that is written to its end. *)
Lemma schedule_full id c opcode n w bs s : csClients s !! id = Some c → emits w (Some <$> bs) → Z.of_nat (length bs) = n → n < 2 ^ 32 →
  cs_trilogy_schedule_packet junk id opcode n w s = (Ok tt, put_to s id (add_scheduled opcode bs c)).
Proof.
  intros Hc Hw Hn H32. rewrite (packet_schedule_ok id c opcode n w (Some <$> bs)) by (rewrite ?length_fmap; done || lia).
  by rewrite overlay_full by (rewrite Hjunk; lia).
Qed.

(** ** Auths *)

(** What a client is told when its auth is there. *)
Definition approved (c : CharSelectClient) : CharSelectClient :=
  add_scheduled TrilogyOp_ExpansionInfo [3; 0; 0; 0] (add_scheduled TrilogyOp_Enter [0] (add_scheduled TrilogyOp_LoginApproved [0] c)).

Definition with_auth (auth : CharSelectAuth) (c : CharSelectClient) : CharSelectClient :=
  let auth := set_local (char_select_is_ip_address_local (cs_ip c)) auth in
  set_refCount (cs_refCount c + 1) (approved (set_auth auth c)).

Lemma set_auth_ok id c auth name s : csClients s !! id = Some c → field_string (au_accountName auth) = Ok name →
  char_select_client_set_auth junk id auth s =
    (Ok tt, set_queries (queries s ++ [SelectAccountId id (au_accountId auth) name]) (put_to s id (with_auth auth c))).
Proof.
  intros Hc Hn. unfold char_select_client_set_auth. erewrite bind_ok by (by apply upd_cs_client_ok).
  unfold cs_client_trilogy_on_auth. set (c1 := set_auth _ c).
  erewrite bind_ok by (apply (schedule_full id c1 _ _ _ [0]); [apply put_cs_lookup|apply (emits_uint8 0)|done|done]). rewrite put_cs_twice.
  erewrite bind_ok by (eapply (schedule_full id _ _ _ _ [0]); [apply put_cs_lookup|apply (emits_uint8 0)|done|done]). rewrite put_cs_twice.
  erewrite bind_ok by (eapply (schedule_full id _ _ _ _ [3; 0; 0; 0]); [apply put_cs_lookup|apply (emits_uint32 (Z.lor 1 2))|done|done]).
  rewrite put_cs_twice. unfold char_select_client_query_account_id.
  erewrite bind_ok by (apply upd_cs_client_ok, put_cs_lookup). rewrite put_cs_twice.
  erewrite bind_ok by (apply client_at_ok, put_cs_lookup). simpl. unfold lift. unfold mbind at 1, code_bind at 1. rewrite Hn. done.
Qed.

(** ** The login packet *)
Lemma advance_null_loop_ok pre post : Forall (λ b, b ≠ 0) pre → ∀ fuel n a, wf a → length_ a < 2 ^ 32 - 1 →
  drop (Z.to_nat (cursor a)) (buffer a) = pre ++ 0 :: post → cursor a + Z.of_nat (length pre) + 1 ≤ length_ a →
  (length pre < fuel)%nat →
  advance_null_loop fuel n a = (Ok (n + Z.of_nat (length pre)), with_cursor a (cursor a + Z.of_nat (length pre) + 1)).
Proof.
  induction 1 as [|b pre Hb Hpre IH]; intros [|fuel] n a Hw H32 Hd Hl Hf; simpl in Hf; try lia; pose proof Hw as (? & ? & ?);
    cbn [advance_null_loop]; rewrite (bind_ok get _ a a a eq_refl), (proj2 (Z.ltb_lt _ _)) by lia.
  - rewrite (bind_ok _ _ a 0 a).
    2: { unfold byte_at. rewrite (proj2 (Z.ltb_ge _ _)) by lia. rewrite <- (Nat.add_0_r (Z.to_nat (cursor a))), <- lookup_drop, Hd. done. }
    rewrite (bind_ok (modify _) _ a tt _ eq_refl). simpl. rewrite wrap_small by (unfold is_word; lia). by rewrite !Z.add_0_r.
  - rewrite (bind_ok _ _ a b a).
    2: { unfold byte_at. rewrite (proj2 (Z.ltb_ge _ _)) by lia. rewrite <- (Nat.add_0_r (Z.to_nat (cursor a))), <- lookup_drop, Hd. done. }
    rewrite (bind_ok (modify _) _ a tt _ eq_refl). simpl in Hl. rewrite wrap_small by (unfold is_word; lia).
    rewrite (proj2 (Z.eqb_neq b 0)) by done. rewrite IH; simpl; try done; try lia.
    + f_equal; [f_equal; lia|]. unfold with_cursor. simpl. f_equal. lia.
    + split_and!; simpl; lia.
    + replace (Z.to_nat (cursor a + 1)) with (Z.to_nat (cursor a) + 1)%nat by lia. rewrite <- drop_drop, Hd. done.
Qed.

(** A login packet: an account of at least four characters and a key. *)
Definition login_packet (account key rest : list Z) : Aligned :=
  mkAligned 0 (Z.of_nat (length account) + 1 + Z.of_nat (length key) + 1) (account ++ 0 :: key ++ 0 :: rest).

Lemma login_packet_read account key rest : Forall (λ b, b ≠ 0) account →
  Z.of_nat (length account) + Z.of_nat (length key) < 2 ^ 31 →
  aligned_advance_null_terminator (login_packet account key rest) =
    (Ok (Z.of_nat (length account)), with_cursor (login_packet account key rest) (Z.of_nat (length account) + 1)).
Proof.
  intros Ha Hl. unfold aligned_advance_null_terminator. rewrite (bind_ok get _ _ _ _ eq_refl).
  rewrite (advance_null_loop_ok account (key ++ 0 :: rest)); simpl; try done; try lia.
  split_and!; simpl; rewrite ?length_app; simpl; rewrite ?length_app; simpl; lia.
Qed.

Definition claimed (account key : list Z) (c : CharSelectClient) : CharSelectClient :=
  set_auth (set_session_key (snprintf_field 32 key (au_sessionKey (cs_auth c))) (set_account_id (u32 (strtol (drop 3 account))) (cs_auth c))) c.

Lemma login_info_ok id c account key rest s : csClients s !! id = Some c →
  Forall (λ b, b ≠ 0) account → Forall (λ b, b ≠ 0) key → (4 ≤ length account)%nat →
  Z.of_nat (length account) + Z.of_nat (length key) < 2 ^ 31 →
  cs_trilogy_handle_op_login_info junk id (login_packet account key rest) s =
    char_select_handle_unauthed_client junk id (put_to s id (claimed account key c)).
Proof.
  intros Hc Ha Hk H4 Hl. unfold cs_trilogy_handle_op_login_info, aligned_remaining.
  rewrite (proj2 (Z.eqb_neq _ 0)) by (simpl; rewrite wrap_small by (unfold is_word; lia); lia). cbv zeta.
  rewrite (bind_ok (reading _ _) _ s (Z.of_nat (length account), with_cursor (login_packet account key rest) (Z.of_nat (length account) + 1)) s)
    by (unfold reading; by rewrite login_packet_read).
  cbv beta iota. rewrite (proj2 (Z.eqb_neq _ 0)) by (simpl; rewrite wrap_small by (unfold is_word; lia); lia).
  change (drop (Z.to_nat (cursor (login_packet account key rest))) (buffer (login_packet account key rest)))
    with (account ++ 0 :: key ++ 0 :: rest).
  rewrite (bind_ok (lift _) _ s (Z.of_nat (length account)) s) by (unfold lift; by rewrite strlen_ok).
  rewrite (proj2 (Z.ltb_ge _ _)) by lia. erewrite bind_ok by (by apply upd_cs_client_ok).
  set (s1 := put_to _ _ _).
  rewrite (bind_ok (lift _) _ s1 key s1).
  2: { unfold lift, string_at. cbn [cursor buffer with_cursor login_packet].
       replace (Z.to_nat (Z.of_nat (length account) + 1)) with (length account + 1)%nat by lia. rewrite drop_app_add. simpl drop. rewrite !drop_0.
       rewrite strlen_ok by done. run. by rewrite Nat2Z.id, take_app_length. }
  erewrite bind_ok by (apply upd_cs_client_ok, put_cs_lookup). unfold s1. rewrite put_cs_twice. unfold claimed. simpl.
  rewrite drop_app_le by lia. replace (Z.to_nat (Z.of_nat (length account)) - 3)%nat with (length (drop 3 account)) by (rewrite length_drop; lia).
  by rewrite take_app_length.
Qed.

(** ** Zoning in *)

Definition unavailable (name : list Z) (c : CharSelectClient) : CharSelectClient :=
  add_scheduled TrilogyOp_ZoneUnavailable (overlay 0 (field_pattern SIZEOF_ZoneUnavailable name) (junk SIZEOF_ZoneUnavailable)) c.

Lemma zone_in_failure_ok id c name s : csClients s !! id = Some c →
  cs_client_trilogy_on_zone_in_failure junk id name s = (Ok tt, put_to s id (unavailable name c)).
Proof.
  intros Hc. apply packet_schedule_ok; [done|by apply emits_snprintf|by rewrite field_pattern_length|done].
Qed.

Lemma zone_in_request_ok id c charName name s : csClients s !! id = Some c → field_string (au_accountName (cs_auth c)) = Ok name →
  char_select_send_client_zone_in_request id charName s =
    (Ok tt, set_timers (zoneInTimers s ++ [id]) (put_to
      (set_zoning (clientsAttemptingToZoneIn s ++ [(char_select_client_account_id c, id)])
        (set_toMaster (toMaster s ++ [mkZoning (char_select_client_account_id c) (cs_ip c) (au_isLocal (cs_auth c)) (take 63 name) (take 31 charName)]) s))
      id (set_refCount (cs_refCount c + 1) c))).
Proof.
  intros Hc Hn. unfold char_select_send_client_zone_in_request. rewrite (bind_ok _ _ _ _ _ (client_at_ok id c s Hc)).
  rewrite (bind_ok (lift _) _ s name s) by (unfold lift; by rewrite Hn). cbv zeta. do 2 (erewrite (bind_ok (modify _)) by reflexivity).
  unfold char_select_client_grab. by erewrite bind_ok by (by apply upd_cs_client_ok).
Qed.
End Packets.
