(* ===== verification/CharSelectSteps.v ===== *)
(** Character select as a whole: clients connect, send packets and disconnect,
    the database, the login servers and the master process answer, and timers
    fire, in any order (eqp_char_select.c: char_select_main_loop). In every
    state reached, a client's reference count is the number of its holders: its
    connection, its pending queries and its zoning timers. *)

From S2P Require Import Prelude EqpString HashTable ZoneId Text EqTime Servers PlayerProfile CharCreate CharSelect Aligned CharSelectTrilogy.

(** [live] are the clients whose connection still holds them. *)
Record World := mkWorld { live : gset nat; chars : CharSelect }.

(** What the database answers; a callback uses what it asked for. *)
Record answer := mkAnswer {
  an_ids : list Z;
  an_characters : list CharacterRow;
  an_status : list (Z * Z);
  an_rows : nat;
  an_affected : Z;
  an_rowId : Z;
}.

Inductive event :=
  | Connects (id : nat)
  | Receives (id : nat) (opcode : Z) (a : Aligned)
  | Disconnects (id : nat)
  | Answered (q : Query) (an : answer)
  | AuthArrives (auth : CharSelectAuth)
  | ZoneAnswers (data : list Z)
  | TimerFires (id : nat)
  | AuthsExpire
  | TimePasses.

(** The client whose reference a query carries. *)
Definition client_of (q : Query) : option nat :=
  match q with
  | SelectAccountId id _ _ | InsertAccountId id _ _ | SelectCharacters id _ | SelectName id _ | DeleteCharacter id _ _
  | InsertCharacter id _ | InsertBelongings id _ => Some id
  | InsertAccount _ | SelectStatus _ => None
  end.

Section Steps.
Context (junk : Z → list Z) (script : CharCreateLua → CharCreateLua) (zoneIdsByShortName : HashTable EString Z).

Definition run_callback (q : Query) (an : answer) : code CharSelect unit :=
  match q with
  | SelectAccountId id _ _ => char_select_client_query_account_id_callback id (an_ids an)
  | InsertAccountId id _ _ => char_select_client_insert_account_id_callback id (an_rowId an)
  | InsertAccount _ => mret tt
  | SelectCharacters id _ => cs_client_trilogy_characters_callback id (an_characters an)
  | SelectName id _ => char_select_client_query_character_name_callback junk id (an_rows an)
  | DeleteCharacter id _ _ => char_select_client_delete_character_callback id (an_affected an)
  | InsertCharacter id ccl => cs_client_trilogy_create_character_callback junk id ccl (an_affected an) (an_rowId an)
  | InsertBelongings id _ => cs_client_trilogy_transaction_finished id
  | SelectStatus auth => tcp_client_account_status_callback junk auth (an_status an)
  end.

(** One call of the main loop's parts that returns. A new client's memory is
    free before. *)
Inductive char_select_step : World → event → World → Prop :=
  | step_connects w id handler ip s' :
      csClients (chars w) !! id = None →
      char_select_client_create id handler ip (chars w) = (Ok tt, s') →
      char_select_step w (Connects id) (mkWorld ({[id]} ∪ live w) s')
  | step_receives w id opcode a s' :
      id ∈ live w →
      client_recv_packet_trilogy junk script zoneIdsByShortName id opcode a (chars w) = (Ok tt, s') →
      char_select_step w (Receives id opcode a) (mkWorld (live w) s')
  | step_disconnects w id isLinkdead s' :
      id ∈ live w →
      client_on_disconnect (Some id) isLinkdead (chars w) = (Ok tt, s') →
      char_select_step w (Disconnects id) (mkWorld (live w ∖ {[id]}) s')
  | step_answered w before q after an s' :
      queries (chars w) = before ++ q :: after →
      run_callback q an (set_queries (before ++ after) (chars w)) = (Ok tt, s') →
      char_select_step w (Answered q an) (mkWorld (live w) s')
  | step_auth_arrives w auth :
      char_select_step w (AuthArrives auth) (mkWorld (live w) (set_queries (queries (chars w) ++ [SelectStatus auth]) (chars w)))
  | step_zone_address w seconds data s' :
      char_select_handle_op_client_zoning junk seconds data (chars w) = (Ok tt, s') →
      char_select_step w (ZoneAnswers data) (mkWorld (live w) s')
  | step_zone_rejects w data s' :
      char_select_handle_op_client_zoning_rejected junk data (chars w) = (Ok tt, s') →
      char_select_step w (ZoneAnswers data) (mkWorld (live w) s')
  | step_timer_fires w t id s' :
      zoneInTimers (chars w) !! t = Some id →
      char_select_client_zone_in_timeout_callback junk t id (chars w) = (Ok tt, s') →
      char_select_step w (TimerFires id) (mkWorld (live w) s')
  | step_auths_expire w s' :
      char_select_unclaimed_auths_timer_callback (chars w) = (Ok tt, s') →
      char_select_step w AuthsExpire (mkWorld (live w) s')
  | step_time_passes w t :
      char_select_step w TimePasses (mkWorld (live w) (set_now t (chars w))).

Inductive char_select_reachable : World → Prop :=
  | reach_init : char_select_reachable (mkWorld ∅ char_select_init)
  | reach_step w e w' : char_select_reachable w → char_select_step w e w' → char_select_reachable w'.

(** ** Counting *)
Definition tally (id : nat) (l : list nat) : Z := Z.of_nat (length (filter (λ j, j = id) l)).
Definition one (id j : nat) : Z := if decide (j = id) then 1 else 0.

Lemma tally_app id l l' : tally id (l ++ l') = tally id l + tally id l'.
Proof. unfold tally. rewrite filter_app, length_app. lia. Qed.
Lemma tally_cons id j l : tally id (j :: l) = one j id + tally id l.
Proof. unfold tally, one. rewrite filter_cons. repeat case_decide; subst; simpl; done || lia. Qed.
Lemma tally_nil id : tally id [] = 0.
Proof. done. Qed.
#[export] Instance tally_perm id : Proper ((≡ₚ) ==> eq) (tally id).
Proof. intros l l' H. unfold tally. by rewrite H. Qed.
Lemma tally_pos id l : 0 ≤ tally id l.
Proof. unfold tally. lia. Qed.
Lemma tally_in id l : id ∈ l → 1 ≤ tally id l.
Proof. intros (l1 & l2 & ->)%list_elem_of_split. rewrite tally_app, tally_cons. unfold one. rewrite decide_True by done.
  pose proof (tally_pos id l1). pose proof (tally_pos id l2). lia. Qed.
Lemma tally_not_in id l : id ∉ l → tally id l = 0.
Proof.
  induction l as [|j l IH]; [done|]. intros [Hj Hl]%not_elem_of_cons. rewrite tally_cons, IH by done.
  unfold one. by rewrite decide_False.
Qed.

Definition carried (qs : list Query) : list nat := omap client_of qs.
Definition attempting (s : CharSelect) : list nat := (clientsAttemptingToZoneIn s).*2.

(** The holders of a client. *)
Definition held (L : gset nat) (s : CharSelect) (id : nat) : Z :=
  (if decide (id ∈ L) then 1 else 0) + tally id (carried (queries s)) + tally id (zoneInTimers s).
Definition refs (s : CharSelect) (id : nat) : Z := match csClients s !! id with Some c => cs_refCount c | None => 0 end.

(** The counts are the holders, but for [e] references the running code holds
    itself; attempts have timers, but for [d]. *)
Definition counted (L : gset nat) (e : nat → Z) (s : CharSelect) : Prop :=
  (∀ id c, csClients s !! id = Some c → 1 ≤ cs_refCount c) ∧ ∀ id, refs s id = held L s id + e id.
Definition timed (d : nat → Z) (s : CharSelect) : Prop := ∀ id, tally id (attempting s) ≤ tally id (zoneInTimers s) + d id.
Definition sound_with (L : gset nat) (e d : nat → Z) (s : CharSelect) : Prop := counted L e s ∧ timed d s.

Lemma sound_ext L e e' d d' s : (∀ j, e j = e' j) → (∀ j, d j = d' j) → sound_with L e d s → sound_with L e' d' s.
Proof.
  intros He Hd [[Hp Hc] Ht]. split; [split; [done|]|].
  - intros id. by rewrite <- He.
  - intros id. by rewrite <- Hd.
Qed.

(** States that count alike. *)
Definition alike (s s' : CharSelect) : Prop :=
  queries s' = queries s ∧ zoneInTimers s' = zoneInTimers s ∧ clientsAttemptingToZoneIn s' = clientsAttemptingToZoneIn s ∧
  (∀ id, cs_refCount <$> csClients s' !! id = cs_refCount <$> csClients s !! id).

Lemma sound_alike L e d s s' : alike s s' → sound_with L e d s → sound_with L e d s'.
Proof.
  intros (Hq & Ht & Ha & Hr) [[Hp Hc] Htm].
  assert (Href : ∀ id, refs s' id = refs s id).
  { intros id. specialize (Hr id). unfold refs. destruct (csClients s' !! id), (csClients s !! id); naive_solver. }
  split; [split|].
  - intros id c Hlook. specialize (Hr id). rewrite Hlook in Hr. destruct (csClients s !! id) as [c0|] eqn:H0; [|done].
    injection Hr as ->. by apply (Hp id).
  - intros id. rewrite Href. unfold held. rewrite Hq, Ht. apply Hc.
  - intros id. unfold attempting. rewrite Ha, Ht. apply Htm.
Qed.

(** [balanced f]: [f] gives back every reference it takes; [spends id f]: it
    uses up one to client [id]. *)
Definition balanced {A} (f : code CharSelect A) : Prop := ∀ L e d, hoare (sound_with L e d) f (λ _, sound_with L e d).
Definition spends {A} (id : nat) (f : code CharSelect A) : Prop :=
  ∀ L e d, hoare (sound_with L e d) f (λ _, sound_with L (λ j, e j - one id j) d).

Lemma balanced_bind {A B} (m : code CharSelect A) (f : A → code CharSelect B) :
  balanced m → (∀ a, balanced (f a)) → balanced (m ≫= f).
Proof. intros Hm Hf L e d. eapply hoare_bind; [apply Hm|]. intros a. apply Hf. Qed.
Lemma spends_bind {A B} id (m : code CharSelect A) (f : A → code CharSelect B) :
  balanced m → (∀ a, spends id (f a)) → spends id (m ≫= f).
Proof. intros Hm Hf L e d. eapply hoare_bind; [apply Hm|]. intros a. apply Hf. Qed.
Lemma spends_then {A B} id (m : code CharSelect A) (f : A → code CharSelect B) :
  spends id m → (∀ a, balanced (f a)) → spends id (m ≫= f).
Proof. intros Hm Hf L e d. eapply hoare_bind; [apply Hm|]. intros a. apply Hf. Qed.
Lemma balanced_alike {A} (f : code CharSelect A) : (∀ s, alike s (snd (f s))) → balanced f.
Proof. intros H L e d s a s' Hs He. specialize (H s). rewrite He in H. by eapply sound_alike. Qed.

(** ** The primitives *)
Lemma alike_refl s : alike s s.
Proof. done. Qed.

Lemma upd_client_eq id f s a s' : upd_client id f s = (Ok a, s') →
  ∃ c, csClients s !! id = Some c ∧ s' = set_csClients (<[id := f c]> (csClients s)) s.
Proof.
  unfold upd_client, client_at, put_client. run. destruct (csClients s !! id) as [c|]; [|done]. intros [= _ <-]. by exists c.
Qed.

Lemma balanced_upd id f : (∀ c, cs_refCount (f c) = cs_refCount c) → balanced (upd_client id f).
Proof.
  intros Hf L e d s a s' Hs He. destruct (upd_client_eq _ _ _ _ _ He) as (c & Hc & ->). eapply sound_alike; [|exact Hs].
  split_and!; try done. intros j. simpl. destruct (decide (j = id)) as [->|].
  - rewrite lookup_insert_eq, Hc. simpl. by rewrite Hf.
  - by rewrite lookup_insert_ne.
Qed.

Lemma balanced_client_at id : balanced (client_at id).
Proof. by apply balanced_alike. Qed.
Lemma balanced_gets {A} (f : CharSelect → A) : balanced (gets f).
Proof. by apply balanced_alike. Qed.
Lemma balanced_ret {A} (a : A) : balanced (mret a).
Proof. by apply balanced_alike. Qed.
Lemma balanced_lift {A} (o : outcome A) : balanced (lift o).
Proof. by apply balanced_alike. Qed.
Lemma balanced_fault {A} : balanced (A := A) fault.
Proof. by apply balanced_alike. Qed.
Lemma balanced_reading {A} (r : code Aligned A) a : balanced (reading r a).
Proof. apply balanced_alike. intros s. unfold reading. by destruct (r a) as [[x|e|] a']. Qed.
Lemma balanced_unclaimed g : balanced (modify (λ s, set_unclaimed (g s) s)).
Proof. by apply balanced_alike. Qed.
Lemma balanced_unauthed g : balanced (modify (λ s, set_unauthed (g s) s)).
Proof. by apply balanced_alike. Qed.
Lemma balanced_toMaster g : balanced (modify (λ s, set_toMaster (g s) s)).
Proof. by apply balanced_alike. Qed.
Lemma balanced_handler_drop h : balanced (modify (add_handler_drop h)).
Proof. by apply balanced_alike. Qed.

Lemma refs_put s id c j : refs (set_csClients (<[id := c]> (csClients s)) s) j = if decide (j = id) then cs_refCount c else refs s j.
Proof.
  unfold refs. simpl. case_decide; subst; [by rewrite lookup_insert_eq|by rewrite lookup_insert_ne by done].
Qed.

Lemma grab_sound L e d id :
  hoare (sound_with L e d) (char_select_client_grab id) (λ _, sound_with L (λ j, e j + one id j) d).
Proof.
  intros s a s' [[Hp Hc] Ht] He. destruct (upd_client_eq _ _ _ _ _ He) as (c & Hlook & ->). split; [split|done].
  - intros j c'. simpl. destruct (decide (j = id)) as [->|].
    + rewrite lookup_insert_eq. intros [= <-]. simpl. specialize (Hp id c Hlook). lia.
    + rewrite lookup_insert_ne by done. apply Hp.
  - intros j. rewrite refs_put. specialize (Hc j). unfold held, one in *. simpl. destruct (decide (j = id)) as [->|]; [|lia].
    unfold refs in Hc. rewrite Hlook in Hc. lia.
Qed.

(** A grabbed reference is used up by the rest. *)
Lemma grab_then {B} id (f : unit → code CharSelect B) : (∀ a, spends id (f a)) → balanced (char_select_client_grab id ≫= f).
Proof.
  intros Hf L e d. eapply hoare_bind; [apply grab_sound|]. intros a. eapply hoare_post; [apply Hf|].
  intros b s. apply sound_ext; intros j; unfold one; simpl; lia.
Qed.

Lemma schedule_sound L e d q : hoare (sound_with L e d) (db_schedule q)
  (λ _, sound_with L (λ j, e j - match client_of q with Some id => one id j | None => 0 end) d).
Proof.
  apply hoare_modify. intros s [[Hp Hc] Ht]. split; [split|done]; [done|]. intros j. specialize (Hc j).
  unfold refs, held, carried in *. simpl. rewrite omap_app, tally_app. simpl.
  destruct (client_of q) as [id|]; [rewrite tally_cons|]; rewrite tally_nil; unfold one in *; repeat case_decide; subst; done || lia.
Qed.

Lemma spends_schedule q id : client_of q = Some id → spends id (db_schedule q).
Proof. intros Hq L e d. eapply hoare_post; [apply schedule_sound|]. by rewrite Hq. Qed.
Lemma balanced_schedule q : client_of q = None → balanced (db_schedule q).
Proof.
  intros Hq L e d. eapply hoare_post; [apply schedule_sound|]. rewrite Hq. intros a s. apply sound_ext; intros j; lia.
Qed.

(** Dropping a reference: the last one frees the client. *)
Definition after_drop (id : nat) (c : CharSelectClient) (s : CharSelect) : CharSelect :=
  if 1 <? cs_refCount c then set_csClients (<[id := set_refCount (cs_refCount c - 1) c]> (csClients s)) s
  else
    let s := match list_find (λ i, i = id) (unauthedClients s) with
             | Some (i, _) => set_unauthed (swap_out i (unauthedClients s)) s
             | None => s
             end in
    set_csClients (delete id (csClients s)) (add_handler_drop (cs_handler c) s).

Lemma drop_eq id s c : csClients s !! id = Some c → char_select_client_drop id s = (Ok tt, after_drop id c s).
Proof.
  intros Hc. unfold char_select_client_drop, client_at, put_client, after_drop. run. rewrite Hc.
  destruct (1 <? cs_refCount c); [done|]. unfold char_select_remove_client_from_unauthed_list, modify. simpl.
  destruct (list_find _ _) as [[i x]|]; unfold set_csClients, add_handler_drop, set_unauthed; simpl; by rewrite delete_insert_eq.
Qed.

Lemma drop_found id s a s' : char_select_client_drop id s = (Ok a, s') → ∃ c, csClients s !! id = Some c ∧ s' = after_drop id c s.
Proof.
  intros He. destruct (csClients s !! id) as [c|] eqn:Hc.
  - exists c. split; [done|]. rewrite (drop_eq _ _ _ Hc) in He. by injection He as _ <-.
  - revert He. unfold char_select_client_drop, client_at. run. by rewrite Hc.
Qed.

Lemma after_drop_fields id c s : queries (after_drop id c s) = queries s ∧ zoneInTimers (after_drop id c s) = zoneInTimers s ∧
  clientsAttemptingToZoneIn (after_drop id c s) = clientsAttemptingToZoneIn s ∧
  csClients (after_drop id c s) =
    if 1 <? cs_refCount c then <[id := set_refCount (cs_refCount c - 1) c]> (csClients s) else delete id (csClients s).
Proof. unfold after_drop. destruct (1 <? _); [done|]. by destruct (list_find _ _) as [[i x]|]. Qed.

Lemma spends_drop id : spends id (char_select_client_drop id).
Proof.
  intros L e d s a s' [[Hp Hc] Ht] He. destruct (drop_found _ _ _ _ He) as (c & Hlook & ->).
  destruct (after_drop_fields id c s) as (Hq & Htm & Ha & HM). specialize (Hp id c Hlook) as Hpos. split; [split|].
  - intros j c'. rewrite HM. destruct (Z.ltb_spec 1 (cs_refCount c)).
    + destruct (decide (j = id)) as [->|]; [rewrite lookup_insert_eq; intros [= <-]; simpl; lia|rewrite lookup_insert_ne by done; apply Hp].
    + rewrite lookup_delete_Some. intros [_ ?]. by apply (Hp j).
  - intros j. unfold held. rewrite Hq, Htm. specialize (Hc j). unfold held in Hc. unfold refs in *. rewrite HM. unfold one.
    destruct (Z.ltb_spec 1 (cs_refCount c)); destruct (decide (j = id)) as [->|];
      rewrite ?lookup_insert_eq, ?lookup_delete_eq, ?lookup_insert_ne, ?lookup_delete_ne by done;
      try rewrite Hlook in Hc; simpl; lia.
  - intros j. unfold attempting. rewrite Ha, Htm. apply Ht.
Qed.

(** ** The handlers *)
Create HintDb balanced.
#[local] Hint Resolve balanced_client_at balanced_gets balanced_ret balanced_lift balanced_fault balanced_reading balanced_unclaimed
  balanced_unauthed balanced_toMaster balanced_handler_drop spends_drop spends_schedule balanced_schedule : balanced.

(** Bodies are walked through; a grabbed reference is followed to its end. *)
Ltac balance :=
  repeat match goal with
  | |- balanced (char_select_client_grab _ ≫= _) => apply grab_then; intros ?
  | |- balanced (_ ≫= _) => apply balanced_bind; [|intros ?]
  | |- balanced (if ?b then _ else _) => destruct b
  | |- balanced (match ?x with _ => _ end) => destruct x
  | |- balanced (let '(_, _) := ?x in _) => destruct x
  | |- balanced (upd_client _ _) => apply balanced_upd; done
  | |- balanced (db_schedule _) => by apply balanced_schedule
  | |- balanced _ => solve [eauto with balanced nocore]
  | |- spends _ (if ?b then _ else _) => destruct b
  | |- spends _ (match ?x with _ => _ end) => destruct x
  | |- spends _ (let '(_, _) := ?x in _) => destruct x
  | |- spends _ (db_schedule _) => by apply spends_schedule
  | |- spends _ (char_select_client_drop _) => apply spends_drop
  | |- spends _ (char_select_client_drop _ ≫= _) => apply spends_then; [|intros ?]
  | |- spends _ (_ ≫= _) => apply spends_bind; [|intros ?]
  end.

Lemma balanced_schedule_packet id opcode n w : balanced (cs_trilogy_schedule_packet junk id opcode n w).
Proof. unfold cs_trilogy_schedule_packet. balance. Qed.
#[local] Hint Resolve balanced_schedule_packet : balanced.

Lemma balanced_set_auth id auth : balanced (char_select_client_set_auth junk id auth).
Proof. unfold char_select_client_set_auth, cs_client_trilogy_on_auth, char_select_client_query_account_id. balance. Qed.
#[local] Hint Resolve balanced_set_auth : balanced.

Lemma balanced_find_unauthed l i accountId key : balanced (find_unauthed l i accountId key).
Proof. revert i. induction l as [|id l IH]; intros i; cbn [find_unauthed]; balance; apply IH. Qed.
#[local] Hint Resolve balanced_find_unauthed : balanced.

Lemma balanced_client_auth auth : balanced (char_select_handle_client_auth junk auth).
Proof. unfold char_select_handle_client_auth. balance. Qed.
Lemma balanced_unauthed_client id : balanced (char_select_handle_unauthed_client junk id).
Proof. unfold char_select_handle_unauthed_client. balance. Qed.
#[local] Hint Resolve balanced_client_auth balanced_unauthed_client : balanced.

Lemma balanced_on_account_id id accountId : balanced (cs_client_trilogy_on_account_id id accountId).
Proof. unfold cs_client_trilogy_on_account_id. balance. Qed.
#[local] Hint Resolve balanced_on_account_id : balanced.

Lemma balanced_read_rows id i rows f : balanced (read_rows id i rows f).
Proof. revert i f. induction rows as [|row rows IH]; intros i f; cbn [read_rows]; unfold read_row; balance. Qed.
#[local] Hint Resolve balanced_read_rows : balanced.

Lemma balanced_create_failure id : balanced (cs_client_trilogy_send_char_create_failure junk id).
Proof. unfold cs_client_trilogy_send_char_create_failure. balance. Qed.
#[local] Hint Resolve balanced_create_failure : balanced.

(** Every callback uses up the reference its query carried. *)
Lemma spends_callback q an id : client_of q = Some id → spends id (run_callback q an).
Proof.
  intros Hq. destruct q; try discriminate Hq; injection Hq as ->; simpl;
    unfold char_select_client_query_account_id_callback, char_select_client_insert_account_id_callback,
      cs_client_trilogy_characters_callback, char_select_client_query_character_name_callback,
      cs_client_trilogy_on_character_name_checked, char_select_client_delete_character_callback,
      cs_client_trilogy_create_character_callback, cs_client_trilogy_transaction_finished; cbv zeta; balance.
Qed.

Lemma balanced_callback q an : client_of q = None → balanced (run_callback q an).
Proof. destruct q; try done; intros _; simpl; unfold tcp_client_account_status_callback; balance. Qed.

(** Every packet's handler keeps the counts. *)
Lemma tally_swap_out {A} (f : A → nat) i (l : list A) id x : l !! i = Some x →
  tally id (f <$> swap_out i l) = tally id (f <$> l) - one (f x) id.
Proof.
  intros Hi. pose proof (fmap_Permutation f _ _ (swap_out_perm i l x Hi)) as H. rewrite fmap_cons in H.
  apply (tally_perm id) in H. rewrite tally_cons in H. lia.
Qed.

Lemma attempt_out L e d i : hoare (sound_with L e d) (modify (λ s, set_zoning (swap_out i (clientsAttemptingToZoneIn s)) s))
  (λ _, sound_with L e d).
Proof.
  apply hoare_modify. intros s [Hc Ht]. split; [exact Hc|]. intros id. specialize (Ht id). unfold attempting in *. simpl.
  destruct (clientsAttemptingToZoneIn s !! i) as [x|] eqn:Hi.
  - rewrite (tally_swap_out snd i _ id x Hi). unfold one. case_decide; lia.
  - unfold swap_out. destruct (last _) as [y|]; [|done]. rewrite (proj2 (Nat.ltb_ge _ _)); [done|]. by apply lookup_ge_None.
Qed.
Lemma balanced_attempt_out i : balanced (modify (λ s, set_zoning (swap_out i (clientsAttemptingToZoneIn s)) s)).
Proof. intros L e d. apply attempt_out. Qed.
#[local] Hint Resolve balanced_attempt_out : balanced.

Lemma balanced_zone_in_success seconds id data : balanced (cs_client_trilogy_on_zone_in_success junk seconds id data).
Proof. unfold cs_client_trilogy_on_zone_in_success. cbv zeta. balance. Qed.
Lemma balanced_zone_in_failure id name : balanced (cs_client_trilogy_on_zone_in_failure junk id name).
Proof. unfold cs_client_trilogy_on_zone_in_failure. balance. Qed.
#[local] Hint Resolve balanced_zone_in_success balanced_zone_in_failure : balanced.

Lemma balanced_zoning seconds data : balanced (char_select_handle_op_client_zoning junk seconds data).
Proof. unfold char_select_handle_op_client_zoning. cbv zeta. balance. Qed.
Lemma balanced_rejected data : balanced (char_select_handle_op_client_zoning_rejected junk data).
Proof. unfold char_select_handle_op_client_zoning_rejected. balance. Qed.

(** A zoning request: the attempt comes with its timer, which holds the client. *)
Lemma balanced_zone_in_request id charName : balanced (char_select_send_client_zone_in_request id charName).
Proof.
  unfold char_select_send_client_zone_in_request. do 2 (apply balanced_bind; [auto with balanced|intros ?]). cbv zeta.
  apply balanced_bind; [auto with balanced|intros ?]. intros L e d.
  apply (hoare_bind _ _ _ (λ _, sound_with L e (λ j, d j + one id j))).
  { apply hoare_modify. intros s [Hc Ht]. split; [exact Hc|]. intros j. specialize (Ht j). unfold attempting in *. simpl.
    rewrite fmap_app, tally_app. simpl. rewrite tally_cons, tally_nil. lia. }
  intros ?. eapply hoare_bind; [apply grab_sound|intros ?]. apply hoare_modify. intros s [[Hp Hc] Ht]. split; [split; [exact Hp|]|].
  - intros j. specialize (Hc j). unfold refs, held in *. simpl. rewrite tally_app, tally_cons, tally_nil. lia.
  - intros j. specialize (Ht j). unfold attempting in *. simpl. rewrite tally_app, tally_cons, tally_nil. lia.
Qed.
#[local] Hint Resolve balanced_zone_in_request : balanced.

Lemma balanced_packets id opcode a : balanced (client_recv_packet_trilogy junk script zoneIdsByShortName id opcode a).
Proof.
  unfold client_recv_packet_trilogy, cs_trilogy_handle_op_login_info, cs_trilogy_handle_op_guild_list, cs_trilogy_handle_op_name_approval,
    cs_trilogy_handle_op_create_character, cs_trilogy_handle_op_delete_character, cs_trilogy_handle_op_wear_change,
    cs_trilogy_handle_op_enter, cs_trilogy_echo_zero_length, char_select_client_query_character_name_taken,
    char_select_client_delete_character_by_name. cbv zeta. balance.
Qed.

(** ** The timer *)
Lemma tally_delete t id l j : l !! t = Some id → tally j (delete t l) = tally j l - one id j.
Proof.
  intros Ht. pose proof (delete_Permutation l t id Ht) as H. apply (tally_perm j) in H. rewrite tally_cons in H. lia.
Qed.

(** The callback's timer no longer counts for an attempt. *)
Definition fired (L : gset nat) (l : list nat) (t id : nat) (s : CharSelect) : Prop :=
  sound_with L (λ _, 0) (λ j, - one id j) s ∧ zoneInTimers s = l ∧ l !! t = Some id.

Lemma failure_timers id name l : keeps (λ s, zoneInTimers s = l) (cs_client_trilogy_on_zone_in_failure junk id name).
Proof.
  unfold cs_client_trilogy_on_zone_in_failure, cs_trilogy_schedule_packet, upd_client, put_client. keeps_steps.
Qed.

Lemma fired_failure L l t id name : hoare (fired L l t id) (cs_client_trilogy_on_zone_in_failure junk id name) (λ _, fired L l t id).
Proof.
  intros s a s' (Hs & Hl & Ht) He. split; [by eapply balanced_zone_in_failure|]. split; [|done].
  pose proof (failure_timers id name l s Hl) as H. by rewrite He in H.
Qed.

Lemma fired_end L l t id : hoare (fired L l t id)
  (char_select_client_drop id ;; modify (λ s, set_timers (delete t (zoneInTimers s)) s)) (λ _, sound_with L (λ _, 0) (λ _, 0)).
Proof.
  apply (hoare_bind _ _ _ (λ _ s, sound_with L (λ j, 0 - one id j) (λ j, - one id j) s ∧ zoneInTimers s = l ∧ l !! t = Some id)).
  - intros s a s' (H0 & Hl & Ht) He. split; [by apply (spends_drop id L _ _ s a s' H0)|]. split; [|done].
    destruct (drop_found _ _ _ _ He) as (c & _ & ->). destruct (after_drop_fields id c s) as (_ & -> & _). done.
  - intros ?. apply hoare_modify. intros s ([[Hp Hc] Htm] & Hl & Ht). split; [split; [exact Hp|]|].
    + intros j. specialize (Hc j). unfold refs, held in *. simpl. rewrite Hl in *. rewrite (tally_delete t id) by done. lia.
    + intros j. specialize (Htm j). unfold attempting in *. simpl. rewrite Hl in *. rewrite (tally_delete t id) by done. lia.
Qed.

(** The timer's client is told if it still waits; its attempt goes with the timer. *)
Lemma timeout_sound L t id : hoare (λ s, sound_with L (λ _, 0) (λ _, 0) s ∧ zoneInTimers s !! t = Some id)
  (char_select_client_zone_in_timeout_callback junk t id) (λ _, sound_with L (λ _, 0) (λ _, 0)).
Proof.
  intros s a s' [[Hc Ht] Htid] He. revert He. unfold char_select_client_zone_in_timeout_callback.
  rewrite (bind_ok (gets _) _ s (clientsAttemptingToZoneIn s) s eq_refl). set (l := zoneInTimers s) in *.
  destruct (list_find _ _) as [[i x]|] eqn:Hf.
  - apply list_find_Some in Hf as (Hi & Hx & _).
    apply (hoare_bind (λ s0, s0 = s) _ _ (λ _, fired L l t id) (λ _, sound_with L (λ _, 0) (λ _, 0))); [|intros ?; apply fired_end|done].
    eapply hoare_bind; [|intros ?; apply fired_failure]. apply hoare_modify. intros s0 ->. split; [|done]. split; [exact Hc|].
    intros j. specialize (Ht j). unfold attempting in *. simpl. rewrite (tally_swap_out snd i _ j x Hi), Hx. lia.
  - apply (hoare_bind (λ s0, s0 = s) _ _ (λ _, fired L l t id) (λ _, sound_with L (λ _, 0) (λ _, 0))); [|intros ?; apply fired_end|done].
    intros s0 b s1 -> [= _ <-]. split; [|done]. split; [exact Hc|]. intros j. specialize (Ht j). cbv beta in *. unfold one. case_decide; [subst j|lia].
    rewrite tally_not_in. { assert (Hin : id ∈ l) by (by eapply list_elem_of_lookup_2). pose proof (tally_in id l Hin). unfold l in *. lia. }
    apply list_find_None in Hf. intros ([a0 b0] & Hb & Hin)%list_elem_of_fmap. eapply Forall_forall in Hf; [|exact Hin]. by apply Hf.
Qed.

(** ** Every step *)
Lemma carried_middle before q after j : tally j (carried (before ++ q :: after)) =
  tally j (carried (before ++ after)) + match client_of q with Some id => one id j | None => 0 end.
Proof.
  unfold carried. rewrite !omap_app, !tally_app. change (omap client_of (q :: after)) with
    (match client_of q with Some id => id :: omap client_of after | None => omap client_of after end).
  destruct (client_of q); rewrite ?tally_cons; lia.
Qed.

Definition sound (w : World) : Prop := sound_with (live w) (λ _, 0) (λ _, 0) (chars w).

Lemma char_select_sound_step w e w' : sound w → char_select_step w e w' → sound w'.
Proof.
  intros Hw Hstep. unfold sound in *. destruct Hstep as [w id handler ip s' Hnone [= <-]|w id opcode a s' Hid He|w id link s' Hid He
    |w before q after an s' Hq He|w auth|w seconds data s' He|w data s' He|w t id s' Ht He|w s' [= <-]|w t]; simpl in *.
  - destruct Hw as [[Hp Hc] Ht]. pose proof (Hc id) as H0. unfold refs, held in H0. rewrite Hnone in H0.
    pose proof (tally_pos id (carried (queries (chars w)))). pose proof (tally_pos id (zoneInTimers (chars w))).
    destruct (decide (id ∈ live w)) as [?|Hid]; [lia|]. split; [split|exact Ht].
    + intros j c. simpl. destruct (decide (j = id)) as [->|]; [rewrite lookup_insert_eq; by intros [= <-]|].
      rewrite lookup_insert_ne by done. apply Hp.
    + intros j. specialize (Hc j). unfold refs, held in *. simpl. destruct (decide (j = id)) as [->|].
      * rewrite lookup_insert_eq, decide_True by set_solver. simpl. lia.
      * rewrite lookup_insert_ne by done.
        destruct (decide (j ∈ live w)); [rewrite decide_True by set_solver|rewrite decide_False by set_solver]; lia.
  - by eapply balanced_packets.
  - eapply sound_ext; [| |eapply (spends_drop id _ (one id)); [|exact He]]; [intros j; simpl; lia|done|].
    destruct Hw as [[Hp Hc] Ht]. split; [split; [exact Hp|]|exact Ht]. intros j. specialize (Hc j). unfold refs, held, one in *.
    destruct (decide (j = id)) as [->|]; [rewrite decide_True in Hc by done; rewrite decide_False by set_solver; lia|].
    destruct (decide (j ∈ live w)); [rewrite decide_True by set_solver|rewrite decide_False by set_solver]; lia.
  - set (e := match client_of q with Some id => one id | None => λ _, 0 end).
    assert (H0 : sound_with (live w) e (λ _, 0) (set_queries (before ++ after) (chars w))).
    { destruct Hw as [[Hp Hc] Ht]. split; [split; [exact Hp|]|exact Ht]. intros j. specialize (Hc j). unfold refs, held in *. simpl.
      rewrite Hq, carried_middle in Hc. unfold e. destruct (client_of q); cbv beta in *; lia. }
    unfold e in H0. destruct (client_of q) as [id|] eqn:Hcl.
    + eapply sound_ext; [| |eapply (spends_callback q an id Hcl); [exact H0|exact He]]; [intros j; simpl; lia|done].
    + by eapply (balanced_callback q an Hcl).
  - eapply (balanced_schedule (SelectStatus auth) eq_refl); [exact Hw|reflexivity].
  - by eapply balanced_zoning.
  - by eapply balanced_rejected.
  - by eapply timeout_sound.
  - eapply balanced_unclaimed; [exact Hw|reflexivity].
  - exact Hw.
Qed.

Lemma char_select_reachable_sound w : char_select_reachable w → sound w.
Proof.
  induction 1 as [|w e w' _ IH Hs]; [|by eapply char_select_sound_step]. split; [split|].
  - intros id c. simpl. by rewrite lookup_empty.
  - intros id. unfold refs, held. simpl. rewrite lookup_empty. by rewrite decide_False by set_solver.
  - intros id. done.
Qed.
End Steps.
