(* ===== verification/CharSelectTcp.v ===== *)
(** Character select's connections to login servers (char_select/tcp_client.c,
    and char_select_tcp_recv of eqp_char_select.c).

    The results of getaddrinfo, socket, connect and so on are an argument of
    each attempt to connect; recv and send take the next result from [netIn]
    and [netOut]. *)

From S2P Require Import Prelude EqpString HashTable ZoneId Text EqTime Servers PlayerProfile CharCreate CharSelect Aligned CharSelectTrilogy.

Definition EQP_TCP_CLIENT_BUFFER_SIZE : Z := 1024.
Definition EQP_TCP_CLIENT_REMOTE_TIMEOUT_MILLISECONDS : Z := 60000.
Definition RECONNECT_MILLISECONDS : Z := 15000.
Definition STATUS_UPDATE_MILLISECONDS : Z := 15000.
Definition PROTOCOL_VERSION : list Z := text "0.3.10".
Definition LOGIN_VERSION : list Z := text "0.8.0".
Definition SERVER_TYPE_WORLD : Z := 0.
Definition INVALID_SOCKET : Z := -1.

Definition TcpOp_LoginServerStatus : Z := 0x1001.
Definition TcpOp_ClientLoginAuth : Z := 0x1002.
Definition TcpOp_NewLoginServer : Z := 0x1008.
Definition TcpOp_ClientLoginRequest : Z := 0xab00.
Definition TcpOp_ClientLoginResponse : Z := 0xab01.

Definition SIZEOF_TcpPacketHeader : Z := 4.
Definition SIZEOF_NewLoginServerSend : Z := 657.
Definition SIZEOF_LoginServerStatusSend : Z := 16.
Definition SIZEOF_ClientLoginRequest : Z := 16.
Definition SIZEOF_ClientLoginResponseSend : Z := 21.
Definition SIZEOF_longName : Z := 201.
Definition SIZEOF_shortName : Z := 50.
Definition SIZEOF_address : Z := 125.
Definition SIZEOF_account : Z := 31.
Definition SIZEOF_protocolversion : Z := 25.
Definition SIZEOF_serverversion : Z := 64.
Definition SIZEOF_accountName : Z := 30.
Definition SIZEOF_sessionKey : Z := 30.

Definition char_select_server_status : Z := -2.
Definition char_select_player_count : Z := 0.

Record LoginServerConfig := mkConfig {
  longName : list Z; shortName : list Z; host : list Z; port : list Z;
  username : list Z; password : list Z; remoteIp : list Z; localIp : list Z;
}.

(** The callback of a connection's timer. *)
Inductive tcp_callback := tcp_client_reconnect_callback_ | tcp_client_status_update_callback_.

Record TcpClient := mkTcp {
  socketFd : Z;
  tc_buffered : Z;      (* int16_t *)
  tc_readLength : Z;    (* int16_t *)
  tc_recvBuf : list Z;
  config : LoginServerConfig;
  lastRemoteTime : Z;
  tc_isLocked : bool;
  tc_period : Z;
  tc_callback : tcp_callback;
}.

(** How an attempt to connect goes: the step that fails, with the socket from
    [fd] on, or the address getsockname gives. *)
Inductive connect_result :=
  | NoAddress
  | NoSocket
  | FailsWith (fd : Z)
  | Connected (fd : Z) (localAddress : option Z).

Record Tcp := mkState {
  conns : list TcpClient;
  netIn : list recv_result;
  netOut : list send_result;
  sentBytes : list (Z * list Z);
  closedFds : list Z;
  addrinfos : Z;        (* results of getaddrinfo that were not freed *)
  chars : CharSelect;
}.

Definition set_conns (l : list TcpClient) (s : Tcp) : Tcp :=
  mkState l (netIn s) (netOut s) (sentBytes s) (closedFds s) (addrinfos s) (chars s).
Definition set_net (i : list recv_result) (o : list send_result) (b : list (Z * list Z)) (s : Tcp) : Tcp :=
  mkState (conns s) i o b (closedFds s) (addrinfos s) (chars s).
Definition add_closed (fd : Z) (s : Tcp) : Tcp :=
  mkState (conns s) (netIn s) (netOut s) (sentBytes s) (closedFds s ++ [fd]) (addrinfos s) (chars s).
Definition set_addrinfos (n : Z) (s : Tcp) : Tcp :=
  mkState (conns s) (netIn s) (netOut s) (sentBytes s) (closedFds s) n (chars s).
Definition set_chars (c : CharSelect) (s : Tcp) : Tcp :=
  mkState (conns s) (netIn s) (netOut s) (sentBytes s) (closedFds s) (addrinfos s) c.

(** A part that concerns character select itself. *)
Definition on_chars {A} (f : code CharSelect A) : code Tcp A := λ s, let '(r, c) := f (chars s) in (r, set_chars c s).

(** A [TcpClient*] is an index into loginServerConnections. *)
Definition tcp_at (i : nat) : code Tcp TcpClient := λ s, (deref (conns s !! i), s).
Definition upd_tcp (i : nat) (f : TcpClient → TcpClient) : code Tcp unit :=
  c ← tcp_at i; modify (λ s, set_conns (<[i := f c]> (conns s)) s).

Definition set_fd (fd : Z) (c : TcpClient) : TcpClient :=
  mkTcp fd (tc_buffered c) (tc_readLength c) (tc_recvBuf c) (config c) (lastRemoteTime c) (tc_isLocked c) (tc_period c) (tc_callback c).
Definition tcp_client_set_buffered (n : Z) (c : TcpClient) : TcpClient :=
  mkTcp (socketFd c) (i16 n) (tc_readLength c) (tc_recvBuf c) (config c) (lastRemoteTime c) (tc_isLocked c) (tc_period c) (tc_callback c).
Definition tcp_client_set_read_length (n : Z) (c : TcpClient) : TcpClient :=
  mkTcp (socketFd c) (tc_buffered c) (i16 n) (tc_recvBuf c) (config c) (lastRemoteTime c) (tc_isLocked c) (tc_period c) (tc_callback c).
Definition set_recvBuf (b : list Z) (c : TcpClient) : TcpClient :=
  mkTcp (socketFd c) (tc_buffered c) (tc_readLength c) b (config c) (lastRemoteTime c) (tc_isLocked c) (tc_period c) (tc_callback c).
Definition set_remote_time (t : Z) (c : TcpClient) : TcpClient :=
  mkTcp (socketFd c) (tc_buffered c) (tc_readLength c) (tc_recvBuf c) (config c) t (tc_isLocked c) (tc_period c) (tc_callback c).
Definition set_timer (period : Z) (f : tcp_callback) (c : TcpClient) : TcpClient :=
  mkTcp (socketFd c) (tc_buffered c) (tc_readLength c) (tc_recvBuf c) (config c) (lastRemoteTime c) (tc_isLocked c) period f.

Definition tcp_client_init (junk : list Z) (c : LoginServerConfig) (locked : bool) : TcpClient :=
  mkTcp INVALID_SOCKET 0 SIZEOF_TcpPacketHeader junk c 0 locked RECONNECT_MILLISECONDS tcp_client_reconnect_callback_.

(** The timer waits for its period again; the callback runs at once in
    [start_connections]. *)
Definition tcp_client_start_connect_cycle (i : nat) : code Tcp unit :=
  upd_tcp i (set_timer RECONNECT_MILLISECONDS tcp_client_reconnect_callback_).

Definition closesocket (i : nat) : code Tcp unit :=
  c ← tcp_at i; modify (add_closed (socketFd c)) ;; upd_tcp i (set_fd INVALID_SOCKET).

Definition tcp_client_restart_connection (i : nat) : code Tcp unit :=
  closesocket i ;; tcp_client_start_connect_cycle i.

(** send() of the bytes at [data + sent]; before the start of [data] this reads
    memory that is not the packet's. *)
Fixpoint send_loop (results : list send_result) (i : nat) (fd : Z) (data : list Z) (sent : Z) : code Tcp unit :=
  match results with
  | [] => fault
  | r :: results =>
      modify (λ s, set_net (netIn s) results (sentBytes s) s) ;;
      if sent <? 0 then fault
      else
        match r with
        | Sent len =>
            modify (λ s, set_net (netIn s) (netOut s) (sentBytes s ++ [(fd, take (Z.to_nat len) (drop (Z.to_nat sent) data))]) s) ;;
            let sent := sent + len in
            if sent =? Z.of_nat (length data) then mret tt else send_loop results i fd data sent
        | Again =>
            let sent := sent + (-1) in
            if sent =? Z.of_nat (length data) then mret tt else send_loop results i fd data sent
        | Refused => tcp_client_restart_connection i
        | SendError => mret tt
        end
  end.

Definition tcp_client_send (i : nat) (data : list Z) : code Tcp unit :=
  c ← tcp_at i;
  results ← gets netOut;
  send_loop results i (socketFd c) data 0.

(** Filling a packet on the stack, which holds [before]. *)
Definition fill (before : list Z) (w : code Aligned unit) : outcome (list Z) :=
  match w (aligned_init before (Z.of_nat (length before))) with
  | (Ok _, a) => Ok (buffer a)
  | (Throw e, _) => Throw e
  | (Fault, _) => Fault
  end.

Section Tcp.
(** [junk n] is what [n] bytes of fresh memory hold, and [fresh_auth] what a
    fresh CharSelectAuth holds. *)
Context (junk : Z → list Z) (fresh_auth : CharSelectAuth).

Definition tcp_client_status_update_callback (i : nat) : code Tcp unit :=
  c ← tcp_at i;
  time ← gets (λ s, now (chars s));
  if EQP_TCP_CLIENT_REMOTE_TIMEOUT_MILLISECONDS <=? u64 (time - lastRemoteTime c) then tcp_client_restart_connection i
  else
    send ← lift (fill (junk SIZEOF_LoginServerStatusSend)
      (aligned_write_uint16 TcpOp_LoginServerStatus ;; aligned_write_uint16 SIZEOF_LoginServerStatusSend ;;
       aligned_write_int32 char_select_server_status ;; aligned_write_int32 char_select_player_count ;; aligned_write_int32 1));
    tcp_client_send i send.

Definition tcp_client_get_local_address (localAddress : option Z) (len : Z) : code Aligned unit :=
  match localAddress with
  | None => aligned_advance len ;; mret tt
  | Some ip => aligned_write_snprintf_full_advance len (dotted ip)
  end.

Definition tcp_client_write_string_not_null (len : Z) (str : list Z) : code Aligned unit :=
  if (0 <? length str)%nat then aligned_write_snprintf_full_advance len str else aligned_advance len ;; mret tt.

Definition write_new_login_server (c : LoginServerConfig) (localAddress : option Z) : code Aligned unit :=
  aligned_write_uint16 TcpOp_NewLoginServer ;;
  aligned_write_uint16 SIZEOF_NewLoginServerSend ;;
  tcp_client_write_string_not_null SIZEOF_longName (longName c) ;;
  tcp_client_write_string_not_null SIZEOF_shortName (shortName c) ;;
  tcp_client_write_string_not_null SIZEOF_address (remoteIp c) ;;
  (if (0 <? length (localIp c))%nat then tcp_client_write_string_not_null SIZEOF_address (localIp c)
   else tcp_client_get_local_address localAddress SIZEOF_address) ;;
  tcp_client_write_string_not_null SIZEOF_account (username c) ;;
  tcp_client_write_string_not_null SIZEOF_account (password c) ;;
  aligned_write_snprintf_full_advance SIZEOF_protocolversion PROTOCOL_VERSION ;;
  aligned_write_snprintf_full_advance SIZEOF_serverversion LOGIN_VERSION ;;
  aligned_write_uint8 SERVER_TYPE_WORLD.

(** The result of getaddrinfo is kept in a parameter, not in the caller's
    variable. *)
Definition tcp_client_do_connect (i : nat) (r : connect_result) : code Tcp unit :=
  match r with
  | NoAddress => throw ErrorNetwork
  | NoSocket =>
      modify (λ s, set_addrinfos (addrinfos s + 1) s) ;; upd_tcp i (set_fd INVALID_SOCKET) ;; throw ErrorNetwork
  | FailsWith fd =>
      modify (λ s, set_addrinfos (addrinfos s + 1) s) ;; upd_tcp i (set_fd fd) ;; throw ErrorNetwork
  | Connected fd localAddress =>
      modify (λ s, set_addrinfos (addrinfos s + 1) s) ;;
      upd_tcp i (set_fd fd) ;;
      c ← tcp_at i;
      send ← lift (fill (replicate (Z.to_nat SIZEOF_NewLoginServerSend) 0) (write_new_login_server (config c) localAddress));
      tcp_client_send i send ;;
      time ← gets (λ s, now (chars s));
      upd_tcp i (set_remote_time time) ;;
      upd_tcp i (set_timer STATUS_UPDATE_MILLISECONDS tcp_client_status_update_callback_) ;;
      tcp_client_status_update_callback i
  end.

(** The caller's [result] is NULL when the attempt ends, so nothing is freed. *)
Definition tcp_client_reconnect_callback (i : nat) (r : connect_result) : code Tcp unit := λ s,
  match tcp_client_do_connect i r s with
  | (Throw ErrorNetwork, s) =>
      (c ← tcp_at i; if socketFd c =? INVALID_SOCKET then mret tt else closesocket i) s
  | other => other
  end.

Definition tcp_client_handle_op_client_login_request (i : nat) (a : Aligned) : code Tcp unit :=
  if aligned_remaining a <? SIZEOF_ClientLoginRequest then mret tt
  else
    '(accountId, serverId, _) ← reading (x ← aligned_read_uint32; y ← aligned_read_uint32; mret (x, y)) a;
    send ← lift (fill (junk SIZEOF_ClientLoginResponseSend)
      (aligned_write_uint16 TcpOp_ClientLoginResponse ;; aligned_write_uint16 SIZEOF_ClientLoginResponseSend ;;
       aligned_write_uint32 accountId ;; aligned_write_uint32 serverId ;; aligned_write_int8 1 ;; aligned_write_zeroes 8));
    tcp_client_send i send.

(** The fields of the packet, without a check of its length. *)
Definition read_login_auth : code Aligned (Z * list Z * list Z * bool) :=
  accountId ← aligned_read_uint32;
  name ← aligned_read_buffer SIZEOF_accountName;
  key ← aligned_read_buffer SIZEOF_sessionKey;
  _ ← aligned_advance 7;
  isLocal ← aligned_read_uint8;
  mret (accountId, name, key, negb (isLocal =? 0)).

(** The timestamp, and the last bytes of the two strings, are not set. *)
Definition tcp_client_handle_op_client_login_auth (i : nat) (a : Aligned) : code Tcp unit :=
  c ← tcp_at i;
  '(accountId, name, key, isLocal, _) ← reading read_login_auth a;
  let auth := mkAuth accountId isLocal (au_timestamp fresh_auth) 0 (tc_isLocked c)
    (name ++ drop (Z.to_nat SIZEOF_accountName) (au_accountName fresh_auth))
    (key ++ drop (Z.to_nat SIZEOF_sessionKey) (au_sessionKey fresh_auth)) in
  on_chars (db_schedule (SelectStatus auth)).

Definition tcp_client_handle_packet (i : nat) : code Tcp unit :=
  time ← gets (λ s, now (chars s));
  upd_tcp i (set_remote_time time) ;;
  c ← tcp_at i;
  '(opcode, a) ← reading (opcode ← aligned_read_uint16; _ ← aligned_advance 2; mret opcode)
    (aligned_init (tc_recvBuf c) (u32 (tc_readLength c)));
  if opcode =? TcpOp_ClientLoginRequest then tcp_client_handle_op_client_login_request i a
  else if opcode =? TcpOp_ClientLoginAuth then tcp_client_handle_op_client_login_auth i a
  else mret tt.

(** recv of at most [size] bytes into [recvBuf + at_]: no byte fits when [size]
    is 0, and a negative size is taken as a huge one. What goes past the
    buffer's end is undefined. *)
Definition recv_into (i : nat) (at_ size : Z) : code Tcp recv_result :=
  if size =? 0 then mret RemoteClosed
  else
    s ← get;
    match netIn s with
    | [] => mret NothingYet
    | r :: rs =>
        modify (set_net rs (netOut s) (sentBytes s)) ;;
        match r with
        | Received bytes =>
            let bytes := if 0 <? size then take (Z.to_nat size) bytes else bytes in
            if (at_ <? 0) || (EQP_TCP_CLIENT_BUFFER_SIZE <? at_ + Z.of_nat (length bytes)) then fault
            else
              upd_tcp i (λ c, set_recvBuf (take (Z.to_nat at_) (tc_recvBuf c) ++ bytes ++
                drop (Z.to_nat at_ + length bytes) (tc_recvBuf c)) c) ;;
              mret (Received bytes)
        | r => mret r
        end
    end.

(** The part of the loop from the label redo on; the two counts are local
    variables. *)
Fixpoint redo (fuel : nat) (i : nat) (buffered readLength : Z) : code Tcp unit :=
  match fuel with
  | O => fault
  | S fuel =>
      r ← recv_into i buffered (readLength - buffered);
      match r with
      | NothingYet | RecvError => mret tt
      | RemoteClosed => tcp_client_restart_connection i
      | Received bytes =>
          let buffered := buffered + Z.of_nat (length bytes) in
          let packet :=
            tcp_client_handle_packet i ;;
            upd_tcp i (tcp_client_set_buffered 0) ;;
            upd_tcp i (tcp_client_set_read_length SIZEOF_TcpPacketHeader) ;;
            redo fuel i 0 SIZEOF_TcpPacketHeader in
          if buffered =? readLength then
            if buffered =? SIZEOF_TcpPacketHeader then
              c ← tcp_at i;
              let readLength := default 0 (tc_recvBuf c !! 2%nat) + 256 * default 0 (tc_recvBuf c !! 3%nat) in
              if readLength =? SIZEOF_TcpPacketHeader then packet
              else
                upd_tcp i (tcp_client_set_read_length readLength) ;;
                redo fuel i buffered readLength
            else packet
          else upd_tcp i (tcp_client_set_buffered buffered)
      end
  end.

Fixpoint recv_loop (n i : nat) : code Tcp unit :=
  match n with
  | O => mret tt
  | S n =>
      c ← tcp_at i;
      s ← get;
      (if socketFd c =? INVALID_SOCKET then mret tt
       else redo (S (length (netIn s))) i (tc_buffered c) (tc_readLength c)) ;;
      recv_loop n (S i)
  end.

Definition char_select_tcp_recv : code Tcp unit := s ← get; recv_loop (length (conns s)) 0.

(** One round of char_select_start_login_server_connections: the connection is
    pushed and its timer's callback runs at once. *)
Definition start_connection (c : LoginServerConfig) (locked : bool) (r : connect_result) : code Tcp unit :=
  i ← gets (λ s, length (conns s));
  modify (λ s, set_conns (conns s ++ [tcp_client_init (junk EQP_TCP_CLIENT_BUFFER_SIZE) c locked]) s) ;;
  tcp_client_start_connect_cycle i ;;
  tcp_client_reconnect_callback i r.
End Tcp.
