(* ===== verification/CharSelectSpec.v ===== *)
(** What character select promises: clients stay in memory while someone holds
    them, a client is let in only for an auth of its own account and key, and
    auths nobody claims expire; and where these promises end. *)

From S2P Require Import Prelude EqpString HashTable ZoneId Text EqTime Servers PlayerProfile CharCreate CharSelect Aligned CharSelectTrilogy.
From S2P Require Import CharSelectSteps.

(** ** Clients in memory *)

Lemma held_in_memory L s id : sound_with L (λ _, 0) (λ _, 0) s → 1 ≤ held L s id → is_Some (csClients s !! id).
Proof.
  intros [[_ Hc] _] Hh. specialize (Hc id). unfold refs in Hc. destruct (csClients s !! id); [done|lia].
Qed.

Lemma held_live L s id : id ∈ L → 1 ≤ held L s id.
Proof.
  intros Hid. unfold held. rewrite decide_True by done. pose proof (tally_pos id (carried (queries s))).
  pose proof (tally_pos id (zoneInTimers s)). lia.
Qed.
Lemma held_query L s q id : q ∈ queries s → client_of q = Some id → 1 ≤ held L s id.
Proof.
  intros Hq Hid. unfold held. assert (Hin : id ∈ carried (queries s)) by (apply list_elem_of_omap; eauto).
  pose proof (tally_in id _ Hin). pose proof (tally_pos id (zoneInTimers s)). case_decide; lia.
Qed.
Lemma held_timer L s id : id ∈ zoneInTimers s → 1 ≤ held L s id.
Proof.
  intros Hin. unfold held. pose proof (tally_in id _ Hin). pose proof (tally_pos id (carried (queries s))). case_decide; lia.
Qed.
Lemma held_attempt L s accountId id : timed (λ _, 0) s → (accountId, id) ∈ clientsAttemptingToZoneIn s → 1 ≤ held L s id.
Proof.
  intros Ht Hin. specialize (Ht id). cbv beta in Ht. assert (Ha : id ∈ attempting s) by (apply list_elem_of_fmap; by exists (accountId, id)).
  pose proof (tally_in id _ Ha). unfold held. pose proof (tally_pos id (carried (queries s))). case_decide; lia.
Qed.

(** C29: In every reachable state, for any interleaving of packets, database
    answers, zone answers, timers and disconnects: a client is in memory
    exactly while it is held, its reference count is the number of its
    connection, pending queries and zoning timers, and so the client of every
    connection, pending query, timer and waiting zoning attempt is in memory
    when it is used. *)
Theorem char_select_clients_live_while_held (junk : Z → list Z) (script : CharCreateLua → CharCreateLua) (map : HashTable EString Z)
    (w : World) (Hw : char_select_reachable junk script map w) :
  (∀ id, match csClients (chars w) !! id with
         | Some c => cs_refCount c = held (live w) (chars w) id ∧ 0 < cs_refCount c
         | None => held (live w) (chars w) id = 0
         end) ∧
  (∀ id, id ∈ live w ∨ id ∈ carried (queries (chars w)) ∨ id ∈ zoneInTimers (chars w) ∨ id ∈ attempting (chars w) →
         is_Some (csClients (chars w) !! id)).
Proof.
  pose proof (char_select_reachable_sound _ _ _ w Hw) as Hs. pose proof Hs as [[Hp Hc] Ht]. split.
  - intros id. specialize (Hc id). specialize (Hp id). unfold refs in Hc. destruct (csClients (chars w) !! id) as [c|]; [|lia].
    specialize (Hp c eq_refl). lia.
  - intros id Hid. eapply held_in_memory; [exact Hs|]. destruct Hid as [Hid|[Hid|[Hid|Hid]]].
    + by apply held_live.
    + apply list_elem_of_omap in Hid as (q & Hq & Hid). by eapply held_query.
    + by apply held_timer.
    + apply list_elem_of_fmap in Hid as ([accountId j] & -> & Hid). by eapply held_attempt.
Qed.

Definition no_map : HashTable EString Z := mkTable 0 0 0 0 [].
Definition no_junk (n : Z) : list Z := replicate (Z.to_nat n) 0.

(** A client's connection. *)
Definition one_client : World := mkWorld {[5%nat]} (set_csClients {[5%nat := mkCs 1 0 1 no_auth (replicate 10 [0; 0]) false []]} char_select_init).

Lemma one_client_reachable : char_select_reachable no_junk id no_map one_client.
Proof.
  eapply reach_step; [apply reach_init|].
  replace one_client with (mkWorld ({[5%nat]} ∪ ∅) (chars one_client)).
  - by apply (step_connects no_junk id no_map (mkWorld ∅ char_select_init) 5 1 0 (chars one_client)).
  - done.
Qed.

Example char_select_clients_live_while_held_witness :
  (∀ id, match csClients (chars one_client) !! id with
         | Some c => cs_refCount c = held (live one_client) (chars one_client) id ∧ 0 < cs_refCount c
         | None => held (live one_client) (chars one_client) id = 0
         end) ∧
  (∀ id, id ∈ live one_client ∨ id ∈ carried (queries (chars one_client)) ∨ id ∈ zoneInTimers (chars one_client) ∨
           id ∈ attempting (chars one_client) →
         is_Some (csClients (chars one_client) !! id)).
Proof. apply (char_select_clients_live_while_held no_junk id no_map one_client one_client_reachable). Defined.

(** ** Who is let in *)

(** [Q] holds if client [j] is authed, and [P] of every auth that waits. *)
Definition allowed (Q : Prop) (P : CharSelectAuth → Prop) (j : nat) (s : CharSelect) : Prop :=
  (∀ c, csClients s !! j = Some c → char_select_client_is_authed c = true → Q) ∧ Forall P (unclaimedAuths s).

Section Authed.
Context (junk : Z → list Z) (script : CharCreateLua → CharCreateLua) (map : HashTable EString Z).
Context (Q : Prop) (P : CharSelectAuth → Prop) (j : nat).
#[local] Notation K := (allowed Q P j).

Lemma authed_upd id f : (∀ c, au_timestamp (cs_auth (f c)) = au_timestamp (cs_auth c)) → keeps K (upd_client id f).
Proof.
  intros Hf s [Hs HP]. unfold upd_client, client_at, put_client. run. destruct (csClients s !! id) as [c0|] eqn:Hc; simpl; [|done].
  split; [|done]. intros c. simpl. destruct (decide (j = id)) as [->|]; [rewrite lookup_insert_eq|rewrite lookup_insert_ne by done; apply Hs].
  intros [= <-]. unfold char_select_client_is_authed. rewrite Hf. by apply Hs.
Qed.

Lemma authed_same f : (∀ s, csClients (f s) = csClients s) → (∀ s, unclaimedAuths (f s) = unclaimedAuths s) → keeps K (modify f).
Proof. intros Hf Hu. apply keeps_modify. intros s [Hs HP]. split; [intros c; rewrite Hf; apply Hs|by rewrite Hu]. Qed.

Lemma authed_client_at id : keeps K (client_at id).
Proof. by intros s. Qed.

Lemma authed_drop id : keeps K (char_select_client_drop id).
Proof.
  intros s [Hs HP]. destruct (csClients s !! id) as [c|] eqn:Hc.
  - rewrite (drop_eq _ _ _ Hc). simpl. split.
    + intros c'. destruct (after_drop_fields id c s) as (_ & _ & _ & ->). case_match.
      * destruct (decide (j = id)) as [->|]; [rewrite lookup_insert_eq|rewrite lookup_insert_ne by done; apply Hs].
        intros [= <-]. by apply (Hs c).
      * rewrite lookup_delete_Some. intros [_ ?]. by apply (Hs c').
    + unfold after_drop. case_match; [done|]. by destruct (list_find _ _) as [[i x]|].
  - unfold char_select_client_drop, client_at. run. by rewrite Hc.
Qed.
#[local] Hint Resolve authed_client_at authed_drop : keeps.

(** [authed_steps] leaves the bodies that change timestamps. *)
Ltac authed_steps :=
  repeat match goal with
  | |- keeps _ (_ ≫= _) => apply keeps_bind; [|intros ?]
  | |- keeps _ (if ?b then _ else _) => destruct b
  | |- keeps _ (match ?x with _ => _ end) => destruct x
  | |- keeps _ (upd_client _ _) => apply authed_upd; reflexivity
  | |- keeps _ (modify _) => apply authed_same; intros; reflexivity
  | |- keeps _ (db_schedule _) => apply authed_same; intros; reflexivity
  | |- keeps _ _ => solve [eauto with keeps nocore]
  end.

Lemma authed_schedule_packet id opcode n w : keeps K (cs_trilogy_schedule_packet junk id opcode n w).
Proof. unfold cs_trilogy_schedule_packet. authed_steps. Qed.
#[local] Hint Resolve authed_schedule_packet : keeps.

Lemma authed_on_auth id : keeps K (cs_client_trilogy_on_auth junk id).
Proof. unfold cs_client_trilogy_on_auth, char_select_client_query_account_id, char_select_client_grab. authed_steps. Qed.

(** A client gets an auth: that must be justified for client [j]. *)
Lemma authed_set_auth id auth : (id = j → Q) → keeps K (char_select_client_set_auth junk id auth).
Proof.
  intros HQ. unfold char_select_client_set_auth. apply keeps_bind; [|intros ?; apply authed_on_auth].
  intros s [Hs HP]. unfold upd_client, client_at, put_client. run. destruct (csClients s !! id) as [c0|] eqn:Hc; simpl; [|done].
  split; [|done]. intros c. simpl. destruct (decide (j = id)) as [->|]; [intros; by apply HQ|]. rewrite lookup_insert_ne by done. apply Hs.
Qed.

Lemma authed_read_rows id i rows f : keeps K (read_rows id i rows f).
Proof. revert i f. induction rows as [|row rows IH]; intros i f; cbn [read_rows]; unfold read_row; authed_steps. Qed.
#[local] Hint Resolve authed_read_rows : keeps.

(** Everything but the login packet and the status answer. *)
Lemma authed_callback q an : (∀ auth, q ≠ SelectStatus auth) → keeps K (run_callback junk q an).
Proof.
  intros Hq. destruct q; try (by destruct (Hq auth)); simpl;
    unfold char_select_client_query_account_id_callback, char_select_client_insert_account_id_callback,
      cs_client_trilogy_characters_callback, char_select_client_query_character_name_callback,
      cs_client_trilogy_on_character_name_checked, char_select_client_delete_character_callback,
      cs_client_trilogy_create_character_callback, cs_client_trilogy_transaction_finished, cs_client_trilogy_on_account_id,
      cs_client_trilogy_send_char_create_failure, char_select_client_grab; cbv zeta; authed_steps.
Qed.

Lemma authed_other_packets id opcode a : opcode ≠ TrilogyOp_LoginInfo →
  keeps K (client_recv_packet_trilogy junk script map id opcode a).
Proof.
  intros Hop. unfold client_recv_packet_trilogy. rewrite (proj2 (Z.eqb_neq _ _) Hop).
  unfold cs_trilogy_handle_op_guild_list, cs_trilogy_handle_op_name_approval,
    cs_trilogy_handle_op_create_character, cs_trilogy_handle_op_delete_character, cs_trilogy_handle_op_wear_change,
    cs_trilogy_handle_op_enter, cs_trilogy_echo_zero_length, char_select_client_query_character_name_taken,
    char_select_client_delete_character_by_name, char_select_send_client_zone_in_request, cs_client_trilogy_send_char_create_failure,
    char_select_client_grab. cbv zeta. authed_steps.
Qed.

Lemma authed_zoning seconds data : keeps K (char_select_handle_op_client_zoning junk seconds data).
Proof. unfold char_select_handle_op_client_zoning, cs_client_trilogy_on_zone_in_success. cbv zeta. authed_steps. Qed.
Lemma authed_rejected data : keeps K (char_select_handle_op_client_zoning_rejected junk data).
Proof. unfold char_select_handle_op_client_zoning_rejected, cs_client_trilogy_on_zone_in_failure. authed_steps. Qed.
Lemma authed_timeout t id : keeps K (char_select_client_zone_in_timeout_callback junk t id).
Proof. unfold char_select_client_zone_in_timeout_callback, cs_client_trilogy_on_zone_in_failure. authed_steps. Qed.

(** *** The status answer *)
Lemma find_unauthed_found l i accountId key s k id s' : find_unauthed l i accountId key s = (Ok (Some (k, id)), s') →
  s' = s ∧ id ∈ l ∧ ∃ c, csClients s !! id = Some c ∧ char_select_client_account_id c = accountId ∧
    strcmp (au_sessionKey (cs_auth c)) key = Ok 0.
Proof.
  revert i. induction l as [|id0 l IH]; intros i; cbn [find_unauthed]; [done|]. unfold client_at, lift. run.
  destruct (csClients s !! id0) as [c|] eqn:Hc; [|done].
  assert (Hrest : find_unauthed l (S i) accountId key s = (Ok (Some (k, id)), s') → s' = s ∧ id ∈ id0 :: l ∧ ∃ c,
    csClients s !! id = Some c ∧ char_select_client_account_id c = accountId ∧ strcmp (au_sessionKey (cs_auth c)) key = Ok 0).
  { intros H. destruct (IH _ H) as (? & ? & ?). split_and!; [done|by right|done]. }
  destruct (Z.eqb_spec (char_select_client_account_id c) accountId) as [Ha|]; [|exact Hrest].
  destruct (strcmp _ key) as [r|e|] eqn:Hr; [|done..]. destruct (Z.eqb_spec r 0) as [->|]; [|exact Hrest].
  intros [= <- <- <-]. split_and!; [done|by left|by exists c].
Qed.

Lemma find_unauthed_state l i accountId key s r s' : find_unauthed l i accountId key s = (r, s') → s' = s.
Proof.
  revert i. induction l as [|id0 l IH]; intros i; cbn [find_unauthed]; [by intros [= _ <-]|]. unfold client_at, lift. run.
  destruct (csClients s !! id0) as [c|]; [|by intros [= _ <-]]. destruct (_ =? _); [|apply IH].
  destruct (strcmp _ key) as [r0|e|]; [|by intros [= _ <-]..]. destruct (r0 =? 0); [by intros [= _ <-]|apply IH].
Qed.

Lemma authed_client_auth auth s a s' : K s → P (set_timestamp (now s) auth) →
  (∀ c, j ∈ unauthedClients s → csClients s !! j = Some c → char_select_client_account_id c = au_accountId auth →
        strcmp (au_sessionKey (cs_auth c)) (au_sessionKey auth) = Ok 0 → Q) →
  char_select_handle_client_auth junk auth s = (Ok a, s') → K s'.
Proof.
  intros Hs HP HQ. unfold char_select_handle_client_auth. rewrite (bind_ok (gets _) _ s _ s eq_refl).
  unfold mbind at 1, code_bind at 1. destruct (find_unauthed _ _ _ _ s) as [[[[k id]|]|e|] s1] eqn:Hf; [| |done..].
  - destruct (find_unauthed_found _ _ _ _ _ _ _ _ Hf) as (-> & Hin & c & Hc & Ha & Hk). intros He.
    assert (H : keeps K (char_select_client_set_auth junk id auth ;; modify (λ s, set_unauthed (swap_out k (unauthedClients s)) s))).
    { apply keeps_bind; [apply authed_set_auth; intros ->; by eapply HQ|intros ?; by apply authed_same]. }
    specialize (H s Hs). by rewrite He in H.
  - rewrite (find_unauthed_state _ _ _ _ _ _ _ Hf). intros [= _ <-]. destruct Hs as [Hs Hu]. split; [exact Hs|].
    simpl. apply Forall_app. split; [done|]. by apply Forall_singleton.
Qed.

(** *** The login packet *)
Lemma find_unclaimed_found l i accountId key k auth : find_unclaimed l i accountId key = Ok (Some (k, auth)) →
  auth ∈ l ∧ au_accountId auth = accountId ∧ strcmp (au_sessionKey auth) key = Ok 0.
Proof.
  revert i. induction l as [|auth0 l IH]; intros i; cbn [find_unclaimed]; [done|].
  assert (Hrest : find_unclaimed l (S i) accountId key = Ok (Some (k, auth)) →
    auth ∈ auth0 :: l ∧ au_accountId auth = accountId ∧ strcmp (au_sessionKey auth) key = Ok 0).
  { intros H. destruct (IH _ H) as (? & ?). split; [by right|done]. }
  destruct (Z.eqb_spec (au_accountId auth0) accountId) as [Ha|]; [|exact Hrest]. run.
  destruct (strcmp (au_sessionKey auth0) key) as [r|e|] eqn:Hr; [|done..]. destruct (Z.eqb_spec r 0) as [->|]; [|exact Hrest].
  intros [= <- <-]. split_and!; [by left|done..].
Qed.

Lemma swap_out_sub {A} (R : A → Prop) i l : Forall R l → Forall R (swap_out i l).
Proof.
  intros Hl. destruct (l !! i) as [x|] eqn:Hi.
  - rewrite <- (swap_out_perm i l x Hi) in Hl. by apply Forall_cons in Hl as [_ ?].
  - unfold swap_out. destruct (last l); [|done]. rewrite (proj2 (Nat.ltb_ge _ _)); [done|]. by apply lookup_ge_None.
Qed.

Lemma authed_unauthed_client id s a s' : K s →
  (∀ auth c, id = j → auth ∈ unclaimedAuths s → csClients s !! j = Some c → au_accountId auth = char_select_client_account_id c →
        strcmp (au_sessionKey auth) (au_sessionKey (cs_auth c)) = Ok 0 → Q) →
  char_select_handle_unauthed_client junk id s = (Ok a, s') → K s'.
Proof.
  intros Hs HQ. unfold char_select_handle_unauthed_client, client_at. unfold mbind at 1, code_bind at 1.
  destruct (csClients s !! id) as [c|] eqn:Hc; [|done]. simpl deref. cbv iota.
  rewrite (bind_ok (gets _) _ s _ s eq_refl). unfold lift. unfold mbind at 1, code_bind at 1.
  destruct (find_unclaimed _ _ _ _) as [[[k auth]|]|e|] eqn:Hf; [| |done..].
  - destruct (find_unclaimed_found _ _ _ _ _ _ Hf) as (Hin & Ha & Hk). intros He.
    assert (H : keeps K (char_select_client_set_auth junk id auth ;; modify (λ s, set_unclaimed (swap_out k (unclaimedAuths s)) s))).
    { apply keeps_bind; [apply authed_set_auth; intros ->; by eapply HQ|intros ?].
      apply keeps_modify. intros s0 [H0 HP0]. split; [exact H0|]. by apply swap_out_sub. }
    specialize (H s Hs). by rewrite He in H.
  - by intros [= _ <-].
Qed.
End Authed.

(** Equal C strings. *)
Lemma strcmp_field x y : strcmp x y = Ok 0 → ∃ k, field_string x = Ok k ∧ field_string y = Ok k.
Proof.
  unfold field_string. revert y. induction x as [|a x IH]; intros [|b y]; cbn [strcmp strlen]; try done.
  destruct (Z.eqb_spec a b) as [->|]; [|by destruct (a <? b)]. destruct (Z.eqb_spec b 0) as [_|Hb0]; [intros _; by exists []|].
  intros (k & Hx & Hy)%IH. exists (b :: k). revert Hx Hy. run.
  destruct (strlen x) as [n|e|] eqn:Hlx; [|done..]. destruct (strlen y) as [m|e|] eqn:Hly; [|done..].
  destruct (strlen_take _ _ Hlx) as [? _]. destruct (strlen_take _ _ Hly) as [? _].
  replace (Z.to_nat (n + 1)) with (S (Z.to_nat n)) by lia. replace (Z.to_nat (m + 1)) with (S (Z.to_nat m)) by lia.
  simpl. by intros [= <-] [= ->].
Qed.

Lemma snprintf_field_string size key old : Forall (λ b, b ≠ 0) key → field_string (snprintf_field size key old) = Ok (take (size - 1) key).
Proof.
  intros Hk. unfold field_string, snprintf_field. rewrite <- app_comm_cons || idtac. simpl.
  rewrite strlen_ok by (by apply Forall_take). run. by rewrite Nat2Z.id, take_app_length.
Qed.

Lemma string_at_no_nul a key : string_at a = Ok key → Forall (λ b, b ≠ 0) key.
Proof.
  unfold string_at. run. destruct (strlen _) as [n|e|] eqn:Hn; [|done..]. intros [= <-]. by apply (strlen_take _ n).
Qed.

(** The account and the key a login packet presents. *)
Definition login_claim (a : Aligned) : option (Z * list Z) :=
  let account := drop (Z.to_nat (cursor a)) (buffer a) in
  match aligned_advance_null_terminator a with
  | (Ok _, a') =>
      match strlen account, string_at a' with
      | Ok n, Ok key => Some (u32 (strtol (take (Z.to_nat n - 3) (drop 3 account))), take 31 key)
      | _, _ => None
      end
  | _ => None
  end.

(** An auth passes the account's status: not suspended, not banned, and either
    local, or for a server that is not locked, or of rank 50 and above. *)
Definition admits (auth : CharSelectAuth) (rows : list (Z * Z)) (time : Z) : bool :=
  let '(status, suspendedUntil) := default (0, 0) (last rows) in
  (u64 suspendedUntil <? time) && (0 <=? i32 status) && (au_isLocal auth || negb (au_isLocked auth) || (50 <=? i32 status)).

(** ** Auths expire *)
Definition fresh (time : Z) (auth : CharSelectAuth) : Prop :=
  u64 (time - au_timestamp auth) < EQP_CHAR_SELECT_UNCLAIMED_AUTHS_TIMEOUT.
#[export] Instance fresh_dec time auth : Decision (fresh time auth) := Z_lt_dec _ _.

Lemma expire_ok fuel i time l : (length l - i ≤ fuel)%nat → expire fuel i time l ≡ₚ take i l ++ filter (fresh time) (drop i l).
Proof.
  revert i l. induction fuel as [|fuel IH]; intros i l Hf; cbn [expire].
  - rewrite drop_ge, take_ge by lia. by rewrite filter_nil, app_nil_r.
  - destruct (l !! i) as [auth|] eqn:Hi.
    2: { apply lookup_ge_None in Hi. rewrite drop_ge, take_ge by lia. by rewrite filter_nil, app_nil_r. }
    pose proof (lookup_lt_Some _ _ _ Hi) as Hlt. rewrite (drop_S _ _ _ Hi), filter_cons. unfold fresh at 1. case_decide as Hd.
    + rewrite (proj2 (Z.leb_gt _ _)) by done. rewrite IH by lia. by rewrite (take_S_r _ _ _ Hi), <- app_assoc.
    + rewrite (proj2 (Z.leb_le _ _)) by lia. rewrite IH by (rewrite swap_out_length by done; lia).
      by rewrite swap_out_take, swap_out_drop.
Qed.

Lemma expire_keeps_fresh time l : expire (length l) 0 time l ≡ₚ filter (fresh time) l.
Proof. rewrite expire_ok by lia. by rewrite drop_0. Qed.

Section Admission.
Context (junk : Z → list Z) (script : CharCreateLua → CharCreateLua) (map : HashTable EString Z).

Lemma login_info_allowed Q P j id a s s' : allowed Q P j s →
  (∀ auth key, id = j → login_claim a = Some (au_accountId auth, key) → auth ∈ unclaimedAuths s →
     field_string (au_sessionKey auth) = Ok key → Q) →
  cs_trilogy_handle_op_login_info junk id a s = (Ok tt, s') → allowed Q P j s'.
Proof.
  intros Hs HQ. unfold cs_trilogy_handle_op_login_info. destruct (_ =? 0); [by intros [= <-]|]. cbv zeta.
  intros ([x a'] & s1 & (Ha & ->)%reading_inv & He)%bind_inv. cbn [fst snd] in Ha. unfold login_claim in HQ. rewrite Ha in HQ.
  revert He. destruct (_ =? 0); [by intros [= <-]|]. intros (n & s2 & [Hn ->]%lift_inv & He)%bind_inv. rewrite Hn in HQ.
  revert He. destruct (n <? 4); [by intros [= <-]|].
  intros ([] & s2 & (c & Hc & ->)%upd_client_eq & He)%bind_inv. change (set_csClients (<[id:=?d]> (csClients s)) s) with (put_to s id d) in He. revert He.
  intros (key & s2 & [Hk ->]%lift_inv & He)%bind_inv. rewrite Hk in HQ. revert He.
  erewrite bind_ok by (apply upd_cs_client_ok, put_cs_lookup). rewrite put_cs_twice. set (c1 := set_auth _ (set_auth _ c)).
  apply authed_unauthed_client.
  - destruct Hs as [Hs HP]. split; [|exact HP]. intros c2. simpl. destruct (decide (j = id)) as [->|].
    + rewrite lookup_insert_eq. intros [= <-]. unfold char_select_client_is_authed, c1. simpl. by apply Hs.
    + rewrite lookup_insert_ne by done. apply Hs.
  - intros auth c2 -> Hin Hc2 Hacct Heq. rewrite put_cs_lookup in Hc2. injection Hc2 as <-.
    destruct (strcmp_field _ _ Heq) as (k & Hk1 & Hk2). unfold c1 in Hk2. simpl in Hk2.
    rewrite snprintf_field_string in Hk2 by (by eapply string_at_no_nul). injection Hk2 as <-.
    eapply (HQ auth (take 31 key)); [done| |exact Hin|exact Hk1]. by rewrite Hacct.
Qed.

Lemma status_allowed Q P j auth rows s s' : allowed Q P j s →
  (admits auth rows (now s) = true → P (set_timestamp (now s) (set_account_status (i32 (default (0, 0) (last rows)).1) auth))) →
  (∀ c key, admits auth rows (now s) = true → j ∈ unauthedClients s → csClients s !! j = Some c →
     char_select_client_account_id c = au_accountId auth → field_string (au_sessionKey (cs_auth c)) = Ok key →
     field_string (au_sessionKey auth) = Ok key → Q) →
  tcp_client_account_status_callback junk auth rows s = (Ok tt, s') → allowed Q P j s'.
Proof.
  intros Hs HP HQ. unfold tcp_client_account_status_callback, admits in *.
  destruct (default (0, 0) (last rows)) as [status until]. rewrite (bind_ok (gets _) _ s (now s) s eq_refl).
  cbn [au_isLocal au_isLocked set_account_status fst] in *.
  destruct ((u64 until <? now s) && (0 <=? i32 status) && _); [|by intros [= <-]]. intros He.
  eapply authed_client_auth; [exact Hs|by apply HP| |exact He]. intros c Hin Hc Ha Hk.
  destruct (strcmp_field _ _ Hk) as (k & H1 & H2). by eapply (HQ c k).
Qed.
End Admission.

(** C28: A client becomes authed only (1) when it presents the account and the
    session key of an auth that waits for it, or (2) when the account status
    query of an auth is answered, admits the account, and the client waits
    with the auth's account and key. And every auth that waits was admitted by
    such an answer. *)
Theorem authed_by_admitted_auth (junk : Z → list Z) (script : CharCreateLua → CharCreateLua) (map : HashTable EString Z)
    (w : World) (e : event) (w' : World) (Hstep : char_select_step junk script map w e w') :
  (∀ j c', csClients (chars w') !! j = Some c' → char_select_client_is_authed c' = true →
     (∃ c, csClients (chars w) !! j = Some c ∧ char_select_client_is_authed c = true) ∨
     (∃ a auth key, e = Receives j TrilogyOp_LoginInfo a ∧ login_claim a = Some (au_accountId auth, key) ∧
        auth ∈ unclaimedAuths (chars w) ∧ field_string (au_sessionKey auth) = Ok key) ∨
     (∃ auth an c key, e = Answered (SelectStatus auth) an ∧ admits auth (an_status an) (now (chars w)) = true ∧
        j ∈ unauthedClients (chars w) ∧ csClients (chars w) !! j = Some c ∧
        char_select_client_account_id c = au_accountId auth ∧
        field_string (au_sessionKey (cs_auth c)) = Ok key ∧ field_string (au_sessionKey auth) = Ok key)) ∧
  (∀ auth, auth ∈ unclaimedAuths (chars w') → auth ∈ unclaimedAuths (chars w) ∨
     ∃ auth0 an, e = Answered (SelectStatus auth0) an ∧ admits auth0 (an_status an) (now (chars w)) = true ∧
       au_accountId auth = au_accountId auth0 ∧ au_sessionKey auth = au_sessionKey auth0).
Proof.
  set (P auth := auth ∈ unclaimedAuths (chars w) ∨ ∃ auth0 an,
    e = Answered (SelectStatus auth0) an ∧ admits auth0 (an_status an) (now (chars w)) = true ∧
    au_accountId auth = au_accountId auth0 ∧ au_sessionKey auth = au_sessionKey auth0).
  enough (H : ∀ j Q, (∀ c, csClients (chars w) !! j = Some c → char_select_client_is_authed c = true → Q) →
    (∀ a auth key, e = Receives j TrilogyOp_LoginInfo a → login_claim a = Some (au_accountId auth, key) →
        auth ∈ unclaimedAuths (chars w) → field_string (au_sessionKey auth) = Ok key → Q) →
    (∀ auth an c key, e = Answered (SelectStatus auth) an → admits auth (an_status an) (now (chars w)) = true →
        j ∈ unauthedClients (chars w) → csClients (chars w) !! j = Some c →
        char_select_client_account_id c = au_accountId auth →
        field_string (au_sessionKey (cs_auth c)) = Ok key → field_string (au_sessionKey auth) = Ok key → Q) →
    allowed Q P j (chars w')).
  { split.
    - intros j c' Hc' Ha'. eapply (H j); [| | |exact Hc'|exact Ha'].
      + intros c Hc Ha. left. by exists c.
      + intros a auth key He ???. right. left. by exists a, auth, key.
      + intros auth an c key He ??????. right. right. by exists auth, an, c, key.
    - destruct (H 0%nat True) as [_ HP]; [done..|]. by apply Forall_forall. }
  intros j Q H1 H2 H3. assert (Hs : allowed Q P j (chars w)).
  { split; [exact H1|]. apply Forall_forall. intros auth ?. by left. }
  assert (Hk : ∀ (f : code CharSelect unit) s', keeps (allowed Q P j) f → f (chars w) = (Ok tt, s') → allowed Q P j s').
  { intros f s' Hf Hr. specialize (Hf _ Hs). by rewrite Hr in Hf. }
  destruct Hstep as [w id handler ip s' Hnone [= <-]|w id opcode a s' Hid He|w id link s' Hid He
    |w before q after an s' Hq He|w auth|w seconds data s' He|w data s' He|w t id s' Ht He|w s' [= <-]|w t]; simpl in *.
  - split; [|apply Hs]. intros c. simpl. destruct (decide (j = id)) as [->|]; [rewrite lookup_insert_eq; by intros [= <-]|].
    rewrite lookup_insert_ne by done. apply H1.
  - destruct (decide (opcode = TrilogyOp_LoginInfo)) as [->|Hop].
    + eapply (login_info_allowed junk Q P j id a); [exact Hs| |exact He]. intros auth key -> ? ? ?. by eapply H2.
    + eapply Hk; [|exact He]. by apply authed_other_packets.
  - eapply Hk; [|exact He]. apply authed_drop.
  - assert (Hs' : allowed Q P j (set_queries (before ++ after) (chars w))) by exact Hs.
    assert (Hcases : (∃ auth, q = SelectStatus auth) ∨ ∀ auth, q ≠ SelectStatus auth) by (destruct q; eauto).
    destruct Hcases as [[auth ->]|Hne].
    + eapply (status_allowed junk Q P j auth); [exact Hs'| | |exact He].
      * intros Had. right. exists auth, an. by split_and!.
      * intros c key ??????. by eapply (H3 auth an).
    + assert (Hkeep : keeps (allowed Q P j) (run_callback junk q an)) by (by apply authed_callback).
      specialize (Hkeep _ Hs'). by rewrite He in Hkeep.
  - exact Hs.
  - eapply Hk; [|exact He]. apply authed_zoning.
  - eapply Hk; [|exact He]. apply authed_rejected.
  - eapply Hk; [|exact He]. apply authed_timeout.
  - split; [exact H1|]. simpl. rewrite expire_keeps_fresh. apply Forall_forall.
    intros auth [_ Hin]%list_elem_of_filter. destruct Hs as [_ HP]. by eapply Forall_forall.
  - exact Hs.
Qed.

(** *** A sample client *)
Definition sample_key : list Z := text "ABCDEFGHIJKLMNO".
Definition sample_auth : CharSelectAuth :=
  mkAuth 7 false 1000 0 false (text "me" ++ replicate 30 0) (sample_key ++ replicate 17 0).
Definition sample_client (auth : CharSelectAuth) : CharSelectClient := mkCs 1 0x06070809 1 auth (replicate 10 [0; 0]) false [].

(** A connection, and the auth of account 7 that waits for it. *)
Definition auth_waits : World :=
  mkWorld {[5%nat]} (set_now 2000 (set_unclaimed [sample_auth] (set_csClients {[5%nat := sample_client no_auth]} char_select_init))).
Definition login_as_7 : Aligned := login_packet (text "LS#7") sample_key [].

Example authed_by_admitted_auth_witness :
  let w' := mkWorld (live auth_waits) (snd (client_recv_packet_trilogy no_junk id no_map 5 TrilogyOp_LoginInfo login_as_7 (chars auth_waits))) in
  (char_select_client_is_authed <$> csClients (chars w') !! 5%nat = Some true) ∧
  ((∀ j c', csClients (chars w') !! j = Some c' → char_select_client_is_authed c' = true →
     (∃ c, csClients (chars auth_waits) !! j = Some c ∧ char_select_client_is_authed c = true) ∨
     (∃ a auth key, Receives 5 TrilogyOp_LoginInfo login_as_7 = Receives j TrilogyOp_LoginInfo a ∧
        login_claim a = Some (au_accountId auth, key) ∧
        auth ∈ unclaimedAuths (chars auth_waits) ∧ field_string (au_sessionKey auth) = Ok key) ∨
     (∃ auth an c key, Receives 5 TrilogyOp_LoginInfo login_as_7 = Answered (SelectStatus auth) an ∧
        admits auth (an_status an) (now (chars auth_waits)) = true ∧
        j ∈ unauthedClients (chars auth_waits) ∧ csClients (chars auth_waits) !! j = Some c ∧
        char_select_client_account_id c = au_accountId auth ∧
        field_string (au_sessionKey (cs_auth c)) = Ok key ∧ field_string (au_sessionKey auth) = Ok key)) ∧
  (∀ auth, auth ∈ unclaimedAuths (chars w') → auth ∈ unclaimedAuths (chars auth_waits) ∨
     ∃ auth0 an, Receives 5 TrilogyOp_LoginInfo login_as_7 = Answered (SelectStatus auth0) an ∧
       admits auth0 (an_status an) (now (chars auth_waits)) = true ∧
       au_accountId auth = au_accountId auth0 ∧ au_sessionKey auth = au_sessionKey auth0)).
Proof.
  split; [vm_compute; reflexivity|].
  apply (authed_by_admitted_auth no_junk id no_map auth_waits (Receives 5 TrilogyOp_LoginInfo login_as_7)).
  apply step_receives; [apply (bool_decide_eq_true_1 _); vm_compute; reflexivity|vm_compute; reflexivity].
Defined.

(** The timer's callback leaves exactly the auths that have waited for
    less than 30 seconds, whatever their order and number; the array is only
    reordered. *)
Theorem unclaimed_auths_expire (s : CharSelect) :
  ∃ s', char_select_unclaimed_auths_timer_callback s = (Ok tt, s') ∧
    unclaimedAuths s' ≡ₚ filter (fresh (now s)) (unclaimedAuths s) ∧ s' = set_unclaimed (unclaimedAuths s') s.
Proof. eexists. split; [reflexivity|]. split; [|done]. simpl. apply expire_keeps_fresh. Qed.
