(* ===== verification/CharSelectLimits.v ===== *)
(** Where character select's promises end: the account of a client that was let
    in, repeated login packets, auths that come after their client, and zoning
    timers that outlive their attempt. *)

From S2P Require Import Prelude EqpString HashTable ZoneId Text EqTime Servers PlayerProfile CharCreate CharSelect Aligned CharSelectTrilogy.
From S2P Require Import CharSelectSteps CharSelectTcp CharSelectSpec.

(** ** Numbers in account names *)
Lemma leading_digits_all ds rest : Forall (λ d, 48 ≤ d ≤ 57) ds → (∀ b, head rest = Some b → is_digit b = false) →
  leading_digits (ds ++ rest) = ds.
Proof.
  intros Hds Hr. induction Hds as [|d ds Hd _ IH]; simpl.
  - destruct rest as [|b rest]; [done|]. simpl. by rewrite (Hr b).
  - unfold is_digit at 1. rewrite (proj2 (Z.leb_le 48 d)), (proj2 (Z.leb_le d 57)) by lia. simpl. by rewrite IH.
Qed.

Lemma value_nonneg ds : Forall (λ d, 48 ≤ d ≤ 57) ds → 0 ≤ value ds.
Proof.
  intros Hds. unfold value. assert (H : ∀ acc, 0 ≤ acc → 0 ≤ fold_left (λ n d, 10 * n + (d - 48)) ds acc); [|by apply H].
  induction Hds as [|d ds Hd _ IH]; intros acc Hacc; simpl; [done|]. apply IH. lia.
Qed.

Lemma strtol_digits ds rest : Forall (λ d, 48 ≤ d ≤ 57) ds → ds ≠ [] → value ds < 2 ^ 63 →
  (∀ b, head rest = Some b → is_digit b = false) → strtol (ds ++ rest) = value ds.
Proof.
  intros Hds Hne Hv Hr. pose proof (value_nonneg ds Hds) as H0. destruct ds as [|d ds]; [done|]. unfold strtol.
  pose proof (leading_digits_all (d :: ds) rest Hds Hr) as Hl. apply Forall_cons in Hds as [Hd _]. simpl app in *. cbn [skip_spaces].
  unfold is_space. rewrite (proj2 (Z.eqb_neq d 32)), (proj2 (Z.leb_gt d 13)), andb_false_r by lia. simpl orb. cbv iota zeta.
  assert (Hm : match d :: ds ++ rest with 43 :: s => value (leading_digits s) | 45 :: s => - value (leading_digits s)
     | _ => value (leading_digits (d :: ds ++ rest)) end = value (leading_digits (d :: ds ++ rest))).
  { assert (Hcase : d = 48 ∨ d = 49 ∨ d = 50 ∨ d = 51 ∨ d = 52 ∨ d = 53 ∨ d = 54 ∨ d = 55 ∨ d = 56 ∨ d = 57) by lia.
    destruct_or! Hcase; subst; reflexivity. }
  rewrite Hm, Hl. lia.
Qed.

Lemma strtol_decimal n : 0 ≤ n < 2 ^ 32 → strtol (decimal n) = n.
Proof.
  intros Hn. destruct (decimal_ok n) as [Hv Hd]; [lia|]. rewrite <- (app_nil_r (decimal n)), strtol_digits; rewrite ?Hv; try done; try lia.
  intros H. rewrite H in Hv. unfold value in Hv. simpl in Hv. subst n. done.
Qed.

(** ** Packets in a row *)
Lemma find_unclaimed_none l i accountId key : Forall (λ auth, au_accountId auth ≠ accountId) l →
  find_unclaimed l i accountId key = Ok None.
Proof.
  intros Hl. revert i. induction Hl as [|auth l Hne _ IH]; intros i; cbn [find_unclaimed]; [done|].
  rewrite (proj2 (Z.eqb_neq _ _)) by done. apply IH.
Qed.

(** A client no auth waits for is put at the end of the list. *)
Lemma unauthed_client_waits junk id c s : csClients s !! id = Some c →
  Forall (λ auth, au_accountId auth ≠ char_select_client_account_id c) (unclaimedAuths s) →
  char_select_handle_unauthed_client junk id s = (Ok tt, set_unauthed (unauthedClients s ++ [id]) s).
Proof.
  intros Hc Hn. unfold char_select_handle_unauthed_client. rewrite (bind_ok _ _ _ _ _ (client_at_ok id c s Hc)).
  rewrite (bind_ok (gets _) _ s _ s eq_refl). by rewrite (bind_ok (lift _) _ s None s) by (unfold lift; by rewrite find_unclaimed_none).
Qed.

(** The login packet of an account number. *)
Definition account_packet (n : Z) (key rest : list Z) : Aligned := login_packet (text "LS#" ++ decimal n) key rest.

Lemma account_no_nul n : 0 ≤ n < 2 ^ 32 → Forall (λ b, b ≠ 0) (text "LS#" ++ decimal n).
Proof. intros Hn. apply Forall_app. split; [by repeat constructor|apply decimal_no_nul; lia]. Qed.

Lemma account_length n : 0 ≤ n < 2 ^ 32 → (4 ≤ length (text "LS#" ++ decimal n) ≤ 13)%nat.
Proof.
  intros Hn. rewrite length_app. change (length (text "LS#")) with 3%nat.
  pose proof (decimal_length n 9 ltac:(lia) ltac:(lia)). destruct (decimal n) eqn:Hd; [|simpl in *; lia].
  pose proof (strtol_decimal n Hn) as H0. rewrite Hd in H0. change (strtol []) with 0 in H0. subst n. done.
Qed.

Lemma account_packet_ok junk script map id c n key rest s : csClients s !! id = Some c → 0 ≤ n < 2 ^ 32 →
  Forall (λ b, b ≠ 0) key → Z.of_nat (length key) < 2 ^ 30 → Forall (λ auth, au_accountId auth ≠ n) (unclaimedAuths s) →
  ∃ c', au_accountId (cs_auth c') = n ∧ au_timestamp (cs_auth c') = au_timestamp (cs_auth c) ∧ cs_refCount c' = cs_refCount c ∧
    cs_handler c' = cs_handler c ∧ field_string (au_sessionKey (cs_auth c')) = Ok (take 31 key) ∧
    client_recv_packet_trilogy junk script map id TrilogyOp_LoginInfo (account_packet n key rest) s =
      (Ok tt, set_unauthed (unauthedClients s ++ [id]) (put_to s id c')).
Proof.
  intros Hc Hn Hk Hl Hno. pose proof (account_length n Hn).
  set (c' := claimed (text "LS#" ++ decimal n) key c). exists c'.
  assert (Hacct : au_accountId (cs_auth c') = n).
  { unfold c'. simpl. rewrite drop_0, strtol_decimal by done. apply wrap_small. done. }
  split_and!; [done..|by apply snprintf_field_string|].
  change (cs_trilogy_handle_op_login_info junk id (account_packet n key rest) s = (Ok tt, set_unauthed (unauthedClients s ++ [id]) (put_to s id c'))).
  unfold account_packet. rewrite (login_info_ok junk id c) by (done || lia || by apply account_no_nul). fold c'.
  rewrite (unauthed_client_waits junk id c') by (apply put_cs_lookup || by unfold char_select_client_account_id; rewrite Hacct). done.
Qed.

(** A packet that is a text. *)
Definition text_packet (bs rest : list Z) : Aligned := mkAligned 0 (Z.of_nat (length bs) + 1) (bs ++ 0 :: rest).

Lemma string_at_text bs rest : Forall (λ b, b ≠ 0) bs → string_at (text_packet bs rest) = Ok bs.
Proof.
  intros Hb. unfold string_at, text_packet. simpl cursor. simpl buffer. change (Z.to_nat 0) with 0%nat. rewrite drop_0, strlen_ok by done.
  run. by rewrite Nat2Z.id, take_app_length.
Qed.

(** A text of at least one character passes the handlers' length check. *)
Lemma text_packet_long bs rest : bs ≠ [] → Z.of_nat (length bs) < 2 ^ 31 → (aligned_remaining (text_packet bs rest) <? 2) = false.
Proof.
  intros Hne Hl. unfold aligned_remaining, text_packet. cbn [length_ cursor]. destruct bs; [done|]. cbn [length] in *.
  rewrite wrap_small by (unfold is_word; lia). apply Z.ltb_ge. lia.
Qed.

Lemma delete_ok junk script map id c name rest s : csClients s !! id = Some c → char_select_client_is_authed c = true →
  Forall (λ b, b ≠ 0) name → name ≠ [] → Z.of_nat (length name) < 2 ^ 31 →
  client_recv_packet_trilogy junk script map id TrilogyOp_DeleteCharacter (text_packet name rest) s =
    (Ok tt, set_queries (queries s ++ [DeleteCharacter id (char_select_client_account_id c) name])
              (put_to s id (set_refCount (cs_refCount c + 1) c))).
Proof.
  intros Hc Ha Hn Hne Hl.
  change (client_recv_packet_trilogy junk script map id TrilogyOp_DeleteCharacter) with (cs_trilogy_handle_op_delete_character id).
  unfold cs_trilogy_handle_op_delete_character. rewrite (bind_ok _ _ _ _ _ (client_at_ok id c s Hc)).
  rewrite Ha, text_packet_long by done. cbv beta iota delta [negb orb].
  rewrite (bind_ok (lift _) _ s name s) by (unfold lift; by rewrite string_at_text).
  unfold char_select_client_delete_character_by_name, char_select_client_grab. erewrite bind_ok by (by apply upd_cs_client_ok).
  by erewrite bind_ok by (apply client_at_ok, put_cs_lookup).
Qed.

(** A client that was let in for one account can go on as any other: the
    login packet is handled in every state and overwrites the account id, and
    the client stays authed although no auth for the new account arrived. What
    it then asks for, here deleting a character, is done to the account it
    named. *)
Theorem authed_client_acts_for_any_account (junk : Z → list Z) (script : CharCreateLua → CharCreateLua) (map : HashTable EString Z)
    (s : CharSelect) (id : nat) (c : CharSelectClient) (n : Z) (key name rest : list Z)
    (Hc : csClients s !! id = Some c) (Ha : char_select_client_is_authed c = true) (Hn : 0 ≤ n < 2 ^ 32)
    (Hk : Forall (λ b, b ≠ 0) key) (Hkl : Z.of_nat (length key) < 2 ^ 30)
    (Hno : Forall (λ auth, au_accountId auth ≠ n) (unclaimedAuths s))
    (Hname : Forall (λ b, b ≠ 0) name) (Hne : name ≠ []) (Hnl : Z.of_nat (length name) < 2 ^ 30) :
  ∃ s1 s2 c1,
    client_recv_packet_trilogy junk script map id TrilogyOp_LoginInfo (account_packet n key rest) s = (Ok tt, s1) ∧
    csClients s1 !! id = Some c1 ∧ char_select_client_is_authed c1 = true ∧
    client_recv_packet_trilogy junk script map id TrilogyOp_DeleteCharacter (text_packet name rest) s1 = (Ok tt, s2) ∧
    queries s2 = queries s ++ [DeleteCharacter id n name].
Proof.
  destruct (account_packet_ok junk script map id c n key rest s) as (c1 & Hacct & Ht & _ & _ & _ & He); [done..|].
  assert (Ha1 : char_select_client_is_authed c1 = true) by (unfold char_select_client_is_authed; by rewrite Ht).
  do 2 eexists. exists c1. split; [exact He|]. split; [apply lookup_insert_eq|]. split; [done|].
  split; [apply (delete_ok junk script map id c1); [apply lookup_insert_eq|done|done|done|lia]|].
  simpl. unfold char_select_client_account_id. by rewrite Hacct.
Qed.

(** The sample client, let in for account 7. *)
Definition let_in : CharSelect := set_csClients {[5%nat := sample_client sample_auth]} char_select_init.

Example authed_client_acts_for_any_account_witness : ∃ s1 s2 c1,
  client_recv_packet_trilogy no_junk id no_map 5 TrilogyOp_LoginInfo (account_packet 1 sample_key []) let_in = (Ok tt, s1) ∧
  csClients s1 !! 5%nat = Some c1 ∧ char_select_client_is_authed c1 = true ∧
  client_recv_packet_trilogy no_junk id no_map 5 TrilogyOp_DeleteCharacter (text_packet (text "Victim") []) s1 = (Ok tt, s2) ∧
  queries s2 = [] ++ [DeleteCharacter 5 1 (text "Victim")].
Proof.
  apply (authed_client_acts_for_any_account no_junk id no_map let_in 5 (sample_client sample_auth) 1 sample_key (text "Victim") []);
    [reflexivity|reflexivity|lia|by repeat constructor|vm_compute; reflexivity|constructor|by repeat constructor|done|vm_compute; reflexivity].
Defined.

(** ** Repeated login packets *)

(** An auth looks at the clients that wait. *)
Lemma freed_client_is_read junk id s : csClients s !! id = None → unauthedClients s = [id] →
  csClients s !! id = None ∧ unauthedClients s = [id] ∧ ∀ auth, fst (char_select_handle_client_auth junk auth s) = Fault.
Proof.
  intros Hgone Hlist. split_and!; [done..|]. intros auth. unfold char_select_handle_client_auth.
  rewrite (bind_ok (gets _) _ s [id] s) by (unfold gets; by rewrite Hlist). cbn [find_unauthed]. unfold client_at. run. by rewrite Hgone.
Qed.

(** A client that sends its login packet twice before its auth arrives is
    in the list of waiting clients twice, but only one entry is removed when it
    disconnects and is freed: the list keeps naming freed memory, which the
    next auth from a login server reads. *)
Theorem repeated_login_info_leaves_freed_client (junk : Z → list Z) (script : CharCreateLua → CharCreateLua) (map : HashTable EString Z)
    (s : CharSelect) (id : nat) (c : CharSelectClient) (n : Z) (key rest : list Z)
    (Hc : csClients s !! id = Some c) (Hr : cs_refCount c = 1) (Hu : unauthedClients s = []) (Hn : 0 ≤ n < 2 ^ 32)
    (Hk : Forall (λ b, b ≠ 0) key) (Hkl : Z.of_nat (length key) < 2 ^ 30)
    (Hno : Forall (λ auth, au_accountId auth ≠ n) (unclaimedAuths s)) :
  let login := client_recv_packet_trilogy junk script map id TrilogyOp_LoginInfo (account_packet n key rest) in
  ∃ s', (login ;; login ;; client_on_disconnect (Some id) false) s = (Ok tt, s') ∧
    csClients s' !! id = None ∧ unauthedClients s' = [id] ∧
    ∀ auth, fst (char_select_handle_client_auth junk auth s') = Fault.
Proof.
  cbv zeta. destruct (account_packet_ok junk script map id c n key rest s) as (c1 & _ & _ & Hr1 & _ & _ & He1); [done..|].
  rewrite (bind_ok _ _ _ _ _ He1). set (s1 := set_unauthed _ _) in *.
  destruct (account_packet_ok junk script map id c1 n key rest s1) as (c2 & _ & _ & Hr2 & Hh2 & _ & He2); [apply lookup_insert_eq|done..|].
  rewrite (bind_ok _ _ _ _ _ He2). simpl client_on_disconnect.
  rewrite (drop_eq id _ c2) by apply lookup_insert_eq. eexists. split; [done|]. apply freed_client_is_read.
  - unfold after_drop. rewrite Hr2, Hr1, Hr. change (1 <? 1) with false. cbv iota zeta. apply lookup_delete_eq.
  - unfold after_drop. rewrite Hr2, Hr1, Hr. change (1 <? 1) with false. unfold s1. simpl. rewrite Hu. simpl. by rewrite decide_True.
Qed.

(** The sample client before it sent anything. *)
Definition newcomer : CharSelect := set_csClients {[5%nat := sample_client no_auth]} char_select_init.

Example repeated_login_info_leaves_freed_client_witness :
  let login := client_recv_packet_trilogy no_junk id no_map 5 TrilogyOp_LoginInfo (account_packet 7 sample_key []) in
  ∃ s', (login ;; login ;; client_on_disconnect (Some 5%nat) false) newcomer = (Ok tt, s') ∧
    csClients s' !! 5%nat = None ∧ unauthedClients s' = [5%nat] ∧
    ∀ auth, fst (char_select_handle_client_auth no_junk auth s') = Fault.
Proof.
  apply (repeated_login_info_leaves_freed_client no_junk id no_map newcomer 5 (sample_client no_auth) 7 sample_key []);
    [reflexivity|reflexivity|reflexivity|lia|by repeat constructor|vm_compute; reflexivity|constructor].
Defined.

(** ** Auths that come after their client *)
Lemma field_string_split bytes k : field_string bytes = Ok k → ∃ rest, bytes = k ++ 0 :: rest ∧ Forall (λ b, b ≠ 0) k.
Proof.
  unfold field_string. revert k. induction bytes as [|b bytes IH]; intros k; cbn [strlen]; [done|].
  destruct (Z.eqb_spec b 0) as [->|Hb]; [intros [= <-]; by exists bytes|]. revert IH. run.
  destruct (strlen bytes) as [m|e|] eqn:Hs; [|done..]. intros IH. destruct (strlen_take _ _ Hs) as [H0 _].
  replace (Z.to_nat (m + 1)) with (S (Z.to_nat m)) by lia. simpl. intros [= <-].
  destruct (IH _ eq_refl) as (rest & Hr & Hf). exists rest. split; [simpl; by rewrite <- Hr|by constructor].
Qed.

Lemma same_field_strcmp x y k : field_string x = Ok k → field_string y = Ok k → strcmp x y = Ok 0.
Proof.
  intros (rx & -> & Hk)%field_string_split (ry & -> & _)%field_string_split.
  destruct (strcmp_ok k k rx ry Hk Hk) as (r & -> & [_ Hr]). by rewrite Hr.
Qed.

(** The auth a login server sends is kept in fresh memory whose timestamp
    is not set. A client that is already waiting for it gets it as it is: it is
    taken from the list of waiting clients and told that it is approved, but
    whether it then counts as authed is up to what the allocation held. *)
Theorem waiting_client_gets_unset_timestamp (junk : Z → list Z) (Hjunk : ∀ n, length (junk n) = Z.to_nat n)
    (fresh_auth : CharSelectAuth) (t : Tcp) (i : nat) (tc : TcpClient) (a a' : Aligned) (n : Z) (name key : list Z) (isLocal : bool)
    (Htc : conns t !! i = Some tc) (Hread : read_login_auth a = (Ok (n, name, key, isLocal), a')) :
  ∃ auth t', tcp_client_handle_op_client_login_auth fresh_auth i a t = (Ok tt, t') ∧
    queries (CharSelectTcp.chars t') = queries (CharSelectTcp.chars t) ++ [SelectStatus auth] ∧ au_accountId auth = n ∧
    ∀ s id c k nm rows, csClients s !! id = Some c → unauthedClients s = [id] → char_select_client_account_id c = n →
      field_string (au_sessionKey (cs_auth c)) = Ok k → field_string (au_sessionKey auth) = Ok k →
      field_string (au_accountName auth) = Ok nm → admits auth rows (now s) = true →
      ∃ s' c', tcp_client_account_status_callback junk auth rows s = (Ok tt, s') ∧ csClients s' !! id = Some c' ∧
        unauthedClients s' = [] ∧ cs_scheduled c' = cs_scheduled (approved c) ∧
        char_select_client_is_authed c' = negb (au_timestamp fresh_auth =? 0).
Proof.
  unfold tcp_client_handle_op_client_login_auth. rewrite (bind_ok _ _ t tc t) by (unfold tcp_at; by rewrite Htc).
  rewrite (bind_ok (reading _ _) _ t (n, name, key, isLocal, a') t) by (unfold reading; by rewrite Hread). cbv beta iota zeta.
  set (auth := mkAuth _ _ _ _ _ _ _). exists auth. eexists. split; [done|]. split; [done|]. split; [done|].
  intros s id c k nm rows Hc Hu Ha Hk Hk' Hnm Had. unfold tcp_client_account_status_callback, admits in *.
  destruct (default (0, 0) (last rows)) as [status until]. rewrite (bind_ok (gets _) _ s (now s) s eq_refl).
  cbn [au_isLocal au_isLocked set_account_status fst] in *. rewrite Had. set (auth' := set_account_status _ auth).
  unfold char_select_handle_client_auth. rewrite (bind_ok (gets _) _ s [id] s) by (unfold gets; by rewrite Hu).
  cbn [find_unauthed]. rewrite (bind_ok _ _ s (Some (0%nat, id)) s).
  - erewrite bind_ok by (by apply (set_auth_ok junk Hjunk id c auth' nm)). eexists. eexists. split; [done|]. simpl.
    split; [apply lookup_insert_eq|]. rewrite Hu. done.
  - rewrite (bind_ok _ _ _ _ _ (client_at_ok id c s Hc)). simpl au_accountId. rewrite Ha, Z.eqb_refl.
    by rewrite (bind_ok (lift _) _ s 0 s) by (unfold lift; by rewrite (same_field_strcmp _ _ k)).
Qed.

(** A login server's connection, and the packet that lets account 7 in. *)
Definition sample_connection : TcpClient :=
  mkTcp 4 0 4 (replicate 1024 0) (mkConfig [] [] [] [] [] [] [] []) 0 false 15000 tcp_client_reconnect_callback_.
Definition sample_tcp : Tcp := mkState [sample_connection] [] [] [] [] 0 newcomer.
Definition auth_bytes : list Z := le_bytes 4 7 ++ text "me" ++ replicate 28 0 ++ sample_key ++ replicate 15 0 ++ replicate 8 0.

Example waiting_client_gets_unset_timestamp_witness : ∃ auth t',
  tcp_client_handle_op_client_login_auth no_auth 0 (aligned_init auth_bytes 72) sample_tcp = (Ok tt, t') ∧
    queries (CharSelectTcp.chars t') = [] ++ [SelectStatus auth] ∧ au_accountId auth = 7 ∧
    ∀ s id c k nm rows, csClients s !! id = Some c → unauthedClients s = [id] → char_select_client_account_id c = 7 →
      field_string (au_sessionKey (cs_auth c)) = Ok k → field_string (au_sessionKey auth) = Ok k →
      field_string (au_accountName auth) = Ok nm → admits auth rows (now s) = true →
      ∃ s' c', tcp_client_account_status_callback no_junk auth rows s = (Ok tt, s') ∧ csClients s' !! id = Some c' ∧
        unauthedClients s' = [] ∧ cs_scheduled c' = cs_scheduled (approved c) ∧ char_select_client_is_authed c' = false.
Proof.
  eapply (waiting_client_gets_unset_timestamp no_junk (λ n, length_replicate _ _) no_auth sample_tcp 0 sample_connection
    (aligned_init auth_bytes 72)); [reflexivity|vm_compute; reflexivity].
Defined.

(** ** Zoning timers *)
Lemma enter_ok junk script map id c charName rest s : csClients s !! id = Some c → char_select_client_is_authed c = true →
  Forall (λ b, b ≠ 0) charName → charName ≠ [] → Z.of_nat (length charName) < 2 ^ 31 →
  client_recv_packet_trilogy junk script map id TrilogyOp_Enter (text_packet charName rest) s =
    char_select_send_client_zone_in_request id charName s.
Proof.
  intros Hc Ha Hn Hne Hl.
  change (client_recv_packet_trilogy junk script map id TrilogyOp_Enter) with (cs_trilogy_handle_op_enter id).
  unfold cs_trilogy_handle_op_enter. rewrite (bind_ok _ _ _ _ _ (client_at_ok id c s Hc)).
  rewrite Ha, text_packet_long by done. cbv beta iota delta [negb orb].
  by rewrite (bind_ok (lift _) _ s charName s) by (unfold lift; by rewrite string_at_text).
Qed.

(** An answer for an account that does not wait is ignored. *)
Lemma no_attempt_ignored junk seconds data s : clientsAttemptingToZoneIn s = [] →
  char_select_handle_op_client_zoning junk seconds data s = (Ok tt, s).
Proof.
  intros Hno. unfold char_select_handle_op_client_zoning. cbv zeta. do 2 (case_match; [done|]).
  unfold attempt_of. run. by rewrite Hno.
Qed.

(** The timer of an attempt to zone in is not stopped when the attempt is
    answered. A client that is refused and tries again is refused a second
    time, for zone "qeynos", as soon as the FIRST attempt's ten seconds are
    over, although the master has the new request and has not answered it; and
    the answer is ignored when it comes. *)
Theorem old_timer_ends_new_attempt (junk : Z → list Z) (Hjunk : ∀ n, length (junk n) = Z.to_nat n)
    (script : CharCreateLua → CharCreateLua) (map : HashTable EString Z)
    (s : CharSelect) (id : nat) (c : CharSelectClient) (n : Z) (data zone charName name rest : list Z)
    (Hc : csClients s !! id = Some c) (Ha : char_select_client_is_authed c = true) (Hacct : char_select_client_account_id c = n)
    (Hname : field_string (au_accountName (cs_auth c)) = Ok name) (Hrefs : 1 ≤ cs_refCount c)
    (Hattempt : clientsAttemptingToZoneIn s = [(n, id)]) (Htimer : zoneInTimers s = [id])
    (Hdata : SIZEOF_ClientZoningReject ≤ Z.of_nat (length data)) (Hn : number_at 4 0 data = n)
    (Hzone : field_string (drop 4 data) = Ok zone)
    (Hchar : Forall (λ b, b ≠ 0) charName) (Hne : charName ≠ []) (Hcl : Z.of_nat (length charName) < 2 ^ 31) :
  ∃ s' c', (char_select_handle_op_client_zoning_rejected junk data ;;
            client_recv_packet_trilogy junk script map id TrilogyOp_Enter (text_packet charName rest) ;;
            char_select_client_zone_in_timeout_callback junk 0 id) s = (Ok tt, s') ∧
    csClients s' !! id = Some c' ∧
    cs_scheduled c' = cs_scheduled (unavailable junk (text "qeynos") (unavailable junk zone c)) ∧
    length (toMaster s') = S (length (toMaster s)) ∧ zoneInTimers s' = [id] ∧
    ∀ seconds answer, char_select_handle_op_client_zoning junk seconds answer s' = (Ok tt, s').
Proof.
  set (c1 := unavailable junk zone c). set (s1 := set_zoning [] (put_to s id c1)).
  rewrite (bind_ok _ _ s tt s1).
  2: { unfold char_select_handle_op_client_zoning_rejected. rewrite (proj2 (Z.ltb_ge _ _)) by done.
       rewrite (bind_ok (gets _) _ s (Some (0%nat, id)) s) by (unfold gets, attempt_of; rewrite Hattempt; simpl; by rewrite decide_True).
       rewrite (bind_ok (lift _) _ s zone s) by (unfold lift; by rewrite Hzone).
       erewrite bind_ok by (by apply zone_in_failure_ok). unfold modify. simpl. by rewrite Hattempt. }
  set (c2 := set_refCount (cs_refCount c + 1) c1).
  rewrite (bind_ok (client_recv_packet_trilogy _ _ _ _ _ _) _ s1 tt (set_timers [id; id] (put_to (set_zoning [(n, id)]
    (set_toMaster (toMaster s ++ [mkZoning n (cs_ip c) (au_isLocal (cs_auth c)) (take 63 name) (take 31 charName)]) s1)) id c2))).
  2: { rewrite (enter_ok junk script map id c1) by (apply lookup_insert_eq || done).
       rewrite (zone_in_request_ok id c1 charName name) by (apply lookup_insert_eq || done).
       unfold s1. simpl. rewrite Htimer. change (char_select_client_account_id c1) with (char_select_client_account_id c). by rewrite Hacct. }
  set (s2 := set_timers _ _). set (c3 := unavailable junk (text "qeynos") c2).
  unfold char_select_client_zone_in_timeout_callback. rewrite (bind_ok (gets _) _ s2 [(n, id)] s2 eq_refl). simpl list_find.
  rewrite decide_True by done. cbv iota. 
  rewrite (bind_ok (modify _ ;; _) _ s2 tt (put_to (set_zoning [] s2) id c3)).
  2: { erewrite (bind_ok (modify _)) by reflexivity. rewrite (zone_in_failure_ok junk Hjunk id c2) by apply put_cs_lookup. done. }
  rewrite (bind_ok _ _ _ _ _ (drop_eq id _ c3 (put_cs_lookup _ _ _))). unfold after_drop.
  change (cs_refCount c3) with (cs_refCount c + 1). rewrite (proj2 (Z.ltb_lt _ _)) by lia.
  eexists. eexists. split; [reflexivity|]. split; [apply lookup_insert_eq|]. split; [done|]. split; [|split; [done|]].
  - simpl. rewrite length_app. simpl. lia.
  - intros seconds answer. by apply no_attempt_ignored.
Qed.

(** The sample client waits for the answer to its first attempt. *)
Definition zoning_in : CharSelect :=
  set_timers [5%nat] (set_zoning [(7, 5%nat)] (set_csClients {[5%nat := set_refCount 2 (sample_client sample_auth)]} char_select_init)).
Definition refusal : list Z := le_bytes 4 7 ++ text "freporte" ++ replicate 24 0.

Example old_timer_ends_new_attempt_witness : ∃ s' c',
  (char_select_handle_op_client_zoning_rejected no_junk refusal ;;
   client_recv_packet_trilogy no_junk id no_map 5 TrilogyOp_Enter (text_packet (text "Me") []) ;;
   char_select_client_zone_in_timeout_callback no_junk 0 5) zoning_in = (Ok tt, s') ∧
  csClients s' !! 5%nat = Some c' ∧
  cs_scheduled c' = cs_scheduled (unavailable no_junk (text "qeynos") (unavailable no_junk (text "freporte") (set_refCount 2 (sample_client sample_auth)))) ∧
  length (toMaster s') = S (length (toMaster zoning_in)) ∧ zoneInTimers s' = [5%nat] ∧
  ∀ seconds answer, char_select_handle_op_client_zoning no_junk seconds answer s' = (Ok tt, s').
Proof.
  apply (old_timer_ends_new_attempt no_junk (λ n, length_replicate _ _) id no_map zoning_in 5 (set_refCount 2 (sample_client sample_auth)) 7
    refusal (text "freporte") (text "Me") (text "me") []);
    first [reflexivity|vm_compute; reflexivity|vm_compute; discriminate|by repeat constructor].
Defined.
