(* ===== verification/CharSelectLayout.v ===== *)
(** The packets character select builds from the database's and the master's
    answers: the characters of an account, and the address of a zone. Then
    the session id a client carries from the login server to character select:
    what one server writes and what the other reads from it. *)

From S2P Require Import Prelude EqpString HashTable ZoneId Aligned Text Servers Login LoginTrilogy LoginServer LoginRegistry.
From S2P Require Import LoginPackets EqTime PlayerProfile CharCreate CharSelect CharSelectTrilogy CharSelectSteps CharSelectTcp.
From S2P Require Import CharSelectSpec CharSelectLimits.

(** ** The characters of an account *)

(** A text in a zeroed field of [n] bytes. *)
Definition padded (n : nat) (s : list Z) : list Z := let t := take (n - 1) s in t ++ replicate (n - length t) 0.

(** The packet's fields after [rows], with [k] slots that are still blank. *)
Definition filled (rows : list CharacterRow) (k : nat) : CharSelectInfo :=
  mkInfo ((padded 30 ∘ r_name <$> rows) ++ replicate k (replicate 30 0))
    ((u8 ∘ r_level <$> rows) ++ replicate k 0) ((u8 ∘ r_class <$> rows) ++ replicate k 0) ((u16 ∘ r_race <$> rows) ++ replicate k 0)
    (((λ r, padded 20 (text (zone_short_name_by_id (r_zone r)))) <$> rows) ++ replicate k (replicate 20 0))
    ((u8 ∘ r_gender <$> rows) ++ replicate k 0) ((u8 ∘ r_face <$> rows) ++ replicate k 0)
    (((λ r, (u8 <$> take 7 (r_materials r)) ++ [0; 0]) <$> rows) ++ replicate k (replicate 9 0))
    (((λ r, (u32 <$> r_tints r) ++ [0; 0]) <$> rows) ++ replicate k (replicate 9 0))
    ((λ i, replicate 4 (Z.of_nat i)) <$> seq 0 10) ((λ i, replicate 4 (Z.of_nat i)) <$> seq 0 10).

Lemma filled_nil : filled [] 10 = blank_info.
Proof. done. Qed.

Lemma next_slot {A} (l : list A) n k x y : n = length l → <[n := x]> (l ++ replicate (S k) y) = (l ++ [x]) ++ replicate k y.
Proof. intros ->. rewrite insert_app_r_alt, Nat.sub_diag by lia. simpl. by rewrite <- app_assoc. Qed.

Lemma next_slot_alter {A} (f : A → A) (l : list A) n k y : n = length l →
  alter f n (l ++ replicate (S k) y) = (l ++ [f y]) ++ replicate k y.
Proof.
  intros ->. rewrite (alter_as_insert f _ _ y); [by apply next_slot|]. by rewrite lookup_app_r, Nat.sub_diag by lia.
Qed.

Lemma snprintf_zeroed n s : (0 < n)%nat → snprintf_field n s (replicate n 0) = padded n s.
Proof.
  intros Hn. unfold snprintf_field, padded. set (t := take (n - 1) s). assert (length t ≤ n - 1)%nat by (unfold t; rewrite length_take; lia).
  f_equal. rewrite drop_replicate. replace (n - length t)%nat with (S (n - (length t + 1))) by lia. done.
Qed.

Definition row_ok (row : CharacterRow) : Prop := length (r_materials row) = 9%nat ∧ length (r_tints row) = 7%nat.

(** The client remembers the weapons of each row. *)
Definition weapons_of (rows : list CharacterRow) (old : list (list Z)) : list (list Z) :=
  ((λ r, u8 <$> drop 7 (r_materials r)) <$> rows) ++ drop (length rows) old.

Lemma weapons_next rows row old : (length rows < length old)%nat →
  <[length rows := u8 <$> drop 7 (r_materials row)]> (weapons_of rows old) = weapons_of (rows ++ [row]) old.
Proof.
  intros Hl. unfold weapons_of. destruct (lookup_lt_is_Some_2 _ _ Hl) as [x Hx]. rewrite (drop_S _ _ _ Hx).
  rewrite <- (length_fmap (λ r, u8 <$> drop 7 (r_materials r)) rows) at 1. rewrite insert_app_r_alt, Nat.sub_diag by lia. simpl.
  by rewrite fmap_app, length_app, <- app_assoc, Nat.add_1_r.
Qed.

Lemma read_row_ok id rows row k s c : row_ok row → (length rows + S k = 10)%nat → csClients s !! id = Some c →
  (length rows < length (weaponMaterialsTrilogy c))%nat →
  read_row id (length rows) row (filled rows (S k)) s =
    (Ok (filled (rows ++ [row]) k),
     put_to s id (set_weapons (<[length rows := u8 <$> drop 7 (r_materials row)]> (weaponMaterialsTrilogy c)) c)).
Proof.
  intros [Hm Ht] Hl Hc Hw. unfold read_row. rewrite (proj2 (Nat.leb_gt _ _)) by lia. erewrite bind_ok by (by apply upd_cs_client_ok).
  run. do 2 f_equal. unfold set_looks, set_numbers, set_zone, set_name, filled. cbn [i_names i_levels i_classes i_races i_zoneShortNames
    i_genders i_faces i_materials i_materialTints i_weirdA i_weirdB]. rewrite !fmap_app. cbn [fmap list_fmap].
  f_equal; first [by apply next_slot; rewrite length_fmap|rewrite next_slot_alter by (by rewrite length_fmap)].
  - by rewrite snprintf_zeroed by lia.
  - by rewrite snprintf_zeroed by lia.
  - do 4 f_equal. rewrite drop_replicate, length_fmap, length_take, Hm. done.
  - do 4 f_equal. rewrite drop_replicate, length_fmap, Ht. done.
Qed.

Lemma read_rows_ok id rest rows s c : Forall row_ok rest → (length rows + length rest ≤ 10)%nat →
  length (weaponMaterialsTrilogy c) = 10%nat →
  read_rows id (length rows) rest (filled rows (10 - length rows)) (put_to s id (set_weapons (weapons_of rows (weaponMaterialsTrilogy c)) c)) =
    (Ok ((length rows + length rest)%nat, filled (rows ++ rest) (10 - length (rows ++ rest))),
     put_to s id (set_weapons (weapons_of (rows ++ rest) (weaponMaterialsTrilogy c)) c)).
Proof.
  intros Hr. revert rows. induction Hr as [|row rest Hrow _ IH]; intros rows Hl Hw; cbn [read_rows].
  { rewrite app_nil_r, Nat.add_0_r. done. }
  simpl in Hl. replace (10 - length rows)%nat with (S (10 - length (rows ++ [row]))) by (rewrite length_app; simpl; lia).
  erewrite bind_ok.
  2: { apply read_row_ok; [done|rewrite length_app; simpl; lia|apply put_cs_lookup|].
       simpl. unfold weapons_of. rewrite length_app, length_fmap, length_drop. lia. }
  rewrite put_cs_twice. simpl weaponMaterialsTrilogy. rewrite weapons_next by lia.
  assert (Hlen : S (length rows) = length (rows ++ [row])) by (rewrite length_app; simpl; lia). rewrite Hlen.
  specialize (IH (rows ++ [row])). rewrite <- app_assoc in IH. simpl app in IH.
  replace (length rows + length (row :: rest))%nat with (length (rows ++ [row]) + length rest)%nat by (rewrite length_app; simpl; lia).
  rewrite <- IH by (rewrite ?length_app; simpl; lia). clear IH. unfold put_to, set_weapons. simpl. done.
Qed.

Lemma empty_slots_ok n i f A B : i_names f = A ++ replicate n (replicate 30 0) → i_zoneShortNames f = B ++ replicate n (replicate 20 0) →
  length A = i → length B = i →
  empty_slots n i f = mkInfo (A ++ replicate n (padded 30 (text "<none>"))) (i_levels f) (i_classes f) (i_races f)
    (B ++ replicate n (padded 20 (text "qeynos"))) (i_genders f) (i_faces f) (i_materials f) (i_materialTints f) (i_weirdA f) (i_weirdB f).
Proof.
  revert i f A B. induction n as [|n IH]; intros i f A B HA HB HlA HlB; cbn [empty_slots].
  - simpl in *. destruct f. simpl in *. by subst.
  - set (f' := set_zone _ _ _). rewrite (IH (S i) f' (A ++ [padded 30 (text "<none>")]) (B ++ [padded 20 (text "qeynos")])).
    + by rewrite <- !app_assoc.
    + simpl. rewrite HA, next_slot_alter, snprintf_zeroed by (done || lia). done.
    + simpl. rewrite HB, next_slot_alter, snprintf_zeroed by (done || lia). done.
    + rewrite length_app. simpl. lia.
    + rewrite length_app. simpl. lia.
Qed.

(** The packet's bytes, field by field. *)
Definition characters_bytes (rows : list CharacterRow) : list Z :=
  let k := (10 - length rows)%nat in
  concat ((padded 30 ∘ r_name <$> rows) ++ replicate k (padded 30 (text "<none>"))) ++
  ((u8 ∘ r_level <$> rows) ++ replicate k 0) ++
  ((u8 ∘ r_class <$> rows) ++ replicate k 0) ++
  concat (le_bytes 2 <$> ((u16 ∘ r_race <$> rows) ++ replicate k 0)) ++
  concat (((λ r, padded 20 (text (zone_short_name_by_id (r_zone r)))) <$> rows) ++ replicate k (padded 20 (text "qeynos"))) ++
  ((u8 ∘ r_gender <$> rows) ++ replicate k 0) ++
  ((u8 ∘ r_face <$> rows) ++ replicate k 0) ++
  concat (((λ r, (u8 <$> take 7 (r_materials r)) ++ [0; 0]) <$> rows) ++ replicate k (replicate 9 0)) ++
  replicate 2 0 ++
  concat ((λ l, concat (le_bytes 4 <$> l)) <$> (((λ r, (u32 <$> r_tints r) ++ [0; 0]) <$> rows) ++ replicate k (replicate 9 0))) ++
  replicate 20 0 ++ concat ((λ i, replicate 4 (Z.of_nat i)) <$> seq 0 10) ++ concat ((λ i, replicate 4 (Z.of_nat i)) <$> seq 0 10) ++
  replicate 148 0.

Lemma characters_info rows : (length rows ≤ 10)%nat →
  info_bytes (empty_slots (10 - length rows) (length rows) (filled rows (10 - length rows))) = characters_bytes rows.
Proof.
  intros Hl. erewrite empty_slots_ok; [|reflexivity|reflexivity|by rewrite length_fmap|by rewrite length_fmap]. done.
Qed.

Lemma concat_length {A} (l : list (list A)) n : Forall (λ x, length x = n) l → length (concat l) = (length l * n)%nat.
Proof. induction 1 as [|x l Hx _ IH]; [done|]. simpl. rewrite length_app, Hx, IH. done. Qed.

Lemma padded_length n s : (0 < n)%nat → length (padded n s) = n.
Proof. intros Hn. unfold padded. rewrite length_app, length_replicate, length_take. lia. Qed.

Lemma column_length {A} (f : CharacterRow → list A) rows y n k : Forall (λ r, length (f r) = n) rows → length y = n →
  length (concat ((f <$> rows) ++ replicate k y)) = ((length rows + k) * n)%nat.
Proof.
  intros Hf Hy. rewrite (concat_length _ n).
  - by rewrite length_app, length_fmap, length_replicate.
  - apply Forall_app. split; [by apply Forall_fmap|by apply Forall_replicate].
Qed.

Lemma characters_bytes_length rows : Forall row_ok rows → (length rows ≤ 10)%nat → length (characters_bytes rows) = 1260%nat.
Proof.
  intros Hr Hl. unfold characters_bytes. cbv zeta. rewrite !length_app, !length_replicate, !length_fmap.
  rewrite (column_length _ _ _ 30) by (rewrite ?padded_length by lia; first [done|apply Forall_true; intros; by apply padded_length; lia]).
  rewrite (column_length (λ r, padded 20 _) _ _ 20) by (first [apply Forall_true; intros; apply padded_length; lia|apply padded_length; lia]).
  rewrite (column_length (λ r, (u8 <$> take 7 (r_materials r)) ++ [0; 0]) _ _ 9).
  2: { eapply Forall_impl; [exact Hr|]. intros r [Hm _]. rewrite length_app, length_fmap, length_take, Hm. done. }
  2: done.
  rewrite (concat_length (le_bytes 2 <$> _) 2) by (apply Forall_fmap, Forall_true; intros; apply le_bytes_length).
  rewrite (concat_length ((λ l, concat (le_bytes 4 <$> l)) <$> _) 36).
  2: { apply Forall_fmap, Forall_app. split.
       - apply Forall_fmap. eapply Forall_impl; [exact Hr|]. intros r [_ Ht]. simpl.
         rewrite (concat_length _ 4) by (apply Forall_fmap, Forall_true; done).
         rewrite length_fmap, length_app, length_fmap, Ht. done.
       - by apply Forall_replicate. }
  rewrite !length_fmap, !length_app, !length_fmap, !length_replicate. simpl. lia.
Qed.

(** The answer to the characters query becomes one packet of 1260 bytes
    that lists the account's characters, at most ten, column by column in the
    query's order, each name and zone cut to its field and terminated, with
    "<none>" in "qeynos" for the slots left over; the client remembers each
    character's two weapons, and the query's reference is given back. *)
Theorem character_info_shows_characters (id : nat) (rows : list CharacterRow) (s : CharSelect) (c : CharSelectClient)
    (Hc : csClients s !! id = Some c) (Hw : length (weaponMaterialsTrilogy c) = 10%nat)
    (Hr : Forall row_ok rows) (Hl : (length rows ≤ 10)%nat) :
  cs_client_trilogy_characters_callback id rows s =
    char_select_client_drop id (put_to s id (add_scheduled TrilogyOp_CharacterInfo (characters_bytes rows)
      (set_weapons (weapons_of rows (weaponMaterialsTrilogy c)) c))) ∧
  length (characters_bytes rows) = 1260%nat.
Proof.
  split; [|by apply characters_bytes_length]. unfold cs_client_trilogy_characters_callback.
  pose proof (read_rows_ok id rows [] s c Hr Hl Hw) as Hread. change (10 - length [])%nat with 10%nat in Hread. rewrite filled_nil in Hread.
  replace (put_to s id (set_weapons (weapons_of [] (weaponMaterialsTrilogy c)) c)) with s in Hread
    by (symmetry; unfold weapons_of; simpl; rewrite drop_0; by destruct c; apply put_cs_same).
  rewrite (bind_ok _ _ _ _ _ Hread). cbv beta iota. simpl length. rewrite Nat.add_0_l. cbn [app].
  erewrite bind_ok by (apply upd_cs_client_ok, put_cs_lookup). rewrite put_cs_twice. by rewrite characters_info.
Qed.

Definition sample_row : CharacterRow :=
  mkRow (text "Soandso") 50 1 2 9 0 3 [1; 1; 1; 1; 1; 1; 1; 10; 11] [255; 255; 255; 255; 255; 255; 255].
Definition one_character : CharSelect := set_csClients {[5%nat := mkCs 1 0 2 no_auth (replicate 10 [0; 0]) false []]} char_select_init.

Example character_info_shows_characters_witness :
  cs_client_trilogy_characters_callback 5 [sample_row] one_character =
    char_select_client_drop 5 (put_to one_character 5 (add_scheduled TrilogyOp_CharacterInfo (characters_bytes [sample_row])
      (set_weapons ([10; 11] :: replicate 9 [0; 0]) (mkCs 1 0 2 no_auth (replicate 10 [0; 0]) false [])))) ∧
  length (characters_bytes [sample_row]) = 1260%nat.
Proof.
  apply (character_info_shows_characters 5 [sample_row] one_character (mkCs 1 0 2 no_auth (replicate 10 [0; 0]) false []));
    [reflexivity|reflexivity|by apply Forall_singleton|simpl; lia].
Defined.

(** ** The address of a zone *)
Lemma number_at_range n offset data : Forall is_byte data → 0 ≤ number_at n offset data < 256 ^ Z.of_nat n.
Proof.
  intros Hd. unfold number_at. set (l := take n (drop offset data)).
  assert (Hl : Forall is_byte l) by (by apply Forall_take, Forall_drop). assert (Hn : (length l ≤ n)%nat) by (unfold l; rewrite length_take; lia).
  assert (H : 0 ≤ foldr (λ b v, b + 256 * v) 0 l < 256 ^ Z.of_nat (length l)).
  { clear Hn. induction Hl as [|b l Hb _ IH]; simpl foldr; [done|]. cbn [length]. rewrite Nat2Z.inj_succ, Z.pow_succ_r by lia.
    unfold is_word in Hb. lia. }
  split; [lia|]. eapply Z.lt_le_trans; [apply H|]. apply Z.pow_le_mono_r; lia.
Qed.

Definition time_bytes (t : EQ_Time) : list Z := [u8 (hour t); u8 (minute t); u8 (day t); u8 (month t)] ++ le_bytes 2 (year t).

(** What a client is told of an address. *)
Definition told_address (junk : Z → list Z) (t : EQ_Time) (motd ip shortName : list Z) (port : Z) (c : CharSelectClient) : CharSelectClient :=
  add_scheduled TrilogyOp_ZoneAddress (overlay 0 (field_pattern 75 ip ++ field_pattern 53 shortName ++ (Some <$> le_bytes 2 (swap16 port))) (junk 130))
    (add_scheduled TrilogyOp_TimeOfDay (time_bytes t)
      (add_scheduled TrilogyOp_MessageOfTheDay ((u8 <$> motd) ++ [0]) c)).

Lemma emits_byte v w pat : emits w (Some <$> pat) → emits (aligned_write_uint8 v ;; w) (Some <$> u8 v :: pat).
Proof. intros Hw. change (Some <$> u8 v :: pat) with ([Some (u8 v)] ++ (Some <$> pat)). apply emits_seq; [apply emits_uint8|done]. Qed.

Lemma zone_in_success_ok junk (Hjunk : ∀ n, length (junk n) = Z.to_nat n) seconds id c data ip shortName t s : csClients s !! id = Some c →
  Forall is_byte data → Z.of_nat OFFSETOF_motd + number_at 4 OFFSETOF_motdLength data ≤ Z.of_nat (length data) →
  Z.of_nat (length data) < 2 ^ 31 → eq_time_calc seconds (number_at 8 OFFSETOF_eqTimeBase data) = Ok t →
  field_string (drop OFFSETOF_ipAddress data) = Ok ip → field_string (drop OFFSETOF_shortName data) = Ok shortName →
  cs_client_trilogy_on_zone_in_success junk seconds id data s =
    (Ok tt, put_to s id (told_address junk t (take (Z.to_nat (number_at 4 OFFSETOF_motdLength data)) (drop OFFSETOF_motd data)) ip shortName
       (number_at 2 OFFSETOF_port data) c)).
Proof.
  intros Hc Hb Hm Hl Ht Hip Hsn. pose proof (number_at_range 4 OFFSETOF_motdLength data Hb) as Hr.
  unfold cs_client_trilogy_on_zone_in_success. cbv zeta. set (m := number_at 4 OFFSETOF_motdLength data) in *. unfold OFFSETOF_motd in *.
  rewrite (wrap_small 32 (m + 1)) by (unfold is_word; lia). set (motd := take (Z.to_nat m) (drop 180 data)).
  assert (Hmotd : Z.of_nat (length motd) = m) by (unfold motd; rewrite length_take, length_drop; lia).
  erewrite bind_ok; cycle 1.
  { apply (schedule_full junk Hjunk id c _ _ _ ((u8 <$> motd) ++ [0])); [done| |rewrite length_app, length_fmap; simpl; lia|lia].
    rewrite fmap_app, <- list_fmap_compose. apply emits_seq; [|apply (emits_uint8 0)]. apply emits_buffer. rewrite length_drop. lia. }
  rewrite (bind_ok (lift _) _ _ t _) by (unfold lift; by rewrite Ht).
  erewrite bind_ok; cycle 1.
  { eapply (schedule_full junk Hjunk id _ _ _ _ (time_bytes t)); [apply put_cs_lookup| |done|done].
    unfold time_bytes. cbn [app]. do 4 apply emits_byte. apply emits_uint16. }
  rewrite put_cs_twice.
  rewrite (bind_ok (lift _) _ _ ip _) by (unfold lift; by rewrite Hip). rewrite (bind_ok (lift _) _ _ shortName _) by (unfold lift; by rewrite Hsn).
  set (pat := field_pattern 75 ip ++ field_pattern 53 shortName ++ (Some <$> le_bytes 2 (swap16 (number_at 2 OFFSETOF_port data)))).
  assert (Hpat : Z.of_nat (length pat) = 130).
  { unfold pat. rewrite !length_app, length_fmap, le_bytes_length. pose proof (field_pattern_length 75 ip). pose proof (field_pattern_length 53 shortName). lia. }
  erewrite (packet_schedule_ok junk Hjunk id _ _ _ _ pat); [|apply put_cs_lookup| |rewrite Hpat; done|done].
  - by rewrite put_cs_twice.
  - apply emits_seq; [by apply emits_text_field|]. apply emits_seq; [by apply emits_text_field|apply emits_uint16].
Qed.

Lemma swap16_network port : 0 ≤ port < 2 ^ 16 → le_bytes 2 (swap16 port) = [port / 256; port mod 256].
Proof.
  intros Hp. unfold swap16, wrap at 1. rewrite Z.shiftr_div_pow2, Z.shiftl_mul_pow2 by lia. change (2 ^ 8) with 256.
  assert (Hq : 0 ≤ port / 256 < 256) by (split; [apply Z.div_pos; lia|apply Z.div_lt_upper_bound; lia]).
  assert (He : port * 256 mod 2 ^ 16 = port mod 256 * 256).
  { rewrite (Z.div_mod port 256) at 1 by lia. replace ((256 * (port / 256) + port mod 256) * 256) with (port mod 256 * 256 + port / 256 * 2 ^ 16) by lia.
    pose proof (Z.mod_pos_bound port 256). rewrite Z.mod_add by lia. apply Z.mod_small. lia. }
  rewrite He. pose proof (Z.mod_pos_bound port 256 ltac:(lia)) as Hm.
  assert (Hlor : Z.lor (port / 256) (port mod 256 * 256) = port / 256 + port mod 256 * 256).
  { replace (port mod 256 * 256) with (Z.shiftl (port mod 256) 8) at 1 by (by rewrite Z.shiftl_mul_pow2). by apply lor_shift. }
  rewrite Hlor. cbn [le_bytes]. unfold wrap. change (2 ^ 8) with 256. rewrite Z.shiftr_div_pow2 by lia. change (2 ^ 8) with 256.
  rewrite Z.mod_add, Z.div_add, (Z.mod_small (port / 256)), (Z.div_small (port / 256)), Z.add_0_l, (Z.mod_small (port mod 256)) by lia. done.
Qed.

(** When the master process answers with a zone's address, the first client
    that waits with this account id is taken from the list and told: the
    message of the day, the time of the game's calendar, and the address, the
    zone and the port in network order; every string is cut to its field and
    terminated, and no write runs out of its packet. *)
Theorem zone_answer_reaches_client (junk : Z → list Z) (Hjunk : ∀ n, length (junk n) = Z.to_nat n) (seconds : Z) (i id : nat)
    (c : CharSelectClient) (data ip shortName : list Z) (s : CharSelect)
    (Hfirst : attempt_of (number_at 4 0 data) s = Some (i, id)) (Hc : csClients s !! id = Some c) (Hb : Forall is_byte data)
    (Hsize : SIZEOF_Server_ZoneAddress ≤ Z.of_nat (length data) < 2 ^ 31)
    (Hm : Z.of_nat OFFSETOF_motd + number_at 4 OFFSETOF_motdLength data ≤ Z.of_nat (length data))
    (Hip : field_string (drop OFFSETOF_ipAddress data) = Ok ip)
    (Hsn : field_string (drop OFFSETOF_shortName data) = Ok shortName) :
  let port := number_at 2 OFFSETOF_port data in
  let motd := take (Z.to_nat (number_at 4 OFFSETOF_motdLength data)) (drop OFFSETOF_motd data) in
  ∃ t, eq_time_calc seconds (number_at 8 OFFSETOF_eqTimeBase data) = Ok t ∧
    char_select_handle_op_client_zoning junk seconds data s =
      (Ok tt, set_zoning (swap_out i (clientsAttemptingToZoneIn s)) (put_to s id (told_address junk t motd ip shortName port c))) ∧
    le_bytes 2 (swap16 port) = [port / 256; port mod 256].
Proof.
  cbv zeta. destruct (eq_time_total seconds (number_at 8 OFFSETOF_eqTimeBase data)) as [t Ht]. exists t. split; [done|].
  split; [|apply swap16_network, (number_at_range 2); done].
  unfold char_select_handle_op_client_zoning. cbv zeta. rewrite !(proj2 (Z.ltb_ge _ _)) by lia.
  rewrite (bind_ok (gets _) _ s (Some (i, id)) s) by (unfold gets; by rewrite Hfirst).
  erewrite bind_ok by (eapply (zone_in_success_ok junk Hjunk seconds id c data ip shortName t); done || lia). done.
Qed.

(** An address without a message. *)
Definition sample_address : list Z :=
  le_bytes 4 7 ++ text "10.0.0.1" ++ replicate 120 0 ++ le_bytes 2 7000 ++ text "qeynos" ++ replicate 26 0 ++ [0; 0] ++
  le_bytes 8 0 ++ le_bytes 4 0 ++ replicate 4 0.
Definition one_attempt : CharSelect := set_zoning [(7, 5%nat)] one_character.

Example zone_answer_reaches_client_witness :
  ∃ t, eq_time_calc 1000 0 = Ok t ∧
    char_select_handle_op_client_zoning (λ n, replicate (Z.to_nat n) 0) 1000 sample_address one_attempt =
      (Ok tt, set_zoning [] (put_to one_attempt 5 (told_address (λ n, replicate (Z.to_nat n) 0) t [] (text "10.0.0.1") (text "qeynos") 7000
         (mkCs 1 0 2 no_auth (replicate 10 [0; 0]) false [])))) ∧
    le_bytes 2 (swap16 7000) = [27; 88].
Proof.
  apply (zone_answer_reaches_client (λ n, replicate (Z.to_nat n) 0) (λ n, length_replicate _ _) 1000 0 5
    (mkCs 1 0 2 no_auth (replicate 10 [0; 0]) false []) sample_address (text "10.0.0.1") (text "qeynos") one_attempt);
    try (vm_compute; reflexivity).
  - apply (bool_decide_eq_true_1 _). vm_compute; reflexivity.
  - split; vm_compute; [discriminate|reflexivity].
  - vm_compute. discriminate.
Defined.

(** * The session id, from one server to the other *)

Lemma login_claim_ok account key rest : Forall (λ b, b ≠ 0) account → Forall (λ b, b ≠ 0) key → (3 ≤ length account)%nat →
  Z.of_nat (length account) + Z.of_nat (length key) < 2 ^ 31 →
  login_claim (login_packet account key rest) = Some (u32 (strtol (drop 3 account)), take 31 key).
Proof.
  intros Ha Hk Hl Hb. unfold login_claim. rewrite login_packet_read by done.
  change (drop (Z.to_nat (cursor (login_packet account key rest))) (buffer (login_packet account key rest)))
    with (account ++ 0 :: key ++ 0 :: rest). rewrite strlen_ok by done.
  assert (Hkey : string_at (with_cursor (login_packet account key rest) (Z.of_nat (length account) + 1)) = Ok key).
  { unfold string_at. cbn [cursor buffer with_cursor login_packet].
    replace (Z.to_nat (Z.of_nat (length account) + 1)) with (length account + 1)%nat by lia. rewrite drop_app_add. simpl drop.
    rewrite !drop_0, strlen_ok by done. run. by rewrite Nat2Z.id, take_app_length. }
  rewrite Hkey. rewrite drop_app_le by lia.
  replace (Z.to_nat (Z.of_nat (length account)) - 3)%nat with (length (drop 3 account)) by (rewrite length_drop; lia).
  by rewrite take_app_length.
Qed.

Lemma value_bound ds : Forall (λ d, 48 ≤ d ≤ 57) ds → value ds < 10 ^ Z.of_nat (length ds).
Proof.
  induction ds as [|d ds IH] using rev_ind; [done|]. intros [Hd Hl]%Forall_app. rewrite Forall_singleton in Hl.
  unfold value in *. rewrite fold_left_app. cbn [fold_left]. rewrite length_app. cbn [length].
  replace (Z.of_nat (length ds + 1)) with (Z.succ (Z.of_nat (length ds))) by lia. rewrite Z.pow_succ_r by lia. specialize (IH Hd). cbv beta in *. lia.
Qed.

(** What is left of an account id of more than six digits. *)
Definition first_six (n : Z) : Z := value (take 6 (decimal n)).

Lemma strtol_first_six n : 0 < n < 2 ^ 32 → strtol (take 6 (decimal n)) = first_six n ∧ 0 ≤ first_six n < 10 ^ 6.
Proof.
  intros Hn. destruct (decimal_ok n) as [Hv Hd]; [lia|]. assert (Hd6 : Forall (λ d, 48 ≤ d ≤ 57) (take 6 (decimal n))) by (by apply Forall_take).
  assert (Hb : first_six n < 10 ^ 6).
  { pose proof (value_bound _ Hd6) as Hb. unfold first_six. rewrite length_take in Hb. eapply Z.lt_le_trans; [exact Hb|].
    apply Z.pow_le_mono_r; lia. }
  pose proof (value_nonneg _ Hd6). split; [|done]. rewrite <- (app_nil_r (take 6 _)). apply strtol_digits; [done| |unfold first_six in Hb; lia|done].
  destruct (decimal n) as [|d ds]; [|done]. unfold value in Hv. simpl in Hv. lia.
Qed.

Lemma first_six_small n : 0 < n < 10 ^ 6 → first_six n = n.
Proof.
  intros Hn. unfold first_six. destruct (decimal_ok n) as [Hv _]; [lia|].
  rewrite take_ge; [done|]. apply (decimal_length n 5); lia.
Qed.

(** Bytes written from the start. *)
Lemma overlay_prefix bs pat buf : (length bs + length pat ≤ length buf)%nat → ∃ tail, overlay 0 ((Some <$> bs) ++ pat) buf = bs ++ tail.
Proof.
  intros Hl. rewrite <- overlay_app by (rewrite ?length_fmap; lia). rewrite overlay_bytes by lia. unfold overlay at 1.
  rewrite length_fmap, Z.add_0_l, Nat2Z.id, take_app_length. by eexists.
Qed.

Lemma bytes_id bs : Forall is_byte bs → u8 <$> bs = bs.
Proof. induction 1 as [|b bs Hb _ IH]; [done|]. rewrite fmap_cons, IH. f_equal. by apply wrap_small. Qed.

(** The login server tells an accepted client its session id, and character
    select reads the account id from the session id the client presents. For
    account ids below one million it reads the id that was written. The field
    holds "LS#" and six digits, so of a longer id only the first six digits
    arrive, and the client waits for the auth of another account. *)
Theorem session_id_roundtrip (junk : Z → list Z) (Hjunk : ∀ n, length (junk n) = Z.to_nat n) (s : Login) (id : nat) (c : LoginClient)
    (n : Z) (key rest : list Z) (Hc : loginClients s !! id = Some c) (Hn : 0 < n < 2 ^ 32)
    (Hk : Forall (λ b, b ≠ 0) key) (Hkl : Z.of_nat (length key) < 2 ^ 30) :
  ∃ s' c' payload account,
    login_client_trilogy_handle_credentials_result junk id n s = (Ok tt, s') ∧
    loginClients s' !! id = Some c' ∧ lc_scheduled c' = lc_scheduled c ++ [(TrilogyOp_Session, payload)] ∧
    field_string payload = Ok account ∧
    login_claim (login_packet account key rest) = Some (first_six n, take 31 key) ∧
    (n < 1000000 → first_six n = n) ∧ (1000000 ≤ n → first_six n ≠ n).
Proof.
  destruct (strtol_first_six n Hn) as [Hs Hb]. set (account := take 9 (text "LS#" ++ decimal n)).
  assert (Hno : Forall (λ b, b ≠ 0) (text "LS#" ++ decimal n)) by (apply account_no_nul; lia).
  assert (Hd3 : drop 3 account = take 6 (decimal n)) by done.
  assert (Hlen : (3 ≤ length account ≤ 9)%nat).
  { unfold account. rewrite length_take. pose proof (account_length n). lia. }
  assert (Hdigits : Forall is_byte account).
  { apply Forall_take, Forall_app. split; [by repeat constructor|]. destruct (decimal_ok n) as [_ Hd]; [lia|].
    eapply Forall_impl; [exact Hd|]. intros d. unfold is_word. lia. }
  eexists. eexists. eexists. exists account. split; [apply (credentials_result_ok junk Hjunk id c n s Hc)|].
  rewrite (proj2 (Z.eqb_neq n 0)) by lia. split; [apply lookup_insert_eq|]. split; [reflexivity|]. split; [|split; [|split]].
  - assert (Hov : ∃ tail, overlay 0 (session_pattern n) (junk SIZEOF_Session) = account ++ 0 :: tail).
    { unfold session_pattern. fold account. destruct (overlay_prefix (c_string account) (replicate (9 - length account) None ++
        (Some <$> c_string (text "unused")) ++ (Some <$> le_bytes 4 4)) (junk SIZEOF_Session)) as [tail ->].
      - pose proof (session_pattern_length n) as Hl. unfold session_pattern in Hl. fold account in Hl. rewrite length_app, length_fmap in Hl.
        rewrite Hl, Hjunk. done.
      - exists tail. unfold c_string. rewrite bytes_id by done. by rewrite <- app_assoc. }
    destruct Hov as [tail ->]. unfold field_string. rewrite strlen_ok by (by apply Forall_take). run. by rewrite Nat2Z.id, take_app_length.
  - rewrite login_claim_ok by (done || lia || by apply Forall_take). rewrite Hd3, Hs. by rewrite wrap_small by (unfold is_word; lia).
  - intros. apply first_six_small. lia.
  - intros. lia.
Qed.

(** An account of the login server, and one that is too long. *)
Definition accepted_login : Login := set_loginClients {[7%nat := LoginPackets.sample_client]} sample_login.

Example session_id_roundtrip_witness : ∃ s' c' payload account,
  login_client_trilogy_handle_credentials_result no_junk 7 1234567 accepted_login = (Ok tt, s') ∧
  loginClients s' !! 7%nat = Some c' ∧ lc_scheduled c' = [] ++ [(TrilogyOp_Session, payload)] ∧
  field_string payload = Ok account ∧
  login_claim (login_packet account sample_key []) = Some (first_six 1234567, take 31 sample_key) ∧
  (1234567 < 1000000 → first_six 1234567 = 1234567) ∧ (1000000 ≤ 1234567 → first_six 1234567 ≠ 1234567).
Proof.
  apply (session_id_roundtrip no_junk (λ n, length_replicate _ _) accepted_login 7 LoginPackets.sample_client 1234567 sample_key []);
    [reflexivity|lia|by repeat constructor|vm_compute; reflexivity].
Defined.
