(* ===== verification/IpcBuffer.v ===== *)
(** Inter-process packet buffers: common/sync/ipc_buffer.c and
    non_master/ipc_set.c, one operation at a time.

    The blocks are a ring: block [i] names its successor in [nextIndex].
    Writers reserve a block by moving [writeEnd], readers by moving [readEnd];
    [writeStart] and [readStart] follow once blocks are completely written or
    read. Here every operation runs without interruption; IpcSteps.v has the
    same code as atomic steps of interleaved processes. The clock is the list
    of its readings. *)

From S2P Require Import Prelude Aligned.

Definition PACKET_MAX_SIZE : Z := 4096.
Definition BUFFER_SIZE : Z := 2 * 1024 * 1024.
Definition NUM_PACKETS : nat := Z.to_nat (BUFFER_SIZE / PACKET_MAX_SIZE).

Definition ServerOp_Shutdown : Z := 1.
Definition ServerOp_KeepAlive : Z := 2.
Definition ServerOp_LogOpen : Z := 3.
Definition ServerOp_LogClose : Z := 4.

Record IpcPacket := mkIpcPacket {
  p_opcode : Z;
  p_sourceId : Z;
  p_length : Z;
  p_data : option (list Z);
}.

Record IpcBlock := mkBlock {
  nextIndex : nat;
  hasBeenRead : Z;
  hasBeenWritten : Z;
  b_opcode : Z;
  b_sourceId : Z;
  b_length : Z;
  b_data : list Z;   (* PACKET_MAX_SIZE bytes *)
}.

Record IpcBuffer := mkIpc {
  blocks : list IpcBlock;
  readStart : nat;
  readEnd : nat;
  writeStart : nat;
  writeEnd : nat;
  semaphore : Z;
}.

Definition set_blocks (b : IpcBuffer) (l : list IpcBlock) : IpcBuffer :=
  mkIpc l (readStart b) (readEnd b) (writeStart b) (writeEnd b) (semaphore b).
Definition set_readStart (i : nat) (b : IpcBuffer) : IpcBuffer :=
  mkIpc (blocks b) i (readEnd b) (writeStart b) (writeEnd b) (semaphore b).
Definition set_readEnd (i : nat) (b : IpcBuffer) : IpcBuffer :=
  mkIpc (blocks b) (readStart b) i (writeStart b) (writeEnd b) (semaphore b).
Definition set_writeStart (i : nat) (b : IpcBuffer) : IpcBuffer :=
  mkIpc (blocks b) (readStart b) (readEnd b) i (writeEnd b) (semaphore b).
Definition set_writeEnd (i : nat) (b : IpcBuffer) : IpcBuffer :=
  mkIpc (blocks b) (readStart b) (readEnd b) (writeStart b) i (semaphore b).
Definition set_semaphore (n : Z) (b : IpcBuffer) : IpcBuffer :=
  mkIpc (blocks b) (readStart b) (readEnd b) (writeStart b) (writeEnd b) n.

Definition set_read_flag (v : Z) (b : IpcBlock) : IpcBlock :=
  mkBlock (nextIndex b) v (hasBeenWritten b) (b_opcode b) (b_sourceId b) (b_length b) (b_data b).
Definition set_written_flag (v : Z) (b : IpcBlock) : IpcBlock :=
  mkBlock (nextIndex b) (hasBeenRead b) v (b_opcode b) (b_sourceId b) (b_length b) (b_data b).

(** The buffer in fresh memory, whose data bytes are [memory i] in block [i]. *)
Definition ipc_buffer_init (memory : nat → list Z) : IpcBuffer :=
  mkIpc ((λ i, mkBlock (if (i =? NUM_PACKETS - 1)%nat then 0 else i + 1) 0 0 0 0 0 (memory i)) <$> seq 0 NUM_PACKETS)
    0 0 0 0 0.

Definition block_at (i : nat) : code IpcBuffer IpcBlock := λ b, (deref (blocks b !! i), b).
Definition upd_block (i : nat) (f : IpcBlock → IpcBlock) : code IpcBuffer unit :=
  block ← block_at i; modify (λ b, set_blocks b (<[i := f block]> (blocks b))).

(** Writing the fields of a block: at most PACKET_MAX_SIZE bytes of [data],
    and none when it is NULL, which leaves what the block held. *)
Definition fill_block (opcode sourceId length_ : Z) (data : option (list Z)) (b : IpcBlock) : IpcBlock :=
  let n := if PACKET_MAX_SIZE <? length_ then PACKET_MAX_SIZE else length_ in
  mkBlock (nextIndex b) (hasBeenRead b) (hasBeenWritten b) opcode sourceId n
    (match data with
     | Some bytes => if n =? 0 then b_data b else take (Z.to_nat n) bytes ++ drop (Z.to_nat n) (b_data b)
     | None => b_data b
     end).

(** [for (;;)] over completely written blocks; every round clears a flag. *)
Fixpoint advance_written (fuel : nat) : code IpcBuffer unit :=
  match fuel with
  | O => fault
  | S fuel =>
      index ← gets writeStart;
      block ← block_at index;
      if hasBeenWritten block =? 1 then
        upd_block index (set_written_flag 0) ;;
        ws ← gets writeStart;
        (if (ws =? index)%nat then modify (set_writeStart (nextIndex block)) else mret tt) ;;
        advance_written fuel
      else mret tt
  end.

(** Whether the bytes at [data] reach as far as they are copied. *)
Definition data_reaches (length_ : Z) (data : option (list Z)) : bool :=
  match data with Some bytes => Z.min length_ PACKET_MAX_SIZE <=? Z.of_nat (length bytes) | None => true end.

Definition ipc_buffer_do_write (index : nat) (opcode sourceId length_ : Z) (data : option (list Z))
    : code IpcBuffer unit :=
  (if data_reaches length_ data then mret tt else fault) ;;
  upd_block index (fill_block opcode sourceId length_ data) ;;
  upd_block index (set_written_flag 1) ;;
  advance_written (S NUM_PACKETS) ;;
  modify (λ b, set_semaphore (semaphore b + 1) b).

(** Waiting for a reader while the ring is full, at most ten milliseconds. *)
Fixpoint write_loop (clock : list Z) (timestamp opcode sourceId length_ : Z) (data : option (list Z))
    : code IpcBuffer bool :=
  index ← gets writeEnd;
  block ← block_at index;
  rs ← gets readStart;
  if (nextIndex block =? rs)%nat then
    match clock with
    | [] => fault
    | now :: clock =>
        if 10 <=? u64 (now - timestamp) then mret false
        else write_loop clock timestamp opcode sourceId length_ data
    end
  else
    modify (set_writeEnd (nextIndex block)) ;;
    ipc_buffer_do_write index opcode sourceId length_ data ;;
    mret true.

Definition ipc_buffer_write (timestamp : Z) (clock : list Z) (opcode sourceId length_ : Z) (data : option (list Z))
    : code IpcBuffer bool :=
  write_loop clock timestamp opcode sourceId length_ data.

(** The packet's copy of [length_] bytes at [vdata]. *)
Definition ipc_packet_init (opcode sourceId length_ : Z) (vdata : option (list Z)) : outcome IpcPacket :=
  match vdata with
  | Some bytes =>
      if length_ =? 0 then Ok (mkIpcPacket opcode sourceId length_ None)
      else if Z.of_nat (length bytes) <? length_ then Fault
      else Ok (mkIpcPacket opcode sourceId length_ (Some (take (Z.to_nat length_) bytes)))
  | None => Ok (mkIpcPacket opcode sourceId length_ None)
  end.

Fixpoint advance_read (fuel : nat) : code IpcBuffer unit :=
  match fuel with
  | O => fault
  | S fuel =>
      index ← gets readStart;
      block ← block_at index;
      if hasBeenRead block =? 1 then
        upd_block index (set_read_flag 0) ;;
        rs ← gets readStart;
        (if (rs =? index)%nat then modify (set_readStart (nextIndex block)) else mret tt) ;;
        advance_read fuel
      else mret tt
  end.

Definition ipc_buffer_do_read (index : nat) : code IpcBuffer IpcPacket :=
  block ← block_at index;
  packet ← lift (ipc_packet_init (b_opcode block) (b_sourceId block) (b_length block) (Some (b_data block)));
  upd_block index (set_read_flag 1) ;;
  advance_read (S NUM_PACKETS) ;;
  mret packet.

Definition ipc_buffer_read : code IpcBuffer (option IpcPacket) :=
  index ← gets readEnd;
  block ← block_at index;
  ws ← gets writeStart;
  if (index =? ws)%nat then mret None
  else
    modify (set_readEnd (nextIndex block)) ;;
    packet ← ipc_buffer_do_read index;
    mret (Some packet).

Definition ipc_buffer_try : code IpcBuffer bool := λ b,
  if 0 <? semaphore b then (Ok true, set_semaphore (semaphore b - 1) b) else (Ok false, b).

(** ** One process's buffers *)

(** The packets handed to [ipc_set_handle_packet], and whether a shutdown was
    among those read; [fuel] bounds the number of packets in the ring. *)
Fixpoint receive_loop (fuel : nat) : code IpcBuffer (list IpcPacket * bool) :=
  match fuel with
  | O => fault
  | S fuel =>
      packet ← ipc_buffer_read;
      match packet with
      | None => mret ([], false)
      | Some packet =>
          if p_opcode packet =? ServerOp_Shutdown then mret ([], true)
          else
            '(packets, shutdown) ← receive_loop fuel;
            mret (packet :: packets, shutdown)
      end
  end.

Definition ipc_set_receive : code IpcBuffer (list IpcPacket * bool) :=
  ready ← ipc_buffer_try;
  if (ready : bool) then receive_loop (S NUM_PACKETS) else mret ([], false).

Record IpcSet := mkIpcSet {
  ipcMaster : IpcBuffer;
  logWriter : IpcBuffer;
  keepAliveTimestamp : Z;
}.

Definition KEEP_ALIVE_DELAY_MILLISECONDS : Z := 5000.

Definition on_master {A} (f : code IpcBuffer A) : code IpcSet A := λ s,
  let '(r, b) := f (ipcMaster s) in (r, mkIpcSet b (logWriter s) (keepAliveTimestamp s)).
Definition on_log {A} (f : code IpcBuffer A) : code IpcSet A := λ s,
  let '(r, b) := f (logWriter s) in (r, mkIpcSet (ipcMaster s) b (keepAliveTimestamp s)).

Definition ipc_set_send (timestamp : Z) (clock : list Z) (opcode sourceId length_ : Z) (data : option (list Z))
    : code IpcSet bool :=
  on_master (ipc_buffer_write timestamp clock opcode sourceId length_ data).

Definition ipc_set_keep_alive (curTime timestamp : Z) (clock : list Z) (sourceId : Z) : code IpcSet unit :=
  s ← get;
  if KEEP_ALIVE_DELAY_MILLISECONDS <=? u64 (curTime - keepAliveTimestamp s) then
    _ ← ipc_set_send timestamp clock ServerOp_KeepAlive sourceId 0 None;
    modify (λ s, mkIpcSet (ipcMaster s) (logWriter s) curTime)
  else mret tt.

Definition ipc_set_log_file_control (timestamp : Z) (clock : list Z) (sourceId : Z) (open : bool) : code IpcSet unit :=
  _ ← on_log (ipc_buffer_write timestamp clock (if open then ServerOp_LogOpen else ServerOp_LogClose) sourceId 0 None);
  mret tt.
