(* ===== verification/IpcBufferSpec.v ===== *)
(** A packet buffer used by one operation at a time is a queue of at most
    511 packets, each cut to 4096 bytes. *)

From S2P Require Import Prelude Aligned IpcBuffer.

Abbreviation N := NUM_PACKETS.

Lemma num_packets : (N = 512)%nat.
Proof. reflexivity. Qed.

(** ** Positions in the ring *)
Definition nxt (i : nat) : nat := if (i =? N - 1)%nat then 0 else (i + 1)%nat.
Definition pos (r k : nat) : nat := if (r + k <? N)%nat then (r + k)%nat else (r + k - N)%nat.
Definition between (r w : nat) : nat := if (r <=? w)%nat then (w - r)%nat else (w + N - r)%nat.

#[global] Opaque NUM_PACKETS.

Ltac ring_lia :=
  pose proof num_packets; unfold nxt, pos, between in *;
  repeat match goal with
  | |- context [(?a =? ?b)%nat] => destruct (Nat.eqb_spec a b)
  | |- context [(?a <? ?b)%nat] => destruct (Nat.ltb_spec a b)
  | |- context [(?a <=? ?b)%nat] => destruct (Nat.leb_spec a b)
  | H : context [(?a =? ?b)%nat] |- _ => destruct (Nat.eqb_spec a b)
  | H : context [(?a <? ?b)%nat] |- _ => destruct (Nat.ltb_spec a b)
  | H : context [(?a <=? ?b)%nat] |- _ => destruct (Nat.leb_spec a b)
  end; lia.

Lemma nxt_lt i : (i < N)%nat → (nxt i < N)%nat.
Proof. ring_lia. Qed.
Lemma pos_lt r k : (r < N)%nat → (k < N)%nat → (pos r k < N)%nat.
Proof. ring_lia. Qed.
Lemma between_lt r w : (r < N)%nat → (w < N)%nat → (between r w < N)%nat.
Proof. ring_lia. Qed.
Lemma pos_0 r : (r < N)%nat → pos r 0 = r.
Proof. ring_lia. Qed.
Lemma pos_between r w : (r < N)%nat → (w < N)%nat → pos r (between r w) = w.
Proof. ring_lia. Qed.
Lemma pos_nxt r k : (r < N)%nat → (S k < N)%nat → pos (nxt r) k = pos r (S k).
Proof. ring_lia. Qed.
Lemma pos_inj r j k : (r < N)%nat → (j < N)%nat → (k < N)%nat → pos r j = pos r k → j = k.
Proof. ring_lia. Qed.
Lemma between_nxt r w : (r < N)%nat → (w < N)%nat → nxt w ≠ r → between r (nxt w) = S (between r w).
Proof. ring_lia. Qed.
Lemma between_full r w : (r < N)%nat → (w < N)%nat → nxt w = r ↔ between r w = (N - 1)%nat.
Proof. ring_lia. Qed.
Lemma between_read r w : (r < N)%nat → (w < N)%nat → r ≠ w → between r w = S (between (nxt r) w).
Proof. ring_lia. Qed.
Lemma between_0 r w : (r < N)%nat → (w < N)%nat → between r w = 0%nat ↔ r = w.
Proof. ring_lia. Qed.
Lemma nxt_ne i : (i < N)%nat → nxt i ≠ i.
Proof. ring_lia. Qed.

(** ** Buffers no operation is running on *)
Definition block_ok (i : nat) (b : IpcBlock) : Prop :=
  nextIndex b = nxt i ∧ hasBeenRead b = 0 ∧ hasBeenWritten b = 0 ∧
  0 ≤ b_length b ≤ PACKET_MAX_SIZE ∧ Z.of_nat (length (b_data b)) = PACKET_MAX_SIZE.

Record idle (b : IpcBuffer) : Prop := {
  i_size : length (blocks b) = N;
  i_block i block : blocks b !! i = Some block → block_ok i block;
  i_read : readStart b = readEnd b ∧ (readEnd b < N)%nat;
  i_write : writeStart b = writeEnd b ∧ (writeEnd b < N)%nat;
}.

Definition packet_of (b : IpcBlock) : IpcPacket :=
  mkIpcPacket (b_opcode b) (b_sourceId b) (b_length b)
    (if b_length b =? 0 then None else Some (take (Z.to_nat (b_length b)) (b_data b))).

Definition packet_at (b : IpcBuffer) (i : nat) : IpcPacket :=
  match blocks b !! i with Some block => packet_of block | None => mkIpcPacket 0 0 0 None end.

(** The packets waiting to be read, oldest first. *)
Definition contents (b : IpcBuffer) : list IpcPacket :=
  (λ k, packet_at b (pos (readEnd b) k)) <$> seq 0 (between (readEnd b) (writeEnd b)).

(** What arrives of a packet. *)
Definition received (opcode sourceId length_ : Z) (data : option (list Z)) : IpcPacket :=
  let n := Z.min length_ PACKET_MAX_SIZE in
  mkIpcPacket opcode sourceId n (if n =? 0 then None else take (Z.to_nat n) <$> data).

Definition sendable (length_ : Z) (data : option (list Z)) : Prop :=
  0 ≤ length_ ∧ data_reaches length_ data = true ∧ (data = None → length_ = 0).

Lemma idle_block b i : idle b → (i < N)%nat → ∃ block, blocks b !! i = Some block ∧ block_ok i block.
Proof.
  intros Hb Hi. destruct (lookup_lt_is_Some_2 (blocks b) i) as [block Hbl]; [by rewrite (i_size b Hb)|].
  exists block. split; [done|]. by apply (i_block b Hb).
Qed.

(** Running one access to a block. *)
Lemma block_at_ok i b block : blocks b !! i = Some block → block_at i b = (Ok block, b).
Proof. intros H. unfold block_at. by rewrite H. Qed.

Lemma upd_block_ok i f b block : blocks b !! i = Some block →
  upd_block i f b = (Ok tt, set_blocks b (<[i := f block]> (blocks b))).
Proof. intros H. unfold upd_block. run. by rewrite (block_at_ok i b block H). Qed.

(** The last step of a write: the flag of block [w] is set. *)
Lemma advance_written_ok l r re w we sem block : (w < length l)%nat → nextIndex block = nxt w → nxt w ≠ w →
  hasBeenWritten block = 1 →
  (∃ block', l !! nxt w = Some block' ∧ hasBeenWritten block' = 0) →
  advance_written (S N) (mkIpc (<[w := block]> l) r re w we sem) =
    (Ok tt, mkIpc (<[w := set_written_flag 0 block]> l) r re (nxt w) we sem).
Proof.
  intros Hw Hn Hne Hf (block' & Hb' & Hf'). pose proof num_packets. destruct N as [|n]; [lia|].
  cbn [advance_written]. run. cbn [writeStart].
  rewrite (block_at_ok w _ block) by (cbn; by rewrite list_lookup_insert_eq). rewrite Hf. cbn [Z.eqb Pos.eqb].
  rewrite (upd_block_ok w _ _ block) by (cbn; by rewrite list_lookup_insert_eq).
  cbn [writeStart set_blocks blocks]. rewrite Nat.eqb_refl, list_insert_insert_eq, Hn.
  unfold set_writeStart. cbn [blocks readStart readEnd writeEnd semaphore writeStart].
  rewrite (block_at_ok _ _ block') by (cbn; by rewrite list_lookup_insert_ne). by rewrite Hf'.
Qed.

Lemma advance_read_ok l r re w we sem block : (r < length l)%nat → nextIndex block = nxt r → nxt r ≠ r →
  hasBeenRead block = 1 →
  (∃ block', l !! nxt r = Some block' ∧ hasBeenRead block' = 0) →
  advance_read (S N) (mkIpc (<[r := block]> l) r re w we sem) =
    (Ok tt, mkIpc (<[r := set_read_flag 0 block]> l) (nxt r) re w we sem).
Proof.
  intros Hw Hn Hne Hf (block' & Hb' & Hf'). pose proof num_packets. destruct N as [|n]; [lia|].
  cbn [advance_read]. run. cbn [readStart].
  rewrite (block_at_ok r _ block) by (cbn; by rewrite list_lookup_insert_eq). rewrite Hf. cbn [Z.eqb Pos.eqb].
  rewrite (upd_block_ok r _ _ block) by (cbn; by rewrite list_lookup_insert_eq).
  cbn [readStart set_blocks blocks]. rewrite Nat.eqb_refl, list_insert_insert_eq, Hn.
  unfold set_readStart. cbn [blocks writeStart readEnd writeEnd semaphore readStart].
  rewrite (block_at_ok _ _ block') by (cbn; by rewrite list_lookup_insert_ne). by rewrite Hf'.
Qed.

(** ** Writing *)

(** The buffer after a write, and after a read. *)
Definition written_to (opcode sourceId length_ : Z) (data : option (list Z)) (b : IpcBuffer) : IpcBuffer :=
  mkIpc (alter (fill_block opcode sourceId length_ data) (writeEnd b) (blocks b))
    (readStart b) (readEnd b) (nxt (writeEnd b)) (nxt (writeEnd b)) (semaphore b + 1).
Definition read_from (b : IpcBuffer) : IpcBuffer :=
  mkIpc (blocks b) (nxt (readEnd b)) (nxt (readEnd b)) (writeStart b) (writeEnd b) (semaphore b).

Lemma fill_block_data block opcode sourceId length_ data : sendable length_ data →
  Z.of_nat (length (b_data block)) = PACKET_MAX_SIZE → let block' := fill_block opcode sourceId length_ data block in
  0 ≤ b_length block' ≤ PACKET_MAX_SIZE ∧ Z.of_nat (length (b_data block')) = PACKET_MAX_SIZE ∧
  packet_of block' = received opcode sourceId length_ data.
Proof.
  intros (Hl & Hd & Hnull) Hbd. unfold fill_block, received, packet_of. cbn zeta.
  cbn [b_length b_data b_opcode b_sourceId].
  assert ((if PACKET_MAX_SIZE <? length_ then PACKET_MAX_SIZE else length_) = Z.min length_ PACKET_MAX_SIZE) as ->
    by (destruct (Z.ltb_spec PACKET_MAX_SIZE length_); lia).
  set (n := Z.min length_ PACKET_MAX_SIZE). assert (0 ≤ n ≤ PACKET_MAX_SIZE) by (unfold n, PACKET_MAX_SIZE in *; lia).
  destruct data as [bytes|].
  - apply Z.leb_le in Hd. fold n in Hd. destruct (Z.eqb_spec n 0) as [H0|H0]; [by rewrite H0|].
    split_and!; [lia..|rewrite length_app, length_take, length_drop; lia|].
    f_equal. rewrite take_app_le by (rewrite length_take; lia). rewrite take_take, Nat.min_id. done.
  - assert (n = 0) as -> by (unfold n, PACKET_MAX_SIZE in *; rewrite (Hnull eq_refl); lia). split_and!; done || lia.
Qed.

Lemma fill_block_ok i block opcode sourceId length_ data : sendable length_ data → block_ok i block →
  block_ok i (fill_block opcode sourceId length_ data block) ∧
  packet_of (fill_block opcode sourceId length_ data block) = received opcode sourceId length_ data.
Proof.
  intros Hs (Hn & Hr & Hw & Hbl & Hbd). destruct (fill_block_data block opcode sourceId length_ data Hs Hbd) as (? & ? & ?).
  by split.
Qed.

Lemma write_ok timestamp clock opcode sourceId length_ data b : idle b → sendable length_ data →
  nxt (writeEnd b) ≠ readEnd b →
  ipc_buffer_write timestamp clock opcode sourceId length_ data b =
    (Ok true, written_to opcode sourceId length_ data b).
Proof.
  intros Hb Hs Hfull. destruct (i_read b Hb) as [Hrs Hr], (i_write b Hb) as [Hws Hw].
  destruct (idle_block b _ Hb Hw) as (block & Hbl & Hok). destruct (fill_block_ok _ _ opcode sourceId _ _ Hs Hok) as [Hfok _].
  destruct (idle_block b _ Hb (nxt_lt _ Hw)) as (block' & Hbl' & Hok').
  unfold ipc_buffer_write. assert (Hstep : ∀ c, write_loop c timestamp opcode sourceId length_ data b =
    (modify (set_writeEnd (nxt (writeEnd b))) ;; ipc_buffer_do_write (writeEnd b) opcode sourceId length_ data ;; mret true) b).
  { intros c. destruct c; cbn [write_loop]; run; rewrite (block_at_ok _ _ _ Hbl), (proj1 Hok), Hrs;
      by rewrite (proj2 (Nat.eqb_neq _ _)). }
  rewrite Hstep. destruct b as [l rs r ws w sem]. cbn [blocks readStart readEnd writeStart writeEnd semaphore] in *. subst rs ws.
  unfold ipc_buffer_do_write. run. destruct Hs as (_ & -> & _).
  unfold set_writeEnd. cbn [blocks readStart readEnd writeStart writeEnd semaphore].
  rewrite (upd_block_ok _ _ _ block) by done. unfold set_blocks. cbn [blocks readStart readEnd writeStart writeEnd semaphore].
  assert ((w < length l)%nat) by (rewrite (i_size _ Hb : length l = N); lia).
  rewrite (upd_block_ok _ _ _ (fill_block opcode sourceId length_ data block)) by (cbn; by rewrite list_lookup_insert_eq).
  unfold set_blocks. cbn [blocks readStart readEnd writeStart writeEnd semaphore]. rewrite list_insert_insert_eq.
  rewrite advance_written_ok; [|done|apply Hfok|by apply nxt_ne|done|exists block'; split; [done|apply Hok']].
  unfold written_to, set_semaphore. cbn [blocks readStart readEnd writeStart writeEnd semaphore]. do 2 f_equal.
  rewrite (alter_as_insert _ _ _ block) by done. do 2 f_equal. destruct Hfok as (_ & _ & Hf & _). by rewrite <-Hf at 1.
Qed.

Lemma written_idle opcode sourceId length_ data b : idle b → sendable length_ data →
  idle (written_to opcode sourceId length_ data b).
Proof.
  intros Hb Hs. destruct (i_read b Hb) as [? ?], (i_write b Hb) as [? Hw].
  split; cbn [written_to blocks readStart readEnd writeStart writeEnd]; [|intros i block Hi|done|split; [done|by apply nxt_lt]].
  - by rewrite length_alter, (i_size b Hb).
  - destruct (decide (i = writeEnd b)) as [->|].
    + destruct (idle_block b _ Hb Hw) as (x & Hx & Hok). rewrite list_lookup_alter_eq, Hx in Hi. injection Hi as <-.
      by apply fill_block_ok.
    + rewrite list_lookup_alter_ne in Hi by done. by apply (i_block b Hb).
Qed.

Lemma written_contents opcode sourceId length_ data b : idle b → sendable length_ data →
  nxt (writeEnd b) ≠ readEnd b →
  contents (written_to opcode sourceId length_ data b) = contents b ++ [received opcode sourceId length_ data].
Proof.
  intros Hb Hs Hfull. destruct (i_read b Hb) as [_ Hr], (i_write b Hb) as [_ Hw]. unfold contents.
  cbn [written_to readEnd writeEnd]. rewrite between_nxt, seq_S, fmap_app by done. f_equal.
  - apply list_fmap_ext. intros k k' [-> Hk]%lookup_seq. unfold packet_at. cbn [written_to blocks].
    rewrite list_lookup_alter_ne; [done|]. intros Heq. pose proof (between_lt _ _ Hr Hw).
    rewrite <-(pos_between (readEnd b) (writeEnd b)) in Heq at 1 by done.
    apply pos_inj in Heq; [|try lia..]. simpl in *. lia.
  - cbn [fmap list_fmap]. f_equal. rewrite Nat.add_0_l, pos_between by done. unfold packet_at. cbn [written_to blocks].
    destruct (idle_block b _ Hb Hw) as (x & Hx & Hok). rewrite list_lookup_alter_eq, Hx. simpl.
    by apply (fill_block_ok (writeEnd b)).
Qed.

(** ** Reading *)
Lemma read_ok b block : idle b → readEnd b ≠ writeEnd b → blocks b !! readEnd b = Some block →
  ipc_buffer_read b = (Ok (Some (packet_of block)), read_from b).
Proof.
  intros Hb Hne Hbl. destruct (i_read b Hb) as [Hrs Hr], (i_write b Hb) as [Hws Hw].
  pose proof (i_block b Hb _ _ Hbl) as Hok. destruct (idle_block b _ Hb (nxt_lt _ Hr)) as (block' & Hbl' & Hok').
  assert (Hlen : (readEnd b < length (blocks b))%nat) by (rewrite (i_size b Hb); done).
  unfold ipc_buffer_read. run. rewrite (block_at_ok _ _ _ Hbl), Hws, (proj2 (Nat.eqb_neq _ _)), (proj1 Hok) by done.
  destruct b as [l rs r ws w sem]. cbn [blocks readStart readEnd writeStart writeEnd semaphore] in *. subst rs ws.
  unfold ipc_buffer_do_read, set_readEnd. run. cbn [blocks readStart readEnd writeStart writeEnd semaphore].
  rewrite (block_at_ok _ _ block) by done.
  assert (Hp : ipc_packet_init (b_opcode block) (b_sourceId block) (b_length block) (Some (b_data block)) = Ok (packet_of block)).
  { unfold ipc_packet_init, packet_of. destruct Hok as (_ & _ & _ & Hl & Hd). destruct (b_length block =? 0); [done|].
    by rewrite (proj2 (Z.ltb_ge _ _)) by lia. }
  rewrite Hp. rewrite (upd_block_ok _ _ _ block) by done. unfold set_blocks.
  cbn [blocks readStart readEnd writeStart writeEnd semaphore].
  rewrite advance_read_ok; [|done|apply Hok|by apply nxt_ne|done|exists block'; split; [done|apply Hok']].
  unfold read_from. cbn [blocks readStart readEnd writeStart writeEnd semaphore]. do 3 f_equal.
  apply list_insert_id. rewrite Hbl. f_equal. destruct Hok as (_ & Hf & _). destruct block. simpl in *. by subst.
Qed.

Lemma read_idle b : idle b → idle (read_from b).
Proof.
  intros Hb. destruct (i_read b Hb) as [? Hr]. split; try apply Hb. split; [done|]. by apply nxt_lt.
Qed.

Lemma contents_read b block : idle b → readEnd b ≠ writeEnd b → blocks b !! readEnd b = Some block →
  contents b = packet_of block :: contents (read_from b).
Proof.
  intros Hb Hne Hbl. destruct (i_read b Hb) as [_ Hr], (i_write b Hb) as [_ Hw]. unfold contents.
  rewrite between_read by done. cbn [read_from readEnd writeEnd seq fmap list_fmap]. f_equal.
  - rewrite pos_0 by done. unfold packet_at. by rewrite Hbl.
  - rewrite <-fmap_S_seq, <-list_fmap_compose. apply list_fmap_ext. intros k k' [-> Hk]%lookup_seq. simpl.
    pose proof (between_lt _ _ Hr Hw). pose proof (between_read _ _ Hr Hw Hne). by rewrite pos_nxt by lia.
Qed.

Lemma contents_nil b : idle b → contents b = [] ↔ readEnd b = writeEnd b.
Proof.
  intros Hb. destruct (i_read b Hb) as [_ Hr], (i_write b Hb) as [_ Hw].
  rewrite <-between_0 by done. unfold contents. destruct (between _ _); [done|]. split; done.
Qed.

Lemma read_step b : idle b →
  ipc_buffer_read b =
    match contents b with [] => (Ok None, b) | p :: _ => (Ok (Some p), read_from b) end ∧
  (contents b ≠ [] → contents (read_from b) = tail (contents b)).
Proof.
  intros Hb. destruct (decide (readEnd b = writeEnd b)) as [Heq|Hne].
  - rewrite (proj2 (contents_nil b Hb) Heq). split; [|done]. destruct (i_write b Hb) as [Hws Hw], (i_read b Hb) as [_ Hr].
    destruct (idle_block b _ Hb Hr) as (block & Hbl & _).
    unfold ipc_buffer_read. run. by rewrite (block_at_ok _ _ _ Hbl), Hws, Heq, Nat.eqb_refl.
  - destruct (i_read b Hb) as [_ Hr]. destruct (idle_block b _ Hb Hr) as (block & Hbl & _).
    rewrite (contents_read b block Hb Hne Hbl). split; [by apply read_ok|done].
Qed.

(** ** The queue *)

(** A full ring: the writer gives up once the clock has moved ten milliseconds. *)
Lemma write_full timestamp clock opcode sourceId length_ data b : idle b → nxt (writeEnd b) = readEnd b →
  Exists (λ now, 10 ≤ u64 (now - timestamp)) clock →
  ipc_buffer_write timestamp clock opcode sourceId length_ data b = (Ok false, b).
Proof.
  intros Hb Hfull Hc. destruct (i_read b Hb) as [Hrs Hr], (i_write b Hb) as [_ Hw].
  destruct (idle_block b _ Hb Hw) as (block & Hbl & Hok). unfold ipc_buffer_write.
  induction Hc as [now clock Hnow|now clock Hc IH]; cbn [write_loop]; run;
    rewrite (block_at_ok _ _ _ Hbl), (proj1 Hok), Hrs, Hfull, Nat.eqb_refl.
  - by rewrite (proj2 (Z.leb_le _ _)).
  - by destruct (10 <=? u64 (now - timestamp)).
Qed.

Inductive ipc_op :=
  | OpWrite (timestamp : Z) (clock : list Z) (opcode sourceId length_ : Z) (data : option (list Z))
  | OpRead.

Inductive ipc_result := Wrote (ok : bool) | Read (packet : option IpcPacket).

Definition op_ok (o : ipc_op) : Prop :=
  match o with
  | OpWrite timestamp clock _ _ length_ data => sendable length_ data ∧ Exists (λ now, 10 ≤ u64 (now - timestamp)) clock
  | OpRead => True
  end.

(** The code, and the queue it implements. *)
Definition run_op (o : ipc_op) : code IpcBuffer ipc_result :=
  match o with
  | OpWrite timestamp clock opcode sourceId length_ data =>
      ok ← ipc_buffer_write timestamp clock opcode sourceId length_ data; mret (Wrote ok)
  | OpRead => packet ← ipc_buffer_read; mret (Read packet)
  end.

Definition queue_op (o : ipc_op) (q : list IpcPacket) : ipc_result * list IpcPacket :=
  match o with
  | OpWrite _ _ opcode sourceId length_ data =>
      if (length q <? 511)%nat then (Wrote true, q ++ [received opcode sourceId length_ data]) else (Wrote false, q)
  | OpRead => (Read (head q), tail q)
  end.

Fixpoint run_ops (ops : list ipc_op) : code IpcBuffer (list ipc_result) :=
  match ops with
  | [] => mret []
  | o :: ops => r ← run_op o; rs ← run_ops ops; mret (r :: rs)
  end.

Fixpoint queue_ops (ops : list ipc_op) (q : list IpcPacket) : list ipc_result * list IpcPacket :=
  match ops with
  | [] => ([], q)
  | o :: ops => let '(r, q) := queue_op o q in let '(rs, q) := queue_ops ops q in (r :: rs, q)
  end.

Lemma contents_size b : idle b → length (contents b) = between (readEnd b) (writeEnd b).
Proof. intros. unfold contents. by rewrite length_fmap, length_seq. Qed.

Lemma op_refines o b : idle b → op_ok o → ∃ b', run_op o b = (Ok (fst (queue_op o (contents b))), b') ∧ idle b' ∧
  contents b' = snd (queue_op o (contents b)).
Proof.
  intros Hb Ho. destruct (i_read b Hb) as [_ Hr], (i_write b Hb) as [_ Hw].
  destruct o as [timestamp clock opcode sourceId length_ data|]; cbn [run_op queue_op]; run.
  - destruct Ho as [Hs Hc]. pose proof (contents_size b Hb) as Hsize. pose proof num_packets.
    pose proof (between_full _ _ Hr Hw) as Hfull. pose proof (between_lt _ _ Hr Hw).
    destruct (Nat.ltb_spec (length (contents b)) 511) as [Hlt|Hge]; cbn [fst snd].
    + assert (nxt (writeEnd b) ≠ readEnd b) by (intros Heq; apply Hfull in Heq; lia).
      rewrite write_ok by done. eexists. split_and!; [done|by apply written_idle|by apply written_contents].
    + rewrite write_full by (done || apply Hfull; lia). by exists b.
  - destruct (read_step b Hb) as [-> Htl]. destruct (contents b) as [|p q] eqn:Hq; cbn [head tail fst snd].
    + by exists b.
    + exists (read_from b). split_and!; [done|by apply read_idle|by apply Htl].
Qed.

Lemma init_idle memory : (∀ i, Z.of_nat (length (memory i)) = PACKET_MAX_SIZE) → idle (ipc_buffer_init memory).
Proof.
  intros Hm. pose proof num_packets. split; cbn; [by rewrite length_fmap, length_seq| |split; [done|lia]..].
  intros i block. rewrite list_lookup_fmap_Some. intros (k & -> & [-> Hk]%lookup_seq).
  split_and!; cbn; done || apply Hm.
Qed.

Lemma ops_refine ops b : idle b → Forall op_ok ops →
  ∃ b', run_ops ops b = (Ok (fst (queue_ops ops (contents b))), b') ∧ idle b' ∧
    contents b' = snd (queue_ops ops (contents b)).
Proof.
  intros Hb Hops. revert b Hb. induction Hops as [|o ops Ho Hops IH]; intros b Hb; cbn [run_ops queue_ops].
  - by exists b.
  - destruct (op_refines o b Hb Ho) as (b1 & Hrun & Hb1 & Hc1). run. rewrite Hrun.
    destruct (queue_op o (contents b)) as [r q]. cbn [fst snd] in *. subst q.
    destruct (IH b1 Hb1) as (b2 & Hrun2 & Hb2 & Hc2). revert Hrun2. run. intros ->.
    destruct (queue_ops ops (contents b1)) as [rs q]. by exists b2.
Qed.

(** C35: A packet buffer in fresh memory, used by one operation at a time, behaves as
    a queue of at most 511 packets: what is written is read in order, cut to
    4096 bytes; a write to a full buffer waits ten milliseconds and fails. *)
Theorem ipc_buffer_refines_queue memory ops :
  (∀ i, Z.of_nat (length (memory i)) = PACKET_MAX_SIZE) → Forall op_ok ops →
  ∃ b', run_ops ops (ipc_buffer_init memory) = (Ok (fst (queue_ops ops [])), b') ∧
    contents b' = snd (queue_ops ops []).
Proof.
  intros Hm Hops. pose proof (init_idle memory Hm) as Hi.
  destruct (ops_refine ops _ Hi Hops) as (b' & Hrun & _ & Hc).
  rewrite (proj2 (contents_nil _ Hi)) in Hrun, Hc by done. by exists b'.
Qed.

Lemma ipc_buffer_refines_queue_witness :
  let ops := [OpWrite 5 [6; 16] 7 1 3 (Some [10; 11; 12]); OpWrite 5 [15] 2 1 0 None; OpRead; OpRead; OpRead] in
  ∃ b', run_ops ops (ipc_buffer_init (λ _, replicate 4096 0)) =
      (Ok [Wrote true; Wrote true; Read (Some (mkIpcPacket 7 1 3 (Some [10; 11; 12])));
           Read (Some (mkIpcPacket 2 1 0 None)); Read None], b') ∧ contents b' = [].
Proof.
  intros ops. apply (ipc_buffer_refines_queue (λ _, replicate 4096 0) ops).
  - intros i. by rewrite length_replicate.
  - unfold ops. rewrite !Forall_cons. split_and!; try done.
    + split; [by vm_compute|]. apply Exists_cons_tl, Exists_cons_hd. by vm_compute.
    + split; [by vm_compute|]. apply Exists_cons_hd. by vm_compute.
Defined.

(** What is handed over of the packets in the buffer: those before a shutdown,
    and whether there was one. *)
Fixpoint before_shutdown (q : list IpcPacket) : list IpcPacket * bool :=
  match q with
  | [] => ([], false)
  | p :: q => if p_opcode p =? ServerOp_Shutdown then ([], true) else let '(ps, stop) := before_shutdown q in (p :: ps, stop)
  end.

Lemma receive_loop_ok fuel b : idle b → (length (contents b) < fuel)%nat →
  ∃ b', receive_loop fuel b = (Ok (before_shutdown (contents b)), b') ∧ idle b' ∧
    (snd (before_shutdown (contents b)) = false → contents b' = []).
Proof.
  revert b. induction fuel as [|fuel IH]; intros b Hb Hf; [lia|]. cbn [receive_loop].
  destruct (read_step b Hb) as [Hread Htl]. run. rewrite Hread. pose proof (read_idle b Hb) as Hb'.
  destruct (contents b) as [|p q] eqn:Hq; cbn [before_shutdown]; [by exists b|].
  destruct (p_opcode p =? ServerOp_Shutdown); [by exists (read_from b)|].
  specialize (Htl ltac:(done)). cbn [tail] in Htl. destruct (IH (read_from b) Hb') as (b2 & Hrun & Hb2 & He); [rewrite Htl; simpl in *; lia|].
  rewrite Htl in *. revert Hrun. run. intros ->. destruct (before_shutdown q) as [ps stop]. by exists b2.
Qed.

(** When a process is told of packets, its receive loop ends and hands over all
    packets of the buffer in order, up to a shutdown; without one the buffer is
    empty afterwards. *)
Theorem ipc_set_receive_drains b : idle b → 0 < semaphore b →
  ∃ b', ipc_set_receive b = (Ok (before_shutdown (contents b)), b') ∧ idle b' ∧
    (snd (before_shutdown (contents b)) = false → contents b' = []).
Proof.
  intros Hb Hs. unfold ipc_set_receive, ipc_buffer_try. run. rewrite (proj2 (Z.ltb_lt 0 _)) by done.
  set (b1 := set_semaphore (semaphore b - 1) b). assert (Hb1 : idle b1) by (split; apply Hb).
  change (contents b) with (contents b1). apply receive_loop_ok; [done|]. rewrite (contents_size b1 Hb1).
  destruct (i_read b1 Hb1), (i_write b1 Hb1). pose proof (between_lt (readEnd b1) (writeEnd b1)). lia.
Qed.

Lemma ipc_set_receive_drains_witness :
  let b := written_to 2 1 0 None (written_to 7 1 3 (Some [10; 11; 12]) (ipc_buffer_init (λ _, replicate 4096 0))) in
  ∃ b', ipc_set_receive b = (Ok (before_shutdown (contents b)), b') ∧ idle b' ∧
    (snd (before_shutdown (contents b)) = false → contents b' = []).
Proof.
  intros b. apply (ipc_set_receive_drains b); [|by vm_compute].
  assert (Hi : idle (ipc_buffer_init (λ _, replicate 4096 0))) by (apply init_idle; intros; by rewrite length_replicate).
  apply written_idle; [|by vm_compute]. apply written_idle; [done|by vm_compute].
Defined.
