(* ===== verification/Log.v ===== *)
(** Logging: what a process writes (common/log/eqp_log.c), the log writer that
    receives it (log/log_writer.c) and its thread, which keeps one file per
    source (log/log_thread.c).

    Files are their contents by path. The text of the time, the formatted
    message, whether a file can be opened, the stack's old content and whether a
    queue that grows is moved are arguments. A FILE* is the path it was opened
    with; a file's entry is its place in the array. *)

From S2P Require Import Prelude Fields ZoneId Text Servers IpcBuffer.

Definition EQP_LOG_MESSAGE_SIZE : Z := 2048.
Definition ServerOp_LogMessage : Z := 5.
Definition LOG_MASTER : Z := 2000001.
Definition LOG_CHAR_SELECT : Z := 2000002.
Definition LOG_LOGIN : Z := 2000003.
Definition LOG_ZONE_CLUSTER_OFFSET : Z := 1000000.
Definition LOG_ZONE_INSTANCE_OFFSET : Z := 1000.

(** ** Writing to the log *)
Inductive LogType := LogNone | LogFatal | LogError | LogWarning | LogInfo | LogSql | LogNetwork | LogLua.

Definition log_type_text (type : LogType) : list Z :=
  match type with
  | LogFatal => text "[FATAL] "
  | LogError => text "[ERROR] "
  | LogWarning => text "[Warning] "
  | LogInfo => text "[Info] "
  | LogSql => text "[SQL] "
  | LogNetwork => text "[Net] "
  | LogLua => text "[Lua] "
  | LogNone => text " "
  end.

(** The message, or nothing when it does not fit. *)
Definition log_construct_message (time : list Z) (type : LogType) (formatted : list Z) : outcome (list Z) :=
  match time with
  | [] => Throw ErrorFormatString
  | _ =>
      let fits bs pos := (0 <? length bs)%nat && (Z.of_nat (length bs) <? EQP_LOG_MESSAGE_SIZE - Z.of_nat (length pos)) in
      let start := time ++ log_type_text type in
      Ok (if fits (log_type_text type) time && fits formatted start then start ++ formatted else [])
  end.

(** For a process that has its buffer; [clock] is for the write to it. *)
Definition log_from_vformat (timestamp : Z) (clock : list Z) (sourceId : Z) (type : LogType) (time formatted : list Z) : code IpcBuffer unit :=
  message ← lift (log_construct_message time type formatted);
  match message with
  | [] => mret tt
  | _ => _ ← ipc_buffer_write timestamp clock ServerOp_LogMessage sourceId (Z.of_nat (length message)) (Some message); mret tt
  end.

(** ** The log thread *)
Record LogThreadFile := mkLogFile { lf_sourceId : Z; lf_fp : option (list Z) }.

Record LogThread := mkLogThread {
  lt_inQueue : list IpcPacket;
  lt_writeQueue : list IpcPacket;
  lt_logFiles : list LogThreadFile;
  lt_disk : gmap (list Z) (list Z);
  lt_times : list (list Z);          (* what strftime writes, call by call *)
}.
#[export] Instance LogThread_settable : Settable LogThread :=
  (built mkLogThread <*> lt_inQueue <*> lt_writeQueue <*> lt_logFiles <*> lt_disk <*> lt_times)%fields.

Section LogThread.
Context (can_open : list Z → bool) (moves : nat → bool) (stack : list Z).

Definition log_thread_init (disk : gmap (list Z) (list Z)) (times : list (list Z)) : LogThread := mkLogThread [] [] [] disk times.

Definition strftime : code LogThread (list Z) :=
  times ← gets lt_times;
  modify (λ t, t <| lt_times := tail times |>) ;;
  mret (default [] (head times)).

Definition fwrite (path bytes : list Z) : code LogThread unit :=
  modify (λ t, t <| lt_disk := <[path := default [] (lt_disk t !! path) ++ bytes]> (lt_disk t) |>).

(** A line with the time, unless there is no time. *)
Definition fwrite_timed (path bytes : list Z) : code LogThread unit :=
  time ← strftime;
  match time with [] => mret tt | _ => fwrite path (time ++ bytes) end.

Definition log_thread_close_file (path : list Z) : code LogThread unit := fwrite_timed path (text " ==== Log File Closed ====" ++ [10]).

Definition log_thread_close_all : code LogThread unit :=
  files ← gets lt_logFiles;
  each files (λ file, match lf_fp file with Some path => log_thread_close_file path | None => mret tt end) ;;
  modify (λ t, t <| lt_logFiles := (λ file, mkLogFile (lf_sourceId file) None) <$> lt_logFiles t |>).

(** How many there were. *)
Definition log_thread_read_input_queue : code LogThread nat :=
  inQueue ← gets lt_inQueue;
  modify (λ t, t <| lt_writeQueue := lt_writeQueue t ++ inQueue |> <| lt_inQueue := [] |>) ;;
  mret (length inQueue).

Definition log_thread_get_file (sourceId : Z) (files : list LogThreadFile) : option (nat * LogThreadFile) :=
  list_find (λ file, lf_sourceId file = sourceId) files.

Definition log_thread_write (packet : IpcPacket) : code LogThread unit :=
  match p_data packet with
  | Some data =>
      if 0 <? p_length packet then
        files ← gets lt_logFiles;
        match log_thread_get_file (p_sourceId packet) files with
        | Some (_, mkLogFile _ (Some path)) => fwrite path (data ++ [10])
        | _ => mret tt
        end
      else mret tt
  | None => mret tt
  end.

(** printf's %i, and the remainder and quotient of C. *)
Definition decimal_int (n : Z) : list Z := if n <? 0 then 45 :: decimal (- n) else decimal n.
Definition log_filename (sourceId : Z) : list Z :=
  take 255
    (if sourceId =? LOG_MASTER then text "log/master.log"
     else if sourceId =? LOG_CHAR_SELECT then text "log/char_select.log"
     else if sourceId =? LOG_LOGIN then text "log/login.log"
     else if LOG_ZONE_CLUSTER_OFFSET <=? sourceId then text "log/zone_cluster" ++ decimal_int (sourceId - LOG_ZONE_CLUSTER_OFFSET) ++ text ".log"
     else text "log/zone_" ++ text (zone_short_name_by_id (Z.rem sourceId LOG_ZONE_INSTANCE_OFFSET)) ++ text "_instance" ++
          decimal_int (Z.quot sourceId LOG_ZONE_INSTANCE_OFFSET) ++ text ".log").

(** The file's name is written over the start of the message, not behind it;
    the rest is what was there. *)
Definition failed_prefix (time : list Z) : list Z :=
  time ++ text "[ERROR][log_thread_determine_filename_and_open] Could not open file for appending: ".
Definition failed_to_open (time filename : list Z) : list Z :=
  let prefix := failed_prefix time in
  let quoted := [39] ++ filename ++ [39] in
  take (length prefix + length quoted) (quoted ++ [0] ++ drop (length quoted + 1) (prefix ++ [0] ++ stack)).

(** The queue that is being processed gets another packet: when it is moved, the
    loop over it goes on in freed memory. *)
Definition log_thread_determine_filename_and_open (sourceId : Z) : code LogThread (option (list Z)) :=
  let filename := log_filename sourceId in
  if can_open filename then mret (Some filename)
  else
    time ← strftime;
    match time with
    | [] => mret None
    | _ =>
        if 2048 <=? Z.of_nat (length filename + 2 + length (failed_prefix time)) then mret None else
        let message := failed_to_open time filename in
        packet ← lift (ipc_packet_init ServerOp_LogMessage LOG_MASTER (Z.of_nat (length message)) (Some message));
        queue ← gets lt_writeQueue;
        if moves (length queue) then fault
        else modify (λ t, t <| lt_writeQueue := lt_writeQueue t ++ [packet] |>) ;; mret None
    end.

Definition log_thread_open (packet : IpcPacket) : code LogThread unit :=
  let sourceId := p_sourceId packet in
  files ← gets lt_logFiles;
  let old := log_thread_get_file sourceId files in
  fp ← match old with Some (_, file) => mret (lf_fp file) | None => log_thread_determine_filename_and_open sourceId end;
  match fp with
  | Some path =>
      fwrite_timed path (text " ==== Log File Opened ====" ++ [10]) ;;
      match old with
      | None => modify (λ t, t <| lt_logFiles := lt_logFiles t ++ [mkLogFile sourceId (Some path)] |>)
      | Some _ => mret tt
      end
  | None => mret tt
  end.

Definition log_thread_close (packet : IpcPacket) : code LogThread unit :=
  files ← gets lt_logFiles;
  match log_thread_get_file (p_sourceId packet) files with
  | Some (index, file) =>
      match lf_fp file with Some path => log_thread_close_file path | None => mret tt end ;;
      modify (λ t, t <| lt_logFiles := swap_out index (lt_logFiles t) |>)
  | None => mret tt
  end.

Definition log_packet (packet : IpcPacket) : code LogThread unit :=
  if p_opcode packet =? ServerOp_LogMessage then log_thread_write packet
  else if p_opcode packet =? ServerOp_LogOpen then log_thread_open packet
  else if p_opcode packet =? ServerOp_LogClose then log_thread_close packet
  else mret tt.

Definition log_thread_process_write_queue : code LogThread unit :=
  packets ← gets lt_writeQueue;
  each packets log_packet ;;
  modify (λ t, t <| lt_writeQueue := [] |>).

(** A round of the inner loop of log_thread_main_loop. *)
Definition log_thread_round : code LogThread bool :=
  n ← log_thread_read_input_queue;
  match n with O => mret false | _ => log_thread_process_write_queue ;; mret true end.

(** The inner loop after a trigger; every round but the last takes a packet that
    waits. *)
Fixpoint log_thread_run (fuel : nat) : code LogThread unit :=
  match fuel with
  | O => fault
  | S fuel => more ← log_thread_round; if more : bool then log_thread_run fuel else mret tt
  end.

Definition log_thread_post_message (packet : IpcPacket) : code LogThread unit :=
  modify (λ t, t <| lt_inQueue := lt_inQueue t ++ [packet] |>).

(** ** The log writer *)

(** log_writer_main_loop after a wait: whether it was told to shut down. *)
Fixpoint log_writer_main_loop (fuel : nat) : code (IpcBuffer * LogThread) bool :=
  match fuel with
  | O => fault
  | S fuel => λ s,
      match ipc_buffer_read s.1 with
      | (Ok (Some packet), ipc) =>
          if p_opcode packet =? ServerOp_Shutdown then (Ok true, (ipc, s.2))
          else log_writer_main_loop fuel (ipc, snd (log_thread_post_message packet s.2))
      | (Ok None, ipc) => (Ok false, (ipc, s.2))
      | (Throw e, ipc) => (Throw e, (ipc, s.2))
      | (Fault, ipc) => (Fault, (ipc, s.2))
      end
  end.
End LogThread.
