(* ===== verification/LogSpec.v ===== *)
(** What is logged arrives: a message that finds room in the log writer's buffer
    is a line of its source's file, whatever else is logged, opened and closed
    and however the processes, the log writer and its thread take turns. *)

From S2P Require Import Prelude Fields ZoneId Text Servers IpcBuffer IpcBufferSpec Log.

Section LogSpec.
Context (can_open : list Z → bool) (moves : nat → bool) (stack : list Z).

(** ** Processes, log writer and log thread *)
Inductive log_event :=
  | Logs (timestamp : Z) (clock : list Z) (sourceId : Z) (type : LogType) (time formatted : list Z)
  | Marks (timestamp : Z) (clock : list Z) (is_open : bool) (sourceId : Z)   (* ipc_set.c, eqp_master.c *)
  | Forwards
  | Handles.

Definition in_buffer {A} (m : code IpcBuffer A) : code (IpcBuffer * LogThread) A := λ s, let '(r, b) := m s.1 in (r, (b, s.2)).
Definition in_thread {A} (m : code LogThread A) : code (IpcBuffer * LogThread) A := λ s, let '(r, t) := m s.2 in (r, (s.1, t)).

Definition log_mark (is_open : bool) : Z := if is_open then ServerOp_LogOpen else ServerOp_LogClose.

Definition log_event_code (event : log_event) : code (IpcBuffer * LogThread) unit :=
  match event with
  | Logs timestamp clock sourceId type time formatted => in_buffer (log_from_vformat timestamp clock sourceId type time formatted)
  | Marks timestamp clock is_open sourceId =>
      in_buffer (_ ← ipc_buffer_write timestamp clock (log_mark is_open) sourceId 0 None; mret tt)
  | Forwards => _ ← log_writer_main_loop 512; mret tt
  | Handles => _ ← in_thread (log_thread_round can_open moves stack); mret tt
  end.

(** The messages of [s] that find room: at most 511 packets wait. *)
Definition logged_message (type : LogType) (time formatted : list Z) : list Z :=
  match log_construct_message time type formatted with Ok message => message | _ => [] end.

Fixpoint logged_by (s : Z) (events : list log_event) (waiting : nat) : list (list Z) :=
  match events with
  | [] => []
  | Logs _ _ sourceId type time formatted :: events =>
      let message := logged_message type time formatted in
      if bool_decide (message ≠ []) && (waiting <? 511)%nat then
        (if sourceId =? s then [message] else []) ++ logged_by s events (S waiting)
      else logged_by s events waiting
  | Marks _ _ _ _ :: events => logged_by s events (if (waiting <? 511)%nat then S waiting else waiting)
  | Forwards :: events => logged_by s events 0
  | Handles :: events => logged_by s events waiting
  end.

(** A file's text. *)
Definition as_lines (messages : list (list Z)) : list Z := concat ((λ message, message ++ [10]) <$> messages).

(** The clock reaches ten milliseconds; others do not open or close the file of
    [s], and if their own cannot be opened the queue stays where it is. *)
Definition event_ok (s : Z) (event : log_event) : Prop :=
  let gives_up timestamp clock := Exists (λ now, 10 ≤ u64 (now - timestamp)) clock in
  match event with
  | Logs timestamp clock _ _ time _ => gives_up timestamp clock ∧ time ≠ []
  | Marks timestamp clock _ sourceId =>
      gives_up timestamp clock ∧ log_filename sourceId ≠ log_filename s ∧
      (can_open (log_filename sourceId) = true ∨ ∀ n, moves n = false)
  | _ => True
  end.

(** ** Messages *)
Lemma log_construct_message_ok time type formatted : time ≠ [] →
  log_construct_message time type formatted = Ok (logged_message type time formatted) ∧
  Z.of_nat (length (logged_message type time formatted)) < EQP_LOG_MESSAGE_SIZE.
Proof.
  unfold logged_message, log_construct_message. intros Ht. destruct time as [|c time]; [done|]. set (t := c :: time).
  split; [done|]. set (x := log_type_text type).
  destruct (_ && _ && _) eqn:Hc; [|done]. apply andb_true_iff in Hc as [_ [_ Hc%Z.ltb_lt]%andb_true_iff].
  rewrite !length_app in *. lia.
Qed.

Definition message_packet (sourceId : Z) (message : list Z) : IpcPacket :=
  mkIpcPacket ServerOp_LogMessage sourceId (Z.of_nat (length message)) (Some message).

Lemma received_message sourceId message : message ≠ [] → Z.of_nat (length message) < EQP_LOG_MESSAGE_SIZE →
  received ServerOp_LogMessage sourceId (Z.of_nat (length message)) (Some message) = message_packet sourceId message ∧
  sendable (Z.of_nat (length message)) (Some message).
Proof.
  unfold EQP_LOG_MESSAGE_SIZE. intros Hne Hl. assert (length message ≠ 0%nat) by (by destruct message).
  unfold received, sendable, data_reaches, message_packet, PACKET_MAX_SIZE. rewrite Z.min_l by lia. split.
  - rewrite (proj2 (Z.eqb_neq _ 0)) by lia. simpl. by rewrite Nat2Z.id, take_ge by lia.
  - split_and!; [lia|by apply Z.leb_le|done].
Qed.

(** ** The file of a source *)
Context (s : Z).
Abbreviation path := (log_filename s).

(** [s] has its file open, and no one else has. *)
Definition has_file (files : list LogThreadFile) : Prop :=
  mkLogFile s (Some path) ∈ files ∧ ∀ file, file ∈ files → lf_sourceId file = s ∨ lf_fp file = Some path → file = mkLogFile s (Some path).

(** The packets that are handled. *)
Definition log_packet_ok (packet : IpcPacket) : Prop :=
  (∃ sourceId message, message ≠ [] ∧ packet = message_packet sourceId message) ∨
  (∃ is_open sourceId, packet = mkIpcPacket (log_mark is_open) sourceId 0 None ∧
    log_filename sourceId ≠ path ∧ (can_open (log_filename sourceId) = true ∨ ∀ n, moves n = false)).

Definition message_of (packet : IpcPacket) : option (list Z) :=
  if (p_opcode packet =? ServerOp_LogMessage) && (p_sourceId packet =? s) then p_data packet else None.

Definition content (t : LogThread) : list Z := default [] (lt_disk t !! path).

Lemma has_file_found files : has_file files → ∃ i, log_thread_get_file s files = Some (i, mkLogFile s (Some path)).
Proof.
  intros [Hin Hu]. unfold log_thread_get_file. destruct (list_find_elem_of (λ file, lf_sourceId file = s) files (mkLogFile s (Some path)))
    as [[i file] Hf]; [done..|]. exists i. rewrite Hf. apply list_find_Some in Hf as (Hi & Hs & _).
  by rewrite (Hu file) by (eauto using list_elem_of_lookup_2).
Qed.

Lemma fwrite_other other bytes t : other ≠ path → ∃ t', fwrite other bytes t = (Ok tt, t') ∧ content t' = content t ∧
  lt_logFiles t' = lt_logFiles t ∧ lt_inQueue t' = lt_inQueue t.
Proof. intros Hne. eexists. split; [done|]. unfold content. cbn. by rewrite lookup_insert_ne. Qed.

Lemma fwrite_timed_other other bytes t : other ≠ path → ∃ t', fwrite_timed other bytes t = (Ok tt, t') ∧ content t' = content t ∧
  lt_logFiles t' = lt_logFiles t ∧ lt_inQueue t' = lt_inQueue t.
Proof.
  intros Hne. unfold fwrite_timed, strftime. run. destruct (default [] (head (lt_times t))) as [|c time]; [by eexists|].
  edestruct fwrite_other as (t' & -> & Hc & Hf & Hi); [done|]. eexists. split; [done|]. by rewrite Hc, Hf, Hi.
Qed.

(** A file that is closed leaves the others. *)
Lemma swap_out_has_file i file files : files !! i = Some file → lf_sourceId file ≠ s → has_file files → has_file (swap_out i files).
Proof.
  intros Hi Hs [Hin Hu]. pose proof (swap_out_perm i files file Hi) as Hp.
  split; [|intros other Ho; apply Hu; rewrite <- Hp; by apply list_elem_of_further].
  rewrite <- Hp in Hin. apply elem_of_cons in Hin as [<-|]; [by destruct Hs|done].
Qed.

Lemma open_other sourceId t : log_filename sourceId ≠ path → (can_open (log_filename sourceId) = true ∨ ∀ n, moves n = false) →
  ∃ fp t', log_thread_determine_filename_and_open can_open moves stack sourceId t = (Ok fp, t') ∧
    (fp = None ∨ fp = Some (log_filename sourceId)) ∧ content t' = content t ∧ lt_logFiles t' = lt_logFiles t ∧ lt_inQueue t' = lt_inQueue t.
Proof.
  intros Hne Hok. unfold log_thread_determine_filename_and_open. destruct (can_open (log_filename sourceId)) eqn:Hc.
  { exists (Some (log_filename sourceId)), t. split_and!; auto. }
  destruct Hok as [|Hm]; [done|]. unfold strftime. run.
  destruct (default [] (head (lt_times t))) as [|c time] eqn:Ht; [exists None; eexists; split_and!; auto; done|].
  destruct (2048 <=? _); [exists None; eexists; split_and!; auto; done|].
  set (message := failed_to_open _ _ _). unfold ipc_packet_init. rewrite Z.ltb_irrefl.
  destruct (Z.of_nat (length message) =? 0); rewrite Hm; exists None; eexists; split_and!; auto; done.
Qed.

(** ** The log thread *)
Lemma log_thread_open_runs sourceId t : has_file (lt_logFiles t) → log_filename sourceId ≠ path →
  (can_open (log_filename sourceId) = true ∨ ∀ n, moves n = false) →
  ∃ t', log_thread_open can_open moves stack (mkIpcPacket ServerOp_LogOpen sourceId 0 None) t = (Ok tt, t') ∧
    has_file (lt_logFiles t') ∧ lt_inQueue t' = lt_inQueue t ∧ content t' = content t.
Proof.
  intros Hf Hne Hok. assert (Hs : sourceId ≠ s) by congruence.
  unfold log_thread_open. rewrite bind_gets. cbn [p_sourceId].
  destruct (log_thread_get_file sourceId (lt_logFiles t)) as [[i file]|] eqn:Hg.
  - rewrite bind_ret. apply list_find_Some in Hg as (Hi & Hsrc & _). destruct (lf_fp file) as [other|] eqn:Hfp; [|by exists t].
    destruct (fwrite_timed_other other (text " ==== Log File Opened ====" ++ [10]) t) as (t1 & Hrun & Hc & Hfs & Hq).
    { intros ->. pose proof (proj2 Hf _ (list_elem_of_lookup_2 _ _ _ Hi) (or_intror Hfp)) as ->. done. }
    rewrite (bind_ok _ _ _ _ _ Hrun). exists t1. by rewrite Hfs.
  - destruct (open_other sourceId t Hne Hok) as (fp & t1 & Hrun & Hfp & Hc & Hfs & Hq). rewrite (bind_ok _ _ _ _ _ Hrun).
    destruct Hfp as [->| ->]; [exists t1; by rewrite Hfs|].
    destruct (fwrite_timed_other (log_filename sourceId) (text " ==== Log File Opened ====" ++ [10]) t1 Hne) as (t2 & Hrun2 & Hc2 & Hfs2 & Hq2).
    rewrite (bind_ok _ _ _ _ _ Hrun2). eexists. split; [done|]. cbn. split_and!; [|congruence|exact (eq_trans Hc2 Hc)].
    rewrite Hfs2, Hfs. destruct Hf as [Hin Hu]. split; [apply elem_of_app; by left|].
    intros other [Hin'|[= ->]%list_elem_of_singleton]%elem_of_app Ho; [by apply Hu|]. cbn in Ho. destruct Ho; congruence.
Qed.

Lemma log_thread_close_runs sourceId t : has_file (lt_logFiles t) → log_filename sourceId ≠ path →
  ∃ t', log_thread_close (mkIpcPacket ServerOp_LogClose sourceId 0 None) t = (Ok tt, t') ∧
    has_file (lt_logFiles t') ∧ lt_inQueue t' = lt_inQueue t ∧ content t' = content t.
Proof.
  intros Hf Hne. assert (Hs : sourceId ≠ s) by congruence. unfold log_thread_close. rewrite bind_gets. cbn [p_sourceId].
  destruct (log_thread_get_file sourceId (lt_logFiles t)) as [[i file]|] eqn:Hg; [|by exists t].
  apply list_find_Some in Hg as (Hi & Hsrc & _).
  assert (Hcl : ∃ t1, match lf_fp file with Some other => log_thread_close_file other | None => mret tt end t = (Ok tt, t1) ∧
    content t1 = content t ∧ lt_logFiles t1 = lt_logFiles t ∧ lt_inQueue t1 = lt_inQueue t).
  { destruct (lf_fp file) as [other|] eqn:Hfp; [|by exists t].
    refine (fwrite_timed_other other (text " ==== Log File Closed ====" ++ [10]) t _). intros ->.
    pose proof (proj2 Hf _ (list_elem_of_lookup_2 _ _ _ Hi) (or_intror Hfp)) as ->. done. }
  destruct Hcl as (t1 & Hrun & Hc & Hfs & Hq). rewrite (bind_ok _ _ _ _ _ Hrun). eexists. split; [done|]. cbn.
  rewrite Hfs. split_and!; [|done..]. apply (swap_out_has_file i file); congruence.
Qed.

Lemma log_packet_ok_runs packet t : has_file (lt_logFiles t) → log_packet_ok packet →
  ∃ t', log_packet can_open moves stack packet t = (Ok tt, t') ∧ has_file (lt_logFiles t') ∧ lt_inQueue t' = lt_inQueue t ∧
    content t' = content t ++ as_lines (option_list (message_of packet)).
Proof.
  intros Hf [(sourceId & message & Hne & ->)|(is_open & sourceId & -> & Hother & Hok)].
  - assert (length message ≠ 0%nat) by (by destruct message).
    unfold log_packet, log_thread_write, message_packet, message_of. cbn [p_opcode p_data p_length p_sourceId Z.eqb andb].
    rewrite Z.eqb_refl, (proj2 (Z.ltb_lt 0 _)) by lia. cbn [andb]. run. destruct (Z.eqb_spec sourceId s) as [->|Hs].
    + destruct (has_file_found _ Hf) as [i ->]. eexists. split_and!; [done..|]. unfold content, as_lines. cbn.
      by rewrite lookup_insert_eq, app_nil_r.
    + unfold as_lines. simpl. rewrite app_nil_r.
      destruct (log_thread_get_file sourceId (lt_logFiles t)) as [[i [src [other|]]]|] eqn:Hg; [|by exists t..].
      apply list_find_Some in Hg as (Hi & Hsrc & _). cbn in Hsrc.
      destruct (fwrite_other other (message ++ [10]) t) as (t' & -> & Hc & Hfs & Hq).
      { intros ->. pose proof (proj2 Hf _ (list_elem_of_lookup_2 _ _ _ Hi) (or_intror eq_refl)) as [= Heq]. congruence. }
      exists t'. by rewrite Hfs.
  - unfold message_of. cbn [p_opcode p_sourceId]. replace (log_mark is_open =? ServerOp_LogMessage) with false by (by destruct is_open).
    cbn [andb]. unfold as_lines. simpl. rewrite app_nil_r. destruct is_open; [by apply log_thread_open_runs|by apply log_thread_close_runs].
Qed.

Lemma packets_run packets : ∀ t, has_file (lt_logFiles t) → Forall log_packet_ok packets →
  ∃ t', each packets (log_packet can_open moves stack) t = (Ok tt, t') ∧ has_file (lt_logFiles t') ∧ lt_inQueue t' = lt_inQueue t ∧
    content t' = content t ++ as_lines (omap message_of packets).
Proof.
  induction packets as [|packet packets IH]; intros t Hf Hok.
  { exists t. unfold as_lines. simpl. by rewrite app_nil_r. }
  apply Forall_cons in Hok as [Hp Hok]. destruct (log_packet_ok_runs packet t Hf Hp) as (t1 & Hrun & Hf1 & Hq1 & Hc1).
  destruct (IH t1 Hf1 Hok) as (t2 & Hrun2 & Hf2 & Hq2 & Hc2). exists t2. cbn [each]. rewrite (bind_ok _ _ _ _ _ Hrun).
  split_and!; [done..|congruence|]. rewrite Hc2, Hc1, <- app_assoc. f_equal.
  unfold as_lines. destruct (message_of packet) as [m|] eqn:Hm; cbn; rewrite Hm; cbn; [by rewrite app_nil_r|done].
Qed.
(** ** The log writer *)
Lemma log_packet_ok_opcode packet : log_packet_ok packet → (p_opcode packet =? ServerOp_Shutdown) = false.
Proof. by intros [(? & ? & _ & ->)|([] & ? & -> & _)]. Qed.

Lemma forwards_all fuel : ∀ b t, idle b → (length (contents b) < fuel)%nat → Forall log_packet_ok (contents b) →
  ∃ b', log_writer_main_loop fuel (b, t) = (Ok false, (b', t <| lt_inQueue := lt_inQueue t ++ contents b |>)) ∧
    idle b' ∧ contents b' = [].
Proof.
  induction fuel as [|fuel IH]; intros b t Hb Hf Hok; [lia|]. cbn [log_writer_main_loop fst snd].
  destruct (read_step b Hb) as [Hread Htl]. rewrite Hread. pose proof (read_idle b Hb) as Hb'.
  destruct (contents b) as [|packet q] eqn:Hq.
  - exists b. rewrite app_nil_r. split_and!; [by destruct t|done..].
  - specialize (Htl ltac:(done)). cbn [tail] in Htl. apply Forall_cons in Hok as [Hp Hok].
    rewrite (log_packet_ok_opcode _ Hp).
    destruct (IH (read_from b) (snd (log_thread_post_message packet t)) Hb') as (b2 & Hrun & Hb2 & He).
    { rewrite Htl. simpl in Hf. lia. } { by rewrite Htl. }
    rewrite Htl in Hrun. rewrite Hrun. exists b2. split_and!; [|done..]. do 2 f_equal. destruct t. cbn. by rewrite <- app_assoc.
Qed.

(** ** All together *)

(** What waits in the buffer and what the thread still has, after [text]. *)
Record logged (text : list Z) (waiting : nat) (w : IpcBuffer * LogThread) : Prop := {
  l_idle : idle w.1;
  l_waiting : length (contents w.1) = waiting;
  l_file : has_file (lt_logFiles w.2);
  l_rest : lt_writeQueue w.2 = [];
  l_ok : Forall log_packet_ok (lt_inQueue w.2 ++ contents w.1);
  l_text : content w.2 ++ as_lines (omap message_of (lt_inQueue w.2 ++ contents w.1)) = text;
}.

Lemma as_lines_app xs ys : as_lines (xs ++ ys) = as_lines xs ++ as_lines ys.
Proof. unfold as_lines. by rewrite fmap_app, concat_app. Qed.

Lemma write_logged timestamp clock opcode sourceId length_ data text waiting b t :
  logged text waiting (b, t) → sendable length_ data → Exists (λ now, 10 ≤ u64 (now - timestamp)) clock →
  log_packet_ok (received opcode sourceId length_ data) →
  ∃ r b', ipc_buffer_write timestamp clock opcode sourceId length_ data b = (Ok r, b') ∧
    if (waiting <? 511)%nat
    then logged (text ++ as_lines (option_list (message_of (received opcode sourceId length_ data)))) (S waiting) (b', t)
    else logged text waiting (b', t).
Proof.
  intros [Hb Hw Hf Hr Hok Ht] Hs Hc Hp. cbn [fst snd] in *.
  destruct (op_refines (OpWrite timestamp clock opcode sourceId length_ data) b Hb (conj Hs Hc)) as (b' & Hrun & Hb' & Hc').
  cbn [run_op queue_op] in Hrun, Hc'. rewrite Hw in Hrun, Hc'. apply bind_inv in Hrun as (r & b1 & Hrun & [= Hr' ->]).
  exists r, b'. split; [done|]. destruct (waiting <? 511)%nat; cbn [fst snd] in *.
  - split; cbn [fst snd]; [done|rewrite Hc', length_app; simpl; lia|done..| |].
    + rewrite Hc', app_assoc. apply Forall_app. split; [done|by apply Forall_singleton].
    + rewrite Hc', app_assoc, omap_app, as_lines_app, app_assoc, Ht. done.
  - by split; cbn [fst snd]; rewrite ?Hc'.
Qed.

Lemma handles_logged text waiting b t : logged text waiting (b, t) →
  ∃ r t', log_thread_round can_open moves stack t = (Ok r, t') ∧ logged text waiting (b, t') ∧ lt_inQueue t' = [].
Proof.
  intros [Hb Hw Hf Hr Hok Ht]. cbn [fst snd] in *. unfold log_thread_round, log_thread_read_input_queue, log_thread_process_write_queue.
  destruct (lt_inQueue t) as [|packet q] eqn:Hq.
  - run. rewrite Hq. eexists _, _. split; [done|]. split; [|done]. split; cbn; rewrite ?app_nil_r; done.
  - set (packets := packet :: q) in *. apply Forall_app in Hok as [Hok1 Hok2].
    set (t0 := t <| lt_writeQueue := lt_writeQueue t ++ packets |> <| lt_inQueue := [] |>).
    destruct (packets_run packets t0 Hf Hok1) as (t1 & Hrun & Hf1 & Hq1 & Hc1).
    exists true, (t1 <| lt_writeQueue := [] |>). split_and!; [|split; cbn [fst snd]|done]; try done.
    + run. rewrite Hq. fold packets. fold t0. unfold packets at 1. cbn [length].
      replace (lt_writeQueue t0) with packets by (cbn; by rewrite Hr). unfold mbind, code_bind in Hrun. rewrite Hrun. done.
    + cbn. by rewrite Hq1.
    + cbn. rewrite Hq1. cbn. rewrite <- Ht, omap_app, as_lines_app, app_assoc. f_equal. exact Hc1.
Qed.

Lemma forwards_logged text waiting b t : logged text waiting (b, t) →
  ∃ r b' t', log_writer_main_loop 512 (b, t) = (Ok r, (b', t')) ∧ logged text 0 (b', t').
Proof.
  intros [Hb Hw Hf Hr Hok Ht]. cbn [fst snd] in *. pose proof (proj1 (Forall_app _ _ _) Hok) as [_ Hok2].
  destruct (forwards_all 512 b t Hb) as (b' & Hrun & Hb' & Hc'); [|done|].
  { rewrite (contents_size b Hb). destruct (i_read b Hb), (i_write b Hb). pose proof num_packets.
    pose proof (between_lt (readEnd b) (writeEnd b)). lia. }
  eexists _, _, _. split; [done|]. split; cbn [fst snd]; rewrite ?Hc'; try done; cbn; by rewrite app_nil_r.
Qed.

Lemma as_lines_singleton_if (c : bool) m : as_lines (option_list (if c then Some m else None)) = as_lines (if c then [m] else []).
Proof. by destruct c. Qed.

Lemma logs_event timestamp clock sourceId type time formatted text waiting b t :
  logged text waiting (b, t) → Exists (λ now, 10 ≤ u64 (now - timestamp)) clock → time ≠ [] →
  let message := logged_message type time formatted in
  ∃ b', log_event_code (Logs timestamp clock sourceId type time formatted) (b, t) = (Ok tt, (b', t)) ∧
    if bool_decide (message ≠ []) && (waiting <? 511)%nat
    then logged (text ++ as_lines (if sourceId =? s then [message] else [])) (S waiting) (b', t)
    else logged text waiting (b', t).
Proof.
  intros Hw Hc Ht message. destruct (log_construct_message_ok time type formatted Ht) as [Hm Hlen]. fold message in Hm, Hlen.
  cbn [log_event_code]. unfold in_buffer, log_from_vformat. cbn [fst snd]. rewrite (bind_lift _ _ _ _ Hm).
  case_bool_decide as Hne; cbn [andb]; [|exists b; by rewrite Hne].
  destruct (received_message sourceId message Hne Hlen) as [Hrec Hs].
  destruct (write_logged timestamp clock ServerOp_LogMessage sourceId _ _ text waiting b t Hw Hs Hc) as (r & b' & Hrun & Hl).
  { rewrite Hrec. left. by exists sourceId, message. }
  rewrite Hrec in Hl. unfold message_of, message_packet in Hl. cbn [p_opcode p_sourceId p_data] in Hl.
  rewrite Z.eqb_refl, andb_true_l, as_lines_singleton_if in Hl.
  exists b'. split; [|done]. destruct message as [|c0 m0]; [done|]. rewrite (bind_ok _ _ _ _ _ Hrun). done.
Qed.

Lemma events_logged events : ∀ text waiting w, logged text waiting w → Forall (event_ok s) events →
  ∃ w' waiting', each events log_event_code w = (Ok tt, w') ∧ logged (text ++ as_lines (logged_by s events waiting)) waiting' w'.
Proof.
  induction events as [|event events IH]; intros text waiting [b t] Hw Hok.
  { eexists _, _. split; [done|]. cbn. by rewrite app_nil_r. }
  apply Forall_cons in Hok as [He Hok]. cbn [each].
  destruct event as [timestamp clock sourceId type time formatted|timestamp clock is_open sourceId| |]; cbn [logged_by].
  - destruct He as [Hc Ht]. destruct (log_construct_message_ok time type formatted Ht) as [_ Hlen].
    destruct (logs_event timestamp clock sourceId type time formatted text waiting b t Hw Hc Ht) as (b' & Hrun & Hl).
    rewrite (bind_ok _ _ _ _ _ Hrun). cbn zeta. set (message := logged_message type time formatted) in *.
    case_bool_decide; cbn [andb]; [destruct (waiting <? 511)%nat|]; destruct (IH _ _ (b', t) Hl Hok) as (w' & n' & Hrun' & Hl');
      exists w', n'; rewrite ?as_lines_app, ?app_assoc; done.
  - destruct He as (Hc & Hne & Hor).
    destruct (write_logged timestamp clock (log_mark is_open) sourceId 0 None text waiting b t Hw) as (r & b' & Hrun & Hl);
      [by split_and!|done|right; by exists is_open, sourceId|].
    assert (Hev : log_event_code (Marks timestamp clock is_open sourceId) (b, t) = (Ok tt, (b', t))).
    { cbn [log_event_code]. unfold in_buffer. cbn [fst snd]. by rewrite (bind_ok _ _ _ _ _ Hrun). }
    rewrite (bind_ok _ _ _ _ _ Hev).
    assert (Hnone : message_of (received (log_mark is_open) sourceId 0 None) = None) by (by destruct is_open).
    rewrite Hnone, app_nil_r in Hl.
    destruct (waiting <? 511)%nat; by destruct (IH _ _ (b', t) Hl Hok) as (w' & n' & Hrun' & Hl'); exists w', n'.
  - cbn [log_event_code]. destruct (forwards_logged text waiting b t Hw) as (r & b' & t' & Hrun & Hl).
    rewrite bind_assoc, (bind_ok _ _ _ _ _ Hrun), bind_ret. by apply (IH _ _ (b', t')).
  - cbn [log_event_code]. destruct (handles_logged text waiting b t Hw) as (r & t' & Hrun & Hl & _).
    rewrite bind_assoc. erewrite bind_ok by (unfold in_thread; cbn [fst snd]; by rewrite Hrun).
    rewrite bind_ret. by apply (IH _ _ (b, t')).
Qed.

Lemma each_app {S A} (xs ys : list A) (f : A → code S unit) w w' : each xs f w = (Ok tt, w') → each (xs ++ ys) f w = each ys f w'.
Proof.
  revert w. induction xs as [|x xs IH]; intros w; cbn [each app]; [by intros [= ->]|].
  intros ([] & w1 & Hx & H)%bind_inv. rewrite (bind_ok _ _ _ _ _ Hx). by apply IH.
Qed.

(** C10: A source has its log file open, and nobody else logs to that file.
    Processes log, open and close their logs, the log writer forwards what it
    finds in its buffer and the log thread handles its queue, in any order; at
    the end the log writer and the thread have their turns once more. Then the
    file got exactly the messages of that source that found room in the buffer,
    each one as a line, in the order they were logged. *)
Theorem logged_messages_reach_their_file b t events :
  idle b → contents b = [] → lt_inQueue t = [] → lt_writeQueue t = [] → has_file (lt_logFiles t) → Forall (event_ok s) events →
  ∃ w, each (events ++ [Forwards; Handles]) log_event_code (b, t) = (Ok tt, w) ∧
    content w.2 = content t ++ as_lines (logged_by s events 0).
Proof.
  intros Hb Hc Hq Hr Hf Hok.
  assert (Hl : logged (content t) 0 (b, t)).
  { split; cbn [fst snd]; rewrite ?Hc, ?Hq; try done. cbn. apply app_nil_r. }
  destruct (events_logged events _ _ _ Hl Hok) as ([b1 t1] & n1 & Hrun & Hl1).
  destruct (forwards_logged _ _ _ _ Hl1) as (r2 & b2 & t2 & Hrun2 & Hl2).
  destruct (handles_logged _ _ _ _ Hl2) as (r3 & t3 & Hrun3 & [_ Hwait _ _ _ Ht] & Hq3). cbn [fst snd] in *.
  apply nil_length_inv in Hwait. rewrite Hwait, Hq3, app_nil_r in Ht.
  exists (b2, t3). split; [|done]. rewrite (each_app _ _ _ _ _ Hrun). cbn [each log_event_code].
  rewrite bind_assoc, (bind_ok _ _ _ _ _ Hrun2), bind_ret, bind_assoc.
  erewrite bind_ok by (unfold in_thread; cbn [fst snd]; by rewrite Hrun3). done.
Qed.
End LogSpec.

(** The login server logs twice, while a zone cluster opens its log, logs and
    closes it again; the thread handles the first message only after the zone
    cluster's log is open. *)
Definition login_logs : LogThread :=
  log_thread_init {[log_filename LOG_LOGIN := text "old" ++ [10]]} (replicate 4 (text "[now]")) <| lt_logFiles := [mkLogFile LOG_LOGIN (Some (log_filename LOG_LOGIN))] |>.

Lemma logged_messages_reach_their_file_witness :
  let events := [Marks 5 [15] true 1000003; Logs 5 [15] LOG_LOGIN LogInfo (text "[now]") (text "up"); Forwards;
                 Logs 6 [16] 1000003 LogError (text "[now]") (text "no"); Handles; Logs 7 [17] LOG_LOGIN LogNetwork (text "[now]") (text "bye");
                 Marks 8 [18] false 1000003] in
  ∃ w, each (events ++ [Forwards; Handles]) (log_event_code (λ _, true) (λ _, true) []) (ipc_buffer_init (λ _, replicate 4096 0), login_logs) = (Ok tt, w) ∧
    content LOG_LOGIN w.2 = text "old" ++ [10] ++ text "[now][Info] up" ++ [10] ++ text "[now][Net] bye" ++ [10].
Proof.
  intros events.
  assert (Hi : idle (ipc_buffer_init (λ _, replicate 4096 0))) by (apply init_idle; intros; by rewrite length_replicate).
  destruct (logged_messages_reach_their_file (λ _, true) (λ _, true) [] LOG_LOGIN (ipc_buffer_init (λ _, replicate 4096 0)) login_logs events)
    as (w & Hrun & Ht).
  - exact Hi.
  - by apply contents_nil.
  - done.
  - done.
  - split; [by apply list_elem_of_singleton|]. by intros file ->%list_elem_of_singleton _.
  - unfold events. rewrite !Forall_cons. split_and!; try done.
    all: try (split_and!; [apply Exists_cons_hd; by vm_compute|by vm_compute|by left]).
    all: split; [apply Exists_cons_hd; by vm_compute|by vm_compute].
  - exists w. split; [exact Hrun|]. rewrite Ht. by vm_compute.
Defined.
