(* ===== verification/IpcSteps.v ===== *)
(** The packet buffer used by several processes at once: the code of
    common/sync/ipc_buffer.c as atomic steps. Every call of ipc_buffer_write
    and ipc_buffer_read is a thread with a program counter; each step does one
    atomic load, store or compare-and-exchange (the copies of a block's fields
    are one step). [choice] is what the hardware and the clock decide: a weak
    exchange failing for no reason, ten milliseconds having passed. A thread
    remembers the block it reserved in [slot], which the code does not use. *)

From S2P Require Import Prelude Aligned IpcBuffer.

Record message := mkMessage { m_opcode : Z; m_sourceId : Z; m_length : Z; m_data : option (list Z) }.

Inductive writer_pc :=
  | WLoad                   (* index = atomic_load(writeEnd) *)
  | WCheck (index : nat)    (* block->nextIndex == atomic_load(readStart) *)
  | WCas (index : nat)      (* exchange writeEnd *)
  | WFill (index : nat)     (* opcode, sourceId, length, memcpy *)
  | WStore (index : nat)    (* atomic_store(hasBeenWritten, 1) *)
  | WIndex                  (* index = atomic_load(writeStart) *)
  | WClear (index : nat)    (* exchange hasBeenWritten 1 -> 0 *)
  | WAdvance (index : nat)  (* exchange writeStart *)
  | WTrigger                (* semaphore_trigger *)
  | WDone (ok : bool).

Inductive reader_pc :=
  | RLoad
  | RCheck (index : nat)
  | RCas (index : nat)
  | RCopy (index : nat)
  | RStore (index : nat) (packet : IpcPacket)
  | RIndex (packet : IpcPacket)
  | RClear (index : nat) (packet : IpcPacket)
  | RAdvance (index : nat) (packet : IpcPacket)
  | RDone (packet : option IpcPacket).

Definition wstep (m : message) (choice : bool) (pc : writer_pc) : code IpcBuffer writer_pc :=
  match pc with
  | WLoad => index ← gets writeEnd; mret (WCheck index)
  | WCheck index =>
      block ← block_at index;
      rs ← gets readStart;
      mret (if (nextIndex block =? rs)%nat then (if choice then WDone false else WLoad) else WCas index)
  | WCas index =>
      block ← block_at index;
      we ← gets writeEnd;
      if (we =? index)%nat && negb choice then modify (set_writeEnd (nextIndex block)) ;; mret (WFill index)
      else mret WLoad
  | WFill index =>
      (if data_reaches (m_length m) (m_data m) then mret tt else fault) ;;
      upd_block index (fill_block (m_opcode m) (m_sourceId m) (m_length m) (m_data m)) ;;
      mret (WStore index)
  | WStore index => upd_block index (set_written_flag 1) ;; mret WIndex
  | WIndex => index ← gets writeStart; mret (WClear index)
  | WClear index =>
      block ← block_at index;
      if hasBeenWritten block =? 1 then upd_block index (set_written_flag 0) ;; mret (WAdvance index)
      else mret WTrigger
  | WAdvance index =>
      block ← block_at index;
      ws ← gets writeStart;
      (if (ws =? index)%nat then modify (set_writeStart (nextIndex block)) else mret tt) ;;
      mret WIndex
  | WTrigger => modify (λ b, set_semaphore (semaphore b + 1) b) ;; mret (WDone true)
  | WDone ok => mret (WDone ok)
  end.

Definition rstep (choice : bool) (pc : reader_pc) : code IpcBuffer reader_pc :=
  match pc with
  | RLoad => index ← gets readEnd; mret (RCheck index)
  | RCheck index => ws ← gets writeStart; mret (if (index =? ws)%nat then RDone None else RCas index)
  | RCas index =>
      block ← block_at index;
      re ← gets readEnd;
      if (re =? index)%nat && negb choice then modify (set_readEnd (nextIndex block)) ;; mret (RCopy index)
      else mret RLoad
  | RCopy index =>
      block ← block_at index;
      packet ← lift (ipc_packet_init (b_opcode block) (b_sourceId block) (b_length block) (Some (b_data block)));
      mret (RStore index packet)
  | RStore index packet => upd_block index (set_read_flag 1) ;; mret (RIndex packet)
  | RIndex packet => index ← gets readStart; mret (RClear index packet)
  | RClear index packet =>
      block ← block_at index;
      if hasBeenRead block =? 1 then upd_block index (set_read_flag 0) ;; mret (RAdvance index packet)
      else mret (RDone (Some packet))
  | RAdvance index packet =>
      block ← block_at index;
      rs ← gets readStart;
      (if (rs =? index)%nat then modify (set_readStart (nextIndex block)) else mret tt) ;;
      mret (RIndex packet)
  | RDone packet => mret (RDone packet)
  end.

Inductive thread :=
  | Writer (m : message) (pc : writer_pc) (slot : option nat)
  | Reader (pc : reader_pc) (slot : option nat).

Definition thread_step (choice : bool) (t : thread) : code IpcBuffer thread :=
  match t with
  | Writer m pc slot =>
      pc ← wstep m choice pc;
      mret (Writer m pc (match pc with WFill k => Some k | _ => slot end))
  | Reader pc slot =>
      pc ← rstep choice pc;
      mret (Reader pc (match pc with RCopy k => Some k | _ => slot end))
  end.

Record config := mkConfig { shared : IpcBuffer; threads : list thread }.

(** Any thread takes the next step. *)
Inductive step : config → config → Prop :=
  | step_thread c i choice t t' b' :
      threads c !! i = Some t → thread_step choice t (shared c) = (Ok t', b') →
      step c (mkConfig b' (<[i := t']> (threads c))).

(** Following a schedule: threads and what the hardware decided. *)
Fixpoint follow (schedule : list (nat * bool)) (c : config) : option config :=
  match schedule with
  | [] => Some c
  | (i, choice) :: schedule =>
      match threads c !! i with
      | Some t =>
          match thread_step choice t (shared c) with
          | (Ok t', b') => follow schedule (mkConfig b' (<[i := t']> (threads c)))
          | _ => None
          end
      | None => None
      end
  end.
