(* ===== verification/IpcStepsSpec.v ===== *)
(** Interleaved writers and readers of one packet buffer: as long as the ring
    has not been filled once since it was made, no interleaving loses,
    repeats or reorders a packet; a writer that sleeps while the others go
    once around the ring can block the buffer for good. *)

From S2P Require Import Prelude Aligned IpcBuffer IpcBufferSpec IpcSteps.

(** ** What the proof looks at *)

(** A block up to its read flag. *)
Definition bl (b : IpcBuffer) (k : nat) : option IpcBlock := set_read_flag 0 <$> blocks b !! k.
Definition written (b : IpcBuffer) (k : nat) : Prop := hasBeenWritten <$> bl b k = Some 1.

Definition sent (m : message) : IpcPacket := received (m_opcode m) (m_sourceId m) (m_length m) (m_data m).

(** Block [k] holds message [m]. *)
Definition holds (b : IpcBuffer) (k : nat) (m : message) : Prop :=
  ∃ block, bl b k = Some block ∧ 0 ≤ b_length block ≤ PACKET_MAX_SIZE ∧ packet_of block = sent m.

Definition is_writer (t : thread) : Prop := match t with Writer _ _ _ => True | Reader _ _ => False end.
#[export] Instance is_writer_dec t : Decision (is_writer t).
Proof. destruct t; apply _. Defined.
Definition wslot (t : thread) : option nat := match t with Writer _ _ slot => slot | Reader _ _ => None end.
Definition rslot (t : thread) : option nat := match t with Reader _ slot => slot | Writer _ _ _ => None end.

(** The writer has set the flag of its block. *)
Definition stored_pc (pc : writer_pc) : Prop :=
  match pc with WIndex | WClear _ | WAdvance _ | WTrigger | WDone true => True | _ => False end.

Definition at_advance (t : thread) : Prop := match t with Writer _ (WAdvance _) _ => True | _ => False end.
(** The thread will look at the flag of block [s]. *)
Definition will_look (s : nat) (t : thread) : Prop :=
  match t with Writer _ WIndex _ => True | Writer _ (WClear k) _ => k = s | _ => False end.

Definition all_stored (l : list thread) (k : nat) : Prop :=
  ∀ i m pc, l !! i = Some (Writer m pc (Some k)) → stored_pc pc.

(** The message of block [j] is there to stay and [writeStart] has passed or
    will pass it. *)
Definition kept_in (b : IpcBuffer) (l : list thread) (j : nat) (m : message) : Prop :=
  (j < writeEnd b)%nat ∧ holds b j m ∧
  ((j < writeStart b)%nat ∨ written b j ∨ (j = writeStart b ∧ ∃ i t, l !! i = Some t ∧ at_advance t)).

Definition writer_ok (b : IpcBuffer) (l : list thread) (m : message) (pc : writer_pc) (slot : option nat) : Prop :=
  match pc with
  | WLoad | WDone false => slot = None
  | WCheck k | WCas k => slot = None ∧ (k ≤ writeEnd b)%nat
  | WFill k => slot = Some k ∧ (writeStart b ≤ k < writeEnd b)%nat
  | WStore k => slot = Some k ∧ (writeStart b ≤ k < writeEnd b)%nat ∧ holds b k m
  | WIndex | WTrigger | WDone true => ∃ j, slot = Some j ∧ kept_in b l j m
  | WClear k => (k ≤ writeStart b)%nat ∧ ∃ j, slot = Some j ∧ kept_in b l j m
  | WAdvance k => k = writeStart b ∧ (k < writeEnd b)%nat ∧ ¬ written b k ∧ all_stored l k ∧
      ∃ j, slot = Some j ∧ kept_in b l j m
  end.

(** The packet read is the one its block's writer sent. *)
Definition got (l : list thread) (k : nat) (p : IpcPacket) : Prop :=
  ∃ i m pc, l !! i = Some (Writer m pc (Some k)) ∧ p = sent m.

Definition reader_ok (b : IpcBuffer) (l : list thread) (pc : reader_pc) (slot : option nat) : Prop :=
  match pc with
  | RLoad | RDone None => slot = None
  | RCheck k => slot = None ∧ (k ≤ readEnd b)%nat
  | RCas k => slot = None ∧ (k < writeStart b)%nat
  | RCopy k => slot = Some k ∧ (k < readEnd b)%nat
  | RStore k p => slot = Some k ∧ (k < readEnd b)%nat ∧ got l k p
  | RIndex p | RDone (Some p) => ∃ k, slot = Some k ∧ got l k p
  | RClear i p | RAdvance i p => (i < N)%nat ∧ ∃ k, slot = Some k ∧ got l k p
  end.

Definition thread_ok (b : IpcBuffer) (l : list thread) (t : thread) : Prop :=
  match t with
  | Writer m pc slot => sendable (m_length m) (m_data m) ∧ writer_ok b l m pc slot
  | Reader pc slot => reader_ok b l pc slot
  end.

Record inv (b : IpcBuffer) (l : list thread) : Prop := {
  v_blocks k : (k < N)%nat → ∃ block, bl b k = Some block ∧ nextIndex block = nxt k ∧
    Z.of_nat (length (b_data block)) = PACKET_MAX_SIZE;
  v_order : (readEnd b ≤ writeStart b ≤ writeEnd b)%nat;
  v_readStart : (readStart b < N)%nat;
  v_wslots : omap wslot l ≡ₚ seq 0 (writeEnd b);
  v_rslots : omap rslot l ≡ₚ seq 0 (readEnd b);
  v_writers : (length (filter is_writer l) ≤ 511)%nat;
  v_thread i t : l !! i = Some t → thread_ok b l t;
  v_flag k : written b k → (writeStart b ≤ k < writeEnd b)%nat ∧ all_stored l k;
  v_live : written b (writeStart b) → ∃ i t, l !! i = Some t ∧ will_look (writeStart b) t;
  v_once i j t u : l !! i = Some t → l !! j = Some u → at_advance t → at_advance u → i = j;
}.

(** ** Lists of threads *)
Section Slots.
Context {A : Type} (f : A → option nat).

Lemma omap_middle (l : list A) i x : l !! i = Some x → ∃ l1 l2, l = l1 ++ x :: l2 ∧ length l1 = i ∧
  (∀ y, <[i:=y]> l = l1 ++ y :: l2).
Proof.
  intros Hi. pose proof (lookup_lt_Some _ _ _ Hi). exists (take i l), (drop (S i) l).
  split_and!; [by rewrite take_drop_middle|rewrite length_take; lia|].
  intros y. by rewrite list_insert_take_drop.
Qed.

Lemma omap_same (l : list A) i x y : l !! i = Some x → f x = f y → omap f (<[i:=y]> l) = omap f l.
Proof.
  intros Hi Hf. destruct (omap_middle l i x Hi) as (l1 & l2 & -> & _ & ->).
  rewrite !omap_app. cbn. by rewrite Hf.
Qed.

Lemma omap_gains (l : list A) i x y k : l !! i = Some x → f x = None → f y = Some k → omap f (<[i:=y]> l) ≡ₚ k :: omap f l.
Proof.
  intros Hi Hx Hy. destruct (omap_middle l i x Hi) as (l1 & l2 & -> & _ & ->).
  rewrite !omap_app. cbn. rewrite Hx, Hy. by rewrite Permutation_middle.
Qed.

Lemma omap_once (l : list A) i j x y k : NoDup (omap f l) → l !! i = Some x → l !! j = Some y → f x = Some k → f y = Some k → i = j.
Proof.
  revert i j. induction l as [|z l IH]; intros i j Hnd Hi Hj Hx Hy; [done|].
  assert (Hin : ∀ n w, l !! n = Some w → f w = Some k → k ∈ omap f l).
  { intros n w Hn Hw. apply list_elem_of_omap. exists w. split; [by eapply list_elem_of_lookup_2|done]. }
  cbn in Hnd. destruct i as [|i], j as [|j]; [done| | |].
  - injection Hi as ->. rewrite Hx in Hnd. apply NoDup_cons in Hnd as [Hk _]. destruct Hk. by apply (Hin j y).
  - injection Hj as ->. rewrite Hy in Hnd. apply NoDup_cons in Hnd as [Hk _]. destruct Hk. by apply (Hin i x).
  - f_equal. apply IH; try done. destruct (f z); [by apply NoDup_cons in Hnd as [_ ?]|done].
Qed.
End Slots.

Lemma filter_writers (l : list thread) i t t' : l !! i = Some t → (is_writer t ↔ is_writer t') →
  length (filter is_writer (<[i:=t']> l)) = length (filter is_writer l).
Proof.
  intros Hi Hw. destruct (omap_middle l i t Hi) as (l1 & l2 & -> & _ & ->).
  rewrite !filter_app, !length_app, !filter_cons. repeat case_decide; done || tauto.
Qed.

Lemma slot_once b l i j t u k : inv b l → l !! i = Some t → l !! j = Some u → wslot t = Some k → wslot u = Some k → i = j.
Proof.
  intros Hv. apply omap_once. rewrite (v_wslots _ _ Hv). apply NoDup_seq.
Qed.

(** Every reserved block has its writer. *)
Lemma slot_owner b l k : inv b l → (k < writeEnd b)%nat → ∃ i m pc, l !! i = Some (Writer m pc (Some k)).
Proof.
  intros Hv Hk. assert (Hin : k ∈ omap wslot l).
  { rewrite (v_wslots _ _ Hv). apply elem_of_seq. lia. }
  apply list_elem_of_omap in Hin as (t & [i Hi]%list_elem_of_lookup & Ht).
  destruct t as [m pc slot|]; [|done]. simpl in Ht. subst. by exists i, m, pc.
Qed.

(** ** What a step of one thread leaves to the others *)
Definition evolves (t t' : thread) : Prop :=
  match t, t' with
  | Writer m pc slot, Writer m' pc' slot' =>
      m' = m ∧ (∀ k, slot = Some k → slot' = Some k) ∧ (stored_pc pc → stored_pc pc')
  | Reader _ _, Reader _ _ => True
  | _, _ => False
  end.

Lemma all_stored_step l i t t' k : l !! i = Some t → evolves t t' → (wslot t' = Some k → wslot t = Some k) →
  all_stored l k → all_stored (<[i:=t']> l) k.
Proof.
  intros Hi He Hs Ha j m pc Hj. destruct (decide (j = i)) as [->|Hne].
  - rewrite list_lookup_insert_eq in Hj by (by eapply lookup_lt_Some). injection Hj as ->.
    destruct t as [m0 pc0 slot0|]; [|done]. destruct He as (-> & _ & Hst). specialize (Hs eq_refl). simpl in Hs. subst.
    by apply Hst, (Ha i m0).
  - rewrite list_lookup_insert_ne in Hj by done. by apply (Ha j m).
Qed.

Lemma got_step l i t t' k p : l !! i = Some t → evolves t t' → got l k p → got (<[i:=t']> l) k p.
Proof.
  intros Hi He (j & m & pc & Hj & ->). destruct (decide (j = i)) as [->|Hne].
  - rewrite Hi in Hj. injection Hj as ->. destruct t' as [m' pc' slot'|]; [|done].
    destruct He as (-> & Hs & _). exists i, m, pc'. rewrite list_lookup_insert_eq by (by eapply lookup_lt_Some).
    by rewrite (Hs k eq_refl).
  - exists j, m, pc. by rewrite list_lookup_insert_ne.
Qed.

(** A step of thread [i], seen by the others. *)
Record env_step (b : IpcBuffer) (l : list thread) (i : nat) (t : thread) (b' : IpcBuffer) (t' : thread) : Prop := {
  e_thread : l !! i = Some t;
  e_evolves : evolves t t';
  e_slot k : (k < writeEnd b)%nat → wslot t' = Some k → wslot t = Some k;
  e_writeEnd : (writeEnd b ≤ writeEnd b')%nat;
  e_readEnd : (readEnd b ≤ readEnd b')%nat;
  e_writeStart : writeStart b' = writeStart b ∨ (writeStart b' = S (writeStart b) ∧ all_stored l (writeStart b) ∧ at_advance t);
  e_holds k m : (k < writeEnd b)%nat → wslot t = Some k → stored_pc match t with Writer _ pc _ => pc | _ => WLoad end →
    holds b k m → holds b' k m;
  e_holds_others k m : (k < writeEnd b)%nat → wslot t ≠ Some k → holds b k m → holds b' k m;
  e_written k : (k < writeEnd b)%nat → written b k → written b' k ∨ (k = writeStart b' ∧ at_advance t');
  e_advance : at_advance t → at_advance t' ∨ writeStart b' = S (writeStart b);
  e_cleared : ¬ written b (writeStart b) → writeStart b' = writeStart b → written b' (writeStart b) →
    ¬ all_stored l (writeStart b);
}.

Section Env.
Context {b l i t b' t'} (Hv : inv b l) (E : env_step b l i t b' t').

Lemma env_kept j m : (∃ n u, n ≠ i ∧ l !! n = Some u ∧ wslot u = Some j) ∨ (∃ pc, t = Writer m pc (Some j) ∧ stored_pc pc) →
  kept_in b l j m → kept_in b' (<[i:=t']> l) j m.
Proof.
  intros Hown (Hj & Hh & Hk). split_and!; [pose proof (e_writeEnd _ _ _ _ _ _ E); lia| |].
  - destruct Hown as [(n & u & Hn & Hu & Hs)|(pc & -> & Hpc)].
    + apply (e_holds_others _ _ _ _ _ _ E); try done. intros Ht. destruct Hn.
      apply (slot_once b l n i u t j Hv Hu (e_thread _ _ _ _ _ _ E) Hs Ht).
    + by apply (e_holds _ _ _ _ _ _ E).
  - pose proof (lookup_lt_Some _ _ _ (e_thread _ _ _ _ _ _ E)) as Hlt.
    destruct (e_writeStart _ _ _ _ _ _ E) as [Hws|(Hws & _ & _)]; destruct Hk as [Hk|[Hk|[-> Hk]]].
    + left. lia.
    + right. destruct (e_written _ _ _ _ _ _ E j Hj Hk) as [?|[-> Ha]]; [by left|right].
      split; [done|]. exists i, t'. by rewrite list_lookup_insert_eq.
    + destruct Hk as (n & u & Hu & Ha). right. right. split; [done|].
      destruct (decide (n = i)) as [->|Hne].
      * rewrite (e_thread _ _ _ _ _ _ E) in Hu. injection Hu as ->.
        destruct (e_advance _ _ _ _ _ _ E Ha) as [?|]; [|lia]. exists i, t'. by rewrite list_lookup_insert_eq.
      * exists n, u. by rewrite list_lookup_insert_ne.
    + left. lia.
    + destruct (v_flag b l Hv j Hk) as [Hr _]. destruct (decide (j = writeStart b)) as [->|]; [left; lia|].
      right. destruct (e_written _ _ _ _ _ _ E j Hj Hk) as [?|[-> Ha]]; [by left|right].
      split; [done|]. exists i, t'. by rewrite list_lookup_insert_eq.
    + left. lia.
Qed.

(** The other threads stay as they should be. *)
Lemma env_others j u : j ≠ i → l !! j = Some u → thread_ok b' (<[i:=t']> l) u.
Proof.
  intros Hne Hj. pose proof (v_thread b l Hv j u Hj) as Hu. destruct E as [Hi He Hsl Hwe Hre Hws Hh Hho Hw Ha Hc].
  pose proof (v_order b l Hv) as Hord. assert (Hslot : ∀ k, wslot u = Some k → wslot t ≠ Some k).
  { intros k Hk Ht. destruct Hne. apply (slot_once b l j i u t k); auto. }
  destruct u as [m pc slot|pc slot]; cbn [thread_ok] in *.
  - destruct Hu as [Hs Hu]. split; [done|].
    assert (Hkept : ∀ k, slot = Some k → kept_in b l k m → kept_in b' (<[i:=t']> l) k m).
    { intros k -> . apply env_kept. left. by exists j, (Writer m pc (Some k)). }
    assert (Hunst : ∀ k, slot = Some k → ¬ stored_pc pc → (writeStart b ≤ k)%nat → (writeStart b' ≤ k)%nat).
    { intros k -> Hn Hk. destruct Hws as [->|(-> & Hst & _)]; [done|]. destruct (decide (k = writeStart b)) as [->|]; [|lia].
      destruct Hn. by apply (Hst j m). }
    destruct pc as [|k|k|k|k| |k|k| |[]]; cbn [writer_ok] in *; try done.
    + split; [tauto|lia].
    + split; [tauto|lia].
    + destruct Hu as (Hk & Hr). split; [done|]. split; [apply Hunst; auto; lia|lia].
    + destruct Hu as (Hk & Hr & Hhk). split_and!; [done|apply Hunst; auto; lia|lia|].
      apply Hho; [lia| |done]. by apply Hslot.
    + destruct Hu as (k & Hk & Hu). eauto.
    + destruct Hu as (Hr & k' & Hk & Hu). split; [lia|eauto].
    + destruct Hu as (Hk & Hlt & Hnw & Hst & k' & Hs' & Hu).
      assert (Hsame : writeStart b' = writeStart b).
      { destruct Hws as [?|(? & _ & Hat)]; [done|]. destruct Hne. by apply (v_once b l Hv j i _ t Hj Hi). }
      split_and!; [congruence|lia| | |eauto].
      * intros Hw'. subst k. by apply (Hc Hnw Hsame Hw').
      * apply (all_stored_step l i t t'); auto.
    + destruct Hu as (k & Hk & Hu). eauto.
    + destruct Hu as (k & Hk & Hu). eauto.
  - assert (Hg : ∀ k p, got l k p → got (<[i:=t']> l) k p) by (intros k p; by apply (got_step l i t t')).
    assert (writeStart b ≤ writeStart b')%nat by (destruct Hws as [->|[-> _]]; lia). clear Hws.
    destruct pc as [|k|k|k|k p|p|k p|k p|[p|]]; cbn [reader_ok] in *; destruct_and?; split_and?; try done; try lia; naive_solver.
Qed.
End Env.

Lemma inv_step b l i t b' t' : inv b l → env_step b l i t b' t' →
  (∀ k, (k < N)%nat → ∃ block, bl b' k = Some block ∧ nextIndex block = nxt k ∧
    Z.of_nat (length (b_data block)) = PACKET_MAX_SIZE) →
  (readEnd b' ≤ writeStart b' ≤ writeEnd b')%nat → (readStart b' < N)%nat →
  omap wslot (<[i:=t']> l) ≡ₚ seq 0 (writeEnd b') → omap rslot (<[i:=t']> l) ≡ₚ seq 0 (readEnd b') →
  thread_ok b' (<[i:=t']> l) t' →
  (∀ k, written b' k → (writeStart b' ≤ k < writeEnd b')%nat ∧ all_stored (<[i:=t']> l) k) →
  (written b' (writeStart b') → ∃ j u, <[i:=t']> l !! j = Some u ∧ will_look (writeStart b') u) →
  (at_advance t' → ∀ j u, j ≠ i → l !! j = Some u → ¬ at_advance u) →
  inv b' (<[i:=t']> l).
Proof.
  intros Hv E Hb Ho Hr Hws Hrs Ht Hf Hl Ha. pose proof (e_thread _ _ _ _ _ _ E) as Hi. pose proof (lookup_lt_Some _ _ _ Hi) as Hlt.
  split; try done.
  - rewrite (filter_writers l i t t' Hi); [apply Hv|]. pose proof (e_evolves _ _ _ _ _ _ E) as He. by destruct t, t'.
  - intros j u Hj. apply list_lookup_insert_Some in Hj as [(-> & <- & _)|[Hne Hj]]; [done|].
    by apply (env_others Hv E j).
  - intros j1 j2 u1 u2 H1 H2 A1 A2.
    apply list_lookup_insert_Some in H1 as [(-> & <- & _)|[Hn1 H1]];
      apply list_lookup_insert_Some in H2 as [(Heq2 & Hu2 & _)|[Hn2 H2]]; try subst; try done.
    + destruct (Ha A1 _ _ (not_eq_sym Hn2) H2 A2).
    + destruct (Ha A2 _ _ (not_eq_sym Hn1) H1 A1).
    + by apply (v_once b l Hv j1 j2 u1 u2).
Qed.

(** A step that changes neither blocks (but for read flags) nor positions. *)
Record quiet (b : IpcBuffer) (l : list thread) (i : nat) (t : thread) (b' : IpcBuffer) (t' : thread) : Prop := {
  q_thread : l !! i = Some t;
  q_evolves : evolves t t';
  q_slots : wslot t' = wslot t ∧ rslot t' = rslot t;
  q_blocks k : bl b' k = bl b k;
  q_positions : writeStart b' = writeStart b ∧ writeEnd b' = writeEnd b ∧ readEnd b' = readEnd b;
  q_readStart : (readStart b' < N)%nat;
  q_advance : ¬ at_advance t ∧ ¬ at_advance t';
  q_look : will_look (writeStart b) t → written b (writeStart b) → will_look (writeStart b) t';
}.

Lemma quiet_holds b l i t b' t' : quiet b l i t b' t' → ∀ k m, holds b k m → holds b' k m.
Proof. intros Q k m Hh. unfold holds. by rewrite (q_blocks _ _ _ _ _ _ Q). Qed.

Lemma quiet_written b l i t b' t' : quiet b l i t b' t' → ∀ k, written b' k ↔ written b k.
Proof. intros Q k. unfold written. by rewrite (q_blocks _ _ _ _ _ _ Q). Qed.

Lemma quiet_env b l i t b' t' : quiet b l i t b' t' → env_step b l i t b' t'.
Proof.
  intros Q. pose proof (quiet_holds _ _ _ _ _ _ Q) as Hh. pose proof (quiet_written _ _ _ _ _ _ Q) as Hw.
  destruct Q as [Hi He [Hsw Hsr] Hbl (Hws & Hwe & Hre) Hrs [Ha Ha'] Hl].
  split; try done; try lia; auto.
  - intros k _. by rewrite Hsw.
  - intros k _ Hk. left. by apply Hw.
  - intros Hnw _ Hw'. by apply Hw in Hw'.
Qed.

Lemma quiet_step b l i t b' t' : inv b l → quiet b l i t b' t' → thread_ok b' (<[i:=t']> l) t' → inv b' (<[i:=t']> l).
Proof.
  intros Hv Q Ht. pose proof (quiet_written _ _ _ _ _ _ Q) as Hw. apply (inv_step b l i t b' t' Hv (quiet_env _ _ _ _ _ _ Q)).
  all: destruct Q as [Hi He [Hsw Hsr] Hbl (Hws & Hwe & Hre) Hrs [Ha Ha'] Hl]; try done.
  - intros k Hk. rewrite Hbl. by apply Hv.
  - rewrite Hre, Hws, Hwe. apply Hv.
  - rewrite (omap_same wslot l i t t') by done. rewrite Hwe. apply Hv.
  - rewrite (omap_same rslot l i t t') by done. rewrite Hre. apply Hv.
  - intros k Hk. apply Hw in Hk. destruct (v_flag b l Hv k Hk) as [Hr Hst]. rewrite Hws, Hwe. split; [done|].
    apply (all_stored_step l i t t'); try done. by rewrite Hsw.
  - rewrite Hws. intros Hk. apply Hw in Hk. destruct (v_live b l Hv Hk) as (j & u & Hj & Hu).
    pose proof (lookup_lt_Some _ _ _ Hi) as Hlt. destruct (decide (j = i)) as [->|Hne].
    + rewrite Hi in Hj. injection Hj as ->. exists i, t'. rewrite list_lookup_insert_eq by done. auto.
    + exists j, u. by rewrite list_lookup_insert_ne.
Qed.

(** A writer that stored its packet and takes a quiet step. *)
Lemma quiet_kept b l i m pc j b' t' : inv b l → quiet b l i (Writer m pc (Some j)) b' t' → stored_pc pc →
  kept_in b l j m → kept_in b' (<[i:=t']> l) j m.
Proof. intros Hv Q Hpc. apply (env_kept Hv (quiet_env _ _ _ _ _ _ Q)). right. by exists pc. Qed.

(** Reading a block that exists. *)
Lemma inv_block b l k : inv b l → (k < N)%nat → ∃ block, blocks b !! k = Some block ∧ block_at k b = (Ok block, b) ∧
  nextIndex block = nxt k ∧ Z.of_nat (length (b_data block)) = PACKET_MAX_SIZE.
Proof.
  intros Hv Hk. destruct (v_blocks b l Hv k Hk) as (x & Hx & Hn & Hd). unfold bl in Hx.
  destruct (blocks b !! k) as [block|] eqn:Hb; [|done]. injection Hx as <-. exists block. by rewrite (block_at_ok k b block).
Qed.

Lemma slots_le_writers l : (length (omap wslot l) ≤ length (filter is_writer l))%nat.
Proof.
  induction l as [|t l IH]; [done|]. rewrite filter_cons. destruct t as [m pc [k|]|pc slot]; cbn in *; repeat case_decide; cbn; lia || tauto.
Qed.

Lemma writeEnd_bound b l : inv b l → (writeEnd b ≤ 511)%nat.
Proof.
  intros Hv. pose proof (Permutation_length (v_wslots b l Hv)) as Hl. rewrite length_seq in Hl.
  pose proof (v_writers b l Hv). pose proof (slots_le_writers l). lia.
Qed.

(** A writer without a block yet leaves room. *)
Lemma writeEnd_room b l i m pc : inv b l → l !! i = Some (Writer m pc None) → (writeEnd b < 511)%nat.
Proof.
  intros Hv Hi. pose proof (Permutation_length (v_wslots b l Hv)) as Hl. rewrite length_seq in Hl. rewrite <-Hl.
  pose proof (v_writers b l Hv) as Hw. destruct (omap_middle l i _ Hi) as (l1 & l2 & -> & _ & _).
  rewrite filter_app, filter_cons, decide_True, length_app in Hw by done. cbn [length] in Hw.
  rewrite omap_app, length_app. change (omap wslot (Writer m pc None :: l2)) with (omap wslot l2).
  pose proof (slots_le_writers l1). pose proof (slots_le_writers l2). lia.
Qed.

(** ** Steps of readers *)
Lemma bl_set_read b k block v j : blocks b !! k = Some block →
  bl (set_blocks b (<[k := set_read_flag v block]> (blocks b))) j = bl b j.
Proof.
  intros Hk. unfold bl. cbn [blocks set_blocks]. destruct (decide (j = k)) as [->|].
  - rewrite list_lookup_insert_eq by (by eapply lookup_lt_Some). by rewrite Hk.
  - by rewrite list_lookup_insert_ne.
Qed.

Lemma reader_quiet b l i pc pc' slot b' : l !! i = Some (Reader pc slot) → (∀ k, bl b' k = bl b k) →
  writeStart b' = writeStart b → writeEnd b' = writeEnd b → readEnd b' = readEnd b → (readStart b' < N)%nat →
  quiet b l i (Reader pc slot) b' (Reader pc' slot).
Proof. intros. split; cbn; auto; tauto. Qed.

Lemma reader_keeps l i pc pc' slot k p : l !! i = Some (Reader pc slot) → got l k p →
  got (<[i := Reader pc' slot]> l) k p.
Proof. intros Hi. by apply (got_step l i (Reader pc slot)). Qed.

(** A block reserved by a reader holds its writer's message. *)
Lemma reserved_holds b l k : inv b l → (k < readEnd b)%nat → ∃ i m pc, l !! i = Some (Writer m pc (Some k)) ∧ holds b k m.
Proof.
  intros Hv Hk. pose proof (v_order b l Hv). destruct (slot_owner b l k Hv) as (i & m & pc & Hi); [lia|].
  exists i, m, pc. split; [done|]. destruct (v_thread b l Hv i _ Hi) as [Hs Hok].
  destruct pc as [|n|n|n|n| |n|n| |[]]; cbn [writer_ok] in Hok; destruct_and?; simplify_eq; try done; try lia;
    match goal with H : ∃ j, _ |- _ => destruct H as (j & [= <-] & (_ & Hh & _)); done end.
Qed.

Lemma copy_ok b l k : inv b l → (k < readEnd b)%nat → ∃ block p, block_at k b = (Ok block, b) ∧
  ipc_packet_init (b_opcode block) (b_sourceId block) (b_length block) (Some (b_data block)) = Ok p ∧ got l k p.
Proof.
  intros Hv Hk. pose proof (v_order b l Hv). pose proof (writeEnd_bound b l Hv). pose proof num_packets.
  destruct (inv_block b l k Hv) as (block & Hb & Hat & _ & Hd); [lia|].
  destruct (reserved_holds b l k Hv Hk) as (i & m & pc & Hi & x & Hx & Hl & Hp).
  unfold bl in Hx. rewrite Hb in Hx. injection Hx as <-. unfold packet_of in Hp. cbn in Hl, Hp.
  exists block, (sent m). split_and!; [done| |by exists i, m, pc]. rewrite <-Hp. unfold ipc_packet_init.
  destruct (b_length block =? 0); [done|]. by rewrite (proj2 (Z.ltb_ge _ _)) by lia.
Qed.

Lemma reader_reserves b l i pc k : inv b l → l !! i = Some (Reader pc None) → readEnd b = k → (k < writeStart b)%nat →
  inv (set_readEnd (nxt k) b) (<[i := Reader (RCopy k) (Some k)]> l).
Proof.
  intros Hv Hi Hre Hk. pose proof (v_order b l Hv). pose proof (writeEnd_bound b l Hv). pose proof num_packets.
  assert (Hn : nxt k = S k) by ring_lia. rewrite Hn. clear Hn.
  apply (inv_step b l i (Reader pc None) _ _ Hv); cbn [readEnd writeStart writeEnd readStart set_readEnd]; try apply Hv; try lia.
  - split; cbn; auto; try tauto; try lia.
  - by rewrite (omap_same wslot l i _ (Reader (RCopy k) (Some k)) Hi), (v_wslots b l Hv).
  - rewrite (omap_gains rslot l i _ (Reader (RCopy k) (Some k)) k Hi) by done. rewrite (v_rslots b l Hv), Hre.
    rewrite seq_S. apply Permutation_cons_append.
  - cbn. split; [done|lia].
  - intros j Hj. destruct (v_flag b l Hv j Hj) as [? Hst]. split; [done|]. by apply (all_stored_step l i (Reader pc None)).
  - intros Hj. destruct (v_live b l Hv Hj) as (j & u & Hu & Hl). exists j, u. split; [|done].
    rewrite list_lookup_insert_ne; [done|]. intros ->. rewrite Hi in Hu. by injection Hu as <-.
  - done.
Qed.

Lemma reader_step b l i pc slot choice t' b' : inv b l → l !! i = Some (Reader pc slot) →
  thread_step choice (Reader pc slot) b = (Ok t', b') → inv b' (<[i := t']> l).
Proof.
  intros Hv Hi Hrun. pose proof (v_thread b l Hv i _ Hi) as Hok. pose proof (v_order b l Hv) as Hord.
  pose proof (v_readStart b l Hv) as Hrs. pose proof (writeEnd_bound b l Hv) as Hwe. pose proof num_packets.
  pose proof (reader_keeps l i pc) as Hkeep.
  assert (Hq : ∀ pc' b', (∀ k, bl b' k = bl b k) → writeStart b' = writeStart b → writeEnd b' = writeEnd b →
    readEnd b' = readEnd b → (readStart b' < N)%nat → reader_ok b' (<[i := Reader pc' slot]> l) pc' slot →
    inv b' (<[i := Reader pc' slot]> l)).
  { intros pc' b1 ? ? ? ? ? ?. apply (quiet_step b l i (Reader pc slot)); [done|by apply reader_quiet|done]. }
  cbn [thread_step] in Hrun. revert Hrun. destruct pc as [|k|k|k|k p|p|k p|k p|p]; cbn [rstep thread_ok reader_ok] in *; run.
  - intros [= <- <-]. apply Hq; try done.
  - destruct (Nat.eqb_spec k (writeStart b)); intros [= <- <-]; apply Hq; try done; try tauto. split; [tauto|lia].
  - destruct Hok as [-> Hk]. destruct (inv_block b l k Hv) as (block & _ & Hat & Hn & _); [lia|]. rewrite Hat.
    destruct (readEnd b =? k)%nat eqn:Hre; [destruct choice|]; cbn [andb negb]; intros [= <- <-]; try by apply Hq.
    apply Nat.eqb_eq in Hre. rewrite Hn. by apply (reader_reserves b l i (RCas k)).
  - destruct Hok as [-> Hk]. destruct (copy_ok b l k Hv Hk) as (block & p & -> & -> & Hg). intros [= <- <-].
    apply Hq; try done. split_and!; [done..|by apply Hkeep].
  - destruct Hok as (-> & Hk & Hg). destruct (inv_block b l k Hv) as (block & Hb & Hat & _); [lia|].
    rewrite (upd_block_ok k _ b block Hb). intros [= <- <-]. apply Hq; try done; [intros; by apply bl_set_read|].
    exists k. split; [done|by apply Hkeep].
  - destruct Hok as (k & -> & Hg). intros [= <- <-]. apply Hq; try done. split; [done|]. exists k. split; [done|by apply Hkeep].
  - destruct Hok as (Hk & j & -> & Hg). destruct (inv_block b l k Hv Hk) as (block & Hb & Hat & _). rewrite Hat.
    destruct (hasBeenRead block =? 1).
    + rewrite (upd_block_ok k _ b block Hb). intros [= <- <-]. apply Hq; try done; [intros; by apply bl_set_read|].
      split; [done|]. exists j. split; [done|by apply Hkeep].
    + intros [= <- <-]. apply Hq; try done. exists j. split; [done|by apply Hkeep].
  - destruct Hok as (Hk & j & -> & Hg). destruct (inv_block b l k Hv Hk) as (block & Hb & Hat & Hn & _). rewrite Hat.
    destruct (readStart b =? k)%nat; intros [= <- <-]; apply Hq; try done; try (cbn; rewrite Hn; by apply nxt_lt);
      exists j; (split; [done|by apply Hkeep]).
  - intros [= <- <-]. apply Hq; try done. destruct p as [p|]; [|done]. destruct Hok as (j & -> & Hg).
    exists j. split; [done|by apply Hkeep].
Qed.

(** ** Steps of writers *)
Lemma bl_insert b k block x j : blocks b !! k = Some block →
  bl (set_blocks b (<[k := x]> (blocks b))) j = if decide (j = k) then Some (set_read_flag 0 x) else bl b j.
Proof.
  intros Hk. unfold bl. cbn [blocks set_blocks]. case_decide as Hj.
  - subst. by rewrite list_lookup_insert_eq by (by eapply lookup_lt_Some).
  - by rewrite list_lookup_insert_ne.
Qed.

Lemma writer_reserves b l i m pc : inv b l → l !! i = Some (Writer m pc None) → ¬ stored_pc pc → ¬ at_advance (Writer m pc None) →
  inv (set_writeEnd (S (writeEnd b)) b) (<[i := Writer m (WFill (writeEnd b)) (Some (writeEnd b))]> l).
Proof.
  intros Hv Hi Hpc Hat. pose proof (v_order b l Hv). set (k := writeEnd b).
  set (t' := Writer m (WFill k) (Some k)). destruct (v_thread b l Hv i _ Hi) as [Hs _].
  assert (Hw : ∀ j, (j < k)%nat → wslot t' = Some j → False) by (intros j Hj [= <-]; lia).
  apply (inv_step b l i (Writer m pc None) _ _ Hv); cbn [readEnd writeStart writeEnd readStart set_writeEnd]; try apply Hv; try lia.
  - split; cbn; auto; try tauto; try lia; [by split_and!|]. intros j Hj Hk. injection Hk as Hk. unfold k in *. lia.
  - rewrite (omap_gains wslot l i _ t' k Hi) by done. rewrite (v_wslots b l Hv), seq_S. apply Permutation_cons_append.
  - by rewrite (omap_same rslot l i _ t' Hi), (v_rslots b l Hv).
  - split; [done|]. cbn. split; [done|]. unfold k. lia.
  - intros j Hj. destruct (v_flag b l Hv j Hj) as [? Hst]. split; [unfold k; lia|].
    apply (all_stored_step l i (Writer m pc None)); try done; try (by split_and!).
    intros Hk. injection Hk as Hk. unfold k in *. lia.
  - intros Hj. destruct (v_live b l Hv Hj) as (j & u & Hu & Hl). destruct (v_flag b l Hv _ Hj) as [? Hst].
    exists j, u. split; [|done]. rewrite list_lookup_insert_ne; [done|]. intros ->. rewrite Hi in Hu. injection Hu as <-.
    destruct pc; cbn in *; try done; tauto.
  - done.
Qed.

(** A step of a writer that has its block and keeps the positions of the
    readers: what is left to show of it. *)
Lemma writer_step b l i m pc pc' k b' : inv b l → l !! i = Some (Writer m pc (Some k)) →
  env_step b l i (Writer m pc (Some k)) b' (Writer m pc' (Some k)) →
  (∀ j, (j < N)%nat → ∃ block block', bl b j = Some block ∧ bl b' j = Some block' ∧
    nextIndex block' = nextIndex block ∧ (Z.of_nat (length (b_data block)) = PACKET_MAX_SIZE →
      Z.of_nat (length (b_data block')) = PACKET_MAX_SIZE)) →
  readEnd b' = readEnd b → writeEnd b' = writeEnd b → readStart b' = readStart b → (writeStart b' ≤ writeEnd b)%nat →
  writer_ok b' (<[i := Writer m pc' (Some k)]> l) m pc' (Some k) →
  (∀ j, written b' j → (writeStart b' ≤ j < writeEnd b)%nat ∧ all_stored (<[i := Writer m pc' (Some k)]> l) j) →
  (written b' (writeStart b') → ∃ j u, <[i := Writer m pc' (Some k)]> l !! j = Some u ∧ will_look (writeStart b') u) →
  (at_advance (Writer m pc' (Some k)) → ∀ j u, j ≠ i → l !! j = Some u → ¬ at_advance u) →
  inv b' (<[i := Writer m pc' (Some k)]> l).
Proof.
  intros Hv Hi E Hb Hre Hwe Hrs Hws Hok Hf Hl Ha. pose proof (v_order b l Hv).
  destruct (v_thread b l Hv i _ Hi) as [Hs _].
  apply (inv_step b l i _ b' _ Hv E); try done.
  - intros j Hj. destruct (Hb j Hj) as (x & x' & Hx & Hx' & Hn & Hd). destruct (v_blocks b l Hv j Hj) as (y & Hy & Hny & Hdy).
    rewrite Hx in Hy. injection Hy as ->. exists x'. split_and!; [done|congruence|by apply Hd].
  - rewrite Hre, Hwe. destruct (e_writeStart _ _ _ _ _ _ E) as [|[? _]]; lia.
  - rewrite Hrs. apply Hv.
  - rewrite (omap_same wslot l i _ _ Hi), Hwe by done. apply Hv.
  - rewrite (omap_same rslot l i _ _ Hi), Hre by done. apply Hv.
  - by rewrite Hwe.
Qed.

Lemma writer_fills b l i m k block : inv b l → l !! i = Some (Writer m (WFill k) (Some k)) → blocks b !! k = Some block →
  inv (set_blocks b (<[k := fill_block (m_opcode m) (m_sourceId m) (m_length m) (m_data m) block]> (blocks b)))
    (<[i := Writer m (WStore k) (Some k)]> l).
Proof.
  intros Hv Hi Hb. pose proof (v_order b l Hv). destruct (v_thread b l Hv i _ Hi) as [Hs [_ Hk]].
  set (block' := fill_block _ _ _ _ block). set (b' := set_blocks b _).
  assert (Hbl : ∀ j, bl b' j = if decide (j = k) then Some (set_read_flag 0 block') else bl b j).
  { intros j. by apply (bl_insert b k block). }
  pose proof (writeEnd_bound b l Hv). pose proof num_packets.
  assert (Hw : ∀ j, written b' j ↔ written b j).
  { intros j. unfold written. rewrite Hbl. case_decide as Hj; [|done]. subst j. unfold bl. by rewrite Hb. }
  assert (Hh : ∀ j n, j ≠ k → holds b j n → holds b' j n).
  { intros j n Hj. unfold holds. rewrite Hbl. by rewrite decide_False. }
  assert (Hown : ¬ all_stored l k) by (intros Hst; apply (Hst i m _ Hi)).
  destruct (v_blocks b l Hv k) as (x & Hx & _ & Hd); [lia|]. unfold bl in Hx. rewrite Hb in Hx. injection Hx as <-.
  apply (writer_step b l i m (WFill k)); try done; try lia.
  - split; cbn; auto; try tauto; try lia; [intros j _ Hj; left; by apply Hw|].
    intros Hn _ Hw'. by apply Hw in Hw'.
  - intros j Hj. destruct (v_blocks b l Hv j Hj) as (x & Hx & _). rewrite Hbl. case_decide as Heq; [|by exists x, x].
    subst j. exists x, (set_read_flag 0 block'). unfold bl in Hx. rewrite Hb in Hx. injection Hx as <-. split_and!; try done.
    + unfold bl. by rewrite Hb.
    + intros Hd'. by apply (fill_block_data block).
  - cbn. lia.
  - cbn. split_and!; [done|lia..|]. exists (set_read_flag 0 block'). rewrite Hbl, decide_True by done.
    split; [done|]. destruct (fill_block_data block (m_opcode m) (m_sourceId m) (m_length m) (m_data m) Hs Hd) as (? & _ & ?). done.
  - intros j Hj. apply Hw in Hj. destruct (v_flag b l Hv j Hj) as [? Hst]. split; [done|].
    by apply (all_stored_step l i _ _ j Hi).
  - intros Hj. apply Hw in Hj. destruct (v_live b l Hv Hj) as (j & u & Hu & Hl). exists j, u. split; [|done].
    rewrite list_lookup_insert_ne; [done|]. intros ->. rewrite Hi in Hu. by injection Hu as <-.
Qed.

(** A flag of a block set to [v]. *)
Lemma bl_flag b k block v j : blocks b !! k = Some block →
  bl (set_blocks b (<[k := set_written_flag v block]> (blocks b))) j =
    if decide (j = k) then set_written_flag v <$> bl b j else bl b j.
Proof. intros Hk. rewrite (bl_insert b k block) by done. case_decide; [|done]. subst. unfold bl. by rewrite Hk. Qed.

Lemma flag_holds b k block v j m : blocks b !! k = Some block → holds b j m →
  holds (set_blocks b (<[k := set_written_flag v block]> (blocks b))) j m.
Proof.
  intros Hk (x & Hx & Hl & Hp). unfold holds. rewrite bl_flag, Hx by done.
  case_decide; [exists (set_written_flag v x)|exists x]; done.
Qed.

Lemma flag_written b k block v j : blocks b !! k = Some block →
  written (set_blocks b (<[k := set_written_flag v block]> (blocks b))) j ↔ if decide (j = k) then v = 1 else written b j.
Proof.
  intros Hk. unfold written. rewrite bl_flag by done. case_decide; [|done]. subst. unfold bl. rewrite Hk. simpl. split; congruence.
Qed.

Lemma flag_blocks b l k block v j : inv b l → blocks b !! k = Some block → (j < N)%nat →
  ∃ x x', bl b j = Some x ∧ bl (set_blocks b (<[k := set_written_flag v block]> (blocks b))) j = Some x' ∧
    nextIndex x' = nextIndex x ∧ (Z.of_nat (length (b_data x)) = PACKET_MAX_SIZE → Z.of_nat (length (b_data x')) = PACKET_MAX_SIZE).
Proof.
  intros Hv Hk Hj. destruct (v_blocks b l Hv j Hj) as (x & Hx & _). rewrite bl_flag, Hx by done.
  case_decide; [exists x, (set_written_flag v x)|exists x, x]; done.
Qed.

Lemma writer_stores b l i m k block : inv b l → l !! i = Some (Writer m (WStore k) (Some k)) → blocks b !! k = Some block →
  inv (set_blocks b (<[k := set_written_flag 1 block]> (blocks b))) (<[i := Writer m WIndex (Some k)]> l).
Proof.
  intros Hv Hi Hb. pose proof (v_order b l Hv). destruct (v_thread b l Hv i _ Hi) as [Hs (_ & Hk & Hh)].
  pose proof (lookup_lt_Some _ _ _ Hi) as Hlt. set (b' := set_blocks b _).
  assert (Hw : ∀ j, written b' j ↔ if decide (j = k) then 1 = 1 else written b j) by (intros j; by apply flag_written).
  assert (Hown : ¬ all_stored l k) by (intros Hst; apply (Hst i m _ Hi)).
  assert (Hst : ∀ j, all_stored l j → all_stored (<[i := Writer m WIndex (Some k)]> l) j).
  { intros j. apply (all_stored_step l i _ _ j Hi); [by split_and!|done]. }
  apply (writer_step b l i m (WStore k)); try done.
  - split; cbn; auto; try tauto; try lia.
    + intros j n _ _ Hj. by apply flag_holds.
    + intros j _ Hj. left. apply Hw. by case_decide.
    + intros Hn _ Hw'. apply Hw in Hw'. case_decide as Heq; [by rewrite Heq|done].
  - intros j Hj. by apply (flag_blocks b l).
  - cbn. lia.
  - cbn. exists k. split; [done|]. split_and!; [cbn; lia|by apply flag_holds|]. right. left. apply Hw. by rewrite decide_True.
  - intros j Hj. apply Hw in Hj. case_decide as Heq.
    + subst j. split; [done|]. intros n m' pc Hn. apply list_lookup_insert_Some in Hn as [(_ & [= _ <-] & _)|[Hne Hn]]; [done|].
      destruct Hne. by apply (slot_once b l i n _ _ k Hv Hi Hn).
    + destruct (v_flag b l Hv j Hj) as [? ?]. split; [done|]. by apply Hst.
  - intros Hj. exists i, (Writer m WIndex (Some k)). by rewrite list_lookup_insert_eq.
Qed.

Lemma writer_clears b l i m k slot block : inv b l → l !! i = Some (Writer m (WClear k) slot) → blocks b !! k = Some block →
  hasBeenWritten block = 1 →
  inv (set_blocks b (<[k := set_written_flag 0 block]> (blocks b))) (<[i := Writer m (WAdvance k) slot]> l).
Proof.
  intros Hv Hi Hb Hf. pose proof (v_order b l Hv). destruct (v_thread b l Hv i _ Hi) as [Hs (Hk & n & -> & Hkept)].
  pose proof (lookup_lt_Some _ _ _ Hi) as Hlt. set (b' := set_blocks b _). set (t' := Writer m (WAdvance k) (Some n)).
  assert (Hwk : written b k) by (unfold written, bl; rewrite Hb; simpl; by rewrite Hf).
  destruct (v_flag b l Hv k Hwk) as [Hr Hsto]. assert (k = writeStart b) as -> by lia.
  assert (Hw : ∀ j, written b' j ↔ if decide (j = writeStart b) then 0 = 1 else written b j) by (intros j; by apply flag_written).
  assert (Hst : ∀ j, all_stored l j → all_stored (<[i := t']> l) j).
  { intros j. apply (all_stored_step l i _ _ j Hi); [by split_and!|done]. }
  assert (E : env_step b l i (Writer m (WClear (writeStart b)) (Some n)) b' t').
  { split; cbn; auto; try tauto; try lia.
    - intros j m' _ _ _ Hj. by apply flag_holds.
    - intros j m' _ _ Hj. by apply flag_holds.
    - intros j _ Hj. destruct (decide (j = writeStart b)) as [->|Hne]; [by right|]. left. apply Hw. by rewrite decide_False. }
  assert (Hnw : ¬ written b' (writeStart b)) by (rewrite Hw, decide_True; done).
  apply (writer_step b l i m (WClear (writeStart b))); try done.
  - intros j Hj. by apply (flag_blocks b l).
  - cbn. lia.
  - cbn. split_and!; [done|lia|done|by apply Hst|]. exists n. split; [done|].
    apply (env_kept Hv E); [right; by eexists|done].
  - intros j Hj. apply Hw in Hj. case_decide; [done|]. destruct (v_flag b l Hv j Hj) as [? ?]. split; [done|]. by apply Hst.
  - intros _ j u Hne Hj Hu. destruct u as [m' pc slot|]; [|done]. destruct pc; try done.
    destruct (v_thread b l Hv j _ Hj) as [_ (-> & _ & Hn & _)]. done.
Qed.

Lemma writer_advances b l i m k slot : inv b l → l !! i = Some (Writer m (WAdvance k) slot) →
  inv (set_writeStart (S k) b) (<[i := Writer m WIndex slot]> l).
Proof.
  intros Hv Hi. pose proof (v_order b l Hv). destruct (v_thread b l Hv i _ Hi) as [Hs (-> & Hk & Hnw & Hsto & n & -> & Hkept)].
  pose proof (lookup_lt_Some _ _ _ Hi) as Hlt. set (b' := set_writeStart _ b). set (t' := Writer m WIndex (Some n)).
  assert (Hst : ∀ j, all_stored l j → all_stored (<[i := t']> l) j).
  { intros j. apply (all_stored_step l i _ _ j Hi); [by split_and!|done]. }
  assert (E : env_step b l i (Writer m (WAdvance (writeStart b)) (Some n)) b' t').
  { split; cbn; auto; try tauto; try lia. }
  apply (writer_step b l i m (WAdvance (writeStart b))); try done.
  - intros j Hj. destruct (v_blocks b l Hv j Hj) as (x & Hx & _). by exists x, x.
  - cbn. exists n. split; [done|]. apply (env_kept Hv E); [right; by eexists|done].
  - intros j Hj. destruct (v_flag b l Hv j Hj) as [? ?]. split; [|by apply Hst]. cbn.
    destruct (decide (j = writeStart b)) as [->|]; [done|lia].
  - intros _. exists i, t'. by rewrite list_lookup_insert_eq.
Qed.

Lemma writer_quiet b l i m pc pc' slot : inv b l → l !! i = Some (Writer m pc slot) → (stored_pc pc → stored_pc pc') →
  ¬ at_advance (Writer m pc slot) → ¬ at_advance (Writer m pc' slot) →
  (will_look (writeStart b) (Writer m pc slot) → written b (writeStart b) → will_look (writeStart b) (Writer m pc' slot)) →
  (∀ b', quiet b l i (Writer m pc slot) b' (Writer m pc' slot) → writer_ok b' (<[i := Writer m pc' slot]> l) m pc' slot) →
  ∀ sem, inv (set_semaphore sem b) (<[i := Writer m pc' slot]> l).
Proof.
  intros Hv Hi Hpc Ha Ha' Hl Hok sem. pose proof (v_readStart b l Hv). destruct (v_thread b l Hv i _ Hi) as [Hs _].
  assert (Q : quiet b l i (Writer m pc slot) (set_semaphore sem b) (Writer m pc' slot)) by (split; try done; by split_and!).
  apply (quiet_step b l i _ _ _ Hv Q). split; [done|by apply Hok].
Qed.

Lemma set_semaphore_id b : set_semaphore (semaphore b) b = b.
Proof. by destruct b. Qed.

Lemma writer_step_inv b l i m pc slot choice t' b' : inv b l → l !! i = Some (Writer m pc slot) →
  thread_step choice (Writer m pc slot) b = (Ok t', b') → inv b' (<[i := t']> l).
Proof.
  intros Hv Hi Hrun. destruct (v_thread b l Hv i _ Hi) as [Hs Hok]. pose proof (v_order b l Hv) as Hord.
  pose proof (writeEnd_bound b l Hv) as Hwe. pose proof num_packets.
  pose proof (λ pc', writer_quiet b l i m pc pc' slot Hv Hi) as Hq.
  assert (Hq' : ∀ pc', (stored_pc pc → stored_pc pc') → ¬ at_advance (Writer m pc slot) → ¬ at_advance (Writer m pc' slot) →
    (will_look (writeStart b) (Writer m pc slot) → written b (writeStart b) → will_look (writeStart b) (Writer m pc' slot)) →
    (∀ b', quiet b l i (Writer m pc slot) b' (Writer m pc' slot) → writer_ok b' (<[i := Writer m pc' slot]> l) m pc' slot) →
    inv b (<[i := Writer m pc' slot]> l)).
  { intros pc' ? ? ? ? ?. rewrite <-(set_semaphore_id b). by apply Hq. }
  cbn [thread_step] in Hrun. revert Hrun. destruct pc as [|k|k|k|k| |k|k| |ok]; cbn [wstep writer_ok] in *; run.
  - intros [= <- <-]. apply Hq'; try done; try by intros []. intros b' Q. destruct (q_positions _ _ _ _ _ _ Q) as (_ & He & _). split; [done|lia].
  - destruct Hok as [-> Hk]. destruct (inv_block b l k Hv) as (block & _ & -> & _); [lia|].
    destruct (nextIndex block =? readStart b)%nat; [destruct choice|]; intros [= <- <-]; apply Hq'; try done; try by intros [].
    intros b' Q. destruct (q_positions _ _ _ _ _ _ Q) as (_ & He & _). split; [done|lia].
  - destruct Hok as [-> Hk]. destruct (inv_block b l k Hv) as (block & _ & -> & Hn & _); [lia|].
    destruct (writeEnd b =? k)%nat eqn:Heq; [destruct choice|]; cbn [andb negb]; intros [= <- <-]; try (apply Hq'; try done; by intros []).
    apply Nat.eqb_eq in Heq. subst k. pose proof (writeEnd_room b l i m _ Hv Hi). rewrite Hn.
    replace (nxt (writeEnd b)) with (S (writeEnd b)) by ring_lia. by apply (writer_reserves b l i m _ Hv Hi); intros [].
  - destruct Hok as [-> Hk]. destruct (inv_block b l k Hv) as (block & Hb & _); [lia|].
    destruct Hs as (Hs1 & Hs2 & Hs3). rewrite Hs2, (upd_block_ok k _ b block Hb). intros [= <- <-]. by apply writer_fills.
  - destruct Hok as (-> & Hk & Hh). destruct (inv_block b l k Hv) as (block & Hb & _); [lia|].
    rewrite (upd_block_ok k _ b block Hb). intros [= <- <-]. by apply writer_stores.
  - destruct Hok as (j & -> & Hkept). intros [= <- <-]. apply Hq'; try done; try by intros []. intros b' Q.
    destruct (q_positions _ _ _ _ _ _ Q) as (He & _). split; [lia|]. exists j. split; [done|]. by apply (quiet_kept _ _ _ _ _ _ _ _ Hv Q).
  - pose proof Hok as (Hk & j & -> & Hkept). destruct (inv_block b l k Hv) as (block & Hb & -> & _); [lia|].
    destruct (Z.eqb_spec (hasBeenWritten block) 1) as [Hf|Hf].
    + rewrite (upd_block_ok k _ b block Hb). intros [= <- <-]. by apply (writer_clears b l i m k (Some j)).
    + intros [= <- <-]. apply Hq'; try done; try by intros [].
      * cbn. intros -> Hw. unfold written, bl in Hw. rewrite Hb in Hw. simpl in Hw. congruence.
      * intros b' Q. exists j. split; [done|]. by apply (quiet_kept _ _ _ _ _ _ _ _ Hv Q).
  - pose proof Hok as (-> & Hk & _). destruct (inv_block b l (writeStart b) Hv) as (block & Hb & -> & Hn & _); [lia|].
    rewrite Nat.eqb_refl, Hn. intros [= <- <-]. replace (nxt (writeStart b)) with (S (writeStart b)) by ring_lia.
    by apply (writer_advances b l i m (writeStart b) slot).
  - destruct Hok as (j & -> & Hkept). intros [= <- <-]. apply Hq; try done; try by intros []. intros b' Q.
    exists j. split; [done|]. by apply (quiet_kept _ _ _ _ _ _ _ _ Hv Q).
  - intros [= <- <-]. apply Hq'; try done; try by intros []. intros b' Q. destruct ok; [|done]. destruct Hok as (j & -> & Hkept).
    exists j. split; [done|]. by apply (quiet_kept _ _ _ _ _ _ _ _ Hv Q).
Qed.

(** ** Runs *)

(** A call that has not started yet. *)
Definition fresh (t : thread) : Prop :=
  match t with
  | Writer m pc slot => sendable (m_length m) (m_data m) ∧ pc = WLoad ∧ slot = None
  | Reader pc slot => pc = RLoad ∧ slot = None
  end.

Definition memory_ok (memory : nat → list Z) : Prop := ∀ i, Z.of_nat (length (memory i)) = PACKET_MAX_SIZE.

Lemma omap_fresh (f : thread → option nat) l : (∀ t, fresh t → f t = None) → Forall fresh l → omap f l = [].
Proof. intros Hf. induction 1 as [|t l Ht Hl IH]; [done|]. cbn. by rewrite (Hf t Ht). Qed.

Lemma init_block memory k : (k < N)%nat → ∃ block, blocks (ipc_buffer_init memory) !! k = Some block ∧
  nextIndex block = nxt k ∧ hasBeenWritten block = 0 ∧ b_data block = memory k.
Proof.
  intros Hk. unfold ipc_buffer_init. cbn [blocks]. rewrite list_lookup_fmap, lookup_seq_lt by done. by eexists.
Qed.

Lemma init_inv memory l : memory_ok memory → Forall fresh l → (length (filter is_writer l) ≤ 511)%nat →
  inv (ipc_buffer_init memory) l.
Proof.
  intros Hm Hl Hw. pose proof num_packets.
  assert (Hnot : ∀ k, ¬ written (ipc_buffer_init memory) k).
  { intros k. unfold written, bl. destruct (decide (k < N)%nat) as [Hk|Hk].
    - destruct (init_block memory k Hk) as (block & -> & _ & Hf & _). simpl. rewrite Hf. by intros [=].
    - rewrite lookup_ge_None_2; [done|]. cbn. rewrite length_fmap, length_seq. lia. }
  assert (Hpc : ∀ i t, l !! i = Some t → fresh t) by (intros i t Hi; by apply (Forall_lookup_1 _ _ _ _ Hl Hi)).
  split; cbn [readEnd writeStart writeEnd readStart ipc_buffer_init]; try done; try lia.
  - intros k Hk. destruct (init_block memory k Hk) as (block & Hb & Hn & _ & Hd). exists (set_read_flag 0 block).
    unfold bl. rewrite Hb. split_and!; try done. cbn. by rewrite Hd.
  - rewrite (omap_fresh wslot); [done| |done]. intros [m pc slot|pc slot]; [by intros (_ & _ & ->)|done].
  - rewrite (omap_fresh rslot); [done| |done]. intros [m pc slot|pc slot]; [done|by intros (_ & ->)].
  - intros i t Hi. specialize (Hpc i t Hi). destruct t as [m pc slot|pc slot].
    + destruct Hpc as (Hs & -> & ->). done.
    + by destruct Hpc as (-> & ->).
  - intros k Hk. by destruct (Hnot k).
  - intros i j t u Hi _ Ht. specialize (Hpc i t Hi). destruct t as [m pc slot|pc slot]; [|done].
    by destruct Hpc as (_ & -> & _).
Qed.

Lemma step_inv c c' : step c c' → inv (shared c) (threads c) → inv (shared c') (threads c').
Proof.
  intros [c0 i choice t t' b' Hi Hrun] Hv. cbn. destruct t as [m pc slot|pc slot].
  - by apply (writer_step_inv (shared c0) _ i m pc slot choice).
  - by apply (reader_step (shared c0) _ i pc slot choice).
Qed.

Lemma reachable_inv c c' : rtc step c c' → inv (shared c) (threads c) → inv (shared c') (threads c').
Proof. induction 1 as [|c1 c2 c3 Hs _ IH]; [done|]. intros Hv. by apply IH, (step_inv c1). Qed.

(** No step of a thread goes wrong. *)
Lemma thread_progress b l i t choice : inv b l → l !! i = Some t → ∃ t' b', thread_step choice t b = (Ok t', b').
Proof.
  intros Hv Hi. pose proof (v_thread b l Hv i t Hi) as Hok. pose proof (v_order b l Hv). pose proof (writeEnd_bound b l Hv).
  pose proof num_packets. assert (Hb : ∀ k, (k < N)%nat → ∃ block, blocks b !! k = Some block ∧ block_at k b = (Ok block, b)).
  { intros k Hk. destruct (inv_block b l k Hv Hk) as (block & ? & ? & _). eauto. }
  assert (Hok' : ∀ k, (k < N)%nat → ∃ block, block_at k b = (Ok block, b) ∧
    ∀ f, upd_block k f b = (Ok tt, set_blocks b (<[k := f block]> (blocks b)))).
  { intros k Hk. destruct (Hb k Hk) as (block & Hk1 & Hk2). exists block. split; [done|]. intros f. by apply upd_block_ok. }
  destruct t as [m pc slot|pc slot]; cbn [thread_step thread_ok] in *.
  - destruct Hok as [(_ & Hs & _) Hok].
    destruct pc as [|k|k|k|k| |k|k| |ok]; cbn [wstep writer_ok] in *; run; try (by eexists _, _);
      (destruct (Hok' k) as (block & Hat & Hup); [destruct_and?; lia|]); rewrite ?Hs, ?Hat, ?Hup;
      repeat case_match; try (rewrite Hup in *); simplify_eq; eauto.
  - destruct pc as [|k|k|k|k p|p|k p|k p|p]; cbn [rstep reader_ok] in *; run; try (by eexists _, _).
    2: destruct Hok as [-> Hk], (copy_ok b l k Hv Hk) as (block & p & -> & -> & _); eauto.
    all: (destruct (Hok' k) as (block & Hat & Hup); [destruct_and?; lia|]); rewrite ?Hat, ?Hup;
      repeat case_match; try (rewrite Hup in *); simplify_eq; eauto.
Qed.

(** ** Properties *)

(** The runs from a buffer in fresh memory whose ring is not filled once. *)
Definition first_lap (memory : nat → list Z) (l : list thread) (c : config) : Prop :=
  memory_ok memory ∧ Forall fresh l ∧ (length (filter is_writer l) ≤ 511)%nat ∧
  rtc step (mkConfig (ipc_buffer_init memory) l) c.

Lemma first_lap_inv memory l c : first_lap memory l c → inv (shared c) (threads c).
Proof. intros (Hm & Hl & Hw & Hr). apply (reachable_inv _ _ Hr). by apply init_inv. Qed.

(** ** When every call has returned *)
Definition returned (t : thread) : bool :=
  match t with Writer _ (WDone _) _ | Reader (RDone _) _ => true | _ => false end.

Lemma returned_writers_leave_nothing_stuck b l : inv b l →
  (∀ i m pc slot, l !! i = Some (Writer m pc slot) → ∃ ok, pc = WDone ok) →
  writeStart b = writeEnd b.
Proof.
  intros Hv Hdone. pose proof (v_order _ _ Hv) as Hord.
  destruct (decide (writeStart b = writeEnd b)) as [|Hne]; [done|].
  destruct (slot_owner _ _ (writeStart b) Hv) as (i & m & pc & Hi); [lia|].
  destruct (Hdone _ _ _ _ Hi) as [ok ->]. destruct (v_thread _ _ Hv i _ Hi) as [_ Hok].
  assert (Hnone : ∀ (P : thread → Prop), (∀ m ok slot, ¬ P (Writer m (WDone ok) slot)) → (∀ pc slot, ¬ P (Reader pc slot)) →
    ∀ j t, l !! j = Some t → ¬ P t).
  { intros P HW HR j [m' pc' slot'|pc' slot'] Hj; [|by apply HR]. destruct (Hdone _ _ _ _ Hj) as [ok' ->]. by apply HW. }
  destruct ok; cbn in Hok; [|done]. destruct Hok as (j & [= <-] & _ & _ & [Hlt|[Hw|(_ & n & t & Hn & Ht)]]); [lia| |].
  - destruct (v_live _ _ Hv Hw) as (n & t & Hn & Ht).
    destruct (Hnone (will_look (writeStart b))) with n t; auto; intros ? **; by intros [].
  - destruct (Hnone at_advance) with n t; auto; intros ? **; by intros [].
Qed.

(** The reader that reserved block [k] has returned: it has the packet of the
    block's writer. *)
Lemma reserved_block_is_read b l k i m pc : inv b l → (∀ i t, l !! i = Some t → returned t = true) →
  l !! i = Some (Writer m pc (Some k)) → (k < readEnd b)%nat →
  ∃ j, l !! j = Some (Reader (RDone (Some (sent m))) (Some k)).
Proof.
  intros Hv Hdone Hi Hk. assert (Hin : k ∈ omap rslot l).
  { rewrite (v_rslots _ _ Hv). apply elem_of_seq. lia. }
  apply list_elem_of_omap in Hin as (t & [j Hj]%list_elem_of_lookup & Ht). exists j.
  destruct t as [|pc' slot]; [done|]. simpl in Ht. subst slot.
  pose proof (Hdone j _ Hj) as Hret. pose proof (v_thread _ _ Hv j _ Hj) as Hok.
  destruct pc' as [| | | | | | | |[p|]]; try discriminate Hret; cbn in Hok; [|done].
  destruct Hok as (k' & [= <-] & n & m' & pc'' & Hn & ->).
  assert (n = i) as -> by (by apply (slot_once b l n i _ _ k Hv Hn Hi)). rewrite Hi in Hn. by injection Hn as ->.
Qed.

(** A writer that returned true has its packet read, or readable; one that
    returned false has reserved nothing. *)
Definition settled (c : config) (m : message) (ok : bool) (slot : option nat) : Prop :=
  if ok then ∃ k, slot = Some k ∧
    ((∃ j, threads c !! j = Some (Reader (RDone (Some (sent m))) (Some k))) ∨
     (readEnd (shared c) ≤ k < writeStart (shared c))%nat ∧ holds (shared c) k m)
  else slot = None.

Lemma returned_writer_settled c i m ok slot : inv (shared c) (threads c) →
  (∀ i t, threads c !! i = Some t → returned t = true) →
  threads c !! i = Some (Writer m (WDone ok) slot) → settled c m ok slot.
Proof.
  intros Hv Hdone Hi. destruct (v_thread _ _ Hv i _ Hi) as [_ Hok]. destruct ok; [|exact Hok].
  destruct Hok as (k & -> & Hk & Hh & _). exists k. split; [done|].
  assert (Hall : writeStart (shared c) = writeEnd (shared c)).
  { apply (returned_writers_leave_nothing_stuck _ _ Hv). intros j m' pc s Hj.
    pose proof (Hdone j _ Hj) as Hret. destruct pc; try done. by eexists. }
  destruct (decide (k < readEnd (shared c))%nat); [left|right; split; [lia|done]].
  by apply (reserved_block_is_read (shared c) _ k i m (WDone true)).
Qed.

(** C34: However many writers and readers of a fresh buffer interleave, as long as at
    most 511 packets are written: no step fails, every block is reserved by one
    writer and by at most one reader, in the order of the ring, and the packet
    a reader returns is the one the writer of its block sent. When every call
    has returned no packet is lost: [writeStart] has reached [writeEnd], and the
    packet of each writer that returned true was returned by a reader, or is in
    its block, complete, where the next reads look. *)
Theorem interleaved_packets_arrive memory l c : first_lap memory l c →
  (∀ i t choice, threads c !! i = Some t → ∃ t' b', thread_step choice t (shared c) = (Ok t', b')) ∧
  omap wslot (threads c) ≡ₚ seq 0 (writeEnd (shared c)) ∧
  omap rslot (threads c) ≡ₚ seq 0 (readEnd (shared c)) ∧ (readEnd (shared c) ≤ writeEnd (shared c))%nat ∧
  (∀ i k p, threads c !! i = Some (Reader (RDone (Some p)) (Some k)) →
    ∃ j m pc, threads c !! j = Some (Writer m pc (Some k)) ∧ p = sent m) ∧
  ((∀ i t, threads c !! i = Some t → returned t = true) →
    writeStart (shared c) = writeEnd (shared c) ∧
    ∀ i m ok slot, threads c !! i = Some (Writer m (WDone ok) slot) → settled c m ok slot).
Proof.
  intros Hr. pose proof (first_lap_inv _ _ _ Hr) as Hv. pose proof (v_order _ _ Hv). split_and!; try apply Hv; try lia.
  - intros i t choice Hi. by apply (thread_progress _ (threads c) i).
  - intros i k p Hi. destruct (v_thread _ _ Hv i _ Hi) as (k' & [= <-] & j & m & pc & Hj & ->). by exists j, m, pc.
  - intros Hdone. split; [|intros i m ok slot; by apply returned_writer_settled].
    apply (returned_writers_leave_nothing_stuck _ _ Hv). intros i m pc slot Hi.
    pose proof (Hdone i _ Hi) as Hret. destruct pc; try done. by eexists.
Qed.

(** In such a run, once every writer has returned, nothing it wrote is stuck:
    [writeStart] has reached [writeEnd], so every packet can be read. *)
Theorem finished_writers_leave_nothing_stuck memory l c : first_lap memory l c →
  (∀ i m pc slot, threads c !! i = Some (Writer m pc slot) → ∃ ok, pc = WDone ok) →
  writeStart (shared c) = writeEnd (shared c).
Proof. intros Hr. apply returned_writers_leave_nothing_stuck. by apply (first_lap_inv memory l). Qed.

Lemma follow_reaches schedule c c' : follow schedule c = Some c' → rtc step c c'.
Proof.
  revert c. induction schedule as [|[i choice] schedule IH]; intros c; cbn [follow]; [by intros [= ->]|].
  destruct (threads c !! i) as [t|] eqn:Hi; [|done].
  destruct (thread_step choice t (shared c)) as [[t'|e|] b'] eqn:Hrun; [|done..].
  intros Hf. eapply rtc_l; [by apply (step_thread c i choice t t' b')|by apply IH].
Qed.

(** Two writers and a reader, the first writer overtaken by the second. *)
Definition example_threads : list thread :=
  [Writer (mkMessage 7 1 3 (Some [10; 11; 12])) WLoad None; Writer (mkMessage 2 1 0 None) WLoad None; Reader RLoad None].
Definition example_schedule : list (nat * bool) :=
  replicate 3 (0%nat, false) ++ replicate 8 (1%nat, false) ++ replicate 14 (0%nat, false) ++ replicate 12 (2%nat, false).
Definition example_config : config :=
  default (mkConfig (ipc_buffer_init (λ _, replicate 4096 0)) example_threads)
    (follow example_schedule (mkConfig (ipc_buffer_init (λ _, replicate 4096 0)) example_threads)).

Lemma example_first_lap : first_lap (λ _, replicate 4096 0) example_threads example_config.
Proof.
  split_and!; [intros i; by rewrite length_replicate| |apply Nat.leb_le; by vm_compute|].
  { unfold example_threads. rewrite !Forall_cons. split_and!; by vm_compute || by apply Forall_nil_2. }
  apply (follow_reaches example_schedule). unfold example_config.
  assert (is_Some (follow example_schedule (mkConfig (ipc_buffer_init (λ _, replicate 4096 0)) example_threads))) as [c ->]; [|done].
  assert (Hb : (match follow example_schedule (mkConfig (ipc_buffer_init (λ _, replicate 4096 0)) example_threads) with
    Some _ => true | None => false end) = true) by by vm_compute.
  by destruct (follow _ _).
Qed.

Lemma example_returned i t : threads example_config !! i = Some t → returned t = true.
Proof.
  assert (Hd : forallb returned (threads example_config) = true) by by vm_compute.
  revert Hd. generalize (threads example_config). intros l Hd Hi.
  rewrite forallb_forall in Hd. apply Hd, list_elem_of_In. by eapply list_elem_of_lookup_2.
Qed.

Lemma interleaved_packets_arrive_witness :
  (∃ j m pc, threads example_config !! j = Some (Writer m pc (Some 0%nat)) ∧ mkIpcPacket 7 1 3 (Some [10; 11; 12]) = sent m) ∧
  settled example_config (mkMessage 7 1 3 (Some [10; 11; 12])) true (Some 0%nat).
Proof.
  destruct (interleaved_packets_arrive (λ _, replicate 4096 0) example_threads example_config example_first_lap)
    as (_ & _ & _ & _ & Hread & Hall). split.
  - apply (Hread 2%nat). by vm_compute.
  - apply (proj2 (Hall example_returned) 0%nat). by vm_compute.
Defined.

Lemma finished_writers_leave_nothing_stuck_witness :
  writeStart (shared example_config) = writeEnd (shared example_config).
Proof.
  apply (finished_writers_leave_nothing_stuck (λ _, replicate 4096 0) example_threads example_config example_first_lap).
  assert (Hd : forallb (λ t, match t with Writer _ (WDone _) _ | Reader _ _ => true | _ => false end) (threads example_config) = true)
    by by vm_compute.
  intros i m pc slot. revert Hd. generalize (threads example_config). intros l Hd Hi.
  rewrite forallb_forall in Hd. specialize (Hd _ (proj1 (list_elem_of_In _ _) (list_elem_of_lookup_2 _ _ _ Hi))).
  destruct pc; try done. by eexists.
Defined.

(** * Where the promise ends: a writer that is suspended *)

(** ** Buffers nobody can read from any more *)

(** All packets before [writeStart] are read, the block there was reserved,
    and its flag, which alone can move [writeStart], is not set. *)
Record stuck (b : IpcBuffer) : Prop := {
  s_next i block : blocks b !! i = Some block → nextIndex block = nxt i;
  s_size : length (blocks b) = N;
  s_read : readStart b = writeStart b ∧ readEnd b = writeStart b;
  s_bounds : (writeStart b < N)%nat ∧ (writeEnd b < N)%nat;
  s_waiting : writeEnd b ≠ writeStart b;
  s_flag : hasBeenWritten <$> blocks b !! writeStart b = Some 0;
}.

Lemma stuck_block b i : stuck b → (i < N)%nat → ∃ block, blocks b !! i = Some block ∧ nextIndex block = nxt i.
Proof.
  intros Hb Hi. destruct (lookup_lt_is_Some_2 (blocks b) i) as [block Hbl]; [by rewrite (s_size b Hb)|].
  exists block. split; [done|]. by apply (s_next b Hb).
Qed.

Lemma stuck_flag b : stuck b → ∃ block, blocks b !! writeStart b = Some block ∧ hasBeenWritten block = 0.
Proof.
  intros Hb. pose proof (s_flag b Hb) as Hf. destruct (blocks b !! writeStart b) as [block|]; [|done].
  injection Hf as Hf. by exists block.
Qed.

Lemma stuck_advance l rs re ws we sem block : l !! ws = Some block → hasBeenWritten block = 0 →
  advance_written (S N) (mkIpc l rs re ws we sem) = (Ok tt, mkIpc l rs re ws we sem).
Proof. intros Hb Hf. cbn [advance_written]. run. cbn [writeStart]. rewrite (block_at_ok ws _ block) by done. by rewrite Hf. Qed.

Lemma stuck_write timestamp clock opcode sourceId length_ data b : stuck b → sendable length_ data →
  nxt (writeEnd b) ≠ readStart b →
  ∃ b', ipc_buffer_write timestamp clock opcode sourceId length_ data b = (Ok true, b') ∧ stuck b'.
Proof.
  intros Hb Hs Hfull. destruct (s_bounds b Hb) as [Hws Hwe]. destruct (s_read b Hb) as [Hr1 Hr2]. pose proof (s_waiting b Hb) as Hw.
  destruct (stuck_block b _ Hb Hwe) as (block & Hbl & Hn). destruct (stuck_flag b Hb) as (first & Hfirst & Hff).
  assert (Hstep : ipc_buffer_write timestamp clock opcode sourceId length_ data b =
    (modify (set_writeEnd (nxt (writeEnd b))) ;; ipc_buffer_do_write (writeEnd b) opcode sourceId length_ data ;; mret true) b).
  { unfold ipc_buffer_write. destruct clock; cbn [write_loop]; run; rewrite (block_at_ok _ _ _ Hbl), Hn;
      by rewrite (proj2 (Nat.eqb_neq _ _)). }
  rewrite Hstep. pose proof Hs as (_ & Hreach & _). pose proof (s_size b Hb) as Hsize. pose proof (s_next b Hb) as Hnext.
  destruct b as [l rs r ws w sem]. cbn [blocks readStart readEnd writeStart writeEnd semaphore] in *. subst rs r.
  unfold ipc_buffer_do_write. run. rewrite Hreach. unfold set_writeEnd. cbn [blocks readStart readEnd writeStart writeEnd semaphore].
  rewrite (upd_block_ok _ _ _ block) by done. unfold set_blocks. cbn [blocks readStart readEnd writeStart writeEnd semaphore].
  rewrite (upd_block_ok _ _ _ (fill_block opcode sourceId length_ data block)) by (cbn; rewrite list_lookup_insert_eq by lia; done).
  unfold set_blocks. cbn [blocks readStart readEnd writeStart writeEnd semaphore]. rewrite list_insert_insert_eq.
  rewrite (stuck_advance _ _ _ _ _ _ first) by (rewrite ?list_lookup_insert_ne by done; done).
  eexists. split; [done|]. unfold set_semaphore. cbn [blocks readStart readEnd writeStart writeEnd semaphore]. split; cbn; try done.
  - intros i x Hi. apply list_lookup_insert_Some in Hi as [(-> & <- & _)|[_ Hi]]; [done|by apply Hnext].
  - by rewrite length_insert.
  - split; [done|by apply nxt_lt].
  - rewrite list_lookup_insert_ne by done. by rewrite Hfirst, <-Hff.
Qed.

Lemma stuck_full timestamp clock opcode sourceId length_ data b : stuck b → nxt (writeEnd b) = readStart b →
  Exists (λ now, 10 ≤ u64 (now - timestamp)) clock →
  ipc_buffer_write timestamp clock opcode sourceId length_ data b = (Ok false, b).
Proof.
  intros Hb Hfull Hc. destruct (s_bounds b Hb) as [_ Hwe]. destruct (stuck_block b _ Hb Hwe) as (block & Hbl & Hn).
  unfold ipc_buffer_write.
  induction Hc as [now clock Hnow|now clock Hc IH]; cbn [write_loop]; run; rewrite (block_at_ok _ _ _ Hbl), Hn, Hfull, Nat.eqb_refl.
  - by rewrite (proj2 (Z.leb_le _ _)).
  - by destruct (10 <=? u64 (now - timestamp)).
Qed.

Definition reads_nothing (r : ipc_result) : Prop := match r with Read (Some _) => False | _ => True end.

Lemma stuck_ops ops b : stuck b → Forall op_ok ops →
  ∃ rs b', run_ops ops b = (Ok rs, b') ∧ Forall reads_nothing rs.
Proof.
  intros Hb Hops. revert b Hb. induction Hops as [|o ops Ho Hops IH]; intros b Hb; cbn [run_ops]; [by exists [], b|].
  assert (Hop : ∃ r b', run_op o b = (Ok r, b') ∧ reads_nothing r ∧ stuck b').
  { destruct o as [timestamp clock opcode sourceId length_ data|]; cbn [run_op]; run.
    - destruct Ho as [Hs Hc]. destruct (decide (nxt (writeEnd b) = readStart b)) as [Hfull|Hfull].
      + rewrite stuck_full by done. by exists (Wrote false), b.
      + destruct (stuck_write timestamp clock opcode sourceId length_ data b Hb Hs Hfull) as (b' & -> & Hb'). by exists (Wrote true), b'.
    - destruct (s_read b Hb) as [_ Hre], (s_bounds b Hb) as [Hws _]. rewrite <-Hre in Hws.
      destruct (stuck_block b _ Hb Hws) as (block & Hbl & _). unfold ipc_buffer_read. run.
      rewrite (block_at_ok _ _ _ Hbl), Hre, Nat.eqb_refl. by exists (Read None), b. }
  destruct Hop as (r & b' & Hrun & Hr & Hb'). run. rewrite Hrun. destruct (IH b' Hb') as (rs & b2 & Hrun2 & Hrs).
  revert Hrun2. run. intros ->. exists (r :: rs), b2. split; [done|by constructor].
Qed.

(** ** The run *)
Definition note : message := mkMessage ServerOp_KeepAlive 1 0 None.
Definition call_write : thread := Writer note WLoad None.
Definition call_read : thread := Reader RLoad None.
Definition steps (i n : nat) : list (nat * bool) := replicate n (i, false).

(** The sleeper, the one who finishes for it, the one who reserves the last
    block, the one whose packet is lost, their readers, and 509 packets that
    are written and read in between. *)
Definition stall_threads : list thread :=
  [call_write; call_write; call_write; call_write; call_read; call_read; call_read] ++
  mjoin (replicate 509 [call_write; call_read]).

Definition stall_schedule : list (nat * bool) :=
  steps 0 6 ++                                    (* block 0 is written; about to clear its flag *)
  steps 1 20 ++ steps 4 20 ++ steps 5 20 ++       (* block 1; both are read *)
  mjoin ((λ k, steps (7 + 2 * k) 20 ++ steps (8 + 2 * k) 20) <$> seq 0 509) ++   (* blocks 2 to 510 *)
  steps 2 4 ++                                    (* block 511 is reserved *)
  steps 3 20 ++                                   (* block 0 again *)
  steps 0 20 ++                                   (* the sleeper wakes *)
  steps 2 20 ++ steps 6 20.                       (* block 511 is finished and read *)

Definition stuck_test (b : IpcBuffer) : bool :=
  (length (blocks b) =? N)%nat &&
  forallb (λ '(i, block), (nextIndex block =? nxt i)%nat) (imap pair (blocks b)) &&
  (readStart b =? writeStart b)%nat && (readEnd b =? writeStart b)%nat &&
  (writeStart b <? N)%nat && (writeEnd b <? N)%nat && negb (writeEnd b =? writeStart b)%nat &&
  match blocks b !! writeStart b with Some block => hasBeenWritten block =? 0 | None => false end.

Lemma stuck_test_ok b : stuck_test b = true → stuck b.
Proof.
  unfold stuck_test. rewrite !andb_true_iff, negb_true_iff, !Nat.eqb_eq, !Nat.ltb_lt, Nat.eqb_neq.
  intros [[[[[[[Hs Hn] Hr1] Hr2] Hw1] Hw2] Hw3] Hf]. split; try done.
  - intros i block Hi. rewrite forallb_forall in Hn. apply Nat.eqb_eq, (Hn (i, block)).
    apply list_elem_of_In, list_elem_of_lookup. exists i. by rewrite list_lookup_imap, Hi.
  - destruct (blocks b !! writeStart b); [|done]. simpl. f_equal. lia.
Qed.

#[local] Transparent NUM_PACKETS.
Lemma stall_run :
  match follow stall_schedule (mkConfig (ipc_buffer_init (λ _, replicate 4096 0)) stall_threads) with
  | Some c => stuck_test (shared c) && forallb returned (threads c)
  | None => false
  end = true.
Proof. by vm_compute. Qed.

Lemma stall_threads_fresh : Forall fresh stall_threads.
Proof.
  unfold stall_threads. apply Forall_app. split; [rewrite !Forall_cons; split_and!; by vm_compute || by apply Forall_nil_2|].
  apply Forall_forall. intros t Ht. apply list_elem_of_join in Ht as (l & Ht & Hl).
  apply elem_of_replicate in Hl as [-> _].
  apply list_elem_of_In in Ht. by destruct Ht as [<-|[<-|[]]].
Qed.

(** Some interleaving of complete calls leaves the buffer dead: every call has
    returned, a packet that was reported as written waits in the ring, and
    whatever is written or read afterwards, no read ever returns a packet. *)
Theorem stalled_writer_kills_buffer :
  ∃ memory l c, memory_ok memory ∧ Forall fresh l ∧ rtc step (mkConfig (ipc_buffer_init memory) l) c ∧
    (∀ i t, threads c !! i = Some t → returned t = true) ∧ writeEnd (shared c) ≠ writeStart (shared c) ∧
    (∀ ops, Forall op_ok ops → ∃ rs b', run_ops ops (shared c) = (Ok rs, b') ∧ Forall reads_nothing rs).
Proof.
  pose proof stall_run as Hrun. exists (λ _, replicate 4096 0), stall_threads.
  destruct (follow stall_schedule _) as [c|] eqn:Hf; [|done]. apply andb_true_iff in Hrun as [Hs Hd].
  apply stuck_test_ok in Hs. exists c. split_and!.
  - intros i. by rewrite length_replicate.
  - apply stall_threads_fresh.
  - by apply (follow_reaches stall_schedule).
  - intros i t Hi. rewrite forallb_forall in Hd. apply Hd, list_elem_of_In. by eapply list_elem_of_lookup_2.
  - apply (s_waiting _ Hs).
  - intros ops. by apply stuck_ops.
Qed.
