(* ===== verification/TimerPool.v ===== *)
(** Timers and the pool that triggers them: common/time/timer.c and
    common/time/timer_pool.c.

    A timer is an address in a store; freeing it takes it out, and any access
    afterwards is a fault. Callbacks are application code: an argument [cb],
    which may itself use the timers. The clock is the argument [now]. *)

From S2P Require Import Prelude.

Definition INVALID_INDEX : Z := 0xffffffff.
Definition DEFAULT_CAPACITY : Z := 32.

Record Timer := mkTimer {
  poolIndex : Z;
  periodMilliseconds : Z;
}.

(** A cell no one has written yet is [None]. [fired] logs the callbacks run. *)
Record TimerPool := mkPool {
  capacity : Z;
  count : Z;
  triggerTimes : list (option Z);
  timerObjects : list (option nat);
  triggered : list Z;
  timers : gmap nat Timer;
  fired : list nat;
}.

Definition with_times (p : TimerPool) (ts : list (option Z)) : TimerPool :=
  mkPool (capacity p) (count p) ts (timerObjects p) (triggered p) (timers p) (fired p).
Definition with_objects (p : TimerPool) (os : list (option nat)) : TimerPool :=
  mkPool (capacity p) (count p) (triggerTimes p) os (triggered p) (timers p) (fired p).
Definition with_count (p : TimerPool) (n : Z) : TimerPool :=
  mkPool (capacity p) n (triggerTimes p) (timerObjects p) (triggered p) (timers p) (fired p).
Definition with_triggered (p : TimerPool) (l : list Z) : TimerPool :=
  mkPool (capacity p) (count p) (triggerTimes p) (timerObjects p) l (timers p) (fired p).
Definition with_timers (p : TimerPool) (m : gmap nat Timer) : TimerPool :=
  mkPool (capacity p) (count p) (triggerTimes p) (timerObjects p) (triggered p) m (fired p).

Definition timer_pool_init : TimerPool :=
  mkPool DEFAULT_CAPACITY 0 (replicate (Z.to_nat DEFAULT_CAPACITY) None)
    (replicate (Z.to_nat DEFAULT_CAPACITY) None) [] ∅ [].

(** ** Memory *)
Definition time_at (i : Z) : code TimerPool Z := λ p, (deref (mjoin (triggerTimes p !! Z.to_nat i)), p).
Definition object_at (i : Z) : code TimerPool nat := λ p, (deref (mjoin (timerObjects p !! Z.to_nat i)), p).
Definition put_time (i v : Z) : code TimerPool unit := λ p,
  match triggerTimes p !! Z.to_nat i with
  | Some _ => (Ok tt, with_times p (<[Z.to_nat i := Some v]> (triggerTimes p)))
  | None => (Fault, p)
  end.
Definition put_object (i : Z) (id : nat) : code TimerPool unit := λ p,
  match timerObjects p !! Z.to_nat i with
  | Some _ => (Ok tt, with_objects p (<[Z.to_nat i := Some id]> (timerObjects p)))
  | None => (Fault, p)
  end.
Definition timer_at (id : nat) : code TimerPool Timer := λ p, (deref (timers p !! id), p).
Definition set_pool_index (id : nat) (i : Z) : code TimerPool unit :=
  t ← timer_at id;
  modify (λ p, with_timers p (<[id := mkTimer i (periodMilliseconds t)]> (timers p))).

(** ** The pool's operations *)

(** The dead bit. *)
Definition DEAD : Z := 2 ^ 63.
Definition is_dead (t : Z) : bool := Z.testbit t 63.

Definition timer_pool_realloc : code TimerPool unit :=
  modify (λ p,
    let c := u32 (capacity p * 2) in
    mkPool c (count p)
      (take (Z.to_nat c) (triggerTimes p ++ replicate (Z.to_nat c - length (triggerTimes p)) None))
      (take (Z.to_nat c) (timerObjects p ++ replicate (Z.to_nat c - length (timerObjects p)) None))
      (triggered p) (timers p) (fired p)).

Definition timer_pool_internal_start_timer (now : Z) (id : nat) : code TimerPool unit :=
  p ← get;
  let index := count p in
  modify (λ p, with_count p (u32 (index + 1))) ;;
  (if capacity p <=? index then timer_pool_realloc else mret tt) ;;
  t ← timer_at id;
  put_time index (u64 (now + periodMilliseconds t)) ;;
  put_object index id ;;
  set_pool_index id index.

Definition timer_pool_internal_restart_timer (now : Z) (id : nat) : code TimerPool unit :=
  t ← timer_at id;
  put_time (poolIndex t) (u64 (now + periodMilliseconds t)).

Definition timer_pool_internal_delay_timer (id : nat) (milliseconds : Z) : code TimerPool unit :=
  t ← timer_at id;
  v ← time_at (poolIndex t);
  put_time (poolIndex t) (u64 (v + milliseconds)).

Definition timer_pool_internal_force_timer_trigger_next_cycle (now : Z) (id : nat) : code TimerPool unit :=
  t ← timer_at id;
  put_time (poolIndex t) now.

Definition timer_pool_internal_mark_timer_as_dead (index : Z) : code TimerPool unit :=
  v ← time_at index;
  put_time index (Z.lor v DEAD).

Definition timer_pool_swap_and_pop (index : Z) : code TimerPool unit :=
  p ← get;
  let back := u32 (count p - 1) in
  modify (λ p, with_count p back) ;;
  if back =? index then mret tt
  else
    id ← object_at back;
    put_object index id ;;
    v ← time_at back;
    put_time index v ;;
    set_pool_index id index.

(** The first loop of [timer_pool_execute_callbacks]. *)
Fixpoint scan (fuel : nat) (now i n : Z) : code TimerPool unit :=
  match fuel with
  | O => mret tt
  | S fuel =>
      if i <? n then
        t ← time_at i;
        if is_dead t then timer_pool_swap_and_pop i ;; scan fuel now i (n - 1)
        else
          (if Z.land t (DEAD - 1) <=? now then modify (λ p, with_triggered p (triggered p ++ [i])) else mret tt) ;;
          scan fuel now (i + 1) n
      else mret tt
  end.

Section Callbacks.
Context (cb : nat → code TimerPool unit).

Definition timer_pool_trigger (index : Z) : code TimerPool unit :=
  id ← object_at index;
  t ← timer_at id;
  v ← time_at index;
  put_time index (u64 (v + periodMilliseconds t)) ;;
  modify (λ p, mkPool (capacity p) (count p) (triggerTimes p) (timerObjects p) (triggered p) (timers p)
                 (fired p ++ [id])) ;;
  cb id.

Definition timer_pool_execute_callbacks (now : Z) : code TimerPool unit :=
  n ← gets count;
  scan (Z.to_nat n) now 0 n ;;
  due ← gets triggered;
  if (0 <? length due)%nat then
    each due timer_pool_trigger ;;
    modify (λ p, with_triggered p [])
  else mret tt.
End Callbacks.

(** ** Timers *)
Definition timer_init (now : Z) (id : nat) (period : Z) (start : bool) : code TimerPool unit :=
  modify (λ p, with_timers p (<[id := mkTimer INVALID_INDEX period]> (timers p))) ;;
  if start then timer_pool_internal_start_timer now id else mret tt.

Definition timer_stop (id : nat) : code TimerPool unit :=
  t ← timer_at id;
  if poolIndex t =? INVALID_INDEX then mret tt
  else
    set_pool_index id INVALID_INDEX ;;
    timer_pool_internal_mark_timer_as_dead (poolIndex t).

Definition timer_deinit (id : nat) : code TimerPool unit := timer_stop id.

(** Stops and frees the timer. *)
Definition timer_destroy (id : nat) : code TimerPool unit :=
  timer_deinit id ;;
  modify (λ p, with_timers p (delete id (timers p))).

Definition timer_restart (now : Z) (id : nat) : code TimerPool unit :=
  t ← timer_at id;
  if poolIndex t =? INVALID_INDEX then timer_pool_internal_start_timer now id
  else timer_pool_internal_restart_timer now id.

Definition timer_delay (id : nat) (milliseconds : Z) : code TimerPool unit :=
  t ← timer_at id;
  if poolIndex t =? INVALID_INDEX then mret tt
  else timer_pool_internal_delay_timer id milliseconds.

Definition timer_force_trigger_on_next_cycle (now : Z) (id : nat) : code TimerPool unit :=
  t ← timer_at id;
  (if poolIndex t =? INVALID_INDEX then timer_pool_internal_start_timer now id else mret tt) ;;
  timer_pool_internal_force_timer_trigger_next_cycle now id.

(** ** The entries of a pool *)

(** The pool's entries in order, the time with its dead bit. *)
Record holds (p : TimerPool) (es : list (nat * Z)) : Prop := {
  h_count : count p = Z.of_nat (length es);
  h_capacity : count p ≤ capacity p;
  h_times : Z.of_nat (length (triggerTimes p)) = capacity p;
  h_objects : Z.of_nat (length (timerObjects p)) = capacity p;
  h_small : 0 < capacity p < 2 ^ 30;
  h_entries (i : nat) id t : es !! i = Some (id, t) →
    triggerTimes p !! i = Some (Some t) ∧ timerObjects p !! i = Some (Some id);
}.
