(* ===== verification/TimerPoolSpec.v ===== *)
(** What one cycle of the timer pool does: the dead entries leave, the due
    timers run once, the others keep their times; and what it does to timers
    that were stopped or freed before it. *)

From S2P Require Import Prelude TimerPool.

Definition is_live (e : nat * Z) : bool := negb (is_dead e.2).
Definition is_due (now : Z) (e : nat * Z) : bool := Z.land e.2 (DEAD - 1) <=? now.

(** The last entry moved to position [i]. *)
Definition pop_at (es : list (nat * Z)) (i : nat) : list (nat * Z) :=
  match last es with
  | Some e => <[i := e]> (take (length es - 1) es)
  | None => es
  end.

(** Every entry's timer is there, the live ones know their position, and no
    timer has two entries. *)
Record coherent (p : TimerPool) (es : list (nat * Z)) : Prop := {
  co_timer (i : nat) id t : es !! i = Some (id, t) →
    ∃ tm, timers p !! id = Some tm ∧ (is_live (id, t) = true → poolIndex tm = Z.of_nat i);
  co_once : NoDup es.*1;
}.

Definition same_periods (p p' : TimerPool) : Prop :=
  ∀ id, periodMilliseconds <$> timers p' !! id = periodMilliseconds <$> timers p !! id.

(** ** Memory *)
Lemma time_at_ok p es (i : nat) id t : holds p es → es !! i = Some (id, t) →
  time_at (Z.of_nat i) p = (Ok t, p).
Proof. intros Hh Hi. unfold time_at. rewrite Nat2Z.id. by destruct (h_entries _ _ Hh _ _ _ Hi) as [-> _]. Qed.

Lemma object_at_ok p es (i : nat) id t : holds p es → es !! i = Some (id, t) →
  object_at (Z.of_nat i) p = (Ok id, p).
Proof. intros Hh Hi. unfold object_at. rewrite Nat2Z.id. by destruct (h_entries _ _ Hh _ _ _ Hi) as [_ ->]. Qed.

Lemma holds_length p es : holds p es → (length es ≤ length (triggerTimes p))%nat ∧ (length es ≤ length (timerObjects p))%nat.
Proof. intros [Hc Hcap Ht Ho _ _]. lia. Qed.

Lemma put_time_ok p es (i : nat) id t v : holds p es → es !! i = Some (id, t) →
  ∃ p', put_time (Z.of_nat i) v p = (Ok tt, p') ∧ holds p' (<[i := (id, v)]> es) ∧
    timers p' = timers p ∧ triggered p' = triggered p ∧ fired p' = fired p.
Proof.
  intros Hh Hi. pose proof (h_entries _ _ Hh _ _ _ Hi) as [Ht Ho].
  unfold put_time. rewrite Nat2Z.id, Ht. eexists. split; [done|]. split; [|done].
  destruct Hh as [Hc Hcap Hlt Hlo Hs He]. split; simpl; rewrite ?length_insert; try done.
  intros j id' t' Hj. destruct (decide (i = j)) as [<-|Hne].
  - rewrite list_lookup_insert_eq in Hj by (by eapply lookup_lt_Some). injection Hj as <- <-.
    rewrite list_lookup_insert_eq by (by eapply lookup_lt_Some). done.
  - rewrite list_lookup_insert_ne in Hj by done. rewrite list_lookup_insert_ne by done. by eapply He.
Qed.

(** ** Removing an entry *)
Lemma pop_at_length es i : length (pop_at es i) = (length es - 1)%nat.
Proof.
  unfold pop_at. destruct (last es) as [e|] eqn:Hl; [rewrite length_insert, length_take; lia|].
  by apply last_None in Hl as ->.
Qed.

Lemma pop_at_lookup es i j : (i < length es)%nat → (j < length es - 1)%nat →
  pop_at es i !! j = if decide (j = i) then last es else es !! j.
Proof.
  intros Hi Hj. unfold pop_at. destruct (last es) as [e|] eqn:Hl; [|apply last_None in Hl as ->; simpl in *; lia].
  destruct (decide (j = i)) as [->|Hne].
  - by rewrite list_lookup_insert_eq by (rewrite length_take; lia).
  - rewrite list_lookup_insert_ne by done. by rewrite lookup_take_lt.
Qed.

Lemma pop_at_perm pre x l : ∃ l', pop_at (pre ++ x :: l) (length pre) = pre ++ l' ∧ l' ≡ₚ l.
Proof.
  unfold pop_at. destruct (decide (l = [])) as [->|Hne].
  - rewrite last_snoc, length_app, Nat.add_sub. simpl. rewrite take_app_length. exists [].
    by rewrite app_nil_r, list_insert_ge by lia.
  - destruct (exists_last Hne) as (l1 & y & ->). exists (y :: l1). split; [|by rewrite Permutation_app_comm].
    replace (pre ++ x :: l1 ++ [y]) with ((pre ++ x :: l1) ++ [y]) by (by rewrite <-app_assoc).
    rewrite last_snoc, length_app, Nat.add_sub, take_app_length.
    rewrite <-(Nat.add_0_r (length pre)) at 1. by rewrite insert_app_r.
Qed.

Lemma set_pool_index_ok id i p tm : timers p !! id = Some tm →
  set_pool_index id i p = (Ok tt, with_timers p (<[id := mkTimer i (periodMilliseconds tm)]> (timers p))).
Proof. intros Ht. unfold set_pool_index, timer_at. run. by rewrite Ht. Qed.

Lemma put_object_ok i id p o : timerObjects p !! i = Some o →
  put_object (Z.of_nat i) id p = (Ok tt, with_objects p (<[i := Some id]> (timerObjects p))).
Proof. intros Ho. unfold put_object. by rewrite Nat2Z.id, Ho. Qed.

Lemma swap_ok p es i : holds p es → (i < length es)%nat → (∀ e, e ∈ es → is_Some (timers p !! e.1)) →
  ∃ p', timer_pool_swap_and_pop (Z.of_nat i) p = (Ok tt, p') ∧ holds p' (pop_at es i) ∧
    triggered p' = triggered p ∧ fired p' = fired p ∧ same_periods p p' ∧
    timers p' = match es !! (length es - 1)%nat with
      | Some (id, _) => if decide (i = length es - 1)%nat then timers p
          else alter (λ tm, mkTimer (Z.of_nat i) (periodMilliseconds tm)) id (timers p)
      | None => timers p end.
Proof.
  intros Hh Hi Hsome. pose proof Hh as [Hc Hcap Hlt Hlo Hs He].
  destruct (lookup_lt_is_Some_2 es (length es - 1)) as [[id t] Hback]; [lia|]. rewrite Hback.
  assert (Hlast : last es = Some (id, t)) by (rewrite last_lookup; by rewrite <-Hback; f_equal; lia).
  unfold timer_pool_swap_and_pop. run. rewrite Hc, wrap_small by (unfold is_word; lia).
  replace (Z.of_nat (length es) - 1) with (Z.of_nat (length es - 1)) by lia.
  destruct (Z.eqb_spec (Z.of_nat (length es - 1)) (Z.of_nat i)) as [Heq|Hne].
  - rewrite decide_True by lia. eexists. split; [done|]. split_and!; try done.
    split; simpl; rewrite ?pop_at_length; try done; [lia|].
    intros j id' t' Hj. apply He. pose proof (lookup_lt_Some _ _ _ Hj) as Hlj. rewrite pop_at_length in Hlj.
    rewrite pop_at_lookup, decide_False in Hj by lia. done.
  - rewrite decide_False by lia. set (p1 := with_count p _).
    pose proof (He _ _ _ Hback) as [Htb Hob].
    assert (H1 : object_at (Z.of_nat (length es - 1)) p1 = (Ok id, p1)).
    { unfold object_at. rewrite Nat2Z.id. simpl. by rewrite Hob. }
    rewrite H1. destruct (lookup_lt_is_Some_2 es i Hi) as [[idi ti] Hei]. pose proof (He _ _ _ Hei) as [Hti Hoi].
    rewrite (put_object_ok i id p1 _ Hoi). set (p2 := with_objects p1 _).
    assert (H2 : time_at (Z.of_nat (length es - 1)) p2 = (Ok t, p2)).
    { unfold time_at. rewrite Nat2Z.id. simpl. by rewrite Htb. }
    rewrite H2. unfold put_time. rewrite Nat2Z.id. simpl triggerTimes. rewrite Hti.
    destruct (Hsome (id, t)) as [tm Htm]; [by eapply list_elem_of_lookup_2|]. simpl in Htm.
    rewrite (set_pool_index_ok _ _ _ tm) by done. eexists. split; [done|]. split_and!; try done.
    + split; simpl; rewrite ?length_insert, ?pop_at_length; try done; [lia|].
      intros j id' t' Hj. pose proof (lookup_lt_Some _ _ _ Hj) as Hlj. rewrite pop_at_length in Hlj.
      rewrite pop_at_lookup in Hj by lia. case_decide as Hji.
      * subst j. rewrite Hlast in Hj. injection Hj as <- <-. rewrite !list_lookup_insert_eq by lia. done.
      * rewrite !list_lookup_insert_ne by done. by eapply He.
    + intros id'. simpl. destruct (decide (id' = id)) as [->|]; [|by rewrite lookup_insert_ne].
      rewrite lookup_insert_eq, Htm. done.
    + simpl. apply map_eq. intros id'. destruct (decide (id' = id)) as [->|].
      * by rewrite lookup_insert_eq, lookup_alter_eq, Htm.
      * by rewrite lookup_insert_ne, lookup_alter_ne.
Qed.

Lemma coherent_timers p es : coherent p es → ∀ e, e ∈ es → is_Some (timers p !! e.1).
Proof.
  intros Hco [id t] [i Hi]%list_elem_of_lookup_1. destruct (co_timer _ _ Hco _ _ _ Hi) as (tm & Htm & _). by exists tm.
Qed.

Lemma coherent_pop p p' es pre x l : es = pre ++ x :: l → coherent p es →
  timers p' = match es !! (length es - 1)%nat with
    | Some (id, _) => if decide (length pre = length es - 1)%nat then timers p
        else alter (λ tm, mkTimer (Z.of_nat (length pre)) (periodMilliseconds tm)) id (timers p)
    | None => timers p end →
  coherent p' (pop_at es (length pre)).
Proof.
  intros Hes Hco Ht. pose proof Hco as [Hent Honce].
  assert (Hi : (length pre < length es)%nat) by (rewrite Hes, length_app; simpl; lia).
  destruct (lookup_lt_is_Some_2 es (length es - 1)) as [[idb tb] Hback]; [lia|]. rewrite Hback in Ht. split.
  - intros j id t Hj. pose proof (lookup_lt_Some _ _ _ Hj) as Hlj. rewrite pop_at_length in Hlj.
    rewrite pop_at_lookup in Hj by lia. rewrite last_lookup in Hj.
    replace (Init.Nat.pred (length es)) with (length es - 1)%nat in Hj by lia. case_decide as Hji.
    + subst j. rewrite Hback in Hj. injection Hj as <- <-. rewrite decide_False in Ht by lia.
      destruct (Hent _ _ _ Hback) as (tm & Htm & _).
      exists (mkTimer (Z.of_nat (length pre)) (periodMilliseconds tm)). by rewrite Ht, lookup_alter_eq, Htm.
    + destruct (Hent _ _ _ Hj) as (tm & Htm & Hlive). exists tm. split; [|done]. rewrite Ht.
      case_decide; [done|]. rewrite lookup_alter_ne; [done|]. intros <-.
      assert (j = length es - 1)%nat; [|lia]. eapply (NoDup_lookup es.*1 j _ idb Honce).
      * by rewrite list_lookup_fmap, Hj.
      * by rewrite list_lookup_fmap, Hback.
  - subst es. destruct (pop_at_perm pre x l) as (l' & -> & Hl').
    rewrite fmap_app in *. rewrite Hl'. rewrite fmap_cons in Honce.
    apply NoDup_app in Honce as (H1 & H2 & H3). apply NoDup_cons in H3 as [_ H3].
    apply NoDup_app. split_and!; [done| |done]. intros y Hy Hin. eapply H2; [done|]. by right.
Qed.

(** The positions of the due entries. *)
Fixpoint due_from (now : Z) (i : nat) (l : list (nat * Z)) : list Z :=
  match l with
  | [] => []
  | e :: l => (if is_due now e then [Z.of_nat i] else []) ++ due_from now (S i) l
  end.

Lemma same_periods_trans p1 p2 p3 : same_periods p1 p2 → same_periods p2 p3 → same_periods p1 p3.
Proof. intros H1 H2 id. by rewrite H2, H1. Qed.

Lemma holds_with_triggered p es l : holds p es → holds (with_triggered p l) es.
Proof. by intros []. Qed.

Lemma coherent_ext p p' es : coherent p es → timers p' = timers p → coherent p' es.
Proof. intros [H1 H2] Ht. split; [|done]. by rewrite Ht. Qed.

Lemma scan_ok fuel now p pre rest :
  holds p (pre ++ rest) → coherent p (pre ++ rest) → (length rest ≤ fuel)%nat →
  ∃ p' rest', scan fuel now (Z.of_nat (length pre)) (Z.of_nat (length (pre ++ rest))) p = (Ok tt, p') ∧
    holds p' (pre ++ rest') ∧ coherent p' (pre ++ rest') ∧ rest' ≡ₚ filter is_live rest ∧
    triggered p' = triggered p ++ due_from now (length pre) rest' ∧ fired p' = fired p ∧ same_periods p p'.
Proof.
  revert p pre rest. induction fuel as [|fuel IH]; intros p pre rest Hh Hco Hf.
  { destruct rest; [|simpl in Hf; lia]. exists p, []. split_and!; try done. simpl. by rewrite app_nil_r. }
  cbn [scan]. destruct rest as [|[id t] l].
  { rewrite app_nil_r, Z.ltb_irrefl. exists p, []. rewrite app_nil_r in *. split_and!; try done.
    simpl. by rewrite app_nil_r. }
  rewrite (proj2 (Z.ltb_lt _ _)) by (rewrite length_app; simpl; lia). run.
  assert (Hi : (pre ++ (id, t) :: l) !! length pre = Some (id, t)) by (by rewrite list_lookup_middle).
  rewrite (time_at_ok _ _ _ _ _ Hh Hi). destruct (is_dead t) eqn:Hdead.
  - destruct (swap_ok p _ (length pre) Hh) as (p1 & -> & Hh1 & Ht1 & Hf1 & Hsp1 & Hm1);
      [rewrite length_app; simpl; lia|by apply coherent_timers|].
    pose proof (coherent_pop p p1 _ pre (id, t) l eq_refl Hco Hm1) as Hco1.
    destruct (pop_at_perm pre (id, t) l) as (l' & Hpop & Hl'). rewrite Hpop in Hh1, Hco1.
    destruct (IH p1 pre l' Hh1 Hco1) as (p2 & rest' & Hs & Hh2 & Hco2 & Hp2 & Ht2 & Hf2 & Hsp2).
    { rewrite Hl'. simpl in Hf. lia. }
    exists p2, rest'. split_and!; try done.
    + etrans; [|exact Hs]. f_equal. rewrite !length_app, Hl'. simpl. lia.
    + rewrite Hp2, Hl'. rewrite filter_cons_False; [done|]. unfold is_live. simpl. rewrite Hdead. by intros [].
    + by rewrite Ht2, Ht1.
    + congruence.
    + by eapply same_periods_trans.
  - fold (is_due now (id, t)).
    set (p1 := if is_due now (id, t) then with_triggered p (triggered p ++ [Z.of_nat (length pre)]) else p).
    assert (Hh1 : holds p1 ((pre ++ [(id, t)]) ++ l))
      by (rewrite <-app_assoc; unfold p1; case_match; [by apply holds_with_triggered|done]).
    assert (Hco1 : coherent p1 ((pre ++ [(id, t)]) ++ l))
      by (rewrite <-app_assoc; unfold p1; case_match; [by eapply coherent_ext|done]).
    destruct (IH p1 (pre ++ [(id, t)]) l Hh1 Hco1) as (p2 & rest' & Hs & Hh2 & Hco2 & Hp2 & Ht2 & Hf2 & Hsp2).
    { simpl in Hf. lia. }
    exists p2, ((id, t) :: rest'). rewrite <-app_assoc in Hs, Hh2, Hco2. rewrite length_app in Hs, Ht2.
    cbn [length app] in Hs, Hh2, Hco2, Ht2. split_and!; try done.
    + replace (Z.of_nat (length pre) + 1) with (Z.of_nat (length pre + 1)) by lia. rewrite <-Hs.
      unfold p1, is_due. cbn [snd]. by destruct (Z.land t (DEAD - 1) <=? now).
    + rewrite filter_cons_True by (unfold is_live; simpl; by rewrite Hdead). by rewrite Hp2.
    + rewrite Ht2. cbn [due_from]. rewrite Nat.add_1_r, app_assoc. f_equal. unfold p1.
      case_match; [done|by rewrite app_nil_r].
    + rewrite Hf2. unfold p1. by case_match.
    + intros id'. rewrite Hsp2. unfold p1. by case_match.
Qed.

(** ** Running the callbacks *)

(** A due entry's next trigger time. *)
Definition bump (m : gmap nat Timer) (now : Z) (e : nat * Z) : nat * Z :=
  if is_due now e then (e.1, u64 (e.2 + default 0 (periodMilliseconds <$> m !! e.1))) else e.

(** Callbacks that leave the pool alone. *)
Definition passive (cb : nat → code TimerPool unit) : Prop := ∀ id p, cb id p = (Ok tt, p).

(** All entries are live. *)
Definition placed (p : TimerPool) (ids : list nat) : Prop :=
  NoDup ids ∧ ∀ (i : nat) id, ids !! i = Some id →
    ∃ tm, timers p !! id = Some tm ∧ poolIndex tm = Z.of_nat i.

Lemma placed_coherent p es : placed p es.*1 → coherent p es.
Proof.
  intros [Honce Hent]. split; [|done]. intros i id t Hi.
  destruct (Hent i id) as (tm & Htm & Hpos); [by rewrite list_lookup_fmap, Hi|]. by exists tm.
Qed.

Lemma coherent_placed p es : coherent p es → Forall is_live es → placed p es.*1.
Proof.
  intros [Hent Honce] Hlive. split; [done|]. intros i id Hi. rewrite list_lookup_fmap in Hi.
  destruct (es !! i) as [[id' t]|] eqn:Hei; [|done]. injection Hi as <-.
  destruct (Hent _ _ _ Hei) as (tm & Htm & Hpos). exists tm. split; [done|]. apply Hpos, Is_true_true.
  exact (Forall_lookup_1 _ _ i _ Hlive Hei).
Qed.

Lemma trigger_ok cb p es (i : nat) id t : passive cb → holds p es → placed p es.*1 → es !! i = Some (id, t) →
  ∃ p', timer_pool_trigger cb (Z.of_nat i) p = (Ok tt, p') ∧
    holds p' (<[i := (id, u64 (t + default 0 (periodMilliseconds <$> timers p !! id)))]> es) ∧
    timers p' = timers p ∧ fired p' = fired p ++ [id] ∧ triggered p' = triggered p.
Proof.
  intros Hcb Hh [_ Hent] Hi. destruct (Hent i id) as (tm & Htm & _); [by rewrite list_lookup_fmap, Hi|].
  unfold timer_pool_trigger, timer_at. run. rewrite (object_at_ok _ _ _ _ _ Hh Hi), Htm, (time_at_ok _ _ _ _ _ Hh Hi).
  destruct (put_time_ok p es i id t (u64 (t + periodMilliseconds tm)) Hh Hi) as (p1 & -> & Hh1 & Ht1 & Htr1 & Hf1).
  rewrite Hcb. eexists. split; [done|]. split; [by destruct Hh1|]. simpl. by rewrite Hf1.
Qed.

Lemma triggers_ok cb now l pre p : passive cb → holds p (pre ++ l) → placed p (pre ++ l).*1 →
  ∃ p', each (due_from now (length pre) l) (timer_pool_trigger cb) p = (Ok tt, p') ∧
    holds p' (pre ++ (bump (timers p) now <$> l)) ∧ timers p' = timers p ∧
    fired p' = fired p ++ (filter (is_due now) l).*1.
Proof.
  intros Hcb. revert pre p. induction l as [|[id t] l IH]; intros pre p Hh Hpl.
  { exists p. split_and!; try done. simpl. by rewrite app_nil_r. }
  cbn [due_from fmap list_fmap]. unfold bump at 1. destruct (is_due now (id, t)) eqn:Hd.
  - cbn [app each]. run.
    destruct (trigger_ok cb p _ (length pre) id t Hcb Hh Hpl) as (p1 & -> & Hh1 & Ht1 & Hf1 & _);
      [by rewrite list_lookup_middle|].
    set (t' := u64 _) in Hh1. rewrite <-(Nat.add_0_r (length pre)), insert_app_r in Hh1. cbn [insert list_insert] in Hh1.
    destruct (IH (pre ++ [(id, t')]) p1) as (p2 & Hs & Hh2 & Ht2 & Hf2).
    + by rewrite <-app_assoc.
    + rewrite <-app_assoc. destruct Hpl as [Honce Hent]. rewrite !fmap_app in *. split; [done|]. by rewrite Ht1.
    + rewrite length_app, Nat.add_1_r in Hs. exists p2. split_and!; [done| |congruence|].
      * rewrite Ht1, <-app_assoc in Hh2. exact Hh2.
      * rewrite Hf2, Hf1, filter_cons_True by (by rewrite Hd). by rewrite <-app_assoc.
  - cbn [app]. destruct (IH (pre ++ [(id, t)]) p) as (p2 & Hs & Hh2 & Ht2 & Hf2); [by rewrite <-app_assoc..|].
    rewrite length_app, Nat.add_1_r in Hs. exists p2. split_and!; [done| |done|].
    + by rewrite <-app_assoc in Hh2.
    + rewrite Hf2, filter_cons_False; [done|]. rewrite Hd. by intros [].
Qed.

Lemma filter_live_all es : Forall is_live (filter is_live es).
Proof. apply Forall_forall. intros e He. by apply list_elem_of_filter in He as [? _]. Qed.

(** ** Starting *)

(** After counting one more entry and growing the arrays if they are full. *)
Lemma room_ok p es : holds p es → Z.of_nat (length es) < 2 ^ 28 →
  let n := Z.of_nat (length es) in
  ∃ p1, (if capacity p <=? n then timer_pool_realloc else mret tt) (with_count p (n + 1)) = (Ok tt, p1) ∧
    count p1 = n + 1 ∧ n + 1 ≤ capacity p1 ∧ Z.of_nat (length (triggerTimes p1)) = capacity p1 ∧
    Z.of_nat (length (timerObjects p1)) = capacity p1 ∧ 0 < capacity p1 < 2 ^ 30 ∧ timers p1 = timers p ∧
    ∀ (i : nat) id t, es !! i = Some (id, t) →
      triggerTimes p1 !! i = Some (Some t) ∧ timerObjects p1 !! i = Some (Some id).
Proof.
  intros [Hc Hcap Hlt Hlo Hs He] Hsmall n. destruct (Z.leb_spec (capacity p) n) as [Hfull|Hroom].
  - eexists. split; [done|]. cbn [capacity count triggerTimes timerObjects timers with_count].
    assert (Hc2 : u32 (capacity p * 2) = capacity p * 2) by (apply wrap_small; unfold is_word; lia). rewrite Hc2.
    rewrite !length_take, !length_app, !length_replicate. split_and!; try lia; try done.
    intros i id t Hi. destruct (He _ _ _ Hi) as [Ht Ho].
    pose proof (lookup_lt_Some _ _ _ Ht). pose proof (lookup_lt_Some _ _ _ Ho).
    rewrite !lookup_take_lt by lia. by rewrite !lookup_app_l by lia.
  - eexists. split; [done|]. simpl. split_and!; done || lia.
Qed.

(** ** Properties *)

(** C18: One cycle of a pool whose timers each have one entry: no access outside the
    pool's memory or to a freed timer; the stopped timers' entries are gone;
    each timer that is due has its callback run once and its next trigger time
    moved by its period, the others keep their trigger time; every timer knows
    its position in the pool afterwards. Callbacks leave the pool alone. *)
Theorem execute_callbacks_runs_due_once cb now p es :
  passive cb → holds p es → coherent p es → triggered p = [] →
  ∃ p' es', timer_pool_execute_callbacks cb now p = (Ok tt, p') ∧
    es' ≡ₚ filter is_live es ∧ holds p' (bump (timers p) now <$> es') ∧
    coherent p' (bump (timers p) now <$> es') ∧
    fired p' = fired p ++ (filter (is_due now) es').*1 ∧ triggered p' = [].
Proof.
  intros Hcb Hh Hco Htr. destruct (scan_ok (length es) now p [] es Hh Hco ltac:(lia))
    as (p1 & es1 & Hs & Hh1 & Hco1 & Hperm & Htr1 & Hf1 & Hsp). cbn [app] in *. rewrite Htr in Htr1. cbn [app] in Htr1.
  assert (Hlive : Forall is_live es1) by (rewrite Hperm; apply filter_live_all).
  pose proof (coherent_placed _ _ Hco1 Hlive) as Hpl.
  assert (Hbump : bump (timers p1) now <$> es1 = bump (timers p) now <$> es1).
  { apply list_fmap_ext. intros i e _. unfold bump. by rewrite Hsp. }
  unfold timer_pool_execute_callbacks. run. rewrite (h_count _ _ Hh), Nat2Z.id. cbn [length] in Hs, Htr1. change (Z.of_nat 0) with 0 in Hs. rewrite Hs, Htr1.
  destruct (Nat.ltb_spec 0 (length (due_from now 0 es1))) as [Hdue|Hnone].
  - destruct (triggers_ok cb now es1 [] p1 Hcb Hh1 Hpl) as (p2 & Htg & Hh2 & Ht2 & Hf2). cbn [length app] in *.
    rewrite Htg. exists (with_triggered p2 []), es1. rewrite Hbump in Hh2. split_and!; try done.
    + by apply holds_with_triggered.
    + apply placed_coherent. destruct Hpl as [Honce Hent]. rewrite <-list_fmap_compose.
      assert (Heq : fst ∘ bump (timers p) now <$> es1 = es1.*1).
      { apply list_fmap_ext. intros i e _. unfold bump. simpl. by case_match. }
      rewrite Heq. split; [done|]. simpl. by rewrite Ht2.
    + simpl. by rewrite Hf2, Hf1.
  - exists p1, es1.
    assert (Hnd : ∀ l i, due_from now i l = [] → filter (is_due now) l = [] ∧ ∀ m, bump m now <$> l = l).
    { clear. induction l as [|e l IH]; intros i Hd; [done|]. cbn [due_from] in Hd.
      destruct (is_due now e) eqn:He; [done|]. destruct (IH _ Hd) as [Hf Hb]. split.
      - rewrite filter_cons_False; [done|]. rewrite He. by intros [].
      - intros m. rewrite fmap_cons, Hb. unfold bump. by rewrite He. }
    destruct (Hnd es1 0%nat) as [Hf Hb]; [by apply length_zero_iff_nil; lia|]. rewrite Hb, Hf.
    split_and!; try done; [by rewrite app_nil_r|]. rewrite Htr1. apply length_zero_iff_nil. lia.
Qed.

(** Two running timers. *)
Definition two_timers : code TimerPool unit := timer_init 100 0 10 true ;; timer_init 100 1 60 true.
Definition no_callback (_ : nat) : code TimerPool unit := mret tt.

Lemma execute_callbacks_runs_due_once_witness :
  let p := (two_timers timer_pool_init).2 in
  ∃ p' es', timer_pool_execute_callbacks no_callback 115 p = (Ok tt, p') ∧
    es' ≡ₚ [(0%nat, 110); (1%nat, 160)] ∧ fired p' = (filter (is_due 115) es').*1.
Proof.
  intros p. destruct (execute_callbacks_runs_due_once no_callback 115 p [(0%nat, 110); (1%nat, 160)])
    as (p' & es' & Hs & Hperm & _ & _ & Hf & _).
  - done.
  - split; try (vm_compute; done).
    intros [|[|i]] id t Hi; [injection Hi as <- <-; done|injection Hi as <- <-; done|done].
  - split; [|by repeat constructor; set_solver].
    intros [|[|i]] id t Hi; [injection Hi as <- <-; by eexists|injection Hi as <- <-; by eexists|done].
  - done.
  - exists p', es'. split_and!; [exact Hs|exact Hperm|exact Hf].
Defined.

(** Starting a timer that is not in the pool appends it, due one period from
    now, whether or not the arrays have to grow first. *)
Theorem timer_start_enters_pool now id p es tm :
  holds p es → coherent p es → Z.of_nat (length es) < 2 ^ 28 → id ∉ es.*1 →
  timers p !! id = Some tm → poolIndex tm = INVALID_INDEX →
  ∃ p', timer_restart now id p = (Ok tt, p') ∧
    holds p' (es ++ [(id, u64 (now + periodMilliseconds tm))]) ∧
    coherent p' (es ++ [(id, u64 (now + periodMilliseconds tm))]).
Proof.
  intros Hh [Hent Honce] Hsmall Hid Htm Hidx. unfold timer_restart, timer_pool_internal_start_timer, timer_at. run.
  rewrite Htm, Hidx. change (INVALID_INDEX =? INVALID_INDEX) with true. run.
  rewrite (h_count _ _ Hh). set (n := Z.of_nat (length es)) in *.
  rewrite (wrap_small 32 (n + 1)) by (unfold is_word; lia).
  destruct (room_ok p es Hh Hsmall) as (p1 & Hroom & Hc1 & Hcap1 & Hlt1 & Hlo1 & Hs1 & Ht1 & He1).
  unfold mret, code_ret in Hroom. fold n in Hroom, Hc1, Hcap1. rewrite Hroom. rewrite Ht1, Htm.
  destruct (lookup_lt_is_Some_2 (triggerTimes p1) (length es)) as [x Hx]; [lia|].
  destruct (lookup_lt_is_Some_2 (timerObjects p1) (length es)) as [y Hy]; [lia|].
  assert (Hn : Z.to_nat n = length es) by (unfold n; lia).
  unfold put_time. rewrite !Hn, Hx. cbn [fst snd].
  rewrite (put_object_ok (length es) id _ y) by done. rewrite (set_pool_index_ok id n _ tm) by (simpl; by rewrite Ht1).
  set (t' := u64 _). eexists. split; [done|]. split.
  - split; cbn; rewrite ?length_insert, ?length_app; simpl; try lia; try done.
    intros i id' t Hi. destruct (decide (i = length es)) as [->|Hne].
    + rewrite list_lookup_middle in Hi by done. injection Hi as <- <-. rewrite !list_lookup_insert_eq by lia. done.
    + rewrite !list_lookup_insert_ne by done. apply He1.
      assert (i < length es)%nat by (apply lookup_lt_Some in Hi; rewrite length_app in Hi; simpl in Hi; lia).
      by rewrite lookup_app_l in Hi.
  - split; cbn.
    + intros i id' t Hi. rewrite Ht1. destruct (decide (i = length es)) as [->|Hne].
      * rewrite list_lookup_middle in Hi by done. injection Hi as <- <-. rewrite lookup_insert_eq.
        by eexists.
      * assert (i < length es)%nat by (apply lookup_lt_Some in Hi; rewrite length_app in Hi; simpl in Hi; lia).
        rewrite lookup_app_l in Hi by done. destruct (Hent _ _ _ Hi) as (tm' & Htm' & Hl').
        exists tm'. split; [|done]. rewrite lookup_insert_ne; [done|]. intros ->.
        apply Hid, list_elem_of_fmap. exists (id', t). split; [done|]. by eapply list_elem_of_lookup_2.
    + rewrite fmap_app. simpl. apply NoDup_app. split_and!; [done| |apply NoDup_singleton].
      intros z Hz ->%list_elem_of_singleton. done.
Qed.

Lemma timer_start_enters_pool_witness :
  ∃ p', timer_restart 5 0 (timer_init 0 0 7 false timer_pool_init).2 = (Ok tt, p') ∧ holds p' [(0%nat, 12)].
Proof.
  destruct (timer_start_enters_pool 5 0 (timer_init 0 0 7 false timer_pool_init).2 [] (mkTimer INVALID_INDEX 7))
    as (p' & Hs & Hh & _).
  - by split; vm_compute.
  - split; [|constructor]. intros i id t Hi. done.
  - simpl. lia.
  - simpl. set_solver.
  - reflexivity.
  - reflexivity.
  - exists p'. split; [exact Hs|exact Hh].
Defined.

(** Stopping a running timer marks its entry dead, which keeps it from being
    triggered, and lets the timer forget its position. *)
Theorem timer_stop_marks_entry id p es (i : nat) t :
  holds p es → coherent p es → es !! i = Some (id, t) → is_live (id, t) = true →
  ∃ p', timer_stop id p = (Ok tt, p') ∧ holds p' (<[i := (id, Z.lor t DEAD)]> es) ∧
    coherent p' (<[i := (id, Z.lor t DEAD)]> es) ∧ is_dead (Z.lor t DEAD) = true ∧
    poolIndex <$> timers p' !! id = Some INVALID_INDEX.
Proof.
  intros Hh [Hent Honce] Hi Hlive. destruct (Hent _ _ _ Hi) as (tm & Htm & Hpos). specialize (Hpos Hlive).
  pose proof (lookup_lt_Some _ _ _ Hi) as Hlt. pose proof Hh as [Hc Hcap _ _ Hs _].
  unfold timer_stop, timer_at. run. rewrite Htm, Hpos.
  rewrite (proj2 (Z.eqb_neq _ INVALID_INDEX)) by (unfold INVALID_INDEX; lia). run.
  rewrite (set_pool_index_ok id INVALID_INDEX p tm Htm). set (p1 := with_timers p _).
  assert (Hh1 : holds p1 es) by (by destruct Hh).
  unfold timer_pool_internal_mark_timer_as_dead. run. rewrite (time_at_ok _ _ _ _ _ Hh1 Hi).
  destruct (put_time_ok p1 es i id t (Z.lor t DEAD) Hh1 Hi) as (p2 & -> & Hh2 & Ht2 & _).
  assert (Hdead : is_dead (Z.lor t DEAD) = true).
  { unfold is_dead. rewrite Z.lor_spec. by rewrite orb_true_r. }
  exists p2. split; [done|]. split; [done|]. split; [|split; [done|]].
  - split.
    + intros j id' t' Hj. rewrite Ht2. simpl. destruct (decide (j = i)) as [->|Hne].
      * rewrite list_lookup_insert_eq in Hj by done. injection Hj as <- <-. rewrite lookup_insert_eq.
        eexists. split; [done|]. unfold is_live. cbn [snd]. by rewrite Hdead.
      * rewrite list_lookup_insert_ne in Hj by done. destruct (Hent _ _ _ Hj) as (tm' & Htm' & Hl').
        exists tm'. split; [|done]. rewrite lookup_insert_ne; [done|]. intros <-. apply Hne.
        apply (NoDup_lookup es.*1 j i id Honce); by rewrite list_lookup_fmap, ?Hj, ?Hi.
    + rewrite list_fmap_insert. simpl. rewrite list_insert_id; [done|]. by rewrite list_lookup_fmap, Hi.
  - rewrite Ht2. simpl. by rewrite lookup_insert_eq.
Qed.

Lemma timer_stop_marks_entry_witness :
  ∃ p', timer_stop 0 (two_timers timer_pool_init).2 = (Ok tt, p') ∧
    holds p' [(0%nat, Z.lor 110 DEAD); (1%nat, 160)].
Proof.
  destruct (timer_stop_marks_entry 0 (two_timers timer_pool_init).2 [(0%nat, 110); (1%nat, 160)] 0 110)
    as (p' & Hs & Hh & _).
  - split; try (vm_compute; done).
    intros [|[|i]] id t Hi; [injection Hi as <- <-; done|injection Hi as <- <-; done|done].
  - split; [|by repeat constructor; set_solver].
    intros [|[|i]] id t Hi; [injection Hi as <- <-; by eexists|injection Hi as <- <-; by eexists|done].
  - reflexivity.
  - reflexivity.
  - exists p'. split; [exact Hs|exact Hh].
Defined.

(** A freed timer's entry stays in the pool until the next cycle, and moving
    the last entry into a hole writes to its timer: freeing two timers makes
    the next cycle write to freed memory, and so does a callback that frees a
    timer due in the same cycle. *)
Theorem destroyed_timers_are_touched :
  fst ((two_timers ;; timer_destroy 0 ;; timer_destroy 1 ;;
        timer_pool_execute_callbacks no_callback 101) timer_pool_init) = Fault ∧
  fst ((two_timers ;; timer_pool_execute_callbacks
         (λ id, if (id =? 0)%nat then timer_destroy 1 else mret tt) 200) timer_pool_init) = Fault.
Proof. by split; vm_compute. Qed.

(** A stopped timer whose dead entry is moved gets its position back, so that
    starting it again only writes a trigger time past the end of the pool: it
    never fires again. *)
Theorem stopped_timer_does_not_restart :
  let '(r, p) := (two_timers ;; timer_stop 0 ;; timer_stop 1 ;;
    timer_pool_execute_callbacks no_callback 101 ;;
    timer_restart 102 1 ;; timer_pool_execute_callbacks no_callback 1000) timer_pool_init in
  r = Ok tt ∧ count p = 0 ∧ fired p = [].
Proof. by vm_compute. Qed.
