(* ===== verification/ItemPrototype.v ===== *)
(** Item prototypes: common/item/item_prototype.c.

    A prototype is a block of shared memory; its strings are arrays of
    characters that it holds itself. Arguments are values of the C types. *)

From S2P Require Import Prelude Fields Text.

Record ItemPrototype := mkItemProto {
  ip_itemId : Z;
  ip_modelId : Z;
  ip_isLore : Z;
  ip_isDroppable : Z;
  ip_isMagic : Z;
  ip_isPermanent : Z;
  ip_isStackable : Z;
  ip_size : Z;
  ip_weight : Z;
  ip_itemTypeId : Z;
  ip_itemSkillId : Z;
  ip_material : Z;
  ip_light : Z;
  ip_effectTypeId : Z;
  ip_maxCharges : Z;
  ip_STR : Z;
  ip_DEX : Z;
  ip_AGI : Z;
  ip_STA : Z;
  ip_INT : Z;
  ip_WIS : Z;
  ip_CHA : Z;
  ip_svMagic : Z;
  ip_svFire : Z;
  ip_svCold : Z;
  ip_svPoison : Z;
  ip_svDisease : Z;
  ip_hp : Z;
  ip_mana : Z;
  ip_ac : Z;
  ip_damage : Z;
  ip_delay : Z;
  ip_range : Z;
  ip_slotBitfield : Z;
  ip_raceBitfield : Z;
  ip_classBitfield : Z;
  ip_spellId : Z;
  ip_castingTime : Z;
  ip_iconId : Z;
  ip_cost : Z;
  ip_tint : Z;
  ip_name : list Z;   (* 64 *)
  ip_loreText : list Z;   (* 64 *)
  ip_scriptPath : list Z;   (* 256 *)
}.
#[export] Instance ItemPrototype_settable : Settable ItemPrototype :=
  (built mkItemProto <*> ip_itemId <*> ip_modelId <*> ip_isLore <*> ip_isDroppable <*> ip_isMagic <*> ip_isPermanent <*> ip_isStackable
  <*> ip_size <*> ip_weight <*> ip_itemTypeId <*> ip_itemSkillId <*> ip_material <*> ip_light <*> ip_effectTypeId
  <*> ip_maxCharges <*> ip_STR <*> ip_DEX <*> ip_AGI <*> ip_STA <*> ip_INT <*> ip_WIS <*> ip_CHA <*> ip_svMagic <*> ip_svFire
  <*> ip_svCold <*> ip_svPoison <*> ip_svDisease <*> ip_hp <*> ip_mana <*> ip_ac <*> ip_damage <*> ip_delay <*> ip_range
  <*> ip_slotBitfield <*> ip_raceBitfield <*> ip_classBitfield <*> ip_spellId <*> ip_castingTime <*> ip_iconId <*> ip_cost
  <*> ip_tint <*> ip_name <*> ip_loreText <*> ip_scriptPath)%fields.

(** memset over the block. *)
Definition zeroed_proto : ItemPrototype :=
  mkItemProto 0 0 0 0 0 0 0 0 0 0 0 0 0 0 0 0 0 0 0 0 0 0 0 0 0 0 0 0 0 0 0 0 0 0 0 0 0 0 0 0 0 (replicate 64 0) (replicate 64 0) (replicate 256 0).

Definition item_proto_set_defaults (proto : ItemPrototype) : ItemPrototype :=
  zeroed_proto <| ip_isDroppable := 1 |> <| ip_isPermanent := 1 |> <| ip_itemSkillId := 10 |> <| ip_raceBitfield := 0xffff |>
    <| ip_classBitfield := 0xffff |> <| ip_spellId := 0xffff |> <| ip_iconId := 500 |>.

(** [block] is what the allocation held. *)
Definition item_proto_create (block : ItemPrototype) : ItemPrototype := item_proto_set_defaults block.
Definition item_proto_copy (orig : ItemPrototype) : ItemPrototype := orig.

(** *** Setters

    A truth value is cut to a byte; lore texts go where names do. *)
Definition item_proto_set_item_id (v : Z) (proto : ItemPrototype) : ItemPrototype := proto <| ip_itemId := v |>.
Definition item_proto_set_name (s : list Z) (proto : ItemPrototype) : ItemPrototype :=
  proto <| ip_name := snprintf_field 64 s (ip_name proto) |>.
Definition item_proto_set_lore_text (s : list Z) (proto : ItemPrototype) : ItemPrototype :=
  proto <| ip_name := snprintf_field 64 s (ip_name proto) |>.
Definition item_proto_set_script_path (s : list Z) (proto : ItemPrototype) : ItemPrototype :=
  proto <| ip_scriptPath := snprintf_field 256 s (ip_scriptPath proto) |>.
Definition item_proto_set_model_id (v : Z) (proto : ItemPrototype) : ItemPrototype := proto <| ip_modelId := v |>.
Definition item_proto_set_is_lore (v : Z) (proto : ItemPrototype) : ItemPrototype := proto <| ip_isLore := u8 v |>.
Definition item_proto_set_is_droppable (v : Z) (proto : ItemPrototype) : ItemPrototype := proto <| ip_isDroppable := u8 v |>.
Definition item_proto_set_is_magic (v : Z) (proto : ItemPrototype) : ItemPrototype := proto <| ip_isMagic := u8 v |>.
Definition item_proto_set_is_permanent (v : Z) (proto : ItemPrototype) : ItemPrototype := proto <| ip_isPermanent := u8 v |>.
Definition item_proto_set_is_stackable (v : Z) (proto : ItemPrototype) : ItemPrototype := proto <| ip_isStackable := u8 v |>.
Definition item_proto_set_size (v : Z) (proto : ItemPrototype) : ItemPrototype := proto <| ip_size := v |>.
Definition item_proto_set_weight (v : Z) (proto : ItemPrototype) : ItemPrototype := proto <| ip_weight := v |>.
Definition item_proto_set_item_type_id (v : Z) (proto : ItemPrototype) : ItemPrototype := proto <| ip_itemTypeId := v |>.
Definition item_proto_set_item_skill_id (v : Z) (proto : ItemPrototype) : ItemPrototype := proto <| ip_itemSkillId := v |>.
Definition item_proto_set_material (v : Z) (proto : ItemPrototype) : ItemPrototype := proto <| ip_material := v |>.
Definition item_proto_set_light (v : Z) (proto : ItemPrototype) : ItemPrototype := proto <| ip_light := v |>.
Definition item_proto_set_effect_type_id (v : Z) (proto : ItemPrototype) : ItemPrototype := proto <| ip_effectTypeId := v |>.
Definition item_proto_set_max_charges (v : Z) (proto : ItemPrototype) : ItemPrototype := proto <| ip_maxCharges := v |>.
Definition item_proto_set_str (v : Z) (proto : ItemPrototype) : ItemPrototype := proto <| ip_STR := v |>.
Definition item_proto_set_dex (v : Z) (proto : ItemPrototype) : ItemPrototype := proto <| ip_DEX := v |>.
Definition item_proto_set_agi (v : Z) (proto : ItemPrototype) : ItemPrototype := proto <| ip_AGI := v |>.
Definition item_proto_set_sta (v : Z) (proto : ItemPrototype) : ItemPrototype := proto <| ip_STA := v |>.
Definition item_proto_set_int (v : Z) (proto : ItemPrototype) : ItemPrototype := proto <| ip_INT := v |>.
Definition item_proto_set_wis (v : Z) (proto : ItemPrototype) : ItemPrototype := proto <| ip_WIS := v |>.
Definition item_proto_set_cha (v : Z) (proto : ItemPrototype) : ItemPrototype := proto <| ip_CHA := v |>.
Definition item_proto_set_sv_magic (v : Z) (proto : ItemPrototype) : ItemPrototype := proto <| ip_svMagic := v |>.
Definition item_proto_set_sv_fire (v : Z) (proto : ItemPrototype) : ItemPrototype := proto <| ip_svFire := v |>.
Definition item_proto_set_sv_cold (v : Z) (proto : ItemPrototype) : ItemPrototype := proto <| ip_svCold := v |>.
Definition item_proto_set_sv_poison (v : Z) (proto : ItemPrototype) : ItemPrototype := proto <| ip_svPoison := v |>.
Definition item_proto_set_sv_disease (v : Z) (proto : ItemPrototype) : ItemPrototype := proto <| ip_svDisease := v |>.
Definition item_proto_set_hp (v : Z) (proto : ItemPrototype) : ItemPrototype := proto <| ip_hp := v |>.
Definition item_proto_set_mana (v : Z) (proto : ItemPrototype) : ItemPrototype := proto <| ip_mana := v |>.
Definition item_proto_set_ac (v : Z) (proto : ItemPrototype) : ItemPrototype := proto <| ip_ac := v |>.
Definition item_proto_set_damage (v : Z) (proto : ItemPrototype) : ItemPrototype := proto <| ip_damage := v |>.
Definition item_proto_set_delay (v : Z) (proto : ItemPrototype) : ItemPrototype := proto <| ip_delay := v |>.
Definition item_proto_set_range (v : Z) (proto : ItemPrototype) : ItemPrototype := proto <| ip_range := v |>.
Definition item_proto_set_slot_bitfield (v : Z) (proto : ItemPrototype) : ItemPrototype := proto <| ip_slotBitfield := v |>.
Definition item_proto_set_race_bitfield (v : Z) (proto : ItemPrototype) : ItemPrototype := proto <| ip_raceBitfield := v |>.
Definition item_proto_set_class_bitfield (v : Z) (proto : ItemPrototype) : ItemPrototype := proto <| ip_classBitfield := v |>.
Definition item_proto_set_spell_id (v : Z) (proto : ItemPrototype) : ItemPrototype := proto <| ip_spellId := v |>.
Definition item_proto_set_casting_time (v : Z) (proto : ItemPrototype) : ItemPrototype := proto <| ip_castingTime := v |>.
Definition item_proto_set_icon_id (v : Z) (proto : ItemPrototype) : ItemPrototype := proto <| ip_iconId := v |>.
Definition item_proto_set_cost (v : Z) (proto : ItemPrototype) : ItemPrototype := proto <| ip_cost := v |>.
Definition item_proto_set_tint (v : Z) (proto : ItemPrototype) : ItemPrototype := proto <| ip_tint := v |>.

(** *** Getters

    A string is the bytes of its array, from the first one on. *)
Definition item_proto_get_item_id (proto : ItemPrototype) : Z := ip_itemId proto.
Definition item_proto_get_name (proto : ItemPrototype) : list Z := ip_name proto.
Definition item_proto_get_lore_text (proto : ItemPrototype) : list Z := ip_loreText proto.
Definition item_proto_get_script_path (proto : ItemPrototype) : list Z := ip_scriptPath proto.
Definition item_proto_get_model_id (proto : ItemPrototype) : Z := ip_modelId proto.
Definition item_proto_is_lore (proto : ItemPrototype) : Z := ip_isLore proto.
Definition item_proto_is_droppable (proto : ItemPrototype) : Z := ip_isDroppable proto.
Definition item_proto_is_magic (proto : ItemPrototype) : Z := ip_isMagic proto.
Definition item_proto_is_permanent (proto : ItemPrototype) : Z := ip_isPermanent proto.
Definition item_proto_is_stackable (proto : ItemPrototype) : Z := ip_isStackable proto.
Definition item_proto_get_size (proto : ItemPrototype) : Z := ip_size proto.
Definition item_proto_get_weight (proto : ItemPrototype) : Z := ip_weight proto.
Definition item_proto_get_item_type_id (proto : ItemPrototype) : Z := ip_itemTypeId proto.
Definition item_proto_get_item_skill_id (proto : ItemPrototype) : Z := ip_itemSkillId proto.
Definition item_proto_get_material (proto : ItemPrototype) : Z := ip_material proto.
Definition item_proto_get_light (proto : ItemPrototype) : Z := ip_light proto.
Definition item_proto_get_effect_type_id (proto : ItemPrototype) : Z := ip_effectTypeId proto.
Definition item_proto_get_max_charges (proto : ItemPrototype) : Z := ip_maxCharges proto.
Definition item_proto_get_str (proto : ItemPrototype) : Z := ip_STR proto.
Definition item_proto_get_dex (proto : ItemPrototype) : Z := ip_DEX proto.
Definition item_proto_get_agi (proto : ItemPrototype) : Z := ip_AGI proto.
Definition item_proto_get_sta (proto : ItemPrototype) : Z := ip_STA proto.
Definition item_proto_get_int (proto : ItemPrototype) : Z := ip_INT proto.
Definition item_proto_get_wis (proto : ItemPrototype) : Z := ip_WIS proto.
Definition item_proto_get_cha (proto : ItemPrototype) : Z := ip_CHA proto.
Definition item_proto_get_sv_magic (proto : ItemPrototype) : Z := ip_svMagic proto.
Definition item_proto_get_sv_fire (proto : ItemPrototype) : Z := ip_svFire proto.
Definition item_proto_get_sv_cold (proto : ItemPrototype) : Z := ip_svCold proto.
Definition item_proto_get_sv_poison (proto : ItemPrototype) : Z := ip_svPoison proto.
Definition item_proto_get_sv_disease (proto : ItemPrototype) : Z := ip_svDisease proto.
Definition item_proto_get_hp (proto : ItemPrototype) : Z := ip_hp proto.
Definition item_proto_get_mana (proto : ItemPrototype) : Z := ip_mana proto.
Definition item_proto_get_ac (proto : ItemPrototype) : Z := ip_ac proto.
Definition item_proto_get_damage (proto : ItemPrototype) : Z := ip_damage proto.
Definition item_proto_get_delay (proto : ItemPrototype) : Z := ip_delay proto.
Definition item_proto_get_range (proto : ItemPrototype) : Z := ip_range proto.
Definition item_proto_get_slot_bitfield (proto : ItemPrototype) : Z := ip_slotBitfield proto.
Definition item_proto_get_race_bitfield (proto : ItemPrototype) : Z := ip_raceBitfield proto.
Definition item_proto_get_class_bitfield (proto : ItemPrototype) : Z := ip_classBitfield proto.
Definition item_proto_get_spell_id (proto : ItemPrototype) : Z := ip_spellId proto.
Definition item_proto_get_casting_time (proto : ItemPrototype) : Z := ip_castingTime proto.
Definition item_proto_get_icon_id (proto : ItemPrototype) : Z := ip_iconId proto.
Definition item_proto_get_cost (proto : ItemPrototype) : Z := ip_cost proto.
Definition item_proto_get_tint (proto : ItemPrototype) : Z := ip_tint proto.

(** ** The lore text *)

(** A prototype that scripts have filled in: each of its strings ends. *)
Definition terminated (bytes : list Z) : Prop := ∃ n, strlen bytes = Ok n.

(** What a script's call for the lore text does instead: the name is replaced
    and the lore text stays as it was. *)
Lemma lore_text_sets_name s proto : item_proto_set_lore_text s proto = item_proto_set_name s proto.
Proof. done. Qed.

Inductive setup : Type :=
  | SetName (s : list Z) | SetLoreText (s : list Z) | SetScriptPath (s : list Z) | SetDefaults.

Definition run_setup (proto : ItemPrototype) (c : setup) : ItemPrototype :=
  match c with
  | SetName s => item_proto_set_name s proto
  | SetLoreText s => item_proto_set_lore_text s proto
  | SetScriptPath s => item_proto_set_script_path s proto
  | SetDefaults => item_proto_set_defaults proto
  end.

Lemma snprintf_terminates n s old : Forall (λ b, b ≠ 0) s → strlen (snprintf_field n s old) = Ok (Z.of_nat (length (take (n - 1) s))).
Proof. intros Hs. unfold snprintf_field. apply (strlen_ok (take (n - 1) s)). by apply Forall_take. Qed.

Lemma never_any_lore_ok block calls : item_proto_get_lore_text (fold_left run_setup calls (item_proto_create block)) = replicate 64 0.
Proof.
  assert (H : ∀ proto, ip_loreText proto = replicate 64 0 → ip_loreText (fold_left run_setup calls proto) = replicate 64 0).
  { induction calls as [|c calls IH]; intros proto Hp; [done|]. apply IH. by destruct c. }
  by apply H.
Qed.

(** An item never has a lore text: whatever strings scripts set, in any
    order, the lore text stays empty, and setting it replaces the item's name
    by the lore, cut to 63 characters. *)
Theorem lore_text_replaces_name (block : ItemPrototype) (calls : list setup) (lore : list Z) (Hl : Forall (λ b, b ≠ 0) lore) :
  let proto := fold_left run_setup calls (item_proto_create block) in
  strlen (item_proto_get_lore_text (item_proto_set_lore_text lore proto)) = Ok 0 ∧
  strlen (item_proto_get_name (item_proto_set_lore_text lore proto)) = Ok (Z.of_nat (length (take 63 lore))) ∧
  take (length (take 63 lore)) (item_proto_get_name (item_proto_set_lore_text lore proto)) = take 63 lore.
Proof.
  intros proto. split; [|split].
  - change (item_proto_get_lore_text (item_proto_set_lore_text lore proto)) with (item_proto_get_lore_text proto).
    unfold proto. by rewrite never_any_lore_ok.
  - by apply (snprintf_terminates 64).
  - unfold item_proto_get_name, item_proto_set_lore_text, snprintf_field. fields_simpl. simpl ip_name. by rewrite take_app_length.
Qed.

Example lore_text_replaces_name_witness :
  let proto := item_proto_set_name (text "a sword") zeroed_proto in
  take 9 (item_proto_get_name (item_proto_set_lore_text (text "Old blade") proto)) = text "Old blade".
Proof.
  apply (lore_text_replaces_name zeroed_proto [SetDefaults; SetName (text "a sword")] (text "Old blade")).
  repeat constructor; discriminate.
Defined.
