(* ===== verification/ItemTable.v ===== *)
(** The item file: common/item/item_share_mem.c and item_gen/item_gen.c.

    The generator numbers the items that the scripts define, records new and
    changed ones in the database and writes every prototype to one file behind
    a hash table of fixed capacity; the servers map that file and look items up
    in it by id. The table chains collisions through [next] inside its slots
    and moves a slot that is not at home to the free slot, as the containers'
    table does ([HashTable]); a slot with offset 0 is free. Slots and
    prototypes are numbered, a pointer into the mapping is its byte offset. *)

From S2P Require Import Prelude Fields Bit Text ItemPrototype.

Definition INVALID : Z := 0xffffffff.

(** ** The layout of the file *)
Record ItemShm_Entry := mkShmEntry {
  se_key : Z;
  se_hash : Z;
  se_next : Z;
  se_offset : Z;
}.

Record ItemShm := mkItemShm {
  ishm_timestamp : Z;
  ishm_capacityMinusOne : Z;
  ishm_itemCount : Z;
  ishm_entries : list ItemShm_Entry;
  ishm_prototypes : list ItemPrototype;   (* what follows the table *)
}.

Definition SIZEOF_ItemShm : Z := 16.
Definition SIZEOF_ItemShm_Entry : Z := 16.
Definition SIZEOF_ItemPrototype : Z := 476.

(** The mapping and its length in bytes. *)
Record ItemShareMem := mkShareMem { ism_memory : ItemShm; ism_length : Z }.

(** What the three writes put in the file. *)
Definition item_file_length (data : ItemShm) : Z :=
  SIZEOF_ItemShm + SIZEOF_ItemShm_Entry * Z.of_nat (length (ishm_entries data)) +
  SIZEOF_ItemPrototype * Z.of_nat (length (ishm_prototypes data)).

Definition entry_at (entries : list ItemShm_Entry) (i : Z) : outcome ItemShm_Entry := deref (entries !! Z.to_nat i).
Definition entry_put (entries : list ItemShm_Entry) (i : Z) (e : ItemShm_Entry) : outcome (list ItemShm_Entry) :=
  _ ← entry_at entries i; Ok (<[Z.to_nat i := e]> entries).
Definition with_next (e : ItemShm_Entry) (n : Z) : ItemShm_Entry := mkShmEntry (se_key e) (se_hash e) n (se_offset e).

(** The prototype behind a pointer into the mapping. *)
Definition prototype_at (data : ItemShm) (offset : Z) : outcome ItemPrototype :=
  let past := offset - (SIZEOF_ItemShm + SIZEOF_ItemShm_Entry * Z.of_nat (length (ishm_entries data))) in
  if (past <? 0) || negb (past mod SIZEOF_ItemPrototype =? 0) then Fault
  else deref (ishm_prototypes data !! Z.to_nat (past / SIZEOF_ItemPrototype)).

(** ** Hashing *)
Definition bit_rotate (x n : Z) : Z := Z.lor (u32 (Z.shiftl x n)) (Z.shiftr x (Z.land (- n) 31)).

Definition item_share_mem_hash (lo hi : Z) : Z :=
  let lo := Z.lxor lo hi in
  let hi := bit_rotate hi 14 in
  let lo := u32 (lo - hi) in
  let hi := bit_rotate hi 5 in
  let hi := Z.lxor hi lo in
  u32 (hi - bit_rotate lo 13).

Definition item_share_mem_calc_hash (itemId : Z) : Z := item_share_mem_hash 0xffccff44 itemId.

(** ** Looking an item up *)
Section lookup.
Implicit Types (entries : list ItemShm_Entry).

(** The loop over the chain; a chain visits no slot twice. *)
Fixpoint chain_find (fuel : nat) entries (i itemId : Z) : outcome Z :=
  match fuel with
  | O => Fault
  | S fuel =>
      ent ← entry_at entries i;
      if se_key ent =? itemId then Ok (se_offset ent)
      else if negb (se_next ent =? INVALID) then chain_find fuel entries (se_next ent) itemId
      else Ok 0
  end.

Definition item_share_mem_get_offset entries (capMinusOne index itemId : Z) : outcome Z :=
  ent ← entry_at entries index;
  if se_offset ent =? 0 then Ok 0
  else
    let mainIndex := Z.land (se_hash ent) capMinusOne in
    if negb (mainIndex =? index) then Ok 0
    else chain_find (S (length entries)) entries index itemId.
End lookup.

Definition item_share_mem_get_prototype (shm : ItemShareMem) (itemId : Z) : outcome (option Z) :=
  let data := ism_memory shm in
  let hash := item_share_mem_calc_hash itemId in
  let index := Z.land hash (ishm_capacityMinusOne data) in
  offset ← item_share_mem_get_offset (ishm_entries data) (ishm_capacityMinusOne data) index itemId;
  if (offset =? 0) || (ism_length shm <? offset + SIZEOF_ItemPrototype) then Ok None else Ok (Some offset).

Definition item_share_mem_get_array (shm : ItemShareMem) : Z :=
  u32 (SIZEOF_ItemShm + SIZEOF_ItemShm_Entry * u32 (ishm_capacityMinusOne (ism_memory shm) + 1)).
Definition item_share_mem_get_array_count (shm : ItemShareMem) : Z := ishm_itemCount (ism_memory shm).

(** [item_share_mem_open] after the mapping is made: the assignments
    [loaded['items/' .. path] = ptr], in order. *)
Fixpoint item_share_mem_open_loop (n : nat) (shm : ItemShareMem) (ptr : Z) : outcome (list (list Z * Z)) :=
  match n with
  | O => Ok []
  | S n =>
      proto ← prototype_at (ism_memory shm) ptr;
      path ← field_string (item_proto_get_script_path proto);
      rest ← item_share_mem_open_loop n shm (ptr + SIZEOF_ItemPrototype);
      Ok ((text "items/" ++ path, ptr) :: rest)
  end.
Definition item_share_mem_open (shm : ItemShareMem) : outcome (list (list Z * Z)) :=
  item_share_mem_open_loop (Z.to_nat (item_share_mem_get_array_count shm)) shm (item_share_mem_get_array shm).

(** ** Building the table *)
Section build.
Implicit Types (entries : list ItemShm_Entry).

(** The scan from slot 0; without a free slot the index stays. *)
Fixpoint first_free (fuel : nat) entries (capMinusOne i freeIndex : Z) : outcome Z :=
  match fuel with
  | O => Fault
  | S fuel =>
      if i <=? capMinusOne then
        ent ← entry_at entries i;
        if se_offset ent =? 0 then Ok i else first_free fuel entries capMinusOne (u32 (i + 1)) freeIndex
      else Ok freeIndex
  end.
Definition item_gen_advance_free_index entries (capMinusOne freeIndex : Z) : outcome Z :=
  first_free (S (length entries)) entries capMinusOne 0 freeIndex.

Definition item_gen_set_hash_entry (ent : ItemShm_Entry) (itemId hash offset : Z) : ItemShm_Entry * Z :=
  (mkShmEntry itemId hash (se_next ent) offset, u32 (offset + SIZEOF_ItemPrototype)).

(** [while (mainEnt->next != index)]: the slot that links to [index]. *)
Fixpoint chain_before (fuel : nat) entries (i index : Z) : outcome Z :=
  match fuel with
  | O => Fault
  | S fuel =>
      ent ← entry_at entries i;
      if se_next ent =? index then Ok i else chain_before fuel entries (se_next ent) index
  end.

(** [for (;;)]: the last slot of a chain, unless the id is in it. *)
Fixpoint chain_last (fuel : nat) entries (i itemId : Z) : outcome Z :=
  match fuel with
  | O => Fault
  | S fuel =>
      ent ← entry_at entries i;
      if se_key ent =? itemId then Throw ErrorDuplicate
      else if negb (se_next ent =? INVALID) then chain_last fuel entries (se_next ent) itemId
      else Ok i
  end.

(** One round of the loop over the prototypes: slots, free index, offset. *)
Definition item_gen_hash_item (cap : Z) (proto : ItemPrototype) (st : list ItemShm_Entry * Z * Z) : outcome (list ItemShm_Entry * Z * Z) :=
  let '(entries, freeIndex, offset) := st in
  let itemId := item_proto_get_item_id proto in
  let hash := item_share_mem_calc_hash itemId in
  let index := Z.land hash cap in
  let fuel := S (length entries) in
  ent ← entry_at entries index;
  if se_offset ent =? 0 then
    let '(ent, offset) := item_gen_set_hash_entry ent itemId hash offset in
    entries ← entry_put entries index ent;
    freeIndex ← (if index =? freeIndex then item_gen_advance_free_index entries cap freeIndex else Ok freeIndex);
    Ok (entries, freeIndex, offset)
  else
    let mainIndex := Z.land (se_hash ent) cap in
    if negb (mainIndex =? index) then
      entries ← entry_put entries freeIndex ent;
      main ← chain_before fuel entries mainIndex index;
      mainEnt ← entry_at entries main;
      entries ← entry_put entries main (with_next mainEnt freeIndex);
      ent ← entry_at entries index;
      let '(ent, offset) := item_gen_set_hash_entry (with_next ent INVALID) itemId hash offset in
      entries ← entry_put entries index ent;
      freeIndex ← item_gen_advance_free_index entries cap freeIndex;
      Ok (entries, freeIndex, offset)
    else
      last ← chain_last fuel entries index itemId;
      lastEnt ← entry_at entries last;
      entries ← entry_put entries last (with_next lastEnt freeIndex);
      freeEnt ← entry_at entries freeIndex;
      let '(ent, offset) := item_gen_set_hash_entry freeEnt itemId hash offset in
      entries ← entry_put entries freeIndex ent;
      freeIndex ← item_gen_advance_free_index entries cap freeIndex;
      Ok (entries, freeIndex, offset).

Fixpoint item_gen_hash_items (cap : Z) (protos : list ItemPrototype) (st : list ItemShm_Entry * Z * Z) : outcome (list ItemShm_Entry * Z * Z) :=
  match protos with
  | [] => Ok st
  | proto :: protos => st ← item_gen_hash_item cap proto st; item_gen_hash_items cap protos st
  end.
End build.

Definition free_entry : ItemShm_Entry := mkShmEntry 0 0 INVALID 0.

(** ** The generator *)
Record ItemDbEntry := mkDbEntry {
  ide_itemId : Z;
  ide_isUpdate : bool;
  ide_timestamp : Z;
  ide_addPath : option (list Z);
}.

(** [scriptPathToDbEntry] is a hash table keyed by text ([HashTableMap]). *)
Record ItemGen := mkItemGen {
  ig_nextItemId : Z;
  ig_itemPrototypes : list ItemPrototype;
  ig_scriptPathToDbEntry : gmap (list Z) ItemDbEntry;
  ig_changes : list ItemDbEntry;
}.
#[export] Instance ItemGen_settable : Settable ItemGen :=
  (built mkItemGen <*> ig_nextItemId <*> ig_itemPrototypes <*> ig_scriptPathToDbEntry <*> ig_changes)%fields.

Definition item_gen_init : ItemGen := mkItemGen 1000 [] ∅ [].

(** [fopened]: the file could be opened for writing. *)
Definition item_gen_write_to_disk (fopened : bool) (now : Z) (gen : ItemGen) : outcome ItemShm :=
  let prototypes := ig_itemPrototypes gen in
  let n := u32 (Z.of_nat (length prototypes)) in
  let cap := bit_pow2_greater_or_equal n in
  let hashEntries := replicate (Z.to_nat cap) free_entry in
  let offset := u32 (SIZEOF_ItemShm + SIZEOF_ItemShm_Entry * cap) in
  let cap := u32 (cap - 1) in
  '(hashEntries, _, _) ← item_gen_hash_items cap prototypes (hashEntries, 0, offset);
  if fopened then Ok (mkItemShm now cap n hashEntries prototypes) else Throw ErrorDoesNotExist.

(** [maxId]: the answer to SELECT MAX(item_id), [rows]: those of the table. *)
Record ItemRow := mkItemRow { row_item_id : Z; row_timestamp : Z; row_script_path : list Z }.

Definition item_gen_read_row (row : ItemRow) (gen : ItemGen) : ItemGen :=
  let ent := mkDbEntry (u32 (row_item_id row)) true (u64 (row_timestamp row)) None in
  match ig_scriptPathToDbEntry gen !! row_script_path row with
  | Some _ => gen
  | None => gen <| ig_scriptPathToDbEntry := <[row_script_path row := ent]> (ig_scriptPathToDbEntry gen) |>
  end.
Definition item_gen_read_db_entries (maxId : option Z) (rows : list ItemRow) (gen : ItemGen) : ItemGen :=
  let gen := match maxId with Some m => gen <| ig_nextItemId := i64 (m + 1) |> | None => gen end in
  foldl (λ gen row, item_gen_read_row row gen) gen rows.

Definition item_gen_add (proto : ItemPrototype) (scriptPath : list Z) (timestamp : Z) (gen : ItemGen) : ItemGen :=
  match ig_scriptPathToDbEntry gen !! scriptPath with
  | None =>
      let itemId := u32 (ig_nextItemId gen) in
      let proto := item_proto_set_script_path scriptPath (item_proto_set_item_id itemId proto) in
      gen <| ig_nextItemId := i64 (ig_nextItemId gen + 1) |>
        <| ig_itemPrototypes := ig_itemPrototypes gen ++ [proto] |>
        <| ig_changes := ig_changes gen ++ [mkDbEntry itemId false timestamp (Some scriptPath)] |>
  | Some ent =>
      let proto := item_proto_set_script_path scriptPath (item_proto_set_item_id (ide_itemId ent) proto) in
      let gen := gen <| ig_itemPrototypes := ig_itemPrototypes gen ++ [proto] |> in
      if ide_timestamp ent <? timestamp then
        let ent := mkDbEntry (ide_itemId ent) (ide_isUpdate ent) timestamp (ide_addPath ent) in
        gen <| ig_scriptPathToDbEntry := <[scriptPath := ent]> (ig_scriptPathToDbEntry gen) |>
          <| ig_changes := ig_changes gen ++ [ent] |>
      else gen
  end.

Inductive ItemStmt :=
  | BeginItems
  | UpdateItem (timestamp itemId : Z)
  | InsertItem (itemId timestamp : Z) (path : option (list Z))
  | CommitItems.

Definition item_change_stmt (ent : ItemDbEntry) : ItemStmt :=
  if ide_isUpdate ent then UpdateItem (i64 (ide_timestamp ent)) (ide_itemId ent)
  else InsertItem (ide_itemId ent) (i64 (ide_timestamp ent)) (ide_addPath ent).
Definition item_gen_commit_changes (gen : ItemGen) : list ItemStmt :=
  [BeginItems] ++ (item_change_stmt <$> ig_changes gen) ++ [CommitItems].

(** [adds]: the calls to [item_gen_add] the Lua script makes, in order. *)
Definition item_gen_run_lua_script (adds : list (ItemPrototype * list Z * Z)) (gen : ItemGen) : ItemGen :=
  foldl (λ gen '(proto, path, timestamp), item_gen_add proto path timestamp gen) gen adds.

(** The statements sent to the database, and the file or what stopped it. *)
Definition item_gen_scan_and_generate (maxId : option Z) (rows : list ItemRow) (adds : list (ItemPrototype * list Z * Z))
    (fopened : bool) (now : Z) (gen : ItemGen) : list ItemStmt * outcome ItemShm :=
  let gen := item_gen_read_db_entries maxId rows gen in
  let gen := item_gen_run_lua_script adds gen in
  (item_gen_commit_changes gen, item_gen_write_to_disk fopened now gen).
