(* ===== verification/ItemTableSpec.v ===== *)
(** What the item file promises: the generator ends, and every id of the file
    is found.

    The slots are read as those of the containers' hash table, so that the
    chains and the moves on them ([HashChains], [HashTableSpec]) serve here
    too. *)

From S2P Require Import Prelude Fields Bit EqpString HashTable HashChains HashTableSpec HashTableMap Text ItemPrototype ItemTable.

(** ** The slots as slots of the containers' table *)
Abbreviation Slot := (Entry EString (Z * Z)).
Definition no_text : EString := mkString 0 0 0 [].

Definition view (e : ItemShm_Entry) : Slot :=
  if se_offset e =? 0 then mkEntry None (se_hash e) (se_next e) None
  else mkEntry (Some no_text) (se_hash e) (se_next e) (Some (se_key e, se_offset e)).
Abbreviation views ents := (view <$> ents).

Section view.
Implicit Types (ents : list ItemShm_Entry) (e : ItemShm_Entry).

Lemma view_hash e : hash (view e) = se_hash e.
Proof. unfold view. by destruct (se_offset e =? 0). Qed.
Lemma view_next e : next (view e) = se_next e.
Proof. unfold view. by destruct (se_offset e =? 0). Qed.
Lemma view_main mask e : main mask (view e) = Z.to_nat (Z.land (se_hash e) mask).
Proof. unfold main. by rewrite view_hash. Qed.
Lemma view_dead e : key (view e) = None ↔ se_offset e = 0.
Proof. unfold view. destruct (Z.eqb_spec (se_offset e) 0); simpl; naive_solver. Qed.
Lemma view_live e : live (view e) ↔ se_offset e ≠ 0.
Proof. unfold live, view. destruct (Z.eqb_spec (se_offset e) 0); simpl; split; naive_solver. Qed.
Lemma view_with_next e n : view (with_next e n) = set_next (view e) n.
Proof. unfold view, with_next. simpl. by destruct (se_offset e =? 0). Qed.
Lemma view_free : view free_entry = empty_entry.
Proof. done. Qed.

Lemma views_lookup ents i e : ents !! i = Some e → views ents !! i = Some (view e).
Proof. intros H. by rewrite list_lookup_fmap, H. Qed.
Lemma views_inv ents i x : views ents !! i = Some x → ∃ e, ents !! i = Some e ∧ x = view e.
Proof. rewrite list_lookup_fmap. destruct (ents !! i) as [e|]; [|done]. intros [= <-]. by exists e. Qed.

Lemma entry_at_nat ents (i : nat) : entry_at ents (Z.of_nat i) = deref (ents !! i).
Proof. unfold entry_at. by rewrite Nat2Z.id. Qed.
Lemma entry_at_some ents (i : nat) e : ents !! i = Some e → entry_at ents (Z.of_nat i) = Ok e.
Proof. intros H. by rewrite entry_at_nat, H. Qed.
Lemma entry_put_nat ents (i : nat) e x : ents !! i = Some e → entry_put ents (Z.of_nat i) x = Ok (<[i:=x]> ents).
Proof. intros H. unfold entry_put. rewrite (entry_at_some _ _ _ H). run. by rewrite Nat2Z.id. Qed.

Lemma chain_before_view fuel ents i pos : chain_before fuel ents i pos = follow_to fuel (views ents) i pos.
Proof.
  revert i. induction fuel as [|fuel IH]; intros i; [done|]. simpl. unfold entry_at, ent_at.
  rewrite list_lookup_fmap. destruct (ents !! Z.to_nat i) as [e|]; run; [|done].
  simpl. rewrite view_next. by destruct (se_next e =? pos).
Qed.

(** [e] is in the chain [l] of [ents]. *)
Definition keyed_in ents (l : list nat) (id : Z) : Prop := ∃ i e, i ∈ l ∧ ents !! i = Some e ∧ se_key e = id.

(** Both walks over a chain look at all of it: the id is found or is not there. *)
Lemma chain_walks ents l m z id fuel : Z.of_nat (length ents) < NEXT_INVALID →
  path (views ents) (l ++ [m]) z NEXT_INVALID → (length l < fuel)%nat →
  (∃ i e, i ∈ l ++ [m] ∧ ents !! i = Some e ∧ se_key e = id ∧
     chain_find fuel ents z id = Ok (se_offset e) ∧ chain_last fuel ents z id = Throw ErrorDuplicate) ∨
  ¬ keyed_in ents (l ++ [m]) id ∧ chain_find fuel ents z id = Ok 0 ∧ chain_last fuel ents z id = Ok (Z.of_nat m).
Proof.
  intros Hlen. revert z fuel. induction l as [|i l IH]; intros z fuel Hp Hf; (destruct fuel as [|fuel]; [simpl in Hf; lia|]).
  - destruct Hp as (-> & x & (e & He & ->)%views_inv & Hn). rewrite view_next in Hn. simpl in Hn.
    cbn [chain_find chain_last]. rewrite (entry_at_some _ _ _ He). run. rewrite Hn. change (NEXT_INVALID =? INVALID) with true.
    destruct (Z.eqb_spec (se_key e) id) as [Hk|Hk]; [left; exists m, e; set_solver|]. right.
    split_and!; [|done..]. intros (j & e' & ->%list_elem_of_singleton & He' & Hk'). congruence.
  - destruct Hp as (-> & x & (e & He & ->)%views_inv & Hn). rewrite view_next in Hn.
    cbn [chain_find chain_last]. rewrite (entry_at_some _ _ _ He). run.
    destruct (Z.eqb_spec (se_key e) id) as [Hk|Hk]; [left; exists i, e; set_solver|].
    assert (se_next e ≠ NEXT_INVALID) as Hne.
    { rewrite <-view_next. eapply (path_next (views ents) (l ++ [m]) (view e)); [by rewrite length_fmap|by destruct l|by rewrite view_next]. }
    change INVALID with NEXT_INVALID. rewrite (proj2 (Z.eqb_neq _ _) Hne). cbn [negb].
    destruct (IH _ fuel Hn ltac:(simpl in Hf; lia)) as [(j & e' & ? & ? & ? & ? & ?)|(Hno & ? & ?)].
    + left. exists j, e'. set_solver.
    + right. split_and!; [|done..]. intros (j & e' & Hj & He' & Hk').
      apply list_elem_of_In in Hj as [<-|Hj]; [congruence|]. apply Hno. exists j, e'. split_and!; [by apply list_elem_of_In|done..].
Qed.

(** The scan finds a free slot if there is one. *)
Lemma first_free_ok fuel ents (i : nat) f : Z.of_nat (length ents) < NEXT_INVALID → (length ents < i + fuel)%nat → (i ≤ length ents)%nat →
  (∃ j e, (i ≤ j)%nat ∧ first_free fuel ents (Z.of_nat (length ents) - 1) (Z.of_nat i) f = Ok (Z.of_nat j) ∧ ents !! j = Some e ∧ se_offset e = 0) ∨
  (∀ j e, (i ≤ j)%nat → ents !! j = Some e → se_offset e ≠ 0) ∧ first_free fuel ents (Z.of_nat (length ents) - 1) (Z.of_nat i) f = Ok f.
Proof.
  intros Hlen. revert i. induction fuel as [|fuel IH]; intros i Hf Hi; [lia|]. cbn [first_free].
  destruct (Z.leb_spec (Z.of_nat i) (Z.of_nat (length ents) - 1)); cycle 1.
  { right. split; [|done]. intros j e ? ?%lookup_lt_Some. lia. }
  destruct (ents !! i) as [e|] eqn:He; [|apply lookup_ge_None in He; lia].
  rewrite (entry_at_some _ _ _ He). run. destruct (Z.eqb_spec (se_offset e) 0) as [H0|H0]; [left; exists i, e; done|].
  rewrite wrap_small by (unfold is_word, NEXT_INVALID in *; lia). replace (Z.of_nat i + 1) with (Z.of_nat (S i)) by lia.
  destruct (IH (S i)) as [(j & e' & ? & ? & ? & ?)|[Hno ?]]; [lia..| |].
  - left. exists j, e'. split_and!; [lia|done..].
  - right. split; [|done]. intros j e' ? Hj. destruct (decide (j = i)) as [->|]; [congruence|]. eapply Hno; [|done]. lia.
Qed.

(** Slots that are all live hold as many items as there are slots. *)
Lemma lives_length ents : (∀ j e, ents !! j = Some e → se_offset e ≠ 0) → length (lives (views ents)) = length ents.
Proof.
  induction ents as [|e ents IH]; intros H; [done|]. rewrite fmap_cons, lives_cons, length_app, IH.
  - assert (se_offset e ≠ 0) as Hn by exact (H 0%nat e eq_refl). unfold view. by rewrite (proj2 (Z.eqb_neq _ _) Hn).
  - intros j x Hj. exact (H (S j) x Hj).
Qed.
End view.

(** ** The table while it is built *)
Section table.
Context (cap : nat) (base : Z).
Context (Hcap : ∃ c, 0 ≤ c ∧ Z.of_nat cap = 2 ^ c) (Hbase : 0 < base).
Context (Hfit : base + SIZEOF_ItemPrototype * Z.of_nat cap < 2 ^ 32).
Implicit Types (ents : list ItemShm_Entry) (ids : list Z).
Abbreviation mask := (Z.of_nat cap - 1).

(** The [i]-th item, as its slot holds it. *)
Definition slot_item (i : nat) (id : Z) : EString * Z * option (Z * Z) :=
  (no_text, item_share_mem_calc_hash id, Some (id, base + SIZEOF_ItemPrototype * Z.of_nat i)).
Definition slot_items ids : list (EString * Z * option (Z * Z)) := imap slot_item ids.

Record holds_items ids ents (f off : Z) : Prop := {
  bl_length : length ents = cap;
  bl_chains : ∃ ch, chains mask (views ents) ch;
  bl_lives : lives (views ents) ≡ₚ slot_items ids;
  bl_free : (length ids < cap)%nat → ∃ i e, f = Z.of_nat i ∧ ents !! i = Some e ∧ se_offset e = 0;
  bl_offset : off = base + SIZEOF_ItemPrototype * Z.of_nat (length ids);
}.

Lemma cap_nowrap : Z.of_nat cap < NEXT_INVALID.
Proof. unfold SIZEOF_ItemPrototype, NEXT_INVALID in *. lia. Qed.

Lemma home_slot h : ∃ p, Z.land h mask = Z.of_nat p ∧ (p < cap)%nat.
Proof.
  destruct Hcap as (c & Hc & He). exists (Z.to_nat (Z.land h mask)). rewrite He.
  replace (2 ^ c - 1) with (Z.ones c) by (rewrite Z.ones_equiv; lia). rewrite Z.land_ones by done.
  pose proof (Z.mod_pos_bound h (2 ^ c)). lia.
Qed.

Lemma slot_items_elem ids x : x ∈ slot_items ids ↔ ∃ i id, ids !! i = Some id ∧ x = slot_item i id.
Proof.
  unfold slot_items. rewrite list_elem_of_lookup. split.
  - intros [i Hi]. rewrite list_lookup_imap in Hi. destruct (ids !! i) as [id|] eqn:Hid; [|done]. injection Hi as <-. by exists i, id.
  - intros (i & id & Hid & ->). exists i. by rewrite list_lookup_imap, Hid.
Qed.
Lemma slot_items_snoc ids id : slot_items (ids ++ [id]) = slot_items ids ++ [slot_item (length ids) id].
Proof. unfold slot_items. rewrite imap_app. simpl. by rewrite Nat.add_0_r. Qed.

(** A live slot holds one of the items. *)
Lemma slot_of_live ids ents f off i e : holds_items ids ents f off → ents !! i = Some e → se_offset e ≠ 0 →
  ∃ j, ids !! j = Some (se_key e) ∧ se_hash e = item_share_mem_calc_hash (se_key e) ∧
    se_offset e = base + SIZEOF_ItemPrototype * Z.of_nat j.
Proof.
  intros Hb He Ho. assert (Hin : (no_text, se_hash e, Some (se_key e, se_offset e)) ∈ lives (views ents)).
  { apply elem_of_lives. exists i, (view e). split; [by apply views_lookup|]. unfold view, payload. by rewrite (proj2 (Z.eqb_neq _ _) Ho). }
  rewrite (bl_lives _ _ _ _ Hb) in Hin. apply slot_items_elem in Hin as (j & id & Hj & Hx).
  injection Hx as Hh -> Ho'. by exists j.
Qed.

(** Every item has a slot. *)
Lemma live_of_item ids ents f off j id : holds_items ids ents f off → ids !! j = Some id →
  ∃ i e, ents !! i = Some e ∧ se_key e = id ∧ se_offset e ≠ 0 ∧ se_hash e = item_share_mem_calc_hash id.
Proof.
  intros Hb Hj. assert (Hin : slot_item j id ∈ lives (views ents)).
  { rewrite (bl_lives _ _ _ _ Hb). apply slot_items_elem. by exists j, id. }
  apply elem_of_lives in Hin as (i & x & (e & He & ->)%views_inv & Hx). exists i, e.
  unfold view, payload in Hx. destruct (Z.eqb_spec (se_offset e) 0); [done|]. injection Hx as Hh <- Ho. done.
Qed.

(** An id is in the table when it is in the chain of its home slot. *)
Lemma in_home_chain ids ents f off ch p id : holds_items ids ents f off → chains mask (views ents) ch →
  Z.land (item_share_mem_calc_hash id) mask = Z.of_nat p → id ∈ ids ↔ keyed_in ents (ch p) id.
Proof.
  intros Hb Hch Hp. split.
  - intros [j Hj]%list_elem_of_lookup. destruct (live_of_item _ _ _ _ _ _ Hb Hj) as (i & e & He & Hk & Ho & Hh).
    exists i, e. split_and!; [|done..].
    pose proof (ch_live _ _ _ Hch i (view e) (views_lookup _ _ _ He) (proj2 (view_live e) Ho)) as Hin.
    by rewrite view_main, Hh, Hp, Nat2Z.id in Hin.
  - intros (i & e & Hi & He & <-). destruct (ch_member _ _ _ Hch _ _ Hi) as (x & Hx & Hl & _).
    rewrite (views_lookup _ _ _ He) in Hx. injection Hx as <-. apply view_live in Hl.
    destruct (slot_of_live _ _ _ _ _ _ Hb He Hl) as (j & Hj & _). by eapply list_elem_of_lookup_2.
Qed.

(** A home slot that is free, or holds an item of another chain, has no chain. *)
Lemma home_empty ents ch p e : chains mask (views ents) ch → ents !! p = Some e →
  se_offset e = 0 ∨ main mask (view e) ≠ p → ch p = [].
Proof.
  intros Hch He H. pose proof (views_lookup _ _ _ He) as Hv. destruct (ch p) as [|j l] eqn:Hc; [done|].
  rewrite (ch_head _ _ _ Hch _ _ _ Hc) in Hc. destruct (ch_member _ _ _ Hch p p) as (y & Hy & Hl & Hmy); [rewrite Hc; set_solver|].
  rewrite Hv in Hy. injection Hy as <-. apply view_live in Hl. naive_solver.
Qed.

Lemma home_absent ids ents f off ch p e id : holds_items ids ents f off → chains mask (views ents) ch →
  Z.land (item_share_mem_calc_hash id) mask = Z.of_nat p → ents !! p = Some e →
  se_offset e = 0 ∨ main mask (view e) ≠ p → id ∉ ids.
Proof.
  intros Hb Hch Hp He H. rewrite (in_home_chain _ _ _ _ _ _ _ Hb Hch Hp), (home_empty _ _ _ _ Hch He H).
  intros (? & ? & []%not_elem_of_nil & _).
Qed.

(** The chain of a home slot at home, from its head to its last slot. *)
Lemma home_chain ents ch p e : chains mask (views ents) ch → ents !! p = Some e → se_offset e ≠ 0 → main mask (view e) = p →
  ∃ l m, ch p = l ++ [m] ∧ path (views ents) (l ++ [m]) (Z.of_nat p) NEXT_INVALID ∧ (length l < S (length ents))%nat.
Proof.
  intros Hch He Ho Hm. destruct (chain_of_live _ _ _ Hch p (view e)) as [l0 Hq]; [by apply views_lookup|by apply view_live|done|].
  destruct (exists_last (l := ch p)) as (l & m & Hlm); [by rewrite Hq|]. exists l, m.
  pose proof (chain_length _ _ _ Hch p) as Hcl. rewrite Hlm, length_fmap, length_app in Hcl. simpl in Hcl.
  split_and!; [done| |lia]. destruct (ch_path _ _ _ Hch p) as [z' Hz']. rewrite <-Hlm. rewrite Hq in Hz' |- *. by destruct Hz' as [-> ?].
Qed.

(** ** The moves of one round *)
Lemma free_after ids ents f off f' : length ents = cap → lives (views ents) ≡ₚ slot_items ids →
  item_gen_advance_free_index ents mask f = Ok f' → off = base + SIZEOF_ItemPrototype * Z.of_nat (length ids) →
  (∃ ch, chains mask (views ents) ch) → holds_items ids ents f' off.
Proof.
  intros Hlen Hlv Ha Hoff Hch. split; [done..| |done]. intros Hlt. unfold item_gen_advance_free_index in Ha. rewrite <-Hlen in Ha.
  pose proof cap_nowrap. destruct (first_free_ok (S (length ents)) ents 0 f) as [(j & e & _ & Hj & He & Ho)|[Hno _]]; [lia..| |].
  - change (Z.of_nat 0) with 0 in Hj. rewrite Hj in Ha. injection Ha as <-. by exists j, e.
  - pose proof (lives_length ents (λ j e, Hno j e (Nat.le_0_l j))) as Hn. rewrite Hlv in Hn. unfold slot_items in Hn. rewrite length_imap in Hn. lia.
Qed.

Lemma advance_ends ents f : length ents = cap → ∃ f', item_gen_advance_free_index ents mask f = Ok f'.
Proof.
  intros Hlen. unfold item_gen_advance_free_index. rewrite <-Hlen. pose proof cap_nowrap.
  destruct (first_free_ok (S (length ents)) ents 0 f) as [(j & e & _ & Hj & _)|[_ Hj]]; [lia..| |]; change (Z.of_nat 0) with 0 in Hj; eauto.
Qed.

Lemma lives_added ids ents ents' x : lives (views ents) ≡ₚ slot_items ids →
  lives (views ents') ≡ₚ option_list (payload (view x)) ++ lives (views ents) →
  payload (view x) = Some (slot_item (length ids) (se_key x)) → lives (views ents') ≡ₚ slot_items (ids ++ [se_key x]).
Proof. intros Hl Hl' Hx. rewrite Hl', Hx, slot_items_snoc, Hl. simpl. solve_Permutation. Qed.

(** The slot a round fills. *)
Definition filled (ids : list Z) (id : Z) : ItemShm_Entry :=
  mkShmEntry id (item_share_mem_calc_hash id) INVALID (base + SIZEOF_ItemPrototype * Z.of_nat (length ids)).
Lemma filled_offset ids id : se_offset (filled ids id) ≠ 0.
Proof. unfold filled, SIZEOF_ItemPrototype. simpl. lia. Qed.
Lemma filled_payload ids id : payload (view (filled ids id)) = Some (slot_item (length ids) id).
Proof. pose proof (filled_offset ids id). unfold view. by rewrite (proj2 (Z.eqb_neq _ _) H). Qed.
Lemma filled_main ids id p : Z.land (item_share_mem_calc_hash id) mask = Z.of_nat p → main mask (view (filled ids id)) = p.
Proof. intros Hp. rewrite view_main. simpl. by rewrite Hp, Nat2Z.id. Qed.

(** What a round comes to. *)
Definition round_ok ids id (r : outcome (list ItemShm_Entry * Z * Z)) : Prop :=
  id ∈ ids ∧ r = Throw ErrorDuplicate ∨
  id ∉ ids ∧ ∃ ents' f' off', r = Ok (ents', f', off') ∧ holds_items (ids ++ [id]) ents' f' off'.

Lemma round_done ids id ents ents' f r : id ∉ ids → lives (views ents) ≡ₚ slot_items ids → length ents' = cap →
  (∃ ch, chains mask (views ents') ch) → lives (views ents') ≡ₚ option_list (payload (view (filled ids id))) ++ lives (views ents) →
  (∃ f', item_gen_advance_free_index ents' mask f = Ok f' ∧
    r = Ok (ents', f', base + SIZEOF_ItemPrototype * Z.of_nat (S (length ids)))) → round_ok ids id r.
Proof.
  intros Hid Hl Hlen Hch Hl' (f' & Ha & ->). right. split; [done|]. eexists _, _, _. split; [done|].
  eapply free_after; [done| |done| |done].
  - apply (lives_added ids ents ents' (filled ids id)); [done..|apply filled_payload].
  - rewrite length_app. simpl. by rewrite Nat.add_1_r.
Qed.

(** The free slot, in the containers' terms. *)
Lemma free_view ids ents f off : holds_items ids ents f off → (length ids < cap)%nat →
  ∃ i e, f = Z.of_nat i ∧ ents !! i = Some e ∧ se_offset e = 0 ∧ views ents !! i = Some (view e) ∧ key (view e) = None.
Proof.
  intros Hb Hlt. destruct (bl_free _ _ _ _ Hb Hlt) as (i & e & -> & He & Ho). exists i, e.
  split_and!; [done..|by apply views_lookup|by apply view_dead].
Qed.

Lemma dead_next ids ents f off i e : holds_items ids ents f off → ents !! i = Some e → se_offset e = 0 → se_next e = INVALID.
Proof.
  intros Hb He Ho. destruct (bl_chains _ _ _ _ Hb) as [ch Hch]. rewrite <-view_next.
  apply (ch_dead _ _ _ Hch i); [by apply views_lookup|by apply view_dead].
Qed.

Lemma next_offset n : (n < cap)%nat → u32 (base + SIZEOF_ItemPrototype * Z.of_nat n + SIZEOF_ItemPrototype) = base + SIZEOF_ItemPrototype * Z.of_nat (S n).
Proof. intros Hn. unfold SIZEOF_ItemPrototype in *. rewrite wrap_small; unfold is_word; lia. Qed.

Section round.
Context ids ents f off (Hb : holds_items ids ents f off) (Hroom : (length ids < cap)%nat).
Context (proto : ItemPrototype) (p : nat) (e : ItemShm_Entry).
Context (Hp : Z.land (item_share_mem_calc_hash (item_proto_get_item_id proto)) mask = Z.of_nat p) (He : ents !! p = Some e).
Abbreviation id := (item_proto_get_item_id proto).

(** The home slot is free: the item goes there. *)
Lemma round_place : se_offset e = 0 → round_ok ids id (item_gen_hash_item mask proto (ents, f, off)).
Proof.
  intros Ho. destruct (bl_chains _ _ _ _ Hb) as [ch Hch]. pose proof (bl_length _ _ _ _ Hb) as Hlen.
  pose proof (views_lookup _ _ _ He) as Hv. assert (Hk : key (view e) = None) by (by apply view_dead).
  assert (Hid : id ∉ ids) by (eapply home_absent; eauto).
  unfold item_gen_hash_item. rewrite Hp, (entry_at_some _ _ _ He). run. rewrite (proj2 (Z.eqb_eq _ _) Ho). cbn [item_gen_set_hash_entry].
  rewrite (entry_put_nat _ _ _ _ He), (dead_next _ _ _ _ _ _ Hb He Ho), (bl_offset _ _ _ _ Hb), next_offset by done. cbn zeta iota.
  set (ents' := <[p:=_]> ents). assert (Hv' : views ents' = <[p:=view (filled ids id)]> (views ents)) by apply list_fmap_insert.
  assert (Hlen' : length ents' = cap) by (unfold ents'; by rewrite length_insert).
  assert (Hc : ∃ ch', chains mask (views ents') ch').
  { rewrite Hv'. eexists. eapply chains_place; [done..|apply view_live, filled_offset|by apply filled_main|by rewrite view_next]. }
  assert (Hl : lives (views ents') ≡ₚ option_list (payload (view (filled ids id))) ++ lives (views ents)).
  { rewrite Hv'. by eapply lives_fill. }
  destruct (Z.eqb_spec (Z.of_nat p) f) as [Hpf|Hpf].
  { destruct (advance_ends ents' f Hlen') as [f' Hf]. apply (round_done ids id ents ents' f); [done|apply Hb|done..|].
    exists f'. split; [done|]. unfold outcome_bind. by rewrite Hf. }
  right. split; [done|]. eexists _, _, _. split; [reflexivity|]. split; [done..| | |].
  - apply (lives_added ids ents ents' (filled ids id)); [apply Hb|done|apply filled_payload].
  - intros _. destruct (free_view _ _ _ _ Hb Hroom) as (i & d & -> & Hd & Hdo & _). exists i, d. split_and!; [done| |done].
    unfold ents'. rewrite list_lookup_insert_ne; [done|]. intros ->. done.
  - rewrite length_app. simpl. by rewrite Nat.add_1_r.
Qed.

(** The home slot holds an item of another chain, which moves to the free slot. *)
Lemma round_evict : se_offset e ≠ 0 → main mask (view e) ≠ p → round_ok ids id (item_gen_hash_item mask proto (ents, f, off)).
Proof.
  intros Ho Hm. destruct (bl_chains _ _ _ _ Hb) as [ch Hch]. pose proof (bl_length _ _ _ _ Hb) as Hlen.
  pose proof (views_lookup _ _ _ He) as Hv. assert (Hle : live (view e)) by (by apply view_live). pose proof cap_nowrap.
  assert (Hid : id ∉ ids) by (eapply home_absent; eauto).
  destruct (free_view _ _ _ _ Hb Hroom) as (i & d & Hf & Hd & Hdo & Hvd & Hkd).
  destruct (evict_move mask (views ents) ch Hch ltac:(rewrite length_fmap; lia) i (view d) Hvd Hkd p (view e) Hv Hle Hm)
    as (a & ea & Hfol & Ha & Hmp & _ & Hmove). cbv zeta in Hmove.
  rewrite <-list_fmap_insert in Hfol, Ha, Hmove. rewrite length_fmap, length_insert, <-chain_before_view in Hfol.
  rewrite <-list_fmap_insert in Hmp. destruct (views_inv _ _ _ Ha) as (ma & Hma & ->).
  rewrite <-view_with_next, <-list_fmap_insert in Hmove, Hmp. destruct (views_inv _ _ _ Hmp) as (e2 & He2 & Hve).
  assert (Hx : next (view (filled ids id)) = NEXT_INVALID) by (by rewrite view_next).
  destruct (Hmove _ Hx (λ _, filled_main _ _ _ Hp)) as [Hc Hl]. rewrite <-list_fmap_insert in Hc, Hl.
  unfold item_gen_hash_item. rewrite Hp, (entry_at_some _ _ _ He). run. rewrite (proj2 (Z.eqb_neq _ _) Ho).
  rewrite view_main in Hm, Hfol. destruct (home_slot (se_hash e)) as (q & Hq & _). rewrite Hq, Nat2Z.id in *.
  rewrite (proj2 (Z.eqb_neq (Z.of_nat q) (Z.of_nat p))) by lia. cbn [negb].
  rewrite Hf, (entry_put_nat _ _ _ _ Hd). cbn iota. rewrite Hfol. cbn iota. rewrite (entry_at_some _ _ _ Hma). cbn iota.
  rewrite (entry_put_nat _ _ _ _ Hma). cbn iota. rewrite (entry_at_some _ _ _ He2). cbn [item_gen_set_hash_entry with_next se_next].
  rewrite (entry_put_nat _ _ _ _ He2), (bl_offset _ _ _ _ Hb), next_offset by done. cbn iota.
  set (ents' := <[p:=_]> _). assert (Hlen' : length ents' = cap) by (unfold ents'; by rewrite !length_insert).
  destruct (advance_ends ents' (Z.of_nat i) Hlen') as [f' Hf'].
  apply (round_done ids id ents ents' (Z.of_nat i)); [done|apply Hb|done..|]. exists f'. split; [done|]. by rewrite Hf'.
Qed.

(** The home slot holds the head of the item's own chain: the item goes to the free slot at its end. *)
Lemma round_append : se_offset e ≠ 0 → main mask (view e) = p → round_ok ids id (item_gen_hash_item mask proto (ents, f, off)).
Proof.
  intros Ho Hm. destruct (bl_chains _ _ _ _ Hb) as [ch Hch]. pose proof (bl_length _ _ _ _ Hb) as Hlen.
  pose proof (views_lookup _ _ _ He) as Hv. assert (Hle : live (view e)) by (by apply view_live). pose proof cap_nowrap.
  destruct (free_view _ _ _ _ Hb Hroom) as (i & d & Hf & Hd & Hdo & Hvd & Hkd).
  destruct (append_move mask (views ents) ch Hch ltac:(rewrite length_fmap; lia) i (view d) Hvd Hkd p (view e) Hv Hle Hm)
    as (l & m & em & Hcp & Hpath & Hem & Hmf & _ & Hmove). cbv zeta in Hmove.
  destruct (views_inv _ _ _ Hem) as (lm & Hlm & ->). rewrite <-view_with_next, <-list_fmap_insert in Hmove, Hmf.
  destruct (views_inv _ _ _ Hmf) as (d2 & Hd2 & Hvd2).
  assert (Hn2 : se_next d2 = INVALID).
  { rewrite <-view_next, <-Hvd2, view_next. by eapply dead_next. }
  assert (Hx : next (view (filled ids id)) = NEXT_INVALID) by (by rewrite view_next).
  destruct (Hmove _ Hx (proj2 (view_live _) (filled_offset _ _)) (filled_main _ _ _ Hp)) as [Hc Hl]. rewrite <-list_fmap_insert in Hc, Hl.
  unfold item_gen_hash_item. rewrite Hp, (entry_at_some _ _ _ He). run. rewrite (proj2 (Z.eqb_neq _ _) Ho).
  rewrite view_main in Hm. destruct (home_slot (se_hash e)) as (q & Hq & _). rewrite Hq, Nat2Z.id in *. subst q.
  rewrite Z.eqb_refl. cbn [negb]. pose proof (chain_length _ _ _ Hch p) as Hcl. rewrite Hcp, length_fmap, length_app in Hcl. simpl in Hcl.
  destruct (chain_walks ents l m (Z.of_nat p) id (S (length ents)) ltac:(lia) Hpath ltac:(lia)) as [(j & x & Hj & Hxj & Hkx & _ & ->)|(Hno & _ & ->)].
  { left. split; [|done]. apply (in_home_chain _ _ _ _ _ _ _ Hb Hch Hp). rewrite Hcp. by exists j, x. }
  assert (Hid : id ∉ ids) by (by rewrite (in_home_chain _ _ _ _ _ _ _ Hb Hch Hp), Hcp).
  rewrite (entry_at_some _ _ _ Hlm). cbn iota. rewrite Hf, (entry_put_nat _ _ _ _ Hlm). cbn iota.
  rewrite (entry_at_some _ _ _ Hd2). cbn [item_gen_set_hash_entry]. rewrite (entry_put_nat _ _ _ _ Hd2), Hn2, (bl_offset _ _ _ _ Hb), next_offset by done. cbn iota.
  set (ents' := <[i:=_]> _). assert (Hlen' : length ents' = cap) by (unfold ents'; by rewrite !length_insert).
  destruct (advance_ends ents' (Z.of_nat i) Hlen') as [f' Hf'].
  apply (round_done ids id ents ents' (Z.of_nat i)); [done|apply Hb|done..|]. exists f'. split; [done|]. by rewrite Hf'.
Qed.
End round.

(** ** All rounds *)
Abbreviation ids_of protos := (item_proto_get_item_id <$> protos).

Lemma hash_items_ok protos ids ents f off : holds_items ids ents f off → (length ids + length protos ≤ cap)%nat → NoDup ids →
  NoDup (ids ++ ids_of protos) ∧
    (∃ ents' f' off', item_gen_hash_items mask protos (ents, f, off) = Ok (ents', f', off') ∧ holds_items (ids ++ ids_of protos) ents' f' off') ∨
  ¬ NoDup (ids ++ ids_of protos) ∧ item_gen_hash_items mask protos (ents, f, off) = Throw ErrorDuplicate.
Proof.
  revert ids ents f off. induction protos as [|proto protos IH]; intros ids ents f off Hb Hlen Hnd; simpl in Hlen.
  { left. rewrite app_nil_r. split; [done|]. by eexists _, _, _. }
  cbn [item_gen_hash_items fmap list_fmap].
  destruct (home_slot (item_share_mem_calc_hash (item_proto_get_item_id proto))) as (p & Hp & Hlt).
  rewrite <-(bl_length _ _ _ _ Hb) in Hlt. destruct (lookup_lt_is_Some_2 ents p Hlt) as [e He].
  assert (Hr : round_ok ids (item_proto_get_item_id proto) (item_gen_hash_item mask proto (ents, f, off))).
  { destruct (decide (se_offset e = 0)); [eapply round_place; eauto; lia|].
    destruct (decide (main mask (view e) = p)); [eapply round_append|eapply round_evict]; eauto; lia. }
  destruct Hr as [[Hin ->]|(Hid & ents' & f' & off' & -> & Hb')].
  { right. split; [|done]. rewrite NoDup_app, NoDup_cons. intros (_ & Hd & _). apply (Hd _ Hin). set_solver. }
  unfold mbind, outcome_bind. rewrite cons_middle, app_assoc. apply IH; [done|rewrite length_app; simpl; lia|].
  apply NoDup_app. split_and!; [done|set_solver|apply NoDup_singleton].
Qed.

(** The table before any item. *)
Lemma holds_nothing : (0 < cap)%nat → holds_items [] (replicate cap free_entry) 0 base.
Proof.
  intros Hc. split.
  - apply length_replicate.
  - rewrite fmap_replicate, view_free. eexists. apply empty_chains.
  - by rewrite fmap_replicate, view_free, lives_empty.
  - intros _. exists 0%nat, free_entry. split_and!; [done| |done]. by apply lookup_replicate.
  - simpl. lia.
Qed.

(** ** Lookups in a table that is built *)
Lemma get_offset_ok ids ents f off id p : holds_items ids ents f off → NoDup ids →
  Z.land (item_share_mem_calc_hash id) mask = Z.of_nat p →
  (∀ j, ids !! j = Some id → item_share_mem_get_offset ents mask (Z.of_nat p) id = Ok (base + SIZEOF_ItemPrototype * Z.of_nat j)) ∧
  (id ∉ ids → item_share_mem_get_offset ents mask (Z.of_nat p) id = Ok 0).
Proof.
  intros Hb Hnd Hp. destruct (bl_chains _ _ _ _ Hb) as [ch Hch]. pose proof (bl_length _ _ _ _ Hb) as Hlen. pose proof cap_nowrap.
  assert (Hlt : (p < length ents)%nat) by (destruct (home_slot (item_share_mem_calc_hash id)) as (q & Hq & ?); lia).
  destruct (lookup_lt_is_Some_2 ents p Hlt) as [e He]. unfold item_share_mem_get_offset. rewrite (entry_at_some _ _ _ He). run.
  assert (Habs : se_offset e = 0 ∨ main mask (view e) ≠ p → ∀ j, ids !! j = Some id → False).
  { intros H' j Hj. eapply home_absent; eauto. by eapply list_elem_of_lookup_2. }
  destruct (Z.eqb_spec (se_offset e) 0) as [Ho|Ho]; [split; [|done]; intros; exfalso; eauto|].
  destruct (home_slot (se_hash e)) as (q & Hq & _). rewrite Hq. rewrite view_main, Hq, Nat2Z.id in Habs.
  destruct (Z.eqb_spec (Z.of_nat q) (Z.of_nat p)) as [Hqp|Hqp]; cbn [negb]; [|split; [|done]; intros; exfalso; eapply Habs; [right; lia|done]].
  destruct (home_chain ents ch p e Hch He Ho) as (l & m & Hcp & Hpath & Hll); [rewrite view_main, Hq; lia|].
  destruct (chain_walks ents l m (Z.of_nat p) id (S (length ents)) ltac:(lia) Hpath ltac:(lia)) as [(j & x & Hj & Hxj & Hkx & -> & _)|(Hno & -> & _)].
  - assert (Hx : se_offset x ≠ 0).
    { rewrite <-Hcp in Hj. destruct (ch_member _ _ _ Hch _ _ Hj) as (y & Hy & Hl & _).
      rewrite (views_lookup _ _ _ Hxj) in Hy. injection Hy as <-. by apply view_live. }
    destruct (slot_of_live _ _ _ _ _ _ Hb Hxj Hx) as (j' & Hj' & _ & ->). rewrite Hkx in Hj'. split.
    + intros i Hi. by rewrite (NoDup_lookup _ _ _ _ Hnd Hi Hj').
    + intros []. by eapply list_elem_of_lookup_2.
  - rewrite <-Hcp, <-(in_home_chain _ _ _ _ _ _ _ Hb Hch Hp) in Hno. split; [|done].
    intros j Hj. destruct Hno. by eapply list_elem_of_lookup_2.
Qed.
End table.

(** ** The file *)
Abbreviation ids_of protos := (item_proto_get_item_id <$> protos).
Definition item_ids (gen : ItemGen) : list Z := ids_of (ig_itemPrototypes gen).
Definition mapped (data : ItemShm) : ItemShareMem := mkShareMem data (item_file_length data).
Definition table_base (cap : nat) : Z := SIZEOF_ItemShm + SIZEOF_ItemShm_Entry * Z.of_nat cap.

(** Offsets are 32-bit: with at most this many items none wraps around. *)
Definition MAX_ITEMS : Z := 2 ^ 23.

Record file_of (gen : ItemGen) (data : ItemShm) (cap : nat) : Prop := {
  fo_pow : ∃ c, 0 ≤ c ∧ Z.of_nat cap = 2 ^ c;
  fo_fit : table_base cap + SIZEOF_ItemPrototype * Z.of_nat cap < 2 ^ 32;
  fo_mask : ishm_capacityMinusOne data = Z.of_nat cap - 1;
  fo_count : ishm_itemCount data = Z.of_nat (length (ig_itemPrototypes gen));
  fo_protos : ishm_prototypes data = ig_itemPrototypes gen;
  fo_holds : ∃ f off, holds_items cap (table_base cap) (item_ids gen) (ishm_entries data) f off;
}.

Lemma write_to_disk_ok gen now : 1 ≤ Z.of_nat (length (ig_itemPrototypes gen)) ≤ MAX_ITEMS →
  NoDup (item_ids gen) ∧ (∃ data cap, item_gen_write_to_disk true now gen = Ok data ∧ file_of gen data cap) ∨
  ¬ NoDup (item_ids gen) ∧ item_gen_write_to_disk true now gen = Throw ErrorDuplicate.
Proof.
  intros Hn. unfold MAX_ITEMS in Hn. unfold item_gen_write_to_disk. rewrite (wrap_small 32 (Z.of_nat _)) by (unfold is_word; lia).
  destruct (bit_pow2_greater_or_equal_bounds (Z.of_nat (length (ig_itemPrototypes gen)))) as (c & Hc & -> & Hlo & Hhi); [lia|].
  set (cap := Z.to_nat (2 ^ c)). assert (Hcap : 2 ^ c = Z.of_nat cap) by (unfold cap; lia). rewrite !Hcap. clearbody cap.
  assert (c ≤ 23) by (apply Z.lt_succ_r, (Z.pow_lt_mono_r_iff 2); change (2 ^ Z.succ 23) with (2 * 2 ^ 23); lia).
  assert (Hc23 : 2 ^ c ≤ 2 ^ 23) by (apply Z.pow_le_mono_r; lia).
  assert (Hfit : table_base cap + SIZEOF_ItemPrototype * Z.of_nat cap < 2 ^ 32)
    by (unfold table_base, SIZEOF_ItemShm, SIZEOF_ItemShm_Entry, SIZEOF_ItemPrototype; lia).
  rewrite !wrap_small by (unfold is_word, SIZEOF_ItemShm, SIZEOF_ItemShm_Entry; lia).
  assert (Hbase : 0 < table_base cap) by (unfold table_base, SIZEOF_ItemShm, SIZEOF_ItemShm_Entry; lia).
  assert (Hpow : ∃ c, 0 ≤ c ∧ Z.of_nat cap = 2 ^ c) by (by exists c).
  destruct (hash_items_ok cap (table_base cap) Hpow Hbase Hfit (ig_itemPrototypes gen) [] _ _ _
    (holds_nothing cap (table_base cap) ltac:(lia)) ltac:(simpl; lia) ltac:(constructor)) as [(Hnd & ents & f & off & Hr & Hh)|[Hnd Hr]];
    unfold table_base in Hr; rewrite Hr; run; [left|right; done].
  split; [done|]. eexists _, cap. split; [done|]. split; [done..|]. by exists f, off.
Qed.

(** The prototypes follow the table one after the other. *)
Lemma prototype_at_ok gen data cap i proto : file_of gen data cap → ig_itemPrototypes gen !! i = Some proto →
  prototype_at data (table_base cap + SIZEOF_ItemPrototype * Z.of_nat i) = Ok proto ∧
  table_base cap + SIZEOF_ItemPrototype * Z.of_nat i + SIZEOF_ItemPrototype ≤ item_file_length data.
Proof.
  intros Hf Hi. destruct (fo_holds _ _ _ Hf) as (f & off & Hh). pose proof (bl_length _ _ _ _ _ _ Hh) as Hlen.
  unfold prototype_at, item_file_length. rewrite (fo_protos _ _ _ Hf), Hlen. fold (table_base cap).
  replace (table_base cap + _ - table_base cap) with (Z.of_nat i * SIZEOF_ItemPrototype) by lia.
  rewrite Z.mod_mul, Z.div_mul, Nat2Z.id, Hi by done. apply lookup_lt_Some in Hi. unfold SIZEOF_ItemPrototype.
  rewrite (proj2 (Z.ltb_ge _ _)) by lia. split; [done|lia].
Qed.

(** What a server finds under an id. *)
Definition found_as (gen : ItemGen) (data : ItemShm) (id : Z) (r : option Z) : Prop :=
  match r with
  | Some ptr => ∃ i proto, ig_itemPrototypes gen !! i = Some proto ∧ item_proto_get_item_id proto = id ∧ prototype_at data ptr = Ok proto
  | None => id ∉ item_ids gen
  end.

Lemma get_prototype_ok gen data cap id : file_of gen data cap → NoDup (item_ids gen) →
  ∃ r, item_share_mem_get_prototype (mapped data) id = Ok r ∧ found_as gen data id r.
Proof.
  intros Hf Hnd. destruct (fo_holds _ _ _ Hf) as (f & off & Hh). pose proof (fo_fit _ _ _ Hf) as Hfit.
  assert (Hbase : 0 < table_base cap) by (unfold table_base, SIZEOF_ItemShm, SIZEOF_ItemShm_Entry; lia).
  destruct (home_slot cap (fo_pow _ _ _ Hf) (item_share_mem_calc_hash id)) as (p & Hp & _).
  destruct (get_offset_ok cap _ (fo_pow _ _ _ Hf) Hbase Hfit _ _ _ _ id p Hh Hnd Hp) as [Hin Hout].
  unfold item_share_mem_get_prototype. cbn [mapped ism_memory ism_length]. rewrite (fo_mask _ _ _ Hf), Hp.
  destruct (decide (id ∈ item_ids gen)) as [[j Hj]%list_elem_of_lookup|Hid].
  - rewrite (Hin j Hj). run. unfold item_ids in Hj. rewrite list_lookup_fmap in Hj.
    destruct (ig_itemPrototypes gen !! j) as [proto|] eqn:Hpj; [|done]. injection Hj as <-.
    destruct (prototype_at_ok _ _ _ _ _ Hf Hpj) as [Hat Hle].
    rewrite (proj2 (Z.eqb_neq _ _)) by (unfold SIZEOF_ItemPrototype; lia). rewrite (proj2 (Z.ltb_ge _ _)) by lia.
    eexists. split; [done|]. by exists j, proto.
  - rewrite (Hout Hid). run. by exists None.
Qed.

(** ** The items of the scripts *)

(** The ids the table of known scripts gives, and those given to new ones. *)
Definition known (gen : ItemGen) : gmap (list Z) Z := ide_itemId <$> ig_scriptPathToDbEntry gen.
Definition as_item (id : Z) (path : list Z) (proto : ItemPrototype) : ItemPrototype :=
  item_proto_set_script_path path (item_proto_set_item_id id proto).

Fixpoint numbered (T : gmap (list Z) Z) (next : Z) (adds : list (ItemPrototype * list Z * Z)) : list ItemPrototype :=
  match adds with
  | [] => []
  | (proto, path, _) :: adds =>
      match T !! path with
      | Some id => as_item id path proto :: numbered T next adds
      | None => as_item next path proto :: numbered T (next + 1) adds
      end
  end.

Lemma run_adds adds gen : 0 ≤ ig_nextItemId gen → ig_nextItemId gen + Z.of_nat (length adds) < 2 ^ 32 →
  ig_itemPrototypes (item_gen_run_lua_script adds gen) = ig_itemPrototypes gen ++ numbered (known gen) (ig_nextItemId gen) adds.
Proof.
  unfold item_gen_run_lua_script. revert gen. induction adds as [|[[proto path] ts] adds IH]; intros gen H0 Hlt; cbn [foldl numbered].
  { by rewrite app_nil_r. }
  cbn [length] in Hlt. unfold item_gen_add, known. rewrite lookup_fmap. destruct (ig_scriptPathToDbEntry gen !! path) as [ent|] eqn:Hp; cbn [fmap option_fmap option_map].
  - destruct (ide_timestamp ent <? ts); (rewrite IH; [|cbn; lia..]); cbn; rewrite <-app_assoc; [|done].
    unfold known. cbn. rewrite fmap_insert. cbn. rewrite insert_id; [done|]. by rewrite lookup_fmap, Hp.
  - rewrite IH; cbn; rewrite sint_small by lia; [|lia..]. rewrite wrap_small by (unfold is_word; lia). by rewrite <-app_assoc.
Qed.

(** Where the ids come from. *)
Lemma numbered_source T next adds id : id ∈ ids_of (numbered T next adds) →
  (∃ path, path ∈ adds.*1.*2 ∧ T !! path = Some id) ∨ next ≤ id.
Proof.
  revert next. induction adds as [|[[proto path] ts] adds IH]; intros next; cbn [numbered fmap list_fmap]; [set_solver|].
  destruct (T !! path) as [i|] eqn:Hp; cbn [fmap list_fmap fst snd]; intros [->|H]%elem_of_cons.
  - left. exists path. set_solver.
  - destruct (IH _ H) as [(q & ? & ?)|]; [left; exists q; set_solver|by right].
  - right. cbn. lia.
  - destruct (IH _ H) as [(q & ? & ?)|]; [left; exists q; set_solver|right; lia].
Qed.

Lemma numbered_nodup T next adds : NoDup (adds.*1.*2) → (∀ p q id, T !! p = Some id → T !! q = Some id → p = q) →
  (∀ p id, T !! p = Some id → id < next) → NoDup (ids_of (numbered T next adds)).
Proof.
  intros Hnd Hinj. revert next. induction adds as [|[[proto path] ts] adds IH]; intros next Hlt; cbn [numbered fmap list_fmap]; [constructor|].
  cbn [fmap list_fmap fst snd] in Hnd. apply NoDup_cons in Hnd as [Hn Hnd].
  destruct (T !! path) as [i|] eqn:Hp; cbn [fmap list_fmap]; apply NoDup_cons.
  - split; [|by apply IH]. cbn. intros [(q & Hq & Hi)|Hi]%numbered_source.
    + by rewrite (Hinj _ _ _ Hp Hi) in Hn.
    + specialize (Hlt _ _ Hp). lia.
  - split; [|apply IH; [done|]; intros p id Hi; specialize (Hlt _ _ Hi); lia].
    cbn. intros [(q & Hq & Hi)|Hi]%numbered_source; [specialize (Hlt _ _ Hi)|]; lia.
Qed.

Lemma numbered_lookup T next adds i proto path ts : adds !! i = Some (proto, path, ts) →
  ∃ id, numbered T next adds !! i = Some (as_item id path proto) ∧ (T !! path = Some id ∨ T !! path = None ∧ next ≤ id).
Proof.
  revert next i. induction adds as [|[[pr pa] t] adds IH]; intros next i; [done|]. destruct i as [|i].
  - intros [= -> -> ->]. cbn [numbered]. destruct (T !! path) as [id|]; [by exists id; auto|]. exists next. split; [done|]. right. split; [done|lia].
  - intros Hi. cbn [numbered]. destruct (T !! pa) as [id|].
    + by apply IH.
    + destruct (IH (next + 1) i Hi) as (id & Hid & Hs). exists id. split; [done|]. destruct Hs as [?|[? ?]]; [by left|right; split; [done|lia]].
Qed.
Lemma numbered_length T next adds : length (numbered T next adds) = length adds.
Proof. revert next. induction adds as [|[[pr pa] t] adds IH]; intros next; cbn [numbered]; [done|]. destruct (T !! pa); simpl; by rewrite IH. Qed.

(** *** What the database knows *)
Definition rows_ok (rows : list ItemRow) : Prop :=
  NoDup (row_item_id <$> rows) ∧ NoDup (row_script_path <$> rows) ∧ Forall (λ r, is_word 32 (row_item_id r)) rows.
(** SELECT MAX(item_id) *)
Definition max_of (rows : list ItemRow) (maxId : option Z) : Prop :=
  match maxId with
  | Some m => (∃ r, r ∈ rows ∧ row_item_id r = m) ∧ ∀ r, r ∈ rows → row_item_id r ≤ m
  | None => rows = []
  end.

Lemma read_row_known row gen : known (item_gen_read_row row gen) =
  match known gen !! row_script_path row with Some _ => known gen | None => <[row_script_path row := u32 (row_item_id row)]> (known gen) end.
Proof.
  unfold item_gen_read_row, known. rewrite lookup_fmap. destruct (_ !! _) as [e|] eqn:He; [done|]. cbn. by rewrite fmap_insert.
Qed.
Lemma read_row_rest row gen : ig_nextItemId (item_gen_read_row row gen) = ig_nextItemId gen ∧
  ig_itemPrototypes (item_gen_read_row row gen) = ig_itemPrototypes gen.
Proof. unfold item_gen_read_row. by destruct (_ !! _). Qed.

Definition id_of_path (rows : list ItemRow) (path : list Z) (id : Z) : Prop := ∃ r, r ∈ rows ∧ row_script_path r = path ∧ row_item_id r = id.

Lemma read_rows rows gen : NoDup (row_script_path <$> rows) → Forall (λ r, is_word 32 (row_item_id r)) rows →
  (∀ r, r ∈ rows → known gen !! row_script_path r = None) →
  let gen' := foldl (λ gen row, item_gen_read_row row gen) gen rows in
  ig_nextItemId gen' = ig_nextItemId gen ∧ ig_itemPrototypes gen' = ig_itemPrototypes gen ∧
  ∀ path id, known gen' !! path = Some id ↔ known gen !! path = Some id ∨ id_of_path rows path id.
Proof.
  revert gen. induction rows as [|r rows IH]; intros gen Hnd Hw Hno; cbn [foldl fmap list_fmap] in *.
  { split_and!; [done..|]. intros path id. split; [by left|]. intros [?|(r & []%not_elem_of_nil & _)]. done. }
  apply NoDup_cons in Hnd as [Hr Hnd]. apply Forall_cons in Hw as [Hwr Hw]. destruct (read_row_rest r gen) as [Hn Hp].
  assert (Hk : known (item_gen_read_row r gen) = <[row_script_path r := row_item_id r]> (known gen)).
  { rewrite read_row_known, (Hno r) by set_solver. by rewrite wrap_small. }
  destruct (IH (item_gen_read_row r gen) Hnd Hw) as (Hn' & Hp' & Hk').
  { intros r' Hr'. rewrite Hk, lookup_insert_ne; [apply Hno; set_solver|]. intros Heq. apply Hr. rewrite Heq. by apply list_elem_of_fmap_2. }
  rewrite Hn', Hp', Hn, Hp. split_and!; [done..|]. intros path id. rewrite Hk', Hk. unfold id_of_path. split.
  - intros [H|(r' & ? & ? & ?)]; [|right; exists r'; set_solver]. apply lookup_insert_Some in H as [[<- <-]|[_ H]]; [right; exists r; set_solver|by left].
  - intros [H|(r' & [->|Hin]%elem_of_cons & <- & <-)].
    + left. apply lookup_insert_Some. right. split; [|done]. intros <-. rewrite (Hno r) in H by set_solver. done.
    + left. apply lookup_insert_eq.
    + right. by exists r'.
Qed.

Lemma read_db_ok maxId rows : rows_ok rows → max_of rows maxId →
  let gen := item_gen_read_db_entries maxId rows item_gen_init in
  ig_itemPrototypes gen = [] ∧
  ig_nextItemId gen = match maxId with Some m => m + 1 | None => 1000 end ∧
  (∀ path id, known gen !! path = Some id ↔ id_of_path rows path id) ∧
  (∀ path id, id_of_path rows path id → id < ig_nextItemId gen).
Proof.
  intros (_ & Hnd & Hw) Hm. unfold item_gen_read_db_entries.
  set (g := match maxId with Some m => _ | None => _ end).
  assert (Hg : known g = ∅) by (unfold g; destruct maxId; apply fmap_empty).
  destruct (read_rows rows g Hnd Hw) as (-> & -> & Hk); [by intros; rewrite Hg|].
  assert (Hi : ig_nextItemId g = match maxId with Some m => m + 1 | None => 1000 end).
  { unfold g. destruct maxId as [m|]; [|done]. destruct Hm as [(r & Hr & <-) _]. rewrite Forall_forall in Hw. specialize (Hw r Hr).
    unfold is_word in Hw. cbn. apply sint_small; lia. }
  split_and!; [unfold g; by destruct maxId|done| |].
  - intros path id. rewrite Hk, Hg. split; [by intros [?|?]|by right].
  - intros path id (r & Hr & _ & <-). rewrite Hi. destruct maxId as [m|]; cbn in Hm; [|subst rows; by apply not_elem_of_nil in Hr].
    destruct Hm as [_ Hm]. specialize (Hm r Hr). lia.
Qed.

Lemma paths_inj rows p q id : rows_ok rows → id_of_path rows p id → id_of_path rows q id → p = q.
Proof.
  intros (Hnd & _ & _) (r & Hr & <- & Hi) (r' & Hr' & <- & Hi').
  apply list_elem_of_lookup in Hr as [i Hr], Hr' as [j Hr'].
  assert (i = j) as ->; [|congruence].
  eapply NoDup_lookup; [exact Hnd| |]; rewrite list_lookup_fmap; [by rewrite Hr|rewrite Hr'; cbn; by rewrite Hi, Hi'].
Qed.

(** Blank items with these ids. *)
Definition sample (ids : list Z) : ItemGen := item_gen_init <| ig_itemPrototypes := (λ i, item_proto_set_item_id i zeroed_proto) <$> ids |>.

(** ** Properties *)

(** C16: the generator ends, whatever the items are (up to 2^23 of them): the
    walks over the chains and the scans for a free slot all stop. It writes the
    file when the ids are distinct and reports a duplicate id otherwise. *)
Theorem item_generation_ends gen now : 1 ≤ Z.of_nat (length (ig_itemPrototypes gen)) ≤ MAX_ITEMS →
  NoDup (item_ids gen) ∧ (∃ data, item_gen_write_to_disk true now gen = Ok data) ∨
  ¬ NoDup (item_ids gen) ∧ item_gen_write_to_disk true now gen = Throw ErrorDuplicate.
Proof. intros Hn. destruct (write_to_disk_ok gen now Hn) as [(Hnd & data & cap & H & _)|[? ?]]; [left; eauto|by right]. Qed.

Lemma item_generation_ends_witness :
  (∃ data, item_gen_write_to_disk true 0 (sample [7; 9; 123456]) = Ok data) ∧
  item_gen_write_to_disk true 0 (sample [7; 9; 7]) = Throw ErrorDuplicate.
Proof.
  split.
  - destruct (item_generation_ends (sample [7; 9; 123456]) 0
      ltac:(vm_compute; split; discriminate)) as [[_ H]|[H _]]; [exact H|]. destruct H. unfold item_ids. cbn. apply (bool_decide_unpack _). vm_compute. exact I.
  - destruct (item_generation_ends (sample [7; 9; 7]) 0
      ltac:(vm_compute; split; discriminate)) as [[H _]|[_ H]]; [|exact H]. apply (bool_decide_pack _) in H. vm_compute in H. destruct H.
Defined.

(** C4: in a file that the generator wrote, a server finds under every id the
    prototype with that id, and nothing under an id that no item has: the slots
    implement the map from ids to prototypes, and no walk runs out of the chain. *)
Theorem every_item_is_found gen now data id : 1 ≤ Z.of_nat (length (ig_itemPrototypes gen)) ≤ MAX_ITEMS →
  item_gen_write_to_disk true now gen = Ok data →
  ∃ r, item_share_mem_get_prototype (mapped data) id = Ok r ∧ found_as gen data id r.
Proof.
  intros Hn Hw. destruct (write_to_disk_ok gen now Hn) as [(Hnd & data' & cap & H & Hf)|[_ H]]; [|congruence].
  rewrite Hw in H. injection H as <-. by eapply get_prototype_ok.
Qed.

Lemma every_item_is_found_witness :
  let gen := sample [1002; 9; 123456] in
  ∃ data, item_gen_write_to_disk true 0 gen = Ok data ∧
    (∃ r, item_share_mem_get_prototype (mapped data) 123456 = Ok r ∧ found_as gen data 123456 r) ∧
    (∃ r, item_share_mem_get_prototype (mapped data) 8 = Ok r ∧ found_as gen data 8 r).
Proof.
  eexists. split; [vm_compute; reflexivity|]. split;
    (apply (every_item_is_found (sample [1002; 9; 123456]) 0);
     [vm_compute; split; discriminate|vm_compute; reflexivity]).
Defined.

(** C21: a run of the generator over scripts with distinct paths writes a file
    in which every script's item is found: under the id the database holds for
    its path, or under a new id above all of those. *)
Theorem scripts_get_their_items maxId rows adds now : rows_ok rows → max_of rows maxId → NoDup (adds.*1.*2) →
  1 ≤ Z.of_nat (length adds) ≤ MAX_ITEMS → match maxId with Some m => m + 1 | None => 1000 end + Z.of_nat (length adds) < 2 ^ 32 →
  ∃ data, snd (item_gen_scan_and_generate maxId rows adds true now item_gen_init) = Ok data ∧
    ∀ proto path ts, (proto, path, ts) ∈ adds →
      ∃ id ptr, item_share_mem_get_prototype (mapped data) id = Ok (Some ptr) ∧ prototype_at data ptr = Ok (as_item id path proto) ∧
        (id_of_path rows path id ∨ (∀ i, ¬ id_of_path rows path i) ∧ ∀ p i, id_of_path rows p i → i < id).
Proof.
  intros Hrows Hm Hpaths Hn Hlt. destruct (read_db_ok maxId rows Hrows Hm) as (Hp & Hnext & Hk & Hbelow).
  unfold item_gen_scan_and_generate. cbn [snd]. set (g := item_gen_read_db_entries maxId rows item_gen_init) in *. rewrite <-Hnext in Hlt.
  assert (Hpos : 0 ≤ ig_nextItemId g).
  { rewrite Hnext. destruct maxId as [m|]; [|done]. destruct Hm as [(r & Hr & <-) _]. destruct Hrows as (_ & _ & Hw).
    rewrite Forall_forall in Hw. specialize (Hw r Hr). unfold is_word in Hw. lia. }
  pose proof (run_adds adds g Hpos Hlt) as Hr. rewrite Hp in Hr. cbn [app] in Hr. set (g' := item_gen_run_lua_script adds g) in *.
  destruct (write_to_disk_ok g' now) as [(Hnd & data & cap & Hw & Hf)|[Hnd _]].
  - by rewrite Hr, numbered_length.
  - exists data. split; [done|]. intros proto path ts [i Hi]%list_elem_of_lookup.
    destruct (numbered_lookup (known g) (ig_nextItemId g) _ _ _ _ _ Hi) as (id & Hid & Hsrc). rewrite <-Hr in Hid.
    destruct (get_prototype_ok _ _ _ id Hf Hnd) as ([ptr|] & Hget & Hfound).
    + exists id, ptr. split; [done|]. destruct Hfound as (j & proto' & Hj & Hidj & Hat). split.
      * assert (j = i) as ->; [|congruence].
        eapply NoDup_lookup; [exact Hnd| |]; unfold item_ids; rewrite list_lookup_fmap; [by rewrite Hj|rewrite Hid, <-Hidj; done].
      * destruct Hsrc as [Hs|[Hs Hge]]; [left; by apply Hk|right]. split.
        -- intros i' Hi'. apply Hk in Hi'. congruence.
        -- intros p i' Hi'. specialize (Hbelow _ _ Hi'). lia.
    + destruct Hfound. unfold item_ids. apply list_elem_of_fmap. exists (as_item id path proto). split; [done|]. by eapply list_elem_of_lookup_2.
  - destruct Hnd. unfold item_ids. rewrite Hr. apply numbered_nodup; [done| |].
    + intros p q id Hp1 Hq1. apply Hk in Hp1, Hq1. by eapply paths_inj.
    + intros p id Hid. apply Hk in Hid. eauto.
Qed.

Lemma scripts_get_their_items_witness :
  let rows := [mkItemRow 1000 5 (text "sword"); mkItemRow 1001 5 (text "shield")] in
  let adds := [(zeroed_proto, text "bow", 9); (zeroed_proto, text "shield", 9)] in
  ∃ data, snd (item_gen_scan_and_generate (Some 1001) rows adds true 0 item_gen_init) = Ok data ∧
    ∀ proto path ts, (proto, path, ts) ∈ adds →
      ∃ id ptr, item_share_mem_get_prototype (mapped data) id = Ok (Some ptr) ∧ prototype_at data ptr = Ok (as_item id path proto) ∧
        (id_of_path rows path id ∨ (∀ i, ¬ id_of_path rows path i) ∧ ∀ p i, id_of_path rows p i → i < id).
Proof.
  cbv zeta. apply (scripts_get_their_items (Some 1001)).
  - split_and!; [apply (bool_decide_unpack _); vm_compute; exact I..|]. repeat constructor; discriminate.
  - split; [eexists; split; [apply list_elem_of_further, list_elem_of_here|reflexivity]|].
    intros r [->|[->|[]%not_elem_of_nil]%elem_of_cons]%elem_of_cons; vm_compute; discriminate.
  - apply (bool_decide_unpack _). vm_compute. exact I.
  - vm_compute. split; discriminate.
  - vm_compute. reflexivity.
Defined.

(** a file without items has no slots and a mask of all ones, so the first
    lookup in it, of any id, reads outside the table. *)
Theorem empty_item_file_faults now id : ∃ data, item_gen_write_to_disk true now item_gen_init = Ok data ∧
  item_share_mem_get_prototype (mapped data) id = Fault.
Proof.
  eexists. split; [reflexivity|]. unfold item_share_mem_get_prototype, item_share_mem_get_offset, entry_at, mapped.
  cbn [ism_memory ishm_entries ishm_capacityMinusOne]. change (replicate (Z.to_nat _) free_entry) with (@nil ItemShm_Entry). by rewrite lookup_nil.
Qed.
