(* ===== verification/Mob.v ===== *)
(** Mobs, the characters of a zone: zone_cluster/mob/mob.c and npc.c,
    after the prototypes that scripts create and fill (npc_prototype.c), whose
    arguments are values of the C types.

    Memory is abstract: a zone is its address, a string its bytes. Floats are
    the words that represent them. *)

From S2P Require Import Prelude Fields.

(** * Prototypes of non-player characters *)

(** Stats of mob.h. *)
Record Stats := mkStats {
  maxHp : Z; maxMana : Z; maxEndurance : Z; AC : Z; STR : Z; STA : Z; DEX : Z; AGI : Z; INT : Z; WIS : Z; CHA : Z; svMagic : Z;
  svFire : Z; svCold : Z; svPoison : Z; svDisease : Z;
}.
#[export] Instance Stats_settable : Settable Stats :=
  (built mkStats <*> maxHp <*> maxMana <*> maxEndurance <*> AC <*> STR <*> STA <*> DEX <*> AGI <*> INT <*> WIS <*> CHA <*> svMagic
  <*> svFire <*> svCold <*> svPoison <*> svDisease)%fields.
Definition no_stats : Stats := mkStats 0 0 0 0 0 0 0 0 0 0 0 0 0 0 0 0.

Record NpcPrototype := mkProto {
  np_name : option (list Z);
  np_clientFriendlyName : option (list Z);
  np_adHocId : Z;
  np_level : Z;
  np_class : Z;
  np_gender : Z;
  np_face : Z;
  np_race : Z;
  np_texture : Z;
  np_helmTexture : Z;
  np_stats : Stats;
  np_size : Z;  (* floats *)
  np_runningSpeed : Z;
  np_walkingSpeed : Z;
  np_aggroRadius : Z;
  np_materials : list Z;   (* 7 *)
  np_tints : list Z;       (* 7 *)
  np_primaryModelId : Z;
  np_secondaryModelId : Z;
  np_bodyType : Z;
  np_primaryMessageSkill : Z;
  np_secondaryMessageSkill : Z;
  np_swingsPerRound : Z;
  np_minDamage : Z;
  np_maxDamage : Z;
}.
#[export] Instance NpcPrototype_settable : Settable NpcPrototype :=
  (built mkProto <*> np_name <*> np_clientFriendlyName <*> np_adHocId <*> np_level <*> np_class <*> np_gender <*> np_face <*>
  np_race <*> np_texture <*> np_helmTexture <*> np_stats <*> np_size <*> np_runningSpeed <*> np_walkingSpeed <*> np_aggroRadius
  <*> np_materials <*> np_tints <*> np_primaryModelId <*> np_secondaryModelId <*> np_bodyType <*> np_primaryMessageSkill <*>
  np_secondaryMessageSkill <*> np_swingsPerRound <*> np_minDamage <*> np_maxDamage)%fields.

Definition Class_Warrior : Z := 1.
Definition Race_Human : Z := 1.
Definition Gender_Neuter : Z := 2.
Definition Skill_HandToHand : Z := 28.

(** 4.0f, 0.7f, 0.46f and 50.0f. *)
Definition f_4 : Z := 0x40800000.
Definition f_0_7 : Z := 0x3f333333.
Definition f_0_46 : Z := 0x3eeb851f.
Definition f_50 : Z := 0x42480000.

Definition npc_proto_create : NpcPrototype :=
  mkProto None None 0 1 Class_Warrior Gender_Neuter 0 Race_Human 0 0 (no_stats <| maxHp := 10 |>) f_4 f_0_7 f_0_46 f_50
    (replicate 7 0) (replicate 7 0) 0 0 0 Skill_HandToHand Skill_HandToHand 1 1 2.

(** *** Names *)

(** The name with an underscore for every space; the same string when there
    is none. *)
Fixpoint npc_proto_determine_client_friendly_name (name : list Z) : list Z :=
  match name with
  | [] => []
  | c :: name => (if c =? 32 then 95 else c) :: npc_proto_determine_client_friendly_name name
  end.

Definition npc_proto_set_name (str : option (list Z)) (proto : NpcPrototype) : NpcPrototype :=
  match str with
  | Some name => proto <| np_name := Some name |> <| np_clientFriendlyName := Some (npc_proto_determine_client_friendly_name name)
  |>
  | None => proto <| np_name := None |> <| np_clientFriendlyName := None |>
  end.

(** *** Other fields *)
Definition set_stats (f : Stats → Stats) (proto : NpcPrototype) : NpcPrototype := proto <| np_stats := f (np_stats proto) |>.

Definition npc_proto_set_level (level : Z) (proto : NpcPrototype) : NpcPrototype :=
  proto <| np_level := if level =? 0 then 1 else level |>.
Definition npc_proto_set_gender (gender : Z) (proto : NpcPrototype) : NpcPrototype :=
  proto <| np_gender := if Gender_Neuter <? gender then Gender_Neuter else gender |>.
Definition npc_proto_set_adhoc_id (v : Z) (proto : NpcPrototype) : NpcPrototype := proto <| np_adHocId := v |>.
Definition npc_proto_set_class (v : Z) (proto : NpcPrototype) : NpcPrototype := proto <| np_class := v |>.
Definition npc_proto_set_race (v : Z) (proto : NpcPrototype) : NpcPrototype := proto <| np_race := v |>.
Definition npc_proto_set_face (v : Z) (proto : NpcPrototype) : NpcPrototype := proto <| np_face := v |>.
Definition npc_proto_set_body_type (v : Z) (proto : NpcPrototype) : NpcPrototype := proto <| np_bodyType := v |>.
Definition npc_proto_set_texture (v : Z) (proto : NpcPrototype) : NpcPrototype := proto <| np_texture := v |>.
Definition npc_proto_set_helm_texture (v : Z) (proto : NpcPrototype) : NpcPrototype := proto <| np_helmTexture := v |>.
Definition npc_proto_set_max_hp (v : Z) (proto : NpcPrototype) : NpcPrototype := set_stats (λ s, s <| maxHp := v |>) proto.
Definition npc_proto_set_max_mana (v : Z) (proto : NpcPrototype) : NpcPrototype := set_stats (λ s, s <| maxMana := v |>) proto.
Definition npc_proto_set_max_endurance (v : Z) (proto : NpcPrototype) : NpcPrototype := set_stats (λ s, s <| maxEndurance := v |>)
  proto.
Definition npc_proto_set_size (v : Z) (proto : NpcPrototype) : NpcPrototype := proto <| np_size := v |>.
Definition npc_proto_set_running_speed (v : Z) (proto : NpcPrototype) : NpcPrototype := proto <| np_runningSpeed := v |>.
Definition npc_proto_set_walking_speed (v : Z) (proto : NpcPrototype) : NpcPrototype := proto <| np_walkingSpeed := v |>.
Definition npc_proto_set_aggro_radius (v : Z) (proto : NpcPrototype) : NpcPrototype := proto <| np_aggroRadius := v |>.
Definition npc_proto_set_material (slot materialId : Z) (proto : NpcPrototype) : NpcPrototype :=
  if 7 <=? slot then proto else proto <| np_materials := <[Z.to_nat slot := materialId]> (np_materials proto) |>.
Definition npc_proto_set_tint (slot red green blue : Z) (proto : NpcPrototype) : NpcPrototype :=
  if 7 <=? slot then proto
  else proto <| np_tints := <[Z.to_nat slot := Z.lor (Z.lor red (Z.shiftl green 8)) (Z.shiftl blue 16)]> (np_tints proto) |>.
Definition npc_proto_set_primary_model_id (v : Z) (proto : NpcPrototype) : NpcPrototype := proto <| np_primaryModelId := v |>.
Definition npc_proto_set_secondary_model_id (v : Z) (proto : NpcPrototype) : NpcPrototype := proto <| np_secondaryModelId := v |>.
Definition npc_proto_set_primary_message_skill (v : Z) (proto : NpcPrototype) : NpcPrototype := proto <| np_primaryMessageSkill :=
  v |>.
Definition npc_proto_set_secondary_message_skill (v : Z) (proto : NpcPrototype) : NpcPrototype := proto <|
  np_secondaryMessageSkill := v |>.
Definition npc_proto_set_swings_per_round (v : Z) (proto : NpcPrototype) : NpcPrototype := proto <| np_swingsPerRound := v |>.
Definition npc_proto_set_melee_damage (minDmg maxDmg : Z) (proto : NpcPrototype) : NpcPrototype :=
  proto <| np_minDamage := minDmg |> <| np_maxDamage := maxDmg |>.
(** The stats' AC is an int. *)
Definition npc_proto_set_ac (ac : Z) (proto : NpcPrototype) : NpcPrototype := set_stats (λ s, s <| AC := i32 ac |>) proto.
Definition npc_proto_set_str (v : Z) (proto : NpcPrototype) : NpcPrototype := set_stats (λ s, s <| STR := v |>) proto.
Definition npc_proto_set_sta (v : Z) (proto : NpcPrototype) : NpcPrototype := set_stats (λ s, s <| STA := v |>) proto.
Definition npc_proto_set_dex (v : Z) (proto : NpcPrototype) : NpcPrototype := set_stats (λ s, s <| DEX := v |>) proto.
Definition npc_proto_set_agi (v : Z) (proto : NpcPrototype) : NpcPrototype := set_stats (λ s, s <| AGI := v |>) proto.
Definition npc_proto_set_wis (v : Z) (proto : NpcPrototype) : NpcPrototype := set_stats (λ s, s <| WIS := v |>) proto.
Definition npc_proto_set_int (v : Z) (proto : NpcPrototype) : NpcPrototype := set_stats (λ s, s <| INT := v |>) proto.
Definition npc_proto_set_cha (v : Z) (proto : NpcPrototype) : NpcPrototype := set_stats (λ s, s <| CHA := v |>) proto.
Definition npc_proto_set_sv_magic (v : Z) (proto : NpcPrototype) : NpcPrototype := set_stats (λ s, s <| svMagic := v |>) proto.
Definition npc_proto_set_sv_fire (v : Z) (proto : NpcPrototype) : NpcPrototype := set_stats (λ s, s <| svFire := v |>) proto.
Definition npc_proto_set_sv_cold (v : Z) (proto : NpcPrototype) : NpcPrototype := set_stats (λ s, s <| svCold := v |>) proto.
Definition npc_proto_set_sv_poison (v : Z) (proto : NpcPrototype) : NpcPrototype := set_stats (λ s, s <| svPoison := v |>) proto.
Definition npc_proto_set_sv_disease (v : Z) (proto : NpcPrototype) : NpcPrototype := set_stats (λ s, s <| svDisease := v |>) proto.

Definition npc_proto_get_material (proto : NpcPrototype) (slot : Z) : Z :=
  if 7 <=? slot then 0 else default 0 (np_materials proto !! Z.to_nat slot).
Definition npc_proto_get_tint (proto : NpcPrototype) (slot : Z) : Z :=
  if 7 <=? slot then 0 else default 0 (np_tints proto !! Z.to_nat slot).

Record Mob := mkMob {
  m_mobType : Z;
  m_entityId : Z;   (* int *)
  m_zoneMobIndex : Z;   (* int *)
  m_level : Z;
  m_class : Z;
  m_baseRace : Z;
  m_currentRace : Z;
  m_baseGender : Z;
  m_currentGender : Z;
  m_face : Z;
  m_uprightState : Z;
  m_lightLevel : Z;
  m_texture : Z;
  m_helmTexture : Z;
  m_deity : Z;
  m_x : Z;   (* floats *)
  m_y : Z;
  m_z : Z;
  m_heading : Z;
  m_headingRaw : Z;
  m_currentHp : Z;   (* int64_t *)
  m_currentMana : Z;
  m_currentEndurance : Z;
  m_currentStats : Stats;
  m_baseStats : Stats;
  m_currentWalkingSpeed : Z;   (* floats *)
  m_currentRunningSpeed : Z;
  m_baseWalkingSpeed : Z;
  m_baseRunningSpeed : Z;
  m_currentSize : Z;
  m_baseSize : Z;
  m_bodyType : Z;
  m_invisibilityLevel : Z;
  m_seeInvisLevel : Z;
  m_invisVsBodyTypeBitfields : Z;
  m_ownerEntityId : Z;   (* int *)
  m_primaryModelId : Z;
  m_secondaryModelId : Z;
  m_materials : list Z;   (* 7 *)
  m_tints : list Z;   (* 7 *)
  m_name : option (list Z);
  m_clientFriendlyName : option (list Z);
  m_zone : option nat;
  m_zoneCluster : bool;   (* not NULL *)
}.
#[export] Instance Mob_settable : Settable Mob :=
  (built mkMob <*> m_mobType <*> m_entityId <*> m_zoneMobIndex <*> m_level <*> m_class <*> m_baseRace <*> m_currentRace <*>
  m_baseGender <*> m_currentGender <*> m_face <*> m_uprightState <*> m_lightLevel <*> m_texture <*> m_helmTexture <*> m_deity <*>
  m_x <*> m_y <*> m_z <*> m_heading <*> m_headingRaw <*> m_currentHp <*> m_currentMana <*> m_currentEndurance <*> m_currentStats
  <*> m_baseStats <*> m_currentWalkingSpeed <*> m_currentRunningSpeed <*> m_baseWalkingSpeed <*> m_baseRunningSpeed <*>
  m_currentSize <*> m_baseSize <*> m_bodyType <*> m_invisibilityLevel <*> m_seeInvisLevel <*> m_invisVsBodyTypeBitfields <*>
  m_ownerEntityId <*> m_primaryModelId <*> m_secondaryModelId <*> m_materials <*> m_tints <*> m_name <*> m_clientFriendlyName <*>
  m_zone <*> m_zoneCluster)%fields.

(** memset to 0. *)
Definition no_mob : Mob :=
  mkMob 0 0 0 0 0 0 0 0 0 0 0 0 0 0 0 0 0 0 0 0 0 0 0 no_stats no_stats 0 0 0 0 0 0 0 0 0 0 0 0 0 (replicate 7 0) (replicate 7 0)
  None None None false.

Definition MobType_Npc : Z := 0.
Definition MobType_Client : Z := 1.
Definition MobType_Pet : Z := 2.
Definition MobType_NpcCorpse : Z := 3.
Definition MobType_ClientCorpse : Z := 4.
Definition Trilogy_UprightState_Standing : Z := 100.
Definition BodyType_Humanoid : Z := 1.
Definition BodyType_Undead : Z := 3.
Definition BodyType_Animal : Z := 21.

(** ** Creation *)
Definition mob_init_npc (zone : nat) (proto : NpcPrototype) (x y z heading : Z) (mob : Mob) : Mob :=
  let mob := mob <| m_mobType := MobType_Npc |> <| m_zoneMobIndex := -1 |> <| m_level := np_level proto |>
    <| m_class := np_class proto |> <| m_baseRace := np_race proto |> <| m_currentRace := np_race proto |>
    <| m_baseGender := np_gender proto |> <| m_currentGender := np_gender proto |> <| m_face := np_face proto |>
    <| m_uprightState := Trilogy_UprightState_Standing |> <| m_texture := np_texture proto |>
    <| m_helmTexture := np_helmTexture proto |> <| m_x := x |> <| m_y := y |> <| m_z := z |> <| m_heading := heading |> in
  let baseStats := if maxHp (np_stats proto) <=? 0 then np_stats proto <| maxHp := 1 |> else np_stats proto in
  mob <| m_baseStats := baseStats |> <| m_currentHp := maxHp baseStats |> <| m_currentMana := maxMana baseStats |>
    <| m_currentEndurance := maxEndurance baseStats |> <| m_currentStats := baseStats |>
    <| m_currentWalkingSpeed := np_walkingSpeed proto |> <| m_baseWalkingSpeed := np_walkingSpeed proto |>
    <| m_currentRunningSpeed := np_runningSpeed proto |> <| m_baseRunningSpeed := np_runningSpeed proto |>
    <| m_currentSize := np_size proto |> <| m_baseSize := np_size proto |> <| m_bodyType := np_bodyType proto |>
    <| m_name := np_name proto |> <| m_clientFriendlyName := np_clientFriendlyName proto |>
    <| m_zone := Some zone |> <| m_zoneCluster := true |>.

(** [name] is the character name of the zoning request. *)
Definition mob_init_client (zone : nat) (name : list Z) (mob : Mob) : Mob :=
  let stats := m_currentStats mob <| maxHp := 100 |> <| maxMana := 100 |> <| maxEndurance := 100 |> in
  mob <| m_mobType := MobType_Client |> <| m_zoneMobIndex := -1 |> <| m_uprightState := Trilogy_UprightState_Standing |>
    <| m_texture := 0xff |> <| m_helmTexture := 0xff |> <| m_currentStats := stats |>
    <| m_currentWalkingSpeed := f_0_46 |> <| m_currentRunningSpeed := f_0_7 |> <| m_baseWalkingSpeed := f_0_46 |>
    <| m_baseRunningSpeed := f_0_7 |> <| m_currentSize := f_4 |> <| m_baseSize := f_4 |> <| m_bodyType := BodyType_Humanoid |>
    <| m_name := Some name |> <| m_zone := Some zone |> <| m_zoneCluster := true |>.

(** npc.c *)
Definition npc_create (zone : nat) (proto : NpcPrototype) (x y z heading : Z) : Mob := mob_init_npc zone proto x y z heading no_mob.

(** ** Fields *)
Definition mob_entity_id (mob : Mob) : Z := m_entityId mob.
Definition mob_get_type (mob : Mob) : Z := m_mobType mob.
Definition mob_level (mob : Mob) : Z := m_level mob.
Definition mob_class (mob : Mob) : Z := m_class mob.
Definition mob_base_race (mob : Mob) : Z := m_baseRace mob.
Definition mob_current_race (mob : Mob) : Z := m_currentRace mob.
Definition mob_base_gender (mob : Mob) : Z := m_baseGender mob.
Definition mob_current_gender (mob : Mob) : Z := m_currentGender mob.
Definition mob_face (mob : Mob) : Z := m_face mob.
Definition mob_deity (mob : Mob) : Z := m_deity mob.
Definition mob_x (mob : Mob) : Z := m_x mob.
Definition mob_y (mob : Mob) : Z := m_y mob.
Definition mob_z (mob : Mob) : Z := m_z mob.
Definition mob_heading (mob : Mob) : Z := m_heading mob.
Definition mob_current_hp (mob : Mob) : Z := m_currentHp mob.
Definition mob_current_mana (mob : Mob) : Z := m_currentMana mob.
Definition mob_current_endurance (mob : Mob) : Z := m_currentEndurance mob.
Definition mob_current_walking_speed (mob : Mob) : Z := m_currentWalkingSpeed mob.
Definition mob_base_walking_speed (mob : Mob) : Z := m_baseWalkingSpeed mob.
Definition mob_current_running_speed (mob : Mob) : Z := m_currentRunningSpeed mob.
Definition mob_base_running_speed (mob : Mob) : Z := m_baseRunningSpeed mob.
Definition mob_current_size (mob : Mob) : Z := m_currentSize mob.
Definition mob_base_size (mob : Mob) : Z := m_baseSize mob.
Definition mob_body_type (mob : Mob) : Z := m_bodyType mob.
Definition mob_upright_state (mob : Mob) : Z := m_uprightState mob.
Definition mob_light_level (mob : Mob) : Z := m_lightLevel mob.
Definition mob_texture (mob : Mob) : Z := m_texture mob.
Definition mob_helm_texture (mob : Mob) : Z := m_helmTexture mob.
Definition mob_name_cstr (mob : Mob) : list Z := default [] (m_name mob).
Definition mob_client_friendly_name_cstr (mob : Mob) : list Z := default (mob_name_cstr mob) (m_clientFriendlyName mob).
Definition mob_max_hp (mob : Mob) : Z := maxHp (m_currentStats mob).
Definition mob_max_mana (mob : Mob) : Z := maxMana (m_currentStats mob).
Definition mob_max_endurance (mob : Mob) : Z := maxEndurance (m_currentStats mob).
Definition mob_cur_str (mob : Mob) : Z := STR (m_currentStats mob).
Definition mob_base_str (mob : Mob) : Z := STR (m_baseStats mob).
Definition mob_set_base_str (v : Z) (mob : Mob) : Mob := mob <| m_baseStats := m_baseStats mob <| STR := v |> |>.
Definition mob_cur_sta (mob : Mob) : Z := STA (m_currentStats mob).
Definition mob_base_sta (mob : Mob) : Z := STA (m_baseStats mob).
Definition mob_set_base_sta (v : Z) (mob : Mob) : Mob := mob <| m_baseStats := m_baseStats mob <| STA := v |> |>.
Definition mob_cur_dex (mob : Mob) : Z := DEX (m_currentStats mob).
Definition mob_base_dex (mob : Mob) : Z := DEX (m_baseStats mob).
Definition mob_set_base_dex (v : Z) (mob : Mob) : Mob := mob <| m_baseStats := m_baseStats mob <| DEX := v |> |>.
Definition mob_cur_agi (mob : Mob) : Z := AGI (m_currentStats mob).
Definition mob_base_agi (mob : Mob) : Z := AGI (m_baseStats mob).
Definition mob_set_base_agi (v : Z) (mob : Mob) : Mob := mob <| m_baseStats := m_baseStats mob <| AGI := v |> |>.
Definition mob_cur_int (mob : Mob) : Z := INT (m_currentStats mob).
Definition mob_base_int (mob : Mob) : Z := INT (m_baseStats mob).
Definition mob_set_base_int (v : Z) (mob : Mob) : Mob := mob <| m_baseStats := m_baseStats mob <| INT := v |> |>.
Definition mob_cur_wis (mob : Mob) : Z := WIS (m_currentStats mob).
Definition mob_base_wis (mob : Mob) : Z := WIS (m_baseStats mob).
Definition mob_set_base_wis (v : Z) (mob : Mob) : Mob := mob <| m_baseStats := m_baseStats mob <| WIS := v |> |>.
Definition mob_cur_cha (mob : Mob) : Z := CHA (m_currentStats mob).
Definition mob_base_cha (mob : Mob) : Z := CHA (m_baseStats mob).
Definition mob_set_base_cha (v : Z) (mob : Mob) : Mob := mob <| m_baseStats := m_baseStats mob <| CHA := v |> |>.
Definition mob_set_base_walking_speed (v : Z) (mob : Mob) : Mob := mob <| m_currentWalkingSpeed := v |> <| m_baseWalkingSpeed := v
  |>.
Definition mob_set_base_running_speed (v : Z) (mob : Mob) : Mob := mob <| m_currentRunningSpeed := v |> <| m_baseRunningSpeed := v
  |>.

(** The percentage, as an int8_t. The product overflows an int64_t and the
    division is by zero where C leaves the result undefined. *)
Definition mob_hp_ratio (mob : Mob) : outcome Z :=
  let p := m_currentHp mob * 100 in
  if (p <? - 2 ^ 63) || (2 ^ 63 <=? p) || (maxHp (m_currentStats mob) =? 0) then Fault
  else Ok (i8 (p ÷ maxHp (m_currentStats mob))).

(** ** Invisibility *)
Definition invisible_vs (mob : Mob) (bodyType : Z) : Z := Z.land (m_invisVsBodyTypeBitfields mob) (Z.shiftl 1 (bodyType - 1)).
Definition mob_is_invisible (mob : Mob) : Z := invisible_vs mob BodyType_Humanoid.
Definition mob_is_invisible_vs_undead (mob : Mob) : Z := invisible_vs mob BodyType_Undead.
Definition mob_is_invisible_vs_animals (mob : Mob) : Z := invisible_vs mob BodyType_Animal.
Definition mob_is_invisible_to_mob (self target : Mob) : bool :=
  let bodyType := mob_body_type target in
  let isInvis := if (bodyType =? 0) || (32 <=? bodyType) then mob_is_invisible self else invisible_vs self bodyType in
  negb (isInvis =? 0) && (m_seeInvisLevel target <? m_invisibilityLevel self).

(** ** The percentage of hit points *)

(** Between no and all hit points it is between 0 and 100, and grows with them. *)
Lemma hp_ratio_ok mob : 0 ≤ m_currentHp mob ≤ maxHp (m_currentStats mob) → 0 < maxHp (m_currentStats mob) < 2 ^ 56 →
  mob_hp_ratio mob = Ok (m_currentHp mob * 100 / maxHp (m_currentStats mob)) ∧
  0 ≤ m_currentHp mob * 100 / maxHp (m_currentStats mob) ≤ 100.
Proof.
  intros Hh Hm. unfold mob_hp_ratio. set (h := m_currentHp mob) in *. set (m := maxHp (m_currentStats mob)) in *.
  assert (Hr : 0 ≤ h * 100 / m ≤ 100) by (split; [apply Z.div_pos; lia|apply Z.div_le_upper_bound; lia]).
  split; [|done]. rewrite (proj2 (Z.ltb_ge (h * 100) _)), (proj2 (Z.leb_gt _ (h * 100))), (proj2 (Z.eqb_neq m 0)) by lia. simpl.
  rewrite Z.quot_div_nonneg by lia. f_equal. apply sint_small; [done|]. change (2 ^ (8 - 1)) with 128. lia.
Qed.
