(* ===== verification/Inventory.v ===== *)
(** A client's items: zone_cluster/mob/inventory.c, with the fields of items
    that mob/item.c creates.

    An item belongs to one slot, so the slot holds it by value; its prototype
    is an address. *)

From S2P Require Import Prelude.

Record Item := mkItem { it_prototype : nat; it_charges : Z; it_stackAmount : Z; it_isBag : bool; it_isCustomized : bool }.

Definition item_create (proto : nat) (charges stackAmount : Z) : Item := mkItem proto charges stackAmount false false.
Definition item_get_prototype (item : Item) : nat := it_prototype item.
Definition item_get_charges (item : Item) : Z := it_charges item.
Definition item_get_stack_amount (item : Item) : Z := it_stackAmount item.
Definition item_is_bag (item : Item) : bool := it_isBag item.

(** [copy] is what item_proto_copy returns. *)
Definition item_get_prototype_for_editing (copy : nat) (item : Item) : nat * Item :=
  if it_isCustomized item then (it_prototype item, item)
  else (copy, mkItem copy (it_charges item) (it_stackAmount item) (it_isBag item) true).

Record InventorySlot := mkSlot { slotId : Z; augSlotId : Z; itemId : Z; item : option Item }.

Record Inventory := mkInventory {
  primaryIndex : Z;
  secondaryIndex : Z;
  rangeIndex : Z;
  ammoIndex : Z;
  slots : list InventorySlot;
  cursorQueue : option (list InventorySlot);
}.

(** The enum InvSlot. *)
Definition InvSlot_Charm : Z := 0.
Definition InvSlot_Ear1 : Z := 1.
Definition InvSlot_Range : Z := 11.
Definition InvSlot_Primary : Z := 13.
Definition InvSlot_Secondary : Z := 14.
Definition InvSlot_Ammo : Z := 21.
Definition InvSlot_Cursor : Z := 30.
Definition InvSlot_EquipMainAndCursorNoCharmBegin : Z := InvSlot_Ear1.
Definition InvSlot_EquipMainAndCursorNoCharmEnd : Z := InvSlot_Cursor.
Definition InvSlot_BagsSlotsIncludingCursorBegin : Z := 251.
Definition InvSlot_BagsSlotsIncludingCursorEnd : Z := 340.
Definition InvSlot_BankBegin : Z := 2000.
Definition InvSlot_BankEnd : Z := 2007.
Definition InvSlot_BankBagSlotsBegin : Z := 2031.
Definition InvSlot_BankBagSlotsEnd : Z := 2111.

Definition inventory_init : Inventory := mkInventory (-1) (-1) (-1) (-1) [mkSlot InvSlot_Cursor 0 0 None] None.

Definition inventory_add_to_cursor_queue_from_database (slot : InventorySlot) (inv : Inventory) : Inventory :=
  mkInventory (primaryIndex inv) (secondaryIndex inv) (rangeIndex inv) (ammoIndex inv) (slots inv)
    (Some (default [] (cursorQueue inv) ++ [slot])).

Definition inventory_add_from_database (slot : InventorySlot) (inv : Inventory) : outcome Inventory :=
  let push :=
    let count := i32 (Z.of_nat (length (slots inv))) in
    let rangeIndex := if slotId slot =? InvSlot_Range then count else rangeIndex inv in
    let primaryIndex := if slotId slot =? InvSlot_Primary then count else primaryIndex inv in
    let secondaryIndex := if slotId slot =? InvSlot_Secondary then count else secondaryIndex inv in
    Ok (mkInventory primaryIndex secondaryIndex rangeIndex (ammoIndex inv) (slots inv ++ [slot]) (cursorQueue inv)) in
  if slotId slot =? InvSlot_Cursor then
    cursor ← deref (slots inv !! 0%nat);
    if negb (itemId cursor =? 0) then Ok (inventory_add_to_cursor_queue_from_database slot inv) else push
  else push.

(** ** Iteration *)
Record InventoryIterator := mkItr { index : nat; slotFrom : Z; slotTo : Z }.

Definition inventory_iterator_init (slotFrom slotTo : Z) : InventoryIterator :=
  if slotTo <? slotFrom then mkItr 0 slotTo slotFrom else mkItr 0 slotFrom slotTo.

Definition in_range (from to : Z) (slot : InventorySlot) : bool :=
  (from <=? slotId slot) && (slotId slot <=? to) && negb (itemId slot =? 0) && (augSlotId slot =? 0).

(** The loop from position [i] on: the next slot and its position. *)
Fixpoint find_slot (l : list InventorySlot) (i : nat) (from to : Z) : option (nat * InventorySlot) :=
  match l with
  | [] => None
  | slot :: l => if in_range from to slot then Some (i, slot) else find_slot l (S i) from to
  end.

(** The slot, and the iterator behind it; or the end. *)
Definition inventory_iterate_no_augs (inv : Inventory) (itr : InventoryIterator) : option (InventorySlot * InventoryIterator) :=
  match find_slot (drop (index itr) (slots inv)) (index itr) (slotFrom itr) (slotTo itr) with
  | Some (i, slot) => Some (slot, mkItr (S i) (slotFrom itr) (slotTo itr))
  | None => None
  end.

(** A loop [while (inventory_iterate_no_augs(inv, &itr))] over a state. *)
Fixpoint while_slots {S} (fuel : nat) (inv : Inventory) (itr : InventoryIterator) (body : InventorySlot → code S unit) : code S unit :=
  match fuel with
  | O => fault
  | S fuel =>
      match inventory_iterate_no_augs inv itr with
      | Some (slot, itr) => body slot ;; while_slots fuel inv itr body
      | None => mret tt
      end
  end.
Definition for_slots {S} (inv : Inventory) (from to : Z) (body : InventorySlot → code S unit) : code S unit :=
  while_slots (1 + length (slots inv)) inv (inventory_iterator_init from to) body.

(** ** The loop visits the slots of its range, in order *)
Lemma find_slot_ok l i from to :
  match find_slot l i from to with
  | Some (j, slot) => (i ≤ j)%nat ∧ l !! (j - i)%nat = Some slot ∧ filter (in_range from to) l = slot :: filter (in_range from to) (drop (S j - i) l)
  | None => filter (in_range from to) l = []
  end.
Proof.
  revert i. induction l as [|slot l IH]; intros i; [done|]. cbn [find_slot]. destruct (in_range from to slot) eqn:Hs.
  - replace (S i - i)%nat with 1%nat by lia. rewrite Nat.sub_diag. split; [done|]. split; [done|].
    rewrite filter_cons_True by (rewrite Hs; exact I). done.
  - specialize (IH (S i)). rewrite filter_cons_False by (rewrite Hs; exact (λ f, f)).
    destruct (find_slot l (S i) from to) as [[j s]|]; [|done]. destruct IH as (Hj & Hl & Hf).
    split; [lia|]. replace (j - i)%nat with (S (j - S i)) by lia. replace (S j - i)%nat with (S (S j - S i)) by lia. done.
Qed.

Lemma while_slots_ok {S} inv (body : InventorySlot → code S unit) fuel itr : (length (slots inv) - index itr < fuel)%nat →
  ∀ s, while_slots fuel inv itr body s =
    each (filter (in_range (slotFrom itr) (slotTo itr)) (drop (index itr) (slots inv))) body s.
Proof.
  revert itr. induction fuel as [|fuel IH]; intros itr Hf s; [lia|]. cbn [while_slots]. unfold inventory_iterate_no_augs.
  pose proof (find_slot_ok (drop (index itr) (slots inv)) (index itr) (slotFrom itr) (slotTo itr)) as H.
  destruct (find_slot _ _ _ _) as [[j slot]|]; [|by rewrite H].
  destruct H as (Hj & Hl & ->). cbn [each]. rewrite lookup_drop in Hl. apply lookup_lt_Some in Hl.
  unfold mbind, code_bind. destruct (body slot s) as [[[]|e|] s']; [|done..].
  rewrite IH by (simpl; lia). cbn [index slotFrom slotTo]. rewrite drop_drop.
  by replace (index itr + (Datatypes.S j - index itr))%nat with (Datatypes.S j) by lia.
Qed.

Lemma for_slots_ok {S} inv from to (body : InventorySlot → code S unit) s : from ≤ to →
  for_slots inv from to body s = each (filter (in_range from to) (slots inv)) body s.
Proof.
  intros Hft. unfold for_slots, inventory_iterator_init. rewrite (proj2 (Z.ltb_ge to from)) by lia.
  rewrite while_slots_ok by (simpl; lia). done.
Qed.

(** ** Loading *)
Definition load_inventory (rows : list InventorySlot) : outcome Inventory :=
  fold_left (λ inv row, inv ≫= inventory_add_from_database row) rows (Ok inventory_init).

(** The position of the last row for a slot, behind the cursor's slot. *)
Fixpoint last_index (id : Z) (rows : list InventorySlot) (i found : Z) : Z :=
  match rows with
  | [] => found
  | row :: rows => last_index id rows (i + 1) (if slotId row =? id then i else found)
  end.

Lemma last_index_app id rows rows' i found :
  last_index id (rows ++ rows') i found = last_index id rows' (i + Z.of_nat (length rows)) (last_index id rows i found).
Proof.
  revert i found. induction rows as [|row rows IH]; intros i found; simpl; [by rewrite Z.add_0_r|].
  rewrite IH. f_equal. lia.
Qed.

Lemma load_inventory_ok rows : Z.of_nat (length rows) < 2 ^ 31 - 1 →
  load_inventory rows = Ok (mkInventory (last_index InvSlot_Primary rows 1 (-1)) (last_index InvSlot_Secondary rows 1 (-1))
    (last_index InvSlot_Range rows 1 (-1)) (-1) (mkSlot InvSlot_Cursor 0 0 None :: rows) None).
Proof.
  induction rows as [|row rows IH] using rev_ind; [done|]. intros Hl. rewrite length_app in Hl. simpl in Hl.
  unfold load_inventory in *. rewrite fold_left_app, IH by lia. cbn [fold_left]. unfold inventory_add_from_database. run.
  cbn [slots primaryIndex secondaryIndex rangeIndex ammoIndex cursorQueue lookup list_lookup itemId length].
  replace (i32 (Z.of_nat (S (length rows)))) with (1 + Z.of_nat (length rows)) by (rewrite sint_small; lia).
  rewrite !last_index_app. cbn [last_index Z.eqb negb]. by destruct (slotId row =? InvSlot_Cursor).
Qed.

Lemma last_index_spec id rows i : 0 ≤ i →
  match last_index id rows i (-1) with
  | -1 => Forall (λ row, slotId row ≠ id) rows
  | j => ∃ row, i ≤ j ∧ rows !! Z.to_nat (j - i) = Some row ∧ slotId row = id
  end.
Proof.
  intros Hi. induction rows as [|row rows IH] using rev_ind; [constructor|]. rewrite last_index_app. cbn [last_index].
  destruct (Z.eqb_spec (slotId row) id) as [<-|Hne].
  - destruct (i + Z.of_nat (length rows)) as [|p|p] eqn:Hj; [|..|lia].
    + exists row. split; [lia|]. by rewrite list_lookup_middle by lia.
    + exists row. split; [lia|]. by rewrite list_lookup_middle by lia.
  - destruct (last_index id rows i (-1)) as [|p|[p|p|]] eqn:Hj;
      try (destruct IH as (r & Hr & Hl & He); exists r; split_and!; [done| |done]; by apply lookup_app_l_Some).
    apply Forall_app. by rewrite Forall_singleton.
Qed.
