(* ===== verification/Skills.v ===== *)
(** A client's skills and languages (zone_cluster/mob/skills.c) and its
    spellbook (zone_cluster/mob/spellbook.c). *)

From S2P Require Import Prelude.

(** ** Skills *)
Definition Skill_COUNT : Z := 74.
Definition Lang_COUNT : Z := 24.
Definition EQP_DB_LANGUAGE_SKILL_OFFSET : Z := 100.
Definition EQP_SKILL_MAX_VALUE : Z := 250.
Definition SKILL_CANT_LEARN : Z := 0xff.
Definition SKILL_HAVENT_TRAINED_YET : Z := 0xfe.

Definition Class_Shaman : Z := 10.
Definition Class_Monk : Z := 7.
Definition Class_Rogue : Z := 9.
Definition Class_Necromancer : Z := 11.
Definition Class_Enchanter : Z := 14.
Definition Class_Beastlord : Z := 15.
Definition Race_Gnome : Z := 12.
Definition Race_Iksar : Z := 124.

Definition Skill_1HBlunt : nat := 0.
Definition Skill_ApplyPoison : nat := 6.
Definition Skill_Backstab : nat := 8.
Definition Skill_BindWound : nat := 9.
Definition Skill_Block : nat := 11.
Definition Skill_Defense : nat := 15.
Definition Skill_DisarmTraps : nat := 17.
Definition Skill_DragonPunch : nat := 21.
Definition Skill_EagleStrike : nat := 23.
Definition Skill_FeignDeath : nat := 25.
Definition Skill_FlyingKick : nat := 26.
Definition Skill_HandToHand : nat := 28.
Definition Skill_Offense : nat := 33.
Definition Skill_PickLock : nat := 35.
Definition Skill_RoundKick : nat := 38.
Definition Skill_SenseHeading : nat := 40.
Definition Skill_PickPockets : nat := 48.
Definition Skill_Swimming : nat := 50.
Definition Skill_Throwing : nat := 51.
Definition Skill_TigerClaw : nat := 52.
Definition Skill_Fishing : nat := 55.
Definition Skill_MakePoison : nat := 56.
Definition Skill_Tinkering : nat := 57.
Definition Skill_Research : nat := 58.
Definition Skill_Alchemy : nat := 59.
Definition Skill_Baking : nat := 60.
Definition Skill_Tailoring : nat := 61.
Definition Skill_Blacksmithing : nat := 63.
Definition Skill_Fletching : nat := 64.
Definition Skill_Brewing : nat := 65.
Definition Skill_AlcoholTolerance : nat := 66.
Definition Skill_Begging : nat := 67.
Definition Skill_JewelryMaking : nat := 68.
Definition Skill_Pottery : nat := 69.

Record Skills := mkSkills { skill : list Z; language : list Z }.   (* 74 and 24 bytes *)

Definition put_skill (v : Z) (i : nat) (s : Skills) : Skills := mkSkills (<[i := v]> (skill s)) (language s).
Definition put_skills (v : Z) (l : list nat) (s : Skills) : Skills := fold_left (λ s i, put_skill v i s) l s.

Definition skillsThatDefaultToZeroUniversally : list nat :=
  [Skill_1HBlunt; Skill_BindWound; Skill_Defense; Skill_HandToHand; Skill_Offense; Skill_SenseHeading; Skill_Swimming;
   Skill_Throwing; Skill_Fishing; Skill_Baking; Skill_Tailoring; Skill_Blacksmithing; Skill_Fletching; Skill_Brewing;
   Skill_AlcoholTolerance; Skill_Begging; Skill_JewelryMaking; Skill_Pottery].

(** Of a client that was zeroed. *)
Definition skills_preinit : Skills :=
  put_skills 0 skillsThatDefaultToZeroUniversally
    (mkSkills (replicate (Z.to_nat Skill_COUNT) SKILL_HAVENT_TRAINED_YET) (100 :: replicate 23 0)).

Definition skills_init (class level race : Z) (s : Skills) : Skills :=
  let cant (c : bool) (l : list nat) (s : Skills) : Skills := if c then put_skills SKILL_CANT_LEARN l s else s in
  let s := cant (negb (class =? Class_Monk))
    [Skill_DragonPunch; Skill_EagleStrike; Skill_FeignDeath; Skill_FlyingKick; Skill_RoundKick; Skill_TigerClaw] s in
  let s := cant (negb (class =? Class_Rogue))
    [Skill_ApplyPoison; Skill_Backstab; Skill_DisarmTraps; Skill_PickLock; Skill_PickPockets; Skill_MakePoison] s in
  let s := cant (negb (class =? Class_Monk) && negb (class =? Class_Beastlord)) [Skill_Block] s in
  let s := cant ((class <? Class_Necromancer) || (Class_Enchanter <? class)) [Skill_Research] s in
  let s := cant (negb (class =? Class_Shaman)) [Skill_Alchemy] s in
  let s := cant (negb (race =? Race_Gnome)) [Skill_Tinkering] s in
  if race =? Race_Iksar then put_skill 100 Skill_Swimming s else s.

(** After the language the function goes on to the skills. A skill id past the
    array is undefined. *)
Definition skills_set_from_db (skillId value : Z) (s : Skills) : outcome Skills :=
  let set (id : Z) (s : Skills) : outcome Skills :=
    if Skill_COUNT <=? id then Fault else Ok (put_skill (u8 value) (Z.to_nat id) s) in
  if EQP_DB_LANGUAGE_SKILL_OFFSET <=? skillId then
    let id := skillId - EQP_DB_LANGUAGE_SKILL_OFFSET in
    if Lang_COUNT <=? id then Ok s
    else set id (mkSkills (skill s) (<[Z.to_nat id := u8 value]> (language s)))
  else set skillId s.

(** ** Spells *)
Definition EQP_MEMORIZED_SPELL_SLOTS : Z := 9.

Record SpellbookSlot := mkSpell { sp_slotId : Z; sp_spellId : Z }.
Record MemorizedSpell := mkMemorized { ms_spellId : Z; castingTimeMilliseconds : Z; recastTimestamp : Z }.

Record Spellbook := mkSpellbook {
  knownSpells : option (list SpellbookSlot);   (* NULL when there are none *)
  memorized : list MemorizedSpell;             (* 9 *)
}.
Definition no_spellbook : Spellbook := mkSpellbook None (replicate (Z.to_nat EQP_MEMORIZED_SPELL_SLOTS) (mkMemorized 0 0 0)).

Definition spellbook_add_from_database (slotId spellId : Z) (book : Spellbook) : Spellbook :=
  mkSpellbook (Some (default [] (knownSpells book) ++ [mkSpell slotId spellId])) (memorized book).

Definition spellbook_add_memorized_from_database (slotId spellId timestamp : Z) (book : Spellbook) : Spellbook :=
  if EQP_MEMORIZED_SPELL_SLOTS <=? slotId then book
  else mkSpellbook (knownSpells book) (<[Z.to_nat slotId := mkMemorized spellId 0 timestamp]> (memorized book)).

Definition spellbook_is_empty (book : Spellbook) : bool := bool_decide (knownSpells book = None).
Definition spellbook_array (book : Spellbook) : list SpellbookSlot := default [] (knownSpells book).
