(* ===== verification/ZoneClient.v ===== *)
(** The client of a zone: its data, what the database loads into it, and its
    small rules (zone_cluster/mob/client.c). Floats are the words that represent
    them; a column that is stored as a double is the float it is converted to. *)

From S2P Require Import Prelude Fields Mob Inventory Skills.

Record Coin := mkCoin { pp : Z; gp : Z; sp : Z; cp : Z }.
Definition no_coins : Coin := mkCoin 0 0 0 0.
Record Loc := mkLoc { loc_x : Z; loc_y : Z; loc_z : Z; loc_heading : Z }.
Record BindPoint := mkBind { b_zoneId : Z; b_instanceId : Z; b_loc : Loc }.
Definition no_bind_point : BindPoint := mkBind 0 0 (mkLoc 0 0 0 0).
Definition no_inventory : Inventory := mkInventory 0 0 0 0 [] None.
Definition no_skills : Skills := mkSkills (replicate 74 0) (replicate 24 0).

(** The bits of the union [loaded]. *)
Record Loaded := mkLoaded {
  l_connection : bool; l_stats : bool; l_inventory : bool; l_skills : bool; l_spellbook : bool; l_memmedSpells : bool;
  l_bindPoints : bool; l_unused : bool;
}.
#[export] Instance Loaded_settable : Settable Loaded :=
  (built mkLoaded <*> l_connection <*> l_stats <*> l_inventory <*> l_skills <*> l_spellbook <*> l_memmedSpells <*> l_bindPoints
  <*> l_unused)%fields.
Definition nothing_loaded : Loaded := mkLoaded false false false false false false false false.
(** loaded.total == 0xff *)
Definition all_loaded (l : Loaded) : bool :=
  l_connection l && l_stats l && l_inventory l && l_skills l && l_spellbook l && l_memmedSpells l && l_bindPoints l && l_unused l.

Record Client := mkClient {
  c_mob : Mob;
  c_handler : option nat;
  c_expansion : Z;
  c_refCount : Z;
  c_isStubClient : bool;
  c_isLocal : bool;
  c_isFromCharSelect : bool;
  c_isAutoSplitEnabled : bool;
  c_isPermanentlyPvP : bool;
  c_isCurrentlyPvP : bool;
  c_isGM : bool;
  c_isAfk : bool;
  c_isLinkdead : bool;
  c_isSneaking : bool;
  c_isHiding : bool;
  c_loaded : Loaded;
  c_anonSetting : Z;
  c_drunkeness : Z;
  c_zoneClientIndex : Z;   (* int *)
  c_inventory : Inventory;
  c_skills : Skills;
  c_spellbook : Spellbook;
  c_coins : Coin;
  c_coinsBank : Coin;
  c_coinsCursor : Coin;
  c_surname : option (list Z);
  c_guildRank : Z;
  c_guildId : Z;   (* int *)
  c_harmtouchTimestamp : Z;
  c_disciplineTimestamp : Z;
  c_hungerLevel : Z;
  c_thirstLevel : Z;
  c_trainingPoints : Z;
  c_experience : Z;   (* int64_t *)
  c_bindPoints : list BindPoint;   (* 5 *)
  c_characterId : Z;   (* int64_t *)
  c_creationTimestamp : Z;
  c_accountName : list Z;
  c_accountId : Z;
  c_ipAddress : Z;
}.
#[export] Instance Client_settable : Settable Client :=
  (built mkClient <*> c_mob <*> c_handler <*> c_expansion <*> c_refCount <*> c_isStubClient <*> c_isLocal <*> c_isFromCharSelect
  <*> c_isAutoSplitEnabled <*> c_isPermanentlyPvP <*> c_isCurrentlyPvP <*> c_isGM <*> c_isAfk <*> c_isLinkdead <*> c_isSneaking
  <*> c_isHiding <*> c_loaded <*> c_anonSetting <*> c_drunkeness <*> c_zoneClientIndex <*> c_inventory <*> c_skills <*>
  c_spellbook <*> c_coins <*> c_coinsBank <*> c_coinsCursor <*> c_surname <*> c_guildRank <*> c_guildId <*> c_harmtouchTimestamp
  <*> c_disciplineTimestamp <*> c_hungerLevel <*> c_thirstLevel <*> c_trainingPoints <*> c_experience <*> c_bindPoints <*>
  c_characterId <*> c_creationTimestamp <*> c_accountName <*> c_accountId <*> c_ipAddress)%fields.

(** memset to 0. *)
Definition no_client : Client :=
  mkClient no_mob None 0 0 false false false false false false false false false false false nothing_loaded 0 0 0 no_inventory
  no_skills no_spellbook no_coins no_coins no_coins None 0 0 0 0 0 0 0 0 (replicate 5 no_bind_point) 0 0 [] 0 0.

Definition ExpansionId_Unknown : Z := 0.
Definition ExpansionId_Trilogy : Z := 1.

(** Server_ClientZoning, with its strings up to their terminators. *)
Record ClientZoning := mkZoning {
  zn_accountId : Z; zn_ipAddress : Z; zn_characterId : Z; zn_isLocal : bool; zn_isFromCharSelect : bool; zn_accountName : list Z;
  zn_characterName : list Z;
}.

(** ** Creation *)
Definition client_create_unidentified_stub (handler : nat) (expansion now : Z) : Client :=
  no_client <| c_handler := Some handler |> <| c_expansion := expansion |> <| c_refCount := 1 |> <| c_isStubClient := true |>
    <| c_creationTimestamp := now |>.

(** What client_create sets up, before its queries. *)
Definition client_init (zone : nat) (zoning : ClientZoning) : Client :=
  no_client <| c_refCount := 1 |> <| c_mob := mob_init_client zone (zn_characterName zoning) no_mob |> <| c_inventory :=
  inventory_init |>
    <| c_skills := skills_preinit |> <| c_isLocal := zn_isLocal zoning |> <| c_isFromCharSelect := zn_isFromCharSelect zoning |>
    <| c_characterId := zn_characterId zoning |> <| c_accountName := zn_accountName zoning |> <| c_accountId := zn_accountId
    zoning |>
    <| c_ipAddress := zn_ipAddress zoning |>.

(** ** Loading

    A row of the character table, as client_load_stats_callback selects it:
    [coin_columns] are pp to cpBank. *)
Record StatsRow := mkStatsRow {
  sr_surname : option (list Z); sr_level : Z; sr_class : Z; sr_race : Z; sr_gender : Z; sr_face : Z; sr_deity : Z; sr_x : Z; sr_y
  : Z; sr_z : Z; sr_heading : Z;
  sr_currentHp : Z; sr_currentMana : Z; sr_currentEndurance : Z; sr_experience : Z; sr_trainingPoints : Z;
  sr_str : Z; sr_sta : Z; sr_dex : Z; sr_agi : Z; sr_int : Z; sr_wis : Z; sr_cha : Z; sr_guildId : Z; sr_guildRank : Z;
  sr_harmtouchTimestamp : Z; sr_disciplineTimestamp : Z; sr_coins : Coin; sr_coinsCursor : Coin; sr_coinsBank : Coin; sr_hunger :
  Z; sr_thirst : Z; sr_isGM : Z;
  sr_anon : Z; sr_drunkeness : Z; sr_creationTime : Z;
}.

Definition coin_of (c : Coin) : Coin := mkCoin (u32 (pp c)) (u32 (gp c)) (u32 (sp c)) (u32 (cp c)).

Definition load_mob (row : StatsRow) (mob : Mob) : Mob :=
  let mob := mob <| m_level := u8 (sr_level row) |> <| m_class := u8 (sr_class row) |> <| m_baseRace := u16 (sr_race row) |>
    <| m_currentRace := u16 (sr_race row) |> <| m_baseGender := u8 (sr_gender row) |> <| m_currentGender := u8 (sr_gender row) |>
    <| m_face := u8 (sr_face row) |> <| m_deity := u16 (sr_deity row) |> <| m_x := sr_x row |> <| m_y := sr_y row |> <| m_z :=
    sr_z row |>
    <| m_heading := sr_heading row |> <| m_currentHp := sr_currentHp row |> <| m_currentMana := sr_currentMana row |>
    <| m_currentEndurance := sr_currentEndurance row |> in
  mob_set_base_cha (sr_cha row) (mob_set_base_wis (sr_wis row) (mob_set_base_int (sr_int row) (mob_set_base_agi (sr_agi row)
    (mob_set_base_dex (sr_dex row) (mob_set_base_sta (sr_sta row) (mob_set_base_str (sr_str row) mob)))))).

Definition load_stats (row : StatsRow) (client : Client) : Client :=
  let client := match sr_surname row with Some s => client <| c_surname := Some s |> | None => client end in
  let mob := load_mob row (c_mob client) in
  client <| c_mob := mob |> <| c_experience := sr_experience row |> <| c_trainingPoints := u16 (sr_trainingPoints row) |>
    <| c_guildId := sr_guildId row |> <| c_guildRank := u8 (sr_guildRank row) |> <| c_harmtouchTimestamp := u64
    (sr_harmtouchTimestamp row) |>
    <| c_disciplineTimestamp := u64 (sr_disciplineTimestamp row) |> <| c_coins := coin_of (sr_coins row) |> <| c_coinsCursor :=
    coin_of (sr_coinsCursor row) |>
    <| c_coinsBank := coin_of (sr_coinsBank row) |> <| c_hungerLevel := u32 (sr_hunger row) |> <| c_thirstLevel := u32 (sr_thirst
    row) |>
    <| c_isGM := Z.testbit (sr_isGM row) 0 |> <| c_anonSetting := u8 (sr_anon row) |> <| c_drunkeness := u8 (sr_drunkeness row) |>
    <| c_creationTimestamp := u64 (sr_creationTime row) |>
    <| c_skills := skills_init (mob_class mob) (mob_level mob) (mob_base_race mob) (c_skills client) |>.

(** Running a list of rows through a step that can fail. *)
Definition load_rows {R A} (step : R → A → outcome A) (rows : list R) (a : outcome A) : outcome A :=
  fold_left (λ a row, a ≫= step row) rows a.

Definition load_skills (rows : list (Z * Z)) (client : Client) : outcome Client :=
  skills ← load_rows (λ row, skills_set_from_db (u32 row.1) (u32 row.2)) rows (Ok (c_skills client));
  Ok (client <| c_skills := skills |>).

(** A row of the inventory table: slot, aug slot, stack amount, charges, item. *)
Record InventoryRow := mkInvRow { ir_slotId : Z; ir_augSlotId : Z; ir_stackAmount : Z; ir_charges : Z; ir_itemId : Z }.

(** [proto] is zc_item_by_id. Rows of items that do not exist are left out. *)
Definition slot_of_row (proto : Z → option nat) (row : InventoryRow) : option InventorySlot :=
  match proto (u32 (ir_itemId row)) with
  | None => None
  | Some p => Some (mkSlot (u16 (ir_slotId row)) (u16 (ir_augSlotId row)) (u32 (ir_itemId row))
      (Some (item_create p (u16 (ir_charges row)) (u16 (ir_stackAmount row)))))
  end.
Definition load_items (proto : Z → option nat) (rows : list InventoryRow) (client : Client) : outcome Client :=
  inv ← load_rows (λ row inv, match slot_of_row proto row with Some slot => inventory_add_from_database slot inv | None => Ok inv
  end)
    rows (Ok (c_inventory client));
  Ok (client <| c_inventory := inv |>).

Definition load_spellbook (rows : list (Z * Z)) (client : Client) : Client :=
  client <| c_spellbook := fold_left (λ book row, spellbook_add_from_database (u32 row.1) (u32 row.2) book) rows (c_spellbook
  client) |>.

Definition load_memmed_spells (rows : list (Z * Z * Z)) (client : Client) : Client :=
  client <| c_spellbook :=
    fold_left (λ book row, spellbook_add_memorized_from_database (u32 row.1.1) (u32 row.1.2) (u64 row.2) book) rows (c_spellbook
    client) |>.

(** *** Bind points *)
Definition client_set_bind_point (bindId zoneId instId x y z heading : Z) (client : Client) : Client :=
  if 5 <=? bindId then client
  else client <| c_bindPoints := <[Z.to_nat bindId := mkBind (u16 zoneId) (u16 instId) (mkLoc x y z heading)]> (c_bindPoints
  client) |>.

(** [junk] is what the instance id of the local variable qeynos holds. *)
Definition client_fill_in_missing_bind_points (junk : Z) (client : Client) : Client :=
  let copyFrom := match filter (λ b, b_zoneId b ≠ 0) (c_bindPoints client) with
                  | b :: _ => b
                  | [] => mkBind 1 junk (mkLoc 0 0 0 0)
                  end in
  client <| c_bindPoints := (λ b, if b_zoneId b =? 0 then copyFrom else b) <$> c_bindPoints client |>.

Record BindRow := mkBindRow { br_bindId : Z; br_zoneId : Z; br_instId : Z; br_loc : Loc }.
Definition load_bind_points (junk : Z) (rows : list BindRow) (client : Client) : Client :=
  client_fill_in_missing_bind_points junk
    (fold_left (λ c row, client_set_bind_point (u32 (br_bindId row)) (br_zoneId row) (br_instId row) (loc_x (br_loc row)) (loc_y
    (br_loc row))
       (loc_z (br_loc row)) (loc_heading (br_loc row)) c) rows client).

(** ** Rules *)
Definition client_calc_base_hp_trilogy (client : Client) : Z :=
  let lvl := mob_level (c_mob client) in
  let sta := mob_cur_sta (c_mob client) in
  let class := mob_class (c_mob client) in
  let mult :=
    if bool_decide (class ∈ [2; 6; 10]) then 15
    else if bool_decide (class ∈ [11; 12; 13; 14]) then 12
    else if bool_decide (class ∈ [7; 8; 9; 15]) then if lvl <? 51 then 18 else if lvl <? 58 then 19 else 20
    else if class =? 4 then if lvl <? 58 then 20 else 21
    else if class =? 1 then
      if lvl <? 20 then 22 else if lvl <? 30 then 23 else if lvl <? 40 then 25 else if lvl <? 53 then 27 else if lvl <? 57 then 28
      else 30
    else if lvl <? 35 then 21 else if lvl <? 45 then 22 else if lvl <? 51 then 23 else if lvl <? 56 then 24 else if lvl <? 60 then
    25 else 26 in
  let mult := mult * lvl in
  5 + mult + (mult * sta) ÷ 300.

Definition client_surname_cstr (client : Client) : list Z := default [] (c_surname client).
Definition client_is_trilogy (client : Client) : bool := c_expansion client =? ExpansionId_Trilogy.
Definition client_expansion (client : Client) : Z := c_expansion client.
Definition client_is_pvp (client : Client) : bool := c_isCurrentlyPvP client.
Definition client_is_gm (client : Client) : bool := c_isGM client.
Definition client_is_afk (client : Client) : bool := c_isAfk client.
Definition client_is_linkdead (client : Client) : bool := c_isLinkdead client.
Definition client_anon_setting (client : Client) : Z := c_anonSetting client.
Definition client_guild_rank (client : Client) : Z := c_guildRank client.
