(* ===== verification/Zone.v ===== *)
(** Zones and the state of a zone cluster process: zone_cluster/zone.c and the
    structs of zone.h, zone_cluster.h and lua_object.h.

    Memory is a store: clients, non-player characters, zones and protocol
    handlers have addresses, and a Mob* is the address of the client or the
    character it is the first member of. The hash tables by name are finite
    maps. A handler keeps what was scheduled for it; calls into Lua scripts are
    logged, as are queries and one-shot timers until they run. *)

From S2P Require Import Prelude Fields Array ZoneId Text Servers Mob Inventory Skills ZoneClient.

Record FogStats := mkFog { fog_red : Z; fog_green : Z; fog_blue : Z; fog_minClip : Z; fog_maxClip : Z }.
Record MobByPosition := mkPos { p_x : Z; p_y : Z; p_z : Z; p_aggroRadiusSquared : Z; p_mob : nat }.
Record ClientListing := mkListing { ls_expansionId : Z; ls_isLinkdead : bool; ls_client : nat }.

Record Zone := mkZone {
  z_sourceId : Z;
  z_zoneId : Z;
  z_instanceId : Z;
  z_mobsByEntityId : list (option nat);
  z_mobsByPosition : list MobByPosition;
  z_clientList : list ClientListing;
  z_npcList : option (list nat);          (* NULL *)
  z_npcsPendingSpawn : option (list nat);
  z_safeSpot : Loc;
  z_fogStats : list FogStats;             (* 4 *)
  z_zoneType : Z;
  z_skyType : Z;
  z_gravity : Z;                          (* floats *)
  z_minZ : Z;
  z_minClippingDistance : Z;
  z_maxClippingDistance : Z;
}.
#[export] Instance Zone_settable : Settable Zone :=
  (built mkZone <*> z_sourceId <*> z_zoneId <*> z_instanceId <*> z_mobsByEntityId <*> z_mobsByPosition <*> z_clientList <*> z_npcList
  <*> z_npcsPendingSpawn <*> z_safeSpot <*> z_fogStats <*> z_zoneType <*> z_skyType <*> z_gravity <*> z_minZ
  <*> z_minClippingDistance <*> z_maxClippingDistance)%fields.

Definition no_zone : Zone :=
  mkZone 0 0 0 [] [] [] None None (mkLoc 0 0 0 0) (replicate 4 (mkFog 0 0 0 0 0)) 0 0 0 0 0 0.

(** 10.0f, 20000.0f, 0.4f, -32000.0f, 1000.0f, -1.0f and -2.0f. *)
Definition f_10 : Z := 0x41200000.
Definition f_20000 : Z := 0x469c4000.
Definition f_0_4 : Z := 0x3ecccccd.
Definition f_m32000 : Z := 0xc6fa0000.
Definition f_1000 : Z := 0x447a0000.
Definition f_m1 : Z := 0xbf800000.
Definition f_m2 : Z := 0xc0000000.

(** What a zone's protocol handler of a client has been given to do. *)
Record ZoneHandler := mkZH {
  zh_refCount : Z;
  zh_client : option nat;                 (* clientObject *)
  zh_scheduled : list (Z * list Z);       (* opcode and data *)
  zh_keepAlives : Z;
  zh_disconnects : Z;
}.
#[export] Instance ZoneHandler_settable : Settable ZoneHandler :=
  (built mkZH <*> zh_refCount <*> zh_client <*> zh_scheduled <*> zh_keepAlives <*> zh_disconnects)%fields.

Record ConnectedClient := mkConnected { cc_expansion : Z; cc_handler : option nat; cc_client : nat }.

Inductive ZoneQuery :=
  | LoadStats (client : nat) | LoadSkills (client : nat) | LoadInventory (client : nat) | LoadSpellbook (client : nat)
  | LoadMemmedSpells (client : nat) | LoadBindPoints (client : nat).
Inductive ZoneTimer := ExpectedTimeout (client : nat) | LinkdeadLinger (client : nat).

#[export] Instance ZoneQuery_eq_dec : EqDecision ZoneQuery.
Proof. solve_decision. Defined.
#[export] Instance ZoneTimer_eq_dec : EqDecision ZoneTimer.
Proof. solve_decision. Defined.

Record ZC := mkZC {
  clients : gmap nat Client;
  npcs : gmap nat Mob;
  zones : gmap nat Zone;
  zoneHandlers : gmap nat ZoneHandler;
  zoneList : list (Z * nat);                    (* ZoneBySourceId *)
  expectedClientsByName : gmap (list Z) nat;
  connectedClients : list ConnectedClient;
  connectedClientsByName : gmap (list Z) nat;
  zoneTimers : list ZoneTimer;
  autoSaves : list nat;                         (* clients whose timerAutoSave runs *)
  zoneQueries : list ZoneQuery;
  luaEvents : list (nat * string);
}.
#[export] Instance ZC_settable : Settable ZC :=
  (built mkZC <*> clients <*> npcs <*> zones <*> zoneHandlers <*> zoneList <*> expectedClientsByName <*> connectedClients
  <*> connectedClientsByName <*> zoneTimers <*> autoSaves <*> zoneQueries <*> luaEvents)%fields.

Definition no_zc : ZC := mkZC ∅ ∅ ∅ ∅ [] ∅ [] ∅ [] [] [] [].

(** ** Memory *)
Definition zclient_at (a : nat) : code ZC Client := λ s, (deref (clients s !! a), s).
Definition put_zclient (a : nat) (c : Client) (s : ZC) : ZC := s <| clients := <[a := c]> (clients s) |>.
Definition upd_zclient (a : nat) (f : Client → Client) : code ZC unit := c ← zclient_at a; modify (put_zclient a (f c)).

Definition zone_at (a : nat) : code ZC Zone := λ s, (deref (zones s !! a), s).
Definition put_zone (a : nat) (z : Zone) (s : ZC) : ZC := s <| zones := <[a := z]> (zones s) |>.
Definition upd_zone (a : nat) (f : Zone → Zone) : code ZC unit := z ← zone_at a; modify (put_zone a (f z)).

(** A Mob*: a client's first member, or a character's. *)
Definition find_mob (a : nat) (s : ZC) : option Mob :=
  match clients s !! a with Some c => Some (c_mob c) | None => npcs s !! a end.
Definition put_mob (a : nat) (m : Mob) (s : ZC) : ZC :=
  match clients s !! a with
  | Some c => put_zclient a (c <| c_mob := m |>) s
  | None => s <| npcs := <[a := m]> (npcs s) |>
  end.
Definition mob_at (a : nat) : code ZC Mob := λ s, (deref (find_mob a s), s).
Definition upd_mob (a : nat) (f : Mob → Mob) : code ZC unit := m ← mob_at a; modify (put_mob a (f m)).

Definition client_zone (c : Client) : outcome nat := deref (m_zone (c_mob c)).
Definition zlog_event (a : nat) (event : string) : code ZC unit := modify (λ s, s <| luaEvents := luaEvents s ++ [(a, event)] |>).

(** ** Operations *)

(** [mapMinZ] is the least height that the zone's map file states, less ten,
    when there is such a file (los_map_open). *)
Definition zone_create (sourceId zoneId instId : Z) (mapMinZ : option Z) : Zone :=
  let zone := no_zone <| z_sourceId := sourceId |> <| z_zoneId := u16 zoneId |> <| z_instanceId := u16 instId |>
    <| z_fogStats := replicate 4 (mkFog 0 0 0 f_10 f_20000) |> <| z_zoneType := 0xff |> <| z_gravity := f_0_4 |> <| z_minZ := f_m32000 |>
    <| z_minClippingDistance := f_1000 |> <| z_maxClippingDistance := f_20000 |> in
  match mapMinZ with Some minZ => zone <| z_minZ := minZ |> | None => zone end.

(** The loop over the entity ids: the first gap, or the end. *)
Fixpoint first_gap (l : list (option nat)) (i : nat) : nat :=
  match l with
  | [] => i
  | None :: _ => i
  | Some _ :: l => first_gap l (S i)
  end.
Definition entity_put (a : nat) (l : list (option nat)) : list (option nat) :=
  let i := first_gap l 0 in if (i <? length l)%nat then <[i := Some a]> l else l ++ [Some a].

(** [junk] is what the local variable's aggro radius holds for other types. *)
Definition aggro_of (junk : Z) (mob : Mob) : Z :=
  if mob_get_type mob =? MobType_Npc then 0 else if mob_get_type mob =? MobType_Client then f_m1
  else if mob_get_type mob =? MobType_Pet then f_m2 else junk.

Definition zone_spawn_mob (junk : Z) (zone mob : nat) : code ZC unit :=
  z ← zone_at zone;
  upd_mob mob (λ m, m <| m_entityId := i32 (Z.of_nat (first_gap (z_mobsByEntityId z) 0) + 1) |>) ;;
  upd_zone zone (λ z, z <| z_mobsByEntityId := entity_put mob (z_mobsByEntityId z) |>) ;;
  m ← mob_at mob;
  let pos := mkPos (mob_x m) (mob_y m) (mob_z m) (aggro_of junk m) mob in
  z ← zone_at zone;
  upd_zone zone (λ z, z <| z_mobsByPosition := z_mobsByPosition z ++ [pos] |>) ;;
  upd_mob mob (λ m, m <| m_zoneMobIndex := i32 (Z.of_nat (length (z_mobsByPosition z))) |>).

Definition zone_spawn_client (junk : Z) (zone client : nat) : code ZC unit :=
  zone_spawn_mob junk zone client ;;
  z ← zone_at zone;
  c ← zclient_at client;
  upd_zclient client (λ c, c <| c_zoneClientIndex := i32 (Z.of_nat (length (z_clientList z))) |>) ;;
  upd_zone zone (λ z, z <| z_clientList := z_clientList z ++ [mkListing (client_expansion c) false client] |>).

(** An index is passed as a uint32_t. *)
Definition index_of (i : Z) : nat := Z.to_nat (u32 i).

Definition zone_remove_client (zone client : nat) : code ZC unit :=
  c ← zclient_at client;
  let cIndex := c_zoneClientIndex c in
  let mIndex := m_zoneMobIndex (c_mob c) in
  let entityId := mob_entity_id (c_mob c) in
  z ← zone_at zone;
  let '(swapped, l) := swap_and_pop (z_clientList z) (index_of cIndex) in
  upd_zone zone (λ z, z <| z_clientList := l |>) ;;
  (if swapped : bool then
     listing ← lift (deref (l !! index_of cIndex));
     upd_zclient (ls_client listing) (λ c, c <| c_zoneClientIndex := cIndex |>)
   else mret tt) ;;
  let '(swapped, l) := swap_and_pop (z_mobsByPosition z) (index_of mIndex) in
  upd_zone zone (λ z, z <| z_mobsByPosition := l |>) ;;
  (if swapped : bool then
     pos ← lift (deref (l !! index_of mIndex));
     upd_mob (p_mob pos) (λ m, m <| m_zoneMobIndex := mIndex |>)
   else mret tt) ;;
  if entityId =? 0 then mret tt
  else
    z ← zone_at zone;
    _ ← lift (deref (z_mobsByEntityId z !! index_of (entityId - 1)));
    upd_zone zone (λ z, z <| z_mobsByEntityId := <[index_of (entityId - 1) := None]> (z_mobsByEntityId z) |>).

Definition set_linkdead (l : ClientListing) : ClientListing := mkListing (ls_expansionId l) true (ls_client l).

Definition zone_mark_client_as_linkdead (zone client : nat) : code ZC unit :=
  c ← zclient_at client;
  upd_zone zone (λ z, z <| z_clientList := alter set_linkdead (index_of (c_zoneClientIndex c)) (z_clientList z) |>).

Definition zone_get_mob_by_entity_id (entityId : Z) (z : Zone) : option nat :=
  match z_mobsByEntityId z !! index_of (entityId - 1) with Some mob => mob | None => None end.

Definition zone_update_mob_position (index x y z : Z) (zone : Zone) : Zone :=
  zone <| z_mobsByPosition := alter (λ p, mkPos x y z (p_aggroRadiusSquared p) (p_mob p)) (index_of index) (z_mobsByPosition zone) |>.

Definition mob_set_position (mob : nat) (x y z : Z) : code ZC unit :=
  m ← mob_at mob;
  upd_mob mob (λ m, m <| m_x := x |> <| m_y := y |> <| m_z := z |>) ;;
  zone ← lift (deref (m_zone m));
  upd_zone zone (zone_update_mob_position (m_zoneMobIndex m) x y z).

(** *** Fields *)
Definition zone_get_source_id (zone : Zone) : Z := z_sourceId zone.
Definition zone_get_zone_id (zone : Zone) : Z := z_zoneId zone.
Definition zone_get_instance_id (zone : Zone) : Z := z_instanceId zone.
Definition zone_get_short_name (zone : Zone) : list Z := text (zone_short_name_by_id (z_zoneId zone)).
Definition zone_get_long_name (zone : Zone) : list Z := text (zone_long_name_by_id (z_zoneId zone)).
Definition zone_get_zone_type_id (zone : Zone) : Z := z_zoneType zone.
Definition zone_get_sky_id (zone : Zone) : Z := z_skyType zone.
Definition zone_get_gravity (zone : Zone) : Z := z_gravity zone.
Definition zone_get_min_clipping_distance (zone : Zone) : Z := z_minClippingDistance zone.
Definition zone_get_max_clipping_distance (zone : Zone) : Z := z_maxClippingDistance zone.
Definition zone_get_safe_spot_x (zone : Zone) : Z := loc_x (z_safeSpot zone).
Definition zone_get_safe_spot_y (zone : Zone) : Z := loc_y (z_safeSpot zone).
Definition zone_get_safe_spot_z (zone : Zone) : Z := loc_z (z_safeSpot zone).
Definition zone_get_safe_spot_heading (zone : Zone) : Z := loc_heading (z_safeSpot zone).
Definition zone_set_zone_type_id (id : Z) (zone : Zone) : Zone := zone <| z_zoneType := u8 id |>.
Definition zone_set_sky_id (id : Z) (zone : Zone) : Zone := zone <| z_skyType := u16 id |>.
Definition zone_set_gravity (v : Z) (zone : Zone) : Zone := zone <| z_gravity := v |>.
Definition zone_set_min_clipping_distance (v : Z) (zone : Zone) : Zone := zone <| z_minClippingDistance := v |>.
Definition zone_set_max_clipping_distance (v : Z) (zone : Zone) : Zone := zone <| z_maxClippingDistance := v |>.
Definition zone_set_safe_spot (x y z heading : Z) (zone : Zone) : Zone := zone <| z_safeSpot := mkLoc x y z heading |>.
