(* ===== verification/ZoneSpec.v ===== *)
(** The lists of a zone agree with its mobs: what spawning, removing and moving
    do to them. *)

From S2P Require Import Prelude Fields Array ZoneId Text Servers Mob Inventory Skills ZoneClient Zone.

(** ** Memory *)
Section Memory.
Context (s : ZC) (a : nat).

Lemma zclient_at_ok c : clients s !! a = Some c → zclient_at a s = (Ok c, s).
Proof. intros H. unfold zclient_at. by rewrite H. Qed.
Lemma zone_at_ok z : zones s !! a = Some z → zone_at a s = (Ok z, s).
Proof. intros H. unfold zone_at. by rewrite H. Qed.
Lemma mob_at_ok m : find_mob a s = Some m → mob_at a s = (Ok m, s).
Proof. intros H. unfold mob_at. by rewrite H. Qed.
Lemma upd_zclient_ok c f : clients s !! a = Some c → upd_zclient a f s = (Ok tt, put_zclient a (f c) s).
Proof. intros H. unfold upd_zclient. by rewrite (bind_ok _ _ _ _ _ (zclient_at_ok c H)). Qed.
Lemma upd_zone_ok z f : zones s !! a = Some z → upd_zone a f s = (Ok tt, put_zone a (f z) s).
Proof. intros H. unfold upd_zone. by rewrite (bind_ok _ _ _ _ _ (zone_at_ok z H)). Qed.
Lemma upd_mob_ok m f : find_mob a s = Some m → upd_mob a f s = (Ok tt, put_mob a (f m) s).
Proof. intros H. unfold upd_mob. by rewrite (bind_ok _ _ _ _ _ (mob_at_ok m H)). Qed.

Lemma find_client_mob c : clients s !! a = Some c → find_mob a s = Some (c_mob c).
Proof. intros H. unfold find_mob. by rewrite H. Qed.
Lemma put_client_mob c m : clients s !! a = Some c → put_mob a m s = put_zclient a (c <| c_mob := m |>) s.
Proof. intros H. unfold put_mob. by rewrite H. Qed.
End Memory.

Lemma zc_eta (s : ZC) : s = mkZC (clients s) (npcs s) (zones s) (zoneHandlers s) (zoneList s) (expectedClientsByName s) (connectedClients s)
  (connectedClientsByName s) (zoneTimers s) (autoSaves s) (zoneQueries s) (luaEvents s).
Proof. by destruct s. Qed.

Lemma put_zclient_twice s a c d : put_zclient a d (put_zclient a c s) = put_zclient a d s.
Proof. unfold put_zclient. fields_simpl. cbn. by rewrite insert_insert_eq. Qed.
Lemma put_zone_twice s a z y : put_zone a y (put_zone a z s) = put_zone a y s.
Proof. unfold put_zone. fields_simpl. cbn. by rewrite insert_insert_eq. Qed.
Lemma put_zone_client s zn z a c : put_zone zn z (put_zclient a c s) = put_zclient a c (put_zone zn z s).
Proof. done. Qed.
Lemma put_zclient_lookup s a c : clients (put_zclient a c s) !! a = Some c.
Proof. apply lookup_insert_eq. Qed.
Lemma put_zone_lookup s a z : zones (put_zone a z s) !! a = Some z.
Proof. apply lookup_insert_eq. Qed.
Lemma put_zclient_other s a b c : a ≠ b → clients (put_zclient a c s) !! b = clients s !! b.
Proof. apply lookup_insert_ne. Qed.
Lemma put_zclient_same s a c : clients s !! a = Some c → put_zclient a c s = s.
Proof. intros H. unfold put_zclient. fields_simpl. cbn. rewrite insert_id by done. by destruct s. Qed.

Lemma find_put_zclient s a b c : find_mob b (put_zclient a c s) = if decide (b = a) then Some (c_mob c) else find_mob b s.
Proof.
  unfold find_mob. destruct (decide (b = a)) as [->|Hne]; [by rewrite put_zclient_lookup|]. by rewrite put_zclient_other by done.
Qed.
Lemma find_put_zone s a b z : find_mob b (put_zone a z s) = find_mob b s.
Proof. done. Qed.
Lemma find_put_mob s a b m : find_mob b (put_mob a m s) = if decide (b = a) then Some m else find_mob b s.
Proof.
  unfold put_mob. destruct (clients s !! a) as [c|] eqn:Ha; [apply find_put_zclient|].
  unfold find_mob. cbn. destruct (decide (b = a)) as [->|Hne]; [by rewrite Ha, lookup_insert_eq|]. by rewrite lookup_insert_ne by done.
Qed.
Lemma clients_put_mob s a m b c : clients s !! b = Some c →
  clients (put_mob a m s) !! b = Some (if decide (b = a) then c <| c_mob := m |> else c).
Proof.
  intros Hb. unfold put_mob. destruct (clients s !! a) as [d|] eqn:Ha.
  - destruct (decide (b = a)) as [->|Hne]; [rewrite put_zclient_lookup; congruence|by rewrite put_zclient_other].
  - rewrite decide_False by (intros ->; congruence). done.
Qed.
Lemma put_mob_fields s a m : zones (put_mob a m s) = zones s ∧ connectedClients (put_mob a m s) = connectedClients s.
Proof. unfold put_mob. by destruct (clients s !! a). Qed.

(** ** Spawning *)
Lemma first_gap_spec l i :
  (i ≤ first_gap l i)%nat ∧ (first_gap l i ≤ i + length l)%nat ∧
  (∀ j, (i ≤ j < first_gap l i)%nat → ∃ a, l !! (j - i)%nat = Some (Some a)) ∧
  ((first_gap l i < i + length l)%nat → l !! (first_gap l i - i)%nat = Some None).
Proof.
  revert i. induction l as [|[a|] l IH]; intros i; cbn [first_gap length].
  - split_and!; [lia|lia|intros j ?; lia|lia].
  - destruct (IH (S i)) as (H1 & H2 & H3 & H4). split_and!; [lia|lia| |].
    + intros j Hj. destruct (decide (j = i)) as [->|Hne]; [exists a; by rewrite Nat.sub_diag|].
      replace (j - i)%nat with (S (j - S i)) by lia. apply H3. lia.
    + intros Hl. replace (first_gap l (S i) - i)%nat with (S (first_gap l (S i) - S i)) by lia. apply H4. lia.
  - split_and!; [lia|lia|intros j ?; lia|]. intros _. by rewrite Nat.sub_diag.
Qed.

(** The new mob's place, and nothing else, is changed. *)
Lemma entity_put_lookup a l j :
  entity_put a l !! j = if decide (j = first_gap l 0) then Some (Some a) else l !! j.
Proof.
  destruct (first_gap_spec l 0) as (_ & Hle & _ & _). unfold entity_put. destruct (Nat.ltb_spec (first_gap l 0) (length l)).
  - destruct (decide (j = first_gap l 0)) as [->|Hne]; [by apply list_lookup_insert_eq|]. by rewrite list_lookup_insert_ne.
  - assert (Hl : first_gap l 0 = length l) by lia. rewrite Hl. destruct (decide (j = length l)) as [->|Hne].
    + rewrite lookup_app_r, Nat.sub_diag by lia. done.
    + destruct (decide (j < length l)%nat); [by rewrite lookup_app_l|].
      rewrite (lookup_ge_None_2 l) by lia. apply lookup_ge_None_2. rewrite length_app. simpl. lia.
Qed.

Lemma entity_put_length a l : (length (entity_put a l) ≤ S (length l))%nat.
Proof. unfold entity_put. destruct (_ <? _)%nat; [rewrite length_insert|rewrite length_app; simpl]; lia. Qed.

Definition spawned_mob (z : Zone) (m : Mob) : Mob :=
  m <| m_entityId := i32 (Z.of_nat (first_gap (z_mobsByEntityId z) 0) + 1) |>
    <| m_zoneMobIndex := i32 (Z.of_nat (length (z_mobsByPosition z))) |>.
Definition with_mob (junk : Z) (a : nat) (m : Mob) (z : Zone) : Zone :=
  z <| z_mobsByEntityId := entity_put a (z_mobsByEntityId z) |>
    <| z_mobsByPosition := z_mobsByPosition z ++ [mkPos (mob_x m) (mob_y m) (mob_z m) (aggro_of junk m) a] |>.
Definition spawned (z : Zone) (c : Client) : Client :=
  c <| c_mob := spawned_mob z (c_mob c) |> <| c_zoneClientIndex := i32 (Z.of_nat (length (z_clientList z))) |>.
Definition with_client (junk : Z) (a : nat) (c : Client) (z : Zone) : Zone :=
  with_mob junk a (c_mob c) z <| z_clientList := z_clientList z ++ [mkListing (c_expansion c) false a] |>.

Lemma spawn_client_ok junk zn a z c s : zones s !! zn = Some z → clients s !! a = Some c →
  zone_spawn_client junk zn a s = (Ok tt, put_zclient a (spawned z c) (put_zone zn (with_client junk a c z) s)).
Proof.
  intros Hz Hc. unfold zone_spawn_client, zone_spawn_mob.
  erewrite bind_ok.
  2: { erewrite bind_ok by (by apply zone_at_ok). erewrite bind_ok by (by apply upd_mob_ok, find_client_mob).
       rewrite (put_client_mob _ _ c) by done. erewrite bind_ok by (by apply upd_zone_ok).
       erewrite bind_ok by (apply mob_at_ok, find_client_mob, put_zclient_lookup). cbv zeta.
       erewrite bind_ok by (apply zone_at_ok, put_zone_lookup). erewrite bind_ok by (apply upd_zone_ok, put_zone_lookup).
       rewrite put_zone_twice, put_zone_client. erewrite upd_mob_ok by (apply find_client_mob, put_zclient_lookup).
       rewrite (put_client_mob _ _ _ _ (put_zclient_lookup _ _ _)), put_zclient_twice. reflexivity. }
  erewrite bind_ok by (apply zone_at_ok, put_zone_lookup). erewrite bind_ok by (apply zclient_at_ok, put_zclient_lookup).
  erewrite bind_ok by (apply upd_zclient_ok, put_zclient_lookup). rewrite put_zclient_twice.
  erewrite upd_zone_ok by (apply put_zone_lookup). rewrite put_zone_client, put_zone_twice. done.
Qed.

(** ** The invariant *)

(** Entry [i] of the positions is for the mob that has it as its index, at the
    mob's place, and the mob's entity id leads back to it. *)
Definition position_ok (s : ZC) (z : Zone) (i : nat) (p : MobByPosition) : Prop :=
  ∃ m, find_mob (p_mob p) s = Some m ∧ m_zoneMobIndex m = Z.of_nat i ∧ (p_x p, p_y p, p_z p) = (m_x m, m_y m, m_z m) ∧
    0 < m_entityId m ∧ z_mobsByEntityId z !! index_of (m_entityId m - 1) = Some (Some (p_mob p)).
Definition entity_ok (s : ZC) (z : Zone) (i : nat) (a : nat) : Prop :=
  ∃ m, find_mob a s = Some m ∧ m_entityId m = Z.of_nat i + 1 ∧ ∃ p, z_mobsByPosition z !! index_of (m_zoneMobIndex m) = Some p ∧ p_mob p = a.
Definition listing_ok (s : ZC) (z : Zone) (i : nat) (l : ClientListing) : Prop :=
  ∃ c, clients s !! ls_client l = Some c ∧ c_zoneClientIndex c = Z.of_nat i ∧
    ∃ p, z_mobsByPosition z !! index_of (m_zoneMobIndex (c_mob c)) = Some p ∧ p_mob p = ls_client l.

Record coherent (s : ZC) (z : Zone) : Prop := {
  co_positions : ∀ i p, z_mobsByPosition z !! i = Some p → position_ok s z i p;
  co_entities : ∀ i a, z_mobsByEntityId z !! i = Some (Some a) → entity_ok s z i a;
  co_listings : ∀ i l, z_clientList z !! i = Some l → listing_ok s z i l;
}.

(** The lists can grow by one. *)
Definition roomy (z : Zone) : Prop :=
  Z.of_nat (length (z_mobsByEntityId z)) < 2 ^ 31 - 1 ∧ Z.of_nat (length (z_mobsByPosition z)) < 2 ^ 31 - 1 ∧
  Z.of_nat (length (z_clientList z)) < 2 ^ 31 - 1.

Definition in_zone (z : Zone) (a : nat) : Prop := ∃ i p, z_mobsByPosition z !! i = Some p ∧ p_mob p = a.

Lemma index_of_nat i : Z.of_nat i < 2 ^ 31 → index_of (Z.of_nat i) = i.
Proof. intros H. unfold index_of. rewrite wrap_small by (unfold is_word; lia). lia. Qed.
Lemma i32_nat i : Z.of_nat i < 2 ^ 31 → i32 (Z.of_nat i) = Z.of_nat i.
Proof. intros H. by rewrite sint_small by lia. Qed.

Lemma entity_in_zone s z i a : coherent s z → z_mobsByEntityId z !! i = Some (Some a) → in_zone z a.
Proof. intros Hco Hi. destruct (co_entities _ _ Hco i a Hi) as (m & _ & _ & p & Hp & Ha). by exists (index_of (m_zoneMobIndex m)), p. Qed.
Lemma listing_in_zone s z i l : coherent s z → z_clientList z !! i = Some l → in_zone z (ls_client l).
Proof.
  intros Hco Hi. destruct (co_listings _ _ Hco i l Hi) as (c & _ & _ & p & Hp & Ha). by exists (index_of (m_zoneMobIndex (c_mob c))), p.
Qed.

(** Each mob is at one place in each list. *)
Lemma positions_unique s z i j p q : coherent s z → z_mobsByPosition z !! i = Some p → z_mobsByPosition z !! j = Some q →
  p_mob p = p_mob q → i = j.
Proof.
  intros Hco Hi Hj Hpq. destruct (co_positions _ _ Hco i p Hi) as (m & Hm & Hmi & _). destruct (co_positions _ _ Hco j q Hj) as (m' & Hm' & Hmj & _).
  rewrite Hpq in Hm. simplify_eq. lia.
Qed.
Lemma listings_unique s z i j k l : coherent s z → z_clientList z !! i = Some k → z_clientList z !! j = Some l →
  ls_client k = ls_client l → i = j.
Proof.
  intros Hco Hi Hj Hkl. destruct (co_listings _ _ Hco i k Hi) as (c & Hc & Hci & _). destruct (co_listings _ _ Hco j l Hj) as (c' & Hc' & Hcj & _).
  rewrite Hkl in Hc. simplify_eq. lia.
Qed.

(** Changing mobs that are not in the zone. *)
Lemma coherent_elsewhere s s' z : coherent s z → (∀ a, in_zone z a → find_mob a s' = find_mob a s) →
  (∀ a, in_zone z a → clients s' !! a = clients s !! a) → coherent s' z.
Proof.
  intros Hco Hfind Hcl. split.
  - intros i p Hp. destruct (co_positions _ _ Hco i p Hp) as (m & Hm & Hrest). exists m. split; [|done].
    rewrite Hfind; [done|]. by exists i, p.
  - intros i a Ha. destruct (co_entities _ _ Hco i a Ha) as (m & Hm & Hrest). exists m. split; [|done].
    rewrite Hfind; [done|]. by eapply entity_in_zone.
  - intros i l Hl. destruct (co_listings _ _ Hco i l Hl) as (c & Hc & Hrest). exists c. split; [|done].
    rewrite Hcl; [done|]. by eapply listing_in_zone.
Qed.

(** *** A client arrives *)
Lemma spawned_index z m : roomy z → m_zoneMobIndex (spawned_mob z m) = Z.of_nat (length (z_mobsByPosition z)).
Proof. intros (_ & H & _). unfold spawned_mob. cbn. apply i32_nat. lia. Qed.
Lemma spawned_entity_id z m : roomy z → m_entityId (spawned_mob z m) = Z.of_nat (first_gap (z_mobsByEntityId z) 0) + 1.
Proof.
  intros (H & _ & _). unfold spawned_mob. cbn. destruct (first_gap_spec (z_mobsByEntityId z) 0) as (_ & Hle & _).
  rewrite sint_small; lia.
Qed.
Lemma spawned_client_index z c : roomy z → c_zoneClientIndex (spawned z c) = Z.of_nat (length (z_clientList z)).
Proof. intros (_ & _ & H). unfold spawned. cbn. apply i32_nat. lia. Qed.

Lemma with_client_entities junk a c z : z_mobsByEntityId (with_client junk a c z) = entity_put a (z_mobsByEntityId z).
Proof. done. Qed.
Lemma with_client_positions junk a c z : z_mobsByPosition (with_client junk a c z) =
  z_mobsByPosition z ++ [mkPos (m_x (c_mob c)) (m_y (c_mob c)) (m_z (c_mob c)) (aggro_of junk (c_mob c)) a].
Proof. done. Qed.
Lemma with_client_listings junk a c z : z_clientList (with_client junk a c z) = z_clientList z ++ [mkListing (c_expansion c) false a].
Proof. done. Qed.

Lemma lookup_snoc_cases {A} (l : list A) x i y : (l ++ [x]) !! i = Some y → l !! i = Some y ∧ (i < length l)%nat ∨ i = length l ∧ y = x.
Proof.
  intros H. destruct (decide (i < length l)%nat); [left; by rewrite lookup_app_l in H|right].
  rewrite lookup_app_r in H by lia. apply list_lookup_singleton_Some in H as [? ->]. split; [lia|done].
Qed.
Lemma lookup_snoc_keep {A} (l : list A) x i y : l !! i = Some y → (l ++ [x]) !! i = Some y.
Proof. intros H. rewrite lookup_app_l; [done|]. by eapply lookup_lt_Some. Qed.

Lemma spawn_coherent_ok junk zn a z c s : coherent s z → roomy z → clients s !! a = Some c → ¬ in_zone z a →
  coherent (put_zclient a (spawned z c) (put_zone zn (with_client junk a c z) s)) (with_client junk a c z).
Proof.
  intros Hco Hroom Hc Hout. set (s' := put_zclient a _ _).
  assert (Hfind : ∀ b, find_mob b s' = if decide (b = a) then Some (spawned_mob z (c_mob c)) else find_mob b s) by (intros b; unfold s'; by rewrite find_put_zclient).
  assert (Hcli : ∀ b, b ≠ a → clients s' !! b = clients s !! b) by (intros b Hb; unfold s'; by rewrite put_zclient_other).
  assert (Hnew : ∃ p, z_mobsByPosition (with_client junk a c z) !! index_of (m_zoneMobIndex (spawned_mob z (c_mob c))) = Some p ∧ p_mob p = a).
  { rewrite spawned_index, index_of_nat by (done || destruct Hroom; lia). rewrite with_client_positions, lookup_app_r, Nat.sub_diag by lia. by eexists. }
  assert (Hgap : ∀ b i, z_mobsByEntityId z !! i = Some (Some b) → z_mobsByEntityId (with_client junk a c z) !! i = Some (Some b)).
  { intros b i Hi. rewrite with_client_entities, entity_put_lookup. rewrite decide_False; [done|]. intros ->.
    destruct (first_gap_spec (z_mobsByEntityId z) 0) as (_ & _ & _ & Hgap). rewrite Nat.sub_0_r in Hgap.
    rewrite Hgap in Hi by (apply lookup_lt_Some in Hi; lia). done. }
  split.
  - intros i p Hp. rewrite with_client_positions in Hp. apply lookup_snoc_cases in Hp as [[Hp Hi]|[-> ->]].
    + destruct (co_positions _ _ Hco i p Hp) as (m & Hm & Hmi & Hxyz & Hpos & He). exists m.
      rewrite Hfind, decide_False by (intros Heq; apply Hout; by exists i, p). split_and!; try done. by apply Hgap.
    + cbn [p_mob p_x p_y p_z]. exists (spawned_mob z (c_mob c)). rewrite Hfind, decide_True by done. rewrite spawned_index, spawned_entity_id by done.
      destruct (first_gap_spec (z_mobsByEntityId z) 0) as (_ & Hle & _).
      split_and!; [done..|lia|]. rewrite Z.add_simpl_r, index_of_nat by (destruct Hroom; lia).
      by rewrite with_client_entities, entity_put_lookup, decide_True.
  - intros i b Hb. rewrite with_client_entities, entity_put_lookup in Hb. destruct (decide (i = _)) as [->|Hne].
    + simplify_eq. exists (spawned_mob z (c_mob c)). rewrite Hfind, decide_True by done. by rewrite spawned_entity_id.
    + destruct (co_entities _ _ Hco i b Hb) as (m & Hm & Hmi & p & Hp & Hpa). exists m.
      rewrite Hfind, decide_False by (intros ->; apply Hout; by exists (index_of (m_zoneMobIndex m)), p).
      split_and!; [done..|]. exists p. split; [|done]. rewrite with_client_positions. by apply lookup_snoc_keep.
  - intros i l Hl. rewrite with_client_listings in Hl. apply lookup_snoc_cases in Hl as [[Hl Hi]|[-> ->]].
    + assert (ls_client l ≠ a) by (intros Heq; apply Hout; rewrite <- Heq; by eapply listing_in_zone).
      destruct (co_listings _ _ Hco i l Hl) as (d & Hd & Hdi & p & Hp & Hpa). exists d. rewrite Hcli by done.
      split_and!; [done..|]. exists p. split; [|done]. rewrite with_client_positions. by apply lookup_snoc_keep.
    + cbn [ls_client]. exists (spawned z c). unfold s'. rewrite put_zclient_lookup. split; [done|]. by rewrite spawned_client_index.
Qed.

(** ** Removing *)

(** The last element takes the place of the one that goes. *)
Lemma swap_and_pop_ok {A} (l : list A) i x : l !! i = Some x →
  ∃ l', swap_and_pop l i = (negb (i =? length l - 1)%nat, l') ∧ length l' = (length l - 1)%nat ∧
    ∀ j, (j < length l - 1)%nat → l' !! j = l !! (if decide (j = i) then (length l - 1)%nat else j).
Proof.
  intros Hi. apply lookup_lt_Some in Hi. unfold swap_and_pop. destruct (decide _) as [_|]; [|lia]. rewrite last_lookup.
  replace (pred (length l)) with (length l - 1)%nat by lia.
  destruct (lookup_lt_is_Some_2 l (length l - 1)) as [y Hy]; [lia|]. rewrite Hy. eexists. split; [done|].
  rewrite length_insert, length_take. split; [lia|]. intros j Hj. destruct (decide (j = i)) as [->|Hne].
  - rewrite list_lookup_insert_eq; [done|]. rewrite length_take. lia.
  - rewrite list_lookup_insert_ne by done. by rewrite lookup_take_lt by lia.
Qed.

(** The listing at [i] is taken out: the client moved there is told. *)
Definition take_listing (zn : nat) (z : Zone) (i : nat) : code ZC unit :=
  let '(swapped, l) := swap_and_pop (z_clientList z) i in
  upd_zone zn (λ z, z <| z_clientList := l |>) ;;
  (if swapped : bool then
     listing ← lift (deref (l !! i));
     upd_zclient (ls_client listing) (λ c, c <| c_zoneClientIndex := Z.of_nat i |>)
   else mret tt).

Definition unlisted (z : Zone) (a : nat) : Prop := ∀ i l, z_clientList z !! i = Some l → ls_client l ≠ a.

(** What taking client [a] out leaves as it was. *)
Definition only_index_moved (s s' : ZC) : Prop :=
  (∀ b m, find_mob b s = Some m → ∃ i, find_mob b s' = Some (m <| m_zoneMobIndex := i |>)) ∧
  (∀ b c, clients s !! b = Some c → ∃ i j, clients s' !! b = Some (c <| c_mob := c_mob c <| m_zoneMobIndex := i |> |> <| c_zoneClientIndex := j |>)).

Lemma mob_index_id m : m <| m_zoneMobIndex := m_zoneMobIndex m |> = m.
Proof. by destruct m. Qed.
Lemma client_indexes_id c :
  c <| c_mob := c_mob c <| m_zoneMobIndex := m_zoneMobIndex (c_mob c) |> |> <| c_zoneClientIndex := c_zoneClientIndex c |> = c.
Proof. rewrite mob_index_id. by destruct c. Qed.

Lemma take_listing_ok zn z i l a s : zones s !! zn = Some z → coherent s z → Z.of_nat (length (z_clientList z)) < 2 ^ 31 →
  z_clientList z !! i = Some l → ls_client l = a →
  ∃ s' ls, take_listing zn z i s = (Ok tt, s') ∧ zones s' = <[zn := z <| z_clientList := ls |>]> (zones s) ∧
    length ls = (length (z_clientList z) - 1)%nat ∧ coherent s' (z <| z_clientList := ls |>) ∧ unlisted (z <| z_clientList := ls |>) a ∧
    clients s' !! a = clients s !! a ∧ only_index_moved s s'.
Proof.
  intros Hz Hco Hlen Hi Ha. pose proof (lookup_lt_Some _ _ _ Hi) as Hlt. unfold take_listing.
  destruct (swap_and_pop_ok _ _ _ Hi) as (ls & -> & Hls & Hlook). set (n := (length (z_clientList z) - 1)%nat) in *.
  assert (Hout : ∀ j k, ls !! j = Some k → ls_client k ≠ a).
  { intros j k Hj Hk. pose proof (lookup_lt_Some _ _ _ Hj) as Hjl. rewrite Hlook in Hj by lia.
    assert (Heq : (if decide (j = i) then n else j) = i) by (eapply (listings_unique s z _ _ k l); [done..|congruence]).
    destruct (decide (j = i)); lia. }
  erewrite bind_ok by (by apply upd_zone_ok). set (s1 := put_zone zn _ s).
  destruct (Nat.eqb_spec i n) as [->|Hne]; cbn [negb].
  { exists s1, ls. split_and!; try done.
    - destruct Hco as [H1 H2 H3]. split; [done..|]. intros j k Hj. cbn in Hj. pose proof (lookup_lt_Some _ _ _ Hj). rewrite Hlook in Hj by lia.
      rewrite decide_False in Hj by lia. apply (H3 j k Hj).
    - split; [|by intros b c Hb; exists (m_zoneMobIndex (c_mob c)), (c_zoneClientIndex c); rewrite client_indexes_id].
      intros b m Hb. exists (m_zoneMobIndex m). by rewrite mob_index_id. }
  destruct (lookup_lt_is_Some_2 (z_clientList z) n) as [k Hk]; [lia|].
  assert (Hlsi : ls !! i = Some k) by (rewrite Hlook by lia; by rewrite decide_True).
  destruct (co_listings _ _ Hco n k Hk) as (c & Hc & Hci & Hcp).
  assert (Hka : ls_client k ≠ a) by (by eapply Hout).
  rewrite Hlsi. erewrite (bind_ok (lift _) _ s1 k s1) by done. erewrite upd_zclient_ok by done. set (s2 := put_zclient _ _ s1).
  assert (Hfind : ∀ b, find_mob b s2 = find_mob b s).
  { intros b. unfold s2. rewrite find_put_zclient. destruct (decide (b = ls_client k)) as [->|]; [|done]. by rewrite (find_client_mob s _ c). }
  exists s2, ls. split_and!; try done.
  - split.
    + intros j p Hp. destruct (co_positions _ _ Hco j p Hp) as (m & Hm & Hrest). exists m. by rewrite Hfind.
    + intros j b Hb. destruct (co_entities _ _ Hco j b Hb) as (m & Hm & Hrest). exists m. by rewrite Hfind.
    + intros j q Hj. cbn in Hj. pose proof (lookup_lt_Some _ _ _ Hj) as Hjl. destruct (decide (j = i)) as [->|Hji].
      * rewrite Hlsi in Hj. simplify_eq. exists (c <| c_zoneClientIndex := Z.of_nat i |>). unfold s2. by rewrite put_zclient_lookup.
      * rewrite Hlook, decide_False in Hj by (done || lia). destruct (co_listings _ _ Hco j q Hj) as (d & Hd & Hrest). exists d.
        unfold s2. rewrite put_zclient_other; [done|]. intros Heq. rewrite Heq in Hc. simplify_eq. destruct Hrest as [Hdj _]. lia.
  - unfold s2. by rewrite put_zclient_other by done.
  - split.
    + intros b m Hb. exists (m_zoneMobIndex m). by rewrite Hfind, mob_index_id.
    + intros b d Hb. exists (m_zoneMobIndex (c_mob d)). destruct (decide (b = ls_client k)) as [->|Hbk].
      * exists (Z.of_nat i). unfold s2. rewrite put_zclient_lookup, mob_index_id. assert (d = c) as -> by congruence. by destruct c.
      * exists (c_zoneClientIndex d). unfold s2. rewrite put_zclient_other by done. by rewrite client_indexes_id.
Qed.

(** The position at [j] is taken out: the mob moved there is told. *)
Definition take_position (zn : nat) (z : Zone) (j : nat) : code ZC unit :=
  let '(swapped, l) := swap_and_pop (z_mobsByPosition z) j in
  upd_zone zn (λ z, z <| z_mobsByPosition := l |>) ;;
  (if swapped : bool then
     pos ← lift (deref (l !! j));
     upd_mob (p_mob pos) (λ m, m <| m_zoneMobIndex := Z.of_nat j |>)
   else mret tt).
Definition clear_entity (zn : nat) (e : nat) : code ZC unit :=
  z ← zone_at zn;
  _ ← lift (deref (z_mobsByEntityId z !! e));
  upd_zone zn (λ z, z <| z_mobsByEntityId := <[e := None]> (z_mobsByEntityId z) |>).

Definition without_mob (z : Zone) (ps : list MobByPosition) (e : nat) : Zone :=
  z <| z_mobsByPosition := ps |> <| z_mobsByEntityId := <[e := None]> (z_mobsByEntityId z) |>.

Lemma put_mob_other s a m b : b ≠ a → clients (put_mob a m s) !! b = clients s !! b.
Proof.
  intros Hb. unfold put_mob. destruct (clients s !! a); [by rewrite put_zclient_other|done].
Qed.

(** Moving the mob that is at the end to place [j] keeps it consistent. *)
Lemma only_index_put_mob s b m j : find_mob b s = Some m → only_index_moved s (put_mob b (m <| m_zoneMobIndex := j |>) s).
Proof.
  intros Hb. split.
  - intros a k Ha. rewrite find_put_mob. destruct (decide (a = b)) as [->|]; [exists j; congruence|].
    exists (m_zoneMobIndex k). by rewrite mob_index_id.
  - intros a c Ha. rewrite (clients_put_mob _ _ _ _ c) by done. destruct (decide (a = b)) as [->|].
    + exists j, (c_zoneClientIndex c). rewrite (find_client_mob _ _ c Ha) in Hb. simplify_eq. by destruct c.
    + exists (m_zoneMobIndex (c_mob c)), (c_zoneClientIndex c). by rewrite client_indexes_id.
Qed.

Lemma only_index_refl s : only_index_moved s s.
Proof.
  split; [intros b m Hb; exists (m_zoneMobIndex m); by rewrite mob_index_id|].
  intros b c Hb. exists (m_zoneMobIndex (c_mob c)), (c_zoneClientIndex c). by rewrite client_indexes_id.
Qed.
Lemma only_index_trans s1 s2 s3 : only_index_moved s1 s2 → only_index_moved s2 s3 → only_index_moved s1 s3.
Proof.
  intros [H1 H1'] [H2 H2']. split.
  - intros b m Hb. destruct (H1 b m Hb) as (i & Hi). destruct (H2 b _ Hi) as (j & Hj). by exists j.
  - intros b c Hb. destruct (H1' b c Hb) as (i & k & Hi). destruct (H2' b _ Hi) as (j & k' & Hj). by exists j, k'.
Qed.
Lemma only_index_put_zone s s' zn z : only_index_moved s s' → only_index_moved s (put_zone zn z s').
Proof. done. Qed.

(** Taking mob [a] out, from place [j] and entity id [e + 1]; mob [b] moves from
    the end to place [j]. *)
Section Moved.
Context (s s' : ZC) (z : Zone) (ps : list MobByPosition) (j a b e : nat) (pa : MobByPosition).
Context (Hco : coherent s z) (Hun : unlisted z a) (Hpa : z_mobsByPosition z !! j = Some pa) (Ha : p_mob pa = a).
Context (He : z_mobsByEntityId z !! e = Some (Some a)).
Context (Hp31 : Z.of_nat (length (z_mobsByPosition z)) < 2 ^ 31).
Context (Hps : length ps = (length (z_mobsByPosition z) - 1)%nat).
Context (Hlook : ∀ i, (i < length ps)%nat → ps !! i = z_mobsByPosition z !! (if decide (i = j) then length ps else i)).
Context (Hb : ∀ p, z_mobsByPosition z !! length ps = Some p → p_mob p = b).
Context (Hfind : ∀ c m, c ≠ a → find_mob c s = Some m →
  find_mob c s' = Some (if decide (c = b) then m <| m_zoneMobIndex := Z.of_nat j |> else m)).
Context (Hcl : ∀ c k, c ≠ a → clients s !! c = Some k →
  clients s' !! c = Some (if decide (c = b) then k <| c_mob := c_mob k <| m_zoneMobIndex := Z.of_nat j |> |> else k)).

Lemma moved_last i p : z_mobsByPosition z !! i = Some p → (p_mob p = b ↔ i = length ps).
Proof.
  intros Hp. split; [|intros ->; by apply Hb]. intros Hpb. pose proof (lookup_lt_Some _ _ _ Hpa).
  destruct (lookup_lt_is_Some_2 (z_mobsByPosition z) (length ps)) as [q Hq]; [lia|].
  eapply (positions_unique s z); [done..|]. rewrite Hpb. symmetry. by apply Hb.
Qed.

Lemma moved_place i p : z_mobsByPosition z !! i = Some p → p_mob p ≠ a → ps !! (if decide (p_mob p = b) then j else i) = Some p.
Proof.
  intros Hp Hne. pose proof (lookup_lt_Some _ _ _ Hp). pose proof (moved_last i p Hp) as Hlast. pose proof (lookup_lt_Some _ _ _ Hpa).
  assert (i ≠ j) by (intros ->; congruence).
  destruct (decide (p_mob p = b)) as [Hpb|Hpb].
  - apply Hlast in Hpb. rewrite Hlook, decide_True by (done || lia). by rewrite <- Hpb.
  - assert (i ≠ length ps) by tauto. rewrite Hlook, decide_False by (done || lia). done.
Qed.

Lemma moved_from i p : ps !! i = Some p → ∃ k, z_mobsByPosition z !! k = Some p ∧ p_mob p ≠ a ∧ i = if decide (p_mob p = b) then j else k.
Proof.
  intros Hp. pose proof (lookup_lt_Some _ _ _ Hp) as Hi. rewrite Hlook in Hp by done. eexists. split; [exact Hp|].
  pose proof (moved_last _ _ Hp) as Hlast.
  assert (Hne : p_mob p ≠ a).
  { intros Heq. assert (Hk : (if decide (i = j) then length ps else i) = j) by (eapply (positions_unique s z); [done..|congruence]).
    destruct (decide (i = j)); lia. }
  split; [done|]. destruct (decide (i = j)) as [->|Hij].
  - by rewrite decide_True by (by apply Hlast).
  - rewrite decide_False; [done|]. intros Hpb. apply Hlast in Hpb. lia.
Qed.

Lemma moved_coherent : coherent s' (without_mob z ps e) ∧ ¬ in_zone (without_mob z ps e) a.
Proof.
  assert (Hj31 : Z.of_nat j < 2 ^ 31) by (apply lookup_lt_Some in Hpa; lia).
  assert (Hpl : ∀ c m, c ≠ a → (∃ p, z_mobsByPosition z !! index_of (m_zoneMobIndex m) = Some p ∧ p_mob p = c) →
    ∃ p, ps !! index_of (m_zoneMobIndex (if decide (c = b) then m <| m_zoneMobIndex := Z.of_nat j |> else m)) = Some p ∧ p_mob p = c).
  { intros c m Hc (p & Hp & <-). exists p. split; [|done]. pose proof (moved_place _ _ Hp Hc) as Hps'.
    destruct (decide (p_mob p = b)); [cbn; by rewrite index_of_nat|done]. }
  split; [split|].
  - intros i p Hp. destruct (moved_from i p Hp) as (k & Hk & Hpne & Hi). destruct (co_positions _ _ Hco k p Hk) as (m & Hm & Hmi & Hxyz & Hpos & Hent).
    eexists. split; [by apply Hfind|]. cbn [without_mob].
    assert (Hee : z_mobsByEntityId (without_mob z ps e) !! index_of (m_entityId m - 1) = Some (Some (p_mob p))).
    { cbn. rewrite list_lookup_insert_ne; [done|]. intros Heq. rewrite <- Heq, He in Hent. congruence. }
    destruct (decide (p_mob p = b)); split_and!; try done; by rewrite Hi.
  - intros i c Hc. cbn in Hc. destruct (decide (e = i)) as [->|Hei].
    { rewrite list_lookup_insert_eq in Hc by (by eapply lookup_lt_Some). done. }
    rewrite list_lookup_insert_ne in Hc by done. destruct (co_entities _ _ Hco i c Hc) as (m & Hm & Hmi & Hp).
    assert (Hca : c ≠ a).
    { intros ->. destruct (co_entities _ _ Hco e a He) as (m' & Hm' & Hme & _). rewrite Hm in Hm'. simplify_eq. lia. }
    eexists. split; [by apply Hfind|]. split; [by destruct (decide (c = b))|]. cbn [without_mob]. by apply Hpl.
  - intros i l Hl. assert (Hla : ls_client l ≠ a) by (by eapply Hun). destruct (co_listings _ _ Hco i l Hl) as (k & Hk & Hki & Hp).
    eexists. split; [by apply Hcl|]. split; [by destruct (decide (ls_client l = b))|].
    pose proof (Hpl (ls_client l) (c_mob k) Hla Hp) as Hp'. by destruct (decide (ls_client l = b)).
  - intros (i & p & Hp & Hpa'). destruct (moved_from i p Hp) as (k & _ & Hne & _). done.
Qed.
End Moved.

Lemma mob_client_cases s a b m (j : Z) : find_mob b s = Some m → a ≠ b →
  (∀ c k, find_mob c s = Some k → find_mob c (put_mob b (m <| m_zoneMobIndex := j |>) s) = Some (if decide (c = b) then k <| m_zoneMobIndex := j |> else k)) ∧
  (∀ c k, clients s !! c = Some k → clients (put_mob b (m <| m_zoneMobIndex := j |>) s) !! c =
     Some (if decide (c = b) then k <| c_mob := c_mob k <| m_zoneMobIndex := j |> |> else k)).
Proof.
  intros Hm Hab. split; intros c k Hk.
  - rewrite find_put_mob. destruct (decide (c = b)) as [->|]; [|done]. by simplify_eq.
  - rewrite (clients_put_mob _ _ _ _ k) by done. destruct (decide (c = b)) as [->|]; [|done].
    rewrite (find_client_mob _ _ k Hk) in Hm. by simplify_eq.
Qed.

Lemma and_split3 (A B C : Prop) : A ∧ B → C → A ∧ B ∧ C.
Proof. tauto. Qed.

Lemma take_mob_ok zn z j e pa a s : zones s !! zn = Some z → coherent s z → unlisted z a →
  Z.of_nat (length (z_mobsByPosition z)) < 2 ^ 31 → z_mobsByPosition z !! j = Some pa → p_mob pa = a →
  z_mobsByEntityId z !! e = Some (Some a) →
  ∃ s' ps, (take_position zn z j ;; clear_entity zn e) s = (Ok tt, s') ∧ length ps = (length (z_mobsByPosition z) - 1)%nat ∧
    zones s' = <[zn := without_mob z ps e]> (zones s) ∧ coherent s' (without_mob z ps e) ∧ ¬ in_zone (without_mob z ps e) a ∧ only_index_moved s s'.
Proof.
  intros Hz Hco Hun Hp31 Hj Ha He. pose proof (lookup_lt_Some _ _ _ Hj) as Hlt. unfold take_position.
  destruct (swap_and_pop_ok _ _ _ Hj) as (ps & -> & Hps & Hlook). set (n := (length (z_mobsByPosition z) - 1)%nat) in *.
  assert (Hclear : ∀ s1, zones s1 !! zn = Some (z <| z_mobsByPosition := ps |>) →
    clear_entity zn e s1 = (Ok tt, put_zone zn (without_mob z ps e) s1)).
  { intros s1 Hz1. unfold clear_entity. erewrite bind_ok by (by apply zone_at_ok).
    erewrite (bind_ok (lift _) _ s1 (Some a) s1) by (cbn; by rewrite He). rewrite (upd_zone_ok s1 zn _ _ Hz1). done. }
  destruct (Nat.eqb_spec j n) as [->|Hne]; cbn [negb].
  - exists (put_zone zn (without_mob z ps e) s), ps. split.
    { erewrite bind_ok by (erewrite bind_ok by (by apply upd_zone_ok); reflexivity). rewrite Hclear by apply put_zone_lookup.
      by rewrite put_zone_twice. }
    split; [done|]. split; [done|]. apply and_split3; [|apply only_index_put_zone, only_index_refl].
    eapply (moved_coherent s _ z ps n a a e pa); try done; rewrite ?Hps; try done.
    + intros p Hp. fold n in Hp. by simplify_eq.
    + intros c m Hc Hm. by rewrite decide_False.
    + intros c k Hc Hk. by rewrite decide_False.
  - destruct (lookup_lt_is_Some_2 (z_mobsByPosition z) n) as [q Hq]; [lia|].
    assert (Hpj : ps !! j = Some q) by (rewrite Hlook by lia; by rewrite decide_True).
    destruct (co_positions _ _ Hco n q Hq) as (m & Hm & Hmi & _). set (b := p_mob q) in *.
    assert (Hab : a ≠ b) by (intros ->; apply Hne; eapply (positions_unique s z); eauto).
    set (s1 := put_zone zn (z <| z_mobsByPosition := ps |>) s).
    exists (put_zone zn (without_mob z ps e) (put_mob b (m <| m_zoneMobIndex := Z.of_nat j |>) s1)), ps. split.
    { erewrite bind_ok.
      2: { erewrite bind_ok by (by apply upd_zone_ok). fold s1. rewrite Hpj. erewrite (bind_ok (lift _) _ s1 q s1) by done.
           by apply upd_mob_ok. }
      rewrite Hclear by (rewrite (proj1 (put_mob_fields _ _ _)); apply put_zone_lookup). reflexivity. }
    split; [done|]. split; [unfold put_zone; cbn; rewrite (proj1 (put_mob_fields _ _ _)); cbn; by rewrite insert_insert_eq|].
    destruct (mob_client_cases s1 a b m (Z.of_nat j) Hm Hab) as [H1 H2].
    apply and_split3; [|by apply only_index_put_zone, (only_index_put_mob s1)].
    eapply (moved_coherent s _ z ps j a b e pa); try done; rewrite ?Hps; try done.
    + intros p Hp. fold n in Hp. by simplify_eq.
    + intros c k _ Hk. apply H1, Hk.
    + intros c k _ Hk. apply H2, Hk.
Qed.

Lemma remove_as_steps zn a s z c i j e : zones s !! zn = Some z → clients s !! a = Some c →
  c_zoneClientIndex c = Z.of_nat i → m_zoneMobIndex (c_mob c) = Z.of_nat j → m_entityId (c_mob c) = Z.of_nat e + 1 →
  Z.of_nat i < 2 ^ 31 → Z.of_nat j < 2 ^ 31 → Z.of_nat e < 2 ^ 31 →
  zone_remove_client zn a s = (take_listing zn z i ;; take_position zn z j ;; clear_entity zn e) s.
Proof.
  intros Hz Hc Hi Hj He Hi31 Hj31 He31. unfold zone_remove_client, mob_entity_id.
  erewrite bind_ok by (by apply zclient_at_ok). cbv zeta. erewrite bind_ok by (by apply zone_at_ok).
  rewrite Hi, Hj, He, Z.add_simpl_r, !index_of_nat, (proj2 (Z.eqb_neq (Z.of_nat e + 1) 0)) by lia.
  unfold take_listing, take_position, clear_entity.
  destruct (swap_and_pop (z_clientList z) i) as [b1 l1], (swap_and_pop (z_mobsByPosition z) j) as [b2 l2].
  rewrite bind_assoc. apply bind_ext. intros [] s1. apply bind_ext. intros [] s2. by rewrite bind_assoc.
Qed.

Lemma remove_client_ok zn a s z c i l : zones s !! zn = Some z → coherent s z → roomy z → clients s !! a = Some c →
  z_clientList z !! i = Some l → ls_client l = a →
  ∃ s' z', zone_remove_client zn a s = (Ok tt, s') ∧ zones s' = <[zn := z']> (zones s) ∧ coherent s' z' ∧
    ¬ in_zone z' a ∧ unlisted z' a ∧ zone_get_mob_by_entity_id (m_entityId (c_mob c)) z' = None ∧ only_index_moved s s' ∧
    length (z_clientList z') = (length (z_clientList z) - 1)%nat ∧ length (z_mobsByPosition z') = (length (z_mobsByPosition z) - 1)%nat.
Proof.
  intros Hz Hco (Hre & Hrp & Hrc) Hc Hi Hl. destruct (co_listings _ _ Hco i l Hi) as (c' & Hc' & Hci & p & Hp & Hpa).
  rewrite Hl in Hc', Hpa. rewrite Hc in Hc'. simplify_eq.
  destruct (co_positions _ _ Hco _ p Hp) as (m & Hm & Hmj & _ & Hpos & Hent). rewrite Hpa in Hm, Hent.
  rewrite (find_client_mob _ _ c') in Hm by done. simplify_eq.
  set (j := index_of (m_zoneMobIndex (c_mob c'))) in *. set (e := index_of (m_entityId (c_mob c') - 1)) in *.
  destruct (co_entities _ _ Hco e _ Hent) as (m & Hm & Hme & _). rewrite (find_client_mob _ _ c') in Hm by done. simplify_eq.
  pose proof (lookup_lt_Some _ _ _ Hi). pose proof (lookup_lt_Some _ _ _ Hp). pose proof (lookup_lt_Some _ _ _ Hent).
  destruct (take_listing_ok zn z i l (ls_client l) s Hz Hco ltac:(lia) Hi eq_refl) as (s1 & ls & Hs1 & Hz1 & Hls & Hco1 & Hun & Hc1 & Hmv1).
  destruct (take_mob_ok zn (z <| z_clientList := ls |>) j e p (ls_client l) s1) as (s2 & ps & Hs2 & Hps & Hz2 & Hco2 & Hout & Hmv2); try done.
  { rewrite Hz1. apply lookup_insert_eq. } { cbn. lia. }
  exists s2, (without_mob (z <| z_clientList := ls |>) ps e). split.
  { rewrite (remove_as_steps zn _ s z c' i j e) by (done || lia). erewrite bind_ok by exact Hs1. exact Hs2. }
  split; [rewrite Hz2, Hz1; apply insert_insert_eq|]. split_and!; try done.
  - unfold zone_get_mob_by_entity_id. fold e. cbn. by rewrite list_lookup_insert_eq by (by eapply lookup_lt_Some).
  - by eapply only_index_trans.
Qed.

(** ** Entering and leaving a zone *)

(** C37: A client that enters a zone is found there: it gets the least entity
    id that no mob of the zone has, the id leads back to it, and the zone's
    three lists (entity ids, positions, clients) still agree with what every mob
    and client of the zone records about its own places. *)
Theorem spawned_client_is_found (junk : Z) (zn a : nat) (z : Zone) (c : Client) (s : ZC)
    (Hz : zones s !! zn = Some z) (Hc : clients s !! a = Some c) (Hco : coherent s z) (Hroom : roomy z) (Hout : ¬ in_zone z a) :
  ∃ s' z' c', zone_spawn_client junk zn a s = (Ok tt, s') ∧ zones s' !! zn = Some z' ∧ clients s' !! a = Some c' ∧
    coherent s' z' ∧ in_zone z' a ∧ zone_get_mob_by_entity_id (m_entityId (c_mob c')) z' = Some a ∧
    zone_get_mob_by_entity_id (m_entityId (c_mob c')) z = None ∧
    ∀ id, 1 ≤ id < m_entityId (c_mob c') → ∃ b, zone_get_mob_by_entity_id id z = Some b ∧ b ≠ a.
Proof.
  exists (put_zclient a (spawned z c) (put_zone zn (with_client junk a c z) s)), (with_client junk a c z), (spawned z c).
  destruct (first_gap_spec (z_mobsByEntityId z) 0) as (_ & Hle & Hbelow & Hgap). rewrite Nat.sub_0_r in Hgap.
  assert (Hid : m_entityId (c_mob (spawned z c)) = Z.of_nat (first_gap (z_mobsByEntityId z) 0) + 1) by (by apply spawned_entity_id).
  pose proof (index_of_nat (first_gap (z_mobsByEntityId z) 0) ltac:(destruct Hroom; lia)) as Hix.
  split; [by apply spawn_client_ok|]. split; [apply put_zone_lookup|]. split; [apply put_zclient_lookup|].
  split; [by apply spawn_coherent_ok|]. split.
  { exists (length (z_mobsByPosition z)). rewrite with_client_positions, lookup_app_r, Nat.sub_diag by lia. by eexists. }
  rewrite Hid. unfold zone_get_mob_by_entity_id. rewrite Z.add_simpl_r, Hix. split; [|split].
  - by rewrite with_client_entities, entity_put_lookup, decide_True.
  - destruct (decide (first_gap (z_mobsByEntityId z) 0 < length (z_mobsByEntityId z))%nat) as [Hlt|Hge]; [by rewrite Hgap|].
    by rewrite lookup_ge_None_2 by lia.
  - intros id Hr. replace (id - 1) with (Z.of_nat (Z.to_nat (id - 1))) by lia. rewrite index_of_nat by (destruct Hroom; lia).
    destruct (Hbelow (Z.to_nat (id - 1))) as (b & Hb); [lia|]. rewrite Nat.sub_0_r in Hb. exists b. rewrite Hb.
    split; [done|]. intros ->. apply Hout. by eapply entity_in_zone.
Qed.

(** C13: A client that is taken out of its zone is gone from all three lists and
    its entity id names nobody, while the mobs that were moved into the gaps
    know their new places: the lists still agree with every mob and client that
    stays, and nothing but those places changed. *)
Theorem removed_client_is_gone (zn a : nat) (s : ZC) (z : Zone) (c : Client) (i : nat) (l : ClientListing)
    (Hz : zones s !! zn = Some z) (Hco : coherent s z) (Hroom : roomy z) (Hc : clients s !! a = Some c)
    (Hi : z_clientList z !! i = Some l) (Hl : ls_client l = a) :
  ∃ s' z', zone_remove_client zn a s = (Ok tt, s') ∧ zones s' = <[zn := z']> (zones s) ∧ coherent s' z' ∧
    ¬ in_zone z' a ∧ unlisted z' a ∧ zone_get_mob_by_entity_id (m_entityId (c_mob c)) z' = None ∧ only_index_moved s s' ∧
    length (z_clientList z') = (length (z_clientList z) - 1)%nat ∧ length (z_mobsByPosition z') = (length (z_mobsByPosition z) - 1)%nat.
Proof. by eapply remove_client_ok. Qed.

(** Two clients for zone 1, before and after they enter. *)
Definition client_named (name : list Z) : Client := client_init 1 (mkZoning 1 0 7 false true [] name).
Definition two_clients : ZC :=
  no_zc <| zones := {[1%nat := zone_create 4 4 0 None]} |>
    <| clients := list_to_map [(11%nat, client_named (text "Aa")); (12%nat, client_named (text "Bb"))] |>.
Definition first_entered : ZC := snd (zone_spawn_client 0 1 11 two_clients).
Definition both_entered : ZC := snd (zone_spawn_client 0 1 12 first_entered).

Lemma empty_zone_coherent s z : z_mobsByPosition z = [] → z_mobsByEntityId z = [] → z_clientList z = [] → coherent s z ∧ ∀ a, ¬ in_zone z a.
Proof. intros Hp He Hl. split; [split; intros i x; by rewrite ?Hp, ?He, ?Hl|]. intros a (i & p & Hi & _). by rewrite Hp in Hi. Qed.

Example spawned_client_is_found_witness :
  ∃ s' z' c', zone_spawn_client 0 1 11 two_clients = (Ok tt, s') ∧ zones s' !! 1%nat = Some z' ∧ clients s' !! 11%nat = Some c' ∧
    coherent s' z' ∧ in_zone z' 11 ∧ zone_get_mob_by_entity_id (m_entityId (c_mob c')) z' = Some 11%nat ∧
    zone_get_mob_by_entity_id (m_entityId (c_mob c')) (zone_create 4 4 0 None) = None ∧
    ∀ id, 1 ≤ id < m_entityId (c_mob c') → ∃ b, zone_get_mob_by_entity_id id (zone_create 4 4 0 None) = Some b ∧ b ≠ 11%nat.
Proof.
  apply (spawned_client_is_found 0 1 11 (zone_create 4 4 0 None) (client_named (text "Aa")) two_clients).
  - reflexivity.
  - reflexivity.
  - exact (proj1 (empty_zone_coherent two_clients (zone_create 4 4 0 None) eq_refl eq_refl eq_refl)).
  - by vm_compute.
  - exact (proj2 (empty_zone_coherent no_zc (zone_create 4 4 0 None) eq_refl eq_refl eq_refl) 11%nat).
Defined.

Lemma enter_coherent junk zn a z c s : zones s !! zn = Some z → clients s !! a = Some c → coherent s z → roomy z → ¬ in_zone z a →
  let s' := snd (zone_spawn_client junk zn a s) in zones s' !! zn = Some (with_client junk a c z) ∧ coherent s' (with_client junk a c z).
Proof.
  intros Hz Hc Hco Hroom Hout. cbv zeta. rewrite (spawn_client_ok junk zn a z c s Hz Hc). cbn [snd].
  split; [apply put_zone_lookup|by apply spawn_coherent_ok].
Qed.

Definition zone_of_two : Zone :=
  with_client 0 12 (client_named (text "Bb")) (with_client 0 11 (client_named (text "Aa")) (zone_create 4 4 0 None)).
Lemma both_coherent : zones both_entered !! 1%nat = Some zone_of_two ∧ coherent both_entered zone_of_two.
Proof.
  destruct (enter_coherent 0 1 11 (zone_create 4 4 0 None) (client_named (text "Aa")) two_clients) as [Hz Hco]; [reflexivity..| | | |].
  { exact (proj1 (empty_zone_coherent two_clients (zone_create 4 4 0 None) eq_refl eq_refl eq_refl)). }
  { by vm_compute. } { exact (proj2 (empty_zone_coherent no_zc (zone_create 4 4 0 None) eq_refl eq_refl eq_refl) 11%nat). }
  apply enter_coherent; [exact Hz|reflexivity|exact Hco|by vm_compute|].
  intros ([|i] & p & Hi & Hp); cbn in Hi; simplify_eq.
Qed.

Example removed_client_is_gone_witness :
  ∃ s' z', zone_remove_client 1 11 both_entered = (Ok tt, s') ∧ zones s' = <[1%nat := z']> (zones both_entered) ∧ coherent s' z' ∧
    ¬ in_zone z' 11 ∧ unlisted z' 11 ∧ zone_get_mob_by_entity_id 1 z' = None ∧ only_index_moved both_entered s' ∧
    length (z_clientList z') = 1%nat ∧ length (z_mobsByPosition z') = 1%nat.
Proof.
  destruct both_coherent as [Hz Hco].
  refine (removed_client_is_gone 1 11 both_entered zone_of_two (default no_client (clients both_entered !! 11%nat)) 0 (mkListing 0 false 11) Hz Hco _ _ _ _).
  - vm_compute. repeat split.
  - vm_compute. reflexivity.
  - vm_compute. reflexivity.
  - reflexivity.
Defined.
