(* ===== verification/Fills.v ===== *)
(** What a writer leaves in a buffer, as a pattern of bytes that are written and
    bytes that stay: the rules for loops, for parts that are skipped, and for
    tables of cells that are filled in place with the cursor set back. *)

From S2P Require Import Prelude Aligned Text Servers.

(** [w] lays [p] down at the cursor and moves past it, when it fits. *)
Definition fills (w : code Aligned unit) (p : list (option Z)) : Prop :=
  ∀ a, wf a → cursor a + Z.of_nat (length p) ≤ length_ a →
    w a = (Ok tt, mkAligned (cursor a + Z.of_nat (length p)) (length_ a) (overlay (cursor a) p (buffer a))).

(** [w] lays [p] down and leaves the cursor. *)
Definition paints (w : code Aligned unit) (p : list (option Z)) : Prop :=
  ∀ a, wf a → cursor a + Z.of_nat (length p) ≤ length_ a → w a = (Ok tt, with_buffer a (overlay (cursor a) p (buffer a))).

Definition nones (n : nat) : list (option Z) := replicate n None.

Lemma fills_emits w p : emits w p → fills w p.
Proof. intros H a Ha Hl. by apply H. Qed.
Lemma fills_eq w p q : p = q → fills w p → fills w q.
Proof. by intros ->. Qed.
Lemma fills_ext w w' p : (∀ a, w a = w' a) → fills w p → fills w' p.
Proof. intros He Hw a Ha. rewrite <- He. by apply Hw. Qed.

Lemma wf_moved a p : wf a → cursor a + Z.of_nat (length p) ≤ length_ a →
  wf (mkAligned (cursor a + Z.of_nat (length p)) (length_ a) (overlay (cursor a) p (buffer a))).
Proof. intros (? & ? & ?) ?. split_and!; cbn; [lia..| |lia]. by rewrite overlay_length by lia. Qed.
Lemma wf_painted a p : wf a → cursor a + Z.of_nat (length p) ≤ length_ a → wf (with_buffer a (overlay (cursor a) p (buffer a))).
Proof. intros (? & ? & ?) ?. split_and!; cbn; [lia..| |lia]. by rewrite overlay_length by lia. Qed.

Lemma fills_seq w1 w2 p1 p2 : fills w1 p1 → fills w2 p2 → fills (w1 ;; w2) (p1 ++ p2).
Proof.
  intros H1 H2 a Ha Hl. rewrite length_app in *. erewrite bind_ok by (apply H1; [done|lia]).
  rewrite H2 by (first [apply wf_moved; [done|lia]|cbn; lia]). cbn. destruct Ha as (? & ? & ?). rewrite overlay_app by lia.
  do 2 f_equal. lia.
Qed.
Lemma fills_app w1 w2 p1 p2 p : p = p1 ++ p2 → fills w1 p1 → fills w2 p2 → fills (w1 ;; w2) p.
Proof. intros ->. apply fills_seq. Qed.

Lemma fills_nil : fills (mret tt) [].
Proof. apply fills_emits, emits_nil. Qed.

Lemma fills_skip n : 0 ≤ n < 2 ^ 32 → fills (_ ← aligned_advance (u32 n); mret tt) (nones (Z.to_nat n)).
Proof.
  intros Hn. rewrite wrap_small by done. apply fills_emits. unfold nones. rewrite <- (app_nil_r (replicate _ _)).
  apply (emits_advance n (mret tt) []); [lia|apply emits_nil].
Qed.

Lemma fills_each {A} (xs : list A) f (p : A → list (option Z)) : Forall (λ x, fills (f x) (p x)) xs → fills (each xs f) (concat (p <$> xs)).
Proof. induction 1 as [|x xs Hx _ IH]; [apply fills_nil|]. cbn [each fmap list_fmap concat]. by apply fills_seq. Qed.

Lemma fills_lift {A} (o : outcome A) (v : A) (f : A → code Aligned unit) p : o = Ok v → fills (f v) p → fills (x ← lift o; f x) p.
Proof. intros ->. by apply fills_ext. Qed.

Lemma paints_fills w p n : paints w p → n = Z.of_nat (length p) → n < 2 ^ 32 → fills (w ;; (_ ← aligned_advance (u32 n); mret tt)) p.
Proof.
  intros Hw -> Hn a Ha Hl. erewrite bind_ok by (by apply Hw).
  set (a' := with_buffer a _). assert (Ha' : wf a') by (by apply wf_painted).
  assert (Hn' : length (nones (Z.to_nat (Z.of_nat (length p)))) = length p) by (unfold nones; rewrite length_replicate; lia).
  rewrite fills_skip by (first [lia|done|rewrite Hn'; cbn; lia]). rewrite Hn'. unfold nones. rewrite Nat2Z.id.
  destruct Ha' as (? & ? & ?). rewrite overlay_nones by (cbn in *; lia). done.
Qed.

(** ** Painting twice *)
Definition over (new old : list (option Z)) : list (option Z) :=
  zip_with (λ n o, match n with Some b => Some b | None => o end) new old ++ drop (length new) old.

Lemma over_length new old : (length new ≤ length old)%nat → length (over new old) = length old.
Proof. intros H. unfold over. rewrite length_app, length_zip_with, length_drop. lia. Qed.

Lemma over_lookup new old i : (length new ≤ length old)%nat →
  mjoin (over new old !! i) = match mjoin (new !! i) with Some b => Some b | None => mjoin (old !! i) end.
Proof.
  intros H. unfold over. destruct (decide (i < length new)%nat) as [Hi|Hi].
  - rewrite lookup_app_l by (rewrite length_zip_with; lia). rewrite lookup_zip_with.
    destruct (lookup_lt_is_Some_2 new i Hi) as [n ->]. destruct (lookup_lt_is_Some_2 old i) as [o ->]; [lia|]. by destruct n.
  - rewrite lookup_app_r, length_zip_with, lookup_drop by (rewrite length_zip_with; lia).
    rewrite (lookup_ge_None_2 new) by lia. cbn. do 2 f_equal. lia.
Qed.

(** A part of what was painted is painted over. *)
Lemma overlay_inner c A q cell B buf : 0 ≤ c → (length q ≤ length cell)%nat →
  c + Z.of_nat (length (A ++ cell ++ B)) ≤ Z.of_nat (length buf) →
  overlay (c + Z.of_nat (length A)) q (overlay c (A ++ cell ++ B) buf) = overlay c (A ++ over q cell ++ B) buf.
Proof.
  intros Hc Hq Hl. assert (Hlen : length (A ++ over q cell ++ B) = length (A ++ cell ++ B)) by (rewrite !length_app, over_length by done; done).
  apply list_eq. intros i. rewrite !length_app in *.
  rewrite overlay_lookup by (rewrite ?overlay_length; rewrite ?length_app; lia).
  rewrite !overlay_lookup by (rewrite ?length_app, ?over_length; lia). rewrite !length_app, over_length by done.
  replace (Z.to_nat (c + Z.of_nat (length A))) with (Z.to_nat c + length A)%nat by lia.
  destruct (buf !! i) as [old|]; [|by repeat case_decide]. repeat case_decide; try lia; try done; cbn; f_equal.
  - rewrite !(lookup_app_r A) by lia. rewrite (lookup_app_l cell) by lia.
    rewrite (lookup_app_l (over q cell)) by (rewrite over_length; lia). rewrite over_lookup by done.
    replace (i - (Z.to_nat c + length A))%nat with (i - Z.to_nat c - length A)%nat by lia.
    by destruct (mjoin (q !! _)).
  - destruct (decide (i - Z.to_nat c < length A)%nat); [by rewrite !lookup_app_l by lia|]. rewrite !(lookup_app_r A) by lia.
    destruct (decide (i - Z.to_nat c - length A < length cell)%nat).
    + rewrite (lookup_app_l cell), (lookup_app_l (over q cell)) by (rewrite ?over_length; lia). rewrite over_lookup by done.
      by rewrite (lookup_ge_None_2 q) by lia.
    + rewrite (lookup_app_r cell), (lookup_app_r (over q cell)) by (rewrite ?over_length; lia). by rewrite over_length.
Qed.

(** ** Tables

    A table of [n] cells of [k] bytes; each of [xs] is written into the cell
    [idx x], from the cell's start on. *)
Definition put_cells {X} (idx : X → nat) (q : X → list (option Z)) (xs : list X) (cells : list (list (option Z))) : list (list (option Z)) :=
  fold_left (λ cells x, alter (over (q x)) (idx x) cells) xs cells.

Definition table (n k : nat) (cells : list (list (option Z))) : Prop := length cells = n ∧ Forall (λ cell, length cell = k) cells.

Lemma table_length n k cells : table n k cells → length (concat cells) = (n * k)%nat.
Proof. intros [<- H]. induction H as [|cell cells Hc _ IH]; [done|]. cbn [concat length]. rewrite length_app, Hc, IH. lia. Qed.

Lemma table_put_cell n k cells i q : table n k cells → (length q ≤ k)%nat → table n k (alter (over q) i cells).
Proof.
  intros [Hn Hk] Hq. split; [by rewrite length_alter|]. apply Forall_lookup. intros j cell Hj.
  destruct (decide (j = i)) as [->|Hne].
  - rewrite list_lookup_alter_eq in Hj. destruct (cells !! i) as [old|] eqn:Hold; [|done]. injection Hj as <-.
    assert (length old = k) by (by eapply Forall_lookup_1 in Hk). rewrite over_length; lia.
  - rewrite list_lookup_alter_ne in Hj by done. by eapply Forall_lookup_1 in Hk.
Qed.

Lemma put_cells_table {X} idx (q : X → list (option Z)) n k xs cells : table n k cells → Forall (λ x, (length (q x) ≤ k)%nat) xs →
  table n k (put_cells idx q xs cells).
Proof.
  intros Ht Hx. revert cells Ht. induction Hx as [|x xs Hx _ IH]; intros cells Ht; [done|]. apply IH. by apply table_put_cell.
Qed.

Lemma paint_cell n k cells i q c buf : table n k cells → (i < n)%nat → (length q ≤ k)%nat → 0 ≤ c →
  c + Z.of_nat (n * k) ≤ Z.of_nat (length buf) →
  overlay (c + Z.of_nat (k * i)) q (overlay c (concat cells) buf) = overlay c (concat (alter (over q) i cells)) buf.
Proof.
  intros Ht Hi Hq Hc Hl. pose proof (table_length n k cells Ht) as Hlen. destruct Ht as [Hn Hk].
  destruct (lookup_lt_is_Some_2 cells i) as [cell Hcell]; [lia|]. assert (Hck : length cell = k) by (by eapply Forall_lookup_1 in Hk).
  rewrite (alter_as_insert _ _ _ cell) by done. rewrite list_insert_take_drop by lia.
  rewrite <- (take_drop_middle cells i cell Hcell) in Hlen |- * at 1. rewrite !concat_app in *. cbn [concat] in *.
  replace (k * i)%nat with (length (concat (take i cells))).
  - apply overlay_inner; [done|lia|lia].
  - rewrite (table_length i k); [lia|]. split; [rewrite length_take; lia|by apply Forall_take].
Qed.

(** What one round of the loop does, with the cursor at the table's start. *)
Definition cell_writer {X} (idx : X → nat) (k : nat) (q : X → list (option Z)) (body : Z → X → code Aligned unit) (x : X) : Prop :=
  ∃ w, (∀ reset a, body reset x a = (w ;; aligned_reset_to reset) a) ∧ fills w (nones (k * idx x) ++ q x) ∧ (length (q x) ≤ k)%nat.

Lemma each_cells {X} idx k (q : X → list (option Z)) body n xs : Forall (λ x, cell_writer idx k q body x ∧ (idx x < n)%nat) xs →
  ∀ cells c L buf, table n k cells → wf (mkAligned c L buf) → c + Z.of_nat (n * k) ≤ L →
  each xs (body c) (mkAligned c L (overlay c (concat cells) buf)) = (Ok tt, mkAligned c L (overlay c (concat (put_cells idx q xs cells)) buf)).
Proof.
  induction 1 as [|x xs [(w & Hbody & Hw & Hq) Hi] _ IH]; intros cells c L buf Ht (Hc & Hl & H32) Hfit; [done|]. cbn [each].
  cbn in Hc, Hl, H32. pose proof (table_length n k cells Ht) as Hlen.
  assert (Hsz : (k * idx x + length (q x) ≤ n * k)%nat) by nia.
  assert (Hb : body c x (mkAligned c L (overlay c (concat cells) buf)) =
    (Ok tt, mkAligned c L (overlay c (concat (alter (over (q x)) (idx x) cells)) buf))).
  { rewrite Hbody. erewrite bind_ok.
    2: { apply Hw; [split_and!; cbn; rewrite ?overlay_length by lia; lia|]. cbn. unfold nones. rewrite length_app, length_replicate. lia. }
    unfold aligned_reset_to. run. unfold with_cursor. cbn. do 2 f_equal.
    rewrite <- overlay_app by (unfold nones; rewrite ?overlay_length, ?length_replicate by lia; lia).
    unfold nones. rewrite overlay_nones by (rewrite ?overlay_length by lia; lia). rewrite length_replicate.
    apply (paint_cell n k); (done || lia). }
  rewrite (bind_ok _ _ _ _ _ Hb). apply IH; [by apply table_put_cell|done|done].
Qed.

Lemma paints_table {X} idx k (q : X → list (option Z)) body n xs cells w0 : paints w0 (concat cells) → table n k cells →
  Forall (λ x, cell_writer idx k q body x ∧ (idx x < n)%nat) xs →
  paints (w0 ;; (reset ← gets aligned_position; each xs (body reset))) (concat (put_cells idx q xs cells)).
Proof.
  intros H0 Ht Hxs a Ha Hl. assert (Ht' : table n k (put_cells idx q xs cells)).
  { apply put_cells_table; [done|]. eapply Forall_impl; [exact Hxs|]. by intros x [(w & _ & _ & ?) _]. }
  rewrite (table_length _ _ _ Ht') in Hl. rewrite <- (table_length _ _ _ Ht) in Hl.
  erewrite bind_ok by (by apply H0). unfold gets. unfold mbind at 1, code_bind at 1. cbn [aligned_position cursor with_buffer].
  rewrite (table_length _ _ _ Ht) in Hl. destruct a as [c L buf]. by apply (each_cells idx k q body n).
Qed.

Lemma paints_memset v n : 0 ≤ n → paints (aligned_write_memset_no_advance v n) (replicate (Z.to_nat n) (Some (u8 v))).
Proof.
  intros Hn a (? & ? & ?) Hl. rewrite length_replicate in Hl. unfold aligned_write_memset_no_advance.
  rewrite (bind_ok get _ _ _ _ eq_refl). rewrite put_bytes_ok by (rewrite ?length_replicate; lia). by rewrite fmap_replicate.
Qed.

(** A loop, and the cursor set back. *)
Lemma paints_reset w p : fills w p → paints (reset ← gets aligned_position; w ;; aligned_reset_to reset) p.
Proof.
  intros Hw a Ha Hl. unfold gets, aligned_position. unfold mbind at 1, code_bind at 1.
  erewrite bind_ok by (by apply Hw). by destruct a.
Qed.
Lemma paints_ext w w' p : (∀ a, w a = w' a) → paints w p → paints w' p.
Proof. intros He Hw a Ha. rewrite <- He. by apply Hw. Qed.
