(* ===== verification/Obfuscate.v ===== *)
(** The scrambling of two packets that the Trilogy client expects
    (zone_cluster/mob/client_packet_trilogy_output.c), and how it is undone. *)

From S2P Require Import Prelude Aligned.

(** (w << k) | (w >> (32 - k)) *)
Definition rotl (k w : Z) : Z := u32 (Z.lor (u32 (Z.shiftl w k)) (Z.shiftr w (32 - k))).

(** The loop over the words: both functions run it, with their own rotations
    [a] and [b] and constant [K]. *)
Fixpoint scramble (a b K cur : Z) (ws : list Z) : list Z :=
  match ws with
  | [] => []
  | w :: ws =>
      let next := u32 (cur + w - K) in
      let w := u32 (rotl a w + K) in
      let w := rotl b w in
      u32 (w - cur) :: scramble a b K next ws
  end.

(** The words of a buffer, and the bytes behind the last whole word. *)
Fixpoint words (bytes : list Z) : list Z :=
  match bytes with
  | b0 :: b1 :: b2 :: b3 :: bytes => b0 + 256 * (b1 + 256 * (b2 + 256 * b3)) :: words bytes
  | _ => []
  end.
Definition tail_bytes (bytes : list Z) : list Z := drop (4 * (length bytes / 4)) bytes.
Definition bytes_of (ws : list Z) : list Z := concat (le_bytes 4 <$> ws).

(** ptr[0] and ptr[i] exchanged. *)
Definition swap_first (i : nat) (ws : list Z) : list Z :=
  match ws !! 0%nat, ws !! i with
  | Some w0, Some wi => <[i := w0]> (<[0%nat := wi]> ws)
  | _, _ => ws
  end.

Definition client_trilogy_player_profile_obfuscate (buffer : list Z) : list Z :=
  bytes_of (scramble 0x07 0x0f 0x37a9 0x65e7 (swap_first (length buffer / 8) (words buffer))) ++ tail_bytes buffer.

Definition client_trilogy_spawn_obfuscate (data : list Z) : list Z :=
  bytes_of (scramble 0x09 0x0d 0x65e7 0 (words data)) ++ tail_bytes data.

(** ** Undoing it *)
Definition rotr (k w : Z) : Z := rotl (32 - k) w.

Fixpoint unscramble (a b K cur : Z) (ws : list Z) : list Z :=
  match ws with
  | [] => []
  | w :: ws =>
      let w := rotr a (u32 (rotr b (u32 (w + cur)) - K)) in
      w :: unscramble a b K (u32 (cur + w - K)) ws
  end.

Definition player_profile_restore (buffer : list Z) : list Z :=
  bytes_of (swap_first (length buffer / 8) (unscramble 0x07 0x0f 0x37a9 0x65e7 (words buffer))) ++ tail_bytes buffer.
Definition spawn_restore (data : list Z) : list Z :=
  bytes_of (unscramble 0x09 0x0d 0x65e7 0 (words data)) ++ tail_bytes data.

Lemma is_word_rotl k w : is_word 32 (rotl k w).
Proof. apply is_word_wrap. done. Qed.

Lemma word_high n w i : 0 ≤ n ≤ i → is_word n w → Z.testbit w i = false.
Proof. intros Hi Hw. rewrite <- (Z.mod_small w (2 ^ n)) by exact Hw. apply Z.mod_pow2_bits_high. lia. Qed.

Lemma rotl_testbit k w i : 0 < k < 32 → is_word 32 w → 0 ≤ i < 32 →
  Z.testbit (rotl k w) i = Z.testbit w (if i <? k then i + 32 - k else i - k).
Proof.
  intros Hk Hw Hi. unfold rotl. rewrite wrap_testbit, (proj2 (Z.ltb_lt i 32)), Z.lor_spec, wrap_testbit by lia.
  rewrite (proj2 (Z.ltb_lt i 32)), Z.shiftl_spec, Z.shiftr_spec by lia. cbn [andb].
  destruct (Z.ltb_spec i k).
  - rewrite Z.testbit_neg_r by lia. cbn [orb]. f_equal. lia.
  - rewrite (orb_comm (Z.testbit w (i - k))). by rewrite (word_high 32 w (i + (32 - k))) by (lia || done).
Qed.

Lemma rotr_rotl k w : 0 < k < 32 → is_word 32 w → rotr k (rotl k w) = w.
Proof.
  intros Hk Hw. unfold rotr. apply Z.bits_inj'. intros i Hi. destruct (decide (i < 32)) as [Hlt|].
  - rewrite rotl_testbit by (lia || apply is_word_rotl). destruct (Z.ltb_spec i (32 - k)).
    + rewrite rotl_testbit by (lia || done). rewrite (proj2 (Z.ltb_ge _ _)) by lia. f_equal. lia.
    + rewrite rotl_testbit by (lia || done). rewrite (proj2 (Z.ltb_lt _ _)) by lia. f_equal. lia.
  - by rewrite !(word_high 32) by (lia || done || apply is_word_rotl).
Qed.

Lemma wrap_sub_add w x y : wrap w (wrap w (x - y) + y) = wrap w x.
Proof. unfold wrap. rewrite Zplus_mod_idemp_l. f_equal. lia. Qed.
Lemma wrap_add_sub w x y : wrap w (wrap w (x + y) - y) = wrap w x.
Proof. unfold wrap. rewrite Zminus_mod_idemp_l. f_equal. lia. Qed.

Lemma unscramble_scramble a b K cur ws : 0 < a < 32 → 0 < b < 32 → Forall (is_word 32) ws →
  unscramble a b K cur (scramble a b K cur ws) = ws.
Proof.
  intros Ha Hb Hws. revert cur. induction Hws as [|w ws Hw Hws IH]; intros cur; [done|]. cbn [scramble unscramble].
  rewrite wrap_sub_add, (wrap_small 32 (rotl b _)) by apply is_word_rotl.
  rewrite rotr_rotl by (done || apply is_word_wrap; lia). rewrite wrap_add_sub, (wrap_small 32 (rotl a _)) by apply is_word_rotl.
  rewrite rotr_rotl by done. by rewrite IH.
Qed.

Lemma scramble_words a b K cur ws : Forall (is_word 32) (scramble a b K cur ws).
Proof. revert cur. induction ws as [|w ws IH]; intros cur; constructor; [by apply is_word_wrap|apply IH]. Qed.
Lemma scramble_length a b K cur ws : length (scramble a b K cur ws) = length ws.
Proof. revert cur. induction ws as [|w ws IH]; intros cur; [done|]. simpl. by rewrite IH. Qed.

(** Induction four bytes at a time, the way the words are read. *)
Lemma four_ind (P : list Z → Prop) : (∀ bytes, (length bytes < 4)%nat → P bytes) →
  (∀ b0 b1 b2 b3 bytes, P bytes → P (b0 :: b1 :: b2 :: b3 :: bytes)) → ∀ bytes, P bytes.
Proof.
  intros Hshort Hstep bytes. remember (length bytes) as n eqn:Hn. revert bytes Hn.
  induction (lt_wf n) as [n _ IH]. intros [|b0 [|b1 [|b2 [|b3 bytes]]]] ->; try (apply Hshort; simpl; lia).
  apply Hstep. eapply IH; [|reflexivity]. simpl. lia.
Qed.

Lemma words_short bytes : (length bytes < 4)%nat → words bytes = [].
Proof. destruct bytes as [|? [|? [|? [|]]]]; simpl; [done..|lia]. Qed.

Lemma words_length bytes : length (words bytes) = (length bytes / 4)%nat.
Proof.
  induction bytes as [bytes Hl|b0 b1 b2 b3 bytes IH] using four_ind.
  { by rewrite words_short, Nat.div_small. }
  cbn [words length]. rewrite IH. change (S (S (S (S (length bytes))))) with (4 + length bytes)%nat.
  replace (4 + length bytes)%nat with (1 * 4 + length bytes)%nat by lia. by rewrite Nat.div_add_l.
Qed.

Lemma words_are_words bytes : Forall is_byte bytes → Forall (is_word 32) (words bytes).
Proof.
  induction bytes as [bytes Hl|b0 b1 b2 b3 bytes IH] using four_ind; intros H; [by rewrite words_short|].
  rewrite !Forall_cons in H. destruct H as (H0 & H1 & H2 & H3 & H).
  constructor; [unfold is_word in *; lia|by apply IH].
Qed.

Lemma word_bytes w : is_word 32 w →
  ∃ b0 b1 b2 b3, le_bytes 4 w = [b0; b1; b2; b3] ∧ b0 + 256 * (b1 + 256 * (b2 + 256 * b3)) = w.
Proof.
  unfold is_word, le_bytes, wrap. intros Hw. rewrite !Z.shiftr_div_pow2, !Z.div_div by lia.
  change (2 ^ 8) with 256. do 4 eexists. split; [done|].
  pose proof (Z.div_mod w 256). pose proof (Z.div_mod (w / 256) 256). pose proof (Z.div_mod (w / (256 * 256)) 256).
  pose proof (Z.div_mod (w / (256 * 256 * 256)) 256). rewrite !Z.div_div in * by lia.
  assert (w / (256 * 256 * 256 * 256) = 0) by (apply Z.div_small; lia). lia.
Qed.

Lemma words_bytes ws rest : (length rest < 4)%nat → Forall (is_word 32) ws → words (bytes_of ws ++ rest) = ws.
Proof.
  intros Hr. induction 1 as [|w ws Hw Hws IH].
  - destruct rest as [|? [|? [|? [|]]]]; simpl in Hr; done || lia.
  - unfold bytes_of. cbn [fmap list_fmap concat]. destruct (word_bytes w Hw) as (b0 & b1 & b2 & b3 & -> & <-).
    cbn [app words]. f_equal. apply IH.
Qed.

Lemma bytes_words bytes : Forall is_byte bytes → bytes_of (words bytes) ++ tail_bytes bytes = bytes.
Proof.
  unfold tail_bytes. rewrite <- words_length.
  induction bytes as [bytes Hl|b0 b1 b2 b3 bytes IH] using four_ind; intros H; [by rewrite words_short|]. cbn [words length]. unfold bytes_of. cbn [fmap list_fmap concat]. fold (bytes_of (words bytes)).
  rewrite !Forall_cons in H. destruct H as (H0 & H1 & H2 & H3 & H).
  replace (4 * S (length (words bytes)))%nat with (S (S (S (S (4 * length (words bytes)))))) by lia. cbn [drop].
  rewrite <- app_assoc, IH by done. unfold is_word in *. clear IH.
  assert (Hle : ∀ b v, 0 ≤ b < 256 → u8 (b + 256 * v) = b ∧ Z.shiftr (b + 256 * v) 8 = v).
  { intros b v Hb. rewrite Z.shiftr_div_pow2 by lia. unfold wrap. change (2 ^ 8) with 256.
    rewrite Z.mul_comm, Z.mod_add, Z.div_add, Z.mod_small, Z.div_small by lia. lia. }
  cbn [le_bytes]. destruct (Hle b0 (b1 + 256 * (b2 + 256 * b3)) H0) as [-> ->].
  destruct (Hle b1 (b2 + 256 * b3) H1) as [-> ->]. destruct (Hle b2 b3 H2) as [-> ->].
  rewrite (wrap_small 8 b3) by done. done.
Qed.

Lemma tail_short bytes : (length (tail_bytes bytes) < 4)%nat.
Proof.
  unfold tail_bytes. rewrite length_drop. pose proof (Nat.div_mod (length bytes) 4 ltac:(lia)).
  pose proof (Nat.mod_upper_bound (length bytes) 4 ltac:(lia)). lia.
Qed.

Lemma bytes_of_length ws : length (bytes_of ws) = (4 * length ws)%nat.
Proof. unfold bytes_of. induction ws as [|w ws IH]; [done|]. cbn [fmap list_fmap concat]. rewrite length_app, IH, le_bytes_length. simpl. lia. Qed.

Lemma swap_first_length i ws : length (swap_first i ws) = length ws.
Proof. unfold swap_first. destruct (ws !! 0%nat), (ws !! i); by rewrite ?length_insert. Qed.

Lemma swap_first_twice i ws : swap_first i (swap_first i ws) = ws.
Proof.
  unfold swap_first. destruct (ws !! 0%nat) as [w0|] eqn:H0; [|by rewrite H0]. destruct (ws !! i) as [wi|] eqn:Hi; [|by rewrite H0, Hi].
  pose proof (lookup_lt_Some _ _ _ H0). pose proof (lookup_lt_Some _ _ _ Hi).
  rewrite list_lookup_insert_eq by (by rewrite length_insert). destruct (decide (i = 0%nat)) as [->|Hne].
  - rewrite list_lookup_insert_eq by (by rewrite length_insert). simplify_eq. rewrite !list_insert_insert_eq. by apply list_insert_id.
  - rewrite list_lookup_insert_ne, list_lookup_insert_eq by done. apply list_eq. intros j.
    destruct (decide (j = i)) as [->|Hj]; [by rewrite list_lookup_insert_eq by (by rewrite !length_insert)|].
    rewrite list_lookup_insert_ne by done. destruct (decide (j = 0%nat)) as [->|Hj0].
    + by rewrite list_lookup_insert_eq by (by rewrite !length_insert).
    + by rewrite !list_lookup_insert_ne by done.
Qed.

Lemma swap_first_words i ws : Forall (is_word 32) ws → Forall (is_word 32) (swap_first i ws).
Proof.
  intros H. unfold swap_first. destruct (ws !! 0%nat) eqn:H0; [|done]. destruct (ws !! i) eqn:Hi; [|done].
  apply Forall_insert; [apply Forall_insert; [done|]|]; by eapply Forall_lookup_1.
Qed.

(** Scrambled words behind which the rest of the bytes stays. *)
Lemma rebuilt ws bytes : length ws = length (words bytes) → Forall (is_word 32) ws →
  words (bytes_of ws ++ tail_bytes bytes) = ws ∧ tail_bytes (bytes_of ws ++ tail_bytes bytes) = tail_bytes bytes ∧
  length (bytes_of ws ++ tail_bytes bytes) = length bytes.
Proof.
  intros Hl Hw. assert (Hlen : length (bytes_of ws ++ tail_bytes bytes) = length bytes).
  { rewrite length_app, bytes_of_length, Hl, words_length. unfold tail_bytes. rewrite length_drop.
    pose proof (Nat.div_mod (length bytes) 4 ltac:(lia)). lia. }
  split; [by apply words_bytes; [apply tail_short|]|]. split; [|done].
  unfold tail_bytes at 1. rewrite Hlen, <- words_length, <- Hl, <- bytes_of_length. apply drop_app_length.
Qed.

Lemma profile_restored buffer : Forall is_byte buffer → player_profile_restore (client_trilogy_player_profile_obfuscate buffer) = buffer.
Proof.
  intros Hb. unfold player_profile_restore, client_trilogy_player_profile_obfuscate.
  destruct (rebuilt (scramble 0x07 0x0f 0x37a9 0x65e7 (swap_first (length buffer / 8) (words buffer))) buffer) as (Hw & Ht & Hl).
  { by rewrite scramble_length, swap_first_length. } { apply scramble_words. }
  rewrite Hw, Ht, Hl, unscramble_scramble by (lia || by apply swap_first_words, words_are_words).
  rewrite swap_first_twice. by apply bytes_words.
Qed.

Lemma spawn_restored data : Forall is_byte data → spawn_restore (client_trilogy_spawn_obfuscate data) = data.
Proof.
  intros Hb. unfold spawn_restore, client_trilogy_spawn_obfuscate.
  destruct (rebuilt (scramble 0x09 0x0d 0x65e7 0 (words data)) data) as (Hw & Ht & Hl).
  { by rewrite scramble_length. } { apply scramble_words. }
  rewrite Hw, Ht, unscramble_scramble by (lia || by apply words_are_words). by apply bytes_words.
Qed.

(** The scrambling of player profiles and spawn packets loses nothing: a
    client that runs the inverse rotations and subtractions in the same order,
    and exchanges the two words back, has the bytes that were sent, for every
    length, also when it is no multiple of four. *)
Theorem obfuscation_roundtrip (data : list Z) (Hd : Forall is_byte data) :
  player_profile_restore (client_trilogy_player_profile_obfuscate data) = data ∧
  spawn_restore (client_trilogy_spawn_obfuscate data) = data.
Proof. split; [by apply profile_restored|by apply spawn_restored]. Qed.

Example obfuscation_roundtrip_witness :
  let data := [1; 2; 3; 4; 0xff; 0; 0x80; 7; 9; 10; 11; 12; 13] in
  player_profile_restore (client_trilogy_player_profile_obfuscate data) = data ∧
  spawn_restore (client_trilogy_spawn_obfuscate data) = data.
Proof. apply (obfuscation_roundtrip [1; 2; 3; 4; 0xff; 0; 0x80; 7; 9; 10; 11; 12; 13]). repeat constructor; done. Defined.
