(* ===== verification/ProfilePacket.v ===== *)
(** The player profile that a client is sent when it zones in:
    client_trilogy_send_player_profile and what sends it, of
    zone_cluster/mob/client_packet_trilogy_output.c.

    The profile is written into a struct on the stack; [zone] and [time] are the
    client's zone and the clock in milliseconds. *)

From S2P Require Import Prelude Fields Float32 Aligned Crc Text ZoneId PlayerProfile Obfuscate.
From S2P Require Import Mob Inventory Skills ZoneClient Zone.

Definition skip_bytes (n : Z) : code Aligned unit := _ ← aligned_advance (u32 n); mret tt.

(** sizeof(pp.field) *)
Definition psize (field : string) : Z := size_of [field].
Definition skip_field (field : string) : code Aligned unit := skip_bytes (psize field).

(** for (i = 0; i < n; i++), with a value out of an array *)
Definition upto (n : nat) (body : nat → code Aligned unit) : code Aligned unit := each (seq 0 n) body.
Definition elem {A} (l : list A) (i : nat) : code Aligned A := lift (deref (l !! i)).

(** What the loops over the inventory write, each slot at its place. *)
Definition write_item_ids (inv : Inventory) (from to base : Z) : code Aligned unit :=
  reset ← gets aligned_position;
  for_slots inv from to (λ slot,
    skip_bytes (2 * (slotId slot - base)) ;;
    aligned_write_uint16 (u16 (itemId slot)) ;;
    aligned_reset_to reset).

Definition write_item_charges (inv : Inventory) (from to base : Z) : code Aligned unit :=
  reset ← gets aligned_position;
  for_slots inv from to (λ slot,
    skip_bytes (SIZEOF_PPItem * (slotId slot - base)) ;;
    skip_bytes 2 ;;
    item ← lift (deref (item slot));
    aligned_write_uint8 (u8 (item_get_charges item)) ;;
    aligned_reset_to reset).

Definition write_blank_items (n : nat) : code Aligned unit :=
  reset ← gets aligned_position;
  upto n (λ _, skip_bytes 4 ;; aligned_write_uint16 0xffff ;; skip_bytes 4) ;;
  aligned_reset_to reset.

Definition coin_bytes (c : Coin) : list Z := le_bytes 4 (pp c) ++ le_bytes 4 (gp c) ++ le_bytes 4 (sp c) ++ le_bytes 4 (cp c).

Section Profile.
Context (client : Client) (zone : Zone) (time : Z).
Let mob : Mob := c_mob client.
Let inv : Inventory := c_inventory client.

(** From the crc to unknownC. *)
Definition write_profile_stats : code Aligned unit :=
  skip_bytes 4 ;;
  aligned_write_snprintf_full_advance (psize "name") (mob_name_cstr mob) ;;
  match c_surname client with
  | Some surname => aligned_write_snprintf_full_advance (psize "surname") surname
  | None => skip_field "surname"
  end ;;
  aligned_write_uint16 (mob_base_gender mob) ;;
  aligned_write_uint16 (mob_base_race mob) ;;
  aligned_write_uint16 (mob_class mob) ;;
  aligned_write_uint32 (mob_level mob) ;;
  aligned_write_uint32 (u32 (c_experience client)) ;;
  aligned_write_uint16 (c_trainingPoints client) ;;
  aligned_write_int16 (mob_current_mana mob) ;;
  aligned_write_uint8 (mob_face mob) ;;
  skip_field "unknownA" ;;
  aligned_write_int16 (mob_current_hp mob) ;;
  skip_field "unknownB" ;;
  aligned_write_uint8 (u8 (mob_base_str mob)) ;;
  aligned_write_uint8 (u8 (mob_base_sta mob)) ;;
  aligned_write_uint8 (u8 (mob_base_cha mob)) ;;
  aligned_write_uint8 (u8 (mob_base_dex mob)) ;;
  aligned_write_uint8 (u8 (mob_base_int mob)) ;;
  aligned_write_uint8 (u8 (mob_base_agi mob)) ;;
  aligned_write_uint8 (u8 (mob_base_wis mob)) ;;
  upto 24 (λ i, v ← elem (language (c_skills client)) i; aligned_write_uint8 v) ;;
  skip_field "unknownC".

(** From mainInventoryItemIds to baggedItemProperties. *)
Definition write_profile_items : code Aligned unit :=
  aligned_write_memset_no_advance 0xff (psize "mainInventoryItemIds") ;;
  write_item_ids inv InvSlot_EquipMainAndCursorNoCharmBegin InvSlot_EquipMainAndCursorNoCharmEnd 1 ;;
  skip_field "mainInventoryItemIds" ;;
  skip_field "mainInventoryInternalUnused" ;;
  write_blank_items 30 ;;
  write_item_charges inv InvSlot_EquipMainAndCursorNoCharmBegin InvSlot_EquipMainAndCursorNoCharmEnd 1 ;;
  skip_field "mainInventoryItemProperties" ;;
  upto 15 (λ _, skip_bytes 4 ;; aligned_write_uint16 0xffff ;; skip_bytes 4) ;;
  aligned_write_memset_no_advance 0xff (psize "baggedItemIds") ;;
  write_item_ids inv InvSlot_BagsSlotsIncludingCursorBegin InvSlot_BagsSlotsIncludingCursorEnd InvSlot_BagsSlotsIncludingCursorBegin ;;
  skip_field "baggedItemIds" ;;
  write_blank_items 90 ;;
  write_item_charges inv InvSlot_BagsSlotsIncludingCursorBegin InvSlot_BagsSlotsIncludingCursorEnd
    InvSlot_BagsSlotsIncludingCursorBegin ;;
  skip_field "baggedItemProperties".

Definition write_spellbook : code Aligned unit :=
  if spellbook_is_empty (c_spellbook client) then mret tt
  else
    reset ← gets aligned_position;
    each (spellbook_array (c_spellbook client)) (λ slot,
      if 256 <=? sp_slotId slot then mret tt
      else
        skip_bytes (2 * sp_slotId slot) ;;
        aligned_write_uint16 (u16 (sp_spellId slot)) ;;
        aligned_reset_to reset).

(** From spellbook to skills. *)
Definition write_profile_spells : code Aligned unit :=
  aligned_write_memset_no_advance 0xff (psize "spellbook") ;;
  write_spellbook ;;
  skip_field "spellbook" ;;
  upto 8 (λ i, m ← elem (memorized (c_spellbook client)) i;
    aligned_write_uint16 (if u16 (ms_spellId m) =? 0 then 0xffff else u16 (ms_spellId m))) ;;
  skip_bytes 2 ;;
  aligned_write_float (mob_y mob) ;;
  aligned_write_float (mob_x mob) ;;
  aligned_write_float (mob_z mob) ;;
  aligned_write_float (mob_heading mob) ;;
  aligned_write_snprintf_full_advance (psize "zoneShortName") (zone_get_short_name zone) ;;
  aligned_write_uint32 100 ;;
  aligned_write_buffer (coin_bytes (c_coins client)) (psize "coins") ;;
  aligned_write_buffer (coin_bytes (c_coinsBank client)) (psize "coinsBank") ;;
  aligned_write_buffer (coin_bytes (c_coinsCursor client)) (psize "coinsCursor") ;;
  upto 74 (λ i, v ← elem (skill (c_skills client)) i; aligned_write_uint8 v).

(** unknownF. *)
Definition write_profile_constants : code Aligned unit :=
  aligned_write_memset 0xff 27 ;; skip_bytes 1 ;; aligned_write_uint32 0xffffffff ;; skip_bytes 1 ;;
  aligned_write_memset 0xff 3 ;; skip_bytes 1 ;; aligned_write_uint8 0xff ;; skip_bytes 1 ;;
  aligned_write_memset 0xff 12 ;; skip_bytes 2 ;; aligned_write_uint8 0xff ;; skip_bytes 2 ;;
  aligned_write_uint8 0x80 ;; aligned_write_uint8 0xbf ;; skip_bytes 2 ;; aligned_write_uint16 0x4040 ;;
  skip_bytes 2 ;; aligned_write_uint8 0x20 ;; aligned_write_uint8 0x40 ;; skip_bytes 2 ;;
  aligned_write_uint8 0xb0 ;; aligned_write_uint8 0x40 ;; skip_bytes 92.

Definition of_bool (b : bool) : Z := if b then 1 else 0.
Definition each_bind (f : BindPoint → code Aligned unit) : code Aligned unit := upto 5 (λ i, b ← elem (c_bindPoints client) i; f b).

(** From autoSplit to bankBaggedItemProperties. *)
Definition write_profile_flags : code Aligned unit :=
  aligned_write_uint32 (of_bool (c_isAutoSplitEnabled client)) ;;
  aligned_write_uint32 (of_bool (client_is_pvp client)) ;;
  skip_field "unknownG" ;;
  aligned_write_uint32 (of_bool (client_is_gm client)) ;;
  skip_field "unknownH" ;;
  aligned_write_uint32 (of_bool (c_disciplineTimestamp client <=? time)) ;;
  skip_field "unknownI" ;;
  aligned_write_uint32 (c_hungerLevel client) ;;
  aligned_write_uint32 (c_thirstLevel client) ;;
  skip_field "unknownJ" ;;
  each_bind (λ b, aligned_write_snprintf_full_advance 20 (text (zone_short_name_by_id (b_zoneId b)))) ;;
  write_blank_items 8 ;;
  write_item_charges inv InvSlot_BankBegin InvSlot_BankEnd InvSlot_BankBegin ;;
  skip_field "bankInventoryItemProperties" ;;
  write_blank_items 80 ;;
  write_item_charges inv InvSlot_BankBagSlotsBegin InvSlot_BankBagSlotsEnd InvSlot_BankBagSlotsBegin ;;
  skip_field "bankBaggedItemProperties".

(** From unknownK to bankBaggedItemIds. *)
Definition write_profile_binds : code Aligned unit :=
  skip_bytes (psize "unknownK" + psize "unknownL") ;;
  each_bind (λ b, aligned_write_float (loc_y (b_loc b))) ;;
  each_bind (λ b, aligned_write_float (loc_x (b_loc b))) ;;
  each_bind (λ b, aligned_write_float (loc_z (b_loc b))) ;;
  each_bind (λ b, aligned_write_float (loc_heading (b_loc b))) ;;
  skip_field "bankInventoryInternalUnused" ;;
  skip_field "unknownM" ;;
  aligned_write_uint32 (u32 (c_creationTimestamp client)) ;;
  skip_field "unknownN" ;;
  aligned_write_uint32 1 ;;
  skip_field "unknownP" ;;
  aligned_write_memset_no_advance 0xff (psize "bankInventoryItemIds") ;;
  write_item_ids inv InvSlot_BankBegin InvSlot_BankEnd InvSlot_BankBegin ;;
  skip_field "bankInventoryItemIds" ;;
  aligned_write_memset_no_advance 0xff (psize "bankBaggedItemIds") ;;
  write_item_ids inv InvSlot_BankBagSlotsBegin InvSlot_BankBagSlotsEnd InvSlot_BankBagSlotsBegin ;;
  skip_field "bankBaggedItemIds".

Definition guild_or_none : Z := if c_guildId client =? 0 then 0xffff else u16 (c_guildId client).
Definition remaining_time (timestamp : Z) : Z := if timestamp <? time then 0 else u32 (timestamp - time).

(** From deity to the part of unknownW that is set. *)
Definition write_profile_tail : code Aligned unit :=
  aligned_write_uint16 (mob_deity mob) ;;
  aligned_write_uint16 guild_or_none ;;
  aligned_write_uint32 (u32 time) ;;
  skip_field "unknownQ" ;;
  aligned_write_uint16 0x7f7f ;;
  aligned_write_uint8 0 ;;
  skip_field "unknownS" ;;
  aligned_write_uint8 1 ;;
  aligned_write_uint16 (c_anonSetting client) ;;
  aligned_write_uint8 (if c_guildId client =? 0 then 0xff else c_guildRank client) ;;
  aligned_write_uint8 (c_drunkeness client) ;;
  skip_field "showEqLoadScreen" ;;
  skip_field "unknownU" ;;
  upto 8 (λ i, m ← elem (memorized (c_spellbook client)) i; aligned_write_uint32 (remaining_time (recastTimestamp m))) ;;
  skip_field "unknownV" ;;
  aligned_write_uint32 (remaining_time (c_harmtouchTimestamp client)) ;;
  upto 5 (λ _, skip_bytes 48) ;;
  skip_bytes 70 ;; aligned_write_uint16 0xffff ;; skip_bytes 6 ;; aligned_write_memset 0xff 6 ;; skip_bytes 176 ;;
  aligned_write_uint16 0xffff ;; skip_bytes 2.

Definition write_profile : code Aligned unit :=
  aligned_write_zero_all ;;
  write_profile_stats ;; write_profile_items ;; write_profile_spells ;; write_profile_constants ;; write_profile_flags ;;
  write_profile_binds ;; write_profile_tail.

(** The struct, with its crc; [stack] is what it held. *)
Definition profile_bytes (stack : list Z) : outcome (list Z) :=
  match write_profile (aligned_init stack SIZEOF_PlayerProfile) with
  | (Ok _, a) =>
      let pp := buffer a in
      let crc := not32 (crc_calc32 (take (Z.to_nat (SIZEOF_PlayerProfile - 4)) (drop 4 pp))) in
      Ok (le_bytes 4 crc ++ drop 4 pp)
  | (Throw e, _) => Throw e
  | (Fault, _) => Fault
  end.
End Profile.

(** [compress2] is zlib's, at its best compression: the bytes, or its error. *)
Definition client_trilogy_send_player_profile_compress_and_obfuscate (compress2 : list Z → option (list Z)) (pp : list Z) : outcome (list Z) :=
  match compress2 pp with
  | None => Throw ErrorCompression
  | Some buffer => Ok (client_trilogy_player_profile_obfuscate buffer)
  end.
