(* ===== verification/ProfileLayout.v ===== *)
(** Where the player profile's values land: the packet's fields, one by one. *)

From S2P Require Import Prelude Fields Float32 Aligned Crc Text Servers ZoneId PlayerProfile Obfuscate.
From S2P Require Import Mob Inventory Skills ZoneClient Zone Fills ProfilePacket.

(** ** The layout *)
Definition le (n : nat) (v : Z) : list (option Z) := Some <$> le_bytes n v.
Definition const (n : nat) (v : Z) : list (option Z) := replicate n (Some v).
Definition skipped (field : string) : list (option Z) := nones (Z.to_nat (psize field)).
Definition text_in (field : string) (s : list Z) : list (option Z) := field_pattern (psize field) s.

Definition slots_in (inv : Inventory) (from to : Z) : list InventorySlot := filter (in_range from to) (slots inv).
Definition charges_of (slot : InventorySlot) : Z := match item slot with Some item => item_get_charges item | None => 0 end.

(** The item ids of the slots from [base] on, and the charges next to them. *)
Definition ids_of (inv : Inventory) (from to base : Z) (n : nat) : list (list (option Z)) :=
  put_cells (λ slot, Z.to_nat (slotId slot - base)) (λ slot, le 2 (u16 (itemId slot))) (slots_in inv from to) (replicate n (const 2 255)).
Definition blank_item : list (option Z) := nones 4 ++ const 2 255 ++ nones 4.
Definition properties_of (inv : Inventory) (from to base : Z) (n : nat) : list (list (option Z)) :=
  put_cells (λ slot, Z.to_nat (slotId slot - base)) (λ slot, nones 2 ++ [Some (u8 (charges_of slot))]) (slots_in inv from to)
    (replicate n blank_item).

Section Layout.
Context (client : Client) (zone : Zone) (time : Z).
Let mob : Mob := c_mob client.
Let inv : Inventory := c_inventory client.

Definition spells_of : list (list (option Z)) :=
  put_cells (λ slot, Z.to_nat (sp_slotId slot)) (λ slot, le 2 (u16 (sp_spellId slot)))
    (filter (λ slot, ¬ 256 ≤ sp_slotId slot) (spellbook_array (c_spellbook client))) (replicate 256 (const 2 255)).
Definition binds (f : BindPoint → list (option Z)) : list (option Z) := concat (f <$> c_bindPoints client).
Definition memmed (f : MemorizedSpell → list (option Z)) : list (option Z) := concat (f <$> take 8 (memorized (c_spellbook client))).

Definition stats_layout : list (string * list (option Z)) := [
  ("name", text_in "name" (mob_name_cstr mob));
  ("surname", match c_surname client with Some s => text_in "surname" s | None => skipped "surname" end);
  ("gender", le 2 (mob_base_gender mob)); ("race", le 2 (mob_base_race mob)); ("class", le 2 (mob_class mob));
  ("level", le 4 (mob_level mob)); ("experience", le 4 (u32 (c_experience client))); ("trainingPoints", le 2 (c_trainingPoints client));
  ("currentMana", le 2 (u16 (mob_current_mana mob))); ("face", le 1 (mob_face mob)); ("unknownA", skipped "unknownA");
  ("currentHp", le 2 (u16 (mob_current_hp mob))); ("unknownB", skipped "unknownB"); ("STR", le 1 (u8 (mob_base_str mob)));
  ("STA", le 1 (u8 (mob_base_sta mob))); ("CHA", le 1 (u8 (mob_base_cha mob))); ("DEX", le 1 (u8 (mob_base_dex mob)));
  ("INT", le 1 (u8 (mob_base_int mob))); ("AGI", le 1 (u8 (mob_base_agi mob))); ("WIS", le 1 (u8 (mob_base_wis mob)));
  ("languages", concat (le 1 <$> language (c_skills client))); ("unknownC", skipped "unknownC")]%string.

Definition items_layout : list (string * list (option Z)) := [
  ("mainInventoryItemIds", concat (ids_of inv 1 30 1 30)); ("mainInventoryInternalUnused", skipped "mainInventoryInternalUnused");
  ("mainInventoryItemProperties", concat (properties_of inv 1 30 1 30)); ("buffs", concat (replicate 15 blank_item));
  ("baggedItemIds", concat (ids_of inv 251 340 251 90)); ("baggedItemProperties", concat (properties_of inv 251 340 251 90))]%string.

Definition spells_layout : list (string * list (option Z)) := [
  ("spellbook", concat spells_of);
  ("memmedSpellIds", memmed (λ m, le 2 (if (u16 (ms_spellId m) =? 0)%Z then 0xffff else u16 (ms_spellId m)))); ("unknownD", nones 2);
  ("y", le 4 (mob_y mob)); ("x", le 4 (mob_x mob)); ("z", le 4 (mob_z mob)); ("heading", le 4 (mob_heading mob));
  ("zoneShortName", text_in "zoneShortName" (zone_get_short_name zone)); ("unknownEDefault100", le 4 100);
  ("coins", Some <$> coin_bytes (c_coins client)); ("coinsBank", Some <$> coin_bytes (c_coinsBank client));
  ("coinsCursor", Some <$> coin_bytes (c_coinsCursor client)); ("skills", concat (le 1 <$> skill (c_skills client)))]%string.

Definition constants : list (option Z) :=
  const 27 255 ++ nones 1 ++ const 4 255 ++ nones 1 ++ const 3 255 ++ nones 1 ++ const 1 255 ++ nones 1 ++ const 12 255 ++ nones 2 ++
  const 1 255 ++ nones 2 ++ [Some 0x80; Some 0xbf] ++ nones 2 ++ const 2 0x40 ++ nones 2 ++ [Some 0x20; Some 0x40] ++ nones 2 ++
  [Some 0xb0; Some 0x40] ++ nones 92.

Definition flags_layout : list (string * list (option Z)) := [
  ("unknownF", constants); ("autoSplit", le 4 (of_bool (c_isAutoSplitEnabled client))); ("pvpEnabled", le 4 (of_bool (client_is_pvp client)));
  ("unknownG", skipped "unknownG"); ("isGM", le 4 (of_bool (client_is_gm client))); ("unknownH", skipped "unknownH");
  ("disciplinesReady", le 4 (of_bool (c_disciplineTimestamp client <=? time)%Z)); ("unknownI", skipped "unknownI");
  ("hunger", le 4 (c_hungerLevel client)); ("thirst", le 4 (c_thirstLevel client)); ("unknownJ", skipped "unknownJ");
  ("bindZoneShortName", binds (λ b, field_pattern 20 (text (zone_short_name_by_id (b_zoneId b)))));
  ("bankInventoryItemProperties", concat (properties_of inv 2000 2007 2000 8));
  ("bankBaggedItemProperties", concat (properties_of inv 2031 2111 2031 80))]%string.

Definition binds_layout : list (string * list (option Z)) := [
  ("unknownK", skipped "unknownK"); ("unknownL", skipped "unknownL"); ("bindLocY", binds (λ b, le 4 (loc_y (b_loc b))));
  ("bindLocX", binds (λ b, le 4 (loc_x (b_loc b)))); ("bindLocZ", binds (λ b, le 4 (loc_z (b_loc b))));
  ("bindLocHeading", binds (λ b, le 4 (loc_heading (b_loc b)))); ("bankInventoryInternalUnused", skipped "bankInventoryInternalUnused");
  ("unknownM", skipped "unknownM"); ("unixTimeA", le 4 (u32 (c_creationTimestamp client))); ("unknownN", skipped "unknownN");
  ("unknownODefault1", le 4 1); ("unknownP", skipped "unknownP"); ("bankInventoryItemIds", concat (ids_of inv 2000 2007 2000 8));
  ("bankBaggedItemIds", concat (ids_of inv 2031 2111 2031 80))]%string.

Definition leftovers : list (option Z) :=
  nones 70 ++ const 2 255 ++ nones 6 ++ const 6 255 ++ nones 176 ++ const 2 255 ++ nones 2.

Definition tail_layout : list (string * list (option Z)) := [
  ("deity", le 2 (mob_deity mob)); ("guildId", le 2 (guild_or_none client)); ("unixTimeB", le 4 (u32 time)); ("unknownQ", skipped "unknownQ");
  ("unknownRDefault7f7f", const 2 0x7f); ("fatiguePercent", le 1 0); ("unknownS", skipped "unknownS"); ("unknownTDefault1", le 1 1);
  ("anon", le 2 (c_anonSetting client)); ("guildRank", le 1 (if (c_guildId client =? 0)%Z then 0xff else c_guildRank client));
  ("drunkeness", le 1 (c_drunkeness client)); ("showEqLoadScreen", skipped "showEqLoadScreen"); ("unknownU", skipped "unknownU");
  ("spellGemRefreshMilliseconds", memmed (λ m, le 4 (remaining_time time (recastTimestamp m)))); ("unknownV", skipped "unknownV");
  ("harmtouchRefreshMilliseconds", le 4 (remaining_time time (c_harmtouchTimestamp client))); ("groupMember", nones 240);
  ("unknownW", leftovers)]%string.

Definition profile_layout : list (string * list (option Z)) :=
  stats_layout ++ items_layout ++ spells_layout ++ flags_layout ++ binds_layout ++ tail_layout.
Definition pattern (layout : list (string * list (option Z))) : list (option Z) := concat (snd <$> layout).
End Layout.

(** ** The writers follow it *)
Lemma fills_skip_bytes n : 0 ≤ n < 2 ^ 32 → fills (skip_bytes n) (nones (Z.to_nat n)).
Proof. apply fills_skip. Qed.
Lemma fills_uint8 v : fills (aligned_write_uint8 v) (le 1 v).
Proof. apply fills_emits, emits_uint8. Qed.
Lemma fills_uint16 v : fills (aligned_write_uint16 v) (le 2 v).
Proof. apply fills_emits, emits_uint16. Qed.
Lemma fills_uint32 v : fills (aligned_write_uint32 v) (le 4 v).
Proof. apply fills_emits, emits_uint32. Qed.
Lemma fills_text n s : 0 < n → fills (aligned_write_snprintf_full_advance n s) (field_pattern n s).
Proof. intros H. by apply fills_emits, emits_text_field. Qed.
Lemma fills_memset v n : 0 ≤ n → fills (aligned_write_memset v n) (const (Z.to_nat n) (u8 v)).
Proof. intros H. by apply fills_emits, emits_memset. Qed.

Lemma fills_upto_skip n k : 0 ≤ k < 2 ^ 32 → fills (upto n (λ _, skip_bytes k)) (nones (n * Z.to_nat k)).
Proof.
  intros Hk. eapply fills_eq; [|apply (fills_each (seq 0 n) _ (λ _, nones (Z.to_nat k))), Forall_true; intros; by apply fills_skip_bytes].
  generalize 0%nat. induction n as [|n IH]; intros j; [done|]. cbn [seq fmap list_fmap concat]. rewrite IH. unfold nones. by rewrite <- replicate_add.
Qed.

(** A loop over the first elements of an array. *)
Lemma fills_upto_elem {A} n (l : list A) f (p : A → list (option Z)) : (n ≤ length l)%nat → (∀ x, fills (f x) (p x)) →
  fills (upto n (λ i, x ← elem l i; f x)) (concat (p <$> take n l)).
Proof.
  intros Hn Hf. unfold upto, elem.
  assert (H : ∀ m k, (k + m ≤ length l)%nat →
    fills (each (seq k m) (λ i, x ← lift (deref (l !! i)); f x)) (concat (p <$> take m (drop k l)))).
  { induction m as [|m IH]; intros k Hk; [apply fills_nil|]. destruct (lookup_lt_is_Some_2 l k) as [x Hx]; [lia|].
    rewrite (drop_S _ _ _ Hx). cbn [seq each take fmap list_fmap concat]. apply fills_seq; [|apply IH; lia].
    apply (fills_lift _ x); [by rewrite Hx|apply Hf]. }
  specialize (H n 0%nat). rewrite drop_0 in H. apply H. lia.
Qed.
Lemma fills_upto_all {A} n (l : list A) f (p : A → list (option Z)) : length l = n → (∀ x, fills (f x) (p x)) →
  fills (upto n (λ i, x ← elem l i; f x)) (concat (p <$> l)).
Proof. intros <- Hf. pose proof (fills_upto_elem (length l) l f p (le_n _) Hf) as H. by rewrite firstn_all in H. Qed.

(** ** Tables of items and spells *)
Definition within (from to base : Z) (n : nat) (inv : Inventory) : Prop :=
  Forall (λ slot, 0 ≤ slotId slot - base < Z.of_nat n ∧ is_Some (item slot)) (slots_in inv from to).

Lemma ids_ok inv from to base n : from ≤ to → Z.of_nat n < 2 ^ 30 → within from to base n inv →
  fills (aligned_write_memset_no_advance 0xff (2 * Z.of_nat n) ;; write_item_ids inv from to base ;; skip_bytes (2 * Z.of_nat n))
    (concat (ids_of inv from to base n)).
Proof.
  intros Hft Hn Hw.
  assert (Ht : table n 2 (ids_of inv from to base n)).
  { apply put_cells_table; [|by apply Forall_true]. split; [apply length_replicate|by apply Forall_replicate]. }
  eapply fills_ext; [|apply (paints_fills (aligned_write_memset_no_advance 0xff (2 * Z.of_nat n) ;; write_item_ids inv from to base) _ (2 * Z.of_nat n))].
  - intros a. by rewrite bind_assoc.
  - eapply paints_ext; [|eapply (paints_table (λ slot, Z.to_nat (slotId slot - base)) 2 (λ slot, le 2 (u16 (itemId slot)))
      (λ reset slot, skip_bytes (2 * (slotId slot - base)) ;; aligned_write_uint16 (u16 (itemId slot)) ;; aligned_reset_to reset) n)].
    + intros a. apply bind_ext. intros [] s'. unfold write_item_ids. apply bind_ext. intros reset s. by rewrite for_slots_ok.
    + pose proof (paints_memset 0xff (2 * Z.of_nat n) ltac:(lia)) as Hm.
      replace (replicate (Z.to_nat (2 * Z.of_nat n)) (Some (u8 255))) with (concat (replicate n (const 2 255))) in Hm; [exact Hm|].
      replace (Z.to_nat (2 * Z.of_nat n)) with (n + (n + 0))%nat by lia. clear. induction n as [|n IH]; [done|]. cbn [replicate concat].
      rewrite IH. replace (S n + (S n + 0))%nat with (S (S (n + (n + 0)))) by lia. done.
    + split; [apply length_replicate|by apply Forall_replicate].
    + unfold within in Hw. unfold slots_in in *. eapply Forall_impl; [exact Hw|]. intros slot [Hr _]. split; [|lia].
      exists (skip_bytes (2 * (slotId slot - base)) ;; aligned_write_uint16 (u16 (itemId slot))).
      split; [intros reset a; by rewrite bind_assoc|]. split; [|done].
      apply fills_seq; [|apply fills_uint16]. eapply fills_eq; [|apply fills_skip_bytes; lia]. f_equal. lia.
  - rewrite (table_length _ _ _ Ht). lia.
  - lia.
Qed.

Lemma blank_items_ok n : paints (write_blank_items n) (concat (replicate n blank_item)).
Proof.
  apply paints_reset. eapply fills_eq; [|apply (fills_each (seq 0 n) _ (λ _, blank_item)), Forall_true; intros i].
  - generalize 0%nat. induction n as [|n IH]; intros k; [done|]. cbn [seq fmap list_fmap concat replicate]. by rewrite IH.
  - unfold blank_item. apply fills_seq; [by apply fills_skip_bytes|]. apply fills_seq; [apply fills_uint16|by apply fills_skip_bytes].
Qed.

Lemma properties_ok inv from to base n : from ≤ to → Z.of_nat n < 2 ^ 28 → within from to base n inv →
  fills (write_blank_items n ;; write_item_charges inv from to base ;; skip_bytes (10 * Z.of_nat n))
    (concat (properties_of inv from to base n)).
Proof.
  intros Hft Hn Hw.
  assert (Hblank : table n 10 (replicate n blank_item)) by (split; [apply length_replicate|by apply Forall_replicate]).
  assert (Ht : table n 10 (properties_of inv from to base n)) by (apply put_cells_table; [done|apply Forall_true; intros; cbn; lia]).
  eapply fills_ext; [|apply (paints_fills (write_blank_items n ;; write_item_charges inv from to base) _ (10 * Z.of_nat n))].
  - intros a. by rewrite bind_assoc.
  - eapply paints_ext; [|eapply (paints_table (λ slot, Z.to_nat (slotId slot - base)) 10 (λ slot, nones 2 ++ [Some (u8 (charges_of slot))])
      (λ reset slot, skip_bytes (SIZEOF_PPItem * (slotId slot - base)) ;; skip_bytes 2 ;; item ← lift (deref (item slot));
         aligned_write_uint8 (u8 (item_get_charges item)) ;; aligned_reset_to reset) n)].
    + intros a. apply bind_ext. intros [] s'. unfold write_item_charges. apply bind_ext. intros reset s. by rewrite for_slots_ok.
    + apply blank_items_ok.
    + done.
    + unfold within in Hw. unfold slots_in in *. eapply Forall_impl; [exact Hw|]. intros slot [Hr [it Hit]]. split; [|lia].
      exists (skip_bytes (SIZEOF_PPItem * (slotId slot - base)) ;; skip_bytes 2 ;; aligned_write_uint8 (u8 (item_get_charges it))).
      split; [|split; [|cbn; lia]].
      * intros reset a. rewrite Hit. rewrite !bind_assoc. apply bind_ext. intros [] s. rewrite bind_assoc. by apply bind_ext.
      * unfold charges_of. rewrite Hit. apply fills_seq.
        -- eapply fills_eq; [|apply fills_skip_bytes; unfold SIZEOF_PPItem; lia]. f_equal. unfold SIZEOF_PPItem. lia.
        -- apply fills_seq; [by apply fills_skip_bytes|]. eapply fills_eq; [|apply fills_uint8]. unfold le. cbn. by rewrite wrap_wrap.
  - rewrite (table_length _ _ _ Ht). lia.
  - lia.
Qed.

Lemma each_filter {A} (P : A → Prop) `{∀ x, Decision (P x)} (xs : list A) (f : A → code Aligned unit) a :
  each xs (λ x, if decide (P x) then f x else mret tt) a = each (filter P xs) f a.
Proof.
  revert a. induction xs as [|x xs IH]; intros a; [done|]. cbn [each]. rewrite filter_cons. destruct (decide (P x)).
  - cbn [each]. apply bind_ext. intros [] s. apply IH.
  - rewrite (bind_ok (mret tt) _ a tt a eq_refl). apply IH.
Qed.

Definition nonneg_slots (book : Spellbook) : Prop := Forall (λ slot, 0 ≤ sp_slotId slot) (spellbook_array book).

Lemma spells_ok client : nonneg_slots (c_spellbook client) →
  fills (aligned_write_memset_no_advance 0xff 512 ;; write_spellbook client ;; skip_bytes 512) (concat (spells_of client)).
Proof.
  intros Hs. assert (Hblank : table 256 2 (replicate 256 (const 2 255))) by (split; [apply length_replicate|by apply Forall_replicate]).
  assert (Ht : table 256 2 (spells_of client)) by (apply put_cells_table; [done|by apply Forall_true]).
  assert (Hm : paints (aligned_write_memset_no_advance 0xff 512) (concat (replicate 256 (const 2 255)))) by (by apply paints_memset).
  eapply fills_ext; [|apply (paints_fills (aligned_write_memset_no_advance 0xff 512 ;; write_spellbook client) _ 512)].
  - intros a. by rewrite bind_assoc.
  - unfold write_spellbook, spellbook_is_empty. destruct (knownSpells (c_spellbook client)) as [known|] eqn:Hk.
    + rewrite bool_decide_false by done.
      eapply paints_ext; [|eapply (paints_table (λ slot, Z.to_nat (sp_slotId slot)) 2 (λ slot, le 2 (u16 (sp_spellId slot)))
        (λ reset slot, skip_bytes (2 * sp_slotId slot) ;; aligned_write_uint16 (u16 (sp_spellId slot)) ;; aligned_reset_to reset) 256); [exact Hm|done|]].
      * intros a. apply bind_ext. intros [] s'. apply bind_ext. intros reset s. rewrite <- each_filter.
        revert s. induction (spellbook_array _) as [|slot l IH]; intros s; [done|]. cbn [each].
        destruct (Z.leb_spec 256 (sp_slotId slot)); destruct (decide _); try lia; apply bind_ext; intros []; apply IH.
      * apply Forall_forall. intros slot Hin. apply list_elem_of_filter in Hin as [Hlt Hin]. unfold nonneg_slots in Hs. rewrite Forall_forall in Hs.
        specialize (Hs slot Hin). cbn in Hs. split; [|lia]. exists (skip_bytes (2 * sp_slotId slot) ;; aligned_write_uint16 (u16 (sp_spellId slot))).
        split; [intros reset a; by rewrite bind_assoc|]. split; [|done].
        apply fills_seq; [|apply fills_uint16]. eapply fills_eq; [|apply fills_skip_bytes; lia]. f_equal. lia.
    + rewrite bool_decide_true by done. unfold spells_of, spellbook_array. rewrite Hk. cbn [default].
      intros a Ha Hl. by erewrite bind_ok by (by apply Hm).
  - by rewrite (table_length _ _ _ Ht).
  - done.
Qed.

(** ** The whole profile *)

(** What the loops over arrays rely on: arrays of their C sizes, and items
    whose slots are places of the profile's tables. *)
Record sendable (client : Client) : Prop := {
  se_skills : length (skill (c_skills client)) = 74%nat;
  se_languages : length (language (c_skills client)) = 24%nat;
  se_memorized : length (memorized (c_spellbook client)) = 9%nat;
  se_binds : length (c_bindPoints client) = 5%nat;
  se_spells : nonneg_slots (c_spellbook client);
  se_items : ∀ slot, slot ∈ slots (c_inventory client) → 0 < itemId slot → is_Some (item slot);
  se_bank : ∀ slot, slot ∈ slots (c_inventory client) → slotId slot ≠ 2111;
  se_ids : ∀ slot, slot ∈ slots (c_inventory client) → 0 ≤ itemId slot;
}.

Lemma within_ok client from to base n : sendable client → base = from → to - base < Z.of_nat n ∨ to = 2111 ∧ base = 2031 ∧ n = 80%nat →
  within from to base n (c_inventory client).
Proof.
  intros Hse -> Hn. apply Forall_forall. intros slot Hin. apply list_elem_of_filter in Hin as [Hr Hin]. unfold in_range in Hr.
  rewrite !andb_True, !Is_true_true, !Z.leb_le, negb_true_iff, Z.eqb_neq in Hr. destruct Hr as [[[Hlo Hhi] Hid] _].
  pose proof (se_bank _ Hse slot Hin). pose proof (se_ids _ Hse slot Hin). split; [lia|]. apply (se_items _ Hse slot Hin). lia.
Qed.

Lemma fills_snoc_ret w p q : fills w p → p = q → fills w q.
Proof. by intros H <-. Qed.

(** [fill_parts] finds the pattern that a sequence of writers lays down. *)
Ltac fill_part :=
  lazymatch goal with
  | |- fills (skip_bytes _) _ => apply fills_skip_bytes; by vm_compute
  | |- fills (skip_field ?f) _ => apply (fills_skip_bytes (psize f)); by vm_compute
  | |- fills (aligned_write_snprintf_full_advance _ _) _ => apply fills_text; by vm_compute
  | |- fills (aligned_write_uint8 _) _ => apply fills_uint8
  | |- fills (aligned_write_uint16 _) _ => apply fills_uint16
  | |- fills (aligned_write_int16 ?v) _ => apply (fills_uint16 (u16 v))
  | |- fills (aligned_write_uint32 _) _ => apply fills_uint32
  | |- fills (aligned_write_float ?v) _ => apply (fills_uint32 v)
  | |- fills (aligned_write_memset _ _) _ => apply fills_memset; by vm_compute
  | |- fills _ _ => eassumption
  end.
Ltac fill_parts :=
  lazymatch goal with
  | |- fills (_ ≫= _) _ => eapply fills_seq; [fill_part|fill_parts]
  | |- _ => fill_part
  end.

Lemma le_bytes_wrap n v : u8 <$> le_bytes n v = le_bytes n v.
Proof. revert v. induction n as [|n IH]; intros v; [done|]. cbn [le_bytes fmap list_fmap]. f_equal; [apply wrap_wrap|apply IH]. Qed.

Lemma fills_three (w1 w2 w3 rest : code Aligned unit) p q : fills (w1 ;; w2 ;; w3) p → fills rest q → fills (w1 ;; w2 ;; w3 ;; rest) (p ++ q).
Proof.
  intros Hp Hq. eapply fills_ext; [|exact (fills_seq _ _ _ _ Hp Hq)]. intros a. rewrite bind_assoc. apply bind_ext. intros [] s.
  by rewrite bind_assoc.
Qed.

Section Writers.
Context (client : Client) (zone : Zone) (time : Z) (Hse : sendable client).

Lemma surname_ok : fills (match c_surname client with
    | Some surname => aligned_write_snprintf_full_advance (psize "surname") surname
    | None => skip_field "surname" end)
  (match c_surname client with Some s => text_in "surname" s | None => skipped "surname" end).
Proof. destruct (c_surname client); [by apply fills_text|by apply fills_skip_bytes]. Qed.

Lemma stats_ok : fills (write_profile_stats client) (nones 4 ++ pattern (stats_layout client)).
Proof.
  pose proof surname_ok as Hsur. pose proof (fills_upto_all 24 (language (c_skills client)) aligned_write_uint8 (le 1) (se_languages _ Hse) fills_uint8) as Hl.
  unfold write_profile_stats. eapply fills_snoc_ret; [fill_parts|]. unfold pattern, stats_layout. cbn [fmap list_fmap snd concat].
  rewrite app_nil_r. done.
Qed.

Lemma items_ok : fills (write_profile_items client) (pattern (items_layout client)).
Proof.
  assert (Hmain : within 1 30 1 30 (c_inventory client)) by (apply within_ok; [done..|lia]).
  assert (Hbags : within 251 340 251 90 (c_inventory client)) by (apply within_ok; [done..|lia]).
  pose proof (ids_ok (c_inventory client) 1 30 1 30 ltac:(lia) ltac:(lia) Hmain) as Hi1.
  pose proof (properties_ok (c_inventory client) 1 30 1 30 ltac:(lia) ltac:(lia) Hmain) as Hp1.
  pose proof (ids_ok (c_inventory client) 251 340 251 90 ltac:(lia) ltac:(lia) Hbags) as Hi2.
  pose proof (properties_ok (c_inventory client) 251 340 251 90 ltac:(lia) ltac:(lia) Hbags) as Hp2.
  assert (Hbuffs : fills (upto 15 (λ _, skip_bytes 4 ;; aligned_write_uint16 0xffff ;; skip_bytes 4)) (concat (replicate 15 blank_item))).
  { apply (fills_each (seq 0 15) _ (λ _, blank_item)), Forall_true. intros i. unfold blank_item. fill_parts. }
  unfold write_profile_items, pattern, items_layout. cbn [fmap list_fmap snd concat]. rewrite app_nil_r.
  apply fills_three; [exact Hi1|]. apply fills_seq; [fill_part|]. apply fills_three; [exact Hp1|]. apply fills_seq; [exact Hbuffs|].
  apply fills_three; [exact Hi2|exact Hp2].
Qed.

Lemma spell_part_ok : fills (write_profile_spells client zone) (pattern (spells_layout client zone)).
Proof.
  pose proof (spells_ok client (se_spells _ Hse)) as Hspells.
  assert (Hmem : fills (upto 8 (λ i, m ← elem (memorized (c_spellbook client)) i;
      aligned_write_uint16 (if u16 (ms_spellId m) =? 0 then 0xffff else u16 (ms_spellId m))))
    (memmed client (λ m, le 2 (if u16 (ms_spellId m) =? 0 then 0xffff else u16 (ms_spellId m))))).
  { apply fills_upto_elem; [rewrite (se_memorized _ Hse); lia|]. intros m. apply fills_uint16. }
  pose proof (fills_upto_all 74 (skill (c_skills client)) aligned_write_uint8 (le 1) (se_skills _ Hse) fills_uint8) as Hsk.
  assert (Hcoins : ∀ c, fills (aligned_write_buffer (coin_bytes c) 16) (Some <$> coin_bytes c)).
  { intros c. apply fills_emits. eapply emits_eq_pattern; [|apply emits_buffer; done]. rewrite firstn_all2 by done.
    rewrite list_fmap_compose. f_equal. unfold coin_bytes. by rewrite !fmap_app, !le_bytes_wrap. }
  pose proof (Hcoins (c_coins client)) as H1. pose proof (Hcoins (c_coinsBank client)) as H2. pose proof (Hcoins (c_coinsCursor client)) as H3.
  unfold write_profile_spells, pattern, spells_layout. cbn [fmap list_fmap snd concat]. rewrite app_nil_r.
  apply fills_three; [exact Hspells|]. eapply fills_snoc_ret; [fill_parts|]. done.
Qed.

Lemma constants_ok : fills write_profile_constants constants.
Proof. eapply fills_snoc_ret; [unfold write_profile_constants; fill_parts|]. by vm_compute. Qed.

Lemma binds_ok f p : (∀ b, fills (f b) (p b)) → fills (each_bind client f) (binds client p).
Proof. intros Hf. apply fills_upto_all; [apply (se_binds _ Hse)|done]. Qed.

Lemma flags_ok : fills (write_profile_flags client time) (pattern (drop 1 (flags_layout client time))).
Proof.
  assert (Hbank : within 2000 2007 2000 8 (c_inventory client)) by (apply within_ok; [done..|lia]).
  assert (Hbags : within 2031 2111 2031 80 (c_inventory client)) by (apply within_ok; [done..|lia]).
  pose proof (properties_ok (c_inventory client) 2000 2007 2000 8 ltac:(lia) ltac:(lia) Hbank) as Hp1.
  pose proof (properties_ok (c_inventory client) 2031 2111 2031 80 ltac:(lia) ltac:(lia) Hbags) as Hp2.
  pose proof (binds_ok _ _ (λ b, fills_text 20 (text (zone_short_name_by_id (b_zoneId b))) ltac:(lia))) as Hnames.
  unfold write_profile_flags, pattern, flags_layout. cbn [drop fmap list_fmap snd concat]. rewrite app_nil_r.
  do 11 (apply fills_seq; [fill_part|]). apply fills_three; [exact Hp1|exact Hp2].
Qed.

Lemma bind_part_ok : fills (write_profile_binds client) (pattern (binds_layout client)).
Proof.
  assert (Hbank : within 2000 2007 2000 8 (c_inventory client)) by (apply within_ok; [done..|lia]).
  assert (Hbags : within 2031 2111 2031 80 (c_inventory client)) by (apply within_ok; [done..|lia]).
  pose proof (ids_ok (c_inventory client) 2000 2007 2000 8 ltac:(lia) ltac:(lia) Hbank) as Hi1.
  pose proof (ids_ok (c_inventory client) 2031 2111 2031 80 ltac:(lia) ltac:(lia) Hbags) as Hi2.
  pose proof (binds_ok _ _ (λ b, fills_uint32 (loc_y (b_loc b)))) as Hy. pose proof (binds_ok _ _ (λ b, fills_uint32 (loc_x (b_loc b)))) as Hx.
  pose proof (binds_ok _ _ (λ b, fills_uint32 (loc_z (b_loc b)))) as Hz. pose proof (binds_ok _ _ (λ b, fills_uint32 (loc_heading (b_loc b)))) as Hh.
  unfold write_profile_binds, pattern, binds_layout. cbn [fmap list_fmap snd concat]. rewrite app_nil_r, app_assoc.
  apply fills_seq; [by apply fills_skip_bytes|]. do 4 (apply fills_seq; [eassumption|]). do 6 (apply fills_seq; [fill_part|]).
  apply fills_three; [exact Hi1|exact Hi2].
Qed.

Lemma tail_ok : fills (write_profile_tail client time) (pattern (tail_layout client time)).
Proof.
  assert (Hmem : fills (upto 8 (λ i, m ← elem (memorized (c_spellbook client)) i; aligned_write_uint32 (remaining_time time (recastTimestamp m))))
    (memmed client (λ m, le 4 (remaining_time time (recastTimestamp m))))).
  { apply fills_upto_elem; [rewrite (se_memorized _ Hse); lia|]. intros m. apply fills_uint32. }
  pose proof (fills_upto_skip 5 48 ltac:(lia)) as Hgroup.
  unfold write_profile_tail, pattern, tail_layout. cbn [fmap list_fmap snd concat]. rewrite app_nil_r. unfold leftovers.
  eapply fills_snoc_ret; [fill_parts|]. done.
Qed.

(** *** The sizes of the fields *)
Lemma le_length n v : length (le n v) = n.
Proof. unfold le. by rewrite length_fmap, le_bytes_length. Qed.
Lemma text_length n s : (0 < n)%nat → length (field_pattern (Z.of_nat n) s) = n.
Proof. intros Hn. pose proof (field_pattern_length (Z.of_nat n) s). lia. Qed.
Lemma column_length' {A} (f : A → list (option Z)) k l : (∀ x, length (f x) = k) → length (concat (f <$> l)) = (length l * k)%nat.
Proof. intros Hf. induction l as [|x l IH]; [done|]. cbn [fmap list_fmap concat length]. rewrite length_app, Hf, IH. lia. Qed.
Lemma ids_length inv from to base n : length (concat (ids_of inv from to base n)) = (n * 2)%nat.
Proof. apply table_length, put_cells_table; [split; [apply length_replicate|by apply Forall_replicate]|by apply Forall_true]. Qed.
Lemma properties_length inv from to base n : length (concat (properties_of inv from to base n)) = (n * 10)%nat.
Proof.
  apply table_length, put_cells_table; [split; [apply length_replicate|by apply Forall_replicate]|apply Forall_true; intros; cbn; lia].
Qed.
Lemma spells_length : length (concat (spells_of client)) = 512%nat.
Proof.
  apply (table_length 256 2), put_cells_table; [split; [apply length_replicate|by apply Forall_replicate]|by apply Forall_true].
Qed.

Definition field_sizes (layout : list (string * list (option Z))) : list (string * Z) := (λ f, (f.1, Z.of_nat (length f.2))) <$> layout.

Lemma sizes_app l k : field_sizes (l ++ k) = field_sizes l ++ field_sizes k.
Proof. apply fmap_app. Qed.
End Writers.

Lemma text_in_length field n s : psize field = Z.of_nat n → (0 < n)%nat → length (text_in field s) = n.
Proof. intros Hf Hn. unfold text_in. rewrite Hf. by apply text_length. Qed.

Section Sizes.
Context (client : Client) (zone : Zone) (time : Z) (Hse : sendable client).

Lemma surname_length : length (match c_surname client with Some s => text_in "surname" s | None => skipped "surname" end) = 20%nat.
Proof. destruct (c_surname client); [apply text_in_length; [by vm_compute|lia]|by vm_compute]. Qed.

Lemma stats_sizes : field_sizes (stats_layout client) = take 22 profile_fields.
Proof.
  unfold stats_layout. cbn [field_sizes fmap list_fmap fst snd]. rewrite surname_length, !le_length.
  rewrite (column_length' _ 1), (se_languages _ Hse) by (intros; apply le_length).
  rewrite (text_in_length _ 30) by (first [by vm_compute|lia]). by vm_compute.
Qed.

Lemma items_sizes : field_sizes (items_layout client) = take 6 (drop 22 profile_fields).
Proof. unfold items_layout. cbn [field_sizes fmap list_fmap fst snd]. rewrite !ids_length, !properties_length. by vm_compute. Qed.

Lemma memmed_length f k : (∀ m, length (f m) = k) → length (memmed client f) = (8 * k)%nat.
Proof. intros Hf. unfold memmed. rewrite (column_length' _ k) by done. rewrite length_take, (se_memorized _ Hse). done. Qed.
Lemma binds_length f k : (∀ b, length (f b) = k) → length (binds client f) = (5 * k)%nat.
Proof. intros Hf. unfold binds. rewrite (column_length' _ k) by done. by rewrite (se_binds _ Hse). Qed.

Lemma spells_sizes : field_sizes (spells_layout client zone) = take 13 (drop 28 profile_fields).
Proof.
  unfold spells_layout. cbn [field_sizes fmap list_fmap fst snd]. rewrite spells_length, !le_length, !length_fmap.
  rewrite (memmed_length _ 2) by (intros; apply le_length). rewrite (text_in_length _ 32) by (first [by vm_compute|lia]).
  rewrite (column_length' _ 1), (se_skills _ Hse) by (intros; apply le_length). by vm_compute.
Qed.

Lemma flags_sizes : field_sizes (flags_layout client time) = take 14 (drop 41 profile_fields).
Proof.
  unfold flags_layout. cbn [field_sizes fmap list_fmap fst snd]. rewrite !properties_length, !le_length.
  rewrite (binds_length _ 20) by (intros; by apply (text_length 20); lia). by vm_compute.
Qed.

Lemma binds_sizes : field_sizes (binds_layout client) = take 14 (drop 55 profile_fields).
Proof.
  unfold binds_layout. cbn [field_sizes fmap list_fmap fst snd]. rewrite !ids_length, !le_length.
  rewrite !(binds_length _ 4) by (intros; apply le_length). by vm_compute.
Qed.

Lemma tail_sizes : field_sizes (tail_layout client time) = take 17 (drop 69 profile_fields) ++ [("unknownW"%string, 264)].
Proof.
  unfold tail_layout. cbn [field_sizes fmap list_fmap fst snd]. rewrite !le_length. rewrite !(memmed_length _ 4) by (intros; apply le_length).
  by vm_compute.
Qed.

Lemma layout_sizes : field_sizes (profile_layout client zone time) = take 86 profile_fields ++ [("unknownW"%string, 264)].
Proof.
  unfold profile_layout. rewrite !sizes_app, stats_sizes, items_sizes, spells_sizes, flags_sizes, binds_sizes, tail_sizes. by vm_compute.
Qed.

Lemma pattern_length l : Z.of_nat (length (pattern l)) = foldr Z.add 0 (snd <$> field_sizes l).
Proof.
  unfold pattern. induction l as [|f l IH]; [done|]. cbn [fmap list_fmap concat field_sizes foldr snd]. rewrite length_app. 
  fold (field_sizes l). rewrite Nat2Z.inj_add, IH. done.
Qed.

Lemma profile_length : Z.of_nat (length (nones 4 ++ pattern (profile_layout client zone time))) = SIZEOF_PlayerProfile - 3380.
Proof. rewrite length_app, Nat2Z.inj_add, pattern_length, layout_sizes. by vm_compute. Qed.

Lemma zero_all_ok stack : length stack = Z.to_nat SIZEOF_PlayerProfile →
  aligned_write_zero_all (aligned_init stack SIZEOF_PlayerProfile) =
    (Ok tt, mkAligned 0 SIZEOF_PlayerProfile (replicate (Z.to_nat SIZEOF_PlayerProfile) 0)).
Proof.
  intros Hl. unfold aligned_write_zero_all, aligned_init. rewrite (bind_ok get _ _ _ _ eq_refl). cbn [length_].
  rewrite put_bytes_ok by (cbn [buffer]; rewrite ?length_replicate, ?Hl; lia).
  unfold with_buffer. cbn [buffer cursor length_]. do 2 f_equal. rewrite fmap_replicate.
  change ((Some ∘ u8) 0) with (Some 0). rewrite <- (fmap_replicate Some). apply overlay_full. by rewrite length_replicate.
Qed.

Lemma overlay_zeroes p n : (length p ≤ n)%nat → overlay 0 p (replicate n 0) = (default 0 <$> p) ++ replicate (n - length p) 0.
Proof.
  intros Hp. unfold overlay. change (Z.to_nat 0) with 0%nat. rewrite drop_0, Nat.add_0_l, take_0, drop_replicate. cbn [app]. f_equal.
  revert n Hp. induction p as [|x p IH]; intros [|n] Hp; cbn [length] in Hp; try (done || lia). cbn [replicate zip_with fmap list_fmap].
  f_equal. apply IH. lia.
Qed.

Definition profile_body : list Z := (default 0 <$> pattern (profile_layout client zone time)) ++ replicate 3380 0.

Lemma write_profile_ok stack : length stack = Z.to_nat SIZEOF_PlayerProfile →
  ∃ c, write_profile client zone time (aligned_init stack SIZEOF_PlayerProfile) =
    (Ok tt, mkAligned c SIZEOF_PlayerProfile (replicate 4 0 ++ profile_body)).
Proof.
  intros Hl. unfold write_profile. rewrite (bind_ok _ _ _ _ _ (zero_all_ok stack Hl)).
  set (P := (nones 4 ++ pattern (stats_layout client)) ++ pattern (items_layout client) ++ pattern (spells_layout client zone) ++
    constants ++ pattern (drop 1 (flags_layout client time)) ++ pattern (binds_layout client) ++ pattern (tail_layout client time)).
  assert (HP : P = nones 4 ++ pattern (profile_layout client zone time)).
  { unfold P, profile_layout, pattern. rewrite !fmap_app, !concat_app, <- !app_assoc. do 4 f_equal. }
  pose proof profile_length as Hlen. rewrite <- HP in Hlen. exists (0 + Z.of_nat (length P)).
  rewrite (fills_seq _ _ _ _ (stats_ok client Hse) (fills_seq _ _ _ _ (items_ok client Hse) (fills_seq _ _ _ _ (spell_part_ok client zone Hse)
    (fills_seq _ _ _ _ constants_ok (fills_seq _ _ _ _ (flags_ok client time Hse) (fills_seq _ _ _ _ (bind_part_ok client Hse)
      (tail_ok client time Hse))))))).
  - fold P. cbn [cursor length_ buffer]. do 2 f_equal. rewrite overlay_zeroes by lia.
    replace (Z.to_nat SIZEOF_PlayerProfile - length P)%nat with 3380%nat by lia. rewrite HP, fmap_app, <- app_assoc. done.
  - split_and!; cbn [cursor length_ buffer]; rewrite ?length_replicate; (done || (by vm_compute)).
  - fold P. cbn [cursor length_]. lia.
Qed.
End Sizes.

Lemma profile_body_length (client : Client) (zone : Zone) (time : Z) : sendable client →
  length (profile_body client zone time) = Z.to_nat (SIZEOF_PlayerProfile - 4).
Proof.
  intros Hse. pose proof (profile_length client zone time Hse) as H. unfold nones in H. rewrite length_app, length_replicate in H.
  unfold profile_body. rewrite length_app, length_fmap, length_replicate. lia.
Qed.

Lemma profile_bytes_ok (client : Client) (zone : Zone) (time : Z) (stack : list Z) : sendable client → length stack = Z.to_nat SIZEOF_PlayerProfile →
  profile_bytes client zone time stack =
    Ok (le_bytes 4 (not32 (crc_calc32 (profile_body client zone time))) ++ profile_body client zone time).
Proof.
  intros Hse Hl. unfold profile_bytes. destruct (write_profile_ok client zone time Hse stack Hl) as (c & ->).
  cbn [buffer]. rewrite drop_app_length' by done. by rewrite firstn_all2 by (rewrite profile_body_length by done; done).
Qed.

(** C31: The player profile is laid out like the struct the client reads: for
    a client whose items are in slots that the profile has, every value lands
    at its field's offset, all 86 fields in the struct's order and with the
    struct's sizes, items in the cells of their slots, blank cells and unknown
    bytes as the client expects them, the rest zero, and the crc in front is
    the crc of all that follows. *)
Theorem profile_follows_struct (client : Client) (zone : Zone) (time : Z) (stack : list Z) (Hse : sendable client)
    (Hl : length stack = Z.to_nat SIZEOF_PlayerProfile) :
  profile_bytes client zone time stack =
    Ok (le_bytes 4 (not32 (crc_calc32 (profile_body client zone time))) ++ profile_body client zone time) ∧
  field_sizes (profile_layout client zone time) = take 86 profile_fields ++ [("unknownW"%string, 264)].
Proof. split; [by apply profile_bytes_ok|by apply layout_sizes]. Qed.

(** A client with a sword in its primary slot. *)
Definition armed_client : Client :=
  let c := client_init 1 (mkZoning 1 0 7 false true [] (text "Soandso")) in
  c <| c_inventory := mkInventory 1 (-1) (-1) (-1) [mkSlot InvSlot_Cursor 0 0 None; mkSlot InvSlot_Primary 0 5001 (Some (item_create 9 3 1))] None |>.

Lemma armed_slots (P : InventorySlot → Prop) : Forall P (slots (c_inventory armed_client)) →
  ∀ slot, slot ∈ slots (c_inventory armed_client) → P slot.
Proof. intros H. by rewrite Forall_forall in H. Qed.

Lemma armed_sendable : sendable armed_client.
Proof.
  split; try (by vm_compute).
  - apply (armed_slots (λ slot, 0 < itemId slot → is_Some (item slot))). apply Forall_cons. split; [cbn; lia|apply Forall_singleton; by eexists].
  - apply (armed_slots (λ slot, slotId slot ≠ 2111)). apply Forall_cons. split; [done|by apply Forall_singleton].
  - apply (armed_slots (λ slot, 0 ≤ itemId slot)). apply Forall_cons. split; [cbn; lia|apply Forall_singleton; cbn; lia].
Qed.

Example profile_follows_struct_witness :
  let zone := zone_create 4 4 0 None in
  profile_bytes armed_client zone 1000 (replicate (Z.to_nat SIZEOF_PlayerProfile) 0xcc) =
    Ok (le_bytes 4 (not32 (crc_calc32 (profile_body armed_client zone 1000))) ++ profile_body armed_client zone 1000) ∧
  field_sizes (profile_layout armed_client zone 1000) = take 86 profile_fields ++ [("unknownW"%string, 264)].
Proof. intros zone. apply (profile_follows_struct armed_client zone 1000); [exact armed_sendable|by rewrite length_replicate]. Defined.

(** ** The bag slot past the bank's last one *)

(** C40: InvSlot_BankBagSlotsEnd is one past the bank's eighty bag slots: the
    charges of an item in slot 2111 are written behind the table of bank bags,
    into the field unknownK. *)
Theorem last_bank_slot_overflows (a : Aligned) (slot : InventorySlot) (it : Item)
    (Ha : wf a) (Hs : slotId slot = InvSlot_BankBagSlotsEnd) (Hi : item slot = Some it) (Hid : 0 < itemId slot) (Hau : augSlotId slot = 0)
    (Hl : cursor a + psize "bankBaggedItemProperties" + 3 ≤ length_ a) :
  let inv := mkInventory (-1) (-1) (-1) (-1) [slot] None in
  ∃ a', write_item_charges inv InvSlot_BankBagSlotsBegin InvSlot_BankBagSlotsEnd InvSlot_BankBagSlotsBegin a = (Ok tt, a') ∧
    cursor a' = cursor a ∧
    buffer a' !! Z.to_nat (cursor a + psize "bankBaggedItemProperties" + 2) = Some (u8 (it_charges it)).
Proof.
  intros inv. change (psize "bankBaggedItemProperties") with 800 in *. unfold write_item_charges.
  rewrite (bind_ok (gets _) _ a (cursor a) a eq_refl), for_slots_ok by done.
  change (slots inv) with [slot]. rewrite filter_cons_True.
  2: { unfold in_range. rewrite Hs, Hau. rewrite (proj2 (Z.eqb_neq _ 0)) by lia. done. }
  rewrite filter_nil. cbn [each]. rewrite Hi. cbn [deref].
  pose proof (fills_seq _ _ _ _ (fills_skip_bytes 800 ltac:(lia)) (fills_seq _ _ _ _ (fills_skip_bytes 2 ltac:(lia)) (fills_uint8 (u8 (it_charges it))))) as Hw.
  set (p := nones (Z.to_nat 800) ++ _) in Hw.
  assert (Hp : Z.of_nat (length p) = 803) by (unfold p, nones; rewrite !length_app, !length_replicate, le_length; lia).
  replace (SIZEOF_PPItem * (slotId slot - InvSlot_BankBagSlotsBegin)) with 800 by (rewrite Hs; done).
  eexists. split; [|split].
  - rewrite bind_assoc. rewrite (bind_ext (skip_bytes 800) _ (λ _, ((skip_bytes 2 ;; aligned_write_uint8 (u8 (it_charges it))) ;; aligned_reset_to (cursor a)))).
    2: { intros [] s. rewrite !bind_assoc. apply bind_ext. intros [] s'. unfold lift. unfold mbind at 1, code_bind at 1. cbn.
         unfold mbind, code_bind. by destruct (aligned_write_uint8 _ s') as [[[]|e|] s'']. }
    rewrite <- bind_assoc. erewrite bind_ok by (apply Hw; [done|lia]). reflexivity.
  - done.
  - cbn [buffer with_cursor]. destruct Ha as (? & ? & ?). rewrite overlay_lookup by lia. rewrite decide_True by lia.
    destruct (lookup_lt_is_Some_2 (buffer a) (Z.to_nat (cursor a + 800 + 2))) as [old ->]; [lia|]. cbn [fmap option_fmap option_map].
    replace (Z.to_nat (cursor a + 800 + 2) - Z.to_nat (cursor a))%nat with 802%nat by lia. unfold p, le. cbn [le_bytes fmap list_fmap].
    rewrite lookup_app_r by (unfold nones; rewrite length_replicate; lia). unfold nones. rewrite length_replicate. cbn. by rewrite wrap_wrap.
Qed.

Example last_bank_slot_overflows_witness :
  let slot := mkSlot 2111 0 5001 (Some (item_create 9 3 1)) in
  let a := aligned_init (replicate 900 0) 900 in
  ∃ a', write_item_charges (mkInventory (-1) (-1) (-1) (-1) [slot] None) InvSlot_BankBagSlotsBegin InvSlot_BankBagSlotsEnd
      InvSlot_BankBagSlotsBegin a = (Ok tt, a') ∧ cursor a' = cursor a ∧
    buffer a' !! Z.to_nat (cursor a + psize "bankBaggedItemProperties" + 2) = Some (u8 3).
Proof.
  intros slot a. apply (last_bank_slot_overflows a slot (item_create 9 3 1)); try reflexivity.
  - unfold wf, a. cbn [cursor length_ buffer aligned_init]. rewrite length_replicate. lia.
  - by vm_compute.
Defined.
