(* ===== verification/ZonePackets.v ===== *)
(** The packets of the zone cluster other than the player profile:
    zone_cluster/mob/client_packet_trilogy_output.c, with the structs of
    structs_trilogy.h (packed) and the opcodes of opcodes_trilogy.h.

    Each packet is the function that writes its data; [junk] is the memory of a
    new packet. *)

From S2P Require Import Prelude Fields Float32 Aligned Crc Text Servers ZoneId PlayerProfile Obfuscate ItemPrototype.
From S2P Require Import Mob Inventory Skills ZoneClient Zone ProfilePacket.

Definition TrilogyOp_ZoneEntry : Z := 0x202a.
Definition TrilogyOp_PlayerProfile : Z := 0x202d.
Definition TrilogyOp_Weather : Z := 0x2136.
Definition TrilogyOp_ZoneInfo : Z := 0x205b.
Definition TrilogyOp_EnterZone : Z := 0x20d8.
Definition TrilogyOp_EnteredZoneUnknown : Z := 0x21c3.
Definition TrilogyOp_Inventory : Z := 0x2031.
Definition TrilogyOp_SpawnAppearance : Z := 0x20f5.
Definition TrilogyOp_Spawn : Z := 0x2149.
Definition TrilogyOp_CustomMessage : Z := 0x2180.
Definition TrilogyOp_SetDataRate : Z := 0x21e8.
Definition TrilogyOp_InventoryRequest : Z := 0x205d.
Definition TrilogyOp_ZoneInfoRequest : Z := 0x200a.
Definition TrilogyOp_ZoneInUnknown : Z := 0x2147.
Definition TrilogyOp_SwapItem : Z := 0x212c.
Definition Trilogy_SpawnAppearance_SetEntityId : Z := 16.

(** ** The structs *)
Definition entry_fields : list (string * Z) := [
  ("crc", 4); ("unknownA", 1); ("name", 30); ("zoneShortName", 20); ("unknownB", 1); ("y", 4); ("x", 4); ("z", 4); ("heading", 4);
  ("unknownC", 76); ("guildId", 2); ("unknownD", 7); ("class", 1); ("race", 2); ("gender", 1); ("level", 1); ("unknownE", 2);
  ("isPvP", 1); ("unknownF", 2); ("face", 1); ("helmMaterial", 1); ("unknownG", 6); ("secondaryWeaponModelId", 1);
  ("primaryWeaponModelId", 1); ("unknownH", 3); ("helmColor", 4); ("unknownI", 32); ("texture", 1); ("unknownJ", 19);
  ("walkingSpeed", 4); ("runningSpeed", 4); ("unknownK", 12); ("anon", 1); ("unknownL", 23); ("surname", 20); ("unknownM", 2);
  ("deity", 2); ("unknownN", 8)]%string.

Definition info_fields : list (string * Z) := [
  ("characterName", 30); ("zoneShortName", 20); ("zoneLongName", 180); ("zoneType", 1); ("fogRed", 4); ("fogGreen", 4); ("fogBlue", 4);
  ("unknownA", 1); ("fogMinClippingDistance", 16); ("fogMaxClippingDistance", 16); ("gravity", 4); ("unknownB", 50); ("skyType", 2);
  ("unknownC", 8); ("unknownD", 4); ("safeSpotX", 4); ("safeSpotY", 4); ("safeSpotZ", 4); ("safeSpotHeading", 4); ("minZ", 4);
  ("minClippingDistance", 4); ("maxClippingDistance", 4); ("unknownE", 32)]%string.

Definition spawn_fields : list (string * Z) := [
  ("unknownA", 4); ("size", 4); ("walkingSpeed", 4); ("runningSpeed", 4); ("tints", 28); ("unknownB", 9); ("heading", 1);
  ("headingDelta", 1); ("y", 2); ("x", 2); ("z", 2); ("delta", 4); ("unknownC", 1); ("entityId", 2); ("bodyType", 2);
  ("ownerEntityId", 2); ("hpPercent", 2); ("guildId", 2); ("race", 1); ("mobType", 1); ("class", 1); ("gender", 1); ("level", 1);
  ("isInvisible", 1); ("unknownD", 1); ("isPvP", 1); ("uprightState", 1); ("light", 1); ("anon", 1); ("isAfk", 1); ("unknownE", 1);
  ("isLinkdead", 1); ("isGM", 1); ("unknownF", 1); ("texture", 1); ("helmTexture", 1); ("unknownG", 1); ("materials", 9);
  ("name", 30); ("surname", 20); ("guildRank", 1); ("unknownH", 1); ("deity", 2); ("unknownI", 10)]%string.

(** Trilogy_Item with the fields of Trilogy_ItemBasic. *)
Definition item_fields : list (string * Z) := [
  ("name", 35); ("lore", 60); ("model", 6); ("typeFlag", 2); ("unknownA", 22); ("weight", 1); ("isPermanent", 1); ("isDroppable", 1);
  ("size", 1); ("itemType", 1); ("itemId", 2); ("icon", 2); ("currentSlot", 2); ("slotsBitfield", 4); ("cost", 4); ("unknownB", 16);
  ("instanceId", 4); ("isDroppableRoleplayServer", 1); ("unknownC", 7);
  ("STR", 1); ("STA", 1); ("CHA", 1); ("DEX", 1); ("INT", 1); ("AGI", 1); ("WIS", 1); ("MR", 1); ("FR", 1); ("CR", 1); ("DR", 1);
  ("PR", 1); ("hp", 1); ("mana", 1); ("AC", 1); ("isStackable", 1); ("isTestItem", 1); ("light", 1); ("delay", 1); ("damage", 1);
  ("clickyType", 1); ("range", 1); ("skill", 1); ("isMagic", 1); ("clickableLevel", 1); ("material", 1); ("basicUnknownA", 2);
  ("tint", 4); ("basicUnknownB", 2); ("spellId", 2); ("classesBitfield", 4); ("racesBitfield", 4); ("consumableType", 1);
  ("procLevel", 1); ("charges", 1); ("effectType", 1); ("clickySpellId", 2); ("basicUnknownC", 10); ("castingTime", 4);
  ("basicUnknownD", 28); ("recommendedLevel", 1); ("basicUnknownE", 23); ("deityBitfield", 4)]%string.

(** sizeof_field *)
Definition fsize (fields : list (string * Z)) (name : string) : Z := sizes (filter (λ f, f.1 = name) fields).
Definition skip_of (fields : list (string * Z)) (name : string) : code Aligned unit := skip_bytes (fsize fields name).

Definition SIZEOF_ZoneEntry : Z := sizes entry_fields.
Definition SIZEOF_Weather : Z := 8.
Definition SIZEOF_ZoneInfo : Z := sizes info_fields.
Definition SIZEOF_SpawnAppearance : Z := 12.
Definition SIZEOF_Spawn : Z := sizes spawn_fields.
Definition SIZEOF_CustomMessage : Z := 4.
Definition SIZEOF_Item : Z := sizes item_fields.
Definition SIZEOF_ZoneEntryFromClient : Z := 36.
Definition SIZEOF_SwapItem : Z := 12.

(** ** Zone entry *)
Definition write_zone_entry (client : Client) (zone : Zone) : code Aligned unit :=
  let mob := c_mob client in
  let skip := skip_of entry_fields in
  aligned_write_zero_all ;;
  skip_bytes 4 ;;
  skip_bytes 1 ;;
  aligned_write_snprintf_full_advance (fsize entry_fields "name") (mob_name_cstr mob) ;;
  aligned_write_snprintf_full_advance (fsize entry_fields "zoneShortName") (zone_get_short_name zone) ;;
  skip_bytes 1 ;;
  aligned_write_float (mob_y mob) ;;
  aligned_write_float (mob_x mob) ;;
  aligned_write_float (mob_z mob) ;;
  aligned_write_float (f32_mul (mob_heading mob) f32_two) ;;
  skip "unknownC" ;;
  aligned_write_uint16 (guild_or_none client) ;;
  skip "unknownD" ;;
  aligned_write_uint8 (mob_class mob) ;;
  aligned_write_uint16 (mob_base_race mob) ;;
  aligned_write_uint8 (mob_base_gender mob) ;;
  aligned_write_uint8 (mob_level mob) ;;
  skip "unknownE" ;;
  aligned_write_uint8 (of_bool (client_is_pvp client)) ;;
  skip "unknownF" ;;
  aligned_write_uint8 (mob_face mob) ;;
  aligned_write_uint8 (mob_helm_texture mob) ;;
  skip "unknownG" ;;
  aligned_write_uint8 (u8 (m_secondaryModelId mob)) ;;
  aligned_write_uint8 (u8 (m_primaryModelId mob)) ;;
  skip "unknownH" ;;
  aligned_write_uint32 0 ;;
  skip "unknownI" ;;
  aligned_write_uint8 (mob_texture mob) ;;
  skip "unknownJ" ;;
  aligned_write_float (mob_base_walking_speed mob) ;;
  aligned_write_float (mob_base_running_speed mob) ;;
  skip "unknownK" ;;
  aligned_write_uint8 (c_anonSetting client) ;;
  skip "unknownL" ;;
  match c_surname client with
  | Some surname => aligned_write_snprintf_full_advance (fsize entry_fields "surname") surname
  | None => skip "surname"
  end ;;
  skip "unknownM" ;;
  aligned_write_uint16 (mob_deity mob).

(** The crc of what follows it, at the packet's start. *)
Definition write_leading_crc : code Aligned unit :=
  aligned_reset ;;
  a ← get;
  aligned_write_uint32 (not32 (crc_calc32 (take (Z.to_nat (aligned_size a - 4)) (drop 4 (buffer a))))).

Definition client_trilogy_send_zone_entry (junk : Z → list Z) (client : Client) (zone : Zone) : outcome (list Z) :=
  fill_packet junk SIZEOF_ZoneEntry (write_zone_entry client zone ;; write_leading_crc).

(** ** Weather, zone info, spawn appearance *)
Definition client_trilogy_make_op_weather (junk : Z → list Z) (weatherType intensity : Z) : outcome (list Z) :=
  fill_packet junk SIZEOF_Weather (aligned_write_int32 weatherType ;; aligned_write_int32 intensity).

Definition f_0_75 : Z := 0x3f400000.

Definition write_zone_info (zone : Zone) : code Aligned unit :=
  let fog (f : FogStats → code Aligned unit) := upto 4 (λ i, s ← elem (z_fogStats zone) i; f s) in
  aligned_write_zero_all ;;
  skip_of info_fields "characterName" ;;
  aligned_write_snprintf_full_advance (fsize info_fields "zoneShortName") (zone_get_short_name zone) ;;
  aligned_write_snprintf_full_advance (fsize info_fields "zoneLongName") (zone_get_long_name zone) ;;
  aligned_write_uint8 (zone_get_zone_type_id zone) ;;
  fog (λ s, aligned_write_uint8 (fog_red s)) ;;
  fog (λ s, aligned_write_uint8 (fog_green s)) ;;
  fog (λ s, aligned_write_uint8 (fog_blue s)) ;;
  skip_of info_fields "unknownA" ;;
  fog (λ s, aligned_write_float (fog_minClip s)) ;;
  fog (λ s, aligned_write_float (fog_maxClip s)) ;;
  aligned_write_float (zone_get_gravity zone) ;;
  aligned_write_uint8 0x20 ;; aligned_write_memset 0x0a 4 ;; aligned_write_uint8 0x18 ;; aligned_write_uint8 0x06 ;;
  aligned_write_uint8 0x02 ;; aligned_write_uint8 0x0a ;; skip_bytes 8 ;; aligned_write_memset 0xff 32 ;; skip_bytes 1 ;;
  aligned_write_uint16 (zone_get_sky_id zone) ;;
  aligned_write_uint8 0x04 ;; skip_bytes 1 ;; aligned_write_uint8 0x02 ;; skip_bytes 5 ;;
  aligned_write_float f_0_75 ;;
  aligned_write_float (loc_x (z_safeSpot zone)) ;;
  aligned_write_float (loc_y (z_safeSpot zone)) ;;
  aligned_write_float (loc_z (z_safeSpot zone)) ;;
  aligned_write_float (loc_heading (z_safeSpot zone)) ;;
  aligned_write_float (z_minZ zone) ;;
  aligned_write_float (zone_get_min_clipping_distance zone) ;;
  aligned_write_float (zone_get_max_clipping_distance zone).

Definition client_trilogy_make_op_zone_info (junk : Z → list Z) (zone : Zone) : outcome (list Z) :=
  fill_packet junk SIZEOF_ZoneInfo (write_zone_info zone).

Definition client_trilogy_make_op_spawn_appearance (junk : Z → list Z) (entityId type value : Z) : outcome (list Z) :=
  fill_packet junk SIZEOF_SpawnAppearance
    (aligned_write_uint16 entityId ;; aligned_write_uint16 0 ;; aligned_write_uint16 type ;; aligned_write_uint16 0 ;; aligned_write_uint32 value).

(** ** Spawns *)

(** What the client calls a mob's type; a type the switch does not know leaves
    the race in the variable. *)
Definition spawn_type (mobType race : Z) : Z :=
  if (mobType =? MobType_Npc) || (mobType =? MobType_Pet) then 1
  else if mobType =? MobType_Client then 0
  else if mobType =? MobType_NpcCorpse then 3
  else if mobType =? MobType_ClientCorpse then 2 else race.

(** (uint16_t) of a coordinate: the macro aligned_write_int16 casts. *)
Definition write_coordinate (f : Z) : code Aligned unit := n ← lift (f32_to_uint16 f); aligned_write_uint16 n.

Definition spawn_guild (client : Client) : Z := let guildId := u16 (c_guildId client) in if guildId =? 0 then 0xffff else guildId.

(** [client] is the client the mob is, when it is one. *)
Definition write_spawn (mob : Mob) (client : option Client) : code Aligned unit :=
  let skip := skip_of spawn_fields in
  let isClient := mob_get_type mob =? MobType_Client in
  let race := mob_current_race mob in
  aligned_write_zero_all ;;
  skip "unknownA" ;;
  aligned_write_float (mob_current_size mob) ;;
  aligned_write_float (mob_current_walking_speed mob) ;;
  aligned_write_float (mob_current_running_speed mob) ;;
  upto 7 (λ i, t ← elem (m_tints mob) i; aligned_write_uint32 t) ;;
  skip "unknownB" ;;
  aligned_write_int8 (m_headingRaw mob) ;;
  skip_bytes 1 ;;
  write_coordinate (mob_y mob) ;;
  write_coordinate (mob_x mob) ;;
  write_coordinate (f32_mul (mob_z mob) f32_ten) ;;
  skip_bytes 4 ;;
  skip "unknownC" ;;
  aligned_write_uint16 (u16 (mob_entity_id mob)) ;;
  aligned_write_uint16 (mob_body_type mob) ;;
  aligned_write_uint16 (u16 (m_ownerEntityId mob)) ;;
  hp ← lift (mob_hp_ratio mob);
  aligned_write_int16 hp ;;
  (if isClient then c ← lift (deref client); aligned_write_uint16 (spawn_guild c) else aligned_write_uint16 0xffff) ;;
  aligned_write_uint8 (if 0xff <? race then 1 else race) ;;
  aligned_write_uint8 (u8 (spawn_type (mob_get_type mob) race)) ;;
  aligned_write_uint8 (mob_class mob) ;;
  aligned_write_uint8 (mob_current_gender mob) ;;
  aligned_write_uint8 (mob_level mob) ;;
  aligned_write_uint8 (u8 (mob_is_invisible mob)) ;;
  skip "unknownD" ;;
  (if isClient then c ← lift (deref client); aligned_write_uint8 (of_bool (client_is_pvp c)) else skip_bytes 1) ;;
  aligned_write_uint8 (mob_upright_state mob) ;;
  aligned_write_uint8 (mob_light_level mob) ;;
  (if isClient then
     c ← lift (deref client);
     aligned_write_uint8 (client_anon_setting c) ;;
     aligned_write_uint8 (of_bool (client_is_afk c)) ;;
     skip "unknownE" ;;
     aligned_write_uint8 (of_bool (client_is_linkdead c)) ;;
     aligned_write_uint8 (of_bool (client_is_gm c))
   else skip_bytes 5) ;;
  skip "unknownF" ;;
  aligned_write_uint8 (mob_texture mob) ;;
  aligned_write_uint8 (mob_helm_texture mob) ;;
  skip "unknownG" ;;
  upto 7 (λ i, m ← elem (m_materials mob) i; aligned_write_uint8 m) ;;
  aligned_write_uint8 (u8 (m_primaryModelId mob)) ;;
  aligned_write_uint8 (u8 (m_secondaryModelId mob)) ;;
  aligned_write_snprintf_full_advance (fsize spawn_fields "name") (mob_client_friendly_name_cstr mob) ;;
  (if isClient then
     c ← lift (deref client);
     aligned_write_snprintf_full_advance (fsize spawn_fields "surname") (client_surname_cstr c) ;;
     aligned_write_uint8 (client_guild_rank c)
   else skip_bytes (fsize spawn_fields "surname" + fsize spawn_fields "guildRank")) ;;
  skip "unknownH" ;;
  aligned_write_uint16 (mob_deity mob).

Definition client_trilogy_make_op_spawn (junk : Z → list Z) (mob : Mob) (client : option Client) : outcome (list Z) :=
  data ← fill_packet junk SIZEOF_Spawn (write_spawn mob client); Ok (client_trilogy_spawn_obfuscate data).

(** ** Messages *)

(** [str] is the memory from the text on; [len] leaves out its terminator. *)
Definition client_trilogy_make_op_custom_message (junk : Z → list Z) (chatChannel : Z) (str : list Z) (len : Z) : outcome (list Z) :=
  let len := u32 (len + 1) in
  fill_packet junk (u32 (SIZEOF_CustomMessage + len)) (aligned_write_uint32 chatChannel ;; aligned_write_buffer str len).

(** [formatted] is the text that vsnprintf makes of the format, or its failure. *)
Definition client_trilogy_make_op_custom_message_format (junk : Z → list Z) (chatChannel : Z) (formatted : option (list Z)) : outcome (list Z) :=
  match formatted with
  | None => Throw ErrorFormatString
  | Some s =>
      let len := Z.of_nat (length s) in
      let buf := take 4095 s ++ [0] in
      client_trilogy_make_op_custom_message junk chatChannel buf (if 4096 <=? len then 4095 else len)
  end.

(** ** Items *)
Definition write_item (item : Item) (proto : ItemPrototype) (slotId : Z) : code Aligned unit :=
  let zeroes (name : string) := aligned_write_zeroes (fsize item_fields name) in
  let isLore := negb (item_proto_is_lore proto =? 0) in
  name ← lift (field_string (item_proto_get_name proto));
  aligned_write_snprintf_full_advance (fsize item_fields "name") name ;;
  (if isLore then aligned_write_uint8 42 else mret tt) ;;
  lore ← lift (field_string (item_proto_get_lore_text proto));
  aligned_write_snprintf_full_advance (fsize item_fields "lore" - (if isLore then 1 else 0)) lore ;;
  aligned_write_snprintf_full_advance (fsize item_fields "model") (text "IT" ++ decimal (item_proto_get_model_id proto)) ;;
  aligned_write_uint16 0x3336 ;;
  zeroes "unknownA" ;;
  aligned_write_uint8 (item_proto_get_weight proto) ;;
  aligned_write_uint8 (if item_proto_is_permanent proto =? 0 then 0 else 255) ;;
  aligned_write_uint8 (item_proto_is_droppable proto) ;;
  aligned_write_uint8 (item_proto_get_size proto) ;;
  aligned_write_uint8 0 ;;
  aligned_write_uint16 (u16 (item_proto_get_item_id proto)) ;;
  aligned_write_uint16 (u16 (item_proto_get_icon_id proto)) ;;
  aligned_write_uint16 slotId ;;
  aligned_write_uint32 (u32 (Z.shiftl (item_proto_get_slot_bitfield proto) 1)) ;;
  aligned_write_uint32 (item_proto_get_cost proto) ;;
  zeroes "unknownB" ;;
  aligned_write_uint32 0 ;;
  aligned_write_uint8 (item_proto_is_droppable proto) ;;
  zeroes "unknownC" ;;
  aligned_write_int8 (item_proto_get_str proto) ;;
  aligned_write_int8 (item_proto_get_sta proto) ;;
  aligned_write_int8 (item_proto_get_cha proto) ;;
  aligned_write_int8 (item_proto_get_dex proto) ;;
  aligned_write_int8 (item_proto_get_int proto) ;;
  aligned_write_int8 (item_proto_get_agi proto) ;;
  aligned_write_int8 (item_proto_get_wis proto) ;;
  aligned_write_int8 (item_proto_get_sv_magic proto) ;;
  aligned_write_int8 (item_proto_get_sv_fire proto) ;;
  aligned_write_int8 (item_proto_get_sv_cold proto) ;;
  aligned_write_int8 (item_proto_get_sv_disease proto) ;;
  aligned_write_int8 (item_proto_get_sv_poison proto) ;;
  aligned_write_int8 (item_proto_get_hp proto) ;;
  aligned_write_int8 (item_proto_get_mana proto) ;;
  aligned_write_int8 (item_proto_get_ac proto) ;;
  aligned_write_uint8 (if item_proto_is_stackable proto =? 0 then 0 else 1) ;;
  aligned_write_uint8 0 ;;
  aligned_write_uint8 (item_proto_get_light proto) ;;
  aligned_write_uint8 (u8 (item_proto_get_delay proto)) ;;
  aligned_write_uint8 (u8 (item_proto_get_damage proto)) ;;
  aligned_write_uint8 0 ;;
  aligned_write_uint8 (u8 (item_proto_get_range proto)) ;;
  aligned_write_uint8 (item_proto_get_item_type_id proto) ;;
  aligned_write_uint8 (item_proto_is_magic proto) ;;
  aligned_write_uint8 0 ;;
  aligned_write_uint8 (item_proto_get_material proto) ;;
  zeroes "basicUnknownA" ;;
  aligned_write_uint32 (item_proto_get_tint proto) ;;
  zeroes "basicUnknownB" ;;
  aligned_write_uint16 (u16 (item_proto_get_spell_id proto)) ;;
  aligned_write_uint32 (item_proto_get_class_bitfield proto) ;;
  aligned_write_uint32 (item_proto_get_race_bitfield proto) ;;
  aligned_write_uint8 3 ;;
  aligned_write_uint8 0 ;;
  aligned_write_uint8 (u8 (item_get_charges item)) ;;
  aligned_write_uint8 0 ;;
  aligned_write_uint16 (u16 (item_proto_get_spell_id proto)) ;;
  zeroes "basicUnknownC" ;;
  aligned_write_uint32 (item_proto_get_casting_time proto) ;;
  zeroes "basicUnknownD" ;;
  aligned_write_uint8 0 ;;
  zeroes "basicUnknownE" ;;
  aligned_write_uint32 0.

Definition client_trilogy_make_item_packet (junk : Z → list Z) (item : Item) (proto : ItemPrototype) (slotId : Z) : outcome (list Z) :=
  fill_packet junk SIZEOF_Item (write_item item proto slotId).
