(* ===== verification/ZoneCluster.v ===== *)
(** The zone cluster process: its clients' life from the zoning request to the
    zone and out of it again (zone_cluster/zone_cluster.c, mob/client.c,
    mob/client_packet_trilogy_input.c, packet_broadcast.c, zone_cluster_ipc.c
    and the scheduling functions of mob/client_packet_trilogy_output.c).

    Objects are created at addresses that are given. A protocol handler is what
    it was given to do, so a packet is its opcode and data. The heap's and the
    stack's old content, the clock, zlib and the items in shared memory are
    arguments. Connections use the trilogy protocol. *)

From S2P Require Import Prelude Fields Array Aligned Text Servers ZoneId PlayerProfile Obfuscate ItemPrototype.
From S2P Require Import Mob Inventory Skills ZoneClient Zone ProfilePacket ZonePackets.

Definition EQP_SOURCE_ID_ZONE_INSTANCE_OFFSET : Z := 1000.
Definition EQP_SOURCE_ID_ZONE_MAX : Z := 999.
Definition EQP_SOURCE_ID_ZONE_INSTANCE_MAX : Z := 999.
Definition EQP_CLIENT_ZONE_IN_NO_AUTH_TIMEOUT : Z := 30000.
Definition ServerOp_ClientZoning : Z := 9.
Definition ServerOp_StartZone : Z := 12.
Definition ServerOp_ItemSharedMemoryOpen : Z := 13.

(** ** Protocol handlers *)
Definition handler_at (h : nat) : code ZC ZoneHandler := λ s, (deref (zoneHandlers s !! h), s).
Definition put_handler (h : nat) (z : ZoneHandler) (s : ZC) : ZC := s <| zoneHandlers := <[h := z]> (zoneHandlers s) |>.
Definition upd_handler (h : nat) (f : ZoneHandler → ZoneHandler) : code ZC unit := z ← handler_at h; modify (put_handler h (f z)).

Definition protocol_handler_grab (h : nat) : code ZC unit := upd_handler h (λ z, z <| zh_refCount := zh_refCount z + 1 |>).
Definition protocol_handler_drop (h : nat) : code ZC unit :=
  z ← handler_at h;
  if 1 <? zh_refCount z then upd_handler h (λ z, z <| zh_refCount := zh_refCount z - 1 |>)
  else modify (λ s, s <| zoneHandlers := delete h (zoneHandlers s) |>).
Definition protocol_handler_set_client_object (h client : nat) : code ZC unit := upd_handler h (λ z, z <| zh_client := Some client |>).
Definition protocol_handler_send_disconnect (h : nat) : code ZC unit := upd_handler h (λ z, z <| zh_disconnects := zh_disconnects z + 1 |>).
Definition schedule (opcode : Z) (data : list Z) (z : ZoneHandler) : ZoneHandler := z <| zh_scheduled := zh_scheduled z ++ [(opcode, data)] |>.

(** A handler that is NULL is the client's of a linkdead player. *)
Definition client_handler (a : nat) : code ZC nat := c ← zclient_at a; lift (deref (c_handler c)).

Definition client_trilogy_schedule_packet_individual (a : nat) (opcode : Z) (packet : outcome (list Z)) : code ZC unit :=
  data ← lift packet; h ← client_handler a; upd_handler h (schedule opcode data).
Definition client_trilogy_schedule_packet_broadcast (a : nat) (packet : Z * list Z) : code ZC unit :=
  h ← client_handler a; upd_handler h (schedule packet.1 packet.2).
Definition client_trilogy_send_zero_length_packet (a : nat) (opcode : Z) : code ZC unit :=
  client_trilogy_schedule_packet_individual a opcode (Ok []).
Definition client_trilogy_send_zeroed_packet_var_length (a : nat) (opcode : Z) (length_ : Z) : code ZC unit :=
  client_trilogy_schedule_packet_individual a opcode (Ok (replicate (Z.to_nat length_) 0)).
Definition client_trilogy_send_keep_alive (h : nat) : code ZC unit := upd_handler h (λ z, z <| zh_keepAlives := zh_keepAlives z + 1 |>).

(** A client with a handler is sent the packet. *)
Lemma packet_scheduled_ok a h s c zh op packet data : clients s !! a = Some c → c_handler c = Some h → zoneHandlers s !! h = Some zh → packet = Ok data →
  client_trilogy_schedule_packet_individual a op packet s = (Ok tt, put_handler h (schedule op data zh) s).
Proof.
  intros Hc Hh Hz ->. unfold client_trilogy_schedule_packet_individual, client_handler, upd_handler, handler_at, zclient_at. run.
  rewrite Hc. cbv beta iota. rewrite Hh. cbv beta iota. by rewrite Hz.
Qed.

(** ** References *)
Definition client_grab (a : nat) : code ZC unit := upd_zclient a (λ c, c <| c_refCount := c_refCount c + 1 |>).

Definition client_drop (a : nat) : code ZC unit :=
  c ← zclient_at a;
  if 1 <? c_refCount c then upd_zclient a (λ c, c <| c_refCount := c_refCount c - 1 |>)
  else
    (if c_isStubClient c then mret tt
     else modify (λ s, s <| autoSaves := filter (λ b, b ≠ a) (autoSaves s) |>) ;; zlog_event a "objectGC") ;;
    match c_handler c with Some h => protocol_handler_drop h | None => mret tt end ;;
    modify (λ s, s <| clients := delete a (clients s) |>).

Definition client_forcibly_disconnect (a : nat) : code ZC unit :=
  c ← zclient_at a; match c_handler c with Some h => protocol_handler_send_disconnect h | None => mret tt end.

(** protocol_handler_trilogy_init's new client, at [a], for the handler [h] that
    the socket's entry owns. *)
Definition client_create_from_new_connection_trilogy (now : Z) (h a : nat) : code ZC unit :=
  protocol_handler_grab h ;;
  modify (put_zclient a (client_create_unidentified_stub h ExpansionId_Trilogy now)) ;;
  protocol_handler_set_client_object h a.

(** ** Zones by source id *)
Definition zc_get_zone_by_source_id (sourceId : Z) (s : ZC) : option nat :=
  match list_find (λ z, z.1 = sourceId) (zoneList s) with Some (_, z) => Some z.2 | None => None end.

(** The zone is created at [zone]. *)
Definition zc_start_zone (zone : nat) (mapMinZ : option Z) (sourceId : Z) : code ZC unit :=
  let zoneId := Z.rem sourceId EQP_SOURCE_ID_ZONE_INSTANCE_OFFSET in
  let instId := Z.quot sourceId EQP_SOURCE_ID_ZONE_INSTANCE_OFFSET in
  if (instId <? 0) || (EQP_SOURCE_ID_ZONE_INSTANCE_MAX <? instId) then mret tt
  else if (zoneId <? 1) || (EQP_SOURCE_ID_ZONE_MAX <? zoneId) then mret tt
  else
    running ← gets (zc_get_zone_by_source_id sourceId);
    match running with
    | Some _ => mret tt
    | None =>
        modify (put_zone zone (zone_create sourceId zoneId instId mapMinZ)) ;;
        zlog_event zone "createZone" ;;
        modify (λ s, s <| zoneList := zoneList s ++ [(sourceId, zone)] |>)
    end.

(** ** Connected clients *)
Fixpoint forget_handler (a : nat) (l : list ConnectedClient) : list ConnectedClient :=
  match l with
  | [] => []
  | c :: l => if decide (cc_client c = a) then mkConnected (cc_expansion c) None (cc_client c) :: l else c :: forget_handler a l
  end.

Definition zc_remove_connected_client (a : nat) (isLinkdead : bool) : code ZC unit :=
  if isLinkdead then
    client_grab a ;;
    h ← client_handler a;
    protocol_handler_drop h ;;
    upd_zclient a (λ c, c <| c_handler := None |>) ;;
    upd_zclient a (λ c, c <| c_isLinkdead := true |>) ;;
    c ← zclient_at a;
    zone ← lift (client_zone c);
    zone_mark_client_as_linkdead zone a ;;
    modify (λ s, s <| connectedClients := forget_handler a (connectedClients s) |>) ;;
    modify (λ s, s <| zoneTimers := zoneTimers s ++ [LinkdeadLinger a] |>)
  else
    c ← zclient_at a;
    connected ← gets connectedClients;
    match list_find (λ con, cc_client con = a) connected with
    | None => mret tt
    | Some (i, _) =>
        zone ← lift (client_zone c);
        zone_remove_client zone a ;;
        name ← lift (deref (m_name (c_mob c)));
        modify (λ s, s <| connectedClientsByName := delete name (connectedClientsByName s) |>) ;;
        modify (λ s, s <| connectedClients := snd (swap_and_pop (connectedClients s) i) |>)
    end.

(** [aggro] is what zone_spawn_mob's local variable holds. *)
Definition zc_add_connected_client (aggro : Z) (a : nat) : code ZC unit :=
  c ← zclient_at a;
  name ← lift (deref (m_name (c_mob c)));
  byName ← gets connectedClientsByName;
  match byName !! name with
  | Some prev =>
      zc_remove_connected_client prev false ;;
      p ← zclient_at prev;
      if client_is_linkdead p then mret tt else client_forcibly_disconnect prev ;; client_drop prev
  | None => mret tt
  end ;;
  c ← zclient_at a;
  modify (λ s, s <| connectedClientsByName := set_absent (connectedClientsByName s) name a |>) ;;
  modify (λ s, s <| connectedClients := connectedClients s ++ [mkConnected (client_expansion c) (c_handler c) a] |>) ;;
  zone ← lift (client_zone c);
  zone_spawn_client aggro zone a.

Definition zc_client_keep_alive_callback : code ZC unit :=
  connected ← gets connectedClients;
  each connected (λ con,
    match cc_handler con with
    | Some h => if cc_expansion con =? ExpansionId_Trilogy then client_trilogy_send_keep_alive h else mret tt
    | None => mret tt
    end).

(** The cluster of a stub is NULL. *)
Definition client_on_disconnect (a : nat) (isLinkdead : bool) : code ZC unit :=
  c ← zclient_at a;
  if negb (m_zoneCluster (c_mob c)) then fault
  else
    (if isLinkdead then _ ← lift (client_zone c); zlog_event a "event_linkdead" else mret tt) ;;
    zc_remove_connected_client a isLinkdead ;;
    client_drop a.

Definition remove_timer (t : ZoneTimer) (l : list ZoneTimer) : list ZoneTimer :=
  match list_find (λ u, u = t) l with Some (i, _) => delete i l | None => l end.
Definition timer_destroy (t : ZoneTimer) : code ZC unit := modify (λ s, s <| zoneTimers := remove_timer t (zoneTimers s) |>).

Definition zc_remove_linkdead_client_callback (a : nat) : code ZC unit :=
  zc_remove_connected_client a false ;; client_drop a ;; timer_destroy (LinkdeadLinger a).

(** ** Broadcasts *)
Record PacketBroadcast := mkBroadcast { pb_source : nat; pb_trilogy : option (Z * list Z) }.

Definition packet_broadcast_init (source : nat) : PacketBroadcast := mkBroadcast source None.
Definition packet_broadcast_set_packet_for_expansion (expansionId : Z) (packet : Z * list Z) (b : PacketBroadcast) : PacketBroadcast :=
  if expansionId =? ExpansionId_Trilogy then mkBroadcast (pb_source b) (Some packet) else b.

Section Cluster.
Context (junk : Z → list Z) (stack : list Z) (compress2 : list Z → option (list Z)) (now : Z) (aggro bindJunk : Z)
  (items : Z → option nat) (prototypes : nat → option ItemPrototype).

Definition make_spawn (source : nat) : code ZC (list Z) :=
  mob ← mob_at source; cs ← gets clients; lift (client_trilogy_make_op_spawn junk mob (cs !! source)).

Definition packet_broadcast_encode_op_spawn (expansionId : Z) (b : PacketBroadcast) : code ZC PacketBroadcast :=
  if expansionId =? ExpansionId_Trilogy then
    data ← make_spawn (pb_source b); mret (mkBroadcast (pb_source b) (Some (TrilogyOp_Spawn, data)))
  else mret b.

Definition packet_broadcast_get_trilogy (b : PacketBroadcast) : code ZC PacketBroadcast :=
  match pb_trilogy b with Some _ => mret b | None => packet_broadcast_encode_op_spawn ExpansionId_Trilogy b end.

Fixpoint broadcast_to (l : list ClientListing) (ignore : option nat) (b : PacketBroadcast) : code ZC unit :=
  match l with
  | [] => mret tt
  | listing :: l =>
      if bool_decide (Some (ls_client listing) = ignore) || ls_isLinkdead listing then broadcast_to l ignore b
      else if ls_expansionId listing =? ExpansionId_Trilogy then
        b ← packet_broadcast_get_trilogy b;
        match pb_trilogy b with
        | Some packet => client_trilogy_schedule_packet_broadcast (ls_client listing) packet
        | None => mret tt
        end ;;
        broadcast_to l ignore b
      else broadcast_to l ignore b
  end.

Definition zone_broadcast_packet (zone : nat) (b : PacketBroadcast) (ignore : option nat) : code ZC unit :=
  z ← zone_at zone; broadcast_to (z_clientList z) ignore b.

(** The character is created at [npc]. *)
Definition zone_spawn_npc (npc zone : nat) (proto : NpcPrototype) (x y z heading : Z) : code ZC unit :=
  modify (λ s, s <| npcs := <[npc := npc_create zone proto x y z heading]> (npcs s) |>) ;;
  zone_spawn_mob aggro zone npc ;;
  zone_broadcast_packet zone (packet_broadcast_init npc) None.

(** ** Loading a client *)
Definition client_trilogy_send_player_profile (a : nat) : code ZC unit :=
  c ← zclient_at a;
  zone ← lift (client_zone c);
  z ← zone_at zone;
  pp ← lift (profile_bytes c z now stack);
  client_trilogy_schedule_packet_individual a TrilogyOp_PlayerProfile
    (client_trilogy_send_player_profile_compress_and_obfuscate compress2 pp).

Definition send_zone_entry (a : nat) : code ZC unit :=
  c ← zclient_at a;
  zone ← lift (client_zone c);
  z ← zone_at zone;
  client_trilogy_schedule_packet_individual a TrilogyOp_ZoneEntry (client_trilogy_send_zone_entry junk c z).

Definition timer_start_auto_save (a : nat) (s : ZC) : ZC :=
  if bool_decide (a ∈ autoSaves s) then s else s <| autoSaves := autoSaves s ++ [a] |>.

Definition client_check_loading_finished (a : nat) : code ZC unit :=
  c ← zclient_at a;
  if negb (all_loaded (c_loaded c)) then mret tt
  else
    modify (timer_start_auto_save a) ;;
    _ ← lift (client_zone c);
    zlog_event a "createClient" ;;
    zlog_event a "event_pre_spawn" ;;
    if client_is_trilogy c then
      client_trilogy_send_player_profile a ;;
      send_zone_entry a ;;
      client_trilogy_schedule_packet_individual a TrilogyOp_Weather (client_trilogy_make_op_weather junk 0 0)
    else mret tt.

Definition set_loaded (f : Loaded → Loaded) (c : Client) : Client := c <| c_loaded := f (c_loaded c) |>.

Definition client_catch_up_with_loading_progress (a : nat) : code ZC unit :=
  upd_zclient a (set_loaded (λ l, l <| l_connection := true |> <| l_unused := true |>)) ;;
  client_check_loading_finished a.

Definition db_schedule (q : ZoneQuery) : code ZC unit := modify (λ s, s <| zoneQueries := zoneQueries s ++ [q] |>).

(** How the callbacks of the queries end, but for the first. *)
Definition finish_query (a : nat) (f : Loaded → Loaded) : code ZC unit :=
  upd_zclient a (set_loaded f) ;;
  c ← zclient_at a;
  (if l_connection (c_loaded c) then client_check_loading_finished a else mret tt) ;;
  client_drop a.

Definition change_client (a : nat) (f : Client → outcome Client) : code ZC unit :=
  c ← zclient_at a; c' ← lift (f c); modify (put_zclient a c').

Definition client_load_skills_callback (a : nat) (rows : list (Z * Z)) : code ZC unit :=
  change_client a (load_skills rows) ;; finish_query a (λ l, l <| l_skills := true |>).

(** Its reference carries over into the next query. *)
Definition client_load_stats_callback (a : nat) (rows : list StatsRow) : code ZC unit :=
  change_client a (λ c, Ok (fold_left (λ c row, load_stats row c) rows c)) ;;
  upd_zclient a (set_loaded (λ l, l <| l_stats := true |>)) ;;
  db_schedule (LoadSkills a).

Definition client_load_inventory_callback (a : nat) (rows : list InventoryRow) : code ZC unit :=
  change_client a (load_items items rows) ;; finish_query a (λ l, l <| l_inventory := true |>).

Definition client_load_spellbook_callback (a : nat) (rows : list (Z * Z)) : code ZC unit :=
  change_client a (λ c, Ok (load_spellbook rows c)) ;; finish_query a (λ l, l <| l_spellbook := true |>).

Definition client_load_memmed_spells_callback (a : nat) (rows : list (Z * Z * Z)) : code ZC unit :=
  change_client a (λ c, Ok (load_memmed_spells rows c)) ;; finish_query a (λ l, l <| l_memmedSpells := true |>).

Definition client_load_bind_points_callback (a : nat) (rows : list BindRow) : code ZC unit :=
  change_client a (λ c, Ok (load_bind_points bindJunk rows c)) ;; finish_query a (λ l, l <| l_bindPoints := true |>).

(** ** From the zoning request to the connection *)
Definition client_create (a zone : nat) (zoning : ClientZoning) : code ZC unit :=
  modify (put_zclient a (client_init zone zoning)) ;;
  each [LoadStats a; LoadInventory a; LoadSpellbook a; LoadMemmedSpells a; LoadBindPoints a] (λ q, client_grab a ;; db_schedule q).

Definition SIZEOF_Server_ClientZoning : Z := 120.

(** The packet's struct; strings run to their terminators. *)
Definition zoning_of (data : list Z) : outcome ClientZoning :=
  let number n offset := foldr (λ b v, b + 256 * v) 0 (take n (drop offset data)) in
  accountName ← field_string (drop 24 data);
  characterName ← field_string (drop 88 data);
  Ok (mkZoning (number 4%nat 0%nat) (number 4%nat 4%nat) (i64 (number 8%nat 8%nat)) (negb (number 4%nat 16%nat =? 0))
    (negb (number 4%nat 20%nat =? 0)) accountName characterName).

(** The client is created at [a]. *)
Definition zc_client_expected_to_zone_in (a : nat) (sourceId : Z) (data : list Z) : code ZC unit :=
  if Z.of_nat (length data) <? SIZEOF_Server_ClientZoning then mret tt
  else
    zone ← gets (zc_get_zone_by_source_id sourceId);
    match zone with
    | None => mret tt
    | Some zone =>
        zoning ← lift (zoning_of data);
        client_create a zone zoning ;;
        modify (λ s, s <| zoneTimers := zoneTimers s ++ [ExpectedTimeout a] |>) ;;
        modify (λ s, s <| expectedClientsByName := set_absent (expectedClientsByName s) (zn_characterName zoning) a |>)
    end.

Definition zc_expected_client_timeout_callback (a : nat) : code ZC unit :=
  c ← zclient_at a;
  name ← lift (deref (m_name (c_mob c)));
  expected ← gets expectedClientsByName;
  match expected !! name with
  | Some _ =>
      modify (λ s, s <| expectedClientsByName := delete name (expectedClientsByName s) |>) ;;
      client_drop a
  | None => mret tt
  end ;;
  timer_destroy (ExpectedTimeout a).

Definition zc_client_match_with_expected (stub handler : nat) (name : list Z) : code ZC unit :=
  expected ← gets expectedClientsByName;
  match expected !! name with
  | Some a =>
      modify (λ s, s <| expectedClientsByName := delete name (expectedClientsByName s) |>) ;;
      upd_zclient a (λ c, c <| c_handler := Some handler |>) ;;
      st ← zclient_at stub;
      upd_zclient a (λ c, c <| c_expansion := c_expansion st |>) ;;
      protocol_handler_set_client_object handler a ;;
      client_catch_up_with_loading_progress a
  | None => protocol_handler_drop handler
  end ;;
  modify (λ s, s <| clients := delete stub (clients s) |>).

(** ** Packets of the client *)
Definition client_trilogy_handle_op_zone_entry (stub : nat) (a : Aligned) : code ZC unit :=
  if aligned_remaining a <? SIZEOF_ZoneEntryFromClient then mret tt
  else
    h ← client_handler stub;
    _ ← handler_at h;
    '(_, a) ← reading (aligned_advance 4) a;
    name ← lift (string_at a);
    zc_client_match_with_expected stub h name.

Definition client_stub_recv_packet_trilogy (stub : nat) (opcode : Z) (a : Aligned) : code ZC unit :=
  c ← zclient_at stub;
  if EQP_CLIENT_ZONE_IN_NO_AUTH_TIMEOUT <=? u64 (now - c_creationTimestamp c) then
    h ← client_handler stub; protocol_handler_send_disconnect h
  else if opcode =? TrilogyOp_ZoneEntry then client_trilogy_handle_op_zone_entry stub a
  else mret tt.

Definition client_trilogy_echo_packet (client : nat) (opcode : Z) (a : Aligned) : code ZC unit :=
  '(data, _) ← reading (aligned_read_buffer (aligned_remaining a)) a;
  client_trilogy_schedule_packet_individual client opcode (Ok data).

Definition client_trilogy_handle_op_inventory_request (client : nat) : code ZC unit :=
  c ← zclient_at client;
  each (slots (c_inventory c)) (λ slot,
    if (itemId slot =? 0) || negb (augSlotId slot =? 0) then mret tt
    else
      it ← lift (deref (item slot));
      proto ← lift (deref (prototypes (item_get_prototype it)));
      client_trilogy_schedule_packet_individual client TrilogyOp_Inventory (client_trilogy_make_item_packet junk it proto (slotId slot))).

Definition client_trilogy_handle_op_zone_info_request (client : nat) : code ZC unit :=
  c ← zclient_at client;
  zone ← lift (client_zone c);
  z ← zone_at zone;
  client_trilogy_schedule_packet_individual client TrilogyOp_ZoneInfo (client_trilogy_make_op_zone_info junk z) ;;
  client_trilogy_send_zero_length_packet client TrilogyOp_EnterZone.

Definition client_trilogy_handle_op_enter_zone (client : nat) : code ZC unit :=
  c ← zclient_at client;
  zone ← lift (client_zone c);
  zc_add_connected_client aggro client ;;
  c ← zclient_at client;
  client_trilogy_schedule_packet_individual client TrilogyOp_SpawnAppearance
    (client_trilogy_make_op_spawn_appearance junk 0 Trilogy_SpawnAppearance_SetEntityId (u32 (mob_entity_id (c_mob c)))) ;;
  data ← make_spawn client;
  zone_broadcast_packet zone
    (packet_broadcast_set_packet_for_expansion ExpansionId_Trilogy (TrilogyOp_Spawn, data) (packet_broadcast_init client)) None ;;
  client_trilogy_send_zeroed_packet_var_length client TrilogyOp_EnteredZoneUnknown 8 ;;
  client_trilogy_send_zero_length_packet client TrilogyOp_EnterZone ;;
  (if c_isFromCharSelect c then zlog_event client "event_connect" else mret tt) ;;
  zlog_event client "event_spawn".

(** It reads its three numbers and does nothing with them. *)
Definition client_trilogy_handle_op_swap_item (client : nat) (a : Aligned) : code ZC unit :=
  if aligned_remaining a <? SIZEOF_SwapItem then mret tt
  else
    '(_, a) ← reading aligned_read_uint32 a;
    '(_, a) ← reading aligned_read_uint32 a;
    '(_, a) ← reading aligned_read_uint32 a;
    mret tt.

Definition client_on_unhandled_packet_opcode (client : nat) (opcode : Z) : code ZC unit :=
  if opcode =? 0 then mret tt
  else c ← zclient_at client; _ ← lift (client_zone c); zlog_event client "event_unhandled_packet".

Definition client_recv_packet_trilogy (client : nat) (opcode : Z) (a : Aligned) : code ZC unit :=
  h ← client_handler client;
  _ ← handler_at h;
  c ← zclient_at client;
  if c_isStubClient c then client_stub_recv_packet_trilogy client opcode a
  else if opcode =? TrilogyOp_InventoryRequest then client_trilogy_handle_op_inventory_request client
  else if opcode =? TrilogyOp_ZoneInfoRequest then client_trilogy_handle_op_zone_info_request client
  else if opcode =? TrilogyOp_EnterZone then client_trilogy_handle_op_enter_zone client
  else if opcode =? TrilogyOp_SwapItem then client_trilogy_handle_op_swap_item client a
  else if opcode =? TrilogyOp_ZoneInUnknown then client_trilogy_echo_packet client opcode a
  else client_on_unhandled_packet_opcode client opcode.

Definition client_send_custom_message (client : nat) (chatChannel : Z) (str : list Z) (len : Z) : code ZC unit :=
  c ← zclient_at client;
  if client_is_trilogy c then
    client_trilogy_schedule_packet_individual client TrilogyOp_CustomMessage (client_trilogy_make_op_custom_message junk chatChannel str len)
  else mret tt.

(** ** Packets of the master process

    [new] is where an object is created; the items' shared memory is not part
    of the state. *)
Definition ipc_set_handle_packet (new : nat) (mapMinZ : option Z) (opcode sourceId : Z) (data : list Z) : code ZC unit :=
  if opcode =? ServerOp_StartZone then zc_start_zone new mapMinZ sourceId
  else if opcode =? ServerOp_ClientZoning then zc_client_expected_to_zone_in new sourceId data
  else mret tt.
End Cluster.
