(* ===== verification/ZoneLayout.v ===== *)
(** The zone cluster's packets follow the client's structs: each field's bytes
    at its place, as the writers of ZonePackets.v lay them down. *)

From S2P Require Import Prelude Fields Float32 Aligned Crc Text Servers ZoneId PlayerProfile Obfuscate ItemPrototype.
From S2P Require Import Mob Inventory Skills ZoneClient Zone Fills ProfilePacket ProfileLayout ZonePackets.

(** ** Packets that are zeroed first *)
Lemma zero_all_filled n (buf : list Z) : length buf = Z.to_nat n → 0 ≤ n < 2 ^ 32 →
  aligned_write_zero_all (aligned_init buf n) = (Ok tt, mkAligned 0 n (replicate (Z.to_nat n) 0)).
Proof.
  intros Hl Hn. unfold aligned_write_zero_all, aligned_init. rewrite (bind_ok get _ _ _ _ eq_refl). cbn [length_].
  rewrite put_bytes_ok by (cbn [buffer]; rewrite ?length_replicate, ?Hl; lia).
  unfold with_buffer. cbn [buffer cursor length_]. do 2 f_equal. rewrite fmap_replicate.
  change ((Some ∘ u8) 0) with (Some 0). rewrite <- (fmap_replicate Some). apply overlay_full. by rewrite length_replicate.
Qed.

Definition zero_filled (n : nat) (p : list (option Z)) : list Z := (default 0 <$> p) ++ replicate (n - length p) 0.

Lemma zeroed_writer_ok n w p (buf : list Z) : length buf = Z.to_nat n → 0 ≤ n < 2 ^ 32 → fills w p → Z.of_nat (length p) ≤ n →
  (aligned_write_zero_all ;; w) (aligned_init buf n) = (Ok tt, mkAligned (Z.of_nat (length p)) n (zero_filled (Z.to_nat n) p)).
Proof.
  intros Hl Hn Hw Hp. rewrite (bind_ok _ _ _ _ _ (zero_all_filled n buf Hl Hn)).
  rewrite Hw by (first [split_and!; cbn [cursor length_ buffer]; rewrite ?length_replicate; lia|cbn [cursor length_]; lia]).
  cbn [cursor length_ buffer]. do 2 f_equal. by rewrite overlay_zeroes by lia.
Qed.

Lemma zero_filled_length n p : (length p ≤ n)%nat → length (zero_filled n p) = n.
Proof. intros. unfold zero_filled. rewrite length_app, length_fmap, length_replicate. lia. Qed.

Section Packets.
Context (junk : Z → list Z) (Hjunk : ∀ n, length (junk n) = Z.to_nat n).

Lemma zeroed_packet_ok n w p : 0 ≤ n < 2 ^ 32 → fills w p → Z.of_nat (length p) ≤ n →
  fill_packet junk n (aligned_write_zero_all ;; w) = Ok (zero_filled (Z.to_nat n) p).
Proof. intros Hn Hw Hp. unfold fill_packet. by rewrite (zeroed_writer_ok n w p _ (Hjunk n) Hn Hw Hp). Qed.

(** Packets whose memory is not zeroed keep what it held where nothing is written. *)
Lemma raw_packet_ok n w p : 0 ≤ n < 2 ^ 32 → fills w p → Z.of_nat (length p) ≤ n → fill_packet junk n w = Ok (overlay 0 p (junk n)).
Proof.
  intros Hn Hw Hp. unfold fill_packet, aligned_init.
  rewrite Hw by (first [split_and!; cbn [cursor length_ buffer]; rewrite ?Hjunk; lia|cbn [cursor length_]; lia]). done.
Qed.

(** The crc goes in front when everything else is there. *)
Lemma leading_crc_ok n w p : 4 ≤ n < 2 ^ 32 → fills w (nones 4 ++ p) → 4 + Z.of_nat (length p) ≤ n →
  let body := zero_filled (Z.to_nat n - 4) p in
  fill_packet junk n ((aligned_write_zero_all ;; w) ;; write_leading_crc) = Ok (le_bytes 4 (not32 (crc_calc32 body)) ++ body).
Proof.
  intros Hn Hw Hp body. unfold fill_packet.
  assert (Hlen : length (nones 4 ++ p) = (4 + length p)%nat) by (rewrite length_app; unfold nones; by rewrite length_replicate).
  rewrite (bind_ok _ _ _ _ _ (zeroed_writer_ok n w _ _ (Hjunk n) ltac:(lia) Hw ltac:(rewrite Hlen; lia))).
  assert (Hz : zero_filled (Z.to_nat n) (nones 4 ++ p) = replicate 4 0 ++ body).
  { unfold zero_filled, body. rewrite Hlen, fmap_app. unfold nones. rewrite fmap_replicate, <- app_assoc. do 2 f_equal.
    unfold zero_filled. do 2 f_equal. lia. }
  assert (Hb : length body = (Z.to_nat n - 4)%nat) by (apply zero_filled_length; lia).
  rewrite Hz. unfold write_leading_crc. unfold mbind at 1, code_bind at 1. unfold aligned_reset, modify, with_cursor. cbn [buffer length_].
  rewrite (bind_ok get _ _ _ _ eq_refl). unfold aligned_size. cbn [length_ buffer].
  rewrite (drop_app_length' (replicate 4 0) body) by done. rewrite firstn_all2 by lia.
  rewrite (fills_uint32 _) by (first [split_and!; cbn [cursor length_ buffer]; rewrite ?length_app, ?length_replicate; lia|cbn [cursor length_]; unfold le; rewrite length_fmap, le_bytes_length; lia]).
  done.
Qed.
End Packets.

(** ** The structs' patterns *)
Definition skipped_of (fields : list (string * Z)) (field : string) : list (option Z) := nones (Z.to_nat (fsize fields field)).
Definition text_of (fields : list (string * Z)) (field : string) (s : list Z) : list (option Z) := field_pattern (fsize fields field) s.

Lemma fills_skip_of fields field : 0 ≤ fsize fields field < 2 ^ 32 → fills (skip_of fields field) (skipped_of fields field).
Proof. apply fills_skip_bytes. Qed.
Lemma fills_text_of fields field s : 0 < fsize fields field →
  fills (aligned_write_snprintf_full_advance (fsize fields field) s) (text_of fields field s).
Proof. apply fills_text. Qed.
Lemma fills_coordinate f n : f32_to_uint16 f = Ok n → fills (write_coordinate f) (le 2 n).
Proof. intros H. eapply fills_lift; [exact H|apply fills_uint16]. Qed.
Lemma fills_uint8_wide v w : u8 v = u8 w → fills (aligned_write_uint8 v) (le 1 w).
Proof. intros H. eapply fills_eq; [|apply fills_uint8]. unfold le. cbn [le_bytes]. by rewrite H. Qed.

Ltac packet_part :=
  lazymatch goal with
  | |- fills (skip_of ?fs ?f) _ => apply (fills_skip_of fs f); by vm_compute
  | |- fills (aligned_write_snprintf_full_advance (fsize ?fs ?f) _) _ => apply (fills_text_of fs f); by vm_compute
  | |- fills (aligned_write_int8 ?v) _ => apply (fills_uint8 (u8 v))
  | |- fills (aligned_write_zeroes _) _ => apply fills_memset; by vm_compute
  | |- fills (if _ then _ else _) _ => eassumption
  | |- fills (write_coordinate _) _ => eapply fills_coordinate; eassumption
  | |- _ => fill_part
  end.
Ltac packet_parts :=
  lazymatch goal with
  | |- fills (lift _ ≫= _) _ => eapply fills_lift; [eassumption|packet_parts]
  | |- fills (_ ≫= _) _ => eapply fills_seq; [packet_part|packet_parts]
  | |- _ => packet_part
  end.

(** *** Zone entry *)
Section Entry.
Context (client : Client) (zone : Zone).
Let mob : Mob := c_mob client.
Let skipped := skipped_of entry_fields.

Definition entry_layout : list (string * list (option Z)) := [
  ("unknownA", skipped "unknownA"); ("name", text_of entry_fields "name" (mob_name_cstr mob));
  ("zoneShortName", text_of entry_fields "zoneShortName" (zone_get_short_name zone)); ("unknownB", skipped "unknownB");
  ("y", le 4 (mob_y mob)); ("x", le 4 (mob_x mob)); ("z", le 4 (mob_z mob)); ("heading", le 4 (f32_mul (mob_heading mob) f32_two));
  ("unknownC", skipped "unknownC"); ("guildId", le 2 (guild_or_none client)); ("unknownD", skipped "unknownD");
  ("class", le 1 (mob_class mob)); ("race", le 2 (mob_base_race mob)); ("gender", le 1 (mob_base_gender mob)); ("level", le 1 (mob_level mob));
  ("unknownE", skipped "unknownE"); ("isPvP", le 1 (of_bool (client_is_pvp client))); ("unknownF", skipped "unknownF");
  ("face", le 1 (mob_face mob)); ("helmMaterial", le 1 (mob_helm_texture mob)); ("unknownG", skipped "unknownG");
  ("secondaryWeaponModelId", le 1 (u8 (m_secondaryModelId mob))); ("primaryWeaponModelId", le 1 (u8 (m_primaryModelId mob)));
  ("unknownH", skipped "unknownH"); ("helmColor", le 4 0); ("unknownI", skipped "unknownI"); ("texture", le 1 (mob_texture mob));
  ("unknownJ", skipped "unknownJ"); ("walkingSpeed", le 4 (mob_base_walking_speed mob)); ("runningSpeed", le 4 (mob_base_running_speed mob));
  ("unknownK", skipped "unknownK"); ("anon", le 1 (c_anonSetting client)); ("unknownL", skipped "unknownL");
  ("surname", match c_surname client with Some s => text_of entry_fields "surname" s | None => skipped "surname" end);
  ("unknownM", skipped "unknownM"); ("deity", le 2 (mob_deity mob))]%string.

Lemma entry_surname_ok : fills (match c_surname client with
    | Some surname => aligned_write_snprintf_full_advance (fsize entry_fields "surname") surname
    | None => skip_of entry_fields "surname" end)
  (match c_surname client with Some s => text_of entry_fields "surname" s | None => skipped "surname" end).
Proof. destruct (c_surname client); [by apply fills_text_of|by apply fills_skip_of]. Qed.
End Entry.

Lemma zone_entry_ok client zone : ∃ w, write_zone_entry client zone = (aligned_write_zero_all ;; w) ∧
  fills w (nones 4 ++ pattern (entry_layout client zone)).
Proof.
  pose proof (entry_surname_ok client) as Hs. unfold write_zone_entry. eexists. split; [reflexivity|].
  eapply fills_snoc_ret; [packet_parts|]. unfold pattern, entry_layout. cbn [fmap list_fmap snd concat]. by rewrite app_nil_r.
Qed.

Lemma text_of_length fields field s : 0 < fsize fields field → length (text_of fields field s) = Z.to_nat (fsize fields field).
Proof. intros H. unfold text_of. rewrite <- (Z2Nat.id (fsize fields field)) at 1 by lia. apply text_length. lia. Qed.
Lemma skipped_of_length fields field : length (skipped_of fields field) = Z.to_nat (fsize fields field).
Proof. apply length_replicate. Qed.
Lemma or_skipped_length fields field (o : option (list Z)) : 0 < fsize fields field →
  length (match o with Some s => text_of fields field s | None => skipped_of fields field end) = Z.to_nat (fsize fields field).
Proof. intros H. destruct o; [by apply text_of_length|apply skipped_of_length]. Qed.

(** [packet_sizes] computes the sizes of a layout's fields. *)
Ltac packet_sizes :=
  cbn [field_sizes fmap list_fmap fst snd app]; repeat first [rewrite le_length | rewrite skipped_of_length |
    match goal with |- context [length (match ?o with Some s => text_of ?fs ?f s | None => skipped_of ?fs ?f end)] =>
      rewrite (or_skipped_length fs f o) by (by vm_compute) end |
    match goal with |- context [length (text_of ?fs ?f ?s)] => rewrite (text_of_length fs f s) by (by vm_compute) end]; by vm_compute.

Lemma entry_sizes client zone : field_sizes (entry_layout client zone) = take 36 (drop 1 entry_fields).
Proof. unfold entry_layout. packet_sizes. Qed.

Definition entry_body (client : Client) (zone : Zone) : list Z := zero_filled 308 (pattern (entry_layout client zone)).

Lemma entry_length client zone : Z.of_nat (length (pattern (entry_layout client zone))) = 300.
Proof. rewrite pattern_length, entry_sizes. by vm_compute. Qed.

Lemma zone_entry_follows_ok junk client zone : (∀ n, length (junk n) = Z.to_nat n) →
  client_trilogy_send_zone_entry junk client zone =
    Ok (le_bytes 4 (not32 (crc_calc32 (entry_body client zone))) ++ entry_body client zone).
Proof.
  intros Hjunk. pose proof (entry_length client zone) as Hl. destruct (zone_entry_ok client zone) as (w & He & Hw).
  unfold client_trilogy_send_zone_entry. rewrite He. change SIZEOF_ZoneEntry with 312.
  apply (leading_crc_ok junk Hjunk 312 w _ ltac:(lia) Hw). lia.
Qed.

(** *** Spawns *)
Section Spawn.
Context (mob : Mob) (client : option Client) (y x z hp : Z).
Let skipped := skipped_of spawn_fields.

(** The bytes that only clients have; others leave them zero. *)
Definition client_byte (n : nat) (f : Client → Z) : list (option Z) :=
  if mob_get_type mob =? MobType_Client then match client with Some c => le n (f c) | None => nones n end else nones n.

Definition spawn_layout : list (string * list (option Z)) := [
  ("unknownA", skipped "unknownA"); ("size", le 4 (mob_current_size mob)); ("walkingSpeed", le 4 (mob_current_walking_speed mob));
  ("runningSpeed", le 4 (mob_current_running_speed mob)); ("tints", concat (le 4 <$> m_tints mob)); ("unknownB", skipped "unknownB");
  ("heading", le 1 (u8 (m_headingRaw mob))); ("headingDelta", nones 1); ("y", le 2 y); ("x", le 2 x); ("z", le 2 z); ("delta", nones 4);
  ("unknownC", skipped "unknownC"); ("entityId", le 2 (u16 (mob_entity_id mob))); ("bodyType", le 2 (mob_body_type mob));
  ("ownerEntityId", le 2 (u16 (m_ownerEntityId mob))); ("hpPercent", le 2 (u16 hp));
  ("guildId", if (mob_get_type mob =? MobType_Client)%Z then match client with Some c => le 2 (spawn_guild c) | None => nones 2 end else le 2 0xffff);
  ("race", le 1 (if (0xff <? mob_current_race mob)%Z then 1 else mob_current_race mob));
  ("mobType", le 1 (u8 (spawn_type (mob_get_type mob) (mob_current_race mob)))); ("class", le 1 (mob_class mob));
  ("gender", le 1 (mob_current_gender mob)); ("level", le 1 (mob_level mob)); ("isInvisible", le 1 (u8 (mob_is_invisible mob)));
  ("unknownD", skipped "unknownD"); ("isPvP", client_byte 1 (λ c, of_bool (client_is_pvp c))); ("uprightState", le 1 (mob_upright_state mob));
  ("light", le 1 (mob_light_level mob)); ("anon", client_byte 1 client_anon_setting); ("isAfk", client_byte 1 (λ c, of_bool (client_is_afk c)));
  ("unknownE", nones 1); ("isLinkdead", client_byte 1 (λ c, of_bool (client_is_linkdead c)));
  ("isGM", client_byte 1 (λ c, of_bool (client_is_gm c))); ("unknownF", skipped "unknownF"); ("texture", le 1 (mob_texture mob));
  ("helmTexture", le 1 (mob_helm_texture mob)); ("unknownG", skipped "unknownG");
  ("materials", (concat (le 1 <$> m_materials mob) ++ le 1 (u8 (m_primaryModelId mob)) ++ le 1 (u8 (m_secondaryModelId mob)))%list);
  ("name", text_of spawn_fields "name" (mob_client_friendly_name_cstr mob));
  ("surname", if (mob_get_type mob =? MobType_Client)%Z then match client with Some c => text_of spawn_fields "surname" (client_surname_cstr c)
     | None => skipped "surname" end else skipped "surname");
  ("guildRank", client_byte 1 client_guild_rank); ("unknownH", skipped "unknownH"); ("deity", le 2 (mob_deity mob))]%string.

(** What the writer relies on: arrays of their C sizes, the client behind a
    client's mob, coordinates that fit 16 bits without a sign, hit points with a
    maximum. [spawn_follows_struct] says what happens to other coordinates. *)
Record spawnable : Prop := {
  sp_tints : length (m_tints mob) = 7%nat;
  sp_materials : length (m_materials mob) = 7%nat;
  sp_client : mob_get_type mob = MobType_Client → is_Some client;
  sp_y : f32_to_uint16 (mob_y mob) = Ok y;
  sp_x : f32_to_uint16 (mob_x mob) = Ok x;
  sp_z : f32_to_uint16 (f32_mul (mob_z mob) f32_ten) = Ok z;
  sp_hp : mob_hp_ratio mob = Ok hp;
}.

Lemma client_part_ok n w (f : Client → Z) (Hc : mob_get_type mob = MobType_Client → is_Some client) : (∀ c, fills (w c) (le n (f c))) →
  Z.of_nat n < 2 ^ 32 →
  fills (if mob_get_type mob =? MobType_Client then c ← lift (deref client); w c else skip_bytes (Z.of_nat n)) (client_byte n f).
Proof.
  intros Hw Hn. unfold client_byte. destruct (Z.eqb_spec (mob_get_type mob) MobType_Client) as [He|].
  - destruct (Hc He) as [c ->]. by apply (fills_lift _ c).
  - rewrite <- (Nat2Z.id n) at 2. apply fills_skip_bytes. lia.
Qed.
End Spawn.

Section SpawnWriter.
Context (mob : Mob) (client : option Client) (y x z hp : Z) (Hsp : spawnable mob client y x z hp).

Lemma spawn_guild_ok :
  fills (if mob_get_type mob =? MobType_Client then c ← lift (deref client); aligned_write_uint16 (spawn_guild c) else aligned_write_uint16 0xffff)
    (if mob_get_type mob =? MobType_Client then match client with Some c => le 2 (spawn_guild c) | None => nones 2 end else le 2 0xffff).
Proof.
  destruct (Z.eqb_spec (mob_get_type mob) MobType_Client) as [He|]; [|apply fills_uint16].
  destruct (sp_client _ _ _ _ _ _ Hsp He) as [c ->]. apply (fills_lift _ c); [done|apply fills_uint16].
Qed.

Lemma spawn_flags_ok :
  fills (if mob_get_type mob =? MobType_Client then
     c ← lift (deref client);
     aligned_write_uint8 (client_anon_setting c) ;;
     aligned_write_uint8 (of_bool (client_is_afk c)) ;;
     skip_of spawn_fields "unknownE" ;;
     aligned_write_uint8 (of_bool (client_is_linkdead c)) ;;
     aligned_write_uint8 (of_bool (client_is_gm c))
   else skip_bytes 5)
  (client_byte mob client 1 client_anon_setting ++ client_byte mob client 1 (λ c, of_bool (client_is_afk c)) ++ nones 1 ++
   client_byte mob client 1 (λ c, of_bool (client_is_linkdead c)) ++ client_byte mob client 1 (λ c, of_bool (client_is_gm c))).
Proof.
  unfold client_byte. destruct (Z.eqb_spec (mob_get_type mob) MobType_Client) as [He|]; [|by apply (fills_skip_bytes 5)].
  destruct (sp_client _ _ _ _ _ _ Hsp He) as [c ->]. apply (fills_lift _ c); [done|]. eapply fills_snoc_ret; [packet_parts|]. done.
Qed.

Lemma spawn_surname_ok :
  fills (if mob_get_type mob =? MobType_Client then
     c ← lift (deref client);
     aligned_write_snprintf_full_advance (fsize spawn_fields "surname") (client_surname_cstr c) ;;
     aligned_write_uint8 (client_guild_rank c)
   else skip_bytes (fsize spawn_fields "surname" + fsize spawn_fields "guildRank"))
  ((if mob_get_type mob =? MobType_Client then match client with Some c => text_of spawn_fields "surname" (client_surname_cstr c)
     | None => skipped_of spawn_fields "surname" end else skipped_of spawn_fields "surname") ++ client_byte mob client 1 client_guild_rank).
Proof.
  unfold client_byte. destruct (Z.eqb_spec (mob_get_type mob) MobType_Client) as [He|]; [|by apply (fills_skip_bytes 21)].
  destruct (sp_client _ _ _ _ _ _ Hsp He) as [c ->]. apply (fills_lift _ c); [done|]. packet_parts.
Qed.

Lemma spawn_writer_ok : ∃ w, write_spawn mob client = (aligned_write_zero_all ;; w) ∧ fills w (pattern (spawn_layout mob client y x z hp)).
Proof.
  pose proof (fills_upto_all 7 (m_tints mob) aligned_write_uint32 (le 4) (sp_tints _ _ _ _ _ _ Hsp) fills_uint32) as Ht.
  pose proof (fills_upto_all 7 (m_materials mob) aligned_write_uint8 (le 1) (sp_materials _ _ _ _ _ _ Hsp) fills_uint8) as Hm.
  pose proof spawn_guild_ok as Hg. pose proof spawn_flags_ok as Hf. pose proof spawn_surname_ok as Hs.
  pose proof (client_part_ok mob client 1 (λ c, aligned_write_uint8 (of_bool (client_is_pvp c))) (λ c, of_bool (client_is_pvp c))
    (sp_client _ _ _ _ _ _ Hsp) (λ c, fills_uint8 _) eq_refl) as Hp. change (Z.of_nat 1) with 1 in Hp.
  pose proof (sp_y _ _ _ _ _ _ Hsp) as Hy. pose proof (sp_x _ _ _ _ _ _ Hsp) as Hx. pose proof (sp_z _ _ _ _ _ _ Hsp) as Hz.
  pose proof (sp_hp _ _ _ _ _ _ Hsp) as Hhp.
  unfold write_spawn. eexists. split; [reflexivity|].
  eapply fills_snoc_ret; [packet_parts|]. unfold pattern, spawn_layout. cbn [fmap list_fmap snd concat]. by rewrite app_nil_r, <- ?app_assoc.
Qed.
End SpawnWriter.

Lemma column_of_length {A} (f : A → list (option Z)) k n l : (∀ x, length (f x) = k) → length l = n → length (concat (f <$> l)) = (n * k)%nat.
Proof. intros Hf <-. by apply column_length'. Qed.
Lemma client_byte_length mob client n f : length (client_byte mob client n f) = n.
Proof.
  unfold client_byte, nones. destruct (_ =? _); [|apply length_replicate]. destruct client; [apply le_length|apply length_replicate].
Qed.

Lemma spawn_sizes mob client y x z hp : spawnable mob client y x z hp → field_sizes (spawn_layout mob client y x z hp) = take 43 spawn_fields.
Proof.
  intros Hsp. unfold spawn_layout. cbn [field_sizes fmap list_fmap fst snd].
  rewrite (column_of_length (le 4) 4 7) by (first [apply (sp_tints _ _ _ _ _ _ Hsp)|intros; apply le_length]).
  rewrite !length_app, (column_of_length (le 1) 1 7) by (first [apply (sp_materials _ _ _ _ _ _ Hsp)|intros; apply le_length]).
  rewrite !client_byte_length.
  assert (Hg : length (if (mob_get_type mob =? MobType_Client)%Z then match client with Some c => le 2 (spawn_guild c) | None => nones 2 end
    else le 2 0xffff) = 2%nat) by (destruct (_ =? _); [destruct client|]; apply le_length || apply length_replicate).
  assert (Hs : length (if (mob_get_type mob =? MobType_Client)%Z then match client with
    | Some c => text_of spawn_fields "surname" (client_surname_cstr c) | None => skipped_of spawn_fields "surname" end
    else skipped_of spawn_fields "surname") = 20%nat)
    by (destruct (_ =? _); [destruct client|]; first [rewrite text_of_length by (by vm_compute)|rewrite skipped_of_length]; by vm_compute).
  rewrite Hg, Hs. clear. packet_sizes.
Qed.

Lemma spawn_packet_ok junk mob client y x z hp : (∀ n, length (junk n) = Z.to_nat n) → spawnable mob client y x z hp →
  client_trilogy_make_op_spawn junk mob client =
    Ok (client_trilogy_spawn_obfuscate (zero_filled 168 (pattern (spawn_layout mob client y x z hp)))).
Proof.
  intros Hjunk Hsp. pose proof (spawn_sizes _ _ _ _ _ _ Hsp) as Hsize.
  assert (Hl : Z.of_nat (length (pattern (spawn_layout mob client y x z hp))) = 158) by (rewrite pattern_length, Hsize; by vm_compute).
  destruct (spawn_writer_ok mob client y x z hp Hsp) as (w & He & Hw). unfold client_trilogy_make_op_spawn. rewrite He.
  change SIZEOF_Spawn with 168. by rewrite (zeroed_packet_ok junk Hjunk 168 w _ ltac:(lia) Hw ltac:(lia)).
Qed.

(** ** Coordinates *)

(** The coordinates of the packet: each must convert to an unsigned 16-bit
    integer, or the conversion is undefined. *)
Definition packet_position (mob : Mob) : outcome (Z * Z * Z) :=
  y ← f32_to_uint16 (mob_y mob);
  x ← f32_to_uint16 (mob_x mob);
  z ← f32_to_uint16 (f32_mul (mob_z mob) f32_ten);
  Ok (y, x, z).

(** A writer that does not return, once there is room for its first [n] bytes. *)
Definition faults (w : code Aligned unit) (n : nat) : Prop := ∀ a, wf a → cursor a + Z.of_nat n ≤ length_ a → fst (w a) = Fault.

Lemma faults_seq w p rest n : fills w p → faults rest n → faults (w ;; rest) (length p + n).
Proof.
  intros Hw Hr a Ha Hl. erewrite bind_ok by (apply Hw; [done|lia]). apply Hr; [apply wf_moved; [done|lia]|cbn [cursor length_]; lia].
Qed.
Lemma faults_coordinate f rest : f32_to_uint16 f = Fault → faults (write_coordinate f ;; rest) 0.
Proof. intros Hf a _ _. unfold write_coordinate. by rewrite Hf. Qed.
Lemma faults_more w n n' : faults w n → (n ≤ n')%nat → faults w n'.
Proof. intros Hw Hn a Ha Hl. apply Hw; [done|lia]. Qed.

Lemma f32_to_uint16_cases f : f32_to_uint16 f = Fault ∨ ∃ n, f32_to_uint16 f = Ok n.
Proof. unfold f32_to_uint16. destruct (f32_trunc f) as [n|]; [|by left]. cbn. destruct (_ && _); eauto. Qed.

Lemma coordinates_fault mob rest : packet_position mob = Fault →
  faults (write_coordinate (mob_y mob) ;; write_coordinate (mob_x mob) ;; write_coordinate (f32_mul (mob_z mob) f32_ten) ;; rest) 4.
Proof.
  unfold packet_position. intros H.
  destruct (f32_to_uint16_cases (mob_y mob)) as [Hy|[y Hy]]; [by eapply faults_more; [apply faults_coordinate|lia]|].
  assert (Hfy : fills (write_coordinate (mob_y mob)) (le 2 y)) by (apply (fills_lift _ y); [done|apply fills_uint16]).
  apply (faults_seq _ (le 2 y) _ 2); [done|].
  destruct (f32_to_uint16_cases (mob_x mob)) as [Hx|[x Hx]]; [by eapply faults_more; [apply faults_coordinate|lia]|].
  assert (Hfx : fills (write_coordinate (mob_x mob)) (le 2 x)) by (apply (fills_lift _ x); [done|apply fills_uint16]).
  apply (faults_seq _ (le 2 x) _ 0); [done|]. apply faults_coordinate.
  destruct (f32_to_uint16_cases (f32_mul (mob_z mob) f32_ten)) as [|[z Hz]]; [done|]. by rewrite Hy, Hx, Hz in H.
Qed.

Lemma spawn_faults junk mob client : (∀ n, length (junk n) = Z.to_nat n) → length (m_tints mob) = 7%nat →
  packet_position mob = Fault → client_trilogy_make_op_spawn junk mob client = Fault.
Proof.
  intros Hjunk Ht Hp. pose proof (fills_upto_all 7 (m_tints mob) aligned_write_uint32 (le 4) Ht fills_uint32) as Hti.
  unfold client_trilogy_make_op_spawn, fill_packet.
  assert (H : fst (write_spawn mob client (aligned_init (junk SIZEOF_Spawn) SIZEOF_Spawn)) = Fault).
  { unfold write_spawn. rewrite (bind_ok _ _ _ _ _ (zero_all_filled SIZEOF_Spawn _ (Hjunk _) ltac:(by vm_compute))).
    assert (Hlen : length (concat (le 4 <$> m_tints mob)) = 28%nat) by (apply (column_of_length (le 4) 4 7); [intros; apply le_length|done]).
    eapply (faults_seq _ (skipped_of spawn_fields "unknownA")); [packet_part| |split_and!; by vm_compute|].
    { do 3 (eapply faults_seq; [apply fills_uint32|]). eapply faults_seq; [exact Hti|].
      eapply (faults_seq _ (skipped_of spawn_fields "unknownB")); [packet_part|].
      eapply faults_seq; [apply (fills_uint8 (u8 _))|]. eapply (faults_seq _ (nones 1)); [packet_part|]. by apply coordinates_fault. }
    rewrite Hlen. by vm_compute. }
  destruct (write_spawn _ _ _) as [[[]|e|] a]; cbn [fst] in H; done.
Qed.

(** C33: The spawn packet of a mob whose coordinates convert to unsigned 16-bit
    integers is the struct the client reads, obfuscated: every field in its order
    and with its size, the coordinates as 16-bit numbers, the bytes that only
    players have taken from the client behind the mob and zero for everyone else.
    Of any other mob (one at a coordinate of -1 or below, for one) building the
    packet is undefined. *)
Theorem spawn_follows_struct (junk : Z → list Z) (mob : Mob) (client : option Client) (hp : Z)
    (Hjunk : ∀ n, length (junk n) = Z.to_nat n) (Ht : length (m_tints mob) = 7%nat) (Hm : length (m_materials mob) = 7%nat)
    (Hc : mob_get_type mob = MobType_Client → is_Some client) (Hhp : mob_hp_ratio mob = Ok hp) :
  match packet_position mob with
  | Ok (y, x, z) =>
      client_trilogy_make_op_spawn junk mob client =
        Ok (client_trilogy_spawn_obfuscate (zero_filled 168 (pattern (spawn_layout mob client y x z hp)))) ∧
      field_sizes (spawn_layout mob client y x z hp) ++ [("unknownI"%string, 10)] = spawn_fields
  | _ => client_trilogy_make_op_spawn junk mob client = Fault
  end.
Proof.
  pose proof (spawn_faults junk mob client Hjunk Ht) as Hf. unfold packet_position in *.
  destruct (f32_to_uint16_cases (mob_y mob)) as [Hy|[y Hy]]; rewrite Hy in *; [by apply Hf|]. run.
  destruct (f32_to_uint16_cases (mob_x mob)) as [Hx|[x Hx]]; rewrite Hx in *; [by apply Hf|]. run.
  destruct (f32_to_uint16_cases (f32_mul (mob_z mob) f32_ten)) as [Hz|[z Hz]]; rewrite Hz in *; [by apply Hf|]. run.
  assert (Hsp : spawnable mob client y x z hp) by done.
  split; [by apply spawn_packet_ok|by rewrite (spawn_sizes _ _ _ _ _ _ Hsp)].
Qed.

Definition rat_mob : Mob := npc_create 1 (npc_proto_set_name (Some (text "a_rat")) npc_proto_create) f32_ten f32_one f32_two 0.

Example spawn_follows_struct_witness :
  client_trilogy_make_op_spawn (λ n, replicate (Z.to_nat n) 0xcc) rat_mob None =
    Ok (client_trilogy_spawn_obfuscate (zero_filled 168 (pattern (spawn_layout rat_mob None 1 10 20 100)))) ∧
  field_sizes (spawn_layout rat_mob None 1 10 20 100) ++ [("unknownI"%string, 10)] = spawn_fields.
Proof.
  assert (Hp : packet_position rat_mob = Ok (1, 10, 20)) by (vm_compute; reflexivity).
  assert (Hc : mob_get_type rat_mob = MobType_Client → is_Some (@None Client)) by (intros H; vm_compute in H; discriminate).
  assert (Hhp : mob_hp_ratio rat_mob = Ok 100) by (vm_compute; reflexivity).
  pose proof (spawn_follows_struct (λ n, replicate (Z.to_nat n) 0xcc) rat_mob None 100 (λ n, length_replicate _ _) eq_refl eq_refl
    Hc Hhp) as H. by rewrite Hp in H.
Defined.

(** A word is a float below zero whose integer part is not zero. *)
Definition below_minus_one (f : Z) : bool := match f32_trunc f with Some n => n <? 0 | None => false end.

Lemma below_minus_one_faults f : below_minus_one f = true → f32_to_uint16 f = Fault.
Proof.
  unfold below_minus_one, f32_to_uint16. destruct (f32_trunc f) as [n|]; [|done]. intros H%Z.ltb_lt. unfold mbind, outcome_bind, deref.
  by rewrite (proj2 (Z.leb_gt 0 n)) by lia.
Qed.

(** Where a mob stands at a coordinate of minus one or less, its spawn
    packet is undefined behaviour: the writer converts the float to an unsigned
    16-bit integer, which C leaves undefined for negative values, and most
    zones have such coordinates. *)
Theorem negative_coordinate_is_undefined (junk : Z → list Z) (mob : Mob) (client : option Client)
    (Hjunk : ∀ n, length (junk n) = Z.to_nat n) (Ht : length (m_tints mob) = 7%nat) (Hy : below_minus_one (mob_y mob) = true) :
  client_trilogy_make_op_spawn junk mob client = Fault.
Proof. apply spawn_faults; [done..|]. unfold packet_position. rewrite (below_minus_one_faults (mob_y mob)) by exact Hy. reflexivity. Qed.

Definition cellar_rat : Mob := rat_mob <| m_y := f_m1 |>.

Example negative_coordinate_is_undefined_witness : client_trilogy_make_op_spawn (λ n, replicate (Z.to_nat n) 0) cellar_rat None = Fault.
Proof. apply negative_coordinate_is_undefined; [intros; apply length_replicate|done|by vm_compute]. Defined.

(** *** Items *)
Section ItemPacket.
Context (it : Item) (proto : ItemPrototype) (slot : Z) (name lore : list Z).
Let zeroes (field : string) : list (option Z) := const (Z.to_nat (fsize item_fields field)) 0.
Let isLore : bool := negb (item_proto_is_lore proto =? 0).

Definition item_layout : list (string * list (option Z)) := [
  ("name", text_of item_fields "name" name);
  ("lore", ((if isLore then le 1 42 else []) ++ field_pattern (fsize item_fields "lore" - (if isLore then 1 else 0)) lore)%list);
  ("model", text_of item_fields "model" (text "IT" ++ decimal (item_proto_get_model_id proto))%list); ("typeFlag", le 2 0x3336);
  ("unknownA", zeroes "unknownA"); ("weight", le 1 (item_proto_get_weight proto));
  ("isPermanent", le 1 (if (item_proto_is_permanent proto =? 0)%Z then 0 else 255)); ("isDroppable", le 1 (item_proto_is_droppable proto));
  ("size", le 1 (item_proto_get_size proto)); ("itemType", le 1 0); ("itemId", le 2 (u16 (item_proto_get_item_id proto)));
  ("icon", le 2 (u16 (item_proto_get_icon_id proto))); ("currentSlot", le 2 slot);
  ("slotsBitfield", le 4 (u32 (Z.shiftl (item_proto_get_slot_bitfield proto) 1))); ("cost", le 4 (item_proto_get_cost proto));
  ("unknownB", zeroes "unknownB"); ("instanceId", le 4 0); ("isDroppableRoleplayServer", le 1 (item_proto_is_droppable proto));
  ("unknownC", zeroes "unknownC"); ("STR", le 1 (u8 (item_proto_get_str proto))); ("STA", le 1 (u8 (item_proto_get_sta proto)));
  ("CHA", le 1 (u8 (item_proto_get_cha proto))); ("DEX", le 1 (u8 (item_proto_get_dex proto))); ("INT", le 1 (u8 (item_proto_get_int proto)));
  ("AGI", le 1 (u8 (item_proto_get_agi proto))); ("WIS", le 1 (u8 (item_proto_get_wis proto))); ("MR", le 1 (u8 (item_proto_get_sv_magic proto)));
  ("FR", le 1 (u8 (item_proto_get_sv_fire proto))); ("CR", le 1 (u8 (item_proto_get_sv_cold proto)));
  ("DR", le 1 (u8 (item_proto_get_sv_disease proto))); ("PR", le 1 (u8 (item_proto_get_sv_poison proto)));
  ("hp", le 1 (u8 (item_proto_get_hp proto))); ("mana", le 1 (u8 (item_proto_get_mana proto))); ("AC", le 1 (u8 (item_proto_get_ac proto)));
  ("isStackable", le 1 (if (item_proto_is_stackable proto =? 0)%Z then 0 else 1)); ("isTestItem", le 1 0);
  ("light", le 1 (item_proto_get_light proto)); ("delay", le 1 (u8 (item_proto_get_delay proto)));
  ("damage", le 1 (u8 (item_proto_get_damage proto))); ("clickyType", le 1 0); ("range", le 1 (u8 (item_proto_get_range proto)));
  ("skill", le 1 (item_proto_get_item_type_id proto)); ("isMagic", le 1 (item_proto_is_magic proto)); ("clickableLevel", le 1 0);
  ("material", le 1 (item_proto_get_material proto)); ("basicUnknownA", zeroes "basicUnknownA"); ("tint", le 4 (item_proto_get_tint proto));
  ("basicUnknownB", zeroes "basicUnknownB"); ("spellId", le 2 (u16 (item_proto_get_spell_id proto)));
  ("classesBitfield", le 4 (item_proto_get_class_bitfield proto)); ("racesBitfield", le 4 (item_proto_get_race_bitfield proto));
  ("consumableType", le 1 3); ("procLevel", le 1 0); ("charges", le 1 (u8 (item_get_charges it))); ("effectType", le 1 0);
  ("clickySpellId", le 2 (u16 (item_proto_get_spell_id proto))); ("basicUnknownC", zeroes "basicUnknownC");
  ("castingTime", le 4 (item_proto_get_casting_time proto)); ("basicUnknownD", zeroes "basicUnknownD"); ("recommendedLevel", le 1 0);
  ("basicUnknownE", zeroes "basicUnknownE"); ("deityBitfield", le 4 0)]%string.

Context (Hname : field_string (item_proto_get_name proto) = Ok name) (Hlore : field_string (item_proto_get_lore_text proto) = Ok lore).

Lemma item_mark_ok : fills (if isLore then aligned_write_uint8 42 else mret tt) (if isLore then le 1 42 else []).
Proof. destruct isLore; [apply fills_uint8|apply fills_nil]. Qed.
Lemma item_lore_ok : fills (aligned_write_snprintf_full_advance (fsize item_fields "lore" - (if isLore then 1 else 0)) lore)
  (field_pattern (fsize item_fields "lore" - (if isLore then 1 else 0)) lore).
Proof. apply fills_text. by destruct isLore. Qed.

Lemma item_writer_ok : fills (write_item it proto slot) (pattern item_layout).
Proof.
  pose proof item_mark_ok as Hm. pose proof item_lore_ok as Hl. unfold write_item. eapply fills_lift; [exact Hname|].
  eapply fills_snoc_ret.
  { eapply fills_seq; [packet_part|]. eapply fills_seq; [exact Hm|]. eapply fills_lift; [exact Hlore|]. eapply fills_seq; [exact Hl|].
    packet_parts. }
  unfold pattern, item_layout. cbn [fmap list_fmap snd concat]. by rewrite app_nil_r, <- ?app_assoc.
Qed.

Lemma item_sizes : field_sizes item_layout = item_fields.
Proof.
  assert (Hl : length ((if isLore then le 1 42 else []) ++ field_pattern (fsize item_fields "lore" - (if isLore then 1 else 0)) lore) = 60%nat).
  { rewrite length_app. destruct isLore; [rewrite (text_length 59) by lia|rewrite (text_length 60) by lia]; by vm_compute. }
  unfold item_layout. cbn [field_sizes fmap list_fmap fst snd]. rewrite Hl. unfold zeroes, const. rewrite !length_replicate. clear. packet_sizes.
Qed.
End ItemPacket.

Lemma item_packet_ok junk it proto slot name lore : (∀ n, length (junk n) = Z.to_nat n) →
  field_string (item_proto_get_name proto) = Ok name → field_string (item_proto_get_lore_text proto) = Ok lore →
  client_trilogy_make_item_packet junk it proto slot = Ok (overlay 0 (pattern (item_layout it proto slot name lore)) (junk SIZEOF_Item)).
Proof.
  intros Hjunk Hn Hlo. apply raw_packet_ok; [done|by vm_compute|by apply item_writer_ok|]. rewrite pattern_length, item_sizes. by vm_compute.
Qed.

(** An item packet fills the client's struct field by field, but its
    memory is not cleared first: behind the name's terminator the bytes of the
    name's field are whatever the heap held, and they are sent to the player. *)
Theorem item_packet_leaks_heap_bytes (junk : Z → list Z) (it : Item) (proto : ItemPrototype) (slot : Z) (name lore : list Z) (i : nat)
    (Hjunk : ∀ n, length (junk n) = Z.to_nat n) (Hname : field_string (item_proto_get_name proto) = Ok name)
    (Hlore : field_string (item_proto_get_lore_text proto) = Ok lore) (Hi : (length name < i < 35)%nat) :
  ∃ data, client_trilogy_make_item_packet junk it proto slot = Ok data ∧ length data = 292%nat ∧
    data !! i = junk SIZEOF_Item !! i ∧ field_sizes (item_layout it proto slot name lore) = item_fields.
Proof.
  eexists. split; [by apply item_packet_ok|]. pose proof (item_sizes it proto slot name lore) as Hs.
  assert (Hlen : Z.of_nat (length (pattern (item_layout it proto slot name lore))) = 292) by (rewrite pattern_length, Hs; by vm_compute).
  assert (Hj : length (junk SIZEOF_Item) = 292%nat) by (rewrite Hjunk; by vm_compute).
  rewrite overlay_length by lia. split; [done|]. split; [|done].
  rewrite overlay_lookup by lia. change (Z.to_nat 0) with 0%nat. rewrite decide_True by lia. rewrite Nat.sub_0_r.
  assert (Hp : pattern (item_layout it proto slot name lore) !! i = Some None).
  { unfold pattern, item_layout. cbn [fmap list_fmap snd concat]. rewrite lookup_app_l by (rewrite text_of_length; [|by vm_compute]; change (fsize item_fields "name") with 35; lia).
    unfold text_of, field_pattern. change (fsize item_fields "name") with 35. rewrite firstn_all2 by lia.
    rewrite lookup_app_r by (rewrite length_fmap, length_app; cbn [length]; lia). apply lookup_replicate_2.
    rewrite length_fmap, length_app. cbn [length]. lia. }
  rewrite Hp. by destruct (junk SIZEOF_Item !! i).
Qed.

Definition plain_item : ItemPrototype := item_proto_set_name (text "a sword") zeroed_proto.

Example item_packet_leaks_heap_bytes_witness :
  ∃ data, client_trilogy_make_item_packet (λ n, replicate (Z.to_nat n) 0xcc) (item_create 9 3 1) plain_item 13 = Ok data ∧ length data = 292%nat ∧
    data !! 20%nat = replicate (Z.to_nat SIZEOF_Item) 0xcc !! 20%nat ∧
    field_sizes (item_layout (item_create 9 3 1) plain_item 13 (text "a sword") []) = item_fields.
Proof.
  apply (item_packet_leaks_heap_bytes (λ n, replicate (Z.to_nat n) 0xcc)); [intros; apply length_replicate|by vm_compute..|].
  split; apply Nat.ltb_lt; by vm_compute.
Defined.
