(* ===== verification/ZoneLoading.v ===== *)
(** Loading a client: the database answers its queries in any order, its
    connection comes in before, between or after them, and exactly once, when
    everything is there, the client is sent what it needs to enter the zone
    (zone_cluster/mob/client.c: the callbacks of the queries and
    client_check_loading_finished). *)

From S2P Require Import Prelude Fields Array Aligned Crc Text Servers ZoneId PlayerProfile Obfuscate ItemPrototype Mob Inventory Skills.
From S2P Require Import ZoneClient Zone ZoneSpec Fills ProfilePacket ProfileLayout ZonePackets ZoneLayout ZoneCluster.

(** ** What answers of the database keep *)
Record ready (c : Client) : Prop := { rd_sendable : sendable c; rd_slots : slots (c_inventory c) ≠ [] }.

Definition same_meta (c c' : Client) : Prop :=
  c_handler c' = c_handler c ∧ c_expansion c' = c_expansion c ∧ c_refCount c' = c_refCount c ∧ c_isStubClient c' = c_isStubClient c ∧
  c_loaded c' = c_loaded c ∧ m_zone (c_mob c') = m_zone (c_mob c).

Lemma same_meta_refl c : same_meta c c.
Proof. done. Qed.
Lemma same_meta_trans c d e : same_meta c d → same_meta d e → same_meta c e.
Proof. unfold same_meta. intuition congruence. Qed.

Definition harmless (f : Client → outcome Client) : Prop := ∀ c, ready c → ∃ c', f c = Ok c' ∧ ready c' ∧ same_meta c c'.

Lemma harmless_fold {R} (step : R → Client → Client) (rows : list R) :
  (∀ r, r ∈ rows → ∀ c, ready c → ready (step r c) ∧ same_meta c (step r c)) → harmless (λ c, Ok (fold_left (λ c r, step r c) rows c)).
Proof.
  intros Hstep c Hc. exists (fold_left (λ c r, step r c) rows c). split; [done|]. revert c Hc.
  induction rows as [|r rows IH]; intros c Hc; [by split|]. cbn [fold_left].
  destruct (Hstep r ltac:(left) c Hc) as [Hr Hm]. destruct (IH (λ r' H, Hstep r' ltac:(by right)) _ Hr) as [Hr' Hm'].
  split; [done|]. by eapply same_meta_trans.
Qed.

Lemma put_skills_lengths v l s : length (skill (put_skills v l s)) = length (skill s) ∧ language (put_skills v l s) = language s.
Proof.
  revert s. induction l as [|i l IH]; intros s; [done|]. cbn [put_skills fold_left]. destruct (IH (put_skill v i s)) as [H1 H2].
  unfold put_skills in *. rewrite H1, H2. split; [apply length_insert|done].
Qed.
Lemma skills_init_lengths class level race s :
  length (skill (skills_init class level race s)) = length (skill s) ∧ language (skills_init class level race s) = language s.
Proof.
  unfold skills_init.
  repeat match goal with
  | |- context [if ?b then put_skills _ _ _ else _] => destruct b
  | |- context [if ?b then put_skill _ _ _ else _] => destruct b
  end; cbn [put_skill skill language]; rewrite ?length_insert;
  repeat match goal with
  | |- context [put_skills ?v ?l ?s] => let H1 := fresh in let H2 := fresh in destruct (put_skills_lengths v l s) as [H1 H2]; rewrite H1, H2; clear H1 H2
  end; done.
Qed.

(** Equations of single fields are by computation; the record as a whole is not
    normalised. *)
Lemma load_stats_keeps row c : c_spellbook (load_stats row c) = c_spellbook c ∧ c_bindPoints (load_stats row c) = c_bindPoints c ∧
  c_inventory (load_stats row c) = c_inventory c ∧ same_meta c (load_stats row c) ∧
  ∃ class level race, c_skills (load_stats row c) = skills_init class level race (c_skills c).
Proof.
  destruct (sr_surname row) eqn:Hs; unfold load_stats; rewrite Hs; split_and!; try reflexivity; unfold same_meta; split_and?; try reflexivity;
    do 3 eexists; reflexivity.
Qed.

Lemma load_stats_harmless rows : harmless (λ c, Ok (fold_left (λ c row, load_stats row c) rows c)).
Proof.
  apply (harmless_fold load_stats). intros row _ c [[H1 H2 H3 H4 H5 H6 H7 H8] Hs].
  destruct (load_stats_keeps row c) as (E1 & E2 & E3 & Em & class & level & race & E4). destruct (skills_init_lengths class level race (c_skills c)) as [L1 L2].
  generalize dependent (load_stats row c). intros c' E1 E2 E3 Em E4. split; [|done].
  split; [split|]; rewrite ?E1, ?E2, ?E3, ?E4, ?L1, ?L2; assumption.
Qed.

(** ** The other answers *)
Definition skill_row_ok (row : Z * Z) : Prop := u32 row.1 < 74 ∨ 100 ≤ u32 row.1.

Lemma set_from_db_ok id v s : id < 74 ∨ 100 ≤ id →
  ∃ s', skills_set_from_db id v s = Ok s' ∧ length (skill s') = length (skill s) ∧ length (language s') = length (language s).
Proof.
  intros Hid. unfold skills_set_from_db, EQP_DB_LANGUAGE_SKILL_OFFSET, Lang_COUNT, Skill_COUNT. destruct (Z.leb_spec 100 id).
  - destruct (Z.leb_spec 24 (id - 100)); [by exists s|]. rewrite (proj2 (Z.leb_gt 74 _)) by lia.
    eexists. split; [done|]. cbn [put_skill skill language]. by rewrite !length_insert.
  - rewrite (proj2 (Z.leb_gt 74 id)) by lia. eexists. split; [done|]. cbn [put_skill skill language]. by rewrite length_insert.
Qed.

Lemma load_skills_harmless rows : Forall skill_row_ok rows → harmless (load_skills rows).
Proof.
  intros Hrows c [[H1 H2 H3 H4 H5 H6 H7 H8] Hs].
  assert (H : ∃ s, load_rows (λ row, skills_set_from_db (u32 row.1) (u32 row.2)) rows (Ok (c_skills c)) = Ok s ∧
    length (skill s) = 74%nat ∧ length (language s) = 24%nat).
  { clear -Hrows H1 H2. revert H1 H2. generalize (c_skills c). unfold load_rows. induction Hrows as [|row rows Hr _ IH]; intros s H1 H2; [by exists s|].
    cbn [fold_left]. destruct (set_from_db_ok (u32 row.1) (u32 row.2) s Hr) as (s' & He & L1 & L2).
    unfold mbind, outcome_bind. rewrite He. apply IH; [by rewrite L1|by rewrite L2]. }
  destruct H as (s & He & L1 & L2). unfold load_skills. rewrite He. eexists. split; [reflexivity|]. split; [|done]. split; [split|]; done.
Qed.

Definition inventory_row_ok (row : InventoryRow) : Prop := u16 (ir_slotId row) ≠ 2111.

Lemma slot_of_row_ok items row slot : inventory_row_ok row → slot_of_row items row = Some slot →
  slotId slot ≠ 2111 ∧ 0 ≤ itemId slot ∧ is_Some (item slot).
Proof.
  unfold slot_of_row. intros Hr. destruct (items _); [|done]. intros [= <-]. split; [done|]. split; [|by eexists]. apply wrap_range. lia.
Qed.

(** What the inventory of a client that can be sent satisfies. *)
Definition inventory_ok (inv : Inventory) : Prop :=
  slots inv ≠ [] ∧ ∀ slot, slot ∈ slots inv → (0 < itemId slot → is_Some (item slot)) ∧ slotId slot ≠ 2111 ∧ 0 ≤ itemId slot.

Lemma inventory_add_ok slot inv : inventory_ok inv → slotId slot ≠ 2111 ∧ 0 ≤ itemId slot ∧ is_Some (item slot) →
  ∃ inv', inventory_add_from_database slot inv = Ok inv' ∧ inventory_ok inv'.
Proof.
  intros [Hn Hin] (H1 & H2 & H3). unfold inventory_add_from_database.
  set (pushed := mkInventory _ _ _ _ (slots inv ++ [slot]) _).
  assert (Hp : inventory_ok pushed).
  { split; cbn [slots pushed]; [by destruct (slots inv)|]. intros s [Hs|Hs%list_elem_of_singleton]%elem_of_app; [by apply Hin|]. by subst. }
  destruct (slotId slot =? InvSlot_Cursor); [|by exists pushed]. destruct (slots inv) as [|cursor l] eqn:Hl; [done|]. run.
  change ((cursor :: l) !! 0%nat) with (Some cursor). cbv beta iota.
  destruct (negb (itemId cursor =? 0)); [|by exists pushed]. eexists. split; [done|]. split; cbn [slots inventory_add_to_cursor_queue_from_database]; by rewrite Hl.
Qed.

Lemma load_items_harmless items rows : Forall inventory_row_ok rows → harmless (load_items items rows).
Proof.
  intros Hrows c [[H1 H2 H3 H4 H5 H6 H7 H8] Hs].
  assert (H : ∃ inv, load_rows (λ row inv, match slot_of_row items row with Some slot => inventory_add_from_database slot inv | None => Ok inv end)
    rows (Ok (c_inventory c)) = Ok inv ∧ inventory_ok inv).
  { assert (Hi : inventory_ok (c_inventory c)) by (split; [done|intros slot Hin; split_and!; [by apply H6|by apply H7|by apply H8]]).
    clear -Hrows Hi. revert Hi. generalize (c_inventory c). unfold load_rows. induction Hrows as [|row rows Hr _ IH]; intros inv Hi; [by exists inv|].
    cbn [fold_left]. unfold mbind, outcome_bind. destruct (slot_of_row items row) as [slot|] eqn:Hrow; [|by apply IH].
    destruct (inventory_add_ok slot inv Hi (slot_of_row_ok items row slot Hr Hrow)) as (inv' & He & Hi'). rewrite He. by apply IH. }
  destruct H as (inv & He & Hn & Hin). unfold load_items. rewrite He. eexists. split; [reflexivity|]. split; [|done].
  split; [split|]; try done; intros slot Hsl; by apply Hin.
Qed.

Lemma load_spellbook_harmless rows : harmless (λ c, Ok (load_spellbook rows c)).
Proof.
  intros c [[H1 H2 H3 H4 H5 H6 H7 H8] Hs]. eexists. split; [done|]. split; [|done].
  assert (H : ∀ book : Spellbook, length (memorized book) = 9%nat → nonneg_slots book →
    let book' := fold_left (λ book row, spellbook_add_from_database (u32 row.1) (u32 row.2) book) rows book in
    length (memorized book') = 9%nat ∧ nonneg_slots book').
  { induction rows as [|row rows IH]; intros book Hb Hn; [done|]. cbn [fold_left]. apply IH; [done|].
    unfold nonneg_slots in *. cbn [spellbook_array spellbook_add_from_database knownSpells default]. apply Forall_app. split; [done|].
    apply Forall_singleton, wrap_range. lia. }
  destruct (H _ H3 H5) as [Hb Hn]. split; [split|]; done.
Qed.

Lemma load_memmed_spells_harmless rows : harmless (λ c, Ok (load_memmed_spells rows c)).
Proof.
  intros c [[H1 H2 H3 H4 H5 H6 H7 H8] Hs]. eexists. split; [done|]. split; [|done].
  assert (H : ∀ book : Spellbook, length (memorized book) = 9%nat → nonneg_slots book →
    let book' := fold_left (λ book row, spellbook_add_memorized_from_database (u32 row.1.1) (u32 row.1.2) (u64 row.2) book) rows book in
    length (memorized book') = 9%nat ∧ nonneg_slots book').
  { induction rows as [|row rows IH]; intros book Hb Hn; [done|]. cbn [fold_left]. unfold spellbook_add_memorized_from_database at 2 4.
    destruct (_ <=? _); apply IH; try done. cbn [memorized]. by rewrite length_insert. }
  destruct (H _ H3 H5) as [Hb Hn]. split; [split|]; done.
Qed.

Lemma load_bind_points_harmless junk rows : harmless (λ c, Ok (load_bind_points junk rows c)).
Proof.
  intros c Hc. destruct (harmless_fold (λ row c, client_set_bind_point (u32 (br_bindId row)) (br_zoneId row) (br_instId row) (loc_x (br_loc row))
    (loc_y (br_loc row)) (loc_z (br_loc row)) (loc_heading (br_loc row)) c) rows) with (c := c) as (c1 & [= <-] & Hc1 & Hm); [|done|].
  { intros row _ d [[H1 H2 H3 H4 H5 H6 H7 H8] Hs]. unfold client_set_bind_point. destruct (5 <=? _); [done|]. split; [|done].
    split; [split|]; try done. cbn. by rewrite length_insert. }
  eexists. split; [done|]. unfold load_bind_points. revert Hc1 Hm. generalize (fold_left (λ c row, client_set_bind_point (u32 (br_bindId row))
    (br_zoneId row) (br_instId row) (loc_x (br_loc row)) (loc_y (br_loc row)) (loc_z (br_loc row)) (loc_heading (br_loc row)) c) rows c).
  intros d [[H1 H2 H3 H4 H5 H6 H7 H8] Hs] Hm. unfold client_fill_in_missing_bind_points. cbv zeta.
  generalize (match filter (λ b, b_zoneId b ≠ 0) (c_bindPoints d) with b :: _ => b | [] => mkBind 1 junk (mkLoc 0 0 0 0) end). intros from.
  split; [|exact Hm]. split; [split|]; try done. cbn. by rewrite length_fmap.
Qed.

(** ** Events *)
Inductive load_event :=
  | StatsCome (rows : list StatsRow)
  | SkillsCome (rows : list (Z * Z))
  | InventoryComes (rows : list InventoryRow)
  | SpellbookComes (rows : list (Z * Z))
  | MemmedSpellsCome (rows : list (Z * Z * Z))
  | BindPointsCome (rows : list BindRow)
  | ConnectionMatches.

(** Ids that the tables hold: skills of the game or languages, and no item in
    the one slot the profile's tables miss. *)
Definition answer_ok (e : load_event) : Prop :=
  match e with
  | SkillsCome rows => Forall skill_row_ok rows
  | InventoryComes rows => Forall inventory_row_ok rows
  | _ => True
  end.

Definition query_of (e : load_event) : option (nat → ZoneQuery) :=
  match e with
  | StatsCome _ => Some LoadStats
  | SkillsCome _ => Some LoadSkills
  | InventoryComes _ => Some LoadInventory
  | SpellbookComes _ => Some LoadSpellbook
  | MemmedSpellsCome _ => Some LoadMemmedSpells
  | BindPointsCome _ => Some LoadBindPoints
  | ConnectionMatches => None
  end.

(** The client a query is about. *)
Definition asks (q : ZoneQuery) : nat :=
  match q with
  | LoadStats a | LoadSkills a | LoadInventory a | LoadSpellbook a | LoadMemmedSpells a | LoadBindPoints a => a
  end.

(** The bit an answer sets. *)
Definition mark (e : load_event) (l : Loaded) : Loaded :=
  match e with
  | StatsCome _ => l <| l_stats := true |>
  | SkillsCome _ => l <| l_skills := true |>
  | InventoryComes _ => l <| l_inventory := true |>
  | SpellbookComes _ => l <| l_spellbook := true |>
  | MemmedSpellsCome _ => l <| l_memmedSpells := true |>
  | BindPointsCome _ => l <| l_bindPoints := true |>
  | ConnectionMatches => l <| l_connection := true |> <| l_unused := true |>
  end.

(** The queries that have not been answered, for the bits that are set. *)
Definition pending (a : nat) (l : Loaded) : list ZoneQuery :=
  (if l_skills l then [] else [if l_stats l then LoadSkills a else LoadStats a]) ++
  (if l_inventory l then [] else [LoadInventory a]) ++ (if l_spellbook l then [] else [LoadSpellbook a]) ++
  (if l_memmedSpells l then [] else [LoadMemmedSpells a]) ++ (if l_bindPoints l then [] else [LoadBindPoints a]).

(** How many events are left. *)
Definition events_left (a : nat) (l : Loaded) : nat :=
  length (pending a l) + (if l_stats l then 0 else 1) + (if l_connection l then 0 else 1).

(** The bits that go together. *)
Definition bits_ok (l : Loaded) : Prop := l_unused l = l_connection l ∧ (l_skills l = true → l_stats l = true).

Lemma pending_none a l : bits_ok l → events_left a l = 0%nat ↔ all_loaded l = true.
Proof. destruct l as [[] [] [] [] [] [] [] []]; intros [Hu Hs]; cbn in *; intuition (discriminate || lia || done). Qed.

Lemma pending_in a l q : q ∈ pending a l →
  (l_skills l = false ∧ q = if l_stats l then LoadSkills a else LoadStats a) ∨ (l_inventory l = false ∧ q = LoadInventory a) ∨
  (l_spellbook l = false ∧ q = LoadSpellbook a) ∨ (l_memmedSpells l = false ∧ q = LoadMemmedSpells a) ∨ (l_bindPoints l = false ∧ q = LoadBindPoints a).
Proof.
  unfold pending. rewrite !elem_of_app.
  destruct (l_skills l), (l_inventory l), (l_spellbook l), (l_memmedSpells l), (l_bindPoints l); rewrite ?list_elem_of_singleton; set_solver.
Qed.

(** An answer takes its query out and its bit in. *)
Lemma pending_answered a l e q : bits_ok l → query_of e = Some q → q a ∈ pending a l → (∀ rows, e ≠ StatsCome rows) →
  pending a l ≡ₚ q a :: pending a (mark e l) ∧ bits_ok (mark e l) ∧ events_left a l = S (events_left a (mark e l)) ∧ all_loaded l = false.
Proof.
  intros [Hu Hs] He Hin Hne. apply pending_in in Hin. destruct e; try (injection He as <-); try discriminate; try (by edestruct Hne);
    destruct Hin as [[Hb Hq]|[[Hb Hq]|[[Hb Hq]|[[Hb Hq]|[Hb Hq]]]]]; try discriminate Hq; try (by destruct (l_stats l));
    unfold pending, events_left, bits_ok, all_loaded, mark; destruct l as [[] [] [] [] [] [] [] []]; cbn in *; try discriminate; (split; [solve_Permutation|]); done.
Qed.

(** ** When everything is loaded *)
Section Loading.
Context (junk : Z → list Z) (stack : list Z) (compress2 : list Z → option (list Z)) (now bindJunk : Z) (items : Z → option nat).
Context (Hjunk : ∀ n, length (junk n) = Z.to_nat n) (Hstack : length stack = Z.to_nat SIZEOF_PlayerProfile).
(** The profile ends in 3380 zeroes, so zlib makes it smaller. *)
Context (Hcompress : ∀ pp, length pp = Z.to_nat SIZEOF_PlayerProfile → drop (length pp - 3380) pp = replicate 3380 0 → is_Some (compress2 pp)).

Definition profile_packet (c : Client) (z : Zone) : outcome (list Z) :=
  pp ← profile_bytes c z now stack; client_trilogy_send_player_profile_compress_and_obfuscate compress2 pp.

Lemma profile_packet_ok c z : sendable c → ∃ data, profile_packet c z = Ok data.
Proof.
  intros Hse. unfold profile_packet. rewrite (profile_bytes_ok c z now stack Hse Hstack). cbn [mbind outcome_bind].
  unfold client_trilogy_send_player_profile_compress_and_obfuscate. set (pp := _ ++ _).
  assert (Hl : length pp = Z.to_nat SIZEOF_PlayerProfile).
  { unfold pp. rewrite length_app, profile_body_length, le_bytes_length by done. by vm_compute. }
  destruct (Hcompress pp Hl) as [data Hd].
  { rewrite Hl. unfold pp, profile_body. rewrite app_assoc. apply drop_app_length'. unfold pp, profile_body in Hl.
    rewrite !length_app, length_replicate in Hl. rewrite length_app. lia. }
  rewrite Hd. by eexists.
Qed.

Section Client.
Context (a h zn : nat).

(** What a client is sent: the packets, in order, as they are made of its data. *)
Definition welcome (c : Client) (z : Zone) (l : list (Z * list Z)) : Prop := ∃ profile entry weather,
  l = [(TrilogyOp_PlayerProfile, profile); (TrilogyOp_ZoneEntry, entry); (TrilogyOp_Weather, weather)] ∧
  profile_packet c z = Ok profile ∧ client_trilogy_send_zone_entry junk c z = Ok entry ∧ client_trilogy_make_op_weather junk 0 0 = Ok weather.

Lemma welcome_exists c z : sendable c → ∃ l, welcome c z l.
Proof.
  intros Hse. destruct (profile_packet_ok c z Hse) as [p Hp].
  assert (Hw : ∃ w, client_trilogy_make_op_weather junk 0 0 = Ok w).
  { eexists. apply (raw_packet_ok junk Hjunk _ _ (le 4 0 ++ le 4 0)); [by vm_compute|apply fills_seq; apply (fills_uint32 0)|by vm_compute]. }
  destruct Hw as [w Hw]. do 4 eexists. split; [reflexivity|]. split; [exact Hp|]. split; [by apply zone_entry_follows_ok|exact Hw].
Qed.

(** The state changes in nothing else the clients' loading looks at. *)
Definition same_but_handlers (s s' : ZC) : Prop :=
  clients s' = clients s ∧ zones s' = zones s ∧ zoneQueries s' = zoneQueries s ∧ expectedClientsByName s' = expectedClientsByName s.

Lemma check_finished_ok s c z zh : clients s !! a = Some c → sendable c → m_zone (c_mob c) = Some zn → zones s !! zn = Some z →
  c_handler c = Some h → c_expansion c = ExpansionId_Trilogy → zoneHandlers s !! h = Some zh → all_loaded (c_loaded c) = true →
  ∃ s' l, client_check_loading_finished junk stack compress2 now a s = (Ok tt, s') ∧ same_but_handlers s s' ∧ welcome c z l ∧
    zoneHandlers s' = <[h := zh <| zh_scheduled := zh_scheduled zh ++ l |>]> (zoneHandlers s).
Proof.
  intros Hc Hse Hzn Hz Hh He Hzh Hall. destruct (welcome_exists c z Hse) as [l Hl]. pose proof Hl as (p & e & w & -> & Hp & Hen & Hw).
  unfold client_check_loading_finished. rewrite (bind_ok _ _ _ _ _ (zclient_at_ok _ _ _ Hc)). rewrite Hall. cbn [negb].
  set (s1 := timer_start_auto_save a s). rewrite (bind_ok (modify _) _ _ _ s1 eq_refl).
  unfold client_zone. rewrite Hzn. rewrite (bind_ok (lift (deref (Some zn))) _ s1 zn s1 eq_refl).
  set (s2 := s1 <| luaEvents := luaEvents s1 ++ [(a, "createClient"%string)] |>). rewrite (bind_ok (zlog_event _ _) _ _ _ s2 eq_refl).
  set (s3 := s2 <| luaEvents := luaEvents s2 ++ [(a, "event_pre_spawn"%string)] |>). rewrite (bind_ok (zlog_event _ _) _ _ _ s3 eq_refl).
  assert (H3 : same_but_handlers s s3 ∧ zoneHandlers s3 = zoneHandlers s) by (unfold s3, s2, s1, timer_start_auto_save; by destruct (bool_decide _)).
  destruct H3 as [(E1 & E2 & E3 & E4) E5]. clearbody s3. clear s1 s2.
  assert (Hc3 : clients s3 !! a = Some c) by (by rewrite E1). assert (Hz3 : zones s3 !! zn = Some z) by (by rewrite E2).
  unfold client_is_trilogy. rewrite He. change (ExpansionId_Trilogy =? ExpansionId_Trilogy) with true. cbv iota.
  assert (Hsend : client_trilogy_send_player_profile stack compress2 now a s3 = (Ok tt, put_handler h (schedule TrilogyOp_PlayerProfile p zh) s3)).
  { unfold client_trilogy_send_player_profile. rewrite (bind_ok _ _ _ _ _ (zclient_at_ok s3 a c Hc3)). unfold client_zone. rewrite Hzn.
    rewrite (bind_ok (lift (deref (Some zn))) _ s3 zn s3 eq_refl). rewrite (bind_ok _ _ _ _ _ (zone_at_ok s3 zn z Hz3)).
    unfold profile_packet in Hp. destruct (profile_bytes c z now stack) as [pp|ex|]; [|done..]. rewrite (bind_ok (lift _) _ _ _ s3 eq_refl).
    apply (packet_scheduled_ok a h _ c); [exact Hc3|done|by rewrite E5|exact Hp]. }
  rewrite (bind_ok _ _ _ _ _ Hsend). set (s4 := put_handler h _ s3).
  assert (Hentry : send_zone_entry junk a s4 = (Ok tt, put_handler h (schedule TrilogyOp_ZoneEntry e (schedule TrilogyOp_PlayerProfile p zh)) s4)).
  { unfold send_zone_entry. rewrite (bind_ok _ _ _ _ _ (zclient_at_ok s4 a c Hc3)). unfold client_zone. rewrite Hzn.
    rewrite (bind_ok (lift (deref (Some zn))) _ s4 zn s4 eq_refl). rewrite (bind_ok _ _ _ _ _ (zone_at_ok s4 zn z Hz3)).
    apply (packet_scheduled_ok a h _ c); [exact Hc3|done|apply lookup_insert_eq|exact Hen]. }
  rewrite (bind_ok _ _ _ _ _ Hentry). set (s5 := put_handler h _ s4).
  assert (Hfinal : client_trilogy_schedule_packet_individual a TrilogyOp_Weather (client_trilogy_make_op_weather junk 0 0) s5 =
    (Ok tt, put_handler h (schedule TrilogyOp_Weather w (schedule TrilogyOp_ZoneEntry e (schedule TrilogyOp_PlayerProfile p zh))) s5)).
  { apply (packet_scheduled_ok a h _ c); [exact Hc3|done|apply lookup_insert_eq|exact Hw]. }
  rewrite Hfinal. do 2 eexists. split; [reflexivity|]. split; [done|]. split; [exact Hl|]. cbn. rewrite E5, !insert_insert_eq. f_equal.
  unfold schedule. destruct zh. cbn. by rewrite <- !app_assoc.
Qed.

Lemma check_unfinished_ok s c : clients s !! a = Some c → all_loaded (c_loaded c) = false →
  client_check_loading_finished junk stack compress2 now a s = (Ok tt, s).
Proof. intros Hc Hl. unfold client_check_loading_finished. rewrite (bind_ok _ _ _ _ _ (zclient_at_ok _ _ _ Hc)). by rewrite Hl. Qed.

(** A client that is connected is the handler's and trilogy's. *)
Definition attached (c : Client) : Prop := l_connection (c_loaded c) = true → c_handler c = Some h ∧ c_expansion c = ExpansionId_Trilogy.

(** What a check leaves: nothing new, or the packets. *)
Definition checked (s s' : ZC) (c : Client) (z : Zone) (zh : ZoneHandler) : Prop :=
  if all_loaded (c_loaded c) then ∃ l, welcome c z l ∧ zoneHandlers s' !! h = Some (zh <| zh_scheduled := zh_scheduled zh ++ l |>)
  else zoneHandlers s' !! h = Some zh.

Lemma check_ok s c z zh : clients s !! a = Some c → sendable c → m_zone (c_mob c) = Some zn → zones s !! zn = Some z →
  attached c → zoneHandlers s !! h = Some zh →
  ∃ s', client_check_loading_finished junk stack compress2 now a s = (Ok tt, s') ∧ same_but_handlers s s' ∧ checked s s' c z zh.
Proof.
  intros Hc Hse Hzn Hz Hat Hzh. unfold checked. destruct (all_loaded (c_loaded c)) eqn:Hall; [|exists s; split; [by eapply check_unfinished_ok|done]].
  assert (Hco : l_connection (c_loaded c) = true) by (unfold all_loaded in Hall; by repeat (apply andb_true_iff in Hall as [Hall _])).
  destruct (Hat Hco) as [Hh He]. destruct (check_finished_ok s c z zh Hc Hse Hzn Hz Hh He Hzh Hall) as (s' & l & Hs' & Hsame & Hl & Eh).
  exists s'. split; [done|]. split; [done|]. exists l. split; [done|]. rewrite Eh. apply lookup_insert_eq.
Qed.

Lemma set_loaded_sendable f c : sendable c → sendable (set_loaded f c).
Proof. intros [H1 H2 H3 H4 H5 H6 H7 H8]. by split. Qed.

(** The end of a callback: its part is marked, the check runs when the client is
    connected, and one of at least two references is dropped. *)
Lemma finish_query_ok s c z zh f : clients s !! a = Some c → sendable c → m_zone (c_mob c) = Some zn → zones s !! zn = Some z →
  attached (set_loaded f c) → zoneHandlers s !! h = Some zh → 1 < c_refCount c →
  ∃ s', finish_query junk stack compress2 now a f s = (Ok tt, s') ∧
    clients s' = <[a := set_loaded f c <| c_refCount := c_refCount c - 1 |>]> (clients s) ∧ zones s' = zones s ∧ zoneQueries s' = zoneQueries s ∧
    expectedClientsByName s' = expectedClientsByName s ∧ checked s s' (set_loaded f c) z zh.
Proof.
  intros Hc Hse Hzn Hz Hat Hzh Href. unfold finish_query. rewrite (bind_ok _ _ _ _ _ (upd_zclient_ok _ _ _ _ Hc)).
  set (d := set_loaded f c). set (s1 := put_zclient a d s).
  assert (Hd : clients s1 !! a = Some d) by apply put_zclient_lookup.
  rewrite (bind_ok _ _ _ _ _ (zclient_at_ok _ _ _ Hd)).
  assert (H : ∃ s2, (if l_connection (c_loaded d) then client_check_loading_finished junk stack compress2 now a else mret tt) s1 = (Ok tt, s2) ∧
    same_but_handlers s1 s2 ∧ checked s s2 d z zh).
  { destruct (l_connection (c_loaded d)) eqn:Hco.
    - apply (check_ok s1 d z zh); try done. by apply set_loaded_sendable.
    - exists s1. split; [done|]. split; [done|]. unfold checked, all_loaded. by rewrite Hco. }
  destruct H as (s2 & H2 & (E1 & E2 & E3 & E4) & Hch). rewrite (bind_ok _ _ _ _ _ H2).
  assert (Hd2 : clients s2 !! a = Some d) by (by rewrite E1).
  unfold client_drop. rewrite (bind_ok _ _ _ _ _ (zclient_at_ok _ _ _ Hd2)).
  change (c_refCount d) with (c_refCount c). rewrite (proj2 (Z.ltb_lt _ _) Href). rewrite (upd_zclient_ok _ _ _ _ Hd2).
  eexists. split; [reflexivity|]. cbn. rewrite E1. unfold s1. cbn. rewrite insert_insert_eq. by rewrite E2, E3, E4.
Qed.

(** ** Runs *)
Context (st : nat) (name : list Z) (others : list ZoneQuery).

Definition remove_query (q : ZoneQuery) (l : list ZoneQuery) : list ZoneQuery :=
  match list_find (λ p, p = q) l with Some (i, _) => delete i l | None => l end.
Definition take_query (q : ZoneQuery) : code ZC unit := modify (λ s, s <| zoneQueries := remove_query q (zoneQueries s) |>).

Definition load_callback (e : load_event) : code ZC unit :=
  match e with
  | StatsCome rows => client_load_stats_callback a rows
  | SkillsCome rows => client_load_skills_callback junk stack compress2 now a rows
  | InventoryComes rows => client_load_inventory_callback junk stack compress2 now items a rows
  | SpellbookComes rows => client_load_spellbook_callback junk stack compress2 now a rows
  | MemmedSpellsCome rows => client_load_memmed_spells_callback junk stack compress2 now a rows
  | BindPointsCome rows => client_load_bind_points_callback junk stack compress2 now bindJunk a rows
  | ConnectionMatches => zc_client_match_with_expected junk stack compress2 now st h name
  end.

(** The database answers a query that waits; the connection at [st] names an
    expected client. *)
Definition can_happen (s : ZC) (e : load_event) : Prop :=
  match query_of e with
  | Some q => q a ∈ zoneQueries s ∧ answer_ok e
  | None => is_Some (clients s !! st)
  end.
Definition load_step (e : load_event) : code ZC unit :=
  match query_of e with Some q => take_query (q a) ;; load_callback e | None => load_callback e end.

Inductive load_run : nat → ZC → ZC → Prop :=
  | run_nothing s : load_run 0 s s
  | run_more n s e s1 s2 : load_run n s s1 → can_happen s1 e → load_step e s1 = (Ok tt, s2) → load_run (S n) s s2.

Record loading (s : ZC) (c : Client) (z : Zone) (zh : ZoneHandler) : Prop := {
  ld_client : clients s !! a = Some c;
  ld_ready : ready c;
  ld_zone : m_zone (c_mob c) = Some zn;
  ld_zones : zones s !! zn = Some z;
  ld_refs : c_refCount c = 1 + Z.of_nat (length (pending a (c_loaded c)));
  ld_queries : zoneQueries s ≡ₚ pending a (c_loaded c) ++ others;
  ld_bits : bits_ok (c_loaded c);
  ld_handler : zoneHandlers s !! h = Some zh;
  ld_attached : attached c;
  ld_stub : if l_connection (c_loaded c) then clients s !! st = None
            else expectedClientsByName s !! name = Some a ∧ ∃ stub, clients s !! st = Some stub ∧ c_expansion stub = ExpansionId_Trilogy;
  ld_sent : if all_loaded (c_loaded c) then ∃ n, welcome (c <| c_refCount := n |>) z (zh_scheduled zh) else zh_scheduled zh = [];
}.

Lemma remove_query_ok q l : q ∈ l → l ≡ₚ q :: remove_query q l.
Proof.
  intros Hq. unfold remove_query. destruct (list_find (λ p, p = q) l) as [[i p]|] eqn:Hf.
  - apply list_find_Some in Hf as (Hi & -> & _). by apply delete_Permutation.
  - apply list_find_None in Hf. rewrite Forall_forall in Hf. by destruct (Hf q Hq).
Qed.

Context (Hst : st ≠ a) (Hothers : ∀ q, q ∈ others → asks q ≠ a).

Lemma answered_is_pending s c z zh e q : loading s c z zh → query_of e = Some q → q a ∈ zoneQueries s → q a ∈ pending a (c_loaded c).
Proof.
  intros Hl He Hq. rewrite (ld_queries _ _ _ _ Hl) in Hq. apply elem_of_app in Hq as [Hq|Hq]; [done|].
  destruct (Hothers _ Hq). by destruct e; [injection He as <-..|discriminate].
Qed.

(** The load itself. *)
Definition load_of (e : load_event) : Client → outcome Client :=
  match e with
  | StatsCome rows => λ c, Ok (fold_left (λ c row, load_stats row c) rows c)
  | SkillsCome rows => load_skills rows
  | InventoryComes rows => load_items items rows
  | SpellbookComes rows => λ c, Ok (load_spellbook rows c)
  | MemmedSpellsCome rows => λ c, Ok (load_memmed_spells rows c)
  | BindPointsCome rows => λ c, Ok (load_bind_points bindJunk rows c)
  | ConnectionMatches => Ok
  end.
Lemma load_harmless e : answer_ok e → harmless (load_of e).
Proof.
  destruct e; cbn [answer_ok load_of]; intros Ha.
  - apply load_stats_harmless.
  - by apply load_skills_harmless.
  - by apply load_items_harmless.
  - apply load_spellbook_harmless.
  - apply load_memmed_spells_harmless.
  - apply load_bind_points_harmless.
  - intros c Hc. by exists c.
Qed.

Lemma callback_shape e q : query_of e = Some q → (∀ rows, e ≠ StatsCome rows) → ∀ s,
  load_callback e s = (change_client a (load_of e) ;; finish_query junk stack compress2 now a (mark e)) s.
Proof. intros He Hne s. destruct e; try discriminate; try (by edestruct Hne); done. Qed.

Lemma change_client_ok s c c' f : clients s !! a = Some c → f c = Ok c' → change_client a f s = (Ok tt, put_zclient a c' s).
Proof. intros Hc Hf. unfold change_client. rewrite (bind_ok _ _ _ _ _ (zclient_at_ok _ _ _ Hc)). by rewrite Hf. Qed.

Lemma mark_connection e q l : query_of e = Some q → l_connection (mark e l) = l_connection l.
Proof. by destruct e. Qed.

(** An unfinished client was sent nothing. *)
Lemma nothing_sent s c z zh : loading s c z zh → all_loaded (c_loaded c) = false → zh_scheduled zh = [].
Proof. intros Hl Ha. pose proof (ld_sent _ _ _ _ Hl) as H. by rewrite Ha in H. Qed.

Lemma checked_sent s s' c z zh k : checked s s' c z zh → zh_scheduled zh = [] →
  ∃ zh', zoneHandlers s' !! h = Some zh' ∧
    if all_loaded (c_loaded c) then ∃ n, welcome (c <| c_refCount := k |> <| c_refCount := n |>) z (zh_scheduled zh') else zh_scheduled zh' = [].
Proof.
  unfold checked. intros Hch Hn. destruct (all_loaded (c_loaded c)); [|by exists zh]. destruct Hch as (l & Hl & Hz). eexists. split; [exact Hz|].
  exists (c_refCount c). cbn. rewrite Hn. cbn [app]. by destruct c.
Qed.

Lemma answered_step s c z zh e q : loading s c z zh → query_of e = Some q → q a ∈ zoneQueries s → answer_ok e → (∀ rows, e ≠ StatsCome rows) →
  ∃ s' c' zh', load_step e s = (Ok tt, s') ∧ loading s' c' z zh' ∧ events_left a (c_loaded c) = S (events_left a (c_loaded c')).
Proof.
  intros Hl He Hq Ha Hne. pose proof (answered_is_pending _ _ _ _ _ _ Hl He Hq) as Hp.
  destruct (pending_answered a _ e q (ld_bits _ _ _ _ Hl) He Hp Hne) as (Hperm & Hbits & Hleft & Hun).
  destruct (load_harmless e Ha c (ld_ready _ _ _ _ Hl)) as (c' & Hc' & Hr' & Hm).
  destruct Hm as (M1 & M2 & M3 & M4 & M5 & M6).
  unfold load_step. rewrite He. set (s1 := s <| zoneQueries := remove_query (q a) (zoneQueries s) |>).
  rewrite (bind_ok (take_query _) _ _ _ s1 eq_refl), (callback_shape e q He Hne).
  rewrite (bind_ok _ _ _ _ _ (change_client_ok s1 c c' _ (ld_client _ _ _ _ Hl) Hc')).
  assert (Hat : attached (set_loaded (mark e) c')).
  { intros Hco. change (l_connection (mark e (c_loaded c')) = true) in Hco. rewrite (mark_connection e q _ He), M5 in Hco.
    change (c_handler c' = Some h ∧ c_expansion c' = ExpansionId_Trilogy). rewrite M1, M2. by apply (ld_attached _ _ _ _ Hl). }
  assert (Href : 1 < c_refCount c').
  { rewrite M3, (ld_refs _ _ _ _ Hl), Hperm. cbn [length]. lia. }
  destruct (finish_query_ok (put_zclient a c' s1) c' z zh (mark e)) as (s' & Hs' & E1 & E2 & E3 & E4 & Hch); try done.
  { apply put_zclient_lookup. } { apply (rd_sendable _ Hr'). } { by rewrite M6, (ld_zone _ _ _ _ Hl). } { apply (ld_zones _ _ _ _ Hl). }
  { apply (ld_handler _ _ _ _ Hl). }
  set (d := set_loaded (mark e) c' <| c_refCount := c_refCount c' - 1 |>) in E1.
  assert (Hd : c_loaded d = mark e (c_loaded c)) by (change (mark e (c_loaded c') = mark e (c_loaded c)); by rewrite M5).
  destruct (checked_sent _ s' _ z zh (c_refCount c' - 1) Hch (nothing_sent _ _ _ _ Hl Hun)) as (zh' & Hz' & Hsent).
  assert (E5 : clients s' = <[a := d]> (clients s)) by (rewrite E1; cbn; by rewrite insert_insert_eq).
  exists s', d, zh'. split; [exact Hs'|]. split; [|by rewrite Hd].
  split; rewrite ?Hd.
  - rewrite E5. apply lookup_insert_eq.
  - destruct Hr' as [Hse Hsl]. split; [by apply (set_loaded_sendable (mark e)) in Hse; destruct Hse|exact Hsl].
  - change (m_zone (c_mob c') = Some zn). rewrite M6. apply (ld_zone _ _ _ _ Hl).
  - rewrite E2. apply (ld_zones _ _ _ _ Hl).
  - change (c_refCount d) with (c_refCount c' - 1). rewrite M3, (ld_refs _ _ _ _ Hl), Hperm. cbn [length]. lia.
  - rewrite E3. cbn. apply (Permutation_cons_inv (a := q a)). rewrite <- (remove_query_ok _ _ Hq), (ld_queries _ _ _ _ Hl), Hperm. done.
  - done.
  - done.
  - exact Hat.
  - rewrite (mark_connection e q _ He). pose proof (ld_stub _ _ _ _ Hl) as Hstub. rewrite E4, E5.
    destruct (l_connection (c_loaded c)); by rewrite lookup_insert_ne by done.
  - change (c_loaded (set_loaded (mark e) c')) with (mark e (c_loaded c')) in Hsent. by rewrite M5 in Hsent.
Qed.

Lemma stats_pending l : bits_ok l → LoadStats a ∈ pending a l → ∀ rows,
  l_stats l = false ∧ bits_ok (mark (StatsCome rows) l) ∧ all_loaded l = false ∧ all_loaded (mark (StatsCome rows) l) = false ∧
  events_left a l = S (events_left a (mark (StatsCome rows) l)) ∧ length (pending a l) = length (pending a (mark (StatsCome rows) l)) ∧
  LoadSkills a :: pending a l ≡ₚ LoadStats a :: pending a (mark (StatsCome rows) l).
Proof.
  intros [Hu Hs] Hin rows. apply pending_in in Hin as [[Hk Hq]|[[_ Hq]|[[_ Hq]|[[_ Hq]|[_ Hq]]]]]; try discriminate.
  destruct (l_stats l) eqn:Hst'; [discriminate|]. split; [done|]. unfold pending, events_left, all_loaded, bits_ok, mark.
  destruct l as [co stt inv sk sp me bi un]. cbn in *. subst. split_and!; try done; [|cbn; by rewrite andb_false_r|cbn; lia|apply perm_swap].
  by destruct co.
Qed.

Lemma stats_step s c z zh rows : loading s c z zh → LoadStats a ∈ zoneQueries s →
  ∃ s' c' zh', load_step (StatsCome rows) s = (Ok tt, s') ∧ loading s' c' z zh' ∧ events_left a (c_loaded c) = S (events_left a (c_loaded c')).
Proof.
  intros Hl Hq. pose proof (answered_is_pending _ _ _ _ (StatsCome rows) _ Hl eq_refl Hq) as Hp.
  destruct (stats_pending _ (ld_bits _ _ _ _ Hl) Hp rows) as (Hns & Hbits & Hun & Hun' & Hleft & Hlen & Hperm).
  destruct (load_stats_harmless rows c (ld_ready _ _ _ _ Hl)) as (c' & Hc' & Hr' & M1 & M2 & M3 & M4 & M5 & M6).
  unfold load_step. cbn [query_of load_callback]. set (s1 := s <| zoneQueries := remove_query (LoadStats a) (zoneQueries s) |>).
  rewrite (bind_ok (take_query _) _ _ _ s1 eq_refl). unfold client_load_stats_callback.
  rewrite (bind_ok _ _ _ _ _ (change_client_ok s1 c c' _ (ld_client _ _ _ _ Hl) Hc')).
  rewrite (bind_ok _ _ _ _ _ (upd_zclient_ok _ _ _ _ (put_zclient_lookup s1 a c'))). rewrite put_zclient_twice.
  set (d := set_loaded _ c'). assert (Hd : c_loaded d = mark (StatsCome rows) (c_loaded c)) by (by rewrite <- M5).
  eexists _, d, zh. split; [reflexivity|]. split; [|by rewrite Hd]. split; rewrite ?Hd.
  - apply lookup_insert_eq.
  - destruct Hr' as [Hse Hsl]. split; [by apply (set_loaded_sendable (mark (StatsCome rows))) in Hse|exact Hsl].
  - change (m_zone (c_mob c') = Some zn). rewrite M6. apply (ld_zone _ _ _ _ Hl).
  - apply (ld_zones _ _ _ _ Hl).
  - change (c_refCount d) with (c_refCount c'). by rewrite M3, (ld_refs _ _ _ _ Hl), Hlen.
  - cbn. apply (Permutation_cons_inv (a := LoadStats a)). rewrite app_comm_cons, <- (remove_query_ok _ _ Hq), (ld_queries _ _ _ _ Hl).
    rewrite app_comm_cons, <- Hperm, <- app_comm_cons. by rewrite Permutation_app_comm.
  - done.
  - apply (ld_handler _ _ _ _ Hl).
  - intros Hco. change (c_handler c' = Some h ∧ c_expansion c' = ExpansionId_Trilogy). rewrite M1, M2. apply (ld_attached _ _ _ _ Hl).
    by rewrite Hd in Hco.
  - change (l_connection (mark (StatsCome rows) (c_loaded c))) with (l_connection (c_loaded c)). pose proof (ld_stub _ _ _ _ Hl) as Hstub.
    cbn. destruct (l_connection (c_loaded c)); by rewrite lookup_insert_ne by done.
  - rewrite Hun'. by apply (nothing_sent _ _ _ _ Hl).
Qed.

Lemma match_bits l : bits_ok l → l_connection l = false → pending a (mark ConnectionMatches l) = pending a l ∧ bits_ok (mark ConnectionMatches l) ∧
  events_left a l = S (events_left a (mark ConnectionMatches l)) ∧ all_loaded l = false.
Proof.
  intros [Hu Hs] Hco. unfold events_left, bits_ok, all_loaded. rewrite Hco. split_and!; try done.
Qed.

Lemma match_step s c z zh : loading s c z zh → is_Some (clients s !! st) →
  ∃ s' c' zh', load_step ConnectionMatches s = (Ok tt, s') ∧ loading s' c' z zh' ∧ events_left a (c_loaded c) = S (events_left a (c_loaded c')).
Proof.
  intros Hl [sc Hsc]. pose proof (ld_stub _ _ _ _ Hl) as Hstub. destruct (l_connection (c_loaded c)) eqn:Hco; [by rewrite Hsc in Hstub|].
  destruct Hstub as (Hname & stub & Hstub & Hexp). destruct (match_bits _ (ld_bits _ _ _ _ Hl) Hco) as (Hpend & Hbits & Hleft & Hun).
  unfold load_step. cbn [query_of load_callback]. unfold zc_client_match_with_expected. rewrite (bind_ok (gets _) _ _ _ s eq_refl). rewrite Hname.
  set (s1 := s <| expectedClientsByName := delete name (expectedClientsByName s) |>).
  set (c1 := c <| c_handler := Some h |>). set (c2 := c1 <| c_expansion := c_expansion stub |>).
  set (c3 := set_loaded (mark ConnectionMatches) c2).
  set (zh1 := zh <| zh_client := Some a |>). set (s4 := put_zclient a c3 (put_handler h zh1 s1)).
  assert (Hc3 : clients s4 !! a = Some c3) by apply lookup_insert_eq.
  destruct (ld_ready _ _ _ _ Hl) as [Hse Hsl].
  assert (Hse3 : sendable c3) by (destruct Hse; by split).
  destruct (check_ok s4 c3 z zh1 Hc3 Hse3 (ld_zone _ _ _ _ Hl) (ld_zones _ _ _ _ Hl) (λ _, conj eq_refl Hexp) (lookup_insert_eq _ _ _))
    as (s5 & Hs5 & (E1 & E2 & E3 & E4) & Hch).
  assert (Hmatch : (upd_zclient a (λ c, c <| c_handler := Some h |>) ;; st0 ← zclient_at st;
      upd_zclient a (λ c, c <| c_expansion := c_expansion st0 |>) ;; protocol_handler_set_client_object h a ;;
      client_catch_up_with_loading_progress junk stack compress2 now a) s1 = (Ok tt, s5)).
  { rewrite (bind_ok _ _ _ _ _ (upd_zclient_ok s1 a c _ (ld_client _ _ _ _ Hl))). fold c1.
    rewrite (bind_ok _ _ _ _ _ (zclient_at_ok (put_zclient a c1 s1) st stub ltac:(by rewrite put_zclient_other by done))).
    rewrite (bind_ok _ _ _ _ _ (upd_zclient_ok _ a c1 _ (put_zclient_lookup s1 a c1))), put_zclient_twice. fold c2.
    unfold protocol_handler_set_client_object, upd_handler, handler_at.
    rewrite (bind_ok _ _ (put_zclient a c2 s1) tt (put_handler h zh1 (put_zclient a c2 s1))) by (run; cbn; by rewrite (ld_handler _ _ _ _ Hl)).
    unfold client_catch_up_with_loading_progress.
    rewrite (bind_ok _ _ _ _ _ (upd_zclient_ok (put_handler h zh1 (put_zclient a c2 s1)) a c2 _ (put_zclient_lookup s1 a c2))).
    replace (put_zclient a _ (put_handler h zh1 (put_zclient a c2 s1))) with s4; [exact Hs5|].
    unfold s4. change (put_handler h zh1 (put_zclient a c2 s1)) with (put_zclient a c2 (put_handler h zh1 s1)). by rewrite put_zclient_twice. }
  assert (Hd : c_loaded c3 = mark ConnectionMatches (c_loaded c)) by done.
  destruct (checked_sent _ s5 _ z zh1 (c_refCount c3) Hch (nothing_sent _ _ _ _ Hl Hun)) as (zh' & Hz' & Hsent).
  eexists _, c3, zh'. split; [refine (eq_trans (bind_ok _ _ s tt s5 _) eq_refl); exact Hmatch|].
  split; [|by rewrite Hd]. split; rewrite ?Hd, ?Hpend.
  - cbn. by rewrite lookup_delete_ne, E1 by done.
  - by split.
  - apply (ld_zone _ _ _ _ Hl).
  - cbn. rewrite E2. apply (ld_zones _ _ _ _ Hl).
  - apply (ld_refs _ _ _ _ Hl).
  - cbn. rewrite E3. apply (ld_queries _ _ _ _ Hl).
  - done.
  - done.
  - by intros _.
  - cbn. apply lookup_delete_eq.
  - rewrite Hd in Hsent. by destruct (all_loaded _).
Qed.

Lemma step_ok s c z zh e : loading s c z zh → can_happen s e →
  ∃ s' c' zh', load_step e s = (Ok tt, s') ∧ loading s' c' z zh' ∧ events_left a (c_loaded c) = S (events_left a (c_loaded c')).
Proof.
  intros Hl Hc. unfold can_happen in Hc. destruct (query_of e) as [q|] eqn:He.
  - destruct Hc as [Hq Ha]. destruct e; try (by eapply answered_step); injection He as <-. by apply (stats_step s c z zh).
  - destruct e; try discriminate. by apply (match_step s c z zh).
Qed.

Lemma run_ok n s c z zh s' : loading s c z zh → load_run n s s' →
  ∃ c' zh', loading s' c' z zh' ∧ events_left a (c_loaded c) = (n + events_left a (c_loaded c'))%nat.
Proof.
  intros Hl Hr. induction Hr as [s|n s e s1 s2 _ IH He Hs]; [by exists c, zh|].
  destruct (IH Hl) as (c1 & zh1 & Hl1 & Hn). destruct (step_ok s1 c1 z zh1 e Hl1 He) as (s' & c2 & zh2 & Hs' & Hl2 & Hn2).
  rewrite Hs' in Hs. injection Hs as <-. exists c2, zh2. split; [done|]. lia.
Qed.

Lemma something_left s c z zh : loading s c z zh → events_left a (c_loaded c) ≠ 0%nat → ∃ e, can_happen s e.
Proof.
  intros Hl Hn. pose proof (ld_stub _ _ _ _ Hl) as Hstub. destruct (l_connection (c_loaded c)) eqn:Hco; cycle 1.
  { exists ConnectionMatches. destruct Hstub as (_ & stub & Hs & _). by exists stub. }
  assert (Hq : ∃ q, q ∈ pending a (c_loaded c)).
  { unfold events_left in Hn. rewrite Hco in Hn. destruct (pending a (c_loaded c)) as [|q l] eqn:Hp; [|exists q; left].
    exfalso. destruct (ld_bits _ _ _ _ Hl) as [_ Hb]. unfold pending in Hp. destruct (l_skills (c_loaded c)); [|discriminate].
    by rewrite Hb in Hn. }
  destruct Hq as [q Hq]. assert (Hin : q ∈ zoneQueries s) by (rewrite (ld_queries _ _ _ _ Hl); apply elem_of_app; by left).
  apply pending_in in Hq as [[_ ->]|[[_ ->]|[[_ ->]|[[_ ->]|[_ ->]]]]].
  - destruct (l_stats (c_loaded c)); [exists (SkillsCome [])|exists (StatsCome [])]; split; (done || constructor).
  - exists (InventoryComes []). split; (done || constructor).
  - exists (SpellbookComes []). split; (done || constructor).
  - exists (MemmedSpellsCome []). split; (done || constructor).
  - exists (BindPointsCome []). split; (done || constructor).
Qed.
End Client.
End Loading.

(** ** From the zoning request on *)
Lemma fresh_client_ready zone zoning : ready (client_init zone zoning).
Proof.
  split; [|done]. assert (Hs : ∀ slot, slot ∈ slots (c_inventory (client_init zone zoning)) → slot = mkSlot InvSlot_Cursor 0 0 None).
  { intros slot Hin. by apply list_elem_of_singleton in Hin. }
  split; try (by vm_compute); try (by intros slot ->%Hs).
Qed.

Lemma ready_refs k c : ready c → ready (c <| c_refCount := k |>).
Proof. intros [[H1 H2 H3 H4 H5 H6 H7 H8] Hs]. by split. Qed.

Definition queries_of (a : nat) : list ZoneQuery := [LoadStats a; LoadInventory a; LoadSpellbook a; LoadMemmedSpells a; LoadBindPoints a].

Lemma more_refs_0 c : c <| c_refCount := c_refCount c + 0 |> = c.
Proof. destruct c. cbn. by rewrite Z.add_0_r. Qed.
Lemma queries_scheduled_ok a qs : ∀ c t, clients t !! a = Some c →
  each qs (λ q, client_grab a ;; db_schedule q) t = (Ok tt, put_zclient a (c <| c_refCount := c_refCount c + Z.of_nat (length qs) |>)
    (t <| zoneQueries := zoneQueries t ++ qs |>)).
Proof.
  induction qs as [|q qs IH]; intros c t Ht; cbn [each].
  - change (Z.of_nat (length [])) with 0. rewrite more_refs_0, app_nil_r. f_equal. rewrite (put_zclient_same _ a c) by exact Ht. by destruct t.
  - set (t1 := put_zclient a (c <| c_refCount := c_refCount c + 1 |>) t). set (t2 := t1 <| zoneQueries := zoneQueries t1 ++ [q] |>).
    assert (Hstep : (client_grab a ;; db_schedule q) t = (Ok tt, t2)) by (unfold client_grab; by rewrite (bind_ok _ _ _ _ _ (upd_zclient_ok _ _ _ _ Ht))).
    rewrite (bind_ok _ _ t tt t2 Hstep), (IH (c <| c_refCount := c_refCount c + 1 |>) t2) by apply put_zclient_lookup. f_equal.
    change (zoneQueries t2) with (zoneQueries t ++ [q]). rewrite <- app_assoc.
    change (c_refCount (c <| c_refCount := c_refCount c + 1 |>)) with (c_refCount c + 1).
    replace (c_refCount c + 1 + Z.of_nat (length qs)) with (c_refCount c + Z.of_nat (length (q :: qs))) by (cbn [length]; lia).
    unfold t2, t1. cbn. unfold put_zclient. cbn. by rewrite insert_insert_eq.
Qed.

Lemma client_create_ok a zone zoning s : client_create a zone zoning s =
  (Ok tt, put_zclient a (client_init zone zoning <| c_refCount := 6 |>) (s <| zoneQueries := zoneQueries s ++ queries_of a |>)).
Proof.
  unfold client_create. rewrite (bind_ok (modify _) _ s tt (put_zclient a (client_init zone zoning) s) eq_refl).
  change [LoadStats a; _; _; _; _] with (queries_of a).
  rewrite (queries_scheduled_ok a (queries_of a) _ _ (put_zclient_lookup _ _ _)). cbn. unfold put_zclient. cbn. by rewrite insert_insert_eq.
Qed.

(** An expected client: created in its zone, with its queries, its timer and its
    place in the list of those expected. *)
Definition expecting (a zn : nat) (zoning : ClientZoning) (s : ZC) : ZC :=
  let s1 := put_zclient a (client_init zn zoning <| c_refCount := 6 |>) (s <| zoneQueries := zoneQueries s ++ queries_of a |>) in
  let s2 := s1 <| zoneTimers := zoneTimers s1 ++ [ExpectedTimeout a] |> in
  s2 <| expectedClientsByName := set_absent (expectedClientsByName s2) (zn_characterName zoning) a |>.

Lemma expected_ok a sourceId data s zn zoning : zc_get_zone_by_source_id sourceId s = Some zn →
  SIZEOF_Server_ClientZoning ≤ Z.of_nat (length data) → zoning_of data = Ok zoning →
  zc_client_expected_to_zone_in a sourceId data s = (Ok tt, expecting a zn zoning s).
Proof.
  intros H1 H2 H3. unfold zc_client_expected_to_zone_in. rewrite (proj2 (Z.ltb_ge _ _) H2), bind_gets, H1.
  rewrite (bind_lift _ _ zoning _ H3). by rewrite (bind_ok _ _ _ _ _ (client_create_ok a zn zoning s)).
Qed.

(** A request for a zone of the process, from a character whose connection [h]
    has been sent nothing. *)
Record requested (s : ZC) (sourceId : Z) (data : list Z) (a st h zn : nat) (z : Zone) (zoning : ClientZoning) : Prop := {
  rq_zone : zc_get_zone_by_source_id sourceId s = Some zn;
  rq_zones : zones s !! zn = Some z;
  rq_length : SIZEOF_Server_ClientZoning ≤ Z.of_nat (length data);
  rq_zoning : zoning_of data = Ok zoning;
  rq_handler : ∃ zh, zoneHandlers s !! h = Some zh ∧ zh_scheduled zh = [];
  rq_others : ∀ q, q ∈ zoneQueries s → asks q ≠ a;
  rq_stub : st ≠ a;
}.

Definition request_and_connect (now : Z) (a st h : nat) (sourceId : Z) (data : list Z) : code ZC unit :=
  zc_client_expected_to_zone_in a sourceId data ;; client_create_from_new_connection_trilogy now h st.

Lemma requested_ok junk stack compress2 now s sourceId data a st h zn z zoning : requested s sourceId data a st h zn z zoning →
  expectedClientsByName s !! zn_characterName zoning = None →
  ∃ s' c zh, request_and_connect now a st h sourceId data s = (Ok tt, s') ∧
    loading junk stack compress2 now a h zn st (zn_characterName zoning) (zoneQueries s) s' c z zh ∧ c_loaded c = nothing_loaded.
Proof.
  intros [H1 H2 H3 H4 (zh & H5 & H5') H6 H7] Hnew. unfold request_and_connect. set (c := client_init zn zoning <| c_refCount := 6 |>).
  set (s3 := expecting a zn zoning s). rewrite (bind_ok _ _ s tt s3 (expected_ok _ _ _ _ _ _ H1 H3 H4)). unfold client_create_from_new_connection_trilogy, protocol_handler_grab, upd_handler, handler_at.
  set (zh1 := zh <| zh_refCount := zh_refCount zh + 1 |>). set (stub := client_create_unidentified_stub h ExpansionId_Trilogy now).
  rewrite (bind_ok _ _ s3 tt (put_handler h zh1 s3)) by (run; cbn; by rewrite H5).
  rewrite (bind_ok (modify _) _ _ tt (put_zclient st stub (put_handler h zh1 s3)) eq_refl).
  unfold protocol_handler_set_client_object, upd_handler, handler_at. set (zh2 := zh1 <| zh_client := Some st |>).
  eexists (put_handler h zh2 (put_zclient st stub (put_handler h zh1 s3))), c, zh2. split; [run; cbn; by rewrite lookup_insert_eq|].
  split; [|done]. split.
  - cbn. by rewrite lookup_insert_ne, lookup_insert_eq by done.
  - apply ready_refs, fresh_client_ready.
  - done.
  - exact H2.
  - done.
  - cbn. by rewrite Permutation_app_comm.
  - by split.
  - cbn. apply lookup_insert_eq.
  - by intros Hco.
  - cbn. split; [rewrite set_absent_new by exact Hnew; apply lookup_insert_eq|]. exists stub. split; [apply lookup_insert_eq|done].
  - done.
Qed.

(** A character that is already expected: the table keeps the client of the
    older request, so that is the one a connection is matched with, and the
    client that was just created has nobody who will match it. *)
Theorem second_request_is_shadowed a sourceId data s zn zoning b : zc_get_zone_by_source_id sourceId s = Some zn →
  SIZEOF_Server_ClientZoning ≤ Z.of_nat (length data) → zoning_of data = Ok zoning →
  expectedClientsByName s !! zn_characterName zoning = Some b →
  ∃ s', zc_client_expected_to_zone_in a sourceId data s = (Ok tt, s') ∧
    expectedClientsByName s' = expectedClientsByName s ∧ is_Some (clients s' !! a) ∧ ExpectedTimeout a ∈ zoneTimers s'.
Proof.
  intros H1 H2 H3 Hb. eexists. split; [by apply expected_ok|]. split; [exact (set_absent_old _ _ _ _ Hb)|].
  split; [cbn; rewrite lookup_insert_eq; by eexists|]. cbn. set_solver.
Qed.

(** C3: A character that is expected and connects is let in exactly once.
    After the master's request and the connection's first packet, the database
    may answer the client's queries and the connection may name itself in any
    order, with any rows of ids the tables hold: no callback fails, seven events
    finish the loading, nothing is sent before the last of them, and after it
    the client has been sent its profile, its zone entry and the weather, in
    that order and once, made of everything that was loaded; no query is left
    and one reference is. The name must not be expected already
    ([second_request_is_shadowed] is what happens then), and the events are those
    before the timer of the expectation runs out. *)
Theorem loading_finishes (junk : Z → list Z) (stack : list Z) (compress2 : list Z → option (list Z)) (now bindJunk : Z) (items : Z → option nat)
    (s : ZC) (sourceId : Z) (data : list Z) (a st h zn : nat) (z : Zone) (zoning : ClientZoning)
    (Hjunk : ∀ n, length (junk n) = Z.to_nat n) (Hstack : length stack = Z.to_nat SIZEOF_PlayerProfile)
    (Hcompress : ∀ pp, length pp = Z.to_nat SIZEOF_PlayerProfile → drop (length pp - 3380) pp = replicate 3380 0 → is_Some (compress2 pp))
    (Hs : requested s sourceId data a st h zn z zoning) (Hnew : expectedClientsByName s !! zn_characterName zoning = None) :
  let step := load_step junk stack compress2 now bindJunk items a h st (zn_characterName zoning) in
  ∃ s1, request_and_connect now a st h sourceId data s = (Ok tt, s1) ∧
    ∀ n s2, load_run junk stack compress2 now bindJunk items a h st (zn_characterName zoning) n s1 s2 →
      (n ≤ 7)%nat ∧
      (∀ e, can_happen a st s2 e → ∃ s3, step e s2 = (Ok tt, s3)) ∧
      ((n < 7)%nat → (∃ e, can_happen a st s2 e) ∧ ∃ zh, zoneHandlers s2 !! h = Some zh ∧ zh_scheduled zh = []) ∧
      (n = 7%nat → ∃ c zh k, clients s2 !! a = Some c ∧ c_refCount c = 1 ∧ zoneHandlers s2 !! h = Some zh ∧
        welcome junk stack compress2 now (c <| c_refCount := k |>) z (zh_scheduled zh) ∧ zoneQueries s2 ≡ₚ zoneQueries s).
Proof.
  intros step. destruct (requested_ok junk stack compress2 now s sourceId data a st h zn z zoning Hs Hnew) as (s1 & c & zh & Hs1 & Hl & Hn).
  exists s1. split; [exact Hs1|]. intros n s2 Hr. pose proof (rq_others _ _ _ _ _ _ _ _ _ Hs) as Ho. pose proof (rq_stub _ _ _ _ _ _ _ _ _ Hs) as Hst.
  destruct (run_ok junk stack compress2 now bindJunk items Hjunk Hstack Hcompress a h zn st _ _ Hst Ho n s1 c z zh s2 Hl Hr) as (c2 & zh2 & Hl2 & Hleft).
  rewrite Hn in Hleft. change (events_left a nothing_loaded) with 7%nat in Hleft. pose proof (pending_none a _ (ld_bits _ _ _ _ _ _ _ _ _ _ _ _ _ _ Hl2)) as Hnone.
  split; [lia|]. split; [|split].
  - intros e He. destruct (step_ok junk stack compress2 now bindJunk items Hjunk Hstack Hcompress a h zn st _ _ Hst Ho s2 c2 z zh2 e Hl2 He) as (s3 & _ & _ & H3 & _).
    by exists s3.
  - intros Hlt. split; [eapply something_left; [exact Hl2|lia]|].
    exists zh2. split; [apply (ld_handler _ _ _ _ _ _ _ _ _ _ _ _ _ _ Hl2)|].
    eapply nothing_sent; [exact Hl2|]. apply not_true_iff_false. rewrite <- Hnone. lia.
  - intros ->. assert (Hall : all_loaded (c_loaded c2) = true) by (apply Hnone; lia).
    assert (Hp : pending a (c_loaded c2) = []) by (apply nil_length_inv; unfold events_left in Hleft; lia).
    pose proof (ld_sent _ _ _ _ _ _ _ _ _ _ _ _ _ _ Hl2) as Hsent. rewrite Hall in Hsent. destruct Hsent as [k Hk].
    pose proof (ld_refs _ _ _ _ _ _ _ _ _ _ _ _ _ _ Hl2) as Href. pose proof (ld_queries _ _ _ _ _ _ _ _ _ _ _ _ _ _ Hl2) as Hq. rewrite Hp in Href, Hq.
    exists c2, zh2, k. split_and!; [apply (ld_client _ _ _ _ _ _ _ _ _ _ _ _ _ _ Hl2)|done|apply (ld_handler _ _ _ _ _ _ _ _ _ _ _ _ _ _ Hl2)|exact Hk|exact Hq].
Qed.

Definition one_zone : ZC :=
  no_zc <| zones := {[1%nat := zone_create 4 4 0 None]} |> <| zoneList := [(4, 1%nat)] |> <| zoneHandlers := {[5%nat := mkZH 1 None [] 0 0]} |>.
Definition request_data : list Z := replicate 24 0 ++ text "acct" ++ replicate 60 0 ++ text "Soandso" ++ replicate 25 0.
Definition requester : ClientZoning := mkZoning 0 0 0 false false (text "acct") (text "Soandso").

Lemma one_zone_requested : requested one_zone 4 request_data 7 8 5 1 (zone_create 4 4 0 None) requester.
Proof.
  split; try by vm_compute.
  - exists (mkZH 1 None [] 0 0). split; by vm_compute.
  - intros q Hq. by apply elem_of_nil in Hq.
Qed.

Example loading_finishes_witness :
  let run := load_run (λ n, replicate (Z.to_nat n) 0) (replicate (Z.to_nat SIZEOF_PlayerProfile) 0) Some 1000 0 (λ _, None) 7 5 8 (text "Soandso") in
  ∃ s1, request_and_connect 1000 7 8 5 4 request_data one_zone = (Ok tt, s1) ∧ ∀ n s2, run n s1 s2 → (n ≤ 7)%nat.
Proof.
  destruct (loading_finishes (λ n, replicate (Z.to_nat n) 0) (replicate (Z.to_nat SIZEOF_PlayerProfile) 0) Some 1000 0 (λ _, None)
    one_zone 4 request_data 7 8 5 1 (zone_create 4 4 0 None) requester) as (s1 & Hs & Hrun).
  - intros n. apply length_replicate.
  - apply length_replicate.
  - intros pp _ _. by eexists.
  - exact one_zone_requested.
  - reflexivity.
  - exists s1. split; [exact Hs|]. intros n s2 Hr. apply (Hrun n s2 Hr).
Defined.
