(* ===== verification/ZoneEntering.v ===== *)
(** Entering a zone: what a client that is let in and the players around it are
    sent (zone_cluster/zone.c: zone_broadcast_packet,
    mob/client_packet_trilogy_input.c: client_trilogy_handle_op_enter_zone). *)

From S2P Require Import Prelude Fields Float32 Array Aligned Text Servers ZoneId PlayerProfile Obfuscate ItemPrototype Mob Inventory Skills.
From S2P Require Import ZoneClient Zone ZoneSpec Fills ProfilePacket ProfileLayout ZonePackets ZoneLayout ZoneCluster.

(** ** Broadcasts *)

(** A listing whose client is sent a broadcast. *)
Definition hears (ignore : option nat) (l : ClientListing) : bool :=
  negb (bool_decide (Some (ls_client l) = ignore)) && negb (ls_isLinkdead l) && (ls_expansionId l =? ExpansionId_Trilogy).

(** The protocol handler of a listing's client. *)
Definition handler_of (s : ZC) (l : ClientListing) : option nat := c ← clients s !! ls_client l; c_handler c.

(** How often a handler is sent a broadcast: once for each listing that hears
    and whose client has it. *)
Definition audience (s : ZC) (ignore : option nat) (h : nat) (l : list ClientListing) : nat :=
  length (filter (λ x, hears ignore x = true ∧ handler_of s x = Some h) l).

Definition sent_more (packet : Z * list Z) (n : nat) (zh : ZoneHandler) : ZoneHandler :=
  zh <| zh_scheduled := zh_scheduled zh ++ replicate n packet |>.

Lemma sent_more_0 packet zh : sent_more packet 0 zh = zh.
Proof. unfold sent_more. destruct zh. cbn. by rewrite app_nil_r. Qed.
Lemma sent_more_S packet n zh : sent_more packet n (schedule packet.1 packet.2 zh) = sent_more packet (S n) zh.
Proof. unfold sent_more, schedule. destruct zh, packet. cbn. by rewrite <- app_assoc. Qed.

(** Everybody who hears can be reached. *)
Definition all_reachable (s : ZC) (ignore : option nat) (l : list ClientListing) : Prop :=
  ∀ x, x ∈ l → hears ignore x = true → ∃ h zh, handler_of s x = Some h ∧ zoneHandlers s !! h = Some zh.

Lemma handler_of_ok s x h : handler_of s x = Some h → client_handler (ls_client x) s = (Ok h, s).
Proof.
  unfold handler_of, client_handler, zclient_at. run. destruct (clients s !! ls_client x) as [c|]; [|done]. cbn.
  by intros ->.
Qed.

Section Broadcast.
Context (junk : Z → list Z) (ignore : option nat) (source : nat) (packet : Z * list Z).

Lemma broadcast_ok l : ∀ s, all_reachable s ignore l →
  ∃ s', broadcast_to junk l ignore (mkBroadcast source (Some packet)) s = (Ok tt, s') ∧
    s' = s <| zoneHandlers := zoneHandlers s' |> ∧
    ∀ h, zoneHandlers s' !! h = sent_more packet (audience s ignore h l) <$> zoneHandlers s !! h.
Proof.
  induction l as [|x l IH]; intros s Hr.
  { exists s. split; [done|]. split; [by destruct s|]. intros h. unfold audience. cbn. destruct (zoneHandlers s !! h); cbn; [by rewrite sent_more_0|done]. }
  assert (Hr' : all_reachable s ignore l) by (intros y Hy; apply Hr; by right).
  assert (Hskip : hears ignore x = false → ∃ s', broadcast_to junk l ignore (mkBroadcast source (Some packet)) s = (Ok tt, s') ∧
    s' = s <| zoneHandlers := zoneHandlers s' |> ∧ ∀ h, zoneHandlers s' !! h = sent_more packet (audience s ignore h (x :: l)) <$> zoneHandlers s !! h).
  { intros Hx. destruct (IH s Hr') as (s' & H1 & H2 & H3). exists s'. split; [done|]. split; [done|]. intros h. rewrite H3. unfold audience.
    rewrite filter_cons_False; [done|]. intros [Hy _]. by rewrite Hx in Hy. }
  cbn [broadcast_to]. unfold hears in Hskip.
  destruct (bool_decide (Some (ls_client x) = ignore)) eqn:Hi; [by apply Hskip|]. destruct (ls_isLinkdead x) eqn:Hd; [by apply Hskip|].
  destruct (ls_expansionId x =? ExpansionId_Trilogy) eqn:He; [|by apply Hskip]. clear Hskip. cbn [orb].
  assert (Hx : hears ignore x = true) by (unfold hears; by rewrite Hi, Hd, He).
  destruct (Hr x ltac:(left) Hx) as (hx & zx & Hhx & Hzx).
  set (s1 := put_handler hx (schedule packet.1 packet.2 zx) s).
  assert (Hsend : client_trilogy_schedule_packet_broadcast (ls_client x) packet s = (Ok tt, s1)).
  { unfold client_trilogy_schedule_packet_broadcast. rewrite (bind_ok _ _ _ _ _ (handler_of_ok s x hx Hhx)). unfold upd_handler, handler_at. run. by rewrite Hzx. }
  assert (Hr1 : all_reachable s1 ignore l).
  { intros y Hy Hh. destruct (Hr' y Hy Hh) as (k & zk & Hk & Hzk). exists k. destruct (decide (k = hx)) as [->|Hne].
    - eexists. split; [exact Hk|]. apply lookup_insert_eq.
    - exists zk. split; [exact Hk|]. cbn. by rewrite lookup_insert_ne by done. }
  destruct (IH s1 Hr1) as (s' & H1 & H2 & H3). exists s'. split.
  { unfold packet_broadcast_get_trilogy. cbn [pb_trilogy]. rewrite (bind_ok (mret _) _ s (mkBroadcast source (Some packet)) s eq_refl). cbn [pb_trilogy].
    by rewrite (bind_ok _ _ s tt s1 Hsend). }
  split; [by rewrite H2|]. intros h. rewrite H3. change (audience s1 ignore h l) with (audience s ignore h l). unfold audience.
  change (zoneHandlers s1) with (<[hx := schedule packet.1 packet.2 zx]> (zoneHandlers s)). destruct (decide (h = hx)) as [->|Hne].
  - rewrite lookup_insert_eq, Hzx, filter_cons_True by done. unfold fmap, option_fmap, option_map. by rewrite sent_more_S.
  - rewrite lookup_insert_ne by done. rewrite filter_cons_False; [done|]. intros [_ Hy]. rewrite Hhx in Hy. by injection Hy as ->.
Qed.
End Broadcast.

(** A broadcast reaches the players of a zone and nobody else: every
    protocol handler is sent the packet once for each client of the zone's list
    that has it, is not linkdead, plays Trilogy and is not the one to leave
    out; every other handler and the rest of the state stay as they are. *)
Theorem broadcast_reaches_players (junk : Z → list Z) (s : ZC) (zone : nat) (z : Zone) (source : nat) (packet : Z * list Z) (ignore : option nat)
    (Hz : zones s !! zone = Some z) (Hr : all_reachable s ignore (z_clientList z)) :
  ∃ s', zone_broadcast_packet junk zone (mkBroadcast source (Some packet)) ignore s = (Ok tt, s') ∧
    s' = s <| zoneHandlers := zoneHandlers s' |> ∧
    ∀ h, zoneHandlers s' !! h = sent_more packet (audience s ignore h (z_clientList z)) <$> zoneHandlers s !! h.
Proof.
  destruct (broadcast_ok junk ignore source packet (z_clientList z) s Hr) as (s' & H1 & H2). exists s'. split; [|done].
  unfold zone_broadcast_packet. by rewrite (bind_ok _ _ _ _ _ (zone_at_ok s zone z Hz)).
Qed.

(** ** Entering *)
Lemma spawned_spawnable z c y x zz hp : spawnable (c_mob c) (Some c) y x zz hp →
  spawnable (c_mob (spawned z c)) (Some (spawned z c)) y x zz hp.
Proof. intros [H1 H2 H3 H4 H5 H6 H7]. split; [exact H1|exact H2|by eexists|exact H4|exact H5|exact H6|exact H7]. Qed.

(** A client that may enter: connected, named like nobody who is in, not yet in
    its zone. *)
Record may_enter (s : ZC) (a h zn : nat) (c : Client) (z : Zone) (zh : ZoneHandler) (name : list Z) : Prop := {
  me_client : clients s !! a = Some c;
  me_handler : c_handler c = Some h;
  me_zh : zoneHandlers s !! h = Some zh;
  me_expansion : c_expansion c = ExpansionId_Trilogy;
  me_name : m_name (c_mob c) = Some name;
  me_zone : m_zone (c_mob c) = Some zn;
  me_zones : zones s !! zn = Some z;
  me_new : connectedClientsByName s !! name = None;
  me_coherent : coherent s z;
  me_roomy : roomy z;
  me_out : ¬ in_zone z a;
  me_reachable : all_reachable s None (z_clientList z);
}.

Definition listed (s : ZC) (name : list Z) (a : nat) (c : Client) : ZC :=
  s <| connectedClientsByName := <[name := a]> (connectedClientsByName s) |>
    <| connectedClients := connectedClients s ++ [mkConnected (c_expansion c) (c_handler c) a] |>.

Lemma add_connected_ok aggro s a h zn c z zh name : may_enter s a h zn c z zh name →
  zc_add_connected_client aggro a s = (Ok tt, put_zclient a (spawned z c) (put_zone zn (with_client aggro a c z) (listed s name a c))).
Proof.
  intros Hm. pose proof (me_client _ _ _ _ _ _ _ _ Hm) as Hc. unfold zc_add_connected_client.
  rewrite (bind_ok _ _ _ _ _ (zclient_at_ok s a c Hc)), (me_name _ _ _ _ _ _ _ _ Hm).
  rewrite (bind_lift _ _ name) by done. rewrite bind_gets, (me_new _ _ _ _ _ _ _ _ Hm), bind_ret, (bind_ok _ _ _ _ _ (zclient_at_ok s a c Hc)).
  rewrite !bind_modify. unfold client_zone. rewrite (me_zone _ _ _ _ _ _ _ _ Hm), (bind_lift _ _ zn) by done.
  assert (E : listed s name a c = s <| connectedClientsByName := set_absent (connectedClientsByName s) name a |>
    <| connectedClients := connectedClients s ++ [mkConnected (c_expansion c) (c_handler c) a] |>)
    by (unfold listed; by rewrite set_absent_new by apply (me_new _ _ _ _ _ _ _ _ Hm)).
  rewrite E. apply (spawn_client_ok aggro zn a z c); [apply (me_zones _ _ _ _ _ _ _ _ Hm)|exact Hc].
Qed.

Lemma listed_reachable s a h zn c z zh name aggro f : may_enter s a h zn c z zh name →
  all_reachable (put_handler h (f zh) (put_zclient a (spawned z c) (put_zone zn (with_client aggro a c z) (listed s name a c)))) None
    (z_clientList (with_client aggro a c z)).
Proof.
  intros Hm x Hx Hh. rewrite with_client_listings in Hx. set (s2 := put_handler h _ _).
  assert (Hz : ∀ k zk, zoneHandlers s !! k = Some zk → ∃ zk', zoneHandlers s2 !! k = Some zk').
  { intros k zk Hk. destruct (decide (k = h)) as [->|Hne]; [eexists; apply lookup_insert_eq|]. exists zk. cbn. by rewrite lookup_insert_ne by done. }
  assert (Ha : handler_of s2 (mkListing (c_expansion c) false a) = Some h).
  { unfold handler_of. cbn. rewrite lookup_insert_eq. exact (me_handler _ _ _ _ _ _ _ _ Hm). }
  destruct (decide (ls_client x = a)) as [He|Hne].
  { exists h. destruct (Hz h zh (me_zh _ _ _ _ _ _ _ _ Hm)) as [zk Hk]. exists zk. split; [|exact Hk].
    unfold handler_of in *. by rewrite He. }
  apply elem_of_app in Hx as [Hx|Hx%list_elem_of_singleton]; [|by subst].
  destruct (me_reachable _ _ _ _ _ _ _ _ Hm x Hx Hh) as (k & zk & Hk & Hzk). exists k. destruct (Hz k zk Hzk) as [zk' Hk']. exists zk'. split; [|exact Hk'].
  unfold handler_of in *. cbn. by rewrite lookup_insert_ne by done.
Qed.

Lemma appearance_ok junk id : (∀ n, length (junk n) = Z.to_nat n) →
  client_trilogy_make_op_spawn_appearance junk 0 Trilogy_SpawnAppearance_SetEntityId id = Ok (le_bytes 2 0 ++ le_bytes 2 0 ++ le_bytes 2 16 ++ le_bytes 2 0 ++ le_bytes 4 id).
Proof.
  intros Hjunk. unfold client_trilogy_make_op_spawn_appearance.
  rewrite (raw_packet_ok junk Hjunk SIZEOF_SpawnAppearance _ (le 2 0 ++ le 2 0 ++ le 2 16 ++ le 2 0 ++ le 4 id)); [|by vm_compute| |].
  - f_equal. unfold le. rewrite <- !fmap_app. apply overlay_full. rewrite Hjunk, !length_app, !le_bytes_length. done.
  - packet_parts.
  - rewrite !length_app, !le_length. by vm_compute.
Qed.

(** A zone's coherence is about its lists, mobs and clients only. *)
Lemma coherent_same s s' z : clients s' = clients s → npcs s' = npcs s → coherent s z → coherent s' z.
Proof.
  intros Hc Hn Hco. assert (Hf : ∀ b, find_mob b s' = find_mob b s) by (intros b; unfold find_mob; by rewrite Hc, Hn).
  destruct Hco as [H1 H2 H3]. split.
  - intros i p Hp. destruct (H1 i p Hp) as (m & Hm & Hrest). exists m. by rewrite Hf.
  - intros i b Hb. destruct (H2 i b Hb) as (m & Hm & Hrest). exists m. by rewrite Hf.
  - intros i l Hl. destruct (H3 i l Hl) as (d & Hd & Hrest). exists d. by rewrite Hc.
Qed.

(** What the one who enters is told before and after the broadcast. *)
Definition told (id : Z) (spawn : Z * list Z) (n : nat) (zh : ZoneHandler) : ZoneHandler :=
  zh <| zh_scheduled := zh_scheduled zh ++
    (TrilogyOp_SpawnAppearance, le_bytes 2 0 ++ le_bytes 2 0 ++ le_bytes 2 16 ++ le_bytes 2 0 ++ le_bytes 4 id) :: replicate n spawn ++
    [(TrilogyOp_EnteredZoneUnknown, replicate 8 0); (TrilogyOp_EnterZone, [])] |>.

Lemma told_ok id spawn n zh :
  schedule TrilogyOp_EnterZone [] (schedule TrilogyOp_EnteredZoneUnknown (replicate (Z.to_nat 8) 0)
    (sent_more spawn n (schedule TrilogyOp_SpawnAppearance (le_bytes 2 0 ++ le_bytes 2 0 ++ le_bytes 2 16 ++ le_bytes 2 0 ++ le_bytes 4 id) zh))) =
  told id spawn n zh.
Proof. unfold told, schedule, sent_more. destruct zh. cbn -[le_bytes]. rewrite <- !app_assoc. done. Qed.

Lemma entity_found s a h zn c z zh name aggro : may_enter s a h zn c z zh name →
  zone_get_mob_by_entity_id (m_entityId (c_mob (spawned z c))) (with_client aggro a c z) = Some a.
Proof.
  intros Hm. pose proof (me_roomy _ _ _ _ _ _ _ _ Hm) as Hr. rewrite (spawned_entity_id z (c_mob c) Hr : m_entityId (c_mob (spawned z c)) = _).
  destruct (first_gap_spec (z_mobsByEntityId z) 0) as (_ & Hle & _ & _).
  unfold zone_get_mob_by_entity_id. rewrite Z.add_simpl_r, index_of_nat by (destruct Hr; lia).
  by rewrite with_client_entities, entity_put_lookup, decide_True.
Qed.

Section Entering.
Context (junk : Z → list Z) (aggro : Z) (s : ZC) (a h zn : nat) (c : Client) (z : Zone) (zh : ZoneHandler) (name : list Z) (spawn : list Z).
Context (Hjunk : ∀ n, length (junk n) = Z.to_nat n) (Hm : may_enter s a h zn c z zh name).
Context (Hspawn : client_trilogy_make_op_spawn junk (c_mob (spawned z c)) (Some (spawned z c)) = Ok spawn).

(** The state when the client is in, before anything is sent. *)
Definition entered : ZC := put_zclient a (spawned z c) (put_zone zn (with_client aggro a c z) (listed s name a c)).
Definition new_id : Z := u32 (m_entityId (c_mob (spawned z c))).
Definition hearers (k : nat) : nat := audience entered None k (z_clientList (with_client aggro a c z)).

Let appearance : list Z := le_bytes 2 0 ++ le_bytes 2 0 ++ le_bytes 2 16 ++ le_bytes 2 0 ++ le_bytes 4 new_id.
Let zh2 : ZoneHandler := schedule TrilogyOp_SpawnAppearance appearance zh.

Lemma entered_client : clients entered !! a = Some (spawned z c).
Proof. apply lookup_insert_eq. Qed.

Lemma enter_broadcast_ok : ∃ s3,
  (data ← make_spawn junk a;
   zone_broadcast_packet junk zn (packet_broadcast_set_packet_for_expansion ExpansionId_Trilogy (TrilogyOp_Spawn, data) (packet_broadcast_init a)) None)
    (put_handler h zh2 entered) = (Ok tt, s3) ∧
  s3 = entered <| zoneHandlers := zoneHandlers s3 |> ∧ zoneHandlers s3 !! h = Some (sent_more (TrilogyOp_Spawn, spawn) (hearers h) zh2) ∧
  ∀ k, k ≠ h → zoneHandlers s3 !! k = sent_more (TrilogyOp_Spawn, spawn) (hearers k) <$> zoneHandlers s !! k.
Proof.
  set (s2 := put_handler h zh2 entered).
  destruct (broadcast_ok junk None a (TrilogyOp_Spawn, spawn) (z_clientList (with_client aggro a c z)) s2
    (listed_reachable s a h zn c z zh name aggro (schedule TrilogyOp_SpawnAppearance appearance) Hm)) as (s3 & Hs3 & Hsame & H3).
  exists s3. split; [|split; [by rewrite Hsame|split]].
  - assert (Hmk : make_spawn junk a s2 = (Ok spawn, s2)).
    { unfold make_spawn. rewrite (bind_ok _ _ _ _ _ (mob_at_ok s2 a _ (find_client_mob s2 a _ entered_client))), bind_gets.
      replace (clients s2 !! a) with (Some (spawned z c)) by (symmetry; exact entered_client). exact (f_equal (λ o, (o, s2)) Hspawn). }
    rewrite (bind_ok _ _ _ _ _ Hmk). unfold zone_broadcast_packet.
    by rewrite (bind_ok _ _ _ _ _ (zone_at_ok s2 zn (with_client aggro a c z) (lookup_insert_eq _ _ _))).
  - rewrite H3. cbn. by rewrite lookup_insert_eq.
  - intros k Hk. rewrite H3. cbn. by rewrite lookup_insert_ne by done.
Qed.

Lemma enter_zone_ok : ∃ s', client_trilogy_handle_op_enter_zone junk aggro a s = (Ok tt, s') ∧
  s' = entered <| zoneHandlers := zoneHandlers s' |> <| luaEvents := luaEvents s' |> ∧
  zoneHandlers s' !! h = Some (told new_id (TrilogyOp_Spawn, spawn) (hearers h) zh) ∧
  ∀ k, k ≠ h → zoneHandlers s' !! k = sent_more (TrilogyOp_Spawn, spawn) (hearers k) <$> zoneHandlers s !! k.
Proof.
  pose proof (me_client _ _ _ _ _ _ _ _ Hm) as Hc. pose proof (me_handler _ _ _ _ _ _ _ _ Hm) as Hh.
  destruct enter_broadcast_ok as (s3 & Hs3 & Hsame & Hz3 & H3).
  assert (Hc3 : clients s3 !! a = Some (spawned z c)) by (rewrite Hsame; exact entered_client).
  set (zh4 := schedule TrilogyOp_EnteredZoneUnknown (replicate (Z.to_nat 8) 0) (sent_more (TrilogyOp_Spawn, spawn) (hearers h) zh2)).
  set (s4 := put_handler h zh4 s3). set (s5 := put_handler h (schedule TrilogyOp_EnterZone [] zh4) s4).
  assert (Hend : ∃ s', ((if c_isFromCharSelect (spawned z c) then zlog_event a "event_connect" else mret tt) ;; zlog_event a "event_spawn") s5 = (Ok tt, s') ∧
    s' = s5 <| luaEvents := luaEvents s' |>).
  { destruct (c_isFromCharSelect (spawned z c)); eexists; (split; [reflexivity|]); done. }
  destruct Hend as (s' & Hs' & Heq). exists s'. split.
  { unfold client_trilogy_handle_op_enter_zone. rewrite (bind_ok _ _ _ _ _ (zclient_at_ok s a c Hc)). unfold client_zone.
    rewrite (me_zone _ _ _ _ _ _ _ _ Hm), (bind_lift _ _ zn) by done.
    rewrite (bind_ok _ _ _ _ _ (add_connected_ok aggro s a h zn c z zh name Hm)). fold entered.
    rewrite (bind_ok _ _ _ _ _ (zclient_at_ok entered a _ entered_client)).
    rewrite (bind_ok _ _ _ _ _ (packet_scheduled_ok a h entered _ zh TrilogyOp_SpawnAppearance _ _ entered_client Hh (me_zh _ _ _ _ _ _ _ _ Hm) (appearance_ok junk new_id Hjunk))).
    rewrite <- bind_assoc, (bind_ok _ _ _ _ _ Hs3).
    rewrite (bind_ok _ _ s3 tt s4 (packet_scheduled_ok a h s3 _ _ _ _ _ Hc3 Hh Hz3 eq_refl)).
    rewrite (bind_ok _ _ s4 tt s5 (packet_scheduled_ok a h s4 _ _ _ _ _ Hc3 Hh (lookup_insert_eq _ _ _) eq_refl)). exact Hs'. }
  split.
  { assert (E : zoneHandlers s' = zoneHandlers s5) by (by rewrite Heq). rewrite E. rewrite Heq at 1.
    change s5 with (s3 <| zoneHandlers := zoneHandlers s5 |>) at 1. generalize (zoneHandlers s5) (luaEvents s'). intros X L. by rewrite Hsame. }
  split.
  - rewrite Heq. cbn. rewrite lookup_insert_eq. unfold zh4, zh2, appearance. by rewrite told_ok.
  - intros k Hk. rewrite Heq. cbn. by rewrite !lookup_insert_ne, H3 by done.
Qed.

Lemma entered_coherent : coherent entered (with_client aggro a c z).
Proof.
  apply (spawn_coherent_ok aggro zn a z c (listed s name a c)); [|apply (me_roomy _ _ _ _ _ _ _ _ Hm)|apply (me_client _ _ _ _ _ _ _ _ Hm)|
    apply (me_out _ _ _ _ _ _ _ _ Hm)]. by apply (coherent_same s), (me_coherent _ _ _ _ _ _ _ _ Hm).
Qed.

Lemma hears_itself : (1 ≤ hearers h)%nat.
Proof.
  unfold hearers, audience. rewrite with_client_listings, filter_app, length_app, filter_cons_True, filter_nil; [cbn [length]; lia|].
  split; [unfold hears; cbn; by rewrite (me_expansion _ _ _ _ _ _ _ _ Hm)|]. unfold handler_of. cbn. rewrite lookup_insert_eq.
  exact (me_handler _ _ _ _ _ _ _ _ Hm).
Qed.
End Entering.


(** A client at the door of an empty zone. *)
Definition visitor : Client := client_named (text "Aa") <| c_handler := Some 5%nat |> <| c_expansion := ExpansionId_Trilogy |>.
Definition empty_zone : Zone := zone_create 4 4 0 None.
Definition at_the_door : ZC :=
  no_zc <| zones := {[1%nat := empty_zone]} |> <| clients := {[11%nat := visitor]} |> <| zoneHandlers := {[5%nat := mkZH 2 (Some 11%nat) [] 0 0]} |>.
Definition zeroed_heap (n : Z) : list Z := replicate (Z.to_nat n) 0.

Lemma visitor_may_enter : may_enter at_the_door 11 5 1 visitor empty_zone (mkZH 2 (Some 11%nat) [] 0 0) (text "Aa").
Proof.
  destruct (empty_zone_coherent at_the_door empty_zone eq_refl eq_refl eq_refl) as [Hco Hout].
  split; try reflexivity; [exact Hco|by vm_compute|exact (Hout 11%nat)|]. intros x Hx. by apply elem_of_nil in Hx.
Qed.


Definition crowded : ZC :=
  at_the_door <| zones := {[1%nat := empty_zone <| z_clientList := [mkListing 1 false 11; mkListing 1 true 12] |>]} |>.

Example broadcast_reaches_players_witness : ∃ s', zone_broadcast_packet zeroed_heap 1 (mkBroadcast 11 (Some (TrilogyOp_Spawn, [7]))) None crowded = (Ok tt, s') ∧
  zoneHandlers s' !! 5%nat = Some (mkZH 2 (Some 11%nat) [(TrilogyOp_Spawn, [7])] 0 0).
Proof.
  destruct (broadcast_reaches_players zeroed_heap crowded 1 (empty_zone <| z_clientList := [mkListing 1 false 11; mkListing 1 true 12] |>) 11
    (TrilogyOp_Spawn, [7]) None) as (s' & Hrun & _ & Hh).
  - reflexivity.
  - intros x Hx Hh. apply list_elem_of_In in Hx as [<-|[<-|[]]]; [|done]. exists 5%nat, (mkZH 2 (Some 11%nat) [] 0 0). split; reflexivity.
  - exists s'. split; [exact Hrun|]. rewrite (Hh 5%nat). by vm_compute.
Defined.
