(* ===== verification/ZoneLeaving.v ===== *)
(** Leaving a zone: players that go linkdead, and the ways in which the process
    loses track of its clients (zone_cluster/zone_cluster.c, mob/client.c). *)

From S2P Require Import Prelude Fields Float32 Array Aligned Text Servers ZoneId PlayerProfile Obfuscate ItemPrototype Mob Inventory Skills.
From S2P Require Import ZoneClient Zone ZoneSpec Fills ProfilePacket ProfileLayout ZonePackets ZoneLayout ZoneCluster ZoneEntering.

(** ** Steps *)
Lemma handler_at_ok s h zh : zoneHandlers s !! h = Some zh → handler_at h s = (Ok zh, s).
Proof. intros H. unfold handler_at. by rewrite H. Qed.
Lemma upd_handler_ok s h zh f : zoneHandlers s !! h = Some zh → upd_handler h f s = (Ok tt, put_handler h (f zh) s).
Proof. intros H. unfold upd_handler. by rewrite (bind_ok _ _ _ _ _ (handler_at_ok s h zh H)). Qed.
Lemma client_handler_ok s a c h : clients s !! a = Some c → c_handler c = Some h → client_handler a s = (Ok h, s).
Proof. intros Hc Hh. unfold client_handler. rewrite (bind_ok _ _ _ _ _ (zclient_at_ok s a c Hc)). by rewrite Hh. Qed.

(** What a drop leaves of the handlers. *)
Definition dropped (h : nat) (zh : ZoneHandler) (m : gmap nat ZoneHandler) : gmap nat ZoneHandler :=
  if 1 <? zh_refCount zh then <[h := zh <| zh_refCount := zh_refCount zh - 1 |>]> m else delete h m.
Lemma handler_drop_ok s h zh : zoneHandlers s !! h = Some zh →
  protocol_handler_drop h s = (Ok tt, s <| zoneHandlers := dropped h zh (zoneHandlers s) |>).
Proof.
  intros H. unfold protocol_handler_drop, dropped. rewrite (bind_ok _ _ _ _ _ (handler_at_ok s h zh H)).
  destruct (1 <? zh_refCount zh); [|done]. by rewrite (upd_handler_ok s h zh).
Qed.

(** The last reference of a client frees it. *)
Lemma client_drop_last s a c : clients s !! a = Some c → c_refCount c ≤ 1 → c_isStubClient c = false → c_handler c = None →
  ∃ s', client_drop a s = (Ok tt, s') ∧ clients s' = delete a (clients s) ∧ npcs s' = npcs s ∧ zones s' = zones s ∧ zoneHandlers s' = zoneHandlers s ∧
    zoneTimers s' = zoneTimers s ∧ connectedClients s' = connectedClients s ∧ connectedClientsByName s' = connectedClientsByName s ∧
    expectedClientsByName s' = expectedClientsByName s.
Proof.
  intros Hc Hr Hs Hh. eexists. split.
  - unfold client_drop. rewrite (bind_ok _ _ _ _ _ (zclient_at_ok s a c Hc)), (proj2 (Z.ltb_ge 1 _)) by lia. rewrite Hs, Hh. reflexivity.
  - done.
Qed.

Lemma client_drop_last_handler s a c h zh : clients s !! a = Some c → c_refCount c ≤ 1 → c_isStubClient c = false → c_handler c = Some h →
  zoneHandlers s !! h = Some zh →
  ∃ s', client_drop a s = (Ok tt, s') ∧ clients s' = delete a (clients s) ∧ zones s' = zones s ∧ zoneHandlers s' = dropped h zh (zoneHandlers s) ∧
    zoneTimers s' = zoneTimers s.
Proof.
  intros Hc Hr Hs Hh Hz. eexists. split.
  - unfold client_drop. rewrite (bind_ok _ _ _ _ _ (zclient_at_ok s a c Hc)), (proj2 (Z.ltb_ge 1 _)) by lia. rewrite Hs, Hh.
    rewrite bind_assoc, bind_modify. unfold zlog_event. rewrite bind_modify.
    erewrite bind_ok by (apply handler_drop_ok; exact Hz). reflexivity.
  - done.
Qed.

(** The timer of a zoning request keeps a pointer to the client but no
    reference. A player that was let in and leaves before it enters the zone
    frees its client; the timer still runs, is given the freed client and reads
    its cluster and name: undefined behaviour half a minute after the request,
    where the code's comment says that the callback is safe. *)
Theorem request_timer_outlives_client (s : ZC) (a h : nat) (c : Client) (zh : ZoneHandler)
    (Hc : clients s !! a = Some c) (Href : c_refCount c = 1) (Hstub : c_isStubClient c = false) (Hzc : m_zoneCluster (c_mob c) = true)
    (Hh : c_handler c = Some h) (Hzh : zoneHandlers s !! h = Some zh)
    (Hnot : list_find (λ con, cc_client con = a) (connectedClients s) = None) (Ht : ExpectedTimeout a ∈ zoneTimers s) :
  ∃ s', client_on_disconnect a false s = (Ok tt, s') ∧ ExpectedTimeout a ∈ zoneTimers s' ∧
    fst (zc_expected_client_timeout_callback a s') = Fault.
Proof.
  destruct (client_drop_last_handler s a c h zh Hc ltac:(lia) Hstub Hh Hzh) as (s' & Hs' & E1 & _ & _ & E2). exists s'. split.
  - unfold client_on_disconnect. rewrite (bind_ok _ _ _ _ _ (zclient_at_ok s a c Hc)), Hzc. cbn [negb].
    rewrite bind_ret. unfold zc_remove_connected_client. rewrite bind_assoc, (bind_ok _ _ _ _ _ (zclient_at_ok s a c Hc)), bind_assoc, bind_gets, Hnot, bind_ret. exact Hs'.
  - split; [by rewrite E2|]. unfold zc_expected_client_timeout_callback, zclient_at. run. by rewrite E1, lookup_delete_eq.
Qed.

Definition let_in : ZC := at_the_door <| zoneTimers := [ExpectedTimeout 11] |>.

Example request_timer_outlives_client_witness : ∃ s', client_on_disconnect 11 false let_in = (Ok tt, s') ∧ ExpectedTimeout 11 ∈ zoneTimers s' ∧
  fst (zc_expected_client_timeout_callback 11 s') = Fault.
Proof.
  apply (request_timer_outlives_client let_in 11 5 visitor (mkZH 2 (Some 11%nat) [] 0 0)); try reflexivity. left.
Defined.

(** A connection that has not named an expected character cannot be closed:
    its stub has no zone cluster, so when the player disconnects or times out,
    the handler's notice reads through a null pointer. *)
Theorem stub_disconnect_faults (s : ZC) (now : Z) (h st : nat) (zh : ZoneHandler) (isLinkdead : bool) (Hzh : zoneHandlers s !! h = Some zh) :
  ∃ s', client_create_from_new_connection_trilogy now h st s = (Ok tt, s') ∧
    (zh_client <$> zoneHandlers s' !! h) = Some (Some st) ∧ fst (client_on_disconnect st isLinkdead s') = Fault.
Proof.
  unfold client_create_from_new_connection_trilogy, protocol_handler_grab. rewrite (bind_ok _ _ _ _ _ (upd_handler_ok s h zh _ Hzh)), bind_modify.
  set (zh1 := zh <| zh_refCount := zh_refCount zh + 1 |>). set (s1 := put_zclient _ _ _).
  eexists. split; [apply (upd_handler_ok s1 h zh1), lookup_insert_eq|]. split; [cbn; by rewrite lookup_insert_eq|].
  unfold client_on_disconnect. rewrite (bind_ok _ _ _ _ _ (zclient_at_ok _ st _ (lookup_insert_eq _ _ _))). done.
Qed.

Example stub_disconnect_faults_witness : ∃ s', client_create_from_new_connection_trilogy 1000 5 8 at_the_door = (Ok tt, s') ∧
    (zh_client <$> zoneHandlers s' !! 5%nat) = Some (Some 8%nat) ∧ fst (client_on_disconnect 8 true s') = Fault.
Proof. by apply (stub_disconnect_faults at_the_door 1000 5 8 (mkZH 2 (Some 11%nat) [] 0 0) true). Defined.

(** A connection that names a character nobody expects is left with a freed
    client: its stub is freed and only its own reference of the handler is
    dropped, the handler goes on pointing to the stub, and its next packet reads
    freed memory. *)
Theorem unmatched_connection_dangles (junk : Z → list Z) (stack : list Z) (compress2 : list Z → option (list Z)) (now aggro : Z)
    (prototypes : nat → option ItemPrototype) (s : ZC) (st h : nat) (zh : ZoneHandler) (name : list Z) (opcode : Z) (a : Aligned)
    (Hzh : zoneHandlers s !! h = Some zh) (Href : 1 < zh_refCount zh) (Hcl : zh_client zh = Some st) (Hname : expectedClientsByName s !! name = None) :
  ∃ s', zc_client_match_with_expected junk stack compress2 now st h name s = (Ok tt, s') ∧
    (zh_client <$> zoneHandlers s' !! h) = Some (Some st) ∧
    fst (client_recv_packet_trilogy junk stack compress2 now aggro prototypes st opcode a s') = Fault.
Proof.
  unfold zc_client_match_with_expected. rewrite bind_gets, Hname, (bind_ok _ _ _ _ _ (handler_drop_ok s h zh Hzh)).
  eexists. split; [reflexivity|]. split.
  - unfold dropped. rewrite (proj2 (Z.ltb_lt _ _) Href). cbn. rewrite lookup_insert_eq. cbn. by rewrite Hcl.
  - unfold client_recv_packet_trilogy, client_handler, zclient_at. run. cbn. by rewrite lookup_delete_eq.
Qed.

Definition stranger : ZC := at_the_door <| zoneHandlers := {[5%nat := mkZH 2 (Some 8%nat) [] 0 0]} |>.

Example unmatched_connection_dangles_witness :
  ∃ s', zc_client_match_with_expected zeroed_heap [] Some 1000 8 5 (text "Nobody") stranger = (Ok tt, s') ∧
    (zh_client <$> zoneHandlers s' !! 5%nat) = Some (Some 8%nat) ∧
    fst (client_recv_packet_trilogy zeroed_heap [] Some 1000 0 (λ _, None) 8 TrilogyOp_ZoneEntry (aligned_init [] 0) s') = Fault.
Proof.
  by apply (unmatched_connection_dangles zeroed_heap [] Some 1000 0 (λ _, None) stranger 8 5 (mkZH 2 (Some 8%nat) [] 0 0) (text "Nobody") TrilogyOp_ZoneEntry (aligned_init [] 0)).
Defined.

(** ** Requests of one name *)

(** A zoning request is cancelled by the timer of an earlier one for the same
    character, which has been let in since: the timer looks its client up by name
    only, finds the later client's entry, removes it and drops the earlier client;
    the later one keeps its references and nobody can be matched with it any more.
    (While the earlier client is still expected, the later request does not get
    into the table at all: [ZoneLoading.second_request_is_shadowed].) *)
Theorem old_timer_cancels_new_request (s : ZC) (a b : nat) (ca cb : Client) (name : list Z)
    (Hab : a ≠ b) (Ha : clients s !! a = Some ca) (Hb : clients s !! b = Some cb) (Hname : m_name (c_mob ca) = Some name)
    (Hexp : expectedClientsByName s !! name = Some b) (Href : 1 < c_refCount ca) :
  ∃ s', zc_expected_client_timeout_callback a s = (Ok tt, s') ∧ expectedClientsByName s' !! name = None ∧ clients s' !! b = Some cb ∧
    c_refCount <$> clients s' !! a = Some (c_refCount ca - 1).
Proof.
  unfold zc_expected_client_timeout_callback. rewrite (bind_ok _ _ _ _ _ (zclient_at_ok s a ca Ha)), Hname, (bind_lift _ _ name) by done.
  rewrite bind_gets, Hexp, bind_assoc, bind_modify. set (s1 := s <| expectedClientsByName := _ |>).
  assert (Hdrop : client_drop a s1 = (Ok tt, put_zclient a (ca <| c_refCount := c_refCount ca - 1 |>) s1)).
  { unfold client_drop. rewrite (bind_ok _ _ _ _ _ (zclient_at_ok s1 a ca Ha)), (proj2 (Z.ltb_lt 1 _)) by done.
    exact (upd_zclient_ok s1 a ca _ Ha). }
  rewrite (bind_ok _ _ _ _ _ Hdrop). eexists. split; [reflexivity|]. cbn. rewrite lookup_delete_eq, lookup_insert_ne, lookup_insert_eq by done. done.
Qed.

Definition asked_twice : ZC :=
  no_zc <| clients := list_to_map [(11%nat, visitor <| c_refCount := 2 |>); (12%nat, visitor)] |>
    <| expectedClientsByName := {[text "Aa" := 12%nat]} |> <| zoneTimers := [ExpectedTimeout 11; ExpectedTimeout 12] |>.

Example old_timer_cancels_new_request_witness : ∃ s', zc_expected_client_timeout_callback 11 asked_twice = (Ok tt, s') ∧
  expectedClientsByName s' !! text "Aa" = None ∧ clients s' !! 12%nat = Some visitor ∧ c_refCount <$> clients s' !! 11%nat = Some 1.
Proof.
  change 1 with (c_refCount (visitor <| c_refCount := 2 |>) - 1).
  by apply (old_timer_cancels_new_request asked_twice 11 12 (visitor <| c_refCount := 2 |>) visitor (text "Aa")).
Defined.

(** ** Linkdead players *)

(** A message to a linkdead player crashes the process: its handler is
    null, and the packet is scheduled on it without a look. *)
Theorem message_to_linkdead_faults (junk : Z → list Z) (s : ZC) (a : nat) (c : Client) (channel : Z) (str : list Z) (len : Z)
    (Hc : clients s !! a = Some c) (Hh : c_handler c = None) (He : c_expansion c = ExpansionId_Trilogy) :
  match fst (client_send_custom_message junk a channel str len s) with Ok _ => False | _ => True end.
Proof.
  unfold client_send_custom_message. rewrite (bind_ok _ _ _ _ _ (zclient_at_ok s a c Hc)). unfold client_is_trilogy. rewrite He.
  change (ExpansionId_Trilogy =? ExpansionId_Trilogy) with true. cbv iota. unfold client_trilogy_schedule_packet_individual.
  destruct (client_trilogy_make_op_custom_message junk channel str len) as [data|e|]; [|done..].
  rewrite (bind_lift _ _ data) by done. unfold client_handler, zclient_at. run. rewrite Hc. cbv beta iota. by rewrite Hh.
Qed.

Definition went_linkdead : ZC := at_the_door <| clients := {[11%nat := visitor <| c_handler := None |> <| c_isLinkdead := true |>]} |>.

Example message_to_linkdead_faults_witness : match fst (client_send_custom_message zeroed_heap 11 0 [72; 105; 0] 2 went_linkdead) with Ok _ => False | _ => True end.
Proof. by apply (message_to_linkdead_faults zeroed_heap went_linkdead 11 (visitor <| c_handler := None |> <| c_isLinkdead := true |>)). Defined.

(** What a client that lost its connection is. *)
Definition lost (k : Z) (c : Client) : Client := c <| c_refCount := k |> <| c_handler := None |> <| c_isLinkdead := true |>.

(** The zone marks what is at the client's place. *)
Definition marked (c : Client) (z : Zone) : Zone := z <| z_clientList := alter set_linkdead (index_of (c_zoneClientIndex c)) (z_clientList z) |>.

Section Linkdead.
Context (s : ZC) (a h zn : nat) (c : Client) (zh : ZoneHandler) (z : Zone).
Context (Hc : clients s !! a = Some c) (Hh : c_handler c = Some h) (Hzh : zoneHandlers s !! h = Some zh) (Hzn : m_zone (c_mob c) = Some zn)
  (Hz : zones s !! zn = Some z).

Definition unconnected : ZC :=
  s <| clients := <[a := lost (c_refCount c + 1) c]> (clients s) |> <| zones := <[zn := marked c z]> (zones s) |>
    <| zoneHandlers := dropped h zh (zoneHandlers s) |> <| connectedClients := forget_handler a (connectedClients s) |>
    <| zoneTimers := zoneTimers s ++ [LinkdeadLinger a] |>.

Lemma lose_connection_ok : zc_remove_connected_client a true s = (Ok tt, unconnected).
Proof.
  unfold zc_remove_connected_client, client_grab. rewrite (bind_ok _ _ _ _ _ (upd_zclient_ok s a c _ Hc)).
  set (c1 := c <| c_refCount := c_refCount c + 1 |>). set (s1 := put_zclient a c1 s).
  assert (Hc1 : clients s1 !! a = Some c1) by apply lookup_insert_eq.
  rewrite (bind_ok _ _ _ _ _ (client_handler_ok s1 a c1 h Hc1 Hh)), (bind_ok _ _ _ _ _ (handler_drop_ok s1 h zh Hzh)).
  set (s2 := s1 <| zoneHandlers := _ |>). set (c2 := c1 <| c_handler := None |>).
  rewrite (bind_ok _ _ _ _ _ (upd_zclient_ok s2 a c1 (λ c, c <| c_handler := None |>) Hc1)). fold c2.
  rewrite (bind_ok _ _ _ _ _ (upd_zclient_ok (put_zclient a c2 s2) a c2 _ (lookup_insert_eq _ _ _))), put_zclient_twice.
  set (c3 := c2 <| c_isLinkdead := true |>). set (s3 := put_zclient a c3 s2).
  rewrite (bind_ok _ _ _ _ _ (zclient_at_ok s3 a c3 (lookup_insert_eq _ _ _))). unfold client_zone.
  change (m_zone (c_mob c3)) with (m_zone (c_mob c)). rewrite Hzn, (bind_lift _ _ zn) by done.
  unfold zone_mark_client_as_linkdead. rewrite bind_assoc, (bind_ok _ _ _ _ _ (zclient_at_ok s3 a c3 (lookup_insert_eq _ _ _))).
  rewrite (bind_ok _ _ _ _ _ (upd_zone_ok s3 zn z _ Hz)), bind_modify. unfold modify. f_equal.
  unfold s3, s2, s1, unconnected, lost, put_zclient, put_zone. cbn. by rewrite insert_insert_eq.
Qed.

End Linkdead.

Lemma disconnect_linkdead_ok s a h zn c zh z : clients s !! a = Some c → c_handler c = Some h → zoneHandlers s !! h = Some zh →
  m_zone (c_mob c) = Some zn → zones s !! zn = Some z → m_zoneCluster (c_mob c) = true → 1 ≤ c_refCount c →
  ∃ s1, client_on_disconnect a true s = (Ok tt, s1) ∧ clients s1 = <[a := lost (c_refCount c) c]> (clients s) ∧ npcs s1 = npcs s ∧
    zones s1 = <[zn := marked c z]> (zones s) ∧ zoneHandlers s1 = dropped h zh (zoneHandlers s) ∧
    connectedClients s1 = forget_handler a (connectedClients s) ∧ connectedClientsByName s1 = connectedClientsByName s ∧
    zoneTimers s1 = zoneTimers s ++ [LinkdeadLinger a].
Proof.
  intros Hc Hh Hzh Hzn Hz Hzc Href. set (s0 := s <| luaEvents := luaEvents s ++ [(a, "event_linkdead"%string)] |>).
  pose proof (lose_connection_ok s0 a h zn c zh z Hc Hh Hzh Hzn Hz) as Hlose. set (s1 := unconnected s0 a h zn c zh z) in *.
  assert (Hc1 : clients s1 !! a = Some (lost (c_refCount c + 1) c)) by apply lookup_insert_eq.
  eexists. split.
  - unfold client_on_disconnect. rewrite (bind_ok _ _ _ _ _ (zclient_at_ok s a c Hc)), Hzc. cbn [negb]. unfold client_zone. rewrite Hzn.
    rewrite bind_assoc, (bind_lift _ _ zn) by done. unfold zlog_event. rewrite bind_modify. fold s0. rewrite (bind_ok _ _ _ _ _ Hlose).
    unfold client_drop. rewrite (bind_ok _ _ _ _ _ (zclient_at_ok s1 a _ Hc1)).
    change (c_refCount (lost (c_refCount c + 1) c)) with (c_refCount c + 1). rewrite (proj2 (Z.ltb_lt 1 _)) by lia.
    rewrite (upd_zclient_ok s1 a _ _ Hc1). reflexivity.
  - cbn. rewrite insert_insert_eq. split_and!; try done. f_equal. unfold lost. cbn. by replace (c_refCount c + 1 - 1) with (c_refCount c) by lia.
Qed.

(** A player whose connection breaks before it has entered its zone takes
    another player down: its place in the zone's list is still zero, so the
    player at place zero is marked as linkdead instead, and from then on it is
    left out of every broadcast although it is connected. *)
Theorem early_linkdead_marks_another (s : ZC) (a h zn : nat) (c : Client) (zh : ZoneHandler) (z : Zone) (l : ClientListing)
    (Hc : clients s !! a = Some c) (Hh : c_handler c = Some h) (Hzh : zoneHandlers s !! h = Some zh) (Hzn : m_zone (c_mob c) = Some zn)
    (Hz : zones s !! zn = Some z) (Hzc : m_zoneCluster (c_mob c) = true) (Href : 1 ≤ c_refCount c)
    (Hindex : c_zoneClientIndex c = 0) (Hl : z_clientList z !! 0%nat = Some l) (Hother : ls_client l ≠ a) :
  ∃ s' z' l', client_on_disconnect a true s = (Ok tt, s') ∧ zones s' !! zn = Some z' ∧ z_clientList z' !! 0%nat = Some l' ∧
    ls_client l' = ls_client l ∧ (∀ ignore, hears ignore l' = false) ∧ clients s' !! ls_client l = clients s !! ls_client l.
Proof.
  destruct (disconnect_linkdead_ok s a h zn c zh z Hc Hh Hzh Hzn Hz Hzc Href) as (s1 & Hs1 & E1 & _ & E2 & _).
  exists s1, (marked c z), (set_linkdead l). split; [exact Hs1|]. split; [rewrite E2; apply lookup_insert_eq|]. split.
  { cbn. rewrite Hindex. change (index_of 0) with 0%nat. by rewrite list_lookup_alter_eq, Hl. }
  split; [done|]. split; [|by rewrite E1, lookup_insert_ne by done]. intros ignore. unfold hears. cbn [set_linkdead ls_isLinkdead negb]. by rewrite andb_false_r.
Qed.

Definition half_in : ZC := crowded <| clients := list_to_map [(11%nat, visitor); (13%nat, visitor <| c_handler := Some 6%nat |>)] |>
  <| zoneHandlers := list_to_map [(5%nat, mkZH 2 (Some 11%nat) [] 0 0); (6%nat, mkZH 2 (Some 13%nat) [] 0 0)] |>.

Example early_linkdead_marks_another_witness :
  ∃ s' z' l', client_on_disconnect 13 true half_in = (Ok tt, s') ∧ zones s' !! 1%nat = Some z' ∧ z_clientList z' !! 0%nat = Some l' ∧
    ls_client l' = 11%nat ∧ (∀ ignore, hears ignore l' = false) ∧ clients s' !! 11%nat = clients half_in !! 11%nat.
Proof.
  by apply (early_linkdead_marks_another half_in 13 6 1 (visitor <| c_handler := Some 6%nat |>) (mkZH 2 (Some 13%nat) [] 0 0)
    (empty_zone <| z_clientList := [mkListing 1 false 11; mkListing 1 true 12] |>) (mkListing 1 false 11)).
Defined.

(** ** Leaving *)
Lemma marked_coherent s c z : coherent s z → coherent s (marked c z).
Proof.
  intros [H1 H2 H3]. split; [exact H1|exact H2|]. intros i l Hl. unfold marked in Hl. cbn in Hl.
  destruct (decide (i = index_of (c_zoneClientIndex c))) as [->|Hne].
  - rewrite list_lookup_alter_eq in Hl. destruct (z_clientList z !! _) as [k|] eqn:Hk; [|done]. injection Hl as <-. exact (H3 _ k Hk).
  - rewrite list_lookup_alter_ne in Hl by done. exact (H3 _ l Hl).
Qed.

Lemma lost_coherent s a c z k : clients s !! a = Some c → coherent s z → coherent (put_zclient a (lost k c) s) z.
Proof.
  intros Hc [H1 H2 H3]. assert (Hf : ∀ b, find_mob b (put_zclient a (lost k c) s) = find_mob b s).
  { intros b. rewrite find_put_zclient. destruct (decide (b = a)) as [->|]; [|done]. by rewrite (find_client_mob s a c Hc). }
  split.
  - intros i p Hp. destruct (H1 i p Hp) as (m & Hm & Hrest). exists m. by rewrite Hf.
  - intros i b Hb. destruct (H2 i b Hb) as (m & Hm & Hrest). exists m. by rewrite Hf.
  - intros i l Hl. destruct (H3 i l Hl) as (d & Hd & Hrest). destruct (decide (ls_client l = a)) as [He|Hne].
    + rewrite He, Hc in Hd. injection Hd as <-. exists (lost k c). split; [rewrite He; apply lookup_insert_eq|exact Hrest].
    + exists d. split; [by rewrite put_zclient_other by done|exact Hrest].
Qed.

(** What the zone's own operations leave alone. *)
Definition rest (t : ZC) : gmap nat ZoneHandler * list ConnectedClient * gmap (list Z) nat * gmap (list Z) nat * list ZoneTimer :=
  (zoneHandlers t, connectedClients t, connectedClientsByName t, expectedClientsByName t, zoneTimers t).

Lemma keeps_zclient_at P a : keeps P (zclient_at a).
Proof. by intros s. Qed.
Lemma keeps_zone_at P a : keeps P (zone_at a).
Proof. by intros s. Qed.
Lemma keeps_mob_at P a : keeps P (mob_at a).
Proof. by intros s. Qed.
#[local] Hint Resolve keeps_zclient_at keeps_zone_at keeps_mob_at : keeps.

Lemma rest_zone_remove r zn a : keeps (λ t, rest t = r) (zone_remove_client zn a).
Proof.
  assert (Hz : ∀ b f, keeps (λ t, rest t = r) (upd_zone b f)) by (intros b f; unfold upd_zone; keeps_steps).
  assert (Hc : ∀ b f, keeps (λ t, rest t = r) (upd_zclient b f)) by (intros b f; unfold upd_zclient; keeps_steps).
  assert (Hm : ∀ b f, keeps (λ t, rest t = r) (upd_mob b f)).
  { intros b f. unfold upd_mob. keeps_steps. apply keeps_modify. intros t <-. unfold put_mob. by destruct (clients t !! b). }
  unfold zone_remove_client. repeat first [progress keeps_steps | apply Hz | apply Hc | apply Hm].
Qed.

Lemma leave_ok s a zn c z i l j con name : clients s !! a = Some c → m_zone (c_mob c) = Some zn → m_name (c_mob c) = Some name →
  zones s !! zn = Some z → coherent s z → roomy z → z_clientList z !! i = Some l → ls_client l = a →
  list_find (λ con, cc_client con = a) (connectedClients s) = Some (j, con) →
  ∃ s' z' k, zc_remove_connected_client a false s = (Ok tt, s') ∧ zones s' = <[zn := z']> (zones s) ∧ coherent s' z' ∧ ¬ in_zone z' a ∧
    clients s' !! a = Some (c <| c_mob := c_mob c <| m_zoneMobIndex := k.1 |> |> <| c_zoneClientIndex := k.2 |>) ∧
    connectedClientsByName s' = delete name (connectedClientsByName s) ∧ zoneHandlers s' = zoneHandlers s ∧ zoneTimers s' = zoneTimers s ∧
    connectedClients s' = snd (swap_and_pop (connectedClients s) j).
Proof.
  intros Hc Hzn Hname Hz Hco Hroom Hi Hl Hcon.
  destruct (remove_client_ok zn a s z c i l Hz Hco Hroom Hc Hi Hl) as (s1 & z1 & Hs1 & Hz1 & Hco1 & Hout & _ & _ & [_ Hmoved] & _).
  pose proof (rest_zone_remove (rest s) zn a s eq_refl) as Hrest. rewrite Hs1 in Hrest. cbn [snd] in Hrest. injection Hrest as R1 R2 R3 R4 R5.
  destruct (Hmoved a c Hc) as (k1 & k2 & Hc1). eexists _, z1, (k1, k2). split.
  - unfold zc_remove_connected_client. rewrite (bind_ok _ _ _ _ _ (zclient_at_ok s a c Hc)), bind_gets, Hcon. unfold client_zone.
    rewrite Hzn, (bind_lift _ _ zn) by done. rewrite (bind_ok _ _ _ _ _ Hs1), Hname, (bind_lift _ _ name) by done. rewrite bind_modify. reflexivity.
  - cbn. split; [exact Hz1|]. split; [by apply (coherent_same s1)|]. by rewrite R1, R2, R3, R5.
Qed.

Lemma forget_handler_find a l j con : list_find (λ con, cc_client con = a) l = Some (j, con) →
  ∃ con', list_find (λ con, cc_client con = a) (forget_handler a l) = Some (j, con').
Proof.
  revert j. induction l as [|d l IH]; intros j; [done|]. cbn [forget_handler]. cbn [list_find]. destruct (decide (cc_client d = a)) as [He|Hne].
  - intros [= <- <-]. cbn [list_find]. rewrite decide_True by done. by eexists.
  - destruct (list_find _ l) as [[k e]|] eqn:Hf; [|done]. intros [= <- <-]. destruct (IH k eq_refl) as [con' Hc]. cbn [list_find].
    rewrite decide_False, Hc by done. by eexists.
Qed.

(** A player in its zone. *)
Record playing (s : ZC) (a h zn : nat) (c : Client) (zh : ZoneHandler) (z : Zone) (i : nat) (l : ClientListing) (name : list Z) : Prop := {
  pl_client : clients s !! a = Some c;
  pl_refs : c_refCount c = 1;
  pl_stub : c_isStubClient c = false;
  pl_cluster : m_zoneCluster (c_mob c) = true;
  pl_handler : c_handler c = Some h;
  pl_zh : zoneHandlers s !! h = Some zh;
  pl_zone : m_zone (c_mob c) = Some zn;
  pl_zones : zones s !! zn = Some z;
  pl_coherent : coherent s z;
  pl_roomy : roomy z;
  pl_listing : z_clientList z !! i = Some l;
  pl_mine : ls_client l = a;
  pl_name : m_name (c_mob c) = Some name;
  pl_named : connectedClientsByName s !! name = Some a;
  pl_connected : ∃ j con, list_find (λ con, cc_client con = a) (connectedClients s) = Some (j, con);
}.

(** A player that goes linkdead stays in its zone without a connection
    until its timer fires, and then leaves nothing behind. At first it is
    still in the zone's lists, marked so that no broadcast reaches it, its
    handler is given back and it waits for the timer; when the timer fires it is
    taken out of the zone and of the connected clients, freed, and the zone's
    lists agree with those who stay. *)
Theorem linkdead_player_lingers (s : ZC) (a h zn : nat) (c : Client) (zh : ZoneHandler) (z : Zone) (i : nat) (l : ClientListing) (name : list Z)
    (Hp : playing s a h zn c zh z i l name) :
  ∃ s1 z1 s2 z2, client_on_disconnect a true s = (Ok tt, s1) ∧
    zones s1 !! zn = Some z1 ∧ coherent s1 z1 ∧ z_clientList z1 !! i = Some (set_linkdead l) ∧ zoneHandlers s1 = dropped h zh (zoneHandlers s) ∧
    LinkdeadLinger a ∈ zoneTimers s1 ∧ connectedClientsByName s1 !! name = Some a ∧ c_handler <$> clients s1 !! a = Some None ∧
    zc_remove_linkdead_client_callback a s1 = (Ok tt, s2) ∧
    clients s2 !! a = None ∧ connectedClientsByName s2 !! name = None ∧ zones s2 !! zn = Some z2 ∧ coherent s2 z2 ∧ ¬ in_zone z2 a.
Proof.
  destruct Hp as [Hc Href Hstub Hzc Hh Hzh Hzn Hz Hco Hroom Hi Hl Hname Hnamed (j & con & Hcon)].
  destruct (disconnect_linkdead_ok s a h zn c zh z Hc Hh Hzh Hzn Hz Hzc ltac:(lia)) as (s1 & Hs1 & E1 & E2 & E3 & E4 & E5 & E6 & E7).
  assert (Hix : index_of (c_zoneClientIndex c) = i).
  { destruct (co_listings _ _ Hco i l Hi) as (c' & Hc' & Hci & _). rewrite Hl, Hc in Hc'. injection Hc' as <-. rewrite Hci.
    apply index_of_nat. pose proof (lookup_lt_Some _ _ _ Hi). destruct Hroom as (_ & _ & ?). lia. }
  assert (Hc1 : clients s1 !! a = Some (lost 1 c)) by (rewrite E1, lookup_insert_eq; by rewrite Href).
  assert (Hz1 : zones s1 !! zn = Some (marked c z)) by (rewrite E3; apply lookup_insert_eq).
  assert (Hi1 : z_clientList (marked c z) !! i = Some (set_linkdead l)) by (unfold marked; cbn; by rewrite Hix, list_lookup_alter_eq, Hi).
  assert (Hco1 : coherent s1 (marked c z)).
  { apply (coherent_same (put_zclient a (lost (c_refCount c) c) s)); [by rewrite E1|by rewrite E2|]. apply marked_coherent.
    by apply lost_coherent. }
  assert (Hroom1 : roomy (marked c z)) by (unfold roomy, marked in *; cbn; by rewrite length_alter).
  destruct (forget_handler_find a _ j con Hcon) as [con' Hcon']. rewrite <- E5 in Hcon'.
  destruct (leave_ok s1 a zn (lost 1 c) (marked c z) i (set_linkdead l) j con' name Hc1 Hzn Hname Hz1 Hco1 Hroom1 Hi1 Hl Hcon')
    as (s2 & z2 & k & Hs2 & Hz2 & Hco2 & Hout & Hc2 & Hn2 & _).
  destruct (client_drop_last s2 a _ Hc2 ltac:(by cbn) Hstub eq_refl) as (s3 & Hs3 & F1 & F2 & F3 & _ & _ & _ & F4 & _).
  exists s1, (marked c z), (s3 <| zoneTimers := remove_timer (LinkdeadLinger a) (zoneTimers s3) |>), z2.
  split; [exact Hs1|]. split; [exact Hz1|]. split; [exact Hco1|]. split; [exact Hi1|]. split; [exact E4|].
  split; [rewrite E7; apply elem_of_app; right; left|]. split; [by rewrite E6|]. split; [by rewrite Hc1|]. split.
  { unfold zc_remove_linkdead_client_callback. by rewrite (bind_ok _ _ _ _ _ Hs2), (bind_ok _ _ _ _ _ Hs3). }
  split; [cbn; by rewrite F1, lookup_delete_eq|]. split; [cbn; by rewrite F4, Hn2, lookup_delete_eq|].
  split; [cbn; by rewrite F3, Hz2, lookup_insert_eq|]. split; [|exact Hout].
  assert (Hne : ∀ b, in_zone z2 b → clients s3 !! b = clients s2 !! b).
  { intros b Hb. rewrite F1. apply lookup_delete_ne. intros ->. by apply Hout. }
  apply (coherent_elsewhere s2); [done| |exact Hne]. intros b Hb. unfold find_mob. cbn. by rewrite (Hne b Hb), F2.
Qed.

(** The client is freed in the middle of its own entering. *)
Lemma replace_itself_faults aggro s a h zn c zh z i l name : playing s a h zn c zh z i l name → c_isLinkdead c = false →
  fst (zc_add_connected_client aggro a s) = Fault.
Proof.
  intros [Hc Href Hstub Hzc Hh Hzh Hzn Hz Hco Hroom Hi Hl Hname Hnamed (j & con & Hcon)] Hlive.
  destruct (leave_ok s a zn c z i l j con name Hc Hzn Hname Hz Hco Hroom Hi Hl Hcon) as (s1 & z1 & k & Hs1 & _ & _ & _ & Hc1 & _ & Hh1 & _).
  set (c1 := c <| c_mob := _ |> <| c_zoneClientIndex := _ |>) in Hc1.
  assert (Hzh1 : zoneHandlers s1 !! h = Some zh) by (by rewrite Hh1). set (zh2 := zh <| zh_disconnects := zh_disconnects zh + 1 |>).
  set (s2 := put_handler h zh2 s1).
  destruct (client_drop_last_handler s2 a c1 h zh2 Hc1 ltac:(change (c_refCount c1) with (c_refCount c); lia) Hstub Hh (lookup_insert_eq _ _ _))
    as (s3 & Hs3 & F & _).
  unfold zc_add_connected_client. rewrite (bind_ok _ _ _ _ _ (zclient_at_ok s a c Hc)), Hname, (bind_lift _ _ name) by done.
  rewrite bind_gets, Hnamed, bind_assoc, (bind_ok _ _ _ _ _ Hs1), bind_assoc, (bind_ok _ _ _ _ _ (zclient_at_ok s1 a c1 Hc1)).
  unfold client_is_linkdead. change (c_isLinkdead c1) with (c_isLinkdead c). rewrite Hlive, bind_assoc.
  assert (Hd : client_forcibly_disconnect a s1 = (Ok tt, s2)).
  { unfold client_forcibly_disconnect. rewrite (bind_ok _ _ _ _ _ (zclient_at_ok s1 a c1 Hc1)). change (c_handler c1) with (c_handler c).
    rewrite Hh. exact (upd_handler_ok s1 h zh _ Hzh1). }
  rewrite (bind_ok _ _ _ _ _ Hd), (bind_ok _ _ _ _ _ Hs3). unfold zclient_at. run. by rewrite F, lookup_delete_eq.
Qed.

(** A player that asks to enter its zone a second time crashes the process:
    the connected client of its name is itself, it is disconnected and freed to
    make room, and the handler goes on with the freed client. *)
Theorem entering_twice_faults (junk : Z → list Z) (aggro : Z) (s : ZC) (a h zn : nat) (c : Client) (zh : ZoneHandler) (z : Zone) (i : nat)
    (l : ClientListing) (name : list Z) (Hp : playing s a h zn c zh z i l name) (Hlive : c_isLinkdead c = false) :
  fst (client_trilogy_handle_op_enter_zone junk aggro a s) = Fault.
Proof.
  pose proof (replace_itself_faults aggro s a h zn c zh z i l name Hp Hlive) as Hf. destruct Hp as [Hc _ _ _ _ _ Hzn _ _ _ _ _ _ _ _].
  unfold client_trilogy_handle_op_enter_zone. rewrite (bind_ok _ _ _ _ _ (zclient_at_ok s a c Hc)). unfold client_zone.
  rewrite Hzn, (bind_lift _ _ zn) by done. unfold mbind at 1, code_bind at 1.
  destruct (zc_add_connected_client aggro a s) as [[[]|e|] s1]; cbn [fst] in Hf; done.
Qed.

(** *** A player in a zone of one *)
Definition player : Client := spawned empty_zone visitor.
Definition zone_of_one : Zone := with_client 0 11 visitor empty_zone.
Definition in_game : ZC := entered 0 at_the_door 11 1 visitor empty_zone (text "Aa").

Lemma in_game_playing : playing in_game 11 5 1 player (mkZH 2 (Some 11%nat) [] 0 0) zone_of_one 0 (mkListing 1 false 11) (text "Aa").
Proof.
  split; try reflexivity; [|by vm_compute|].
  - by apply (entered_coherent 0 at_the_door 11 5 1 visitor empty_zone (mkZH 2 (Some 11%nat) [] 0 0)), visitor_may_enter.
  - exists 0%nat, (mkConnected 1 (Some 5%nat) 11). reflexivity.
Qed.

Example entering_twice_faults_witness : fst (client_trilogy_handle_op_enter_zone zeroed_heap 0 11 in_game) = Fault.
Proof.
  exact (entering_twice_faults zeroed_heap 0 in_game 11 5 1 player (mkZH 2 (Some 11%nat) [] 0 0) zone_of_one 0 (mkListing 1 false 11) (text "Aa")
    in_game_playing eq_refl).
Defined.

Example linkdead_player_lingers_witness :
  ∃ s1 z1 s2 z2, client_on_disconnect 11 true in_game = (Ok tt, s1) ∧
    zones s1 !! 1%nat = Some z1 ∧ coherent s1 z1 ∧ z_clientList z1 !! 0%nat = Some (mkListing 1 true 11) ∧
    zoneHandlers s1 = dropped 5 (mkZH 2 (Some 11%nat) [] 0 0) (zoneHandlers in_game) ∧
    LinkdeadLinger 11 ∈ zoneTimers s1 ∧ connectedClientsByName s1 !! text "Aa" = Some 11%nat ∧ c_handler <$> clients s1 !! 11%nat = Some None ∧
    zc_remove_linkdead_client_callback 11 s1 = (Ok tt, s2) ∧
    clients s2 !! 11%nat = None ∧ connectedClientsByName s2 !! text "Aa" = None ∧ zones s2 !! 1%nat = Some z2 ∧ coherent s2 z2 ∧ ¬ in_zone z2 11.
Proof.
  exact (linkdead_player_lingers in_game 11 5 1 player (mkZH 2 (Some 11%nat) [] 0 0) zone_of_one 0 (mkListing 1 false 11) (text "Aa") in_game_playing).
Defined.
