(* ===== verification/ClientSave.v ===== *)
(** Saving a client: zone_cluster/mob/client_save.c.

    A snapshot of the client is taken and handed to the database thread, which
    writes it in one transaction: the character's row is updated, the rows of
    the other tables are deleted and inserted anew. The transaction is the list
    of its statements, each with the values bound to it. Floats are the words
    that represent them; strings run to their terminators. *)

From S2P Require Import Prelude Fields Mob Inventory Skills ZoneClient.

(** ** The snapshot *)
Record ClientSave_Inv := mkSaveInv { cs_slotId : Z; cs_augSlotId : Z; cs_stackAmount : Z; cs_charges : Z; cs_itemId : Z }.

Record ClientSave := mkClientSave {
  cs_characterId : Z;
  cs_name : list Z;
  cs_surname : list Z;
  cs_level : Z;
  cs_class : Z;
  cs_gender : Z;
  cs_face : Z;
  cs_race : Z;
  cs_deity : Z;
  cs_point : BindPoint;
  cs_hp : Z;   (* int, like those below *)
  cs_mana : Z;
  cs_endurance : Z;
  cs_STR : Z;
  cs_DEX : Z;
  cs_AGI : Z;
  cs_STA : Z;
  cs_INT : Z;
  cs_WIS : Z;
  cs_CHA : Z;
  cs_coins : Coin;
  cs_coinsBank : Coin;
  cs_coinsCursor : Coin;
  cs_guildRank : Z;
  cs_guildId : Z;
  cs_harmtouchTimestamp : Z;
  cs_disciplineTimestamp : Z;
  cs_hungerLevel : Z;
  cs_thirstLevel : Z;
  cs_trainingPoints : Z;
  cs_experience : Z;
  cs_anonSetting : Z;
  cs_isGM : Z;
  cs_drunkeness : Z;
  cs_material : list Z;   (* 7 *)
  cs_tint : list Z;       (* 7 *)
  cs_primaryModelId : Z;
  cs_secondaryModelId : Z;
  cs_memmedSpell : list MemorizedSpell;
  cs_skill : Skills;
  cs_bindPoints : list BindPoint;
  cs_inventory : list ClientSave_Inv;      (* behind the struct, invCount of them *)
  cs_spellbook : list SpellbookSlot;       (* behind those, spellbookCount *)
}.

(** What the allocation held where the snapshot writes nothing: the discipline's
    time stamp, and stack amount and charges of a slot without an item. *)
Record SaveJunk := mkSaveJunk { junk_discipline : Z; junk_stackAmount : Z; junk_charges : Z }.

Definition save_slot (junk : SaveJunk) (src : InventorySlot) : ClientSave_Inv :=
  match item src with
  | Some it => mkSaveInv (slotId src) (augSlotId src) (item_get_stack_amount it) (item_get_charges it) (itemId src)
  | None => mkSaveInv (slotId src) (augSlotId src) (junk_stackAmount junk) (junk_charges junk) (itemId src)
  end.

Definition client_surname_cstr (client : Client) : list Z := default [] (c_surname client).

(** The vitals are ints. The auto-save timer is restarted for a save on demand:
    the first component of the result. *)
Definition client_save_override_location_and_vitals (junk : SaveJunk) (client : Client) (isAutoSave : bool) (point : BindPoint)
    (hp mana endurance : Z) : bool * ClientSave :=
  let mob := c_mob client in
  let book := c_spellbook client in
  (negb isAutoSave,
   mkClientSave (c_characterId client) (take 31 (mob_name_cstr mob)) (take 31 (client_surname_cstr client)) (mob_level mob) (mob_class mob)
     (mob_base_gender mob) (mob_face mob) (mob_base_race mob) (mob_deity mob) point hp mana endurance
     (mob_base_str mob) (mob_base_dex mob) (mob_base_agi mob) (mob_base_sta mob) (mob_base_int mob) (mob_base_wis mob) (mob_base_cha mob)
     (c_coins client) (c_coinsBank client) (c_coinsCursor client) (c_guildRank client) (c_guildId client)
     (c_harmtouchTimestamp client) (junk_discipline junk) (c_hungerLevel client) (c_thirstLevel client) (c_trainingPoints client)
     (c_experience client) (c_anonSetting client) (if c_isGM client then 1 else 0) (c_drunkeness client) (m_materials mob) (m_tints mob)
     (m_primaryModelId mob) (m_secondaryModelId mob) (memorized book) (c_skills client) (c_bindPoints client)
     (save_slot junk <$> slots (c_inventory client)) (if spellbook_is_empty book then [] else spellbook_array book)).

(** [zoneId] and [instanceId] are those of the client's zone. *)
Definition client_save (junk : SaveJunk) (zoneId instanceId : Z) (client : Client) (isAutoSave : bool) : bool * ClientSave :=
  let mob := c_mob client in
  client_save_override_location_and_vitals junk client isAutoSave
    (mkBind zoneId instanceId (mkLoc (mob_x mob) (mob_y mob) (mob_z mob) (mob_heading mob)))
    (i32 (mob_current_hp mob)) (i32 (mob_current_mana mob)) (i32 (mob_current_endurance mob)).

(** ** The transaction

    The columns of the table character, as the UPDATE names them. *)
Record CharacterRow := mkCharacterRow {
  cr_name : list Z; cr_surname : list Z; cr_level : Z; cr_class : Z; cr_race : Z; cr_zone_id : Z; cr_instance_id : Z; cr_gender : Z;
  cr_face : Z; cr_deity : Z; cr_x : Z; cr_y : Z; cr_z : Z; cr_heading : Z; cr_current_hp : Z; cr_current_mana : Z;
  cr_current_endurance : Z; cr_experience : Z; cr_training_points : Z; cr_base_str : Z; cr_base_sta : Z; cr_base_dex : Z;
  cr_base_agi : Z; cr_base_int : Z; cr_base_wis : Z; cr_base_cha : Z; cr_guild_id : Z; cr_guild_rank : Z; cr_harmtouch_timestamp : Z;
  cr_discipline_timestamp : Z; cr_pp : Z; cr_gp : Z; cr_sp : Z; cr_cp : Z; cr_pp_cursor : Z; cr_gp_cursor : Z; cr_sp_cursor : Z;
  cr_cp_cursor : Z; cr_pp_bank : Z; cr_gp_bank : Z; cr_sp_bank : Z; cr_cp_bank : Z; cr_hunger : Z; cr_thirst : Z; cr_is_gm : Z;
  cr_anon : Z; cr_drunkeness : Z; cr_material : list Z; cr_tint : list Z;
}.

Inductive SaveTable := MemmedSpellsTable | SkillTable | BindPointTable | InventoryTable | SpellbookTable.

Inductive SaveStmt :=
  | UpdateCharacter (row : CharacterRow) (characterId : Z)
  | DeleteFrom (table : SaveTable) (characterId : Z)
  | InsertMemmedSpell (characterId slot_id spell_id recast_timestamp_milliseconds : Z)
  | InsertSkill (characterId skill_id value : Z)
  | InsertBindPoint (characterId : Z) (row : BindRow)
  | InsertInventory (characterId : Z) (row : InventoryRow)
  | InsertSpell (characterId slot_id spell_id : Z).

(** query_bind_int takes an int, query_bind_int64 an int64_t. *)
Definition character_row (save : ClientSave) : CharacterRow :=
  let p := cs_point save in
  mkCharacterRow (cs_name save) (cs_surname save) (cs_level save) (cs_class save) (cs_race save) (b_zoneId p) (b_instanceId p)
    (cs_gender save) (cs_face save) (cs_deity save) (loc_x (b_loc p)) (loc_y (b_loc p)) (loc_z (b_loc p)) (loc_heading (b_loc p))
    (cs_hp save) (cs_mana save) (cs_endurance save) (cs_experience save) (cs_trainingPoints save) (cs_STR save) (cs_STA save)
    (cs_DEX save) (cs_AGI save) (cs_INT save) (cs_WIS save) (cs_CHA save) (cs_guildId save) (cs_guildRank save)
    (i64 (cs_harmtouchTimestamp save)) (i64 (cs_disciplineTimestamp save))
    (i32 (pp (cs_coins save))) (i32 (gp (cs_coins save))) (i32 (sp (cs_coins save))) (i32 (cp (cs_coins save)))
    (i32 (pp (cs_coinsCursor save))) (i32 (gp (cs_coinsCursor save))) (i32 (sp (cs_coinsCursor save))) (i32 (cp (cs_coinsCursor save)))
    (i32 (pp (cs_coinsBank save))) (i32 (gp (cs_coinsBank save))) (i32 (sp (cs_coinsBank save))) (i32 (cp (cs_coinsBank save)))
    (i32 (cs_hungerLevel save)) (i32 (cs_thirstLevel save)) (cs_isGM save) (cs_anonSetting save) (cs_drunkeness save)
    (cs_material save ++ [i32 (cs_primaryModelId save); i32 (cs_secondaryModelId save)]) (i32 <$> cs_tint save).

(** A loop over an array that leaves some elements out. *)
Definition rows_of {A B} (f : Z → A → option B) (l : list A) : list B := omap id (imap (λ i, f (Z.of_nat i)) l).

Definition memmed_row (i : Z) (mem : MemorizedSpell) : option (Z * Z * Z) :=
  if ms_spellId mem =? 0 then None else Some (i, i32 (ms_spellId mem), i64 (recastTimestamp mem)).
Definition skill_row (offset i value : Z) : option (Z * Z) :=
  if (value =? 0) || (EQP_SKILL_MAX_VALUE <? value) then None else Some (i + offset, value).
Definition bind_row (i : Z) (b : BindPoint) : option BindRow :=
  if b_zoneId b =? 0 then None else Some (mkBindRow i (b_zoneId b) (b_instanceId b) (b_loc b)).
Definition inventory_row (_ : Z) (slot : ClientSave_Inv) : option InventoryRow :=
  if cs_itemId slot =? 0 then None
  else Some (mkInvRow (cs_slotId slot) (cs_augSlotId slot) (cs_stackAmount slot) (cs_charges slot) (cs_itemId slot)).
Definition spell_row (_ : Z) (spell : SpellbookSlot) : option (Z * Z) := Some (i32 (sp_slotId spell), i32 (sp_spellId spell)).

Definition memmed_rows (save : ClientSave) : list (Z * Z * Z) := rows_of memmed_row (cs_memmedSpell save).
Definition skill_rows (save : ClientSave) : list (Z * Z) :=
  rows_of (skill_row 0) (skill (cs_skill save)) ++ rows_of (skill_row EQP_DB_LANGUAGE_SKILL_OFFSET) (language (cs_skill save)).
Definition bind_rows (save : ClientSave) : list BindRow := rows_of bind_row (cs_bindPoints save).
Definition inventory_rows (save : ClientSave) : list InventoryRow := rows_of inventory_row (cs_inventory save).
Definition spell_rows (save : ClientSave) : list (Z * Z) := rows_of spell_row (cs_spellbook save).

Definition client_save_transaction (save : ClientSave) : list SaveStmt :=
  let charId := cs_characterId save in
  [UpdateCharacter (character_row save) charId] ++
  [DeleteFrom MemmedSpellsTable charId] ++ ((λ r, InsertMemmedSpell charId r.1.1 r.1.2 r.2) <$> memmed_rows save) ++
  [DeleteFrom SkillTable charId] ++ ((λ r, InsertSkill charId r.1 r.2) <$> skill_rows save) ++
  [DeleteFrom BindPointTable charId] ++ (InsertBindPoint charId <$> bind_rows save) ++
  [DeleteFrom InventoryTable charId] ++ (InsertInventory charId <$> inventory_rows save) ++
  [DeleteFrom SpellbookTable charId] ++ ((λ r, InsertSpell charId r.1 r.2) <$> spell_rows save).

(** The columns that client_create's SELECT reads, as client_load_stats_callback
    gets them; the creation time is not written by a save. *)
Definition stats_columns (row : CharacterRow) (creationTime : Z) : StatsRow :=
  mkStatsRow (Some (cr_surname row)) (cr_level row) (cr_class row) (cr_race row) (cr_gender row) (cr_face row) (cr_deity row)
    (cr_x row) (cr_y row) (cr_z row) (cr_heading row) (cr_current_hp row) (cr_current_mana row) (cr_current_endurance row)
    (cr_experience row) (cr_training_points row) (cr_base_str row) (cr_base_sta row) (cr_base_dex row) (cr_base_agi row)
    (cr_base_int row) (cr_base_wis row) (cr_base_cha row) (cr_guild_id row) (cr_guild_rank row) (cr_harmtouch_timestamp row)
    (cr_discipline_timestamp row) (mkCoin (cr_pp row) (cr_gp row) (cr_sp row) (cr_cp row))
    (mkCoin (cr_pp_cursor row) (cr_gp_cursor row) (cr_sp_cursor row) (cr_cp_cursor row))
    (mkCoin (cr_pp_bank row) (cr_gp_bank row) (cr_sp_bank row) (cr_cp_bank row)) (cr_hunger row) (cr_thirst row) (cr_is_gm row)
    (cr_anon row) (cr_drunkeness row) creationTime.
