(* ===== verification/ClientSaveSpec.v ===== *)
(** What a save is for: a client that is loaded from what was saved is the
    client that was saved. *)

From S2P Require Import Prelude Fields Mob Inventory Skills Text ZoneClient ZoneLoading ClientSave.

(** ** Bound values come back *)
Lemma unsigned_again w z : 0 < w → is_word w z → wrap w (sint w z) = z.
Proof.
  intros Hw Hz. unfold sint. cbv zeta. rewrite (wrap_small w z) by done. destruct (z <? 2 ^ (w - 1)); [by apply wrap_small|].
  unfold wrap. replace (z - 2 ^ w) with (z + -1 * 2 ^ w) by lia. rewrite Z.mod_add by (apply Z.pow_nonzero; lia). by apply Z.mod_small.
Qed.

Lemma omap_shorter {A B} (f : A → option B) (l : list A) : (length (omap f l) ≤ length l)%nat.
Proof. induction l as [|a l IH]; [done|]. cbn [omap list_omap length] in *. destruct (f a); cbn [length]; lia. Qed.

(** ** Rows into arrays *)
Section inserts.
Context {R A : Type} (key : R → nat) (val : R → A).
Implicit Types (rs : list R) (l : list A).
Definition insert_rows rs l : list A := fold_left (λ l r, <[key r := val r]> l) rs l.

Lemma insert_rows_length rs l : length (insert_rows rs l) = length l.
Proof. unfold insert_rows. revert l. induction rs as [|r rs IH]; intros l; simpl; [done|]. by rewrite IH, length_insert. Qed.
Lemma insert_rows_other rs l i : (∀ r, r ∈ rs → key r ≠ i) → insert_rows rs l !! i = l !! i.
Proof.
  unfold insert_rows. revert l. induction rs as [|r rs IH]; intros l H; simpl; [done|].
  rewrite IH by set_solver. apply list_lookup_insert_ne. apply H. set_solver.
Qed.
(** Rows that agree: the order does not matter. *)
Lemma insert_rows_at rs l i v : (i < length l)%nat → (∃ r, r ∈ rs ∧ key r = i) → (∀ r, r ∈ rs → key r = i → val r = v) → insert_rows rs l !! i = Some v.
Proof.
  unfold insert_rows. revert l. induction rs as [|r rs IH]; intros l Hi (r' & Hr' & Hk) H; simpl; [set_solver|].
  destruct (decide (Exists (λ q, key q = i) rs)) as [Hq|Hq]; rewrite Exists_exists in Hq.
  - apply IH; [by rewrite length_insert|done|set_solver].
  - fold (insert_rows rs (<[key r := val r]> l)). rewrite insert_rows_other by naive_solver.
    apply elem_of_cons in Hr' as [->|?]; [|naive_solver]. subst i. rewrite list_lookup_insert_eq by done. f_equal. apply H; set_solver.
Qed.
(** Whatever the order, one of the rows for an element is the last. *)
Lemma insert_rows_some rs l i : (i < length l)%nat → (∃ r, r ∈ rs ∧ key r = i) → ∃ r, r ∈ rs ∧ key r = i ∧ insert_rows rs l !! i = Some (val r).
Proof.
  unfold insert_rows. revert l. induction rs as [|r rs IH]; intros l Hi (r' & Hr' & Hk); simpl; [set_solver|].
  destruct (decide (Exists (λ q, key q = i) rs)) as [Hq|Hq]; rewrite Exists_exists in Hq.
  - destruct (IH (<[key r := val r]> l)) as (q & Hin & Hkq & Hv); [by rewrite length_insert|done|]. exists q. split; [by right|done].
  - fold (insert_rows rs (<[key r := val r]> l)). rewrite insert_rows_other by naive_solver.
    apply elem_of_cons in Hr' as [->|?]; [|naive_solver]. subst i. exists r. split; [by left|]. by rewrite list_lookup_insert_eq.
Qed.
End inserts.

Lemma rows_of_elem {A B} (f : Z → A → option B) (l : list A) x : x ∈ rows_of f l ↔ ∃ i a, l !! i = Some a ∧ f (Z.of_nat i) a = Some x.
Proof.
  unfold rows_of. rewrite list_elem_of_omap. split.
  - intros (o & Ho & Hx). simpl in Hx. apply list_elem_of_lookup in Ho as [i Ho]. rewrite list_lookup_imap in Ho.
    destruct (l !! i) as [a|] eqn:Ha; [|done]. injection Ho as Ho. exists i, a. by rewrite Ho.
  - intros (i & a & Ha & Hx). exists (f (Z.of_nat i) a). split; [|by rewrite Hx].
    apply list_elem_of_lookup. exists i. by rewrite list_lookup_imap, Ha.
Qed.

(** Rows of an array, put back into an array: each element that had a row is back, in any order of the rows. *)
Lemma rows_restored {A B} (f : Z → A → option B) (key : B → nat) (val : B → A) (l l0 : list A) rs :
  length l0 = length l → rs ≡ₚ rows_of f l → (∀ i a r, l !! i = Some a → f (Z.of_nat i) a = Some r → key r = i) →
  ∀ i a, l !! i = Some a →
    insert_rows key val rs l0 !! i = match f (Z.of_nat i) a with Some r => Some (val r) | None => l0 !! i end.
Proof.
  intros Hl Hrs Hkey i a Ha. assert (Hin : ∀ r, r ∈ rs → ∃ j b, l !! j = Some b ∧ f (Z.of_nat j) b = Some r ∧ key r = j).
  { intros r Hr. rewrite Hrs in Hr. apply rows_of_elem in Hr as (j & b & Hb & Hf). eauto 10. }
  destruct (f (Z.of_nat i) a) as [r|] eqn:Hf.
  - apply insert_rows_at.
    + rewrite Hl. by eapply lookup_lt_Some.
    + exists r. split; [|by eapply Hkey]. rewrite Hrs. apply rows_of_elem. eauto.
    + intros r' (j & b & Hb & Hfb & Hj)%Hin Hk. assert (j = i) as -> by congruence. by simplify_eq.
  - apply insert_rows_other. intros r' (j & b & Hb & Hfb & Hj)%Hin Hk. assert (j = i) as -> by congruence. by simplify_eq.
Qed.

(** ** Memorized spells *)
Definition memmed_ok (l : list MemorizedSpell) : Prop :=
  length l = 9%nat ∧ Forall (λ m, is_word 32 (ms_spellId m) ∧ is_word 64 (recastTimestamp m)) l.

(** The casting time is not saved, and nothing of an empty slot. *)
Definition remembered (m : MemorizedSpell) : MemorizedSpell :=
  if ms_spellId m =? 0 then mkMemorized 0 0 0 else mkMemorized (ms_spellId m) 0 (recastTimestamp m).

Lemma memmed_fold rows book : Forall (λ r : Z * Z * Z, 0 ≤ r.1.1 < 9) rows →
  memorized (fold_left (λ book row, spellbook_add_memorized_from_database (u32 row.1.1) (u32 row.1.2) (u64 row.2) book) rows book) =
    insert_rows (λ r, Z.to_nat r.1.1) (λ r, mkMemorized (u32 r.1.2) 0 (u64 r.2)) rows (memorized book).
Proof.
  intros H. revert book. induction H as [|r rows Hr Hrows IH]; intros book; [done|]. cbn [fold_left]. rewrite IH.
  unfold spellbook_add_memorized_from_database, EQP_MEMORIZED_SPELL_SLOTS. rewrite (wrap_small 32 r.1.1) by (unfold is_word; lia).
  rewrite (proj2 (Z.leb_gt _ _)) by lia. done.
Qed.
Lemma memmed_known rows book :
  knownSpells (fold_left (λ book row, spellbook_add_memorized_from_database (u32 row.1.1) (u32 row.1.2) (u64 row.2) book) rows book) = knownSpells book.
Proof.
  revert book. induction rows as [|r rows IH]; intros book; [done|]. cbn [fold_left]. rewrite IH.
  unfold spellbook_add_memorized_from_database. by destruct (_ <=? _).
Qed.

Lemma memmed_restored l rows book : memmed_ok l → rows ≡ₚ rows_of memmed_row l → memorized book = replicate 9 (mkMemorized 0 0 0) →
  memorized (fold_left (λ book row, spellbook_add_memorized_from_database (u32 row.1.1) (u32 row.1.2) (u64 row.2) book) rows book) = remembered <$> l.
Proof.
  intros [Hl Hw] Hrows Hb. rewrite Forall_forall in Hw.
  assert (Hr : Forall (λ r : Z * Z * Z, 0 ≤ r.1.1 < 9) rows).
  { apply Forall_forall. intros r Hr. rewrite Hrows in Hr. apply rows_of_elem in Hr as (i & m & Hm & Hf). apply lookup_lt_Some in Hm.
    unfold memmed_row in Hf. destruct (_ =? 0); [done|]. injection Hf as <-. simpl. lia. }
  rewrite (memmed_fold _ _ Hr), Hb. apply list_eq. intros i. rewrite list_lookup_fmap. destruct (l !! i) as [m|] eqn:Hm.
  - rewrite (rows_restored memmed_row _ _ l _ rows) with (a := m); [|by rewrite length_replicate|done| |done].
    + destruct (Hw m ltac:(by eapply list_elem_of_lookup_2)) as [H1 H2]. change (remembered <$> Some m) with (Some (remembered m)).
      unfold memmed_row, remembered. destruct (ms_spellId m =? 0).
      * apply lookup_replicate_2. apply lookup_lt_Some in Hm. lia.
      * cbn. by rewrite !unsigned_again.
    + intros j b r _ Hf. unfold memmed_row in Hf. destruct (_ =? 0); [done|]. injection Hf as <-. simpl. lia.
  - apply lookup_ge_None. rewrite insert_rows_length, length_replicate. apply lookup_ge_None in Hm. lia.
Qed.

(** ** Skills and languages *)
Definition skills_ok (s : Skills) : Prop :=
  length (skill s) = 74%nat ∧ length (language s) = 24%nat ∧ Forall is_byte (skill s) ∧ Forall is_byte (language s).
Definition trained (v : Z) : Prop := 1 ≤ v ≤ EQP_SKILL_MAX_VALUE.

Definition skill_key (r : Z * Z) : nat := Z.to_nat (if EQP_DB_LANGUAGE_SKILL_OFFSET <=? r.1 then r.1 - EQP_DB_LANGUAGE_SKILL_OFFSET else r.1).
Definition skill_value (r : Z * Z) : Z := u8 (u32 r.2).
Definition is_language (r : Z * Z) : Prop := EQP_DB_LANGUAGE_SKILL_OFFSET ≤ r.1.
#[export] Instance is_language_dec r : Decision (is_language r) := Z_le_dec _ _.
Definition known_skill (r : Z * Z) : Prop := 0 ≤ r.1 < 74 ∨ 100 ≤ r.1 < 124.

Lemma skills_fold rows s : Forall known_skill rows →
  load_rows (λ row, skills_set_from_db (u32 row.1) (u32 row.2)) rows (Ok s) =
    Ok (mkSkills (insert_rows skill_key skill_value rows (skill s)) (insert_rows skill_key skill_value (filter is_language rows) (language s))).
Proof.
  intros H. revert s. induction H as [|r rows Hr Hrows IH]; intros s; [by destruct s|].
  unfold load_rows in *. cbn [fold_left]. unfold known_skill in Hr.
  assert (Hs : Ok s ≫= skills_set_from_db (u32 r.1) (u32 r.2) =
    Ok (mkSkills (<[skill_key r := skill_value r]> (skill s)) (if decide (is_language r) then <[skill_key r := skill_value r]> (language s) else language s))).
  { run. unfold skills_set_from_db, skill_key, skill_value, is_language, EQP_DB_LANGUAGE_SKILL_OFFSET, Lang_COUNT, Skill_COUNT.
    rewrite (wrap_small 32 r.1) by (unfold is_word; lia). destruct Hr as [Hr|Hr].
    - rewrite !(proj2 (Z.leb_gt _ _)), decide_False by lia. done.
    - rewrite (proj2 (Z.leb_le _ _)), !(proj2 (Z.leb_gt _ _)), decide_True by lia. done. }
  rewrite Hs, IH, filter_cons. f_equal. cbn [skill language]. by case_decide.
Qed.

Lemma skill_row_some offset i v r : is_byte v → skill_row offset i v = Some r ↔ trained v ∧ r = (i + offset, v).
Proof.
  intros Hb. unfold skill_row, trained, is_word, EQP_SKILL_MAX_VALUE in *. destruct (Z.eqb_spec v 0); simpl; [split; [done|lia]|].
  destruct (Z.ltb_spec 250 v); [split; [done|lia]|]. split; [intros [= <-]; split; [lia|done]|by intros [_ ->]].
Qed.
(** What is trained is saved under its id, languages behind the skills. *)
Lemma skill_rows_elem s r : skills_ok s →
  r ∈ rows_of (skill_row 0) (skill s) ++ rows_of (skill_row EQP_DB_LANGUAGE_SKILL_OFFSET) (language s) ↔
  (∃ i, skill s !! i = Some r.2 ∧ trained r.2 ∧ r.1 = Z.of_nat i) ∨
  (∃ i, language s !! i = Some r.2 ∧ trained r.2 ∧ r.1 = Z.of_nat i + EQP_DB_LANGUAGE_SKILL_OFFSET).
Proof.
  intros (_ & _ & B1 & B2). rewrite Forall_lookup in B1, B2. rewrite elem_of_app, !rows_of_elem. destruct r as [k v]. split.
  - intros [(i & a & Ha & Hr)|(i & a & Ha & Hr)].
    + apply skill_row_some in Hr as [Ht [= -> ->]]; [|by eapply B1]. left. exists i. simpl. split_and!; [done..|lia].
    + apply skill_row_some in Hr as [Ht [= -> ->]]; [|by eapply B2]. right. by exists i.
  - intros [(i & Ha & Ht & Hk)|(i & Ha & Ht & Hk)]; simpl in *.
    + left. exists i, v. split; [done|]. apply skill_row_some; [by eapply B1|]. split; [done|]. f_equal. lia.
    + right. exists i, v. split; [done|]. apply skill_row_some; [by eapply B2|]. split; [done|]. by f_equal.
Qed.

Lemma value_back v : trained v → u8 (u32 v) = v.
Proof. unfold trained, EQP_SKILL_MAX_VALUE. intros Hv. rewrite !wrap_small; [done|..]; unfold is_word; rewrite ?wrap_small; unfold is_word; lia. Qed.

Section skills.
Context (s s0 : Skills) (rows : list (Z * Z)) (Hs : skills_ok s) (H0 : length (skill s0) = 74%nat ∧ length (language s0) = 24%nat).
Context (Hrows : rows ≡ₚ rows_of (skill_row 0) (skill s) ++ rows_of (skill_row EQP_DB_LANGUAGE_SKILL_OFFSET) (language s)).
Let s1 := mkSkills (insert_rows skill_key skill_value rows (skill s0)) (insert_rows skill_key skill_value (filter is_language rows) (language s0)).

Lemma saved_row r : r ∈ rows →
  (∃ i, (i < 74)%nat ∧ skill s !! i = Some r.2 ∧ trained r.2 ∧ r.1 = Z.of_nat i) ∨
  (∃ i, (i < 24)%nat ∧ language s !! i = Some r.2 ∧ trained r.2 ∧ r.1 = Z.of_nat i + EQP_DB_LANGUAGE_SKILL_OFFSET).
Proof.
  rewrite Hrows, skill_rows_elem by done. destruct Hs as (L1 & L2 & _ & _).
  intros [(i & Hi & ?)|(i & Hi & ?)]; [left|right]; exists i; (split; [apply lookup_lt_Some in Hi; lia|done]).
Qed.

Lemma skill_rows_known : Forall known_skill rows.
Proof. apply Forall_forall. intros r [(i & ? & _ & _ & Hr)|(i & ? & _ & _ & Hr)]%saved_row; unfold known_skill, EQP_DB_LANGUAGE_SKILL_OFFSET in *; lia. Qed.

Lemma languages_restored i v : language s !! i = Some v →
  language s1 !! i = if decide (trained v) then Some v else language s0 !! i.
Proof.
  intros Hi. assert (Hlt : (i < 24)%nat) by (destruct Hs as (_ & <- & _); by eapply lookup_lt_Some). simpl. case_decide as Ht.
  - apply insert_rows_at; [lia|exists (Z.of_nat i + EQP_DB_LANGUAGE_SKILL_OFFSET, v); split|].
    + apply list_elem_of_filter. split; [unfold is_language; simpl; lia|]. rewrite Hrows, skill_rows_elem by done. right. by exists i.
    + unfold skill_key. simpl. rewrite (proj2 (Z.leb_le _ _)) by lia. lia.
    + intros r [Hl Hr]%list_elem_of_filter Hk. unfold is_language in Hl. unfold skill_key in Hk. rewrite (proj2 (Z.leb_le _ _)) in Hk by done.
      destruct (saved_row r Hr) as [(j & ? & _ & _ & Hj)|(j & ? & Hv & Ht' & Hj)]; [unfold EQP_DB_LANGUAGE_SKILL_OFFSET in *; lia|].
      assert (j = i) as -> by lia. rewrite Hi in Hv. injection Hv as Hv. unfold skill_value. rewrite <-Hv. by apply value_back.
  - apply insert_rows_other. intros r [Hl Hr]%list_elem_of_filter Hk. unfold is_language in Hl. unfold skill_key in Hk. rewrite (proj2 (Z.leb_le _ _)) in Hk by done.
    destruct (saved_row r Hr) as [(j & ? & _ & _ & Hj)|(j & ? & Hv & Ht' & Hj)]; [unfold EQP_DB_LANGUAGE_SKILL_OFFSET in *; lia|].
    assert (j = i) as -> by lia. rewrite Hi in Hv. injection Hv as Hv. by rewrite <-Hv in Ht'.
Qed.

(** A skill comes back unless a language of the same number is trained. *)
Lemma skills_restored i v : skill s !! i = Some v → (∀ l, language s !! i = Some l → ¬ trained l) →
  skill s1 !! i = if decide (trained v) then Some v else skill s0 !! i.
Proof.
  intros Hi Hno. assert (Hlt : (i < 74)%nat) by (destruct Hs as (<- & _); by eapply lookup_lt_Some). simpl.
  assert (Hrow : ∀ r, r ∈ rows → skill_key r = i → r.2 = v ∧ trained r.2).
  { intros r Hr Hk. unfold skill_key, EQP_DB_LANGUAGE_SKILL_OFFSET in *. destruct (saved_row r Hr) as [(j & ? & Hv & Ht' & Hj)|(j & ? & Hv & Ht' & Hj)].
    - rewrite (proj2 (Z.leb_gt _ _)) in Hk by lia. assert (j = i) as -> by lia. rewrite Hi in Hv. injection Hv as Hv. by rewrite <-Hv in Ht' |- *.
    - unfold EQP_DB_LANGUAGE_SKILL_OFFSET in Hj. rewrite (proj2 (Z.leb_le _ _)) in Hk by lia. assert (j = i) as -> by lia. by destruct (Hno _ Hv). }
  case_decide as Ht.
  - apply insert_rows_at; [lia|exists (Z.of_nat i, v); split|].
    + rewrite Hrows, skill_rows_elem by done. left. by exists i.
    + unfold skill_key, EQP_DB_LANGUAGE_SKILL_OFFSET. simpl. rewrite (proj2 (Z.leb_gt _ _)) by lia. lia.
    + intros r Hr Hk. destruct (Hrow r Hr Hk) as [Hv _]. unfold skill_value. rewrite Hv. by apply value_back.
  - apply insert_rows_other. intros r Hr Hk. destruct (Hrow r Hr Hk) as [Hv Ht']. by rewrite Hv in Ht'.
Qed.
(** Where it is, the skill comes back as itself or as the language, by the order
    of the rows. *)
Lemma skills_overwritten i v l : skill s !! i = Some v → language s !! i = Some l → trained l →
  skill s1 !! i = Some l ∨ trained v ∧ skill s1 !! i = Some v.
Proof.
  intros Hi Hl Ht. assert (Hlt : (i < 74)%nat) by (destruct Hs as (<- & _); by eapply lookup_lt_Some).
  destruct (insert_rows_some skill_key skill_value rows (skill s0) i) as (r & Hr & Hk & Hv); [lia|exists (Z.of_nat i + EQP_DB_LANGUAGE_SKILL_OFFSET, l); split|].
  - rewrite Hrows, skill_rows_elem by done. right. by exists i.
  - unfold skill_key. simpl. rewrite (proj2 (Z.leb_le _ _)) by lia. lia.
  - unfold s1. cbn [skill]. rewrite Hv. unfold skill_value. unfold skill_key, EQP_DB_LANGUAGE_SKILL_OFFSET in Hk.
    destruct (saved_row r Hr) as [(j & ? & Hj & Ht' & Hrj)|(j & ? & Hj & Ht' & Hrj)]; unfold EQP_DB_LANGUAGE_SKILL_OFFSET in Hrj.
    + rewrite (proj2 (Z.leb_gt _ _)) in Hk by lia. assert (j = i) as -> by lia. rewrite Hi in Hj. injection Hj as ->.
      right. split; [done|]. by rewrite value_back.
    + rewrite (proj2 (Z.leb_le _ _)) in Hk by lia. assert (j = i) as -> by lia. rewrite Hl in Hj. injection Hj as ->.
      left. by rewrite value_back.
Qed.
End skills.

(** ** Bind points *)
Definition bind_ok (b : BindPoint) : Prop := is_word 16 (b_zoneId b) ∧ is_word 16 (b_instanceId b).
Definition bind_key (r : BindRow) : nat := Z.to_nat (br_bindId r).
Definition bind_value (r : BindRow) : BindPoint :=
  mkBind (u16 (br_zoneId r)) (u16 (br_instId r)) (mkLoc (loc_x (br_loc r)) (loc_y (br_loc r)) (loc_z (br_loc r)) (loc_heading (br_loc r))).

Lemma binds_fold rows c : Forall (λ r, 0 ≤ br_bindId r < 5) rows →
  let c' := fold_left (λ c row, client_set_bind_point (u32 (br_bindId row)) (br_zoneId row) (br_instId row) (loc_x (br_loc row)) (loc_y (br_loc row))
    (loc_z (br_loc row)) (loc_heading (br_loc row)) c) rows c in
  c' = c <| c_bindPoints := insert_rows bind_key bind_value rows (c_bindPoints c) |>.
Proof.
  intros H. cbv zeta. revert c. induction H as [|r rows Hr Hrows IH]; intros c; [by destruct c|]. cbn [fold_left]. rewrite IH.
  unfold client_set_bind_point. rewrite (wrap_small 32 (br_bindId r)) by (unfold is_word; lia). rewrite (proj2 (Z.leb_gt _ _)) by lia. done.
Qed.

(** The missing points are filled in the same way. *)
Lemma binds_restored junk rows c c0 : length (c_bindPoints c) = 5%nat → Forall bind_ok (c_bindPoints c) → rows ≡ₚ rows_of bind_row (c_bindPoints c) →
  c_bindPoints c0 = replicate 5 no_bind_point →
  c_bindPoints (load_bind_points junk rows c0) = c_bindPoints (client_fill_in_missing_bind_points junk c).
Proof.
  intros Hl Hok Hrows H0. rewrite Forall_forall in Hok. unfold load_bind_points. rewrite binds_fold; cycle 1.
  { apply Forall_forall. intros r Hr. rewrite Hrows in Hr. apply rows_of_elem in Hr as (i & b & Hb & Hf). apply lookup_lt_Some in Hb.
    unfold bind_row in Hf. destruct (_ =? 0); [done|]. injection Hf as <-. simpl. lia. }
  assert (Hi : insert_rows bind_key bind_value rows (c_bindPoints c0) = (λ b, if b_zoneId b =? 0 then no_bind_point else b) <$> c_bindPoints c).
  { apply list_eq. intros i. rewrite list_lookup_fmap. destruct (c_bindPoints c !! i) as [b|] eqn:Hb.
    - rewrite (rows_restored bind_row _ _ (c_bindPoints c) _ rows) with (a := b); [|by rewrite H0, length_replicate|done| |done].
      + destruct (Hok b ltac:(by eapply list_elem_of_lookup_2)) as [H1 H2]. unfold bind_row. simpl. destruct (Z.eqb_spec (b_zoneId b) 0).
        * rewrite H0. apply lookup_replicate_2. apply lookup_lt_Some in Hb. lia.
        * unfold bind_value. simpl. rewrite !wrap_small by done. by destruct b as [? ? []].
      + intros j d r _ Hf. unfold bind_row in Hf. destruct (_ =? 0); [done|]. injection Hf as <-. unfold bind_key. simpl. lia.
    - apply lookup_ge_None. rewrite insert_rows_length, H0, length_replicate. apply lookup_ge_None in Hb. lia. }
  rewrite Hi. unfold client_fill_in_missing_bind_points. cbn.
  assert (Hf : ∀ l : list BindPoint, filter (λ b, b_zoneId b ≠ 0) ((λ b, if b_zoneId b =? 0 then no_bind_point else b) <$> l) = filter (λ b, b_zoneId b ≠ 0) l).
  { induction l as [|b l IH]; [done|]. rewrite fmap_cons, !filter_cons, IH. destruct (Z.eqb_spec (b_zoneId b) 0) as [H1|H1].
    - rewrite !decide_False by (simpl; lia). done.
    - done. }
  rewrite Hf, <-list_fmap_compose. apply list_fmap_ext. intros i b _. simpl. destruct (b_zoneId b =? 0) eqn:E; [done|]. by rewrite E.
Qed.

(** Loading the points changes nothing else. *)
Lemma load_binds_only junk rows c : ∃ l, load_bind_points junk rows c = c <| c_bindPoints := l |>.
Proof.
  unfold load_bind_points. set (f := fold_left _ rows c). assert (H : ∃ l, f = c <| c_bindPoints := l |>).
  { unfold f. clear f. revert c. induction rows as [|r rows IH]; intros c; [exists (c_bindPoints c); by destruct c|]. cbn [fold_left].
    destruct (IH (client_set_bind_point (u32 (br_bindId r)) (br_zoneId r) (br_instId r) (loc_x (br_loc r)) (loc_y (br_loc r)) (loc_z (br_loc r)) (loc_heading (br_loc r)) c)) as [l ->].
    exists l. unfold client_set_bind_point. by destruct (5 <=? _). }
  destruct H as [l ->]. by eexists.
Qed.

(** ** Spells and items *)
Lemma rows_of_all {A B} (f : A → B) (l : list A) : rows_of (λ _ a, Some (f a)) l = f <$> l.
Proof. unfold rows_of. induction l as [|a l IH]; simpl; [done|]. f_equal. exact IH. Qed.

Definition spell_ok (s : SpellbookSlot) : Prop := is_word 32 (sp_slotId s) ∧ is_word 32 (sp_spellId s).

Lemma spells_fold rows book :
  spellbook_array (fold_left (λ book row, spellbook_add_from_database (u32 row.1) (u32 row.2) book) rows book) =
    spellbook_array book ++ ((λ r : Z * Z, mkSpell (u32 r.1) (u32 r.2)) <$> rows) ∧
  memorized (fold_left (λ book row, spellbook_add_from_database (u32 row.1) (u32 row.2) book) rows book) = memorized book.
Proof.
  revert book. induction rows as [|r rows IH]; intros book; [by rewrite app_nil_r|]. cbn [fold_left].
  destruct (IH (spellbook_add_from_database (u32 r.1) (u32 r.2) book)) as [-> ->]. split; [|done]. rewrite fmap_cons. unfold spellbook_array. simpl.
  by rewrite <-app_assoc.
Qed.

Lemma spells_restored l rows : Forall spell_ok l → rows ≡ₚ rows_of spell_row l →
  ((λ r : Z * Z, mkSpell (u32 r.1) (u32 r.2)) <$> rows) ≡ₚ l.
Proof.
  intros Hok ->. unfold spell_row. rewrite rows_of_all, <-list_fmap_compose. rewrite Forall_forall in Hok.
  assert (E : ∀ s, s ∈ l → ((λ r : Z * Z, mkSpell (u32 r.1) (u32 r.2)) ∘ (λ s, (i32 (sp_slotId s), i32 (sp_spellId s)))) s = id s).
  { intros s Hs. destruct (Hok s Hs). simpl. rewrite !unsigned_again by done. by destruct s. }
  rewrite (list_fmap_ext _ id l); [by rewrite list_fmap_id|]. intros i s Hs. apply E. by eapply list_elem_of_lookup_2.
Qed.

(** Items are found again by their ids. *)
Definition item_ok (proto : Z → option nat) (s : InventorySlot) : Prop :=
  is_word 16 (slotId s) ∧ is_word 16 (augSlotId s) ∧ is_word 32 (itemId s) ∧
  (itemId s ≠ 0 → ∃ it, item s = Some it ∧ proto (itemId s) = Some (it_prototype it) ∧ is_word 16 (it_charges it) ∧ is_word 16 (it_stackAmount it) ∧
    it_isBag it = false ∧ it_isCustomized it = false).

Lemma items_saved junk proto l : Forall (item_ok proto) l →
  omap (slot_of_row proto) (rows_of inventory_row (save_slot junk <$> l)) = filter (λ s, itemId s ≠ 0) l.
Proof.
  unfold rows_of. induction 1 as [|s l (H1 & H2 & H3 & Hit) Hl IH]; [done|]. rewrite fmap_cons. cbn [imap omap list_omap].
  assert (Hid : cs_itemId (save_slot junk s) = itemId s) by (unfold save_slot; by destruct (item s)).
  unfold inventory_row at 1. rewrite Hid, filter_cons. destruct (Z.eqb_spec (itemId s) 0) as [H0|H0].
  - rewrite decide_False by (by intros []). exact IH.
  - rewrite decide_True by done. destruct (Hit H0) as (it & Hi & Hp & Hc & Hs & Hb & Hz). cbn [omap list_omap id].
    unfold slot_of_row at 1, save_slot. rewrite Hi. cbn. rewrite (wrap_small 32) by done. rewrite Hp, !wrap_small by done. f_equal; [|exact IH].
    unfold item_create, item_get_charges, item_get_stack_amount. destruct s as [? ? ? o]. simpl in Hi. subst o. f_equal. f_equal.
    destruct it as [p c k b z]. simpl in *. by subst.
Qed.

Lemma load_items_slots proto rows c : c_inventory c = inventory_init → Z.of_nat (length rows) < 2 ^ 31 - 1 →
  ∃ inv, load_items proto rows c = Ok (c <| c_inventory := inv |>) ∧ slots inv = mkSlot InvSlot_Cursor 0 0 None :: omap (slot_of_row proto) rows.
Proof.
  intros Hinv Hlen. unfold load_items, load_rows. rewrite Hinv.
  assert (Hf : ∀ rs (a : outcome Inventory), fold_left (λ a row, a ≫= λ inv, match slot_of_row proto row with Some slot => inventory_add_from_database slot inv | None => Ok inv end) rs a =
    fold_left (λ inv row, inv ≫= inventory_add_from_database row) (omap (slot_of_row proto) rs) a).
  { intros rs. induction rs as [|r rs IH]; intros a; [done|]. cbn [fold_left omap list_omap]. rewrite IH. destruct (slot_of_row proto r) as [slot|]; [done|].
    f_equal. by destruct a. }
  rewrite Hf. change (fold_left _ _ _) with (load_inventory (omap (slot_of_row proto) rows)). rewrite load_inventory_ok.
  - run. eexists. by split.
  - pose proof (omap_shorter (slot_of_row proto) rows). lia.
Qed.

(** ** The whole client *)

(** What the character's row keeps, apart from names, place and looks. *)
Definition stats_of (c : Client) : list Z :=
  let m := c_mob c in
  [mob_level m; mob_class m; mob_base_race m; mob_base_gender m; mob_face m; mob_deity m; mob_x m; mob_y m; mob_z m; mob_heading m;
   mob_current_hp m; mob_current_mana m; mob_current_endurance m; c_experience c; c_trainingPoints c;
   mob_base_str m; mob_base_sta m; mob_base_dex m; mob_base_agi m; mob_base_int m; mob_base_wis m; mob_base_cha m;
   c_guildId c; c_guildRank c; c_harmtouchTimestamp c;
   pp (c_coins c); gp (c_coins c); sp (c_coins c); cp (c_coins c);
   pp (c_coinsCursor c); gp (c_coinsCursor c); sp (c_coinsCursor c); cp (c_coinsCursor c);
   pp (c_coinsBank c); gp (c_coinsBank c); sp (c_coinsBank c); cp (c_coinsBank c);
   c_hungerLevel c; c_thirstLevel c; (if c_isGM c then 1 else 0); c_anonSetting c; c_drunkeness c].

(** Each number is one of its field's type, and points are within the range of int. *)
Definition coin_words (k : Coin) : Prop := is_word 32 (pp k) ∧ is_word 32 (gp k) ∧ is_word 32 (sp k) ∧ is_word 32 (cp k).
Definition is_int (v : Z) : Prop := i32 v = v.
Record stats_ok (c : Client) : Prop := {
  so_bytes : is_byte (mob_level (c_mob c)) ∧ is_byte (mob_class (c_mob c)) ∧ is_byte (mob_base_gender (c_mob c)) ∧ is_byte (mob_face (c_mob c)) ∧
    is_byte (c_guildRank c) ∧ is_byte (c_anonSetting c) ∧ is_byte (c_drunkeness c);
  so_shorts : is_word 16 (mob_base_race (c_mob c)) ∧ is_word 16 (mob_deity (c_mob c)) ∧ is_word 16 (c_trainingPoints c);
  so_points : is_int (mob_current_hp (c_mob c)) ∧ is_int (mob_current_mana (c_mob c)) ∧ is_int (mob_current_endurance (c_mob c));
  so_words : is_word 32 (c_hungerLevel c) ∧ is_word 32 (c_thirstLevel c) ∧ is_word 64 (c_harmtouchTimestamp c);
  so_coins : coin_words (c_coins c) ∧ coin_words (c_coinsCursor c) ∧ coin_words (c_coinsBank c);
}.

(** The queries of client_create, answered with these rows, on a new client. *)
Definition reload_lists (proto : Z → option nat) (bindJunk : Z) (skills : list (Z * Z)) (items : list InventoryRow)
    (spells : list (Z * Z)) (memmed : list (Z * Z * Z)) (binds : list BindRow) (c : Client) : outcome Client :=
  c ← load_skills skills c;
  c ← load_items proto items c;
  Ok (load_bind_points bindJunk binds (load_memmed_spells memmed (load_spellbook spells c))).
Definition reload (proto : Z → option nat) (bindJunk creation : Z) (row : CharacterRow) (skills : list (Z * Z)) (items : list InventoryRow)
    (spells : list (Z * Z)) (memmed : list (Z * Z * Z)) (binds : list BindRow) (c0 : Client) : outcome Client :=
  reload_lists proto bindJunk skills items spells memmed binds (load_stats (stats_columns row creation) c0).

(** Each list of rows goes to its own field. *)
Lemma reload_lists_ok proto bindJunk skills items spells memmed binds c s1 :
  load_rows (λ row, skills_set_from_db (u32 row.1) (u32 row.2)) skills (Ok (c_skills c)) = Ok s1 →
  c_inventory c = inventory_init → Z.of_nat (length items) < 2 ^ 31 - 1 →
  ∃ c1 c', reload_lists proto bindJunk skills items spells memmed binds c = Ok c1 ∧ stats_of c1 = stats_of c ∧ c_surname c1 = c_surname c ∧ c_disciplineTimestamp c1 = c_disciplineTimestamp c ∧ c_skills c1 = s1 ∧
    slots (c_inventory c1) = mkSlot InvSlot_Cursor 0 0 None :: omap (slot_of_row proto) items ∧
    c_spellbook c1 = fold_left (λ book row, spellbook_add_memorized_from_database (u32 row.1.1) (u32 row.1.2) (u64 row.2) book) memmed
      (fold_left (λ book row, spellbook_add_from_database (u32 row.1) (u32 row.2) book) spells (c_spellbook c)) ∧
    c_bindPoints c1 = c_bindPoints (load_bind_points bindJunk binds c') ∧ c_bindPoints c' = c_bindPoints c.
Proof.
  intros Hs Hi Hl. unfold reload_lists, load_skills. rewrite Hs. run.
  destruct (load_items_slots proto items (c <| c_skills := s1 |>)) as (inv & Hload & Hslots); [exact Hi|done|]. rewrite Hload.
  set (ce := load_memmed_spells _ _). destruct (load_binds_only bindJunk binds ce) as [l Hl']. exists (ce <| c_bindPoints := l |>), ce. rewrite Hl'.
  by split_and!.
Qed.

Section restore.
Context (junk : SaveJunk) (zoneId instanceId : Z) (c : Client) (isAutoSave : bool).
Let save := snd (client_save junk zoneId instanceId c isAutoSave).

Lemma stats_restored creation c0 : stats_ok c →
  stats_of (load_stats (stats_columns (character_row save) creation) c0) = stats_of c ∧
  c_surname (load_stats (stats_columns (character_row save) creation) c0) = Some (take 31 (client_surname_cstr c)) ∧
  c_disciplineTimestamp (load_stats (stats_columns (character_row save) creation) c0) = u64 (i64 (junk_discipline junk)).
Proof.
  intros [(B1 & B2 & B3 & B4 & B5 & B6 & B7) (S1 & S2 & S3) (P1 & P2 & P3) (W1 & W2 & W3) ((A1 & A2 & A3 & A4) & (K1 & K2 & K3 & K4) & (N1 & N2 & N3 & N4))].
  split; [|done]. unfold is_int in *. unfold stats_of. cbn. rewrite ?P1, ?P2, ?P3, !unsigned_again by done. rewrite !wrap_small by done. by destruct (c_isGM c).
Qed.

(** The skills a client of this class, level and race starts with. *)
Definition fresh_skills : Skills := skills_init (mob_class (c_mob c)) (mob_level (c_mob c)) (mob_base_race (c_mob c)) skills_preinit.

Lemma skills_before_rows creation c0 : stats_ok c → c_skills c0 = skills_preinit →
  c_skills (load_stats (stats_columns (character_row save) creation) c0) = fresh_skills.
Proof.
  intros [(B1 & B2 & _) (S1 & _) _ _ _] H0. unfold fresh_skills. rewrite <-H0. cbn. by rewrite !wrap_small.
Qed.

Lemma inventory_rows_short : (length (inventory_rows save) ≤ length (slots (c_inventory c)))%nat.
Proof.
  unfold inventory_rows, rows_of. etransitivity; [apply omap_shorter|]. rewrite length_imap. apply Nat.eq_le_incl. exact (length_fmap _ _).
Qed.

(** A client as its queries and the game leave it. *)
Record saveable (proto : Z → option nat) : Prop := {
  sv_stats : stats_ok c;
  sv_skills : skills_ok (c_skills c);
  sv_memmed : memmed_ok (memorized (c_spellbook c));
  sv_spells : Forall spell_ok (spellbook_array (c_spellbook c));
  sv_binds : length (c_bindPoints c) = 5%nat ∧ Forall bind_ok (c_bindPoints c);
  sv_items : Forall (item_ok proto) (slots (c_inventory c)) ∧ Z.of_nat (length (slots (c_inventory c))) < 2 ^ 31 - 1;
}.

(** What the reloaded client has in common with the saved one, and what it has
    instead: the timestamp of its discipline is what the memory of the save held
    before, and a skill whose number is that of a trained language may be at the
    language's value (the common tongue, which every character speaks, has the
    number of 1HBlunt). *)
Record restored (bindJunk : Z) (c1 : Client) : Prop := {
  rs_stats : stats_of c1 = stats_of c;
  rs_surname : c_surname c1 = Some (take 31 (client_surname_cstr c));
  rs_languages i v : language (c_skills c) !! i = Some v →
    language (c_skills c1) !! i = if decide (trained v) then Some v else language fresh_skills !! i;
  rs_skills i v : skill (c_skills c) !! i = Some v → (∀ l, language (c_skills c) !! i = Some l → ¬ trained l) →
    skill (c_skills c1) !! i = if decide (trained v) then Some v else skill fresh_skills !! i;
  rs_overwritten i v l : skill (c_skills c) !! i = Some v → language (c_skills c) !! i = Some l → trained l →
    skill (c_skills c1) !! i = Some l ∨ trained v ∧ skill (c_skills c1) !! i = Some v;
  rs_discipline : c_disciplineTimestamp c1 = u64 (i64 (junk_discipline junk));
  rs_memmed : memorized (c_spellbook c1) = remembered <$> memorized (c_spellbook c);
  rs_spells : spellbook_array (c_spellbook c1) ≡ₚ spellbook_array (c_spellbook c);
  rs_binds : c_bindPoints c1 = c_bindPoints (client_fill_in_missing_bind_points bindJunk c);
  rs_items : slots (c_inventory c1) ≡ₚ mkSlot InvSlot_Cursor 0 0 None :: filter (λ s, itemId s ≠ 0) (slots (c_inventory c));
}.
End restore.

(** C7: A character that is saved and loaded again, whatever the order in
    which the database returns its rows, has its numbers, coins, spells,
    memorized spells, bind points and items back, and every language and skill
    that was trained; what was not trained is as for a new character. A skill
    is excepted when the language with its number is trained. *)
Theorem saved_client_is_restored (junk : SaveJunk) (zoneId instanceId bindJunk creation : Z) (isAutoSave : bool) (proto : Z → option nat) (c : Client)
    (zone : nat) (zoning : ClientZoning) (skills : list (Z * Z)) (items : list InventoryRow) (spells : list (Z * Z)) (memmed : list (Z * Z * Z)) (binds : list BindRow)
    (Hc : saveable c proto) :
  let save := snd (client_save junk zoneId instanceId c isAutoSave) in
  skills ≡ₚ skill_rows save → items ≡ₚ inventory_rows save → spells ≡ₚ spell_rows save → memmed ≡ₚ memmed_rows save → binds ≡ₚ bind_rows save →
  ∃ c1, reload proto bindJunk creation (character_row save) skills items spells memmed binds (client_init zone zoning) = Ok c1 ∧ restored junk c bindJunk c1.
Proof.
  cbv zeta. destruct Hc as [H1 H2 H3 H4 [H5 H5'] [H6 H6']]. intros Hs Hi Hsp Hm Hb. set (c0 := client_init zone zoning).
  destruct (stats_restored junk zoneId instanceId c isAutoSave creation c0 H1) as (Hst & Hsn & Hdis).
  set (save := snd (client_save junk zoneId instanceId c isAutoSave)) in *. unfold reload.
  set (ca := load_stats (stats_columns (character_row save) creation) c0) in *.
  assert (Hfresh : c_skills ca = fresh_skills c) by (by apply skills_before_rows).
  destruct (load_stats_keeps (stats_columns (character_row save) creation) c0) as (Kb & Kp & Ki & _). fold ca in Kb, Kp, Ki.
  change (c_spellbook c0) with no_spellbook in Kb. change (c_bindPoints c0) with (replicate 5 no_bind_point) in Kp. change (c_inventory c0) with inventory_init in Ki.
  clearbody ca.
  assert (Hlen : length (skill (fresh_skills c)) = 74%nat ∧ length (language (fresh_skills c)) = 24%nat).
  { unfold fresh_skills. destruct (skills_init_lengths (mob_class (c_mob c)) (mob_level (c_mob c)) (mob_base_race (c_mob c)) skills_preinit) as [-> ->]. done. }
  assert (Hil : Z.of_nat (length items) < 2 ^ 31 - 1).
  { rewrite Hi. eapply Z.le_lt_trans; [|exact H6']. apply Nat2Z.inj_le, inventory_rows_short. }
  pose proof (skills_fold skills (fresh_skills c) (skill_rows_known (c_skills c) (fresh_skills c) skills H2 Hlen Hs)) as Hf. rewrite <-Hfresh in Hf at 1.
  destruct (reload_lists_ok proto bindJunk skills items spells memmed binds ca _ Hf Ki Hil) as (c1 & c' & Hr & R1 & R2 & Rd & R3 & R4 & R5 & R6 & R7).
  exists c1. split; [exact Hr|]. destruct (spells_fold spells no_spellbook) as [Hk Hk']. rewrite Kb in R5. split.
  - by rewrite R1.
  - by rewrite R2.
  - intros i v Hv. rewrite R3. exact (languages_restored (c_skills c) (fresh_skills c) skills H2 Hlen Hs i v Hv).
  - intros i v Hv Hno. rewrite R3. exact (skills_restored (c_skills c) (fresh_skills c) skills H2 Hlen Hs i v Hv Hno).
  - intros i v l Hv Hlang Ht. rewrite R3. exact (skills_overwritten (c_skills c) (fresh_skills c) skills H2 Hlen Hs i v l Hv Hlang Ht).
  - by rewrite Rd.
  - rewrite R5. by apply memmed_restored.
  - rewrite R5. unfold spellbook_array at 1. rewrite memmed_known. fold (spellbook_array (fold_left (λ book row, spellbook_add_from_database (u32 row.1) (u32 row.2) book) spells no_spellbook)).
    rewrite Hk. cbn [spellbook_array knownSpells no_spellbook default app]. apply spells_restored; [done|]. etransitivity; [exact Hsp|]. unfold spell_rows. f_equiv.
    change (cs_spellbook save) with (if spellbook_is_empty (c_spellbook c) then [] else spellbook_array (c_spellbook c)).
    unfold spellbook_is_empty, spellbook_array. by destruct (knownSpells (c_spellbook c)).
  - rewrite R6. apply binds_restored; [done..|]. by rewrite R7.
  - rewrite R4. constructor. rewrite Hi. by rewrite <-(items_saved junk proto (slots (c_inventory c)) H6).
Qed.

(** A cleric who speaks the common tongue and has trained 2HBlunt to 40. *)
Definition saved_cleric : Client :=
  client_init 1 (mkZoning 0 0 7 true true (text "acct") (text "Soandso"))
    <| c_skills := mkSkills (<[30%nat := 40]> (skill skills_preinit)) (language skills_preinit) |>
    <| c_coins := mkCoin 1 2 3 4000000000 |> <| c_bindPoints := replicate 5 (mkBind 1 0 (mkLoc 1 2 3 4)) |>
    <| c_spellbook := mkSpellbook (Some [mkSpell 0 200; mkSpell 1 201]) (mkMemorized 200 1000 77 :: replicate 8 (mkMemorized 0 0 0)) |>
    <| c_inventory := mkInventory 1 (-1) (-1) (-1) [mkSlot 30 0 0 None; mkSlot 13 0 1001 (Some (mkItem 9 0 1 false false))] None |>.
Definition cleric_items (id : Z) : option nat := if id =? 1001 then Some 9%nat else None.

Lemma saved_cleric_saveable : saveable saved_cleric cleric_items.
Proof.
  split.
  - split; unfold coin_words, is_word, is_int; split_and!; by vm_compute.
  - split_and!; try done; apply (bool_decide_unpack _); by vm_compute.
  - split; [done|]. repeat constructor; unfold is_word; simpl; lia.
  - repeat constructor; unfold is_word; simpl; lia.
  - split; [done|]. repeat constructor; unfold is_word; simpl; lia.
  - split; [|simpl; lia]. change (slots (c_inventory saved_cleric)) with [mkSlot 30 0 0 None; mkSlot 13 0 1001 (Some (mkItem 9 0 1 false false))].
    rewrite !Forall_cons. unfold item_ok, is_word. simpl. split_and!; try lia; [|by constructor].
    intros _. eexists. split; [done|]. simpl. split_and!; try lia; done.
Qed.

Example saved_client_is_restored_witness :
  let save := snd (client_save (mkSaveJunk 1 2 3) 1 0 saved_cleric true) in
  ∃ c1, reload cleric_items 0 0 (character_row save) (reverse (skill_rows save)) (inventory_rows save) (spell_rows save) (memmed_rows save) (bind_rows save)
      (client_init 1 (mkZoning 0 0 7 true true (text "acct") (text "Soandso"))) = Ok c1 ∧
    restored (mkSaveJunk 1 2 3) saved_cleric 0 c1.
Proof.
  apply (saved_client_is_restored (mkSaveJunk 1 2 3) 1 0 0 0 true cleric_items saved_cleric 1 _ _ _ _ _ _ saved_cleric_saveable); try reflexivity.
  apply reverse_Permutation.
Defined.

(** A trained language overwrites the skill of its number: read back in the
    order they were written, the rows leave the skill at the language's value. *)
Theorem language_overwrites_skill (s s0 : Skills) (i : nat) (l : Z) (Hs : skills_ok s) (H0 : length (skill s0) = 74%nat ∧ length (language s0) = 24%nat)
    (Hl : language s !! i = Some l) (Ht : trained l) :
  ∃ s1, load_rows (λ row, skills_set_from_db (u32 row.1) (u32 row.2))
      (rows_of (skill_row 0) (skill s) ++ rows_of (skill_row EQP_DB_LANGUAGE_SKILL_OFFSET) (language s)) (Ok s0) = Ok s1 ∧ skill s1 !! i = Some l.
Proof.
  eexists. split; [apply skills_fold; by eapply (skill_rows_known s s0)|]. cbn [skill].
  assert (Hlt : (i < 24)%nat) by (destruct Hs as (_ & <- & _); by eapply lookup_lt_Some).
  unfold insert_rows. rewrite fold_left_app. fold (insert_rows skill_key skill_value (rows_of (skill_row 0) (skill s)) (skill s0)).
  fold (insert_rows skill_key skill_value (rows_of (skill_row EQP_DB_LANGUAGE_SKILL_OFFSET) (language s))
    (insert_rows skill_key skill_value (rows_of (skill_row 0) (skill s)) (skill s0))).
  destruct Hs as (_ & _ & _ & B). rewrite Forall_lookup in B. apply insert_rows_at.
  - rewrite insert_rows_length. lia.
  - exists (Z.of_nat i + EQP_DB_LANGUAGE_SKILL_OFFSET, l). split.
    + apply rows_of_elem. exists i, l. split; [done|]. apply skill_row_some; [by eapply B|done].
    + unfold skill_key. simpl. rewrite (proj2 (Z.leb_le _ _)) by lia. lia.
  - intros r (j & v & Hj & Hr)%rows_of_elem Hk. apply skill_row_some in Hr as [Htv ->]; [|by eapply B]. unfold skill_key in Hk. simpl in Hk.
    rewrite (proj2 (Z.leb_le _ _)) in Hk by lia. assert (j = i) as -> by lia. simplify_eq. by apply value_back.
Qed.

(** The cleric's 1HBlunt, never trained, becomes as good as its common tongue. *)
Example language_overwrites_skill_witness : ∃ s1, load_rows (λ row, skills_set_from_db (u32 row.1) (u32 row.2))
    (rows_of (skill_row 0) (skill skills_preinit) ++ rows_of (skill_row EQP_DB_LANGUAGE_SKILL_OFFSET) (language skills_preinit)) (Ok skills_preinit) = Ok s1 ∧
  skill s1 !! Skill_1HBlunt = Some 100.
Proof.
  apply (language_overwrites_skill skills_preinit skills_preinit Skill_1HBlunt 100).
  - split_and!; try done; apply (bool_decide_unpack _); by vm_compute.
  - done.
  - done.
  - unfold trained, EQP_SKILL_MAX_VALUE. lia.
Defined.
