(* ===== verification/Master.v ===== *)
(** The master process: the processes it starts and watches, which zone
    cluster runs which zone, and the admission of characters into zones
    (master/eqp_master.c, child_process.c, zone_cluster.c,
    zone_cluster_manager.c, client.c, client_manager.c, master_ipc.c,
    item_shm_loader.c; structs of common/sync/server_structs.h).

    Zone clusters are freed at shutdown only, so a ZoneCluster* is its position
    in the list of all of them; clients have addresses, which are given. A
    process's IPC buffer is the packets written to it. Starting a process, the
    clock, the database's answers, the old content of the stack and console
    commands, which run scripts, are arguments. One thread runs at a time: each
    holds the mutex while it touches this state. *)

From S2P Require Import Prelude Fields Aligned Text EqpString HashTable ZoneId Servers ZoneClient ZoneCluster.

Definition EQP_ZONE_CLUSTER_DEFAULT_ZONES_PER_PROCESS : Z := 8.
Definition EQP_ZONE_CLUSTER_PORT_RANGE_START : Z := 7000.
Definition EQP_CHILD_PROC_TIMEOUT_MILLISECONDS : Z := 15000.
Definition EQP_IPC_PACKET_MAX_SIZE : Z := 4096.
Definition EQP_SOURCE_ID_ZONE_CLUSTER_OFFSET : Z := 1000000.
Definition EQP_SOURCE_ID_PROCESS_OFFSET : Z := 2000000.
Definition EQP_SOURCE_ID_MASTER : Z := 2000001.
Definition EQP_SOURCE_ID_CHAR_SELECT : Z := 2000002.
Definition EQP_SOURCE_ID_LOGIN : Z := 2000003.
Definition EQP_SOURCE_ID_LOG_WRITER : Z := 2000004.
Definition EQP_SOURCE_ID_CONSOLE : Z := 2000005.
Definition ServerOp_LogClose : Z := 4.
Definition ServerOp_ConsoleMessage : Z := 7.
Definition ServerOp_ClientZoningReject : Z := 10.
Definition ServerOp_ZoneAddress : Z := 11.

(** ** State *)
Record ChildProcess := mkProc {
  pr_ipc : bool;                       (* whether the buffer is there *)
  pr_sent : list (Z * Z * list Z);     (* opcode, source id, data *)
  pr_lastActivityTimestamp : Z;
  pr_creationTimestamp : Z;
  pr_pid : Z;
}.
#[export] Instance ChildProcess_settable : Settable ChildProcess :=
  (built mkProc <*> pr_ipc <*> pr_sent <*> pr_lastActivityTimestamp <*> pr_creationTimestamp <*> pr_pid)%fields.

Record ZoneCluster := mkCluster {
  zc_proc : ChildProcess;
  zc_portHostByteOrder : Z;
  zc_id : Z;
  zc_maxZones : Z;
  zc_reservedZones : Z;
  zc_zoneCount : Z;
}.
#[export] Instance ZoneCluster_settable : Settable ZoneCluster :=
  (built mkCluster <*> zc_proc <*> zc_portHostByteOrder <*> zc_id <*> zc_maxZones <*> zc_reservedZones <*> zc_zoneCount)%fields.

Record ZoneReservation := mkReservation { rs_sourceId : Z; rs_alwaysUp : bool; rs_zoneCluster : nat }.

(** The client of a character that zones. *)
Record MasterClient := mkMasterClient {
  mc_characterId : Z; mc_accountId : Z; mc_ipAddress : Z; mc_zoneId : Z; mc_instanceId : Z; mc_isLocal : bool;
  mc_isFromCharSelect : bool; mc_zoneCluster : option nat; mc_name : list Z; mc_accountName : list Z;
}.
#[export] Instance MasterClient_settable : Settable MasterClient :=
  (built mkMasterClient <*> mc_characterId <*> mc_accountId <*> mc_ipAddress <*> mc_zoneId <*> mc_instanceId <*> mc_isLocal
  <*> mc_isFromCharSelect <*> mc_zoneCluster <*> mc_name <*> mc_accountName)%fields.

Record ClientByIds := mkByIds { by_characterId : Z; by_accountId : Z; by_ipAddress : Z; by_client : nat }.

Record Master := mkMaster {
  m_procCharSelect : ChildProcess;
  m_procLogWriter : ChildProcess;
  m_procLogin : ChildProcess;
  m_items : option (Z * list Z);             (* length and path of the items' shared memory, when it is open *)
  m_zoneClusterProcs : list ZoneCluster;
  m_maxZonesPerCluster : Z;
  m_nextZoneClusterPort : Z;
  m_activeZoneClusters : list nat;
  m_zoneClustersBySourceId : list (Z * nat);
  m_zoneReservations : list ZoneReservation;
  m_zoneShortNameMap : HashTable EString Z;
  m_messageOfTheDay : option (list Z);       (* NULL until the database answers *)
  m_remoteAddress : list Z;
  m_localAddress : list Z;
  m_eqTimeBaseUnixSeconds : Z;
  m_clients : list ClientByIds;
  m_clientsByName : gmap (list Z) nat;
  m_memory : gmap nat MasterClient;
  m_queries : list (nat * Z * list Z);       (* client, account id and name it asks for *)
}.
#[export] Instance Master_settable : Settable Master :=
  (built mkMaster <*> m_procCharSelect <*> m_procLogWriter <*> m_procLogin <*> m_items <*> m_zoneClusterProcs <*> m_maxZonesPerCluster
  <*> m_nextZoneClusterPort <*> m_activeZoneClusters <*> m_zoneClustersBySourceId <*> m_zoneReservations <*> m_zoneShortNameMap
  <*> m_messageOfTheDay <*> m_remoteAddress <*> m_localAddress <*> m_eqTimeBaseUnixSeconds <*> m_clients <*> m_clientsByName
  <*> m_memory <*> m_queries)%fields.

Definition cluster_at (zc : nat) : code Master ZoneCluster := λ s, (deref (m_zoneClusterProcs s !! zc), s).
Definition put_cluster (zc : nat) (c : ZoneCluster) (s : Master) : Master := s <| m_zoneClusterProcs := <[zc := c]> (m_zoneClusterProcs s) |>.
Definition upd_cluster (zc : nat) (f : ZoneCluster → ZoneCluster) : code Master unit := c ← cluster_at zc; modify (put_cluster zc (f c)).
Definition mclient_at (a : nat) : code Master MasterClient := λ s, (deref (m_memory s !! a), s).
Definition upd_mclient (a : nat) (f : MasterClient → MasterClient) : code Master unit :=
  c ← mclient_at a; modify (λ s, s <| m_memory := <[a := f c]> (m_memory s) |>).

(** ** Child processes *)
Definition proc_init : ChildProcess := mkProc false [] 0 0 0.
Definition proc_deinit (p : ChildProcess) : ChildProcess := if pr_ipc p then p <| pr_ipc := false |> <| pr_pid := 0 |> else p.
Definition proc_create_ipc_buffer (p : ChildProcess) : ChildProcess := p <| pr_ipc := true |> <| pr_sent := [] |>.

(** The time is kept in 32 bits here, and in 64 by proc_update_last_activity_time. *)
Definition proc_start (now pid : Z) (p : ChildProcess) : ChildProcess :=
  p <| pr_pid := pid |> <| pr_lastActivityTimestamp := u32 now |> <| pr_creationTimestamp := u32 now |>.

(** ipc_buffer_write cuts a packet off at the size of a block. *)
Definition proc_ipc_send (opcode sourceId : Z) (data : list Z) (p : ChildProcess) : ChildProcess :=
  if pr_ipc p then p <| pr_sent := pr_sent p ++ [(opcode, sourceId, take (Z.to_nat EQP_IPC_PACKET_MAX_SIZE) data)] |> else p.

Definition proc_kill (p : ChildProcess) : ChildProcess := proc_deinit p.
Definition proc_update_last_activity_time (now : Z) (p : ChildProcess) : ChildProcess := p <| pr_lastActivityTimestamp := now |>.

(** What the operating system makes of a start; exceptions are handled. *)
Inductive start_result := NoSharedMemory | NoFork | Forked (pid : Z).

Definition master_start_process (now : Z) (result : start_result) (p : ChildProcess) : ChildProcess :=
  match result with
  | NoSharedMemory => p
  | NoFork => proc_create_ipc_buffer p
  | Forked pid => proc_start now pid (proc_create_ipc_buffer p)
  end.

(** A path of 1020 bytes or more would have the buffer read past its end. *)
Definition item_shm_loader_send_details (items : option (Z * list Z)) (p : ChildProcess) : outcome ChildProcess :=
  match items with
  | None => Ok p
  | Some (length_, path) =>
      if (1020 <=? length path)%nat then Fault
      else Ok (proc_ipc_send ServerOp_ItemSharedMemoryOpen EQP_SOURCE_ID_MASTER (le_bytes 4 length_ ++ path ++ [0]) p)
  end.

Definition master_start_char_select (now : Z) (result : start_result) : code Master unit :=
  s ← get;
  p ← lift (item_shm_loader_send_details (m_items s) (master_start_process now result (m_procCharSelect s)));
  modify (λ s, s <| m_procCharSelect := p |>).

Definition master_start_login (now : Z) (result : start_result) : code Master unit :=
  modify (λ s, s <| m_procLogin := master_start_process now result (m_procLogin s) |>).

(** A restarted process is not told about the items. *)
Definition master_restart_proc (now sourceId : Z) (result : start_result) (get_proc : Master → ChildProcess)
    (set_proc : ChildProcess → Master → Master) : code Master unit :=
  modify (λ s, s <| m_procLogWriter := proc_ipc_send ServerOp_LogClose sourceId [] (m_procLogWriter s) |>) ;;
  p ← gets get_proc;
  modify (set_proc (master_start_process now result (proc_kill p))).

(** Differences of time stamps are unsigned. *)
Definition non_responsive (now : Z) (p : ChildProcess) : bool := EQP_CHILD_PROC_TIMEOUT_MILLISECONDS <=? u64 (now - pr_lastActivityTimestamp p).

Definition master_check_child_procs_status (now : Z) (login charSelect : start_result) : code Master unit :=
  p ← gets m_procLogin;
  (if non_responsive now p then
     master_restart_proc now EQP_SOURCE_ID_LOGIN login m_procLogin (λ p s, s <| m_procLogin := p |>)
   else mret tt) ;;
  p ← gets m_procCharSelect;
  if non_responsive now p then
    master_restart_proc now EQP_SOURCE_ID_CHAR_SELECT charSelect m_procCharSelect (λ p s, s <| m_procCharSelect := p |>)
  else mret tt.

(** Which of the processes a source id names. *)
Definition proc_field (sourceId : Z) : option ((Master → ChildProcess) * (ChildProcess → Master → Master)) :=
  if sourceId =? EQP_SOURCE_ID_LOG_WRITER then Some (m_procLogWriter, λ p s, s <| m_procLogWriter := p |>)
  else if sourceId =? EQP_SOURCE_ID_LOGIN then Some (m_procLogin, λ p s, s <| m_procLogin := p |>)
  else if sourceId =? EQP_SOURCE_ID_CHAR_SELECT then Some (m_procCharSelect, λ p s, s <| m_procCharSelect := p |>)
  else None.
Definition master_get_child_process (sourceId : Z) (s : Master) : option ChildProcess := (λ f, f.1 s) <$> proc_field sourceId.

(** ** Zone clusters *)
Section Clusters.
Context (now : Z) (result : start_result).

(** The process is started and told about the items; the cluster is then listed. *)
Definition zone_cluster_create (id port maxZones : Z) : code Master nat :=
  s ← get;
  p ← lift (item_shm_loader_send_details (m_items s) (master_start_process now result proc_init));
  modify (λ s, s <| m_zoneClusterProcs := m_zoneClusterProcs s ++ [mkCluster p port id maxZones 0 0] |>) ;;
  mret (length (m_zoneClusterProcs s)).

Definition zone_cluster_ipc_send (zc : nat) (opcode sourceId : Z) (data : list Z) : code Master unit :=
  upd_cluster zc (λ c, c <| zc_proc := proc_ipc_send opcode sourceId data (zc_proc c) |>).
Definition zone_cluster_start_zone (zc : nat) (sourceId : Z) : code Master unit := zone_cluster_ipc_send zc ServerOp_StartZone sourceId [].

Definition zone_cluster_has_free_space (c : ZoneCluster) : bool := zc_zoneCount c <? zc_maxZones c - zc_reservedZones c.
Definition zone_cluster_set_max_zones (zc : nat) (maxZones : Z) : code Master unit := upd_cluster zc (λ c, c <| zc_maxZones := maxZones |>).
Definition zone_cluster_increment_zone_count (zc : nat) : code Master unit :=
  upd_cluster zc (λ c, c <| zc_zoneCount := u16 (zc_zoneCount c + 1) |>).
Definition zone_cluster_increment_reserved_zones (zc : nat) : code Master unit :=
  upd_cluster zc (λ c, c <| zc_reservedZones := u16 (zc_reservedZones c + 1) |>).

Definition zc_mgr_get (sourceId : Z) (s : Master) : option nat :=
  match list_find (λ z, z.1 = sourceId) (m_zoneClustersBySourceId s) with Some (_, z) => Some z.2 | None => None end.

Definition zc_mgr_start_zone_on_cluster (zc : nat) (sourceId : Z) : code Master unit :=
  zone_cluster_increment_zone_count zc ;;
  zone_cluster_start_zone zc sourceId ;;
  modify (λ s, s <| m_zoneClustersBySourceId := m_zoneClustersBySourceId s ++ [(sourceId, zc)] |>).

Definition zc_mgr_start_zone_from_reserved_list (zoneSourceId : Z) : code Master (option nat) :=
  reservations ← gets m_zoneReservations;
  match list_find (λ res, rs_sourceId res = zoneSourceId) reservations with
  | Some (_, res) => zc_mgr_start_zone_on_cluster (rs_zoneCluster res) zoneSourceId ;; mret (Some (rs_zoneCluster res))
  | None => mret None
  end.

(** The first cluster of the list with space; a pointer to no cluster is undefined. *)
Fixpoint find_free (clusters : list ZoneCluster) (active : list nat) : outcome (option nat) :=
  match active with
  | [] => Ok None
  | zc :: active =>
      c ← deref (clusters !! zc);
      if zone_cluster_has_free_space c then Ok (Some zc) else find_free clusters active
  end.

Definition zc_mgr_start_zone_from_free_space (zoneSourceId : Z) : code Master (option nat) :=
  s ← get;
  found ← lift (find_free (m_zoneClusterProcs s) (m_activeZoneClusters s));
  match found with
  | Some zc => zc_mgr_start_zone_on_cluster zc zoneSourceId ;; mret (Some zc)
  | None => mret None
  end.

Definition zc_mgr_start_zone_cluster : code Master nat :=
  s ← get;
  let id := u16 (Z.of_nat (length (m_activeZoneClusters s))) in
  let port := m_nextZoneClusterPort s in
  modify (λ s, s <| m_nextZoneClusterPort := u16 (port + 1) |>) ;;
  zc ← zone_cluster_create id port (m_maxZonesPerCluster s);
  modify (λ s, s <| m_activeZoneClusters := m_activeZoneClusters s ++ [zc] |>) ;;
  modify (λ s, s <| m_zoneClustersBySourceId := m_zoneClustersBySourceId s ++ [(id + EQP_SOURCE_ID_ZONE_CLUSTER_OFFSET, zc)] |>) ;;
  mret zc.

Definition zc_mgr_get_or_start (zoneSourceId : Z) : code Master nat :=
  running ← gets (zc_mgr_get zoneSourceId);
  match running with
  | Some zc => mret zc
  | None =>
      reserved ← zc_mgr_start_zone_from_reserved_list zoneSourceId;
      match reserved with
      | Some zc => mret zc
      | None =>
          free ← zc_mgr_start_zone_from_free_space zoneSourceId;
          match free with
          | Some zc => mret zc
          | None =>
              zc ← zc_mgr_start_zone_cluster;
              zc_mgr_start_zone_on_cluster zc zoneSourceId ;;
              mret zc
          end
      end
  end.

Definition zc_mgr_set_max_zones_per_cluster (maxPer : Z) : code Master unit := modify (λ s, s <| m_maxZonesPerCluster := maxPer |>).

(** Called by the configuration script. *)
Definition zc_mgr_add_zone_reservation (zc : nat) (shortName : option (list Z)) (zoneId instanceId : Z) (alwaysUp : bool) : code Master unit :=
  s ← get;
  sourceId ← lift (if negb (zoneId =? 0) then Ok zoneId
    else match shortName with
         | Some name => zone_id_by_short_name (m_zoneShortNameMap s) name (Z.of_nat (length name))
         | None => Ok 0
         end);
  if (sourceId <=? 0) || (EQP_SOURCE_ID_ZONE_MAX <? sourceId) || (instanceId <? 0) || (EQP_SOURCE_ID_ZONE_INSTANCE_MAX <? instanceId)
  then mret tt
  else
    let sourceId := sourceId + instanceId * EQP_SOURCE_ID_ZONE_INSTANCE_OFFSET in
    modify (λ s, s <| m_zoneReservations := m_zoneReservations s ++ [mkReservation sourceId alwaysUp zc] |>) ;;
    zone_cluster_increment_reserved_zones zc ;;
    if alwaysUp then zc_mgr_start_zone_on_cluster zc sourceId else mret tt.

(** ** Characters that zone in *)

(** [isFromCharSelect] is not set: it is what the allocation held. *)
Definition master_client_create (isFromCharSelect : bool) (zoning : ClientZoning) : MasterClient :=
  mkMasterClient 0 (zn_accountId zoning) (zn_ipAddress zoning) 0 0 (zn_isLocal zoning) isFromCharSelect None
    (take 31 (zn_characterName zoning)) (take 63 (zn_accountName zoning)).

Definition client_zone_source_id (c : MasterClient) : Z := mc_zoneId c + mc_instanceId c * EQP_SOURCE_ID_ZONE_INSTANCE_OFFSET.

Definition number_bool (b : bool) : Z := if b then 1 else 0.

(** Server_ClientZoning; [junk] is the stack behind its strings. *)
Definition zoning_bytes (junk : list Z) (c : MasterClient) : list Z :=
  le_bytes 4 (mc_accountId c) ++ le_bytes 4 (mc_ipAddress c) ++ le_bytes 8 (mc_characterId c) ++
  le_bytes 4 (number_bool (mc_isLocal c)) ++ le_bytes 4 (number_bool (mc_isFromCharSelect c)) ++
  snprintf_field 64 (mc_accountName c) (take 64 (drop 24 junk)) ++ snprintf_field 32 (mc_name c) (take 32 (drop 88 junk)).

Definition zone_cluster_inform_of_client_zoning_in (junk : list Z) (zc : nat) (c : MasterClient) (sourceId : Z) : code Master unit :=
  zone_cluster_ipc_send zc ServerOp_ClientZoning sourceId (zoning_bytes junk c).

Definition client_mgr_ipc_char_select (opcode : Z) (data : list Z) : code Master unit :=
  modify (λ s, s <| m_procCharSelect := proc_ipc_send opcode EQP_SOURCE_ID_MASTER data (m_procCharSelect s) |>).

Definition store (offset : Z) (bytes buf : list Z) : list Z := overlay offset (Some <$> bytes) buf.

(** Server_ZoneAddress in the buffer [buf], with its padding as it is. *)
Definition zone_address_bytes (buf : list Z) (accountId : Z) (ip : list Z) (port : Z) (shortName : list Z) (baseTime : Z) (motd : list Z)
    (motdLen : Z) : list Z :=
  store 180 (take (Z.to_nat motdLen) motd ++ [0]) (store 176 (le_bytes 4 motdLen) (store 168 (le_bytes 8 baseTime)
    (store 134 (take 31 shortName ++ [0]) (store 132 (le_bytes 2 port) (store 4 (take 127 ip ++ [0]) (store 0 (le_bytes 4 accountId) buf)))))).

Definition SIZEOF_ZoneAddress_struct : Z := 184.

(** [junk] and [buf] are the stack. *)
Definition client_mgr_add_client_from_char_select (junk buf : list Z) (a : nat) : code Master unit :=
  s ← get;
  motd ← lift (deref (m_messageOfTheDay s));
  c ← mclient_at a;
  let motdLen := Z.of_nat (length motd) in
  let motdLen := if EQP_IPC_PACKET_MAX_SIZE <? motdLen + SIZEOF_ZoneAddress_struct
    then EQP_IPC_PACKET_MAX_SIZE - SIZEOF_ZoneAddress_struct - 1 else motdLen in
  let length_ := SIZEOF_ZoneAddress_struct + (motdLen + 1) in
  let zoneSourceId := client_zone_source_id c in
  zc ← zc_mgr_get_or_start zoneSourceId;
  upd_mclient a (λ c, c <| mc_zoneCluster := Some zc |>) ;;
  zone_cluster_inform_of_client_zoning_in junk zc c zoneSourceId ;;
  cluster ← cluster_at zc;
  client_mgr_ipc_char_select ServerOp_ZoneAddress
    (take (Z.to_nat length_) (zone_address_bytes buf (mc_accountId c) (if mc_isLocal c then m_localAddress s else m_remoteAddress s)
      (zc_portHostByteOrder cluster) (text (zone_short_name_by_id (mc_zoneId c))) (m_eqTimeBaseUnixSeconds s) motd motdLen)) ;;
  modify (λ s, s <| m_clients := m_clients s ++ [mkByIds (mc_characterId c) (mc_accountId c) (mc_ipAddress c) a] |>) ;;
  modify (λ s, s <| m_clientsByName := set_absent (m_clientsByName s) (mc_name c) a |>).

(** A row is a character's id, zone and instance. *)
Definition client_mgr_from_char_select_callback (junk buf : list Z) (a : nat) (rows : list (Z * Z * Z)) : code Master unit :=
  each rows (λ row,
    upd_mclient a (λ c, c <| mc_characterId := row.1.1 |> <| mc_zoneId := u16 row.1.2 |> <| mc_instanceId := u16 row.2 |>) ;;
    client_mgr_add_client_from_char_select junk buf a) ;;
  match rows with
  | [] =>
      c ← mclient_at a;
      client_mgr_ipc_char_select ServerOp_ClientZoningReject
        (le_bytes 4 (mc_accountId c) ++ snprintf_field 32 (text "qeynos") (take 32 (drop 4 junk))) ;;
      modify (λ s, s <| m_memory := delete a (m_memory s) |>)
  | _ => mret tt
  end.

(** The client is created at [a]. *)
Definition client_mgr_handle_zone_in_from_char_select (a : nat) (isFromCharSelect : bool) (data : list Z) : code Master unit :=
  if Z.of_nat (length data) <? SIZEOF_Server_ClientZoning then mret tt
  else
    zoning ← lift (zoning_of data);
    modify (λ s, s <| m_memory := <[a := master_client_create isFromCharSelect zoning]> (m_memory s) |>) ;;
    modify (λ s, s <| m_queries := m_queries s ++ [(a, zn_accountId zoning, zn_characterName zoning)] |>).

(** ** The IPC thread *)

(** [console] is console_receive: it runs a script, and answers whether the
    server shall shut down. The result is whether the thread ends. *)
Definition master_ipc_thread_handle_packet (console : Z → list Z → code Master bool) (a : nat) (isFromCharSelect : bool)
    (opcode sourceId : Z) (data : list Z) : code Master bool :=
  let handle : code Master bool :=
    if opcode =? ServerOp_ConsoleMessage then console sourceId data
    else if opcode =? ServerOp_ClientZoning then
      client_mgr_handle_zone_in_from_char_select a isFromCharSelect data ;; mret false
    else mret false in
  if sourceId =? EQP_SOURCE_ID_CONSOLE then console sourceId data
  else if EQP_SOURCE_ID_PROCESS_OFFSET <=? sourceId then
    match proc_field sourceId with
    | None => mret false
    | Some (get_proc, set_proc) =>
        p ← gets get_proc;
        if pr_ipc p then modify (set_proc (proc_update_last_activity_time now p)) ;; handle else mret false
    end
  else
    running ← gets (zc_mgr_get sourceId);
    match running with
    | None => mret false
    | Some zc =>
        c ← cluster_at zc;
        if pr_ipc (zc_proc c) then
          upd_cluster zc (λ c, c <| zc_proc := proc_update_last_activity_time now (zc_proc c) |>) ;; handle
        else mret false
    end.
End Clusters.
