(* ===== verification/MasterSpec.v ===== *)
(** Where zones run: the master process starts each zone once, on the cluster
    that reserved it or on one with space, and no cluster is given more zones
    than it may have (the model is Master.v). Then a character's way into a
    zone: what the master process tells char select and the zone's cluster is
    what they read, and after the cluster's process has handled it the character
    is expected in the zone. *)

From S2P Require Import Prelude Fields Array EqpString HashTable ZoneId Aligned Text Servers CharSelectTrilogy ZoneClient Zone.
From S2P Require Import ZoneCluster ZoneLoading Master.

(** ** Single steps *)
Lemma upd_cluster_ok zc f c s : m_zoneClusterProcs s !! zc = Some c → upd_cluster zc f s = (Ok tt, put_cluster zc (f c) s).
Proof. intros Hc. unfold upd_cluster, cluster_at. run. by rewrite Hc. Qed.

Definition with_zone (id : Z) (c : ZoneCluster) : ZoneCluster :=
  c <| zc_zoneCount := u16 (zc_zoneCount c + 1) |> <| zc_proc := proc_ipc_send ServerOp_StartZone id [] (zc_proc c) |>.
Definition started_on (zc : nat) (id : Z) (c : ZoneCluster) (s : Master) : Master :=
  put_cluster zc (with_zone id c) s <| m_zoneClustersBySourceId := m_zoneClustersBySourceId s ++ [(id, zc)] |>.

Lemma put_cluster_twice zc c c' s : put_cluster zc c (put_cluster zc c' s) = put_cluster zc c s.
Proof. unfold put_cluster. fields_simpl. cbn. by rewrite list_insert_insert_eq. Qed.

Lemma start_zone_ok zc id c s : m_zoneClusterProcs s !! zc = Some c →
  zc_mgr_start_zone_on_cluster zc id s = (Ok tt, started_on zc id c s).
Proof.
  intros Hc. unfold zc_mgr_start_zone_on_cluster, zone_cluster_increment_zone_count, zone_cluster_start_zone, zone_cluster_ipc_send.
  set (c1 := c <| zc_zoneCount := u16 (zc_zoneCount c + 1) |>).
  rewrite (bind_ok _ _ _ _ _ (upd_cluster_ok zc _ c s Hc)). fold c1.
  assert (Hc1 : m_zoneClusterProcs (put_cluster zc c1 s) !! zc = Some c1) by (apply list_lookup_insert_eq; by eapply lookup_lt_Some).
  rewrite (bind_ok _ _ _ _ _ (upd_cluster_ok zc _ c1 _ Hc1)), put_cluster_twice. reflexivity.
Qed.

(** ** The lists agree *)
Definition is_zone (e : Z * nat) : Prop := e.1 < EQP_SOURCE_ID_ZONE_CLUSTER_OFFSET.
#[export] Instance is_zone_dec e : Decision (is_zone e) := Z_lt_dec _ _.

(** The zones that run on a cluster, those that it reserved, and those that run
    there without a reservation. *)
Definition zones_on (s : Master) (zc : nat) : list Z := (filter (λ e, e.2 = zc) (filter is_zone (m_zoneClustersBySourceId s))).*1.
Definition reserved_on (s : Master) (zc : nat) : list Z := rs_sourceId <$> filter (λ r, rs_zoneCluster r = zc) (m_zoneReservations s).
Definition unreserved_on (s : Master) (zc : nat) : list Z := filter (λ id, id ∉ reserved_on s zc) (zones_on s zc).

Record fits (s : Master) (zc : nat) (c : ZoneCluster) : Prop := {
  ft_count : zc_zoneCount c = Z.of_nat (length (zones_on s zc));
  ft_reserved : zc_reservedZones c = Z.of_nat (length (reserved_on s zc));
  ft_room : Z.of_nat (length (unreserved_on s zc)) ≤ zc_maxZones c - zc_reservedZones c;
  ft_max : 0 ≤ zc_maxZones c < 2 ^ 16;
}.

Record placed (s : Master) : Prop := {
  pl_active : m_activeZoneClusters s = seq 0 (length (m_zoneClusterProcs s));
  pl_known e : e ∈ m_zoneClustersBySourceId s → (e.2 < length (m_zoneClusterProcs s))%nat;
  pl_reserved_known r : r ∈ m_zoneReservations s → (rs_zoneCluster r < length (m_zoneClusterProcs s))%nat;
  pl_once : NoDup (filter is_zone (m_zoneClustersBySourceId s)).*1;
  pl_reserved_once : NoDup (rs_sourceId <$> m_zoneReservations s);
  pl_fits zc c : m_zoneClusterProcs s !! zc = Some c → fits s zc c;
  pl_max : 1 ≤ m_maxZonesPerCluster s < 2 ^ 16;
  pl_items : match m_items s with Some (_, path) => (length path < 1020)%nat | None => True end;
}.

Lemma nodup_filter_fst (P : Z * nat → Prop) `{!∀ e, Decision (P e)} (l : list (Z * nat)) : NoDup l.*1 → NoDup (filter P l).*1.
Proof.
  induction l as [|e l IH]; [done|]. rewrite fmap_cons, NoDup_cons. intros [He Hl]. rewrite filter_cons. case_decide; [|by apply IH].
  rewrite fmap_cons, NoDup_cons. split; [|by apply IH]. intros (e' & Heq & [_ Hin]%list_elem_of_filter)%list_elem_of_fmap.
  apply He. rewrite Heq. by apply list_elem_of_fmap_2.
Qed.

Lemma zones_on_nodup s zc : placed s → NoDup (zones_on s zc).
Proof. intros Hp. apply nodup_filter_fst. exact (pl_once _ Hp). Qed.

(** Zones without a reservation leave room for all reserved ones. *)
Lemma zones_fit (zones reserved : list Z) : NoDup zones →
  (length zones ≤ length (filter (λ id, id ∉ reserved) zones) + length reserved)%nat.
Proof.
  intros Hn. rewrite <- (Permutation_length (filter_app_complement (λ id, id ∉ reserved) zones)), length_app.
  apply Nat.add_le_mono_l, submseteq_length, NoDup_submseteq; [by apply NoDup_filter|].
  intros id [Hid _]%list_elem_of_filter. by destruct (decide (id ∈ reserved)).
Qed.

(** A zone that is started on a cluster. *)
Lemma zones_on_started s zc id c k : is_zone (id, zc) →
  zones_on (started_on zc id c s) k = zones_on s k ++ (if decide (zc = k) then [id] else []).
Proof.
  intros Hid. unfold zones_on, started_on. cbn [m_zoneClustersBySourceId set_field]. fields_simpl. cbn.
  rewrite filter_app, (filter_singleton is_zone (id, zc) []), decide_True, filter_app, fmap_app, (filter_singleton _ _ []) by exact Hid. cbn.
  by destruct (decide (zc = k)).
Qed.

Lemma unreserved_started s zc id c k : is_zone (id, zc) →
  unreserved_on (started_on zc id c s) k = unreserved_on s k ++ (if decide (zc = k ∧ id ∉ reserved_on s k) then [id] else []).
Proof.
  intros Hid. unfold unreserved_on. change (reserved_on (started_on zc id c s) k) with (reserved_on s k).
  rewrite zones_on_started, filter_app by done. f_equal. destruct (decide (zc = k)) as [->|Hne].
  - rewrite (filter_singleton _ _ []). destruct (decide (id ∉ reserved_on s k)); [by rewrite decide_True|rewrite decide_False; [done|tauto]].
  - rewrite decide_False by tauto. done.
Qed.

(** Starting a zone that runs nowhere keeps the lists, where there is room for it. *)
Lemma started_placed s zc id c : placed s → is_zone (id, zc) → m_zoneClusterProcs s !! zc = Some c →
  id ∉ (filter is_zone (m_zoneClustersBySourceId s)).*1 →
  (id ∈ reserved_on s zc ∨ zone_cluster_has_free_space c = true) → placed (started_on zc id c s).
Proof.
  intros Hp Hid Hc Hnew Hroom. pose proof (lookup_lt_Some _ _ _ Hc) as Hlt.
  assert (Hlen : length (<[zc := with_zone id c]> (m_zoneClusterProcs s)) = length (m_zoneClusterProcs s)) by apply length_insert.
  assert (Honce : NoDup (filter is_zone (m_zoneClustersBySourceId s ++ [(id, zc)])).*1).
  { rewrite filter_app, (filter_singleton is_zone (id, zc) []), decide_True, fmap_app by exact Hid. apply NoDup_app. split; [exact (pl_once _ Hp)|].
    split; [|apply NoDup_singleton]. intros x Hx [= ->]%list_elem_of_singleton. by apply Hnew. }
  split.
  - cbn. rewrite Hlen. exact (pl_active _ Hp).
  - cbn. rewrite Hlen. intros e [He|He]%elem_of_app; [by apply (pl_known _ Hp)|]. by apply list_elem_of_singleton in He as ->.
  - cbn. rewrite Hlen. exact (pl_reserved_known _ Hp).
  - exact Honce.
  - exact (pl_reserved_once _ Hp).
  - intros k d Hd. cbn in Hd. destruct (decide (zc = k)) as [<-|Hne].
    + rewrite list_lookup_insert_eq in Hd by done. injection Hd as <-. destruct (pl_fits _ Hp _ _ Hc) as [Hn Hr Hu Hm].
      assert (Hu' : Z.of_nat (length (unreserved_on (started_on zc id c s) zc)) ≤ zc_maxZones c - zc_reservedZones c).
      { rewrite unreserved_started, length_app by done. case_decide as Hx; [|simpl; lia]. destruct Hroom as [Hin|Hfree]; [tauto|].
        apply Z.ltb_lt in Hfree. pose proof (length_filter (λ id, id ∉ reserved_on s zc) (zones_on s zc)) as Hf.
        fold (unreserved_on s zc) in Hf. simpl. lia. }
      assert (Hn' : Z.of_nat (length (zones_on (started_on zc id c s) zc)) ≤ zc_maxZones c).
      { pose proof (zones_fit (zones_on (started_on zc id c s) zc) (reserved_on s zc) (nodup_filter_fst _ _ Honce)) as Hf.
        change (filter _ _) with (unreserved_on (started_on zc id c s) zc) in Hf. lia. }
      rewrite zones_on_started, decide_True, length_app in Hn' by done. simpl in Hn'. split.
      * rewrite zones_on_started, decide_True, length_app by done. cbn. rewrite Hn, wrap_small by (unfold is_word; lia). lia.
      * exact Hr.
      * exact Hu'.
      * exact Hm.
    + rewrite list_lookup_insert_ne in Hd by done. destruct (pl_fits _ Hp _ _ Hd) as [Hn Hr Hu Hm]. split; [|exact Hr| |exact Hm].
      * rewrite zones_on_started, decide_False, app_nil_r by done. exact Hn.
      * rewrite unreserved_started, decide_False, app_nil_r by tauto. exact Hu.
  - exact (pl_max _ Hp).
  - exact (pl_items _ Hp).
Qed.

(** ** A new cluster *)
Definition new_process (now : Z) (result : start_result) (s : Master) : ChildProcess :=
  match item_shm_loader_send_details (m_items s) (master_start_process now result proc_init) with Ok p => p | _ => proc_init end.
Definition new_cluster (now : Z) (result : start_result) (s : Master) : ZoneCluster :=
  mkCluster (new_process now result s) (m_nextZoneClusterPort s) (u16 (Z.of_nat (length (m_activeZoneClusters s)))) (m_maxZonesPerCluster s) 0 0.
Definition with_cluster (now : Z) (result : start_result) (s : Master) : Master :=
  s <| m_nextZoneClusterPort := u16 (m_nextZoneClusterPort s + 1) |> <| m_zoneClusterProcs := m_zoneClusterProcs s ++ [new_cluster now result s] |>
    <| m_activeZoneClusters := m_activeZoneClusters s ++ [length (m_zoneClusterProcs s)] |>
    <| m_zoneClustersBySourceId := m_zoneClustersBySourceId s ++
       [(u16 (Z.of_nat (length (m_activeZoneClusters s))) + EQP_SOURCE_ID_ZONE_CLUSTER_OFFSET, length (m_zoneClusterProcs s))] |>.

Lemma start_cluster_ok now result s : placed s →
  zc_mgr_start_zone_cluster now result s = (Ok (length (m_zoneClusterProcs s)), with_cluster now result s).
Proof.
  intros Hp. pose proof (pl_items _ Hp) as Hi. unfold with_cluster, new_cluster, new_process, zc_mgr_start_zone_cluster, zone_cluster_create.
  unfold item_shm_loader_send_details. run. cbn [m_items set_field]. fields_simpl. cbn [m_items m_zoneClusterProcs m_activeZoneClusters].
  destruct (m_items s) as [[len path]|]; [|reflexivity]. rewrite (proj2 (Nat.leb_gt _ _)) by exact Hi. reflexivity.
Qed.

Lemma cluster_id_no_zone n zc : ¬ is_zone (u16 n + EQP_SOURCE_ID_ZONE_CLUSTER_OFFSET, zc).
Proof. unfold is_zone. cbn. pose proof (wrap_range 16 n ltac:(lia)). lia. Qed.

Lemma with_cluster_zones now result s : filter is_zone (m_zoneClustersBySourceId (with_cluster now result s)) = filter is_zone (m_zoneClustersBySourceId s).
Proof.
  change (m_zoneClustersBySourceId (with_cluster now result s)) with (m_zoneClustersBySourceId s ++
    [(u16 (Z.of_nat (length (m_activeZoneClusters s))) + EQP_SOURCE_ID_ZONE_CLUSTER_OFFSET, length (m_zoneClusterProcs s))]).
  rewrite filter_app, (filter_singleton _ _ []), decide_False, app_nil_r; [done|apply cluster_id_no_zone].
Qed.

Lemma no_entries_behind {A} (l : list A) (f : A → nat) n : (∀ x, x ∈ l → (f x < n)%nat) → filter (λ x, f x = n) l = [].
Proof.
  intros H. destruct (filter _ l) as [|x l'] eqn:He; [done|]. assert (Hx : x ∈ filter (λ x, f x = n) l) by (rewrite He; by left).
  apply list_elem_of_filter in Hx as [Hf Hin]. specialize (H x Hin). lia.
Qed.

Lemma with_cluster_placed now result s : placed s → placed (with_cluster now result s).
Proof.
  intros Hp. set (s' := with_cluster now result s).
  assert (Hl : length (m_zoneClusterProcs s') = S (length (m_zoneClusterProcs s))) by (unfold s'; cbn; rewrite length_app; simpl; lia).
  assert (Hz : ∀ k, zones_on s' k = zones_on s k) by (intros k; unfold zones_on; unfold s'; by rewrite with_cluster_zones).
  split.
  - rewrite Hl, seq_S, <- (pl_active _ Hp). reflexivity.
  - rewrite Hl. cbn. intros e [He|He]%elem_of_app; [pose proof (pl_known _ Hp e He); lia|]. apply list_elem_of_singleton in He as ->. simpl. lia.
  - rewrite Hl. intros r Hr. pose proof (pl_reserved_known _ Hp r Hr). lia.
  - unfold s'. rewrite with_cluster_zones. exact (pl_once _ Hp).
  - exact (pl_reserved_once _ Hp).
  - intros k c Hk. change (m_zoneClusterProcs s') with (m_zoneClusterProcs s ++ [new_cluster now result s]) in Hk.
    apply lookup_app_Some in Hk as [Hk|[Hge Hk]].
    + destruct (pl_fits _ Hp _ _ Hk) as [Hn Hr Hu Hm]. split; [by rewrite Hz|exact Hr| |exact Hm].
      unfold unreserved_on. rewrite Hz. exact Hu.
    + apply list_lookup_singleton_Some in Hk as [Hk <-]. assert (k = length (m_zoneClusterProcs s)) as -> by lia.
      assert (Hnz : zones_on s (length (m_zoneClusterProcs s)) = []).
      { unfold zones_on. rewrite no_entries_behind; [done|]. intros e [_ He]%list_elem_of_filter. by apply (pl_known _ Hp). }
      assert (Hnr : reserved_on s' (length (m_zoneClusterProcs s)) = []).
      { unfold reserved_on. rewrite no_entries_behind; [done|]. exact (pl_reserved_known _ Hp). }
      pose proof (pl_max _ Hp). split; [by rewrite Hz, Hnz|by rewrite Hnr| |cbn; lia].
      unfold unreserved_on. rewrite Hz, Hnz. cbn. lia.
  - exact (pl_max _ Hp).
  - exact (pl_items _ Hp).
Qed.

(** ** A request for a zone *)
Lemma list_find_none {A} (P : A → Prop) `{!∀ x, Decision (P x)} (l : list A) : list_find P l = None → ∀ x, x ∈ l → ¬ P x.
Proof. intros Hn%list_find_None. by apply Forall_forall. Qed.

Lemma not_running id s : zc_mgr_get id s = None → id ∉ (filter is_zone (m_zoneClustersBySourceId s)).*1.
Proof.
  unfold zc_mgr_get. destruct (list_find _ _) as [[? ?]|] eqn:Hf; [done|]. intros _ (e & -> & [_ He]%list_elem_of_filter)%list_elem_of_fmap.
  by apply (list_find_none _ _ Hf e He).
Qed.

Lemma get_snoc id id' zc' l : list_find (λ z : Z * nat, z.1 = id') (l ++ [(id, zc')]) =
  match list_find (λ z, z.1 = id') l with Some r => Some r | None => if decide (id = id') then Some (length l, (id, zc')) else None end.
Proof.
  destruct (list_find _ l) as [[i x]|] eqn:Hf; [by apply list_find_app_l|]. rewrite list_find_app_r by done. cbn.
  by destruct (decide (id = id')); cbn; rewrite ?Nat.add_0_r.
Qed.

(** What runs keeps running where it is, and the new zone runs too. *)
Lemma started_runs s zc id c : zc_mgr_get id s = None → zc_mgr_get id (started_on zc id c s) = Some zc.
Proof.
  unfold zc_mgr_get. change (m_zoneClustersBySourceId (started_on zc id c s)) with (m_zoneClustersBySourceId s ++ [(id, zc)]).
  rewrite get_snoc. destruct (list_find _ _) as [[? ?]|]; [done|]. by rewrite decide_True.
Qed.
Lemma started_keeps s zc id c id' k : zc_mgr_get id' s = Some k → zc_mgr_get id' (started_on zc id c s) = Some k.
Proof.
  unfold zc_mgr_get. change (m_zoneClustersBySourceId (started_on zc id c s)) with (m_zoneClustersBySourceId s ++ [(id, zc)]).
  rewrite get_snoc. by destruct (list_find _ _) as [[? ?]|].
Qed.
Lemma with_cluster_get now result s id : id < EQP_SOURCE_ID_ZONE_CLUSTER_OFFSET → zc_mgr_get id (with_cluster now result s) = zc_mgr_get id s.
Proof.
  intros Hid. unfold zc_mgr_get. change (m_zoneClustersBySourceId (with_cluster now result s)) with (m_zoneClustersBySourceId s ++
    [(u16 (Z.of_nat (length (m_activeZoneClusters s))) + EQP_SOURCE_ID_ZONE_CLUSTER_OFFSET, length (m_zoneClusterProcs s))]).
  rewrite get_snoc. destruct (list_find _ _) as [[? ?]|]; [done|]. rewrite decide_False; [done|].
  pose proof (wrap_range 16 (Z.of_nat (length (m_activeZoneClusters s))) ltac:(lia)). lia.
Qed.

Lemma find_free_ok clusters active : Forall (λ k, (k < length clusters)%nat) active →
  match find_free clusters active with
  | Ok (Some zc) => ∃ c, clusters !! zc = Some c ∧ zone_cluster_has_free_space c = true
  | Ok None => ∀ k c, k ∈ active → clusters !! k = Some c → zone_cluster_has_free_space c = false
  | _ => False
  end.
Proof.
  induction 1 as [|k active Hk _ IH]; [by intros ? ? ?%elem_of_nil|]. cbn [find_free]. destruct (lookup_lt_is_Some_2 _ _ Hk) as [c Hc].
  rewrite Hc. run. destruct (zone_cluster_has_free_space c) eqn:Hf; [by exists c|].
  destruct (find_free clusters active) as [[zc|]|e|]; [done| |done..]. intros j d [->|Hj]%elem_of_cons Hd; [congruence|by eapply IH].
Qed.

(** Where a zone that does not run is started: [c] is the cluster before it. *)
Definition chosen (now : Z) (result : start_result) (s : Master) (id : Z) (zc : nat) (c : ZoneCluster) (s1 : Master) : Prop :=
  (id ∈ reserved_on s zc ∧ m_zoneClusterProcs s !! zc = Some c ∧ s1 = s) ∨
  ((∀ r, r ∈ m_zoneReservations s → rs_sourceId r ≠ id) ∧
   (m_zoneClusterProcs s !! zc = Some c ∧ zone_cluster_has_free_space c = true ∧ s1 = s ∨
    zc = length (m_zoneClusterProcs s) ∧ c = new_cluster now result s ∧ s1 = with_cluster now result s ∧
    ∀ k d, m_zoneClusterProcs s !! k = Some d → zone_cluster_has_free_space d = false)).

Lemma get_or_start_ok now result s id : placed s → zc_mgr_get id s = None →
  ∃ zc c s1, zc_mgr_get_or_start now result id s = (Ok zc, started_on zc id c s1) ∧ chosen now result s id zc c s1.
Proof.
  intros Hp Hnone. unfold zc_mgr_get_or_start. rewrite bind_gets, Hnone. unfold zc_mgr_start_zone_from_reserved_list.
  rewrite bind_assoc, bind_gets. destruct (list_find (λ res, rs_sourceId res = id) (m_zoneReservations s)) as [[i r]|] eqn:Hr.
  - apply list_find_Some in Hr as (Hi & Hid & _). apply list_elem_of_lookup_2 in Hi.
    destruct (lookup_lt_is_Some_2 _ _ (pl_reserved_known _ Hp r Hi)) as [c Hc].
    rewrite bind_assoc, (bind_ok _ _ _ _ _ (start_zone_ok _ id c s Hc)), bind_ret. exists (rs_zoneCluster r), c, s. split; [done|]. left.
    split; [|done]. apply list_elem_of_fmap. exists r. split; [done|]. by apply list_elem_of_filter.
  - pose proof (list_find_none _ _ Hr) as Hno. rewrite bind_ret. unfold zc_mgr_start_zone_from_free_space. rewrite bind_assoc.
    change (get s) with (Ok s, s). rewrite (bind_ok get _ s s s eq_refl).
    pose proof (find_free_ok (m_zoneClusterProcs s) (m_activeZoneClusters s)) as Hf. rewrite (pl_active _ Hp) in Hf.
    specialize (Hf ltac:(apply Forall_forall; intros k [_ Hk]%elem_of_seq; lia)). rewrite <- (pl_active _ Hp) in Hf.
    rewrite bind_assoc. destruct (find_free _ _) as [[zc|]|e|] eqn:He; [| |done..].
    + destruct Hf as (c & Hc & Hfree). rewrite bind_lift with (1 := eq_refl). rewrite bind_assoc, (bind_ok _ _ _ _ _ (start_zone_ok _ id c s Hc)), bind_ret.
      exists zc, c, s. split; [done|]. right. split; [done|]. by left.
    + rewrite bind_lift with (1 := eq_refl). rewrite bind_ret, (bind_ok _ _ _ _ _ (start_cluster_ok now result s Hp)).
      set (n := length (m_zoneClusterProcs s)).
      assert (Hc : m_zoneClusterProcs (with_cluster now result s) !! n = Some (new_cluster now result s)) by (by apply list_lookup_middle).
      rewrite (bind_ok _ _ _ _ _ (start_zone_ok _ id _ _ Hc)). exists n, (new_cluster now result s), (with_cluster now result s).
      split; [done|]. right. split; [done|]. right. split_and!; [done..|]. intros k d Hd. eapply Hf; [|exact Hd].
      rewrite (pl_active _ Hp). apply elem_of_seq. apply lookup_lt_Some in Hd. lia.
Qed.

Lemma chosen_cluster now result s id zc c s1 : placed s → zc_mgr_get id s = None → id < EQP_SOURCE_ID_ZONE_CLUSTER_OFFSET →
  chosen now result s id zc c s1 →
  placed s1 ∧ zc_mgr_get id s1 = None ∧ m_zoneClusterProcs s1 !! zc = Some c ∧
  (id ∈ reserved_on s1 zc ∨ zone_cluster_has_free_space c = true) ∧
  (∀ k d, m_zoneClusterProcs s !! k = Some d → m_zoneClusterProcs s1 !! k = Some d) ∧
  (∀ id' k, id' < EQP_SOURCE_ID_ZONE_CLUSTER_OFFSET → zc_mgr_get id' s = Some k → zc_mgr_get id' s1 = Some k).
Proof.
  intros Hp Hnone Hid [(Hr & Hc & ->)|[_ [(Hc & Hf & -> )|(-> & -> & -> & _)]]].
  - split_and!; [done..|by left|done|done].
  - split_and!; [done..|by right|done|done].
  - pose proof (with_cluster_placed now result s Hp) as Hp'. pose proof (pl_max _ Hp) as Hmax. split_and!.
    + done.
    + by rewrite with_cluster_get.
    + by apply list_lookup_middle.
    + right. unfold zone_cluster_has_free_space. cbn. lia.
    + intros k d Hd. by apply lookup_app_l_Some.
    + intros id' k Hid' Hk. by rewrite with_cluster_get.
Qed.

(** The spec of a request: what runs stays; what does not run is started once,
    on one cluster, and the only thing any process is told is to start it. *)
Definition request_result (now : Z) (result : start_result) (s : Master) (id : Z) (zc : nat) (s' : Master) : Prop :=
  match zc_mgr_get id s with
  | Some k => zc = k ∧ s' = s
  | None => ∃ c s1, chosen now result s id zc c s1 ∧ s' = started_on zc id c s1
  end.

Lemma request_ok now result s id : placed s → id < EQP_SOURCE_ID_ZONE_CLUSTER_OFFSET →
  ∃ zc s', zc_mgr_get_or_start now result id s = (Ok zc, s') ∧ placed s' ∧ zc_mgr_get id s' = Some zc ∧
    (∀ id' k, id' < EQP_SOURCE_ID_ZONE_CLUSTER_OFFSET → zc_mgr_get id' s = Some k → zc_mgr_get id' s' = Some k) ∧
    request_result now result s id zc s'.
Proof.
  intros Hp Hid. unfold request_result. destruct (zc_mgr_get id s) as [k|] eqn:Hk.
  - exists k, s. unfold zc_mgr_get_or_start. rewrite bind_gets, Hk. by split_and!.
  - destruct (get_or_start_ok now result s id Hp Hk) as (zc & c & s1 & Hs & Hch). exists zc, (started_on zc id c s1).
    destruct (chosen_cluster _ _ _ _ _ _ _ Hp Hk Hid Hch) as (Hp1 & Hn1 & Hc1 & Hroom & _ & Hkeep). split_and!.
    + done.
    + apply started_placed; [done|exact Hid|done|by apply not_running|done].
    + by apply started_runs.
    + intros id' k Hid' Hk'. by apply started_keeps, Hkeep.
    + by exists c, s1.
Qed.

Lemma placed_fits s zc c : placed s → m_zoneClusterProcs s !! zc = Some c → zc_zoneCount c ≤ zc_maxZones c.
Proof.
  intros Hp Hc. destruct (pl_fits _ Hp _ _ Hc) as [Hn Hr Hu Hm]. pose proof (zones_fit (zones_on s zc) (reserved_on s zc) (zones_on_nodup s zc Hp)) as Hf.
  change (filter _ _) with (unreserved_on s zc) in Hf. lia.
Qed.

(** ** Theorems *)

(** C15: A requested zone runs on exactly one cluster. When it runs already,
    nothing changes and its cluster is the answer. Otherwise it is started once,
    on the cluster that reserved it, or else on a running cluster that has
    space, or else, when no cluster has, on a new one; that cluster is told to
    start it and no process is told anything else, every zone that ran keeps
    its cluster, and the lists and counts still agree. *)
Theorem zone_runs_on_one_cluster (now : Z) (result : start_result) (s : Master) (id : Z) (Hs : placed s)
    (Hid : id < EQP_SOURCE_ID_ZONE_CLUSTER_OFFSET) :
  ∃ zc s', zc_mgr_get_or_start now result id s = (Ok zc, s') ∧ placed s' ∧ zc_mgr_get id s' = Some zc ∧
    (∀ id' k, id' < EQP_SOURCE_ID_ZONE_CLUSTER_OFFSET → zc_mgr_get id' s = Some k → zc_mgr_get id' s' = Some k) ∧
    match zc_mgr_get id s with
    | Some k => zc = k ∧ s' = s
    | None =>
        ∃ c, m_zoneClusterProcs s' = <[zc := with_zone id c]> (m_zoneClusterProcs s ++ if decide (zc < length (m_zoneClusterProcs s))%nat then [] else [c]) ∧
          (id ∈ reserved_on s zc ∨
           (∀ r, r ∈ m_zoneReservations s → rs_sourceId r ≠ id) ∧
           (m_zoneClusterProcs s !! zc = Some c ∧ zone_cluster_has_free_space c = true ∨
            zc = length (m_zoneClusterProcs s) ∧ c = new_cluster now result s ∧
            ∀ k d, m_zoneClusterProcs s !! k = Some d → zone_cluster_has_free_space d = false))
    end.
Proof.
  destruct (request_ok now result s id Hs Hid) as (zc & s' & H1 & H2 & H3 & H4 & H5). exists zc, s'. split_and!; [done..|].
  unfold request_result in H5. destruct (zc_mgr_get id s) as [k|]; [done|]. destruct H5 as (c & s1 & Hch & ->). exists c.
  destruct Hch as [(Hr & Hc & ->)|[Hno [(Hc & Hf & ->)|(-> & -> & -> & Hfull)]]].
  - rewrite decide_True, app_nil_r by (by eapply lookup_lt_Some). split; [done|by left].
  - rewrite decide_True, app_nil_r by (by eapply lookup_lt_Some). split; [done|]. right. split; [done|by left].
  - rewrite decide_False by lia. split; [done|]. right. split; [done|by right].
Qed.

Definition request (r : Z * start_result * Z) : code Master unit := zc_mgr_get_or_start r.1.1 r.1.2 r.2 ;; mret tt.

Lemma one_cluster s id zc k : placed s → id < EQP_SOURCE_ID_ZONE_CLUSTER_OFFSET → zc_mgr_get id s = Some zc → id ∈ zones_on s k → k = zc.
Proof.
  intros Hp Hid Hz Hk. unfold zc_mgr_get in Hz. destruct (list_find _ _) as [[i e]|] eqn:Hf; [|done]. injection Hz as <-.
  apply list_find_Some in Hf as (Hi & He & _). apply list_elem_of_fmap in Hk as (e' & He' & [Hk Hin']%list_elem_of_filter).
  assert (Hin : e ∈ filter is_zone (m_zoneClustersBySourceId s)).
  { apply list_elem_of_filter. split; [|by eapply list_elem_of_lookup_2]. unfold is_zone. lia. }
  apply list_elem_of_lookup in Hin as [a Ha]. apply list_elem_of_lookup in Hin' as [b Hb]. assert (a = b) as <-; [|congruence].
  eapply (NoDup_lookup _ _ _ id (pl_once _ Hp)); rewrite list_lookup_fmap, ?Ha, ?Hb; simpl; congruence.
Qed.

Lemma requests_ok s requests : placed s → Forall (λ r : Z * start_result * Z, r.2 < EQP_SOURCE_ID_ZONE_CLUSTER_OFFSET) requests →
  ∃ s', each requests request s = (Ok tt, s') ∧ placed s' ∧
    (∀ id k, id < EQP_SOURCE_ID_ZONE_CLUSTER_OFFSET → zc_mgr_get id s = Some k → zc_mgr_get id s' = Some k) ∧
    ∀ r, r ∈ requests → is_Some (zc_mgr_get r.2 s').
Proof.
  intros Hs Hr. revert s Hs. induction Hr as [|[[now res] id] requests Hid Hr IH]; intros s Hs.
  - exists s. split_and!; [done..|]. by intros r ?%elem_of_nil.
  - destruct (request_ok now res s id Hs Hid) as (zc & s1 & H1 & H2 & H3 & H4 & _). destruct (IH s1 H2) as (s' & G1 & G2 & G3 & G4).
    assert (Hq : request (now, res, id) s = (Ok tt, s1)) by (unfold request; by rewrite (bind_ok _ _ _ _ _ H1)).
    exists s'. cbn [each]. rewrite (bind_ok _ _ _ _ _ Hq). split_and!; [done..| |].
    + intros id' k Hid' Hk. by apply G3, H4.
    + intros r [->|Hin]%elem_of_cons; [|by apply G4]. exists zc. by apply G3.
Qed.

(** C22: However many zones are requested, in any order and however often, no
    cluster runs more zones than it may, counting those it reserved, the counts
    of the clusters are those of the zones they run, and at the end each
    requested zone runs on exactly one cluster. *)
Theorem clusters_never_overfull (s : Master) (requests : list (Z * start_result * Z)) (Hs : placed s)
    (Hr : Forall (λ r, r.2 < EQP_SOURCE_ID_ZONE_CLUSTER_OFFSET) requests) :
  ∃ s', each requests request s = (Ok tt, s') ∧ placed s' ∧
    (∀ zc c, m_zoneClusterProcs s' !! zc = Some c → zc_zoneCount c = Z.of_nat (length (zones_on s' zc)) ∧ zc_zoneCount c ≤ zc_maxZones c) ∧
    ∀ r, r ∈ requests → ∃ zc, zc_mgr_get r.2 s' = Some zc ∧ ∀ k, r.2 ∈ zones_on s' k → k = zc.
Proof.
  destruct (requests_ok s requests Hs Hr) as (s' & H1 & H2 & _ & H3). exists s'. split_and!; [done..| |].
  - intros zc c Hc. split; [apply (ft_count _ _ _ (pl_fits _ H2 _ _ Hc))|by eapply placed_fits].
  - intros r Hin. destruct (H3 r Hin) as [zc Hz]. exists zc. split; [done|]. rewrite Forall_forall in Hr. intros k Hk.
    by apply (one_cluster s' r.2 zc k H2 (Hr _ Hin) Hz).
Qed.

(** ** The configuration *)
Definition no_master : Master :=
  mkMaster proc_init proc_init proc_init None [] EQP_ZONE_CLUSTER_DEFAULT_ZONES_PER_PROCESS EQP_ZONE_CLUSTER_PORT_RANGE_START [] [] []
    (mkTable 0 0 0 0 []) None [] [] 0 [] ∅ ∅ [].

Lemma no_master_placed : placed no_master.
Proof. split; try (by vm_compute); try (by intros ? ?%elem_of_nil); try constructor. Qed.

(** Two zones to a cluster; the first one reserves zone 4. *)
Definition configured : Master :=
  snd ((zc_mgr_set_max_zones_per_cluster 2 ;; zc ← zc_mgr_start_zone_cluster 1000 (Forked 77);
        zc_mgr_add_zone_reservation zc None 4 0 false) no_master).

Lemma configured_placed : placed configured.
Proof.
  split; try (by vm_compute).
  - intros e He. apply list_elem_of_singleton in He as ->. vm_compute. lia.
  - intros r Hr. apply list_elem_of_singleton in Hr as ->. vm_compute. lia.
  - constructor.
  - apply NoDup_singleton.
  - intros [|[|zc]] c Hc; [|done..]. injection Hc as <-. by split; vm_compute.
Qed.

Example zone_runs_on_one_cluster_witness : ∃ zc s', zc_mgr_get_or_start 5000 (Forked 78) 10 configured = (Ok zc, s') ∧ zc_mgr_get 10 s' = Some zc.
Proof.
  destruct (zone_runs_on_one_cluster 5000 (Forked 78) configured 10 configured_placed ltac:(reflexivity)) as (zc & s' & H1 & _ & H3 & _).
  exists zc, s'. by split.
Defined.

Example clusters_never_overfull_witness :
  let requests := [(1, Forked 78, 10); (2, Forked 79, 11); (3, NoFork, 4); (4, Forked 80, 10); (5, Forked 81, 1011)] in
  ∃ s', each requests request configured = (Ok tt, s') ∧
    ∀ zc c, m_zoneClusterProcs s' !! zc = Some c → zc_zoneCount c = Z.of_nat (length (zones_on s' zc)) ∧ zc_zoneCount c ≤ zc_maxZones c.
Proof.
  intros requests. destruct (clusters_never_overfull configured requests configured_placed) as (s' & H1 & _ & H3 & _); [|by exists s'].
  repeat constructor.
Defined.

(** Zone 4 went to its reservation, 10 to the first cluster, the others to a second one. *)
Example placement_example :
  let s' := snd (each [(1, Forked 78, 10); (2, Forked 79, 11); (3, NoFork, 4); (4, Forked 80, 10); (5, Forked 81, 1011)] request configured) in
  (zones_on s' 0, zones_on s' 1, zones_on s' 2) = ([10; 4], [11; 1011], []).
Proof. by vm_compute. Qed.

(** * Into a zone *)

(** ** Reading back what was written *)
Lemma field_string_ok s rest : Forall (λ b, b ≠ 0) s → field_string (s ++ 0 :: rest) = Ok s.
Proof. intros Hs. unfold field_string. rewrite strlen_ok by done. run. by rewrite Nat2Z.id, take_app_length. Qed.
Lemma field_string_prefix data s : Forall (λ b, b ≠ 0) s → take (length s + 1) data = s ++ [0] → field_string data = Ok s.
Proof.
  intros Hs Ht. rewrite <-(take_drop (length s + 1) data), Ht, <-app_assoc. by apply field_string_ok.
Qed.

(** Bytes below a store are as they were, those of the store are what was stored. *)
Lemma store_below o k o' bytes buf : (o + k ≤ Z.to_nat o')%nat → (Z.to_nat o' ≤ length buf)%nat →
  take k (drop o (store o' bytes buf)) = take k (drop o buf).
Proof.
  intros Ho Hl. unfold store, overlay. rewrite !take_drop_commute. f_equal.
  rewrite take_app_le by (rewrite length_take; lia). rewrite take_take. f_equal. lia.
Qed.
Lemma store_length o bytes buf : 0 ≤ o → o + Z.of_nat (length bytes) ≤ Z.of_nat (length buf) → length (store o bytes buf) = length buf.
Proof. intros. apply overlay_length; rewrite ?length_fmap; lia. Qed.
Lemma store_at o bytes buf : 0 ≤ o → o + Z.of_nat (length bytes) ≤ Z.of_nat (length buf) →
  take (length bytes) (drop (Z.to_nat o) (store o bytes buf)) = bytes.
Proof. apply overlay_window. Qed.
Lemma take_window {A} n k o (l : list A) : (o + k ≤ n)%nat → take k (drop o (take n l)) = take k (drop o l).
Proof. intros H. rewrite !take_drop_commute, take_take. do 2 f_equal. lia. Qed.

(** ** The notice to the zone cluster *)
Definition name_ok (bound : nat) (s : list Z) : Prop := Forall (λ b, b ≠ 0) s ∧ (length s ≤ bound)%nat.

Record zoning_ok (c : MasterClient) : Prop := {
  zk_accountId : is_word 32 (mc_accountId c);
  zk_ipAddress : is_word 32 (mc_ipAddress c);
  zk_characterId : 0 ≤ mc_characterId c < 2 ^ 63;
  zk_accountName : name_ok 63 (mc_accountName c);
  zk_name : name_ok 31 (mc_name c);
}.

Definition zoning_as (c : MasterClient) : ClientZoning :=
  mkZoning (mc_accountId c) (mc_ipAddress c) (mc_characterId c) (mc_isLocal c) (mc_isFromCharSelect c) (mc_accountName c) (mc_name c).

Lemma snprintf_whole size s old : (length s < size)%nat → snprintf_field size s old = s ++ 0 :: drop (length s + 1) old.
Proof. intros Hs. unfold snprintf_field. by rewrite take_ge by lia. Qed.

Lemma zoning_bytes_length junk c : zoning_ok c → (120 ≤ length junk)%nat → length (zoning_bytes junk c) = 120%nat.
Proof.
  intros [_ _ _ [_ Ha] [_ Hn]] Hj. unfold zoning_bytes. rewrite !snprintf_whole by lia.
  rewrite !length_app, !le_bytes_length. cbn [length]. rewrite !length_drop, !length_take, !length_drop. lia.
Qed.

(** [skip] drops the fields in front of the one that is read. *)
Ltac skip := repeat (rewrite drop_app_ge by (rewrite ?le_bytes_length; simpl; lia); rewrite ?le_bytes_length; cbn [Nat.sub]).

Lemma zoning_read junk c : zoning_ok c → (120 ≤ length junk)%nat → zoning_of (zoning_bytes junk c) = Ok (zoning_as c).
Proof.
  intros Hc Hj. destruct Hc as [H1 H2 H3 [H4 Ha] [H5 Hn]]. unfold zoning_bytes. rewrite !snprintf_whole by lia.
  set (account := mc_accountName c ++ 0 :: _). set (name := mc_name c ++ 0 :: _).
  assert (Hla : length account = 64%nat) by (unfold account; rewrite length_app; cbn [length]; rewrite length_drop, length_take, length_drop; lia).
  assert (Hb : ∀ b, number_bool b = 0 ∨ number_bool b = 1) by (intros []; auto).
  set (n5 := le_bytes 4 (number_bool (mc_isFromCharSelect c)) ++ account ++ name).
  set (n4 := le_bytes 4 (number_bool (mc_isLocal c)) ++ n5). set (n3 := le_bytes 8 (mc_characterId c) ++ n4).
  set (n2 := le_bytes 4 (mc_ipAddress c) ++ n3). set (data := le_bytes 4 (mc_accountId c) ++ n2).
  assert (D4 : drop 4 data = n2) by (unfold data; by skip). assert (D8 : drop 8 data = n3) by (unfold data, n2; by skip).
  assert (D16 : drop 16 data = n4) by (unfold data, n2, n3; by skip). assert (D20 : drop 20 data = n5) by (unfold data, n2, n3, n4; by skip).
  assert (D24 : drop 24 data = account ++ name) by (unfold data, n2, n3, n4, n5; by skip).
  assert (D88 : drop 88 data = name) by (unfold data, n2, n3, n4, n5; skip; by rewrite Hla).
  unfold zoning_of. rewrite D4, D8, D16, D20, D24, D88, drop_0. unfold data, n2, n3, n4, n5.
  rewrite !take_app_length' by (by rewrite le_bytes_length).
  rewrite (le_bytes_word 4 _ H1), (le_bytes_word 4 _ H2), (le_bytes_word 8 (mc_characterId c)) by (change (is_word 64 (mc_characterId c)); unfold is_word; lia).
  rewrite !(le_bytes_word 4 (number_bool _)) by (change (8 * Z.of_nat 4) with 32; unfold is_word; match goal with |- context [number_bool ?b] => destruct (Hb b) end; lia).
  clear D4 D8 D16 D20 D24 D88 Hla. unfold account, name. rewrite <-app_assoc. cbn [app]. rewrite !field_string_ok by done. run. unfold zoning_as. f_equal. f_equal.
  - apply sint_small; lia.
  - by destruct (mc_isLocal c).
  - by destruct (mc_isFromCharSelect c).
Qed.

(** ** The answer to char select *)
Record address_ok (accountId : Z) (ip : list Z) (port : Z) (name : list Z) (baseTime : Z) (motd : list Z) (motdLen : Z) (data : list Z) : Prop := {
  ao_accountId : number_at 4 0 data = accountId;
  ao_ip : field_string (drop OFFSETOF_ipAddress data) = Ok ip;
  ao_port : number_at 2 OFFSETOF_port data = port;
  ao_name : field_string (drop OFFSETOF_shortName data) = Ok name;
  ao_baseTime : number_at 8 OFFSETOF_eqTimeBase data = baseTime;
  ao_motdLength : number_at 4 OFFSETOF_motdLength data = motdLen;
  ao_motd : take (Z.to_nat motdLen) (drop OFFSETOF_motd data) = take (Z.to_nat motdLen) motd;
  ao_size : SIZEOF_Server_ZoneAddress ≤ Z.of_nat (length data) ∧ Z.of_nat OFFSETOF_motd + motdLen ≤ Z.of_nat (length data);
}.

Lemma address_read buf accountId ip port name baseTime motd motdLen n :
  is_word 32 accountId → Forall (λ b, b ≠ 0) ip → is_word 16 port → Forall (λ b, b ≠ 0) name → is_word 64 baseTime →
  0 ≤ motdLen ≤ Z.of_nat (length motd) → 181 + motdLen ≤ Z.of_nat (length buf) < 2 ^ 31 → 184 ≤ Z.of_nat (length buf) → 184 ≤ Z.of_nat n → 180 + motdLen ≤ Z.of_nat n →
  address_ok accountId (take 127 ip) port (take 31 name) baseTime motd motdLen (take n (zone_address_bytes buf accountId ip port name baseTime motd motdLen)).
Proof.
  intros H1 H2 H3 H4 H5 H6 H7 H7' H8 H9. unfold zone_address_bytes.
  assert (Hip : (length (take 127 ip ++ [0%Z]) ≤ 128)%nat) by (rewrite length_app, length_take; cbn [length]; lia).
  assert (Hnm : (length (take 31 name ++ [0%Z]) ≤ 32)%nat) by (rewrite length_app, length_take; cbn [length]; lia).
  assert (Hmd : length (take (Z.to_nat motdLen) motd ++ [0]) = (Z.to_nat motdLen + 1)%nat) by (rewrite length_app, length_take; cbn [length]; lia).
  set (b1 := store 0 _ buf). assert (L1 : length b1 = length buf) by (apply store_length; rewrite ?le_bytes_length; lia).
  set (b2 := store 4 _ b1). assert (L2 : length b2 = length buf) by (unfold b2; rewrite store_length; lia).
  set (b3 := store 132 _ b2). assert (L3 : length b3 = length buf) by (unfold b3; rewrite store_length; rewrite ?le_bytes_length; lia).
  set (b4 := store 134 _ b3). assert (L4 : length b4 = length buf) by (unfold b4; rewrite store_length; lia).
  set (b5 := store 168 _ b4). assert (L5 : length b5 = length buf) by (unfold b5; rewrite store_length; rewrite ?le_bytes_length; lia).
  set (b6 := store 176 _ b5). assert (L6 : length b6 = length buf) by (unfold b6; rewrite store_length; rewrite ?le_bytes_length; lia).
  set (b7 := store 180 _ b6). assert (L7 : length b7 = length buf) by (unfold b7; rewrite store_length; lia).
  pose proof (store_at 0 (le_bytes 4 accountId) buf ltac:(lia)) as R1. rewrite le_bytes_length in R1. fold b1 in R1. change (Z.to_nat 0) with 0%nat in R1.
  pose proof (store_at 4 (take 127 ip ++ [0]) b1 ltac:(lia) ltac:(lia)) as R2. fold b2 in R2. rewrite length_app in R2. cbn [length] in R2. change (Z.to_nat 4) with 4%nat in R2.
  pose proof (store_at 132 (le_bytes 2 port) b2 ltac:(lia)) as R3. rewrite le_bytes_length in R3. fold b3 in R3. change (Z.to_nat 132) with 132%nat in R3.
  pose proof (store_at 134 (take 31 name ++ [0]) b3 ltac:(lia) ltac:(lia)) as R4. fold b4 in R4. rewrite length_app in R4. cbn [length] in R4. change (Z.to_nat 134) with 134%nat in R4.
  pose proof (store_at 168 (le_bytes 8 baseTime) b4 ltac:(lia)) as R5. rewrite le_bytes_length in R5. fold b5 in R5. change (Z.to_nat 168) with 168%nat in R5.
  pose proof (store_at 176 (le_bytes 4 motdLen) b5 ltac:(lia)) as R6. rewrite le_bytes_length in R6. fold b6 in R6. change (Z.to_nat 176) with 176%nat in R6.
  pose proof (store_at 180 (take (Z.to_nat motdLen) motd ++ [0]) b6 ltac:(lia) ltac:(lia)) as R7. fold b7 in R7. rewrite Hmd in R7.
  assert (S7 : ∀ o k, (o + k ≤ 180)%nat → take k (drop o (take n b7)) = take k (drop o b6)).
  { intros o k Hk. rewrite take_window by lia. apply store_below; lia. }
  assert (S6 : ∀ o k, (o + k ≤ 176)%nat → take k (drop o b6) = take k (drop o b5)) by (intros; apply store_below; lia).
  assert (S5 : ∀ o k, (o + k ≤ 168)%nat → take k (drop o b5) = take k (drop o b4)) by (intros; apply store_below; lia).
  assert (S4 : ∀ o k, (o + k ≤ 134)%nat → take k (drop o b4) = take k (drop o b3)) by (intros; apply store_below; lia).
  assert (S3 : ∀ o k, (o + k ≤ 132)%nat → take k (drop o b3) = take k (drop o b2)) by (intros; apply store_below; lia).
  assert (S2 : ∀ o k, (o + k ≤ 4)%nat → take k (drop o b2) = take k (drop o b1)) by (intros; apply store_below; lia).
  clearbody b1 b2 b3 b4 b5 b6. split; unfold number_at, OFFSETOF_ipAddress, OFFSETOF_port, OFFSETOF_shortName, OFFSETOF_eqTimeBase, OFFSETOF_motdLength, OFFSETOF_motd.
  - rewrite S7, S6, S5, S4, S3, S2, R1 by lia. by apply le_bytes_word.
  - apply field_string_prefix; [by apply Forall_take|]. rewrite length_app in Hip. cbn [length] in Hip. by rewrite S7, S6, S5, S4, S3 by lia.
  - rewrite S7, S6, S5, S4, R3 by lia. by apply le_bytes_word.
  - apply field_string_prefix; [by apply Forall_take|]. rewrite length_app in Hnm. cbn [length] in Hnm. by rewrite S7, S6, S5 by lia.
  - rewrite S7, S6, R5 by lia. by apply le_bytes_word.
  - rewrite S7, R6 by lia. apply le_bytes_word. unfold is_word. lia.
  - rewrite take_window by lia. change (Z.to_nat 180) with 180%nat in R7.
    replace (Z.to_nat motdLen) with (Z.to_nat motdLen `min` (Z.to_nat motdLen + 1))%nat at 1 by lia.
    rewrite <-take_take, R7, take_app_le by (rewrite length_take; lia). by rewrite take_take, Nat.min_id.
  - rewrite length_take, L7. unfold SIZEOF_Server_ZoneAddress. lia.
Qed.

(** ** Admission *)

(** The packets a cluster's process is sent while a character is admitted are
    handled one after the other; a zone that is created is put at [zn], a client
    at [b]. *)
Definition deliver (zn b : nat) (mapMinZ : option Z) (p : Z * Z * list Z) : code ZC unit :=
  ipc_set_handle_packet (if p.1.1 =? ServerOp_StartZone then zn else b) mapMinZ p.1.1 p.1.2 p.2.

Definition zone_id_ok (zoneId instanceId : Z) : Prop := 1 ≤ zoneId ≤ EQP_SOURCE_ID_ZONE_MAX ∧ 0 ≤ instanceId ≤ EQP_SOURCE_ID_ZONE_INSTANCE_MAX.
Definition source_id (zoneId instanceId : Z) : Z := zoneId + instanceId * EQP_SOURCE_ID_ZONE_INSTANCE_OFFSET.

Lemma start_zone_runs zn mapMinZ zoneId instanceId s : zone_id_ok zoneId instanceId →
  ∃ s', zc_start_zone zn mapMinZ (source_id zoneId instanceId) s = (Ok tt, s') ∧
    is_Some (zc_get_zone_by_source_id (source_id zoneId instanceId) s') ∧ expectedClientsByName s' = expectedClientsByName s.
Proof.
  unfold zone_id_ok, source_id, EQP_SOURCE_ID_ZONE_MAX, EQP_SOURCE_ID_ZONE_INSTANCE_MAX, EQP_SOURCE_ID_ZONE_INSTANCE_OFFSET. intros [Hz Hi].
  unfold zc_start_zone, EQP_SOURCE_ID_ZONE_MAX, EQP_SOURCE_ID_ZONE_INSTANCE_MAX, EQP_SOURCE_ID_ZONE_INSTANCE_OFFSET. cbv zeta.
  rewrite Z.quot_add, Z.rem_add, Z.quot_small, Z.rem_small by lia.
  rewrite !(proj2 (Z.ltb_ge _ _)) by lia. cbn [orb]. rewrite bind_gets.
  destruct (zc_get_zone_by_source_id _ s) as [k|] eqn:Hk; [exists s; split; [done|split; [by exists k|done]]|].
  eexists. split; [reflexivity|]. split; [|done]. unfold zc_get_zone_by_source_id in *. cbn.
  rewrite list_find_app_r by (by destruct (list_find _ _) as [[? ?]|]). cbn. by rewrite decide_True.
Qed.

(** Every process has its buffer. *)
Definition buffered (s : Master) : Prop := ∀ zc c, m_zoneClusterProcs s !! zc = Some c → pr_ipc (zc_proc c) = true.

Lemma new_cluster_buffered now result s : placed s → result ≠ NoSharedMemory → pr_ipc (zc_proc (new_cluster now result s)) = true.
Proof.
  intros Hp Hr. pose proof (pl_items _ Hp) as Hi. unfold new_cluster, new_process, item_shm_loader_send_details. cbn [zc_proc].
  destruct (m_items s) as [[len path]|]; [rewrite (proj2 (Nat.leb_gt _ _)) by exact Hi|]; by destruct result.
Qed.

(** What the process of the cluster was sent before. *)
Definition sent_before (now : Z) (result : start_result) (s : Master) (zc : nat) : list (Z * Z * list Z) :=
  match m_zoneClusterProcs s !! zc with Some c => pr_sent (zc_proc c) | None => pr_sent (new_process now result s) end.

Lemma running_known s id zc : placed s → zc_mgr_get id s = Some zc → is_Some (m_zoneClusterProcs s !! zc).
Proof.
  intros Hp H. unfold zc_mgr_get in H. destruct (list_find _ _) as [[i e]|] eqn:Hf; [|done]. injection H as <-.
  apply list_find_Some in Hf as (Hi & _). apply lookup_lt_is_Some_2, (pl_known _ Hp). by eapply list_elem_of_lookup_2.
Qed.

(** The cluster that a request answers with has been told to start the zone, unless it runs it. *)
Lemma request_told now result s id zc s' : placed s → buffered s → result ≠ NoSharedMemory → id < EQP_SOURCE_ID_ZONE_CLUSTER_OFFSET →
  request_result now result s id zc s' →
  ∃ c, m_zoneClusterProcs s' !! zc = Some c ∧ pr_ipc (zc_proc c) = true ∧
    pr_sent (zc_proc c) = sent_before now result s zc ++ (if zc_mgr_get id s then [] else [(ServerOp_StartZone, id, [])]) ∧
    (zc_portHostByteOrder c = m_nextZoneClusterPort s ∨ ∃ d, m_zoneClusterProcs s !! zc = Some d ∧ zc_portHostByteOrder c = zc_portHostByteOrder d) ∧
    m_memory s' = m_memory s ∧ m_procCharSelect s' = m_procCharSelect s ∧ m_clientsByName s' = m_clientsByName s.
Proof.
  intros Hp Hb Hr Hid. unfold request_result. destruct (zc_mgr_get id s) as [k|] eqn:Hk.
  - intros [-> ->]. destruct (running_known _ _ _ Hp Hk) as [c Hc]. exists c. unfold sent_before. rewrite Hc, app_nil_r.
    split_and!; [done|by eapply Hb|done|right; by exists c|done..].
  - intros (c & s1 & Hch & ->). exists (with_zone id c).
    destruct (chosen_cluster _ _ _ _ _ _ _ Hp Hk Hid Hch) as (Hp1 & _ & Hc1 & _).
    assert (Hc : pr_ipc (zc_proc c) = true ∧ sent_before now result s zc = pr_sent (zc_proc c) ∧
      (zc_portHostByteOrder c = m_nextZoneClusterPort s ∨ ∃ d, m_zoneClusterProcs s !! zc = Some d ∧ zc_portHostByteOrder c = zc_portHostByteOrder d) ∧
      m_memory s1 = m_memory s ∧ m_procCharSelect s1 = m_procCharSelect s ∧ m_clientsByName s1 = m_clientsByName s).
    { unfold sent_before. destruct Hch as [(_ & Hc & ->)|[_ [(Hc & _ & ->)|(-> & -> & -> & _)]]]; 
        try (rewrite Hc; split_and!; [by eapply Hb|done|right; by exists c|done..]).
      rewrite lookup_ge_None_2 by done. split_and!; [by apply new_cluster_buffered|done|by left|done..]. }
    destruct Hc as (Hi & -> & Hport & Hm & Hcs & Hn). split_and!.
    + apply list_lookup_insert_eq. by eapply lookup_lt_Some.
    + unfold with_zone, proc_ipc_send. cbn. by rewrite Hi.
    + unfold with_zone, proc_ipc_send. cbn. by rewrite Hi.
    + exact Hport.
    + exact Hm.
    + exact Hcs.
    + exact Hn.
Qed.

Lemma placed_same s s' : placed s → m_activeZoneClusters s' = m_activeZoneClusters s → m_zoneClustersBySourceId s' = m_zoneClustersBySourceId s →
  m_zoneReservations s' = m_zoneReservations s → m_maxZonesPerCluster s' = m_maxZonesPerCluster s → m_items s' = m_items s →
  (λ c, (zc_zoneCount c, zc_reservedZones c, zc_maxZones c)) <$> m_zoneClusterProcs s' = (λ c, (zc_zoneCount c, zc_reservedZones c, zc_maxZones c)) <$> m_zoneClusterProcs s →
  placed s'.
Proof.
  intros Hp E1 E2 E3 E4 E5 E6. assert (Hl : length (m_zoneClusterProcs s') = length (m_zoneClusterProcs s)) by (apply (f_equal length) in E6; by rewrite !length_fmap in E6).
  split; rewrite ?Hl, ?E1, ?E2, ?E3, ?E4, ?E5; try apply Hp.
  intros zc c Hc. assert (Hc' : ((λ c, (zc_zoneCount c, zc_reservedZones c, zc_maxZones c)) <$> m_zoneClusterProcs s') !! zc = Some (zc_zoneCount c, zc_reservedZones c, zc_maxZones c))
    by (by rewrite list_lookup_fmap, Hc).
  rewrite E6, list_lookup_fmap in Hc'. destruct (m_zoneClusterProcs s !! zc) as [d|] eqn:Hd; [|done]. injection Hc' as H1 H2 H3.
  destruct (pl_fits _ Hp _ _ Hd) as [F1 F2 F3 F4]. split; unfold unreserved_on, zones_on, reserved_on in *; rewrite ?E2, ?E3, <-?H1, <-?H2, <-?H3; done.
Qed.

(** A character whose row the database answered with, and the state that its admission needs. *)
Definition row_of (c : MasterClient) (characterId zoneId instanceId : Z) : MasterClient :=
  c <| mc_characterId := characterId |> <| mc_zoneId := zoneId |> <| mc_instanceId := instanceId |>.

Record admissible (s : Master) (a : nat) (c : MasterClient) (characterId zoneId instanceId : Z) (motd : list Z) : Prop := {
  ad_placed : placed s;
  ad_buffered : buffered s;
  ad_charSelect : pr_ipc (m_procCharSelect s) = true;
  ad_motd : m_messageOfTheDay s = Some motd;
  ad_client : m_memory s !! a = Some c;
  ad_zoning : zoning_ok (row_of c characterId zoneId instanceId);
  ad_zone : zone_id_ok zoneId instanceId;
  ad_address : Forall (λ b, b ≠ 0) (m_localAddress s) ∧ Forall (λ b, b ≠ 0) (m_remoteAddress s);
  ad_baseTime : is_word 64 (m_eqTimeBaseUnixSeconds s);
  ad_port : is_word 16 (m_nextZoneClusterPort s) ∧ ∀ zc c, m_zoneClusterProcs s !! zc = Some c → is_word 16 (zc_portHostByteOrder c);
}.

(** The length of the message, cut so that the packet fits. *)
Definition motd_length (motd : list Z) : Z :=
  if EQP_IPC_PACKET_MAX_SIZE <? Z.of_nat (length motd) + SIZEOF_ZoneAddress_struct
  then EQP_IPC_PACKET_MAX_SIZE - SIZEOF_ZoneAddress_struct - 1 else Z.of_nat (length motd).
Definition address_of (s : Master) (c : MasterClient) : list Z := take 127 (if mc_isLocal c then m_localAddress s else m_remoteAddress s).

Lemma short_name_no_nul id : Forall (λ b, b ≠ 0) (text (zone_short_name_by_id id)).
Proof.
  assert (H : Forall (λ c : Z * string, Forall (λ b, b ≠ 0) (text c.2)) short_cases) by (apply (bool_decide_unpack _); by vm_compute).
  unfold zone_short_name_by_id, switch. destruct (list_find _ short_cases) as [[i c]|] eqn:Hf; [|by repeat constructor].
  apply list_find_Some in Hf as (Hi & _). rewrite Forall_forall in H. apply H. by eapply list_elem_of_lookup_2.
Qed.

Section admission.
Context (now : Z) (result : start_result) (junk buf : list Z).
Context (Hstart : result ≠ NoSharedMemory) (Hjunk : (120 <= length junk)%nat) (Hbuf : Z.of_nat (length buf) = EQP_IPC_PACKET_MAX_SIZE).

(** What the admission leaves of the master's state, cluster [zc] being the one of the zone. *)
Definition admitted (s : Master) (a : nat) (c : MasterClient) (id : Z) (motd : list Z) (zc : nat) (s' : Master) : Prop :=
  ∃ cluster data, placed s' ∧ zc_mgr_get id s' = Some zc ∧ m_zoneClusterProcs s' !! zc = Some cluster ∧
    pr_sent (zc_proc cluster) = sent_before now result s zc ++
      (if zc_mgr_get id s then [] else [(ServerOp_StartZone, id, [])]) ++ [(ServerOp_ClientZoning, id, zoning_bytes junk c)] ∧
    pr_sent (m_procCharSelect s') = pr_sent (m_procCharSelect s) ++ [(ServerOp_ZoneAddress, EQP_SOURCE_ID_MASTER, data)] ∧
    address_ok (mc_accountId c) (address_of s c) (zc_portHostByteOrder cluster) (take 31 (text (zone_short_name_by_id (mc_zoneId c))))
      (m_eqTimeBaseUnixSeconds s) motd (motd_length motd) data ∧
    m_clientsByName s' = set_absent (m_clientsByName s) (mc_name c) a ∧ ∀ k, zc_mgr_get id s = Some k → k = zc.

Lemma motd_length_range motd : 0 ≤ motd_length motd ≤ Z.of_nat (length motd) ∧ motd_length motd ≤ 3912.
Proof. unfold motd_length, EQP_IPC_PACKET_MAX_SIZE, SIZEOF_ZoneAddress_struct. case_match eqn:E; [apply Z.ltb_lt in E|apply Z.ltb_ge in E]; lia. Qed.

Lemma add_client_ok s a c motd zoneId instanceId : placed s → buffered s → pr_ipc (m_procCharSelect s) = true → m_messageOfTheDay s = Some motd →
  m_memory s !! a = Some c → zoning_ok c → zone_id_ok zoneId instanceId → client_zone_source_id c = source_id zoneId instanceId →
  Forall (λ b, b ≠ 0) (m_localAddress s) ∧ Forall (λ b, b ≠ 0) (m_remoteAddress s) → is_word 64 (m_eqTimeBaseUnixSeconds s) →
  is_word 16 (m_nextZoneClusterPort s) ∧ (∀ zc c, m_zoneClusterProcs s !! zc = Some c → is_word 16 (zc_portHostByteOrder c)) →
  ∃ zc s', client_mgr_add_client_from_char_select now result junk buf a s = (Ok tt, s') ∧ admitted s a c (source_id zoneId instanceId) motd zc s'.
Proof.
  intros Hp Hb Hcs Hm Hc Hz Hid Hsrc Ha Ht Hport. unfold client_mgr_add_client_from_char_select.
  rewrite (bind_ok get _ s s s eq_refl), (bind_lift _ _ motd s) by (by rewrite Hm).
  rewrite (bind_ok (mclient_at a) _ s c s) by (unfold mclient_at; by rewrite Hc). cbv zeta. fold (motd_length motd). rewrite Hsrc.
  set (id := source_id zoneId instanceId).
  assert (Hlt : id < EQP_SOURCE_ID_ZONE_CLUSTER_OFFSET).
  { destruct Hid as [? ?]. unfold id, source_id, EQP_SOURCE_ID_ZONE_MAX, EQP_SOURCE_ID_ZONE_INSTANCE_MAX, EQP_SOURCE_ID_ZONE_CLUSTER_OFFSET, EQP_SOURCE_ID_ZONE_INSTANCE_OFFSET in *. lia. }
  destruct (request_ok now result s id Hp Hlt) as (zc & s1 & H1 & Hp1 & Hget & _ & Hres).
  destruct (request_told _ _ _ _ _ _ Hp Hb Hstart Hlt Hres) as (k & Hk & Hki & Hks & Hkp & Hmem & Hcs1 & Hnames).
  rewrite (bind_ok _ _ _ _ _ H1). exists zc.
  set (c2 := c <| mc_zoneCluster := Some zc |>). set (s2 := s1 <| m_memory := <[a := c2]> (m_memory s1) |>).
  rewrite (bind_ok (upd_mclient a _) _ s1 tt s2) by (unfold upd_mclient, mclient_at; run; by rewrite (eq_trans (f_equal (.!! a) Hmem) Hc)).
  set (k2 := k <| zc_proc := proc_ipc_send ServerOp_ClientZoning id (zoning_bytes junk c) (zc_proc k) |>).
  unfold zone_cluster_inform_of_client_zoning_in, zone_cluster_ipc_send.
  rewrite (bind_ok _ _ _ _ _ (upd_cluster_ok zc _ k s2 Hk)). fold k2.
  assert (Hk2 : m_zoneClusterProcs (put_cluster zc k2 s2) !! zc = Some k2) by (apply list_lookup_insert_eq; by eapply lookup_lt_Some).
  rewrite (bind_ok (cluster_at zc) _ _ k2 (put_cluster zc k2 s2)) by (unfold cluster_at; by rewrite Hk2).
  set (n := Z.to_nat _). set (address := zone_address_bytes _ _ _ _ _ _ _ _).
  eexists. split; [reflexivity|]. exists k2, (take (Z.to_nat EQP_IPC_PACKET_MAX_SIZE) (take n address)).
  pose proof (motd_length_range motd) as [Hml1 Hml2].
  assert (Hport2 : is_word 16 (zc_portHostByteOrder k2)).
  { change (zc_portHostByteOrder k2) with (zc_portHostByteOrder k). destruct Hkp as [->|(d & Hd & ->)]; [apply Hport|by eapply Hport]. }
  split_and!.
  - apply (placed_same s1); [done..|]. cbn. rewrite list_fmap_insert. apply list_insert_id. by rewrite list_lookup_fmap, Hk.
  - exact Hget.
  - exact Hk2.
  - unfold k2, proc_ipc_send. rewrite Hki, take_ge by (rewrite zoning_bytes_length by done; unfold EQP_IPC_PACKET_MAX_SIZE; lia).
    by rewrite app_assoc, <-Hks.
  - cbn. unfold proc_ipc_send. rewrite Hcs1, Hcs. reflexivity.
  - rewrite take_take. apply address_read; [apply Hz|by destruct (mc_isLocal c); apply Ha|done|apply short_name_no_nul|done|done|..];
      unfold n, SIZEOF_ZoneAddress_struct, EQP_IPC_PACKET_MAX_SIZE in *; lia.
  - cbn. by rewrite Hnames.
  - intros j Hj. unfold request_result in Hres. rewrite Hj in Hres. by destruct Hres.
Qed.
End admission.

(** ** The zone's side *)

(** The process, which was in state [t], has made the character's client at [b]
    and expects the name: it waits for this client, unless it expected the name
    before, when it goes on waiting for the older one. *)
Definition expected_in (t s : ZC) (id : Z) (zn b : nat) (c : MasterClient) : Prop :=
  zc_get_zone_by_source_id id s = Some zn ∧
  expectedClientsByName s !! mc_name c = Some (default b (expectedClientsByName t !! mc_name c)) ∧
  clients s !! b = Some (client_init zn (zoning_as c) <| c_refCount := 6 |>).

Lemma zoning_delivered junk c id s zn b k mapMinZ : zoning_ok c → (120 <= length junk)%nat → zc_get_zone_by_source_id id s = Some k →
  ∃ s', deliver zn b mapMinZ (ServerOp_ClientZoning, id, zoning_bytes junk c) s = (Ok tt, s') ∧ expected_in s s' id k b c.
Proof.
  intros Hc Hj Hk. exists (expecting b k (zoning_as c) s). split.
  - change (deliver zn b mapMinZ (ServerOp_ClientZoning, id, zoning_bytes junk c) s) with (zc_client_expected_to_zone_in b id (zoning_bytes junk c) s).
    apply expected_ok; [done| |by apply zoning_read]. rewrite zoning_bytes_length by done. done.
  - unfold expected_in, expecting, set_absent. cbn. split; [done|]. split; [|by rewrite lookup_insert_eq].
    destruct (expectedClientsByName s !! mc_name c) as [x|] eqn:Hx; [done|]. by rewrite lookup_insert_eq.
Qed.

Lemma packets_delivered junk c zoneId instanceId s zn b mapMinZ (running : option nat) : zoning_ok c → (120 <= length junk)%nat → zone_id_ok zoneId instanceId →
  let id := source_id zoneId instanceId in
  (is_Some running → is_Some (zc_get_zone_by_source_id id s)) →
  ∃ s' k, each ((if running then [] else [(ServerOp_StartZone, id, [])]) ++ [(ServerOp_ClientZoning, id, zoning_bytes junk c)]) (deliver zn b mapMinZ) s = (Ok tt, s') ∧
    expected_in s s' id k b c.
Proof.
  intros Hc Hj Hid id Hrun. destruct running as [r|]; cbn [app each].
  - destruct (Hrun ltac:(by exists r)) as [k Hk]. destruct (zoning_delivered junk c id s zn b k mapMinZ Hc Hj Hk) as (s' & Hd & He).
    exists s', k. by rewrite (bind_ok _ _ _ _ _ Hd).
  - destruct (start_zone_runs zn mapMinZ zoneId instanceId s Hid) as (s1 & H1 & [k Hk] & Hsame).
    destruct (zoning_delivered junk c id s1 zn b k mapMinZ Hc Hj Hk) as (s' & Hd & He). exists s', k.
    split; [|by unfold expected_in in *; rewrite <- Hsame].
    assert (H1' : deliver zn b mapMinZ (ServerOp_StartZone, id, []) s = (Ok tt, s1)) by exact H1.
    by rewrite (bind_ok _ _ _ _ _ H1'), (bind_ok _ _ _ _ _ Hd).
Qed.

(** ** Properties *)

(** C6: When the database answers for a character that zones in, its zone runs
    on one cluster, started there if it did not run; char select is told that
    cluster's port and the zone's name, and reads them back as they were sent;
    and any process of that cluster that runs the zones the master believes it
    runs, after it has handled the packets it was sent for this, expects the
    character in that zone, by its name and with its ids: the new client is the
    one that is waited for, unless the process expected that name before, when
    the older client stays in its place ([expected_in]). *)
Theorem admitted_character_is_expected (now : Z) (result : start_result) (junk buf : list Z) (s : Master) (a : nat) (c : MasterClient)
    (characterId zoneId instanceId : Z) (motd : list Z) (Hstart : result ≠ NoSharedMemory) (Hjunk : (120 <= length junk)%nat)
    (Hbuf : Z.of_nat (length buf) = EQP_IPC_PACKET_MAX_SIZE) (Hs : admissible s a c characterId zoneId instanceId motd) :
  let id := source_id zoneId instanceId in
  let c' := row_of c characterId zoneId instanceId in
  ∃ zc s' cluster packets data,
    client_mgr_from_char_select_callback now result junk buf a [(characterId, zoneId, instanceId)] s = (Ok tt, s') ∧ placed s' ∧
    zc_mgr_get id s' = Some zc ∧ m_zoneClusterProcs s' !! zc = Some cluster ∧
    pr_sent (m_procCharSelect s') = pr_sent (m_procCharSelect s) ++ [(ServerOp_ZoneAddress, EQP_SOURCE_ID_MASTER, data)] ∧
    address_ok (mc_accountId c) (address_of s c) (zc_portHostByteOrder cluster) (take 31 (text (zone_short_name_by_id zoneId)))
      (m_eqTimeBaseUnixSeconds s) motd (motd_length motd) data ∧
    pr_sent (zc_proc cluster) = sent_before now result s zc ++ packets ∧
    ∀ t zn b mapMinZ, (zc_mgr_get id s = Some zc → is_Some (zc_get_zone_by_source_id id t)) →
      ∃ t' k, each packets (deliver zn b mapMinZ) t = (Ok tt, t') ∧ expected_in t t' id k b c'.
Proof.
  destruct Hs as [Hp Hb Hcs Hm Hc Hz Hid Ha Ht Hport]. cbv zeta. set (c' := row_of c characterId zoneId instanceId) in *.
  unfold client_mgr_from_char_select_callback. cbn [each fst snd].
  assert (Hw : u16 zoneId = zoneId ∧ u16 instanceId = instanceId).
  { destruct Hid. unfold EQP_SOURCE_ID_ZONE_MAX, EQP_SOURCE_ID_ZONE_INSTANCE_MAX in *. split; apply wrap_small; unfold is_word; lia. }
  destruct Hw as [-> ->]. set (s1 := s <| m_memory := <[a := c']> (m_memory s) |>).
  destruct (add_client_ok now result junk buf Hstart Hjunk Hbuf s1 a c' motd zoneId instanceId) as (zc & s' & Hadd & cluster & data & H1 & H2 & H3 & H4 & H5 & H6 & _ & Hrunning);
    try done; [by apply (placed_same s)|apply lookup_insert_eq|].
  rewrite !bind_assoc. rewrite (bind_ok (upd_mclient a _) _ s tt s1) by (unfold upd_mclient, mclient_at; run; by rewrite Hc).
  rewrite (bind_ok _ _ _ _ _ Hadd). 
  eexists zc, s', cluster, ((if zc_mgr_get (source_id zoneId instanceId) s then [] else [(ServerOp_StartZone, source_id zoneId instanceId, [])]) ++
    [(ServerOp_ClientZoning, source_id zoneId instanceId, zoning_bytes junk c')]), data. split; [reflexivity|].
  split_and!; [done..|exact H4|]. intros t zn b mapMinZ Hrun. apply (packets_delivered junk c' zoneId instanceId); [done..|].
  intros [k Hk]. apply Hrun. rewrite Hk. f_equal. by apply Hrunning.
Qed.

(** A master process with one client that waits to zone in. *)
Definition waiting_client : MasterClient := mkMasterClient 0 7 0x100007f 0 0 true true None (text "Soandso") (text "acct").
Definition admitting : Master :=
  configured <| m_messageOfTheDay := Some (text "Welcome") |> <| m_localAddress := text "127.0.0.1" |> <| m_remoteAddress := text "10.0.0.1" |>
    <| m_memory := {[ 3%nat := waiting_client ]} |> <| m_procCharSelect := proc_start 1000 60 (proc_create_ipc_buffer proc_init) |>.

Lemma admitting_admissible : admissible admitting 3 waiting_client 42 10 0 (text "Welcome").
Proof.
  split; try done.
  - by apply (placed_same configured); [apply configured_placed|..].
  - intros [|[|zc]] c Hc; [|done..]. by injection Hc as <-.
  - split; try (split; apply (bool_decide_unpack _); by vm_compute); unfold is_word; cbn; lia.
  - split; apply (bool_decide_unpack _); by vm_compute.
  - split; [done|]. intros [|[|zc]] c Hc; [|done..]. by injection Hc as <-.
Qed.

Example admitted_character_is_expected_witness :
  ∃ zc s' cluster packets data,
    client_mgr_from_char_select_callback 5000 (Forked 78) (replicate 120 0) (replicate (Z.to_nat 4096) 0) 3 [(42, 10, 0)] admitting = (Ok tt, s') ∧ placed s' ∧
    zc_mgr_get 10 s' = Some zc ∧ m_zoneClusterProcs s' !! zc = Some cluster ∧
    pr_sent (m_procCharSelect s') = pr_sent (m_procCharSelect admitting) ++ [(ServerOp_ZoneAddress, EQP_SOURCE_ID_MASTER, data)] ∧
    address_ok 7 (address_of admitting waiting_client) (zc_portHostByteOrder cluster) (take 31 (text (zone_short_name_by_id 10)))
      (m_eqTimeBaseUnixSeconds admitting) (text "Welcome") (motd_length (text "Welcome")) data ∧
    pr_sent (zc_proc cluster) = sent_before 5000 (Forked 78) admitting zc ++ packets ∧
    ∀ t zn b mapMinZ, (zc_mgr_get 10 admitting = Some zc → is_Some (zc_get_zone_by_source_id 10 t)) →
      ∃ t' k, each packets (deliver zn b mapMinZ) t = (Ok tt, t') ∧ expected_in t t' 10 k b (row_of waiting_client 42 10 0).
Proof.
  apply (admitted_character_is_expected 5000 (Forked 78) (replicate 120 0) (replicate (Z.to_nat 4096) 0) admitting 3 waiting_client 42 10 0 (text "Welcome")).
  - discriminate.
  - by rewrite length_replicate.
  - by rewrite length_replicate.
  - exact admitting_admissible.
Defined.
