(* ===== verification/Pfs.v ===== *)
(** Archives of the client's files: map_gen/pfs.c, which the map generator reads.

    An archive is a header, the files in deflated blocks, and a directory with a
    checksum, an offset and a length for each. The entry with the largest offset is not
    a file but the table of names, whose order is that of the offsets. Here is
    the reader, and what the archives are that it reads back. The file is its
    bytes; zlib's uncompress and the content of fresh memory are arguments. *)

From stdpp Require Import sorting.
From S2P Require Import Prelude Fields Text Aligned.

Definition SIGNATURE : Z := 0x20534650.
Definition SIZEOF_Pfs_Header : Z := 12.
Definition SIZEOF_Pfs_BlockHeader : Z := 8.
Definition SIZEOF_Pfs_DirEntry : Z := 12.

Record Pfs_Entry := mkPfsEntry {
  pe_crc : Z;
  pe_offset : Z;
  pe_deflatedLength : Z;
  pe_inflatedLength : Z;
}.

Record Pfs := mkPfs {
  pfs_path : list Z;
  pfs_fileEntries : list Pfs_Entry;
  pfs_fileEntriesByName : gmap (list Z) Z;
  pfs_data : list Z;
  pfs_length : Z;
}.
#[export] Instance Pfs_settable : Settable Pfs :=
  (built mkPfs <*> pfs_path <*> pfs_fileEntries <*> pfs_fileEntriesByName <*> pfs_data <*> pfs_length)%fields.

(** ** Reading memory *)
Definition slice (data : list Z) (p n : Z) : outcome (list Z) :=
  if p + n <=? Z.of_nat (length data) then Ok (take (Z.to_nat n) (drop (Z.to_nat p) data)) else Fault.
Definition word_at (data : list Z) (p : Z) : outcome Z :=
  bytes ← slice data p 4; Ok (foldr (λ b v, b + 256 * v) 0 bytes).

(** ** Opening *)

(** The file's bytes, unless it does not open. *)
Definition pfs_open_file (file : option (list Z)) : outcome (list Z) :=
  match file with
  | None => Throw ErrorDoesNotExist
  | Some bytes =>
      let len := u32 (Z.of_nat (length bytes)) in
      if len =? 0 then Throw ErrorNoData else Ok (take (Z.to_nat len) bytes)
  end.

Definition pfs_init (path data : list Z) : Pfs := mkPfs path [] ∅ data (Z.of_nat (length data)).

(** qsort with pfs_sort; entries of equal offsets get some order. *)
Definition pfs_sort (a b : Pfs_Entry) : Z := if pe_offset a <? pe_offset b then -1 else 1.
Definition in_order (a b : Pfs_Entry) : Prop := pfs_sort b a = 1.
#[export] Instance in_order_dec a b : Decision (in_order a b) := Z.eq_dec _ _.

(** Over a file's blocks, to where they end; the offset may wrap around, so the
    loop need not end. *)
Fixpoint scan_blocks (fuel : nat) (data : list Z) (len q ilen totalLen : Z) : outcome Z :=
  if ilen <? totalLen then
    match fuel with
    | O => Fault
    | S fuel =>
        let bh := q in
        let q := u32 (q + SIZEOF_Pfs_BlockHeader) in
        if len <? q then Throw ErrorOutOfBounds else
        deflatedLength ← word_at data bh;
        let q := u32 (q + deflatedLength) in
        if len <? q then Throw ErrorOutOfBounds else
        inflatedLength ← word_at data (bh + 4);
        scan_blocks fuel data len q (u32 (ilen + inflatedLength)) totalLen
    end
  else Ok q.

Fixpoint read_directory (fuel : nat) (data : list Z) (len : Z) (n : nat) (p : Z) : code Pfs unit :=
  match n with
  | O => mret tt
  | S n =>
      let src := p in
      let p := u32 (p + SIZEOF_Pfs_DirEntry) in
      if len <? p then throw ErrorOutOfBounds else
      crc ← lift (word_at data src);
      offset ← lift (word_at data (src + 4));
      inflatedLength ← lift (word_at data (src + 8));
      if len <? offset then throw ErrorOutOfBounds else
      q ← lift (scan_blocks fuel data len offset 0 inflatedLength);
      modify (λ pfs, pfs <| pfs_fileEntries := pfs_fileEntries pfs ++ [mkPfsEntry crc offset (u32 (q - offset)) inflatedLength] |>) ;;
      read_directory fuel data len n p
  end.

Section Pfs.
Context (uncompress : Z → list Z → option (list Z)) (memory : nat → Z).

(** ** Inflating a file *)
Definition write_at (read : Z) (bytes buffer : list Z) : list Z :=
  take (Z.to_nat read) buffer ++ bytes ++ drop (Z.to_nat read + length bytes) buffer.

Fixpoint decompress_blocks (fuel : nat) (data : list Z) (offset ilen read pos : Z) (buffer : list Z) : outcome (list Z) :=
  if read <? ilen then
    match fuel with
    | O => Fault
    | S fuel =>
        deflatedLength ← word_at data (offset + pos);
        inflatedLength ← word_at data (offset + pos + 4);
        let pos := u32 (pos + SIZEOF_Pfs_BlockHeader) in
        src ← slice data (offset + pos) deflatedLength;
        match uncompress (ilen - read) src with
        | Some bytes => decompress_blocks fuel data offset ilen (u32 (read + inflatedLength)) (u32 (pos + deflatedLength)) (write_at read bytes buffer)
        | None => Throw ErrorCompression
        end
    end
  else Ok buffer.

Definition pfs_decompress_entry (fuel : nat) (pfs : Pfs) (index : Z) : outcome (list Z) :=
  match pfs_fileEntries pfs !! Z.to_nat index with
  | Some ent =>
      if (pfs_length pfs <? pe_offset ent) || (pfs_length pfs <? u32 (pe_offset ent + pe_deflatedLength ent)) then Throw ErrorOutOfBounds
      else
        let ilen := pe_inflatedLength ent in
        decompress_blocks fuel (pfs_data pfs) (pe_offset ent) ilen 0 0 (memory <$> seq 0 (Z.to_nat ilen))
  | None => Throw ErrorOutOfBounds
  end.

(** The names, of which the terminator is left out. *)
Fixpoint read_names (data : list Z) (len : Z) (n : nat) (i p : Z) : code Pfs unit :=
  match n with
  | O => mret tt
  | S n =>
      namelen ← lift (word_at data p);
      let name := u32 (p + 4) in
      if len <? name then throw ErrorOutOfBounds else
      let p := u32 (name + namelen) in
      if len <? p then throw ErrorOutOfBounds else
      key ← lift (slice data name (u32 (namelen - 1)));
      modify (λ pfs, pfs <| pfs_fileEntriesByName := set_absent (pfs_fileEntriesByName pfs) key i |>) ;;
      read_names data len n (u32 (i + 1)) p
  end.

Definition pfs_open (fuel : nat) (path : list Z) (file : option (list Z)) : code Pfs unit :=
  data ← lift (pfs_open_file file);
  let len := Z.of_nat (length data) in
  modify (λ _, pfs_init path data) ;;
  if len <? SIZEOF_Pfs_Header then throw ErrorOutOfBounds else
  signature ← lift (word_at data 4);
  if negb (signature =? SIGNATURE) then throw ErrorMismatch else
  p ← lift (word_at data 0);
  n ← lift (word_at data p);
  read_directory fuel data len (Z.to_nat n) (u32 (p + 4)) ;;
  entries ← gets pfs_fileEntries;
  if (length entries <? 2)%nat then throw ErrorNoData else
  modify (λ pfs, pfs <| pfs_fileEntries := merge_sort in_order entries |>) ;;
  pfs ← get;
  names ← lift (pfs_decompress_entry fuel pfs (Z.of_nat (length (pfs_fileEntries pfs)) - 1));
  modify (λ pfs, pfs <| pfs_fileEntries := removelast (pfs_fileEntries pfs) |>) ;;
  n ← lift (word_at names 0);
  if Z.of_nat (length names) <? 4 then throw ErrorOutOfBounds else
  read_names names (Z.of_nat (length names)) (Z.to_nat n) 0 4.

(** ** The files *)
Definition pfs_has_file_by_name (pfs : Pfs) (name : list Z) : bool := bool_decide (is_Some (pfs_fileEntriesByName pfs !! name)).
Definition pfs_is_s3d_zone (pfs : Pfs) : bool := pfs_has_file_by_name pfs (text "objects.wld").
Definition pfs_get_file_by_name (fuel : nat) (pfs : Pfs) (name : list Z) : outcome (list Z) :=
  match pfs_fileEntriesByName pfs !! name with
  | Some index => pfs_decompress_entry fuel pfs index
  | None => Throw ErrorMismatch
  end.

(** ** Archives *)
Context (compress : list Z → list Z).
Definition block (chunk : list Z) : list Z :=
  le_bytes 4 (Z.of_nat (length (compress chunk))) ++ le_bytes 4 (Z.of_nat (length chunk)) ++ compress chunk.
Definition blob (chunks : list (list Z)) : list Z := concat (block <$> chunks).

Definition name_entry (name : list Z) : list Z := le_bytes 4 (Z.of_nat (length name) + 1) ++ name ++ [0].
Definition name_table (names : list (list Z)) : list Z :=
  le_bytes 4 (Z.of_nat (length names)) ++ concat (name_entry <$> names).

(** The entries of files that follow each other from [offset] on. *)
Fixpoint entries_from (offset : Z) (contents : list (Z * list (list Z))) : list Pfs_Entry :=
  match contents with
  | [] => []
  | (crc, chunks) :: contents =>
      let n := Z.of_nat (length (blob chunks)) in
      mkPfsEntry crc offset n (Z.of_nat (length (concat chunks))) :: entries_from (offset + n) contents
  end.

Definition dir_entry (e : Pfs_Entry) : list Z := le_bytes 4 (pe_crc e) ++ le_bytes 4 (pe_offset e) ++ le_bytes 4 (pe_inflatedLength e).

(** A file has a name, a checksum and its content in chunks. *)
Record PackedFile := mkPacked { f_name : list Z; f_crc : Z; f_chunks : list (list Z) }.

Definition packed_contents (files : list PackedFile) (names : Z * list (list Z)) : list (Z * list (list Z)) :=
  ((λ f, (f_crc f, f_chunks f)) <$> files) ++ [names].

Definition archive (files : list PackedFile) (names : Z * list (list Z)) (directory : list Pfs_Entry) (unknown : Z) (trailer : list Z) : list Z :=
  let blobs := concat (blob <$> (packed_contents files names).*2) in
  le_bytes 4 (12 + Z.of_nat (length blobs)) ++ le_bytes 4 SIGNATURE ++ le_bytes 4 unknown ++ blobs ++
  le_bytes 4 (Z.of_nat (length directory)) ++ concat (dir_entry <$> directory) ++ trailer.

Definition chunks_ok (chunks : list (list Z)) : Prop :=
  chunks ≠ [] ∧ Forall (λ chunk, chunk ≠ [] ∧ Forall is_byte chunk) chunks ∧ Z.of_nat (length (concat chunks)) < 2 ^ 32.

(** The directory names every file once, in any order. *)
Record archived (files : list PackedFile) (names : Z * list (list Z)) (directory : list Pfs_Entry) (unknown : Z) (trailer : list Z) : Prop := {
  ar_files : files ≠ [];
  ar_names : NoDup (f_name <$> files);
  ar_chunks : Forall (λ c, is_word 32 c.1 ∧ chunks_ok c.2) (packed_contents files names);
  ar_table : concat names.2 = name_table (f_name <$> files);
  ar_directory : directory ≡ₚ entries_from 12 (packed_contents files names);
  ar_length : Z.of_nat (length (archive files names directory unknown trailer)) < 2 ^ 32;
}.

(** ** Bytes at a position *)
Definition at_pos (data : list Z) (p : Z) (bytes : list Z) : Prop :=
  0 ≤ p ∧ ∃ pre post, data = pre ++ bytes ++ post ∧ Z.of_nat (length pre) = p.

Lemma at_pos_intro pre bytes post : at_pos (pre ++ bytes ++ post) (Z.of_nat (length pre)) bytes.
Proof. split; [lia|]. by exists pre, post. Qed.

Lemma at_pos_fits data p bytes : at_pos data p bytes → p + Z.of_nat (length bytes) ≤ Z.of_nat (length data).
Proof. intros (_ & pre & post & -> & <-). rewrite !length_app. lia. Qed.

Lemma at_pos_app data p b1 b2 : at_pos data p (b1 ++ b2) → at_pos data p b1 ∧ at_pos data (p + Z.of_nat (length b1)) b2.
Proof.
  intros (Hp & pre & post & -> & Hl). split.
  - split; [done|]. exists pre, (b2 ++ post). by rewrite <- !app_assoc.
  - split; [lia|]. exists (pre ++ b1), post. rewrite <- !app_assoc, length_app. split; [done|lia].
Qed.

Lemma slice_at data p bytes n : at_pos data p bytes → n = Z.of_nat (length bytes) → slice data p n = Ok bytes.
Proof.
  intros Hat ->. pose proof (at_pos_fits _ _ _ Hat) as Hf. destruct Hat as (Hp & pre & post & -> & <-). unfold slice.
  rewrite (proj2 (Z.leb_le _ _)) by done. by rewrite !Nat2Z.id, drop_app_length, take_app_length.
Qed.

Lemma word_at_le data p v : at_pos data p (le_bytes 4 v) → is_word 32 v → word_at data p = Ok v.
Proof.
  intros Hat Hv. unfold word_at. rewrite (slice_at _ _ _ 4 Hat) by by rewrite le_bytes_length. cbn [mbind outcome_bind].
  by rewrite le_bytes_word.
Qed.

Lemma fits_word (data : list Z) p bytes : at_pos data p bytes → Z.of_nat (length data) < 2 ^ 32 → u32 (p + Z.of_nat (length bytes)) = p + Z.of_nat (length bytes).
Proof. intros Hat Hd. pose proof (at_pos_fits _ _ _ Hat). destruct Hat as [? _]. apply wrap_small. split; lia. Qed.

(** ** Blocks *)
Lemma block_at data p chunk chunks : at_pos data p (blob (chunk :: chunks)) →
  at_pos data p (le_bytes 4 (Z.of_nat (length (compress chunk)))) ∧ at_pos data (p + 4) (le_bytes 4 (Z.of_nat (length chunk))) ∧
  at_pos data (p + 8) (compress chunk) ∧ at_pos data (p + 8 + Z.of_nat (length (compress chunk))) (blob chunks).
Proof.
  unfold blob, block. cbn [fmap list_fmap concat]. rewrite <- !app_assoc.
  intros (H1 & (H2 & (H3 & H4)%at_pos_app)%at_pos_app)%at_pos_app. rewrite !le_bytes_length in *.
  replace (p + 8) with (p + Z.of_nat 4 + Z.of_nat 4) by lia. by split_and!.
Qed.

Lemma blob_cons chunk chunks : Z.of_nat (length (blob (chunk :: chunks))) = 8 + Z.of_nat (length (compress chunk)) + Z.of_nat (length (blob chunks)).
Proof. unfold blob, block. cbn [fmap list_fmap concat]. rewrite !length_app, !le_bytes_length. lia. Qed.

Lemma blob_long chunks : (length chunks ≤ length (blob chunks))%nat.
Proof. induction chunks as [|chunk chunks IH]; [done|]. pose proof (blob_cons chunk chunks). simpl length at 1. lia. Qed.

Lemma scan_blocks_ok chunks : ∀ fuel data q ilen totalLen, Z.of_nat (length data) < 2 ^ 32 → at_pos data q (blob chunks) →
  Forall (λ chunk, chunk ≠ []) chunks → 0 ≤ ilen → ilen + Z.of_nat (length (concat chunks)) = totalLen → totalLen < 2 ^ 32 → (length chunks ≤ fuel)%nat →
  scan_blocks fuel data (Z.of_nat (length data)) q ilen totalLen = Ok (q + Z.of_nat (length (blob chunks))).
Proof.
  induction chunks as [|chunk chunks IH]; intros fuel data q ilen totalLen Hd Hat Hne Hi Ht Hw Hf.
  { destruct fuel; cbn [scan_blocks]; rewrite (proj2 (Z.ltb_ge _ _)) by (simpl in Ht; lia); f_equal; cbn; lia. }
  apply Forall_cons in Hne as [Hc Hne]. destruct fuel as [|fuel]; simpl in Hf; [lia|].
  destruct (block_at _ _ _ _ Hat) as (H1 & H2 & H3 & H4). cbn [concat] in Ht. rewrite length_app in Ht.
  assert (0 < length chunk)%nat by (destruct chunk; [done|simpl; lia]).
  pose proof (at_pos_fits _ _ _ H3). pose proof (at_pos_fits _ _ _ H4). destruct Hat as [Hq _].
  cbn [scan_blocks]. rewrite (proj2 (Z.ltb_lt _ _)) by lia. unfold SIZEOF_Pfs_BlockHeader.
  assert (H8 : u32 (q + 8) = q + 8) by (apply wrap_small; split; lia).
  rewrite !H8, (proj2 (Z.ltb_ge _ _)) by lia. rewrite (word_at_le _ _ _ H1) by (split; lia). cbn [mbind outcome_bind].
  rewrite (fits_word _ _ _ H3 Hd), (proj2 (Z.ltb_ge _ _)) by lia. rewrite (word_at_le _ _ _ H2) by (split; lia). cbn [mbind outcome_bind].
  rewrite (wrap_small 32 (ilen + _)) by (split; lia). rewrite (IH fuel data); try done; [|lia..]. f_equal. rewrite blob_cons. lia.
Qed.

Context (uncompress_compress : ∀ cap bytes, Forall is_byte bytes → Z.of_nat (length bytes) ≤ cap → uncompress cap (compress bytes) = Some bytes).

Lemma decompress_blocks_ok chunks : ∀ fuel data offset ilen pos done rest, Z.of_nat (length data) < 2 ^ 32 → 0 ≤ offset → 0 ≤ pos →
  at_pos data (offset + pos) (blob chunks) → Forall (λ chunk, chunk ≠ [] ∧ Forall is_byte chunk) chunks →
  ilen = Z.of_nat (length done + length (concat chunks)) → ilen < 2 ^ 32 → length rest = length (concat chunks) → (length chunks ≤ fuel)%nat →
  decompress_blocks fuel data offset ilen (Z.of_nat (length done)) pos (done ++ rest) = Ok (done ++ concat chunks).
Proof.
  induction chunks as [|chunk chunks IH]; intros fuel data offset ilen pos done rest Hd Ho Hp Hat Hne Hi Hw Hr Hf.
  { apply nil_length_inv in Hr as ->. destruct fuel; cbn [decompress_blocks]; rewrite (proj2 (Z.ltb_ge _ _)); simpl in Hi; done || lia. }
  apply Forall_cons in Hne as [[Hc Hb] Hne]. destruct fuel as [|fuel]; simpl in Hf; [lia|].
  destruct (block_at _ _ _ _ Hat) as (H1 & H2 & H3 & H4). cbn [concat] in *. rewrite length_app in *.
  assert (0 < length chunk)%nat by (destruct chunk; [done|simpl; lia]).
  pose proof (at_pos_fits _ _ _ H3). pose proof (at_pos_fits _ _ _ H4). destruct Hat as [Hq _].
  cbn [decompress_blocks]. rewrite (proj2 (Z.ltb_lt _ _)) by lia. rewrite (word_at_le _ _ _ H1) by (split; lia). cbn [mbind outcome_bind].
  rewrite (word_at_le _ _ _ H2) by (split; lia). unfold SIZEOF_Pfs_BlockHeader. rewrite !(wrap_small 32 (pos + 8)) by (split; lia).
  rewrite (slice_at data (offset + (pos + 8)) (compress chunk)) by (done || by rewrite Z.add_assoc). cbn [mbind outcome_bind].
  rewrite uncompress_compress by (done || lia). rewrite (wrap_small 32 (_ + Z.of_nat (length chunk))), (wrap_small 32 (pos + 8 + _)) by (split; lia).
  assert (Hwr : write_at (Z.of_nat (length done)) chunk (done ++ rest) = (done ++ chunk) ++ drop (length chunk) rest).
  { unfold write_at. rewrite Nat2Z.id, take_app_length, drop_app_ge, Nat.add_sub_swap, Nat.sub_diag by lia. by rewrite <- app_assoc. }
  rewrite Hwr, <- Nat2Z.inj_add, <- length_app. rewrite (IH fuel data offset ilen (pos + 8 + Z.of_nat (length (compress chunk)))); try done.
  - by rewrite <- app_assoc.
  - lia.
  - by rewrite !Z.add_assoc.
  - rewrite length_app. lia.
  - rewrite length_drop. lia.
  - lia.
Qed.

(** ** The directory *)

(** The entry's blocks are where it says. *)
Definition entry_at_blob (data : list Z) (e : Pfs_Entry) (chunks : list (list Z)) : Prop :=
  at_pos data (pe_offset e) (blob chunks) ∧ chunks_ok chunks ∧ is_word 32 (pe_crc e) ∧
  pe_deflatedLength e = Z.of_nat (length (blob chunks)) ∧ pe_inflatedLength e = Z.of_nat (length (concat chunks)).

Lemma entry_offset data e chunks : Z.of_nat (length data) < 2 ^ 32 → entry_at_blob data e chunks →
  is_word 32 (pe_offset e) ∧ pe_offset e + pe_deflatedLength e ≤ Z.of_nat (length data) ∧ 0 ≤ pe_deflatedLength e ∧ is_word 32 (pe_inflatedLength e).
Proof.
  intros Hd (Hat & (_ & _ & Hl) & _ & -> & ->). pose proof (at_pos_fits _ _ _ Hat). destruct Hat as [? _]. unfold is_word. lia.
Qed.

Lemma dir_entry_length e : length (dir_entry e) = 12%nat.
Proof. unfold dir_entry. by rewrite !length_app, !le_bytes_length. Qed.

Lemma read_directory_ok directory : ∀ fuel data p pfs, Z.of_nat (length data) < 2 ^ 32 → at_pos data p (concat (dir_entry <$> directory)) →
  Forall (λ e, ∃ chunks, entry_at_blob data e chunks) directory → (length data ≤ fuel)%nat →
  read_directory fuel data (Z.of_nat (length data)) (length directory) p pfs =
    (Ok tt, pfs <| pfs_fileEntries := pfs_fileEntries pfs ++ directory |>).
Proof.
  induction directory as [|e directory IH]; intros fuel data p pfs Hd Hat He Hf.
  { cbn. rewrite app_nil_r. by destruct pfs. }
  apply Forall_cons in He as [(chunks & Heb) He]. destruct (entry_offset _ _ _ Hd Heb) as (Ho & Hfit & Hdl & Hil).
  destruct Heb as (Hblob & (Hne & Hch & Hlen) & Hcrc & Hdef & Hinf).
  cbn [fmap list_fmap concat] in Hat. apply at_pos_app in Hat as [Hent Hrest]. pose proof (fits_word _ _ _ Hent Hd) as Hp.
  pose proof (at_pos_fits _ _ _ Hent). rewrite dir_entry_length in *.
  unfold dir_entry in Hent. apply at_pos_app in Hent as [H1 [H2 H3]%at_pos_app]. rewrite !le_bytes_length in *.
  cbn [length read_directory]. cbn zeta. change SIZEOF_Pfs_DirEntry with (Z.of_nat 12). rewrite Hp, (proj2 (Z.ltb_ge _ _)) by lia.
  rewrite (bind_lift _ _ _ _ (word_at_le _ _ _ H1 Hcrc)), (bind_lift _ _ _ _ (word_at_le _ _ _ H2 Ho)).
  replace (p + Z.of_nat 4 + Z.of_nat 4) with (p + 8) in H3 by lia. rewrite (bind_lift _ _ _ _ (word_at_le _ _ _ H3 Hil)).
  rewrite (proj2 (Z.ltb_ge _ _)) by lia.
  assert (Hscan : scan_blocks fuel data (Z.of_nat (length data)) (pe_offset e) 0 (pe_inflatedLength e) = Ok (pe_offset e + Z.of_nat (length (blob chunks)))).
  { apply scan_blocks_ok; try done; [|lia..|]. - eapply Forall_impl; [exact Hch|]. by intros ? [? _]. - pose proof (blob_long chunks). destruct Ho. lia. }
  rewrite (bind_lift _ _ _ _ Hscan), bind_modify, (IH fuel data) by done.
  rewrite Z.add_simpl_l, <- Hdef, wrap_small by (destruct Ho; unfold is_word; lia). destruct pfs, e. cbn. by rewrite <- app_assoc.
Qed.

(** ** Sorting by offset *)
Lemma chunks_ok_blob chunks : chunks_ok chunks → (0 < length (blob chunks))%nat.
Proof. intros [Hne _]. pose proof (blob_long chunks). destruct chunks; [done|]. simpl in *. lia. Qed.

Lemma entries_from_after contents : ∀ offset e, Forall (λ c, chunks_ok c.2) contents → e ∈ entries_from offset contents → offset ≤ pe_offset e.
Proof.
  induction contents as [|[crc chunks] contents IH]; intros offset e Hc; cbn [entries_from]; [by intros ?%not_elem_of_nil|].
  apply Forall_cons in Hc as [Hc1 Hc]. pose proof (chunks_ok_blob _ Hc1).
  intros [->|Hin]%elem_of_cons; [done|]. pose proof (IH _ _ Hc Hin). lia.
Qed.

Lemma entries_from_sorted contents : ∀ offset, Forall (λ c, chunks_ok c.2) contents →
  StronglySorted in_order (entries_from offset contents) ∧
  ∀ a b, a ∈ entries_from offset contents → b ∈ entries_from offset contents → in_order a b → in_order b a → a = b.
Proof.
  induction contents as [|[crc chunks] contents IH]; intros offset Hc; cbn [entries_from].
  { split; [constructor|by intros ? ? ?%not_elem_of_nil]. }
  apply Forall_cons in Hc as [Hc1 Hc]. pose proof (chunks_ok_blob _ Hc1) as Hb. cbn [snd] in Hb.
  set (e := mkPfsEntry crc offset _ _). set (next := offset + _). destruct (IH next Hc) as [IH1 IH2].
  assert (Hafter : ∀ x, x ∈ entries_from next contents → pe_offset e < pe_offset x).
  { intros x Hx. pose proof (entries_from_after _ _ _ Hc Hx). unfold e, next in *. cbn. lia. }
  assert (Hord : ∀ x y, pe_offset x < pe_offset y → ¬ in_order y x).
  { intros x y Hlt. unfold in_order, pfs_sort. by rewrite (proj2 (Z.ltb_lt _ _)). }
  split.
  - constructor; [done|]. apply Forall_forall. intros x Hx. specialize (Hafter x Hx). unfold in_order, pfs_sort.
    by rewrite (proj2 (Z.ltb_ge _ _)) by lia.
  - intros a b [->|Ha]%elem_of_cons [->|Hb']%elem_of_cons Hab Hba; [done|..|by apply IH2].
    + by destruct (Hord e b (Hafter b Hb')).
    + by destruct (Hord e a (Hafter a Ha)).
Qed.

#[local] Instance in_order_total : Total in_order.
Proof.
  intros a b. unfold in_order, pfs_sort. destruct (Z.ltb_spec (pe_offset b) (pe_offset a)); [|by left].
  right. by rewrite (proj2 (Z.ltb_ge _ _)) by lia.
Qed.
#[local] Instance in_order_trans : Transitive in_order.
Proof.
  intros a b c. unfold in_order, pfs_sort.
  destruct (Z.ltb_spec (pe_offset b) (pe_offset a)), (Z.ltb_spec (pe_offset c) (pe_offset b)), (Z.ltb_spec (pe_offset c) (pe_offset a)); done || lia.
Qed.

Lemma directory_sorted directory contents : Forall (λ c, chunks_ok c.2) contents → directory ≡ₚ entries_from 12 contents →
  merge_sort in_order directory = entries_from 12 contents.
Proof.
  intros Hc Hp. destruct (entries_from_sorted contents 12 Hc) as [Hs Ha].
  assert (Hp' : merge_sort in_order directory ≡ₚ entries_from 12 contents) by (by rewrite merge_sort_Permutation).
  apply (StronglySorted_unique_strong in_order); [|apply StronglySorted_merge_sort; apply _|done|done].
  intros a b Hina Hinb. apply Ha; [by rewrite <- Hp'|done].
Qed.

Lemma entries_from_at data contents : ∀ offset, at_pos data offset (concat (blob <$> contents.*2)) →
  Forall (λ c, is_word 32 c.1 ∧ chunks_ok c.2) contents →
  Forall2 (λ e c, entry_at_blob data e c.2) (entries_from offset contents) contents.
Proof.
  induction contents as [|[crc chunks] contents IH]; intros offset Hat Hc; [constructor|].
  apply Forall_cons in Hc as [[Hcrc Hok] Hc]. cbn [fmap list_fmap concat snd] in Hat. apply at_pos_app in Hat as [Hb Hat].
  constructor; [done|by apply IH].
Qed.

Lemma pfs_decompress_entry_ok fuel pfs index e chunks : Z.of_nat (length (pfs_data pfs)) < 2 ^ 32 →
  pfs_length pfs = Z.of_nat (length (pfs_data pfs)) → pfs_fileEntries pfs !! Z.to_nat index = Some e →
  entry_at_blob (pfs_data pfs) e chunks → (length (pfs_data pfs) ≤ fuel)%nat →
  pfs_decompress_entry fuel pfs index = Ok (concat chunks).
Proof.
  intros Hd Hl Hi He Hf. destruct (entry_offset _ _ _ Hd He) as ([Ho1 Ho2] & Hfit & Hdl & Hil).
  destruct He as (Hat & (Hne & Hch & Hlen) & _ & Hdef & Hinf). unfold pfs_decompress_entry. rewrite Hi, Hl.
  rewrite wrap_small by (split; lia). rewrite !(proj2 (Z.ltb_ge _ _)) by lia. cbn [orb]. rewrite Hinf.
  pose proof (blob_long chunks). rewrite Nat2Z.id.
  apply (decompress_blocks_ok chunks fuel (pfs_data pfs) (pe_offset e) _ 0 []); [done|lia|done| |done..| |lia].
  - by rewrite Z.add_0_r.
  - exact (eq_trans (length_fmap memory _) (length_seq _ _)).
Qed.

(** ** The names *)
Fixpoint numbered (i : Z) (names : list (list Z)) (m : gmap (list Z) Z) : gmap (list Z) Z :=
  match names with
  | [] => m
  | name :: names => numbered (i + 1) names (set_absent m name i)
  end.

Lemma read_names_ok names : ∀ data i p pfs, Z.of_nat (length data) < 2 ^ 32 → at_pos data p (concat (name_entry <$> names)) →
  0 ≤ i → i + Z.of_nat (length names) < 2 ^ 32 →
  read_names data (Z.of_nat (length data)) (length names) i p pfs =
    (Ok tt, pfs <| pfs_fileEntriesByName := numbered i names (pfs_fileEntriesByName pfs) |>).
Proof.
  induction names as [|name names IH]; intros data i p pfs Hd Hat Hi Hn; [by destruct pfs|].
  cbn [fmap list_fmap concat] in Hat. apply at_pos_app in Hat as [Hent Hrest]. pose proof (fits_word _ _ _ Hent Hd) as Hp.
  pose proof (at_pos_fits _ _ _ Hent) as Hfit. assert (Hlen : length (name_entry name) = (5 + length name)%nat).
  { unfold name_entry. rewrite !length_app, le_bytes_length. simpl. lia. }
  rewrite Hlen in *. destruct Hent as [Hp0 Hent']. assert (Hent : at_pos data p (name_entry name)) by (by split).
  unfold name_entry in Hent. apply at_pos_app in Hent as [H1 [H2 _]%at_pos_app]. rewrite le_bytes_length in *. simpl length in Hn.
  cbn [length read_names]. cbn zeta. rewrite (bind_lift _ _ _ _ (word_at_le _ _ _ H1 ltac:(split; lia))).
  rewrite !(wrap_small 32 (p + 4)) by (split; lia). rewrite (proj2 (Z.ltb_ge _ _)) by lia.
  rewrite (wrap_small 32 (p + 4 + _)) by (split; lia). rewrite (proj2 (Z.ltb_ge _ _)) by lia.
  rewrite Z.add_simpl_r, (wrap_small 32 (Z.of_nat (length name))) by (split; lia).
  rewrite (bind_lift _ _ _ _ (slice_at _ _ _ _ H2 eq_refl)), bind_modify, (wrap_small 32 (i + 1)) by (split; lia).
  replace (p + 4 + (Z.of_nat (length name) + 1)) with (p + Z.of_nat (5 + length name)) by lia.
  rewrite IH by (done || lia). by destruct pfs.
Qed.

Lemma numbered_other names : ∀ i m name, name ∉ names → numbered i names m !! name = m !! name.
Proof.
  induction names as [|n names IH]; intros i m name Hn; [done|]. apply not_elem_of_cons in Hn as [? Hn].
  cbn [numbered]. rewrite IH by done. by rewrite set_absent_ne.
Qed.
Lemma numbered_name names : ∀ i m k name, NoDup names → (∀ n, n ∈ names → m !! n = None) → names !! k = Some name →
  numbered i names m !! name = Some (i + Z.of_nat k).
Proof.
  induction names as [|n names IH]; intros i m k name Hnd Hm Hk; [done|].
  apply NoDup_cons in Hnd as [Hn Hnd]. cbn [numbered]. destruct k as [|k]; simpl in Hk.
  - injection Hk as ->. rewrite numbered_other, set_absent_new, lookup_insert_eq by (done || apply Hm; set_solver). f_equal. lia.
  - rewrite (IH _ _ k); [f_equal; lia|done| |done]. intros n' Hn'. rewrite set_absent_ne by set_solver. apply Hm. set_solver.
Qed.

(** ** Reading an archive back *)
Lemma bind_get {S B} (f : S → code S B) s : (get ≫= f) s = f s s.
Proof. done. Qed.

Lemma archive_parts files names directory unknown trailer (data := archive files names directory unknown trailer)
    (p := 12 + Z.of_nat (length (concat (blob <$> (packed_contents files names).*2)))) :
  at_pos data 0 (le_bytes 4 p) ∧ at_pos data 4 (le_bytes 4 SIGNATURE) ∧
  at_pos data 12 (concat (blob <$> (packed_contents files names).*2)) ∧
  at_pos data p (le_bytes 4 (Z.of_nat (length directory))) ∧ at_pos data (p + 4) (concat (dir_entry <$> directory)).
Proof.
  assert (Hat : at_pos data 0 (data ++ [])) by (split; [done|]; exists [], []; by rewrite !app_nil_r).
  unfold data at 2, archive in Hat. cbn zeta in Hat. fold p in Hat. rewrite <- !app_assoc in Hat.
  apply at_pos_app in Hat as [H1 [H2 [_ [H3 [H4 [H5 _]%at_pos_app]%at_pos_app]%at_pos_app]%at_pos_app]%at_pos_app].
  rewrite !le_bytes_length in *. by split_and!.
Qed.

Lemma entries_from_length offset contents : length (entries_from offset contents) = length contents.
Proof. revert offset. induction contents as [|[crc chunks] contents IH]; intros; simpl; [done|by rewrite IH]. Qed.

Lemma entries_from_app offset c1 c2 : ∃ mid, entries_from offset (c1 ++ c2) = entries_from offset c1 ++ entries_from mid c2.
Proof.
  revert offset. induction c1 as [|[crc chunks] c1 IH]; intros offset; [by exists offset|]. cbn [app entries_from].
  destruct (IH (offset + Z.of_nat (length (blob chunks)))) as [mid ->]. by exists mid.
Qed.

(** What the archive looks like once it is open. *)
Definition opened (path : list Z) (files : list PackedFile) (data : list Z) : Pfs :=
  mkPfs path (entries_from 12 ((λ f, (f_crc f, f_chunks f)) <$> files)) (numbered 0 (f_name <$> files) ∅) data (Z.of_nat (length data)).

Lemma pfs_open_ok files names directory unknown trailer fuel path pfs (data := archive files names directory unknown trailer) :
  archived files names directory unknown trailer → (length data ≤ fuel)%nat →
  pfs_open fuel path (Some data) pfs = (Ok tt, opened path files data).
Proof.
  intros [Hfiles Hnd Hch Htab Hdir Hlen] Hf. fold data in Hlen. set (contents := packed_contents files names) in *.
  destruct (archive_parts files names directory unknown trailer) as (H0 & H4 & Hblobs & Hn & Hents).
  fold data contents in H0, H4, Hblobs, Hn, Hents. set (p := 12 + _) in *.
  pose proof (at_pos_fits _ _ _ Hents) as Hfit. pose proof (entries_from_at data contents 12 Hblobs Hch) as Hall.
  assert (Hok : Forall (λ c, chunks_ok c.2) contents) by (eapply Forall_impl; [exact Hch|]; by intros ? [_ ?]).
  assert (Hdl : length directory = S (length files)).
  { rewrite Hdir, entries_from_length. unfold contents, packed_contents. rewrite length_app, length_fmap. simpl. lia. }
  assert (Hfl : files ≠ [] → (0 < length files)%nat) by (destruct files; simpl; [done|lia]). specialize (Hfl Hfiles).
  assert (Hsmall : 12 * Z.of_nat (length directory) ≤ Z.of_nat (length (concat (dir_entry <$> directory)))).
  { clear. induction directory as [|e directory IH]; [done|]. cbn [fmap list_fmap concat]. rewrite length_app, dir_entry_length. simpl length at 1. lia. }
  assert (Hp : 0 ≤ p) by (unfold p; lia).
  unfold pfs_open, pfs_open_file. rewrite wrap_small by (split; lia). rewrite (proj2 (Z.eqb_neq _ 0)), Nat2Z.id, take_ge by lia.
  rewrite (bind_lift _ _ _ _ eq_refl), bind_modify. unfold SIZEOF_Pfs_Header. rewrite (proj2 (Z.ltb_ge _ _)) by lia.
  rewrite (bind_lift _ _ _ _ (word_at_le _ _ _ H4 ltac:(done))), Z.eqb_refl. cbn [negb].
  rewrite (bind_lift _ _ _ _ (word_at_le _ _ _ H0 ltac:(split; lia))), (bind_lift _ _ _ _ (word_at_le _ _ _ Hn ltac:(split; lia))).
  rewrite wrap_small, Nat2Z.id by (split; lia).
  assert (Hread : Forall (λ e, ∃ chunks, entry_at_blob data e chunks) directory).
  { rewrite Hdir. eapply Forall2_Forall_l; [exact Hall|]. apply Forall_forall. intros c _ e He. by exists c.2. }
  rewrite (bind_ok _ _ _ _ _ (read_directory_ok directory fuel data (p + 4) (pfs_init path data) Hlen Hents Hread Hf)).
  rewrite bind_gets. change (pfs_fileEntries (_ <| pfs_fileEntries := _ |>)) with directory.
  rewrite (proj2 (Nat.ltb_ge _ _)), bind_modify, (directory_sorted directory contents Hok Hdir) by lia.
  destruct (entries_from_app 12 ((λ f, (f_crc f, f_chunks f)) <$> files) [names]) as [mid Hmid].
  destruct names as [crc chunks]. cbn [entries_from] in Hmid. set (last := mkPfsEntry _ _ _ _) in Hmid.
  match type of Hmid with _ = ?r => change (entries_from 12 contents = r) in Hmid end. rewrite Hmid in Hall |- *.
  set (entries := entries_from 12 ((λ f, (f_crc f, f_chunks f)) <$> files)) in *.
  assert (Hlast : entry_at_blob data last chunks).
  { apply Forall2_app_inv in Hall as [_ Hall]; [|unfold entries; by rewrite entries_from_length]. by apply Forall2_cons in Hall as [? _]. }
  rewrite bind_get. match goal with |- context [pfs_decompress_entry fuel ?st _] =>
    change st with (mkPfs path (entries ++ [last]) ∅ data (Z.of_nat (length data))) end. cbn [pfs_fileEntries].
  assert (Hnames : pfs_decompress_entry fuel (mkPfs path (entries ++ [last]) ∅ data (Z.of_nat (length data)))
    (Z.of_nat (length (entries ++ [last])) - 1) = Ok (name_table (f_name <$> files))).
  { rewrite <- Htab. apply (pfs_decompress_entry_ok _ _ _ last); cbn; try done.
    rewrite length_app. cbn. replace (Z.to_nat _) with (length entries) by lia. by rewrite list_lookup_middle. }
  rewrite (bind_lift _ _ _ _ Hnames), bind_modify. clear Hnames. set (table := name_table (f_name <$> files)) in *.
  change (pfs_fileEntries (mkPfs _ ?es _ _ _)) with es. rewrite removelast_last.
  assert (Ht : at_pos table 0 (table ++ [])) by (split; [done|]; exists [], []; by rewrite !app_nil_r).
  unfold table at 2, name_table in Ht. rewrite <- app_assoc in Ht. apply at_pos_app in Ht as [Hcount [Hnames _]%at_pos_app].
  rewrite le_bytes_length, length_fmap in *.
  assert (Htl : Z.of_nat (length table) < 2 ^ 32) by (rewrite <- Htab; apply Hlast).
  pose proof (at_pos_fits _ _ _ Hcount). rewrite le_bytes_length in *.
  rewrite (bind_lift _ _ _ _ (word_at_le _ _ _ Hcount ltac:(split; lia))), (proj2 (Z.ltb_ge _ _)), Nat2Z.id by lia.
  rewrite <- (length_fmap f_name files). rewrite read_names_ok; [done|done..|lia|rewrite length_fmap; lia].
Qed.

(** C19: Whatever the order of its directory, an archive opens; every file in it is
    found under its name with its content, and no other is. *)
Theorem archive_reads_back files names directory unknown trailer fuel path pfs (data := archive files names directory unknown trailer) :
  archived files names directory unknown trailer → (length data ≤ fuel)%nat →
  ∃ pfs', pfs_open fuel path (Some data) pfs = (Ok tt, pfs') ∧
    (∀ f, f ∈ files → pfs_has_file_by_name pfs' (f_name f) = true ∧ pfs_get_file_by_name fuel pfs' (f_name f) = Ok (concat (f_chunks f))) ∧
    (∀ name, name ∉ f_name <$> files → pfs_has_file_by_name pfs' name = false ∧ pfs_get_file_by_name fuel pfs' name = Throw ErrorMismatch).
Proof.
  intros Har Hf. exists (opened path files data). split; [by apply pfs_open_ok|]. destruct Har as [_ Hnd Hch _ _ Hlen]. fold data in Hlen.
  unfold pfs_has_file_by_name, pfs_get_file_by_name, opened. cbn [pfs_fileEntriesByName].
  split; [intros f Hin|intros name Hn; by rewrite numbered_other, lookup_empty].
  apply list_elem_of_lookup in Hin as [k Hk].
  rewrite (numbered_name _ _ _ k) by (done || by rewrite list_lookup_fmap, Hk). split; [done|].
  destruct (archive_parts files names directory unknown trailer) as (_ & _ & Hblobs & _). fold data in Hblobs.
  pose proof (entries_from_at data _ 12 Hblobs Hch) as Hall. unfold packed_contents in Hall.
  destruct (entries_from_app 12 ((λ f, (f_crc f, f_chunks f)) <$> files) [names]) as [mid Hmid]. rewrite Hmid in Hall.
  apply Forall2_app_inv in Hall as [Hall _]; [|by rewrite entries_from_length].
  assert (Hkc : ((λ f, (f_crc f, f_chunks f)) <$> files) !! k = Some (f_crc f, f_chunks f)) by (by rewrite list_lookup_fmap, Hk).
  destruct (Forall2_lookup_r _ _ _ _ _ Hall Hkc) as (e & Hke & He).
  apply (pfs_decompress_entry_ok _ _ _ e); cbn [pfs_fileEntries pfs_data pfs_length]; try done. by rewrite Z.add_0_l, Nat2Z.id.
Qed.
End Pfs.

(** An archive of two files, stored as they are; the directory is in the
    opposite order. *)
Definition two_files : list PackedFile :=
  [mkPacked (text "objects.wld") 7 [text "first "; text "part"]; mkPacked (text "zone.wld") 5 [text "zone"]].
Definition two_names : Z * list (list Z) := (3, [name_table (f_name <$> two_files)]).
Definition two_directory : list Pfs_Entry := reverse (entries_from id 12 (packed_contents two_files two_names)).

Lemma archive_reads_back_witness :
  let data := archive id two_files two_names two_directory 131072 (text "STEVE") in
  ∃ pfs', pfs_open (λ _ bytes, Some bytes) (λ _, 205) 1000 [] (Some data) (mkPfs [] [] ∅ [] 0) = (Ok tt, pfs') ∧
    pfs_get_file_by_name (λ _ bytes, Some bytes) (λ _, 205) 1000 pfs' (text "objects.wld") = Ok (text "first part").
Proof.
  intros data. destruct (archive_reads_back (λ _ bytes, Some bytes) (λ _, 205) id (λ _ _ _ _, eq_refl)
    two_files two_names two_directory 131072 (text "STEVE") 1000 [] (mkPfs [] [] ∅ [] 0)) as (pfs' & Hopen & Hget & _).
  - split.
    + done.
    + apply (bool_decide_unpack _). by vm_compute.
    + unfold chunks_ok, is_byte, is_word. apply (bool_decide_unpack _). by vm_compute.
    + done.
    + apply reverse_Permutation.
    + by vm_compute.
  - apply Nat.leb_le. by vm_compute.
  - exists pfs'. split; [exact Hopen|]. apply (Hget (mkPacked (text "objects.wld") 7 [text "first "; text "part"])). by left.
Defined.

(** A block that goes back by its own header is read again and again: opening
    this archive of one entry does not end. *)
Definition endless_archive : list Z :=
  le_bytes 4 20 ++ le_bytes 4 SIGNATURE ++ le_bytes 4 0 ++ le_bytes 4 (2 ^ 32 - 8) ++ le_bytes 4 0 ++
  le_bytes 4 1 ++ dir_entry (mkPfsEntry 9 12 0 1).

Lemma endless_scan fuel : scan_blocks fuel endless_archive 36 12 0 1 = Fault.
Proof. induction fuel as [|fuel IH]; [done|]. exact IH. Qed.

Lemma bind_fault {S A B} (m : code S A) (f : A → code S B) s s' : m s = (Fault, s') → (m ≫= f) s = (Fault, s').
Proof. intros H. unfold mbind, code_bind. by rewrite H. Qed.

Theorem endless_archive_hangs uncompress memory fuel path pfs : fst (pfs_open uncompress memory fuel path (Some endless_archive) pfs) = Fault.
Proof.
  assert (Hdir : read_directory fuel endless_archive 36 1 24 (pfs_init path endless_archive) = (Fault, pfs_init path endless_archive)).
  { cbn [read_directory]. change (36 <? u32 (24 + SIZEOF_Pfs_DirEntry)) with false. cbn iota.
    rewrite (bind_lift _ _ 9), (bind_lift _ _ 12), (bind_lift _ _ 1) by done. change (36 <? 12) with false. cbn iota.
    apply bind_fault. unfold lift. by rewrite endless_scan. }
  unfold pfs_open. rewrite (bind_lift _ _ endless_archive), bind_modify by done.
  replace (Z.of_nat (length endless_archive)) with 36 by done. change (36 <? SIZEOF_Pfs_Header) with false. cbn iota.
  rewrite (bind_lift _ _ SIGNATURE) by done. change (negb (SIGNATURE =? SIGNATURE)) with false. cbn iota.
  rewrite (bind_lift _ _ 20), (bind_lift _ _ 1) by done. change (u32 (20 + 4)) with 24. change (Z.to_nat 1) with 1%nat.
  by rewrite (bind_fault _ _ _ _ Hdir).
Qed.
